(* ===== verification/_CoqProject ===== *)
-Q . S2P
Prelude.v
Base64.v
Hashes.v
Permissions.v
Auth.v
AuthFacts.v
AuditSink.v
AuditLog.v
AuditFacts.v
Retention.v
PasswordPolicy.v
Csrf.v
RateLimiter.v
Anomaly.v
Encryption.v
Pki.v
PkiFacts.v
Pem.v
SmartParser.v
ChainBuilder.v
ChainFacts.v
SmartImport.v
SmartImportFacts.v
LocalDomains.v
Acme.v
AcmeFacts.v
AcmeApi.v
AcmeApiFacts.v
Login.v
LoginFacts.v
Policies.v
Users.v
Groups.v
UsersTables.v
UsersFacts.v
ApiKeys.v
CertLogin.v
CertEnroll.v
CertLoginFacts.v
Scheduler.v
SchedulerFacts.v
Scep.v
ScepFacts.v
CertModel.v
Compliance.v
CertListing.v
ComplianceFacts.v
IpAddress.v
CaModel.v
CertRoutes.v
CertActions.v
CertExport.v
CertImport.v
CertRoutesFacts.v
ManageFacts.v
SsoProviders.v
SsoLogin.v
SsoFacts.v
SsoRisks.v
Ocsp.v
CaRoutes.v
CaStore.v
CsrRoutes.v
CaFlow.v
CaRouteFacts.v
JsonText.v
Orm.v
Backup.v
BackupFacts.v
Templates.v
TemplatesFacts.v
UserCerts.v
Crl.v
Est.v
Tasks.v
Updates.v
Repair.v
Webhooks.v
WebAuthn.v
AcmeProxy.v
