(* ===== verification/Prelude.v ===== *)
(** Verification of UCM, a certificate authority manager in Python ([src/backend]).

    THE PROGRAM.  A Flask application over a SQL database.  Accounts log in with
    passwords, second factors, security keys, client certificates or identity providers
    and call routes behind [require_auth]; CAs and certificates are made, imported,
    revoked, renewed, exported and deleted; CRLs and OCSP answers tell who is revoked;
    machines enrol over ACME, SCEP and EST; tasks run in the background; everything can be
    backed up; every action is reported to a hash-chained audit trail.  The development
    models these parts as pure functions over explicit state: a table is the list of its
    rows, a route takes its request, the clock and the random values it draws, and returns
    the new state, the trail and the reply.  Exceptions are [option] or sum values, or a
    reply [Raised] when nothing catches them.  Operations carry the names of the Python
    functions, without leading underscores.

    CONVENTIONS.  A time is a number of microseconds since the epoch ([Time]).  Text is
    [String.string], restricted to ASCII where case matters ([Str], [Num]).  A JSON value is
    [json] (no floating-point numbers); a JSON column holds the value it encodes, or its
    text ([JsonText]) where the code depends on it.  A column of base64 text holds that
    text, but in Encryption and Pki, where it is represented by the bytes it decodes to
    ([CertActions.pki_view] goes from one to the other).  One call runs at one moment unless
    a definition takes several clocks.  Random tokens are arguments or the values of a
    function at successive draws.  A query without ORDER BY sees the rows in list order and
    theorems hold for every order.  Where the code asks a class for an attribute it does
    not have, the look-up is an argument and [getattr] gives it from the list of the
    attributes the class has.

    FILES, by subject ([_CoqProject] has the order in which they are compiled).  A file
    named after another with Facts (Run, Tables, Risks, Flow) holds its theorems; where
    there is none they are at its end.
    - Foundations.  Prelude: notations, text, numbers, JSON, tables, time.  Base64.
      Hashes: the interface of SHA-256 and HMAC, with an executable instance.
    - Accounts.  Permissions ([auth/permissions.py]), Auth ([auth/unified.py]): roles, API
      keys, sessions, [require_auth].  PasswordPolicy, Csrf, RateLimiter, Anomaly,
      Encryption ([security/*.py]).  Login ([api/v2/auth.py], [auth_methods.py],
      [account.py]): password login, lockout, second factor, reset.  Users, Groups
      ([api/v2/users.py], [groups.py], [rbac.py]).  ApiKeys ([api/v2/account.py]).
      CertLogin, CertEnroll ([middleware/mtls_middleware.py], [services/mtls_auth_service.py],
      [api/v2/mtls.py]): client certificates.  SsoProviders, SsoLogin ([api/v2/sso.py]):
      LDAP, OAuth2, SAML; SsoRisks, what they let through.  WebAuthn
      ([services/webauthn_service.py]): security keys.  Policies ([api/v2/policies.py]).
    - Audit.  AuditSink: the interface between the components that report actions and the
      trail.  AuditLog ([services/audit_service.py]): the hash chain, which implements it.
      Retention ([services/retention_service.py]).
    - Certificates.  Pki ([services/trust_store.py], [cert_service.py], [crl_service.py]):
      signing, revoking, base and delta CRLs, over the interface [X509].  CertModel, CaModel
      ([models/__init__.py]): the rows and their properties.  Compliance, CertListing
      ([services/compliance_service.py], [api/v2/certificates.py]): scores, listing.
      IpAddress ([ipaddress], [utils/dn_validation.py]).  CertRoutes, CertActions, CertExport,
      CertImport ([api/v2/certificates.py], [services/import_service.py]) with
      CertRoutesFacts and ManageFacts.  CaRoutes, CaStore ([api/v2/cas.py],
      [services/ca_service.py]), CsrRoutes ([api/v2/csrs.py]); CaFlow and CaRouteFacts: all
      these routes together.  UserCerts ([api/v2/user_certificates.py]).  Templates
      ([api/v2/templates.py]).  Repair ([services/ski_aki_backfill.py]).
    - Status.  Ocsp ([services/ocsp_service.py], [api/ocsp_routes.py]).  Crl ([api/v2/crl.py],
      [api/cdp_routes.py], [services/crl_scheduler_task.py]).
    - Import of bundles.  Pem, SmartParser, ChainBuilder with ChainFacts, SmartImport
      ([services/smart_import/*.py], [api/v2/smart_import.py]).
    - Enrolment.  LocalDomains ([api/v2/acme_local_domains.py], [acme_domains.py]), Acme
      ([services/acme/acme_service.py]) and AcmeApi ([api/acme/acme_api.py]); AcmeProxy
      ([services/acme/acme_proxy_service.py], [api/acme/acme_proxy_api.py]); Scep
      ([services/scep_service.py], [api/scep_protocol.py]); Est ([api/est_protocol.py]).
    - Operation.  Scheduler ([services/scheduler_service.py]), Tasks
      ([services/expiry_alert_service.py], [auto_renewal_service.py]), Updates
      ([services/updates.py]), Webhooks ([services/webhook_service.py]).  JsonText
      ([json.dumps] and [json.loads]), Orm (rows that are only copied) and Backup
      ([services/backup_service.py]).

    HOW THE PARTS MEET.  Components that report actions take a trail of any type with an
    [AuditSink]; the trail of AuditLog is one instance, the plain list of actions another.
    Acme signs through [Pki.sign_csr] and finds its CA through LocalDomains.  Login uses the
    password policy, the CSRF tokens and the anomaly detector; WebAuthn shares its accounts,
    session and lockout; SsoLogin opens the sessions of Login, which
    [SsoLoginFacts.auth_view] shows to [Auth.verify_session].  AcmeProxy checks its requests
    with [AcmeApi.verify_jws] and the nonces of Acme.  [CertRoutes.db], the tables of CAs,
    certificates, approvals and CRLs, is shared by CertActions,
    CertExport, CertImport, CaRoutes, CaStore, CsrRoutes, Ocsp (with its cache), UserCerts
    (with the enrolments of CertLogin), Crl, Repair, Est and Backup (with the rows of Orm).
    CaFlow joins the routes that write CAs and certificates in one step relation and keeps
    the CAs a forest; [Repair.repair_closes_circles] shows the task that breaks it.  The
    revocations of CertActions and the renewals of Crl write CRLs through Pki.  Templates
    and Backup share the descriptions of columns.

    WHAT THE THEOREMS SHOW.  The claims C1 to C40 are numbered in the order of the manifest;
    the other theorems are of the same kinds.
    - Safety and invariants: who may do what (permissions, lockout, second factor,
      security keys, client certificates, identity providers, own certificates only,
      private keys in exports), certificates only for controlled domains and validated
      requests, single-use nonces, tables that stay consistent and linked under every
      sequence of requests, CRL numbers that go up while the CA stays, system templates that
      stay.
    - Refinement and equivalence: the ACME endpoints are steps of the service; the batched
      scores are one pass over the table; listings agree with the routes of single rows.
    - Functional statements and round trips: issuing, revoking and the CRL that lists it;
      backups and templates through their files; alerts, updates, webhooks; key encryption,
      reset links, password policy.
    - Termination and liveness: chain building, exports, names of copies; the scheduler runs
      every enabled task again and again.
    - Errors: consequences of the code its documentation does not suggest, such as OCSP
      answers that tell nothing, CRLs that are never renewed, restores that forget
      revocations, a repair that merges CAs by an identifier anybody can choose, a proxy
      that finishes no order.  The
      manifest's findings point to the lines.

    BOUNDS AND FUEL.  Loops of the code are structural but for these.  Walks up the issuers
    ([AcmeApi.ca_chain], [CertExport.ca_walk], [UserCerts.ca_line]) get one more than the
    number of CAs, which is enough where the walk ends ([served_chain_terminates],
    [exports_come_to_an_end], [user_exports_end]); [Scep.chain] either ends or runs in a
    circle ([ca_chain_ends_or_circles]).  [Templates.free_name] gets one more than the
    templates ([copies_find_a_name]), the batches of CertListing the length of the table
    ([score_route_is_one_pass]), [JsonText] the length of the text ([loads_dumps] reads
    back every value with distinct keys).

    ASSUMPTIONS.  Third-party code is an interface or an argument: cryptography, josepy,
    CMS and asn1 ([Pki.X509], [AcmeApi.Jose], [Scep.Cms], [Ocsp.Responder],
    [SmartParser.Loader]), Fernet, the ciphers of backups, werkzeug and pyotp
    ([Login.Secrets]), webauthn ([WebAuthn.Authenticators]), directories, SAML and XML
    libraries, the network, the ORM's refusal of limited deletes.  Injectivity of the
    random tokens is a hypothesis of the ACME theorems; collisions of SHA-256 are never
    excluded but exhibited.  Every theorem with a hypothesis that is a claim has an
    instance at a concrete input.

    NOT MODELLED.  Clients of other servers (external ACME servers but for the proxy, DNS
    providers, network discovery, Microsoft CAs), drivers (HSMs), drawing and layout
    (reports, mails, web pages, web sockets), conversion of another product's
    configuration, SQL migrations, and the wiring of the framework.  The loop of the
    automatic renewal is not modelled either: the query before it raises.  Listings and
    settings that only read or store a value are left out of some components; the manifest
    says where. *)
From stdpp Require Export prelude strings gmap list.
From Stdlib Require Export ZArith Lia Ascii Sorted.
From Stdlib Require HexadecimalString.
From Stdlib Require Import DecimalString DecimalZ DecimalPos.

(** * Notations *)

Declare Scope ucm_scope.
Delimit Scope ucm_scope with ucm.

(** Python's [x in "..."] on text, and string formatting by concatenation. *)
Infix "^+" := String.append (at level 60, right associativity) : ucm_scope.
Open Scope ucm_scope.
#[global] Arguments String.append : simpl nomatch.

(** * Python text

    A Python [str] is a [String.string].  The development restricts text to
    ASCII: [lower], [\d] and [str.isdigit] on other code points are outside it. *)
Module Str.

Definition code (c : ascii) : N := N_of_ascii c.

(** The regex classes [A-Z], [a-z] and [\d]. *)
Definition is_upper (c : ascii) : bool := ((65 <=? code c) && (code c <=? 90))%N.
Definition is_lower (c : ascii) : bool := ((97 <=? code c) && (code c <=? 122))%N.
Definition is_digit (c : ascii) : bool := ((48 <=? code c) && (code c <=? 57))%N.

(** ASCII white space as [str.strip] removes it: TAB, LF, VT, FF, CR, the four
    separators 28-31 and SPACE. *)
Definition is_space (c : ascii) : bool :=
  (((9 <=? code c) && (code c <=? 13)) || ((28 <=? code c) && (code c <=? 32)))%N.

Definition lower1 (c : ascii) : ascii :=
  if is_upper c then ascii_of_N (code c + 32) else c.

Definition upper1 (c : ascii) : ascii :=
  if is_lower c then ascii_of_N (code c - 32) else c.

Fixpoint map (f : ascii -> ascii) (s : string) : string :=
  match s with
  | EmptyString => EmptyString
  | String c s' => String (f c) (map f s')
  end.

(** [str.lower] and [str.upper]. *)
Definition lower : string -> string := map lower1.
Definition upper : string -> string := map upper1.

(** [s.title()]: a letter after a letter is lowered, any other letter raised. *)
Fixpoint title_from (after_letter : bool) (s : string) : string :=
  match s with
  | EmptyString => EmptyString
  | String c s' =>
      let letter := is_upper c || is_lower c in
      String (if after_letter then lower1 c else upper1 c) (title_from letter s')
  end.
Definition title : string -> string := title_from false.

(** [any(p(c) for c in s)]: [re.search] of a character class. *)
Fixpoint exists_char (p : ascii -> bool) (s : string) : bool :=
  match s with
  | EmptyString => false
  | String c s' => p c || exists_char p s'
  end.

Definition forall_char (p : ascii -> bool) (s : string) : bool :=
  negb (exists_char (fun c => negb (p c)) s).

(** [c in s] for a single character. *)
Definition has_char (c : ascii) (s : string) : bool := exists_char (Ascii.eqb c) s.

(** [s.startswith(p)]. *)
Definition startswith (s p : string) : bool := String.prefix p s.

(** [sub in s] for text. *)
Fixpoint contains (sub s : string) : bool :=
  String.prefix sub s ||
  match s with
  | EmptyString => false
  | String _ s' => contains sub s'
  end.

(** [s[n:]] and [s[:n]] for a non-negative [n]. *)
Fixpoint drop (n : nat) (s : string) : string :=
  match n, s with
  | 0, _ => s
  | S n', String _ s' => drop n' s'
  | S _, EmptyString => EmptyString
  end.

Fixpoint take (n : nat) (s : string) : string :=
  match n, s with
  | S n', String c s' => String c (take n' s')
  | _, _ => EmptyString
  end.

Fixpoint rev_app (s acc : string) : string :=
  match s with
  | EmptyString => acc
  | String c s' => rev_app s' (String c acc)
  end.

(** [s[::-1]]. *)
Definition rev (s : string) : string := rev_app s EmptyString.

Fixpoint lstrip (s : string) : string :=
  match s with
  | String c s' => if is_space c then lstrip s' else s
  | EmptyString => EmptyString
  end.

(** [s.strip()]. *)
Definition strip (s : string) : string := rev (lstrip (rev (lstrip s))).

(** [s.split(c)] for a one-character separator: never the empty list. *)
Fixpoint split (c : ascii) (s : string) : list string :=
  match s with
  | EmptyString => [EmptyString]
  | String a s' =>
      if Ascii.eqb a c then EmptyString :: split c s'
      else match split c s' with
           | w :: ws => String a w :: ws
           | [] => [String a EmptyString]
           end
  end.

(** [sep.join(l)]. *)
Fixpoint join (sep : string) (l : list string) : string :=
  match l with
  | [] => EmptyString
  | [w] => w
  | w :: ws => w ^+ sep ^+ join sep ws
  end.

(** [s.replace(old, new)] for a non-empty [old]: left-most occurrences, no
    overlap; the fuel is the length of the text. *)
Fixpoint replace_fuel (fuel : nat) (old new s : string) : string :=
  match fuel with
  | 0 => s
  | S fuel' =>
      if String.prefix old s then new ^+ replace_fuel fuel' old new (drop (String.length old) s)
      else match s with
           | EmptyString => EmptyString
           | String c s' => String c (replace_fuel fuel' old new s')
           end
  end.
Definition replace (old new s : string) : string :=
  replace_fuel (String.length s) old new s.

(** Python's truth value of a text. *)
Definition truthy (s : string) : bool :=
  match s with EmptyString => false | _ => true end.

Definition between (n a b : N) : bool := ((a <=? n) && (n <=? b))%N.
(** Strict UTF-8: [need] continuation bytes are due, the next one between [lo] and [hi]. *)
Fixpoint utf8_valid (need : nat) (lo hi : N) (s : string) : bool :=
  match s with
  | EmptyString => (need =? 0)%nat
  | String c s' =>
      let n := code c in
      match need with
      | S k => between n lo hi && utf8_valid k 128%N 191%N s'
      | 0 =>
          if (n <? 128)%N then utf8_valid 0 0%N 0%N s'
          else if between n 194 223 then utf8_valid 1 128%N 191%N s'
          else if (n =? 224)%N then utf8_valid 2 160%N 191%N s'
          else if (n =? 237)%N then utf8_valid 2 128%N 159%N s'
          else if between n 225 239 then utf8_valid 2 128%N 191%N s'
          else if (n =? 240)%N then utf8_valid 3 144%N 191%N s'
          else if between n 241 243 then utf8_valid 3 128%N 191%N s'
          else if (n =? 244)%N then utf8_valid 3 128%N 143%N s'
          else false
      end
  end.

End Str.

(** * Python integers read from and written to text *)
Module Num.

(** The value of one digit, [None] when it is not a digit of the base. *)
Definition digit_val (base : Z) (c : ascii) : option Z :=
  let v := if Str.is_digit c then (Z.of_N (Str.code c) - 48)%Z
           else if Str.is_lower (Str.lower1 c) then (Z.of_N (Str.code (Str.lower1 c)) - 87)%Z
           else 36%Z in
  if (v <? base)%Z then Some v else None.

(** Digits with single underscores between them; [prev] says that the
    character before was a digit. *)
Fixpoint digits (base acc : Z) (prev : bool) (s : string) : option Z :=
  match s with
  | EmptyString => if prev then Some acc else None
  | String c s' =>
      if Ascii.eqb c "_" then (if prev then digits base acc false s' else None)
      else match digit_val base c with
           | Some v => digits base (acc * base + v)%Z true s'
           | None => None
           end
  end.

(** The optional [0x] prefix of base 16, after which one underscore may stand. *)
Definition magnitude (base : Z) (s : string) : option Z :=
  if ((base =? 16)%Z && (Str.startswith s "0x" || Str.startswith s "0X"))%bool then
    match Str.drop 2 s with
    | EmptyString => None
    | r => digits base 0 true r
    end
  else digits base 0 false s.

(** [int(s, base)]; [None] stands for ValueError. *)
Definition parse (base : Z) (s : string) : option Z :=
  let t := Str.strip s in
  match t with
  | String c r =>
      if Ascii.eqb c "-" then Z.opp <$> magnitude base r
      else if Ascii.eqb c "+" then magnitude base r
      else magnitude base t
  | EmptyString => None
  end.

(** [int(s)]. *)
Definition py_int : string -> option Z := parse 10.

(** [str(z)]. *)
Definition str (z : Z) : string := NilZero.string_of_int (Z.to_int z).

(** [format(z, 'x')]. *)
Definition hex (z : Z) : string := HexadecimalString.NilZero.string_of_int (Z.to_hex_int z).

End Num.

(** * JSON values, as [json.loads] builds them (floats excepted) *)
#[warnings="-register-all"]
Inductive json : Type :=
| JNull
| JBool (b : bool)
| JInt (z : Z)
| JStr (s : string)
| JList (l : list json)
| JDict (kv : list (string * json)).

Module Json.

(** Structural recursion through the nested lists. *)
Section Ind.
Context (P : json -> Prop).
Context (Hnull : P JNull) (Hbool : forall b, P (JBool b)) (Hint : forall z, P (JInt z))
  (Hstr : forall s, P (JStr s)) (Hlist : forall l, Forall P l -> P (JList l))
  (Hdict : forall kv, Forall (fun p => P p.2) kv -> P (JDict kv)).
Fixpoint json_rec' (j : json) : P j :=
  match j with
  | JNull => Hnull
  | JBool b => Hbool b
  | JInt z => Hint z
  | JStr s => Hstr s
  | JList l => Hlist l ((fix go (l : list json) : Forall P l :=
      match l with
      | [] => Forall_nil_2 _
      | x :: xs => Forall_cons_2 _ x xs (json_rec' x) (go xs)
      end) l)
  | JDict kv => Hdict kv ((fix go (kv : list (string * json)) : Forall (fun p => P p.2) kv :=
      match kv with
      | [] => Forall_nil_2 _
      | x :: xs => Forall_cons_2 (fun p => P p.2) x xs (json_rec' x.2) (go xs)
      end) kv)
  end.
End Ind.

Fixpoint eqb (a b : json) : bool :=
  match a, b with
  | JNull, JNull => true
  | JBool x, JBool y => Bool.eqb x y
  | JInt x, JInt y => Z.eqb x y
  | JStr x, JStr y => String.eqb x y
  | JList x, JList y =>
      (fix go (x y : list json) : bool :=
         match x, y with
         | [], [] => true
         | a :: x, b :: y => eqb a b && go x y
         | _, _ => false
         end) x y
  | JDict x, JDict y =>
      (fix go (x y : list (string * json)) : bool :=
         match x, y with
         | [], [] => true
         | a :: x, b :: y => (String.eqb a.1 b.1 && eqb a.2 b.2) && go x y
         | _, _ => false
         end) x y
  | _, _ => false
  end.

Lemma eqb_eq a b : eqb a b = true <-> a = b.
Proof.
  revert b. induction a as [|x|x|x|l IH|kv IH] using json_rec'; intros [|y|y|y|l'|kv'];
    simpl; try (split; congruence).
  - rewrite Bool.eqb_true_iff. split; congruence.
  - rewrite Z.eqb_eq. split; congruence.
  - rewrite String.eqb_eq. split; congruence.
  - revert l'. induction IH as [|x l Hx Hl IHl]; intros [|y l']; try (split; congruence).
    rewrite andb_true_iff, Hx, IHl. split; [intros [-> [= ->]]; done|intros [= -> ->]; done].
  - revert kv'. induction IH as [|[k x] l Hx Hl IHl]; intros [|[k' y] l']; simpl;
      try (split; congruence).
    simpl in Hx. rewrite !andb_true_iff, String.eqb_eq, Hx, IHl.
    split; [intros [[-> ->] [= ->]]; done|intros [= -> -> ->]; done].
Qed.

#[global] Instance json_eq_dec : EqDecision json.
Proof.
  intros a b. destruct (eqb a b) eqn:E.
  - left. by apply eqb_eq.
  - right. intros H. apply eqb_eq in H. congruence.
Defined.

(** The text of one character inside a JSON string (ensure_ascii). *)
Definition hex1 (n : N) : ascii := if (n <? 10)%N then ascii_of_N (48 + n) else ascii_of_N (87 + n).
Definition quote : ascii := ascii_of_N 34.
Definition backslash : ascii := ascii_of_N 92.
Definition escape1 (c : ascii) (tail : string) : string :=
  let esc d := String backslash (String d tail) in
  let n := Str.code c in
  if (n =? 34)%N then esc quote
  else if (n =? 92)%N then esc backslash
  else if (n =? 10)%N then esc "n"%char
  else if (n =? 13)%N then esc "r"%char
  else if (n =? 9)%N then esc "t"%char
  else if (n =? 8)%N then esc "b"%char
  else if (n =? 12)%N then esc "f"%char
  else if ((32 <=? n) && (n <=? 126))%N then String c tail
  else String backslash (String "u" (String "0" (String "0"
         (String (hex1 (n / 16)) (String (hex1 (n mod 16)) tail))))).
Fixpoint escape (s : string) : string :=
  match s with
  | EmptyString => EmptyString
  | String c s' => escape1 c (escape s')
  end.
Definition quoted (s : string) : string :=
  String quote (escape s ^+ String quote EmptyString).

(** [json.dumps] with its default separators. *)
Fixpoint dumps (j : json) : string :=
  match j with
  | JNull => "null"
  | JBool true => "true"
  | JBool false => "false"
  | JInt z => Num.str z
  | JStr s => quoted s
  | JList l =>
      let fix go (l : list json) : string :=
        match l with
        | [] => EmptyString
        | [x] => dumps x
        | x :: xs => dumps x ^+ ", " ^+ go xs
        end in
      "[" ^+ go l ^+ "]"
  | JDict kv =>
      let fix go (kv : list (string * json)) : string :=
        match kv with
        | [] => EmptyString
        | [p] => quoted p.1 ^+ ": " ^+ dumps p.2
        | p :: ps => quoted p.1 ^+ ": " ^+ dumps p.2 ^+ ", " ^+ go ps
        end in
      "{" ^+ go kv ^+ "}"
  end.

(** [json.dumps(j, sort_keys=True, separators=(',', ':'))]: the texts of the
    members are sorted by key. *)
Fixpoint insert_key (p : string * string) (l : list (string * string)) : list (string * string) :=
  match l with
  | [] => [p]
  | q :: l' => if String.leb p.1 q.1 then p :: l else q :: insert_key p l'
  end.
Fixpoint compact (j : json) : string :=
  match j with
  | JNull => "null"
  | JBool true => "true"
  | JBool false => "false"
  | JInt z => Num.str z
  | JStr s => quoted s
  | JList l => "[" ^+ Str.join "," (List.map compact l) ^+ "]"
  | JDict kv =>
      "{" ^+ Str.join ","
        (List.map (fun p => quoted p.1 ^+ ":" ^+ p.2)
          (fold_right insert_key [] (List.map (fun p => (p.1, compact p.2)) kv))) ^+ "}"
  end.

(** Python's truth value. *)
Definition truthy (j : json) : bool :=
  match j with
  | JNull => false
  | JBool b => b
  | JInt z => negb (z =? 0)%Z
  | JStr s => Str.truthy s
  | JList l => match l with [] => false | _ => true end
  | JDict kv => match kv with [] => false | _ => true end
  end.

(** The value a dict holds under a key. *)
Fixpoint assoc {A} (k : string) (kv : list (string * A)) : option A :=
  match kv with
  | [] => None
  | (k', v) :: kv' => if String.eqb k k' then Some v else assoc k kv'
  end.

Definition get (k : string) (j : json) : option json :=
  match j with JDict kv => assoc k kv | _ => None end.

(** [d.get(k, default)] of a dict. *)
Definition get_or (k : string) (dflt j : json) : json := default dflt (get k j).

(** [k in d]. *)
Definition has (k : string) (j : json) : bool :=
  match get k j with Some _ => true | None => false end.

Definition is_dict (j : json) : bool :=
  match j with JDict _ => true | _ => false end.

(** [x in j] for a text [x]: membership of a list, substring of a text, key of a
    dict; [None] stands for the TypeError of every other value. *)
Definition contains (x : string) (j : json) : option bool :=
  match j with
  | JList l => Some (existsb (fun v => eqb v (JStr x)) l)
  | JStr t => Some (Str.contains x t)
  | JDict kv => Some (match assoc x kv with Some _ => true | None => false end)
  | _ => None
  end.

Definition strings (l : list string) : json := JList (List.map JStr l).

(** The values [for x in j] runs through: members, characters, keys; [None] is the
    TypeError of a value that is not iterable. *)
Definition elements (j : json) : option (list json) :=
  match j with
  | JList l => Some l
  | JStr t => Some (List.map (fun c => JStr (String c EmptyString)) (String.list_ascii_of_string t))
  | JDict kv => Some (List.map (fun p => JStr p.1) kv)
  | _ => None
  end.

(** [k in data], then [data[k]]: the outer [None] is a TypeError. *)
Definition field (k : string) (data : json) : option (option json) :=
  match data with
  | JDict kv => Some (assoc k kv)
  | _ => match contains k data with Some false => Some None | _ => None end
  end.

(** What a boolean column takes; [None] is the error of any other value.  NULL is stored
    for a null, which no condition tells from false. *)
Definition bool_column (j : json) : option bool :=
  match j with
  | JBool b => Some b
  | JNull => Some false
  | JInt z => if (z =? 0)%Z then Some false else if (z =? 1)%Z then Some true else None
  | _ => None
  end.

(** A text column compared with a value: SQLite compares a number by its text;
    [None] is the error of a list or dict. *)
Definition bind_text (j : json) : option string :=
  match j with
  | JStr s => Some s
  | JInt z => Some (Num.str z)
  | JBool b => Some (if b then "1" else "0")
  | _ => None
  end.

(** [a == b]: dicts are compared without regard to the order of their members, and
    a boolean equals the number it stands for. *)
Fixpoint py_eq (a b : json) : bool :=
  match a, b with
  | JNull, JNull => true
  | JBool x, JBool y => Bool.eqb x y
  | JBool x, JInt y => Z.eqb (Z.b2z x) y
  | JInt x, JBool y => Z.eqb x (Z.b2z y)
  | JInt x, JInt y => Z.eqb x y
  | JStr x, JStr y => String.eqb x y
  | JList x, JList y =>
      (fix go (x y : list json) : bool :=
         match x, y with
         | [], [] => true
         | a :: x, b :: y => py_eq a b && go x y
         | _, _ => false
         end) x y
  | JDict x, JDict y =>
      (length x =? length y)%nat &&
      (fix go (x : list (string * json)) : bool :=
         match x with
         | [] => true
         | a :: x => match assoc a.1 y with Some v => py_eq a.2 v | None => false end && go x
         end) x
  | _, _ => false
  end.

Example py_eq_order :
  py_eq (JDict [("a", JInt 1); ("b", JNull)]) (JDict [("b", JNull); ("a", JBool true)]) = true.
Proof. reflexivity. Qed.

Lemma contains_strings x l : contains x (strings l) = Some (existsb (String.eqb x) l).
Proof.
  simpl. f_equal. induction l as [|y l IH]; simpl; [done|]. by rewrite IH, String.eqb_sym.
Qed.

End Json.

(** [x.name] for the names a class holds: [None] is the AttributeError of any other. *)
Definition getattr {A} (name : string) (names : list string) (found : A) : option A :=
  if existsb (String.eqb name) names then Some found else None.

(** A text column that holds JSON: NULL or the empty text, a text that
    [json.loads] refuses, or a text that encodes a value.  [json.dumps] of a
    value is [JText] of it. *)
Inductive jcol : Type :=
| JCNull
| JCBad
| JText (j : json).

(** Renderings by hand: [json.dumps], [str.title] and [isoformat] on samples. *)
Example dumps_sample :
  Json.dumps (JDict [("type", JStr "dns"); ("n", JList [JInt 1; JNull])])
  = ("{" ^+ Json.quoted "type" ^+ ": " ^+ Json.quoted "dns" ^+ ", " ^+ Json.quoted "n" ^+ ": [1, null]}")%ucm.
Proof. vm_compute. reflexivity. Qed.
Example title_sample : Str.title "cert issued" = "Cert Issued".
Proof. reflexivity. Qed.

(** * Database tables

    A table is the list of its rows in the order the database scans them; a
    query without ORDER BY sees the rows in that order, and theorems hold for
    every order. *)
Module Table.
Section Table.
Context {A : Type}.
Implicit Types (p : A -> bool) (rows : list A).

(** [query.filter(p).first()] *)
Definition first p rows : option A := List.find p rows.

(** [query.filter(p).all()] *)
Definition all p rows : list A := List.filter p rows.

(** [query.filter(p).count()] *)
Definition count p rows : nat := length (all p rows).

(** [query.filter(p).update(...)]: the rows afterwards. *)
Definition update p (f : A -> A) rows : list A :=
List.map (fun r => if p r then f r else r) rows.

(** [query.filter(p).delete()]: the rows afterwards. *)
Definition delete p rows : list A := List.filter (fun r => negb (p r)) rows.

(** An update that leaves the searched column alone is seen in the row found. *)
Lemma first_update p q (f : A -> A) rows :
  (forall x, p (f x) = p x) ->
  first p (update q f rows) = (fun x => if q x then f x else x) <$> first p rows.
Proof.
  intros Hf. unfold first, update. induction rows as [|x rows IH]; [done|]. cbn [List.map List.find].
  destruct (q x) eqn:Eq; [rewrite Hf|]; destruct (p x); cbn; rewrite ?Eq; done.
Qed.

(** [query.order_by(key.desc()).first()]: the first row with the greatest key. *)
Fixpoint last_by (key : A -> Z) rows : option A :=
match rows with
| [] => None
| r :: rows' =>
    match last_by key rows' with
    | Some m => if (key m <=? key r)%Z then Some r else Some m
    | None => Some r
    end
end.

(** [query.order_by(key.asc()).all()]: a stable sort. *)
Fixpoint insert_by (key : A -> Z) (r : A) (rows : list A) : list A :=
  match rows with
  | [] => [r]
  | x :: rows' => if (key r <=? key x)%Z then r :: rows else x :: insert_by key r rows'
  end.
Fixpoint order_by (key : A -> Z) rows : list A :=
  match rows with
  | [] => []
  | r :: rows' => insert_by key r (order_by key rows')
  end.

Lemma insert_by_In key r rows x : In x (insert_by key r rows) <-> x = r \/ In x rows.
Proof.
  induction rows as [|y rows IH]; simpl; [naive_solver|].
  destruct (key r <=? key y)%Z; simpl; rewrite ?IH; naive_solver.
Qed.

Lemma order_by_In key rows x : In x (order_by key rows) <-> In x rows.
Proof.
  induction rows as [|y rows IH]; simpl; [done|]. rewrite insert_by_In, IH. naive_solver.
Qed.

Lemma order_by_Permutation key rows : Permutation rows (order_by key rows).
Proof.
  assert (forall r l, Permutation (r :: l) (insert_by key r l)) as Hins.
  { intros r l. induction l as [|y l IH]; simpl; [done|].
    destruct (key r <=? key y)%Z; [done|].
    etransitivity; [apply perm_swap|]. by constructor. }
  induction rows as [|r rows IH]; simpl; [done|].
  etransitivity; [by constructor|]. apply Hins.
Qed.

Lemma order_by_Forall key (P : A -> Prop) rows :
  List.Forall P (order_by key rows) <-> List.Forall P rows.
Proof. rewrite !List.Forall_forall. by setoid_rewrite order_by_In. Qed.

(** A row with a greater key than all others comes last. *)
Lemma order_by_snoc key rows r :
  (forall x, In x rows -> (key x < key r)%Z) ->
  order_by key (rows ++ [r]) = order_by key rows ++ [r].
Proof.
  assert (forall x l, (key x < key r)%Z -> insert_by key x (l ++ [r]) = insert_by key x l ++ [r])
    as Hins.
  { intros x l Hx. induction l as [|y l IH]; simpl.
    - destruct (Z.leb_spec (key x) (key r)); [done|lia].
    - destruct (key x <=? key y)%Z; [done|]. by rewrite IH. }
  induction rows as [|x rows IH]; simpl; intros Hr; [done|].
  rewrite IH by auto. apply Hins. auto.
Qed.

Lemma order_by_Sorted key rows : StronglySorted (fun a b => (key a <= key b)%Z) (order_by key rows).
Proof.
  assert (forall r l, StronglySorted (fun a b => (key a <= key b)%Z) l ->
    StronglySorted (fun a b => (key a <= key b)%Z) (insert_by key r l)) as Hins.
  { intros r l Hl. induction Hl as [|y l Hl IH Hy]; simpl; [by repeat constructor|].
    rewrite List.Forall_forall in Hy.
    destruct (Z.leb_spec (key r) (key y)).
    - constructor; [by constructor; [|apply List.Forall_forall]|].
      apply List.Forall_forall. intros z [<-|Hz]; [done|]. specialize (Hy _ Hz). lia.
    - constructor; [done|]. apply List.Forall_forall. intros z [->|Hz]%insert_by_In; [lia|].
      by apply Hy. }
  induction rows as [|r rows IH]; simpl; [constructor|]. by apply Hins.
Qed.

(** Rows already in key order are left alone. *)
Lemma order_by_id key rows :
  StronglySorted (fun a b => (key a <= key b)%Z) rows -> order_by key rows = rows.
Proof.
  induction 1 as [|r rows Hs IH Hr]; simpl; [done|]. rewrite IH.
  destruct rows as [|y rows]; simpl; [done|].
  rewrite List.Forall_forall in Hr. specialize (Hr y (or_introl eq_refl)).
  destruct (Z.leb_spec (key r) (key y)); [done|lia].
Qed.

(** Filtering and sorting commute. *)
Lemma insert_by_all key p r rows :
  StronglySorted (fun a b => (key a <= key b)%Z) rows ->
  all p (insert_by key r rows) = if p r then insert_by key r (all p rows) else all p rows.
Proof.
  unfold all. intros Hs. induction Hs as [|x rows Hs IH Hx]; simpl; [by destruct (p r)|].
  destruct (Z.leb_spec (key r) (key x)) as [Hle|Hgt]; simpl.
  - destruct (p r); [|done]. destruct (p x); simpl.
    { by destruct (Z.leb_spec (key r) (key x)); [|lia]. }
    rewrite List.Forall_forall in Hx. clear IH Hs.
    induction rows as [|y rows IH]; [done|]. simpl. destruct (p y); simpl.
    + specialize (Hx y (or_introl eq_refl)). by destruct (Z.leb_spec (key r) (key y)); [|lia].
    + apply IH. intros z Hz. apply Hx. by right.
  - rewrite IH. destruct (p r), (p x); try done. simpl.
    by destruct (Z.leb_spec (key r) (key x)); [lia|].
Qed.

Lemma order_by_all key p rows : order_by key (all p rows) = all p (order_by key rows).
Proof.
  induction rows as [|r rows IH]; [done|]. cbn [order_by].
  rewrite insert_by_all by apply order_by_Sorted. rewrite <-IH. unfold all. simpl.
  by destruct (p r).
Qed.

(** Filtering by a predicate that stays true once it is true keeps a suffix. *)
Lemma all_suffix p rows :
  StronglySorted (fun a b => p a = true -> p b = true) rows ->
  exists pre, rows = pre ++ all p rows /\ forall r, In r pre -> p r = false.
Proof.
  unfold all. induction 1 as [|r rows Hs (pre & E & Hp) Hr]; simpl; [by exists []|].
  destruct (p r) eqn:Er.
  - exists []. split; [|done]. simpl. f_equal. clear -Hr. rewrite List.Forall_forall in Hr.
    induction rows as [|x rows IH]; simpl; [done|].
    rewrite (Hr x (or_introl eq_refl)) by done. f_equal. apply IH. intros y Hy. apply Hr. by right.
  - exists (r :: pre). simpl. rewrite <-E. split; [done|]. intros x [->|Hx]; auto.
Qed.

Lemma first_Some p rows r : first p rows = Some r -> In r rows /\ p r = true.
Proof. apply List.find_some. Qed.

Lemma first_None p rows r : first p rows = None -> In r rows -> p r = false.
Proof. intros H. by apply List.find_none. Qed.

Lemma first_app p rows rows' :
first p (rows ++ rows') =
match first p rows with Some r => Some r | None => first p rows' end.
Proof. unfold first. induction rows as [|x l IH]; simpl; [done|]. by destruct (p x). Qed.

Lemma In_all p rows r : In r (all p rows) <-> In r rows /\ p r = true.
Proof. apply List.filter_In. Qed.

Lemma In_delete p rows r : In r (delete p rows) <-> In r rows /\ p r = false.
Proof. unfold delete. rewrite List.filter_In. by rewrite negb_true_iff. Qed.

Lemma In_update p f rows r :
In r (update p f rows) <->
exists r0, In r0 rows /\ r = if p r0 then f r0 else r0.
Proof. unfold update. rewrite in_map_iff. naive_solver. Qed.

Lemma update_length p f rows : length (update p f rows) = length rows.
Proof. apply List.length_map. Qed.

(** An [INTEGER PRIMARY KEY] column: one more than the largest. *)
Definition next_id (key : A -> Z) rows : Z := (1 + foldr (fun x m => Z.max (key x) m) 0 rows)%Z.
Lemma next_id_fresh key rows x : In x rows -> (key x < next_id key rows)%Z.
Proof.
  unfold next_id. induction rows as [|y l IH]; [done|]. cbn. intros [<-|Hin]; [lia|]. specialize (IH Hin). lia.
Qed.

(** Unique columns under insertions, updates and deletions. *)
Lemma NoDup_snoc rows x : NoDup rows -> x ∉ rows -> NoDup (rows ++ [x]).
Proof.
  intros Hl Hx. apply NoDup_app. split; [done|]. split; [|apply NoDup_singleton].
  intros y Hy ->%list_elem_of_singleton. done.
Qed.

Lemma map_update {B} (g : A -> B) p f rows :
  (forall x, In x rows -> p x = true -> g (f x) = g x) -> List.map g (update p f rows) = List.map g rows.
Proof.
  intros Hg. unfold update. rewrite List.map_map. apply map_ext_in. intros x Hx.
  destruct (p x) eqn:E; [by apply Hg|done].
Qed.

Lemma In_delete_weaken p rows r : In r (delete p rows) -> In r rows.
Proof. by intros [? _]%List.filter_In. Qed.

Lemma last_by_None key rows : last_by key rows = None <-> rows = [].
Proof.
split; [|by intros ->]. destruct rows as [|r rows]; [done|]. simpl.
destruct (last_by key rows) as [m|]; [|done]. by destruct (key m <=? key r)%Z.
Qed.

Lemma last_by_In key rows m : last_by key rows = Some m -> In m rows.
Proof.
revert m. induction rows as [|r rows IH]; intros m; [done|]. simpl.
destruct (last_by key rows) as [m'|]; [|naive_solver].
destruct (key m' <=? key r)%Z; naive_solver.
Qed.

Lemma last_by_max key rows m r :
last_by key rows = Some m -> In r rows -> (key r <= key m)%Z.
Proof.
revert m. induction rows as [|x rows IH]; intros m; [done|]. simpl.
destruct (last_by key rows) as [m'|] eqn:E.
- destruct (Z.leb_spec (key m') (key x)) as [Hle|Hgt]; intros [= <-] [->|Hin];
    try lia; specialize (IH _ eq_refl Hin); lia.
- apply last_by_None in E as ->. by intros [= <-] [->|[]].
Qed.

Lemma count_app p rows rows' : count p (rows ++ rows') = count p rows + count p rows'.
Proof. unfold count, all. by rewrite List.filter_app, length_app. Qed.

Lemma count_update_same p q (f : A -> A) rows :
  (forall x, In x rows -> q x = true -> p (f x) = p x) -> count p (update q f rows) = count p rows.
Proof.
  unfold count, all, update. induction rows as [|x rows IH]; [done|]. intros Hq. cbn.
  destruct (q x) eqn:E; [rewrite Hq by (try done; by left)|]; destruct (p x); cbn; rewrite IH; try done; intros y Hy; apply Hq; by right.
Qed.

End Table.

Lemma NoDup_map_snoc {A B} (g : A -> B) l x :
  NoDup (List.map g l) -> (forall y, In y l -> g y <> g x) -> NoDup (List.map g (l ++ [x])).
Proof.
  intros Hl Hx. rewrite List.map_app. apply NoDup_snoc; [done|].
  intros (y & E & Hy)%list_elem_of_In%in_map_iff. by apply (Hx y).
Qed.

Lemma omap_update {A B} (g : A -> option B) p f (l : list A) :
  (forall x, In x l -> p x = true -> g (f x) = g x) -> omap g (update p f l) = omap g l.
Proof.
  unfold update. induction l as [|x l IH]; [done|]. intros Hg. cbn.
  assert (g (if p x then f x else x) = g x) as -> by (destruct (p x) eqn:E; [apply Hg; [by left|done]|done]).
  rewrite IH; [done|]. intros y Hy. apply Hg. by right.
Qed.

(** The pigeonhole principle for a sequence of members of a list. *)
Lemma repeats {A} `{EqDecision A} (g : nat -> A) (l : list A) :
  (forall i, i <= length l -> In (g i) l) -> exists i j, i < j <= length l /\ g i = g j.
Proof.
  intros Hg. set (f i := default 0 (fst <$> list_find (fun x => x = g i) l)).
  assert (forall i, i <= length l -> l !! f i = Some (g i)) as Hf.
  { intros i Hi. unfold f. destruct (list_find_elem_of (fun x => x = g i) l (g i)) as [[k x] E];
      [by apply list_elem_of_In, Hg|done|]. rewrite E. cbn. by apply list_find_Some in E as (Hk & -> & _). }
  destruct (stdpp.finite.nat_pigeonhole f (S (length l)) (length l)) as (i & j & Hij & E); [lia| |].
  - intros i Hi. eapply lookup_lt_Some, Hf. lia.
  - exists i, j. split; [lia|]. pose proof (Hf i) as Hi. pose proof (Hf j) as Hj. rewrite E in Hi.
    rewrite Hi in Hj by lia. specialize (Hj ltac:(lia)). congruence.
Qed.

Lemma NoDup_omap_snoc {A B} (g : A -> option B) (l : list A) x :
  NoDup (omap g l) -> (forall y b, In y l -> g y = Some b -> g x <> Some b) -> NoDup (omap g (l ++ [x])).
Proof.
  intros Hl Hx. rewrite omap_app. cbn. destruct (g x) as [b|] eqn:E; [|by rewrite app_nil_r].
  apply NoDup_snoc; [done|]. intros (y & Hy & Ey)%list_elem_of_omap.
  by apply (Hx y b); [apply list_elem_of_In| |].
Qed.

Lemma NoDup_map_delete {A B} (g : A -> B) p l : NoDup (List.map g l) -> NoDup (List.map g (delete p l)).
Proof.
  unfold delete. induction l as [|x l IH]; [done|]. cbn [List.map List.filter].
  intros [Hx Hl]%NoDup_cons. destruct (negb (p x)); [|by apply IH]. cbn [List.map]. constructor; [|by apply IH].
  intros (y & E & Hy)%list_elem_of_In%in_map_iff. apply Hx, list_elem_of_In, in_map_iff. exists y.
  split; [done|]. by apply List.filter_In in Hy as [? _].
Qed.

(** Rows with the same value of a unique column are the same. *)
Lemma NoDup_map_eq {A B} (g : A -> B) l x y :
  NoDup (List.map g l) -> In x l -> In y l -> g x = g y -> x = y.
Proof.
  induction l as [|z l IH]; [done|]. intros [Hz Hl]%NoDup_cons Hx Hy E.
  destruct Hx as [<-|Hx], Hy as [<-|Hy]; [done| | |by apply IH]; destruct Hz; apply list_elem_of_In, in_map_iff.
  - by exists y.
  - by exists x.
Qed.

(** Rewriting one row keeps a column unique when no other row has the new value. *)
Lemma NoDup_map_update {A B} (g : A -> B) p f l :
  NoDup (List.map g l) ->
  (forall x y, In x l -> In y l -> p x = true -> g (f x) = g y -> g x = g y) ->
  (forall x y, In x l -> In y l -> p x = true -> p y = true -> g x = g y) ->
  NoDup (List.map g (update p f l)).
Proof.
  unfold update. induction l as [|x l IH]; [done|]. cbn [List.map]. intros [Hx Hl]%NoDup_cons Hf Hp.
  assert (NoDup (List.map g (List.map (fun r => if p r then f r else r) l))) as Hn by (apply IH; [done| |];
    [intros a b Ha Hb; apply Hf; by right|intros a b Ha Hb; apply Hp; by right]).
  constructor; [|done]. intros (z & E & (y & Ey & Hy)%in_map_iff)%list_elem_of_In%in_map_iff.
  assert (g x <> g y) as Hxy by (intros E'; apply Hx, list_elem_of_In, in_map_iff; by exists y).
  apply Hxy. destruct (p x) eqn:Px, (p y) eqn:Py; subst z.
  - apply Hp; [by left|by right|done|done].
  - apply Hf; [by left|by right|done|by rewrite E].
  - symmetry. apply Hf; [by right|by left|done|by rewrite E].
  - by rewrite E.
Qed.
End Table.

(** * Time

    A naive UTC [datetime] is the integer number of microseconds since the epoch;
    a [timedelta] is a number of microseconds. *)
Module Time.
Local Open Scope Z_scope.
Definition second : Z := 1000000.
Definition minutes (n : Z) : Z := n * 60 * second.
Definition hours (n : Z) : Z := n * 3600 * second.
Definition days (n : Z) : Z := n * 86400 * second.

(** [timedelta.days]: floor division. *)
Definition delta_days (d : Z) : Z := d / days 1.

(** The civil date of a day number since the epoch (proleptic Gregorian). *)
Definition civil (day : Z) : Z * Z * Z :=
  let z := day + 719468 in
  let era := z / 146097 in
  let doe := z mod 146097 in
  let yoe := (doe - doe / 1460 + doe / 36524 - doe / 146096) / 365 in
  let doy := doe - (365 * yoe + yoe / 4 - yoe / 100) in
  let mp := (5 * doy + 2) / 153 in
  let d := doy - (153 * mp + 2) / 5 + 1 in
  let m := if mp <? 10 then mp + 3 else mp - 9 in
  (yoe + era * 400 + (if m <=? 2 then 1 else 0), m, d).

(** A number in at least [w] digits, padded with zeros. *)
Fixpoint zeros (n : nat) : string :=
  match n with O => EmptyString | S n' => String "0" (zeros n') end.
Definition padded (w : nat) (v : Z) : string :=
  let s := Num.str v in (zeros (w - String.length s) ^+ s)%ucm.

(** [t.isoformat(sep)]; [str(t)] is [isoformat] with a blank between date and time. *)
Definition isoformat (sep : string) (t : Z) : string :=
  let '(y, m, d) := civil (t / days 1) in
  let us := t mod days 1 in
  let s := us / second in
  let f := us mod second in
  (padded 4 y ^+ "-" ^+ padded 2 m ^+ "-" ^+ padded 2 d ^+ sep ^+
   padded 2 (s / 3600) ^+ ":" ^+ padded 2 (s / 60 mod 60) ^+ ":" ^+ padded 2 (s mod 60) ^+
   (if f =? 0 then EmptyString else "." ^+ padded 6 f))%ucm.
Definition str : Z -> string := isoformat " ".
End Time.

Example isoformat_sample : Time.str 1735689600000001 = "2025-01-01 00:00:00.000001".
Proof. vm_compute. reflexivity. Qed.

(** * Lemmas on text *)
Module StrFacts.
Import Str.

Lemma app_nil_r s : s ^+ "" = s.
Proof. induction s; simpl; congruence. Qed.

Lemma app_assoc s t u : (s ^+ t) ^+ u = s ^+ t ^+ u.
Proof. induction s; simpl; congruence. Qed.

Lemma app_length s t : String.length (s ^+ t) = String.length s + String.length t.
Proof. induction s; simpl; congruence. Qed.

Lemma app_inj_length a b c d :
  String.length a = String.length c -> a ^+ b = c ^+ d -> a = c /\ b = d.
Proof.
  revert c. induction a as [|x a IH]; intros [|y c]; simpl; try done.
  intros [= H] [= <- E]. destruct (IH _ H E) as [-> ->]. done.
Qed.

Lemma prefix_spec p s : String.prefix p s = true <-> exists r, s = p ^+ r.
Proof.
  revert s. induction p as [|c p IH]; intros [|d s]; simpl; try naive_solver.
  destruct (ascii_dec c d) as [->|Hne]; rewrite ?IH; naive_solver.
Qed.

Lemma contains_spec sub s :
  contains sub s = true <-> exists a b, s = a ^+ sub ^+ b.
Proof.
  induction s as [|c s IH].
  - cbn [contains]. rewrite orb_false_r, prefix_spec. split; [intros [r E]; by exists "", r|].
    intros (a & b & E). destruct a; [by exists b|done].
  - change (contains sub (String c s)) with
      (String.prefix sub (String c s) || contains sub s).
    rewrite orb_true_iff, prefix_spec, IH. split.
    + intros [[r E]|(a & b & ->)]; [by exists "", r|by exists (String c a), b].
    + intros ([|x a] & b & E); [left; by exists b|right]. simpl in E.
      injection E as <- ->. by exists a, b.
Qed.

Lemma exists_char_app p s t : exists_char p (s ^+ t) = exists_char p s || exists_char p t.
Proof. induction s as [|c s IH]; simpl; [done|]. by rewrite IH, orb_assoc. Qed.

Lemma rev_app_spec s acc : rev_app s acc = rev s ^+ acc.
Proof.
  unfold rev. revert acc. induction s as [|c s IH]; intros acc; simpl; [done|].
  rewrite (IH (String c acc)), (IH (String c "")), app_assoc. done.
Qed.

Lemma rev_cons c s : rev (String c s) = rev s ^+ String c "".
Proof. unfold rev at 1. simpl. by rewrite rev_app_spec. Qed.

Lemma rev_app_distr s t : rev (s ^+ t) = rev t ^+ rev s.
Proof.
  induction s as [|c s IH]; simpl.
  - by rewrite app_nil_r.
  - by rewrite !rev_cons, IH, app_assoc.
Qed.

Lemma length_rev s : String.length (rev s) = String.length s.
Proof. induction s as [|c s IH]; [done|]. rewrite rev_cons, app_length, IH. simpl. lia. Qed.

Lemma rev_involutive s : rev (rev s) = s.
Proof. induction s as [|c s IH]; [done|]. rewrite rev_cons, rev_app_distr, IH. done. Qed.

Lemma exists_char_rev p s : exists_char p (rev s) = exists_char p s.
Proof.
  induction s as [|c s IH]; [done|]. rewrite rev_cons, exists_char_app, IH. simpl.
  by rewrite orb_false_r, orb_comm.
Qed.

Lemma lstrip_id s : exists_char is_space s = false -> lstrip s = s.
Proof. destruct s as [|c s]; simpl; [done|]. by destruct (is_space c). Qed.

Lemma strip_id s : exists_char is_space s = false -> strip s = s.
Proof.
  intros H. unfold strip. rewrite (lstrip_id s H), lstrip_id, rev_involutive; [done|].
  by rewrite exists_char_rev.
Qed.

Lemma split_not_nil c s : split c s <> [].
Proof. destruct s as [|a s]; simpl; [done|]. destruct (Ascii.eqb a c), (split c s); done. Qed.

(** The fields of a text, joined again. *)
Lemma split_join c s : join (String c "") (split c s) = s.
Proof.
  induction s as [|a s IH]; [done|]. pose proof (split_not_nil c s) as Hn. cbn [split].
  destruct (Ascii.eqb_spec a c) as [->|Hne].
  - destruct (split c s) as [|w ws]; [done|].
    change (String c (join (String c "") (w :: ws)) = String c s). by rewrite IH.
  - destruct (split c s) as [|w ws]; [done|]. rewrite <-IH. by destruct ws.
Qed.

(** A text without the separator is its only field. *)
Lemma split_nochar c s : has_char c s = false -> split c s = [s].
Proof.
  unfold has_char. induction s as [|a s IH]; simpl; [done|].
  intros [H1 H2]%orb_false_iff. rewrite Ascii.eqb_sym, H1, (IH H2). done.
Qed.

(** The first field of a text whose head has no separator. *)
Lemma split_app c s t :
  has_char c s = false -> split c (s ^+ String c t) = s :: split c t.
Proof.
  unfold has_char. induction s as [|a s IH]; simpl.
  - intros _. by rewrite Ascii.eqb_refl.
  - intros [H1 H2]%orb_false_iff. rewrite Ascii.eqb_sym, H1, (IH H2). done.
Qed.

Lemma prefix_one c a s : String.prefix (String c "") (String a s) = Ascii.eqb c a.
Proof.
  simpl. destruct (ascii_dec c a) as [->|Hne]; [by rewrite Ascii.eqb_refl; destruct s|].
  symmetry. by apply Ascii.eqb_neq.
Qed.

Lemma replace_nochar c new s : has_char c s = false -> replace (String c "") new s = s.
Proof.
  unfold replace. assert (forall n t, has_char c t = false ->
    replace_fuel n (String c "") new t = t) as Hn; [|apply Hn].
  induction n as [|n IH]; intros t Ht; [done|]. destruct t as [|a t]; [done|].
  unfold has_char in Ht. cbn [exists_char] in Ht. apply orb_false_iff in Ht as [Hc Ht].
  cbn [replace_fuel]. rewrite prefix_one, Hc, IH by done. done.
Qed.

Lemma drop_app a s : Str.drop (String.length a) (a ^+ s) = s.
Proof. induction a as [|c a IH]; [by destruct s|exact IH]. Qed.

Lemma take_app a s : Str.take (String.length a) (a ^+ s) = a.
Proof. induction a as [|c a IH]; [by destruct s|]. simpl. by rewrite IH. Qed.

Lemma length_take n s : String.length (take n s) = n `min` String.length s.
Proof.
  revert s. induction n as [|n IH]; intros [|c s]; simpl; [done..|]. by rewrite IH.
Qed.

Lemma exists_char_take p n s : exists_char p s = false -> exists_char p (take n s) = false.
Proof.
  revert s. induction n as [|n IH]; intros [|c s]; simpl; [done..|].
  intros [-> H]%orb_false_iff. by apply IH.
Qed.

Lemma exists_char_impl p q s :
  (forall c, p c = true -> q c = true) ->
  exists_char q s = false -> exists_char p s = false.
Proof.
  intros Hpq. induction s as [|c s IH]; simpl; [done|].
  intros [H1 H2]%orb_false_iff. rewrite (IH H2), orb_false_r.
  destruct (p c) eqn:E; [|done]. apply Hpq in E. congruence.
Qed.

Lemma eqb_refl s : String.eqb s s = true.
Proof. by apply String.eqb_eq. Qed.

End StrFacts.

(** * Reading back a printed integer *)
Module NumFacts.

Ltac digit_step :=
  cbn [NilEmpty.string_of_uint Num.digits];
  match goal with
  | |- context [Ascii.eqb ?c "_"] => change (Ascii.eqb c "_") with false
  end; cbv iota;
  match goal with
  | |- context [Num.digit_val 10 ?c] =>
      let v := eval vm_compute in (Num.digit_val 10 c) in
      change (Num.digit_val 10 c) with v
  end; cbv iota;
  match goal with
  | |- Num.digits 10 (Z.of_N ?a * 10 + ?k)%Z true _ = _ =>
      let k' := eval vm_compute in (Z.to_N k) in
      replace (Z.of_N a * 10 + k)%Z with (Z.of_N (a * 10 + k')) by lia
  end.

Lemma digits_uint d acc prev :
  prev = true \/ d <> Decimal.Nil ->
  Num.digits 10 (Z.of_N acc) prev (NilEmpty.string_of_uint d)
  = Some (Z.of_N (match acc with
                  | 0%N => Pos.of_uint d
                  | N.pos p => N.pos (Pos.of_uint_acc d p)
                  end)).
Proof.
  revert acc prev. induction d as [|d IH|d IH|d IH|d IH|d IH|d IH|d IH|d IH|d IH|d IH];
    intros acc prev Hp; [destruct acc; simpl; destruct Hp as [->|?]; done|..].
  all: digit_step; rewrite IH by (by left); do 2 f_equal.
  all: destruct acc as [|p]; [done|]; simpl.
  all: match goal with
       | |- N.pos (Pos.of_uint_acc _ ?a) = N.pos (Pos.of_uint_acc _ ?b) =>
           replace a with b by lia; done
       end.
Qed.

Lemma uint_no_space d : Str.exists_char Str.is_space (NilEmpty.string_of_uint d) = false.
Proof. induction d; simpl; auto. Qed.

Lemma uint_no_colon d : Str.has_char ":" (NilEmpty.string_of_uint d) = false.
Proof. induction d; simpl; auto. Qed.

Lemma uint_head d :
  d <> Decimal.Nil ->
  exists c r, NilEmpty.string_of_uint d = String c r /\
              Ascii.eqb c "-" = false /\ Ascii.eqb c "+" = false.
Proof. destruct d; [done|..]; intros _; simpl; eexists _, _; done. Qed.

Lemma str_nonneg z :
  (0 <= z)%Z ->
  exists d, d <> Decimal.Nil /\ Num.str z = NilEmpty.string_of_uint d /\
            Z.of_N (Pos.of_uint d) = z.
Proof.
  intros Hz. destruct z as [|p|p]; [..|lia]; unfold Num.str; simpl.
  - exists (Decimal.D0 Decimal.Nil). done.
  - exists (Pos.to_uint p). unfold NilZero.string_of_uint.
    pose proof (DecimalPos.Unsigned.of_to p) as E.
    destruct (Pos.to_uint p) eqn:Ep; [done|..]; by rewrite E.
Qed.

(** [int(str(z)) == z] for a non-negative integer. *)
Lemma py_int_str z : (0 <= z)%Z -> Num.py_int (Num.str z) = Some z.
Proof.
  intros Hz. destruct (str_nonneg z Hz) as (d & Hd & -> & Hv).
  unfold Num.py_int, Num.parse. rewrite StrFacts.strip_id by apply uint_no_space.
  destruct (uint_head d Hd) as (c & r & E & Hm & Hp).
  rewrite E, Hm, Hp, <-E.
  change (Num.magnitude 10 (NilEmpty.string_of_uint d))
    with (Num.digits 10 0 false (NilEmpty.string_of_uint d)).
  pose proof (digits_uint d 0 false (or_intror Hd)) as H. simpl in H. by rewrite H, Hv.
Qed.

Lemma str_no_colon z : (0 <= z)%Z -> Str.has_char ":" (Num.str z) = false.
Proof. intros Hz. destruct (str_nonneg z Hz) as (d & _ & -> & _). apply uint_no_colon. Qed.

Lemma str_inj_nonneg a b :
  (0 <= a)%Z -> (0 <= b)%Z -> Num.str a = Num.str b -> a = b.
Proof. intros Ha Hb E. apply (f_equal Num.py_int) in E. rewrite !py_int_str in E; congruence. Qed.

End NumFacts.

(** * Automation

    [ucm] holds the rewriting of comparisons of a value with itself, which follow
    every look-up of an updated row, and the membership facts about tables. *)
Create HintDb ucm.
#[export] Hint Rewrite StrFacts.eqb_refl Z.eqb_refl : ucm.
#[export] Hint Resolve in_or_app in_map in_eq in_cons : ucm.
