(* ===== verification/Base64.v ===== *)
(** Python's [base64] module, as the program uses it: the decoder that skips what is
    not in its alphabet, the encoder, and the round trip between them. *)
From S2P Require Import Prelude.

Module Base64.
Local Open Scope string_scope.
Local Open Scope list_scope.

(** * The alphabets *)

Definition letter_or_digit (c : ascii) : option N :=
  let n := Str.code c in
  if Str.is_upper c then Some (n - 65)%N
  else if Str.is_lower c then Some (n - 71)%N
  else if Str.is_digit c then Some (n + 4)%N
  else None.
Definition alphabet_value (c : ascii) : option N :=
  match letter_or_digit c with
  | Some v => Some v
  | None => if (Str.code c =? 43)%N then Some 62%N else if (Str.code c =? 47)%N then Some 63%N else None
  end.
(** [urlsafe_b64decode] first turns [-] and [_] into [+] and [/]. *)
Definition urlsafe_value (c : ascii) : option N :=
  let n := Str.code c in
  if (n =? 45)%N then Some 62%N else if (n =? 95)%N then Some 63%N else alphabet_value c.

(** * Decoding *)

(** The decoder discards characters outside the alphabet and stops at a complete
    padding; [quad] counts the characters of the current group, [left] holds the bits
    that do not make a byte yet. *)
Section Decoder.
Context (value : ascii -> option N).
Fixpoint b64_bytes (quad pads : nat) (left : N) (s : string) : option string :=
  match s with
  | EmptyString => if (quad =? 0)%nat then Some EmptyString else None
  | String c s' =>
      if (Str.code c =? 61)%N then
        if ((2 <=? quad) && (4 <=? quad + S pads))%nat then Some EmptyString
        else b64_bytes quad (if (2 <=? quad)%nat then S pads else pads) left s'
      else match value c with
      | None => b64_bytes quad pads left s'
      | Some v =>
          let out n rest := String (ascii_of_N n) <$> rest in
          match quad with
          | 0 => b64_bytes 1 0 v s'
          | 1 => out (left * 4 + v / 16)%N (b64_bytes 2 0 (v mod 16) s')
          | 2 => out (left * 16 + v / 4)%N (b64_bytes 3 0 (v mod 4) s')
          | _ => out (left * 64 + v)%N (b64_bytes 0 0 0 s')
          end
      end
  end.
(** A text with a character outside ASCII is a ValueError. *)
Definition decode (s : string) : option string :=
  if Str.forall_char (fun c => (Str.code c <? 128)%N) s then b64_bytes 0 0 0 s else None.
End Decoder.
Definition b64decode : string -> option string := decode alphabet_value.
Definition urlsafe_b64decode : string -> option string := decode urlsafe_value.

(** * Encoding *)

Definition digit (v : N) : ascii :=
  ascii_of_N (if (v <? 26)%N then v + 65 else if (v <? 52)%N then v + 71
              else if (v <? 62)%N then v - 4 else if (v =? 62)%N then 43 else 47)%N.
(** [b64encode(s).decode()] *)
Fixpoint b64encode (s : string) : string :=
  match s with
  | EmptyString => EmptyString
  | String a EmptyString =>
      String (digit (Str.code a / 4)) (String (digit (Str.code a mod 4 * 16)) "==")
  | String a (String b EmptyString) =>
      String (digit (Str.code a / 4))
        (String (digit (Str.code a mod 4 * 16 + Str.code b / 16))
           (String (digit (Str.code b mod 16 * 4)) "="))
  | String a (String b (String c s')) =>
      String (digit (Str.code a / 4))
        (String (digit (Str.code a mod 4 * 16 + Str.code b / 16))
           (String (digit (Str.code b mod 16 * 4 + Str.code c / 64))
              (String (digit (Str.code c mod 64)) (b64encode s'))))
  end.

Example encode_examples :
  List.map b64encode [""; "a"; "ab"; "abc"; "UCM?>~"] = [""; "YQ=="; "YWI="; "YWJj"; "VUNNPz5+"].
Proof. vm_compute. reflexivity. Qed.

(** * The round trip *)

Lemma digit_facts v :
  (v < 64)%N -> alphabet_value (digit v) = Some v /\ (Str.code (digit v) =? 61)%N = false /\
    (Str.code (digit v) <? 128)%N = true /\ (Str.code (digit v) =? 45)%N = false.
Proof.
  intros Hv.
  assert (forallb (fun n => let v := N.of_nat n in
    bool_decide (alphabet_value (digit v) = Some v) && negb (Str.code (digit v) =? 61)%N
    && (Str.code (digit v) <? 128)%N && negb (Str.code (digit v) =? 45)%N) (List.seq 0 64) = true) as H
    by (vm_compute; reflexivity).
  rewrite forallb_forall in H. specialize (H (N.to_nat v)). rewrite N2Nat.id in H.
  rewrite !andb_true_iff, !negb_true_iff, bool_decide_eq_true in H.
  destruct H as [[[H1 H2] H3] H4]; [|done]. apply in_seq. lia.
Qed.

Lemma code_lt a : (Str.code a < 256)%N.
Proof. apply N_ascii_bounded. Qed.

(** Induction three characters at a time. *)
Lemma three_ind (P : string -> Prop) :
  P "" -> (forall a, P (String a "")) -> (forall a b, P (String a (String b ""))) ->
  (forall a b c s, P s -> P (String a (String b (String c s)))) -> forall s, P s.
Proof.
  intros H0 H1 H2 H3. fix IH 1. intros [|a [|b [|c s]]]; [done|apply H1|apply H2|apply H3, IH].
Qed.

Lemma b64_bytes_digit quad pads left v s :
  (v < 64)%N ->
  b64_bytes alphabet_value quad pads left (String (digit v) s)
  = match quad with
    | 0 => b64_bytes alphabet_value 1 0 v s
    | 1 => String (ascii_of_N (left * 4 + v / 16)) <$> b64_bytes alphabet_value 2 0 (v mod 16) s
    | 2 => String (ascii_of_N (left * 16 + v / 4)) <$> b64_bytes alphabet_value 3 0 (v mod 4) s
    | _ => String (ascii_of_N (left * 64 + v)) <$> b64_bytes alphabet_value 0 0 0 s
    end.
Proof.
  intros Hv. destruct (digit_facts v Hv) as (Hd & He & _). cbn [b64_bytes]. by rewrite He, Hd.
Qed.

Lemma ascii_code a n : n = Str.code a -> ascii_of_N n = a.
Proof. intros ->. apply ascii_N_embedding. Qed.

Ltac b64_side :=
  repeat match goal with a : ascii |- _ => lazymatch goal with
    | _ : (Str.code a < 256)%N |- _ => fail | _ => pose proof (code_lt a) end end;
  zify; Z.to_euclidean_division_equations; lia.

Lemma padding_end left :
  b64_bytes alphabet_value 2 0 left "==" = Some EmptyString /\
  b64_bytes alphabet_value 3 0 left "=" = Some EmptyString.
Proof. done. Qed.

Lemma b64_bytes_encode s : b64_bytes alphabet_value 0 0 0 (b64encode s) = Some s.
Proof.
  assert (forall n a t, n = Str.code a -> String (ascii_of_N n) <$> Some t = Some (String a t)) as Hstep
    by (by intros n a t ->%ascii_code).
  induction s as [|a|a b|a b c s IH] using three_ind; [done|..]; cbn [b64encode];
    rewrite !b64_bytes_digit by b64_side.
  - rewrite (proj1 (padding_end _)). apply Hstep. b64_side.
  - rewrite (proj2 (padding_end _)), (Hstep _ b) by b64_side. apply Hstep. b64_side.
  - rewrite IH, (Hstep _ c), (Hstep _ b) by b64_side. apply Hstep. b64_side.
Qed.

(** The characters of an encoded text. *)
Lemma encode_chars (p : ascii -> bool) s :
  (forall v, (v < 64)%N -> p (digit v) = false) -> p "="%char = false ->
  Str.exists_char p (b64encode s) = false.
Proof.
  intros Hp He. induction s as [|a|a b|a b c s IH] using three_ind; [done|..];
    cbn [b64encode Str.exists_char]; rewrite ?He, ?IH, !Hp by b64_side; done.
Qed.

Lemma decode_encode s : b64decode (b64encode s) = Some s.
Proof.
  unfold b64decode, decode, Str.forall_char. rewrite encode_chars; [apply b64_bytes_encode| |done].
  intros v Hv. destruct (digit_facts v Hv) as (_ & _ & -> & _). done.
Qed.

(** An encoded text has no dash, so no PEM marker. *)
Lemma encode_no_dash s : Str.has_char "-" (b64encode s) = false.
Proof.
  apply encode_chars; [|done]. intros v Hv. destruct (digit_facts v Hv) as (_ & _ & _ & Hn).
  apply Ascii.eqb_neq. intros E. by rewrite <-E in Hn.
Qed.

End Base64.
