(* ===== verification/Hashes.v ===== *)
(** Digests: the interface the components use for [hashlib.sha256] and
    [hmac.new(..., hashlib.sha256)], and an executable implementation of it
    (FIPS 180-4 and RFC 2104), so that witnesses run on real digests.  The
    components' theorems are proved against the class [Hashes]; where a theorem
    needs that two texts with one digest are equal it says so with an explicit
    pair of colliding texts instead of assuming that there is none. *)
From S2P Require Import Prelude.

(** What the hex digests promise to their clients: 64 lower-case hex digits. *)
Definition is_hex (c : ascii) : bool :=
  Str.is_digit c || ((97 <=? Str.code c) && (Str.code c <=? 102))%N.

Class Hashes := {
  sha256_hex : string -> string;
  hmac_hex : string -> string -> string;
  sha256_hex_length s : String.length (sha256_hex s) = 64;
  hmac_hex_length k s : String.length (hmac_hex k s) = 64;
  sha256_hex_chars s : Str.forall_char is_hex (sha256_hex s) = true;
  hmac_hex_chars k s : Str.forall_char is_hex (hmac_hex k s) = true;
}.

(** URL-safe base64 without padding of the bytes a hex text spells: three hex
    digits make two characters, one or two left over are completed with zeros. *)
Definition nibble (c : ascii) : N :=
  if Str.is_digit c then (Str.code c - 48)%N else (Str.code c - 87)%N.
Definition b64_char (n : N) : ascii :=
  if (n <? 26)%N then ascii_of_N (65 + n)
  else if (n <? 52)%N then ascii_of_N (71 + n)
  else if (n <? 62)%N then ascii_of_N (n - 4)
  else if (n =? 62)%N then "-"%char else "_"%char.
Fixpoint b64url_of_hex (s : string) : string :=
  match s with
  | String a (String b (String c s')) =>
      String (b64_char (nibble a * 4 + nibble b / 4))
        (String (b64_char (nibble b mod 4 * 16 + nibble c)) (b64url_of_hex s'))
  | String a (String b EmptyString) =>
      String (b64_char (nibble a * 4 + nibble b / 4))
        (String (b64_char (nibble b mod 4 * 16)) EmptyString)
  | String a EmptyString => String (b64_char (nibble a * 4)) EmptyString
  | EmptyString => EmptyString
  end.

(** A pair of different texts with one digest. *)
Definition collision (f : string -> string) : Prop :=
  exists s t, s <> t /\ f s = f t.

Lemma digest_inj (f : string -> string) s t : f s = f t -> s = t \/ collision f.
Proof.
  intros E. destruct (decide (s = t)) as [?|Hne]; [by left|right]. by exists s, t.
Qed.

Lemma forall_hex_no_char c s :
  is_hex c = false -> Str.forall_char is_hex s = true -> Str.has_char c s = false.
Proof.
  intros Hc Hs. unfold Str.forall_char in Hs. apply negb_true_iff in Hs.
  unfold Str.has_char. eapply StrFacts.exists_char_impl; [|exact Hs].
  intros d E. apply Ascii.eqb_eq in E as <-. by rewrite Hc.
Qed.

(** * SHA-256 and HMAC *)
Module Sha256.
Local Open Scope N_scope.

Definition w32 (n : N) : N := N.land n 4294967295.
Definition add (a b : N) : N := w32 (a + b).
Definition rotr (n x : N) : N := N.lor (N.shiftr x n) (w32 (N.shiftl x (32 - n))).

(** The sixty-four round constants, eight to a row. *)
Definition K : list N :=
  List.flat_map
    (fun row => List.map (fun i => w32 (N.shiftr row (32 * N.of_nat i))) [7; 6; 5; 4; 3; 2; 1; 0]%nat)
    [
     0x428a2f9871374491b5c0fbcfe9b5dba53956c25b59f111f1923f82a4ab1c5ed5;
     0xd807aa9812835b01243185be550c7dc372be5d7480deb1fe9bdc06a7c19bf174;
     0xe49b69c1efbe47860fc19dc6240ca1cc2de92c6f4a7484aa5cb0a9dc76f988da;
     0x983e5152a831c66db00327c8bf597fc7c6e00bf3d5a7914706ca635114292967;
     0x27b70a852e1b21384d2c6dfc53380d13650a7354766a0abb81c2c92e92722c85;
     0xa2bfe8a1a81a664bc24b8b70c76c51a3d192e819d6990624f40e3585106aa070;
     0x19a4c1161e376c082748774c34b0bcb5391c0cb34ed8aa4a5b9cca4f682e6ff3;
     0x748f82ee78a5636f84c878148cc7020890befffaa4506cebbef9a3f7c67178f2].

Record state := St { sa : N; sb : N; sc : N; sd : N; se : N; sf : N; sg : N; sh : N }.

Definition init : state :=
  St 0x6a09e667 0xbb67ae85 0x3c6ef372 0xa54ff53a 0x510e527f 0x9b05688c 0x1f83d9ab 0x5be0cd19.

Definition round (s : state) (k w : N) : state :=
  let s1 := N.lxor (N.lxor (rotr 6 (se s)) (rotr 11 (se s))) (rotr 25 (se s)) in
  let ch := N.lxor (N.land (se s) (sf s)) (N.land (N.lxor (se s) 4294967295) (sg s)) in
  let t1 := w32 (sh s + s1 + ch + k + w) in
  let s0 := N.lxor (N.lxor (rotr 2 (sa s)) (rotr 13 (sa s))) (rotr 22 (sa s)) in
  let maj := N.lxor (N.lxor (N.land (sa s) (sb s)) (N.land (sa s) (sc s))) (N.land (sb s) (sc s)) in
  St (w32 (t1 + s0 + maj)) (sa s) (sb s) (sc s) (add (sd s) t1) (se s) (sf s) (sg s).

(** The message schedule as a sliding window of the last sixteen words. *)
Definition next_word (win : list N) : N :=
  let w i := List.nth i win 0 in
  let s0 x := N.lxor (N.lxor (rotr 7 x) (rotr 18 x)) (N.shiftr x 3) in
  let s1 x := N.lxor (N.lxor (rotr 17 x) (rotr 19 x)) (N.shiftr x 10) in
  w32 (w 0%nat + s0 (w 1%nat) + w 9%nat + s1 (w 14%nat)).

Fixpoint rounds (ks win : list N) (s : state) : state :=
  match ks with
  | [] => s
  | k :: ks' => rounds ks' (List.tl win ++ [next_word win]) (round s k (List.hd 0 win))
  end.

Definition compress (s : state) (block : list N) : state :=
  let r := rounds K block s in
  St (add (sa s) (sa r)) (add (sb s) (sb r)) (add (sc s) (sc r)) (add (sd s) (sd r))
     (add (se s) (se r)) (add (sf s) (sf r)) (add (sg s) (sg r)) (add (sh s) (sh r)).

Fixpoint words (bs : list N) : list N :=
  match bs with
  | a :: b :: c :: d :: r => (((a * 256 + b) * 256 + c) * 256 + d) :: words r
  | _ => []
  end.

Fixpoint blocks (fuel : nat) (ws : list N) (s : state) : state :=
  match fuel, ws with
  | O, _ | _, [] => s
  | S f, _ => blocks f (List.skipn 16 ws) (compress s (List.firstn 16 ws))
  end.

Definition be_bytes (n : nat) (v : N) : list N :=
  List.map (fun i => N.land (N.shiftr v (8 * N.of_nat i)) 255) (List.rev (List.seq 0 n)).

Definition pad (bs : list N) : list N :=
  let len := List.length bs in
  let z := ((119 - len mod 64) mod 64)%nat in
  bs ++ [128] ++ List.repeat 0 z ++ be_bytes 8 (8 * N.of_nat len).

Definition digest (bs : list N) : state :=
  let ws := words (pad bs) in blocks (List.length ws) ws init.

Definition state_words (s : state) : list N :=
  [sa s; sb s; sc s; sd s; se s; sf s; sg s; sh s].

Definition digest_bytes (bs : list N) : list N :=
  List.flat_map (be_bytes 4) (state_words (digest bs)).

Definition hex_digit (d : N) : ascii :=
  if d <? 10 then ascii_of_N (48 + d) else ascii_of_N (87 + d).

Definition hex_of_word (w : N) (tail : string) : string :=
  let nib i := hex_digit (N.land (N.shiftr w (4 * i)) 15) in
  String (nib 7) (String (nib 6) (String (nib 5) (String (nib 4)
    (String (nib 3) (String (nib 2) (String (nib 1) (String (nib 0) tail))))))).

Definition hex_of_state (s : state) : string :=
  List.fold_right hex_of_word EmptyString (state_words s).

Definition bytes_of (s : string) : list N := List.map N_of_ascii (String.list_ascii_of_string s).

Definition hexdigest (s : string) : string := hex_of_state (digest (bytes_of s)).

Definition hmac_key (k : list N) : list N :=
  let k := if (64 <? List.length k)%nat then digest_bytes k else k in
  k ++ List.repeat 0 (64 - List.length k)%nat.

Definition hmac_hexdigest (key msg : string) : string :=
  let k := hmac_key (bytes_of key) in
  let inner := digest_bytes (List.map (N.lxor 0x36) k ++ bytes_of msg) in
  hex_of_state (digest (List.map (N.lxor 0x5c) k ++ inner)).

Lemma hex_of_word_length w t : String.length (hex_of_word w t) = (8 + String.length t)%nat.
Proof. done. Qed.

Lemma hex_of_state_length s : String.length (hex_of_state s) = 64%nat.
Proof. done. Qed.

Lemma hex_digit_hex d : is_hex (hex_digit (N.land d 15)) = true.
Proof.
  change 15 with (N.ones 4). rewrite N.land_ones.
  pose proof (N.mod_lt d (2 ^ 4) ltac:(done)) as Hlt.
  set (m := d mod 2 ^ 4) in *. clearbody m. change (2 ^ 4) with 16 in Hlt.
  assert (m = 0 \/ m = 1 \/ m = 2 \/ m = 3 \/ m = 4 \/ m = 5 \/ m = 6 \/ m = 7 \/ m = 8 \/
          m = 9 \/ m = 10 \/ m = 11 \/ m = 12 \/ m = 13 \/ m = 14 \/ m = 15) as Hm by lia.
  repeat destruct Hm as [->|Hm]; [done..|by subst].
Qed.

Lemma hex_of_word_chars w t :
  Str.forall_char is_hex t = true -> Str.forall_char is_hex (hex_of_word w t) = true.
Proof.
  unfold Str.forall_char, hex_of_word. cbn [Str.exists_char]. intros Ht.
  rewrite !hex_digit_hex. done.
Qed.

Lemma hex_of_state_chars s : Str.forall_char is_hex (hex_of_state s) = true.
Proof. unfold hex_of_state. simpl. by do 8 apply hex_of_word_chars. Qed.

End Sha256.

#[export] Instance sha256_hashes : Hashes := {|
  sha256_hex := Sha256.hexdigest;
  hmac_hex := Sha256.hmac_hexdigest;
  sha256_hex_length s := Sha256.hex_of_state_length _;
  hmac_hex_length k s := Sha256.hex_of_state_length _;
  sha256_hex_chars s := Sha256.hex_of_state_chars _;
  hmac_hex_chars k s := Sha256.hex_of_state_chars _;
|}.

#[global] Arguments Sha256.hexdigest : simpl never.
#[global] Arguments Sha256.hmac_hexdigest : simpl never.

(** The FIPS 180-4 and RFC 4231 test vectors. *)
Example sha256_abc :
  Sha256.hexdigest "abc"
  = "ba7816bf8f01cfea414140de5dae2223b00361a396177a9cb410ff61f20015ad".
Proof. vm_compute. reflexivity. Qed.

Example hmac_jefe :
  Sha256.hmac_hexdigest "Jefe" "what do ya want for nothing?"
  = "5bdcc146bf60754e6a042426089575c75a003f089d2739839dec58b964ec3843".
Proof. vm_compute. reflexivity. Qed.

(** The example of RFC 7515, appendix A.1. *)
Example b64url_sample : b64url_of_hex "7b22747970223a224a5754222c0d0a" = "eyJ0eXAiOiJKV1QiLA0K".
Proof. vm_compute. reflexivity. Qed.
