(* ===== verification/Permissions.v ===== *)
(** Role permissions: [auth/permissions.py].  The table of the four system roles,
    the role check [has_permission] and the decorator [require_permission]. *)
From S2P Require Import Prelude.

Module Permissions.
Local Open Scope string_scope.
Local Open Scope list_scope.

(** [ROLE_PERMISSIONS] *)
Definition ROLE_PERMISSIONS : list (string * list string) :=
  [("admin", ["*"]);
   ("operator",
     ["read:certificates"; "write:certificates";
      "read:user_certificates"; "write:user_certificates"; "delete:user_certificates";
      "read:cas"; "write:cas";
      "read:csrs"; "write:csrs"; "delete:csrs";
      "read:templates";
      "read:truststore"; "write:truststore";
      "read:crl"; "write:crl";
      "read:acme"; "write:acme";
      "read:scep";
      "read:est";
      "read:hsm";
      "read:policies"; "read:approvals"; "write:approvals";
      "read:audit";
      "read:settings"; "write:settings";
      "read:groups"; "write:groups"]);
   ("auditor",
     ["read:certificates";
      "read:user_certificates";
      "read:cas";
      "read:csrs";
      "read:templates";
      "read:truststore";
      "read:crl";
      "read:acme";
      "read:scep";
      "read:est";
      "read:hsm";
      "read:policies"; "read:approvals";
      "read:audit";
      "read:groups"]);
   ("viewer",
     ["read:certificates";
      "read:user_certificates";
      "read:cas";
      "read:csrs";
      "read:templates";
      "read:truststore"])].

(** [get_role_permissions]: the empty list for an unknown role. *)
Definition get_role_permissions (role : string) : list string :=
  default [] (Json.assoc role ROLE_PERMISSIONS).

(** [x in l] for a list of texts. *)
Definition mem (x : string) (l : list string) : bool := existsb (String.eqb x) l.

(** The action and the resource a required permission is split into. *)
Definition action_resource (required : string) : string * string :=
  let parts := if Str.has_char ":" required then Str.split ":" required
               else [required; "*"] in
  match parts with
  | a :: r :: _ => (a, r)
  | [a] => (a, "*")
  | [] => ("", "*")
  end.

(** [has_permission(user_role, required_permission)] *)
Definition has_permission (user_role required : string) : bool :=
  let permissions := get_role_permissions user_role in
  if mem "*" permissions then true
  else if mem required permissions then true
  else
    let '(action, resource) := action_resource required in
    existsb (fun perm => String.eqb perm (action ^+ ":*") || String.eqb perm ("*:" ^+ resource))
            permissions.

(** What [require_permission(permission)] answers before it calls the route:
    [None] is the call of the route. *)
Inductive denial := Unauthorized | Forbidden (missing : string).

Definition require_permission (permission : string) (current_role : option string)
  : option denial :=
  match current_role with
  | None => Some Unauthorized
  | Some role => if has_permission role permission then None else Some (Forbidden permission)
  end.

(** * Facts *)

Lemma mem_In x l : mem x l = true <-> In x l.
Proof.
  unfold mem. rewrite existsb_exists. split.
  - intros (y & Hin & <-%String.eqb_eq). done.
  - intros Hin. exists x. split; [done|apply StrFacts.eqb_refl].
Qed.

Lemma get_role_permissions_cases role :
  get_role_permissions role = [] \/
  exists perms, In (role, perms) ROLE_PERMISSIONS /\ get_role_permissions role = perms.
Proof.
  unfold get_role_permissions, ROLE_PERMISSIONS. cbn [Json.assoc].
  repeat match goal with
  | |- context [String.eqb role ?k] =>
      destruct (String.eqb_spec role k) as [->|_]; [right; eexists; split; [|reflexivity]|]
  end; [simpl; tauto..|by left].
Qed.

Fixpoint ends_with_star (s : string) : bool :=
  match s with
  | EmptyString => false
  | String c EmptyString => Ascii.eqb c "*"
  | String _ s' => ends_with_star s'
  end.

Lemma ends_with_star_app s : ends_with_star (s ^+ ":*") = true.
Proof. induction s as [|c s IH]; [done|]. simpl. by destruct (s ^+ ":*"). Qed.

(** No role but admin holds a permission that a wildcard could match: none ends
    in a star, none starts with one. *)
Lemma no_role_wildcards :
  Forall (fun rp => rp.1 = "admin" \/
            Forall (fun p => ends_with_star p = false /\ String.prefix "*" p = false) rp.2)
         ROLE_PERMISSIONS.
Proof.
  unfold ROLE_PERMISSIONS. repeat constructor; (left; reflexivity) || (right; repeat constructor).
Qed.

End Permissions.
