(* ===== verification/Auth.v ===== *)
(** The unified authentication manager: [auth/unified.py].  API keys and Flask
    sessions, the authentication of a request, the decorator [require_auth] and
    the permission check it runs, and the operations that create a key or a
    session.  [models/api_key.py] and the columns of [models/__init__.py:User] the
    manager reads are the rows of its tables. *)
From S2P Require Import Prelude Hashes Permissions.

Module Auth.
Local Open Scope string_scope.
Local Open Scope list_scope.

(** * State *)

(** The columns of [User] the manager reads. *)
Record user := User {
  u_id : Z;
  u_username : string;
  u_role : string;
  u_active : bool;
}.

(** [models/api_key.py:APIKey] *)
Record api_key := APIKey {
  k_id : Z;
  k_user_id : Z;
  k_key_hash : string;
  k_name : string;
  k_permissions : jcol;
  k_created_at : Z;
  k_expires_at : option Z;
  k_last_used_at : option Z;
  k_is_active : bool;
}.

(** A session cell that should hold an ISO timestamp: a text
    [datetime.fromisoformat] reads, or one on which the comparison raises
    ValueError or TypeError. *)
Inductive stamp := SAt (t : Z) | SBad.

(** The Flask session. *)
Record session := Session {
  s_user_id : option Z;
  s_username : option string;
  s_login_time : option stamp;
  s_last_activity : option stamp;
  s_expires_at : option string;
  s_permanent : bool;
}.

(** [session.clear()] *)
Definition empty_session : session := Session None None None None None false.

(** The rows of [system_config] by key; the value column is nullable. *)
Definition config := list (string * option string).

Record state := State {
  users : list user;
  api_keys : list api_key;
  sess : session;
  cfg : config;
}.

Definition with_api_keys (ks : list api_key) (st : state) : state :=
  State (users st) ks (sess st) (cfg st).
Definition with_sess (s : session) (st : state) : state :=
  State (users st) (api_keys st) s (cfg st).

Inductive auth_method := ByApiKey (key_id : Z) (key_name : string)
                       | BySession (expires : option string).

(** The dict the verifiers return. *)
Record auth_result := AuthResult {
  r_user_id : Z;
  r_user : option user;
  r_method : auth_method;
  r_permissions : json;
}.

(** * Permission check *)

(** [has_permission(required, user_permissions)]; [None] is the TypeError of a
    permission column that is not a container. *)
Definition has_permission (required : string) (perms : json) : option bool :=
  star ← Json.contains "*" perms;
  if star : bool then Some true
  else
    exact ← Json.contains required perms;
    if exact : bool then Some true
    else if Str.has_char ":" required then
      let category := default "" (List.head (Str.split ":" required)) in
      wild ← Json.contains (category ^+ ":*") perms;
      Some (wild : bool)
    else Some false.

Section Manager.
Context `{Hashes}.

(** * API keys *)

(** [AuthManager.verify_api_key]: [now] is the clock at the expiry check,
    [now'] the clock at the stamp of [last_used_at]. *)
Definition verify_api_key (key : string) (now now' : Z) (st : state)
  : state * option auth_result :=
  let key_hash := sha256_hex key in
  match Table.first (fun k => String.eqb (k_key_hash k) key_hash && k_is_active k)
                    (api_keys st) with
  | None => (st, None)
  | Some k =>
      if match k_expires_at k with Some e => (e <? now)%Z | None => false end then (st, None)
      else
        let touch k := APIKey (k_id k) (k_user_id k) (k_key_hash k) (k_name k)
                         (k_permissions k) (k_created_at k) (k_expires_at k)
                         (Some now') (k_is_active k) in
        let st' := with_api_keys
                     (Table.update (fun r => (k_id r =? k_id k)%Z) touch (api_keys st)) st in
        let permissions := match k_permissions k with
                           | JText j => j
                           | JCNull | JCBad => JList []
                           end in
        (st', Some (AuthResult (k_user_id k)
                      (Table.first (fun u => (u_id u =? k_user_id k)%Z) (users st))
                      (ByApiKey (k_id k) (k_name k)) permissions))
  end.

(** [AuthManager.create_api_key]: [token] is the random part of the key, [kid]
    the id the database assigns, [now] the clock; [expires_days] the argument. *)
Definition create_api_key (user_id : Z) (name : string) (permissions : json)
    (expires_days : Z) (token : string) (kid now now' : Z) (st : state)
  : state * (string * api_key) :=
  let key := "ucm_ak_" ^+ token in
  let row := APIKey kid user_id (sha256_hex key) name (JText permissions) now'
               (Some (now + Time.days expires_days)%Z) None true in
  (with_api_keys (api_keys st ++ [row]) st, (key, row)).

(** * Sessions *)

(** [SystemConfig.query.filter_by(key=...).first()] with [int] of its value. *)
Definition config_seconds (key : string) (dflt : Z) (c : config) : Z :=
  match Json.assoc key c with
  | Some (Some v) => if Str.truthy v then default dflt (Num.py_int v) else dflt
  | _ => dflt
  end.

(** [AuthManager._get_session_timeout] *)
Definition get_session_timeout : config -> Z := config_seconds "session_timeout" 28800.

(** [AuthManager._get_session_max_lifetime] *)
Definition get_session_max_lifetime : config -> Z :=
  config_seconds "session_max_lifetime" 86400.

(** [(now - t).total_seconds() > limit], false when the cell is absent or the
    comparison raises. *)
Definition too_old (now limit : Z) (cell : option stamp) : bool :=
  match cell with
  | Some (SAt t) => (limit * Time.second <? now - t)%Z
  | Some SBad | None => false
  end.

(** [AuthManager.verify_session] *)
Definition verify_session (now : Z) (st : state) : state * option auth_result :=
  match s_user_id (sess st) with
  | None => (st, None)
  | Some uid =>
      if (uid =? 0)%Z then (st, None)
      else match Table.first (fun u => (u_id u =? uid)%Z) (users st) with
      | None => (st, None)
      | Some u =>
          if negb (u_active u) then (st, None)
          else if too_old now (get_session_max_lifetime (cfg st)) (s_login_time (sess st))
          then (with_sess empty_session st, None)
          else if too_old now (get_session_timeout (cfg st)) (s_last_activity (sess st))
          then (with_sess empty_session st, None)
          else
            let s := sess st in
            let s' := Session (s_user_id s) (s_username s) (s_login_time s)
                        (Some (SAt now)) (s_expires_at s) (s_permanent s) in
            (with_sess s' st,
             Some (AuthResult (u_id u) (Some u) (BySession (s_expires_at s))
                     (Json.strings (Permissions.get_role_permissions (u_role u)))))
      end
  end.

(** [create_session_for_user] *)
Definition create_session_for_user (u : user) (now : Z) (st : state) : state :=
  with_sess (Session (Some (u_id u)) (Some (u_username u)) (Some (SAt now))
               (Some (SAt now)) (s_expires_at (sess st)) true) st.

(** * Requests *)

(** [AuthManager.authenticate_request]: [api_key] is the X-API-Key header. *)
Definition authenticate_request (api_key : option string) (now now' : Z) (st : state)
  : state * option auth_result :=
  let '(st1, r1) :=
    match api_key with
    | Some k => if Str.truthy k then verify_api_key k now now' st else (st, None)
    | None => (st, None)
    end in
  match r1 with
  | Some r => (st1, Some r)
  | None =>
      match s_user_id (sess st1) with
      | Some _ => verify_session now' st1
      | None => (st1, None)
      end
  end.

(** What the decorator answers: 401, 403 with the missing permission, the
    TypeError of a malformed permission column (500), or the call of the route
    with the authentication result in [g]. *)
Inductive outcome :=
| Unauthorized
| Forbidden (missing : string) (has : json)
| ServerError
| Granted (r : auth_result).

(** The loop over the required permissions: the first one that is missing. *)
Fixpoint check_all (required : list string) (perms : json) : option (option string) :=
  match required with
  | [] => Some None
  | p :: ps =>
      ok ← has_permission p perms;
      if ok : bool then check_all ps perms else Some (Some p)
  end.

(** [require_auth(permissions)] *)
Definition require_auth (permissions : list string) (api_key : option string)
    (now now' : Z) (st : state) : state * outcome :=
  let '(st', r) := authenticate_request api_key now now' st in
  match r with
  | None => (st', Unauthorized)
  | Some r =>
      match permissions with
      | [] => (st', Granted r)
      | _ =>
          match Json.contains "*" (r_permissions r) with
          | None => (st', ServerError)
          | Some true => (st', Granted r)
          | Some false =>
              match check_all permissions (r_permissions r) with
              | None => (st', ServerError)
              | Some (Some p) => (st', Forbidden p (r_permissions r))
              | Some None => (st', Granted r)
              end
          end
      end
  end.

(** [require_permission(permission)] *)
Definition require_permission (permission : string) := require_auth [permission].

(** [verify_request_auth]: the authentication result, or [None]. *)
Definition verify_request_auth := authenticate_request.

End Manager.
End Auth.
