(* ===== verification/AuthFacts.v ===== *)
(** What the authentication manager guarantees: soundness of [require_auth], the
    life of an API key and of a session, the agreement of the two permission
    checks on the system roles, and what an API key does not depend on. *)
From S2P Require Import Prelude Hashes Permissions Auth.

Module AuthFacts.
Import Auth.
Local Open Scope string_scope.
Local Open Scope list_scope.

(** A permission list of texts covers a required permission: by the star, by
    itself, or by the wildcard of its category. *)
Definition category (p : string) : string := default "" (List.head (Str.split ":" p)).

Definition covers (l : list string) (p : string) : Prop :=
  In "*" l \/ In p l \/ (Str.has_char ":" p = true /\ In (category p ^+ ":*") l).

Lemma contains_strings_In x l :
  Json.contains x (Json.strings l) = Some (Permissions.mem x l).
Proof. apply Json.contains_strings. Qed.

Lemma has_permission_covers p l :
  has_permission p (Json.strings l) = Some true <-> covers l p.
Proof.
  unfold has_permission, covers, category. rewrite !contains_strings_In.
  cbn [mbind option_bind]. rewrite <- !Permissions.mem_In.
  destruct (Permissions.mem "*" l); [naive_solver|].
  destruct (Permissions.mem p l); [naive_solver|].
  destruct (Str.has_char ":" p); [|naive_solver].
  cbn [mbind option_bind]. destruct (Permissions.mem _ l); naive_solver.
Qed.

(** A star permits everything. *)
Lemma has_permission_star p j : Json.contains "*" j = Some true -> has_permission p j = Some true.
Proof. unfold has_permission. by intros ->. Qed.

Lemma check_all_spec ps perms :
  check_all ps perms = Some None ->
  forall p, In p ps -> has_permission p perms = Some true.
Proof.
  induction ps as [|q ps IH]; simpl; [done|].
  destruct (has_permission q perms) as [[|]|] eqn:E; simpl; [|done..].
  intros Hall p [<-|Hin]; eauto.
Qed.

Lemma check_all_missing ps perms q :
  check_all ps perms = Some (Some q) ->
  In q ps /\ has_permission q perms = Some false.
Proof.
  induction ps as [|p ps IH]; simpl; [done|].
  destruct (has_permission p perms) as [[|]|] eqn:E; simpl; [|naive_solver|done].
  intros [??]%IH. auto.
Qed.

Section Facts.
Context `{Hashes}.

(** The credential an authentication rests on. *)
Definition valid_key (st : state) (tok : string) (now : Z) (k : api_key) : Prop :=
  In k (api_keys st) /\ k_key_hash k = sha256_hex tok /\ k_is_active k = true /\
  forall e, k_expires_at k = Some e -> (now <= e)%Z.

Definition live_session (st : state) (now : Z) (u : user) : Prop :=
  In u (users st) /\ u_active u = true /\ s_user_id (sess st) = Some (u_id u) /\
  too_old now (get_session_max_lifetime (cfg st)) (s_login_time (sess st)) = false /\
  too_old now (get_session_timeout (cfg st)) (s_last_activity (sess st)) = false.

Definition by_key (st : state) (tok : string) (now : Z) (r : auth_result) : Prop :=
  exists k, valid_key st tok now k /\ r_user_id r = k_user_id k /\
    r_permissions r = match k_permissions k with JText j => j | _ => JList [] end.

Definition by_session (st : state) (now : Z) (r : auth_result) : Prop :=
  exists u, live_session st now u /\ r_user_id r = u_id u /\ r_user r = Some u /\
    r_permissions r = Json.strings (Permissions.get_role_permissions (u_role u)).

Lemma verify_api_key_sound key now now' st st' r :
  verify_api_key key now now' st = (st', Some r) -> by_key st key now r.
Proof.
  unfold verify_api_key, by_key, valid_key.
  destruct (Table.first _ (api_keys st)) as [k|] eqn:E; [|done].
  apply Table.first_Some in E as [Hin [Hh%String.eqb_eq Ha]%andb_true_iff].
  destruct (k_expires_at k) as [e|] eqn:Ee;
    [destruct (Z.ltb_spec e now); [done|]|]; intros [= <- <-];
    exists k; repeat split; try done; simpl; try (intros ? [= <-]; done); try congruence.
  all: by destruct (k_permissions k).
Qed.

Lemma verify_session_sound now st st' r :
  verify_session now st = (st', Some r) -> by_session st now r.
Proof.
  unfold verify_session, by_session, live_session.
  destruct (s_user_id (sess st)) as [uid|] eqn:Eu; [|done].
  destruct (uid =? 0)%Z; [done|].
  destruct (Table.first _ (users st)) as [u|] eqn:E; [|done].
  apply Table.first_Some in E as [Hin Hid%Z.eqb_eq].
  destruct (u_active u) eqn:Ha; [|done]. simpl.
  destruct (too_old _ (get_session_max_lifetime _) _) eqn:E1; [done|].
  destruct (too_old _ (get_session_timeout _) _) eqn:E2; [done|].
  intros [= <- <-]. exists u. simpl. rewrite Hid. auto 10.
Qed.

(** A failed key check changes nothing, so the session check that follows it
    starts from the same state. *)
Lemma verify_api_key_None key now now' st st' :
  verify_api_key key now now' st = (st', None) -> st' = st.
Proof.
  unfold verify_api_key. destruct (Table.first _ _) as [k|]; [|by intros [= <-]].
  destruct (k_expires_at k) as [e|]; [destruct (e <? now)%Z|]; by intros [= <-].
Qed.

Lemma authenticate_sound key now now' st st' r :
  authenticate_request key now now' st = (st', Some r) ->
  (exists tok, key = Some tok /\ by_key st tok now r) \/ by_session st now' r.
Proof.
  unfold authenticate_request.
  assert (forall st1, (match s_user_id (sess st1) with
                       | Some _ => verify_session now' st1 | None => (st1, None) end)
                      = (st', Some r) -> by_session st1 now' r) as Hs.
  { intros st1. destruct (s_user_id _); [apply verify_session_sound|done]. }
  destruct key as [k|]; [|by right; apply Hs].
  destruct (Str.truthy k) eqn:Ek; [|by right; apply Hs].
  destruct (verify_api_key k now now' st) as [st1 [r1|]] eqn:E.
  - intros [= <- <-]. left. exists k. split; [done|]. by eapply verify_api_key_sound.
  - apply verify_api_key_None in E as ->. intros Hv. right. by apply Hs.
Qed.

(** C13: A route behind [require_auth] runs only for a request with a valid
    credential: an API key whose hash is stored, active and not expired, or a
    session of an active user within its lifetime and inactivity limits; and
    every permission the route requires is granted by the permissions that
    credential carries. *)
Theorem require_auth_sound perms key now now' st st' r :
  require_auth perms key now now' st = (st', Granted r) ->
  ((exists tok, key = Some tok /\ by_key st tok now r) \/ by_session st now' r) /\
  forall p, In p perms -> has_permission p (r_permissions r) = Some true.
Proof.
  unfold require_auth.
  destruct (authenticate_request key now now' st) as [st1 [r1|]] eqn:E; [|done].
  apply authenticate_sound in E. destruct perms as [|p ps].
  { intros [= <- <-]. split; [done|]. done. }
  destruct (Json.contains "*" (r_permissions r1)) as [[|]|] eqn:Es; [..|done].
  - intros [= <- <-]. split; [done|]. intros q _. by apply has_permission_star.
  - destruct (check_all (p :: ps) (r_permissions r1)) as [[q|]|] eqn:Ec; [done| |done].
    intros [= <- <-]. split; [done|]. by apply check_all_spec.
Qed.

(** A key just created authenticates, with exactly the permissions it was
    created with, up to and including its expiry instant, and never after it. *)
Theorem created_api_key_valid_until_expiry uid name perms days tok kid t0 t0' t t' st :
  let '(st1, (key, row)) := create_api_key uid name perms days tok kid t0 t0' st in
  Forall (fun k => k_key_hash k <> sha256_hex key) (api_keys st) ->
  match snd (verify_api_key key t t' st1) with
  | Some r => (t <= t0 + Time.days days)%Z /\ r_user_id r = uid /\ r_permissions r = perms
  | None => (t0 + Time.days days < t)%Z
  end.
Proof.
  unfold create_api_key. cbv zeta. intros Hfresh. unfold verify_api_key. cbn [with_api_keys api_keys].
  rewrite Table.first_app.
  destruct (Table.first _ (api_keys st)) as [k|] eqn:E.
  { apply Table.first_Some in E as [Hin [Hh%String.eqb_eq _]%andb_true_iff].
    rewrite List.Forall_forall in Hfresh. by apply Hfresh in Hin. }
  simpl. rewrite StrFacts.eqb_refl. simpl.
  destruct (Z.ltb_spec (t0 + Time.days days) t); simpl; [lia|done].
Qed.

(** The session of an active user is accepted exactly when neither the
    login is older than the configured lifetime nor the last activity older
    than the configured timeout; acceptance only moves the activity stamp, and
    an expired session is cleared. *)
Theorem verify_session_spec now st uid u tl ta :
  s_user_id (sess st) = Some uid -> uid <> 0%Z ->
  Table.first (fun u => (u_id u =? uid)%Z) (users st) = Some u -> u_active u = true ->
  s_login_time (sess st) = Some (SAt tl) -> s_last_activity (sess st) = Some (SAt ta) ->
  let expired := (get_session_max_lifetime (cfg st) * Time.second < now - tl \/
                  get_session_timeout (cfg st) * Time.second < now - ta)%Z in
  let '(st', r) := verify_session now st in
  match r with
  | None => expired /\ sess st' = empty_session
  | Some r => ~ expired /\ r_user_id r = u_id u /\
              s_last_activity (sess st') = Some (SAt now) /\
              s_login_time (sess st') = Some (SAt tl) /\ s_user_id (sess st') = Some uid
  end.
Proof.
  intros Hs H0 Hu Ha Hl Hac. unfold verify_session, too_old.
  rewrite Hs, Hu, Ha, Hl, Hac. rewrite (proj2 (Z.eqb_neq uid 0)) by done. simpl.
  destruct (Z.ltb_spec (get_session_max_lifetime (cfg st) * Time.second) (now - tl));
    [split; [by left|done]|].
  destruct (Z.ltb_spec (get_session_timeout (cfg st) * Time.second) (now - ta));
    [split; [by right|done]|].
  simpl. repeat split; try done. lia.
Qed.

(** The user table does not matter to an API key: whether it authenticates,
    for which user id and with which permissions is the same whatever the rows
    of the user table say, a deactivated owner included. *)
Theorem api_key_ignores_user_table key now now' st us :
  let st' := State us (api_keys st) (sess st) (cfg st) in
  (fun r => (r_user_id r, r_permissions r)) <$> snd (verify_api_key key now now' st') =
  (fun r => (r_user_id r, r_permissions r)) <$> snd (verify_api_key key now now' st).
Proof.
  unfold verify_api_key. simpl. destruct (Table.first _ _) as [k|]; [|done].
  by destruct (k_expires_at k) as [e|]; [destruct (e <? now)%Z|].
Qed.
End Facts.

(** On the permissions of the system roles the role check of
    [auth/permissions.py] and the list check of [auth/unified.py], which supports
    one wildcard form less, give the same answer for every role and permission. *)
Theorem role_checks_agree role p :
  has_permission p (Json.strings (Permissions.get_role_permissions role))
  = Some (Permissions.has_permission role p).
Proof.
  assert (forall l, (In "*" l \/ Forall (fun p => Permissions.ends_with_star p = false /\
                                     String.prefix "*" p = false) l) ->
    has_permission p (Json.strings l) =
    Some (if Permissions.mem "*" l then true else if Permissions.mem p l then true
          else let '(a, r) := Permissions.action_resource p in
               existsb (fun q => String.eqb q (a ^+ ":*") || String.eqb q ("*:" ^+ r)) l)) as Hgen.
  { intros l Hl. unfold has_permission. rewrite !contains_strings_In. cbn [mbind option_bind].
    destruct (Permissions.mem "*" l) eqn:Es; [done|].
    destruct (Permissions.mem p l); [done|].
    destruct Hl as [Hs%Permissions.mem_In|Hl]; [congruence|].
    rewrite List.Forall_forall in Hl.
    assert (forall x, Permissions.ends_with_star x = true -> Permissions.mem x l = false) as Hno.
    { intros x Hx. apply not_true_iff_false. rewrite Permissions.mem_In.
      intros [Hf _]%Hl. congruence. }
    cbn [mbind option_bind].
    rewrite Hno by apply Permissions.ends_with_star_app.
    destruct (Permissions.action_resource p) as [a r].
    replace (existsb _ l) with false; [by destruct (Str.has_char ":" p)|].
    symmetry. apply not_true_iff_false. rewrite existsb_exists.
    intros (q & [He Hp]%Hl & [E%String.eqb_eq|E%String.eqb_eq]%orb_true_iff); subst q.
    - by rewrite Permissions.ends_with_star_app in He.
    - done. }
  unfold Permissions.has_permission. apply Hgen.
  destruct (Permissions.get_role_permissions_cases role) as [->|(ps & Hin & ->)].
  { right. constructor. }
  pose proof Permissions.no_role_wildcards as Hw. rewrite List.Forall_forall in Hw.
  destruct (Hw _ Hin) as [Hadm|]; [left|by right]. simpl in Hadm. subst role.
  unfold Permissions.ROLE_PERMISSIONS in Hin. simpl in Hin.
  destruct Hin as [[= <-]|[Hin|[Hin|[Hin|[]]]]]; [by left|done..].
Qed.

End AuthFacts.

(** * Witnesses *)
Module AuthWitness.
Import Auth AuthFacts.
Local Open Scope string_scope.
Local Open Scope list_scope.

Definition alice : user := User 7 "alice" "operator" true.
Definition st0 : state :=
  State [alice] [] (Session (Some 7%Z) (Some "alice") (Some (SAt 0)) (Some (SAt 0)) None true) [].

Lemma require_auth_sound_witness :
  exists st' r,
    require_auth ["read:cas"] None 5 5 st0 = (st', Granted r) /\ by_session st0 5 r.
Proof.
  eexists _, _. split; [reflexivity|].
  destruct (require_auth_sound ["read:cas"] None 5 5 st0 _ _ eq_refl) as [[(tok & E & _)|Hs] _];
    [discriminate E|exact Hs].
Defined.

Lemma created_api_key_witness :
  match snd (verify_api_key "ucm_ak_T0" 100 101
               (fst (create_api_key 7 "ci" (Json.strings ["read:cas"]) 1 "T0" 1 0 0 st0))) with
  | Some r => (100 <= 0 + Time.days 1)%Z /\ r_user_id r = 7%Z /\
              r_permissions r = Json.strings ["read:cas"]
  | None => (0 + Time.days 1 < 100)%Z
  end.
Proof.
  apply (created_api_key_valid_until_expiry 7 "ci" (Json.strings ["read:cas"]) 1 "T0" 1 0 0
           100 101 st0 (List.Forall_nil _)).
Defined.

Lemma verify_session_witness :
  let '(st', r) := verify_session (Time.hours 9) st0 in
  match r with
  | None => (86400 * Time.second < Time.hours 9 - 0 \/
             28800 * Time.second < Time.hours 9 - 0)%Z /\ sess st' = empty_session
  | Some r => ~ (86400 * Time.second < Time.hours 9 - 0 \/
                 28800 * Time.second < Time.hours 9 - 0)%Z /\
              r_user_id r = u_id alice /\ s_last_activity (sess st') = Some (SAt (Time.hours 9)) /\
              s_login_time (sess st') = Some (SAt 0) /\ s_user_id (sess st') = Some 7%Z
  end.
Proof.
  apply (verify_session_spec (Time.hours 9) st0 7 alice 0 0); try reflexivity. discriminate.
Defined.
End AuthWitness.
