(* ===== verification/AuditSink.v ===== *)
(** The interface between the components that report actions and the audit
    service: what [AuditService.log_action] is called with, and what a client may
    assume of the trail it writes to. *)
From S2P Require Import Prelude.

(** An argument that may be a text, an integer or a dict. *)
Inductive pyarg := ANone | AStr (s : string) | AInt (z : Z) | ADict (kv : list (string * json)).

(** The arguments of [AuditService.log_action]. *)
Record event := Event {
  e_action : string;
  e_resource_type : option string;
  e_resource_id : pyarg;
  e_resource_name : pyarg;
  e_details : pyarg;
  e_success : bool;
  e_username : option string;
}.

Class AuditSink (T : Type) := {
  record_event : event -> T -> T;
  (** the trail passes its own integrity check *)
  intact : T -> Prop;
  (** the recorded actions, oldest first *)
  actions : T -> list string;
  record_intact e t : intact t -> intact (record_event e t);
  record_actions e t : actions (record_event e t) = actions t ++ [e_action e];
}.

(** Recording several events in order. *)
Definition record_events {T} `{AuditSink T} (es : list event) (t : T) : T :=
  fold_left (fun t e => record_event e t) es t.

Lemma record_events_intact {T} `{AuditSink T} es t : intact t -> intact (record_events es t).
Proof.
  revert t. induction es as [|e es IH]; intros t Ht; simpl; [done|]. by apply IH, record_intact.
Qed.

Lemma record_events_actions {T} `{AuditSink T} es t :
  actions (record_events es t) = actions t ++ List.map e_action es.
Proof.
  revert t. induction es as [|e es IH]; intros t; simpl; [by rewrite app_nil_r|].
  rewrite IH, record_actions, <-app_assoc. done.
Qed.

(** The plainest trail: the list of the recorded actions. *)
Program Definition list_sink : AuditSink (list string) := {|
  record_event ev l := l ++ [e_action ev];
  intact l := True;
  actions l := l;
|}.
Solve Obligations with done.
