(* ===== verification/AuditLog.v ===== *)
(** The audit service: [services/audit_service.py] and the row
    [models/__init__.py:AuditLog] with its hash chain.  [log_action] appends an
    entry chained to the newest one, [verify_integrity] walks the chain,
    [cleanup_old_logs] removes old entries; the [log_*] helpers build the events. *)
From S2P Require Import Prelude Hashes AuditSink.

Module AuditLog.
Local Open Scope string_scope.
Local Open Scope list_scope.

(** * The log entry *)

(** [AuditLog] *)
Record log := Log {
  l_id : Z;
  l_timestamp : Z;
  l_username : option string;
  l_action : string;
  l_resource_type : option string;
  l_resource_id : option string;
  l_resource_name : option string;
  l_details : option string;
  l_ip_address : option string;
  l_user_agent : option string;
  l_success : bool;
  l_prev_hash : option string;
  l_entry_hash : option string;
}.

Definition set_hashes (prev entry : option string) (l : log) : log :=
  Log (l_id l) (l_timestamp l) (l_username l) (l_action l) (l_resource_type l)
    (l_resource_id l) (l_resource_name l) (l_details l) (l_ip_address l) (l_user_agent l)
    (l_success l) prev entry.

(** A nullable text in an f-string, and the truth value of one. *)
Definition fmt (o : option string) : string := match o with Some s => s | None => "None" end.
Definition otruthy (o : option string) : bool :=
  match o with Some s => Str.truthy s | None => false end.
Definition bool_str (b : bool) : string := if b then "True" else "False".

(** The fields [compute_hash] joins with bars. *)
Definition hashed_fields (l : log) : list string :=
  [Num.str (l_id l); Time.str (l_timestamp l); fmt (l_username l); l_action l;
   fmt (l_resource_type l); fmt (l_resource_id l); fmt (l_details l); bool_str (l_success l)].

Definition hashed_text (prev : option string) (l : log) : string :=
  Str.join "|" (hashed_fields l ++ [default "" prev]).

(** ['0' * 64] *)
Definition genesis : string := Time.zeros 64.

(** * The request context of a log call *)
Record request := Request {
  q_forwarded_for : option string;
  q_remote_addr : option string;
  q_user_agent : option string;
}.

(** [g.current_user.username] when there is one, and the request when there is one. *)
Record context := Context {
  x_current_user : option string;
  x_request : option request;
}.

(** The client address: the first hop of X-Forwarded-For, else the peer. *)
Definition client_ip (q : request) : option string :=
  match (match q_forwarded_for q with Some a => Some a | None => q_remote_addr q end) with
  | Some a => Some (if Str.has_char "," a
                    then Str.strip (default "" (List.head (Str.split "," a))) else a)
  | None => None
  end.

(** [isinstance(x, dict)] turns into [json.dumps]; then [str(x) if x else None]. *)
Definition guard (a : pyarg) : pyarg :=
  match a with ADict kv => AStr (Json.dumps (JDict kv)) | _ => a end.
Definition text_or_none (a : pyarg) : option string :=
  match a with
  | AStr s => if Str.truthy s then Some s else None
  | AInt z => if (z =? 0)%Z then None else Some (Num.str z)
  | ANone | ADict _ => None
  end.

Section Service.
Context `{Hashes}.

(** [AuditLog.compute_hash(prev_hash)] *)
Definition compute_hash (prev : option string) (l : log) : string :=
  sha256_hex (hashed_text prev l).

(** The row [log_action] builds before it is chained. *)
Definition new_entry (ev : event) (cx : context) (now nid : Z) : log :=
  let username := match e_username ev with Some u => Some u | None => x_current_user cx end in
  Log nid now
    (Some (if otruthy username then fmt username else "anonymous"))
    (e_action ev) (e_resource_type ev)
    (text_or_none (e_resource_id ev)) (text_or_none (guard (e_resource_name ev)))
    (text_or_none (guard (e_details ev)))
    (q ← x_request cx; client_ip q)
    ((fun q => Str.take 500 (default "" (q_user_agent q))) <$> x_request cx)
    (e_success ev) None None.

(** The hash the newest older entry leaves to the next one. *)
Definition chain_head (nid : Z) (logs : list log) : string :=
  match Table.last_by l_id (Table.all (fun l => (l_id l <? nid)%Z) logs) with
  | Some p => if otruthy (l_entry_hash p) then fmt (l_entry_hash p) else genesis
  | None => genesis
  end.

(** [AuditService.log_action]: [nid] is the id the database gives the row, [db_ok]
    says whether flush and commit succeed; on failure the session is rolled back
    and the call answers [None]. *)
Definition log_action (ev : event) (cx : context) (now nid : Z) (db_ok : bool) (logs : list log)
  : list log * option log :=
  if db_ok then
    let entry := new_entry ev cx now nid in
    let prev_hash := chain_head nid logs in
    let entry := set_hashes (Some prev_hash) (Some (compute_hash (Some prev_hash) entry)) entry in
    (logs ++ [entry], Some entry)
  else (logs, None).

(** * Verification *)

Inductive integrity_error :=
| PrevHashMismatch (id : Z) (expected actual : string)
| EntryHashMismatch (id : Z) (expected actual : string).

(** The loop of [verify_integrity]: [prev_hash] is the running variable. *)
Fixpoint verify_loop (logs : list log) (prev_hash : string) : list integrity_error :=
  match logs with
  | [] => []
  | l :: logs' =>
      match l_entry_hash l with
      | Some h =>
          if Str.truthy h then
            (if otruthy (l_prev_hash l) && negb (String.eqb (fmt (l_prev_hash l)) prev_hash)
             then [PrevHashMismatch (l_id l) prev_hash (fmt (l_prev_hash l))] else [])
            ++ (let computed := compute_hash (l_prev_hash l) l in
                if String.eqb computed h then [] else [EntryHashMismatch (l_id l) computed h])
            ++ verify_loop logs' h
          else verify_loop logs' genesis
      | None => verify_loop logs' genesis
      end
  end.

(** The rows of the query: [if start_id], [if end_id] and ORDER BY id. *)
Definition in_range (start_id end_id : option Z) (l : log) : bool :=
  (match start_id with Some s => (s =? 0)%Z || (s <=? l_id l)%Z | None => true end) &&
  (match end_id with Some e => (e =? 0)%Z || (l_id l <=? e)%Z | None => true end).

Record report := Report { v_valid : bool; v_checked : nat; v_errors : list integrity_error }.

(** [AuditService.verify_integrity] *)
Definition verify_integrity (start_id end_id : option Z) (logs : list log) : report :=
  let rows := Table.order_by l_id (Table.all (in_range start_id end_id) logs) in
  match rows with
  | [] => Report true 0 []
  | _ =>
      let errors := verify_loop rows genesis in
      Report (match errors with [] => true | _ => false end) (length rows) errors
  end.

(** [AuditService.cleanup_old_logs]: the rows left and the number deleted. *)
Definition cleanup_old_logs (retention_days now : Z) (logs : list log) : list log * nat :=
  let cutoff := (now - Time.days retention_days)%Z in
  let old l := (l_timestamp l <? cutoff)%Z in
  (Table.delete old logs, Table.count old logs).

(** [AuditService.get_log_by_id] *)
Definition get_log_by_id (id : Z) (logs : list log) : option log :=
  Table.first (fun l => (l_id l =? id)%Z) logs.

End Service.

(** * The event helpers *)

(** [action.replace("_", " ").title()] *)
Definition action_title (action : string) : string := Str.title (Str.replace "_" " " action).

(** [getattr(x, 'descr', None) or getattr(x, 'subject', None) or f'<kind> #{x.id}'] *)
Definition display_name (kind : string) (descr subject : option string) (id : Z) : string :=
  if otruthy descr then fmt descr
  else if otruthy subject then fmt subject
  else kind ^+ " #" ^+ Num.str id.

Definition details_or (details : option string) (dflt : string) : pyarg :=
  AStr (if otruthy details then fmt details else dflt).

Definition resource_event (rtype kind action : string) (descr subject : option string) (id : Z)
    (details : option string) (success : bool) : event :=
  let name := display_name kind descr subject id in
  Event action (Some rtype) (AInt id) (AStr name)
    (details_or details (action_title action ^+ ": " ^+ name)) success None.

(** [AuditService.log_certificate], [log_ca], [log_csr] *)
Definition log_certificate := resource_event "certificate" "Cert".
Definition log_ca := resource_event "ca" "CA".
Definition log_csr := resource_event "csr" "CSR".

(** [AuditService.log_user] *)
Definition log_user (action : string) (username : option string) (id : Z)
    (details : option string) (success : bool) : event :=
  let name := if otruthy username then fmt username else "User #" ^+ Num.str id in
  Event action (Some "user") (AInt id) (AStr name)
    (details_or details (action_title action ^+ ": " ^+ name)) success None.

(** [AuditService.log_auth] *)
Definition log_auth (action username : string) (user_id : pyarg) (details : option string)
    (success : bool) : event :=
  Event action (Some "user") user_id (AStr username)
    (details_or details (action_title action ^+ " for " ^+ username)) success (Some username).

(** [AuditService.log_acme] and [AuditService.log_scep] *)
Definition log_acme (action resource_name : string) (resource_id : pyarg)
    (details : option string) (success : bool) (username : string) : event :=
  Event action (Some "acme") resource_id (AStr resource_name)
    (details_or details ("ACME " ^+ Str.replace "_" " " action ^+ ": " ^+ resource_name))
    success (Some username).
Definition log_scep (action resource_name : string) (resource_id : pyarg)
    (details : option string) (success : bool) (username : string) : event :=
  Event action (Some "scep") resource_id (AStr resource_name)
    (details_or details ("SCEP " ^+ Str.replace "_" " " action ^+ ": " ^+ resource_name))
    success (Some username).

(** [AuditService.log_system] *)
Definition log_system (action details : string) (success : bool) : event :=
  Event action (Some "system") ANone ANone (AStr details) success (Some "system").

End AuditLog.
