(* ===== verification/AuditFacts.v ===== *)
(** What the audit chain promises: [log_action] keeps [verify_integrity]
    satisfied, two trails with the same last hash agree on every hashed field,
    and the limits of the scheme: fields outside the hash, partial ranges and
    the retention cleanup. *)
From S2P Require Import Prelude Hashes AuditSink AuditLog.

Module AuditFacts.
Import AuditLog.
Local Open Scope string_scope.
Local Open Scope list_scope.

Section Facts.
Context `{Hashes}.

(** * The running hash of [verify_integrity] *)

Definition next_prev (l : log) : string :=
  if otruthy (l_entry_hash l) then fmt (l_entry_hash l) else genesis.
Definition tail_hash (rows : list log) (p : string) : string :=
  fold_left (fun _ l => next_prev l) rows p.

Lemma tail_hash_snoc rows l p : tail_hash (rows ++ [l]) p = next_prev l.
Proof. unfold tail_hash. by rewrite fold_left_app. Qed.

Lemma verify_loop_app rows rows' p :
  verify_loop (rows ++ rows') p = verify_loop rows p ++ verify_loop rows' (tail_hash rows p).
Proof.
  revert p. induction rows as [|l rows IH]; intros p; [done|].
  change (tail_hash (l :: rows) p) with (tail_hash rows (next_prev l)).
  unfold next_prev, otruthy, fmt. cbn [app verify_loop].
  destruct (l_entry_hash l) as [h|]; [|by rewrite IH].
  destruct (Str.truthy h); [|by rewrite IH]. by rewrite IH, !app_assoc.
Qed.

(** * Ids and the order of the rows *)

Definition below (nid : Z) (logs : list log) : Prop := forall l, In l logs -> (l_id l < nid)%Z.

(** The id the database hands out next. *)
Definition next_id (logs : list log) : Z := (fold_right Z.max 0 (List.map l_id logs) + 1)%Z.

Lemma next_id_below logs : below (next_id logs) logs.
Proof.
  unfold below, next_id. intros l. induction logs as [|x logs IH]; simpl; [done|].
  intros [->|Hl]; [lia|]. specialize (IH Hl). lia.
Qed.

Definition unique_ids (logs : list log) : Prop := NoDup (List.map l_id logs).

Lemma all_below nid logs : below nid logs -> Table.all (fun l => (l_id l <? nid)%Z) logs = logs.
Proof.
  unfold below, Table.all. induction logs as [|x logs IH]; simpl; intros Hb; [done|].
  destruct (Z.ltb_spec (l_id x) nid); [|specialize (Hb x); intuition lia].
  f_equal. apply IH. intros l Hl. apply Hb. by right.
Qed.

Lemma in_range_all rows : Table.all (in_range None None) rows = rows.
Proof. induction rows as [|x r IH]; [done|]. simpl. f_equal. exact IH. Qed.

(** The newest row is the last one of the sorted trail. *)
Lemma last_by_order_by logs m :
  unique_ids logs -> Table.last_by l_id logs = Some m ->
  exists rows, Table.order_by l_id logs = rows ++ [m].
Proof.
  intros Hn Hm. pose proof (Table.order_by_Permutation l_id logs) as Hp.
  pose proof (Table.order_by_Sorted l_id logs) as Hs.
  destruct (Table.order_by l_id logs) as [|x rows _] eqn:E using rev_ind.
  - apply Permutation_sym, Permutation_nil in Hp as ->. done.
  - exists rows. do 2 f_equal.
    pose proof (Table.last_by_In _ _ _ Hm) as Hin.
    assert (In x logs) as Hx.
    { eapply Permutation_in; [symmetry; exact Hp|]. apply in_or_app. simpl. auto. }
    pose proof (Table.last_by_max _ _ _ x Hm Hx) as Hmax.
    assert (l_id m <= l_id x)%Z as Hle.
    { assert (In m (rows ++ [x])) as [Hr|[->|[]]]%in_app_or by (by eapply Permutation_in).
      - clear -Hs Hr. induction rows as [|y rows IH]; [done|]. simpl in Hs.
        apply StronglySorted_inv in Hs as [Hs Hy].
        destruct Hr as [->|Hr]; [|by apply IH].
        rewrite List.Forall_forall in Hy. apply Hy. apply in_or_app. simpl. auto.
      - lia. }
    assert (l_id x = l_id m) as Hid by lia.
    clear -Hn Hin Hx Hid. unfold unique_ids in Hn.
    induction logs as [|y logs IH]; [done|]. simpl in *.
    apply NoDup_cons in Hn as [Hy Hn].
    destruct Hx as [->|Hx], Hin as [->|Hin]; [done|..|by apply IH].
    + exfalso. apply Hy. rewrite Hid. apply list_elem_of_In. by apply in_map.
    + exfalso. apply Hy. rewrite <-Hid. apply list_elem_of_In. by apply in_map.
Qed.

Lemma chain_head_tail nid logs :
  below nid logs -> unique_ids logs ->
  chain_head nid logs = tail_hash (Table.order_by l_id logs) genesis.
Proof.
  intros Hb Hn. unfold chain_head. rewrite all_below by done.
  destruct (Table.last_by l_id logs) as [m|] eqn:E.
  - destruct (last_by_order_by _ _ Hn E) as [rows ->]. by rewrite tail_hash_snoc.
  - apply Table.last_by_None in E as ->. done.
Qed.

(** * Appending *)

Definition valid (logs : list log) : Prop := v_valid (verify_integrity None None logs) = true.

Lemma valid_loop logs : valid logs <-> verify_loop (Table.order_by l_id logs) genesis = [].
Proof.
  unfold valid, verify_integrity. rewrite in_range_all.
  destruct (Table.order_by l_id logs) as [|l rows]; [done|]. cbn [v_valid].
  by destruct (verify_loop (l :: rows) genesis).
Qed.

Lemma truthy_length s n : String.length s = S n -> Str.truthy s = true.
Proof. by destruct s. Qed.

Lemma verify_loop_new p l :
  verify_loop [set_hashes (Some p) (Some (compute_hash (Some p) l)) l] p = [].
Proof.
  cbn [verify_loop l_entry_hash l_prev_hash l_id fmt otruthy set_hashes].
  change (compute_hash (Some p) (Log _ _ _ _ _ _ _ _ _ _ _ _ _)) with (compute_hash (Some p) l).
  rewrite !StrFacts.eqb_refl, andb_false_r.
  by rewrite (truthy_length _ 63) by apply sha256_hex_length.
Qed.

Lemma log_action_rows ev cx now nid logs :
  log_action ev cx now nid true logs =
  (let e := new_entry ev cx now nid in
   let p := chain_head nid logs in
   let e := set_hashes (Some p) (Some (compute_hash (Some p) e)) e in (logs ++ [e], Some e)).
Proof. done. Qed.

Lemma valid_log_action ev cx now nid db_ok logs :
  below nid logs -> unique_ids logs -> valid logs ->
  valid (log_action ev cx now nid db_ok logs).1 /\ unique_ids (log_action ev cx now nid db_ok logs).1.
Proof.
  intros Hb Hn Hv. destruct db_ok; [|done]. rewrite log_action_rows. cbv zeta. cbn [fst]. split.
  - apply valid_loop. rewrite Table.order_by_snoc by exact Hb.
    rewrite verify_loop_app, <-(chain_head_tail nid) by done.
    apply valid_loop in Hv as ->. apply verify_loop_new.
  - unfold unique_ids. rewrite map_app. apply NoDup_app. split; [done|]. split.
    + intros z Hz%list_elem_of_In. apply in_map_iff in Hz as (l & <- & Hl). simpl.
      intros E%list_elem_of_singleton. specialize (Hb _ Hl). lia.
    + simpl. apply NoDup_singleton.
Qed.

(** * What the chain pins down *)

(** Rows written by [log_action]: both hashes are set. *)
Definition chained (l : log) : Prop :=
  otruthy (l_prev_hash l) = true /\ otruthy (l_entry_hash l) = true.

(** The text of an entry the hash covers, without the previous hash. *)
Definition covered (l : log) : string := Str.join "|" (hashed_fields l).
Definition full_text (l : log) : string := hashed_text (l_prev_hash l) l.

Lemma join_snoc sep ws w : ws <> [] -> Str.join sep (ws ++ [w]) = Str.join sep ws ^+ sep ^+ w.
Proof.
  induction ws as [|x ws IH]; [done|]. intros _. destruct ws as [|y ws]; [done|].
  change (x ^+ sep ^+ Str.join sep ((y :: ws) ++ [w]) = (x ^+ sep ^+ Str.join sep (y :: ws)) ^+ sep ^+ w).
  rewrite IH by done. by rewrite !StrFacts.app_assoc.
Qed.

Lemma full_text_eq l : full_text l = covered l ^+ "|" ^+ default "" (l_prev_hash l).
Proof. apply join_snoc. done. Qed.

(** The last entry of a valid chain. *)
Lemma valid_snoc rows l :
  chained l -> verify_loop (rows ++ [l]) genesis = [] ->
  verify_loop rows genesis = [] /\ l_prev_hash l = Some (tail_hash rows genesis) /\
  l_entry_hash l = Some (sha256_hex (full_text l)).
Proof.
  intros [Hp He] Hv. rewrite verify_loop_app in Hv. apply app_eq_nil in Hv as [Hr Hl].
  split; [done|]. cbn [verify_loop] in Hl. unfold otruthy in Hp, He, Hl.
  destruct (l_entry_hash l) as [h|]; [|done]. destruct (l_prev_hash l) as [q|] eqn:Eq; [|done].
  rewrite Hp, He in Hl. cbn [andb fmt] in Hl.
  destruct (String.eqb q (tail_hash rows genesis)) eqn:E1; [|done].
  apply String.eqb_eq in E1 as ->. destruct (String.eqb _ h) eqn:E2; [|done].
  apply String.eqb_eq in E2 as <-. unfold full_text, compute_hash. by rewrite Eq.
Qed.

Lemma next_prev_hash l h : Str.truthy h = true -> l_entry_hash l = Some h -> next_prev l = h.
Proof. unfold next_prev. intros Ht ->. simpl. by rewrite Ht. Qed.

Lemma sha_truthy s : Str.truthy (sha256_hex s) = true.
Proof. eapply (truthy_length _ 63), sha256_hex_length. Qed.

Lemma tail_length rows :
  List.Forall chained rows -> verify_loop rows genesis = [] ->
  String.length (tail_hash rows genesis) = 64.
Proof.
  destruct rows as [|l rows _] using rev_ind; [done|]. intros Hc Hv.
  apply List.Forall_app in Hc as [_ Hl]. inversion_clear Hl as [|?? Hl' _].
  destruct (valid_snoc _ _ Hl' Hv) as (_ & _ & He). rewrite tail_hash_snoc.
  rewrite (next_prev_hash _ _ (sha_truthy _) He). apply sha256_hex_length.
Qed.

(** Two different texts of these entries have one digest, or the digest of one
    of them is the sixty-four zeros a chain starts from. *)
Definition broken_digest (rows1 rows2 : list log) : Prop :=
  (exists l1 l2, In l1 rows1 /\ In l2 rows2 /\ full_text l1 <> full_text l2 /\
                 sha256_hex (full_text l1) = sha256_hex (full_text l2)) \/
  (exists l, (In l rows1 \/ In l rows2) /\ sha256_hex (full_text l) = genesis).

Lemma broken_digest_snoc rows1 rows2 a b :
  broken_digest rows1 rows2 -> broken_digest (rows1 ++ [a]) (rows2 ++ [b]).
Proof.
  intros [(l1 & l2 & H1 & H2 & Hd)|(l & Hl & E)].
  - left. exists l1, l2. rewrite !in_app_iff. auto.
  - right. exists l. rewrite !in_app_iff. naive_solver.
Qed.

Lemma loops_agree rows1 rows2 :
  List.Forall chained rows1 -> List.Forall chained rows2 ->
  verify_loop rows1 genesis = [] -> verify_loop rows2 genesis = [] ->
  tail_hash rows1 genesis = tail_hash rows2 genesis ->
  List.map covered rows1 = List.map covered rows2 \/ broken_digest rows1 rows2.
Proof.
  revert rows2. induction rows1 as [|a rows1 IH] using rev_ind;
    intros rows2; destruct rows2 as [|b rows2 _] using rev_ind; [by left|..];
    rewrite ?List.Forall_app, ?List.Forall_cons_iff.
  - intros _ [_ [Hb _]] _ Hv2 E. right. right. exists b.
    destruct (valid_snoc _ _ Hb Hv2) as (_ & _ & He).
    rewrite tail_hash_snoc, (next_prev_hash _ _ (sha_truthy _) He) in E.
    rewrite in_app_iff. simpl. auto.
  - intros [_ [Ha _]] _ Hv1 _ E. right. right. exists a.
    destruct (valid_snoc _ _ Ha Hv1) as (_ & _ & He).
    rewrite tail_hash_snoc, (next_prev_hash _ _ (sha_truthy _) He) in E.
    rewrite in_app_iff. simpl. auto.
  - intros [H1 [Ha _]] [H2 [Hb _]] Hv1 Hv2.
    destruct (valid_snoc _ _ Ha Hv1) as (Hr1 & Hp1 & He1).
    destruct (valid_snoc _ _ Hb Hv2) as (Hr2 & Hp2 & He2).
    rewrite !tail_hash_snoc, (next_prev_hash _ _ (sha_truthy _) He1),
      (next_prev_hash _ _ (sha_truthy _) He2). intros E.
    destruct (decide (full_text a = full_text b)) as [Et|Hne].
    2: { right. left. exists a, b. rewrite !in_app_iff. simpl. auto 6. }
    rewrite !full_text_eq, Hp1, Hp2 in Et. cbn [from_option id] in Et.
    assert (covered a = covered b /\ tail_hash rows1 genesis = tail_hash rows2 genesis) as [Ec Eq].
    { apply (f_equal Str.rev) in Et. rewrite !StrFacts.rev_app_distr, !StrFacts.app_assoc in Et.
      apply StrFacts.app_inj_length in Et as [Et1 Et2].
      2: { rewrite !StrFacts.length_rev. rewrite !tail_length; done. }
      apply (f_equal Str.rev) in Et1. rewrite !StrFacts.rev_involutive in Et1.
      apply StrFacts.app_inj_length in Et2 as [_ Et2]; [|done].
      apply (f_equal Str.rev) in Et2. by rewrite !StrFacts.rev_involutive in Et2. }
    destruct (IH rows2 H1 H2 Hr1 Hr2 Eq) as [Em|Hd]; [left|right; by apply broken_digest_snoc].
    rewrite !map_app. simpl. by rewrite Em, Ec.
Qed.

(** * Where the check fails on an untouched trail *)

Lemma suffix_rejected pre rows :
  List.Forall chained (pre ++ rows) -> pre <> [] -> rows <> [] ->
  verify_loop (pre ++ rows) genesis = [] ->
  verify_loop rows genesis <> [] \/ exists l, In l pre /\ sha256_hex (full_text l) = genesis.
Proof.
  intros Hc Hp Hr Hv. rewrite verify_loop_app in Hv. apply app_eq_nil in Hv as [Hv1 Hv2].
  destruct pre as [|a pre _] using rev_ind; [done|]. destruct rows as [|l rows]; [done|].
  rewrite !List.Forall_app, !List.Forall_cons_iff in Hc. destruct Hc as ((_ & Ha & _) & (Hl & _)).
  destruct (valid_snoc _ _ Ha Hv1) as (_ & _ & He).
  assert (forall p, verify_loop (l :: rows) p = [] -> l_prev_hash l = Some p) as Hprev.
  { intros p Hv. change (l :: rows) with ([l] ++ rows) in Hv.
    rewrite verify_loop_app in Hv. apply app_eq_nil in Hv as [Hv _].
    destruct Hl as [Hlp Hle]. cbn [verify_loop] in Hv. unfold otruthy in *.
    destruct (l_entry_hash l) as [h|]; [|done]. destruct (l_prev_hash l) as [q|]; [|done].
    rewrite Hlp, Hle in Hv. cbn [andb fmt] in Hv.
    destruct (String.eqb q p) eqn:E; [|done]. by apply String.eqb_eq in E as ->. }
  destruct (verify_loop (l :: rows) genesis) eqn:E; [right|by left].
  exists a. rewrite in_app_iff. split; [simpl; auto|].
  apply Hprev in E. apply Hprev in Hv2. rewrite tail_hash_snoc in Hv2.
  rewrite (next_prev_hash _ _ (sha_truthy _) He) in Hv2. congruence.
Qed.

(** A filter that keeps a proper suffix of an intact trail makes it fail. *)
Lemma filtered_rejected (p : log -> bool) logs :
  StronglySorted (fun a b => p a = true -> p b = true) (Table.order_by l_id logs) ->
  valid logs -> List.Forall chained logs -> existsb p logs = true -> forallb p logs = false ->
  verify_loop (Table.order_by l_id (Table.all p logs)) genesis <> [] \/
  exists l, In l logs /\ sha256_hex (full_text l) = genesis.
Proof.
  intros Hs Hv Hc Hex Hall. rewrite Table.order_by_all. apply valid_loop in Hv.
  destruct (Table.all_suffix _ _ Hs) as (pre & E & Hpre).
  pose proof (proj2 (Table.order_by_Forall l_id chained logs) Hc) as Hc'. rewrite E in Hv, Hc'.
  destruct (suffix_rejected _ _ Hc') as [Hr|(l & Hl & Hg)]; [..|by left|right].
  - intros ->. simpl in E. rewrite <-not_true_iff_false, forallb_forall in Hall. apply Hall.
    intros l Hl. apply (Table.order_by_In l_id) in Hl. rewrite E in Hl.
    by apply Table.In_all in Hl as [_ ?].
  - intros En. apply existsb_exists in Hex as (l & Hl & Hp).
    assert (In l (Table.all p (Table.order_by l_id logs))) as Hi
      by (apply Table.In_all; split; [by apply Table.order_by_In|done]).
    by rewrite En in Hi.
  - done.
  - exists l. split; [|done]. apply (Table.order_by_In l_id). rewrite E. apply in_or_app. by left.
Qed.

(** * The properties *)

(** Appending through [log_action] (whether or not the database accepts the
    row) keeps [verify_integrity] satisfied on the whole trail, keeps the ids
    unique, and a refused row leaves the trail as it was. *)
Theorem log_action_keeps_integrity ev cx now nid db_ok logs :
  below nid logs -> unique_ids logs -> v_valid (verify_integrity None None logs) = true ->
  let '(logs', entry) := log_action ev cx now nid db_ok logs in
  v_valid (verify_integrity None None logs') = true /\ unique_ids logs' /\
  match entry with
  | Some e => logs' = logs ++ [e] /\ l_action e = e_action ev /\ chained e
  | None => logs' = logs
  end.
Proof.
  intros Hb Hn Hv. destruct (valid_log_action ev cx now nid db_ok logs Hb Hn Hv) as [H1 H2].
  destruct (log_action ev cx now nid db_ok logs) as [logs' entry] eqn:E.
  split; [exact H1|]. split; [exact H2|]. destruct db_ok; injection E as <- <-; [|done].
  split; [done|]. split; [done|]. split; cbn [set_hashes l_prev_hash l_entry_hash otruthy].
  - unfold chain_head. destruct (Table.last_by _ _) as [m|]; [|done].
    destruct (otruthy (l_entry_hash m)) eqn:Eh; [|done]. by destruct (l_entry_hash m).
  - apply sha_truthy.
Qed.

(** Two intact trails of chained entries whose newest entries carry the same
    hash agree entry by entry on every hashed field, unless two different texts
    of these very entries have one SHA-256 digest (or one of them hashes to the
    starting value). *)
Theorem equal_heads_pin_the_trail logs1 logs2 :
  List.Forall chained logs1 -> List.Forall chained logs2 ->
  v_valid (verify_integrity None None logs1) = true ->
  v_valid (verify_integrity None None logs2) = true ->
  tail_hash (Table.order_by l_id logs1) genesis = tail_hash (Table.order_by l_id logs2) genesis ->
  List.map covered (Table.order_by l_id logs1) = List.map covered (Table.order_by l_id logs2) \/
  broken_digest (Table.order_by l_id logs1) (Table.order_by l_id logs2).
Proof.
  intros H1 H2 V1%valid_loop V2%valid_loop E.
  by apply loops_agree; rewrite ?Table.order_by_Forall.
Qed.

(** The fields [compute_hash] leaves out, rewritten at will. *)
Definition redact (name ip agent : log -> option string) (l : log) : log :=
  Log (l_id l) (l_timestamp l) (l_username l) (l_action l) (l_resource_type l) (l_resource_id l)
    (name l) (l_details l) (ip l) (agent l) (l_success l) (l_prev_hash l) (l_entry_hash l).

Lemma verify_loop_redact name ip agent rows p :
  verify_loop (List.map (redact name ip agent) rows) p = verify_loop rows p.
Proof.
  revert p. induction rows as [|l rows IH]; intros p; [done|]. cbn [List.map verify_loop redact
    l_entry_hash l_prev_hash l_id].
  change (compute_hash (l_prev_hash l) (Log _ _ _ _ _ _ _ _ _ _ _ _ _))
    with (compute_hash (l_prev_hash l) l).
  destruct (l_entry_hash l) as [h|]; [|apply IH]. by rewrite !IH.
Qed.

(** Rewriting the resource name, the client address and the user agent of any
    entries leaves the verdict of [verify_integrity] unchanged, for every trail
    and range: these fields are outside the hash. *)
Theorem client_fields_unprotected start_id end_id name ip agent logs :
  verify_integrity start_id end_id (List.map (redact name ip agent) logs) =
  verify_integrity start_id end_id logs.
Proof.
  unfold verify_integrity.
  assert (Table.order_by l_id (Table.all (in_range start_id end_id)
            (List.map (redact name ip agent) logs)) =
          List.map (redact name ip agent)
            (Table.order_by l_id (Table.all (in_range start_id end_id) logs))) as ->.
  { unfold Table.all. induction logs as [|l logs IH]; [done|]. simpl.
    change (in_range start_id end_id (redact name ip agent l)) with (in_range start_id end_id l).
    destruct (in_range start_id end_id l); [|done]. simpl. rewrite IH. clear IH.
    generalize (Table.order_by l_id (List.filter (in_range start_id end_id) logs)) as rows.
    induction rows as [|x rows IH]; [done|]. simpl. rewrite IH. by destruct (l_id l <=? l_id x)%Z. }
  destruct (Table.order_by l_id (Table.all (in_range start_id end_id) logs)) as [|l rows]; [done|].
  rewrite <-(verify_loop_redact name ip agent (l :: rows)), length_map. done.
Qed.

Lemma rejected_report start_id end_id logs :
  verify_loop (Table.order_by l_id (Table.all (in_range start_id end_id) logs)) genesis <> [] ->
  v_valid (verify_integrity start_id end_id logs) = false.
Proof.
  unfold verify_integrity. destruct (Table.order_by _ _) as [|l rows]; [done|]. cbn [v_valid].
  by destruct (verify_loop (l :: rows) genesis).
Qed.

(** Verifying an intact trail from a start id that leaves out its first entries
    reports a mismatch (or an entry hashes to sixty-four zeros): the loop starts
    from the genesis hash whatever the range. *)
Theorem partial_range_rejected s logs :
  s <> 0%Z -> v_valid (verify_integrity None None logs) = true -> List.Forall chained logs ->
  existsb (fun l => (s <=? l_id l)%Z) logs = true ->
  existsb (fun l => (l_id l <? s)%Z) logs = true ->
  v_valid (verify_integrity (Some s) None logs) = false \/
  exists l, In l logs /\ sha256_hex (full_text l) = genesis.
Proof.
  intros Hs Hv Hc H1 H2.
  assert (forall l, in_range (Some s) None l = (s <=? l_id l)%Z) as Er.
  { intros l. unfold in_range. rewrite andb_true_r. by destruct (Z.eqb_spec s 0). }
  destruct (filtered_rejected (in_range (Some s) None) logs) as [Hl|Hg]; [..|by right]; try done.
  - pose proof (Table.order_by_Sorted l_id logs) as Hsort. induction Hsort as [|a l ? IH Ha];
      constructor; [done|]. rewrite List.Forall_forall in *. intros b Hb. specialize (Ha b Hb).
    rewrite !Er, !Z.leb_le. lia.
  - apply existsb_exists in H1 as (l & Hl & Hp). apply existsb_exists. exists l. by rewrite Er.
  - rewrite <-not_true_iff_false, forallb_forall. intros Ha.
    apply existsb_exists in H2 as (l & Hl & Hlt). specialize (Ha l Hl). rewrite Er in Ha.
    apply Z.leb_le in Ha. apply Z.ltb_lt in Hlt. lia.
  - left. by apply rejected_report.
Qed.

(** The retention cleanup of an intact trail, when it deletes some of its
    entries and keeps some, leaves a trail that [verify_integrity] reports as
    tampered (or an entry hashes to sixty-four zeros). *)
Theorem cleanup_breaks_the_chain days now logs :
  v_valid (verify_integrity None None logs) = true -> List.Forall chained logs ->
  (forall a b, In a logs -> In b logs -> (l_id a <= l_id b)%Z -> (l_timestamp a <= l_timestamp b)%Z) ->
  let '(logs', n) := cleanup_old_logs days now logs in
  n <> 0 -> logs' <> [] ->
  v_valid (verify_integrity None None logs') = false \/
  exists l, In l logs /\ sha256_hex (full_text l) = genesis.
Proof.
  intros Hv Hc Hmono. unfold cleanup_old_logs.
  set (old := fun l => (l_timestamp l <? now - Time.days days)%Z). intros Hn Hne.
  destruct (filtered_rejected (fun l => negb (old l)) logs) as [Hl|Hg]; [..|by right]; try done.
  - pose proof (Table.order_by_Sorted l_id logs) as Hsort.
    assert (forall x, In x (Table.order_by l_id logs) -> In x logs) as Hin
      by (intros x; apply Table.order_by_In).
    induction Hsort as [|a l ? IH Ha]; constructor; [apply IH; intros x ?; apply Hin; by right|].
    rewrite List.Forall_forall in *. intros b Hb. specialize (Ha b Hb).
    specialize (Hmono a b (Hin a (or_introl eq_refl)) (Hin b (or_intror Hb)) Ha).
    unfold old. rewrite !negb_true_iff, !Z.ltb_ge. lia.
  - destruct (Table.delete old logs) as [|l r] eqn:E; [done|].
    assert (In l (Table.delete old logs)) as [Hl Ho]%Table.In_delete by (rewrite E; by left).
    apply existsb_exists. exists l. by rewrite Ho.
  - rewrite <-not_true_iff_false, forallb_forall. intros Ha. apply Hn.
    unfold Table.count. destruct (Table.all old logs) as [|l r] eqn:E; [done|].
    assert (In l (Table.all old logs)) as [Hl Ho]%Table.In_all by (rewrite E; by left).
    specialize (Ha l Hl). by rewrite Ho in Ha.
  - left. apply rejected_report. by rewrite in_range_all.
Qed.

(** * The audit service as a sink *)

Section Sink.
Context (cx : context) (now : Z).

Definition sink_record (ev : event) (logs : list log) : list log :=
  (log_action ev cx now (next_id logs) true logs).1.
Definition sink_intact (logs : list log) : Prop := unique_ids logs /\ valid logs.

Lemma sink_record_intact ev logs : sink_intact logs -> sink_intact (sink_record ev logs).
Proof.
  intros [Hn Hv]. by destruct (valid_log_action ev cx now _ true logs (next_id_below logs) Hn Hv).
Qed.

Lemma sink_record_actions ev logs :
  List.map l_action (sink_record ev logs) = List.map l_action logs ++ [e_action ev].
Proof. unfold sink_record. rewrite log_action_rows. cbv zeta. cbn [fst]. by rewrite map_app. Qed.

(** The trail of a database that accepts the rows. *)
#[global] Instance audit_sink : AuditSink (list log) := {
  record_event := sink_record;
  intact := sink_intact;
  actions := List.map l_action;
  record_intact := sink_record_intact;
  record_actions := sink_record_actions;
}.

End Sink.

End Facts.
(** * Witnesses: a trail of three actions, hashed with SHA-256 *)
Module Witness.

Definition ev (a : string) : event := log_auth a "ana" (AInt 7) None true.
Definition cx : context := Context None (Some (Request None (Some "10.0.0.9") (Some "curl"))).
Definition trail : list log :=
  let l1 := (log_action (ev "login_failure") cx (Time.days 19000) 1 true []).1 in
  let l2 := (log_action (ev "login_success") cx (Time.days 19010) 2 true l1).1 in
  (log_action (ev "logout") cx (Time.days 19020) 3 true l2).1.

Lemma trail_chained : List.Forall chained trail.
Proof. repeat (constructor; [vm_compute; split; reflexivity|]). constructor. Qed.

Lemma trail_ids : List.map l_id trail = [1; 2; 3]%Z.
Proof. vm_compute. reflexivity. Qed.

Lemma below_ids nid logs : forallb (fun i => (i <? nid)%Z) (List.map l_id logs) = true -> below nid logs.
Proof.
  rewrite forallb_forall. intros H l Hl. apply Z.ltb_lt, H. by apply in_map.
Qed.

Lemma stamps_monotone logs :
  (let stamps := List.map (fun l => (l_id l, l_timestamp l)) logs in
   forallb (fun a => forallb (fun b => implb (a.1 <=? b.1)%Z (a.2 <=? b.2)%Z) stamps) stamps) = true ->
  forall a b, In a logs -> In b logs -> (l_id a <= l_id b)%Z -> (l_timestamp a <= l_timestamp b)%Z.
Proof.
  cbv zeta. rewrite forallb_forall. intros H a b Ha Hb.
  specialize (H (l_id a, l_timestamp a)
    (in_map (fun l => (l_id l, l_timestamp l)) _ _ Ha)).
  rewrite forallb_forall in H.
  specialize (H (l_id b, l_timestamp b)
    (in_map (fun l => (l_id l, l_timestamp l)) _ _ Hb)).
  simpl in H. destruct (Z.leb_spec (l_id a) (l_id b)), (Z.leb_spec (l_timestamp a) (l_timestamp b));
    done || lia.
Qed.

Lemma log_action_keeps_integrity_witness :
  v_valid (verify_integrity None None (log_action (ev "logout") cx 5 4 true trail).1) = true.
Proof.
  exact (proj1 (log_action_keeps_integrity (ev "logout") cx 5 4 true trail
    (below_ids 4 trail ltac:(vm_compute; reflexivity))
    ltac:(unfold unique_ids; rewrite trail_ids; apply (bool_decide_unpack _); vm_compute; exact I)
    ltac:(vm_compute; reflexivity))).
Defined.

Lemma equal_heads_pin_the_trail_witness :
  List.map covered (Table.order_by l_id trail) = List.map covered (Table.order_by l_id (rev trail)) \/
  broken_digest (Table.order_by l_id trail) (Table.order_by l_id (rev trail)).
Proof.
  refine (equal_heads_pin_the_trail trail (rev trail) trail_chained _ _ _ _);
    [apply Forall_rev; exact trail_chained|vm_compute; reflexivity..].
Defined.

Lemma partial_range_rejected_witness :
  v_valid (verify_integrity (Some 2%Z) None trail) = false \/
  exists l, In l trail /\ sha256_hex (full_text l) = genesis.
Proof.
  refine (partial_range_rejected 2 trail _ _ trail_chained _ _); [done|vm_compute; reflexivity..].
Defined.

Lemma cleanup_breaks_the_chain_witness :
  v_valid (verify_integrity None None (cleanup_old_logs 15 (Time.days 19020) trail).1) = false \/
  exists l, In l trail /\ sha256_hex (full_text l) = genesis.
Proof.
  refine (cleanup_breaks_the_chain 15 (Time.days 19020) trail _ trail_chained _ _ _).
  - vm_compute; reflexivity.
  - apply stamps_monotone. vm_compute. reflexivity.
  - vm_compute. discriminate.
  - vm_compute. discriminate.
Defined.

End Witness.
End AuditFacts.
