(* ===== verification/Retention.v ===== *)
(** The audit retention policy: [services/retention_service.py].  The bulk
    [query.limit(n).delete()] of the ORM is a parameter: what the service relies
    on is stated where a theorem uses it. *)
From S2P Require Import Prelude AuditLog.

Module Retention.
Import AuditLog.
Local Open Scope Z_scope.

(** * Settings: [RetentionPolicy] *)
Definition MIN_RETENTION_DAYS : Z := 7.
Definition MAX_RETENTION_DAYS : Z := 365 * 5.

Record settings := Settings {
  r_retention_days : Z;
  r_auto_cleanup : bool;
  r_archive_before_delete : bool;
  r_last_cleanup : option Z;
  r_total_deleted : Z;
}.

Definition default_settings : settings := Settings 90 true false None 0.

(** [int(x)] of a JSON value; [None] is the TypeError or ValueError it raises. *)
Definition to_int (j : json) : option Z :=
  match j with
  | JInt z => Some z
  | JBool b => Some (if b then 1 else 0)
  | JStr s => Num.py_int s
  | _ => None
  end.

Definition clamp (days : Z) : Z :=
  if days <? MIN_RETENTION_DAYS then MIN_RETENTION_DAYS
  else if MAX_RETENTION_DAYS <? days then MAX_RETENTION_DAYS else days.

(** [RetentionPolicy.update_settings]; [None] is the exception of [int]. *)
Definition update_settings (kwargs : list (string * json)) (s : settings) : option settings :=
  s ← match Json.assoc "retention_days" kwargs with
      | Some v => days ← to_int v;
          Some (Settings (clamp days) (r_auto_cleanup s) (r_archive_before_delete s)
                  (r_last_cleanup s) (r_total_deleted s))
      | None => Some s
      end;
  let s := match Json.assoc "auto_cleanup" kwargs with
           | Some v => Settings (r_retention_days s) (Json.truthy v) (r_archive_before_delete s)
                         (r_last_cleanup s) (r_total_deleted s)
           | None => s
           end in
  let s := match Json.assoc "archive_before_delete" kwargs with
           | Some v => Settings (r_retention_days s) (r_auto_cleanup s) (Json.truthy v)
                         (r_last_cleanup s) (r_total_deleted s)
           | None => s
           end in
  Some s.

(** * Cleanup *)

Inductive cleanup_result :=
| NothingToDo
| CleanedUp (n : nat)
| CleanupFailed.

Definition batch_size : nat := 1000.

Section Service.
(** [query.filter(p).limit(n).delete()]: the rows left and the number deleted, or
    the exception of the ORM. *)
Context (delete_limited : (log -> bool) -> nat -> list log -> option (list log * nat)).

(** The [while True] loop; the fuel bounds its rounds. *)
Fixpoint batch_loop (fuel : nat) (old : log -> bool) (total : nat) (logs : list log)
  : list log * option cleanup_result :=
  match fuel with
  | O => (logs, None)
  | S fuel' =>
      match delete_limited old batch_size logs with
      | None => (logs, Some CleanupFailed)
      | Some (logs', deleted) =>
          if (deleted <? batch_size)%nat then (logs', Some (CleanedUp (total + deleted)))
          else batch_loop fuel' old (total + deleted) logs'
      end
  end.

(** [cleanup_audit_logs]; no result stands for a loop that is still running. *)
Definition cleanup_audit_logs (retention_days : option Z) (now : Z) (s : settings) (logs : list log)
  : settings * list log * option cleanup_result :=
  let days := default (r_retention_days s) retention_days in
  let cutoff := now - Time.days days in
  let old l := l_timestamp l <? cutoff in
  let to_delete := Table.count old logs in
  if (to_delete =? 0)%nat then (s, logs, Some NothingToDo)
  else
    let '(logs', r) := batch_loop (S (length logs)) old 0 logs in
    match r with
    | Some (CleanedUp n) =>
        (Settings (r_retention_days s) (r_auto_cleanup s) (r_archive_before_delete s)
           (Some now) (r_total_deleted s + Z.of_nat n), logs', r)
    | _ => (s, logs', r)
    end.

(** [scheduled_audit_cleanup] *)
Definition scheduled_audit_cleanup (now : Z) (s : settings) (logs : list log)
  : settings * list log :=
  if r_auto_cleanup s then (cleanup_audit_logs None now s logs).1 else (s, logs).

End Service.

(** * What holds *)

Lemma clamp_bounds d : MIN_RETENTION_DAYS <= clamp d <= MAX_RETENTION_DAYS.
Proof.
  unfold clamp, MIN_RETENTION_DAYS, MAX_RETENTION_DAYS.
  destruct (Z.ltb_spec d 7); [lia|]. destruct (Z.ltb_spec (365 * 5) d); lia.
Qed.

(** Whatever the caller sends, the retention stays between one week and five years. *)
Lemma update_settings_bounds kwargs s s' :
  MIN_RETENTION_DAYS <= r_retention_days s <= MAX_RETENTION_DAYS ->
  update_settings kwargs s = Some s' ->
  MIN_RETENTION_DAYS <= r_retention_days s' <= MAX_RETENTION_DAYS.
Proof.
  intros Hs. unfold update_settings.
  destruct (Json.assoc "retention_days" kwargs) as [v|]; simpl;
    [destruct (to_int v) as [d|]; [|done]; simpl|];
    destruct (Json.assoc "auto_cleanup" kwargs), (Json.assoc "archive_before_delete" kwargs);
    intros [= <-]; simpl; done || apply clamp_bounds.
Qed.

(** The ORM removes the first [n] rows a filter selects. *)
Fixpoint delete_first (p : log -> bool) (n : nat) (logs : list log) : list log * nat :=
  match logs, n with
  | l :: logs', S n' =>
      if p l then let '(r, d) := delete_first p n' logs' in (r, S d)
      else let '(r, d) := delete_first p n logs' in (l :: r, d)
  | _, _ => (logs, 0%nat)
  end.

Lemma delete_first_count p n logs :
  (delete_first p n logs).2 = (n `min` Table.count p logs)%nat.
Proof.
  unfold Table.count, Table.all. revert n. induction logs as [|l logs IH]; intros [|n]; simpl; [done..|].
  destruct (p l) eqn:E.
  - specialize (IH n). destruct (delete_first p n logs). simpl in *. by rewrite IH.
  - specialize (IH (S n)). by destruct (delete_first p (S n) logs).
Qed.

Lemma delete_first_rest p n logs :
  Table.delete p (delete_first p n logs).1 = Table.delete p logs /\
  Table.count p (delete_first p n logs).1 = (Table.count p logs - n)%nat.
Proof.
  unfold Table.count, Table.all, Table.delete.
  revert n. induction logs as [|l logs IH]; intros [|n]; simpl; [split; lia || done..|].
  destruct (p l) eqn:E; simpl.
  - destruct (IH n) as [H1 H2]. destruct (delete_first p n logs). simpl in *. by rewrite H1, H2.
  - destruct (IH (S n)) as [H1 H2]. destruct (delete_first p (S n) logs). simpl in *.
    by rewrite E, H1, <-H2.
Qed.

Lemma delete_none (p : log -> bool) (logs : list log) : Table.count p logs = 0%nat -> Table.delete p logs = logs.
Proof.
  unfold Table.count, Table.all, Table.delete. induction logs as [|l logs IH]; simpl; [done|].
  destruct (p l); simpl; [done|]. intros H. by rewrite IH.
Qed.

Lemma batch_loop_all fuel old total logs :
  (Table.count old logs < fuel)%nat ->
  batch_loop (fun p n l => Some (delete_first p n l)) fuel old total logs =
  (Table.delete old logs, Some (CleanedUp (total + Table.count old logs))).
Proof.
  revert total logs. induction fuel as [|fuel IH]; intros total logs Hf; [lia|]. cbn [batch_loop].
  pose proof (delete_first_count old batch_size logs) as Hc.
  destruct (delete_first_rest old batch_size logs) as [Hr Hk].
  destruct (delete_first old batch_size logs) as [logs' d]. cbn [fst snd] in Hc, Hr, Hk.
  assert (batch_size <> 0)%nat by (unfold batch_size; lia).
  destruct (Nat.ltb_spec d batch_size) as [Hlt|Hge].
  - rewrite <-Hr, delete_none by lia. do 3 f_equal. lia.
  - rewrite IH by lia. rewrite Hr. do 3 f_equal. lia.
Qed.

(** With an ORM that refuses [delete] on a limited query (as SQLAlchemy
    documents), the cleanup never deletes an entry and never changes the policy's
    statistics: it fails as soon as there is an entry to delete. *)
Theorem limited_delete_never_cleans
    (delete_limited : (log -> bool) -> nat -> list log -> option (list log * nat)) days now s logs :
  (forall p n rows, delete_limited p n rows = None) ->
  let old l := l_timestamp l <? now - Time.days (default (r_retention_days s) days) in
  cleanup_audit_logs delete_limited days now s logs =
  (s, logs, Some (if existsb old logs then CleanupFailed else NothingToDo)).
Proof.
  intros Hd. cbv zeta. unfold cleanup_audit_logs.
  set (old := fun l => l_timestamp l <? now - _). cbn [batch_loop]. rewrite Hd.
  unfold Table.count, Table.all. destruct (existsb old logs) eqn:E.
  - apply existsb_exists in E as (l & Hl & Ho).
    destruct (List.filter old logs) eqn:Ef; [|done].
    assert (In l (List.filter old logs)) as Hi by (by apply List.filter_In). by rewrite Ef in Hi.
  - destruct (List.filter old logs) as [|l r] eqn:Ef; [done|].
    assert (In l (List.filter old logs)) as [Hl Ho]%List.filter_In by (rewrite Ef; by left).
    assert (existsb old logs = true) by (apply existsb_exists; by exists l). congruence.
Qed.

(** With an ORM whose limited delete removes the first rows of the query, the
    batches end and together remove exactly the entries older than the cutoff,
    whatever their number. *)
Theorem cleanup_deletes_exactly_the_old days now s logs :
  let old l := l_timestamp l <? now - Time.days (default (r_retention_days s) days) in
  let '(s', logs', r) :=
    cleanup_audit_logs (fun p n l => Some (delete_first p n l)) days now s logs in
  logs' = Table.delete old logs /\
  r = Some (if existsb old logs then CleanedUp (Table.count old logs) else NothingToDo) /\
  r_total_deleted s' = r_total_deleted s + Z.of_nat (Table.count old logs).
Proof.
  cbv zeta. unfold cleanup_audit_logs.
  set (old := fun l => l_timestamp l <? now - _). change (fun l => l_timestamp l <? _) with old.
  assert (existsb old logs = negb (Table.count old logs =? 0)%nat) as ->.
  { unfold Table.count, Table.all. induction logs as [|l logs IH]; simpl; [done|].
    destruct (old l); simpl; [done|]. apply IH. }
  destruct (Nat.eqb_spec (Table.count old logs) 0) as [E|E].
  - rewrite delete_none, E by done. cbn. split; [done|]. split; [done|]. lia.
  - rewrite batch_loop_all; [done|]. unfold Table.count, Table.all.
    pose proof (List.filter_length_le old logs). lia.
Qed.

Definition sample_log (id ts : Z) : log :=
  Log id ts None "login_success" None None None None None None true None None.

Lemma limited_delete_never_cleans_witness :
  cleanup_audit_logs (fun _ _ _ => None) None (Time.days 100) default_settings
    [sample_log 1 0; sample_log 2 (Time.days 99)] =
  (default_settings, [sample_log 1 0; sample_log 2 (Time.days 99)], Some CleanupFailed).
Proof.
  exact (limited_delete_never_cleans (fun _ _ _ => None) None (Time.days 100) default_settings
    [sample_log 1 0; sample_log 2 (Time.days 99)] (fun _ _ _ => eq_refl)).
Defined.

End Retention.
