(* ===== verification/PasswordPolicy.v ===== *)
(** The password policy: [security/password_policy.py].  Regular expressions on
    one character class become searches for a character of the class; the
    blacklist, the sequences and the messages are those of the source. *)
From S2P Require Import Prelude.

Module PasswordPolicy.
Local Open Scope string_scope.
Local Open Scope list_scope.

(** [PasswordPolicy] *)
Record policy := Policy {
  min_length : Z;
  max_length : Z;
  require_uppercase : bool;
  require_lowercase : bool;
  require_digit : bool;
  require_special : bool;
  special_chars : string;
  blacklist : list string;
}.

Definition DEFAULT_POLICY : policy :=
  Policy 8 128 true true true true "!@#$%^&*()_+-=[]{}|;:,.<>?"
    ["password"; "password1"; "password123"; "12345678"; "123456789"; "1234567890";
     "qwerty"; "qwerty123"; "letmein"; "admin"; "admin123"; "administrator";
     "changeme"; "changeme123"; "welcome"; "abc123"; "monkey"; "dragon"; "master";
     "password!"; "P@ssword1"; "P@ssw0rd"].

(** [s[i:i + n]] *)
Definition slice (i n : nat) (s : string) : string := Str.take n (Str.drop i s).

(** [range(len(s) - n + 1)]: empty when the text is shorter than [n] by one or more. *)
Definition starts (n : nat) (s : string) : list nat := List.seq 0 (S (String.length s) - n).

Definition sequences : list string :=
  ["abcdefghijklmnopqrstuvwxyz"; "ABCDEFGHIJKLMNOPQRSTUVWXYZ"; "0123456789";
   "qwertyuiop"; "asdfghjkl"; "zxcvbnm"].

(** [_has_sequential_chars] *)
Definition has_sequential_chars (password : string) (min_seq : nat) : bool :=
  existsb (fun q =>
    existsb (fun i =>
      Str.contains (slice i min_seq q) password ||
      Str.contains (Str.rev (slice i min_seq q)) password) (starts min_seq q)) sequences.

(** [len(set(s))] *)
Fixpoint chars (s : string) : list ascii :=
  match s with EmptyString => [] | String c s' => c :: chars s' end.
Definition distinct (s : string) : nat := length (remove_dups (chars s)).

(** [_has_repeated_chars] *)
Definition has_repeated_chars (password : string) (min_repeat : nat) : bool :=
  existsb (fun i => (distinct (slice i min_repeat password) =? 1)%nat) (starts min_repeat password).

Definition len (s : string) : Z := Z.of_nat (String.length s).
Definition special (cs : string) (c : ascii) : bool := Str.has_char c cs.

Definition when (b : bool) (message : string) : list string := if b then [message] else [].

(** The errors [validate_password] collects for a non-empty password. *)
Definition password_errors (password : string) (p : policy) (username : option string) : list string :=
  when (len password <? min_length p)%Z
    ("Password must be at least " ^+ Num.str (min_length p) ^+ " characters") ++
  when (max_length p <? len password)%Z
    ("Password must be at most " ^+ Num.str (max_length p) ^+ " characters") ++
  when (require_uppercase p && negb (Str.exists_char Str.is_upper password))
    "Password must contain at least one uppercase letter" ++
  when (require_lowercase p && negb (Str.exists_char Str.is_lower password))
    "Password must contain at least one lowercase letter" ++
  when (require_digit p && negb (Str.exists_char Str.is_digit password))
    "Password must contain at least one digit" ++
  when (require_special p && negb (Str.exists_char (special (special_chars p)) password))
    ("Password must contain at least one special character (" ^+ special_chars p ^+ ")") ++
  when (existsb (String.eqb (Str.lower password)) (List.map Str.lower (blacklist p)))
    "Password is too common, please choose a stronger one" ++
  match username with
  | Some u =>
      if Str.truthy u then
        when (Str.contains (Str.lower u) (Str.lower password))
          "Password cannot contain your username" ++
        when (Str.contains (Str.lower password) (Str.lower u) && (len password <? len u)%Z)
          "Password is too similar to username"
      else []
  | None => []
  end ++
  when (has_sequential_chars password 4) "Password cannot contain 4 or more sequential characters" ++
  when (has_repeated_chars password 4) "Password cannot contain 4 or more repeated characters".

(** [validate_password]; [None] stands for the [re.error] of an empty character
    set, which a policy without special characters runs into. *)
Definition validate_password (password : string) (p : option policy) (username : option string)
  : option (bool * list string) :=
  let p := default DEFAULT_POLICY p in
  if negb (Str.truthy password) then Some (false, ["Password is required"])
  else if require_special p && negb (Str.truthy (special_chars p)) then None
  else
    let errors := password_errors password p username in
    Some (match errors with [] => true | _ => false end, errors).

Record strength := Strength { s_score : Z; s_level : string; s_feedback : list string }.

(** [get_password_strength].  The ratio of distinct characters is compared with
    [0.7] and [0.5] in integers: the division of the source is exact enough for
    the comparison on every password that fits in memory. *)
Definition get_password_strength (password : string) : strength :=
  if negb (Str.truthy password) then Strength 0 "weak" ["Password is empty"]
  else
    let length := len password in
    let points (b : bool) (n : Z) := if b then n else 0%Z in
    let score := (points (8 <=? length) 10 + points (12 <=? length) 10 + points (16 <=? length) 10)%Z in
    let has_upper := Str.exists_char Str.is_upper password in
    let has_lower := Str.exists_char Str.is_lower password in
    let has_digit := Str.exists_char Str.is_digit password in
    let has_special := Str.exists_char (special (special_chars DEFAULT_POLICY)) password in
    let score := (score + points has_upper 10 + points has_lower 10 + points has_digit 10
                  + points has_special 10)%Z in
    let unique_chars := Z.of_nat (distinct password) in
    let much := (7 * length <? 10 * unique_chars)%Z in
    let some := (length <? 2 * unique_chars)%Z in
    let score := (score + if much then 20 else if some then 10 else 0)%Z in
    let feedback :=
      when (length <? 8)%Z "Use at least 8 characters" ++
      when (negb has_upper) "Add uppercase letters" ++
      when (negb has_lower) "Add lowercase letters" ++
      when (negb has_digit) "Add numbers" ++
      when (negb has_special) "Add special characters" ++
      when (negb much && negb some) "Use more varied characters" in
    let common := existsb (String.eqb (Str.lower password)) (blacklist DEFAULT_POLICY) in
    let score := if common then Z.min score 10 else score in
    let feedback := if common then ["This password is too common"] else feedback in
    let seq := has_sequential_chars password 4 in
    let rep := has_repeated_chars password 3 in
    let score := (score - points seq 10 - points rep 10)%Z in
    let feedback := feedback ++ when seq "Avoid sequential characters"
                             ++ when rep "Avoid repeated characters" in
    let score := Z.max 0 (Z.min 100 score) in
    let level := if (80 <=? score)%Z then "strong" else if (60 <=? score)%Z then "good"
                 else if (40 <=? score)%Z then "fair" else "weak" in
    Strength score level (match feedback with [] => ["Password looks good!"] | f => f end).

Record requirements := Requirements { q_min_length : Z; q_max_length : Z; q_rules : list string }.

(** [get_policy_requirements] *)
Definition get_policy_requirements (p : option policy) : requirements :=
  let p := default DEFAULT_POLICY p in
  Requirements (min_length p) (max_length p)
    (["At least " ^+ Num.str (min_length p) ^+ " characters"] ++
     when (require_uppercase p) "At least one uppercase letter (A-Z)" ++
     when (require_lowercase p) "At least one lowercase letter (a-z)" ++
     when (require_digit p) "At least one number (0-9)" ++
     when (require_special p) ("At least one special character (" ^+ special_chars p ^+ ")")).

(** * Occurrences *)

Lemma exists_char_spec p s : Str.exists_char p s = true <-> exists a c b, s = a ^+ String c b /\ p c = true.
Proof.
  induction s as [|d s IH]; simpl; [split; [done|intros (a & c & b & E & _); by destruct a]|].
  rewrite orb_true_iff, IH. split.
  - intros [Hd|(a & c & b & -> & Hc)]; [by exists "", d, s|by exists (String d a), c, b].
  - intros ([|x a] & c & b & E & Hc); simpl in E; injection E as -> ->; [by left|right; eauto].
Qed.

Lemma take_drop_split i n s :
  exists a b, s = a ^+ slice i n s ^+ b /\ (i + n <= String.length s -> String.length (slice i n s) = n).
Proof.
  assert (forall m t, t = Str.take m t ^+ Str.drop m t) as Htd.
  { intros m. induction m as [|m IH]; intros [|c t]; simpl; try done. by rewrite <-IH. }
  assert (forall m t, String.length (Str.drop m t) = String.length t - m) as Hld.
  { intros m. induction m as [|m IH]; intros [|c t]; simpl; try done. }
  exists (Str.take i s), (Str.drop n (Str.drop i s)). unfold slice. rewrite <-Htd, <-Htd.
  split; [done|]. intros H. rewrite StrFacts.length_take, Hld. lia.
Qed.

(** The slices of a text are its factors of that length. *)
Lemma slice_exists n s (P : string -> bool) :
  existsb (fun i => P (slice i n s)) (starts n s) = true <->
  exists a w b, s = a ^+ w ^+ b /\ String.length w = n /\ P w = true.
Proof.
  unfold starts. rewrite existsb_exists. setoid_rewrite in_seq. split.
  - intros (i & Hi & HP). destruct (take_drop_split i n s) as (a & b & E & Hl).
    exists a, (slice i n s), b. split; [done|]. split; [|done]. apply Hl.
    simpl in Hi. lia.
  - intros (a & w & b & -> & <- & HP). exists (String.length a). unfold slice.
    rewrite StrFacts.drop_app, StrFacts.take_app. rewrite !StrFacts.app_length. split; [lia|done].
Qed.

Lemma distinct_one c w : distinct (String c w) = 1 <-> forall d, In d (chars w) -> d = c.
Proof.
  unfold distinct. split.
  - intros Hd d Hin. cbn [chars] in Hd.
    assert (c ∈ remove_dups (c :: chars w)) as Hc
      by (apply elem_of_remove_dups, list_elem_of_In; by left).
    assert (d ∈ remove_dups (c :: chars w)) as Hd'
      by (apply elem_of_remove_dups, list_elem_of_In; by right).
    destruct (remove_dups (c :: chars w)) as [|x [|y l]]; try done.
    apply list_elem_of_singleton in Hc, Hd'. congruence.
  - cbn [chars]. induction (chars w) as [|d l IH]; intros H; [done|].
    assert (d = c) as -> by (apply H; by left).
    change (length (if decide_rel elem_of c (c :: l) then remove_dups (c :: l)
                    else c :: remove_dups (c :: l)) = 1).
    destruct (decide_rel elem_of c (c :: l)) as [_|Hn]; [|destruct Hn; by left].
    apply IH. intros x Hx. apply H. by right.
Qed.

(** * The specification of an acceptable password *)

Definition factor (w s : string) : Prop := exists a b, s = a ^+ w ^+ b.
Definition has_one (f : ascii -> bool) (s : string) : Prop := exists a c b, s = a ^+ String c b /\ f c = true.

(** Four neighbouring characters of a keyboard row or of an alphabet, in either
    direction; and four times one character. *)
Definition sequential_run (w : string) : Prop :=
  String.length w = 4 /\ exists q, In q sequences /\ (factor w q \/ factor (Str.rev w) q).
Definition repeated_run (w : string) : Prop := exists c, w = String c (String c (String c (String c ""))).

Record acceptable (p : policy) (username : option string) (s : string) : Prop := {
  acc_length : (min_length p <= len s <= max_length p)%Z;
  acc_upper : require_uppercase p = true -> has_one Str.is_upper s;
  acc_lower : require_lowercase p = true -> has_one Str.is_lower s;
  acc_digit : require_digit p = true -> has_one Str.is_digit s;
  acc_special : require_special p = true -> has_one (special (special_chars p)) s;
  acc_common : forall w, In w (blacklist p) -> Str.lower w <> Str.lower s;
  acc_username : forall u, username = Some u -> u <> "" ->
    ~ factor (Str.lower u) (Str.lower s) /\
    ~ (factor (Str.lower s) (Str.lower u) /\ (len s < len u)%Z);
  acc_sequential : forall w, sequential_run w -> ~ factor w s;
  acc_repeated : forall w, repeated_run w -> ~ factor w s;
}.

Lemma contains_factor w s : Str.contains w s = true <-> factor w s.
Proof. apply StrFacts.contains_spec. Qed.

Lemma sequential_spec s :
  has_sequential_chars s 4 = true <-> exists w, sequential_run w /\ factor w s.
Proof.
  unfold has_sequential_chars. rewrite existsb_exists. split.
  - intros (q & Hq & Hi).
    apply (slice_exists 4 q (fun w => Str.contains w s || Str.contains (Str.rev w) s)) in Hi
      as (a & w & b & E & Hl & [Hw|Hw]%orb_true_iff); apply contains_factor in Hw.
    + exists w. split; [|done]. split; [done|]. exists q. split; [done|]. left. by exists a, b.
    + exists (Str.rev w). split; [|done]. split; [by rewrite StrFacts.length_rev|]. exists q.
      split; [done|]. right. rewrite StrFacts.rev_involutive. by exists a, b.
  - intros (w & (Hl & q & Hq & Hf) & Hw). exists q. split; [done|].
    apply (slice_exists 4 q (fun w => Str.contains w s || Str.contains (Str.rev w) s)).
    apply contains_factor in Hw. destruct Hf as [(a & b & ->)|(a & b & ->)].
    + exists a, w, b. by rewrite Hw.
    + exists a, (Str.rev w), b. rewrite StrFacts.length_rev, StrFacts.rev_involutive, Hw.
      by rewrite orb_true_r.
Qed.

Lemma repeated_spec s :
  has_repeated_chars s 4 = true <-> exists w, repeated_run w /\ factor w s.
Proof.
  unfold has_repeated_chars. rewrite (slice_exists 4 s (fun w => (distinct w =? 1)%nat)). split.
  - intros (a & w & b & E & Hl & Hd%Nat.eqb_eq). exists w. split; [|by exists a, b].
    destruct w as [|c w]; [done|]. rewrite distinct_one in Hd. exists c.
    destruct w as [|c2 [|c3 [|c4 [|]]]]; try done.
    rewrite (Hd c2), (Hd c3), (Hd c4); simpl; auto.
  - intros (w & (c & ->) & (a & b & ->)). eexists a, _, b. split; [done|]. split; [done|].
    apply Nat.eqb_eq, distinct_one. simpl. naive_solver.
Qed.

(** Reading one collected message back as the rule it enforces. *)
Lemma when_nil (b : bool) m (P : Prop) : (b = true <-> ~ P) -> Decision P -> when b m = [] <-> P.
Proof. intros H HP. destruct b, (decide P); simpl; split; intuition congruence. Qed.

Lemma required_nil (r : bool) f m s :
  when (r && negb (Str.exists_char f s)) m = [] <-> (r = true -> has_one f s).
Proof.
  unfold has_one. rewrite <-exists_char_spec.
  destruct r, (Str.exists_char f s); simpl; intuition congruence.
Qed.

Lemma refused_nil (b : bool) m (P : Prop) : (b = true <-> P) -> when b m = [] <-> ~ P.
Proof. destruct b; simpl; intuition congruence. Qed.

Lemma username_nil username s m1 m2 :
  match username with
  | Some u => if Str.truthy u then
      when (Str.contains (Str.lower u) (Str.lower s)) m1 ++
      when (Str.contains (Str.lower s) (Str.lower u) && (len s <? len u)%Z) m2 else []
  | None => []
  end = [] <->
  (forall u, username = Some u -> u <> "" ->
    ~ factor (Str.lower u) (Str.lower s) /\
    ~ (factor (Str.lower s) (Str.lower u) /\ (len s < len u)%Z)).
Proof.
  destruct username as [u|]; [|naive_solver].
  destruct u as [|c u]; simpl Str.truthy; cbv iota; [split; [intros _ u' [= <-]; done|done]|].
  set (u' := String c u). rewrite app_nil. rewrite (refused_nil _ m1 _ (contains_factor _ _)).
  rewrite (refused_nil _ m2 (factor (Str.lower s) (Str.lower u') /\ (len s < len u')%Z)).
  - split; [by intros H ? [= <-] _|]. intros H. by apply (H u').
  - by rewrite andb_true_iff, contains_factor, Z.ltb_lt.
Qed.

Lemma common_nil s l m :
  when (existsb (String.eqb (Str.lower s)) (List.map Str.lower l)) m = [] <->
  forall w, In w l -> Str.lower w <> Str.lower s.
Proof.
  rewrite (refused_nil _ m (exists w, In w l /\ Str.lower w = Str.lower s)); [naive_solver|].
  rewrite existsb_exists. setoid_rewrite in_map_iff. setoid_rewrite String.eqb_eq. naive_solver.
Qed.

Lemma errors_nil s p username : password_errors s p username = [] <-> acceptable p username s.
Proof.
  unfold password_errors. rewrite !app_nil, !required_nil, common_nil, username_nil.
  rewrite (refused_nil _ _ _ (sequential_spec s)), (refused_nil _ _ _ (repeated_spec s)).
  rewrite (refused_nil _ _ _ (Z.ltb_lt (len s) (min_length p))).
  rewrite (refused_nil _ _ _ (Z.ltb_lt (max_length p) (len s))).
  split.
  - intros (? & ? & ? & ? & ? & ? & ? & ? & Hs & Hr).
    split; try done; [lia|intros w Hw Hf; apply Hs; eauto|intros w Hw Hf; apply Hr; eauto].
  - intros [[] ? ? ? ? ? ? Hs Hr].
    refine (conj _ (conj _ (conj _ (conj _ (conj _ (conj _ (conj _ (conj _ (conj _ _)))))))));
      try done; try lia; intros (w & Hw & Hf).
    + exact (Hs w Hw Hf).
    + exact (Hr w Hw Hf).
Qed.

(** [validate_password] raises exactly for a policy that requires special
    characters and names none; otherwise it accepts a password exactly when it is
    non-empty and meets every rule of the policy, and a refusal carries at least
    one message. *)
Theorem validate_password_spec s p username :
  match validate_password s (Some p) username with
  | None => s <> "" /\ require_special p = true /\ special_chars p = ""
  | Some (ok, errors) =>
      (ok = true <-> s <> "" /\ acceptable p username s) /\ (ok = false <-> errors <> [])
  end.
Proof.
  unfold validate_password. cbn [default from_option].
  destruct s as [|c s]; cbn [Str.truthy negb].
  - split; [split; [done|by intros []]|done].
  - cbn [id]. destruct (require_special p && negb (Str.truthy (special_chars p))) eqn:E.
    + apply andb_true_iff in E as [-> E]. by destruct (special_chars p).
    + rewrite <-errors_nil. destruct (password_errors (String c s) p username); intuition congruence.
Qed.

(** The score is a percentage and the level its band; a common password (as
    [get_password_strength] recognises it) is never better than weak. *)
Lemma strength_bounds s : (0 <= s_score (get_password_strength s) <= 100)%Z.
Proof. unfold get_password_strength. destruct (Str.truthy s); cbn [negb s_score]; lia. Qed.

(** The strength meter compares the lower-cased password with blacklist entries
    that are not lower-cased: the entry [P@ssw0rd], which validation refuses as too
    common, scores 70, is called good and carries no such feedback. *)
Theorem strength_misses_mixed_case_entries :
  let verdict s := (s_score (get_password_strength s), s_level (get_password_strength s)) in
  validate_password "P@ssw0rd" None None =
    Some (false, ["Password is too common, please choose a stronger one"]) /\
  In "P@ssw0rd" (blacklist DEFAULT_POLICY) /\
  s_feedback (get_password_strength "P@ssw0rd") = ["Password looks good!"] /\
  verdict "P@ssw0rd" = (70%Z, "good") /\ verdict "password" = (10%Z, "weak").
Proof.
  refine (conj _ (conj _ (conj _ (conj _ _)))); [vm_compute; reflexivity| |vm_compute; reflexivity..].
  simpl. tauto.
Qed.

End PasswordPolicy.
