(* ===== verification/Csrf.v ===== *)
(** CSRF protection: [security/csrf.py].  Tokens [timestamp:nonce:signature],
    their validation, the decorator and the middleware, and how the middleware
    composes with the authentication of [Auth]. *)
From S2P Require Import Prelude Hashes Permissions Auth.

Module Csrf.
Local Open Scope string_scope.
Local Open Scope list_scope.

Definition CSRF_TOKEN_LIFETIME : Z := 3600 * 24.
Definition CSRF_PROTECTED_METHODS : list string := ["POST"; "PUT"; "DELETE"; "PATCH"].
Definition CSRF_EXEMPT_PATHS : list string :=
  ["/api/v2/auth/login"; "/api/v2/auth/forgot"; "/api/v2/auth/reset"; "/api/v2/auth/methods";
   "/api/v2/sso/"; "/acme/"; "/scep/"; "/.well-known/acme"; "/ocsp"; "/cdp/"; "/api/health";
   "/api/v2/health"; "/api/v2/mtls/"].

(** [CSRFProtection.is_enabled]: the class flag and the CSRF_DISABLED variable. *)
Definition is_enabled (flag : bool) (csrf_disabled : string) : bool :=
  flag && negb (String.eqb (Str.lower csrf_disabled) "true").

(** [CSRFProtection.is_exempt] *)
Definition is_exempt (path : string) : bool := existsb (Str.startswith path) CSRF_EXEMPT_PATHS.

(** What the request carries: the headers, the JSON body when it parses, and the
    user ids of [g] and of the session. *)
Record request := Request {
  q_method : string;
  q_path : string;
  q_x_api_key : string;
  q_token_header : option string;
  q_body : option json;
  q_g_user_id : option Z;
  q_session_user_id : option Z;
}.

(** [getattr(g, 'user_id', None) or session.get('user_id')], false when it is. *)
Definition user_id (q : request) : option Z :=
  let truthy (o : option Z) := match o with Some z => if (z =? 0)%Z then None else Some z | None => None end in
  match truthy (q_g_user_id q) with Some z => Some z | None => truthy (q_session_user_id q) end.

(** The header, or the [_csrf_token] field of a JSON body when the header is
    missing or empty (an exception on the way leaves the token as it was). *)
Definition request_token (q : request) : option json :=
  let header := JStr <$> q_token_header q in
  if match q_token_header q with Some t => Str.truthy t | None => false end then header
  else match q_body q with
       | Some (JDict kv) =>
           if Json.truthy (JDict kv) then Json.assoc "_csrf_token" kv else header
       | _ => header
       end.

Section Tokens.
Context `{Hashes}.

(** The signed text and its truncated signature. *)
Definition message (timestamp nonce : string) (uid : Z) : string :=
  timestamp ^+ ":" ^+ nonce ^+ ":" ^+ Num.str uid.
Definition signature (secret timestamp nonce : string) (uid : Z) : string :=
  Str.take 32 (hmac_hex secret (message timestamp nonce uid)).

(** [CSRFProtection.generate_token]: [now] is [int(time.time())], [nonce] the
    random hex text. *)
Definition generate_token (secret nonce : string) (uid now : Z) : string :=
  let timestamp := Num.str now in
  timestamp ^+ ":" ^+ nonce ^+ ":" ^+ signature secret timestamp nonce uid.

(** [CSRFProtection.validate_token]: the verdict and its message. *)
Definition validate_token (secret : string) (token : option json) (uid now : Z) : bool * string :=
  if negb (match token with Some j => Json.truthy j | None => false end)
  then (false, "Missing CSRF token")
  else match token with
  | Some (JStr token) =>
      match Str.split ":" token with
      | [timestamp; nonce; provided_sig] =>
          match Num.py_int timestamp with
          | None => (false, "Token validation failed")
          | Some ts =>
              let token_age := (now - ts)%Z in
              if (CSRF_TOKEN_LIFETIME <? token_age)%Z then (false, "CSRF token expired")
              else if (token_age <? 0)%Z then (false, "Invalid token timestamp")
              else if negb (String.eqb provided_sig (signature secret timestamp nonce uid))
              then (false, "Invalid CSRF token")
              else (true, "")
          end
      | _ => (false, "Invalid token format")
      end
  | _ => (false, "Token validation failed")
  end.

(** What both gates do once a user is known: [None] lets the request through. *)
Definition check_token (secret : string) (q : request) (uid now : Z) : option string :=
  match validate_token secret (request_token q) uid now with
  | (true, _) => None
  | (false, error) => Some ("CSRF validation failed: " ^+ error)
  end.

(** [init_csrf_middleware.check_csrf]: the text of the 403, or [None]. *)
Definition check_csrf (enabled : bool) (secret : string) (q : request) (now : Z) : option string :=
  if negb enabled then None
  else if negb (existsb (String.eqb (q_method q)) CSRF_PROTECTED_METHODS) then None
  else if is_exempt (q_path q) then None
  else if Str.truthy (q_x_api_key q) then None
  else match user_id q with
       | None => None
       | Some uid => check_token secret q uid now
       end.

(** [csrf_protect]: the same gate without the API-key exemption. *)
Definition csrf_protect (enabled : bool) (secret : string) (q : request) (now : Z) : option string :=
  if negb enabled then None
  else if negb (existsb (String.eqb (q_method q)) CSRF_PROTECTED_METHODS) then None
  else if is_exempt (q_path q) then None
  else match user_id q with
       | None => None
       | Some uid => check_token secret q uid now
       end.

(** A route behind the middleware and [require_auth]: the middleware runs first. *)
Definition guarded_route (enabled : bool) (secret : string) (q : request) (perms : list string)
    (now_s now now' : Z) (st : Auth.state) : option string * option Auth.outcome :=
  match check_csrf enabled secret q now_s with
  | Some e => (Some e, None)
  | None =>
      let key := if Str.truthy (q_x_api_key q) then Some (q_x_api_key q) else None in
      (None, Some (Auth.require_auth perms key now now' st).2)
  end.

(** * Tokens *)

Lemma signature_no_colon secret ts nonce uid : Str.has_char ":" (signature secret ts nonce uid) = false.
Proof.
  unfold signature. apply StrFacts.exists_char_take, (forall_hex_no_char ":"); [done|].
  apply hmac_hex_chars.
Qed.

Lemma signature_length secret ts nonce uid : String.length (signature secret ts nonce uid) = 32.
Proof. unfold signature. by rewrite StrFacts.length_take, hmac_hex_length. Qed.

Lemma split_token ts nonce sig :
  Str.has_char ":" ts = false -> Str.has_char ":" nonce = false -> Str.has_char ":" sig = false ->
  Str.split ":" (ts ^+ ":" ^+ nonce ^+ ":" ^+ sig) = [ts; nonce; sig].
Proof.
  intros H1 H2 H3. change (Str.split ":" (ts ^+ String ":" (nonce ^+ String ":" sig)) = [ts; nonce; sig]).
  rewrite !StrFacts.split_app by done. by rewrite StrFacts.split_nochar.
Qed.

(** A generated token is accepted for its user from its second of issue to
    twenty-four hours later, is expired after that and refused before it. *)
Theorem token_lifetime secret nonce uid t now :
  (0 <= t)%Z -> Str.has_char ":" nonce = false ->
  validate_token secret (Some (JStr (generate_token secret nonce uid t))) uid now =
  if (t + 86400 <? now)%Z then (false, "CSRF token expired")
  else if (now <? t)%Z then (false, "Invalid token timestamp")
  else (true, "").
Proof.
  intros Ht Hn. unfold validate_token, generate_token.
  rewrite split_token; [|by apply NumFacts.str_no_colon|done|apply signature_no_colon].
  rewrite NumFacts.py_int_str, StrFacts.eqb_refl by done. unfold CSRF_TOKEN_LIFETIME.
  assert (Json.truthy (JStr (Num.str t ^+ ":" ^+ nonce ^+ ":" ^+ signature secret (Num.str t) nonce uid))
          = true) as -> by (simpl; by destruct (Num.str t)).
  cbn [negb].
  destruct (Z.ltb_spec (3600 * 24) (now - t)), (Z.ltb_spec (t + 86400) now); try lia; [done|].
  destruct (Z.ltb_spec (now - t) 0), (Z.ltb_spec now t); lia || done.
Qed.

(** An accepted token is a text of three fields whose last one is the truncated
    HMAC, under the secret, of the other two and the user id, and its timestamp is
    at most a day old and not in the future. *)
Theorem accepted_token_is_signed secret token uid now e :
  validate_token secret token uid now = (true, e) ->
  exists ts nonce t,
    token = Some (JStr (ts ^+ ":" ^+ nonce ^+ ":" ^+
                        Str.take 32 (hmac_hex secret (ts ^+ ":" ^+ nonce ^+ ":" ^+ Num.str uid)))) /\
    Num.py_int ts = Some t /\ (t <= now <= t + 86400)%Z.
Proof.
  unfold validate_token. destruct token as [[| | |s| |]|]; try (by repeat case_match).
  destruct (negb (Json.truthy (JStr s))); [done|].
  pose proof (StrFacts.split_join ":" s) as Hj.
  destruct (Str.split ":" s) as [|ts [|nonce [|sig [|]]]]; try done.
  destruct (Num.py_int ts) as [t|] eqn:Et; [|done]. unfold CSRF_TOKEN_LIFETIME.
  destruct (Z.ltb_spec (3600 * 24) (now - t)); [done|]. destruct (Z.ltb_spec (now - t) 0); [done|].
  destruct (String.eqb sig _) eqn:Es; [|done]. apply String.eqb_eq in Es as ->. intros _.
  exists ts, nonce, t. split; [|split; [done|lia]]. by rewrite <-Hj.
Qed.

(** * The middleware *)

(** With protection on, a state-changing request outside the exempt paths, by a
    known user and without an X-API-Key header, passes the middleware only with a
    token that validates for that user; the same holds of the decorator, whatever
    the header. *)
Theorem unsafe_requests_need_a_token secret q uid now :
  In (q_method q) CSRF_PROTECTED_METHODS -> is_exempt (q_path q) = false -> user_id q = Some uid ->
  (csrf_protect true secret q now = None <->
   fst (validate_token secret (request_token q) uid now) = true) /\
  (check_csrf true secret q now = None <->
   q_x_api_key q <> "" \/ fst (validate_token secret (request_token q) uid now) = true).
Proof.
  intros Hm He Hu. unfold csrf_protect, check_csrf, check_token. rewrite He, Hu.
  assert (existsb (String.eqb (q_method q)) CSRF_PROTECTED_METHODS = true) as ->.
  { apply existsb_exists. exists (q_method q). by rewrite StrFacts.eqb_refl. }
  cbn [negb]. destruct (validate_token secret (request_token q) uid now) as [[|] e]; cbn [fst];
    destruct (q_x_api_key q); cbn [Str.truthy]; intuition congruence.
Qed.

(** The middleware skips a request with any X-API-Key header, and the
    authentication falls back to the session when the key is unknown: a request
    with an unknown key and no token at all is answered exactly as the same session
    without CSRF protection. *)
Theorem unknown_api_key_bypasses_csrf secret q perms now_s now now' st :
  q_x_api_key q <> "" ->
  List.Forall (fun k => Auth.k_key_hash k <> sha256_hex (q_x_api_key q)) (Auth.api_keys st) ->
  guarded_route true secret q perms now_s now now' st =
  (None, Some (Auth.require_auth perms None now now' st).2).
Proof.
  intros Hk Hn. unfold guarded_route, check_csrf. destruct (q_x_api_key q) as [|c k] eqn:Ek; [done|].
  cbn [Str.truthy].
  cbn [negb]. replace (if negb _ then _ else _) with (@None string) by (by repeat case_match).
  do 2 f_equal. unfold Auth.require_auth, Auth.authenticate_request.
  cbn [Str.truthy]. unfold Auth.verify_api_key.
  destruct (Table.first _ _) as [row|] eqn:E; [|done].
  apply Table.first_Some in E as [Hin [Hh%String.eqb_eq _]%andb_true_iff].
  rewrite List.Forall_forall in Hn. by apply Hn in Hin.
Qed.

End Tokens.
End Csrf.

(** * Witnesses *)
Module CsrfWitness.
Import Csrf.
Local Open Scope string_scope.
Local Open Scope list_scope.

Definition q0 (api_key : string) (token : option string) : request :=
  Request "POST" "/api/v2/cas" api_key token None None (Some 7%Z).

Lemma token_lifetime_witness :
  validate_token "secret" (Some (JStr (generate_token "secret" "a1b2" 7 1000))) 7 1060 = (true, "").
Proof. exact (token_lifetime "secret" "a1b2" 7 1000 1060 ltac:(lia) eq_refl). Defined.

Lemma accepted_token_witness :
  exists ts nonce t,
    Some (JStr (generate_token "secret" "a1b2" 7 1000)) =
    Some (JStr (ts ^+ ":" ^+ nonce ^+ ":" ^+
            Str.take 32 (hmac_hex "secret" (ts ^+ ":" ^+ nonce ^+ ":" ^+ Num.str 7)))) /\
    Num.py_int ts = Some t /\ (t <= 1060 <= t + 86400)%Z.
Proof.
  refine (accepted_token_is_signed "secret" (Some (JStr (generate_token "secret" "a1b2" 7 1000)))
            7 1060 "" _).
  vm_compute. reflexivity.
Defined.

Lemma unsafe_requests_witness :
  check_csrf true "secret" (q0 "" (Some (generate_token "secret" "a1b2" 7 1000))) 1060 = None.
Proof.
  apply (proj2 (unsafe_requests_need_a_token "secret"
    (q0 "" (Some (generate_token "secret" "a1b2" 7 1000))) 7 1060
    (or_introl eq_refl) eq_refl eq_refl)).
  right. vm_compute. reflexivity.
Defined.

Definition st0 : Auth.state :=
  Auth.State [Auth.User 7 "alice" "operator" true] []
    (Auth.Session (Some 7%Z) (Some "alice") (Some (Auth.SAt 0)) (Some (Auth.SAt 0)) None true) [].

Lemma unknown_api_key_witness :
  guarded_route true "secret" (q0 "nonsense" None) ["write:cas"] 5 5 5 st0 =
  (None, Some (Auth.require_auth ["write:cas"] None 5 5 st0).2) /\
  exists r, (Auth.require_auth ["write:cas"] None 5 5 st0).2 = Auth.Granted r.
Proof.
  split; [|eexists; reflexivity].
  exact (unknown_api_key_bypasses_csrf "secret" (q0 "nonsense" None) ["write:cas"] 5 5 5 st0
    ltac:(discriminate) (List.Forall_nil _)).
Defined.

End CsrfWitness.
