(* ===== verification/RateLimiter.v ===== *)
(** The rate limiter: [security/rate_limiter.py].  The configuration with its
    environment variables, custom limits and whitelist, the token bucket with its
    sliding window, and the middleware, a client of the audit interface.

    Times are integer microseconds and tokens are counted in sixty-millionths, so
    that the refill [(elapsed / 60.0) * rpm] of the source is an exact integer;
    the rounding of its floats is not modelled. *)
From S2P Require Import Prelude AuditSink AuditLog.

Module RateLimiter.
Local Open Scope string_scope.
Local Open Scope list_scope.
Local Open Scope Z_scope.

(** * Configuration: [RateLimitConfig] *)

Record limit := Limit { rpm : Z; burst : Z }.

(** The environment variables by name. *)
Definition env := list (string * string).

(** [_get_env_int] and [_get_env_bool]. *)
Definition get_env_int (e : env) (key : string) (dflt : Z) : Z :=
  match Json.assoc key e with Some v => default dflt (Num.py_int v) | None => dflt end.
Definition get_env_bool (e : env) (key : string) (dflt : bool) : bool :=
  let v := Str.lower (default (if dflt then "True" else "False") (Json.assoc key e)) in
  existsb (String.eqb v) ["true"; "1"; "yes"; "on"].

Record config := Config {
  c_loaded : bool;
  c_default_limits : list (string * limit);
  c_enabled : option bool;
  c_custom_limits : list (string * limit);
  c_whitelist : gset string;
}.
Definition initial_config : config := Config false [] None [] ∅.

(** The table [_load_limits] builds; [_default] is its last row. *)
Definition limits_of_env (e : env) : list (string * limit) :=
  let auth_rpm := get_env_int e "RATE_LIMIT_AUTH_RPM" 30 in
  let auth_burst := get_env_int e "RATE_LIMIT_AUTH_BURST" 10 in
  let heavy_rpm := get_env_int e "RATE_LIMIT_HEAVY_RPM" 60 in
  let heavy_burst := get_env_int e "RATE_LIMIT_HEAVY_BURST" 15 in
  let standard_rpm := get_env_int e "RATE_LIMIT_STANDARD_RPM" 300 in
  let standard_burst := get_env_int e "RATE_LIMIT_STANDARD_BURST" 50 in
  let protocol_rpm := get_env_int e "RATE_LIMIT_PROTOCOL_RPM" 500 in
  let protocol_burst := get_env_int e "RATE_LIMIT_PROTOCOL_BURST" 100 in
  [("/api/v2/auth/login", Limit auth_rpm auth_burst);
   ("/api/v2/auth/register", Limit (auth_rpm / 2) (auth_burst - 1));
   ("/api/v2/auth/reset-password", Limit (auth_rpm / 2) (auth_burst - 1));
   ("/api/v2/sso/callback", Limit auth_rpm auth_burst);
   ("/api/v2/sso/ldap/login", Limit auth_rpm auth_burst);
   ("/api/v2/auth/email-configured", Limit 1000 100);
   ("/api/v2/sso/available", Limit 1000 100);
   ("/api/v2/certificates/issue", Limit heavy_rpm heavy_burst);
   ("/api/v2/cas", Limit heavy_rpm heavy_burst);
   ("/api/v2/csrs/sign", Limit (heavy_rpm / 2) heavy_burst);
   ("/api/v2/import", Limit (heavy_rpm / 3) 2);
   ("/api/v2/export", Limit (heavy_rpm / 3) 2);
   ("/api/v2/backup", Limit (heavy_rpm / 6) 2);
   ("/api/v2/users", Limit (standard_rpm / 2) (standard_burst / 2));
   ("/api/v2/certificates", Limit standard_rpm standard_burst);
   ("/api/v2/audit", Limit (standard_rpm / 2) (standard_burst / 2));
   ("/acme/", Limit (protocol_rpm / 2) (protocol_burst / 2));
   ("/scep/", Limit (protocol_rpm / 2) (protocol_burst / 2));
   ("/ocsp", Limit protocol_rpm protocol_burst);
   ("/cdp/", Limit protocol_rpm protocol_burst);
   ("_default", Limit standard_rpm standard_burst)].

(** The addresses of RATE_LIMIT_WHITELIST. *)
Definition whitelist_of_env (e : env) : list string :=
  let s := default "127.0.0.1,::1" (Json.assoc "RATE_LIMIT_WHITELIST" e) in
  if Str.truthy s
  then List.filter Str.truthy (List.map Str.strip (Str.split "," s)) else [].

(** [RateLimitConfig._load_limits] *)
Definition load_limits (e : env) (c : config) : config :=
  if c_loaded c then c
  else Config true (limits_of_env e) (c_enabled c) (c_custom_limits c)
         (c_whitelist c ∪ list_to_set (whitelist_of_env e)).

(** [RateLimitConfig.is_enabled]: the answer and the class afterwards. *)
Definition is_enabled (e : env) (c : config) : config * bool :=
  match c_enabled c with
  | Some b => (c, b)
  | None =>
      let b := get_env_bool e "RATE_LIMIT_ENABLED" true in
      (Config (c_loaded c) (c_default_limits c) (Some b) (c_custom_limits c) (c_whitelist c), b)
  end.
Definition set_enabled (b : bool) (c : config) : config :=
  Config (c_loaded c) (c_default_limits c) (Some b) (c_custom_limits c) (c_whitelist c).

(** The first pattern of a table that is a prefix of the path. *)
Definition match_pattern (path : string) (t : list (string * limit)) : option (string * limit) :=
  List.find (fun p => Str.startswith path p.1) t.
Definition not_default (p : string * limit) : bool := negb (String.eqb p.1 "_default").

(** [RateLimitConfig.get_limit], on a loaded configuration; [None] stands for the
    KeyError of a table without [_default]. *)
Definition get_limit (path : string) (c : config) : option limit :=
  match match_pattern path (c_custom_limits c) with
  | Some p => Some p.2
  | None =>
      match match_pattern path (List.filter not_default (c_default_limits c)) with
      | Some p => Some p.2
      | None => Json.assoc "_default" (c_default_limits c)
      end
  end.

(** [d[k] = v] of a dict: an existing key keeps its place. *)
Fixpoint dict_set {A} (k : string) (v : A) (d : list (string * A)) : list (string * A) :=
  match d with
  | [] => [(k, v)]
  | (k', v') :: d' => if String.eqb k k' then (k, v) :: d' else (k', v') :: dict_set k v d'
  end.
Definition set_custom (l : list (string * limit)) (c : config) : config :=
  Config (c_loaded c) (c_default_limits c) (c_enabled c) l (c_whitelist c).

(** [set_custom_limit], [remove_custom_limit], [add_whitelist], [remove_whitelist],
    [is_whitelisted] and [reload] *)
Definition set_custom_limit (path : string) (r b : Z) (c : config) : config :=
  set_custom (dict_set path (Limit r b) (c_custom_limits c)) c.
Definition remove_custom_limit (path : string) (c : config) : config :=
  set_custom (List.filter (fun p => negb (String.eqb p.1 path)) (c_custom_limits c)) c.
Definition set_whitelist (w : gset string) (c : config) : config :=
  Config (c_loaded c) (c_default_limits c) (c_enabled c) (c_custom_limits c) w.
Definition add_whitelist (ip : string) (c : config) : config :=
  set_whitelist ({[ip]} ∪ c_whitelist c) c.
Definition remove_whitelist (ip : string) (c : config) : config :=
  set_whitelist (c_whitelist c ∖ {[ip]}) c.
Definition is_whitelisted (ip : option string) (c : config) : bool :=
  match ip with Some a => bool_decide (a ∈ c_whitelist c) | None => false end.
Definition reload (e : env) (c : config) : config :=
  load_limits e (Config false (c_default_limits c) None (c_custom_limits c) ∅).

(** * The token buckets: [RateLimiter] *)

(** One token, and the window of one minute in microseconds. *)
Definition token : Z := 60000000.
Definition window : Z := 60 * Time.second.

Record bucket := Bucket { b_tokens : Z; b_last_update : Z; b_requests : list Z }.

Record limiter := Limiter {
  l_buckets : gmap string bucket;
  s_total : Z;
  s_limited : Z;
  s_by_endpoint : gmap string (Z * Z);
}.
Definition new_limiter : limiter := Limiter ∅ 0 0 ∅.

(** What the call reports besides the verdict. *)
Inductive info :=
| Disabled
| Whitelisted
| Allowed (remaining limit reset : Z)
| Blocked (limit retry_after : Z).

(** [RateLimiter._get_key]: only the default patterns count. *)
Definition get_key (ip : option string) (path : string) (c : config) : string :=
  AuditLog.fmt ip ^+ ":" ^+
  match match_pattern path (List.filter not_default (c_default_limits c)) with
  | Some p => p.1
  | None => "_default"
  end.

(** The part of [check_rate_limit] that works on one bucket: the pruning of the
    old requests, the refill, and the verdict. *)
Definition refill (l : limit) (now : Z) (b : bucket) : bucket :=
  let requests := List.filter (fun t => now - t <? window) (b_requests b) in
  let elapsed := now - b_last_update b in
  Bucket (Z.min (burst l * token) (b_tokens b + elapsed * rpm l)) now requests.

Definition check_bucket (l : limit) (now : Z) (b : bucket) : bucket * (bool * info) :=
  let b := refill l now b in
  if (token <=? b_tokens b) && (Z.of_nat (length (b_requests b)) <? rpm l) then
    let b := Bucket (b_tokens b - token) (b_last_update b) (b_requests b ++ [now]) in
    (b, (true, Allowed (Z.quot (b_tokens b) token) (rpm l)
                 (Z.quot (now + window - List.hd now (b_requests b)) Time.second)))
  else
    (b, (false, Blocked (rpm l)
      match b_requests b with
      | oldest :: _ => Z.quot (window - (now - oldest)) Time.second + 1
      | [] => 60
      end)).

Definition fresh_bucket (l : limit) (now : Z) : bucket := Bucket (burst l * token) now [].

(** [RateLimiter.check_rate_limit] *)
Definition check_rate_limit (e : env) (ip : option string) (path : string) (now : Z)
    (c : config) (s : limiter) : option (config * limiter * (bool * info)) :=
  let '(c, enabled) := is_enabled e c in
  if negb enabled then Some (c, s, (true, Disabled))
  else
    let c := load_limits e c in
    if is_whitelisted ip c then Some (c, s, (true, Whitelisted))
    else
      l ← get_limit path c;
      let key := get_key ip path c in
      let b := default (fresh_bucket l now) (l_buckets s !! key) in
      let '(b, r) := check_bucket l now b in
      let '(allowed, blocked) := default (0, 0) (s_by_endpoint s !! path) in
      Some (c,
        Limiter (<[key := b]> (l_buckets s)) (s_total s + 1)
          (if r.1 then s_limited s else s_limited s + 1)
          (<[path := if r.1 then (allowed + 1, blocked) else (allowed, blocked + 1)]>
             (s_by_endpoint s)), r).

(** [RateLimiter.reset_stats] and [RateLimiter.clear_bucket] *)
Definition reset_stats (s : limiter) : limiter := Limiter (l_buckets s) 0 0 ∅.
Definition clear_bucket (ip : option string) (s : limiter) : limiter :=
  let bs := match ip with
            | Some a => if Str.truthy a
                then filter (fun kb => Str.startswith kb.1 (a ^+ ":") = false) (l_buckets s)
                else ∅
            | None => ∅
            end in
  Limiter bs (s_total s) (s_limited s) (s_by_endpoint s).

(** * The middleware *)

Inductive reply := Pass (i : option info) | TooMany (retry_after : Z).

Definition health_path (path : string) : bool :=
  Str.startswith path "/static" ||
  existsb (String.eqb path) ["/health"; "/api/health"; "/api/v2/health"].

Section Middleware.
Context {T} `{AuditSink T}.

(** [rate_limit_middleware]: a refusal is reported to the audit trail. *)
Definition rate_limit_middleware (e : env) (q : AuditLog.request) (path : string) (now : Z)
    (c : config) (s : limiter) (trail : T) : option (config * limiter * T * reply) :=
  if health_path path then Some (c, s, trail, Pass None)
  else
    '(c, s, (allowed, i)) ← check_rate_limit e (AuditLog.client_ip q) path now c s;
    if allowed : bool then Some (c, s, trail, Pass (Some i))
    else
      let ev := Event "rate_limited" (Some "api") ANone ANone
                  (AStr ("Rate limited: " ^+ path)) false None in
      Some (c, s, record_event ev trail,
            TooMany (match i with Blocked _ r => r | _ => 60 end)).

End Middleware.

(** * A sequence of requests *)

Record req := Req { r_ip : option string; r_path : string; r_now : Z }.

(** The verdicts on requests served in order. *)
Fixpoint serve (e : env) (c : config) (s : limiter) (rs : list req) : option (list (req * bool)) :=
  match rs with
  | [] => Some []
  | r :: rs' =>
      '(c, s, v) ← check_rate_limit e (r_ip r) (r_path r) (r_now r) c s;
      tr ← serve e c s rs';
      Some ((r, v.1) :: tr)
  end.

End RateLimiter.

(** What the rate limiter enforces: the sliding window and the token bucket, for
    any sequence of requests whose clock does not go back, and what lets a client
    around it. *)
Module RateLimiterFacts.
Import RateLimiter.
Local Open Scope string_scope.
Local Open Scope list_scope.
Local Open Scope Z_scope.

(** * A loaded and enabled configuration *)

Definition ready (c : config) : Prop := c_loaded c = true /\ c_enabled c = Some true.

Definition req_key (c : config) (r : req) : string := get_key (r_ip r) (r_path r) c.

Lemma check_ready e ip path now c s :
  ready c ->
  check_rate_limit e ip path now c s =
  if is_whitelisted ip c then Some (c, s, (true, Whitelisted))
  else
    l ← get_limit path c;
    let key := get_key ip path c in
    let '(b, r) := check_bucket l now (default (fresh_bucket l now) (l_buckets s !! key)) in
    let '(allowed, blocked) := default (0, 0) (s_by_endpoint s !! path) in
    Some (c,
      Limiter (<[key := b]> (l_buckets s)) (s_total s + 1)
        (if r.1 then s_limited s else s_limited s + 1)
        (<[path := if r.1 then (allowed + 1, blocked) else (allowed, blocked + 1)]>
           (s_by_endpoint s)), r).
Proof.
  intros [Hl He]. unfold check_rate_limit, is_enabled, load_limits. rewrite He. cbn [negb].
  by rewrite Hl.
Qed.

(** One step of [serve]: a whitelisted request changes nothing, any other one
    changes only the bucket of its key. *)
Lemma serve_cons e c s r rs tr :
  ready c -> serve e c s (r :: rs) = Some tr ->
  exists s' ok tr', tr = (r, ok) :: tr' /\ serve e c s' rs = Some tr' /\
  ((is_whitelisted (r_ip r) c = true /\ s' = s /\ ok = true) \/
   (is_whitelisted (r_ip r) c = false /\ exists l,
      get_limit (r_path r) c = Some l /\
      let res := check_bucket l (r_now r)
        (default (fresh_bucket l (r_now r)) (l_buckets s !! req_key c r)) in
      l_buckets s' = <[req_key c r := res.1]> (l_buckets s) /\ ok = res.2.1)).
Proof.
  intros Hc. cbn [serve]. rewrite check_ready by done.
  destruct (is_whitelisted (r_ip r) c) eqn:Ew.
  - cbn [mbind option_bind]. destruct (serve e c s rs) as [tr'|] eqn:E; [|done].
    intros [= <-]. exists s, true, tr'. auto 10.
  - destruct (get_limit (r_path r) c) as [l|]; [|done]. cbn [mbind option_bind]. cbv zeta.
    unfold req_key. destruct (check_bucket l (r_now r) _) as [b v] eqn:Eb.
    destruct (default (0, 0) _) as [al bl]. cbn [mbind option_bind].
    set (s' := Limiter _ _ _ _). destruct (serve e c s' rs) as [tr'|] eqn:E; [|done].
    cbn [mbind option_bind]. intros [= <-]. exists s', v.1, tr'.
    split; [done|]. split; [done|]. right. split; [done|]. exists l. by rewrite Eb.
Qed.
(** * The sliding window *)

(** The clock of the requests does not go back, and starts at [t0] at the earliest. *)
Definition ordered (t0 : Z) (rs : list req) : Prop := StronglySorted Z.le (t0 :: List.map r_now rs).

Lemma ordered_cons t0 r rs : ordered t0 (r :: rs) -> t0 <= r_now r /\ ordered (r_now r) rs.
Proof.
  unfold ordered. simpl. intros [Hs Hf]%StronglySorted_inv. inversion_clear Hf. done.
Qed.

(** A request that was let through and counted against a bucket. *)
Definition counted (c : config) (k : string) (p : req * bool) : bool :=
  p.2 && negb (is_whitelisted (r_ip p.1) c) && String.eqb (req_key c p.1) k.

(** The times of the requests a trace let through for a bucket. *)
Definition accepted (c : config) (k : string) (tr : list (req * bool)) : list Z :=
  List.map (fun p => r_now p.1) (List.filter (counted c k) tr).

Definition recent (now : Z) (t : Z) : bool := now - t <? window.

Lemma accepted_snoc c k tr p :
  accepted c k (tr ++ [p]) = accepted c k tr ++ (if counted c k p then [r_now p.1] else []).
Proof. unfold accepted. rewrite List.filter_app, map_app. simpl. by destruct (counted c k p). Qed.

Lemma recent_twice last now ts :
  last <= now -> List.filter (recent now) (List.filter (recent last) ts) = List.filter (recent now) ts.
Proof.
  intros Hle. induction ts as [|t ts IH]; [done|]. cbn [List.filter].
  destruct (recent last t) eqn:E1; cbn [List.filter].
  - by rewrite IH.
  - rewrite IH. unfold recent in *. by destruct (Z.ltb_spec (last - t) window), (Z.ltb_spec (now - t) window);
      [..|lia|].
Qed.

(** The bucket of a key remembers the accepted requests of the last minute. *)
Definition remembers (c : config) (h : list (req * bool)) (tl : Z) (k : string) (b : bucket) : Prop :=
  b_requests b = List.filter (recent (b_last_update b)) (accepted c k h) /\ b_last_update b <= tl.

Definition window_inv (c : config) (bs : gmap string bucket) (h : list (req * bool)) (tl : Z) : Prop :=
  forall k, match bs !! k with
            | Some b => remembers c h tl k b
            | None => accepted c k h = []
            end.

Lemma refill_requests l now b :
  b_requests (refill l now b) = List.filter (recent now) (b_requests b).
Proof. done. Qed.

Lemma check_bucket_cases l now b :
  let b' := refill l now b in
  (token <= b_tokens b' /\ Z.of_nat (length (b_requests b')) < rpm l /\
   (check_bucket l now b).2.1 = true /\
   (check_bucket l now b).1 = Bucket (b_tokens b' - token) now (b_requests b' ++ [now])) \/
  ((check_bucket l now b).2.1 = false /\ (check_bucket l now b).1 = b').
Proof.
  cbv zeta. unfold check_bucket. set (b' := refill l now b).
  destruct (Z.leb_spec token (b_tokens b')), (Z.ltb_spec (Z.of_nat (length (b_requests b'))) (rpm l));
    simpl; auto.
Qed.

(** What the bucket of the request holds before the verdict. *)
Lemma window_before c bs h tl k l now :
  window_inv c bs h tl -> tl <= now ->
  b_requests (refill l now (default (fresh_bucket l now) (bs !! k))) =
  List.filter (recent now) (accepted c k h).
Proof.
  intros Hi Hn. rewrite refill_requests. specialize (Hi k). destruct (bs !! k) as [b|]; cbn.
  - destruct Hi as [-> Hl]. apply recent_twice. lia.
  - by rewrite Hi.
Qed.

Lemma window_step c bs h tl r l :
  window_inv c bs h tl -> tl <= r_now r -> is_whitelisted (r_ip r) c = false ->
  let res := check_bucket l (r_now r)
    (default (fresh_bucket l (r_now r)) (bs !! req_key c r)) in
  window_inv c (<[req_key c r := res.1]> bs) (h ++ [(r, res.2.1)]) (r_now r).
Proof.
  intros Hi Hn Hw. cbv zeta. intros k.
  pose proof (window_before c bs h tl (req_key c r) l (r_now r) Hi Hn) as Hb.
  destruct (decide (req_key c r = k)) as [<-|Hne].
  - rewrite lookup_insert_eq. unfold remembers. rewrite accepted_snoc.
    unfold counted. cbn [fst snd]. rewrite Hw, StrFacts.eqb_refl, andb_true_r, andb_true_r.
    destruct (check_bucket_cases l (r_now r) (default (fresh_bucket l (r_now r)) (bs !! req_key c r)))
      as [(_ & _ & -> & ->)|(-> & ->)].
    + cbn [b_requests b_last_update]. rewrite Hb, List.filter_app. split; [|lia]. f_equal. simpl.
      unfold recent. rewrite Z.sub_diag. done.
    + rewrite Hb, app_nil_r. split; [done|]. simpl. lia.
  - rewrite lookup_insert_ne by done. specialize (Hi k). unfold remembers in *.
    rewrite accepted_snoc. unfold counted. cbn [fst snd].
    destruct (String.eqb_spec (req_key c r) k); [done|]. rewrite andb_false_r, app_nil_r.
    destruct (bs !! k); [|done]. destruct Hi as [-> ?]. split; [done|lia].
Qed.

Lemma serve_window e c s h tl rs tr :
  ready c -> window_inv c (l_buckets s) h tl -> ordered tl rs -> serve e c s rs = Some tr ->
  forall tr1 r tr2 l, tr = tr1 ++ (r, true) :: tr2 ->
  is_whitelisted (r_ip r) c = false -> get_limit (r_path r) c = Some l ->
  Z.of_nat (length (List.filter (recent (r_now r)) (accepted c (req_key c r) (h ++ tr1)))) < rpm l.
Proof.
  intros Hc. revert s h tl tr. induction rs as [|r0 rs IH]; intros s h tl tr Hi Ho Hs tr1 r tr2 l E Hw Hl.
  { injection Hs as <-. by destruct tr1. }
  apply ordered_cons in Ho as [Hn Ho].
  apply serve_cons in Hs as (s' & ok & tr' & -> & Hs' & Hcase); [|done].
  destruct Hcase as [(Hw0 & -> & ->)|(Hw0 & l0 & Hl0 & Hb & Hok)].
  - destruct tr1 as [|p tr1]; [injection E as <- <-; congruence|]. injection E as <- E.
    assert (forall k, accepted c k (h ++ [(r0, true)]) = accepted c k h) as Ha.
    { intros k. rewrite accepted_snoc. unfold counted. cbn [fst snd]. rewrite Hw0. simpl. apply app_nil_r. }
    assert (window_inv c (l_buckets s) (h ++ [(r0, true)]) (r_now r0)) as Hi'.
    { intros k. unfold remembers. rewrite Ha. specialize (Hi k). unfold remembers in Hi.
      destruct (l_buckets s !! k); [|done]. destruct Hi. split; [done|lia]. }
    specialize (IH s _ _ tr' Hi' Ho Hs' tr1 r tr2 l E Hw Hl). by rewrite <-app_assoc in IH.
  - pose proof (window_step c (l_buckets s) h tl r0 l0 Hi Hn Hw0) as Hi'. cbv zeta in Hi', Hb.
    rewrite <-Hb, <-Hok in Hi'.
    destruct tr1 as [|p tr1].
    + injection E as <- -> <-. rewrite app_nil_r. assert (l0 = l) as -> by congruence.
      pose proof (window_before c (l_buckets s) h tl (req_key c r0) l (r_now r0) Hi Hn) as Hw1.
      destruct (check_bucket_cases l (r_now r0)
        (default (fresh_bucket l (r_now r0)) (l_buckets s !! req_key c r0)))
        as [(_ & Hlt & _)|(Hf & _)]; [by rewrite Hw1 in Hlt|congruence].
    + injection E as <- E.
      specialize (IH s' _ _ tr' Hi' Ho Hs' tr1 r tr2 l E Hw Hl). by rewrite <-app_assoc in IH.
Qed.

(** Whenever a request is let through at some time, fewer than [rpm] requests
    of its bucket were let through in the sixty seconds before it, for any mix of
    clients and paths served in time order. *)
Theorem sliding_window e c t0 rs tr tr1 r tr2 l :
  ready c -> ordered t0 rs -> serve e c new_limiter rs = Some tr ->
  tr = tr1 ++ (r, true) :: tr2 ->
  is_whitelisted (r_ip r) c = false -> get_limit (r_path r) c = Some l ->
  Z.of_nat (length (List.filter (fun t => r_now r - t <? window)
    (accepted c (req_key c r) tr1))) < rpm l.
Proof.
  intros Hc Ho Hs. by apply (serve_window e c new_limiter [] t0 rs tr Hc (fun k => eq_refl) Ho Hs).
Qed.

(** * The token bucket *)

(** What a bucket can still pay for until [tend]. *)
Definition potential (l : limit) (tend tl : Z) (ob : option bucket) : Z :=
  match ob with
  | Some b => b_tokens b + rpm l * (tend - b_last_update b)
  | None => burst l * token + rpm l * (tend - tl)
  end.

Definition sound_bucket (tl : Z) (ob : option bucket) : Prop :=
  match ob with Some b => 0 <= b_tokens b /\ b_last_update b <= tl | None => True end.

Lemma check_bucket_potential l tend tl now ob :
  0 <= rpm l -> 0 <= burst l -> tl <= now -> sound_bucket tl ob ->
  let res := check_bucket l now (default (fresh_bucket l now) ob) in
  sound_bucket now (Some res.1) /\
  (if res.2.1 then token else 0) + potential l tend now (Some res.1) <= potential l tend tl ob.
Proof.
  intros Hr Hb Ht Hs. cbv zeta.
  assert (0 <= b_tokens (refill l now (default (fresh_bucket l now) ob)) /\
          potential l tend now (Some (refill l now (default (fresh_bucket l now) ob)))
          <= potential l tend tl ob) as [Hp1 Hp2].
  { destruct ob as [b|]; cbn in *; unfold token in *; nia. }
  destruct (check_bucket_cases l now (default (fresh_bucket l now) ob))
    as [(H1 & _ & -> & ->)|(-> & ->)]; cbn [sound_bucket potential b_tokens b_last_update] in *;
    cbn in *; lia.
Qed.

Lemma potential_nonneg l tend tl ob :
  0 <= rpm l -> 0 <= burst l -> tl <= tend -> sound_bucket tl ob -> 0 <= potential l tend tl ob.
Proof. intros Hr Hb Ht Hs. destruct ob as [b|]; cbn in *; unfold token; nia. Qed.

Lemma serve_tokens e c k l tend s tl rs tr :
  ready c -> 0 <= rpm l -> 0 <= burst l ->
  (forall r, In r rs -> req_key c r = k -> get_limit (r_path r) c = Some l) ->
  ordered tl rs -> (forall r, In r rs -> r_now r <= tend) -> tl <= tend ->
  sound_bucket tl (l_buckets s !! k) -> serve e c s rs = Some tr ->
  Z.of_nat (length (accepted c k tr)) * token <= potential l tend tl (l_buckets s !! k).
Proof.
  intros Hc Hr Hb. revert s tl tr. induction rs as [|r rs IH]; intros s tl tr Hl Ho Hend Htl Hs Hserve.
  { injection Hserve as <-. simpl. by apply potential_nonneg. }
  apply ordered_cons in Ho as [Hn Ho].
  apply serve_cons in Hserve as (s' & ok & tr' & -> & Hs' & Hcase); [|done].
  assert (r_now r <= tend) as Hrt by (apply Hend; by left).
  assert (forall r', In r' rs -> req_key c r' = k -> get_limit (r_path r') c = Some l) as Hl'
    by (intros; apply Hl; [by right|done]).
  assert (forall r', In r' rs -> r_now r' <= tend) as Hend' by (intros; apply Hend; by right).
  assert (forall ok', accepted c k ((r, ok') :: tr') =
    (if counted c k (r, ok') then [r_now r] else []) ++ accepted c k tr') as Ha.
  { intros ok'. unfold accepted. simpl. by destruct (counted c k (r, ok')). }
  rewrite Ha, length_app. unfold counted. cbn [fst snd].
  assert (sound_bucket (r_now r) (l_buckets s !! k)) as Hs1
    by (destruct (l_buckets s !! k); cbn in *; lia).
  assert (potential l tend (r_now r) (l_buckets s !! k) <= potential l tend tl (l_buckets s !! k)) as Hp1
    by (destruct (l_buckets s !! k); cbn in *; nia).
  destruct Hcase as [(Hw & -> & ->)|(Hw & l0 & Hl0 & Hbk & ->)]; rewrite Hw; cbn [negb].
  - specialize (IH s (r_now r) tr' Hl' Ho Hend' Hrt Hs1 Hs'). simpl. lia.
  - rewrite andb_true_r. destruct (String.eqb_spec (req_key c r) k) as [Hk|Hk].
    + assert (l0 = l) as -> by (rewrite (Hl r (or_introl eq_refl) Hk) in Hl0; congruence).
      rewrite Hk in Hbk.
      destruct (check_bucket_potential l tend tl (r_now r) (l_buckets s !! k) Hr Hb Hn Hs) as [H1 H2].
      assert (l_buckets s' !! k = Some (check_bucket l (r_now r)
        (default (fresh_bucket l (r_now r)) (l_buckets s !! k))).1) as Eb
        by (rewrite Hbk; apply lookup_insert_eq).
      specialize (IH s' (r_now r) tr' Hl' Ho Hend' Hrt). rewrite Eb in IH. specialize (IH H1 Hs').
      rewrite andb_true_r, Hk. destruct (check_bucket l (r_now r) _).2.1; cbn [length app]; lia.
    + assert (l_buckets s' !! k = l_buckets s !! k) as Eb
        by (rewrite Hbk; by apply lookup_insert_ne).
      specialize (IH s' (r_now r) tr' Hl' Ho Hend' Hrt). rewrite Eb in IH. specialize (IH Hs1 Hs').
      rewrite andb_false_r. simpl. lia.
Qed.

(** A bucket whose requests all have the same limit lets through at most
    [burst + rpm * T] of them in the [T] minutes the requests span. *)
Theorem token_bucket e c k l t0 tend rs tr :
  ready c -> 0 <= rpm l -> 0 <= burst l ->
  (forall r, In r rs -> req_key c r = k -> get_limit (r_path r) c = Some l) ->
  ordered t0 rs -> (forall r, In r rs -> r_now r <= tend) -> t0 <= tend ->
  serve e c new_limiter rs = Some tr ->
  Z.of_nat (length (accepted c k tr)) * 60000000 <= burst l * 60000000 + rpm l * (tend - t0).
Proof.
  intros Hc Hr Hb Hl Ho Hend Ht Hs.
  exact (serve_tokens e c k l tend new_limiter t0 rs tr Hc Hr Hb Hl Ho Hend Ht I Hs).
Qed.

(** * Around the limiter *)

(** With the default whitelist a client that sends the header
    [X-Forwarded-For: 127.0.0.1] is never limited, from any peer address, on any
    path, at any rate: the middleware lets every such request through and the
    limiter keeps no record of it. *)
Theorem forwarded_loopback_is_never_limited {T} `{AuditSink T} e c s (trail : T) peer agent path now :
  c_loaded c = false -> Json.assoc "RATE_LIMIT_WHITELIST" e = None ->
  exists c' i,
    rate_limit_middleware e (AuditLog.Request (Some "127.0.0.1") peer agent) path now c s trail
    = Some (c', s, trail, Pass i).
Proof.
  intros Hc He. unfold rate_limit_middleware. destruct (health_path path); [by eexists _, _|].
  change (AuditLog.client_ip _) with (Some "127.0.0.1"). unfold check_rate_limit, is_enabled.
  assert (forall c, c_loaded c = false -> is_whitelisted (Some "127.0.0.1") (load_limits e c) = true) as Hw.
  { intros c0 Hc0. unfold load_limits. rewrite Hc0. cbn [is_whitelisted c_whitelist].
    apply bool_decide_eq_true, elem_of_union_r, elem_of_list_to_set.
    unfold whitelist_of_env. rewrite He. apply list_elem_of_In. vm_compute. by left. }
  destruct (c_enabled c) as [b|].
  - destruct b; cbn [negb]; [rewrite Hw by done|]; by eexists _, _.
  - destruct (get_env_bool e _ _); cbn [negb]; [rewrite Hw by done|]; by eexists _, _.
Qed.

(** * Witnesses *)
Definition c1 : config := load_limits [] (set_enabled true initial_config).
Definition login (t : Z) : req := Req (Some "9.9.9.9") "/api/v2/auth/login" t.
Definition rs1 : list req := [login 0; login 5; login 5; login 2000000].
Definition tr1 : list (req * bool) := List.map (fun r => (r, true)) rs1.

Lemma rs1_ordered : ordered 0 rs1.
Proof. unfold ordered, rs1. simpl. repeat constructor; done. Qed.

Lemma sliding_window_witness :
  Z.of_nat (length (List.filter (fun t => 2000000 - t <? window)
    (accepted c1 "9.9.9.9:/api/v2/auth/login" [(login 0, true); (login 5, true); (login 5, true)]))) < 30.
Proof.
  refine (sliding_window [] c1 0 rs1 tr1 [(login 0, true); (login 5, true); (login 5, true)]
    (login 2000000) [] (Limit 30 10) _ rs1_ordered _ eq_refl _ _);
    [split; reflexivity|vm_compute; reflexivity..].
Defined.

Lemma token_bucket_witness :
  Z.of_nat (length (accepted c1 "9.9.9.9:/api/v2/auth/login" tr1)) * 60000000
  <= 10 * 60000000 + 30 * (2000000 - 0).
Proof.
  refine (token_bucket [] c1 "9.9.9.9:/api/v2/auth/login" (Limit 30 10) 0 2000000 rs1 tr1
    _ _ _ _ rs1_ordered _ _ _); [split; reflexivity|done|done| | |done|vm_compute; reflexivity].
  - intros r [<-|[<-|[<-|[<-|[]]]]] _; vm_compute; reflexivity.
  - intros r [<-|[<-|[<-|[<-|[]]]]]; simpl; lia.
Defined.

#[local] Existing Instance list_sink.

Lemma forwarded_loopback_witness :
  exists c' i,
    rate_limit_middleware [] (AuditLog.Request (Some "127.0.0.1") (Some "6.6.6.6") None)
      "/api/v2/auth/login" 7 initial_config new_limiter ([] : list string)
    = Some (c', new_limiter, [], Pass i).
Proof.
  exact (forwarded_loopback_is_never_limited [] initial_config new_limiter ([] : list string)
    (Some "6.6.6.6") None "/api/v2/auth/login" 7 eq_refl eq_refl).
Defined.

End RateLimiterFacts.
