(* ===== verification/Anomaly.v ===== *)
(** Anomaly detection: [security/anomaly_detection.py].  The caches of the
    detector, the two recorders and the events they send to the audit trail,
    against the interface [AuditSink]. *)
From S2P Require Import Prelude Hashes AuditSink.

Module Anomaly.
Local Open Scope string_scope.
Local Open Scope list_scope.
Local Open Scope Z_scope.

Definition BULK_OPERATION_THRESHOLD : Z := 50.
Definition FAILED_LOGIN_THRESHOLD : Z := 5.
Definition UNUSUAL_HOUR_START : Z := 2.
Definition UNUSUAL_HOUR_END : Z := 5.

(** [self._cache] *)
Record cache := Cache {
  bulk_ops : gmap Z (list (Z * string * Z));
  failed_logins : gmap string (list Z);
  user_agents : gmap Z (gset string);
}.
Definition empty_cache : cache := Cache ∅ ∅ ∅.

(** The dict of an anomaly; absent keys are [None]. *)
Record anomaly := Anomaly {
  a_type : string;
  a_severity : string;
  a_message : string;
  a_user_id : option Z;
  a_ip : option string;
  a_operations : option (list string);
}.

(** The dict in the order its keys are written. *)
Definition to_json (a : anomaly) : json :=
  JDict ([("type", JStr (a_type a)); ("severity", JStr (a_severity a)); ("message", JStr (a_message a))]
    ++ match a_user_id a with Some u => [("user_id", JInt u)] | None => [] end
    ++ match a_ip a with Some i => [("ip", JStr i)] | None => [] end
    ++ match a_operations a with Some l => [("operations", Json.strings l)] | None => [] end).

(** [now.hour] *)
Definition hour (now : Z) : Z := (now mod Time.days 1) / Time.hours 1.

Definition anomaly_event (a : anomaly) : event :=
  Event "security_anomaly" (Some "security") ANone ANone (AStr (Json.dumps (to_json a))) true
    (Some ("user:" ^+ match a_user_id a with Some u => Num.str u | None => "unknown" end)).

(** [[t for t in l if t > cutoff]] *)
Definition after {A} (time : A -> Z) (cutoff : Z) (l : list A) : list A :=
  List.filter (fun x => cutoff <? time x) l.

Section Detector.
Context `{Hashes} {T} `{AuditSink T}.

(** The part of [record_login] for a successful login. *)
Definition successful_login (uid : Z) (ip agent : string) (now : Z) (c : cache) : cache * list anomaly :=
  let unusual :=
    if (UNUSUAL_HOUR_START <=? hour now) && (hour now <? UNUSUAL_HOUR_END)
    then [Anomaly "unusual_time_login" "low"
            ("Login at unusual hour (" ^+ Num.str (hour now) ^+ ":00 UTC)") (Some uid) (Some ip) None]
    else [] in
  let ua_hash := Str.take 16 (sha256_hex agent) in
  match user_agents c !! uid with
  | Some known =>
      if bool_decide (ua_hash ∈ known) then (c, unusual)
      else (Cache (bulk_ops c) (failed_logins c) (<[uid := {[ua_hash]} ∪ known]> (user_agents c)),
            unusual ++ [Anomaly "new_device" "medium" "Login from new device/browser"
                          (Some uid) (Some ip) None])
  | None => (Cache (bulk_ops c) (failed_logins c) (<[uid := {[ua_hash]}]> (user_agents c)), unusual)
  end.

(** The part for a failed one. *)
Definition failed_login (ip : string) (now : Z) (c : cache) : cache * list anomaly :=
  let attempts := after id (now - Time.minutes 5) (default [] (failed_logins c !! ip) ++ [now]) in
  let n := Z.of_nat (length attempts) in
  (Cache (bulk_ops c) (<[ip := attempts]> (failed_logins c)) (user_agents c),
   if FAILED_LOGIN_THRESHOLD <=? n
   then [Anomaly "credential_stuffing" "high"
           ("Multiple failed logins from same IP (" ^+ Num.str n ^+ " attempts)") None (Some ip) None]
   else []).

(** [record_login] *)
Definition record_login (uid : Z) (ip agent : string) (success : bool) (now : Z) (c : cache) (trail : T)
  : cache * T * list anomaly :=
  let '(c, anomalies) :=
    if success then successful_login uid ip agent now c else failed_login ip now c in
  (c, record_events (List.map anomaly_event anomalies) trail, anomalies).

(** [record_bulk_operation] *)
Definition record_bulk_operation (uid : Z) (operation : string) (count now : Z) (c : cache) (trail : T)
  : cache * T * option anomaly :=
  let set l := Cache (<[uid := l]> (bulk_ops c)) (failed_logins c) (user_agents c) in
  let ops := after (fun p => p.1.1) (now - Time.minutes 5)
               (default [] (bulk_ops c !! uid) ++ [(now, operation, count)]) in
  let total := fold_right (fun p acc => p.2 + acc) 0 ops in
  if BULK_OPERATION_THRESHOLD <=? total then
    let a := Anomaly "bulk_operation" "high"
               ("Bulk operations detected (" ^+ Num.str total ^+ " items in 5 minutes)")
               (Some uid) None (Some (List.map (fun p => p.1.2) ops)) in
    (set [], record_event (anomaly_event a) trail, Some a)
  else (set ops, trail, None).

(** * Sequences of logins *)

Record attempt := Attempt { t_uid : Z; t_ip : string; t_agent : string; t_success : bool; t_now : Z }.

Fixpoint logins (l : list attempt) (c : cache) (trail : T) : cache * T * list (list anomaly) :=
  match l with
  | [] => (c, trail, [])
  | x :: l' =>
      let '(c, trail, a) := record_login (t_uid x) (t_ip x) (t_agent x) (t_success x) (t_now x) c trail in
      let '(c, trail, r) := logins l' c trail in
      (c, trail, a :: r)
  end.

(** The times of the failed logins from an address in the five minutes before. *)
Definition failures (ip : string) (now : Z) (l : list attempt) : list Z :=
  after id (now - Time.minutes 5)
    (List.map t_now (List.filter (fun x => negb (t_success x) && String.eqb (t_ip x) ip) l)).

Definition stuffing (a : anomaly) : bool := String.eqb (a_type a) "credential_stuffing".

Lemma after_app {A} f cutoff (l l' : list A) : after f cutoff (l ++ l') = after f cutoff l ++ after f cutoff l'.
Proof. apply List.filter_app. Qed.

Lemma after_twice c1 c2 l : c1 <= c2 -> after id c2 (after id c1 l) = after id c2 l.
Proof.
  intros Hle. unfold after, id. induction l as [|t l IH]; [done|]. cbn [List.filter].
  destruct (Z.ltb_spec c1 t); cbn [List.filter]; rewrite IH; [done|].
  destruct (Z.ltb_spec c2 t); [lia|done].
Qed.

(** The cache of an address after a sequence that ended at [now]. *)
Definition tracks (l : list attempt) (now : Z) (c : cache) : Prop :=
  forall ip, exists last, last <= now /\ default [] (failed_logins c !! ip) = failures ip last l.

Lemma failures_snoc ip now l x :
  failures ip now (l ++ [x]) =
  failures ip now l ++ after id (now - Time.minutes 5)
    (if negb (t_success x) && String.eqb (t_ip x) ip then [t_now x] else []).
Proof.
  unfold failures. rewrite List.filter_app, map_app, after_app. simpl.
  by destruct (negb (t_success x) && String.eqb (t_ip x) ip).
Qed.

Lemma failures_later ip last now l :
  last <= now -> after id (now - Time.minutes 5) (failures ip last l) = failures ip now l.
Proof. intros H1. unfold failures. apply after_twice. lia. Qed.

Lemma failed_login_spec l now ip c x :
  tracks l now c -> now <= t_now x -> t_success x = false -> t_ip x = ip ->
  let '(c', a) := failed_login ip (t_now x) c in
  tracks (l ++ [x]) (t_now x) c' /\
  existsb stuffing a = (5 <=? Z.of_nat (length (failures ip (t_now x) (l ++ [x])))).
Proof.
  intros Ht Hn Hf Hip. unfold failed_login.
  destruct (Ht ip) as (last & Hl & E). rewrite E, after_app, failures_later by lia.
  assert (failures ip (t_now x) l ++ after id (t_now x - Time.minutes 5) [t_now x] =
          failures ip (t_now x) (l ++ [x])) as ->.
  { rewrite failures_snoc, Hf, Hip, StrFacts.eqb_refl. done. }
  split.
  - intros ip'. cbn [failed_logins]. destruct (decide (ip = ip')) as [<-|Hne].
    + exists (t_now x). rewrite lookup_insert_eq. split; [lia|done].
    + rewrite lookup_insert_ne by done. destruct (Ht ip') as (last' & Hl' & ->). exists last'.
      split; [lia|]. rewrite failures_snoc, Hf, Hip.
      destruct (String.eqb_spec ip ip'); [done|]. simpl. by rewrite app_nil_r.
  - unfold FAILED_LOGIN_THRESHOLD. by destruct (5 <=? _).
Qed.

Lemma successful_login_spec l now c x :
  tracks l now c -> now <= t_now x -> t_success x = true ->
  let '(c', a) := successful_login (t_uid x) (t_ip x) (t_agent x) (t_now x) c in
  tracks (l ++ [x]) (t_now x) c' /\ existsb stuffing a = false.
Proof.
  intros Ht Hn Hs. unfold successful_login.
  set (unusual := if _ && _ then _ else _).
  assert (existsb stuffing unusual = false) as Hu by (unfold unusual; by destruct (_ && _)).
  assert (forall c', failed_logins c' = failed_logins c -> tracks (l ++ [x]) (t_now x) c') as Hk.
  { intros c' Hc ip. rewrite Hc. destruct (Ht ip) as (last & Hl & ->). exists last. split; [lia|].
    rewrite failures_snoc, Hs. simpl. by rewrite app_nil_r. }
  destruct (user_agents c !! t_uid x) as [known|]; [|by split; [apply Hk|]].
  case_bool_decide; [by split; [apply Hk|]|]. split; [by apply Hk|].
  rewrite existsb_app, Hu. done.
Qed.

Lemma logins_spec l0 t0 l c trail :
  tracks l0 t0 c -> StronglySorted Z.le (t0 :: List.map t_now l) ->
  forall i x a, l !! i = Some x -> (logins l c trail).2 !! i = Some a ->
  existsb stuffing a =
  negb (t_success x) && (5 <=? Z.of_nat (length (failures (t_ip x) (t_now x) (l0 ++ take (S i) l)))).
Proof.
  revert l0 t0 c trail. induction l as [|y l IH]; intros l0 t0 c trail Ht Hs i x a Hx Ha; [done|].
  simpl in Hs. apply StronglySorted_inv in Hs as [Hs Hf]. inversion_clear Hf as [|?? Hn _].
  cbn [logins] in Ha. unfold record_login in Ha.
  destruct (if t_success y then _ else _) as [c1 a1] eqn:E.
  destruct (logins l c1 _) as [[c2 tr2] r] eqn:El. cbn [snd] in Ha.
  assert (tracks (l0 ++ [y]) (t_now y) c1 /\ existsb stuffing a1 = negb (t_success y) &&
    (5 <=? Z.of_nat (length (failures (t_ip y) (t_now y) (l0 ++ [y]))))) as [Ht1 Ha1].
  { destruct (t_success y) eqn:Ey.
    - pose proof (successful_login_spec l0 t0 c y Ht Hn Ey) as Hsp. by rewrite E in Hsp.
    - pose proof (failed_login_spec l0 t0 (t_ip y) c y Ht Hn Ey eq_refl) as Hsp. by rewrite E in Hsp. }
  destruct i as [|i]; simpl in Hx, Ha.
  - injection Hx as <-. by injection Ha as <-.
  - assert ((logins l c1 (record_events (List.map anomaly_event a1) trail)).2 !! i = Some a) as Ha'
      by (by rewrite El).
    rewrite (IH _ _ _ _ Ht1 Hs i x a Hx Ha'). rewrite <-app_assoc. done.
Qed.

(** In a sequence of logins with a clock that does not go back, a login raises
    the credential-stuffing anomaly exactly when it failed and it is at least the
    fifth failure from its address in five minutes, whichever users they named;
    every anomaly is recorded in the audit trail, in order. *)
Theorem credential_stuffing_spec l t0 trail :
  StronglySorted Z.le (t0 :: List.map t_now l) ->
  let '(_, trail', r) := logins l empty_cache trail in
  (forall i x a, l !! i = Some x -> r !! i = Some a ->
     existsb stuffing a =
     negb (t_success x) && (5 <=? Z.of_nat (length (failures (t_ip x) (t_now x) (take (S i) l))))) /\
  actions trail' = actions trail ++ List.map (fun _ => "security_anomaly") (List.concat r) /\
  (intact trail -> intact trail').
Proof.
  intros Hs. pose proof (logins_spec [] t0 l empty_cache trail) as Hl.
  assert (tracks [] t0 empty_cache) as Ht by (intros ip; exists t0; split; [lia|done]).
  specialize (Hl Ht Hs). destruct (logins l empty_cache trail) as [[c' trail'] r] eqn:E.
  split; [exact Hl|]. clear Hl Hs Ht. revert trail trail' r E. generalize empty_cache.
  induction l as [|x l IH]; intros c trail trail' r E.
  - injection E as <- <- <-. simpl. by rewrite app_nil_r.
  - cbn [logins] in E. unfold record_login in E.
    destruct (if t_success x then _ else _) as [c1 a1].
    destruct (logins l c1 _) as [[c2 tr2] r2] eqn:El. injection E as <- <- <-.
    apply IH in El as [Ea Ei]. rewrite Ea, record_events_actions. split.
    + simpl. rewrite List.map_map, map_app, <-app_assoc. done.
    + intros Hi. by apply Ei, record_events_intact.
Qed.

(** A bulk operation is reported exactly when the operations of the user in the
    last five minutes since the last report, this one included, add up to fifty
    items; a report is recorded and empties the user's list, and no other user is
    affected. *)
Theorem bulk_operation_spec uid operation count now c trail :
  let pending := after (fun p => p.1.1) (now - Time.minutes 5) (default [] (bulk_ops c !! uid)) in
  let total := fold_right (fun p acc => p.2 + acc) count pending in
  let '(c', trail', r) := record_bulk_operation uid operation count now c trail in
  (forall v, v <> uid -> bulk_ops c' !! v = bulk_ops c !! v) /\
  match r with
  | Some a => 50 <= total /\ bulk_ops c' !! uid = Some [] /\
              actions trail' = actions trail ++ ["security_anomaly"]
  | None => total < 50 /\ bulk_ops c' !! uid = Some (pending ++ [(now, operation, count)]) /\
            trail' = trail
  end.
Proof.
  cbv zeta. unfold record_bulk_operation. rewrite after_app.
  assert (after (fun p : Z * string * Z => p.1.1) (now - Time.minutes 5) [(now, operation, count)]
          = [(now, operation, count)]) as ->.
  { unfold after. simpl. unfold Time.minutes, Time.second. by destruct (Z.ltb_spec (now - 5 * 60 * 1000000) now); [|lia]. }
  set (pending := after _ _ (default [] _)).
  assert (fold_right (fun p acc => p.2 + acc) 0 (pending ++ [(now, operation, count)]) =
          fold_right (fun p acc => p.2 + acc) count pending) as ->
    by (rewrite fold_right_app; simpl; by rewrite Z.add_0_r).
  unfold BULK_OPERATION_THRESHOLD.
  destruct (Z.leb_spec 50 (fold_right (fun p acc => p.2 + acc) count pending)); cbn [bulk_ops].
  - split; [intros v Hv; by rewrite lookup_insert_ne|]. rewrite lookup_insert_eq.
    split; [done|]. split; [done|]. by rewrite record_actions.
  - split; [intros v Hv; by rewrite lookup_insert_ne|]. by rewrite lookup_insert_eq.
Qed.

End Detector.

(** Five failures in two minutes, of two users. *)
#[local] Existing Instance list_sink.
Definition burst : list attempt :=
  List.map (fun i => Attempt (i mod 2) "6.6.6.6" "curl" false (Time.minutes 2 + i)) [0; 1; 2; 3; 4].

Lemma credential_stuffing_witness :
  existsb stuffing (nth 4 (logins burst empty_cache ([] : list string)).2 []) = true /\
  actions (logins burst empty_cache ([] : list string)).1.2 = ["security_anomaly"].
Proof.
  assert (StronglySorted Z.le (0 :: List.map t_now burst)) as Hs
    by (repeat constructor; vm_compute; discriminate).
  pose proof (credential_stuffing_spec burst 0 ([] : list string) Hs) as H.
  split; [|vm_compute; reflexivity].
  exact (proj1 H 4%nat (Attempt 0 "6.6.6.6" "curl" false (Time.minutes 2 + 4)) _ eq_refl eq_refl).
Defined.

End Anomaly.
