(* ===== verification/Encryption.v ===== *)
(** Private-key encryption at rest: [security/encryption.py].  Fernet is the
    interface [Fernet].  A key column holds base64 text; it is represented by the
    bytes it decodes to (columns that are not base64 are outside the model). *)
From S2P Require Import Prelude.

(** The symmetric cipher: what it encrypts it decrypts again, whatever the
    initialisation vector [iv]. *)
Class Fernet := {
  fernet_encrypt : nat -> string -> string;
  fernet_decrypt : string -> option string;
  fernet_law iv s : fernet_decrypt (fernet_encrypt iv s) = Some s;
}.

Module Encryption.
Local Open Scope string_scope.
Local Open Scope list_scope.

Definition ENCRYPTED_MARKER : string := "ENC:".
Definition marked (s : string) : bool := Str.startswith s ENCRYPTED_MARKER.

Section Key.
Context `{Fernet} (enabled : bool).

(** [KeyEncryption.is_encrypted] *)
Definition is_encrypted (data : string) : bool := Str.truthy data && marked data.

(** [KeyEncryption.encrypt] *)
Definition encrypt (iv : nat) (data : string) : string :=
  if negb enabled || negb (Str.truthy data) then data
  else if marked data then data
  else ENCRYPTED_MARKER ^+ fernet_encrypt iv data.

(** [KeyEncryption.decrypt]; [None] is the ValueError of a missing or wrong key. *)
Definition decrypt (data : string) : option string :=
  if negb (Str.truthy data) then Some data
  else if negb (marked data) then Some data
  else if negb enabled then None
  else fernet_decrypt (Str.drop 4 data).

(** [decrypt_private_key] and [encrypt_private_key] *)
Definition decrypt_private_key (data : string) : option string :=
  if Str.truthy data then decrypt data else Some data.
Definition encrypt_private_key (iv : nat) (data : string) : string :=
  if Str.truthy data then encrypt iv data else data.

(** * The key columns of the two tables, CAs first *)

Record keys := Keys { ca_keys : list (option string); cert_keys : list (option string) }.
Record summary := Summary { changed : nat; skipped : nat; errors : nat }.
Definition no_changes : summary := Summary 0 0 0.
Definition with_changed (s : summary) := Summary (S (changed s)) (skipped s) (errors s).
Definition with_skipped (s : summary) := Summary (changed s) (S (skipped s)) (errors s).
Definition with_error (s : summary) := Summary (changed s) (skipped s) (S (errors s)).

Fixpoint encrypt_column (dry_run : bool) (iv : nat) (l : list (option string)) (s : summary)
  : list (option string) * summary :=
  match l with
  | [] => ([], s)
  | None :: l' => let '(r, s) := encrypt_column dry_run (S iv) l' s in (None :: r, s)
  | Some k :: l' =>
      if is_encrypted k then
        let '(r, s) := encrypt_column dry_run (S iv) l' (with_skipped s) in (Some k :: r, s)
      else
        let k' := if dry_run then k else encrypt iv k in
        let '(r, s) := encrypt_column dry_run (S iv) l' (with_changed s) in (Some k' :: r, s)
  end.

Fixpoint decrypt_column (dry_run : bool) (l : list (option string)) (s : summary)
  : list (option string) * summary :=
  match l with
  | [] => ([], s)
  | None :: l' => let '(r, s) := decrypt_column dry_run l' s in (None :: r, s)
  | Some k :: l' =>
      if is_encrypted k then
        if dry_run then
          let '(r, s) := decrypt_column dry_run l' (with_changed s) in (Some k :: r, s)
        else match decrypt k with
        | Some k' => let '(r, s) := decrypt_column dry_run l' (with_changed s) in (Some k' :: r, s)
        | None => let '(r, s) := decrypt_column dry_run l' (with_error s) in (Some k :: r, s)
        end
      else let '(r, s) := decrypt_column dry_run l' (with_skipped s) in (Some k :: r, s)
  end.

(** [encrypt_all_keys] and [decrypt_all_keys]; [None] stands for the refusal
    while encryption is not enabled. *)
Definition encrypt_all_keys (dry_run : bool) (iv : nat) (db : keys) : keys * option summary :=
  if negb enabled then (db, None)
  else
    let '(cas, s) := encrypt_column dry_run iv (ca_keys db) no_changes in
    let '(certs, s) := encrypt_column dry_run (iv + length (ca_keys db)) (cert_keys db) s in
    (Keys cas certs, Some s).
Definition decrypt_all_keys (dry_run : bool) (db : keys) : keys * option summary :=
  if negb enabled then (db, None)
  else
    let '(cas, s) := decrypt_column dry_run (ca_keys db) no_changes in
    let '(certs, s) := decrypt_column dry_run (cert_keys db) s in
    (Keys cas certs, Some s).

(** [has_encrypted_keys_in_db] *)
Definition has_encrypted_keys_in_db (db : keys) : bool :=
  let some (o : option string) := match o with Some k => is_encrypted k | None => false end in
  existsb some (ca_keys db) || existsb some (cert_keys db).

End Key.

(** * Round trips *)
Section Facts.
Context `{Fernet}.

Lemma encrypt_marked iv k :
  k <> "" -> marked k = false -> encrypt true iv k = ENCRYPTED_MARKER ^+ fernet_encrypt iv k.
Proof. unfold encrypt. intros Hk Hm. rewrite Hm. by destruct k. Qed.

Lemma is_encrypted_marker s : is_encrypted (ENCRYPTED_MARKER ^+ s) = true.
Proof. unfold is_encrypted, marked, Str.startswith. simpl. by destruct s. Qed.

(** Encryption is idempotent and decryption undoes it. *)
Lemma encrypt_idempotent enabled iv iv' k : encrypt enabled iv' (encrypt enabled iv k) = encrypt enabled iv k.
Proof.
  unfold encrypt. destruct enabled; [|done]. cbn [negb orb].
  destruct (Str.truthy k) eqn:Et; cbn [negb]; [|by rewrite Et].
  destruct (marked k) eqn:Em; [by rewrite Et, Em|].
  pose proof (is_encrypted_marker (fernet_encrypt iv k)) as [H1 H2]%andb_true_iff.
  by rewrite H1, H2.
Qed.

Lemma decrypt_encrypt iv k : is_encrypted k = false -> decrypt true (encrypt true iv k) = Some k.
Proof.
  unfold is_encrypted. intros Hk. destruct (decide (k = "")) as [->|Hne]; [done|].
  assert (marked k = false) as Hm by (by destruct k). rewrite encrypt_marked by done.
  unfold decrypt. pose proof (is_encrypted_marker (fernet_encrypt iv k)) as [-> ->]%andb_true_iff.
  apply fernet_law.
Qed.

Definition plain (l : list (option string)) : Prop :=
  forall k, In (Some k) l -> is_encrypted k = false.

Definition real_keys (l : list (option string)) : nat :=
  length (List.filter (fun o => match o with Some _ => true | None => false end) l).
Definition some_keys (l : list (option string)) : nat :=
  length (List.filter (fun o => match o with Some k => Str.truthy k | None => false end) l).

Lemma column_roundtrip iv l s s' :
  plain l ->
  let '(l', t) := encrypt_column true false iv l s in
  t = Summary (changed s + real_keys l) (skipped s) (errors s) /\
  (forall k, In (Some k) l' -> k = "" \/ is_encrypted k = true) /\
  (decrypt_column true false l' s').1 = l /\
  changed (decrypt_column true false l' s').2 = changed s' + some_keys l /\
  errors (decrypt_column true false l' s').2 = errors s'.
Proof.
  revert iv s s'. induction l as [|[k|] l IH]; intros iv s s' Hp.
  - unfold real_keys, some_keys. simpl. rewrite !Nat.add_0_r. by destruct s.
  - cbn [encrypt_column]. rewrite (Hp k) by (by left).
    assert (plain l) as Hp' by (intros x Hx; apply Hp; by right).
    assert (is_encrypted k = false) as Hk by (apply Hp; by left).
    unfold real_keys, some_keys in *. cbn [List.filter].
    destruct (decide (k = "")) as [->|Hne].
    + specialize (IH (S iv) (with_changed s) (with_skipped s') Hp').
      destruct (encrypt_column true false (S iv) l _) as [l' t].
      destruct IH as (-> & H1 & H2 & H3 & H4). split; [simpl; f_equal; lia|].
      split; [intros x [[= <-]|Hx]; auto|]. cbn [decrypt_column encrypt].
      change (is_encrypted (encrypt true iv "")) with false. cbv iota.
      destruct (decrypt_column true false l' (with_skipped s')) as [l2 t2].
      cbn [fst snd] in *. rewrite H2, H3, H4. done.
    + specialize (IH (S iv) (with_changed s) (with_changed s') Hp').
      destruct (encrypt_column true false (S iv) l _) as [l' t].
      destruct IH as (-> & H1 & H2 & H3 & H4). split; [simpl; f_equal; lia|].
      assert (is_encrypted (encrypt true iv k) = true) as He.
      { rewrite encrypt_marked; [apply is_encrypted_marker|done|].
        unfold is_encrypted in Hk. by destruct k. }
      split; [intros x [[= <-]|Hx]; auto|]. cbn [decrypt_column]. rewrite He, decrypt_encrypt by done.
      destruct (decrypt_column true false l' (with_changed s')) as [l2 t2].
      cbn [fst snd] in *. rewrite H2, H3, H4.
      destruct k as [|c k]; [done|]. split; [done|]. simpl. split; [lia|done].
  - cbn [encrypt_column]. assert (plain l) as Hp' by (intros x Hx; apply Hp; by right).
    specialize (IH (S iv) s s' Hp'). destruct (encrypt_column true false (S iv) l s) as [l' t].
    destruct IH as (-> & H1 & H2 & H3 & H4). split; [done|].
    split; [intros x [?|Hx]; [done|auto]|]. cbn [decrypt_column].
    destruct (decrypt_column true false l' s') as [l2 t2]. cbn [fst snd] in *. by rewrite H2, H3, H4.
Qed.

(** Encrypting all keys of a database with plain keys leaves no readable key,
    counts every key and no error, and decrypting all keys afterwards restores the
    database exactly, without an error. *)
Theorem encrypt_all_roundtrip iv db :
  plain (ca_keys db) -> plain (cert_keys db) ->
  let '(db', s) := encrypt_all_keys true false iv db in
  s = Some (Summary (real_keys (ca_keys db) + real_keys (cert_keys db)) 0 0) /\
  (forall k, In (Some k) (ca_keys db' ++ cert_keys db') -> k = "" \/ is_encrypted k = true) /\
  (decrypt_all_keys true false db').1 = db /\
  errors <$> (decrypt_all_keys true false db').2 = Some 0.
Proof.
  intros Hc Ht. unfold encrypt_all_keys, decrypt_all_keys. cbn [negb].
  pose proof (column_roundtrip iv (ca_keys db) no_changes no_changes Hc) as H1.
  destruct (encrypt_column true false iv (ca_keys db) no_changes) as [cas s1].
  destruct H1 as (-> & Hm1 & Hd1 & _ & He1). simpl in He1.
  destruct (decrypt_column true false cas no_changes) as [l1 t1] eqn:E1. cbn [fst snd] in *.
  pose proof (column_roundtrip (iv + length (ca_keys db)) (cert_keys db)
    (Summary (0 + real_keys (ca_keys db)) 0 0) t1 Ht) as H2. cbn [changed skipped errors no_changes] in *.
  destruct (encrypt_column true false (iv + length (ca_keys db)) (cert_keys db) _) as [certs s2].
  destruct H2 as (-> & Hm2 & Hd2 & _ & He2). cbn [ca_keys cert_keys changed skipped errors] in *.
  split; [done|]. split; [intros k [Hk|Hk]%in_app_or; auto|]. rewrite E1.
  destruct (decrypt_column true false certs t1) as [l2 t2]. cbn [fst snd fmap option_fmap option_map] in *.
  rewrite Hd1, Hd2, He2, He1. by destruct db.
Qed.

End Facts.

(** A stand-in cipher for the witness: it keeps the text behind its counter. *)
#[local] Program Instance toy_fernet : Fernet := {
  fernet_encrypt iv s := "v" ^+ s;
  fernet_decrypt s := match s with String _ t => Some t | EmptyString => None end;
}.
Solve Obligations with done.

Lemma encrypt_all_roundtrip_witness :
  (decrypt_all_keys true false (encrypt_all_keys true false 0 (Keys [Some "KEY1"; None] [Some "KEY2"])).1).1
  = Keys [Some "KEY1"; None] [Some "KEY2"].
Proof.
  refine (proj1 (proj2 (proj2 (encrypt_all_roundtrip 0 (Keys [Some "KEY1"; None] [Some "KEY2"]) _ _))));
    intros k Hk; simpl in Hk; destruct Hk as [[= <-]|Hk]; try done; destruct Hk as [?|[]]; done.
Defined.

End Encryption.
