(* ===== verification/Pki.v ===== *)
(** Certificates, signing and revocation: the rows [CA], [Certificate] and
    [CRLMetadata], [TrustStoreService.sign_csr], [CertificateService.sign_csr] and
    [revoke_certificate], and [services/crl_service.py].

    The x509 library is the interface [X509]; a PEM column holds base64 text, which
    is represented by the text it decodes to.  Files written next to the database
    are not modelled. *)
From S2P Require Import Prelude AuditSink AuditLog Encryption.

Module Pki.
Local Open Scope string_scope.
Local Open Scope list_scope.

(** * X.509 objects, as far as the code reads them *)

(** The attributes of a distinguished name: type and value. *)
Definition name := list (string * string).

Inductive general_name :=
| DNSName (s : string) | IPAddress (s : string) | RFC822Name (s : string)
| UniformResourceIdentifier (s : string) | OtherName (s : string).

Inductive extension :=
| BasicConstraints (ca : bool) (path_length : option Z)
| KeyUsage (flags : list string)
| ExtendedKeyUsage (usages : list string)
| SubjectAlternativeName (names : list general_name)
| OtherExtension (oid value : string).

Record xext := Ext { x_value : extension; x_critical : bool }.

Definition is_basic (x : xext) : bool := match x_value x with BasicConstraints _ _ => true | _ => false end.
Definition is_key_usage (x : xext) : bool := match x_value x with KeyUsage _ => true | _ => false end.
Definition is_ext_usage (x : xext) : bool := match x_value x with ExtendedKeyUsage _ => true | _ => false end.
Definition is_san (x : xext) : bool := match x_value x with SubjectAlternativeName _ => true | _ => false end.

Record csr := Csr {
  q_signature_valid : bool;
  q_subject : name;
  q_public_key : string;
  q_extensions : list xext;
}.

Record cert := Cert {
  x_subject : name;
  x_issuer : name;
  x_public_key : string;
  x_serial : Z;
  x_not_before : Z;
  x_not_after : Z;
  x_extensions : list xext;
}.

#[global] Instance general_name_eq : EqDecision general_name.
Proof. solve_decision. Defined.
#[global] Instance extension_eq : EqDecision extension.
Proof. solve_decision. Defined.
#[global] Instance xext_eq : EqDecision xext.
Proof. solve_decision. Defined.
#[global] Instance cert_eq : EqDecision cert.
Proof. solve_decision. Defined.
#[global] Instance csr_eq : EqDecision csr.
Proof. solve_decision. Defined.

(** The names of the SAN extension; [None] is ExtensionNotFound. *)
Definition san_names (l : list xext) : option (list general_name) :=
  match List.find is_san l with
  | Some (Ext (SubjectAlternativeName ns) _) => Some ns
  | _ => None
  end.

(** The first DNS name among them. *)
Definition first_dns (ns : list general_name) : option string :=
  match List.find (fun n => match n with DNSName _ => true | _ => false end) ns with
  | Some (DNSName s) => Some s
  | _ => None
  end.

(** A signed CRL: number, dates, entries (serial, date, reason) and the base number
    of a delta. *)
Record crl_entry := CrlEntry { e_serial : Z; e_date : Z; e_reason : option string }.
Record crl_content := CrlContent {
  cc_issuer : name; cc_number : Z; cc_last_update : Z; cc_next_update : Z;
  cc_entries : list crl_entry; cc_base : option Z;
}.

Class X509 := {
  load_csr : string -> option csr;
  load_cert : string -> option cert;
  (** a private key from its PEM text; [None] when the text is not one *)
  load_key : string -> option string;
  (** [builder.sign] with a digest and a key, to PEM *)
  sign_cert : string -> string -> cert -> option string;
  sign_crl : string -> crl_content -> option string;
  rfc4514 : name -> string;
  load_sign d k c pem : sign_cert d k c = Some pem -> load_cert pem = Some c;
  sign_nonempty d k c pem : sign_cert d k c = Some pem -> pem <> EmptyString;
}.

(** * Rows *)

Record ca := CA {
  ca_id : Z;
  ca_refid : string;
  ca_descr : string;
  ca_crt : string;
  ca_prv : option string;
  ca_serial : option Z;
  ca_caref : option string;
  ca_hsm_key_id : option Z;
  ca_cdp_enabled : bool;
  ca_delta_crl_enabled : bool;
  ca_ocsp_enabled : bool;
}.

#[global] Instance ca_eq_dec : EqDecision ca.
Proof. solve_decision. Defined.

Record certificate := Certificate {
  c_id : Z;
  c_refid : string;
  c_descr : string;
  c_caref : option string;
  c_crt : option string;
  c_csr : option string;
  c_cert_type : option string;
  c_subject : option string;
  c_subject_cn : option string;
  c_issuer : option string;
  c_serial_number : option string;
  c_valid_from : option Z;
  c_valid_to : option Z;
  c_san_dns : option (list string);
  c_san_ip : option (list string);
  c_san_email : option (list string);
  c_revoked : bool;
  c_revoked_at : option Z;
  c_revoke_reason : option string;
  c_source : option string;
  c_created_by : option string;
}.

#[global] Instance certificate_eq_dec : EqDecision certificate.
Proof. solve_decision. Defined.

Record crl_meta := CrlMeta {
  m_ca_id : Z;
  m_crl_number : Z;
  m_this_update : Z;
  m_next_update : Z;
  m_pem : string;
  m_revoked_count : Z;
  m_generated_by : string;
  m_is_delta : bool;
  m_base_crl_number : option Z;
}.

Record db := Db { cas : list ca; certs : list certificate; crls : list crl_meta }.

(** [X.query.get(id)] and [filter_by(refid=...).first()] *)
Definition get_ca (id : Z) (d : db) : option ca := Table.first (fun a => (ca_id a =? id)%Z) (cas d).
Definition ca_by_refid (refid : string) (d : db) : option ca :=
  Table.first (fun a => String.eqb (ca_refid a) refid) (cas d).
Definition get_cert (id : Z) (d : db) : option certificate :=
  Table.first (fun c => (c_id c =? id)%Z) (certs d).

Definition otruthy : option string -> bool := AuditLog.otruthy.

(** [CA.has_private_key] *)
Definition has_private_key (a : ca) : bool :=
  otruthy (ca_prv a) || match ca_hsm_key_id a with Some k => negb (k =? 0)%Z | None => false end.

Definition set_certs (l : list certificate) (d : db) : db := Db (cas d) l (crls d).
Definition update_cert (id : Z) (f : certificate -> certificate) (d : db) : db :=
  set_certs (Table.update (fun c => (c_id c =? id)%Z) f (certs d)) d.

(** * [TrustStoreService.sign_csr] *)

Definition server_key_usage : list string := ["digital_signature"; "key_encipherment"].
Definition ca_key_usage : list string := ["digital_signature"; "key_cert_sign"; "crl_sign"].

(** The extensions of the issued certificate: those of the CSR, then the defaults
    of the certificate type where the CSR has none of the kind. *)
Definition issued_extensions (cert_type : string) (l : list xext) : list xext :=
  l
  ++ (if existsb is_basic l then []
      else if String.eqb cert_type "intermediate_ca"
      then [Ext (BasicConstraints true (Some 0%Z)) true]
      else [Ext (BasicConstraints false None) true])
  ++ (if existsb is_key_usage l then []
      else if String.eqb cert_type "intermediate_ca" then [Ext (KeyUsage ca_key_usage) true]
      else if String.eqb cert_type "server_cert" then [Ext (KeyUsage server_key_usage) true]
      else [])
  ++ (if existsb is_ext_usage l then []
      else if String.eqb cert_type "server_cert" then [Ext (ExtendedKeyUsage ["serverAuth"]) false]
      else if existsb (String.eqb cert_type) ["usr_cert"; "client_cert"]
      then [Ext (ExtendedKeyUsage ["clientAuth"]) false]
      else if existsb (String.eqb cert_type) ["combined_server_client"; "combined_cert"]
      then [Ext (ExtendedKeyUsage ["serverAuth"; "clientAuth"]) false]
      else []).

(** An empty subject takes the first DNS name of the SAN as its common name. *)
Definition issued_subject (q : csr) : name :=
  match q_subject q with
  | [] =>
      match san_names (q_extensions q) ≫= first_dns with
      | Some s => [("CN", s)]
      | None => []
      end
  | n => n
  end.

(** Certificates carry whole seconds. *)
Definition whole_second (t : Z) : Z := (t / Time.second * Time.second)%Z.

Section Signing.
Context `{X509}.

(** [serial] is the library's random serial number. *)
Definition trust_sign_csr (csr_pem : string) (ca_cert : cert) (ca_key : string) (validity_days : Z)
    (digest cert_type : string) (serial now : Z) : option string :=
  q ← load_csr csr_pem;
  if negb (q_signature_valid q) then None
  else sign_cert digest ca_key
         (Cert (issued_subject q) (x_subject ca_cert) (q_public_key q) serial
            (whole_second now) (whole_second (now + Time.days validity_days))
            (issued_extensions cert_type (q_extensions q))).

(** * [CertificateService.sign_csr] *)

Inductive sign_error :=
| CertificateNotFound | NoCSR | AlreadySigned | CANotFound (caref : string) | CANoPrivateKey
| LibraryError.

(** The common name: the first part of the subject text that starts with [CN=]. *)
Definition cn_of_subject (subject : string) : option string :=
  match List.find (fun p => Str.startswith (Str.upper (Str.strip p)) "CN=") (Str.split "," subject) with
  | Some p => Some (Str.drop 3 (Str.strip p))
  | None => None
  end.

Definition dns_list (ns : list general_name) : list string :=
  List.flat_map (fun n => match n with DNSName s => [s] | _ => [] end) ns.
Definition ip_list (ns : list general_name) : list string :=
  List.flat_map (fun n => match n with IPAddress s => [s] | _ => [] end) ns.
Definition email_list (ns : list general_name) : list string :=
  List.flat_map (fun n => match n with RFC822Name s => [s] | _ => [] end) ns.

(** [if l: column = json.dumps(l)] *)
Definition store_list (l : list string) (old : option (list string)) : option (list string) :=
  match l with [] => old | _ => Some l end.

(** The row after signing. *)
Definition signed_row (caref cert_type pem : string) (x : cert) (c : certificate) : certificate :=
  let subject_str := rfc4514 (x_subject x) in
  let ns := default [] (san_names (x_extensions x)) in
  let cn := cn_of_subject subject_str in
  let cn := if otruthy cn then cn else match dns_list ns with d :: _ => Some d | [] => cn end in
  let cn := if otruthy cn then cn
            else if Str.truthy (c_descr c) then Some (c_descr c) else cn in
  Certificate (c_id c) (c_refid c) (c_descr c) (Some caref) (Some pem) (c_csr c) (Some cert_type)
    (if Str.truthy subject_str then Some subject_str else None) cn
    (Some (rfc4514 (x_issuer x))) (Some (Num.str (x_serial x)))
    (Some (x_not_before x)) (Some (x_not_after x))
    (store_list (dns_list ns) (c_san_dns c)) (store_list (ip_list ns) (c_san_ip c))
    (store_list (email_list ns) (c_san_email c))
    (c_revoked c) (c_revoked_at c) (c_revoke_reason c) (c_source c) (c_created_by c).

Definition bump_serial (a : ca) : ca :=
  CA (ca_id a) (ca_refid a) (ca_descr a) (ca_crt a) (ca_prv a)
    (Some (default 0 (ca_serial a) + 1)%Z) (ca_caref a) (ca_hsm_key_id a)
    (ca_cdp_enabled a) (ca_delta_crl_enabled a) (ca_ocsp_enabled a).

Context {T} `{AuditSink T}.

(** The state and its trail. *)
Definition sign_csr (cert_id : Z) (caref cert_type : string) (validity_days : Z) (digest : string)
    (serial now : Z) (d : db) (trail : T) : db * T * (certificate + sign_error) :=
  match get_cert cert_id d with
  | None => (d, trail, inr CertificateNotFound)
  | Some c =>
      if negb (otruthy (c_csr c)) then (d, trail, inr NoCSR)
      else if otruthy (c_crt c) then (d, trail, inr AlreadySigned)
      else match ca_by_refid caref d with
      | None => (d, trail, inr (CANotFound caref))
      | Some a =>
          if negb (otruthy (ca_prv a)) then (d, trail, inr CANoPrivateKey)
          else match
            (ca_cert ← load_cert (ca_crt a);
             ca_key ← load_key (default "" (ca_prv a));
             pem ← trust_sign_csr (default "" (c_csr c)) ca_cert ca_key validity_days digest
                     cert_type serial now;
             x ← load_cert pem; Some (pem, x)) with
          | None => (d, trail, inr LibraryError)
          | Some (pem, x) =>
              let c' := signed_row caref cert_type pem x c in
              let d := update_cert cert_id (fun _ => c') d in
              let d := Db (Table.update (fun b => (ca_id b =? ca_id a)%Z) bump_serial (cas d))
                         (certs d) (crls d) in
              (d, record_event (AuditLog.log_certificate "csr_signed" (Some (c_descr c')) (c_subject c')
                                  (c_id c') (Some ("Signed CSR: " ^+ c_descr c')) true) trail,
               inl c')
          end
      end
  end.

End Signing.

(** * [services/crl_service.py] *)

Section Crl.
Context `{X509} `{Fernet} (encryption_enabled : bool) {T} `{AuditSink T}.
(** The text of an exception of the libraries. *)
Context (library_error : string).

Inductive crl_error :=
| NoSuchCA | NoKey | CdpDisabled | DeltaDisabled | BadValidity | NoBaseCrl | CrlLibraryError.

(** [str(e)] of the errors [generate_crl] raises for an existing CA. *)
Definition crl_error_text (a : ca) (e : crl_error) : string :=
  match e with
  | NoKey => "CA " ^+ ca_descr a ^+ " does not have a private key - cannot sign CRL"
  | _ => library_error
  end.

(** [get_revoked_certificates] for a CA row. *)
Definition revoked_of (a : ca) (d : db) : list certificate :=
  Table.all (fun c => AuditLog.otruthy (c_caref c) && String.eqb (default "" (c_caref c)) (ca_refid a)
                      && c_revoked c) (certs d).
Definition get_revoked_certificates (id : Z) (d : db) : option (list certificate) :=
  a ← get_ca id d; Some (revoked_of a d).

(** [int(serial.replace(':', ''), 16)], cut to 159 bits; [None] is the ValueError. *)
Definition crl_serial (s : string) : option Z :=
  n ← Num.parse 16 (Str.replace ":" "" s);
  Some (if (2 ^ 159 <=? Z.abs n)%Z then Z.land n (2 ^ 159 - 1) else n).

Definition REASONS : list string :=
  ["unspecified"; "keyCompromise"; "CACompromise"; "affiliationChanged"; "superseded";
   "cessationOfOperation"; "certificateHold"; "removeFromCRL"; "privilegeWithdrawn"; "aACompromise"].

(** The entry of a revoked row, none when its serial is missing or unreadable. *)
Definition crl_entry_of (now : Z) (c : certificate) : list crl_entry :=
  if negb (otruthy (c_serial_number c)) then []
  else match crl_serial (default "" (c_serial_number c)) with
  | None => []
  | Some n =>
      [CrlEntry n (default now (c_revoked_at c))
         (if otruthy (c_revoke_reason c) then
            let r := default "" (c_revoke_reason c) in
            Some (if existsb (String.eqb r) REASONS then r else "unspecified")
          else None)]
  end.

(** The next number of a CA's CRL sequence, shared by base and delta CRLs. *)
Definition next_crl_number (id : Z) (d : db) : Z :=
  match Table.last_by m_crl_number (Table.all (fun m => (m_ca_id m =? id)%Z) (crls d)) with
  | Some m => (m_crl_number m + 1)%Z
  | None => 1%Z
  end.

(** What both generators do once the entries are known: sign, store, report. *)
Definition publish (a : ca) (l : list certificate) (validity : Z) (base : option Z)
    (username action details : string) (now : Z) (d : db) (trail : T)
  : db * T * (crl_meta + crl_error) :=
  let number := next_crl_number (ca_id a) d in
  match
    (ca_cert ← load_cert (ca_crt a);
     prv ← ca_prv a;
     prv ← Encryption.decrypt_private_key encryption_enabled prv;
     key ← load_key prv;
     sign_crl key (CrlContent (x_subject ca_cert) number now (now + validity)%Z
                     (List.flat_map (crl_entry_of now) l) base)) with
  | None => (d, trail, inr CrlLibraryError)
  | Some pem =>
      let m := CrlMeta (ca_id a) number now (now + validity)%Z pem (Z.of_nat (length l)) username
                 (match base with Some _ => true | None => false end) base in
      (Db (cas d) (certs d) (crls d ++ [m]),
       record_event (AuditLog.log_ca action (Some (ca_descr a)) None (ca_id a) (Some details) true) trail,
       inl m)
  end.

(** [CRLService.generate_crl] *)
Definition generate_crl (id validity_days : Z) (username : string) (now : Z) (d : db) (trail : T)
  : db * T * (crl_meta + crl_error) :=
  match get_ca id d with
  | None => (d, trail, inr NoSuchCA)
  | Some a =>
      if negb (has_private_key a) then (d, trail, inr NoKey)
      else
        let l := revoked_of a d in
        publish a l (Time.days validity_days) None username "generate_crl"
          ("Generated CRL #" ^+ Num.str (next_crl_number id d) ^+ " for CA " ^+ ca_descr a ^+ " with "
             ^+ Num.str (Z.of_nat (length l)) ^+ " revoked certificates") now d trail
  end.

(** [get_latest_crl] and [get_latest_delta_crl] *)
Definition get_latest_crl (id : Z) (d : db) : option crl_meta :=
  Table.last_by m_crl_number
    (Table.all (fun m => (m_ca_id m =? id)%Z && negb (m_is_delta m)) (crls d)).
Definition get_latest_delta_crl (id : Z) (d : db) : option crl_meta :=
  Table.last_by m_crl_number
    (Table.all (fun m => (m_ca_id m =? id)%Z && m_is_delta m) (crls d)).
Definition get_latest_crl_by_refid (refid : string) (d : db) : option crl_meta :=
  a ← ca_by_refid refid d; get_latest_crl (ca_id a) d.

(** [update_crl] and [auto_generate_on_revocation] *)
Definition update_crl (id : Z) := generate_crl id 7.
Definition auto_generate_on_revocation (id : Z) (username : string) (now : Z) (d : db) (trail : T)
  : db * T * option (crl_meta + crl_error) :=
  match get_ca id d with
  | Some a => if ca_cdp_enabled a
              then let '(d, trail, r) := generate_crl id 7 username now d trail in (d, trail, Some r)
              else (d, trail, None)
  | None => (d, trail, None)
  end.

(** [CRLService.generate_delta_crl] *)
Definition generate_delta_crl (id validity_hours : Z) (username : string) (now : Z) (d : db) (trail : T)
  : db * T * (crl_meta + crl_error) :=
  match get_ca id d with
  | None => (d, trail, inr NoSuchCA)
  | Some a =>
      if negb (has_private_key a) then (d, trail, inr NoKey)
      else if negb (ca_cdp_enabled a) then (d, trail, inr CdpDisabled)
      else if negb (ca_delta_crl_enabled a) then (d, trail, inr DeltaDisabled)
      else if (validity_hours <? 1)%Z || (720 <? validity_hours)%Z then (d, trail, inr BadValidity)
      else match get_latest_crl id d with
      | None => (d, trail, inr NoBaseCrl)
      | Some base =>
          let l := Table.all (fun c => match c_revoked_at c with
                                       | Some t => (m_this_update base <? t)%Z
                                       | None => false end) (revoked_of a d) in
          publish a l (Time.hours validity_hours) (Some (m_crl_number base)) username
            "generate_delta_crl"
            ("Generated delta CRL #" ^+ Num.str (next_crl_number id d) ^+ " (base #"
               ^+ Num.str (m_crl_number base) ^+ ") with " ^+ Num.str (Z.of_nat (length l))
               ^+ " new revocations") now d trail
      end
  end.

(** * [CertificateService.revoke_certificate] *)

Definition set_revoked (reason : string) (now : Z) (c : certificate) : certificate :=
  Certificate (c_id c) (c_refid c) (c_descr c) (c_caref c) (c_crt c) (c_csr c) (c_cert_type c)
    (c_subject c) (c_subject_cn c) (c_issuer c) (c_serial_number c) (c_valid_from c) (c_valid_to c)
    (c_san_dns c) (c_san_ip c) (c_san_email c) true (Some now) (Some reason)
    (c_source c) (c_created_by c).

Inductive revoke_error := RevokeNotFound | AlreadyRevoked.

(** The clean-up of the OCSP cache reads a column the model does not have; the
    exception is caught and logged, and no row changes. *)
Definition revoke_certificate (cert_id : Z) (reason username : string) (now now' : Z)
    (d : db) (trail : T) : db * T * (certificate + revoke_error) :=
  match get_cert cert_id d with
  | None => (d, trail, inr RevokeNotFound)
  | Some c =>
      if c_revoked c then (d, trail, inr AlreadyRevoked)
      else
        let c' := set_revoked reason now c in
        let d := update_cert cert_id (fun _ => c') d in
        let trail := record_event (AuditLog.log_certificate "cert_revoked" (Some (c_descr c')) (c_subject c')
                       (c_id c') (Some ("Revoked certificate: " ^+ c_descr c' ^+ " - Reason: " ^+ reason))
                       true) trail in
        match c_caref c' ≫= (fun r => ca_by_refid r d) with
        | Some a =>
            if ca_cdp_enabled a then
              let '(d, trail, r) := generate_crl (ca_id a) 7 username now' d trail in
              let trail := match r with
                | inl _ => trail
                | inr e => record_event (AuditLog.log_ca "crl_auto_generation_failed" (Some (ca_descr a)) None
                             (ca_id a) (Some ("Failed to auto-generate CRL after revocation: " ^+ crl_error_text a e))
                             false) trail
                end in
              (d, trail, inl c')
            else (d, trail, inl c')
        | None => (d, trail, inl c')
        end
  end.

End Crl.
End Pki.
