(* ===== verification/PkiFacts.v ===== *)
(** What signing, revocation and CRL generation guarantee, and two consequences
    of the code that a relying party would not expect. *)
From S2P Require Import Prelude AuditSink AuditLog Encryption Pki.

Module PkiFacts.
Import Pki.
Local Open Scope string_scope.
Local Open Scope list_scope.

(** * Rows found again after an update *)

Lemma get_update_cert id f d :
  (forall c, c_id (f c) = c_id c) ->
  get_cert id (update_cert id f d) = f <$> get_cert id d.
Proof.
  intros Hf. unfold get_cert, update_cert. cbn [certs set_certs]. unfold Table.first, Table.update.
  induction (certs d) as [|c l IH]; [done|]. cbn [List.map List.find].
  destruct (c_id c =? id)%Z eqn:E; [by rewrite Hf, E|]. by rewrite E.
Qed.

Lemma get_update_other id id' f d :
  id <> id' -> (forall c, c_id (f c) = id) -> get_cert id' (update_cert id f d) = get_cert id' d.
Proof.
  intros Hne Hf. unfold get_cert, update_cert. cbn [certs set_certs]. unfold Table.first, Table.update.
  induction (certs d) as [|c l IH]; [done|]. cbn [List.map List.find].
  destruct (Z.eqb_spec (c_id c) id).
  - rewrite Hf. destruct (Z.eqb_spec id id'); [done|]. destruct (Z.eqb_spec (c_id c) id'); [congruence|done].
  - by destruct (c_id c =? id')%Z.
Qed.

Lemma get_cert_id id d c : get_cert id d = Some c -> c_id c = id.
Proof. intros [_ E%Z.eqb_eq]%Table.first_Some. done. Qed.

(** Only the constant replacement of the row found is used by the services. *)
Lemma get_replaced id c c' d :
  get_cert id d = Some c -> c_id c' = id -> get_cert id (update_cert id (fun _ => c') d) = Some c'.
Proof.
  intros Hc Hid. unfold get_cert, update_cert in *. cbn [certs set_certs].
  unfold Table.first, Table.update in *. induction (certs d) as [|x l IH]; [done|].
  cbn [List.map List.find] in *. destruct (Z.eqb_spec (c_id x) id) as [E|E].
  - by rewrite Hid, Z.eqb_refl.
  - destruct (Z.eqb_spec (c_id x) id); [done|]. by apply IH.
Qed.

(** * Numbers in decimal read as hexadecimal *)
Section Decimal.
Local Open Scope Z_scope.

Definition uint_text : Decimal.uint -> string := DecimalString.NilEmpty.string_of_uint.

Lemma digits_cons base acc prev c s k :
  Ascii.eqb c "_" = false -> Num.digit_val base c = Some k ->
  Num.digits base acc prev (String c s) = Num.digits base (acc * base + k) true s.
Proof. intros H1 H2. cbn [Num.digits]. by rewrite H1, H2. Qed.

(** Reading on after a prefix of value [a] (base 16) and [b] (base 10). *)
Definition above (x y : Z) : Prop := 0 <= y <= x /\ (9 < y -> y < x).
Definition dominated (a b : Z) (prev : bool) (s : string) : Prop :=
  exists x y, Num.digits 16 a prev s = Some x /\ Num.digits 10 b prev s = Some y /\ above x y.

Lemma digit_case c k d a b prev :
  Ascii.eqb c "_" = false -> Num.digit_val 16 c = Some k -> Num.digit_val 10 c = Some k ->
  dominated (a * 16 + k) (b * 10 + k) true (uint_text d) ->
  dominated a b prev (String c (uint_text d)).
Proof.
  intros Hc H16 H10 (x & y & Hx & Hy & Hab). exists x, y. by rewrite !(digits_cons _ _ _ _ _ k).
Qed.

(** The digits of a decimal text read in base 16 exceed its value, from two digits on. *)
Lemma digits_16_10 d a b prev :
  above a b -> (prev = true \/ d <> Decimal.Nil) -> dominated a b prev (uint_text d).
Proof.
  revert a b prev. induction d as [|d IH|d IH|d IH|d IH|d IH|d IH|d IH|d IH|d IH|d IH];
    intros a b prev Hab Hp.
  { exists a, b. destruct Hp as [->|?]; [|done]. done. }
  all: eapply digit_case; [reflexivity|vm_compute; reflexivity|vm_compute; reflexivity|].
  all: apply IH; [unfold above in *; lia|by left].
Qed.

Lemma uint_no_x d : Str.has_char "x" (uint_text d) = false /\ Str.has_char "X" (uint_text d) = false.
Proof. unfold uint_text. induction d; simpl; intuition. Qed.

Lemma prefix_0 c s : Str.has_char c s = false -> Str.startswith s (String "0" (String c "")) = false.
Proof.
  intros H. apply not_true_iff_false. intros [r ->]%StrFacts.prefix_spec.
  unfold Str.has_char in H. simpl in H. by rewrite Ascii.eqb_refl, orb_true_r in H.
Qed.

(** [int(str(n), 16)] of a number of two digits or more is another number. *)
Lemma decimal_read_as_hex n : 10 <= n -> exists x, Num.parse 16 (Num.str n) = Some x /\ n < x.
Proof.
  intros Hn. pose proof (NumFacts.py_int_str n ltac:(lia)) as H10.
  destruct (NumFacts.str_nonneg n ltac:(lia)) as (d & Hd & E & _). rewrite E in *.
  unfold Num.py_int, Num.parse in *. rewrite StrFacts.strip_id in * by apply NumFacts.uint_no_space.
  destruct (NumFacts.uint_head d Hd) as (c & r & Ec & Hm & Hp). rewrite Ec, Hm, Hp, <-Ec in *.
  destruct (uint_no_x d) as [H1 H2]. unfold Num.magnitude in *.
  change (DecimalString.NilEmpty.string_of_uint d) with (uint_text d) in *.
  rewrite (prefix_0 "x" _ H1), (prefix_0 "X" _ H2). cbn [orb andb Z.eqb Pos.eqb] in *.
  destruct (digits_16_10 d 0 0 false) as (x & y & Hx & Hy & Ha1 & Ha2); [split; lia|by right|].
  exists x. rewrite Hx. change (10 =? 16) with false in H10. cbv iota in H10. rewrite Hy in H10.
  injection H10 as ->. split; [done|]. apply Ha2. lia.
Qed.
End Decimal.
(** * Signing *)
Section Signing.
Context `{X509} {T} `{AuditSink T}.

(** What a successful [sign_csr] did. *)
Lemma sign_csr_inv id caref ct days digest serial now d (trail : T) d' trail' c' :
  sign_csr id caref ct days digest serial now d trail = (d', trail', inl c') ->
  exists c a q ca_cert pem x,
    get_cert id d = Some c /\ otruthy (c_crt c) = false /\ ca_by_refid caref d = Some a /\
    load_csr (default "" (c_csr c)) = Some q /\ q_signature_valid q = true /\
    load_cert (ca_crt a) = Some ca_cert /\ load_cert pem = Some x /\ pem <> "" /\
    x = Cert (issued_subject q) (x_subject ca_cert) (q_public_key q) serial
          (whole_second now) (whole_second (now + Time.days days)%Z)
          (issued_extensions ct (q_extensions q)) /\
    c' = signed_row caref ct pem x c /\
    certs d' = certs (update_cert id (fun _ => c') d) /\ crls d' = crls d /\
    actions trail' = actions trail ++ ["csr_signed"].
Proof.
  unfold sign_csr. destruct (get_cert id d) as [c|] eqn:Ec; [|done].
  destruct (otruthy (c_csr c)); [|done]. cbn [negb].
  destruct (otruthy (c_crt c)) eqn:Ecrt; [done|].
  destruct (ca_by_refid caref d) as [a|] eqn:Ea; [|done].
  destruct (otruthy (ca_prv a)); [|done]. cbn [negb]. unfold trust_sign_csr.
  destruct (load_cert (ca_crt a)) as [cac|] eqn:Ecac; [|done]. cbn [mbind option_bind].
  destruct (load_key (default "" (ca_prv a))) as [k|] eqn:Ek; [|done]. cbn [mbind option_bind].
  destruct (load_csr (default "" (c_csr c))) as [q|] eqn:Eq; [|done]. cbn [mbind option_bind].
  destruct (q_signature_valid q) eqn:Ev; [|done]. cbn [negb].
  set (x := Cert _ _ _ _ _ _ _).
  destruct (sign_cert digest k x) as [pem|] eqn:Es; [|done]. cbn [mbind option_bind].
  rewrite (load_sign _ _ _ _ Es). cbn [mbind option_bind]. intros [= <- <- <-].
  exists c, a, q, cac, pem, x. repeat (split; [done || by eapply load_sign || by eapply sign_nonempty|]).
  by rewrite record_actions.
Qed.

Lemma signed_row_id caref ct pem x c : c_id (signed_row caref ct pem x c) = c_id c.
Proof. done. Qed.

(** A certificate record is signed at most once: after a successful [sign_csr]
    every later attempt on it, with any CA, is refused and changes nothing; the
    other records keep their contents, and the signing is in the audit trail. *)
Theorem sign_csr_once id caref ct days digest serial now d (trail : T) d' trail' c' :
  sign_csr id caref ct days digest serial now d trail = (d', trail', inl c') ->
  get_cert id d' = Some c' /\ c_id c' = id /\
  (forall id', id' <> id -> get_cert id' d' = get_cert id' d) /\
  actions trail' = actions trail ++ ["csr_signed"] /\
  (forall caref2 ct2 days2 digest2 serial2 now2 (tr : T), exists e,
     sign_csr id caref2 ct2 days2 digest2 serial2 now2 d' tr = (d', tr, inr e)).
Proof.
  intros Hs. destruct (sign_csr_inv _ _ _ _ _ _ _ _ _ _ _ _ Hs)
    as (c & a & q & cac & pem & x & Hc & _ & _ & _ & _ & _ & Hx & Hne & _ & Hc' & Hd & _ & Ha).
  assert (c_id c' = id) as Hid by (rewrite Hc', signed_row_id; by eapply get_cert_id).
  assert (get_cert id d' = Some c') as Hg.
  { unfold get_cert. rewrite Hd. by apply (get_replaced id c). }
  split; [done|]. split; [done|]. split; [|split; [done|]].
  - intros id' Hne'. unfold get_cert at 1. rewrite Hd. apply get_update_other; congruence.
  - intros. unfold sign_csr. rewrite Hg. destruct (negb (otruthy (c_csr c'))); [by eexists|].
    rewrite Hc'. cbn [signed_row c_crt otruthy AuditLog.otruthy].
    destruct pem; [done|]. by eexists.
Qed.

(** The issued certificate carries every extension of the CSR unchanged,
    whatever the certificate type asked for: a CSR that claims to be a CA with key
    usage [key_cert_sign] is signed as one, as a server certificate too. *)
Theorem csr_extensions_are_copied id caref ct days digest serial now d (trail : T) d' trail' c' c q :
  sign_csr id caref ct days digest serial now d trail = (d', trail', inl c') ->
  get_cert id d = Some c -> load_csr (default "" (c_csr c)) = Some q ->
  exists x, load_cert (default "" (c_crt c')) = Some x /\
    x_public_key x = q_public_key q /\ x_serial x = serial /\
    forall e, In e (q_extensions q) -> In e (x_extensions x).
Proof.
  intros Hs Hc Hq. destruct (sign_csr_inv _ _ _ _ _ _ _ _ _ _ _ _ Hs)
    as (c0 & a & q0 & cac & pem & x & Hc0 & _ & _ & Hq0 & _ & _ & Hx & _ & Hxe & -> & _).
  assert (c0 = c) as -> by congruence. assert (q0 = q) as -> by congruence.
  exists x. subst x. split; [exact Hx|]. split; [done|]. split; [done|].
  intros e He. cbn [x_extensions]. unfold issued_extensions. apply in_or_app. by left.
Qed.

(** The serial number of a signed certificate is stored in decimal and read in
    hexadecimal when it is put on a CRL: for every serial of two digits or more the
    entry names another, greater number (cut to 159 bits). *)
Theorem crl_lists_another_serial id caref ct days digest serial now d (trail : T) d' trail' c'
    reason revoked_at now' :
  sign_csr id caref ct days digest serial now d trail = (d', trail', inl c') ->
  (10 <= serial)%Z ->
  exists x entry, (serial < x)%Z /\
    crl_entry_of now' (set_revoked reason revoked_at c') = [entry] /\
    e_serial entry = if (2 ^ 159 <=? x)%Z then Z.land x (2 ^ 159 - 1) else x.
Proof.
  intros Hs Hn. destruct (sign_csr_inv _ _ _ _ _ _ _ _ _ _ _ _ Hs)
    as (c0 & a & q0 & cac & pem & x & _ & _ & _ & _ & _ & _ & _ & _ & Hxe & -> & _).
  destruct (decimal_read_as_hex serial Hn) as (y & Hy & Hlt). exists y.
  unfold crl_entry_of. cbn [set_revoked signed_row c_serial_number]. subst x. cbn [x_serial].
  unfold crl_serial. cbn [otruthy AuditLog.otruthy default from_option Datatypes.id].
  pose proof (NumFacts.str_no_colon serial ltac:(lia)) as Hcol.
  rewrite StrFacts.replace_nochar by done. rewrite Hy. cbn [mbind option_bind].
  assert (Str.truthy (Num.str serial) = true) as ->.
  { destruct (Num.str serial) eqn:E; [|done]. cbn in Hy. discriminate. }
  eexists. split; [done|]. cbn [negb]. split; [done|]. cbn [e_serial]. rewrite Z.abs_eq by lia. done.
Qed.

End Signing.

(** * CRLs and revocation *)
Section Crl.
Context `{X509} `{Fernet} (encryption_enabled : bool) {T} `{AuditSink T} (library_error : string).

#[local] Abbreviation generate_crl := (generate_crl encryption_enabled).
#[local] Abbreviation revoke_certificate := (revoke_certificate encryption_enabled library_error).

Lemma next_number_above id d m :
  In m (crls d) -> m_ca_id m = id -> (m_crl_number m < next_crl_number id d)%Z.
Proof.
  intros Hm Hid. unfold next_crl_number.
  assert (In m (Table.all (fun m => (m_ca_id m =? id)%Z) (crls d))) as Hi
    by (apply Table.In_all; split; [done|by apply Z.eqb_eq]).
  destruct (Table.last_by _ _) as [l|] eqn:E.
  - pose proof (Table.last_by_max _ _ _ _ E Hi). lia.
  - apply Table.last_by_None in E. by rewrite E in Hi.
Qed.

Lemma last_by_snoc {A} (key : A -> Z) l m :
  (forall x, In x l -> (key x < key m)%Z) -> Table.last_by key (l ++ [m]) = Some m.
Proof.
  induction l as [|x l IH]; intros Hl; [done|]. simpl. rewrite IH by (intros; apply Hl; by right).
  destruct (Z.leb_spec (key m) (key x)); [|done]. specialize (Hl x (or_introl eq_refl)). lia.
Qed.

(** The content a stored CRL was signed over. *)
Definition signed_over (m : crl_meta) (content : crl_content) : Prop :=
  exists key, sign_crl key content = Some (m_pem m).

Lemma publish_inv a l validity base u action details now d (trail : T) d' trail' m :
  publish encryption_enabled a l validity base u action details now d trail = (d', trail', inl m) ->
  cas d' = cas d /\ certs d' = certs d /\ crls d' = crls d ++ [m] /\
  m_ca_id m = ca_id a /\ m_crl_number m = next_crl_number (ca_id a) d /\
  m_is_delta m = (match base with Some _ => true | None => false end) /\
  actions trail' = actions trail ++ [action] /\
  exists content, signed_over m content /\ cc_number content = m_crl_number m /\
    cc_base content = base /\ cc_entries content = List.flat_map (crl_entry_of now) l.
Proof.
  unfold publish. destruct (load_cert (ca_crt a)) as [cac|]; [|done]. cbn [mbind option_bind].
  destruct (ca_prv a) as [p|]; [|done]. cbn [mbind option_bind].
  destruct (Encryption.decrypt_private_key _ _) as [prv|]; [|done]. cbn [mbind option_bind].
  destruct (load_key prv) as [key|]; [|done]. cbn [mbind option_bind].
  destruct (sign_crl key _) as [pem|] eqn:E; [|done]. intros [= <- <- <-].
  cbn [cas certs crls m_ca_id m_crl_number m_is_delta]. repeat (split; [done|]).
  split; [by rewrite record_actions|]. eexists. split; [by exists key|]. done.
Qed.

Lemma latest_after id d d' m :
  crls d' = crls d ++ [m] -> m_ca_id m = id -> m_crl_number m = next_crl_number id d ->
  m_is_delta m = false -> get_latest_crl id d' = Some m.
Proof.
  intros Hd Hid Hn Hb. unfold get_latest_crl. rewrite Hd. unfold Table.all.
  rewrite List.filter_app. cbn [List.filter]. rewrite Hid, Z.eqb_refl, Hb. cbn [negb andb].
  apply last_by_snoc. intros x Hx. apply List.filter_In in Hx as [Hx [E _]%andb_true_iff].
  rewrite Hn. apply next_number_above; [done|]. by apply Z.eqb_eq.
Qed.

Lemma generate_crl_inv id days u now d (trail : T) d' trail' m :
  generate_crl id days u now d trail = (d', trail', inl m) ->
  cas d' = cas d /\ certs d' = certs d /\ crls d' = crls d ++ [m] /\
  (forall m0, In m0 (crls d) -> m_ca_id m0 = id -> (m_crl_number m0 < m_crl_number m)%Z) /\
  get_latest_crl id d' = Some m /\ actions trail' = actions trail ++ ["generate_crl"] /\
  exists a content, get_ca id d = Some a /\ signed_over m content /\
    cc_number content = m_crl_number m /\
    cc_entries content = List.flat_map (crl_entry_of now) (revoked_of a d).
Proof.
  unfold Pki.generate_crl. destruct (get_ca id d) as [a|] eqn:Ea; [|done].
  destruct (has_private_key a); [|done]. cbn [negb]. intros Hp.
  assert (ca_id a = id) as Hid by (apply Table.first_Some in Ea as [_ E%Z.eqb_eq]; done).
  apply publish_inv in Hp as (P1 & P2 & P3 & P4 & P5 & P6 & P7 & content & Hs & Hn & _ & He).
  rewrite Hid in P4, P5. repeat (split; [done|]). split; [|split; [|split; [done|]]].
  - intros m0 Hm Hm'. rewrite P5. by apply next_number_above.
  - by apply (latest_after id d).
  - by exists a, content.
Qed.

(** A generation that fails changes nothing. *)
Lemma generate_crl_fails id days u now d (trail : T) d' trail' e :
  generate_crl id days u now d trail = (d', trail', inr e) -> d' = d /\ trail' = trail.
Proof.
  unfold Pki.generate_crl, publish. intros E. destruct (get_ca _ d); [|by injection E].
  destruct (negb _); [by injection E|]. by destruct (_ ≫= _); injection E.
Qed.

Lemma revoked_listed a c d now n :
  In c (certs d) -> c_revoked c = true -> c_caref c = Some (ca_refid a) -> ca_refid a <> "" ->
  otruthy (c_serial_number c) = true -> crl_serial (default "" (c_serial_number c)) = Some n ->
  exists e, In e (List.flat_map (crl_entry_of now) (revoked_of a d)) /\ e_serial e = n.
Proof.
  intros Hc Hr Hca Hne Hs Hn. unfold crl_entry_of.
  eexists (CrlEntry n (default now (c_revoked_at c)) _). split; [|done].
  apply in_flat_map. exists c. split.
  - apply Table.In_all. split; [done|]. rewrite Hca, Hr. cbn [AuditLog.otruthy default from_option Datatypes.id].
    rewrite StrFacts.eqb_refl, andb_true_r, andb_true_r. by destruct (ca_refid a).
  - rewrite Hs, Hn. by left.
Qed.

(** A generated CRL takes a number above all earlier ones of its CA, becomes
    its latest base CRL, is signed over that number, and lists every revoked
    certificate of the CA whose serial number can be read. *)
Theorem generated_crl_is_complete id days u now d (trail : T) d' trail' m :
  generate_crl id days u now d trail = (d', trail', inl m) ->
  (forall m0, In m0 (crls d) -> m_ca_id m0 = id -> (m_crl_number m0 < m_crl_number m)%Z) /\
  get_latest_crl id d' = Some m /\
  exists a content, get_ca id d = Some a /\ signed_over m content /\ cc_number content = m_crl_number m /\
    forall c n, In c (certs d) -> c_revoked c = true -> c_caref c = Some (ca_refid a) ->
      ca_refid a <> "" -> otruthy (c_serial_number c) = true ->
      crl_serial (default "" (c_serial_number c)) = Some n ->
      exists e, In e (cc_entries content) /\ e_serial e = n.
Proof.
  intros (_ & _ & _ & Hn & Hl & _ & a & content & Ha & Hs & Hc & He)%generate_crl_inv.
  split; [done|]. split; [done|]. exists a, content. split; [done|]. split; [done|]. split; [done|].
  intros c n ????. rewrite He. by apply revoked_listed.
Qed.

(** A revocation marks the certificate with its date and reason, is recorded,
    and can not be repeated; when its CA publishes CRLs, either the generation
    failed (which is recorded too) or the CA's latest CRL lists the certificate's
    serial number as the CRL service reads it. *)
Theorem revocation_reaches_the_crl id reason u now now' d (trail : T) d' trail' c' r a n :
  revoke_certificate id reason u now now' d trail = (d', trail', inl c') ->
  c_caref c' = Some r -> r <> "" -> ca_by_refid r d = Some a -> ca_cdp_enabled a = true ->
  get_ca (ca_id a) d = Some a ->
  otruthy (c_serial_number c') = true -> crl_serial (default "" (c_serial_number c')) = Some n ->
  get_cert id d' = Some c' /\ c_revoked c' = true /\ c_revoked_at c' = Some now /\
  (forall u2 t t2 (tr : T), revoke_certificate id reason u2 t t2 d' tr = (d', tr, inr AlreadyRevoked)) /\
  ((crls d' = crls d /\
    actions trail' = actions trail ++ ["cert_revoked"; "crl_auto_generation_failed"]) \/
   (exists m content e, get_latest_crl (ca_id a) d' = Some m /\ signed_over m content /\
      In e (cc_entries content) /\ e_serial e = n /\
      actions trail' = actions trail ++ ["cert_revoked"; "generate_crl"])).
Proof.
  unfold Pki.revoke_certificate at 1. destruct (get_cert id d) as [c|] eqn:Ec; [|done].
  destruct (c_revoked c) eqn:Er; [done|]. set (c1 := set_revoked reason now c).
  set (d1 := update_cert id (fun _ => c1) d). intros Hrev Hca Hne Ha Hcdp Hid Hser Hn.
  assert (c' = c1) as ->.
  { destruct (c_caref c1 ≫= _) as [b|]; [|by injection Hrev]. destruct (ca_cdp_enabled b); [|by injection Hrev].
    destruct (Pki.generate_crl _ _ _ _ _ _ _) as [[? ?] ?]. by injection Hrev. }
  assert (get_cert id d1 = Some c1) as Hg.
  { apply (get_replaced id c); [done|]. unfold c1. cbn. by eapply get_cert_id. }
  assert (forall d2, certs d2 = certs d1 -> get_cert id d2 = Some c1 /\
    forall u2 t t2 (tr : T), revoke_certificate id reason u2 t t2 d2 tr = (d2, tr, inr AlreadyRevoked)) as Hk.
  { intros d2 E. assert (get_cert id d2 = Some c1) as E2 by (unfold get_cert; by rewrite E).
    split; [done|]. intros. unfold Pki.revoke_certificate. by rewrite E2. }
  rewrite Hca in Hrev. cbn [mbind option_bind] in Hrev.
  change (ca_by_refid r d1) with (ca_by_refid r d) in Hrev. rewrite Ha, Hcdp in Hrev.
  destruct (Pki.generate_crl _ _ _ _ _ _ _) as [[d2 tr2] res] eqn:E.
  destruct res as [m|e]; injection Hrev as <- <-.
  - apply generate_crl_inv in E as (_ & Hc & Hcr & _ & Hl & Hact & a2 & content & Ha2 & Hs & _ & He).
    destruct (Hk d2 Hc) as [K1 K2]. split; [done|]. split; [done|]. split; [done|]. split; [done|]. right.
    change (get_ca (ca_id a) d1) with (get_ca (ca_id a) d) in Ha2. assert (a2 = a) as -> by congruence.
    assert (ca_refid a = r) as Hr' by (apply Table.first_Some in Ha as [_ E%String.eqb_eq]; done).
    destruct (revoked_listed a c1 d1 now' n) as (e & Hin & Hse); [|done|congruence|congruence|done|done|].
    { by apply Table.first_Some in Hg as [? _]. }
    exists m, content, e. rewrite He. split; [done|]. split; [done|]. split; [done|]. split; [done|].
    rewrite Hact, record_actions, <-app_assoc. done.
  - assert (d2 = d1 /\ tr2 = record_event (AuditLog.log_certificate "cert_revoked" (Some (c_descr c1))
      (c_subject c1) (c_id c1) (Some ("Revoked certificate: " ^+ c_descr c1 ^+ " - Reason: " ^+ reason)) true)
      trail) as [-> ->].
    { by eapply generate_crl_fails. }
    destruct (Hk d1 eq_refl) as [K1 K2]. split; [done|]. split; [done|]. split; [done|]. split; [done|].
    left. split; [done|]. rewrite !record_actions, <-app_assoc. done.
Qed.

End Crl.
End PkiFacts.

(** * Witnesses: one CA, one CSR that asks to be a CA *)
Module PkiWitness.
Import Pki PkiFacts.
Local Open Scope string_scope.
Local Open Scope list_scope.

Definition ca_flag : xext := Ext (BasicConstraints true None) true.
Definition q0 : csr :=
  Csr true [("CN", "evil.example")] "PUB"
    [Ext (SubjectAlternativeName [DNSName "evil.example"]) false; ca_flag;
     Ext (KeyUsage ca_key_usage) true].
Definition ca_x : cert := Cert [("CN", "Root")] [("CN", "Root")] "CAPUB" 1 0 (Time.days 3650) [].
Definition x0 : cert :=
  Cert (issued_subject q0) (x_subject ca_x) "PUB" 12345678901 0 (Time.days 90)
    (issued_extensions "server_cert" (q_extensions q0)).

Definition lookup_text {A} (table : list (string * A)) (s : string) : option A := Json.assoc s table.

(** A library that knows these objects only. *)
#[local] Program Instance toy_x509 : X509 := {
  load_csr := lookup_text [("CSR", q0)];
  load_cert := lookup_text [("CACERT", ca_x); ("PEM", x0)];
  load_key := lookup_text [("KEY", "KEY")];
  sign_cert _ _ c := if decide (c = x0) then Some "PEM" else None;
  sign_crl _ _ := Some "CRL";
  rfc4514 n := Str.join "," (List.map (fun p => p.1 ^+ "=" ^+ p.2) n);
}.
Next Obligation. intros d k c pem. simpl. destruct (decide (c = x0)) as [->|]; [|done]. by intros [= <-]. Qed.
Next Obligation. intros d k c pem. simpl. destruct (decide (c = x0)); [|done]. by intros [= <-]. Qed.

#[local] Program Instance toy_fernet : Fernet := {
  fernet_encrypt iv s := "v" ^+ s;
  fernet_decrypt s := match s with String _ t => Some t | EmptyString => None end;
}.
Solve Obligations with done.
#[local] Existing Instance list_sink.

Definition root : ca := CA 1 "root" "Root CA" "CACERT" (Some "KEY") None None None true false false.
Definition row : certificate :=
  Certificate 7 "c7" "evil.example" None None (Some "CSR") None None None None None None None
    None None None false None None (Some "acme") (Some "acme").
Definition d0 : db := Db [root] [row] [].

Definition signed : db * list string * (certificate + sign_error) :=
  sign_csr 7 "root" "server_cert" 90 "sha256" 12345678901 0 d0 [].
Definition d1 : db := signed.1.1.
Definition row1 : certificate := signed_row "root" "server_cert" "PEM" x0 row.

Lemma signed_ok : signed = (d1, ["csr_signed"], inl row1).
Proof. vm_compute. reflexivity. Qed.

Lemma sign_csr_once_witness :
  get_cert 7 d1 = Some row1 /\ actions ["csr_signed"] = actions ([] : list string) ++ ["csr_signed"].
Proof.
  destruct (sign_csr_once 7 "root" "server_cert" 90 "sha256" 12345678901 0 d0 [] _ _ _ signed_ok)
    as (H & _ & _ & H' & _). exact (conj H H').
Defined.

(** A certificate of type [server_cert] that is a CA. *)
Lemma csr_extensions_witness : exists x, load_cert (default "" (c_crt row1)) = Some x /\ In ca_flag (x_extensions x).
Proof.
  destruct (csr_extensions_are_copied 7 "root" "server_cert" 90 "sha256" 12345678901 0 d0 [] _ _ _ row q0
    signed_ok eq_refl eq_refl) as (x & Hx & _ & _ & He).
  exists x. split; [exact Hx|]. apply He. right. left. reflexivity.
Defined.

Lemma crl_serial_witness :
  exists x entry, (12345678901 < x)%Z /\
    crl_entry_of 9 (set_revoked "keyCompromise" 5 row1) = [entry] /\
    e_serial entry = if (2 ^ 159 <=? x)%Z then Z.land x (2 ^ 159 - 1) else x.
Proof.
  exact (crl_lists_another_serial 7 "root" "server_cert" 90 "sha256" 12345678901 0 d0 [] _ _ _
    "keyCompromise" 5 9 signed_ok ltac:(lia)).
Defined.

Definition generated := generate_crl false 1 7 "admin" 9 d1 ([] : list string).

Lemma generated_crl_witness :
  exists m, get_latest_crl 1 generated.1.1 = Some m /\ m_crl_number m = 1%Z.
Proof.
  destruct (generated_crl_is_complete false 1 7 "admin" 9 d1 [] generated.1.1 ["generate_crl"]
    (CrlMeta 1 1 9 (9 + Time.days 7) "CRL" 0 "admin" false None)) as (_ & H & _).
  - vm_compute. reflexivity.
  - eexists. split; [exact H|reflexivity].
Defined.

Definition revoked := revoke_certificate false "error" 7 "keyCompromise" "admin" 5 9 d1 ([] : list string).

Lemma revocation_witness : get_cert 7 revoked.1.1 = Some (set_revoked "keyCompromise" 5 row1).
Proof.
  refine (proj1 (revocation_reaches_the_crl false "error" 7 "keyCompromise" "admin" 5 9 d1 []
    revoked.1.1 revoked.1.2 (set_revoked "keyCompromise" 5 row1) "root" (bump_serial root) 1250999896321
    _ _ _ _ _ _ _ _)); (vm_compute; reflexivity) || discriminate.
Defined.

End PkiWitness.
