(* ===== verification/Pem.v ===== *)
(** The regular expressions of the smart import ([SmartParser]'s PEM patterns) and
    [re.finditer] on them, with the printed form of a PEM bundle and what a scan of
    it finds. *)
From S2P Require Import Prelude.

Module Pem.
Local Open Scope string_scope.
Local Open Scope list_scope.

(** * The patterns

    Every pattern has the shape
    [-----BEGIN<label>-----\s*\n([A-Za-z0-9+/=\s]+)-----END<label>-----], where a
    label is a sequence of [\s+WORD] with optional members.  No two alternatives of
    a label start alike and the body class has no dash, so that a match is the only
    one at its position. *)
Inductive word := Req (w : string) | Opt (w : string).
Definition pattern := list word.

Definition PEM_CERT_PATTERN : pattern := [Req "CERTIFICATE"].
Definition PEM_KEY_PATTERNS : list pattern :=
  [[Opt "RSA"; Req "PRIVATE"; Req "KEY"]; [Req "EC"; Req "PRIVATE"; Req "KEY"];
   [Req "ENCRYPTED"; Req "PRIVATE"; Req "KEY"]; [Req "PRIVATE"; Req "KEY"]].
Definition PEM_CSR_PATTERNS : list pattern :=
  [[Req "CERTIFICATE"; Req "REQUEST"]; [Req "NEW"; Req "CERTIFICATE"; Req "REQUEST"]].
Definition PEM_PKCS7_PATTERN : pattern := [Req "PKCS7"].
Definition pkcs12_pattern : pattern := [Req "PKCS12"].
Definition der_cert_pattern : pattern := [Req "DER"; Req "CERTIFICATE"].
Definition der_key_pattern : pattern := [Req "DER"; Req "KEY"].

(** * A match at the head of a text *)

Definition newline : ascii := ascii_of_N 10.
Definition body_char (c : ascii) : bool :=
  Str.is_upper c || Str.is_lower c || Str.is_digit c || Str.is_space c
  || Ascii.eqb c "+" || Ascii.eqb c "/" || Ascii.eqb c "=".

(** The text after a literal, after [\s+], after the words of a label. *)
Fixpoint lit (p s : string) : option string :=
  match p, s with
  | EmptyString, _ => Some s
  | String a p', String c s' => if Ascii.eqb a c then lit p' s' else None
  | String _ _, EmptyString => None
  end.
Definition spaces (s : string) : option string :=
  match s with
  | String c s' => if Str.is_space c then Some (Str.lstrip s') else None
  | EmptyString => None
  end.
Fixpoint words (l : pattern) (s : string) : option string :=
  match l with
  | [] => Some s
  | Req w :: l' => r ← spaces s; r ← lit w r; words l' r
  | Opt w :: l' =>
      match (r ← spaces s; r ← lit w r; words l' r) with
      | Some r => Some r
      | None => words l' s
      end
  end.

(** The longest prefix of body characters, and the rest. *)
Fixpoint span (s : string) : string * string :=
  match s with
  | String c s' => if body_char c then let '(a, b) := span s' in (String c a, b) else (EmptyString, s)
  | EmptyString => (EmptyString, EmptyString)
  end.
(** The group of [\s*\n([A-Za-z0-9+/=\s]+)] on such a prefix: what follows the last
    newline of the leading white space that leaves something. *)
Fixpoint body_group (run : string) : option string :=
  match run with
  | EmptyString => None
  | String c r =>
      if Str.is_space c then
        match body_group r with
        | Some g => Some g
        | None => if Ascii.eqb c newline && Str.truthy r then Some r else None
        end
      else None
  end.

Record found := Found { f_start : nat; f_block : string; f_group : string }.
#[export] Instance found_eq_dec : EqDecision found.
Proof. solve_decision. Defined.

(** The marker lines, and [pattern.match(s)]: group 1 and the text after the match. *)
Definition marker (kind : string) (p : pattern) (s : string) : option string :=
  r ← lit kind s; r ← words p r; lit "-----" r.
Definition match_at (p : pattern) (s : string) : option (string * string) :=
  r ← marker "-----BEGIN" p s;
  let '(run, r) := span r in
  g ← body_group run;
  r ← marker "-----END" p r;
  Some (g, r).

(** [pattern.finditer(s)]; [skip] is the rest of the match that was just found. *)
Fixpoint scan (p : pattern) (skip pos : nat) (s : string) : list found :=
  match s with
  | EmptyString => []
  | String _ s' =>
      match skip with
      | S k => scan p k (S pos) s'
      | 0 =>
          match match_at p s with
          | Some (g, r) =>
              let n := String.length s - String.length r in
              Found pos (Str.take n s) g :: scan p (n - 1) (S pos) s'
          | None => scan p 0 (S pos) s'
          end
      end
  end.
Definition finditer (p : pattern) (s : string) : list found := scan p 0 0 s.

(** * Printed blocks *)

Inductive label := Cert | Key | RsaKey | EcKey | EncryptedKey | Request | NewRequest.
#[export] Instance label_eq_dec : EqDecision label.
Proof. solve_decision. Defined.
Definition label_text (l : label) : string :=
  match l with
  | Cert => "CERTIFICATE" | Key => "PRIVATE KEY" | RsaKey => "RSA PRIVATE KEY"
  | EcKey => "EC PRIVATE KEY" | EncryptedKey => "ENCRYPTED PRIVATE KEY"
  | Request => "CERTIFICATE REQUEST" | NewRequest => "NEW CERTIFICATE REQUEST"
  end.
(** A label, a body of base64 lines, and the text that follows the block's line. *)
Record item := Item { i_label : label; i_body : string; i_after : string }.
Definition block (i : item) : string :=
  "-----BEGIN " ^+ label_text (i_label i) ^+ "-----" ^+ String newline (i_body i)
  ^+ "-----END " ^+ label_text (i_label i) ^+ "-----".
Fixpoint bundle (l : list item) : string :=
  match l with
  | [] => EmptyString
  | i :: l' => block i ^+ String newline (i_after i ^+ bundle l')
  end.
Definition no_dash (s : string) : Prop := Str.has_char "-" s = false.
Definition well_formed (i : item) : Prop :=
  Str.forall_char body_char (i_body i) = true /\ i_body i <> EmptyString /\ no_dash (i_after i).

(** Which patterns find which labels. *)
Definition finds (p : pattern) (l : label) : bool :=
  match match_at p (block (Item l "A" "")) with Some _ => true | None => false end.

(** * What a scan finds in a bundle *)

(** A text whose positions start no block, whatever follows. *)
Definition begins (s : string) : bool := match lit "-----BEGIN" s with Some _ => true | None => false end.
Fixpoint quiet (t rest : string) : bool :=
  match t with
  | EmptyString => true
  | String _ t' => negb (begins (t ^+ rest)) && quiet t' rest
  end.

Lemma quiet_app a b rest : quiet (a ^+ b) rest = quiet a (b ^+ rest) && quiet b rest.
Proof.
  induction a as [|c a IH]; [done|]. change (String c a ^+ b) with (String c (a ^+ b)).
  cbn [quiet]. rewrite IH. change (String c (a ^+ b) ^+ rest) with (String c ((a ^+ b) ^+ rest)).
  change (String c a ^+ b ^+ rest) with (String c (a ^+ b ^+ rest)).
  by rewrite StrFacts.app_assoc, andb_assoc.
Qed.

Lemma begins_dash c s : Ascii.eqb "-" c = false -> begins (String c s) = false.
Proof. intros Hc. unfold begins. cbn [lit]. by rewrite Hc. Qed.

Lemma quiet_no_dash t rest : no_dash t -> quiet t rest = true.
Proof.
  unfold no_dash, Str.has_char. induction t as [|c t IH]; [done|]. cbn [Str.exists_char].
  intros [Hc Ht]%orb_false_iff. cbn [quiet]. change (String c t ^+ rest) with (String c (t ^+ rest)).
  by rewrite begins_dash, IH.
Qed.

Lemma match_begins p s : begins s = false -> match_at p s = None.
Proof. unfold match_at, marker, begins. by destruct (lit _ s). Qed.

Lemma scan_quiet p pos t rest :
  quiet t rest = true -> scan p 0 pos (t ^+ rest) = scan p 0 (pos + String.length t) rest.
Proof.
  revert pos. induction t as [|c t IH]; intros pos; [by rewrite Nat.add_0_r|].
  cbn [quiet]. intros [Hb Ht]%andb_true_iff. apply negb_true_iff in Hb.
  change (String c t ^+ rest) with (String c (t ^+ rest)) in *. cbn [scan].
  rewrite match_begins, IH by done. f_equal. simpl. lia.
Qed.

Lemma scan_skip p pos t rest :
  scan p (String.length t) pos (t ^+ rest) = scan p 0 (pos + String.length t) rest.
Proof.
  revert pos. induction t as [|c t IH]; intros pos; [by rewrite Nat.add_0_r|].
  change (String c t ^+ rest) with (String c (t ^+ rest)). cbn [scan String.length].
  rewrite IH. f_equal. lia.
Qed.

(** The body of a well-formed block. *)
Lemma body_no_dash s : Str.forall_char body_char s = true -> no_dash s.
Proof.
  unfold Str.forall_char, no_dash, Str.has_char. rewrite negb_true_iff.
  apply StrFacts.exists_char_impl. intros c <-%Ascii.eqb_eq. done.
Qed.

Lemma span_body s r :
  Str.forall_char body_char s = true -> span (s ^+ String "-" r) = (s, String "-" r).
Proof.
  unfold Str.forall_char. rewrite negb_true_iff. induction s as [|c s IH]; [done|].
  cbn [Str.exists_char]. intros [Hc Hs]%orb_false_iff. apply negb_false_iff in Hc.
  change (String c s ^+ String "-" r) with (String c (s ^+ String "-" r)). cbn [span].
  by rewrite Hc, IH.
Qed.

Lemma body_group_some s : s <> EmptyString -> is_Some (body_group (String newline s)).
Proof.
  intros Hs. cbn [body_group]. change (Str.is_space newline) with true. cbv iota.
  destruct (body_group s); [by eexists|]. change (Ascii.eqb newline newline) with true.
  by destruct s; [|eexists].
Qed.

(** The patterns of the code. *)
Definition patterns : list pattern :=
  [PEM_CERT_PATTERN; PEM_PKCS7_PATTERN; pkcs12_pattern; der_cert_pattern; der_key_pattern]
  ++ PEM_KEY_PATTERNS ++ PEM_CSR_PATTERNS.

Lemma marker_block kind p l x :
  In p patterns -> kind = "-----BEGIN" \/ kind = "-----END" ->
  marker kind p (kind ^+ " " ^+ label_text l ^+ "-----" ^+ x) = if finds p l then Some x else None.
Proof.
  intros Hp [-> | ->]; repeat destruct Hp as [<-|Hp]; try done; by destruct l.
Qed.

(** A pattern at a block: everything but the body is decided by the label. *)
Lemma match_block p i rest :
  In p patterns -> well_formed i ->
  match_at p (block i ^+ rest)
  = if finds p (i_label i) then (fun g => (g, rest)) <$> body_group (String newline (i_body i)) else None.
Proof.
  destruct i as [l b a]. intros Hp (Hb & _ & _). cbn [i_label i_body] in *.
  assert (block (Item l b a) ^+ rest = "-----BEGIN" ^+ " " ^+ label_text l ^+ "-----" ^+
    (String newline b ^+ String "-" ("----END" ^+ " " ^+ label_text l ^+ "-----" ^+ rest))) as ->.
  { unfold block. cbn [i_label i_body]. by destruct l; cbn; rewrite !StrFacts.app_assoc. }
  unfold match_at. rewrite marker_block by auto. destruct (finds p l) eqn:Ef; [|done].
  cbn [mbind option_bind]. rewrite span_body by exact Hb.
  destruct (body_group (String newline b)) as [g|]; [|done]. cbn [mbind option_bind fmap option_fmap option_map].
  change (String "-" ("----END" ^+ ?x)) with ("-----END" ^+ x).
  by rewrite marker_block, Ef by auto.
Qed.

(** Nothing begins inside a block. *)
Lemma block_quiet i rest :
  well_formed i -> exists t, block i = String "-" t /\ quiet t (String newline rest) = true.
Proof.
  destruct i as [l b a]. intros (Hb & _ & _). cbn [i_body] in *.
  exists ("----BEGIN " ^+ label_text l ^+ "-----" ^+ String newline (b ^+ "-----END " ^+ label_text l ^+ "-----")).
  split; [done|].
  assert (forall x, "----BEGIN " ^+ label_text l ^+ "-----" ^+ String newline x
    = ("----BEGIN " ^+ label_text l ^+ "-----" ^+ String newline EmptyString) ^+ x) as E by (by destruct l).
  rewrite E, !quiet_app, (quiet_no_dash b) by by apply body_no_dash. by destruct l.
Qed.

Lemma block_length i : String.length (block i) <> 0.
Proof. unfold block. simpl. lia. Qed.

(** Where the blocks of the labels a pattern finds start. *)
Fixpoint positions (sel : label -> bool) (pos : nat) (l : list item) : list (nat * item) :=
  match l with
  | [] => []
  | i :: l' =>
      (if sel (i_label i) then [(pos, i)] else [])
      ++ positions sel (pos + String.length (block i) + S (String.length (i_after i))) l'
  end.
Definition found_of (x : nat * item) : found :=
  Found x.1 (block x.2) (default EmptyString (body_group (String newline (i_body x.2)))).

Lemma scan_block p pos i rest :
  In p patterns -> well_formed i ->
  scan p 0 pos (block i ^+ String newline rest)
  = (if finds p (i_label i) then [found_of (pos, i)] else [])
    ++ scan p 0 (pos + String.length (block i)) (String newline rest).
Proof.
  intros Hp Hi. pose proof (match_block p i (String newline rest) Hp Hi) as Hm.
  destruct (block_quiet i rest Hi) as (t & E & Ht). destruct (body_group_some (i_body i)) as [g Hg]; [by destruct Hi as (_ & ? & _)|].
  rewrite Hg in Hm. unfold found_of. cbn [fst snd]. rewrite Hg. rewrite E in *. clear E Hg.
  revert Ht Hm. generalize (String newline rest) as r. intros r Ht Hm.
  change (String "-" t ^+ r) with (String "-" (t ^+ r)) in *.
  cbn [scan]. rewrite Hm. destruct (finds p (i_label i)); cbn [fmap option_fmap option_map default from_option app].
  - assert (String.length (String "-" (t ^+ r)) - String.length r = S (String.length t)) as ->
      by (simpl; rewrite StrFacts.app_length; lia).
    change (String "-" (t ^+ r)) with (String "-" t ^+ r).
    rewrite (StrFacts.take_app (String "-" t) r : Str.take (S (String.length t)) _ = _).
    replace (S (String.length t) - 1) with (String.length t) by lia.
    rewrite scan_skip. f_equal. f_equal. simpl. lia.
  - rewrite scan_quiet by done. f_equal. simpl. lia.
Qed.

(** A scan of a bundle finds the blocks with the pattern's labels, in order. *)
Lemma scan_bundle p pos l :
  In p patterns -> Forall well_formed l ->
  scan p 0 pos (bundle l) = List.map found_of (positions (finds p) pos l).
Proof.
  intros Hp. revert pos. induction l as [|i l IH]; intros pos Hl; [done|].
  apply Forall_cons in Hl as [Hi Hl]. cbn [bundle positions]. rewrite scan_block by done.
  rewrite List.map_app. f_equal; [by destruct (finds p (i_label i))|].
  change (String newline (i_after i ^+ bundle l)) with (String newline (i_after i) ^+ bundle l).
  rewrite scan_quiet, IH by (done || by apply quiet_no_dash; destruct Hi as (_ & _ & ?)). done.
Qed.

Lemma finditer_bundle p l :
  In p patterns -> Forall well_formed l ->
  finditer p (bundle l) = List.map found_of (positions (finds p) 0 l).
Proof. apply scan_bundle. Qed.

(** Which blocks each pattern finds. *)
Lemma finds_table :
  List.map (fun p => List.map (finds p) [Cert; Key; RsaKey; EcKey; EncryptedKey; Request; NewRequest]) patterns
  = let T := true in let F := false in
    [[T;F;F;F;F;F;F]; [F;F;F;F;F;F;F]; [F;F;F;F;F;F;F]; [F;F;F;F;F;F;F]; [F;F;F;F;F;F;F];
     [F;T;T;F;F;F;F]; [F;F;F;T;F;F;F]; [F;F;F;F;T;F;F]; [F;T;F;F;F;F;F];
     [F;F;F;F;F;T;F]; [F;F;F;F;F;F;T]].
Proof. vm_compute. reflexivity. Qed.

End Pem.
