(* ===== verification/SmartParser.v ===== *)
(** The smart import's parser: [services/smart_import/parser.py].

    Loading a key, a certificate, a request or a container is the interface
    [Loader]; what the parser reads of the loaded objects is in [xcert], [xcsr] and
    [xkey].  Text is represented by its UTF-8 bytes.  A validity date is kept as its
    time; the code keeps its ISO text, from which it reads the time back. *)
From stdpp Require Import sorting.
From S2P Require Import Prelude Base64 Pki Pem.

Module SmartParser.
Import Pem.
Local Open Scope string_scope.
Local Open Scope list_scope.

(** * Loaded objects *)

Inductive key_kind := RSA (size : Z) | EC (curve : string) (size : Z) | Ed25519 | Ed448 | OtherKey (repr : string).

(** The extensions the parser looks for; [None] is ExtensionNotFound. *)
Record xexts := XExts {
  e_basic_ca : option bool;
  e_san : option (list Pki.general_name);
  e_ski : option string;
  e_aki : option (option string);
}.
(** [xc_extensions] is [None] when the library refuses to decode them; [xc_spki] when
    it cannot encode the public key. *)
Record xcert := XCert {
  xc_subject : string; xc_issuer : string; xc_serial : Z;
  xc_not_before : Z; xc_not_after : Z; xc_extensions : option xexts;
  xc_kind : key_kind; xc_spki : option string; xc_pem : string; xc_der : string;
}.
Record xcsr := XCsr {
  xq_subject : string; xq_kind : key_kind; xq_san : option (option (list Pki.general_name));
  xq_spki : option string; xq_signature_valid : bool;
}.
Record xkey := XKey { xk_kind : key_kind; xk_pkcs8 : option string; xk_spki : option string }.

(** The loaders of [cryptography]; [inr] carries the text of the exception. *)
Class Loader := {
  load_pem_certificate : string -> xcert + string;
  load_pem_csr : string -> xcsr + string;
  load_pem_private_key : string -> option string -> option xkey;
  load_der_certificate : string -> option xcert;
  load_der_private_key : string -> option string -> option xkey;
  load_pkcs12 : string -> option string -> option (option xkey * option xcert * list xcert);
  load_der_pkcs7 : string -> option (list xcert);
  load_pem_pkcs7 : string -> option (list xcert);
  (** [key.verify] on the signature of a certificate, for a key of a known kind *)
  verify : xcert -> xcert -> option string;
}.

(** * [ParsedObject] *)

Inductive ObjectType := CERTIFICATE | PRIVATE_KEY | CSR | PUBLIC_KEY | UNKNOWN.
#[export] Instance ObjectType_eq_dec : EqDecision ObjectType.
Proof. solve_decision. Defined.

Record ParsedObject := Parsed {
  p_type : ObjectType;
  p_raw_pem : string;
  p_raw_der : string;
  p_index : nat;
  p_subject : string;
  p_issuer : string;
  p_serial_number : string;
  p_not_before : option Z;
  p_not_after : option Z;
  p_is_ca : bool;
  p_is_self_signed : bool;
  p_san_dns : list string;
  p_san_ip : list string;
  p_ski : option string;
  p_aki : option string;
  p_key_algorithm : string;
  p_key_size : Z;
  p_is_encrypted : bool;
  p_matched_cert_index : option nat;
  p_matched_key_index : option nat;
  p_chain_position : string;
  p_chain_depth : nat;
}.
#[export] Instance ParsedObject_eq_dec : EqDecision ParsedObject.
Proof. solve_decision. Defined.

Definition set_index (i : nat) (o : ParsedObject) : ParsedObject :=
  let '(Parsed t p d _ s u n b a c f x y k l g z e m r q h) := o in
  Parsed t p d i s u n b a c f x y k l g z e m r q h.
Definition set_pem (pem : string) (o : ParsedObject) : ParsedObject :=
  let '(Parsed t _ d i s u n b a c f x y k l g z e m r q h) := o in
  Parsed t pem d i s u n b a c f x y k l g z e m r q h.
Definition set_der (der : string) (o : ParsedObject) : ParsedObject :=
  let '(Parsed t p _ i s u n b a c f x y k l g z e m r q h) := o in
  Parsed t p der i s u n b a c f x y k l g z e m r q h.
Definition set_encrypted (e : bool) (o : ParsedObject) : ParsedObject :=
  let '(Parsed t p d i s u n b a c f x y k l g z _ m r q h) := o in
  Parsed t p d i s u n b a c f x y k l g z e m r q h.
Definition set_matched_cert (m : nat) (o : ParsedObject) : ParsedObject :=
  let '(Parsed t p d i s u n b a c f x y k l g z e _ r q h) := o in
  Parsed t p d i s u n b a c f x y k l g z e (Some m) r q h.
Definition set_matched_key (r : nat) (o : ParsedObject) : ParsedObject :=
  let '(Parsed t p d i s u n b a c f x y k l g z e m _ q h) := o in
  Parsed t p d i s u n b a c f x y k l g z e m (Some r) q h.
Definition set_chain (q : string) (h : nat) (o : ParsedObject) : ParsedObject :=
  let '(Parsed t p d i s u n b a c f x y k l g z e m r _ _) := o in
  Parsed t p d i s u n b a c f x y k l g z e m r q h.

(** * Reading loaded objects *)

(** [b.hex(sep)] *)
Definition hex2 (c : ascii) : string :=
  String (Json.hex1 (Str.code c / 16)) (String (Json.hex1 (Str.code c mod 16)) EmptyString).
Definition hex (sep bytes : string) : string :=
  Str.join sep (List.map hex2 (String.list_ascii_of_string bytes)).

Definition get_key_info (k : key_kind) : string * Z :=
  match k with
  | RSA n => ("RSA", n)
  | EC c n => ("EC " ^+ c, n)
  | Ed25519 => ("Ed25519", 256%Z)
  | Ed448 => ("Ed448", 448%Z)
  | OtherKey _ => ("Unknown", 0%Z)
  end.

(** [_parse_x509_cert]; [None] is an exception. *)
Definition parse_x509_cert (c : xcert) : option ParsedObject :=
  x ← xc_extensions c;
  let names := default [] (e_san x) in
  let '(algorithm, size) := get_key_info (xc_kind c) in
  Some {| p_type := CERTIFICATE; p_raw_pem := xc_pem c; p_raw_der := xc_der c; p_index := 0;
          p_subject := xc_subject c; p_issuer := xc_issuer c; p_serial_number := Num.str (xc_serial c);
          p_not_before := Some (xc_not_before c); p_not_after := Some (xc_not_after c);
          p_is_ca := default false (e_basic_ca x);
          p_is_self_signed := String.eqb (xc_subject c) (xc_issuer c);
          p_san_dns := Pki.dns_list names; p_san_ip := Pki.ip_list names;
          p_ski := (fun b => Str.upper (hex ":" b)) <$> e_ski x;
          p_aki := match e_aki x with
                   | Some (Some b) => if Str.truthy b then Some (Str.upper (hex ":" b)) else None
                   | _ => None
                   end;
          p_key_algorithm := algorithm; p_key_size := size; p_is_encrypted := false;
          p_matched_cert_index := None; p_matched_key_index := None;
          p_chain_position := ""; p_chain_depth := 0 |}.

(** [ParsedObject(type=..., raw_pem=..., index=..., ...)] of a key or a request. *)
Definition plain_object (t : ObjectType) (pem : string) (start : nat) (subject : string)
    (dns ips : list string) (algorithm : string) (size : Z) (encrypted : bool) : ParsedObject :=
  Parsed t pem "" start subject "" "" None None false false dns ips None None algorithm size encrypted
    None None "" 0.

(** [_parse_private_key] *)
Definition parse_private_key (k : xkey) : option ParsedObject :=
  pem ← xk_pkcs8 k;
  let '(algorithm, size) := get_key_info (xk_kind k) in
  Some (plain_object PRIVATE_KEY pem 0 "" [] [] algorithm size false).

(** * PEM blocks *)

Section Parser.
Context `{Loader}.

(** [password.encode() if password else None] *)
Definition key_password (password : option string) : option string :=
  p ← password; if Str.truthy p then Some p else None.

Definition parse_pem_certificate (m : found) : option ParsedObject :=
  match load_pem_certificate (f_block m) with
  | inl c => o ← parse_x509_cert c; Some (set_index (f_start m) (set_pem (f_block m) o))
  | inr _ => None
  end.
Definition parse_pem_certificates (content : string) : list ParsedObject :=
  omap parse_pem_certificate (finditer PEM_CERT_PATTERN content).

(** A key that cannot be loaded is kept as an encrypted one. *)
Definition parse_pem_key (password : option string) (m : found) : ParsedObject :=
  match (k ← load_pem_private_key (f_block m) (key_password password); parse_private_key k) with
  | Some o => set_encrypted (Str.contains "ENCRYPTED" (f_block m)) (set_index (f_start m) (set_pem (f_block m) o))
  | None => plain_object PRIVATE_KEY (f_block m) (f_start m) "" [] [] "unknown (encrypted)" 0 true
  end.
(** Keys are found by several patterns; [seen] holds the positions already taken. *)
Fixpoint unseen (seen : list nat) (l : list found) : list found :=
  match l with
  | [] => []
  | m :: l' => if bool_decide (f_start m ∈ seen) then unseen seen l'
               else m :: unseen (f_start m :: seen) l'
  end.
Definition parse_pem_keys (content : string) (password : option string) : list ParsedObject :=
  List.map (parse_pem_key password)
    (unseen [] (List.flat_map (fun p => finditer p content) PEM_KEY_PATTERNS)).

Definition parse_pem_csr (m : found) : option ParsedObject :=
  match load_pem_csr (f_block m) with
  | inl q =>
      san ← xq_san q;
      let '(algorithm, size) := get_key_info (xq_kind q) in
      let names := default [] san in
      Some (plain_object CSR (f_block m) (f_start m) (xq_subject q) (Pki.dns_list names)
              (Pki.ip_list names) algorithm size false)
  | inr _ => None
  end.
Definition parse_pem_csrs (content : string) : list ParsedObject :=
  omap parse_pem_csr (List.flat_map (fun p => finditer p content) PEM_CSR_PATTERNS).

(** Objects appended one by one until one of them raises, and whether none did. *)
Fixpoint until_error (l : list (option ParsedObject)) : list ParsedObject * bool :=
  match l with
  | [] => ([], true)
  | None :: _ => ([], false)
  | Some o :: l' => let '(os, ok) := until_error l' in (o :: os, ok)
  end.

Definition parse_pem_pkcs7 (content : string) : list ParsedObject :=
  List.flat_map (fun m =>
    match load_pem_pkcs7 (f_block m) with
    | Some cs => List.map (set_index (f_start m)) (until_error (List.map parse_x509_cert cs)).1
    | None => []
    end) (finditer PEM_PKCS7_PATTERN content).

(** * Binary data *)

Definition reindex (l : list ParsedObject) : list ParsedObject := imap set_index l.

(** The members of a PKCS#12 container: certificate, key, other certificates. *)
Definition pkcs12_members (x : option xkey * option xcert * list xcert) : list ParsedObject * bool :=
  let '(k, c, more) := x in
  let '(os, ok) := until_error
    (match c with Some c => [parse_x509_cert c] | None => [] end
     ++ match k with Some k => [parse_private_key k] | None => [] end
     ++ List.map parse_x509_cert more) in
  (reindex os, ok).
Definition parse_pkcs12 (data : string) (password : option string) : list ParsedObject :=
  match load_pkcs12 data (key_password password) with
  | Some x => (pkcs12_members x).1
  | None => []
  end.
Definition parse_der_cert (data : string) : option ParsedObject :=
  c ← load_der_certificate data; o ← parse_x509_cert c; Some (set_der data o).
Definition parse_der_key (data : string) (password : option string) : option ParsedObject :=
  k ← load_der_private_key data (key_password password); o ← parse_private_key k; Some (set_der data o).

(** [_parse_binary]: the formats in turn; members of a container read before an
    error stay in the list. *)
Definition parse_binary (data : string) (password : option string) : list ParsedObject :=
  let '(os, ok) := match load_pkcs12 data (key_password password) with
                   | Some x => pkcs12_members x
                   | None => ([], false)
                   end in
  if ok && match os with [] => false | _ => true end then os
  else match parse_der_cert data with
  | Some o => [o]
  | None =>
      match parse_der_key data password with
      | Some o => [o]
      | None =>
          match load_der_pkcs7 data with
          | Some cs => os ++ reindex (until_error (List.map parse_x509_cert cs)).1
          | None => os
          end
      end
  end.

(** * Content *)

(** [match.group(1)] without line ends and blanks, decoded. *)
Definition clean_group (m : found) : option string :=
  Base64.b64decode (Str.replace " " "" (Str.replace (String (ascii_of_N 13) "") ""
                      (Str.replace (String newline "") "" (f_group m)))).
Definition parse_pseudo_pem_binary (content : string) (password : option string) : list ParsedObject :=
  List.flat_map (fun m => match clean_group m with Some b => parse_pkcs12 b password | None => [] end)
    (finditer pkcs12_pattern content)
  ++ omap (fun m => clean_group m ≫= parse_der_cert) (finditer der_cert_pattern content)
  ++ omap (fun m => b ← clean_group m; parse_der_key b password) (finditer der_key_pattern content).

(** [^[A-Za-z0-9+/]+={0,2}$] *)
Fixpoint base64_shape (some : bool) (s : string) : bool :=
  match s with
  | EmptyString => some
  | String c s' =>
      if body_char c && negb (Str.is_space c) && negb (Ascii.eqb c "=") then base64_shape true s'
      else some && (String.eqb s "=" || String.eqb s "==")
  end.
Definition looks_like_base64 (content : string) : bool :=
  let clean := Str.replace (String (ascii_of_N 13) "") ""
                 (Str.replace (String newline "") "" (Str.strip content)) in
  if (String.length clean <? 20)%nat then false
  else base64_shape false clean && (String.length clean mod 4 =? 0)%nat.

Inductive content := Text (s : string) | Bytes (s : string).

(** [objects.sort(key=lambda o: o.index)], then the positions in the list. *)
Definition sort_objects (l : list ParsedObject) : list ParsedObject :=
  reindex (Table.order_by (fun o => Z.of_nat (p_index o)) l).

Definition parse_text (s : string) (password : option string) : list ParsedObject :=
  let objects := parse_pseudo_pem_binary s password in
  match (if looks_like_base64 s && negb (Str.contains "-----BEGIN" s) then Base64.b64decode s else None) with
  | Some decoded => parse_binary decoded password
  | None =>
      sort_objects (objects ++ parse_pem_certificates s ++ parse_pem_keys s password
                      ++ parse_pem_csrs s ++ parse_pem_pkcs7 s)
  end.
Definition parse (c : content) (password : option string) : list ParsedObject :=
  match c with
  | Bytes b => if Str.utf8_valid 0 0 0 b then parse_text b password else parse_binary b password
  | Text s => parse_text s password
  end.

End Parser.
End SmartParser.

(** What the smart import reads from a PEM bundle: every block, in its order, and
    nothing else. *)
Module SmartParserFacts.
Import Pem SmartParser.
Local Open Scope string_scope.
Local Open Scope list_scope.

(** * Lists *)

(** A list with strictly increasing keys is the sorted form of each of its
    permutations. *)
Lemma increasing_inj {A} (key : A -> Z) l x y :
  StronglySorted (fun a b => (key a < key b)%Z) l -> x ∈ l -> y ∈ l -> key x = key y -> x = y.
Proof.
  induction 1 as [|z l Hs IH Hz]; [by intros ?%not_elem_of_nil|].
  rewrite List.Forall_forall in Hz.
  intros [->|Hx]%elem_of_cons [->|Hy]%elem_of_cons E; [done| | |by apply IH].
  - apply list_elem_of_In, Hz in Hy. lia.
  - apply list_elem_of_In, Hz in Hx. lia.
Qed.

Lemma StronglySorted_weaken {A} (R S : A -> A -> Prop) l :
  (forall x y, R x y -> S x y) -> StronglySorted R l -> StronglySorted S l.
Proof.
  intros HRS. induction 1 as [|x l Hs IH Hx]; constructor; [done|].
  eapply List.Forall_impl; [|exact Hx]. auto.
Qed.

Lemma order_by_unique {A} (key : A -> Z) l l' :
  StronglySorted (fun a b => (key a < key b)%Z) l -> Permutation l' l -> Table.order_by key l' = l.
Proof.
  intros Hl Hp. pose proof (Table.order_by_Permutation key l') as Ho.
  apply (StronglySorted_unique_strong (fun a b => (key a <= key b)%Z)).
  - intros x y Hx Hy ? ?. apply (increasing_inj key l); [done| |done|lia].
    rewrite <-Hp. by rewrite Ho.
  - apply Table.order_by_Sorted.
  - eapply StronglySorted_weaken; [|exact Hl]. cbn. lia.
  - by rewrite <-Ho.
Qed.

Lemma omap_partition {A B} (g : A -> option B) (p : A -> bool) l :
  omap g l ≡ₚ omap g (List.filter p l) ++ omap g (List.filter (fun x => negb (p x)) l).
Proof.
  induction l as [|x l IH]; [done|]. cbn [omap list_omap List.filter].
  destruct (p x); cbn [negb omap list_omap]; destruct (g x); cbn; rewrite IH; try done.
  apply Permutation_middle.
Qed.

Lemma filter_filter {A} (p q : A -> bool) l :
  (forall x, q x = true -> p x = true) -> List.filter q (List.filter p l) = List.filter q l.
Proof.
  intros Hq. induction l as [|x l IH]; [done|]. cbn [List.filter].
  specialize (Hq x). destruct (p x) eqn:Ep; cbn [List.filter]; rewrite IH; [done|].
  destruct (q x); [|done]. by specialize (Hq eq_refl).
Qed.

Lemma filter_ext_in {A} (p q : A -> bool) l : (forall x, p x = q x) -> List.filter p l = List.filter q l.
Proof. intros E. induction l as [|x l IH]; [done|]. cbn [List.filter]. by rewrite E, IH. Qed.

Lemma omap_map {A B C} (f : A -> B) (g : B -> option C) l : omap g (List.map f l) = omap (fun x => g (f x)) l.
Proof. induction l as [|x l IH]; [done|]. cbn. by rewrite IH. Qed.

(** * Positions of blocks *)

Definition has_label (sel : label -> bool) (x : nat * item) : bool := sel (i_label x.2).
Definition everything : label -> bool := fun _ => true.

Lemma positions_filter sel pos l :
  positions sel pos l = List.filter (has_label sel) (positions everything pos l).
Proof.
  revert pos. induction l as [|i l IH]; intros pos; [done|]. cbn [positions].
  change (everything (i_label i)) with true. cbn [app List.filter]. rewrite IH.
  change (has_label sel (pos, i)) with (sel (i_label i)). by destruct (sel (i_label i)).
Qed.

Lemma positions_sorted sel pos l :
  StronglySorted (fun a b => a.1 < b.1) (positions sel pos l) /\
  List.Forall (fun a => pos <= a.1) (positions sel pos l).
Proof.
  revert pos. induction l as [|i l IH]; intros pos; [by repeat constructor|]. cbn [positions].
  destruct (IH (pos + String.length (block i) + S (String.length (i_after i)))) as [Hs Hf].
  assert (List.Forall (fun a => pos < a.1) (positions sel (pos + String.length (block i)
    + S (String.length (i_after i))) l)) as Hlt by (eapply List.Forall_impl; [|exact Hf]; cbn; lia).
  destruct (sel (i_label i)); cbn [app].
  - split; [by constructor|]. constructor; [done|]. eapply List.Forall_impl; [|exact Hlt]. cbn. lia.
  - split; [done|]. eapply List.Forall_impl; [|exact Hlt]. cbn. lia.
Qed.

Lemma positions_inj pos l x y :
  x ∈ positions everything pos l -> y ∈ positions everything pos l -> x.1 = y.1 -> x = y.
Proof.
  intros Hx Hy E. apply (increasing_inj (fun a => Z.of_nat a.1) (positions everything pos l)); [|done|done|lia].
  eapply StronglySorted_weaken; [|apply (positions_sorted everything pos l)]. cbn. lia.
Qed.

Lemma positions_NoDup sel l : NoDup (List.filter (has_label sel) (positions everything 0 l)).
Proof.
  rewrite <-positions_filter. destruct (positions_sorted sel 0 l) as [Hs _].
  induction Hs as [|x xs Hs IH Hx]; constructor; [|done].
  rewrite List.Forall_forall in Hx. intros Hin%list_elem_of_In%Hx. lia.
Qed.

(** * Keys found twice are kept once *)

Lemma elem_of_unseen seen l m :
  (forall a b, a ∈ l -> b ∈ l -> f_start a = f_start b -> a = b) ->
  m ∈ unseen seen l <-> m ∈ l /\ f_start m ∉ seen.
Proof.
  revert seen. induction l as [|a l IH]; intros seen Hinj; cbn [unseen].
  { split; [by intros ?%not_elem_of_nil|intros [?%not_elem_of_nil _]; done]. }
  assert (forall x y, x ∈ l -> y ∈ l -> f_start x = f_start y -> x = y) as Hinj'
    by (intros x y Hx Hy; apply Hinj; by right).
  case_bool_decide as Hs.
  - rewrite IH, elem_of_cons by done. naive_solver.
  - rewrite elem_of_cons, IH, not_elem_of_cons, elem_of_cons by done.
    destruct (decide (m = a)) as [->|Hne]; [naive_solver|].
    destruct (decide (f_start m = f_start a)) as [E|]; [|naive_solver].
    split; [naive_solver|]. intros [[->|Hm] Hn]; [done|]. exfalso. apply Hne, Hinj; [by right|by left|done].
Qed.

Lemma unseen_fresh seen l m : m ∈ unseen seen l -> f_start m ∉ seen.
Proof.
  revert seen. induction l as [|a l IH]; intros seen; cbn [unseen]; [by intros ?%not_elem_of_nil|].
  case_bool_decide; [by apply IH|]. intros [->|Hm%IH]%elem_of_cons; [done|]. set_solver.
Qed.

Lemma unseen_NoDup seen l : NoDup (unseen seen l).
Proof.
  revert seen. induction l as [|a l IH]; intros seen; cbn [unseen]; [constructor|].
  case_bool_decide; [done|]. constructor; [|done]. intros Hin%unseen_fresh. apply Hin. by left.
Qed.

(** * Parsing a bundle *)

Section Bundle.
Context `{Loader}.

(** The object of a block: a certificate or request that loads, a key in any case. *)
Definition object_of (password : option string) (x : nat * item) : option ParsedObject :=
  match i_label x.2 with
  | Cert => parse_pem_certificate (found_of x)
  | Request | NewRequest => parse_pem_csr (found_of x)
  | Key | RsaKey | EcKey | EncryptedKey => Some (parse_pem_key password (found_of x))
  end.

Lemma index_set_pem i pem o : p_index (set_index i (set_pem pem o)) = i.
Proof. by destruct o. Qed.

Lemma object_of_index password x o : object_of password x = Some o -> p_index o = x.1.
Proof.
  unfold object_of. destruct (i_label x.2).
  - unfold parse_pem_certificate. destruct (load_pem_certificate _) as [c|]; [|done].
    destruct (parse_x509_cert c) as [o'|]; [|done]. cbn. intros [= <-]. apply index_set_pem.
  - intros [= <-]. unfold parse_pem_key. destruct (_ ≫= _) as [o'|]; [|done]. by destruct o'.
  - intros [= <-]. unfold parse_pem_key. destruct (_ ≫= _) as [o'|]; [|done]. by destruct o'.
  - intros [= <-]. unfold parse_pem_key. destruct (_ ≫= _) as [o'|]; [|done]. by destruct o'.
  - intros [= <-]. unfold parse_pem_key. destruct (_ ≫= _) as [o'|]; [|done]. by destruct o'.
  - unfold parse_pem_csr. destruct (load_pem_csr _) as [q|]; [|done]. destruct (xq_san q); [|done].
    cbn. destruct (get_key_info (xq_kind q)). by intros [= <-].
  - unfold parse_pem_csr. destruct (load_pem_csr _) as [q|]; [|done]. destruct (xq_san q); [|done].
    cbn. destruct (get_key_info (xq_kind q)). by intros [= <-].
Qed.

(** The blocks of three kinds, as the scans find them. *)
Definition found_in (sel : label -> bool) (l : list item) : list found :=
  List.map found_of (List.filter (has_label sel) (positions everything 0 l)).

Lemma finditer_filter p l :
  In p patterns -> Forall well_formed l -> finditer p (bundle l) = found_in (finds p) l.
Proof. intros Hp Hl. by rewrite finditer_bundle, positions_filter. Qed.

Lemma finditer_none p l :
  In p patterns -> Forall well_formed l -> (forall x, finds p x = false) -> finditer p (bundle l) = [].
Proof.
  intros Hp Hl Hn. rewrite finditer_filter by done. unfold found_in.
  induction (positions everything 0 l) as [|x xs IH]; [done|]. cbn [List.filter].
  unfold has_label at 1. by rewrite Hn.
Qed.

Definition is_key_label (l : label) : bool :=
  match l with Key | RsaKey | EcKey | EncryptedKey => true | _ => false end.
Definition is_csr_label (l : label) : bool := match l with Request | NewRequest => true | _ => false end.

Lemma elem_of_found_in sel l m :
  m ∈ found_in sel l <-> exists x, m = found_of x /\ x ∈ positions everything 0 l /\ sel (i_label x.2) = true.
Proof.
  unfold found_in. rewrite list_elem_of_In, in_map_iff. setoid_rewrite filter_In.
  setoid_rewrite <-list_elem_of_In. unfold has_label. naive_solver.
Qed.

Lemma keys_found l :
  Forall well_formed l ->
  unseen [] (List.flat_map (fun p => finditer p (bundle l)) PEM_KEY_PATTERNS) ≡ₚ found_in is_key_label l.
Proof.
  intros Hl. cbn [List.flat_map PEM_KEY_PATTERNS]. rewrite !finditer_filter by (done || (vm_compute; tauto)).
  apply NoDup_Permutation; [apply unseen_NoDup| |].
  - apply NoDup_fmap_2_strong; [|apply positions_NoDup]. intros x y Hx Hy [= E _ _].
    apply list_elem_of_In, filter_In in Hx as [Hx%list_elem_of_In _].
    apply list_elem_of_In, filter_In in Hy as [Hy%list_elem_of_In _]. by eapply positions_inj.
  - intros m. rewrite elem_of_unseen.
    + rewrite !elem_of_app, !elem_of_found_in. split.
      * intros [Hm _]. destruct Hm as [Hm|[Hm|[Hm|[Hm|[]%not_elem_of_nil]]]];
          destruct Hm as (x & -> & Hx & Hf); exists x; (split; [done|]); (split; [done|]);
          by destruct (i_label x.2).
      * intros (x & -> & Hx & Hk). split; [|apply not_elem_of_nil].
        destruct (i_label x.2) eqn:E; try done;
          [left|left|right; left|right; right; left]; exists x; rewrite E; done.
    + intros a b. rewrite !elem_of_app, !elem_of_found_in.
      intros Ha Hb. assert (exists x y, a = found_of x /\ b = found_of y /\
        x ∈ positions everything 0 l /\ y ∈ positions everything 0 l) as (x & y & -> & -> & Hx & Hy).
      { destruct Ha as [Ha|[Ha|[Ha|[Ha|[]%not_elem_of_nil]]]], Hb as [Hb|[Hb|[Hb|[Hb|[]%not_elem_of_nil]]]];
          naive_solver. }
      cbn. intros E. f_equal. by eapply positions_inj.
Qed.

Lemma omap_found {B} (g : found -> option B) sel l :
  omap g (found_in sel l) = omap (fun x => g (found_of x)) (List.filter (has_label sel) (positions everything 0 l)).
Proof. apply omap_map. Qed.

Lemma map_omap {A B} (f : A -> B) (l : list A) : List.map f l = omap (fun x => Some (f x)) l.
Proof. induction l as [|x l IH]; [done|]. cbn. by rewrite IH. Qed.

Lemma omap_ext_in {A B} (f g : A -> option B) (l : list A) : (forall x, x ∈ l -> f x = g x) -> omap f l = omap g l.
Proof.
  induction l as [|x l IH]; intros E; [done|]. cbn. rewrite E by (by left).
  destruct (g x); [f_equal|]; apply IH; intros y Hy; apply E; by right.
Qed.

(** The three scans together see every block once. *)
Lemma scans_permutation password l :
  Forall well_formed l ->
  parse_pem_certificates (bundle l) ++ parse_pem_keys (bundle l) password ++ parse_pem_csrs (bundle l)
  ≡ₚ omap (object_of password) (positions everything 0 l).
Proof.
  intros Hl. set (xs := positions everything 0 l).
  assert (forall sel (g : found -> option ParsedObject),
    (forall x, sel (i_label x.2) = true -> g (found_of x) = object_of password x) ->
    omap g (found_in sel l) = omap (object_of password) (List.filter (has_label sel) xs)) as Hg.
  { intros sel g E. rewrite omap_found. apply omap_ext_in. intros x Hx%list_elem_of_In.
    apply filter_In in Hx as [_ Hx]. by apply E. }
  unfold parse_pem_certificates, parse_pem_keys, parse_pem_csrs.
  rewrite (map_omap (parse_pem_key password)), keys_found by done.
  cbn [List.flat_map PEM_CSR_PATTERNS]. rewrite !finditer_filter by (done || (vm_compute; tauto)).
  rewrite app_nil_r, omap_app.
  rewrite !Hg; [|intros [? [[] ? ?]] Hs; done..]. symmetry.
  assert (forall p q ys, (forall x, q x = true -> p x = true) ->
    omap (object_of password) (List.filter p ys) ≡ₚ omap (object_of password) (List.filter q ys)
      ++ omap (object_of password) (List.filter (fun x => p x && negb (q x)) ys)) as Hsplit.
  { intros p q ys Hq. rewrite (omap_partition _ q (List.filter p ys)), filter_filter by exact Hq. f_equiv.
    apply Permutation_refl'. f_equal. clear. induction ys as [|y ys IH]; [done|]. cbn [List.filter].
    destruct (p y) eqn:Ep; cbn [List.filter andb]; rewrite ?Ep; destruct (q y); cbn [negb]; by rewrite ?IH. }
  rewrite (omap_partition _ (has_label (finds PEM_CERT_PATTERN)) xs). f_equiv.
  rewrite (Hsplit _ (has_label is_key_label)) by (intros [? [[] ? ?]]; vm_compute; done). f_equiv.
  rewrite (Hsplit _ (has_label (finds [Req "CERTIFICATE"; Req "REQUEST"]))) by (intros [? [[] ? ?]]; vm_compute; done).
  f_equiv.
  apply Permutation_refl'. f_equal.
  apply filter_ext_in. by intros [? [[] ? ?]].
Qed.

Lemma bundle_not_base64 i l password :
  (if looks_like_base64 (bundle (i :: l)) && negb (Str.contains "-----BEGIN" (bundle (i :: l)))
   then Base64.b64decode (bundle (i :: l)) else None) = None /\
  (Forall well_formed (i :: l) ->
   parse_pseudo_pem_binary (bundle (i :: l)) password = [] /\ parse_pem_pkcs7 (bundle (i :: l)) = []).
Proof.
  split.
  - assert (Str.contains "-----BEGIN" (bundle (i :: l)) = true) as ->; [|by rewrite andb_false_r].
    apply StrFacts.contains_spec. exists "". eexists. reflexivity.
  - intros Hl. unfold parse_pseudo_pem_binary, parse_pem_pkcs7.
    rewrite !finditer_none by (done || (vm_compute; tauto) || by intros []). done.
Qed.

Lemma increasing_objects password l :
  StronglySorted (fun a b => (Z.of_nat (p_index a) < Z.of_nat (p_index b))%Z)
    (omap (object_of password) (positions everything 0 l)).
Proof.
  destruct (positions_sorted everything 0 l) as [Hs _].
  induction Hs as [|x xs Hs IH Hx]; [constructor|]. cbn.
  destruct (object_of password x) as [o|] eqn:E; [|done]. constructor; [done|].
  apply List.Forall_forall. intros y (z & Hz & Ey)%list_elem_of_In%list_elem_of_omap.
  rewrite List.Forall_forall in Hx. apply list_elem_of_In, Hx in Hz.
  rewrite (object_of_index _ _ _ E), (object_of_index _ _ _ Ey). lia.
Qed.

(** A PEM bundle (certificates, private keys under their four labels and requests
    under their two, in any order and number, with text between the blocks) is parsed
    into exactly one object per block that loads, in the order of the blocks and
    numbered from zero, whatever the order in which the patterns are tried and although
    two of them find the same keys. *)
Theorem parse_bundle_roundtrip l password :
  l <> [] -> Forall well_formed l ->
  parse_text (bundle l) password = reindex (omap (object_of password) (positions everything 0 l)).
Proof.
  intros Hne Hl. destruct l as [|i l]; [done|]. unfold parse_text.
  destruct (bundle_not_base64 i l password) as [-> Hn]. destruct (Hn Hl) as [-> ->].
  unfold sort_objects. f_equal. apply order_by_unique; [apply increasing_objects|].
  rewrite app_nil_r, app_nil_l. by apply scans_permutation.
Qed.

End Bundle.
End SmartParserFacts.
