(* ===== verification/ChainBuilder.v ===== *)
(** Chains of certificates and matching keys in an import:
    [services/smart_import/chain_builder.py] and [matcher.py].

    The objects of an import are shared between the list and the chains, and both
    passes write into them: they are a store, and chains and maps hold positions in
    it. *)
From S2P Require Import Prelude Pki Pem SmartParser.

Module ChainBuilder.
Import SmartParser.
Local Open Scope string_scope.
Local Open Scope list_scope.

Record ChainInfo := Chain {
  ch_root : option nat;
  ch_intermediates : list nat;
  ch_leaf : option nat;
  ch_is_complete : bool;
  ch_is_valid : bool;
  ch_errors : list string;
  ch_trust_source : option string;
  ch_trust_anchor : option string;
}.
Definition empty_chain : ChainInfo := Chain None [] None false false [] None None.
Definition chain_list (o : option nat) : list nat := match o with Some i => [i] | None => [] end.
(** [get_ordered_chain] *)
Definition get_ordered_chain (c : ChainInfo) : list nat :=
  chain_list (ch_leaf c) ++ ch_intermediates c ++ chain_list (ch_root c).

(** The positions whose object satisfies a test, in order. *)
Fixpoint where_from (p : ParsedObject -> bool) (i : nat) (objs : list ParsedObject) : list nat :=
  match objs with
  | [] => []
  | o :: objs' => (if p o then [i] else []) ++ where_from p (S i) objs'
  end.
Definition where_ (p : ParsedObject -> bool) (objs : list ParsedObject) : list nat := where_from p 0 objs.
Definition is_type (t : ObjectType) (o : ParsedObject) : bool := bool_decide (p_type o = t).
Definition is_cert : ParsedObject -> bool := is_type CERTIFICATE.

Definition otruthy : option string -> bool := Pki.otruthy.
(** [subject_map.get(issuer, [])] and [ski_map.get(aki)]: the certificates with a
    subject, the last certificate with a key identifier. *)
Definition by_subject (objs : list ParsedObject) (s : string) : list nat :=
  where_ (fun o => is_cert o && String.eqb (p_subject o) s) objs.
Definition by_ski (objs : list ParsedObject) (k : string) : option nat :=
  last (where_ (fun o => is_cert o && otruthy (p_ski o) && bool_decide (p_ski o = Some k)) objs).

(** * Walking up from a leaf *)

(** May [i] be the next certificate: its serial number is new on the path. *)
Definition usable (objs : list ParsedObject) (visited : list string) (current : ParsedObject) (i : nat) : bool :=
  match objs !! i with
  | Some o => negb (bool_decide (p_serial_number o ∈ visited))
              && negb (String.eqb (p_serial_number o) (p_serial_number current))
  | None => false
  end.
Definition find_issuer (objs : list ParsedObject) (visited : list string) (current : ParsedObject) : option nat :=
  let by_aki :=
    if otruthy (p_aki current)
    then i ← p_aki current ≫= by_ski objs; if usable objs visited current i then Some i else None
    else None in
  match by_aki with
  | Some i => Some i
  | None =>
      let l := List.filter (usable objs visited current) (by_subject objs (p_issuer current)) in
      match List.find (fun i => match objs !! i with Some o => p_is_ca o | None => false end) l with
      | Some i => Some i
      | None => head l
      end
  end.

Definition at_root (i : nat) (c : ChainInfo) : ChainInfo :=
  Chain (Some i) (ch_intermediates c) (ch_leaf c) true (ch_is_valid c) (ch_errors c)
    (ch_trust_source c) (ch_trust_anchor c).
Definition add_intermediate (i : nat) (c : ChainInfo) : ChainInfo :=
  Chain (ch_root c) (ch_intermediates c ++ [i]) (ch_leaf c) (ch_is_complete c) (ch_is_valid c)
    (ch_errors c) (ch_trust_source c) (ch_trust_anchor c).
Definition add_error (e : string) (c : ChainInfo) : ChainInfo :=
  Chain (ch_root c) (ch_intermediates c) (ch_leaf c) (ch_is_complete c) (ch_is_valid c)
    (ch_errors c ++ [e]) (ch_trust_source c) (ch_trust_anchor c).
Definition loop_error : string := "Chain depth exceeds limit (possible loop)".

(** The [while True] loop; [None] is a loop that runs out of fuel. *)
Fixpoint walk (fuel : nat) (current : nat) (depth : nat) (visited : list string) (c : ChainInfo)
    (objs : list ParsedObject) : option (list ParsedObject * ChainInfo) :=
  match fuel with
  | 0 => None
  | S fuel' =>
      cur ← objs !! current;
      match find_issuer objs visited cur with
      | None => Some (objs, c)
      | Some i =>
          o ← objs !! i;
          let visited := p_serial_number o :: visited in
          if p_is_self_signed o then Some (<[i := set_chain "root" depth o]> objs, at_root i c)
          else
            let objs := <[i := set_chain "intermediate" depth o]> objs in
            let c := add_intermediate i c in
            if (10 <? S depth)%nat then Some (objs, add_error loop_error c)
            else walk fuel' i (S depth) visited c objs
      end
  end.

(** The depth limit ends the loop after ten rounds. *)
Definition build_chain_for_leaf (leaf : nat) (objs : list ParsedObject) : option (list ParsedObject * ChainInfo) :=
  o ← objs !! leaf;
  let c := Chain None [] (Some leaf) false false [] None None in
  walk 10 leaf 1 [p_serial_number o] c (<[leaf := set_chain "leaf" 0 o]> objs).

(** * Signatures *)

Section Signatures.
Context `{Loader}.

(** [_verify_signature]; [Some] is the text of the exception. *)
Definition verify_signature (child parent : xcert) : option string :=
  match xc_kind parent with
  | OtherKey repr => Some ("Unsupported key type: " ^+ repr)
  | _ => verify parent child
  end.
Definition check_link (child parent : ParsedObject) : option string :=
  match load_pem_certificate (p_raw_pem child) with
  | inr e => Some e
  | inl c => match load_pem_certificate (p_raw_pem parent) with
             | inr e => Some e
             | inl p => verify_signature c p
             end
  end.
Definition link_error (child parent : ParsedObject) (e : string) : string :=
  "Signature verification failed: " ^+ p_subject child ^+ " signed by " ^+ p_subject parent ^+ ": " ^+ e.
(** The errors of the links of an ordered chain. *)
Fixpoint chain_errors (objs : list ParsedObject) (l : list nat) : list string :=
  match l with
  | i :: (j :: _) as l' =>
      match objs !! i, objs !! j with
      | Some child, Some parent =>
          match check_link child parent with Some e => [link_error child parent e] | None => [] end
      | _, _ => []
      end ++ chain_errors objs l'
  | _ => []
  end.
Definition validate_chain (objs : list ParsedObject) (c : ChainInfo) : ChainInfo :=
  let es := chain_errors objs (get_ordered_chain c) in
  Chain (ch_root c) (ch_intermediates c) (ch_leaf c) (ch_is_complete c)
    (match es with [] => true | _ => false end) (ch_errors c ++ es) (ch_trust_source c) (ch_trust_anchor c).

(** * [build_chains] *)

Definition is_leaf (o : ParsedObject) : bool := is_cert o && negb (p_is_ca o).
Definition is_root (o : ParsedObject) : bool := is_cert o && p_is_self_signed o && p_is_ca o.
Definition is_intermediate (o : ParsedObject) : bool := is_cert o && p_is_ca o && negb (p_is_self_signed o).

Fixpoint build_leaves (leaves : list nat) (objs : list ParsedObject) : option (list ParsedObject * list ChainInfo) :=
  match leaves with
  | [] => Some (objs, [])
  | l :: ls =>
      '(objs, c) ← build_chain_for_leaf l objs;
      '(objs, cs) ← build_leaves ls objs;
      Some (objs, c :: cs)
  end.
(** Intermediates of an import without leaves, numbered from 1. *)
Fixpoint number_intermediates (depth : nat) (l : list nat) (objs : list ParsedObject) : list ParsedObject :=
  match l with
  | [] => objs
  | i :: l' => number_intermediates (S depth) l' (alter (set_chain "intermediate" depth) i objs)
  end.
Definition ca_only (objs : list ParsedObject) : list ParsedObject * ChainInfo :=
  let roots := where_ is_root objs in
  let intermediates := where_ is_intermediate objs in
  let root := match roots with [r] => Some r | _ => None end in
  let objs := match root with Some r => alter (set_chain "root" 0) r objs | None => objs end in
  (number_intermediates 1 intermediates objs,
   Chain root intermediates None (match roots with [] => false | _ => true end) false [] None None).

Definition build_chains (objs : list ParsedObject) : option (list ParsedObject * list ChainInfo) :=
  match where_ is_leaf objs with
  | [] =>
      if bool_decide (where_ is_root objs = [] /\ where_ is_intermediate objs = []) then Some (objs, [])
      else let '(objs, c) := ca_only objs in Some (objs, [validate_chain objs c])
  | leaves =>
      '(objs, cs) ← build_leaves leaves objs;
      Some (objs, List.map (validate_chain objs) cs)
  end.

(** [find_issuer_in_db], over the CAs of the database by key identifier and subject *)
Definition find_issuer_in_db (cas : list (string * option string * option string)) (o : ParsedObject)
  : option string :=
  let by_aki := if otruthy (p_aki o)
                then Table.first (fun a => bool_decide (a.1.2 = p_aki o)) cas else None in
  match by_aki with
  | Some a => Some a.1.1
  | None => (fun a => a.1.1) <$> Table.first (fun a => bool_decide (a.2 = Some (p_issuer o))) cas
  end.

(** * [KeyMatcher] *)

(** [_public_keys_equal], [_keys_match] and [_key_matches_csr] *)
Definition public_keys_equal (a b : option string) : bool :=
  match a, b with Some x, Some y => String.eqb x y | _, _ => false end.
Definition keys_match (key cert : ParsedObject) : bool :=
  match load_pem_private_key (p_raw_pem key) None, load_pem_certificate (p_raw_pem cert) with
  | Some k, inl c => public_keys_equal (xk_spki k) (xc_spki c)
  | _, _ => false
  end.
Definition key_matches_csr (key csr : ParsedObject) : bool :=
  match load_pem_private_key (p_raw_pem key) None, load_pem_csr (p_raw_pem csr) with
  | Some k, inl q => public_keys_equal (xk_spki k) (xq_spki q)
  | _, _ => false
  end.

(** The nested loops over keys and targets: each key takes the first free target it
    matches. *)
Section Loops.
Context (matches : ParsedObject -> ParsedObject -> bool).
Definition pick (objs : list ParsedObject) (taken : list nat) (key : nat) (targets : list nat) : option nat :=
  List.find (fun t => negb (bool_decide (t ∈ taken)) &&
    match objs !! key, objs !! t with Some k, Some c => matches k c | _, _ => false end) targets.
Fixpoint match_keys (keys targets : list nat) (taken : list nat) (objs : list ParsedObject)
  : list ParsedObject * list (nat * nat) :=
  match keys with
  | [] => (objs, [])
  | k :: ks =>
      match pick objs taken k targets with
      | Some t =>
          let objs := alter (set_matched_key k) t (alter (set_matched_cert t) k objs) in
          let '(objs, l) := match_keys ks targets (t :: taken) objs in
          (objs, (k, t) :: l)
      | None => match_keys ks targets taken objs
      end
  end.
End Loops.

Record matching := Matching {
  matched_pairs : list (nat * nat);
  orphan_keys : list nat;
  certs_without_key : list nat;
  csr_key_pairs : list (nat * nat);
}.
Definition outside (l : list nat) (i : nat) : bool := negb (bool_decide (i ∈ l)).
Definition match_all (objs : list ParsedObject) : list ParsedObject * matching :=
  let keys := where_ (is_type PRIVATE_KEY) objs in
  let certs := where_ is_cert objs in
  let csrs := where_ (is_type CSR) objs in
  let '(objs, pairs) := match_keys keys_match keys certs [] objs in
  let rest := List.filter (outside pairs.*1) keys in
  let '(objs, csr_pairs) := match_keys key_matches_csr rest csrs [] objs in
  (objs, Matching pairs (List.filter (outside csr_pairs.*1) rest) (List.filter (outside pairs.*2) certs)
           (List.map (fun p => (p.2, p.1)) csr_pairs)).

(** [find_key_in_db]: the first certificate row with the serial number, and its key *)
Definition find_key_in_db (rows : list (option string * option string)) (o : ParsedObject) : bool :=
  match load_pem_certificate (p_raw_pem o) with
  | inl c => match Table.first (fun r => bool_decide (r.1 = Some (Num.str (xc_serial c)))) rows with
             | Some r => otruthy r.2
             | None => false
             end
  | inr _ => false
  end.

End Signatures.
End ChainBuilder.
