(* ===== verification/ChainFacts.v ===== *)
(** What the chain builder and the key matcher return.

    The walk up from a leaf is compared with a relation [climbs] over the objects as
    they were parsed; the properties of a chain follow by induction on it. *)
From S2P Require Import Prelude Base64 Pki Pem SmartParser ChainBuilder.

Module ChainFacts.
Import SmartParser ChainBuilder.
Local Open Scope string_scope.
Local Open Scope list_scope.

(** * Objects up to what the passes write into them *)

Definition static (o : ParsedObject) : ParsedObject :=
  let '(Parsed t p d i s u n b a c f x y k l g z e _ _ _ _) := o in
  Parsed t p d i s u n b a c f x y k l g z e None None "" 0.
Definition frozen (objs : list ParsedObject) : list ParsedObject := List.map static objs.

Lemma static_set_chain q h o : static (set_chain q h o) = static o.
Proof. by destruct o. Qed.
Lemma static_set_matched i o :
  static (set_matched_cert i o) = static o /\ static (set_matched_key i o) = static o.
Proof. by destruct o. Qed.

(** A test that does not read the fields the passes write. *)
Definition reads_static (p : ParsedObject -> bool) : Prop := forall o, p (static o) = p o.

Lemma frozen_lookup objs i : frozen objs !! i = static <$> objs !! i.
Proof. apply list_lookup_fmap. Qed.

Lemma frozen_insert objs i o o' :
  objs !! i = Some o -> static o' = static o -> frozen (<[i := o']> objs) = frozen objs.
Proof.
  intros Hi E. unfold frozen. change (List.map static) with (fmap (M := list) static).
  rewrite list_fmap_insert, E. apply list_insert_id. by rewrite list_lookup_fmap, Hi.
Qed.

Lemma frozen_alter objs i (f : ParsedObject -> ParsedObject) :
  (forall o, static (f o) = static o) -> frozen (alter f i objs) = frozen objs.
Proof.
  intros Hf. unfold frozen. apply list_eq. intros j. change (List.map static) with (fmap (M := list) static).
  rewrite !list_lookup_fmap. destruct (decide (i = j)) as [<-|Hne].
  - rewrite list_lookup_alter_eq. destruct (objs !! i); [|done]. simpl. by rewrite Hf.
  - by rewrite list_lookup_alter_ne.
Qed.

Lemma where_from_frozen p i objs : reads_static p -> where_from p i (frozen objs) = where_from p i objs.
Proof.
  intros Hp. revert i. induction objs as [|o objs IH]; intros i; [done|]. cbn.
  by rewrite Hp, <-IH.
Qed.
Lemma where_frozen p objs : reads_static p -> where_ p (frozen objs) = where_ p objs.
Proof. apply where_from_frozen. Qed.

Lemma elem_of_where_from p k objs i :
  i ∈ where_from p k objs <-> exists o, k <= i /\ objs !! (i - k) = Some o /\ p o = true.
Proof.
  revert k. induction objs as [|o objs IH]; intros k; cbn [where_from].
  { split; [by intros ?%not_elem_of_nil|]. intros (o & _ & H & _). by rewrite lookup_nil in H. }
  rewrite elem_of_app, IH. split.
  - intros [Hi|(o' & Hle & Ho & Hp)].
    + destruct (p o) eqn:E; [|by apply not_elem_of_nil in Hi]. apply list_elem_of_singleton in Hi as ->.
      exists o. rewrite Nat.sub_diag. done.
    + exists o'. split; [lia|]. replace (i - k) with (S (i - S k)) by lia. done.
  - intros (o' & Hle & Ho & Hp). destruct (decide (i = k)) as [->|Hne].
    + left. rewrite Nat.sub_diag in Ho. injection Ho as ->. rewrite Hp. by left.
    + right. exists o'. split; [lia|]. replace (i - k) with (S (i - S k)) in Ho by lia. done.
Qed.
Lemma elem_of_where p objs i : i ∈ where_ p objs <-> exists o, objs !! i = Some o /\ p o = true.
Proof.
  unfold where_. rewrite elem_of_where_from. setoid_rewrite Nat.sub_0_r.
  split; [intros (o & _ & ?); by exists o|]. intros (o & ?). exists o. split; [lia|done].
Qed.

Lemma where_from_NoDup p k objs : NoDup (where_from p k objs).
Proof.
  revert k. induction objs as [|o objs IH]; intros k; cbn [where_from]; [constructor|].
  destruct (p o); [|apply IH]. constructor; [|apply IH].
  intros (o' & Hle & _)%elem_of_where_from. lia.
Qed.

(** * The walk *)

Lemma usable_frozen objs v cur i : usable (frozen objs) v (static cur) i = usable objs v cur i.
Proof. unfold usable. rewrite frozen_lookup. destruct (objs !! i) as [o|]; [|done]. by destruct o, cur. Qed.

Lemma find_ext_list {A} (p q : A -> bool) l : (forall x, p x = q x) -> List.find p l = List.find q l.
Proof. intros E. induction l as [|x l IH]; [done|]. cbn. by rewrite E, IH. Qed.

Lemma filter_ext_list {A} (p q : A -> bool) l : (forall x, p x = q x) -> List.filter p l = List.filter q l.
Proof. intros E. induction l as [|x l IH]; [done|]. cbn [List.filter]. by rewrite E, IH. Qed.

Lemma by_maps_frozen objs s : by_subject (frozen objs) s = by_subject objs s /\ by_ski (frozen objs) s = by_ski objs s.
Proof. unfold by_subject, by_ski. rewrite !where_frozen; [done| |]; by intros []. Qed.

Lemma find_issuer_frozen objs v cur : find_issuer (frozen objs) v (static cur) = find_issuer objs v cur.
Proof.
  assert (p_aki (static cur) = p_aki cur /\ p_issuer (static cur) = p_issuer cur) as [Ea Ei] by (by destruct cur).
  unfold find_issuer. rewrite Ea, Ei, (proj1 (by_maps_frozen _ _)).
  assert (forall k, by_ski (frozen objs) k = by_ski objs k) as Hk by (intros k; apply by_maps_frozen).
  replace (p_aki cur ≫= by_ski (frozen objs)) with (p_aki cur ≫= by_ski objs)
    by (destruct (p_aki cur); [cbn; by rewrite Hk|done]).
  rewrite (filter_ext_list _ (usable objs v cur)) by (intros; apply usable_frozen).
  rewrite (find_ext_list _ (fun i => match objs !! i with Some o => p_is_ca o | None => false end)).
  2: { intros i. rewrite frozen_lookup. by destruct (objs !! i) as [[]|]. }
  destruct (if otruthy (p_aki cur) then _ else None) as [i|] eqn:E1;
    destruct (if otruthy (p_aki cur) then _ else None) as [j|] eqn:E2 in |- *; try done.
  all: revert E1 E2; destruct (otruthy (p_aki cur)); try done;
    destruct (p_aki cur ≫= by_ski objs) as [x|]; cbn; try done;
    rewrite ?usable_frozen; destruct (usable objs v cur x); congruence.
Qed.

(** One certificate may have issued another: by key identifier or by name. *)
Definition issued_by (child parent : ParsedObject) : Prop :=
  is_cert parent = true /\
  ((otruthy (p_aki child) = true /\ p_aki child = p_ski parent) \/ p_issuer child = p_subject parent).

Lemma find_issuer_sound objs v cur i :
  find_issuer objs v cur = Some i ->
  exists o, objs !! i = Some o /\ issued_by cur o /\ p_serial_number o ∉ v.
Proof.
  assert (forall j, usable objs v cur j = true -> exists o, objs !! j = Some o /\ p_serial_number o ∉ v) as Hu.
  { intros j. unfold usable. destruct (objs !! j) as [o|]; [|done].
    intros [Hv _]%andb_true_iff. exists o. split; [done|].
    by apply negb_true_iff, bool_decide_eq_false in Hv. }
  assert (forall j, j ∈ by_subject objs (p_issuer cur) -> forall o, objs !! j = Some o -> issued_by cur o) as Hs.
  { intros j (o' & Ho' & Hp)%elem_of_where o Ho. assert (o' = o) as -> by congruence.
    apply andb_true_iff in Hp as [Hc E%String.eqb_eq]. split; [done|]. by right. }
  unfold find_issuer. intros H.
  assert (forall j, j ∈ List.filter (usable objs v cur) (by_subject objs (p_issuer cur)) ->
    exists o, objs !! j = Some o /\ issued_by cur o /\ p_serial_number o ∉ v) as Hf.
  { intros j Hj. apply list_elem_of_In, filter_In in Hj as [Hj%list_elem_of_In (o & Ho & Hv)%Hu].
    exists o. eauto. }
  destruct (if otruthy (p_aki cur) then _ else None) as [j|] eqn:E.
  - injection H as ->. destruct (otruthy (p_aki cur)) eqn:Et; [|done].
    destruct (p_aki cur) as [k|] eqn:Ea; [|done]. cbn in E. destruct (by_ski objs k) as [x|] eqn:Ek; [|done].
    cbn in E. destruct (usable objs v cur x) eqn:Eu; [|done]. injection E as ->.
    destruct (Hu _ Eu) as (o & Ho & Hv). exists o. split; [done|]. split; [|done].
    unfold by_ski in Ek. apply last_Some_elem_of, elem_of_where in Ek as (o' & Ho' & Hp).
    assert (o' = o) as -> by congruence. rewrite !andb_true_iff, bool_decide_eq_true in Hp.
    destruct Hp as [[Hc _] Hk]. split; [done|]. left. by rewrite Ea, Hk.
  - destruct (List.find _ _) as [j|] eqn:Ef.
    + injection H as ->. apply find_some in Ef as [Hin%list_elem_of_In _]. by apply Hf.
    + apply Hf. destruct (List.filter _ _); [done|]. injection H as ->. by left.
Qed.

(** Paths of the walk: the intermediates above a certificate and the root they end in. *)
Inductive climbs (objs : list ParsedObject) : nat -> nat -> list string -> list nat -> option nat -> Prop :=
| climb_stop n cur o v :
    objs !! cur = Some o -> find_issuer objs v o = None -> climbs objs n cur v [] None
| climb_root n cur o v i r :
    objs !! cur = Some o -> find_issuer objs v o = Some i -> objs !! i = Some r ->
    p_is_self_signed r = true -> climbs objs n cur v [] (Some i)
| climb_limit cur o v i r :
    objs !! cur = Some o -> find_issuer objs v o = Some i -> objs !! i = Some r ->
    p_is_self_signed r = false -> climbs objs 1 cur v [i] None
| climb_step n cur o v i r l root :
    objs !! cur = Some o -> find_issuer objs v o = Some i -> objs !! i = Some r ->
    p_is_self_signed r = false -> climbs objs (S n) i (p_serial_number r :: v) l root ->
    climbs objs (S (S n)) cur v (i :: l) root.

Definition extended (c c' : ChainInfo) (l : list nat) (root : option nat) : Prop :=
  ch_leaf c' = ch_leaf c /\ ch_intermediates c' = ch_intermediates c ++ l /\
  ch_root c' = (match root with Some i => Some i | None => ch_root c end) /\
  ch_is_complete c' = (match root with Some _ => true | None => ch_is_complete c end).

Lemma static_fields o :
  p_serial_number (static o) = p_serial_number o /\ p_is_self_signed (static o) = p_is_self_signed o.
Proof. by destruct o. Qed.

(** The loop follows such a path, and ten rounds are enough. *)
Lemma walk_climbs fuel current depth v c objs0 objs o :
  frozen objs = frozen objs0 -> objs !! current = Some o -> S fuel + depth = 11 ->
  exists objs' c' l root, walk (S fuel) current depth v c objs = Some (objs', c') /\
    frozen objs' = frozen objs0 /\ climbs (frozen objs0) (S fuel) current v l root /\ extended c c' l root.
Proof.
  revert current depth v c objs o. induction fuel as [|fuel IH]; intros current depth v c objs o Hfr Ho Hd;
    (assert (frozen objs0 !! current = Some (static o)) as Ho' by (by rewrite <-Hfr, frozen_lookup, Ho));
    cbn [walk]; rewrite Ho; cbn [mbind option_bind];
    pose proof (find_issuer_frozen objs v o) as Hfi; rewrite Hfr in Hfi;
    destruct (find_issuer objs v o) as [i|] eqn:Ei;
    try (eexists _, _, [], None; split; [done|]; split; [done|]; split; [by eapply climb_stop|];
         split; [done|]; split; [by rewrite app_nil_r|done]).
  all: destruct (find_issuer_sound _ _ _ _ Ei) as (r & Hr & _ & _); rewrite Hr; cbn [mbind option_bind].
  all: assert (frozen objs0 !! i = Some (static r)) as Hr' by (by rewrite <-Hfr, frozen_lookup, Hr).
  all: destruct (static_fields r) as [Esn Ess].
  all: destruct (p_is_self_signed r) eqn:Es;
    [eexists _, _, [], (Some i); split; [done|]; split;
       [by rewrite (frozen_insert _ _ r) by (done || apply static_set_chain)|];
       split; [eapply climb_root; eauto; by rewrite Ess|];
       split; [done|]; split; [symmetry; apply app_nil_r|done]|].
  - replace (10 <? S depth)%nat with true by (symmetry; apply Nat.ltb_lt; lia).
    eexists _, _, [i], None. split; [done|]. split; [by rewrite (frozen_insert _ _ r) by (done || apply static_set_chain)|].
    split; [eapply climb_limit; eauto; by rewrite Ess|]. done.
  - replace (10 <? S depth)%nat with false by (symmetry; apply Nat.ltb_ge; lia).
    assert (is_Some (<[i:=set_chain "intermediate" depth r]> objs !! i)) as [r' Hri]
      by (rewrite list_lookup_insert_eq by (by eapply lookup_lt_Some); by eexists).
    destruct (IH i (S depth) (p_serial_number r :: v) (add_intermediate i c)
      (<[i:=set_chain "intermediate" depth r]> objs) r') as (objs' & c' & l & root & Hw & Hf & Hcl & He).
    { by rewrite (frozen_insert _ _ r) by (done || apply static_set_chain). }
    { done. }
    { lia. }
    eexists objs', c', (i :: l), root. split; [exact Hw|]. split; [done|].
    split; [eapply climb_step; [exact Ho'|exact Hfi|exact Hr'|by rewrite Ess|by rewrite Esn]|].
    destruct He as (E1 & E2 & E3 & E4). split; [done|]. split; [rewrite E2; cbn; by rewrite <-app_assoc|done].
Qed.

(** * Properties of a path *)

Definition adjacent {A} (l : list A) (i j : A) : Prop := exists a b, l = a ++ i :: j :: b.

Lemma adjacent_cons {A} (x : A) l i j :
  adjacent (x :: l) i j -> (x = i /\ head l = Some j) \/ adjacent l i j.
Proof.
  intros ([|y a] & b & E); injection E as -> ->; [by left|]. right. by exists a, b.
Qed.

(** The serial number at a position. *)
Definition serial_at (objs : list ParsedObject) (i : nat) : string :=
  default "" (p_serial_number <$> objs !! i).

Lemma climbs_above objs n cur v l root i :
  climbs objs n cur v l root -> i ∈ l ++ chain_list root -> serial_at objs i ∉ v.
Proof.
  induction 1 as [n cur o v Ho Hf|n cur o v j r Ho Hf Hr Hs|cur o v j r Ho Hf Hr Hs|n cur o v j r l root Ho Hf Hr Hs Hc IH];
    cbn [chain_list app]; [by intros ?%not_elem_of_nil|..].
  1-2: intros ->%list_elem_of_singleton.
  3: intros [->|Hi]%elem_of_cons; [|specialize (IH Hi); set_solver].
  all: destruct (find_issuer_sound _ _ _ _ Hf) as (r' & Hr' & _ & Hv); unfold serial_at; by rewrite Hr'.
Qed.

Lemma climbs_NoDup objs n cur v l root :
  climbs objs n cur v l root -> NoDup (serial_at objs <$> l ++ chain_list root).
Proof.
  induction 1 as [n cur o v Ho Hf|n cur o v j r Ho Hf Hr Hs|cur o v j r Ho Hf Hr Hs|n cur o v j r l root Ho Hf Hr Hs Hc IH];
    cbn [chain_list app]; [constructor|apply NoDup_singleton|apply NoDup_singleton|].
  rewrite fmap_cons. constructor; [|done]. intros (i & E & Hi)%list_elem_of_fmap.
  apply (climbs_above _ _ _ _ _ _ _ Hc Hi). rewrite <-E. unfold serial_at. rewrite Hr. by left.
Qed.

Lemma climbs_bounds objs n cur v l root :
  climbs objs n cur v l root -> 1 <= n -> length l + length (chain_list root) <= n.
Proof. induction 1; cbn; lia. Qed.

Lemma climbs_root_signed objs n cur v l root i :
  climbs objs n cur v l root -> root = Some i -> exists r, objs !! i = Some r /\ p_is_self_signed r = true.
Proof. induction 1; try done; intros [= ->]; eauto. Qed.

Lemma climbs_linked objs n cur v l root i j :
  climbs objs n cur v l root -> adjacent (cur :: l ++ chain_list root) i j ->
  exists a b, objs !! i = Some a /\ objs !! j = Some b /\ issued_by a b.
Proof.
  induction 1 as [n cur o v Ho Hf|n cur o v k r Ho Hf Hr Hs|cur o v k r Ho Hf Hr Hs|n cur o v k r l root Ho Hf Hr Hs Hc IH];
    cbn [chain_list app]; intros Ha; apply adjacent_cons in Ha as [[-> Hh]|Ha]; try done.
  1: by destruct Ha as ([] & b & ?).
  2,4: apply adjacent_cons in Ha as [[-> Hh]|([] & ? & ?)]; done.
  4: by apply IH.
  all: injection Hh as <-; destruct (find_issuer_sound _ _ _ _ Hf) as (r' & Hr' & Hi & _); eauto.
Qed.

(** * The chains of an import *)

Lemma static_issued a b : issued_by (static a) (static b) <-> issued_by a b.
Proof. by destruct a, b. Qed.

Section Chains.
Context `{Loader}.

Lemma check_link_static a b : check_link (static a) (static b) = check_link a b.
Proof. by destruct a, b. Qed.

Definition chain_of (objs : list ParsedObject) (leaf : nat) (c : ChainInfo) : Prop :=
  ch_leaf c = Some leaf /\
  ch_is_complete c = (match ch_root c with Some _ => true | None => false end) /\
  climbs objs 10 leaf [serial_at objs leaf] (ch_intermediates c) (ch_root c).

Lemma serial_at_frozen objs i : serial_at (frozen objs) i = serial_at objs i.
Proof. unfold serial_at. rewrite frozen_lookup. by destruct (objs !! i) as [[]|]. Qed.

Lemma build_chain_ok objs0 objs leaf :
  frozen objs = frozen objs0 -> leaf < length objs0 ->
  exists objs' c, build_chain_for_leaf leaf objs = Some (objs', c) /\ frozen objs' = frozen objs0 /\
    chain_of (frozen objs0) leaf c.
Proof.
  intros Hf Hl. assert (length objs = length objs0) as El
    by (rewrite <-(List.length_map static objs), <-(List.length_map static objs0); by f_equal).
  destruct (lookup_lt_is_Some_2 objs leaf) as [o Ho]; [lia|].
  unfold build_chain_for_leaf. rewrite Ho. cbn [mbind option_bind].
  destruct (walk_climbs 9 leaf 1 [p_serial_number o] (Chain None [] (Some leaf) false false [] None None) objs0
    (<[leaf:=set_chain "leaf" 0 o]> objs) (set_chain "leaf" 0 o))
    as (objs' & c & l & root & Hw & Hf' & Hc & E1 & E2 & E3 & E4); [|by rewrite list_lookup_insert_eq by lia|done|].
  { by rewrite (frozen_insert _ _ o) by (done || apply static_set_chain). }
  exists objs', c. split; [exact Hw|]. split; [done|]. split; [by rewrite E1|].
  assert (serial_at (frozen objs0) leaf = p_serial_number o) as ->.
  { unfold serial_at. rewrite <-Hf, frozen_lookup, Ho. by destruct o. }
  cbn in E2, E3, E4. rewrite E2, E3, E4. by destruct root.
Qed.

Lemma build_leaves_ok objs0 leaves objs :
  frozen objs = frozen objs0 -> Forall (fun i => i < length objs0) leaves ->
  exists objs' cs, build_leaves leaves objs = Some (objs', cs) /\ frozen objs' = frozen objs0 /\
    Forall2 (chain_of (frozen objs0)) leaves cs.
Proof.
  revert objs. induction leaves as [|l ls IH]; intros objs Hf Hl; [by exists objs, []|].
  apply Forall_cons in Hl as [Hl Hls].
  destruct (build_chain_ok objs0 objs l Hf Hl) as (objs1 & c & E1 & Hf1 & Hc).
  destruct (IH objs1 Hf1 Hls) as (objs2 & cs & E2 & Hf2 & Hcs).
  exists objs2, (c :: cs). cbn [build_leaves]. rewrite E1. cbn [mbind option_bind]. rewrite E2.
  cbn [mbind option_bind]. eauto using Forall2_cons_2.
Qed.

Lemma is_leaf_lt objs : Forall (fun i => i < length objs) (where_ is_leaf objs).
Proof. apply Forall_forall. intros i (o & Ho & _)%elem_of_where. by eapply lookup_lt_Some. Qed.

(** The signatures of a chain without errors. *)
Lemma chain_errors_nil objs l i j a b :
  chain_errors objs l = [] -> adjacent l i j -> objs !! i = Some a -> objs !! j = Some b ->
  check_link a b = None.
Proof.
  induction l as [|x l IH]; intros He Ha Hi Hj; [by destruct Ha as ([] & ? & ?)|].
  destruct l as [|y l]; [by destruct Ha as ([|? []] & ? & ?)|].
  cbn [chain_errors] in He. apply app_eq_nil in He as [H1 H2].
  apply adjacent_cons in Ha as [[-> [= ->]]|Ha]; [|by apply IH].
  rewrite Hi, Hj in H1. by destruct (check_link a b).
Qed.

Lemma frozen_number_intermediates d l objs : frozen (number_intermediates d l objs) = frozen objs.
Proof.
  revert d objs. induction l as [|i l IH]; intros d objs; [done|]. cbn [number_intermediates].
  rewrite IH. apply frozen_alter, static_set_chain.
Qed.

(** What a chain with a leaf promises. *)
Record good_chain (objs : list ParsedObject) (c : ChainInfo) : Prop := {
  gc_links i j : adjacent (get_ordered_chain c) i j -> exists child parent,
    objs !! i = Some child /\ objs !! j = Some parent /\ issued_by child parent /\
    (ch_is_valid c = true -> check_link child parent = None);
  gc_serials : NoDup (serial_at objs <$> get_ordered_chain c);
  gc_length : length (get_ordered_chain c) <= 11;
  gc_complete : ch_is_complete c = true <-> exists i r,
    ch_root c = Some i /\ objs !! i = Some r /\ p_is_self_signed r = true;
}.

Lemma frozen_Some objs i a : frozen objs !! i = Some a -> exists o, objs !! i = Some o /\ a = static o.
Proof. rewrite frozen_lookup. destruct (objs !! i) as [o|]; [|done]. intros [= <-]. eauto. Qed.

Lemma chain_of_good objs objs' leaf c :
  frozen objs' = frozen objs -> chain_of (frozen objs) leaf c -> good_chain objs (validate_chain objs' c).
Proof.
  intros Hf (Hl & Hcomp & Hc).
  assert (get_ordered_chain c = leaf :: ch_intermediates c ++ chain_list (ch_root c)) as Eo
    by (unfold get_ordered_chain; by rewrite Hl).
  split; change (get_ordered_chain (validate_chain objs' c)) with (get_ordered_chain c);
    change (ch_root (validate_chain objs' c)) with (ch_root c);
    change (ch_is_complete (validate_chain objs' c)) with (ch_is_complete c).
  - intros i j Ha. rewrite Eo in Ha. destruct (climbs_linked _ _ _ _ _ _ _ _ Hc Ha) as (a & b & Hi & Hj & Hab).
    apply frozen_Some in Hi as (oi & Hi & ->). apply frozen_Some in Hj as (oj & Hj & ->).
    exists oi, oj. split; [done|]. split; [done|]. split; [by apply static_issued|].
    unfold validate_chain. cbn [ch_is_valid]. destruct (chain_errors objs' _) eqn:Ee; [|done]. intros _.
    rewrite Eo in Ee.
    assert (forall k o, objs !! k = Some o -> exists o', objs' !! k = Some o' /\ static o' = static o) as Hsame.
    { intros k o Ho. destruct (frozen_Some objs' k (static o)) as (o' & ? & ?); [|by eauto].
      by rewrite Hf, frozen_lookup, Ho. }
    destruct (Hsame i oi Hi) as (oi' & Hi' & Ei). destruct (Hsame j oj Hj) as (oj' & Hj' & Ej).
    rewrite <-check_link_static, <-Ei, <-Ej, check_link_static. by eapply chain_errors_nil.
  - rewrite Eo, fmap_cons. assert (forall l, serial_at objs <$> l = serial_at (frozen objs) <$> l) as El
      by (intros l; apply list_fmap_ext; intros; by rewrite serial_at_frozen).
    rewrite El. constructor; [|by eapply climbs_NoDup].
    intros (k & E & Hk)%list_elem_of_fmap. apply (climbs_above _ _ _ _ _ _ _ Hc Hk).
    rewrite <-E, <-serial_at_frozen. by left.
  - rewrite Eo. cbn [length]. rewrite length_app. pose proof (climbs_bounds _ _ _ _ _ _ Hc). lia.
  - rewrite Hcomp. split.
    + destruct (ch_root c) as [i|] eqn:Er; [|done]. intros _. exists i.
      destruct (climbs_root_signed _ _ _ _ _ _ i Hc eq_refl) as (r & Hr & Hs).
      apply frozen_Some in Hr as (o & Ho & ->). exists o. split; [done|]. split; [done|]. by destruct o.
    + by intros (i & r & -> & _).
Qed.

(** What the chain of an import of CAs alone promises: it lists the intermediates in the
    order of the import and the root, where there is just one; its neighbours are issued by
    one another only where it is reported valid. *)
Record ca_chain (objs : list ParsedObject) (c : ChainInfo) : Prop := {
  cc_leaf : ch_leaf c = None;
  cc_intermediates : ch_intermediates c = where_ is_intermediate objs;
  cc_root : ch_root c = match where_ is_root objs with [r] => Some r | _ => None end;
  cc_complete : ch_is_complete c = true <-> where_ is_root objs <> [];
  cc_links i j : ch_is_valid c = true -> adjacent (get_ordered_chain c) i j -> exists child parent,
    objs !! i = Some child /\ objs !! j = Some parent /\ check_link child parent = None;
}.

Lemma static_lookup objs objs' i o : frozen objs' = frozen objs -> objs !! i = Some o ->
  exists o', objs' !! i = Some o' /\ static o' = static o.
Proof.
  intros Hf Ho. destruct (frozen_Some objs' i (static o)) as (o' & ? & ?); [|by eauto]. by rewrite Hf, frozen_lookup, Ho.
Qed.

Lemma ca_only_good objs : let '(objs', c) := ca_only objs in
  frozen objs' = frozen objs /\ ca_chain objs (validate_chain objs' c).
Proof.
  unfold ca_only. set (root := match where_ is_root objs with [r] => Some r | _ => None end).
  set (objs' := number_intermediates _ _ _). assert (frozen objs' = frozen objs) as Hf.
  { unfold objs'. rewrite frozen_number_intermediates. destruct root; [apply frozen_alter, static_set_chain|done]. }
  split; [done|]. split; try done; [cbn; by destruct (where_ is_root objs)|].
  intros i j Hv Ha. unfold validate_chain, get_ordered_chain in Ha. cbn [ch_leaf ch_intermediates ch_root chain_list app] in Ha.
  assert (forall k, In k (where_ is_intermediate objs ++ chain_list root) -> exists o, objs !! k = Some o) as Hin.
  { intros k Hk. apply in_app_or in Hk as [Hk|Hk].
    - apply list_elem_of_In, elem_of_where in Hk as (o & Ho & _). by exists o.
    - unfold root in Hk. destruct (where_ is_root objs) as [|r [|]] eqn:Er; try done. destruct Hk as [<-|[]].
      assert (r ∈ where_ is_root objs) as (o & Ho & _)%elem_of_where by (rewrite Er; apply list_elem_of_singleton; done). by exists o. }
  pose proof Ha as (l1 & l2 & El).
  destruct (Hin i) as [a Hi]; [rewrite El; apply in_elt|].
  destruct (Hin j) as [b Hj]; [rewrite El; apply in_or_app; right; right; by left|].
  exists a, b. split; [done|]. split; [done|]. unfold validate_chain in Hv. cbn [ch_is_valid] in Hv.
  destruct (chain_errors objs' _) eqn:Ee; [|done].
  destruct (static_lookup objs objs' i a Hf Hi) as (a' & Hi' & Ea). destruct (static_lookup objs objs' j b Hf Hj) as (b' & Hj' & Eb).
  rewrite <-check_link_static, <-Ea, <-Eb, check_link_static. by eapply chain_errors_nil.
Qed.

(** C11: Building chains always succeeds within the ten rounds of the loop, whatever
    certificates are imported (cycles of issuers included).  Where some are no CAs there is
    one chain per certificate that is not a CA, in order; each certificate of a chain names
    the next one as its issuer, no serial number occurs twice, and a chain reported valid is
    signed link by link; complete means that it ends in a self-signed certificate.  CAs
    alone are listed in a single chain, whose links hold where it is reported valid. *)
Theorem chains_are_sound objs :
  exists objs' cs, build_chains objs = Some (objs', cs) /\ frozen objs' = frozen objs /\
    (where_ is_leaf objs <> [] ->
       List.map ch_leaf cs = List.map Some (where_ is_leaf objs) /\ Forall (good_chain objs) cs) /\
    (where_ is_leaf objs = [] ->
       (cs = [] /\ where_ is_root objs = [] /\ where_ is_intermediate objs = []) \/
       exists c, cs = [c] /\ ca_chain objs c).
Proof.
  unfold build_chains. destruct (where_ is_leaf objs) as [|l ls] eqn:El.
  - case_bool_decide as Hno; [exists objs, []; split_and!; [done|done|done|by left]|].
    pose proof (ca_only_good objs) as Hc. destruct (ca_only objs) as [objs' c]. destruct Hc as [Hf Hc].
    eexists _, _. split_and!; [done|done|done|]. intros _. right. by eexists.
  - destruct (build_leaves_ok objs (l :: ls) objs eq_refl) as (objs' & cs & E & Hf & Hcs);
      [rewrite <-El; apply is_leaf_lt|].
    rewrite E. cbn [mbind option_bind]. eexists _, _. split; [done|]. split; [done|]. split; [|done]. intros _.
    revert Hcs. generalize (l :: ls). clear -Hf. induction 1 as [|i c js cs Hc Hcs IH]; [by split|].
    destruct IH as [IH1 IH2]. split.
    + cbn [List.map]. f_equal; [|done]. exact (proj1 Hc).
    + constructor; [by eapply chain_of_good|done].
Qed.

(** * Matching keys *)

Section Matching.
Context (matches : ParsedObject -> ParsedObject -> bool).
Hypothesis matches_static : forall a b, matches (static a) (static b) = matches a b.

Definition match_at (objs : list ParsedObject) (k t : nat) : bool :=
  match objs !! k, objs !! t with Some a, Some b => matches a b | _, _ => false end.

Lemma match_at_frozen objs objs' k t : frozen objs = frozen objs' -> match_at objs k t = match_at objs' k t.
Proof.
  intros E. assert (forall o, match_at (frozen o) k t = match_at o k t) as Hf.
  { intros o. unfold match_at. rewrite !frozen_lookup. destruct (o !! k), (o !! t); cbn; auto. }
  by rewrite <-Hf, E, Hf.
Qed.

(** The greedy loop: sound, injective, and no free pair is left that matches. *)
Lemma match_keys_spec objs0 keys targets taken objs objs' l :
  frozen objs = frozen objs0 -> NoDup keys -> match_keys matches keys targets taken objs = (objs', l) ->
  frozen objs' = frozen objs0 /\
  (forall k t, (k, t) ∈ l -> k ∈ keys /\ t ∈ targets /\ (t ∉ taken) /\ match_at objs0 k t = true) /\
  NoDup l.*1 /\ NoDup l.*2 /\
  (forall k t, k ∈ keys -> t ∈ targets -> match_at objs0 k t = true -> k ∈ l.*1 \/ t ∈ taken \/ t ∈ l.*2).
Proof.
  revert taken objs l. induction keys as [|k ks IH]; intros taken objs l Hf Hnd; cbn [match_keys].
  { intros [= <- <-]. split; [done|]. split; [by intros ? ? ?%not_elem_of_nil|].
    do 2 (split; [constructor|]). by intros ? ? ?%not_elem_of_nil. }
  apply NoDup_cons in Hnd as [Hk Hnd].
  destruct (pick matches objs taken k targets) as [t|] eqn:Ep.
  - destruct (match_keys matches ks targets (t :: taken) (alter (set_matched_key k) t (alter (set_matched_cert t) k objs)))
      as [objs1 l1] eqn:E. intros [= <- <-].
    assert (frozen (alter (set_matched_key k) t (alter (set_matched_cert t) k objs)) = frozen objs0) as Hf'
      by (rewrite !frozen_alter; [done|..]; intros o; apply static_set_matched).
    destruct (IH _ _ _ Hf' Hnd E) as (F1 & F2 & F3 & F4 & F5).
    apply find_some in Ep as [Ht [Htk Hm]%andb_true_iff].
    apply negb_true_iff, bool_decide_eq_false in Htk. apply list_elem_of_In in Ht.
    change (match_at objs k t = true) in Hm. rewrite (match_at_frozen _ objs0) in Hm by done.
    split; [done|]. split; [|split; [|split]].
    + intros k' t' [[= -> ->]|Hin]%elem_of_cons; [split; [by left|done]|].
      destruct (F2 _ _ Hin) as (? & ? & ? & ?). split; [by right|]. set_solver.
    + cbn. constructor; [|done]. intros ([k' t'] & -> & Hin)%list_elem_of_fmap. by apply F2 in Hin as [? _].
    + cbn. constructor; [|done]. intros ([k' t'] & -> & Hin)%list_elem_of_fmap.
      apply F2 in Hin as (_ & _ & Hn & _). apply Hn. by left.
    + intros k' t' [->|Hk']%elem_of_cons Ht' Hm'; [left; by left|].
      cbn. rewrite !elem_of_cons. destruct (F5 _ _ Hk' Ht' Hm') as [|[Hin|]]; auto.
      apply elem_of_cons in Hin as [->|]; auto.
  - intros E. destruct (IH taken objs l Hf Hnd E) as (F1 & F2 & F3 & F4 & F5).
    split; [done|]. split; [|split; [done|split; [done|]]].
    + intros k' t' Hin. destruct (F2 _ _ Hin) as (? & ? & ? & ?). split; [by right|done].
    + intros k' t' [->|Hk']%elem_of_cons Ht' Hm'; [|by apply F5]. right. left.
      unfold pick in Ep. apply list_elem_of_In in Ht'. pose proof (find_none _ _ Ep t' Ht') as Hn.
      cbn in Hn. change (negb (bool_decide (t' ∈ taken)) && match_at objs k t' = false) in Hn.
      rewrite (match_at_frozen _ objs0), Hm', andb_true_r in Hn by done.
      by apply negb_false_iff, bool_decide_eq_true in Hn.
Qed.
End Matching.

Lemma keys_match_static a b : keys_match (static a) (static b) = keys_match a b.
Proof. by destruct a, b. Qed.
Lemma key_matches_csr_static a b : key_matches_csr (static a) (static b) = key_matches_csr a b.
Proof. by destruct a, b. Qed.

Lemma elem_of_filter_outside l ys i : i ∈ List.filter (outside l) ys <-> i ∈ ys /\ i ∉ l.
Proof.
  rewrite list_elem_of_In, filter_In, <-list_elem_of_In. unfold outside.
  by rewrite negb_true_iff, bool_decide_eq_false.
Qed.

(** Matching keys is sound, one-to-one and maximal: a pair joins a private key with
    a certificate (or a request) of the same public key, no key and no certificate is in
    two pairs, a key left without a pair matches no certificate or request left without
    one, and the lists of orphans are exactly the members in no pair. *)
Theorem match_all_spec objs :
  let '(objs', m) := match_all objs in
  let keys := where_ (is_type PRIVATE_KEY) objs in
  let certs := where_ is_cert objs in
  let csrs := where_ (is_type CSR) objs in
  frozen objs' = frozen objs /\
  (forall k c, (k, c) ∈ matched_pairs m -> k ∈ keys /\ c ∈ certs /\ match_at keys_match objs k c = true) /\
  (forall q k, (q, k) ∈ csr_key_pairs m -> q ∈ csrs /\ k ∈ keys /\ match_at key_matches_csr objs k q = true) /\
  NoDup ((matched_pairs m).*1 ++ (csr_key_pairs m).*2) /\
  NoDup (matched_pairs m).*2 /\ NoDup (csr_key_pairs m).*1 /\
  (forall k, k ∈ orphan_keys m <-> k ∈ keys /\ (k ∉ (matched_pairs m).*1) /\ (k ∉ (csr_key_pairs m).*2)) /\
  (forall c, c ∈ certs_without_key m <-> c ∈ certs /\ c ∉ (matched_pairs m).*2) /\
  (forall k, k ∈ orphan_keys m ->
     (forall c, c ∈ certs_without_key m -> match_at keys_match objs k c = false) /\
     (forall q, q ∈ csrs -> q ∉ (csr_key_pairs m).*1 -> match_at key_matches_csr objs k q = false)).
Proof.
  unfold match_all. set (keys := where_ _ objs). set (certs := where_ is_cert objs). set (csrs := where_ _ objs).
  destruct (match_keys keys_match keys certs [] objs) as [objs1 pairs] eqn:E1.
  set (rest := List.filter (outside pairs.*1) keys).
  destruct (match_keys key_matches_csr rest csrs [] objs1) as [objs2 qpairs] eqn:E2.
  cbn [matched_pairs orphan_keys certs_without_key csr_key_pairs].
  assert (NoDup keys) as Hkeys by apply where_from_NoDup.
  destruct (match_keys_spec keys_match keys_match_static objs keys certs [] objs objs1 pairs eq_refl Hkeys E1)
    as (F1 & F2 & F3 & F4 & F5).
  assert (NoDup rest) as Hrest by (apply NoDup_ListNoDup, List.NoDup_filter, NoDup_ListNoDup; done).
  destruct (match_keys_spec key_matches_csr key_matches_csr_static objs rest csrs [] objs1 objs2 qpairs F1 Hrest E2)
    as (G1 & G2 & G3 & G4 & G5).
  assert ((List.map (fun p : nat * nat => (p.2, p.1)) qpairs).*2 = qpairs.*1 /\
          (List.map (fun p : nat * nat => (p.2, p.1)) qpairs).*1 = qpairs.*2) as [Eq1 Eq2].
  { clear. induction qpairs as [|[a b] l [IH1 IH2]]; [done|]. split; cbn; by f_equal. }
  rewrite !Eq1, !Eq2.
  assert (forall k, k ∈ qpairs.*1 -> k ∈ rest) as Hq.
  { intros k ([k' q] & -> & Hin)%list_elem_of_fmap. by destruct (G2 _ _ Hin). }
  split; [done|]. split; [|split; [|split; [|split; [done|split; [done|split; [|split]]]]]].
  - intros k c Hin. destruct (F2 _ _ Hin) as (? & ? & _ & ?). done.
  - intros q k ([k' q'] & [= -> ->] & Hin%list_elem_of_In)%list_elem_of_In%in_map_iff.
    destruct (G2 _ _ Hin) as ([? _]%elem_of_filter_outside & ? & _ & ?). done.
  - apply NoDup_app. split; [done|]. split; [|done]. intros k Hk Hk'%Hq. by apply elem_of_filter_outside in Hk' as [_ ?].
  - intros k. unfold rest. rewrite !elem_of_filter_outside. tauto.
  - intros c. apply elem_of_filter_outside.
  - intros k [[Hk Hk1]%elem_of_filter_outside Hk2]%elem_of_filter_outside. split.
    + intros c [Hc Hc1]%elem_of_filter_outside. apply not_true_is_false. intros Hm.
      destruct (F5 _ _ Hk Hc Hm) as [|[[]%not_elem_of_nil|]]; done.
    + intros q Hq1 Hq2. apply not_true_is_false. intros Hm.
      assert (k ∈ rest) as Hkr by by apply elem_of_filter_outside.
      destruct (G5 _ _ Hkr Hq1 Hm) as [|[[]%not_elem_of_nil|]]; done.
Qed.

End Chains.
End ChainFacts.
