(* ===== verification/SmartImport.v ===== *)
(** The smart import's validation and its writes to the database:
    [services/smart_import/validator.py], [importer.py] and [api/v2/smart_import.py].

    The tables hold the columns the import reads or writes; PEM and key columns hold
    the base64 text the code stores.  A flush fails when a [refid] is taken; then the
    whole session is rolled back. *)
From S2P Require Import Prelude Base64 Hashes AuditSink AuditLog Pki SmartParser ChainBuilder.

Module SmartImport.
Import SmartParser ChainBuilder.
Local Open Scope string_scope.
Local Open Scope list_scope.

(** * Rows *)

Record ca_row := CaRow {
  a_id : Z; a_refid : string; a_descr : string; a_caref : option string;
  a_crt : string; a_prv : option string; a_subject : option string; a_issuer : option string;
  a_serial_number : option string; a_ski : option string;
  a_valid_from : option Z; a_valid_to : option Z;
  a_imported_from : option string; a_created_by : option string;
}.
Record cert_row := CertRow {
  r_id : Z; r_refid : string; r_descr : string; r_caref : option string;
  r_crt : option string; r_csr : option string; r_prv : option string;
  r_subject : option string; r_subject_cn : option string; r_issuer : option string;
  r_serial_number : option string; r_aki : option string; r_ski : option string;
  r_valid_from : option Z; r_valid_to : option Z;
  r_san_dns : option (list string); r_san_ip : option (list string); r_created_by : option string;
}.
Record db := Db { cas : list ca_row; certs : list cert_row; audit : list AuditLog.log }.

Definition ca_by_ski (k : string) (d : db) : option ca_row :=
  Table.first (fun a => bool_decide (a_ski a = Some k)) (cas d).
Definition ca_by_serial (s : string) (d : db) : option ca_row :=
  Table.first (fun a => bool_decide (a_serial_number a = Some s)) (cas d).
Definition ca_by_subject (s : string) (d : db) : option ca_row :=
  Table.first (fun a => bool_decide (a_subject a = Some s)) (cas d).
Definition cert_by_serial (s : string) (d : db) : option cert_row :=
  Table.first (fun c => bool_decide (r_serial_number c = Some s)) (certs d).

(** [CA.common_name]: [_extract_dn_field(subject, 'CN')] *)
Definition extract_dn_field (prefixes : list string) (dn : string) : string :=
  default "" (head (omap (fun part =>
    let part := Str.strip part in
    match List.find (Str.startswith part) prefixes with
    | Some p => Some (Str.drop (String.length p) part)
    | None => None
    end) (Str.split "," dn))).
Definition common_name (a : ca_row) : string :=
  match a_subject a with
  | Some s => if Str.truthy s then extract_dn_field ["CN="; "commonName="] s else ""
  | None => ""
  end.

(** * Validation *)

Record ValidationResult := Validation {
  is_valid : bool; errors : list string; warnings : list string; infos : list string;
}.
Definition no_result : ValidationResult := Validation true [] [] [].
Definition add_error (m : string) (r : ValidationResult) : ValidationResult :=
  Validation false (errors r ++ [m]) (warnings r) (infos r).
Definition add_warning (m : string) (r : ValidationResult) : ValidationResult :=
  Validation (is_valid r) (errors r) (warnings r ++ [m]) (infos r).
Definition add_info (m : string) (r : ValidationResult) : ValidationResult :=
  Validation (is_valid r) (errors r) (warnings r) (infos r ++ [m]).

(** The validator's [_get_cn]. *)
Definition display_cn (subject : string) : string :=
  if negb (Str.truthy subject) then "Unknown"
  else match Pki.cn_of_subject subject with
  | Some cn => cn
  | None => if (30 <? String.length subject)%nat then Str.take 30 subject ^+ "..." else subject
  end.
Definition iso (t : Z) : string := Time.isoformat "T" t ^+ "+00:00".

Definition check_duplicate_cert (o : ParsedObject) (d : db) : option Z :=
  match cert_by_serial (p_serial_number o) d with
  | Some c => Some (r_id c)
  | None => a_id <$> ca_by_serial (p_serial_number o) d
  end.

Definition weak_rsa (o : ParsedObject) : bool :=
  String.eqb (p_key_algorithm o) "RSA" && (p_key_size o <? 2048)%Z.
Definition expiry_warning (now : Z) (o : ParsedObject) : list string :=
  match p_not_after o with
  | None => []
  | Some e =>
      if (e <? now)%Z
      then ["Certificate '" ^+ display_cn (p_subject o) ^+ "' is expired (expired " ^+ iso e ^+ ")"]
      else if (Time.delta_days (e - now) <? 30)%Z
      then ["Certificate '" ^+ display_cn (p_subject o) ^+ "' expires in "
              ^+ Num.str (Time.delta_days (e - now)) ^+ " days"]
      else []
  end.
Definition early_warning (now : Z) (o : ParsedObject) : list string :=
  match p_not_before o with
  | Some b => if (now <? b)%Z
              then ["Certificate '" ^+ display_cn (p_subject o) ^+ "' is not yet valid (valid from "
                      ^+ iso b ^+ ")"]
              else []
  | None => []
  end.
Definition validate_certificate (o : ParsedObject) (check_duplicates : bool) (now : Z) (d : db)
    (r : ValidationResult) : ValidationResult :=
  let ws := expiry_warning now o ++ early_warning now o
    ++ (if weak_rsa o then ["Certificate '" ^+ display_cn (p_subject o) ^+ "' uses weak RSA key ("
                              ^+ Num.str (p_key_size o) ^+ " bits)"] else [])
    ++ (if check_duplicates then
          match check_duplicate_cert o d with
          | Some id => if (id =? 0)%Z then []
                       else ["Certificate '" ^+ display_cn (p_subject o)
                               ^+ "' already exists in database (ID: " ^+ Num.str id ^+ ")"]
          | None => []
          end
        else []) in
  fold_left (fun r m => add_warning m r) ws r.
Definition validate_key (o : ParsedObject) (r : ValidationResult) : ValidationResult :=
  let r := if p_is_encrypted o && String.eqb (p_key_algorithm o) "unknown (encrypted)"
           then add_error "Private key is encrypted and no password was provided" r else r in
  if weak_rsa o then add_warning ("Private key uses weak RSA (" ^+ Num.str (p_key_size o) ^+ " bits)") r
  else r.

(** Rows of the trust store's table: name, PEM text, subject. *)
Record trusted := Trusted { t_name : string; t_pem : string; t_subject : option string }.

(** SQLite's LIKE. *)
Fixpoint like (p s : string) : bool :=
  match p with
  | EmptyString => negb (Str.truthy s)
  | String c p' =>
      if Ascii.eqb c "%" then
        (fix any (s : string) : bool :=
           like p' s || match s with String _ s' => any s' | EmptyString => false end) s
      else match s with
      | String d s' => (Ascii.eqb c "_" || Ascii.eqb (Str.lower1 c) (Str.lower1 d)) && like p' s'
      | EmptyString => false
      end
  end.

Section Import.
Context `{Loader}.

Definition validate_csr (o : ParsedObject) (r : ValidationResult) : ValidationResult :=
  let r := if weak_rsa o then add_warning ("CSR '" ^+ display_cn (p_subject o) ^+ "' uses weak RSA key ("
                                             ^+ Num.str (p_key_size o) ^+ " bits)") r else r in
  match load_pem_csr (p_raw_pem o) with
  | inl q => if xq_signature_valid q then r
             else add_error ("CSR '" ^+ display_cn (p_subject o) ^+ "' has invalid signature") r
  | inr e => add_error ("Failed to validate CSR: " ^+ e) r
  end.
Definition validate_object (check_duplicates : bool) (now : Z) (d : db) (r : ValidationResult)
    (o : ParsedObject) : ValidationResult :=
  match p_type o with
  | CERTIFICATE => validate_certificate o check_duplicates now d r
  | PRIVATE_KEY => validate_key o r
  | CSR => validate_csr o r
  | PUBLIC_KEY | UNKNOWN => r
  end.

(** One candidate of the trust store: its key identifier, then its signature. *)
Definition trust_match (o : ParsedObject) (t : trusted) : bool :=
  match load_pem_certificate (t_pem t) with
  | inr _ => false
  | inl tc =>
      let signed :=
        Str.truthy (p_raw_pem o) &&
        match load_pem_certificate (p_raw_pem o) with
        | inl c => match verify_signature c tc with None => true | Some _ => false end
        | inr _ => false
        end in
      if otruthy (p_aki o) then
        match xc_extensions tc with
        | None => false
        | Some x => match e_ski x with
                    | Some b => if bool_decide (Some (hex "" b) = p_aki o) then true else signed
                    | None => signed
                    end
        end
      else signed
  end.
(** [_find_in_trust_store]; [None] is a database that cannot be read. *)
Definition find_in_trust_store (store : option (list trusted)) (o : ParsedObject) : option string :=
  rows ← store;
  let exact := Table.all (fun t => bool_decide (t_subject t = Some (p_issuer o))) rows in
  let pat := "%" ^+ display_cn (p_issuer o) ^+ "%" in
  let rows := match exact with
              | [] => Table.all (fun t => like pat (t_name t) || match t_subject t with Some s => like pat s | None => false end) rows
              | _ => exact
              end in
  t_name <$> List.find (trust_match o) rows.

Definition set_trust (complete : bool) (source anchor : option string) (c : ChainInfo) : ChainInfo :=
  Chain (ch_root c) (ch_intermediates c) (ch_leaf c) complete (ch_is_valid c) (ch_errors c) source anchor.
(** [_validate_chain]: the chain with its trust source, and the messages. *)
Definition trust_chain (objs : list ParsedObject) (d : db) (ts : option (list trusted)) (c : ChainInfo)
    (r : ValidationResult) : ChainInfo * ValidationResult :=
  let '(c, r) :=
    if ch_is_complete c then
      (set_trust true (Some "self_contained")
         (i ← ch_root c; o ← objs !! i; Some (display_cn (p_subject o))) c, r)
    else match (i ← ch_leaf c; objs !! i) with
    | None => (c, r)
    | Some leaf =>
        let top := default leaf (i ← last (ch_intermediates c); objs !! i) in
        let existing := match (if otruthy (p_aki top) then p_aki top ≫= (fun k => ca_by_ski k d) else None) with
                        | Some a => Some a
                        | None => ca_by_subject (p_issuer top) d
                        end in
        let who := "Chain for '" ^+ display_cn (p_subject leaf) ^+ "'" in
        match existing with
        | Some a =>
            (set_trust false (Some "managed_ca") (Some (common_name a)) c,
             add_info (who ^+ " will be linked to existing CA '" ^+ common_name a ^+ "'") r)
        | None =>
            match find_in_trust_store ts top with
            | Some name =>
                (set_trust true (Some "trust_store") (Some name) c,
                 add_info (who ^+ " verified against Trust Store CA '" ^+ name ^+ "'") r)
            | None =>
                (set_trust false None None c,
                 add_warning (who ^+ " is incomplete - issuing CA not found in managed CAs or Trust Store") r)
            end
        end
    end in
  (c, fold_left (fun r e => add_error e r) (ch_errors c) r).
Definition validate_all (objs : list ParsedObject) (chains : list ChainInfo) (check_duplicates : bool) (now : Z)
    (d : db) (ts : option (list trusted)) : list ChainInfo * ValidationResult :=
  fold_left (fun '(cs, r) c => let '(c, r) := trust_chain objs d ts c r in (cs ++ [c], r)) chains
    ([], fold_left (validate_object check_duplicates now d) objs no_result).

(** The numbers of [SmartImporter.analyze]'s summary. *)
Record summary := Summary {
  total_objects : nat; certificates : nat; authorities : nat; private_keys : nat; csrs : nat;
  matched_key_pairs : nat; orphans : nat; chains_complete : nat; chains_incomplete : nat;
  valid : bool; error_count : nat; warning_count : nat;
}.
Definition analyze (objects : list ParsedObject) (now : Z) (d : db) (ts : option (list trusted))
  : option (list ParsedObject * list ChainInfo * matching * ValidationResult * summary) :=
  '(objs, chains) ← build_chains objects;
  let '(objs, m) := match_all objs in
  let '(chains, v) := validate_all objs chains true now d ts in
  let is_ca o := is_cert o && p_is_ca o in
  Some (objs, chains, m, v,
        Summary (length objs) (Table.count is_cert objs - Table.count is_ca objs) (Table.count is_ca objs)
          (Table.count (is_type PRIVATE_KEY) objs) (Table.count (is_type CSR) objs)
          (length (matched_pairs m)) (length (orphan_keys m))
          (Table.count ch_is_complete chains) (Table.count (fun c => negb (ch_is_complete c)) chains)
          (is_valid v) (length (errors v)) (length (warnings v))).

(** * Import *)

Record ImportResult := Result {
  i_success : bool;
  i_certificates : nat; i_cas : nat; i_keys_matched : nat; i_csrs : nat;
  i_errors : list string; i_warnings : list string;
  i_cert_ids : list Z; i_ca_ids : list Z; i_csr_ids : list Z;
}.
Definition fresh_result : ImportResult := Result true 0 0 0 0 [] [] [] [] [].
Definition skip_warning (m : string) (r : ImportResult) : ImportResult :=
  Result (i_success r) (i_certificates r) (i_cas r) (i_keys_matched r) (i_csrs r) (i_errors r)
    (i_warnings r ++ [m]) (i_cert_ids r) (i_ca_ids r) (i_csr_ids r).
Definition count_key (prv : option string) (r : ImportResult) : ImportResult :=
  Result (i_success r) (i_certificates r) (i_cas r)
    (match prv with Some _ => S (i_keys_matched r) | None => i_keys_matched r end) (i_csrs r)
    (i_errors r) (i_warnings r) (i_cert_ids r) (i_ca_ids r) (i_csr_ids r).
Definition count_ca (id : Z) (r : ImportResult) : ImportResult :=
  Result (i_success r) (i_certificates r) (S (i_cas r)) (i_keys_matched r) (i_csrs r) (i_errors r)
    (i_warnings r) (i_cert_ids r) (i_ca_ids r ++ [id]) (i_csr_ids r).
Definition count_cert (id : Z) (r : ImportResult) : ImportResult :=
  Result (i_success r) (S (i_certificates r)) (i_cas r) (i_keys_matched r) (i_csrs r) (i_errors r)
    (i_warnings r) (i_cert_ids r ++ [id]) (i_ca_ids r) (i_csr_ids r).
Definition count_csr (id : Z) (r : ImportResult) : ImportResult :=
  Result (i_success r) (i_certificates r) (i_cas r) (i_keys_matched r) (S (i_csrs r)) (i_errors r)
    (i_warnings r) (i_cert_ids r) (i_ca_ids r) (i_csr_ids r ++ [id]).
Definition import_failed (e : string) (r : ImportResult) : ImportResult :=
  Result false (i_certificates r) (i_cas r) (i_keys_matched r) (i_csrs r)
    (i_errors r ++ ["Import failed: " ^+ e]) (i_warnings r) (i_cert_ids r) (i_ca_ids r) (i_csr_ids r).

(** The importer's [_get_cn]. *)
Definition get_cn (subject : string) : string :=
  if Str.truthy subject then default "Unknown" (Pki.cn_of_subject subject) else "Unknown".
Definition named (cn : string) : bool := Str.truthy cn && negb (String.eqb cn "Unknown").

(** [_log_audit]: a row without hashes. *)
Definition log_audit (action resource_type : string) (id : Z) (name username : string) (now : Z)
    (d : db) : db :=
  Db (cas d) (certs d)
    (audit d ++ [AuditLog.Log (Table.next_id AuditLog.l_id (audit d)) now (Some username) action
                   (Some resource_type) (Some (Num.str id)) (Some name) None None None true None None]).

(** [session.add] and [flush]; [None] is the IntegrityError of a taken [refid]. *)
Definition add_ca (a : ca_row) (d : db) : option db :=
  if existsb (fun b => String.eqb (a_refid b) (a_refid a)) (cas d) then None
  else Some (Db (cas d ++ [a]) (certs d) (audit d)).
Definition add_cert (c : cert_row) (d : db) : option db :=
  if existsb (fun b => String.eqb (r_refid b) (r_refid c)) (certs d) then None
  else Some (Db (cas d) (certs d ++ [c]) (audit d)).

(** The key of the first pair whose other member equals the object. *)
Definition matched_key (objs : list ParsedObject) (pairs : list (nat * nat)) (o : ParsedObject) : option string :=
  match List.find (fun p => bool_decide (objs !! p.2 = Some o)) pairs with
  | Some p => (fun k => Base64.b64encode (p_raw_pem k)) <$> objs !! p.1
  | None => None
  end.

(** [CA.query.filter_by(ski=aki)], then [CA.subject == issuer] *)
Definition find_parent (o : ParsedObject) (d : db) : option string :=
  let by_aki := if otruthy (p_aki o)
                then a_refid <$> (p_aki o ≫= (fun k => ca_by_ski k d)) else None in
  if otruthy by_aki then by_aki else a_refid <$> ca_by_subject (p_issuer o) d.

Context (token_hex token_urlsafe : nat -> string) (username : string) (now : Z) (skip_duplicates : bool).

(** The database, the result and the number of random tokens drawn. *)
Record state := State { st_db : db; st_res : ImportResult; st_draws : nat }.
(** [subject_to_refid] and [ski_to_refid] *)
Record refids := Refids { by_subject_refid : gmap string string; by_ski_refid : gmap string string }.

Definition note_refid (subject : string) (ski : option string) (refid : string) (m : refids) : refids :=
  Refids (<[subject := refid]> (by_subject_refid m))
    (match ski with
     | Some k => if Str.truthy k then <[k := refid]> (by_ski_refid m) else by_ski_refid m
     | None => by_ski_refid m
     end).

Definition existing_ca (o : ParsedObject) (d : db) : option ca_row :=
  match (if otruthy (p_ski o) then p_ski o ≫= (fun k => ca_by_ski k d) else None) with
  | Some a => Some a
  | None => if Str.truthy (p_serial_number o) then ca_by_serial (p_serial_number o) d else None
  end.

(** The parent of a CA: the CAs of this import first, by each criterion. *)
Definition parent_refid (o : ParsedObject) (m : refids) (d : db) : option string :=
  if p_is_self_signed o then None
  else
    let c1 := if otruthy (p_aki o) then
                let k := default "" (p_aki o) in
                let c := by_ski_refid m !! k in
                if otruthy c then c
                else match ca_by_ski k d with Some a => Some (a_refid a) | None => c end
              else None in
    let c2 := if otruthy c1 then c1 else by_subject_refid m !! p_issuer o in
    if otruthy c2 then c2
    else match ca_by_subject (p_issuer o) d with Some a => Some (a_refid a) | None => c2 end.

Definition import_ca (objs : list ParsedObject) (pairs : list (nat * nat)) (x : state * refids) (o : ParsedObject)
  : (state * refids) + ImportResult :=
  let '(State d r n, m) := x in
  match (if skip_duplicates then existing_ca o d else None) with
  | Some a =>
      inl (State d (skip_warning ("Skipped duplicate CA: " ^+ get_cn (p_subject o)) r) n,
            let m := note_refid (p_subject o) None (a_refid a) m in
            match a_ski a with
            | Some k => if Str.truthy k then Refids (by_subject_refid m) (<[k := a_refid a]> (by_ski_refid m)) else m
            | None => m
            end)
  | None =>
      let caref := parent_refid o m d in
      let prv := matched_key objs pairs o in
      let refid := token_hex n in
      let id := Table.next_id a_id (cas d) in
      let descr := get_cn (p_subject o) in
      match add_ca (CaRow id refid descr caref (Base64.b64encode (p_raw_pem o)) prv (Some (p_subject o))
                      (Some (p_issuer o)) (Some (p_serial_number o)) (p_ski o) (p_not_before o)
                      (p_not_after o) (Some "smart_import") (Some username)) d with
      | Some d =>
          inl (State (log_audit "import_ca" "ca" id descr username now d) (count_ca id (count_key prv r)) (S n),
               note_refid (p_subject o) (p_ski o) refid m)
      | None => inr (count_key prv r)
      end
  end.

Definition import_cert (objs : list ParsedObject) (pairs : list (nat * nat)) (x : state) (o : ParsedObject)
  : state + ImportResult :=
  let '(State d r n) := x in
  match (if skip_duplicates then cert_by_serial (p_serial_number o) d else None) with
  | Some _ => inl (State d (skip_warning ("Skipped duplicate certificate: " ^+ get_cn (p_subject o)) r) n)
  | None =>
      let caref := find_parent o d in
      let prv := matched_key objs pairs o in
      let cn := get_cn (p_subject o) in
      let cn := if named cn then Some cn else head (p_san_dns o) in
      let descr := if otruthy cn then default "" cn else "Certificate" in
      let id := Table.next_id r_id (certs d) in
      match add_cert (CertRow id (token_urlsafe n) descr caref (Some (Base64.b64encode (p_raw_pem o))) None prv
                        (Some (p_subject o)) cn (Some (p_issuer o)) (Some (p_serial_number o)) (p_aki o)
                        (p_ski o) (p_not_before o) (p_not_after o)
                        (Pki.store_list (p_san_dns o) None) (Pki.store_list (p_san_ip o) None)
                        (Some username)) d with
      | Some d =>
          inl (State (log_audit "import_certificate" "certificate" id descr username now d)
                 (count_cert id (count_key prv r)) (S n))
      | None => inr (count_key prv r)
      end
  end.

Definition import_csr (objs : list ParsedObject) (pairs : list (nat * nat)) (x : state) (o : ParsedObject)
  : state + ImportResult :=
  let '(State d r n) := x in
  let cn := get_cn (p_subject o) in
  let cn := if named cn then cn else default "CSR" (head (p_san_dns o)) in
  let prv := matched_key objs (List.map (fun p => (p.2, p.1)) pairs) o in
  let id := Table.next_id r_id (certs d) in
  match add_cert (CertRow id (token_urlsafe n) cn None None (Some (Base64.b64encode (p_raw_pem o))) prv
                    (Some (p_subject o)) (Some cn) None None None None None None
                    (Pki.store_list (p_san_dns o) None) (Pki.store_list (p_san_ip o) None)
                    (Some username)) d with
  | Some d =>
      inl (State (log_audit "import_csr" "certificate" id cn username now d) (count_csr id (count_key prv r)) (S n))
  | None => inr (count_key prv r)
  end.

(** A loop whose body may raise. *)
Fixpoint each {A B E} (f : B -> A -> B + E) (x : B) (l : list A) : B + E :=
  match l with
  | [] => inl x
  | a :: l' => match f x a with inl x => each f x l' | inr e => inr e end
  end.

(** The CAs in the order of the import: by decreasing depth. *)
Definition ca_objects (objs : list ParsedObject) : list ParsedObject :=
  Table.order_by (fun o => - Z.of_nat (p_chain_depth o))%Z
    (Table.all (fun o => is_cert o && p_is_ca o) objs).
Definition import_cas (objs : list ParsedObject) (pairs : list (nat * nat)) (x : state) : state + ImportResult :=
  match each (import_ca objs pairs) (x, Refids ∅ ∅) (ca_objects objs) with
  | inl (x, _) => inl x
  | inr r => inr r
  end.
Definition import_certificates (objs : list ParsedObject) (pairs : list (nat * nat)) (x : state) : state + ImportResult :=
  each (import_cert objs pairs) x (Table.all is_leaf objs).
Definition import_csrs (objs : list ParsedObject) (pairs : list (nat * nat)) (x : state) : state + ImportResult :=
  each (import_csr objs pairs) x (Table.all (is_type CSR) objs).

Record options := Options { import_cas_opt : bool; import_certs_opt : bool; import_csrs_opt : bool }.

(** One phase of the import, when its option is set. *)
Definition phase (on : bool) (f : state -> state + ImportResult) (x : state + ImportResult)
  : state + ImportResult :=
  match x with
  | inl x => if on then f x else inl x
  | inr r => inr r
  end.
(** What [execute] does inside its [try]; [inr] is an exception, with the result as it
    was then.  [objects] is what the parser returned, [None] when it raised. *)
Definition execute_try (opt : options) (objects : option (list ParsedObject)) (x : state) : state + ImportResult :=
  match (objs ← objects; build_chains objs) with
  | None => inr (st_res x)
  | Some (objs, _) =>
      let '(objs, m) := match_all objs in
      phase (import_csrs_opt opt) (import_csrs objs (csr_key_pairs m))
        (phase (import_certs_opt opt) (import_certificates objs (matched_pairs m))
           (phase (import_cas_opt opt) (import_cas objs (matched_pairs m)) (inl x)))
  end.
(** [SmartImporter.execute]: commit, or roll the session back. *)
Definition execute (opt : options) (objects : option (list ParsedObject)) (n : nat) (db_error : string) (d : db)
  : db * ImportResult :=
  match execute_try opt objects (State d fresh_result n) with
  | inl (State d' r _) => (d', r)
  | inr r => (d, import_failed db_error r)
  end.

End Import.

(** * [POST /api/v2/import/execute] *)

Inductive reply := BadRequest (message : string) | Imported (r : ImportResult) | Crashed.

(** A password that is not a text makes the parser raise when it is truthy. *)
Definition json_password (j : json) : option (option string) :=
  match j with
  | JStr s => Some (Some s)
  | _ => if Json.truthy j then None else Some None
  end.
Definition json_options (j : json) : option (options * bool) :=
  if negb (Json.truthy j) then Some (Options true true true, true)
  else match j with
  | JDict _ =>
      let flag k := Json.truthy (Json.get_or k (JBool true) j) in
      Some (Options (flag "import_cas") (flag "import_certs") (flag "import_csrs"), flag "skip_duplicates")
  | _ => None
  end.

Section Api.
Context `{Loader} `{Hashes} (token_hex token_urlsafe : nat -> string).

(** [data] is the JSON body; the action is reported to the audit trail. *)
Definition execute_import (data : json) (username : string) (cx : AuditLog.context) (n : nat)
    (db_error : string) (now : Z) (d : db) : db * reply :=
  if negb (Json.truthy data) then (d, BadRequest "No data provided")
  else match data with
  | JDict _ =>
      let content := Json.get_or "content" JNull data in
      if negb (Json.truthy content) then (d, BadRequest "No content to import")
      else match json_options (Json.get_or "options" (JDict []) data) with
      | None => (d, Crashed)
      | Some (opt, skip) =>
          let objects := match content with
                         | JStr s => p ← json_password (Json.get_or "password" JNull data);
                                     Some (parse (Text s) p)
                         | _ => None
                         end in
          let '(d, r) := execute token_hex token_urlsafe username now skip opt objects n db_error d in
          let ev := Event "smart_import" (Some "import") ANone (AStr "Smart Import")
                      (AStr ("Smart import by " ^+ username ^+ ": ")) (i_success r) None in
          let logs := (AuditLog.log_action ev cx now (Table.next_id AuditLog.l_id (audit d)) true (audit d)).1 in
          (Db (cas d) (certs d) logs, Imported r)
      end
  | _ => (d, Crashed)
  end.

End Api.

End SmartImport.
