(* ===== verification/SmartImportFacts.v ===== *)
(** What an import does to the database: it keeps the tables consistent or leaves
    them alone, a second import adds nothing, and some consequences of the order in
    which authorities are imported and of how the import reports its actions. *)
From stdpp Require Import sorting.
From S2P Require Import Prelude Base64 Hashes AuditSink AuditLog AuditFacts Pki Pem SmartParser ChainBuilder ChainFacts SmartImport.

Module SmartImportFacts.
Import SmartParser ChainBuilder SmartImport.
Local Open Scope string_scope.
Local Open Scope list_scope.

(** * Loops that may raise *)

Lemma each_inv {A B E} (P : B -> Prop) (f : B -> A -> B + E) l x x' :
  (forall a x x', In a l -> P x -> f x a = inl x' -> P x') -> P x -> each f x l = inl x' -> P x'.
Proof.
  revert x. induction l as [|a l IH]; intros x Hf Hx; cbn [each]; [by intros [= <-]|].
  destruct (f x a) as [y|] eqn:E1; [|done]. apply IH.
  - intros b z z' Hb. apply Hf. by right.
  - eapply Hf; [by left|exact Hx|exact E1].
Qed.

(** What one element establishes and every step keeps holds of all elements. *)
Lemma each_all {A B E} (Q : A -> B -> Prop) (f : B -> A -> B + E) l x x' :
  (forall a x x', f x a = inl x' -> Q a x') -> (forall a b x x', Q a x -> f x b = inl x' -> Q a x') ->
  each f x l = inl x' -> forall a, In a l -> Q a x'.
Proof.
  intros Hnew Hkeep. revert x. induction l as [|b l IH]; intros x; cbn [each]; [done|].
  destruct (f x b) as [y|] eqn:E1; [|done]. intros He a [<-|Ha]; [|by eapply IH].
  apply (each_inv (Q b) f l y x'); [|by eapply Hnew|done]. intros c z z' _ Hq Hz. by eapply Hkeep.
Qed.

(** A loop whose steps all leave the state alone, up to what [P] says. *)
Lemma each_total {A B E} (P : B -> Prop) (f : B -> A -> B + E) l x :
  (forall a x, In a l -> P x -> exists x', f x a = inl x' /\ P x') -> P x ->
  exists x', each f x l = inl x' /\ P x'.
Proof.
  revert x. induction l as [|a l IH]; intros x Hf Hx; cbn [each]; [by exists x|].
  destruct (Hf a x (or_introl eq_refl) Hx) as (y & -> & Hy). apply IH; [|done].
  intros b z Hb. apply Hf. by right.
Qed.

(** * Rows *)

(** A text column as an identifier: NULL and the empty text identify nothing. *)
Definition ident (o : option string) : option string := s ← o; if Str.truthy s then Some s else None.

Definition has_refid (d : db) (r : string) : Prop := exists a, In a (cas d) /\ a_refid a = r.
Definition more (d d' : db) : Prop := exists a c, cas d' = cas d ++ a /\ certs d' = certs d ++ c.

(** Consistent tables: keys and references, and no identifier twice ([uniq]). *)
Record tables_ok (uniq : bool) (d : db) : Prop := {
  ok_ca_ids : NoDup (List.map a_id (cas d));
  ok_cert_ids : NoDup (List.map r_id (certs d));
  ok_ca_refids : NoDup (List.map a_refid (cas d));
  ok_cert_refids : NoDup (List.map r_refid (certs d));
  ok_ca_parents : forall a p, In a (cas d) -> a_caref a = Some p -> has_refid d p;
  ok_cert_parents : forall c p, In c (certs d) -> r_caref c = Some p -> has_refid d p;
  ok_unique : uniq = true ->
    NoDup (omap (fun a => ident (a_ski a)) (cas d)) /\
    NoDup (omap (fun a => ident (a_serial_number a)) (cas d)) /\
    NoDup (omap r_serial_number (certs d));
}.

Lemma has_refid_more d d' r : (exists l, cas d' = cas d ++ l) -> has_refid d r -> has_refid d' r.
Proof. intros [l E] (a & Hin & Ha). exists a. rewrite E. split; [apply in_or_app; by left|done]. Qed.

(** Adding a row. *)
Lemma add_ca_ok uniq d a d' :
  add_ca a d = Some d' -> a_id a = Table.next_id a_id (cas d) ->
  (forall p, a_caref a = Some p -> has_refid d p) ->
  (uniq = true -> forall b, In b (cas d) ->
     (forall s, ident (a_ski b) = Some s -> ident (a_ski a) <> Some s) /\
     (forall s, ident (a_serial_number b) = Some s -> ident (a_serial_number a) <> Some s)) ->
  tables_ok uniq d -> cas d' = cas d ++ [a] /\ tables_ok uniq d'.
Proof.
  unfold add_ca. destruct (existsb _ _) eqn:Ex; [done|]. intros [= <-] Hid Hp Hu [I1 I2 I3 I4 I5 I6 I7].
  cbn [cas certs]. split; [done|].
  assert (forall r, has_refid d r -> has_refid (Db (cas d ++ [a]) (certs d) (audit d)) r) as Hm
    by (intros r; apply has_refid_more; by eexists).
  split; cbn [cas certs]; try done.
  - apply Table.NoDup_map_snoc; [done|]. intros b Hb. apply (Table.next_id_fresh a_id) in Hb. lia.
  - apply Table.NoDup_map_snoc; [done|]. intros b Hb E.
    rewrite <-not_true_iff_false, existsb_exists in Ex. apply Ex. exists b. rewrite E. by autorewrite with ucm.
  - intros b p [Hb|[<-|[]]]%in_app_or E; apply Hm; [by eapply I5|by apply Hp].
  - intros c p Hc E. apply Hm. by eapply I6.
  - intros Hq. destruct (I7 Hq) as (J1 & J2 & J3). split; [|split; [|done]].
    + apply Table.NoDup_omap_snoc; [done|]. intros b s Hb. by apply (Hu Hq b Hb).
    + apply Table.NoDup_omap_snoc; [done|]. intros b s Hb. by apply (Hu Hq b Hb).
Qed.

Lemma add_cert_ok uniq d c d' :
  add_cert c d = Some d' -> r_id c = Table.next_id r_id (certs d) ->
  (forall p, r_caref c = Some p -> has_refid d p) ->
  (uniq = true -> forall b s, In b (certs d) -> r_serial_number b = Some s -> r_serial_number c <> Some s) ->
  tables_ok uniq d -> cas d' = cas d /\ certs d' = certs d ++ [c] /\ tables_ok uniq d'.
Proof.
  unfold add_cert. destruct (existsb _ _) eqn:Ex; [done|]. intros [= <-] Hid Hp Hu [I1 I2 I3 I4 I5 I6 I7].
  split; [done|]. split; [done|]. split; cbn [cas certs]; try done.
  - apply Table.NoDup_map_snoc; [done|]. intros b Hb. apply (Table.next_id_fresh r_id) in Hb. lia.
  - apply Table.NoDup_map_snoc; [done|]. intros b Hb E.
    rewrite <-not_true_iff_false, existsb_exists in Ex. apply Ex. exists b. rewrite E. by autorewrite with ucm.
  - intros b p [Hb|[<-|[]]]%in_app_or E; [by eapply I6|by apply Hp].
  - intros Hq. destruct (I7 Hq) as (J1 & J2 & J3). split; [done|]. split; [done|].
    apply Table.NoDup_omap_snoc; [done|]. intros b s Hb. by apply (Hu Hq b s).
Qed.

Lemma tables_ok_audit uniq d l : tables_ok uniq (Db (cas d) (certs d) l) <-> tables_ok uniq d.
Proof. split; intros [I1 I2 I3 I4 I5 I6 I7]; by split. Qed.

Section Facts.
Context `{Loader} (token_hex token_urlsafe : nat -> string) (username : string) (now : Z).

#[local] Abbreviation import_ca := (import_ca token_hex username now).
#[local] Abbreviation import_cert := (import_cert token_urlsafe username now).
#[local] Abbreviation import_csr := (import_csr token_urlsafe username now).
#[local] Abbreviation execute := (execute token_hex token_urlsafe username now).

Lemma first_None_In {A} (p : A -> bool) rows r : Table.first p rows = None -> In r rows -> p r = false.
Proof. apply Table.first_None. Qed.

(** The maps of the import point to rows. *)
Definition maps_ok (m : refids) (d : db) : Prop :=
  (forall k r, by_subject_refid m !! k = Some r -> has_refid d r) /\
  (forall k r, by_ski_refid m !! k = Some r -> has_refid d r).

Lemma parent_refid_ok o m d p : maps_ok m d -> parent_refid o m d = Some p -> has_refid d p.
Proof.
  intros [Hs Hk]. unfold parent_refid. destruct (p_is_self_signed o); [done|].
  set (c1 := if otruthy (p_aki o) then _ else None).
  assert (forall q, c1 = Some q -> has_refid d q) as H1.
  { intros q. unfold c1. destruct (otruthy (p_aki o)); [|done].
    destruct (otruthy (by_ski_refid m !! _)); [apply Hk|].
    destruct (ca_by_ski _ d) as [a|] eqn:E; [|apply Hk]. intros [= <-]. exists a. by apply Table.first_Some in E as [Hin _]. }
  set (c2 := if otruthy c1 then c1 else _).
  assert (forall q, c2 = Some q -> has_refid d q) as H2
    by (intros q; unfold c2; destruct (otruthy c1); [apply H1|apply Hs]).
  destruct (otruthy c2); [apply H2|]. destruct (ca_by_subject _ d) as [a|] eqn:E; [|apply H2].
  intros [= <-]. exists a. by apply Table.first_Some in E as [Hin _].
Qed.

Lemma find_parent_ok o d p : find_parent o d = Some p -> has_refid d p.
Proof.
  unfold find_parent. set (b := if otruthy (p_aki o) then _ else None). destruct (otruthy b).
  - unfold b. destruct (otruthy (p_aki o)); [|done]. destruct (p_aki o) as [k|]; [|done]. cbn.
    destruct (ca_by_ski k d) as [a|] eqn:E; [|done]. intros [= <-]. exists a. by apply Table.first_Some in E as [Hin _].
  - destruct (ca_by_subject _ d) as [a|] eqn:E; [|done]. intros [= <-]. exists a. by apply Table.first_Some in E as [Hin _].
Qed.

(** A CA that is not known has identifiers no row has. *)
Lemma unknown_ca o d b :
  existing_ca o d = None -> In b (cas d) ->
  (forall s, ident (a_ski b) = Some s -> ident (p_ski o) <> Some s) /\
  (forall s, ident (a_serial_number b) = Some s -> ident (Some (p_serial_number o)) <> Some s).
Proof.
  intros He Hb. unfold existing_ca in He.
  assert (forall (x : option string) s, ident x = Some s -> x = Some s /\ Str.truthy s = true) as Hi.
  { intros [t|] s; [|done]. unfold ident. cbn. destruct (Str.truthy t) eqn:E; [|done]. by intros [= <-]. }
  split; intros s [Es Ht]%Hi [Es' _]%Hi.
  - assert (otruthy (p_ski o) = true) as E by (by rewrite Es'). rewrite E, Es' in He. cbn in He.
    destruct (ca_by_ski s d) as [a|] eqn:Ef; [done|]. clear He.
    apply (first_None_In _ _ _ Ef) in Hb. by apply bool_decide_eq_false in Hb.
  - injection Es' as Es'. destruct (if otruthy (p_ski o) then _ else None); [done|].
    rewrite Es', Ht in He. apply (first_None_In _ _ _ He) in Hb. by apply bool_decide_eq_false in Hb.
Qed.

Definition good_state (skip : bool) (x : state) : Prop := tables_ok skip (st_db x).
Definition good_ca_state (skip : bool) (x : state * refids) : Prop :=
  good_state skip x.1 /\ maps_ok x.2 (st_db x.1).

Lemma import_ca_ok skip objs pairs o x x' :
  import_ca skip objs pairs x o = inl x' -> good_ca_state skip x -> good_ca_state skip x'.
Proof.
  destruct x as [[d r n] m]. unfold SmartImport.import_ca.
  destruct (if skip then existing_ca o d else None) as [a|] eqn:Ee.
  - intros [= <-] [Hd [Hm1 Hm2]]. split; [done|]. cbn [fst snd st_db] in *.
    assert (has_refid d (a_refid a)) as Ha.
    { destruct skip; [|done]. exists a. split; [|done]. unfold existing_ca in Ee.
      destruct (if otruthy (p_ski o) then _ else None) as [b|] eqn:E.
      - injection Ee as ->. destruct (otruthy (p_ski o)); [|done]. destruct (p_ski o); [|done].
        by apply Table.first_Some in E as [? _].
      - destruct (Str.truthy _); [|done]. by apply Table.first_Some in Ee as [? _]. }
    assert (forall k r, (<[p_subject o:=a_refid a]> (by_subject_refid m)) !! k = Some r -> has_refid d r) as H1
      by (intros k s [[_ <-]|[_ Hk]]%lookup_insert_Some; [done|by eapply Hm1]).
    destruct (a_ski a) as [k|]; [destruct (Str.truthy k)|]; split; cbn; try done.
    intros k' s [[_ <-]|[_ Hk]]%lookup_insert_Some; [done|by eapply Hm2].
  - destruct (add_ca _ d) as [d'|] eqn:Ea; [|done]. intros [= <-] [Hd Hm]. cbn [fst snd st_db] in *.
    eapply add_ca_ok in Ea as [Ec Hd']; [|done| | |exact Hd].
    + assert (forall q, has_refid d q -> has_refid d' q) as Hmore
        by (intros q; apply has_refid_more; by eexists).
      assert (has_refid d' (token_hex n)) as Hnew.
      { eexists. rewrite Ec. split; [apply in_or_app; right; by left|done]. }
      split; [by apply tables_ok_audit|]. destruct Hm as [Hm1 Hm2]. unfold note_refid.
      cbn [fst snd st_db]. split; cbn [by_subject_refid by_ski_refid].
      * intros k s [[_ <-]|[_ Hk]]%lookup_insert_Some; [done|]. by apply Hmore, (Hm1 k).
      * intros k s. destruct (p_ski o) as [k'|]; [destruct (Str.truthy k')|]; try (intros Hk; by apply Hmore, (Hm2 k)).
        intros [[_ <-]|[_ Hk]]%lookup_insert_Some; [done|]. by apply Hmore, (Hm2 k).
    + intros p Hp. cbn [a_caref] in Hp. by eapply parent_refid_ok.
    + intros -> b Hb. cbn [a_ski a_serial_number]. by apply (unknown_ca o d b).
Qed.

Lemma import_cert_ok skip objs pairs o x x' :
  import_cert skip objs pairs x o = inl x' -> good_state skip x -> good_state skip x'.
Proof.
  destruct x as [d r n]. unfold SmartImport.import_cert.
  destruct (if skip then cert_by_serial (p_serial_number o) d else None) as [c|] eqn:Ee; [by intros [= <-]|].
  destruct (add_cert _ d) as [d'|] eqn:Ea; [|done]. intros [= <-] Hd.
  eapply add_cert_ok in Ea as (Ec & _ & Hd'); [|done| | |exact Hd].
  - by apply tables_ok_audit.
  - intros p Hp. cbn [r_caref] in Hp. by eapply find_parent_ok.
  - intros -> b s Hb E E'. cbn [r_serial_number] in E'. injection E' as <-.
    apply (Table.first_None _ _ _ Ee) in Hb. by apply bool_decide_eq_false in Hb.
Qed.

Lemma import_csr_ok skip objs pairs o x x' :
  import_csr objs pairs x o = inl x' -> good_state skip x -> good_state skip x'.
Proof.
  destruct x as [d r n]. unfold SmartImport.import_csr.
  destruct (add_cert _ d) as [d'|] eqn:Ea; [|done]. intros [= <-] Hd.
  eapply add_cert_ok in Ea as (Ec & _ & Hd'); [by apply tables_ok_audit|done|done|done|exact Hd].
Qed.

(** What every step keeps, the whole import keeps; [P'] says more about the loop over
    the authorities. *)
Lemma execute_try_inv (P : state -> Prop) (P' : state * refids -> Prop) skip opt objects x x' :
  (forall y, P y -> P' (y, Refids ∅ ∅)) -> (forall y, P' y -> P y.1) ->
  (forall objs pairs o y y', import_ca skip objs pairs y o = inl y' -> P' y -> P' y') ->
  (forall objs pairs o y y', import_cert skip objs pairs y o = inl y' -> P y -> P y') ->
  (forall objs pairs o y y', import_csr objs pairs y o = inl y' -> P y -> P y') ->
  execute_try token_hex token_urlsafe username now skip opt objects x = inl x' -> P x -> P x'.
Proof.
  intros Hin Hout Hca Hcert Hcsr. unfold execute_try. destruct (_ ≫= _) as [[objs chains]|]; [|done].
  destruct (match_all objs) as [objs' m].
  assert (forall on f y y', phase on f (inl y) = inl y' -> (forall z z', f z = inl z' -> P z -> P z') -> P y -> P y') as Hphase.
  { intros [] f y y' E Hf Hy; cbn in E; [by eapply Hf|by injection E as <-]. }
  set (x1 := phase (import_cas_opt opt) _ _). set (x2 := phase (import_certs_opt opt) _ x1).
  intros E3 Hx. destruct x2 as [z|] eqn:E2; [|done]. unfold x2 in E2. destruct x1 as [y|] eqn:E1; [|done].
  assert (P y) as Hy.
  { eapply (Hphase _ _ _ _ E1); [|done]. intros z1 z2. unfold import_cas.
    destruct (each _ _ _) as [[z3 m3]|] eqn:E; [|done]. intros [= <-] Hz1. apply (Hout (z3, m3)).
    eapply (each_inv P'); [|by apply Hin|exact E]. intros o a1 a2 _ Ha Hb. by eapply Hca. }
  assert (P z) as Hz.
  { eapply (Hphase _ _ _ _ E2); [|done]. intros z1 z2 E Hz1. eapply (each_inv P); [|exact Hz1|exact E].
    intros o a1 a2 _ Ha Hb. by eapply Hcert. }
  eapply (Hphase _ _ _ _ E3); [|done]. intros z1 z2 E Hz1. eapply (each_inv P); [|exact Hz1|exact E].
  intros o a1 a2 _ Ha Hb. by eapply Hcsr.
Qed.

(** An import keeps the tables consistent, whatever is imported and however it ends:
    primary keys and references stay unique, every parent reference names an existing
    authority, and with duplicates skipped no key identifier and no serial number occurs
    twice if none did before. *)
Theorem import_keeps_tables skip opt objects n e d :
  tables_ok skip d -> tables_ok skip (execute skip opt objects n e d).1.
Proof.
  intros Hd. unfold SmartImport.execute. destruct (execute_try _ _ _ _ _ _ _ _) as [[d' r n']|] eqn:E; [|done].
  apply (execute_try_inv (good_state skip) (good_ca_state skip)) in E; [done|..|done].
  - intros y Hy. split; [done|]. split; intros k q; cbn [snd by_subject_refid by_ski_refid]; by rewrite lookup_empty.
  - by intros y [Hy _].
  - intros. by eapply import_ca_ok.
  - intros. by eapply import_cert_ok.
  - intros. by eapply import_csr_ok.
Qed.

(** * A second import *)

Definition covered_ca (o : ParsedObject) (d : db) : Prop := is_Some (existing_ca o d).
Definition covered_cert (o : ParsedObject) (d : db) : Prop := is_Some (cert_by_serial (p_serial_number o) d).

Lemma first_more {A} (p : A -> bool) l l' : is_Some (Table.first p l) -> is_Some (Table.first p (l ++ l')).
Proof. intros [x Hx]. rewrite Table.first_app, Hx. by eexists. Qed.

Lemma covered_ca_more o d d' : more d d' -> covered_ca o d -> covered_ca o d'.
Proof.
  intros (la & lc & Ea & _). unfold covered_ca, existing_ca, ca_by_ski, ca_by_serial. rewrite Ea.
  destruct (otruthy (p_ski o)); [|destruct (Str.truthy _); [apply first_more|done]].
  destruct (p_ski o) as [k|]; cbn [mbind option_bind]; [|destruct (Str.truthy _); [apply first_more|done]].
  destruct (Table.first _ (cas d)) as [b|] eqn:E.
  - intros _. rewrite Table.first_app, E. by eexists.
  - intros Hs. rewrite Table.first_app, E. destruct (Table.first _ la); [by eexists|].
    destruct (Str.truthy _); [by apply first_more|done].
Qed.

Lemma covered_cert_more o d d' : more d d' -> covered_cert o d -> covered_cert o d'.
Proof. intros (la & lc & _ & Ec). unfold covered_cert, cert_by_serial. rewrite Ec. apply first_more. Qed.

Lemma more_refl d : more d d.
Proof. exists [], []. by rewrite !app_nil_r. Qed.
Lemma more_trans d1 d2 d3 : more d1 d2 -> more d2 d3 -> more d1 d3.
Proof. intros (a & c & Ea & Ec) (a' & c' & Ea' & Ec'). exists (a ++ a'), (c ++ c'). by rewrite Ea', Ec', Ea, Ec, !app_assoc. Qed.

Lemma add_ca_more a d d' : add_ca a d = Some d' -> cas d' = cas d ++ [a] /\ certs d' = certs d.
Proof. unfold add_ca. destruct (existsb _ _); [done|]. by intros [= <-]. Qed.
Lemma add_cert_more c d d' : add_cert c d = Some d' -> cas d' = cas d /\ certs d' = certs d ++ [c].
Proof. unfold add_cert. destruct (existsb _ _); [done|]. by intros [= <-]. Qed.

(** One CA: rows are only added, and afterwards it is known. *)
Lemma import_ca_covers objs pairs o x x' :
  import_ca true objs pairs x o = inl x' ->
  more (st_db x.1) (st_db x'.1) /\ (Str.truthy (p_serial_number o) = true -> covered_ca o (st_db x'.1)).
Proof.
  destruct x as [[d r n] m]. unfold SmartImport.import_ca. destruct (existing_ca o d) as [a|] eqn:Ee.
  - intros [= <-]. split; [apply more_refl|]. by exists a.
  - destruct (add_ca _ d) as [d'|] eqn:Ea; [|done]. intros [= <-]. cbn [fst st_db].
    apply add_ca_more in Ea as [Ec Ed]. split; [eexists [_], []; cbn [log_audit cas certs]; rewrite Ec, Ed, app_nil_r; done|].
    intros Ht. unfold covered_ca, existing_ca. cbn [log_audit cas certs]. rewrite Ht.
    destruct (if otruthy (p_ski o) then _ else None); [by eexists|].
    unfold ca_by_serial. cbn [log_audit cas]. rewrite Ec, Table.first_app. destruct (Table.first _ (cas d)); [by eexists|].
    unfold Table.first. cbn [List.find a_serial_number]. rewrite bool_decide_eq_true_2 by done. by eexists.
Qed.

Lemma import_cert_covers objs pairs o x x' :
  import_cert true objs pairs x o = inl x' -> more (st_db x) (st_db x') /\ covered_cert o (st_db x').
Proof.
  destruct x as [d r n]. unfold SmartImport.import_cert. destruct (cert_by_serial _ d) as [c|] eqn:Ee.
  - intros [= <-]. split; [apply more_refl|]. by exists c.
  - destruct (add_cert _ d) as [d'|] eqn:Ea; [|done]. intros [= <-]. cbn [st_db].
    apply add_cert_more in Ea as [Ec Ed]. split; [eexists [], [_]; cbn [log_audit cas certs]; rewrite Ec, Ed, app_nil_r; done|].
    unfold covered_cert, cert_by_serial. cbn [log_audit certs]. rewrite Ed, Table.first_app.
    destruct (Table.first _ (certs d)); [by eexists|].
    unfold Table.first. cbn [List.find r_serial_number]. rewrite bool_decide_eq_true_2 by done. by eexists.
Qed.

(** A known CA or certificate is skipped. *)
Lemma import_ca_skips objs pairs o x :
  covered_ca o (st_db x.1) -> exists m w, import_ca true objs pairs x o
    = inl (State (st_db x.1) (skip_warning w (st_res x.1)) (st_draws x.1), m).
Proof. destruct x as [[d r n] m]. intros [a Ha]. unfold SmartImport.import_ca. cbn in Ha. rewrite Ha. by eexists _, _. Qed.
Lemma import_cert_skips objs pairs o x :
  covered_cert o (st_db x) -> exists w, import_cert true objs pairs x o
    = inl (State (st_db x) (skip_warning w (st_res x)) (st_draws x)).
Proof. destruct x as [d r n]. intros [c Hc]. unfold SmartImport.import_cert. cbn in Hc. rewrite Hc. by eexists. Qed.

(** The objects an import writes, after the chains and keys are worked out. *)
Definition prepared (objects : list ParsedObject) : option (list ParsedObject * matching) :=
  '(objs, _) ← build_chains objects; Some (match_all objs).

Lemma prepared_Some objects :
  exists objs m, prepared objects = Some (objs, m) /\ ChainFacts.frozen objs = ChainFacts.frozen objects.
Proof.
  destruct (ChainFacts.chains_are_sound objects) as (objs & cs & E & Hf & _).
  pose proof (ChainFacts.match_all_spec objs) as Hm. destruct (match_all objs) as [objs' m] eqn:Em.
  exists objs', m. unfold prepared. rewrite E. cbn. rewrite Em. split; [done|].
  destruct Hm as [Hm _]. congruence.
Qed.

Lemma execute_try_prepared skip opt objects objs m x :
  prepared objects = Some (objs, m) ->
  execute_try token_hex token_urlsafe username now skip opt (Some objects) x
  = phase (import_csrs_opt opt) (import_csrs token_urlsafe username now objs (csr_key_pairs m))
      (phase (import_certs_opt opt) (import_certificates token_urlsafe username now skip objs (matched_pairs m))
         (phase (import_cas_opt opt) (import_cas token_hex username now skip objs (matched_pairs m)) (inl x))).
Proof.
  unfold prepared, execute_try. cbn [mbind option_bind]. destruct (build_chains objects) as [[o cs]|]; [|done].
  cbn. by intros [= ->].
Qed.

Definition fresh_serials (objects : list ParsedObject) : Prop :=
  forall o, In o objects -> is_cert o = true -> Str.truthy (p_serial_number o) = true.

Lemma frozen_serials objs objects :
  ChainFacts.frozen objs = ChainFacts.frozen objects -> fresh_serials objects -> fresh_serials objs.
Proof.
  intros Hf Hs o Ho Hc. assert (In (ChainFacts.static o) (ChainFacts.frozen objects)) as Hin
    by (rewrite <-Hf; by apply in_map).
  apply in_map_iff in Hin as (o' & E & Hin).
  assert (p_serial_number o = p_serial_number o' /\ is_cert o = is_cert o') as [-> Ec]
    by (destruct o, o'; injection E as -> -> -> -> -> -> -> -> -> -> -> -> -> -> -> -> -> ->; done).
  apply Hs; [done|]. by rewrite <-Ec.
Qed.

Definition no_csrs : options := Options true true false.

(** After a successful import every authority and certificate of it is known. *)
Lemma import_covers objects objs m x x' :
  prepared objects = Some (objs, m) -> fresh_serials objs ->
  execute_try token_hex token_urlsafe username now true no_csrs (Some objects) x = inl x' ->
  (forall o, In o (ca_objects objs) -> covered_ca o (st_db x')) /\
  (forall o, In o (Table.all is_leaf objs) -> covered_cert o (st_db x')).
Proof.
  intros Hp Hs. rewrite (execute_try_prepared _ _ _ _ _ _ Hp). unfold phase, no_csrs. cbn [import_cas_opt import_certs_opt import_csrs_opt].
  unfold import_cas, import_certificates.
  destruct (each (import_ca true objs (matched_pairs m)) _ _) as [[y my]|] eqn:E1; [|done].
  destruct (each (import_cert true objs (matched_pairs m)) _ _) as [z|] eqn:E2; [|done]. intros [= <-].
  split.
  - intros o Ho. apply (covered_ca_more o (st_db y)).
    + eapply (each_inv (fun z => more (st_db y) (st_db z))); [|apply more_refl|exact E2].
      intros a b b' _ Hb [E _]%import_cert_covers. by eapply more_trans.
    + refine (each_all (fun a (z : state * refids) => Str.truthy (p_serial_number a) = true -> covered_ca a (st_db z.1))
        _ _ _ _ _ _ E1 o Ho _); [by intros a b b' [_ Hc]%import_ca_covers| |].
      * intros a c b b' Hq [Hm _]%import_ca_covers Ht. by eapply covered_ca_more, Hq.
      * apply Table.order_by_In, Table.In_all in Ho as [Ho [Hc _]%andb_true_iff]. by apply Hs.
  - refine (each_all (fun a (z : state) => covered_cert a (st_db z)) _ _ _ _ _ _ E2);
      [by intros a b b' [_ Hc]%import_cert_covers|].
    intros a c b b' Hq [Hm _]%import_cert_covers. by eapply covered_cert_more.
Qed.

(** Nothing was written: the database, the success flag and the two counters. *)
Definition untouched (d : db) (x : state) : Prop :=
  st_db x = d /\ i_success (st_res x) = true /\ i_cas (st_res x) = 0 /\ i_certificates (st_res x) = 0.

Lemma covered_import_untouched objects objs m n d :
  prepared objects = Some (objs, m) ->
  (forall o, In o (ca_objects objs) -> covered_ca o d) ->
  (forall o, In o (Table.all is_leaf objs) -> covered_cert o d) ->
  exists x, execute_try token_hex token_urlsafe username now true no_csrs (Some objects) (State d fresh_result n) = inl x
    /\ untouched d x.
Proof.
  intros Hp Hca Hcert. rewrite (execute_try_prepared _ _ _ _ _ _ Hp). unfold phase, no_csrs.
  cbn [import_cas_opt import_certs_opt import_csrs_opt]. unfold import_cas, import_certificates.
  destruct (each_total (fun z : state * refids => untouched d z.1) (import_ca true objs (matched_pairs m))
    (ca_objects objs) (State d fresh_result n, Refids ∅ ∅)) as ([y my] & -> & Hy); [|done|].
  - intros o z Ho (Ez & E1 & E2 & E3). destruct (import_ca_skips objs (matched_pairs m) o z) as (mm & w & ->);
      [rewrite Ez; by apply Hca|]. by eexists.
  - destruct (each_total (untouched d) (import_cert true objs (matched_pairs m)) (Table.all is_leaf objs) y)
      as (z & -> & Hz); [|done|by exists z].
    intros o z Ho (Ez & E1 & E2 & E3). destruct (import_cert_skips objs (matched_pairs m) o z) as (w & ->);
      [rewrite Ez; by apply Hcert|]. by eexists.
Qed.


(** * The rows an import adds to the audit trail *)

Definition hashless (l : AuditLog.log) : Prop := AuditLog.l_entry_hash l = None.
Definition audited (l0 : list AuditLog.log) (x : state) : Prop :=
  exists kept, audit (st_db x) = l0 ++ kept /\ Forall hashless kept.

Lemma audited_log l0 d a t i n :
  (exists kept, audit d = l0 ++ kept /\ Forall hashless kept) ->
  exists kept, audit (log_audit a t i n username now d) = l0 ++ kept /\ Forall hashless kept.
Proof.
  intros (k & E & Hk). eexists (k ++ [_]). unfold log_audit. cbn [audit]. rewrite E, <-app_assoc.
  split; [done|]. apply Forall_app. split; [done|]. by apply Forall_singleton.
Qed.

Lemma import_rows_hashless skip opt objects x x' l0 :
  execute_try token_hex token_urlsafe username now skip opt objects x = inl x' -> audited l0 x -> audited l0 x'.
Proof.
  assert (forall a d d', add_ca a d = Some d' -> audit d' = audit d) as Ha
    by (intros a d d'; unfold add_ca; destruct (existsb _ _); [done|]; by intros [= <-]).
  assert (forall a d d', add_cert a d = Some d' -> audit d' = audit d) as Hc
    by (intros a d d'; unfold add_cert; destruct (existsb _ _); [done|]; by intros [= <-]).
  apply (execute_try_inv (audited l0) (fun y => audited l0 y.1)); try done.
  - intros objs pairs o [[d r n] m] y'. unfold SmartImport.import_ca.
    destruct (if skip then _ else _); [by intros [= <-]|]. destruct (add_ca _ d) as [d'|] eqn:E; [|done].
    intros [= <-] Hd. apply audited_log. by rewrite (Ha _ _ _ E).
  - intros objs pairs o [d r n] y'. unfold SmartImport.import_cert.
    destruct (if skip then _ else _); [by intros [= <-]|]. destruct (add_cert _ d) as [d'|] eqn:E; [|done].
    intros [= <-] Hd. apply audited_log. by rewrite (Hc _ _ _ E).
  - intros objs pairs o [d r n] y'. unfold SmartImport.import_csr.
    destruct (add_cert _ d) as [d'|] eqn:E; [|done].
    intros [= <-] Hd. apply audited_log. by rewrite (Hc _ _ _ E).
Qed.

End Facts.

(** Importing the same certificates again (duplicates skipped, no requests among
    what is imported) succeeds, adds no row to any table, and reports none; the first
    import may have met any database, and the second may draw other random tokens. *)
Theorem second_import_adds_nothing `{Loader} token_hex token_urlsafe token_hex' token_urlsafe' username username'
    now now' objects n n' e e' d :
  fresh_serials objects ->
  i_success (execute token_hex token_urlsafe username now true no_csrs (Some objects) n e d).2 = true ->
  let d' := (execute token_hex token_urlsafe username now true no_csrs (Some objects) n e d).1 in
  let '(d'', r) := execute token_hex' token_urlsafe' username' now' true no_csrs (Some objects) n' e' d' in
  d'' = d' /\ i_success r = true /\ i_cas r = 0 /\ i_certificates r = 0.
Proof.
  intros Hs. unfold execute at 1 2.
  destruct (execute_try token_hex token_urlsafe username now true no_csrs (Some objects) _) as [x|] eqn:E; [|done].
  intros _. destruct x as [d' r k]. cbn [fst].
  destruct (prepared_Some objects) as (objs & m & Hp & Hf).
  destruct (import_covers _ _ _ _ _ _ _ _ _ Hp (frozen_serials _ _ Hf Hs) E) as [H1 H2].
  unfold execute. destruct (covered_import_untouched token_hex' token_urlsafe' username' now' objects objs m n' d' Hp H1 H2)
    as ([d'' r' k'] & -> & Hu). exact Hu.
Qed.

(** The rows that verification walks, when they are in the order of their ids. *)
Definition in_order (l : list AuditLog.log) : Prop :=
  StronglySorted (fun a b => (AuditLog.l_id a <= AuditLog.l_id b)%Z) l.

(** An import cuts the audit trail: it writes its rows without hashes, and
    verification starts anew behind such a row.  Whatever was logged before an import
    that wrote anything can be deleted, and the rest of the trail, with any entries
    logged since, verifies exactly as before. *)
Theorem import_hides_deletions `{Loader} `{Hashes} token_hex token_urlsafe username now skip opt objects n e d d' later :
  d' = (execute token_hex token_urlsafe username now skip opt objects n e d).1 ->
  audit d' <> audit d -> in_order (audit d' ++ later) ->
  exists kept, audit d' = audit d ++ kept /\ kept <> [] /\
    (AuditLog.v_valid (AuditLog.verify_integrity None None (audit d' ++ later)) = true ->
     AuditLog.v_valid (AuditLog.verify_integrity None None (kept ++ later)) = true).
Proof.
  unfold execute. destruct (execute_try _ _ _ _ _ _ _ _) as [[d0 r k]|] eqn:E; cbn [fst]; intros ->; [|done].
  intros Hne Hs. apply (import_rows_hashless _ _ _ _ _ _ _ _ _ (audit d)) in E as (kept & Ek & Hk);
    [|exists []; by rewrite app_nil_r]. cbn [st_db] in Ek.
  exists kept. split; [done|]. destruct kept as [|l kept]; [by rewrite Ek, app_nil_r in Hne|]. split; [done|].
  apply Forall_cons in Hk as [Hl _]. rewrite Ek, <-app_assoc in Hs |- *.
  assert (in_order ((l :: kept) ++ later)) as Hs' by (by apply StronglySorted_app_1_r in Hs).
  unfold AuditLog.verify_integrity. rewrite !AuditFacts.in_range_all, !Table.order_by_id by done.
  assert (forall p, AuditLog.verify_loop ((l :: kept) ++ later) p = AuditLog.verify_loop (kept ++ later) AuditLog.genesis) as Hcut
    by (intros p; cbn [app AuditLog.verify_loop]; by rewrite Hl).
  destruct (audit d) as [|l0 old]; [done|]. cbn [AuditLog.v_valid].
  change (match AuditLog.verify_loop ((l0 :: old) ++ (l :: kept) ++ later) AuditLog.genesis with [] => true | _ => false end
    = true -> match AuditLog.verify_loop ((l :: kept) ++ later) AuditLog.genesis with [] => true | _ => false end = true).
  rewrite AuditFacts.verify_loop_app, !Hcut. by destruct (AuditLog.verify_loop (l0 :: old) _).
Qed.

(** * Authorities without certificates *)

Definition empty_db : db := Db [] [] [].

(** The two objects after the chains are built: an import without leaves gives the
    root depth 0 and the intermediate depth 1. *)
Lemma ca_pair_prepared `{Loader} r i :
  is_root r = true -> is_intermediate i = true ->
  prepared [r; i] = Some ([set_chain "root" 0 r; set_chain "intermediate" 1 i], Matching [] [] [0; 1] []).
Proof.
  unfold is_root, is_intermediate, is_cert, is_type. rewrite !andb_true_iff, !bool_decide_eq_true, negb_true_iff.
  destruct r as [t1 ? ? ? ? ? ? ? ? ca1 ss1 ? ? ? ? ? ? ? ? ? ? ?], i as [t2 ? ? ? ? ? ? ? ? ca2 ss2 ? ? ? ? ? ? ? ? ? ? ?].
  cbn. intros [[-> ->] ->] [[-> ->] ->]. done.
Qed.

Lemma ca_pair_objects r i :
  is_root r = true -> is_intermediate i = true ->
  let l := [set_chain "root" 0 r; set_chain "intermediate" 1 i] in
  ca_objects l = [set_chain "intermediate" 1 i; set_chain "root" 0 r] /\ Table.all is_leaf l = [].
Proof.
  unfold is_root, is_intermediate, is_cert, is_type. rewrite !andb_true_iff, !bool_decide_eq_true, negb_true_iff.
  destruct r as [t1 ? ? ? ? ? ? ? ? ca1 ss1 ? ? ? ? ? ? ? ? ? ? ?], i as [t2 ? ? ? ? ? ? ? ? ca2 ss2 ? ? ? ? ? ? ? ? ? ? ?].
  cbn. intros [[-> ->] ->] [[-> ->] ->]. done.
Qed.

Lemma empty_db_knows_nothing o :
  existing_ca o empty_db = None /\ parent_refid o (Refids ∅ ∅) empty_db = None.
Proof.
  split.
  - unfold existing_ca. destruct (otruthy _), (p_ski o); cbn; by destruct (Str.truthy _).
  - unfold parent_refid. cbn [by_ski_refid by_subject_refid]. rewrite !lookup_empty.
    destruct (p_is_self_signed o); [done|]. by destruct (otruthy (p_aki o)).
Qed.

(** Another object is not the known one. *)
Lemma unknown_other o a :
  a_ski a <> p_ski o -> a_serial_number a <> Some (p_serial_number o) ->
  forall l, existing_ca o (Db [a] [] l) = None.
Proof.
  intros Hk Hs l. unfold existing_ca, ca_by_ski, ca_by_serial, Table.first. cbn [cas List.find].
  rewrite (bool_decide_eq_false_2 (a_serial_number a = _)) by done.
  assert ((p_ski o ≫= (fun k => if bool_decide (a_ski a = Some k) then Some a else None)) = None) as E.
  { destruct (p_ski o) as [k|]; [|done]. cbn. by rewrite bool_decide_eq_false_2. }
  rewrite E. by destruct (otruthy (p_ski o)), (Str.truthy _).
Qed.

(** An unknown authority becomes a new row. *)
Lemma import_ca_new token_hex username now objs pairs d r n m o :
  existing_ca o d = None -> existsb (fun b => String.eqb (a_refid b) (token_hex n)) (cas d) = false ->
  exists a l r' m', import_ca token_hex username now true objs pairs (State d r n, m) o
      = inl (State (Db (cas d ++ [a]) (certs d) l) r' (S n), m') /\
    i_success r' = i_success r /\
    a_refid a = token_hex n /\ a_caref a = parent_refid o m d /\ a_subject a = Some (p_subject o) /\
    a_ski a = p_ski o /\ a_serial_number a = Some (p_serial_number o).
Proof.
  intros He Hx. unfold import_ca. rewrite He. unfold add_ca. cbn [a_refid]. rewrite Hx.
  eexists _, _, _, _. split; [reflexivity|]. done.
Qed.

(** Importing a root authority together with an intermediate it issued (and no other
    certificates) into an empty database loses the link between them: the intermediate
    is written before its issuer, because an import without leaves gives the root the
    smallest depth and authorities are imported by decreasing depth. *)
Theorem intermediate_loses_its_root `{Loader} token_hex token_urlsafe username now n e r i :
  is_root r = true -> is_intermediate i = true -> ChainFacts.issued_by i r ->
  p_ski i <> p_ski r -> p_serial_number i <> p_serial_number r -> token_hex n <> token_hex (S n) ->
  let x := execute token_hex token_urlsafe username now true no_csrs (Some [r; i]) n e empty_db in
  i_success x.2 = true /\
  exists a b, cas x.1 = [a; b] /\ a_subject a = Some (p_subject i) /\ a_caref a = None /\
    a_subject b = Some (p_subject r).
Proof.
  intros Hr Hi _ Hski Hser Htok. unfold execute.
  rewrite (execute_try_prepared _ _ _ _ _ _ _ _ _ _ (ca_pair_prepared r i Hr Hi)).
  unfold phase, no_csrs, import_cas, import_certificates. cbn [import_cas_opt import_certs_opt import_csrs_opt].
  destruct (ca_pair_objects r i Hr Hi) as [-> ->].
  set (r' := set_chain "root" 0 r). set (i' := set_chain "intermediate" 1 i).
  assert (p_ski i' = p_ski i /\ p_serial_number i' = p_serial_number i /\ p_subject i' = p_subject i) as (E1 & E2 & E3)
    by (by destruct i).
  assert (p_ski r' = p_ski r /\ p_serial_number r' = p_serial_number r /\ p_subject r' = p_subject r) as (E4 & E5 & E6)
    by (by destruct r).
  cbn [each]. destruct (empty_db_knows_nothing i') as [Hx Hp].
  destruct (import_ca_new token_hex username now [r'; i'] [] empty_db fresh_result n (Refids ∅ ∅) i' Hx eq_refl)
    as (a & l & r1 & m1 & Ea & S1 & A1 & A2 & A3 & A4 & A5).
  cbn [matched_pairs]. rewrite Ea. cbn [empty_db cas certs app].
  destruct (import_ca_new token_hex username now [r'; i'] [] (Db [a] [] l) r1 (S n) m1 r')
    as (b & l' & r2 & m2 & Eb & S2 & B1 & B2 & B3 & _).
  { apply unknown_other; congruence. }
  { cbn. rewrite A1, (proj2 (String.eqb_neq _ _)) by done. done. }
  rewrite Eb. cbn [fst snd cas app]. split; [by rewrite S2, S1|].
  exists a, b. by rewrite A2, A3, B3, E3, E6.
Qed.

(** * The trust store *)

Lemma exists_char_join p sep l :
  Str.exists_char p (Str.join sep l)
  = existsb (Str.exists_char p) l || (Str.exists_char p sep && (2 <=? length l)%nat).
Proof.
  induction l as [|w l IH]; [by rewrite andb_false_r|]. destruct l as [|w' l].
  - cbn. by rewrite andb_false_r, !orb_false_r.
  - change (Str.join sep (w :: w' :: l)) with (w ^+ sep ^+ Str.join sep (w' :: l)).
    rewrite !StrFacts.exists_char_app, IH. cbn [existsb length]. 
    destruct (Str.exists_char p w), (Str.exists_char p sep), (Str.exists_char p w'), (existsb _ l); done.
Qed.

Lemma length_list_ascii s : length (String.list_ascii_of_string s) = String.length s.
Proof. induction s; cbn; congruence. Qed.

Lemma hex_no_colon b : Str.has_char ":" (hex "" b) = false.
Proof.
  unfold Str.has_char, hex. rewrite exists_char_join. cbn [Str.exists_char andb]. rewrite orb_false_r.
  induction b as [|c b IH]; [done|]. cbn [String.list_ascii_of_string List.map existsb]. rewrite IH, orb_false_r.
  by destruct c as [[] [] [] [] [] [] [] []].
Qed.

Lemma upper_hex_colon b : 2 <= String.length b -> Str.has_char ":" (Str.upper (hex ":" b)) = true.
Proof.
  intros Hb. assert (forall s, Str.has_char ":" s = true -> Str.has_char ":" (Str.upper s) = true) as Hu.
  { unfold Str.has_char, Str.upper. induction s as [|c s IH]; [done|]. cbn [Str.exists_char Str.map].
    intros [Hc|Hs]%orb_true_iff; apply orb_true_iff; [left|right; by apply IH].
    apply Ascii.eqb_eq in Hc as <-. done. }
  apply Hu. unfold Str.has_char, hex. rewrite exists_char_join.
  rewrite List.length_map, length_list_ascii. apply orb_true_iff. right. by apply Nat.leb_le.
Qed.

(** A chain is never accepted from the trust store on the strength of key
    identifiers alone: for an authority key identifier of two or more bytes, as the
    parser writes it, the comparison with the trusted certificate's identifier cannot
    succeed (one is written with colons in capitals, the other without in small
    letters), and what is found has verified the certificate's signature. *)
Theorem trust_store_checks_signatures `{Loader} ts o b name :
  p_aki o = Some (Str.upper (hex ":" b)) -> 2 <= String.length b ->
  find_in_trust_store ts o = Some name ->
  exists rows t c tc, ts = Some rows /\ In t rows /\ t_name t = name /\
    load_pem_certificate (p_raw_pem o) = inl c /\ load_pem_certificate (t_pem t) = inl tc /\
    verify_signature c tc = None.
Proof.
  intros Ha Hb. unfold find_in_trust_store. destruct ts as [rows|]; [|done]. cbn [mbind option_bind].
  destruct (List.find _ _) as [t|] eqn:E; [|done]. intros [= <-]. apply find_some in E as [Hin Hm].
  assert (In t rows) as Ht.
  { set (ex := Table.all _ rows) in *. destruct ex eqn:Ex; [by apply Table.In_all in Hin as [? _]|].
    rewrite <-Ex in Hin. unfold ex in Hin. by apply Table.In_all in Hin as [? _]. }
  unfold trust_match in Hm. destruct (load_pem_certificate (t_pem t)) as [tc|] eqn:Et; [|done].
  assert (forall x, bool_decide (Some (hex "" x) = p_aki o) = false) as Hneq.
  { intros x. apply bool_decide_eq_false_2. rewrite Ha. intros [= E].
    pose proof (hex_no_colon x) as Hx. rewrite E, upper_hex_colon in Hx by done. done. }
  set (signed := Str.truthy (p_raw_pem o) && _) in Hm. assert (signed = true) as Hs.
  { destruct (otruthy (p_aki o)); [|done]. destruct (xc_extensions tc) as [x|]; [|done].
    destruct (e_ski x) as [k|]; [|done]. by rewrite Hneq in Hm. }
  unfold signed in Hs. apply andb_true_iff in Hs as [_ Hs].
  destruct (load_pem_certificate (p_raw_pem o)) as [c|] eqn:Ec; [|done].
  destruct (verify_signature c tc) eqn:Ev; [done|]. by exists rows, t, c, tc.
Qed.

End SmartImportFacts.

(** The smart import at work on a concrete bundle, with an executable stand-in for the
    loaders of the X.509 library: the instances of the theorems of SmartParserFacts
    and SmartImportFacts. *)
Module ImportRun.
Import Pem SmartParser ChainBuilder SmartImport.
Local Open Scope string_scope.
Local Open Scope list_scope.

(** A certificate is written in five letters: subject, issuer, [C] for an authority,
    key, and the issuer's key ([0] when it has no authority key identifier); a key or a
    request in its first letter. *)
Definition one (c : ascii) : string := String c EmptyString.
Definition toy_cert (s : string) : xcert + string :=
  match Str.drop 28 s with
  | String a (String b (String c (String k (String y _)))) =>
      inl (XCert ("CN=" ^+ one a) ("CN=" ^+ one b) (Z.of_N (Str.code a)) 0 (Time.days 365)
             (Some (XExts (Some (Ascii.eqb c "C")) None (Some (one k ^+ one k))
                      (if Ascii.eqb y "0" then None else Some (Some (one y ^+ one y)))))
             (RSA 2048) (Some (one k)) s "")
  | _ => inr "not a certificate"
  end.
Definition toy_key (s : string) (password : option string) : option xkey :=
  match Str.drop 28 s with String k _ => Some (XKey (RSA 2048) (Some s) (Some (one k))) | _ => None end.
Definition toy_csr (s : string) : xcsr + string :=
  match Str.drop 36 s with
  | String k _ => inl (XCsr ("CN=" ^+ one k) (RSA 2048) (Some None) (Some (one k)) true)
  | _ => inr "not a request"
  end.
#[export] Instance toy_loader : Loader := {|
  load_pem_certificate := toy_cert; load_pem_csr := toy_csr; load_pem_private_key := toy_key;
  load_der_certificate s := None; load_der_private_key s p := None; load_pkcs12 s p := None;
  load_der_pkcs7 s := None; load_pem_pkcs7 s := None;
  verify parent child := if String.eqb (xc_issuer child) (xc_subject parent) then None else Some "bad signature";
|}.

(** A leaf and its key, the intermediate, the root, and a request with its key. *)
Definition items : list item :=
  [Item Cert "LICl0" "subject=L"; Item Key "l" ""; Item Cert "IRCir" ""; Item Cert "RRCr0" "";
   Item Request "q" ""; Item Key "q" ""].
(** The first certificate is no authority. *)
Definition bundle_items : list item := Item Cert "LILli" "subject=L" :: List.tail items.
Definition objects : list ParsedObject := parse_text (bundle bundle_items) None.

Lemma items_well_formed : Forall well_formed bundle_items.
Proof. repeat (constructor; [split; [reflexivity|split; [discriminate|reflexivity]]|]). constructor. Qed.

Lemma parse_bundle_roundtrip_witness :
  List.map (fun o => (p_index o, p_type o, p_subject o)) objects
  = [(0, CERTIFICATE, "CN=L"); (1, PRIVATE_KEY, ""); (2, CERTIFICATE, "CN=I"); (3, CERTIFICATE, "CN=R");
     (4, CSR, "CN=q"); (5, PRIVATE_KEY, "")].
Proof.
  unfold objects. rewrite (SmartParserFacts.parse_bundle_roundtrip bundle_items None ltac:(done) items_well_formed).
  vm_compute. reflexivity.
Defined.

Definition hex_token (n : nat) : string := "h" ^+ Num.str (Z.of_nat n).
Definition url_token (n : nat) : string := "u" ^+ Num.str (Z.of_nat n).
Definition everything : options := Options true true true.
Definition first_import : db * ImportResult :=
  execute hex_token url_token "alice" 0 true everything (Some objects) 0 "error" SmartImportFacts.empty_db.

(** Parents by refid, keys matched, and the chain of the leaf. *)
Example first_import_rows :
  List.map (fun a => (a_refid a, a_caref a)) (cas first_import.1) = [("h0", None); ("h1", Some "h0")] /\
  List.map (fun c => (r_subject_cn c, r_caref c)) (certs first_import.1) = [(Some "L", Some "h1"); (Some "q", None)] /\
  i_keys_matched first_import.2 = 2 /\ i_success first_import.2 = true.
Proof. vm_compute. done. Qed.
Example first_import_chain :
  (fun x => List.map (fun c => (get_ordered_chain c, ch_is_complete c, ch_is_valid c)) x.2) <$> build_chains objects
  = Some [([0; 2; 3], true, true)].
Proof. vm_compute. reflexivity. Qed.

Lemma empty_db_ok : SmartImportFacts.tables_ok true SmartImportFacts.empty_db.
Proof. split; cbn; try (by constructor); try done. intros _. split; [|split]; constructor. Qed.

Lemma import_keeps_tables_witness : SmartImportFacts.tables_ok true first_import.1.
Proof.
  exact (SmartImportFacts.import_keeps_tables hex_token url_token "alice" 0 true everything (Some objects) 0 "error"
    SmartImportFacts.empty_db empty_db_ok).
Defined.

Lemma objects_serials : SmartImportFacts.fresh_serials objects.
Proof.
  intros o Ho Hc.
  assert (forallb (fun o => negb (is_cert o) || Str.truthy (p_serial_number o)) objects = true) as H
    by (vm_compute; reflexivity).
  rewrite forallb_forall in H. specialize (H o Ho). by rewrite Hc in H.
Qed.

Definition once : db :=
  (execute hex_token url_token "alice" 0 true SmartImportFacts.no_csrs (Some objects) 0 "error"
     SmartImportFacts.empty_db).1.
Definition twice : db * ImportResult :=
  execute url_token hex_token "bob" 5 true SmartImportFacts.no_csrs (Some objects) 7 "error" once.

Lemma once_succeeds :
  i_success (execute hex_token url_token "alice" 0 true SmartImportFacts.no_csrs (Some objects) 0 "error"
     SmartImportFacts.empty_db).2 = true.
Proof. vm_compute. reflexivity. Qed.

Lemma second_import_witness : length (cas once) = 2 /\ twice.1 = once.
Proof.
  split; [vm_compute; reflexivity|].
  pose proof (SmartImportFacts.second_import_adds_nothing hex_token url_token url_token hex_token "alice" "bob" 0 5
    objects 0 7 "error" "error" SmartImportFacts.empty_db objects_serials once_succeeds) as H.
  unfold twice, once. cbv zeta in H.
  destruct (execute url_token hex_token "bob" 5 true SmartImportFacts.no_csrs (Some objects) 7 "error" _) as [d'' r].
  exact (proj1 H).
Defined.

#[local] Existing Instance sha256_hashes.

(** A trail with one entry before the import. *)
Definition logged : list AuditLog.log :=
  (AuditLog.log_action (Event "login" None ANone ANone ANone true (Some "alice")) (AuditLog.Context None None)
     5 1 true []).1.
Definition logged_db : db := Db [] [] logged.
#[local] Abbreviation cut_import :=
  ((execute hex_token url_token "alice" 0 true everything (Some objects) 0 "error" logged_db).1).

Lemma sorted_ids l :
  StronglySorted Z.le (List.map AuditLog.l_id l) -> SmartImportFacts.in_order l.
Proof.
  induction l as [|x l IH]; intros Hs; [constructor|]. inversion Hs as [|? ? Hl Hx]; subst. constructor; [by apply IH|].
  rewrite List.Forall_map in Hx. exact Hx.
Qed.
Lemma cut_ids : List.map AuditLog.l_id (audit cut_import) = [1; 2; 3; 4; 5]%Z.
Proof. vm_compute. reflexivity. Qed.
Lemma cut_in_order : SmartImportFacts.in_order (audit cut_import ++ []).
Proof.
  rewrite app_nil_r. apply sorted_ids. rewrite cut_ids. repeat constructor; lia.
Qed.
Lemma cut_more : audit cut_import <> audit logged_db.
Proof.
  intros E. pose proof cut_ids as H. rewrite E in H.
  assert (length (List.map AuditLog.l_id (audit logged_db)) = 1) as Hl by (vm_compute; reflexivity).
  by rewrite H in Hl.
Qed.
Lemma cut_valid : AuditLog.v_valid (AuditLog.verify_integrity None None (audit cut_import ++ [])) = true.
Proof. vm_compute. reflexivity. Qed.

Lemma import_hides_deletions_witness :
  exists kept, audit cut_import = audit logged_db ++ kept /\ kept <> [] /\
    AuditLog.v_valid (AuditLog.verify_integrity None None (kept ++ [])) = true.
Proof.
  destruct (SmartImportFacts.import_hides_deletions hex_token url_token "alice" 0 true everything (Some objects) 0 "error"
    logged_db cut_import [] eq_refl cut_more cut_in_order) as (kept & Ek & Hn & Hk).
  exact (ex_intro _ kept (conj Ek (conj Hn (Hk cut_valid)))).
Defined.

(** The root and the intermediate alone. *)
Definition pair_items : list item := [Item Cert "RRCr0" ""; Item Cert "IRCir" ""].
Definition root : ParsedObject := default (plain_object UNKNOWN "" 0 "" [] [] "" 0 false) (parse_text (bundle pair_items) None !! 0).
Definition intermediate : ParsedObject := default root (parse_text (bundle pair_items) None !! 1).

Lemma intermediate_loses_its_root_witness :
  ChainFacts.issued_by intermediate root /\
  exists a b, cas (execute hex_token url_token "alice" 0 true SmartImportFacts.no_csrs (Some [root; intermediate]) 0
      "error" SmartImportFacts.empty_db).1 = [a; b] /\
    a_subject a = Some "CN=I" /\ a_caref a = None /\ a_subject b = Some "CN=R".
Proof.
  assert (ChainFacts.issued_by intermediate root) as Hi by (split; [vm_compute; reflexivity|right; vm_compute; reflexivity]).
  split; [exact Hi|].
  apply (SmartImportFacts.intermediate_loses_its_root hex_token url_token "alice" 0 0 "error" root intermediate);
    [vm_compute; reflexivity..|exact Hi| | |]; vm_compute; discriminate.
Defined.

(** The intermediate's issuer among the trusted certificates. *)
Definition trust : list trusted := [Trusted "Root R" (p_raw_pem root) (Some "CN=R")].
Lemma trust_store_witness :
  find_in_trust_store (Some trust) intermediate = Some "Root R" /\
  exists rows t c tc, Some trust = Some rows /\ In t rows /\ t_name t = "Root R" /\
    load_pem_certificate (p_raw_pem intermediate) = inl c /\ load_pem_certificate (t_pem t) = inl tc /\
    verify_signature c tc = None.
Proof.
  assert (find_in_trust_store (Some trust) intermediate = Some "Root R") as Hf by (vm_compute; reflexivity).
  split; [exact Hf|].
  apply (SmartImportFacts.trust_store_checks_signatures (Some trust) intermediate "rr"); [vm_compute; reflexivity|cbn; lia|exact Hf].
Defined.

End ImportRun.
