(* ===== verification/LocalDomains.v ===== *)
(** The mapping of ACME domains to issuing CAs: [api/v2/acme_local_domains.py], and
    the look-up of the same shape over [AcmeDomain] in [api/v2/acme_domains.py]. *)
From S2P Require Import Prelude AuditSink AuditLog Pki.

Module LocalDomains.
Local Open Scope string_scope.
Local Open Scope list_scope.

(** [AcmeLocalDomain] *)
Record local_domain := LocalDomain {
  d_id : Z;
  d_domain : string;
  d_issuing_ca_id : Z;
  d_auto_approve : bool;
  d_created_by : option string;
}.

(** * Hierarchical matching *)

(** [domain.strip().lower()] without a leading [*.]. *)
Definition normalize (domain : string) : string :=
  let d := Str.lower (Str.strip domain) in
  if Str.startswith d "*." then Str.drop 2 d else d.

(** The domain itself, its parent, its grandparent and so on. *)
Definition candidates (d : string) : list string :=
  let parts := Str.split "." d in
  d :: List.map (fun i => Str.join "." (drop i parts)) (List.seq 1 (length parts - 1)).

(** The first candidate that a look-up knows. *)
Fixpoint resolve {A} (lookup : string -> option A) (l : list string) : option A :=
  match l with
  | [] => None
  | d :: l' => match lookup d with Some a => Some a | None => resolve lookup l' end
  end.

Definition by_domain (rows : list local_domain) (d : string) : option local_domain :=
  Table.first (fun r => String.eqb (d_domain r) d) rows.

(** [find_local_domain_ca] *)
Definition find_local_domain_ca (domain : string) (rows : list local_domain) : option Z :=
  d_issuing_ca_id <$> resolve (by_domain rows) (candidates (normalize domain)).

(** [AcmeDomain], as far as the ACME server reads it, and [find_provider_for_domain]. *)
Record acme_domain := AcmeDomain { a_domain : string; a_issuing_ca_id : option Z }.
Definition find_provider_for_domain (domain : string) (rows : list acme_domain) : option acme_domain :=
  resolve (fun d => Table.first (fun r => String.eqb (a_domain r) d) rows)
    (candidates (normalize domain)).

(** * Validation: [_is_valid_domain] *)

Definition is_alpha (c : ascii) : bool := Str.is_upper c || Str.is_lower c.
Definition is_alnum (c : ascii) : bool := is_alpha c || Str.is_digit c.
Definition last_char (s : string) : option ascii :=
  match Str.rev s with String c _ => Some c | EmptyString => None end.

(** A label: up to 63 letters, digits and hyphens, no hyphen at either end. *)
Definition valid_label (w : string) : bool :=
  (String.length w <=? 63)%nat &&
  Str.forall_char (fun c => is_alnum c || Ascii.eqb c "-") w &&
  match w with String c _ => is_alnum c | EmptyString => false end &&
  match last_char w with Some c => is_alnum c | None => false end.
Definition valid_tld (w : string) : bool :=
  (2 <=? String.length w)%nat && Str.forall_char is_alpha w.

Definition is_valid_domain (domain : string) : bool :=
  let d := if Str.startswith domain "*." then Str.drop 2 domain else domain in
  match rev (Str.split "." d) with
  | tld :: (_ :: _) as labels => valid_tld tld && forallb valid_label labels
  | _ => false
  end.

(** * The routes *)

Inductive reply :=
| Refused (status : Z) (message : string)
| Saved (status : Z) (row : local_domain)
| Removed (domain : string)
| NotFound.

Section Routes.
Context {T} `{AuditSink T}.

Definition domain_event (action : string) (id : Z) (domain details : string) : event :=
  Event action (Some "acme_local_domain") (AStr (Num.str id)) (AStr domain) (AStr details) true None.

(** The CA a request names: checked to exist and to hold a private key. *)
Definition check_ca (id : Z) (d : Pki.db) : Pki.ca + reply :=
  match Pki.get_ca id d with
  | None => inr (Refused 404 "Issuing CA not found")
  | Some a => if Pki.otruthy (Pki.ca_prv a) then inl a
              else inr (Refused 400 "Selected CA has no private key")
  end.

(** [CA.common_name] *)
Definition common_name (a : Pki.ca) (subject : option string) : string :=
  match subject with
  | Some s =>
      match List.find (fun p => Str.startswith p "CN=" || Str.startswith p "commonName=")
              (List.map Str.strip (Str.split "," s)) with
      | Some p => if Str.startswith p "CN=" then Str.drop 3 p else Str.drop 11 p
      | None => ""
      end
  | None => ""
  end.

(** [create_local_domain]: the body's fields; [nid] is the id of the new row and
    [ca_subject] the subject column of a CA. *)
Definition create_local_domain (domain : string) (issuing_ca_id : Z) (auto_approve : bool)
    (ca_subject : Pki.ca -> option string) (nid : Z) (d : Pki.db) (rows : list local_domain) (trail : T)
  : list local_domain * T * reply :=
  let domain_name := Str.lower (Str.strip domain) in
  if negb (Str.truthy domain_name) then (rows, trail, Refused 400 "Domain is required")
  else if negb (is_valid_domain domain_name) then (rows, trail, Refused 400 "Invalid domain format")
  else if (issuing_ca_id =? 0)%Z then (rows, trail, Refused 400 "Issuing CA is required")
  else match check_ca issuing_ca_id d with
  | inr e => (rows, trail, e)
  | inl a =>
      match by_domain rows domain_name with
      | Some _ => (rows, trail, Refused 409 ("Domain " ^+ domain_name ^+ " is already registered"))
      | None =>
          let row := LocalDomain nid domain_name issuing_ca_id auto_approve None in
          (rows ++ [row],
           record_event (domain_event "acme_local_domain_create" nid domain_name
             ("Registered local ACME domain: " ^+ domain_name ^+ " -> CA "
                ^+ common_name a (ca_subject a))) trail,
           Saved 201 row)
      end
  end.

Definition get_row (id : Z) (rows : list local_domain) : option local_domain :=
  Table.first (fun r => (d_id r =? id)%Z) rows.

(** [update_local_domain]: the fields present in the body. *)
Definition update_local_domain (id : Z) (issuing_ca_id : option Z) (auto_approve : option bool)
    (d : Pki.db) (rows : list local_domain) (trail : T) : list local_domain * T * reply :=
  match get_row id rows with
  | None => (rows, trail, NotFound)
  | Some r =>
      match match issuing_ca_id with
            | Some c => match check_ca c d with inl _ => inl c | inr e => inr e end
            | None => inl (d_issuing_ca_id r)
            end with
      | inr e => (rows, trail, e)
      | inl c =>
          let r' := LocalDomain (d_id r) (d_domain r) c (default (d_auto_approve r) auto_approve)
                      (d_created_by r) in
          (Table.update (fun x => (d_id x =? id)%Z) (fun _ => r') rows,
           record_event (domain_event "acme_local_domain_update" id (d_domain r)
             ("Updated local ACME domain: " ^+ d_domain r)) trail,
           Saved 200 r')
      end
  end.

(** [delete_local_domain] *)
Definition delete_local_domain (id : Z) (rows : list local_domain) (trail : T)
  : list local_domain * T * reply :=
  match get_row id rows with
  | None => (rows, trail, NotFound)
  | Some r =>
      (Table.delete (fun x => (d_id x =? id)%Z) rows,
       record_event (domain_event "acme_local_domain_delete" id (d_domain r)
         ("Removed local ACME domain: " ^+ d_domain r)) trail,
       Removed (d_domain r))
  end.

End Routes.

(** * What the look-up finds *)

(** The ancestor [i] levels above a domain. *)
Definition ancestor (i : nat) (d : string) : string := Str.join "." (drop i (Str.split "." d)).
Definition depth (d : string) : nat := length (Str.split "." d).

Lemma candidates_ancestors d : candidates d = List.map (fun i => ancestor i d) (List.seq 0 (depth d)).
Proof.
  unfold candidates, ancestor, depth. pose proof (StrFacts.split_not_nil "." d) as Hn.
  pose proof (StrFacts.split_join "." d) as Hj.
  destruct (Str.split "." d) as [|w ws] eqn:E; [done|]. cbn [length].
  replace (S (length ws) - 1) with (length ws) by lia. cbn [List.seq List.map]. f_equal.
  rewrite drop_0. done.
Qed.

Lemma resolve_spec {A} (lookup : string -> option A) f n :
  match resolve lookup (List.map f (List.seq 0 n)) with
  | Some a => exists i, i < n /\ lookup (f i) = Some a /\ forall j, j < i -> lookup (f j) = None
  | None => forall i, i < n -> lookup (f i) = None
  end.
Proof.
  assert (forall m k, (forall j, j < k -> lookup (f j) = None) ->
    match resolve lookup (List.map f (List.seq k m)) with
    | Some a => exists i, i < k + m /\ lookup (f i) = Some a /\ forall j, j < i -> lookup (f j) = None
    | None => forall i, i < k + m -> lookup (f i) = None
    end) as H; [|by apply (H n 0); intros; lia].
  induction m as [|m IH]; intros k Hk; cbn [List.seq List.map resolve].
  - intros i Hi. apply Hk. lia.
  - destruct (lookup (f k)) as [a|] eqn:E.
    + exists k. split; [lia|]. done.
    + replace (k + S m) with (S k + m) by lia. apply IH. intros j Hj.
      destruct (decide (j = k)) as [->|]; [done|]. apply Hk. lia.
Qed.

(** The issuing CA of a domain is that of its closest registered ancestor,
    itself included (after trimming, lower-casing and removing a leading [*.]), and
    there is none exactly when no ancestor is registered. *)
Theorem find_local_domain_ca_closest domain rows :
  let d := normalize domain in
  match find_local_domain_ca domain rows with
  | Some ca => exists i r, i < depth d /\ In r rows /\ d_domain r = ancestor i d /\
      d_issuing_ca_id r = ca /\
      forall j r', j < i -> In r' rows -> d_domain r' <> ancestor j d
  | None => forall i r, i < depth d -> In r rows -> d_domain r <> ancestor i d
  end.
Proof.
  cbv zeta. unfold find_local_domain_ca. rewrite candidates_ancestors.
  pose proof (resolve_spec (by_domain rows) (fun i => ancestor i (normalize domain))
    (depth (normalize domain))) as H.
  assert (forall d r, by_domain rows d = None -> In r rows -> d_domain r <> d) as Hnone.
  { intros d r Hd Hr E. pose proof (Table.first_None _ _ _ Hd Hr) as Hf. simpl in Hf.
    by rewrite E, StrFacts.eqb_refl in Hf. }
  destruct (resolve _ _) as [r|]; cbn [fmap option_fmap option_map].
  - destruct H as (i & Hi & Hl & Hj). apply Table.first_Some in Hl as [Hin E%String.eqb_eq].
    exists i, r. repeat (split; [done|]). intros j r' Hlt Hr'. by apply Hnone; [apply Hj|].
  - intros i r Hi Hr. by apply Hnone; [apply H|].
Qed.

Example wildcard_uses_parent :
  find_local_domain_ca " *.Dev.Corp.lan " [LocalDomain 1 "corp.lan" 9 true None;
                                           LocalDomain 2 "lan" 4 true None] = Some 9%Z.
Proof. vm_compute. reflexivity. Qed.

End LocalDomains.
