(* ===== verification/Acme.v ===== *)
(** The ACME server: [services/acme/acme_service.py] over the rows of
    [models/acme_models.py].

    Random tokens are the values of [token_urlsafe] at successive draws.  The network
    is given to each validation as a function: [fetch] answers an HTTP request with
    a body or an error text, [resolve] a TXT query with the texts of the records or
    an error text.  JSON columns hold the value they encode. *)
From S2P Require Import Prelude Hashes AuditSink AuditLog Pki LocalDomains.

Module Acme.
Local Open Scope string_scope.
Local Open Scope list_scope.

(** * Rows *)

(** The texts the status columns take. *)
Inductive status := Pending | Ready | Valid | Invalid | Deactivated.
#[global] Instance status_eq_dec : EqDecision status.
Proof. solve_decision. Defined.
Definition status_text (s : status) : string :=
  match s with
  | Pending => "pending" | Ready => "ready" | Valid => "valid" | Invalid => "invalid"
  | Deactivated => "deactivated"
  end.

Record account := Account {
  a_account_id : string;
  a_jwk : json;
  a_jwk_thumbprint : string;
  a_contact : option json;
  a_status : status;
  a_terms_of_service_agreed : option bool;
  a_created_at : Z;
}.

Record order := Order {
  o_order_id : string;
  o_account_id : string;
  o_status : status;
  o_identifiers : json;
  o_not_before : option Z;
  o_not_after : option Z;
  o_error : option json;
  o_csr : option string;
  o_certificate_id : option Z;
  o_certificate_url : option string;
  o_created_at : Z;
  o_expires : Z;
}.

Record authorization := Authorization {
  z_authorization_id : string;
  z_order_id : string;
  z_identifier : json;
  z_status : status;
  z_expires : Z;
}.

Record challenge := Challenge {
  c_challenge_id : string;
  c_authorization_id : string;
  c_type : string;
  c_status : status;
  c_token : string;
  c_url : option string;
  c_validated : option Z;
  c_error : option json;
}.

Record nonce := Nonce {
  n_token : string;
  n_expires_at : Z;
  n_used : bool;
  n_used_at : option Z;
}.

(** The tables the service reads and writes; [config_ca] is the value of the
    setting [acme.issuing_ca_id], [draws] the number of random tokens drawn. *)
Record state := State {
  accounts : list account;
  orders : list order;
  authzs : list authorization;
  challenges : list challenge;
  nonces : list nonce;
  pki : Pki.db;
  local_domains : list LocalDomains.local_domain;
  acme_domains : list LocalDomains.acme_domain;
  config_ca : option string;
  draws : nat;
}.

Definition with_accounts l st := State l (orders st) (authzs st) (challenges st) (nonces st) (pki st)
  (local_domains st) (acme_domains st) (config_ca st) (draws st).
Definition with_orders l st := State (accounts st) l (authzs st) (challenges st) (nonces st) (pki st)
  (local_domains st) (acme_domains st) (config_ca st) (draws st).
Definition with_authzs l st := State (accounts st) (orders st) l (challenges st) (nonces st) (pki st)
  (local_domains st) (acme_domains st) (config_ca st) (draws st).
Definition with_challenges l st := State (accounts st) (orders st) (authzs st) l (nonces st) (pki st)
  (local_domains st) (acme_domains st) (config_ca st) (draws st).
Definition with_nonces l st := State (accounts st) (orders st) (authzs st) (challenges st) l (pki st)
  (local_domains st) (acme_domains st) (config_ca st) (draws st).
Definition with_pki d st := State (accounts st) (orders st) (authzs st) (challenges st) (nonces st) d
  (local_domains st) (acme_domains st) (config_ca st) (draws st).
Definition skip_draws n st := State (accounts st) (orders st) (authzs st) (challenges st) (nonces st)
  (pki st) (local_domains st) (acme_domains st) (config_ca st) (draws st + n).

Definition order_status (s : status) (o : order) : order :=
  Order (o_order_id o) (o_account_id o) s (o_identifiers o) (o_not_before o) (o_not_after o) (o_error o)
    (o_csr o) (o_certificate_id o) (o_certificate_url o) (o_created_at o) (o_expires o).
Definition authz_status (s : status) (z : authorization) : authorization :=
  Authorization (z_authorization_id z) (z_order_id z) (z_identifier z) s (z_expires z).
Definition account_status (s : status) (a : account) : account :=
  Account (a_account_id a) (a_jwk a) (a_jwk_thumbprint a) (a_contact a) s
    (a_terms_of_service_agreed a) (a_created_at a).

(** * Look-ups *)

Definition get_account_by_kid (id : option string) (st : state) : option account :=
  k ← id; Table.first (fun a => String.eqb (a_account_id a) k) (accounts st).
Definition get_order (id : string) (st : state) : option order :=
  Table.first (fun o => String.eqb (o_order_id o) id) (orders st).
Definition get_challenge (id : string) (st : state) : option challenge :=
  Table.first (fun c => String.eqb (c_challenge_id c) id) (challenges st).
Definition get_authorization (id : string) (st : state) : option authorization :=
  Table.first (fun z => String.eqb (z_authorization_id z) id) (authzs st).
Definition authzs_of (order_id : string) (st : state) : list authorization :=
  Table.all (fun z => String.eqb (z_order_id z) order_id) (authzs st).
Definition challenges_of (authz_id : string) (st : state) : list challenge :=
  Table.all (fun c => String.eqb (c_authorization_id c) authz_id) (challenges st).

(** * Formatting a JSON value in an f-string *)
Section Service.
Context `{Hashes} (token_urlsafe : nat -> string) (py_repr : json -> string) (base_url : string).

Definition fstr (j : json) : string :=
  match j with
  | JStr s => s
  | JInt z => Num.str z
  | JBool b => if b then "True" else "False"
  | JNull => "None"
  | JList _ | JDict _ => py_repr j
  end.

(** * Nonces *)

(** [generate_nonce] *)
Definition generate_nonce (now : Z) (st : state) : state * string :=
  let tok := token_urlsafe (draws st) in
  (with_nonces (nonces st ++ [Nonce tok (now + Time.hours 1)%Z false None]) (skip_draws 1 st), tok).

(** [validate_nonce]: one UPDATE of the unused, unexpired rows of the token. *)
Definition usable (tok : string) (now : Z) (n : nonce) : bool :=
  String.eqb (n_token n) tok && negb (n_used n) && (now <? n_expires_at n)%Z.
Definition use_nonce (now : Z) (n : nonce) : nonce := Nonce (n_token n) (n_expires_at n) true (Some now).
Definition validate_nonce (tok : string) (now : Z) (st : state) : state * bool :=
  (with_nonces (Table.update (usable tok now) (use_nonce now) (nonces st)) st,
   (0 <? Table.count (usable tok now) (nonces st))%nat).

(** [cleanup_expired_nonces] *)
Definition cleanup_expired_nonces (now : Z) (st : state) : state * nat :=
  let expired n := (n_expires_at n <? now)%Z in
  (with_nonces (Table.delete expired (nonces st)) st, Table.count expired (nonces st)).

(** * Accounts *)

(** [_compute_jwk_thumbprint]; [None] is the KeyError, ValueError or
    AttributeError of an unsuitable key. *)
Definition compute_jwk_thumbprint (jwk : json) : option string :=
  let digest fields := Some (b64url_of_hex (sha256_hex (Json.compact (JDict fields)))) in
  match jwk with
  | JDict kv =>
      let member k := (fun v => (k, v)) <$> Json.assoc k kv in
      match Json.assoc "kty" kv with
      | Some (JStr kty) =>
          if String.eqb kty "RSA" then
            e ← member "e"; t ← member "kty"; n ← member "n"; digest [e; t; n]
          else if String.eqb kty "EC" then
            c ← member "crv"; t ← member "kty"; x ← member "x"; y ← member "y"; digest [c; t; x; y]
          else None
      | _ => None
      end
  | _ => None
  end.

(** [_compute_key_authorization] *)
Definition compute_key_authorization (tok thumbprint : string) : string := tok ^+ "." ^+ thumbprint.

(** [create_account]: the account and whether it is new. *)
Definition create_account (jwk : json) (contact : json) (terms : option bool) (now : Z) (st : state)
  : option (state * (account * bool)) :=
  thumb ← compute_jwk_thumbprint jwk;
  match Table.first (fun a => String.eqb (a_jwk_thumbprint a) thumb) (accounts st) with
  | Some a => Some (st, (a, false))
  | None =>
      let a := Account (token_urlsafe (draws st)) jwk thumb
                 (if Json.truthy contact then Some contact else None) Valid terms now in
      Some (with_accounts (accounts st ++ [a]) (skip_draws 1 st), (a, true))
  end.

(** [deactivate_account] *)
Definition deactivate_account (id : string) (st : state) : state * bool :=
  match get_account_by_kid (Some id) st with
  | None => (st, false)
  | Some a =>
      (with_accounts (Table.update (fun b => String.eqb (a_account_id b) (a_account_id a))
                        (account_status Deactivated) (accounts st)) st, true)
  end.

(** * Orders *)

(** [_create_challenges]: an HTTP-01 and a DNS-01 challenge, six draws. *)
Definition new_challenge (authz_id kind : string) (s : status) (validated : option Z) (n : nat) : challenge :=
  Challenge (token_urlsafe (n + 2)) authz_id kind s (token_urlsafe n)
    (Some (base_url ^+ "/acme/challenge/" ^+ token_urlsafe (n + 1))) validated None.
Definition create_challenges (authz_id : string) (s : status) (validated : option Z) (st : state) : state :=
  let n := draws st in
  with_challenges
    (challenges st ++ [new_challenge authz_id "http-01" s validated n;
                       new_challenge authz_id "dns-01" s validated (n + 3)]) (skip_draws 6 st).

(** The row the reuse of an authorization copies: a valid, unexpired authorization
    of the account for the same identifier, the one that expires last. *)
Definition order_account (order_id : string) (st : state) : option string :=
  o_account_id <$> get_order order_id st.
Definition reusable (account_id : string) (identifier : json) (now : Z) (st : state)
  : option authorization :=
  Table.last_by z_expires
    (Table.all (fun z =>
       match order_account (z_order_id z) st with
       | Some a => String.eqb a account_id | None => false end &&
       Json.eqb (z_identifier z) identifier &&
       bool_decide (z_status z = Valid) && (now <? z_expires z)%Z) (authzs st)).

(** [_create_authorization] *)
Definition create_authorization (order_id : string) (identifier : json) (account_id : string)
    (now : Z) (st : state) : state :=
  let id := token_urlsafe (draws st) in
  match (if Str.truthy account_id then reusable account_id identifier now st else None) with
  | Some v =>
      let st := with_authzs (authzs st ++ [Authorization id order_id identifier Valid (z_expires v)])
                  (skip_draws 1 st) in
      create_challenges id Valid (Some now) st
  | None =>
      let st := with_authzs (authzs st ++ [Authorization id order_id identifier Pending
                                             (now + Time.days 7)%Z]) (skip_draws 1 st) in
      create_challenges id Pending None st
  end.

(** [create_order]: the relation of an order is a query object, true even when it
    has no row, so an order without identifiers is ready at once.  [None] is the
    TypeError of identifiers that cannot be iterated: the order row is in the session
    by then, and the next commit of the request writes it. *)
Definition all_valid (order_id : string) (st : state) : bool :=
  forallb (fun z => bool_decide (z_status z = Valid)) (authzs_of order_id st).
Definition create_order (account_id : string) (identifiers : json) (not_before not_after : option Z)
    (now : Z) (st : state) : state * option string :=
  let id := token_urlsafe (draws st) in
  let o := Order id account_id Pending identifiers not_before not_after None None None None now
             (now + Time.days 7)%Z in
  let st := with_orders (orders st ++ [o]) (skip_draws 1 st) in
  match Json.elements identifiers with
  | None => (st, None)
  | Some l =>
      let st := fold_left (fun st i => create_authorization id i account_id now st) l st in
      let st := if all_valid id st
                then with_orders (Table.update (fun o => String.eqb (o_order_id o) id)
                                    (order_status Ready) (orders st)) st
                else st in
      (st, Some id)
  end.

(** * Challenges *)

(** [_update_authorization_status] *)
Definition update_authorization_status (z : authorization) (st : state) : state :=
  if existsb (fun c => bool_decide (c_status c = Valid)) (challenges_of (z_authorization_id z) st) then
    let st := with_authzs (Table.update
                (fun y => String.eqb (z_authorization_id y) (z_authorization_id z))
                (authz_status Valid) (authzs st)) st in
    if all_valid (z_order_id z) st
    then with_orders (Table.update (fun o => String.eqb (o_order_id o) (z_order_id z))
                        (order_status Ready) (orders st)) st
    else st
  else st.

(** The challenge row after a success or a failure; the other fields stay. *)
Definition challenge_valid (now : Z) (c : challenge) : challenge :=
  Challenge (c_challenge_id c) (c_authorization_id c) (c_type c) Valid (c_token c) (c_url c)
    (Some now) (c_error c).
Definition acme_problem (kind detail : string) : json :=
  JDict [("type", JStr ("urn:ietf:params:acme:error:" ^+ kind)); ("detail", JStr detail)].
Definition challenge_invalid (e : json) (c : challenge) : challenge :=
  Challenge (c_challenge_id c) (c_authorization_id c) (c_type c) Invalid (c_token c) (c_url c)
    (c_validated c) (Some e).
Definition update_challenge (c : challenge) (f : challenge -> challenge) (st : state) : state :=
  with_challenges (Table.update (fun x => String.eqb (c_challenge_id x) (c_challenge_id c)) f
                     (challenges st)) st.

(** [identifier.get("value", "")]; [None] is the AttributeError of another value. *)
Definition identifier_value (i : json) : option json :=
  match i with JDict kv => Some (default (JStr "") (Json.assoc "value" kv)) | _ => None end.

(** [validate_http01_challenge]; [None] is an exception that leaves no trace. *)
Definition http01_url (domain tok : string) : string :=
  "http://" ^+ domain ^+ "/.well-known/acme-challenge/" ^+ tok.
Definition validate_http01_challenge (fetch : string -> string + string) (c : challenge) (a : account)
    (now : Z) (st : state) : option (state * bool) :=
  z ← get_authorization (c_authorization_id c) st;
  domain ← identifier_value (z_identifier z);
  let key_authz := compute_key_authorization (c_token c) (a_jwk_thumbprint a) in
  match fetch (http01_url (fstr domain) (c_token c)) with
  | inl text =>
      if String.eqb (Str.strip text) key_authz
      then Some (update_authorization_status z (update_challenge c (challenge_valid now) st), true)
      else Some (update_challenge c (challenge_invalid
             (acme_problem "incorrectResponse" "Key authorization mismatch")) st, false)
  | inr e => Some (update_challenge c (challenge_invalid (acme_problem "connection" e)) st, false)
  end.

(** [validate_dns01_challenge] *)
Definition txt_name (domain : string) : string := "_acme-challenge." ^+ domain.
Definition txt_value (key_authz : string) : string := b64url_of_hex (sha256_hex key_authz).
Definition validate_dns01_challenge (resolve : string -> list string + string) (c : challenge)
    (a : account) (now : Z) (st : state) : option (state * bool) :=
  z ← get_authorization (c_authorization_id c) st;
  domain ← identifier_value (z_identifier z);
  let key_authz := compute_key_authorization (c_token c) (a_jwk_thumbprint a) in
  let txt_record := txt_name (fstr domain) in
  match resolve txt_record with
  | inl answers =>
      if existsb (Str.contains (txt_value key_authz)) answers
      then Some (update_authorization_status z (update_challenge c (challenge_valid now) st), true)
      else Some (update_challenge c (challenge_invalid
             (acme_problem "incorrectResponse" ("No matching TXT record found at " ^+ txt_record))) st, false)
  | inr e => Some (update_challenge c (challenge_invalid (acme_problem "dns" e)) st, false)
  end.

(** * Finalization *)

Section Finalize.
Context `{Pki.X509} {T} `{AuditSink T} (library_error : string).

(** [_extract_domains_from_csr] *)
Definition csr_cn (q : Pki.csr) : option string :=
  snd <$> List.find (fun p => String.eqb p.1 "CN") (Pki.q_subject q).
Fixpoint add_new (domains names : list string) : list string :=
  match names with
  | [] => domains
  | n :: names' =>
      add_new (if existsb (String.eqb n) domains then domains else domains ++ [n]) names'
  end.
Definition extract_domains_from_csr (q : Pki.csr) : list string :=
  add_new (match csr_cn q with Some cn => [cn] | None => [] end)
    (Pki.dns_list (default [] (Pki.san_names (Pki.q_extensions q)))).

(** [[id['value'] for id in order_identifiers if id.get('type') == 'dns']]; [None]
    is the exception of an identifier that is not such a dict. *)
Fixpoint order_domains (l : list json) : option (list json) :=
  match l with
  | [] => Some []
  | JDict kv :: l' =>
      if match Json.assoc "type" kv with Some t => Json.eqb t (JStr "dns") | None => false end
      then v ← Json.assoc "value" kv; r ← order_domains l'; Some (v :: r)
      else order_domains l'
  | _ :: _ => None
  end.

(** [set(csr_domains) == set(order_domains)]; [None] is the TypeError of an
    unhashable member. *)
Definition hashable (j : json) : bool := match j with JList _ | JDict _ => false | _ => true end.
Definition same_set (a : list string) (b : list json) : option bool :=
  if negb (forallb hashable b) then None
  else Some (forallb (fun s => existsb (Json.eqb (JStr s)) b) a &&
             forallb (fun j => existsb (fun s => Json.eqb (JStr s) j) a) b).

(** [_resolve_ca_for_domains] *)
Definition usable_ca (id : Z) (st : state) : option string :=
  a ← Pki.get_ca id (pki st); if Pki.otruthy (Pki.ca_prv a) then Some (Pki.ca_refid a) else None.
Definition local_ca (st : state) (domain : string) : option string :=
  id ← LocalDomains.find_local_domain_ca domain (local_domains st);
  if (id =? 0)%Z then None else usable_ca id st.
Definition provider_ca (st : state) (domain : string) : option string :=
  r ← LocalDomains.find_provider_for_domain domain (acme_domains st);
  id ← LocalDomains.a_issuing_ca_id r;
  if (id =? 0)%Z then None else usable_ca id st.
Fixpoint first_some {A B} (f : A -> option B) (l : list A) : option B :=
  match l with [] => None | x :: l' => match f x with Some y => Some y | None => first_some f l' end end.
Definition default_ca (st : state) : option string :=
  v ← config_ca st;
  if Str.truthy v then
    a ← match Pki.ca_by_refid v (pki st) with
        | Some a => Some a
        | None => id ← Num.py_int v; Pki.get_ca id (pki st)
        end;
    if Pki.otruthy (Pki.ca_prv a) then Some (Pki.ca_refid a) else None
  else None.
Definition resolve_ca_for_domains (domains : list string) (st : state) : option string :=
  match first_some (local_ca st) domains with
  | Some r => Some r
  | None =>
      match first_some (provider_ca st) domains with
      | Some r => Some r
      | None => default_ca st
      end
  end.

(** [str(e)] of the errors of [CertificateService.sign_csr]. *)
Definition sign_error_text (e : Pki.sign_error) : string :=
  match e with
  | Pki.CertificateNotFound => "Certificate not found"
  | Pki.NoCSR => "Certificate has no CSR"
  | Pki.AlreadySigned => "Certificate already signed"
  | Pki.CANotFound r => "CA not found: " ^+ r
  | Pki.CANoPrivateKey => "CA has no private key"
  | Pki.LibraryError => library_error
  end.

(** [_sign_certificate_with_ca]: [cert_id] and [refid] are the key and the random
    reference of the new certificate, [serial] its serial number. *)
Definition sign_certificate_with_ca (o : order) (csr_pem : string) (ca_refid : option string)
    (cert_id : Z) (refid : string) (serial now : Z) (st : state) (trail : T)
  : state * T * (Z + string) :=
  match (match ca_refid with
         | Some r => if Str.truthy r then Pki.ca_by_refid r (pki st)
                     else Table.first (fun a => bool_decide (Pki.ca_prv a <> None)) (Pki.cas (pki st))
         | None => Table.first (fun a => bool_decide (Pki.ca_prv a <> None)) (Pki.cas (pki st))
         end) with
  | None => (st, trail, inr "No CA available for signing")
  | Some a =>
      if negb (Pki.otruthy (Pki.ca_prv a))
      then (st, trail, inr ("CA " ^+ Pki.ca_refid a ^+ " has no private key"))
      else
        let cn := q ← Pki.load_csr csr_pem;
                  if Pki.otruthy (csr_cn q) then csr_cn q
                  else Pki.san_names (Pki.q_extensions q) ≫= Pki.first_dns in
        let descr := if Pki.otruthy cn then default "" cn
                     else "ACME Certificate - Order " ^+ o_order_id o in
        let row := Pki.Certificate cert_id refid descr (Some (Pki.ca_refid a)) None (Some csr_pem)
                     (Some "server_cert") None None None None None None None None None
                     false None None (Some "acme") (Some "acme") in
        let d := Pki.set_certs (Pki.certs (pki st) ++ [row]) (pki st) in
        match Pki.sign_csr cert_id (Pki.ca_refid a) "server_cert" 90 "sha256" serial now d trail with
        | (d, trail, inl c) => (with_pki d st, trail, inl (Pki.c_id c))
        | (_, _, inr e) => (st, trail, inr ("Certificate signing failed: " ^+ sign_error_text e))
        end
  end.

Inductive finalize_error :=
| OrderNotFound
| NotReady (s : status)
| InvalidCSR
| DomainMismatch (csr_domains : list string) (order_domains : list json)
| SigningError (error : string).

Definition finalized (csr_pem : string) (cert_id : Z) (o : order) : order :=
  Order (o_order_id o) (o_account_id o) Valid (o_identifiers o) (o_not_before o) (o_not_after o)
    (o_error o) (Some csr_pem) (Some cert_id)
    (Some (base_url ^+ "/acme/cert/" ^+ o_order_id o)) (o_created_at o) (o_expires o).
Definition failed (error : string) (o : order) : order :=
  Order (o_order_id o) (o_account_id o) Invalid (o_identifiers o) (o_not_before o) (o_not_after o)
    (Some (acme_problem "serverInternal" error)) (o_csr o) (o_certificate_id o) (o_certificate_url o)
    (o_created_at o) (o_expires o).
Definition json_texts (l : list json) : list string :=
  List.flat_map (fun j => match j with JStr s => [s] | _ => [] end) l.

(** [finalize_order]: success, or the error the caller reports; [None] is an
    exception before anything changed. *)
Definition finalize_order (order_id csr_pem : string) (ca_refid : option string)
    (cert_id serial now : Z) (st : state) (trail : T) : option (state * T * option finalize_error) :=
  match get_order order_id st with
  | None => Some (st, trail, Some OrderNotFound)
  | Some o =>
      if negb (bool_decide (o_status o = Ready)) then Some (st, trail, Some (NotReady (o_status o)))
      else match Pki.load_csr csr_pem with
      | None => Some (st, trail, Some InvalidCSR)
      | Some q =>
          let csr_domains := extract_domains_from_csr q in
          ids ← Json.elements (o_identifiers o);
          ds ← order_domains ids;
          same ← same_set csr_domains ds;
          if negb same then Some (st, trail, Some (DomainMismatch csr_domains ds))
          else
            let ca_refid := if Pki.otruthy ca_refid then ca_refid
                            else resolve_ca_for_domains (json_texts ds) st in
            let refid := token_urlsafe (draws st) in
            let update f st := with_orders
              (Table.update (fun x => String.eqb (o_order_id x) order_id) f (orders st)) st in
            match sign_certificate_with_ca o csr_pem ca_refid cert_id refid serial now
                    (skip_draws 1 st) trail with
            | (st, trail, inl id) => Some (update (finalized csr_pem id) st, trail, None)
            | (st, trail, inr e) => Some (update (failed e) st, trail, Some (SigningError e))
            end
      end
  end.

End Finalize.

(** [get_directory] *)
Definition DIRECTORY_URLS : list (string * string) :=
  [("newNonce", "/acme/new-nonce"); ("newAccount", "/acme/new-account"); ("newOrder", "/acme/new-order");
   ("revokeCert", "/acme/revoke-cert"); ("keyChange", "/acme/key-change")].
Definition get_directory : list (string * string) :=
  List.map (fun p => (p.1, base_url ^+ p.2)) DIRECTORY_URLS.

End Service.

(** The example of RFC 7638, section 3.1, with a short modulus: the members are
    taken in order, without white space. *)
Example thumbprint_text :
  Json.compact (JDict [("e", JStr "AQAB"); ("kty", JStr "RSA"); ("n", JStr "0vx7")])
  = "{" ^+ Json.quoted "e" ^+ ":" ^+ Json.quoted "AQAB" ^+ "," ^+ Json.quoted "kty" ^+ ":"
    ^+ Json.quoted "RSA" ^+ "," ^+ Json.quoted "n" ^+ ":" ^+ Json.quoted "0vx7" ^+ "}".
Proof. vm_compute. reflexivity. Qed.

End Acme.
