(* ===== verification/AcmeFacts.v ===== *)
(** The ACME server as a transition system: which steps it takes, the invariant
    they keep, and what follows for nonces, authorizations, orders and the
    certificates that are issued. *)
From S2P Require Import Prelude Hashes AuditSink AuditLog Pki PkiFacts LocalDomains Acme.

Module AcmeFacts.
Import Acme.
Local Open Scope string_scope.
Local Open Scope list_scope.

Section Facts.
Context `{Hashes} (token_urlsafe : nat -> string) (py_repr : json -> string) (base_url : string).
Context `{Pki.X509} {T} `{AuditSink T} (library_error : string).

#[local] Abbreviation create_order := (create_order token_urlsafe base_url).
#[local] Abbreviation create_authorization := (create_authorization token_urlsafe base_url).
#[local] Abbreviation finalize_order := (finalize_order token_urlsafe base_url library_error).
#[local] Abbreviation fstr := (fstr py_repr).

(** * What the server has seen on the network *)

Inductive observation :=
| Http (url body : string)
| Txt (name : string) (answers : list string).

(** The observation a validation makes, if its query is answered. *)
Definition observed_http (fetch : string -> string + string) (c : challenge) (st : state) : list observation :=
  match (z ← get_authorization (c_authorization_id c) st; identifier_value (z_identifier z)) with
  | Some v =>
      let url := http01_url (fstr v) (c_token c) in
      match fetch url with inl body => [Http url body] | inr _ => [] end
  | None => []
  end.
Definition observed_dns (resolve : string -> list string + string) (c : challenge) (st : state) : list observation :=
  match (z ← get_authorization (c_authorization_id c) st; identifier_value (z_identifier z)) with
  | Some v =>
      match resolve (txt_name (fstr v)) with inl l => [Txt (txt_name (fstr v)) l] | inr _ => [] end
  | None => []
  end.

(** The key authorization of a token and a key was served for a domain. *)
Definition shown (log : list observation) (domain tok thumb : string) : Prop :=
  (exists body, In (Http (http01_url domain tok) body) log /\
                Str.strip body = compute_key_authorization tok thumb) \/
  (exists l r, In (Txt (txt_name domain) l) log /\ In r l /\
               Str.contains (txt_value (compute_key_authorization tok thumb)) r = true).

(** The token of a challenge issued for the identifier was shown. *)
Definition issued_for (st : state) (c : challenge) (i : json) : Prop :=
  In c (challenges st) /\
  exists z, In z (authzs st) /\ z_authorization_id z = c_authorization_id c /\ z_identifier z = i.
Definition controlled (st : state) (log : list observation) (i : json) : Prop :=
  exists v c thumb, identifier_value i = Some v /\ issued_for st c i /\
    shown log (fstr v) (c_token c) thumb.

(** * Steps *)

(** One operation of the service, with arbitrary arguments; accounts and the tables
    of the other components may change in any way between operations. *)
Inductive step : state * list observation -> state * list observation -> Prop :=
| step_generate_nonce now st log :
    step (st, log) ((generate_nonce token_urlsafe now st).1, log)
| step_validate_nonce tok now st log : step (st, log) ((validate_nonce tok now st).1, log)
| step_cleanup now st log : step (st, log) ((cleanup_expired_nonces now st).1, log)
| step_create_account jwk contact terms now st st' r log :
    create_account token_urlsafe jwk contact terms now st = Some (st', r) -> step (st, log) (st', log)
| step_accounts l st log : step (st, log) (with_accounts l st, log)
| step_create_order acct ids nb na now st log :
    step (st, log) ((create_order acct ids nb na now st).1, log)
| step_http01 fetch c a now st st' ok log :
    In c (challenges st) -> validate_http01_challenge py_repr fetch c a now st = Some (st', ok) ->
    step (st, log) (st', observed_http fetch c st ++ log)
| step_dns01 resolve c a now st st' ok log :
    In c (challenges st) -> validate_dns01_challenge py_repr resolve c a now st = Some (st', ok) ->
    step (st, log) (st', observed_dns resolve c st ++ log)
| step_finalize id csr ca cert_id serial now st (trail trail' : T) st' r log :
    finalize_order id csr ca cert_id serial now st trail = Some (st', trail', r) ->
    step (st, log) (st', log)
| step_elsewhere d ld ad cfg st log :
    step (st, log) (State (accounts st) (orders st) (authzs st) (challenges st) (nonces st)
                      d ld ad cfg (draws st), log).

(** A server that starts with accounts only. *)
Definition initial (st : state) : Prop := orders st = [] /\ authzs st = [] /\ challenges st = [].

Inductive reachable : state -> list observation -> Prop :=
| reach_init st : initial st -> reachable st []
| reach_step st log st' log' : reachable st log -> step (st, log) (st', log') -> reachable st' log'.

(** * The invariant *)

Definition drawn (st : state) (s : string) : Prop := exists k, k < draws st /\ s = token_urlsafe k.
(** The identifiers of an order. *)
Definition items (o : order) : list json := default [] (Json.elements (o_identifiers o)).
Definition settled (s : status) : Prop := s = Ready \/ s = Valid.

Record inv (st : state) (log : list observation) : Prop := {
  inv_orders : forall o, In o (orders st) -> drawn st (o_order_id o);
  inv_authzs : forall z, In z (authzs st) -> drawn st (z_order_id z);
  inv_authz_ids : forall z, In z (authzs st) -> drawn st (z_authorization_id z);
  inv_unique : NoDup (List.map z_authorization_id (authzs st));
  inv_settled : forall o z, In o (orders st) -> settled (o_status o) -> In z (authzs st) ->
    z_order_id z = o_order_id o -> z_status z = Valid;
  inv_covered : forall o i, In o (orders st) -> In i (items o) ->
    exists z, In z (authzs st) /\ z_order_id z = o_order_id o /\ z_identifier z = i;
  inv_controlled : forall z, In z (authzs st) -> z_status z = Valid -> controlled st log (z_identifier z);
}.

Lemma drawn_mono st st' s : draws st <= draws st' -> drawn st s -> drawn st' s.
Proof. intros Hle (k & Hk & ->). exists k. split; [lia|done]. Qed.

Lemma shown_mono log log' d tok thumb :
  (forall x, In x log -> In x log') -> shown log d tok thumb -> shown log' d tok thumb.
Proof. intros Hl [(b & Hb & E)|(l & r & Hb & Hr & E)]; [left; eauto|right; eauto 10]. Qed.

(** Rows of challenges and authorizations stay, up to their status. *)
Definition kept (st st' : state) : Prop :=
  (forall c, In c (challenges st) -> exists c', In c' (challenges st') /\ c_token c' = c_token c /\
     c_authorization_id c' = c_authorization_id c) /\
  (forall z, In z (authzs st) -> exists z', In z' (authzs st') /\
     z_authorization_id z' = z_authorization_id z /\ z_identifier z' = z_identifier z).

Lemma kept_refl st st' : challenges st' = challenges st -> authzs st' = authzs st -> kept st st'.
Proof. intros Hc Hz. split; rewrite ?Hc, ?Hz; eauto. Qed.

Lemma controlled_mono st st' log log' i :
  kept st st' -> (forall x, In x log -> In x log') -> controlled st log i -> controlled st' log' i.
Proof.
  intros [Hc Hz] Hl (v & c & thumb & Hv & [Hin (z & Hzin & Ez & Ei)] & Hs).
  destruct (Hc c Hin) as (c' & Hin' & E & Ea). destruct (Hz z Hzin) as (z' & Hzin' & Ez' & Ei').
  exists v, c', thumb. rewrite E. split; [done|]. split; [|by eapply shown_mono].
  split; [done|]. exists z'. split; [done|]. split; congruence.
Qed.

(** Tables that stay as they are keep the invariant. *)
Lemma inv_same st st' log :
  orders st' = orders st -> authzs st' = authzs st -> challenges st' = challenges st ->
  draws st <= draws st' -> inv st log -> inv st' log.
Proof.
  intros Ho Hz Hc Hd [I1 I2 I3 I4 I5 I6 I7]. split; rewrite ?Ho, ?Hz; try done.
  - intros o Hin. eapply drawn_mono; eauto.
  - intros z Hin. eapply drawn_mono; eauto.
  - intros z Hin. eapply drawn_mono; eauto.
  - intros z Hin Hv. eapply controlled_mono; [| |by apply I7]; [by apply kept_refl|done].
Qed.

(** Rows of an updated table come from rows with the same key fields. *)
Lemma update_map {A B} (g : A -> B) p f (l : list A) :
  (forall x, g (f x) = g x) -> List.map g (Table.update p f l) = List.map g l.
Proof.
  intros Hg. unfold Table.update. rewrite List.map_map. apply List.map_ext. intros x.
  by destruct (p x).
Qed.

Lemma In_all_valid id st z :
  all_valid id st = true -> In z (authzs st) -> z_order_id z = id -> z_status z = Valid.
Proof.
  unfold all_valid. rewrite forallb_forall. intros Hv Hz Hid. apply (bool_decide_eq_true_1 _), Hv.
  apply Table.In_all. split; [done|]. by apply String.eqb_eq.
Qed.

(** * Authorizations *)

(** The new authorization of an identifier: valid only as a copy of a valid one. *)
Lemma create_authorization_spec oid i acct now st :
  exists z, let st' := create_authorization oid i acct now st in
    authzs st' = authzs st ++ [z] /\ orders st' = orders st /\
    z_authorization_id z = token_urlsafe (draws st) /\ z_order_id z = oid /\ z_identifier z = i /\
    (z_status z = Valid -> exists v, In v (authzs st) /\ z_status v = Valid /\ z_identifier v = i) /\
    draws st < draws st' /\
    (forall c, In c (challenges st) -> In c (challenges st')).
Proof.
  unfold Acme.create_authorization.
  destruct (if Str.truthy acct then _ else _) as [v|] eqn:E.
  - eexists. cbn. split; [done|]. split; [done|]. split; [done|]. split; [done|]. split; [done|].
    split; [|split; [lia|intros; apply in_or_app; by left]]. intros _.
    destruct (Str.truthy acct); [|done]. apply Table.last_by_In, Table.In_all in E as [Hin E].
    rewrite !andb_true_iff in E. destruct E as [[[_ E1%Json.eqb_eq] E2%bool_decide_eq_true_1] _]. by exists v.
  - eexists. cbn. repeat (split; [done || lia|]). intros; apply in_or_app; by left.
Qed.

(** The loop over the identifiers of an order. *)
Lemma create_authorizations_spec oid acct now ids st :
  exists zs, let st' := fold_left (fun st i => create_authorization oid i acct now st) ids st in
    authzs st' = authzs st ++ zs /\ orders st' = orders st /\
    List.map z_identifier zs = ids /\ draws st <= draws st' /\
    (forall z, In z zs -> z_order_id z = oid /\
       (z_status z = Valid -> exists v, In v (authzs st) /\ z_status v = Valid /\
                                        z_identifier v = z_identifier z)) /\
    (exists ks, NoDup ks /\ (forall k, k ∈ ks -> draws st <= k < draws st') /\
       List.map z_authorization_id zs = List.map token_urlsafe ks) /\
    (forall c, In c (challenges st) -> In c (challenges st')).
Proof.
  revert st. induction ids as [|i ids IH]; intros st; cbn [fold_left].
  { exists []. rewrite app_nil_r. do 4 (split; [done|]). split; [done|].
    split; [exists []; split; [constructor|]; split; [by intros ? ?%not_elem_of_nil|done]|done]. }
  destruct (create_authorization_spec oid i acct now st) as (z & Hz & Ho & Hid & Hoid & Hi & Hv & Hd & Hc).
  set (st1 := create_authorization oid i acct now st) in *.
  destruct (IH st1) as (zs & Hzs & Hos & His & Hds & Hall & (ks & Hks & Hr & Hm) & Hcs).
  exists (z :: zs). cbv zeta in *. rewrite Hzs, Hz, Hos, Ho, <-app_assoc.
  split; [done|]. split; [done|]. split; [simpl; by rewrite His, Hi|]. split; [lia|].
  split; [|split; [|auto]].
  - intros y [<-|Hy]; [by rewrite Hi|]. destruct (Hall y Hy) as [H1' H2']. split; [done|].
    intros Hyv. destruct (H2' Hyv) as (v & Hin & Hvv & Ev). rewrite Hz in Hin.
    apply in_app_or in Hin as [Hin|[<-|[]]]; [by exists v|].
    rewrite <-Ev, Hi. by apply Hv.
  - exists (draws st :: ks). split; [|split].
    + constructor; [|done]. intros Hin%Hr. lia.
    + intros k [->|Hk]%elem_of_cons; [lia|]. specialize (Hr k Hk). lia.
    + simpl. by rewrite Hid, Hm.
Qed.

(** * Each step keeps the invariant *)

Hypothesis tokens_differ : forall i j, token_urlsafe i = token_urlsafe j -> i = j.

(** An order all of whose authorizations are valid may become ready. *)
Lemma inv_ready id st log :
  all_valid id st = true -> inv st log ->
  inv (with_orders (Table.update (fun o => String.eqb (o_order_id o) id) (order_status Ready) (orders st)) st) log.
Proof.
  intros Hall [I1 I2 I3 I4 I5 I6 I7]. split; try done; cbn [orders with_orders].
  - intros x Hx. apply Table.In_update in Hx as (y & Hy & ->). destruct (String.eqb _ _); cbn; by apply I1.
  - intros x w Hx Hs Hw E. apply Table.In_update in Hx as (y & Hy & ->).
    destruct (String.eqb_spec (o_order_id y) id) as [Ey|]; [|by apply (I5 y w)].
    eapply In_all_valid; [exact Hall|exact Hw|]. cbn in E. congruence.
  - intros x i Hx Hi. apply Table.In_update in Hx as (y & Hy & ->).
    destruct (String.eqb _ _); cbn in *; by apply I6.
Qed.

(** An order row that is not settled and has no identifiers yet. *)
Lemma inv_new_order o st log :
  o_order_id o = token_urlsafe (draws st) -> o_status o = Pending -> Json.elements (o_identifiers o) = None ->
  inv st log -> inv (with_orders (orders st ++ [o]) (skip_draws 1 st)) log.
Proof.
  intros Hid Hst He [I1 I2 I3 I4 I5 I6 I7].
  assert (forall s, drawn st s -> drawn (skip_draws 1 st) s) as Hd by (intros s; apply drawn_mono; cbn; lia).
  split; cbn [orders with_orders]; try done; try (intros z Hz; by apply Hd; auto).
  - intros x [Hx|[<-|[]]]%in_app_or; [by apply Hd, I1|]. exists (draws st). cbn. split; [lia|done].
  - intros x z [Hx|[<-|[]]]%in_app_or Hs Hz E; [by apply (I5 x z)|]. rewrite Hst in Hs. by destruct Hs.
  - intros x i [Hx|[<-|[]]]%in_app_or Hi; [by apply I6|]. unfold items in Hi. by rewrite He in Hi.
Qed.

Lemma inv_create_order acct ids nb na now st log :
  inv st log -> inv (create_order acct ids nb na now st).1 log.
Proof.
  intros [I1 I2 I3 I4 I5 I6 I7]. unfold Acme.create_order.
  set (oid := token_urlsafe (draws st)). set (o := Order oid _ _ _ _ _ _ _ _ _ _ _).
  set (st1 := with_orders (orders st ++ [o]) (skip_draws 1 st)).
  destruct (Json.elements ids) as [l|] eqn:El; cbn [fst]; [|by apply (inv_new_order o); auto].
  destruct (create_authorizations_spec oid acct now l st1)
    as (zs & Hzs & Hos & His & Hds & Hall & (ks & Hks & Hr & Hm) & Hcs).
  set (st2 := fold_left _ l st1) in *. cbv zeta in *.
  change (authzs st1) with (authzs st) in *. change (orders st1) with (orders st ++ [o]) in *.
  change (draws st1) with (draws st + 1) in *. change (challenges st1) with (challenges st) in *.
  assert (forall s, drawn st s -> s <> oid) as Hfresh.
  { intros s (k & Hk & ->) E%tokens_differ. lia. }
  assert (forall s, drawn st s -> drawn st2 s) as Hdr by (intros s; apply drawn_mono; lia).
  assert (drawn st2 oid) as Hoid by (exists (draws st); split; [lia|done]).
  (* the state before the status of the new order is decided *)
  assert (inv st2 log) as Hinv.
  { split; rewrite ?Hzs, ?Hos.
    - intros x [Hx|[<-|[]]]%in_app_or; auto.
    - intros z [Hz|Hz]%in_app_or; [auto|]. by destruct (Hall z Hz) as [-> _].
    - intros z [Hz|Hz]%in_app_or; [auto|].
      assert (In (z_authorization_id z) (List.map token_urlsafe ks)) as Hin by (rewrite <-Hm; by apply in_map).
      apply in_map_iff in Hin as (k & <- & Hk%list_elem_of_In). exists k. split; [by apply Hr|done].
    - rewrite map_app, Hm. apply NoDup_app. split; [done|]. split.
      + intros s Hs%list_elem_of_In Hk%list_elem_of_In.
        apply in_map_iff in Hs as (z & <- & Hz). apply in_map_iff in Hk as (k & E & Hk%list_elem_of_In).
        destruct (I3 z Hz) as (k' & Hk' & E'). rewrite E' in E. apply tokens_differ in E as ->.
        specialize (Hr _ Hk). lia.
      + apply NoDup_fmap_2; [intros ?? E; by apply tokens_differ|done].
    - intros x z [Hx|[<-|[]]]%in_app_or Hs Hz E; [|by destruct Hs].
      apply in_app_or in Hz as [Hz|Hz]; [by eapply I5|].
      destruct (Hall z Hz) as [Ez _]. exfalso. apply (Hfresh (o_order_id x)); [by apply I1|congruence].
    - intros x i [Hx|[<-|[]]]%in_app_or Hi.
      + destruct (I6 x i Hx Hi) as (z & Hz & ?). exists z. split; [apply in_or_app; by left|done].
      + unfold items in Hi. cbn [o_identifiers o] in Hi. rewrite El in Hi. cbn [default from_option Datatypes.id] in Hi. rewrite <-His in Hi. apply in_map_iff in Hi as (z & <- & Hz).
        exists z. split; [apply in_or_app; by right|]. by destruct (Hall z Hz) as [-> _].
    - assert (forall z, In z (authzs st) -> z_status z = Valid -> controlled st2 log (z_identifier z)) as Hold.
      { intros z Hz Hv. eapply controlled_mono; [| |by apply I7]; [|done].
        split; [intros c Hc; exists c; auto|]. intros y Hy. exists y. rewrite Hzs.
        split; [apply in_or_app; by left|done]. }
      intros z [Hz|Hz]%in_app_or Hv; [auto|]. destruct (Hall z Hz) as [_ Hz'].
      destruct (Hz' Hv) as (v & Hin & Hvv & <-). auto. }
  destruct (all_valid oid st2) eqn:Eall; [by apply inv_ready|done].
Qed.

(** A change of a challenge that leaves its token alone. *)
Lemma inv_update_challenge c f st log :
  (forall x, c_token (f x) = c_token x /\ c_authorization_id (f x) = c_authorization_id x) ->
  inv st log -> inv (update_challenge c f st) log.
Proof.
  intros Hf [I1 I2 I3 I4 I5 I6 I7]. split; try done. intros z Hz Hv.
  eapply controlled_mono; [| |by apply I7]; [|done]. split; [|by eauto]. intros x Hx.
  exists (if String.eqb (c_challenge_id x) (c_challenge_id c) then f x else x). split.
  - apply Table.In_update. eauto.
  - destruct (String.eqb _ _); [apply Hf|done].
Qed.

Lemma inv_more_log st log log' : inv st log -> inv st (log' ++ log).
Proof.
  intros [I1 I2 I3 I4 I5 I6 I7]. split; try done. intros z Hz Hv.
  eapply controlled_mono; [| |by apply I7]; [by apply kept_refl|]. intros x Hx. apply in_or_app. by right.
Qed.

(** The authorization of a challenge becomes valid once its domain is controlled. *)
Lemma inv_update_authorization z st log :
  In z (authzs st) -> controlled st log (z_identifier z) -> inv st log ->
  inv (update_authorization_status z st) log.
Proof.
  intros Hz Hcon Hinv. unfold update_authorization_status. destruct (existsb _ _); [|done].
  destruct Hinv as [I1 I2 I3 I4 I5 I6 I7].
  set (p := fun y => String.eqb (z_authorization_id y) (z_authorization_id z)).
  set (st1 := with_authzs (Table.update p (authz_status Valid) (authzs st)) st).
  assert (forall x, In x (authzs st1) -> exists y, In y (authzs st) /\
    z_order_id x = z_order_id y /\ z_authorization_id x = z_authorization_id y /\
    z_identifier x = z_identifier y /\
    (z_status y = Valid -> z_status x = Valid) /\
    (z_status x = Valid -> z_status y = Valid \/ z_authorization_id y = z_authorization_id z)) as Hrow.
  { intros x Hx. apply Table.In_update in Hx as (y & Hy & ->). exists y. unfold p.
    destruct (String.eqb_spec (z_authorization_id y) (z_authorization_id z)); cbn; auto 10. }
  assert (forall i, controlled st log i -> controlled st1 log i) as Hkept.
  { intros i. apply controlled_mono; [|done]. split; [by eauto|]. intros y Hy.
    exists (if p y then authz_status Valid y else y). split; [apply Table.In_update; eauto|]. by destruct (p y). }
  assert (inv st1 log) as Hinv1.
  { split.
    - done.
    - intros x Hx. destruct (Hrow x Hx) as (y & Hy & -> & _). by apply I2.
    - intros x Hx. destruct (Hrow x Hx) as (y & Hy & _ & -> & _). by apply I3.
    - unfold st1. cbn [authzs with_authzs]. rewrite update_map by done. exact I4.
    - intros o x Ho Hs Hx E. destruct (Hrow x Hx) as (y & Hy & E1 & _ & _ & Hyv & _).
      apply Hyv. apply (I5 o y Ho Hs Hy). congruence.
    - intros o i Ho Hi. destruct (I6 o i Ho Hi) as (y & Hy & E1 & E2).
      exists (if p y then authz_status Valid y else y). split; [apply Table.In_update; eauto|].
      by destruct (p y).
    - intros x Hx Hv. destruct (Hrow x Hx) as (y & Hy & _ & _ & -> & _ & Hyv).
      apply Hkept. destruct (Hyv Hv) as [Hyv'|Hid]; [by apply I7|].
      assert (y = z) as ->; [|exact Hcon]. clear -I4 Hy Hz Hid.
      induction (authzs st) as [|w l IH]; [done|]. simpl in *. apply NoDup_cons in I4 as [Hw Hl].
      destruct Hy as [->|Hy], Hz as [->|Hz]; [done|..|by apply IH].
      + exfalso. apply Hw. rewrite Hid. apply list_elem_of_In. by apply in_map.
      + exfalso. apply Hw. rewrite <-Hid. apply list_elem_of_In. by apply in_map. }
  destruct (all_valid (z_order_id z) st1) eqn:Eall; [by apply inv_ready|done].
Qed.

Lemma inv_http01 fetch c a now st st' ok log :
  In c (challenges st) -> validate_http01_challenge py_repr fetch c a now st = Some (st', ok) ->
  inv st log -> inv st' (observed_http fetch c st ++ log).
Proof.
  intros Hc. unfold validate_http01_challenge, observed_http.
  destruct (get_authorization (c_authorization_id c) st) as [z|] eqn:Ez; [|done]. cbn [mbind option_bind].
  destruct (identifier_value (z_identifier z)) as [v|] eqn:Ev; [|done]. cbn [mbind option_bind].
  apply Table.first_Some in Ez as [Hz Hzid%String.eqb_eq].
  destruct (fetch (http01_url (fstr v) (c_token c))) as [body|e] eqn:Ef.
  2: { intros [= <- _] Hi. by apply inv_update_challenge, inv_more_log. }
  destruct (String.eqb_spec (Str.strip body) (compute_key_authorization (c_token c) (a_jwk_thumbprint a)))
    as [Eb|]; intros [= <- _] Hi; [|by apply inv_update_challenge, inv_more_log].
  apply inv_update_authorization; [done| |by apply inv_update_challenge, inv_more_log].
  exists v, (if String.eqb (c_challenge_id c) (c_challenge_id c) then challenge_valid now c else c),
    (a_jwk_thumbprint a). split; [done|]. split; [split; [apply Table.In_update; eauto|]; exists z|];
    rewrite StrFacts.eqb_refl; [done|]. cbn [c_token challenge_valid].
  left. exists body. split; [by left|done].
Qed.

Lemma inv_dns01 resolve c a now st st' ok log :
  In c (challenges st) -> validate_dns01_challenge py_repr resolve c a now st = Some (st', ok) ->
  inv st log -> inv st' (observed_dns resolve c st ++ log).
Proof.
  intros Hc. unfold validate_dns01_challenge, observed_dns.
  destruct (get_authorization (c_authorization_id c) st) as [z|] eqn:Ez; [|done]. cbn [mbind option_bind].
  destruct (identifier_value (z_identifier z)) as [v|] eqn:Ev; [|done]. cbn [mbind option_bind].
  apply Table.first_Some in Ez as [Hz Hzid%String.eqb_eq].
  destruct (resolve (txt_name (fstr v))) as [l|e] eqn:Ef.
  2: { intros [= <- _] Hi. by apply inv_update_challenge, inv_more_log. }
  destruct (existsb _ l) eqn:Eb; intros [= <- _] Hi; [|by apply inv_update_challenge, inv_more_log].
  apply existsb_exists in Eb as (r & Hr & Er).
  apply inv_update_authorization; [done| |by apply inv_update_challenge, inv_more_log].
  exists v, (if String.eqb (c_challenge_id c) (c_challenge_id c) then challenge_valid now c else c),
    (a_jwk_thumbprint a). split; [done|]. split; [split; [apply Table.In_update; eauto|]; exists z|];
    rewrite StrFacts.eqb_refl; [done|]. cbn [c_token challenge_valid].
  right. exists l, r. split; [by left|done].
Qed.

(** What [finalize_order] does to the tables of the service. *)
Lemma sign_frame o csr ca cert_id refid serial now st (trail : T) st' trail' r :
  sign_certificate_with_ca library_error o csr ca cert_id refid serial now st trail = (st', trail', r) ->
  orders st' = orders st /\ authzs st' = authzs st /\ challenges st' = challenges st /\
  draws st' = draws st /\ nonces st' = nonces st /\ accounts st' = accounts st.
Proof.
  unfold sign_certificate_with_ca. destruct (match ca with Some r => _ | None => _ end) as [a|];
    [|by intros [= <- _ _]].
  destruct (negb _); [by intros [= <- _ _]|].
  destruct (Pki.sign_csr _ _ _ _ _ _ _ _ _) as [[d tr] [c|e]]; by intros [= <- _ _].
Qed.

Lemma finalize_rows id csr ca cert_id serial now st (trail : T) st' trail' r :
  finalize_order id csr ca cert_id serial now st trail = Some (st', trail', r) ->
  (st' = st /\ r <> None) \/
  (exists o f, get_order id st = Some o /\ o_status o = Ready /\
     orders st' = Table.update (fun x => String.eqb (o_order_id x) id) f (orders st) /\
     (forall x, o_order_id (f x) = o_order_id x /\ items (f x) = items x /\
                o_status (f x) = (if r is None then Valid else Invalid)) /\
     authzs st' = authzs st /\ challenges st' = challenges st /\ draws st' = draws st + 1).
Proof.
  unfold Acme.finalize_order. destruct (get_order id st) as [o|] eqn:Eo; [|intros [= <- _ <-]; by left].
  destruct (bool_decide_reflect (o_status o = Ready)) as [Er|]; cbn [negb]; [|intros [= <- _ <-]; by left].
  destruct (Pki.load_csr csr) as [q|]; [|intros [= <- _ <-]; by left].
  destruct (Json.elements _) as [ids|]; [|done]. cbn [mbind option_bind].
  destruct (order_domains _) as [ds|]; [|done]. cbn [mbind option_bind].
  destruct (same_set _ ds) as [[|]|]; cbn [mbind option_bind negb]; [|intros [= <- _ <-]; by left|done].
  destruct (sign_certificate_with_ca _ _ _ _ _ _ _ _ _ _) as [[st1 tr1] [cid|e]] eqn:Es;
    intros [= <- _ <-]; right; apply sign_frame in Es as (E1 & E2 & E3 & E4 & _).
  - exists o, (finalized base_url csr cid). cbn [orders with_orders authzs challenges draws].
    rewrite E1, E2, E3, E4. done.
  - exists o, (failed e). cbn [orders with_orders authzs challenges draws].
    rewrite E1, E2, E3, E4. done.
Qed.

Lemma inv_finalize id csr ca cert_id serial now st (trail : T) st' trail' r log :
  finalize_order id csr ca cert_id serial now st trail = Some (st', trail', r) ->
  inv st log -> inv st' log.
Proof.
  intros [[-> _]|(o & f & Ho & Hr & Eo & Hf & Ez & Ec & Ed)]%finalize_rows Hi; [done|].
  apply Table.first_Some in Ho as [Ho Hid%String.eqb_eq].
  assert (inv (with_orders (orders st') st) log) as Hi'.
  { destruct Hi as [I1 I2 I3 I4 I5 I6 I7]. split; try done; cbn [orders with_orders]; rewrite Eo.
    - intros x Hx. apply Table.In_update in Hx as (y & Hy & ->). destruct (String.eqb _ _); [|by apply I1].
      destruct (Hf y) as [-> _]. by apply I1.
    - intros x z Hx Hs Hz E. apply Table.In_update in Hx as (y & Hy & ->).
      destruct (String.eqb_spec (o_order_id y) id) as [Ey|]; [|by apply (I5 y z)].
      destruct (Hf y) as [E1 _]. apply (I5 o z Ho); [by left|done|]. congruence.
    - intros x i Hx Hin. apply Table.In_update in Hx as (y & Hy & ->). destruct (String.eqb _ _); [|by apply I6].
      destruct (Hf y) as (-> & E & _). rewrite E in Hin. by apply I6. }
  eapply inv_same; [..|exact Hi']; cbn; [done|done|done|lia].
Qed.

Lemma inv_step st log st' log' : inv st log -> step (st, log) (st', log') -> inv st' log'.
Proof.
  intros Hi Hs. inversion Hs; subst; try (eapply inv_same; [..|exact Hi]; cbn; done || lia).
  - unfold create_account in *. destruct (compute_jwk_thumbprint jwk) as [th|]; [|done].
    cbn [mbind option_bind] in *. destruct (Table.first _ _);
      match goal with E : Some _ = Some _ |- _ => injection E as <- <- end; [done|].
    eapply inv_same; [..|exact Hi]; cbn; done || lia.
  - by apply inv_create_order.
  - by eapply inv_http01.
  - by eapply inv_dns01.
  - by eapply inv_finalize.
Qed.

Lemma reachable_inv st log : reachable st log -> inv st log.
Proof.
  induction 1 as [st (E1 & E2 & E3)|st log st' log' _ IH Hs]; [|by eapply inv_step].
  split; rewrite ?E1, ?E2; try done. constructor.
Qed.

(** * Certificates and domain control *)

Lemma order_domains_In ids ds v :
  order_domains ids = Some ds -> In v ds ->
  exists kv, In (JDict kv) ids /\ Json.assoc "value" kv = Some v.
Proof.
  revert ds. induction ids as [|j ids IH]; intros ds; [by intros [= <-]|]. destruct j; try done.
  cbn [order_domains]. destruct (match Json.assoc "type" kv with Some t => _ | None => _ end).
  - destruct (Json.assoc "value" kv) as [w|] eqn:E; [|done]. cbn [mbind option_bind].
    destruct (order_domains ids) as [r|]; [|done]. cbn [mbind option_bind]. intros [= <-] [<-|Hv].
    + exists kv. split; [by left|done].
    + destruct (IH r eq_refl Hv) as (kv' & ? & ?). exists kv'. split; [by right|done].
  - intros Hd Hv. destruct (IH ds Hd Hv) as (kv' & ? & ?). exists kv'. split; [by right|done].
Qed.

Lemma same_set_In a b s : same_set a b = Some true -> In s a -> In (JStr s) b.
Proof.
  unfold same_set. destruct (negb _); [done|]. intros [= [Ha _]%andb_true_iff].
  rewrite forallb_forall in Ha. intros Hs. specialize (Ha s Hs).
  apply existsb_exists in Ha as (j & Hj & E). by apply (Json.eqb_eq (JStr s) j) in E as ->.
Qed.

(** What a successful finalization went through. *)
Lemma finalize_success id csr ca cert_id serial now st (trail : T) st' trail' :
  finalize_order id csr ca cert_id serial now st trail = Some (st', trail', None) ->
  exists o q ds, get_order id st = Some o /\ o_status o = Ready /\ Pki.load_csr csr = Some q /\
    order_domains (items o) = Some ds /\ same_set (extract_domains_from_csr q) ds = Some true.
Proof.
  unfold Acme.finalize_order. destruct (get_order id st) as [o|]; [|done].
  destruct (bool_decide_reflect (o_status o = Ready)) as [Er|]; cbn [negb]; [|done].
  destruct (Pki.load_csr csr) as [q|]; [|done].
  unfold items. destruct (Json.elements _) as [ids|] eqn:Ei; [|done]. cbn [mbind option_bind].
  destruct (order_domains _) as [ds|] eqn:Ed; [|done]. cbn [mbind option_bind].
  destruct (same_set _ ds) as [[|]|] eqn:Es; cbn [mbind option_bind negb]; [|done..].
  intros _. exists o, q, ds. rewrite Ei. done.
Qed.

(** C1: In every reachable state, a finalization that succeeds issues its
    certificate only for domains (the common name and every DNS name of the CSR) for
    which the server has itself seen the key authorization of the token of a challenge
    it issued for that very domain, under the domain's well-known URL or in its TXT
    records; this holds through every interleaving of orders, validations, reuse of
    authorizations and account changes. *)
Theorem certificates_need_domain_control st log id csr ca cert_id serial now (trail : T) st' trail' q :
  reachable st log ->
  finalize_order id csr ca cert_id serial now st trail = Some (st', trail', None) ->
  Pki.load_csr csr = Some q ->
  forall s, In s (extract_domains_from_csr q) ->
  exists c z thumb, In c (challenges st) /\ In z (authzs st) /\
    z_authorization_id z = c_authorization_id c /\ identifier_value (z_identifier z) = Some (JStr s) /\
    shown log s (c_token c) thumb.
Proof.
  intros Hr%reachable_inv Hf Hq s Hs. destruct Hr as [_ _ _ _ I5 I6 I7].
  apply finalize_success in Hf as (o & q' & ds & Ho & Hst & Hq' & Hds & Hset).
  assert (q' = q) as -> by congruence. apply Table.first_Some in Ho as [Ho _].
  pose proof (same_set_In _ _ _ Hset Hs) as Hin.
  destruct (order_domains_In _ _ _ Hds Hin) as (kv & Hkv & Hv).
  destruct (I6 o (JDict kv) Ho Hkv) as (z & Hz & Ez & Ei).
  assert (z_status z = Valid) as Hzv by (apply (I5 o z Ho); [by left|done|done]).
  destruct (I7 z Hz Hzv) as (v & c & thumb & Hv' & [Hc (y & Hy & Ey & Ei')] & Hshow).
  rewrite Ei in Hv', Ei'. cbn in Hv'. rewrite Hv in Hv'. injection Hv' as <-.
  exists c, y, thumb. rewrite Ei'. do 3 (split; [done|]). split; [cbn; by rewrite Hv|done].
Qed.

(** C9: In every reachable state an order is ready or valid only if all of its
    authorizations are valid, and each of its identifiers has one. *)
Theorem settled_orders_are_authorized st log o :
  reachable st log -> In o (orders st) -> o_status o = Ready \/ o_status o = Valid ->
  forall i, In i (items o) ->
  exists z, In z (authzs st) /\ z_order_id z = o_order_id o /\ z_identifier z = i /\ z_status z = Valid.
Proof.
  intros [_ _ _ _ I5 I6 _]%reachable_inv Ho Hs i Hi. destruct (I6 o i Ho Hi) as (z & Hz & E1 & E2).
  exists z. split; [done|]. split; [done|]. split; [done|]. by apply (I5 o z).
Qed.

(** A challenge may be answered again at any time: when it succeeds on an order
    that already has its certificate, the order goes back from valid to ready, so
    that it can be finalized a second time. *)
Theorem validated_again_reopens_order fetch c a now st st' z o :
  In c (challenges st) -> get_authorization (c_authorization_id c) st = Some z ->
  In o (orders st) -> o_order_id o = z_order_id z -> o_status o = Valid ->
  all_valid (z_order_id z) st = true ->
  validate_http01_challenge py_repr fetch c a now st = Some (st', true) ->
  exists o', In o' (orders st') /\ o_order_id o' = o_order_id o /\ o_status o' = Ready /\
    o_certificate_id o' = o_certificate_id o.
Proof.
  intros Hc Hz Ho Hid Hv Hall. unfold validate_http01_challenge. rewrite Hz. cbn [mbind option_bind].
  destruct (identifier_value (z_identifier z)) as [v|]; [|done]. cbn [mbind option_bind].
  destruct (fetch _); [|done]. destruct (String.eqb _ _); [|done]. intros [= <-].
  set (st1 := update_challenge c (challenge_valid now) st).
  apply Table.first_Some in Hz as [Hz Hzid%String.eqb_eq].
  unfold update_authorization_status.
  assert (existsb (fun x => bool_decide (c_status x = Valid)) (challenges_of (z_authorization_id z) st1)
          = true) as ->.
  { apply existsb_exists. exists (challenge_valid now c). split; [|done]. apply Table.In_all. split.
    - apply Table.In_update. exists c. split; [done|]. by autorewrite with ucm.
    - cbn. rewrite Hzid. apply StrFacts.eqb_refl. }
  set (st2 := with_authzs _ st1).
  assert (all_valid (z_order_id z) st2 = true) as ->.
  { unfold all_valid in *. rewrite forallb_forall in *. intros y [Hy Ey]%Table.In_all.
    apply Table.In_update in Hy as (w & Hw & ->). destruct (String.eqb (z_authorization_id w) _); [by apply bool_decide_eq_true_2|].
    apply Hall. by apply Table.In_all. }
  exists (order_status Ready o). split; [|done]. cbn [orders with_orders]. apply Table.In_update.
  exists o. split; [done|]. by rewrite Hid, StrFacts.eqb_refl.
Qed.

(** * Nonces *)

Inductive nonce_op := NGenerate (now : Z) | NValidate (tok : string) (now : Z) | NCleanup (now : Z).
Definition op_time (op : nonce_op) : Z :=
  match op with NGenerate t | NValidate _ t | NCleanup t => t end.
Definition nonce_step (op : nonce_op) (st : state) : state * bool :=
  match op with
  | NGenerate t => ((generate_nonce token_urlsafe t st).1, false)
  | NValidate tok t => validate_nonce tok t st
  | NCleanup t => ((cleanup_expired_nonces t st).1, false)
  end.
(** The validations of a token that succeed in a sequence of operations. *)
Fixpoint accepted (tok : string) (ops : list nonce_op) (st : state) : nat :=
  match ops with
  | [] => 0
  | op :: ops' =>
      let '(st', ok) := nonce_step op st in
      (match op with NValidate t _ => if ok && String.eqb t tok then 1 else 0 | _ => 0 end)
      + accepted tok ops' st'
  end.

(** No row of the token is usable at a time or later. *)
Definition spent (tok : string) (now : Z) (st : state) : Prop :=
  forall n, In n (nonces st) -> n_token n = tok -> n_used n = true \/ (n_expires_at n <= now)%Z.

Lemma spent_step tok op now st :
  spent tok now st -> (now <= op_time op)%Z -> drawn st tok ->
  spent tok (op_time op) (nonce_step op st).1 /\ drawn (nonce_step op st).1 tok /\
  match op with NValidate t _ => (nonce_step op st).2 && String.eqb t tok = false | _ => True end.
Proof.
  intros Hs Hn (k & Hk & Etok). destruct op as [t|t' t|t]; cbn [op_time nonce_step] in *.
  - split; [|split; [exists k; cbn; split; [lia|done]|done]]. intros n Hin E.
    apply in_app_or in Hin as [Hin|[<-|[]]]; [destruct (Hs n Hin E); [by left|right; lia]|].
    cbn in E. rewrite Etok in E. apply tokens_differ in E. lia.
  - split; [|split; [exists k; split; [exact Hk|done]|]].
    + intros n Hin E. apply Table.In_update in Hin as (m & Hm & ->).
      destruct (usable t' t m); [by left|]. destruct (Hs m Hm E); [by left|right; lia].
    + destruct (String.eqb_spec t' tok) as [->|]; [|apply andb_false_r]. rewrite andb_true_r.
      unfold validate_nonce. cbn [snd]. unfold Table.count. apply Nat.ltb_ge.
      destruct (Table.all (usable tok t) (nonces st)) as [|n l] eqn:E; [simpl; lia|].
      assert (In n (Table.all (usable tok t) (nonces st))) as Hin by (rewrite E; by left).
      apply Table.In_all in Hin as [Hin Hu]. unfold usable in Hu. rewrite !andb_true_iff in Hu.
      destruct Hu as [[E1%String.eqb_eq E2%negb_true_iff] E3%Z.ltb_lt].
      destruct (Hs n Hin E1); [congruence|lia].
  - split; [|split; [exists k; split; [exact Hk|done]|done]]. intros n Hin E.
    apply Table.In_delete in Hin as [Hin _]. destruct (Hs n Hin E); [by left|right; lia].
Qed.

Lemma spent_accepted tok ops now st :
  spent tok now st -> drawn st tok -> StronglySorted Z.le (now :: List.map op_time ops) ->
  accepted tok ops st = 0.
Proof.
  revert now st. induction ops as [|op ops IH]; intros now st Hs Hd Ho; [done|].
  simpl in Ho. apply StronglySorted_inv in Ho as [Ho Hf]. inversion_clear Hf as [|?? Hn _].
  destruct (spent_step tok op now st Hs Hn Hd) as (H1' & H2' & H3'). cbn [accepted].
  destruct (nonce_step op st) as [st' ok]. cbn [fst snd] in *. rewrite (IH _ _ H1' H2' Ho).
  destruct op; try done. by rewrite H3'.
Qed.

Lemma validate_spends tok now st : spent tok now (validate_nonce tok now st).1.
Proof.
  intros n Hin E. apply Table.In_update in Hin as (m & Hm & ->).
  destruct (usable tok now m) eqn:Eu; [by left|]. unfold usable in Eu. rewrite E, StrFacts.eqb_refl in Eu.
  destruct (n_used m); [by left|right]. cbn in Eu. apply Z.ltb_ge in Eu. lia.
Qed.

(** A nonce that was not presented yet is on record until its time is over. *)
Record live (tok : string) (until : Z) (st : state) : Prop := {
  live_row : In (Nonce tok until false None) (nonces st);
  live_until n : In n (nonces st) -> n_token n = tok -> (n_expires_at n <= until)%Z;
  live_drawn : drawn st tok;
}.
(** The operation presents the token in time. *)
Definition presents (tok : string) (until : Z) (op : nonce_op) : bool :=
  match op with NValidate t now => String.eqb t tok && (now <? until)%Z | _ => false end.

Lemma live_accepted tok until now st :
  live tok until st -> (now < until)%Z -> (validate_nonce tok now st).2 = true.
Proof.
  intros [Hl _ _] Hn. unfold validate_nonce, Table.count. cbn [snd]. apply Nat.ltb_lt.
  assert (In (Nonce tok until false None) (Table.all (usable tok now) (nonces st))) as Hin.
  { apply Table.In_all. split; [done|]. unfold usable. cbn. rewrite StrFacts.eqb_refl. by apply Z.ltb_lt. }
  destruct (Table.all _ _); [done|simpl; lia].
Qed.

Lemma live_step tok until op st :
  live tok until st -> presents tok until op = false -> (op_time op < until)%Z -> live tok until (nonce_step op st).1.
Proof.
  intros [Hl Hu (k & Hk & Etok)] Hp Ht. destruct op as [t|t' t|t]; cbn [nonce_step op_time presents fst] in *.
  - split; [apply in_or_app; by left| |exists k; cbn; split; [lia|done]].
    intros n [Hin|[<-|[]]]%in_app_or E; [by apply Hu|]. cbn in E. rewrite Etok in E. apply tokens_differ in E. lia.
  - rewrite (proj2 (Z.ltb_lt t until) Ht), andb_true_r in Hp. split; [| |by exists k].
    + apply Table.In_update. exists (Nonce tok until false None). split; [done|]. unfold usable. cbn.
      by rewrite String.eqb_sym, Hp.
    + intros n (m & Hm & ->)%Table.In_update E. destruct (usable t' t m); exact (Hu m Hm E).
  - split; [| |by exists k].
    + apply Table.In_delete. split; [done|]. cbn. apply Z.ltb_ge. lia.
    + intros n Hin%Table.In_delete_weaken. by apply Hu.
Qed.

Lemma too_late tok until ops :
  Forall (fun t => until <= t)%Z (List.map op_time ops) -> existsb (presents tok until) ops = false.
Proof.
  induction ops as [|op ops IH]; [done|]. intros [Hop Hops]%Forall_cons. cbn. rewrite (IH Hops), orb_false_r.
  destruct op; try done. cbn in *. rewrite (proj2 (Z.ltb_ge _ _) Hop). apply andb_false_r.
Qed.

Lemma live_accepted_once tok until ops st :
  live tok until st -> StronglySorted Z.le (List.map op_time ops) ->
  accepted tok ops st = if existsb (presents tok until) ops then 1 else 0.
Proof.
  revert st. induction ops as [|op ops IH]; intros st Hl Ho; [done|].
  pose proof Ho as [Hs Hf]%StronglySorted_inv. destruct (Z_lt_le_dec (op_time op) until) as [Ht|Ht].
  - cbn [accepted existsb]. pose proof (live_step tok until op st Hl) as Hstep.
    destruct (presents tok until op) eqn:Hp; cbn [orb].
    + destruct op as [| t now|]; try done. cbn in Hp. apply andb_true_iff in Hp as [->%String.eqb_eq _].
      cbn [op_time nonce_step] in *. pose proof (live_accepted tok until now st Hl Ht) as Hok.
      pose proof (validate_spends tok now st) as Hsp. destruct (validate_nonce tok now st) as [st' ok] eqn:Ev. cbn [fst snd] in *.
      subst ok. rewrite StrFacts.eqb_refl, (spent_accepted tok ops now); [done|done| |by constructor].
      destruct Hl as [_ _ (k & Hk & E)]. exists k. split; [|done]. injection Ev as <-. exact Hk.
    + specialize (Hstep eq_refl Ht). destruct (nonce_step op st) as [st' ok] eqn:Ev. cbn [fst] in Hstep.
      rewrite (IH st' Hstep Hs). destruct op as [|t now|]; try done. cbn in Hp.
      rewrite (proj2 (Z.ltb_lt now until) Ht), andb_true_r in Hp. by rewrite Hp, andb_false_r.
  - rewrite too_late.
    + apply (spent_accepted _ _ (op_time op)); [|apply (live_drawn _ _ _ Hl)|constructor; [exact Ho|constructor; [lia|exact Hf]]].
      intros n Hin E. right. pose proof (live_until _ _ _ Hl n Hin E). lia.
    + constructor; [done|]. eapply Forall_impl; [exact Hf|]. cbn. lia.
Qed.

(** C10: A nonce the server hands out is accepted exactly once: whatever is generated,
    validated and cleaned up before and after, with a clock that does not go back, the first
    request that presents it within the hour is let through, and no other. *)
Theorem nonce_single_use t0 st ops :
  (forall n, In n (nonces st) -> drawn st (n_token n)) -> StronglySorted Z.le (t0 :: List.map op_time ops) ->
  let '(st1, tok) := generate_nonce token_urlsafe t0 st in
  accepted tok ops st1 = if existsb (presents tok (t0 + Time.hours 1)) ops then 1 else 0.
Proof.
  intros Hd [Ho _]%StronglySorted_inv. unfold generate_nonce. apply live_accepted_once; [|done].
  split; [apply in_or_app; right; by left| |exists (draws st); split; [cbn; lia|done]].
  intros n [(k & Hk & E)%Hd|[<-|[]]]%in_app_or E'; [|done]. rewrite E in E'. apply tokens_differ in E'. lia.
Qed.

End Facts.
(** * A run of the server: an order for [evil.example], validated and finalized *)
Module Run.

#[local] Existing Instance list_sink.
#[local] Existing Instance PkiWitness.toy_x509.

Definition toks (n : nat) : string := Num.str (Z.of_nat n).
Lemma toks_differ i j : toks i = toks j -> i = j.
Proof. intros E%NumFacts.str_inj_nonneg; lia. Qed.

Definition alice : account := Account "A" JNull "thumb" None Valid (Some true) 0.
Definition identifier : json := JDict [("type", JStr "dns"); ("value", JStr "evil.example")].
Definition s0 : state := State [alice] [] [] [] [] (Pki.Db [PkiWitness.root] [] []) [] [] None 0.
Definition s1 : state := (create_order toks "" "A" (JList [identifier]) None None 0 s0).1.
(** The client serves the key authorization of any token. *)
Definition fetch (url : string) : string + string :=
  if String.eqb url "http://evil.example/.well-known/acme-challenge/2" then inl "2.thumb"
  else inr "refused".
Definition http_challenge (s : status) : challenge :=
  Challenge "4" "1" "http-01" s "2" (Some "/acme/challenge/3") (if decide (s = Valid) then Some 0%Z else None) None.
Definition no_repr (j : json) : string := "".
Definition s2 : state := from_option fst s1 (validate_http01_challenge no_repr fetch (http_challenge Pending) alice 0 s1).
Definition seen : list observation := [Http "http://evil.example/.well-known/acme-challenge/2" "2.thumb"].
Definition finalized_run : option (state * list string * option finalize_error) :=
  finalize_order toks "" "error" "0" "CSR" None 7 12345678901 0 s2 [].
Definition s3 : state := from_option (fun r => r.1.1) s2 finalized_run.

Lemma s1_reachable : reachable toks no_repr "" "error" s1 [].
Proof.
  apply (reach_step toks no_repr "" "error" s0 []); [by apply reach_init|].
  exact (step_create_order toks no_repr "" "error" "A" (JList [identifier]) None None 0 s0 []).
Qed.
Lemma s2_reachable : reachable toks no_repr "" "error" s2 seen.
Proof.
  apply (reach_step toks no_repr "" "error" s1 [] _ _ s1_reachable).
  apply (step_http01 toks no_repr "" "error" fetch (http_challenge Pending) alice 0 s1 s2 true []).
  - vm_compute. by left.
  - vm_compute. reflexivity.
Qed.
Lemma finalized_ok : finalized_run = Some (s3, ["csr_signed"], None).
Proof. vm_compute. reflexivity. Qed.

Lemma certificates_need_domain_control_witness :
  exists c z thumb, In c (challenges s2) /\ In z (authzs s2) /\
    z_authorization_id z = c_authorization_id c /\
    identifier_value (z_identifier z) = Some (JStr "evil.example") /\
    shown seen "evil.example" (c_token c) thumb.
Proof.
  exact (certificates_need_domain_control toks no_repr "" "error" toks_differ s2 seen "0" "CSR" None 7
    12345678901 0 [] s3 ["csr_signed"] PkiWitness.q0 s2_reachable finalized_ok eq_refl "evil.example"
    ltac:(vm_compute; by left)).
Defined.

Lemma settled_orders_witness :
  exists z, In z (authzs s2) /\ z_identifier z = identifier /\ z_status z = Valid.
Proof.
  destruct (settled_orders_are_authorized toks no_repr "" "error" toks_differ s2 seen
    (order_status Ready (Order "0" "A" Pending (JList [identifier]) None None None None None None 0 (Time.days 7)))
    s2_reachable ltac:(vm_compute; by left) ltac:(by left) identifier ltac:(by left))
    as (z & Hz & _ & Hi & Hv).
  exact (ex_intro _ z (conj Hz (conj Hi Hv))).
Defined.

(** The same challenge once more, after the certificate was issued. *)
Definition s4 : option (state * bool) :=
  validate_http01_challenge no_repr fetch (http_challenge Valid) alice 0 s3.
Lemma reopened_witness :
  exists o', In o' (orders (from_option fst s3 s4)) /\ o_order_id o' = "0" /\ o_status o' = Ready /\
    o_certificate_id o' = Some 7%Z.
Proof.
  exact (validated_again_reopens_order no_repr fetch (http_challenge Valid) alice 0 s3 (from_option fst s3 s4)
    (authz_status Valid (Authorization "1" "0" identifier Pending (Time.days 7)))
    (finalized "" "CSR" 7 (Order "0" "A" Ready (JList [identifier]) None None None None None None 0 (Time.days 7)))
    ltac:(vm_compute; by left) ltac:(vm_compute; reflexivity) ltac:(vm_compute; by left)
    ltac:(vm_compute; reflexivity) ltac:(vm_compute; reflexivity) ltac:(vm_compute; reflexivity)
    ltac:(vm_compute; reflexivity)).
Defined.

Lemma nonce_single_use_witness :
  accepted toks "0" [NValidate "other" 5; NCleanup 8; NValidate "0" 10; NGenerate 20; NValidate "0" 20; NCleanup 4000; NValidate "0" 4000]
    (generate_nonce toks 0 s0).1 = 1.
Proof.
  apply (nonce_single_use toks toks_differ 0 s0
    [NValidate "other" 5; NCleanup 8; NValidate "0" 10; NGenerate 20; NValidate "0" 20; NCleanup 4000; NValidate "0" 4000]).
  - intros n [].
  - cbn. repeat constructor; lia.
Defined.

End Run.

End AcmeFacts.
