(* ===== verification/AcmeApi.v ===== *)
(** The HTTP endpoints of the ACME server: [api/acme/acme_api.py].

    A request is the value [request.get_json()] returns ([None] when it raises), the
    reply a status, a body and the headers the handler sets.  Every handler runs at
    one moment [now].  [fetch] and [resolve] answer the queries a challenge makes;
    [cert_id] and [serial] are the key and the serial number of a new certificate. *)
From S2P Require Import Prelude Base64 Hashes AuditSink AuditLog Pki LocalDomains Acme.

Module AcmeApi.
Import Acme Base64.
Local Open Scope string_scope.
Local Open Scope list_scope.

(** * Padded base64 *)

(** [s + '=' * (4 - len(s) % 4)] *)
Definition padded (s : string) : string :=
  s ^+ Str.take (4 - String.length s mod 4) "====".

Example decode_examples :
  List.map (fun s => urlsafe_b64decode (padded s)) ["aGk"; "aGk_"; "YQ"; "YWJj"; "a"]
  = [Some "hi"; Some ("hi" ^+ String (ascii_of_N 63) ""); Some "a"; Some "abc"; None].
Proof. vm_compute. reflexivity. Qed.

(** * Third-party code and text formats *)

Inductive digest := SHA256 | SHA384 | SHA512.
Inductive scheme := PKCS1v15 (d : digest) | ECDSA (d : digest).
(** The signature handed to the library: octets, or the DER encoding of two numbers. *)
Inductive signature := Octets (s : string) | DssSignature (r s : Z).

(** josepy, cryptography, [json.loads] and [datetime.fromisoformat]; the text of a
    dict or list in an error message is left open as well. *)
Class Jose := {
  key : Type;
  (** [decode('utf-8')] and [json.loads] *)
  utf8 : string -> option string;
  loads : string -> option json;
  fromisoformat : string -> option Z;
  load_rsa : json -> option key;
  load_ec : json -> option key;
  (** [public_key.key.verify] does not raise *)
  key_verify : key -> scheme -> signature -> string -> bool;
  (** a DER request as PEM text; the serial number of a DER certificate *)
  csr_der_to_pem : string -> option string;
  cert_serial : string -> option Z;
}.

(** * Replies *)

Inductive body := BJson (j : json) | BText (s : string).
Inductive response :=
| Response (code : Z) (b : body) (headers : list (string * string))
| Raised.

Definition response_code (r : response) : Z := match r with Response c _ _ => c | Raised => 500 end.

(** [get_acme_service]: the service is made at the first request and keeps its host. *)
Definition get_acme_service (cached : option string) (scheme host : string) : string :=
  match cached with Some u => u | None => scheme ^+ "://" ^+ host end.

Section Api.
Context `{Hashes} (token_urlsafe : nat -> string) (py_repr : json -> string) (base_url : string).
Context `{Pki.X509} {T} `{AuditSink T} (library_error : string) `{Jose}.

#[local] Abbreviation fstr := (fstr py_repr).

Definition link_index : string := "<" ^+ base_url ^+ "/acme/directory>;rel=" ^+ Json.quoted "index".
Definition link_up (url : string) : string := "<" ^+ url ^+ ">;rel=" ^+ Json.quoted "up".

(** [acme_response], with the headers the handler adds afterwards *)
Definition acme_response (data : json) (code : Z) (more : list (string * string)) (now : Z) (st : state)
  : state * response :=
  let '(st, tok) := generate_nonce token_urlsafe now st in
  (st, Response code (BJson data)
         ([("Content-Type", "application/json"); ("Replay-Nonce", tok); ("Link", link_index)] ++ more)).

(** [acme_error] *)
Definition acme_error (kind detail : string) (code : Z) (now : Z) (st : state) : state * response :=
  let '(st, tok) := generate_nonce token_urlsafe now st in
  (st, Response code
         (BJson (JDict [("type", JStr ("urn:ietf:params:acme:error:" ^+ kind)); ("detail", JStr detail);
                        ("status", JInt code)]))
         [("Content-Type", "application/problem+json"); ("Replay-Nonce", tok); ("Link", link_index)]).
Definition internal : Z -> state -> state * response := acme_error "serverInternal" "Internal server error" 500.

(** * JSON web signatures *)

Inductive decoded := Loaded (j : json) | BadJson | BadText.
Definition decode_text (s : string) : option string := urlsafe_b64decode (padded s) ≫= utf8.
(** A segment of the signed object, padded and decoded. *)
Definition decode_segment (s : json) : decoded :=
  match s with
  | JStr t =>
      match decode_text t with
      | Some text => match loads text with Some j => Loaded j | None => BadJson end
      | None => BadText
      end
  | _ => BadText
  end.
(** The payload may be empty. *)
Definition decode_payload (s : json) : decoded :=
  if negb (Json.truthy s) then Loaded (JDict [])
  else match s with
  | JStr t =>
      match decode_text t with
      | Some EmptyString => Loaded (JDict [])
      | Some text => match loads text with Some j => Loaded j | None => BadJson end
      | None => BadText
      end
  | _ => BadText
  end.

Definition py_type (j : json) : string :=
  let name := match j with
    | JNull => "NoneType" | JBool _ => "bool" | JInt _ => "int" | JStr _ => "str"
    | JList _ => "list" | JDict _ => "dict" end in
  "<class '" ^+ name ^+ "'>".

(** [int.from_bytes(s, 'big')] *)
Definition from_bytes (s : string) : Z :=
  List.fold_left (fun n c => (n * 256 + Z.of_N (Str.code c))%Z) (String.list_ascii_of_string s) 0%Z.

Definition rsa_digest (alg : string) : option digest :=
  Json.assoc alg [("RS256", SHA256); ("RS384", SHA384); ("RS512", SHA512)].
Definition ec_digest (alg : string) : option (digest * nat) :=
  Json.assoc alg [("ES256", (SHA256, 32)); ("ES384", (SHA384, 48)); ("ES512", (SHA512, 66))].
Definition ec_signature (size : nat) (s : string) : signature :=
  if (String.length s =? 2 * size)%nat
  then DssSignature (from_bytes (Str.take size s)) (from_bytes (Str.drop size s))
  else Octets s.

(** The check of the signature under a key; [Some] is the error. *)
Definition SIGNATURE_ERROR := "Signature verification error".
Definition check_signature (jws protected key_to_verify : json) : option string :=
  if negb (Json.is_dict key_to_verify)
  then Some ("Key is not a dict, it's a " ^+ py_type key_to_verify ^+ ": " ^+ fstr key_to_verify)
  else
    let kty := Json.get_or "kty" JNull key_to_verify in
    let is_kty s := Json.eqb kty (JStr s) in
    if negb (is_kty "RSA" || is_kty "EC") then Some ("Unsupported key type: " ^+ fstr kty)
    else match (if is_kty "RSA" then load_rsa key_to_verify else load_ec key_to_verify) with
    | None => Some SIGNATURE_ERROR
    | Some k =>
        match Json.get "protected" jws, Json.get "payload" jws, Json.get_or "signature" (JStr "") jws with
        | Some (JStr p), Some (JStr q), JStr sig64 =>
            let signing_input := p ^+ "." ^+ q in
            match urlsafe_b64decode (padded sig64) with
            | None => Some SIGNATURE_ERROR
            | Some sig =>
                let alg := Json.get_or "alg" JNull protected in
                if negb (Json.truthy alg) then Some "Missing 'alg' in protected header"
                else match alg with
                | JStr a =>
                    if Str.startswith a "RS" then
                      match rsa_digest a with
                      | None => Some ("Unsupported RSA algorithm: " ^+ a)
                      | Some d =>
                          if key_verify k (PKCS1v15 d) (Octets sig) signing_input then None
                          else Some "Signature verification failed"
                      end
                    else if Str.startswith a "ES" then
                      match ec_digest a with
                      | None => Some ("Unsupported EC algorithm: " ^+ a)
                      | Some (d, size) =>
                          if key_verify k (ECDSA d) (ec_signature size sig) signing_input then None
                          else Some "Signature verification failed"
                      end
                    else Some ("Unsupported signature algorithm: " ^+ a)
                | _ => Some SIGNATURE_ERROR
                end
            end
        | _, _, _ => Some SIGNATURE_ERROR
        end
    end.

Inductive verdict := Accepted (payload jwk : json) | Refused (error : string).
Definition JWS_ERROR := "JWS verification error".
Definition JSON_ERROR := "Invalid JSON in JWS".

(** The checks after the nonce was consumed. *)
Definition verify_signed (jws protected : json) (account_key : option json) : verdict :=
  let jwk := Json.get_or "jwk" JNull protected in
  let kid := Json.get_or "kid" JNull protected in
  if negb (Json.truthy jwk) && negb (Json.truthy kid)
  then Refused "Must provide either 'jwk' or 'kid' in protected header"
  else match Json.get "payload" jws with
  | None => Refused "Missing 'payload' field in JWS"
  | Some payload64 =>
      match decode_payload payload64 with
      | BadJson => Refused JSON_ERROR
      | BadText => Refused JWS_ERROR
      | Loaded payload =>
          let key_to_verify := if Json.truthy jwk then Some jwk
            else match account_key with
                 | Some k => if Json.truthy k then Some k else None
                 | None => None
                 end in
          match key_to_verify with
          | None => Accepted payload jwk
          | Some k => match check_signature jws protected k with
                      | Some e => Refused e
                      | None => Accepted payload jwk
                      end
          end
      end
  end.

(** [verify_jws] *)
Definition verify_jws (jws : json) (expected_url : string) (account_key : option json) (now : Z)
    (st : state) : state * verdict :=
  match Json.contains "protected" jws with
  | None => (st, Refused JWS_ERROR)
  | Some false => (st, Refused "Missing 'protected' field in JWS")
  | Some true =>
      match Json.get "protected" jws with
      | None => (st, Refused JWS_ERROR)
      | Some protected64 =>
          match decode_segment protected64 with
          | BadJson => (st, Refused JSON_ERROR)
          | BadText => (st, Refused JWS_ERROR)
          | Loaded protected =>
              if negb (Json.is_dict protected) then (st, Refused JWS_ERROR)
              else
                let url := Json.get_or "url" JNull protected in
                if negb (Json.eqb url (JStr expected_url))
                then (st, Refused ("URL mismatch: expected " ^+ expected_url ^+ ", got " ^+ fstr url))
                else
                  let nonce := Json.get_or "nonce" JNull protected in
                  if negb (Json.truthy nonce) then (st, Refused "Missing nonce in protected header")
                  else match Json.bind_text nonce with
                  | None => (st, Refused JWS_ERROR)
                  | Some tok =>
                      let '(st, ok) := validate_nonce tok now st in
                      if negb ok then (st, Refused "Invalid or expired nonce")
                      else (st, verify_signed jws protected account_key)
                  end
          end
      end
  end.

(** * What the handlers share *)

(** The prologue of the handlers whose body is in a [try]. *)
Definition with_jws (request : option json) (expected_url : string) (now : Z) (st : state)
    (handler : json -> json -> state -> state * response) : state * response :=
  match request with
  | None => internal now st
  | Some jws =>
      if negb (Json.truthy jws) then acme_error "malformed" "Request body must be JWS" 400 now st
      else match verify_jws jws expected_url None now st with
      | (st, Refused e) => acme_error "malformed" ("Invalid JWS: " ^+ e) 400 now st
      | (st, Accepted payload jwk) => handler payload jwk st
      end
  end.

(** The prologue of the others: an empty body is not verified ([None]). *)
Definition with_optional_jws (request : option json) (expected_url : string) (now : Z) (st : state)
    (handler : option json -> state -> state * response) : state * response :=
  match request with
  | None => (st, Raised)
  | Some jws =>
      if negb (Json.truthy jws) then handler None st
      else match verify_jws jws expected_url None now st with
      | (st, Refused e) => acme_error "malformed" ("Invalid JWS: " ^+ e) 400 now st
      | (st, Accepted payload _) => handler (Some payload) st
      end
  end.

(** [url.split('/')[-1] if url else None]; the outer [None] is an AttributeError. *)
Definition last_segment (url : json) : option (option string) :=
  if negb (Json.truthy url) then Some None
  else match url with JStr s => Some (last (Str.split "/" s)) | _ => None end.
(** The account id of the [kid] in the protected header, decoded once more. *)
Definition kid_account (jws : json) : option (option string) :=
  match decode_segment (Json.get_or "protected" (JStr "") jws) with
  | Loaded (JDict kv) => last_segment (Json.get_or "kid" (JStr "") (JDict kv))
  | _ => None
  end.

Definition acct_url (id : string) : string := base_url ^+ "/acme/acct/" ^+ id.
Definition order_url (id : string) : string := base_url ^+ "/acme/order/" ^+ id.
Definition authz_url (id : string) : string := base_url ^+ "/acme/authz/" ^+ id.
Definition zulu (t : Z) : json := JStr (Time.isoformat "T" t ^+ "Z").
Definition opt_member {A} (k : string) (f : A -> json) (v : option A) : list (string * json) :=
  match v with Some x => [(k, f x)] | None => [] end.

Definition contact_of (a : account) : json := default (JList []) (a_contact a).
Definition terms_of (a : account) : json :=
  match a_terms_of_service_agreed a with Some b => JBool b | None => JNull end.
Definition order_body (o : order) (st : state) : list (string * json) :=
  [("status", JStr (status_text (o_status o))); ("expires", zulu (o_expires o));
   ("identifiers", o_identifiers o);
   ("authorizations", Json.strings (List.map (fun z => authz_url (z_authorization_id z))
                                      (authzs_of (o_order_id o) st)));
   ("finalize", JStr (order_url (o_order_id o) ^+ "/finalize"))].
Definition certificate_member (o : order) : list (string * json) :=
  match o_certificate_url o with
  | Some u => if Str.truthy u then [("certificate", JStr u)] else []
  | None => []
  end.
Definition challenge_body (c : challenge) : list (string * json) :=
  [("type", JStr (c_type c)); ("status", JStr (status_text (c_status c)));
   ("url", match c_url c with Some u => JStr u | None => JNull end); ("token", JStr (c_token c))]
  ++ opt_member "validated" zulu (c_validated c) ++ opt_member "error" Datatypes.id (c_error c).

(** * Directory and nonces *)

Definition directory (host : string) (now : Z) (st : state) : state * response :=
  acme_response (JDict (List.map (fun p => (p.1, JStr p.2)) (get_directory base_url) ++
    [("meta", JDict [("termsOfService", JStr (base_url ^+ "/acme/terms"));
                     ("website", JStr "https://github.com/fabriziosalmi/ultimate-ca-manager");
                     ("caaIdentities", Json.strings [host]); ("externalAccountRequired", JBool false)])]))
    200 [] now st.

Definition new_nonce (now : Z) (st : state) : state * response :=
  let '(st, tok) := generate_nonce token_urlsafe now st in
  (st, Response 204 (BText "") [("Replay-Nonce", tok); ("Cache-Control", "no-store")]).

(** * Accounts *)

(** What the boolean column takes; the inner [None] is NULL. *)
Definition bool_column (j : json) : option (option bool) :=
  match j with
  | JBool b => Some (Some b)
  | JNull => Some None
  | JInt 0 => Some (Some false)
  | JInt 1 => Some (Some true)
  | _ => None
  end.
Definition account_reply (a : account) (code : Z) : Z -> state -> state * response :=
  acme_response (JDict [("status", JStr (status_text (a_status a))); ("contact", contact_of a);
                        ("termsOfServiceAgreed", terms_of a);
                        ("orders", JStr (acct_url (a_account_id a) ^+ "/orders"))])
    code [("Location", acct_url (a_account_id a))].

(** [new_account].  When the INSERT is refused the session is unusable and the error
    reply, which needs a nonce, fails too. *)
Definition new_account (request : option json) (now : Z) (st : state) : state * response :=
  with_jws request (base_url ^+ "/acme/new-account") now st (fun payload jwk st =>
    if negb (Json.truthy jwk)
    then acme_error "malformed" "JWK required in protected header for new-account" 400 now st
    else if negb (Json.is_dict payload) then internal now st
    else
      let contact := Json.get_or "contact" (JList []) payload in
      let terms_agreed := Json.get_or "termsOfServiceAgreed" (JBool false) payload in
      let only_return_existing := Json.get_or "onlyReturnExisting" (JBool false) payload in
      if Json.truthy only_return_existing then
        match compute_jwk_thumbprint jwk with
        | None => internal now st
        | Some thumb =>
            match Table.first (fun a => String.eqb (a_jwk_thumbprint a) thumb) (accounts st) with
            | None => acme_error "accountDoesNotExist" "Account does not exist" 400 now st
            | Some a => account_reply a 200 now st
            end
        end
      else
        let terms := bool_column terms_agreed in
        match create_account token_urlsafe jwk contact (default None terms) now st with
        | None => internal now st
        | Some (st', (a, is_new)) =>
            if is_new && bool_decide (terms = None) then (st, Raised)
            else account_reply a (if is_new : bool then 201 else 200) now st'
        end).

(** [account_info] *)
Definition set_contact (c : json) (a : account) : account :=
  Account (a_account_id a) (a_jwk a) (a_jwk_thumbprint a) (Some c) (a_status a)
    (a_terms_of_service_agreed a) (a_created_at a).
Definition update_account (id : string) (f : account -> account) (st : state) : state :=
  with_accounts (Table.update (fun b => String.eqb (a_account_id b) id) f (accounts st)) st.
Definition account_changes (payload : json) (a : account) : account :=
  let a := if Json.eqb (Json.get_or "status" JNull payload) (JStr "deactivated")
           then account_status Deactivated a else a in
  match Json.get "contact" payload with Some c => set_contact c a | None => a end.
Definition account_view (a : account) : Z -> state -> state * response :=
  acme_response (JDict [("status", JStr (status_text (a_status a))); ("contact", contact_of a);
                        ("orders", JStr (acct_url (a_account_id a) ^+ "/orders"))])
    200 [("Location", acct_url (a_account_id a))].
Definition account_info (account_id : string) (request : option json) (now : Z) (st : state)
  : state * response :=
  match get_account_by_kid (Some account_id) st with
  | None => acme_error "accountDoesNotExist" "Account not found" 404 now st
  | Some a =>
      with_optional_jws request (acct_url account_id) now st (fun payload st =>
        match payload with
        | None => account_view a now st
        | Some payload =>
            if negb (Json.truthy payload) then account_view a now st
            else if negb (Json.is_dict payload) then (st, Raised)
            else account_view (account_changes payload a) now
                   (update_account account_id (account_changes payload) st)
        end)
  end.

(** [key_change] *)
Definition set_key (jwk : json) (thumb : string) (a : account) : account :=
  Account (a_account_id a) jwk thumb (a_contact a) (a_status a) (a_terms_of_service_agreed a)
    (a_created_at a).
Definition key_change (request : option json) (now : Z) (st : state) : state * response :=
  with_jws request (base_url ^+ "/acme/key-change") now st (fun payload jwk st =>
    if negb (Json.truthy payload) then acme_error "malformed" "Payload required" 400 now st
    else if negb (Json.is_dict payload) then internal now st
    else
      let old_key := Json.get_or "oldKey" (JDict []) payload in
      match last_segment (Json.get_or "account" (JStr "") payload) with
      | None => internal now st
      | Some account_id =>
          if negb (Str.truthy (default "" account_id))
          then acme_error "malformed" "Account URL required" 400 now st
          else match get_account_by_kid account_id st with
          | None => acme_error "accountDoesNotExist" "Account not found" 404 now st
          | Some a =>
              if negb (Json.truthy old_key) || negb (Json.py_eq old_key (a_jwk a))
              then acme_error "malformed" "Old key does not match account key" 400 now st
              else if negb (Json.truthy jwk) then account_view a now st
              else match compute_jwk_thumbprint jwk with
              | None =>
                  (* the new key alone is written by the commit of the error reply *)
                  internal now (update_account (a_account_id a) (set_key jwk (a_jwk_thumbprint a)) st)
              | Some thumb =>
                  if existsb (fun b => String.eqb (a_jwk_thumbprint b) thumb &&
                                       negb (String.eqb (a_account_id b) (a_account_id a))) (accounts st)
                  then (st, Raised) (* UNIQUE constraint *)
                  else account_view (set_key jwk thumb a) now
                         (update_account (a_account_id a) (set_key jwk thumb) st)
              end
          end
      end).

(** * Orders *)

(** An optional date: a falsy value other than null is refused by the column. *)
Inductive date_field := DateOk (d : option Z) | DateInvalid | DateRefused.
Definition parse_date (j : json) : date_field :=
  match j with
  | JNull => DateOk None
  | JStr s =>
      if Str.truthy s
      then match fromisoformat (Str.replace "Z" "+00:00" s) with
           | Some t => DateOk (Some t) | None => DateInvalid end
      else DateRefused
  | _ => if Json.truthy j then DateInvalid else DateRefused
  end.

Definition order_reply (o : order) (code : Z) (more : list (string * json)) (headers : list (string * string))
    (now : Z) (st : state) : state * response :=
  acme_response (JDict (order_body o st ++ more)) code
    ([("Location", order_url (o_order_id o))] ++ headers) now st.

(** [new_order] *)
Definition new_order (request : option json) (now : Z) (st : state) : state * response :=
  with_jws request (base_url ^+ "/acme/new-order") now st (fun payload jwk st =>
    match kid_account (default JNull request) with
    | None => internal now st
    | Some account_id =>
        if negb (Str.truthy (default "" account_id))
        then acme_error "malformed" "Account kid required in protected header" 400 now st
        else match get_account_by_kid account_id st with
        | None => acme_error "accountDoesNotExist" "Account not found" 404 now st
        | Some a =>
            if negb (Json.is_dict payload) then internal now st
            else
              let identifiers := Json.get_or "identifiers" (JList []) payload in
              if negb (Json.truthy identifiers)
              then acme_error "malformed" "At least one identifier required" 400 now st
              else
                match parse_date (Json.get_or "notBefore" JNull payload),
                      parse_date (Json.get_or "notAfter" JNull payload) with
                | DateInvalid, _ | _, DateInvalid => internal now st
                | DateRefused, _ | _, DateRefused => (st, Raised)
                | DateOk nb, DateOk na =>
                    match create_order token_urlsafe base_url (a_account_id a) identifiers nb na now st with
                    | (st, None) => internal now st
                    | (st, Some id) =>
                        match get_order id st with
                        | None => internal now st
                        | Some o =>
                            order_reply o 201
                              (opt_member "notBefore" zulu (o_not_before o) ++
                               opt_member "notAfter" zulu (o_not_after o)) [] now st
                        end
                    end
                end
        end
    end).

(** [order_info] *)
Definition order_info (order_id : string) (request : option json) (now : Z) (st : state)
  : state * response :=
  with_optional_jws request (order_url order_id) now st (fun _ st =>
    match get_order order_id st with
    | None => acme_error "orderDoesNotExist" "Order not found" 404 now st
    | Some o =>
        order_reply o 200 (certificate_member o)
          (if bool_decide (o_status o = Pending) then [("Retry-After", "3")] else []) now st
    end).

(** [finalize_order] of the API, with the texts of its errors *)
Definition finalize_text (e : finalize_error) : string :=
  match e with
  | OrderNotFound => "Order not found"
  | NotReady s => "Order status is " ^+ status_text s ^+ ", must be 'ready'"
  | InvalidCSR => "Invalid CSR: " ^+ library_error
  | DomainMismatch c d =>
      "CSR domains " ^+ py_repr (Json.strings c) ^+ " don't match order domains " ^+ py_repr (JList d)
  | SigningError e => e
  end.
Definition finalize (order_id : string) (request : option json) (cert_id serial now : Z) (st : state)
    (trail : T) : state * T * response :=
  let error kind detail st := (let '(st, r) := acme_error kind detail 400 now st in (st, trail, r)) in
  let failure st := (let '(st, r) := internal now st in (st, trail, r)) in
  match request with
  | None => failure st
  | Some jws =>
      if negb (Json.truthy jws) then error "malformed" "Request body must be JWS" st
      else match verify_jws jws (order_url order_id ^+ "/finalize") None now st with
      | (st, Refused e) => error "malformed" ("Invalid JWS: " ^+ e) st
      | (st, Accepted payload _) =>
          if negb (Json.truthy payload) then error "malformed" "Payload required for finalize" st
          else if negb (Json.is_dict payload) then failure st
          else
            let csr_b64 := Json.get_or "csr" (JStr "") payload in
            if negb (Json.truthy csr_b64) then error "malformed" "CSR required" st
            else match csr_b64 with
            | JStr s =>
                match (urlsafe_b64decode (s ^+ "==") ≫= csr_der_to_pem) with
                | None => failure st
                | Some csr_pem =>
                    match finalize_order token_urlsafe base_url library_error order_id csr_pem None
                            cert_id serial now st trail with
                    | None => failure st
                    | Some (st, trail, Some e) =>
                        let '(st, r) := acme_error "badCSR" (finalize_text e) 400 now st in (st, trail, r)
                    | Some (st, trail, None) =>
                        let '(st, r) := match get_order order_id st with
                          | None => internal now st
                          | Some o => order_reply o 200 (certificate_member o) [] now st
                          end in (st, trail, r)
                    end
                end
            | _ => failure st
            end
      end
  end.

(** * Authorizations and challenges *)

(** [authorization_info] *)
Definition authorization_info (authorization_id : string) (request : option json) (now : Z) (st : state)
  : state * response :=
  with_optional_jws request (authz_url authorization_id) now st (fun _ st =>
    match get_authorization authorization_id st with
    | None => acme_error "authzDoesNotExist" "Authorization not found" 404 now st
    | Some z =>
        acme_response
          (JDict [("status", JStr (status_text (z_status z))); ("identifier", z_identifier z);
                  ("challenges", JList (List.map (fun c => JDict (challenge_body c))
                                          (challenges_of (z_authorization_id z) st)));
                  ("expires", zulu (z_expires z))])
          200 [("Link", link_up (order_url (z_order_id z)))] now st
    end).

(** [text LIKE pattern] in SQLite: [%] stands for any text, [_] for one character,
    and letters are compared without case. *)
Fixpoint like (pattern : string) : string -> bool :=
  match pattern with
  | EmptyString => fun s => match s with EmptyString => true | _ => false end
  | String c pattern' =>
      if Ascii.eqb c "%" then
        fix go (s : string) : bool :=
          like pattern' s || match s with EmptyString => false | String _ s' => go s' end
      else fun s =>
        match s with
        | EmptyString => false
        | String d s' => (Ascii.eqb c "_" || Ascii.eqb (Str.lower1 c) (Str.lower1 d)) && like pattern' s'
        end
  end.
(** The challenge a path names: by its URL, then by its id. *)
Definition find_challenge (challenge_id : string) (st : state) : option challenge :=
  match Table.first (fun c => match c_url c with
                              | Some u => like ("%/" ^+ challenge_id) u | None => false end)
          (challenges st) with
  | Some c => Some c
  | None => get_challenge challenge_id st
  end.

(** [respond_to_challenge] *)
Definition respond_to_challenge (fetch : string -> string + string)
    (resolve : string -> list string + string) (challenge_id : string) (request : option json)
    (now : Z) (st : state) : state * response :=
  match request with
  | None => internal now st
  | Some jws =>
      if negb (Json.truthy jws) then acme_error "malformed" "Request body must be JWS" 400 now st
      else match find_challenge challenge_id st with
      | None => acme_error "challengeDoesNotExist" "Challenge not found" 404 now st
      | Some c =>
          let expected_url := match c_url c with
            | Some u => if Str.truthy u then u else base_url ^+ "/acme/challenge/" ^+ challenge_id
            | None => base_url ^+ "/acme/challenge/" ^+ challenge_id
            end in
          match verify_jws jws expected_url None now st with
          | (st, Refused e) => acme_error "malformed" ("Invalid JWS: " ^+ e) 400 now st
          | (st, Accepted payload _) =>
              match kid_account jws with
              | None => internal now st
              | Some account_id =>
                  match get_account_by_kid account_id st with
                  | None => acme_error "accountDoesNotExist" "Account not found" 404 now st
                  | Some a =>
                      if negb (String.eqb (c_type c) "http-01" || String.eqb (c_type c) "dns-01")
                      then acme_error "unsupportedType"
                             ("Challenge type " ^+ c_type c ^+ " not supported") 400 now st
                      else match (if String.eqb (c_type c) "http-01"
                                  then validate_http01_challenge py_repr fetch c a now st
                                  else validate_dns01_challenge py_repr resolve c a now st) with
                      | None => internal now st
                      | Some (st, _) =>
                          let c := default c (get_challenge (c_challenge_id c) st) in
                          acme_response (JDict (challenge_body c)) 200
                            [("Link", link_up (authz_url (c_authorization_id c)))] now st
                      end
                  end
              end
          end
      end
  end.

(** * Certificates *)

Definition BEGIN := "-----BEGIN CERTIFICATE-----".
Definition newline : string := String (ascii_of_N 10) EmptyString.
Definition pem_block (pem : string) : string :=
  Str.strip (if Str.startswith (Str.strip pem) BEGIN then pem
             else BEGIN ^+ newline ^+ pem ^+ newline ^+ "-----END CERTIFICATE-----").
(** The certificates of the issuers, from the nearest up. *)
Fixpoint ca_chain (fuel : nat) (d : Pki.db) (current_caref : option string) (seen : list string)
  : option (list string) :=
  match fuel with
  | 0 => None
  | S fuel' =>
      match current_caref with
      | None => Some []
      | Some r =>
          if negb (Str.truthy r) || existsb (String.eqb r) seen then Some []
          else match Pki.ca_by_refid r d with
          | None => Some []
          | Some a => cons (pem_block (Pki.ca_crt a)) <$> ca_chain fuel' d (Pki.ca_caref a) (r :: seen)
          end
      end
  end.
Definition chain_fuel (d : Pki.db) : nat := length (Pki.cas d) + 1.

(** [download_certificate]; a GET is not verified at all. *)
Definition serve_certificate (order_id : string) (now : Z) (st : state) : state * response :=
  match get_order order_id st with
  | None => acme_error "notFound" "Order not found" 404 now st
  | Some o =>
      if negb (bool_decide (o_status o = Valid))
      then acme_error "orderNotReady"
             ("Order status is " ^+ status_text (o_status o) ^+ ", certificate not available") 403 now st
      else
        let id := default 0%Z (o_certificate_id o) in
        if (id =? 0)%Z then acme_error "serverInternal" "Certificate not generated" 500 now st
        else match Pki.get_cert id (pki st) with
        | None => acme_error "serverInternal" "Certificate not found in database" 500 now st
        | Some c =>
            if negb (Str.truthy (default "" (Pki.c_crt c)))
            then acme_error "serverInternal" "Certificate not found in database" 500 now st
            else match ca_chain (chain_fuel (pki st)) (pki st) (Pki.c_caref c) [] with
            | None => (st, Raised)
            | Some cas =>
                let chain := Str.join newline (pem_block (default "" (Pki.c_crt c)) :: cas) ^+ newline in
                let '(st, tok) := generate_nonce token_urlsafe now st in
                (st, Response 200 (BText chain)
                       [("Content-Type", "application/pem-certificate-chain"); ("Replay-Nonce", tok)])
            end
        end
  end.
Definition download_certificate (is_post : bool) (order_id : string) (request : option json) (now : Z)
    (st : state) : state * response :=
  if is_post
  then with_optional_jws request (base_url ^+ "/acme/cert/" ^+ order_id) now st
         (fun _ => serve_certificate order_id now)
  else serve_certificate order_id now st.

(** [revoke_cert]: the rows have no attribute [serial], so that building the query
    raises once the certificate is decoded. *)
Definition revoke_cert (request : option json) (now : Z) (st : state) : state * response :=
  with_jws request (base_url ^+ "/acme/revoke-cert") now st (fun payload jwk st =>
    if negb (Json.truthy payload) then acme_error "malformed" "Payload required" 400 now st
    else if negb (Json.is_dict payload) then internal now st
    else
      let cert_b64 := Json.get_or "certificate" (JStr "") payload in
      if negb (Json.truthy cert_b64)
      then acme_error "malformed" "Certificate required in payload" 400 now st
      else match cert_b64 with
      | JStr s =>
          match urlsafe_b64decode (s ^+ "==") ≫= cert_serial with
          | None => internal now st
          | Some serial_number => (* Certificate.serial *) internal now st
          end
      | _ => internal now st
      end).

(** * The routes *)

Inductive call :=
| Directory (host : string)
| NewNonce
| NewAccount (request : option json)
| AccountInfo (account_id : string) (request : option json)
| NewOrder (request : option json)
| OrderInfo (order_id : string) (request : option json)
| Finalize (order_id : string) (request : option json) (cert_id serial : Z)
| AuthorizationInfo (authorization_id : string) (request : option json)
| RespondToChallenge (fetch : string -> string + string) (resolve : string -> list string + string)
    (challenge_id : string) (request : option json)
| DownloadCertificate (is_post : bool) (order_id : string) (request : option json)
| RevokeCert (request : option json)
| KeyChange (request : option json).

Definition serve (c : call) (now : Z) (st : state) (trail : T) : state * T * response :=
  let keep (r : state * response) := (r.1, trail, r.2) in
  match c with
  | Directory host => keep (directory host now st)
  | NewNonce => keep (new_nonce now st)
  | NewAccount q => keep (new_account q now st)
  | AccountInfo id q => keep (account_info id q now st)
  | NewOrder q => keep (new_order q now st)
  | OrderInfo id q => keep (order_info id q now st)
  | Finalize id q cert_id serial => finalize id q cert_id serial now st trail
  | AuthorizationInfo id q => keep (authorization_info id q now st)
  | RespondToChallenge fetch resolve id q => keep (respond_to_challenge fetch resolve id q now st)
  | DownloadCertificate post id q => keep (download_certificate post id q now st)
  | RevokeCert q => keep (revoke_cert q now st)
  | KeyChange q => keep (key_change q now st)
  end.

End Api.
End AcmeApi.
