(* ===== verification/AcmeApiFacts.v ===== *)
(** What the ACME endpoints guarantee: they only take the steps of the service, so
    that its invariant covers them, and an accepted request is fresh; and what they
    let through: requests that name an account without its key. *)
From S2P Require Import Prelude Base64 Hashes AuditSink AuditLog Pki PkiFacts LocalDomains Acme AcmeFacts AcmeApi.

Module AcmeApiFacts.
Import Acme AcmeApi.
Local Open Scope string_scope.
Local Open Scope list_scope.

Section Facts.
Context `{Hashes} (token_urlsafe : nat -> string) (py_repr : json -> string) (base_url : string).
Context `{Pki.X509} {T} `{AuditSink T} (library_error : string) `{Jose}.

#[local] Abbreviation reachable := (AcmeFacts.reachable token_urlsafe py_repr base_url library_error).
#[local] Abbreviation step := (AcmeFacts.step token_urlsafe py_repr base_url library_error).
#[local] Abbreviation verify_jws := (verify_jws py_repr).
#[local] Abbreviation acme_error := (acme_error token_urlsafe base_url).
#[local] Abbreviation acme_response := (acme_response token_urlsafe base_url).

(** * Handlers are runs of the service *)

(** From any reachable state the second state is reached, seeing more of the network. *)
Definition runs (st st' : state) : Prop :=
  forall log, reachable st log -> exists l, reachable st' (l ++ log).

Lemma runs_refl st : runs st st.
Proof. intros log Hr. by exists []. Qed.
Lemma runs_trans st1 st2 st3 : runs st1 st2 -> runs st2 st3 -> runs st1 st3.
Proof.
  intros H12 H23 log Hr. destruct (H12 _ Hr) as (l1 & H1'). destruct (H23 _ H1') as (l2 & H2').
  exists (l2 ++ l1). by rewrite <-app_assoc.
Qed.
Lemma runs_step st st' l : (forall log, step (st, log) (st', l ++ log)) -> runs st st'.
Proof. intros Hs log Hr. exists l. eapply AcmeFacts.reach_step; [exact Hr|apply Hs]. Qed.

(** A handler continues a run. *)
Definition good (st : state) (r : state * response) : Prop := runs st r.1.
#[local] Hint Resolve runs_refl : core.

Lemma runs_nonce now st0 st : runs st0 st -> runs st0 (generate_nonce token_urlsafe now st).1.
Proof.
  intros Hr. eapply runs_trans; [exact Hr|]. apply (runs_step _ _ []). intros log.
  apply AcmeFacts.step_generate_nonce.
Qed.
Lemma good_error st0 kind detail code now st :
  runs st0 st -> good st0 (acme_error kind detail code now st).
Proof. intros Hr. by apply (runs_nonce now). Qed.
Lemma good_response st0 data code more now st :
  runs st0 st -> good st0 (acme_response data code more now st).
Proof. intros Hr. by apply (runs_nonce now). Qed.
Lemma good_raised st0 st r : runs st0 st -> good st0 (st, r).
Proof. done. Qed.
Lemma runs_accounts st0 l st : runs st0 st -> runs st0 (with_accounts l st).
Proof.
  intros Hr. eapply runs_trans; [exact Hr|]. apply (runs_step _ _ []). intros log.
  apply AcmeFacts.step_accounts.
Qed.

(** A verification spends at most a nonce. *)
Lemma verify_frame jws url k now st :
  (verify_jws jws url k now st).1 = st \/
  exists tok, (verify_jws jws url k now st).1 = (validate_nonce tok now st).1.
Proof.
  unfold AcmeApi.verify_jws. destruct (Json.contains "protected" jws) as [[|]|]; [|by left..].
  destruct (Json.get "protected" jws) as [p|]; [|by left].
  destruct (decode_segment p) as [j| |]; [|by left..].
  do 3 (destruct (negb _); [by left|]). destruct (Json.bind_text _) as [tok|]; [|by left].
  right. exists tok. destruct (validate_nonce tok now st) as [st' [|]]; done.
Qed.

Lemma runs_verify jws url k now st : runs st (verify_jws jws url k now st).1.
Proof.
  destruct (verify_frame jws url k now st) as [->|[tok ->]]; [done|].
  apply (runs_step _ _ []). intros log. apply AcmeFacts.step_validate_nonce.
Qed.

Create HintDb runs.
#[local] Hint Resolve good_error good_response good_raised runs_nonce runs_accounts : runs.

(** One case distinction or one lemma at a time. *)
Ltac walk :=
  repeat (cbv zeta; match goal with
  | |- good _ (if ?b then _ else _) => destruct b
  | |- good _ (match ?x with _ => _ end) => destruct x eqn:?
  end); eauto 10 with runs.

Lemma good_with_jws request url now st h :
  (forall p j st', runs st st' -> good st (h p j st')) ->
  good st (with_jws token_urlsafe py_repr base_url request url now st h).
Proof.
  intros Hh. unfold with_jws. destruct request as [jws|]; [|by apply good_error].
  destruct (negb _); [by apply good_error|].
  pose proof (runs_verify jws url None now st) as Hv.
  destruct (verify_jws jws url None now st) as [st' [p j|e]]; [by apply Hh|by apply good_error].
Qed.
Lemma good_with_optional_jws request url now st h :
  (forall p st', runs st st' -> good st (h p st')) ->
  good st (with_optional_jws token_urlsafe py_repr base_url request url now st h).
Proof.
  intros Hh. unfold with_optional_jws. destruct request as [jws|]; [|by apply good_raised].
  destruct (negb _); [by apply Hh|].
  pose proof (runs_verify jws url None now st) as Hv.
  destruct (verify_jws jws url None now st) as [st' [p j|e]]; [by apply Hh|by apply good_error].
Qed.

Lemma new_account_good q now st : good st (new_account token_urlsafe py_repr base_url q now st).
Proof.
  apply good_with_jws. intros p j st' Hr. destruct (negb _); [by apply good_error|].
  destruct (negb _); [by apply good_error|]. cbv zeta. destruct (Json.truthy _).
  { unfold account_reply, internal. walk. }
  destruct (create_account _ _ _ _ _ _) as [[st1 [a n]]|] eqn:E; [|by apply good_error].
  destruct (n && _); [by apply good_raised|]. apply good_response.
  eapply runs_trans; [exact Hr|]. apply (runs_step _ _ []). intros log.
  by eapply AcmeFacts.step_create_account.
Qed.

Lemma account_info_good id q now st : good st (account_info token_urlsafe py_repr base_url id q now st).
Proof.
  unfold account_info. destruct (get_account_by_kid _ st); [|by apply good_error].
  apply good_with_optional_jws. intros p st' Hr. unfold account_view, internal, update_account. walk.
Qed.

Lemma key_change_good q now st : good st (key_change token_urlsafe py_repr base_url q now st).
Proof.
  apply good_with_jws. intros p j st' Hr. unfold account_view, internal, update_account. walk.
Qed.

Lemma new_order_good q now st : good st (new_order token_urlsafe py_repr base_url q now st).
Proof.
  apply good_with_jws. intros p j st' Hr. destruct (kid_account _) as [id|]; [|by apply good_error].
  destruct (negb _); [by apply good_error|].
  destruct (get_account_by_kid id st') as [a|]; [|by apply good_error].
  destruct (negb _); [by apply good_error|]. cbv zeta. destruct (negb _); [by apply good_error|].
  set (nb := parse_date _). set (na := parse_date (Json.get_or "notAfter" _ _)).
  destruct nb as [nb| |], na as [na| |]; try (by apply good_error); try (by apply good_raised).
  set (ids := Json.get_or "identifiers" (JList []) p).
  assert (runs st (create_order token_urlsafe base_url (a_account_id a) ids nb na now st').1) as Ho.
  { eapply runs_trans; [exact Hr|]. apply (runs_step _ _ []). intros log. apply AcmeFacts.step_create_order. }
  destruct (create_order _ _ _ _ _ _ _ _) as [st1 [id1|]]; [|by apply good_error].
  destruct (get_order id1 st1); [by apply good_response|by apply good_error].
Qed.

Lemma order_info_good id q now st : good st (order_info token_urlsafe py_repr base_url id q now st).
Proof.
  apply good_with_optional_jws. intros p st' Hr. unfold order_reply. walk.
Qed.

Lemma authorization_info_good id q now st :
  good st (authorization_info token_urlsafe py_repr base_url id q now st).
Proof. apply good_with_optional_jws. intros p st' Hr. walk. Qed.

Lemma serve_certificate_good id now st0 st :
  runs st0 st -> good st0 (serve_certificate token_urlsafe base_url id now st).
Proof.
  intros Hr. unfold serve_certificate. destruct (get_order id st) as [o|]; [|by apply good_error].
  destruct (negb _); [by apply good_error|]. cbv zeta. destruct (_ =? 0)%Z; [by apply good_error|].
  destruct (Pki.get_cert _ _) as [c|]; [|by apply good_error]. destruct (negb _); [by apply good_error|].
  destruct (ca_chain _ _ _ _); [|by apply good_raised]. unfold good. cbn. by apply (runs_nonce now).
Qed.

Lemma download_good post id q now st :
  good st (download_certificate token_urlsafe py_repr base_url post id q now st).
Proof.
  destruct post; [|by apply serve_certificate_good]. apply good_with_optional_jws.
  intros p st' Hr. by apply serve_certificate_good.
Qed.

Lemma revoke_good q now st : good st (revoke_cert token_urlsafe py_repr base_url q now st).
Proof. apply good_with_jws. intros p j st' Hr. unfold internal. walk. Qed.

Lemma find_challenge_In id st c : find_challenge id st = Some c -> In c (challenges st).
Proof.
  unfold find_challenge. destruct (Table.first _ (challenges st)) as [c'|] eqn:E.
  - intros [= <-]. by apply Table.first_Some in E as [? _].
  - intros [? _]%Table.first_Some. done.
Qed.

Lemma verify_keeps_challenges jws url k now st :
  challenges (verify_jws jws url k now st).1 = challenges st.
Proof. by destruct (verify_frame jws url k now st) as [->|[tok ->]]. Qed.

Lemma respond_good fetch resolve id q now st :
  good st (respond_to_challenge token_urlsafe py_repr base_url fetch resolve id q now st).
Proof.
  unfold respond_to_challenge. destruct q as [jws|]; [|by apply good_error].
  destruct (negb _); [by apply good_error|].
  destruct (find_challenge id st) as [c|] eqn:Ec; [|by apply good_error]. cbv zeta.
  set (url := match c_url c with Some _ => _ | None => _ end).
  pose proof (runs_verify jws url None now st) as Hv.
  pose proof (verify_keeps_challenges jws url None now st) as Hk. apply find_challenge_In in Ec.
  destruct (verify_jws jws url None now st) as [st' [p j|e]]; [|by apply good_error]. cbn in Hv, Hk.
  rewrite <-Hk in Ec.
  destruct (kid_account jws) as [kid|]; [|by apply good_error].
  destruct (get_account_by_kid kid st') as [a|]; [|by apply good_error].
  destruct (negb _); [by apply good_error|].
  destruct (if String.eqb (c_type c) "http-01" then _ else _) as [[st1 ok]|] eqn:E; [|by apply good_error].
  apply good_response. eapply runs_trans; [exact Hv|]. destruct (String.eqb _ _).
  - eapply runs_step. intros log. by eapply AcmeFacts.step_http01.
  - eapply runs_step. intros log. by eapply AcmeFacts.step_dns01.
Qed.

Lemma finalize_good id q cert_id serial now st (trail : T) :
  runs st (finalize token_urlsafe py_repr base_url library_error id q cert_id serial now st trail).1.1.
Proof.
  assert (forall k d c st', runs st st' ->
    runs st (let '(s, r) := acme_error k d c now st' in (s, trail, r)).1.1) as He.
  { intros k d c st' Hr. by apply (runs_nonce now). }
  unfold finalize. destruct q as [jws|]; [|by apply He]. cbv zeta. destruct (negb _); [by apply He|].
  set (url := order_url _ _ ^+ _). pose proof (runs_verify jws url None now st) as Hv.
  destruct (verify_jws jws url None now st) as [st' [p j|e]]; [|by apply He]. cbn in Hv.
  destruct (negb _); [by apply He|]. destruct (negb _); [by apply He|]. destruct (negb _); [by apply He|].
  destruct (Json.get_or _ _ _); try (by apply He). destruct (_ ≫= csr_der_to_pem) as [pem|]; [|by apply He].
  destruct (finalize_order _ _ _ _ _ _ _ _ _ _ _) as [[[st1 tr1] r]|] eqn:Ef; [|by apply He].
  assert (runs st st1) as H1'.
  { eapply runs_trans; [exact Hv|]. apply (runs_step _ _ []). intros log.
    by eapply AcmeFacts.step_finalize. }
  destruct r as [e|]; [by apply (runs_nonce now)|]. destruct (get_order id st1); by apply (runs_nonce now).
Qed.

(** C2: Every endpoint of the ACME server, whatever request it gets, only takes steps
    of the service: from a reachable state it leads to a reachable state, so that the
    invariant on orders and authorizations, and with it the need for domain control,
    holds through every sequence of requests. *)
Theorem served_states_are_reachable c now st (trail : T) log :
  reachable st log ->
  exists l, reachable (serve token_urlsafe py_repr base_url library_error c now st trail).1.1 (l ++ log).
Proof.
  revert log. change (runs st (serve token_urlsafe py_repr base_url library_error c now st trail).1.1).
  destruct c; cbn [serve fst snd].
  - by apply good_response.
  - by apply (runs_nonce now).
  - apply new_account_good.
  - apply account_info_good.
  - apply new_order_good.
  - apply order_info_good.
  - apply finalize_good.
  - apply authorization_info_good.
  - apply respond_good.
  - apply download_good.
  - apply revoke_good.
  - apply key_change_good.
Qed.

(** * Accepted requests *)

(** The algorithms of a signed object (RFC 7518): the scheme an [alg] stands for, and how the
    octets of the signature are read.  ECDSA signatures are two numbers of a fixed size;
    octets of another length are handed to the library as they are. *)
Inductive algorithm (octets : string) : string -> scheme -> signature -> Prop :=
| RS256 : algorithm octets "RS256" (PKCS1v15 SHA256) (Octets octets)
| RS384 : algorithm octets "RS384" (PKCS1v15 SHA384) (Octets octets)
| RS512 : algorithm octets "RS512" (PKCS1v15 SHA512) (Octets octets)
| ES a d size r s : In (a, d, size) [("ES256", SHA256, 32); ("ES384", SHA384, 48); ("ES512", SHA512, 66)] ->
    octets = r ^+ s -> String.length r = size -> String.length s = size ->
    algorithm octets a (ECDSA d) (DssSignature (from_bytes r) (from_bytes s))
| ES_octets a d size : In (a, d, size) [("ES256", SHA256, 32); ("ES384", SHA384, 48); ("ES512", SHA512, 66)] ->
    String.length octets <> 2 * size -> algorithm octets a (ECDSA d) (Octets octets).

(** The signature that the object carries is valid, under a key and the algorithm its
    protected header names, for its own header and payload. *)
Definition signed_by (jwk jws : json) : Prop :=
  exists k p q header a sig64 sig sch s,
    (Json.get_or "kty" JNull jwk = JStr "RSA" /\ load_rsa jwk = Some k \/
     Json.get_or "kty" JNull jwk = JStr "EC" /\ load_ec jwk = Some k) /\
    Json.get "protected" jws = Some (JStr p) /\ decode_segment (JStr p) = Loaded header /\
    Json.get_or "alg" JNull header = JStr a /\ Json.get "payload" jws = Some (JStr q) /\
    Json.get_or "signature" (JStr "") jws = JStr sig64 /\ Base64.urlsafe_b64decode (padded sig64) = Some sig /\
    algorithm sig a sch s /\ key_verify k sch s (p ^+ "." ^+ q) = true.

Lemma rsa_algorithm octets a d : rsa_digest a = Some d -> algorithm octets a (PKCS1v15 d) (Octets octets).
Proof.
  unfold rsa_digest. cbn [Json.assoc].
  destruct (String.eqb_spec a "RS256") as [->|_]; [intros [= <-]; constructor|].
  destruct (String.eqb_spec a "RS384") as [->|_]; [intros [= <-]; constructor|].
  destruct (String.eqb_spec a "RS512") as [->|_]; [intros [= <-]; constructor|done].
Qed.

Lemma take_drop n s : Str.take n s ^+ Str.drop n s = s.
Proof. revert s. induction n as [|n IH]; intros [|c s]; try done. cbn. by rewrite IH. Qed.

Lemma ec_algorithm octets a d n : ec_digest a = Some (d, n) -> algorithm octets a (ECDSA d) (ec_signature n octets).
Proof.
  intros Hd. assert (In (a, d, n) [("ES256", SHA256, 32); ("ES384", SHA384, 48); ("ES512", SHA512, 66)]) as Hin.
  { unfold ec_digest in Hd. cbn [Json.assoc] in Hd.
    destruct (String.eqb_spec a "ES256") as [->|_]; [injection Hd as <- <-; by left|].
    destruct (String.eqb_spec a "ES384") as [->|_]; [injection Hd as <- <-; right; by left|].
    destruct (String.eqb_spec a "ES512") as [->|_]; [injection Hd as <- <-; right; right; by left|done]. }
  unfold ec_signature. destruct (Nat.eqb_spec (String.length octets) (2 * n)) as [E|E]; [|by eapply ES_octets].
  pose proof (take_drop n octets) as Etd.
  pose proof (StrFacts.app_length (Str.take n octets) (Str.drop n octets)) as El.
  assert (String.length (Str.take n octets) = n) as Et by (rewrite StrFacts.length_take; lia).
  rewrite Etd in El. eapply (ES _ a d n); [done|by symmetry|done|lia].
Qed.

Lemma check_signature_signed jws p header jwk :
  Json.get "protected" jws = Some p -> decode_segment p = Loaded header ->
  check_signature py_repr jws header jwk = None -> signed_by jwk jws.
Proof.
  intros Hp Hh. unfold check_signature. destruct (negb (Json.is_dict jwk)); [done|]. cbv zeta.
  destruct (negb _) eqn:Ekty; [done|]. destruct (if Json.eqb _ _ then _ else _) as [k|] eqn:Ek; [|done].
  assert (Json.get_or "kty" JNull jwk = JStr "RSA" /\ load_rsa jwk = Some k \/
          Json.get_or "kty" JNull jwk = JStr "EC" /\ load_ec jwk = Some k) as Hk.
  { destruct (Json.eqb _ (JStr "RSA")) eqn:E1; [apply Json.eqb_eq in E1; by left|]. cbn in Ekty.
    apply negb_false_iff, Json.eqb_eq in Ekty. by right. }
  rewrite Hp. destruct p as [| | |p| |]; try done.
  destruct (Json.get "payload" jws) as [[]|] eqn:Eq; try done.
  destruct (Json.get_or "signature" _ _) as [| | |sig64| |] eqn:Esig; try done.
  destruct (Base64.urlsafe_b64decode _) as [sig|] eqn:Ed; [|done]. destruct (negb _); [done|].
  destruct (Json.get_or "alg" JNull header) as [| | |a| |] eqn:Ea; (destruct (negb (Json.truthy _)); [discriminate|]); try discriminate.
  destruct (Str.startswith a "RS").
  - destruct (rsa_digest a) as [d|] eqn:Er; [|done]. destruct (key_verify _ _ _ _) eqn:Ev; [|done].
    intros _. exists k, p, s, header, a, sig64, sig, (PKCS1v15 d), (Octets sig). apply (rsa_algorithm sig) in Er. done.
  - destruct (Str.startswith a "ES"); [|done]. destruct (ec_digest a) as [[d n]|] eqn:Er; [|done].
    destruct (key_verify _ _ _ _) eqn:Ev; [|done].
    intros _. exists k, p, s, header, a, sig64, sig, (ECDSA d), (ec_signature n sig). apply (ec_algorithm sig) in Er. done.
Qed.

Lemma verify_signed_jwk jws p protected k payload jwk :
  Json.get "protected" jws = Some p -> decode_segment p = Loaded protected ->
  verify_signed py_repr jws protected k = Accepted payload jwk ->
  jwk = Json.get_or "jwk" JNull protected /\ (Json.truthy jwk = true -> signed_by jwk jws) /\
  exists q, Json.get "payload" jws = Some q /\ decode_payload q = Loaded payload.
Proof.
  intros Hp Hd. unfold verify_signed. cbv zeta. set (j := Json.get_or "jwk" JNull protected).
  destruct (negb _ && _); [done|]. destruct (Json.get "payload" jws) as [q|] eqn:Eq; [|done].
  destruct (decode_payload q) as [pl| |] eqn:Epl; try done. destruct (Json.truthy j) eqn:Ej.
  - destruct (check_signature _ _ _ j) eqn:Ec; [done|]. intros [= <- <-]. split; [done|]. split; [|by exists q].
    intros _. by eapply check_signature_signed.
  - destruct (match k with Some k => _ | None => _ end).
    + destruct (check_signature _ _ _ j0); [done|]. intros [= <- <-]. rewrite Ej. split; [done|]. split; [done|by exists q].
    + intros [= <- <-]. rewrite Ej. split; [done|]. split; [done|by exists q].
Qed.

(** The text of the nonce of a signed object. *)
Definition nonce_of (jws : json) : option string :=
  p ← Json.get "protected" jws;
  match decode_segment p with Loaded j => Json.bind_text (Json.get_or "nonce" JNull j) | _ => None end.

(** What a verification that accepts went through. *)
Lemma verify_accepted jws url k now st st' payload jwk :
  verify_jws jws url k now st = (st', Accepted payload jwk) ->
  exists p kv tok, Json.get "protected" jws = Some p /\ decode_segment p = Loaded (JDict kv) /\
    Json.get_or "url" JNull (JDict kv) = JStr url /\ nonce_of jws = Some tok /\
    validate_nonce tok now st = (st', true) /\ verify_signed py_repr jws (JDict kv) k = Accepted payload jwk.
Proof.
  unfold AcmeApi.verify_jws, nonce_of. destruct (Json.contains "protected" jws) as [[|]|]; try done.
  destruct (Json.get "protected" jws) as [p|]; [|done].
  destruct (decode_segment p) as [j| |] eqn:Ed; try done. destruct j; try done. cbn [Json.is_dict negb].
  destruct (Json.eqb _ (JStr url)) eqn:Eu; [|done]. apply Json.eqb_eq in Eu. cbn [negb].
  destruct (negb _); [done|]. destruct (Json.bind_text _) as [tok|] eqn:Et; [|done].
  destruct (validate_nonce tok now st) as [st1 [|]] eqn:Ev; [|done]. cbn [negb]. intros [= <- Es].
  exists p, kv, tok. cbn [mbind option_bind]. by rewrite Ed.
Qed.

Lemma validated_row tok now st : (validate_nonce tok now st).2 = true ->
  exists n, In n (nonces st) /\ n_token n = tok /\ n_used n = false /\ (now < n_expires_at n)%Z.
Proof.
  unfold validate_nonce. cbn [snd]. unfold Table.count. intros Hl%Nat.ltb_lt.
  destruct (Table.all (usable tok now) (nonces st)) as [|n l] eqn:E; [simpl in Hl; lia|].
  assert (In n (Table.all (usable tok now) (nonces st))) as Hin by (rewrite E; by left).
  apply Table.In_all in Hin as [Hin Hu]. exists n. unfold usable in Hu. rewrite !andb_true_iff in Hu.
  destruct Hu as [[E1%String.eqb_eq E2%negb_true_iff] E3%Z.ltb_lt]. done.
Qed.

(** C3: A request the server accepts names the URL it was sent to and a nonce that is
    on record, unused and unexpired, and the payload given to the endpoint is the one it
    carries; if its header carries a key, the signature of the request itself is valid
    under that key and the algorithm of the header, for that header and payload; and the
    same object is refused at any later time, at every endpoint. *)
Theorem accepted_request_is_fresh jws url k now st st' payload jwk :
  verify_jws jws url k now st = (st', Accepted payload jwk) ->
  (exists p kv, Json.get "protected" jws = Some p /\ decode_segment p = Loaded (JDict kv) /\
     Json.get_or "url" JNull (JDict kv) = JStr url /\ jwk = Json.get_or "jwk" JNull (JDict kv)) /\
  (exists q, Json.get "payload" jws = Some q /\ decode_payload q = Loaded payload) /\
  (exists n, In n (nonces st) /\ nonce_of jws = Some (n_token n) /\ n_used n = false /\
     (now < n_expires_at n)%Z) /\
  (Json.truthy jwk = true -> signed_by jwk jws) /\
  (forall url' k' now' st2 payload' jwk', (now <= now')%Z ->
     verify_jws jws url' k' now' st' <> (st2, Accepted payload' jwk')).
Proof.
  intros (p & kv & tok & Hp & Hd & Hu & Hn & Hv & Hs)%verify_accepted.
  apply (verify_signed_jwk _ _ _ _ _ _ Hp Hd) in Hs as (Hj & Hs & Hq).
  split; [by exists p, kv|]. split; [done|]. split; [|split; [done|]].
  - destruct (validated_row tok now st) as (n & Hin & <- & ? & ?); [by rewrite Hv|]. by exists n.
  - intros url' k' now' st2 p' j' Hle (_ & _ & tok' & _ & _ & _ & Hn' & Hv' & _)%verify_accepted.
    assert (tok' = tok) as -> by congruence.
    destruct (validated_row tok now' st') as (n & Hin & E & Hun & Hexp); [by rewrite Hv'|].
    pose proof (AcmeFacts.validate_spends tok now st) as Hsp. rewrite Hv in Hsp.
    destruct (Hsp n Hin E) as [?|?]; [congruence|lia].
Qed.

(** * Requests that need no key *)

(** An object with a live nonce that names an account and carries no key. *)
Record keyless (jws : json) (url kid : string) (payload : json) (now : Z) (st : state) : Prop := {
  k_header : exists p64 kv, Json.get "protected" jws = Some (JStr p64) /\
    decode_segment (JStr p64) = Loaded (JDict kv) /\ Json.get_or "url" JNull (JDict kv) = JStr url /\
    Json.get "jwk" (JDict kv) = None /\ Json.get "kid" (JDict kv) = Some (JStr kid) /\
    (exists tok, Json.get "nonce" (JDict kv) = Some (JStr tok) /\ Str.truthy tok = true /\
       (validate_nonce tok now st).2 = true);
  k_kid : Str.truthy kid = true;
  k_payload : exists q64, Json.get "payload" jws = Some q64 /\ decode_payload q64 = Loaded payload;
}.

Lemma keyless_accepted jws url kid payload now st :
  keyless jws url kid payload now st ->
  exists st', verify_jws jws url None now st = (st', Accepted payload JNull) /\
    accounts st' = accounts st /\ orders st' = orders st /\ kid_account jws = Some (last (Str.split "/" kid)).
Proof.
  intros [(p64 & kv & Hp & Hd & Hu & Hj & Hk & tok & Hn & Ht & Hv) Hkid (q64 & Hq & Hdq)].
  exists (validate_nonce tok now st).1. split; [|split; [done|split; [done|]]].
  - unfold AcmeApi.verify_jws. destruct jws as [| | | | |js]; try done. cbn [Json.contains]. cbn in Hp.
    rewrite Hp. cbn [Json.get]. rewrite Hp, Hd. cbn [Json.is_dict negb]. rewrite Hu.
    assert (Json.eqb (JStr url) (JStr url) = true) as -> by (by apply Json.eqb_eq). cbn [negb].
    unfold Json.get_or at 1 2. rewrite Hn. cbn [default from_option Datatypes.id Json.truthy Json.bind_text].
    rewrite Ht. cbn [negb].
    destruct (validate_nonce tok now st) as [st1 ok]. cbn [fst snd] in *. rewrite Hv. cbn [negb]. f_equal.
    unfold verify_signed. unfold Json.get_or. rewrite Hj, Hk.
    cbn [default from_option Datatypes.id Json.truthy]. rewrite Hkid. cbn [negb andb].
    cbn in Hq. cbn [Json.get]. by rewrite Hq, Hdq.
  - unfold kid_account, Json.get_or at 1. rewrite Hp. cbn [default from_option Datatypes.id]. rewrite Hd.
    unfold last_segment, Json.get_or. rewrite Hk. cbn [default from_option Datatypes.id Json.truthy].
    by rewrite Hkid.
Qed.

Lemma create_order_row acct ids nb na now st l :
  Json.elements ids = Some l ->
  exists st' id o, create_order token_urlsafe base_url acct ids nb na now st = (st', Some id) /\
    In o (orders st') /\ o_order_id o = id /\ o_account_id o = acct /\ o_identifiers o = ids.
Proof.
  intros Hl. unfold create_order. rewrite Hl. set (id := token_urlsafe (draws st)).
  set (o := Order id _ _ _ _ _ _ _ _ _ _ _). set (st1 := with_orders (orders st ++ [o]) _).
  destruct (AcmeFacts.create_authorizations_spec token_urlsafe base_url id acct now l st1)
    as (zs & _ & Hos & _). cbv zeta in Hos. set (st2 := fold_left _ l st1) in *.
  assert (In o (orders st2)) as Ho by (rewrite Hos; apply in_or_app; right; by left).
  destruct (all_valid id st2).
  - do 2 eexists. exists (order_status Ready o). split; [done|]. split; [|done].
    apply Table.In_update. exists o. split; [done|]. cbn [o o_order_id]. by autorewrite with ucm.
  - do 2 eexists. exists o. done.
Qed.

(** Any client can place orders for any account, deactivated ones included: a
    new-order request that names the account by its URL is carried out whatever its
    signature field holds. *)
Theorem new_order_needs_no_key jws kid payload now st a l :
  keyless jws (base_url ^+ "/acme/new-order") kid payload now st ->
  Json.truthy jws = true -> Json.is_dict payload = true ->
  get_account_by_kid (last (Str.split "/" kid)) st = Some a -> Str.truthy (a_account_id a) = true ->
  Json.truthy (Json.get_or "identifiers" (JList []) payload) = true ->
  Json.elements (Json.get_or "identifiers" (JList []) payload) = Some l ->
  Json.get "notBefore" payload = None -> Json.get "notAfter" payload = None ->
  let r := new_order token_urlsafe py_repr base_url (Some jws) now st in
  response_code r.2 = 201%Z /\
  exists o, In o (orders r.1) /\ o_account_id o = a_account_id a /\
    o_identifiers o = Json.get_or "identifiers" (JList []) payload.
Proof.
  intros Hk Hj Hd Ha Hid Ht Hl Hnb Hna. destruct (keyless_accepted _ _ _ _ _ _ Hk) as (st' & Hv & Eac & _ & Hkid).
  unfold new_order, with_jws. rewrite Hj. cbn [negb]. rewrite Hv. cbn [default from_option Datatypes.id].
  rewrite Hkid. set (kid' := last (Str.split "/" kid)) in *.
  assert (get_account_by_kid kid' st' = Some a) as Ha' by (unfold get_account_by_kid in *; by rewrite Eac).
  assert (Str.truthy (default "" kid') = true) as ->.
  { destruct kid' as [k|]; [|done]. cbn in Ha |- *. apply Table.first_Some in Ha as [_ E%String.eqb_eq].
    by rewrite <-E. }
  cbn [negb]. rewrite Ha', Hd. cbn [negb]. rewrite Ht. cbn [negb].
  assert (forall k, Json.get k payload = None -> Json.get_or k JNull payload = JNull) as Hg
    by (intros k E; unfold Json.get_or; by rewrite E).
  rewrite (Hg _ Hnb), (Hg _ Hna). cbn [parse_date].
  destruct (create_order_row (a_account_id a) _ None None now st' l Hl) as (st2 & id & o & Ec & Ho & Eid & Eacc & Eids).
  rewrite Ec. unfold get_order, Table.first.
  destruct (List.find (fun x => String.eqb (o_order_id x) id) (orders st2)) as [o'|] eqn:Ef.
  - split; [done|]. by exists o.
  - exfalso. pose proof (List.find_none _ _ Ef o Ho) as Hne. cbn in Hne.
    by rewrite Eid, StrFacts.eqb_refl in Hne.
Qed.

Lemma verify_keeps_accounts jws url k now st : accounts (verify_jws jws url k now st).1 = accounts st.
Proof. by destruct (verify_frame jws url k now st) as [->|[tok ->]]. Qed.

(** Whoever knows the public key of an account takes the account over: a
    key-change request signed with any key of the sender's own, that quotes the
    account's key as the old one, installs the sender's key. *)
Theorem key_change_takeover jws now st st1 payload jwk url id a thumb :
  Json.truthy jws = true ->
  verify_jws jws (base_url ^+ "/acme/key-change") None now st = (st1, Accepted payload jwk) ->
  Json.truthy jwk = true -> Json.is_dict payload = true ->
  Json.get "account" payload = Some (JStr url) -> Str.truthy url = true ->
  last (Str.split "/" url) = Some id -> Str.truthy id = true ->
  get_account_by_kid (Some id) st = Some a ->
  Json.get "oldKey" payload = Some (a_jwk a) -> Json.truthy (a_jwk a) = true ->
  Json.py_eq (a_jwk a) (a_jwk a) = true ->
  compute_jwk_thumbprint jwk = Some thumb ->
  (forall b, In b (accounts st) -> a_jwk_thumbprint b <> thumb) ->
  let r := key_change token_urlsafe py_repr base_url (Some jws) now st in
  response_code r.2 = 200%Z /\ get_account_by_kid (Some id) r.1 = Some (set_key jwk thumb a).
Proof.
  intros Hj Hv Hjwk Hp Hacc Hu Hlast Hid Ha Hold Hkey Heq Hth Hfresh.
  unfold key_change, with_jws. rewrite Hj. cbn [negb].
  pose proof (verify_keeps_accounts jws (base_url ^+ "/acme/key-change") None now st) as Eac.
  rewrite Hv in *. cbn [fst] in Eac.
  assert (Json.truthy payload = true) as -> by (destruct payload as [| | | | |[|]]; done).
  rewrite Hp. cbn [negb]. unfold Json.get_or. rewrite Hacc, Hold. cbn [default from_option Datatypes.id].
  unfold last_segment. cbn [Json.truthy]. rewrite Hu. cbn [negb]. rewrite Hlast.
  cbn [default from_option Datatypes.id]. rewrite Hid. cbn [negb].
  assert (get_account_by_kid (Some id) st1 = Some a) as Ha1 by (unfold get_account_by_kid in *; by rewrite Eac).
  rewrite Ha1, Hkey, Heq. cbn [negb orb]. rewrite Hjwk. cbn [negb]. rewrite Hth, Eac.
  destruct (existsb _ (accounts st)) eqn:Eu.
  { apply existsb_exists in Eu as (b & Hb & [E%String.eqb_eq _]%andb_true_iff). by destruct (Hfresh b Hb). }
  split; [done|]. unfold get_account_by_kid in *. cbn [mbind option_bind] in *.
  apply Table.first_Some in Ha1 as Hid'. destruct Hid' as [_ E%String.eqb_eq].
  cbn. rewrite E. clear -Ha1. unfold Table.first, Table.update in *.
  induction (accounts st1) as [|b l IH]; [done|]. cbn [List.find List.map] in *.
  destruct (String.eqb (a_account_id b) id) eqn:Eb.
  - injection Ha1 as ->. cbn. by rewrite Eb.
  - rewrite Eb. by apply IH.
Qed.

(** A certificate cannot be revoked through the ACME server: whatever the request,
    the reply is not a success and no table of the CA changes. *)
Theorem revoke_cert_never_revokes q now st (trail : T) :
  let r := serve token_urlsafe py_repr base_url library_error (RevokeCert q) now st trail in
  response_code r.2 <> 200%Z /\ pki r.1.1 = pki st /\ r.1.2 = trail.
Proof.
  cbv zeta. cbn [serve fst snd]. unfold revoke_cert, with_jws.
  assert (forall k d c st', pki st' = pki st -> c <> 200%Z ->
    response_code (acme_error k d c now st').2 <> 200%Z /\ pki (acme_error k d c now st').1 = pki st /\
    trail = trail) as He by done.
  destruct q as [jws|]; [|by apply He]. destruct (negb _); [by apply He|].
  assert (pki (verify_jws jws (base_url ^+ "/acme/revoke-cert") None now st).1 = pki st) as Hp
    by (by destruct (verify_frame jws (base_url ^+ "/acme/revoke-cert") None now st) as [->|[tok ->]]).
  destruct (verify_jws jws _ None now st) as [st' [p j|e]]; [|by apply He]. cbn in Hp.
  unfold internal. cbv zeta. repeat match goal with
  | |- context [if ?b then _ else _] => destruct b; [by apply He|]
  end.
  destruct (Json.get_or _ _ _); try (by apply He). destruct (_ ≫= cert_serial); by apply He.
Qed.

(** * The certificate chain *)

(** Issuers, each referred to by the one before. *)
Fixpoint path (d : Pki.db) (r : option string) (l : list Pki.ca) : Prop :=
  match l with
  | [] => True
  | a :: l' => (exists s, r = Some s /\ Pki.ca_by_refid s d = Some a) /\ path d (Pki.ca_caref a) l'
  end.
(** Where the chain ends: no further issuer, or one that was listed before. *)
Fixpoint ends (d : Pki.db) (r : option string) (l : list Pki.ca) : option string :=
  match l with [] => r | a :: l' => ends d (Pki.ca_caref a) l' end.

Lemma ca_by_refid_In r d a : Pki.ca_by_refid r d = Some a -> In a (Pki.cas d) /\ Pki.ca_refid a = r.
Proof. intros [? E%String.eqb_eq]%Table.first_Some. done. Qed.

Lemma ca_chain_spec fuel d r seen :
  NoDup seen -> (forall s, In s seen -> In s (List.map Pki.ca_refid (Pki.cas d))) ->
  length (Pki.cas d) < fuel + length seen ->
  exists l, ca_chain fuel d r seen = Some (List.map (fun a => pem_block (Pki.ca_crt a)) l) /\ path d r l /\
    NoDup (List.map Pki.ca_refid l) /\ (forall s, In s (List.map Pki.ca_refid l) -> ~ In s seen) /\
    (forall s, ends d r l = Some s -> Str.truthy s = true ->
       In s seen \/ In s (List.map Pki.ca_refid l) \/ Pki.ca_by_refid s d = None).
Proof.
  revert r seen. induction fuel as [|fuel IH]; intros r seen Hnd Hsub Hlen.
  { exfalso. pose proof (NoDup_incl_length (proj1 (NoDup_ListNoDup _) Hnd) Hsub) as Hl.
    rewrite length_map in Hl. lia. }
  cbn [ca_chain]. destruct r as [r|]; [|exists []; repeat (split; [done || constructor|]); done].
  destruct (Str.truthy r) eqn:Et; cbn [negb orb].
  2: { exists []. repeat (split; [done || constructor|]). intros s [= <-]. congruence. }
  destruct (existsb (String.eqb r) seen) eqn:Es.
  { exists []. repeat (split; [done || constructor|]). intros s [= <-] _. left.
    apply existsb_exists in Es as (x & Hx & ->%String.eqb_eq). done. }
  destruct (Pki.ca_by_refid r d) as [a|] eqn:Ea.
  2: { exists []. repeat (split; [done || constructor|]). intros s [= <-] _. by right; right. }
  assert (~ In r seen) as Hr.
  { intros Hin. assert (existsb (String.eqb r) seen = true) as E; [|congruence].
    apply existsb_exists. exists r. split; [done|apply StrFacts.eqb_refl]. }
  destruct (ca_by_refid_In _ _ _ Ea) as [Hina Era].
  destruct (IH (Pki.ca_caref a) (r :: seen)) as (l & Hl & Hp & Hd & Hns & He).
  - constructor; [by rewrite list_elem_of_In|done].
  - intros s [<-|Hs]; [|by apply Hsub]. rewrite <-Era. by apply in_map.
  - simpl. lia.
  - exists (a :: l). rewrite Hl. split; [done|]. split; [split; [by exists r|done]|]. cbn [List.map].
    rewrite Era. split; [constructor; [|done]; rewrite list_elem_of_In; intros Hin; apply (Hns r Hin); by left|].
    split; [intros s [<-|Hs]; [done|]; intros Hin; apply (Hns s Hs); by right|].
    intros s Hs Ht. destruct (He s Hs Ht) as [[<-|?]|[?|?]]; simpl; auto.
Qed.

(** The chain served with a certificate is always built: the walk up the issuers
    stops by itself, lists every issuer once and in order, and ends only where the
    issuer is unknown or was listed before. *)
Theorem served_chain_terminates d r :
  exists l, ca_chain (chain_fuel d) d r [] = Some (List.map (fun a => pem_block (Pki.ca_crt a)) l) /\
    path d r l /\ NoDup (List.map Pki.ca_refid l) /\
    (forall s, ends d r l = Some s -> Str.truthy s = true ->
       In s (List.map Pki.ca_refid l) \/ Pki.ca_by_refid s d = None).
Proof.
  destruct (ca_chain_spec (chain_fuel d) d r []) as (l & Hl & Hp & Hd & _ & He);
    [constructor|done|unfold chain_fuel; simpl; lia|].
  exists l. split; [done|]. split; [done|]. split; [done|]. intros s Hs Ht.
  destruct (He s Hs Ht) as [[]|?]. done.
Qed.

End Facts.
(** * Concrete requests *)
Module Run.

#[local] Existing Instance list_sink.
#[local] Existing Instance PkiWitness.toy_x509.

Definition victim_key : json := JDict [("kty", JStr "RSA"); ("n", JStr "victim"); ("e", JStr "AQAB")].
Definition evil_key : json := JDict [("kty", JStr "RSA"); ("n", JStr "evil"); ("e", JStr "AQAB")].
Definition identifiers : json :=
  JList [JDict [("type", JStr "dns"); ("value", JStr "evil.example")]].
Definition order_header : json :=
  JDict [("url", JStr "/acme/new-order"); ("nonce", JStr "N"); ("kid", JStr "/acme/acct/A")].
Definition order_payload : json := JDict [("identifiers", identifiers)].
Definition change_header : json :=
  JDict [("alg", JStr "RS256"); ("url", JStr "/acme/key-change"); ("nonce", JStr "N"); ("jwk", evil_key)].
Definition change_payload : json := JDict [("account", JStr "/acme/acct/A"); ("oldKey", victim_key)].

(** Signatures of the sender's own key are valid, those of the victim's are not. *)
#[local] Instance toy_jose : Jose := {|
  key := string;
  utf8 s := Some s;
  loads s := Json.assoc s [("h1", order_header); ("p1", order_payload); ("h2", change_header);
                           ("p2", change_payload)];
  fromisoformat _ := None;
  load_rsa j := match Json.get "n" j with Some (JStr n) => Some n | _ => None end;
  load_ec _ := None;
  key_verify k _ _ _ := String.eqb k "evil";
  csr_der_to_pem _ := None;
  cert_serial _ := None;
|}.

Definition signed_object (header payload : string) : json :=
  JDict [("protected", JStr header); ("payload", JStr payload); ("signature", JStr "")].
(** base64 of [h1], [p1], [h2] and [p2] *)
Definition order_request : json := signed_object "aDE" "cDE".
Definition change_request : json := signed_object "aDI" "cDI".

Definition victim : account := Account "A" victim_key "thumb" None Deactivated (Some true) 0.
Definition s0 : state := State [victim] [] [] [] [Nonce "N" 100 false None] (Pki.Db [PkiWitness.root] [] [])
  [] [] None 0.
Definition toks := AcmeFacts.Run.toks.
Definition no_repr := AcmeFacts.Run.no_repr.

Lemma served_states_witness :
  exists l, AcmeFacts.reachable toks no_repr "" "error"
    (serve toks no_repr "" "error" (NewOrder (Some order_request)) 5 AcmeFacts.Run.s2 ([] : list string)).1.1
    (l ++ AcmeFacts.Run.seen).
Proof.
  exact (served_states_are_reachable toks no_repr "" "error" (NewOrder (Some order_request)) 5
    AcmeFacts.Run.s2 ([] : list string) AcmeFacts.Run.seen AcmeFacts.Run.s2_reachable).
Defined.

Lemma accepted_request_witness : signed_by evil_key change_request.
Proof.
  destruct (accepted_request_is_fresh no_repr change_request "/acme/key-change" None 5 s0
    (validate_nonce "N" 5 s0).1 change_payload evil_key) as (_ & _ & _ & H & _).
  - vm_compute. reflexivity.
  - exact (H eq_refl).
Defined.

Lemma order_keyless : keyless order_request "/acme/new-order" "/acme/acct/A" order_payload 5 s0.
Proof.
  split; [|reflexivity|].
  - eexists _, _. split; [reflexivity|]. split; [vm_compute; reflexivity|]. do 3 (split; [vm_compute; reflexivity|]).
    exists "N". split; [|split]; vm_compute; reflexivity.
  - eexists _. split; vm_compute; reflexivity.
Qed.

(** An order for the deactivated account, with an empty signature. *)
Lemma new_order_witness :
  exists o, In o (orders (new_order toks no_repr "" (Some order_request) 5 s0).1) /\ o_account_id o = "A".
Proof.
  destruct (new_order_needs_no_key toks no_repr "" order_request "/acme/acct/A" order_payload 5 s0 victim
    [JDict [("type", JStr "dns"); ("value", JStr "evil.example")]] order_keyless
    eq_refl eq_refl ltac:(vm_compute; reflexivity) eq_refl eq_refl eq_refl eq_refl eq_refl)
    as (_ & o & Ho & Ha & _).
  exact (ex_intro _ o (conj Ho Ha)).
Defined.

Definition evil_thumb : string := default "" (compute_jwk_thumbprint evil_key).
Lemma key_change_witness :
  get_account_by_kid (Some "A") (key_change toks no_repr "" (Some change_request) 5 s0).1
  = Some (set_key evil_key evil_thumb victim).
Proof.
  refine (proj2 (key_change_takeover toks no_repr "" change_request 5 s0 (validate_nonce "N" 5 s0).1
    change_payload evil_key "/acme/acct/A" "A" victim evil_thumb _ _ _ _ _ _ _ _ _ _ _ _ _ _));
    try (vm_compute; reflexivity).
  intros b [<-|[]]. vm_compute. discriminate.
Defined.

End Run.

End AcmeApiFacts.
