(* ===== verification/Login.v ===== *)
(** Logging in and the account's own security settings: the password login with its
    lockout and the password reset of [api/v2/auth.py], the two-step login of
    [api/v2/auth_methods.py], and the second factor and password change of
    [api/v2/account.py].

    A request body is the value [request.json] returns ([None] when it raises); every
    handler runs at one moment [now], for one client with one session. *)
From S2P Require Import Prelude Hashes Permissions Auth AuditSink AuditLog PasswordPolicy Csrf Anomaly.

Module Login.
Local Open Scope string_scope.
Local Open Scope list_scope.

(** * State *)

(** [User], as far as logging in reads or writes it. *)
Record account := Account {
  u_id : Z;
  u_username : string;
  u_email : string;
  u_role : string;
  u_active : bool;
  u_password_hash : string;
  u_totp_secret : option string;
  u_totp_confirmed : bool;
  u_backup_codes : option string;
  u_force_password_change : bool;
  u_password_reset_token : option string;
  u_password_reset_expires : option Z;
  u_last_login : option Z;
  u_login_count : option Z;
  u_failed_logins : option Z;
  u_locked_until : option Z;
}.

Definition set_lock (failed : option Z) (until : option Z) (u : account) : account :=
  Account (u_id u) (u_username u) (u_email u) (u_role u) (u_active u) (u_password_hash u)
    (u_totp_secret u) (u_totp_confirmed u) (u_backup_codes u) (u_force_password_change u)
    (u_password_reset_token u) (u_password_reset_expires u) (u_last_login u) (u_login_count u)
    failed until.
Definition set_login (now : Z) (u : account) : account :=
  Account (u_id u) (u_username u) (u_email u) (u_role u) (u_active u) (u_password_hash u)
    (u_totp_secret u) (u_totp_confirmed u) (u_backup_codes u) (u_force_password_change u)
    (u_password_reset_token u) (u_password_reset_expires u) (Some now)
    (Some (default 0 (u_login_count u) + 1)%Z) (Some 0%Z) (u_locked_until u).
Definition set_reset (token : option string) (expires : option Z) (u : account) : account :=
  Account (u_id u) (u_username u) (u_email u) (u_role u) (u_active u) (u_password_hash u)
    (u_totp_secret u) (u_totp_confirmed u) (u_backup_codes u) (u_force_password_change u)
    token expires (u_last_login u) (u_login_count u) (u_failed_logins u) (u_locked_until u).
Definition set_password (hash : string) (u : account) : account :=
  Account (u_id u) (u_username u) (u_email u) (u_role u) (u_active u) hash
    (u_totp_secret u) (u_totp_confirmed u) (u_backup_codes u) false
    (u_password_reset_token u) (u_password_reset_expires u) (u_last_login u) (u_login_count u)
    (u_failed_logins u) (u_locked_until u).
Definition set_second (secret : option string) (confirmed : bool) (codes : option string) (u : account)
  : account :=
  Account (u_id u) (u_username u) (u_email u) (u_role u) (u_active u) (u_password_hash u)
    secret confirmed codes (u_force_password_change u)
    (u_password_reset_token u) (u_password_reset_expires u) (u_last_login u) (u_login_count u)
    (u_failed_logins u) (u_locked_until u).

(** The session, with the members only these routes use. *)
Record pending := Pending { p_user_id : Z; p_username : string; p_method : string }.
Record web_session := WebSession {
  w_session : Auth.session;
  w_auth_method : option string;
  w_pending : option pending;
}.
Definition cleared : web_session := WebSession Auth.empty_session None None.

(** An entry of [_2fa_failed_attempts]. *)
Record tracker := Tracker { t_count : Z; t_locked_until : option Z }.

Record state := State {
  accounts : list account;
  second_factor : gmap string tracker;
  web : web_session;
  detector : Anomaly.cache;
}.
Definition with_accounts l st := State l (second_factor st) (web st) (detector st).
Definition with_second m st := State (accounts st) m (web st) (detector st).
Definition with_web w st := State (accounts st) (second_factor st) w (detector st).
Definition with_detector c st := State (accounts st) (second_factor st) (web st) c.

Definition by_name (name : string) (st : state) : option account :=
  Table.first (fun u => String.eqb (u_username u) name) (accounts st).
Definition by_id (id : Z) (st : state) : option account :=
  Table.first (fun u => (u_id u =? id)%Z) (accounts st).
Definition update_user (id : Z) (f : account -> account) (st : state) : state :=
  with_accounts (Table.update (fun u => (u_id u =? id)%Z) f (accounts st)) st.

(** Replies; [Raised] is an exception the handler does not catch. *)
Inductive reply :=
| Failure (code : Z) (message : json)
| LoggedIn (user_id : Z) (csrf_token : string) (force_password_change : bool)
| Requires2FA (user_id : Z)
| Done (message : string)
| Codes (codes : list string)
| Secret (secret : string)
| Raised.
Definition failure (code : Z) (message : string) : reply := Failure code (JStr message).

(** werkzeug, pyotp and [json.loads]: a stored hash accepts its password; the result
    of a code check is [None] when the library raises. *)
Class Secrets := {
  generate_password_hash : nat -> string -> string;
  check_password_hash : string -> string -> bool;
  totp_verify : string -> Z -> json -> Z -> option bool;
  loads : string -> option json;
  check_generated n p : check_password_hash (generate_password_hash n p) p = true;
}.

(** * Account lockout *)

Definition MAX_FAILED_ATTEMPTS : Z := 5.
Definition LOCKOUT_DURATION_MINUTES : Z := 15.

(** [_check_account_lockout] *)
Definition check_account_lockout (username : string) (now : Z) (st : state) : state * bool :=
  match by_name username st with
  | None => (st, false)
  | Some u =>
      match u_locked_until u with
      | None => (st, false)
      | Some t =>
          if (now <? t)%Z then (st, true)
          else (update_user (u_id u) (set_lock (Some 0%Z) None) st, false)
      end
  end.

(** [_record_failed_attempt] *)
Definition failed_again (now : Z) (u : account) : account :=
  let n := (default 0 (u_failed_logins u) + 1)%Z in
  set_lock (Some n)
    (if (MAX_FAILED_ATTEMPTS <=? n)%Z then Some (now + Time.minutes LOCKOUT_DURATION_MINUTES)%Z
     else u_locked_until u) u.
Definition record_failed_attempt (username : string) (now : Z) (st : state) : state :=
  match by_name username st with
  | None => st
  | Some u => update_user (u_id u) (failed_again now) st
  end.

(** [_clear_failed_attempts] *)
Definition clear_failed_attempts (username : string) (st : state) : state :=
  match by_name username st with
  | None => st
  | Some u =>
      if negb (default 0 (u_failed_logins u) =? 0)%Z ||
         match u_locked_until u with Some _ => true | None => false end
      then update_user (u_id u) (set_lock (Some 0%Z) None) st else st
  end.

Section Handlers.
Context `{Hashes} `{Secrets} {T} `{AuditSink T} (secret : string).

(** The credentials of a body: [not data or not data.get(...)], where [None] is the
    AttributeError of a body that is not a dict. *)
Definition credentials (data : json) : option (option (json * json)) :=
  if negb (Json.truthy data) then Some None
  else if negb (Json.is_dict data) then None
  else
    let u := Json.get_or "username" JNull data in
    let p := Json.get_or "password" JNull data in
    Some (if Json.truthy u && Json.truthy p then Some (u, p) else None).

(** [CSRFProtection.generate_token(user.id)] at a time in microseconds *)
Definition csrf_token (nonce : string) (uid now : Z) : string :=
  Csrf.generate_token secret nonce uid (now / Time.second).

(** [login]: the refusal and the success after the lockout was checked. *)
Definition refuse_login (username : string) (uid : Z) (ip agent : string) (now : Z) (st : state)
    (trail : T) : state * T * reply :=
  let st := record_failed_attempt username now st in
  let '(c, trail, _) := Anomaly.record_login uid ip agent false now (detector st) trail in
  (with_detector c st, trail, failure 401 "Invalid credentials").
Definition accept_login (u : account) (username ip agent nonce : string) (now : Z) (st : state)
    (trail : T) : state * T * reply :=
  let st := clear_failed_attempts username st in
  let '(c, trail, _) := Anomaly.record_login (u_id u) ip agent true now (detector st) trail in
  let w := WebSession (Auth.Session (Some (u_id u)) (Some (u_username u))
             (Some (Auth.SAt now)) (Some (Auth.SAt now)) None true) None None in
  (with_web w (with_detector c st), trail,
   LoggedIn (u_id u) (csrf_token nonce (u_id u) now) (u_force_password_change u)).
Definition login (request : option json) (ip agent nonce : string) (now : Z) (st : state) (trail : T)
  : state * T * reply :=
  match request with
  | None => (st, trail, Raised)
  | Some data =>
      match credentials data with
      | None => (st, trail, Raised)
      | Some None => (st, trail, failure 400 "Username and password required")
      | Some (Some (JStr username, password)) =>
          let username := Str.strip username in
          let '(st, locked) := check_account_lockout username now st in
          if locked : bool then (st, trail, failure 429 "Account temporarily locked. Try again later.")
          else
            match by_name username st with
            | None => refuse_login username 0 ip agent now st trail
            | Some u =>
                if negb (u_active u) then refuse_login username 0 ip agent now st trail
                else match password with
                | JStr p =>
                    if negb (check_password_hash (u_password_hash u) p)
                    then refuse_login username (u_id u) ip agent now st trail
                    else accept_login u username ip agent nonce now st trail
                | _ => (st, trail, Raised)
                end
            end
      | Some (Some _) => (st, trail, Raised)
      end
  end.

(** [logout], behind [require_auth] *)
Definition logout (st : state) (trail : T) : state * T * reply :=
  let username := default "unknown" (Auth.s_username (w_session (web st))) in
  (with_web cleared st,
   record_event (AuditLog.log_auth "logout" username ANone
                   (Some ("User " ^+ username ^+ " logged out")) true) trail,
   Done "Logout successful").

(** * Password reset *)

(** [_is_email_configured]: [SystemConfig.get] does not exist, and the AttributeError
    is answered with [False]. *)
Definition is_email_configured : bool := false.

(** [forgot_password]: [token] is the random token; the link is mailed. *)
Definition find_email (email : string) (st : state) : option account :=
  Table.first (fun u => String.eqb (Str.lower (u_email u)) email) (accounts st).
Definition or_empty (request : option json) : option json :=
  data ← request; Some (if Json.truthy data then data else JDict []).
Definition forgot_password (request : option json) (token : string) (now : Z) (st : state) (trail : T)
  : state * T * reply :=
  if negb is_email_configured
  then (st, trail, failure 503 "Password reset unavailable - email not configured")
  else match or_empty request with
  | Some (JDict kv) =>
      match Json.get_or "email" (JStr "") (JDict kv) with
      | JStr s =>
          let email := Str.lower (Str.strip s) in
          if negb (Str.truthy email) then (st, trail, failure 400 "Email is required")
          else
            let st := match find_email email st with
              | Some u => if u_active u
                          then update_user (u_id u)
                                 (set_reset (Some (sha256_hex token)) (Some (now + Time.hours 1)%Z)) st
                          else st
              | None => st
              end in
            (st, trail, Done "If an account with that email exists, a password reset link has been sent.")
      | _ => (st, trail, Raised)
      end
  | _ => (st, trail, Raised)
  end.

(** [reset_password]: [salt] is the randomness of the new hash. *)
Definition by_reset_token (hash : string) (st : state) : option account :=
  Table.first (fun u => match u_password_reset_token u with
                        | Some t => String.eqb t hash | None => false end) (accounts st).
(** [len]; [None] is the TypeError of a value that has none. *)
Definition json_length (j : json) : option nat :=
  match j with
  | JStr s => Some (String.length s)
  | JList l => Some (length l)
  | JDict kv => Some (length kv)
  | _ => None
  end.
Definition reset_row (hash : string) (u : account) : account :=
  set_lock (Some 0%Z) None (set_reset None None (set_password hash u)).
Definition reset_password (request : option json) (salt : nat) (now : Z) (st : state) (trail : T)
  : state * T * reply :=
  match or_empty request with
  | Some (JDict kv) =>
      let new_password := Json.get_or "password" (JStr "") (JDict kv) in
      match Json.get_or "token" (JStr "") (JDict kv) with
      | JStr t =>
          let token := Str.strip t in
          if negb (Str.truthy token) then (st, trail, failure 400 "Reset token is required")
          else if match json_length new_password with
                  | Some n => (n <? 8)%nat | None => negb (Json.truthy new_password) end
          then (st, trail, failure 400 "Password must be at least 8 characters")
          else match new_password with
          | JStr password =>
          match PasswordPolicy.validate_password password None None with
          | None => (st, trail, Raised)
          | Some (false, message) => (st, trail, Failure 400 (Json.strings message))
          | Some (true, _) =>
              match by_reset_token (sha256_hex token) st with
              | None => (st, trail, failure 400 "Invalid or expired reset token")
              | Some u =>
                  match u_password_reset_expires u with
                  | None => (st, trail, Raised)
                  | Some e =>
                      if (e <? now)%Z
                      then (update_user (u_id u) (set_reset None None) st, trail,
                            failure 400 "Reset token has expired")
                      else
                        (update_user (u_id u) (reset_row (generate_password_hash salt password)) st,
                         record_event (Event "password_reset" (Some "user") (AStr (Num.str (u_id u))) ANone
                                         (AStr "Password reset via email") true None) trail,
                         Done "Password has been reset successfully")
                  end
              end
          end
          | _ => (st, trail, Raised)
          end
      | _ => (st, trail, Raised)
      end
  | _ => (st, trail, Raised)
  end.

(** * The two-step login *)

Definition MAX_2FA_ATTEMPTS : Z := 5.
Definition TWO_FA_LOCKOUT_SECONDS : Z := 900.

(** [_check_2fa_lockout], [_record_2fa_failure] and [_clear_2fa_failures] *)
Definition check_2fa_lockout (key : string) (now : Z) (m : gmap string tracker) : gmap string tracker * bool :=
  match m !! key with
  | None => (m, false)
  | Some e =>
      match t_locked_until e with
      | None => (m, false)
      | Some t => if (now <? t)%Z then (m, true) else (delete key m, false)
      end
  end.
Definition record_2fa_failure (key : string) (now : Z) (m : gmap string tracker) : gmap string tracker :=
  let e := default (Tracker 0 None) (m !! key) in
  let n := (t_count e + 1)%Z in
  <[key := Tracker n (if (MAX_2FA_ATTEMPTS <=? n)%Z then Some (now + TWO_FA_LOCKOUT_SECONDS * Time.second)%Z
                      else t_locked_until e)]> m.
Definition clear_2fa_failures (key : string) (m : gmap string tracker) : gmap string tracker := delete key m.

Definition user_event (action : string) (rid rname : pyarg) (details : string) (success : bool)
    (username : string) : event :=
  Event action (Some "user") rid rname (AStr details) success (Some username).

(** [login_password].  A name that is a number is looked up by its text. *)
Definition login_password (request : option json) (nonce : string) (now : Z) (st : state) (trail : T)
  : state * T * reply :=
  match request with
  | None => (st, trail, Raised)
  | Some data =>
      match credentials data with
      | None => (st, trail, Raised)
      | Some None => (st, trail, failure 400 "Username and password required")
      | Some (Some (name, password)) =>
          match Json.bind_text name with
          | None => (st, trail, Raised)
          | Some username =>
              match by_name username st with
              | Some u =>
                  if negb (u_active u) then
                    (st, record_event (user_event "login_failure" ANone ANone
                           ("Login failed for username: " ^+ username ^+ " (user not found or inactive)")
                           false username) trail, failure 401 "Invalid credentials")
                  else match password with
                  | JStr p =>
                      if negb (check_password_hash (u_password_hash u) p) then
                        (update_user (u_id u) (set_lock (Some (default 0 (u_failed_logins u) + 1)%Z) (u_locked_until u)) st,
                         record_event (user_event "login_failure" (AInt (u_id u)) ANone
                           ("Login failed for " ^+ username ^+ " (invalid password)") false username) trail,
                         failure 401 "Invalid credentials")
                      else
                        let st := update_user (u_id u) (set_login now) st in
                        if u_totp_confirmed u then
                          (with_web (WebSession (Auth.Session None None None None None true) None
                                       (Some (Pending (u_id u) (u_username u) "password"))) st,
                           record_event (user_event "login_2fa_required" (AInt (u_id u)) (AStr username)
                             ("Password verified, 2FA required for " ^+ username) true username) trail,
                           Requires2FA (u_id u))
                        else
                          (with_web (WebSession (Auth.Session (Some (u_id u)) (Some (u_username u)) None None None true)
                                       (Some "password") None) st,
                           record_event (user_event "login_success" (AInt (u_id u)) (AStr username)
                             ("Password login successful for " ^+ username) true username) trail,
                           LoggedIn (u_id u) (csrf_token nonce (u_id u) now) (u_force_password_change u))
                  | _ => (st, trail, Raised)
                  end
              | None =>
                  (st, record_event (user_event "login_failure" ANone ANone
                         ("Login failed for username: " ^+ username ^+ " (user not found or inactive)")
                         false username) trail, failure 401 "Invalid credentials")
              end
          end
      end
  end.

(** [str(code) in codes] and [codes.remove(str(code))]: the codes that remain, none
    when the code is not among them; the outer [None] is a TypeError or
    AttributeError. *)
Fixpoint remove_code (code : string) (l : list json) : option (list json) :=
  match l with
  | [] => None
  | j :: l' => if Json.eqb j (JStr code) then Some l' else cons j <$> remove_code code l'
  end.
Definition use_code (code : string) (codes : json) : option (option json) :=
  match codes with
  | JList l => Some (JList <$> remove_code code l)
  | _ => match Json.contains code codes with Some false => Some None | _ => None end
  end.

(** [str(code)] *)
Definition code_text (py_repr : json -> string) (code : json) : string :=
  match code with
  | JStr s => s
  | JInt z => Num.str z
  | JBool b => if b then "True" else "False"
  | _ => py_repr code
  end.

(** [login_2fa] *)
Definition login_2fa (py_repr : json -> string) (request : option json) (nonce : string) (now : Z)
    (st : state) (trail : T) : state * T * reply :=
  match w_pending (web st) with
  | None => (st, trail, failure 401 "No pending 2FA verification")
  | Some p =>
      if (p_user_id p =? 0)%Z then (st, trail, failure 401 "No pending 2FA verification")
      else
        let key := Num.str (p_user_id p) in
        let '(m, locked) := check_2fa_lockout key now (second_factor st) in
        let st := with_second m st in
        if locked : bool then (st, trail, failure 429 "Too many failed attempts. Try again later.")
        else match request with
        | None => (st, trail, Raised)
        | Some data =>
            if Json.truthy data && negb (Json.is_dict data) then (st, trail, Raised)
            else
              let code := Json.get_or "code" JNull data in
              if negb (Json.truthy code) then (st, trail, failure 400 "Verification code required")
              else match by_id (p_user_id p) st with
              | None => (with_web cleared st, trail, failure 401 "Invalid credentials")
              | Some u =>
                  if negb (u_active u) then (with_web cleared st, trail, failure 401 "Invalid credentials")
                  else
                    let text := code_text py_repr code in
                    let refuse (report : bool) :=
                      (with_second (record_2fa_failure key now (second_factor st)) st,
                       if report then
                         record_event (user_event "login_2fa_failure" (AInt (u_id u)) ANone
                           ("Invalid 2FA code for " ^+ p_username p) false (p_username p)) trail
                       else trail,
                       failure 401 "Invalid verification code") in
                    let accept st :=
                      let st := with_second (clear_2fa_failures key (second_factor st)) st in
                      (with_web (WebSession (Auth.Session (Some (u_id u)) (Some (u_username u)) None None None true)
                                   (Some (p_method p)) None) st,
                       record_event (user_event "login_success" (AInt (u_id u)) (AStr (u_username u))
                         ("Login successful with 2FA for " ^+ u_username u) true (u_username u)) trail,
                       LoggedIn (u_id u) (csrf_token nonce (u_id u) now) (u_force_password_change u)) in
                    match (s ← u_totp_secret u; totp_verify s 1 (JStr text) now) with
                    | None => (st, trail, Raised)
                    | Some true => accept st
                    | Some false =>
                        let stored := default "" (u_backup_codes u) in
                        if negb (Str.truthy stored) then refuse true
                        else match loads stored with
                        | None => refuse false
                        | Some codes =>
                            match use_code text codes with
                            | None => (st, trail, Raised)
                            | Some None => refuse true
                            | Some (Some rest) =>
                                accept (update_user (u_id u)
                                  (set_second (u_totp_secret u) (u_totp_confirmed u) (Some (Json.dumps rest))) st)
                            end
                        end
                    end
              end
        end
  end.

(** * The account's second factor and password: [api/v2/account.py] *)

(** [enable_2fa]: [totp] is the random secret, [uid] the signed-in user. *)
Definition enable_2fa (uid : Z) (totp : string) (st : state) (trail : T) : state * T * reply :=
  match by_id uid st with
  | None => (st, trail, failure 404 "User not found")
  | Some u =>
      (update_user uid (set_second (Some totp) (u_totp_confirmed u) (u_backup_codes u)) st, trail, Secret totp)
  end.

(** The [code] of a body; the outer [None] is the AttributeError. *)
Definition body_code (request : option json) (k : string) : option json :=
  data ← request;
  if negb (Json.truthy data) then Some JNull
  else if Json.is_dict data then Some (Json.get_or k JNull data) else None.

(** [confirm_2fa] and [regenerate_recovery_codes], with the new codes *)
Definition confirm_2fa (uid : Z) (request : option json) (codes : list string) (now : Z) (st : state)
    (trail : T) : state * T * reply :=
  match body_code request "code" with
  | None => (st, trail, Raised)
  | Some code =>
      if negb (Json.truthy code) then (st, trail, failure 400 "Verification code required")
      else match by_id uid st with
      | Some u =>
          let s := default "" (u_totp_secret u) in
          if negb (Str.truthy s) then (st, trail, failure 400 "2FA setup not initiated")
          else match totp_verify s 0 code now with
          | None => (st, trail, Raised)
          | Some false => (st, trail, failure 400 "Invalid verification code")
          | Some true =>
              (update_user uid (set_second (u_totp_secret u) true (Some (Str.join "," codes))) st,
               record_event (Event "mfa_enable" (Some "user") (AStr (Num.str (u_id u))) (AStr (u_username u))
                 (AStr ("2FA enabled for user: " ^+ u_username u)) true None) trail,
               Codes codes)
          end
      | None => (st, trail, failure 400 "2FA setup not initiated")
      end
  end.

Definition regenerate_recovery_codes (uid : Z) (request : option json) (codes : list string) (now : Z)
    (st : state) (trail : T) : state * T * reply :=
  match body_code request "code" with
  | None => (st, trail, Raised)
  | Some code =>
      if negb (Json.truthy code) then (st, trail, failure 400 "2FA code required")
      else match by_id uid st with
      | Some u =>
          if negb (u_totp_confirmed u) then (st, trail, failure 400 "2FA not enabled")
          else match (s ← u_totp_secret u; totp_verify s 0 code now) with
          | None => (st, trail, Raised)
          | Some false => (st, trail, failure 400 "Invalid verification code")
          | Some true =>
              (update_user uid (set_second (u_totp_secret u) (u_totp_confirmed u) (Some (Str.join "," codes))) st,
               trail, Codes codes)
          end
      | None => (st, trail, failure 400 "2FA not enabled")
      end
  end.

(** [disable_2fa] *)
Definition disable_2fa (uid : Z) (request : option json) (now : Z) (st : state) (trail : T)
  : state * T * reply :=
  match request with
  | None => (st, trail, Raised)
  | Some data =>
      if negb (Json.truthy data) then (st, trail, failure 400 "Verification required")
      else if negb (Json.is_dict data) then (st, trail, Raised)
      else
        let code := Json.get_or "code" JNull data in
        let backup_code := Json.get_or "backup_code" JNull data in
        if negb (Json.truthy code) && negb (Json.truthy backup_code)
        then (st, trail, failure 400 "Code or backup code required")
        else match by_id uid st with
        | None => (st, trail, failure 404 "User not found")
        | Some u =>
            let disabled :=
              (update_user uid (set_second None false None) st,
               record_event (Event "mfa_disable" (Some "user") (AStr (Num.str (u_id u))) (AStr (u_username u))
                 (AStr ("2FA disabled for user: " ^+ u_username u)) true None) trail,
               Done "2FA disabled successfully") in
            if Json.truthy code then
              let s := default "" (u_totp_secret u) in
              if negb (Str.truthy s) then (st, trail, failure 400 "2FA not enabled")
              else match totp_verify s 0 code now with
              | None => (st, trail, Raised)
              | Some false => (st, trail, failure 400 "Invalid verification code")
              | Some true => disabled
              end
            else if existsb (fun c => Json.eqb (JStr c) backup_code)
                      (Str.split "," (default "" (u_backup_codes u)))
            then disabled else (st, trail, failure 400 "Invalid backup code")
        end
  end.

(** [change_password] *)
Definition change_password (uid : Z) (request : option json) (salt : nat) (st : state) (trail : T)
  : state * T * reply :=
  match request with
  | None => (st, trail, Raised)
  | Some data =>
      if negb (Json.truthy data) then (st, trail, failure 400 "No data provided")
      else if negb (Json.is_dict data) then (st, trail, Raised)
      else
        let current_password := Json.get_or "current_password" JNull data in
        let new_password := Json.get_or "new_password" JNull data in
        let force_change := Json.truthy (Json.get_or "force_change" (JBool false) data) in
        if negb force_change && negb (Json.truthy current_password)
        then (st, trail, failure 400 "Current password is required")
        else if negb (Json.truthy new_password) then (st, trail, failure 400 "New password is required")
        else match json_length new_password with
        | None => (st, trail, Raised)
        | Some n =>
            if (n <? 8)%nat then (st, trail, failure 400 "Password must be at least 8 characters")
            else match by_id uid st with
            | None => (st, trail, failure 404 "User not found")
            | Some u =>
                let changed :=
                  match new_password with
                  | JStr p =>
                      (update_user uid (set_password (generate_password_hash salt p)) st,
                       record_event (Event "password_change" (Some "user") (AStr (Num.str (u_id u)))
                         (AStr (u_username u)) (AStr ("Password changed by user: " ^+ u_username u)) true None)
                         trail,
                       Done "Password changed successfully")
                  | _ => (st, trail, Raised)
                  end in
                if force_change && u_force_password_change u then changed
                else match current_password with
                | JStr c =>
                    if Str.truthy c && check_password_hash (u_password_hash u) c then changed
                    else (st, trail, failure 401 "Current password is incorrect")
                | j => if Json.truthy j then (st, trail, Raised)
                       else (st, trail, failure 401 "Current password is incorrect")
                end
            end
        end
  end.

End Handlers.
End Login.
