(* ===== verification/LoginFacts.v ===== *)
(** What logging in guarantees: how many wrong passwords the lockout lets through,
    what a session of the two-step login rests on, and the password reset; and what
    it does not: the plain login knows no second factor, and no recovery code is ever
    accepted. *)
From S2P Require Import Prelude Hashes Permissions Auth AuditSink AuditLog PasswordPolicy Csrf Anomaly Login.

Module LoginFacts.
Import Login.
Local Open Scope string_scope.
Local Open Scope list_scope.

(** * Rows *)

Lemma by_name_update name id f st :
  (forall u, u_username (f u) = u_username u) ->
  by_name name (update_user id f st) = (fun u => if (u_id u =? id)%Z then f u else u) <$> by_name name st.
Proof. intros Hf. apply (Table.first_update _ _ f). intros u. by rewrite Hf. Qed.

Lemma by_id_update id f st :
  (forall u, u_id (f u) = u_id u) ->
  by_id id (update_user id f st) = f <$> by_id id st.
Proof.
  intros Hf. unfold by_id, update_user. cbn [accounts with_accounts].
  rewrite (Table.first_update _ _ f) by (intros u; by rewrite Hf).
  destruct (Table.first _ (accounts st)) as [u|] eqn:E; [|done]. cbn.
  apply Table.first_Some in E as [_ ->]. done.
Qed.

Lemma by_name_Some name st u : by_name name st = Some u -> In u (accounts st) /\ u_username u = name.
Proof. intros [? E%String.eqb_eq]%Table.first_Some. done. Qed.

Definition unique_ids (st : state) : Prop := NoDup (List.map u_id (accounts st)).

Lemma unique_update id f st :
  (forall u, u_id (f u) = u_id u) -> unique_ids st -> unique_ids (update_user id f st).
Proof.
  intros Hf. unfold unique_ids, update_user, Table.update. cbn [accounts with_accounts].
  rewrite List.map_map. erewrite List.map_ext; [done|]. intros u. cbn.
  by destruct (u_id u =? id)%Z; rewrite ?Hf.
Qed.

Lemma unique_same (l : list account) u v :
  NoDup (List.map u_id l) -> In u l -> In v l -> u_id u = u_id v -> u = v.
Proof.
  induction l as [|w l IH]; [done|]. simpl. intros [Hw Hl]%NoDup_cons Hu Hv E.
  rewrite list_elem_of_In in Hw. destruct Hu as [->|Hu], Hv as [->|Hv]; [done|..|by apply IH].
  - exfalso. apply Hw. rewrite E. by apply in_map.
  - exfalso. apply Hw. rewrite <-E. by apply in_map.
Qed.

(** * The lockout *)

(** The two lockout columns of a user. *)
Definition lock_of (name : string) (st : state) : option (Z * option Z) :=
  (fun u => (default 0%Z (u_failed_logins u), u_locked_until u)) <$> by_name name st.

(** What an expired lock leaves. *)
Definition unlock (now : Z) (l : Z * option Z) : Z * option Z :=
  match l.2 with Some t => if (now <? t)%Z then l else (0%Z, None) | None => l end.
Definition locked (now : Z) (l : Z * option Z) : bool :=
  match l.2 with Some t => (now <? t)%Z | None => false end.
Definition count_failure (now : Z) (l : Z * option Z) : Z * option Z :=
  (l.1 + 1, if 5 <=? l.1 + 1 then Some (now + Time.minutes 15) else l.2)%Z.

Lemma lock_of_update name u g st :
  (forall x, u_username (g x) = u_username x) -> by_name name st = Some u ->
  lock_of name (update_user (u_id u) g st)
  = Some (default 0%Z (u_failed_logins (g u)), u_locked_until (g u)).
Proof.
  intros Hg Hu. unfold lock_of. rewrite by_name_update, Hu by done. cbn. by rewrite Z.eqb_refl.
Qed.

Lemma lock_of_other name name' u g st :
  (forall x, u_username (g x) = u_username x) -> unique_ids st -> name <> name' ->
  by_name name' st = Some u ->
  lock_of name (update_user (u_id u) g st) = lock_of name st.
Proof.
  intros Hg Hun Hne Hu. unfold lock_of. rewrite by_name_update by done.
  destruct (by_name name st) as [v|] eqn:Ev; [|done]. cbn.
  destruct (Z.eqb_spec (u_id v) (u_id u)) as [E|]; [|done]. exfalso.
  apply by_name_Some in Hu as [Hu <-]. apply by_name_Some in Ev as [Hv <-].
  apply Hne. f_equal. by apply (unique_same (accounts st)).
Qed.

Lemma check_lockout_spec name now st :
  let r := check_account_lockout name now st in
  lock_of name r.1 = unlock now <$> lock_of name st /\
  r.2 = match lock_of name st with Some l => locked now l | None => false end.
Proof.
  unfold check_account_lockout. destruct (by_name name st) as [u|] eqn:Eu.
  - assert (lock_of name st = Some (default 0%Z (u_failed_logins u), u_locked_until u)) as El
      by (unfold lock_of; by rewrite Eu).
    rewrite El. cbn [fmap option_fmap option_map]. unfold unlock, locked. cbn [snd].
    destruct (u_locked_until u) as [t|] eqn:Et; [|cbn; by rewrite El].
    destruct (now <? t)%Z; cbn [fst snd]; [by rewrite El|]. split; [|done].
    by rewrite (lock_of_update name u).
  - cbn. unfold lock_of. by rewrite Eu.
Qed.

Lemma record_failure_spec name now st :
  lock_of name (record_failed_attempt name now st) = count_failure now <$> lock_of name st.
Proof.
  unfold record_failed_attempt. destruct (by_name name st) as [u|] eqn:Eu.
  - rewrite (lock_of_update name u) by done. unfold lock_of. by rewrite Eu.
  - unfold lock_of. by rewrite Eu.
Qed.

Lemma check_lockout_other name name' now st :
  unique_ids st -> name <> name' ->
  lock_of name (check_account_lockout name' now st).1 = lock_of name st /\
  unique_ids (check_account_lockout name' now st).1.
Proof.
  intros Hun Hne. unfold check_account_lockout. destruct (by_name name' st) as [u|] eqn:Eu; [|done].
  destruct (u_locked_until u) as [t|]; [|done]. destruct (now <? t)%Z; [done|]. cbn [fst].
  split; [by apply (lock_of_other name name')|by apply unique_update].
Qed.
Lemma record_failure_other name name' now st :
  unique_ids st -> name <> name' ->
  lock_of name (record_failed_attempt name' now st) = lock_of name st.
Proof.
  intros Hun Hne. unfold record_failed_attempt. destruct (by_name name' st) as [u|] eqn:Eu; [|done].
  by apply (lock_of_other name name').
Qed.
Lemma clear_failed_other name name' st :
  unique_ids st -> name <> name' ->
  lock_of name (clear_failed_attempts name' st) = lock_of name st.
Proof.
  intros Hun Hne. unfold clear_failed_attempts. destruct (by_name name' st) as [u|] eqn:Eu; [|done].
  destruct (_ || _); [|done]. by apply (lock_of_other name name').
Qed.
Lemma lockout_unique name now st :
  unique_ids st -> unique_ids (check_account_lockout name now st).1 /\
  unique_ids (record_failed_attempt name now st) /\ unique_ids (clear_failed_attempts name st).
Proof.
  intros Hun. unfold check_account_lockout, record_failed_attempt, clear_failed_attempts.
  destruct (by_name name st) as [u|]; [|done]. split; [|split].
  - destruct (u_locked_until u); [|done]. destruct (_ <? _)%Z; [done|]. by apply unique_update.
  - by apply unique_update.
  - destruct (_ || _); [by apply unique_update|done].
Qed.

Section Facts.
Context `{Hashes} `{Secrets} {T} `{AuditSink T} (secret : string).

(** One login request. *)
Record attempt := Attempt {
  at_body : option json; at_ip : string; at_agent : string; at_nonce : string; at_time : Z;
}.
Definition step (a : attempt) (st : state) (trail : T) : state * T * reply :=
  login secret (at_body a) (at_ip a) (at_agent a) (at_nonce a) (at_time a) st trail.
Fixpoint replies (l : list attempt) (st : state) (trail : T) : list (attempt * reply) :=
  match l with
  | [] => []
  | a :: l' => let '(st, trail, r) := step a st trail in (a, r) :: replies l' st trail
  end.

(** The user a request names. *)
Definition names (name : string) (a : attempt) : bool :=
  match (data ← at_body a; credentials data) with
  | Some (Some (JStr s, _)) => String.eqb (Str.strip s) name
  | _ => false
  end.
Definition refused (r : reply) : bool := match r with Failure 401 _ => true | _ => false end.
Definition let_in (r : reply) : bool := match r with LoggedIn _ _ _ => true | _ => false end.
Definition guesses (name : string) (l : list (attempt * reply)) : nat :=
  length (List.filter (fun p => names name p.1 && refused p.2) l).

(** Where a request ends: before the lockout is checked, or after it. *)
Inductive outcome (a : attempt) (st : state) (trail : T) : state * T * reply -> Prop :=
| ends_early r : (forall name, names name a = false) -> refused r = false ->
    outcome a st trail (st, trail, r)
| ends_late n r : (forall name, names name a = String.eqb n name) -> refused r = false ->
    outcome a st trail ((check_account_lockout n (at_time a) st).1, trail, r)
| ends_refused n uid : (forall name, names name a = String.eqb n name) ->
    (check_account_lockout n (at_time a) st).2 = false ->
    outcome a st trail (refuse_login n uid (at_ip a) (at_agent a) (at_time a)
                          (check_account_lockout n (at_time a) st).1 trail)
| ends_accepted n u : (forall name, names name a = String.eqb n name) ->
    outcome a st trail (accept_login secret u n (at_ip a) (at_agent a) (at_nonce a) (at_time a)
                          (check_account_lockout n (at_time a) st).1 trail).

Lemma step_outcome a st trail : outcome a st trail (step a st trail).
Proof.
  unfold step, login. destruct (at_body a) as [data|] eqn:Ea.
  2: { apply ends_early; [|done]. intros name. unfold names. by rewrite Ea. }
  destruct (credentials data) as [[[name pw]|]|] eqn:Ec; cycle 1.
  - apply ends_early; [|done]. intros n. unfold names. by rewrite Ea; cbn; rewrite Ec.
  - apply ends_early; [|done]. intros n. unfold names. by rewrite Ea; cbn; rewrite Ec.
  - destruct name as [| | |s| |];
      try (apply ends_early; [|done]; intros n; unfold names; by rewrite Ea; cbn; rewrite Ec).
    assert (forall name, names name a = String.eqb (Str.strip s) name) as Hn
      by (intros name; unfold names; rewrite Ea; cbn; by rewrite Ec).
    pose proof (ends_late a st trail (Str.strip s)) as Hlate.
    pose proof (ends_refused a st trail (Str.strip s)) as Href.
    pose proof (ends_accepted a st trail (Str.strip s)) as Hacc.
    destruct (check_account_lockout (Str.strip s) (at_time a) st) as [st1 b]. cbn [fst snd] in *.
    destruct b; [by apply Hlate|].
    destruct (by_name _ st1) as [u|]; [|by apply Href]. destruct (negb _); [by apply Href|].
    destruct pw; try (by apply Hlate). destruct (negb _); [by apply Href|by apply Hacc].
Qed.

Lemma refuse_login_effect n uid ip agent now st trail :
  let r := refuse_login n uid ip agent now st trail in
  accounts r.1.1 = accounts (record_failed_attempt n now st) /\ r.2 = failure 401 "Invalid credentials".
Proof. unfold refuse_login. by destruct (Anomaly.record_login _ _ _ _ _ _ _) as [[c tr] an]. Qed.
Lemma accept_login_effect u n ip agent nonce now st trail :
  let r := accept_login secret u n ip agent nonce now st trail in
  accounts r.1.1 = accounts (clear_failed_attempts n st) /\
  r.2 = LoggedIn (u_id u) (csrf_token secret nonce (u_id u) now) (u_force_password_change u) /\
  Auth.s_user_id (w_session (web r.1.1)) = Some (u_id u).
Proof. unfold accept_login. by destruct (Anomaly.record_login _ _ _ _ _ _ _) as [[c tr] an]. Qed.

Lemma lock_of_accounts name st st' : accounts st' = accounts st -> lock_of name st' = lock_of name st.
Proof. unfold lock_of, by_name. by intros ->. Qed.

(** What a request of another user, and one of the user, does to the lockout columns. *)
Lemma step_other name a st trail :
  unique_ids st -> names name a = false ->
  unique_ids (step a st trail).1.1 /\ lock_of name (step a st trail).1.1 = lock_of name st.
Proof.
  intros Hun Hn. destruct (step_outcome a st trail) as [r _ _|n r E _|n uid E _|n u E]; [done|..].
  all: assert (name <> n) as Hne by (intros <-; rewrite E, StrFacts.eqb_refl in Hn; done).
  all: pose proof (check_lockout_other name n (at_time a) st Hun Hne) as [Hl Hu]; cbn [fst snd].
  - done.
  - destruct (refuse_login_effect n uid (at_ip a) (at_agent a) (at_time a)
      (check_account_lockout n (at_time a) st).1 trail) as [Ea _].
    unfold unique_ids. rewrite (lock_of_accounts name _ _ Ea), Ea, record_failure_other by done.
    split; [|done]. by apply lockout_unique.
  - destruct (accept_login_effect u n (at_ip a) (at_agent a) (at_nonce a) (at_time a)
      (check_account_lockout n (at_time a) st).1 trail) as [Ea _].
    unfold unique_ids. rewrite (lock_of_accounts name _ _ Ea), Ea, clear_failed_other by done.
    split; [|done]. by apply (lockout_unique n 0).
Qed.

Lemma step_same name a st trail :
  unique_ids st -> names name a = true -> let_in (step a st trail).2 = false ->
  let l := lock_of name st in
  let l' := lock_of name (step a st trail).1.1 in
  unique_ids (step a st trail).1.1 /\
  ((refused (step a st trail).2 = false /\ l' = unlock (at_time a) <$> l) \/
   (refused (step a st trail).2 = true /\ match l with Some x => locked (at_time a) x = false | None => True end /\
    l' = (fun x => count_failure (at_time a) (unlock (at_time a) x)) <$> l)).
Proof.
  intros Hun Hn Hin. cbv zeta. revert Hin.
  destruct (step_outcome a st trail) as [r E _|n r E Hr|n uid E Hb|n u E]; [by rewrite E in Hn|..].
  all: assert (n = name) as -> by (rewrite E in Hn; by apply String.eqb_eq).
  all: pose proof (check_lockout_spec name (at_time a) st) as [Hl Hlb].
  all: pose proof (lockout_unique name (at_time a) st Hun) as [Hu _]; cbn [fst snd].
  - intros _. split; [done|]. by left.
  - intros _. destruct (refuse_login_effect name uid (at_ip a) (at_agent a) (at_time a)
      (check_account_lockout name (at_time a) st).1 trail) as [Ea ->].
    unfold unique_ids. rewrite (lock_of_accounts name _ _ Ea), Ea, record_failure_spec, Hl.
    split; [by apply lockout_unique|]. right. split; [done|]. rewrite Hlb in Hb. by destruct (lock_of name st).
  - by destruct (accept_login_effect u name (at_ip a) (at_agent a) (at_nonce a) (at_time a)
      (check_account_lockout name (at_time a) st).1 trail) as (_ & -> & _).
Qed.

(** How many more wrong passwords fit into a window that ends at [stop]. *)
Definition room (stop : Z) (l : Z * option Z) : Z :=
  match l.2 with
  | None => Z.max 1 (5 - l.1)
  | Some t => if (stop <=? t)%Z then 0 else 5
  end%Z.
Lemma room_bounds stop l : (0 <= l.1)%Z -> (0 <= room stop l <= 5)%Z.
Proof. unfold room. destruct (l.2) as [t|]; [destruct (_ <=? _)%Z|]; lia. Qed.
Lemma room_unlock stop now l :
  (now < stop)%Z -> (0 <= l.1)%Z -> (0 <= (unlock now l).1)%Z /\ (room stop (unlock now l) <= room stop l)%Z.
Proof.
  intros Hn Hl. unfold unlock, room. destruct (l.2) as [t|] eqn:E; [|rewrite E; lia].
  destruct (Z.ltb_spec now t); rewrite ?E; cbn; [lia|]. destruct (Z.leb_spec stop t); lia.
Qed.
Lemma room_failure stop now l :
  (stop <= now + Time.minutes 15)%Z -> (now < stop)%Z -> (0 <= l.1)%Z -> locked now l = false ->
  let l' := count_failure now (unlock now l) in (0 <= l'.1)%Z /\ (room stop l' + 1 <= room stop l)%Z.
Proof.
  intros Hs Hn Hl Hlock. unfold locked in Hlock. unfold count_failure, unlock, room.
  destruct (l.2) as [t|] eqn:E.
  - rewrite Hlock. apply Z.ltb_ge in Hlock. cbn [fst snd]. change (5 <=? 0 + 1)%Z with false. cbn iota.
    destruct (Z.leb_spec stop t); lia.
  - rewrite E. cbn [fst snd]. destruct (Z.leb_spec 5 (l.1 + 1)); cbn [fst snd].
    + destruct (Z.leb_spec stop (now + Time.minutes 15)); lia.
    + lia.
Qed.

Lemma guesses_room name start l st trail :
  unique_ids st ->
  (forall a, In a l -> start <= at_time a < start + Time.minutes 15)%Z ->
  (forall p, In p (replies l st trail) -> names name p.1 = true -> let_in p.2 = false) ->
  match lock_of name st with
  | Some x => (0 <= x.1)%Z ->
              (Z.of_nat (guesses name (replies l st trail)) <= room (start + Time.minutes 15) x)%Z
  | None => True
  end.
Proof.
  unfold guesses. revert st trail. induction l as [|a l IH]; intros st trail Hun Ht Hin.
  { destruct (lock_of name st) as [x|]; [|done]. intros Hx. cbn. by apply room_bounds. }
  cbn [replies] in *. pose proof (step_other name a st trail Hun) as Ho.
  pose proof (step_same name a st trail Hun) as Hsame.
  destruct (step a st trail) as [[st' tr'] r]. cbn [fst snd] in *.
  assert (start <= at_time a < start + Time.minutes 15)%Z as Hta by (apply Ht; by left).
  cbn [List.filter fst snd]. destruct (names name a) eqn:En; cbn [andb].
  - destruct (Hsame eq_refl (Hin (a, r) (or_introl eq_refl) En)) as [Hun' Hc].
    specialize (IH st' tr' Hun' (fun b Hb => Ht b (or_intror Hb)) (fun p Hp => Hin p (or_intror Hp))).
    destruct (lock_of name st) as [x|]; [|done]. intros Hx.
    destruct Hc as [[-> E]|(-> & Hlk & E)]; rewrite E in IH; cbn [fmap option_fmap option_map] in IH.
    + destruct (room_unlock (start + Time.minutes 15) (at_time a) x) as [H1' H2']; [lia|done|].
      specialize (IH H1'). lia.
    + destruct (room_failure (start + Time.minutes 15) (at_time a) x) as [H1' H2']; [lia|lia|done|done|].
      specialize (IH H1'). cbn [length]. lia.
  - destruct (Ho eq_refl) as [Hun' E].
    specialize (IH st' tr' Hun' (fun b Hb => Ht b (or_intror Hb)) (fun p Hp => Hin p (or_intror Hp))).
    by rewrite E in IH.
Qed.

(** C7: From any state, among any requests to the plain login, for this user and for others,
    within fifteen minutes, at most five wrong passwords of the user are looked at, unless
    one of the requests logs in as that user, which resets the counter.  (The password step
    of the two-step login is no such request: it looks at no lock.) *)
Theorem lockout_window name start l st trail u :
  unique_ids st -> by_name name st = Some u -> (0 <= default 0 (u_failed_logins u))%Z ->
  (forall a, In a l -> start <= at_time a < start + Time.minutes 15)%Z ->
  (forall p, In p (replies l st trail) -> names name p.1 = true -> let_in p.2 = false) ->
  (guesses name (replies l st trail) <= 5)%nat.
Proof.
  intros Hun Hu Hf Ht Hin. pose proof (guesses_room name start l st trail Hun Ht Hin) as Hg.
  unfold lock_of in Hg. rewrite Hu in Hg. cbn in Hg. specialize (Hg Hf).
  pose proof (room_bounds (start + Time.minutes 15) (default 0 (u_failed_logins u), u_locked_until u)%Z Hf). lia.
Qed.

(** * The second factor *)

(** What the second step does to the session, and when. *)
Lemma login_2fa_inv py_repr q nonce now st trail st' trail' r :
  login_2fa secret py_repr q nonce now st trail = (st', trail', r) ->
  (let_in r = false /\ (web st' = web st \/ web st' = cleared)) \/
  exists p u data tok f, w_pending (web st) = Some p /\ q = Some data /\
    (check_2fa_lockout (Num.str (p_user_id p)) now (second_factor st)).2 = false /\
    by_id (p_user_id p) st = Some u /\ r = LoggedIn (u_id u) tok f /\ u_active u = true /\
    Auth.s_user_id (w_session (web st')) = Some (u_id u) /\
    let text := code_text py_repr (Json.get_or "code" JNull data) in
    ((exists s, u_totp_secret u = Some s /\ totp_verify s 1 (JStr text) now = Some true) \/
     (exists codes rest, loads (default "" (u_backup_codes u)) = Some codes /\
        use_code text codes = Some (Some rest))).
Proof.
  unfold login_2fa. destruct (w_pending (web st)) as [p|]; [|intros [= <- _ <-]; left; by split; [|left]].
  destruct (p_user_id p =? 0)%Z; [intros [= <- _ <-]; left; by split; [|left]|].
  destruct (check_2fa_lockout _ now (second_factor st)) as [m b] eqn:Ek.
  destruct b; [intros [= <- _ <-]; left; by split; [|left]|].
  destruct q as [data|]; [|intros [= <- _ <-]; left; by split; [|left]].
  destruct (_ && _); [intros [= <- _ <-]; left; by split; [|left]|]. cbv zeta.
  destruct (negb _); [intros [= <- _ <-]; left; by split; [|left]|].
  change (by_id (p_user_id p) (with_second m st)) with (by_id (p_user_id p) st).
  destruct (by_id (p_user_id p) st) as [u|] eqn:Eu; [|intros [= <- _ <-]; left; by split; [|right]].
  destruct (u_active u) eqn:Ea; cbn [negb]; [|intros [= <- _ <-]; left; by split; [|right]].
  set (text := code_text py_repr _).
  destruct (u_totp_secret u) as [s|] eqn:Es; cbn [mbind option_bind]; [|intros [= <- _ <-]; left; by split; [|left]].
  destruct (totp_verify s 1 (JStr text) now) as [[|]|] eqn:Et; [| |intros [= <- _ <-]; left; by split; [|left]].
  - intros [= <- _ <-]. right. exists p, u, data. eexists _, _. rewrite Ek, Eu. do 7 (split; [done|]). left. by exists s.
  - destruct (negb _); [intros [= <- _ <-]; left; by split; [|left]|].
    destruct (loads _) as [codes|] eqn:El; [|intros [= <- _ <-]; left; by split; [|left]].
    destruct (use_code text codes) as [[rest|]|] eqn:Ec; [|intros [= <- _ <-]; left; by split; [|left]..].
    intros [= <- _ <-]. right. exists p, u, data. eexists _, _. rewrite Ek, Eu. do 7 (split; [done|]). right. by exists codes, rest.
Qed.

Lemma login_2fa_success py_repr q nonce now st trail st' trail' uid tok f :
  login_2fa secret py_repr q nonce now st trail = (st', trail', LoggedIn uid tok f) ->
  exists p u data, w_pending (web st) = Some p /\ q = Some data /\
    (check_2fa_lockout (Num.str (p_user_id p)) now (second_factor st)).2 = false /\
    by_id (p_user_id p) st = Some u /\ u_id u = uid /\ u_active u = true /\
    let text := code_text py_repr (Json.get_or "code" JNull data) in
    ((exists s, u_totp_secret u = Some s /\ totp_verify s 1 (JStr text) now = Some true) \/
     (exists codes rest, loads (default "" (u_backup_codes u)) = Some codes /\
        use_code text codes = Some (Some rest))).
Proof.
  intros [[Hf _]|(p & u & data & tok' & f' & Hw & Hq & Hl & Hu & E & Ha & _ & Hc)]%login_2fa_inv; [done|].
  injection E as -> _ _. by exists p, u, data.
Qed.

(** What the password step does to the session, and when. *)
Lemma login_password_inv q nonce now st trail st' trail' r :
  login_password secret q nonce now st trail = (st', trail', r) ->
  (web st' = web st /\ let_in r = false) \/
  exists u pw data, In u (accounts st) /\ u_active u = true /\ q = Some data /\
    Json.get "password" data = Some (JStr pw) /\ check_password_hash (u_password_hash u) pw = true /\
    if u_totp_confirmed u
    then let_in r = false /\ Auth.s_user_id (w_session (web st')) = None /\
         w_pending (web st') = Some (Pending (u_id u) (u_username u) "password")
    else let_in r = true /\ Auth.s_user_id (w_session (web st')) = Some (u_id u) /\ w_pending (web st') = None.
Proof.
  unfold login_password. destruct q as [data|]; [|intros [= <- _ <-]; by left].
  unfold credentials. destruct (negb (Json.truthy data)); [intros [= <- _ <-]; by left|].
  destruct (negb (Json.is_dict data)); [intros [= <- _ <-]; by left|].
  destruct (_ && _); [|intros [= <- _ <-]; by left].
  destruct (Json.bind_text _) as [name|]; [|intros [= <- _ <-]; by left].
  destruct (by_name name st) as [u|] eqn:Eu; [|intros [= <- _ <-]; by left].
  destruct (u_active u) eqn:Ea; cbn [negb]; [|intros [= <- _ <-]; by left].
  destruct (Json.get_or "password" JNull data) as [| | |pw| |] eqn:Ep; try (intros [= <- _ <-]; by left).
  destruct (check_password_hash _ _) eqn:Ec; [|intros [= <- _ <-]; by left]. cbn [negb].
  apply by_name_Some in Eu as [Hin _]. intros Hr. right. exists u, pw, data.
  assert (Json.get "password" data = Some (JStr pw)) as ->.
  { unfold Json.get_or in Ep. destruct (Json.get "password" data); by simplify_eq/=. }
  do 5 (split; [done|]). destruct (u_totp_confirmed u); injection Hr as <- _ <-; done.
Qed.

(** C8: The two-step login signs nobody in on a password alone who has a second factor.  The
    password step leaves the session as it is unless the password of an active account is
    right; where that account has a second factor, the session then has no user, only a
    pending mark.  The second step leaves the session as it is or clears it, unless it is
    asked by a pending session, for an active account that too many wrong codes have not
    locked, with a code the authenticator accepts or a recovery code on record; then the
    user of the session is that account. *)
Theorem two_factor_gate py_repr q nonce now st (trail : T) :
  (forall st' trail' r, login_password secret q nonce now st trail = (st', trail', r) ->
     (web st' = web st /\ let_in r = false) \/
     exists u pw data, In u (accounts st) /\ u_active u = true /\ q = Some data /\
       Json.get "password" data = Some (JStr pw) /\ check_password_hash (u_password_hash u) pw = true /\
       if u_totp_confirmed u
       then let_in r = false /\ Auth.s_user_id (w_session (web st')) = None /\
            w_pending (web st') = Some (Pending (u_id u) (u_username u) "password")
       else let_in r = true /\ Auth.s_user_id (w_session (web st')) = Some (u_id u) /\ w_pending (web st') = None) /\
  (forall st' trail' r, login_2fa secret py_repr q nonce now st trail = (st', trail', r) ->
     (let_in r = false /\ (web st' = web st \/ web st' = cleared)) \/
     exists p u data, w_pending (web st) = Some p /\ q = Some data /\
       by_id (p_user_id p) st = Some u /\ u_active u = true /\ Auth.s_user_id (w_session (web st')) = Some (u_id u) /\
       (check_2fa_lockout (Num.str (p_user_id p)) now (second_factor st)).2 = false /\
       let text := code_text py_repr (Json.get_or "code" JNull data) in
       ((exists s, u_totp_secret u = Some s /\ totp_verify s 1 (JStr text) now = Some true) \/
        (exists codes rest, loads (default "" (u_backup_codes u)) = Some codes /\
           use_code text codes = Some (Some rest)))).
Proof.
  split; intros st' trail' r; [apply login_password_inv|].
  intros [?|(p & u & data & tok & f & Hw & Hq & Hl & Hu & _ & Ha & Hs & Hc)]%login_2fa_inv; [by left|].
  right. by exists p, u, data.
Qed.

(** The plain login knows no second factor: with the right password it opens a
    full session also for a user whose second factor is confirmed. *)
Theorem login_skips_second_factor name pw ip agent nonce now st (trail : T) u :
  Str.strip name = u_username u -> Str.truthy name = true -> Str.truthy pw = true ->
  by_name (u_username u) st = Some u -> u_active u = true -> u_totp_confirmed u = true ->
  u_locked_until u = None -> check_password_hash (u_password_hash u) pw = true ->
  let r := login secret (Some (JDict [("username", JStr name); ("password", JStr pw)])) ip agent nonce now st trail in
  let_in r.2 = true /\ Auth.s_user_id (w_session (web r.1.1)) = Some (u_id u).
Proof.
  intros Hs Hn Hpw Hu Ha _ Hlock Hc. unfold login, credentials. cbn [Json.truthy Json.is_dict negb].
  change (Json.get_or "username" JNull _) with (JStr name). change (Json.get_or "password" JNull _) with (JStr pw).
  cbn [Json.truthy]. rewrite Hn, Hpw. cbn [andb]. rewrite Hs. unfold check_account_lockout.
  rewrite Hu, Hlock, Hu, Ha, Hc. cbn [negb].
  destruct (accept_login_effect u (u_username u) ip agent nonce now st trail) as (_ & -> & ->). done.
Qed.

(** The recovery codes are four groups of four upper-case hex digits. *)
Definition hex_group (s : string) : bool :=
  (String.length s =? 4)%nat &&
  Str.forall_char (fun c => Str.is_digit c || ((65 <=? Str.code c) && (Str.code c <=? 70))%N) s.
Definition recovery_code (s : string) : bool :=
  match Str.split "-" s with [a; b; c; d] => forallb hex_group [a; b; c; d] | _ => false end.

(** No JSON text starts like a list of recovery codes. *)
Hypothesis codes_are_not_json : forall codes,
  codes <> [] -> forallb recovery_code codes = true -> loads (Str.join "," codes) = None.

(** A recovery code never lets anybody in: the codes handed out when the second
    factor is confirmed are stored separated by commas and read back as JSON. *)
Theorem recovery_codes_never_work py_repr uid q codes now st trail st1 trail1 c w p nonce now' trail2 :
  confirm_2fa uid q codes now st trail = (st1, trail1, Codes codes) ->
  codes <> [] -> forallb recovery_code codes = true -> In c codes ->
  w_pending w = Some p -> p_user_id p = uid ->
  (forall s, totp_verify s 1 (JStr c) now' = Some false) ->
  let_in (login_2fa secret py_repr (Some (JDict [("code", JStr c)])) nonce now' (with_web w st1) trail2).2
  = false.
Proof.
  intros Hconf Hne Hrc _ Hw Hp Ht.
  destruct (login_2fa _ _ _ _ _ _ _) as [[st2 tr2] r] eqn:El. destruct r as [| id tok f| | | | |]; try done. exfalso.
  apply login_2fa_success in El as (p' & u & data & Hw' & Hq & _ & Hu & _ & _ & Hc). cbn in Hw'.
  rewrite Hw in Hw'. injection Hw' as <-. injection Hq as <-. rewrite Hp in Hu.
  assert (u_backup_codes u = Some (Str.join "," codes)) as Hb.
  { unfold confirm_2fa in Hconf. destruct (body_code q "code") as [code|]; [|done].
    destruct (negb _); [done|]. destruct (by_id uid st) as [v|] eqn:Ev; [|done]. destruct (negb _); [done|].
    destruct (totp_verify _ _ _ _) as [[|]|]; try done. injection Hconf as <- _.
    change (by_id uid (with_web w ?s)) with (by_id uid s) in Hu.
    rewrite by_id_update, Ev in Hu by done. by injection Hu as <-. }
  cbv zeta in Hc. change (code_text py_repr (Json.get_or "code" JNull _)) with c in Hc.
  destruct Hc as [(s & _ & E)|(cs & rest & E & _)]; [by rewrite Ht in E|].
  rewrite Hb in E. cbn in E. by rewrite codes_are_not_json in E.
Qed.

(** * The password reset *)

Lemma by_reset_token_Some h st u :
  by_reset_token h st = Some u -> In u (accounts st) /\ u_password_reset_token u = Some h.
Proof.
  intros [? E]%Table.first_Some. destruct (u_password_reset_token u); [|done].
  apply String.eqb_eq in E. by subst.
Qed.

(** A well-formed request, once the new password passed the policy. *)
Lemma reset_password_run tok pw salt now st (trail : T) :
  Str.truthy (Str.strip tok) = true -> (8 <= String.length pw)%nat ->
  PasswordPolicy.validate_password pw None None = Some (true, []) ->
  reset_password (Some (JDict [("token", JStr tok); ("password", JStr pw)])) salt now st trail =
  match by_reset_token (sha256_hex (Str.strip tok)) st with
  | None => (st, trail, failure 400 "Invalid or expired reset token")
  | Some u =>
      match u_password_reset_expires u with
      | None => (st, trail, Raised)
      | Some e =>
          if (e <? now)%Z
          then (update_user (u_id u) (set_reset None None) st, trail, failure 400 "Reset token has expired")
          else (update_user (u_id u) (reset_row (generate_password_hash salt pw)) st,
                record_event (Event "password_reset" (Some "user") (AStr (Num.str (u_id u))) ANone
                                (AStr "Password reset via email") true None) trail,
                Done "Password has been reset successfully")
      end
  end.
Proof.
  intros Htok Hl Hval. unfold reset_password, or_empty. cbn [mbind option_bind Json.truthy].
  change (Json.get_or "token" (JStr "") _) with (JStr tok). change (Json.get_or "password" (JStr "") _) with (JStr pw).
  cbn [json_length]. rewrite Htok. cbn [negb].
  assert ((String.length pw <? 8)%nat = false) as -> by (apply Nat.ltb_ge; lia). by rewrite Hval.
Qed.

(** A reset link works once and within its hour: it installs the new password,
    lifts the lockout, and the same link is refused afterwards, whatever password is
    asked for. *)
Theorem reset_password_once tok pw salt now st (trail : T) u e :
  unique_ids st -> Str.truthy (Str.strip tok) = true ->
  PasswordPolicy.validate_password pw None None = Some (true, []) -> (8 <= String.length pw)%nat ->
  by_reset_token (sha256_hex (Str.strip tok)) st = Some u ->
  (forall v, In v (accounts st) -> u_password_reset_token v = u_password_reset_token u -> v = u) ->
  u_password_reset_expires u = Some e -> (now <= e)%Z ->
  let body pw := Some (JDict [("token", JStr tok); ("password", JStr pw)]) in
  let r := reset_password (body pw) salt now st trail in
  r.2 = Done "Password has been reset successfully" /\
  (exists v, by_id (u_id u) r.1.1 = Some v /\ check_password_hash (u_password_hash v) pw = true /\
     u_locked_until v = None /\ u_failed_logins v = Some 0%Z) /\
  (forall pw' salt' now' trail', PasswordPolicy.validate_password pw' None None = Some (true, []) ->
     (8 <= String.length pw')%nat ->
     (reset_password (body pw') salt' now' r.1.1 trail').2 = failure 400 "Invalid or expired reset token").
Proof.
  intros Hun Htok Hv Hlen Hu Honly He Hnow. cbv beta zeta.
  rewrite reset_password_run, Hu, He by done.
  assert ((e <? now)%Z = false) as -> by (apply Z.ltb_ge; lia). cbn [fst snd].
  apply by_reset_token_Some in Hu as [Hin Htk]. split; [done|]. split.
  - rewrite by_id_update by done.
    destruct (by_id (u_id u) st) as [v|] eqn:Ev.
    + exists (reset_row (generate_password_hash salt pw) v). split; [done|]. cbn. split; [apply check_generated|done].
    + exfalso. unfold by_id, Table.first in Ev. pose proof (List.find_none _ _ Ev u Hin) as Hne. cbn in Hne.
      by rewrite Z.eqb_refl in Hne.
  - intros pw' salt' now' trail' Hv' Hl'. rewrite reset_password_run by done.
    destruct (by_reset_token _ (update_user _ _ st)) as [v|] eqn:Ev; [|done]. exfalso.
    apply by_reset_token_Some in Ev as [Hinv Htv]. apply Table.In_update in Hinv as (x & Hx & ->).
    destruct (Z.eqb_spec (u_id x) (u_id u)) as [E|E]; [done|].
    apply E. f_equal. apply Honly; [done|congruence].
Qed.

End Facts.
(** * One user with a second factor *)
Module Run.

#[local] Existing Instance list_sink.

(** A text that starts with a bracket is JSON, any other is not. *)
#[local] Program Instance toy_secrets : Secrets := {|
  generate_password_hash n p := "h" ^+ p;
  check_password_hash h p := String.eqb h ("h" ^+ p);
  totp_verify s w c now := Some (Json.eqb c (JStr "123456"));
  loads s := if Str.startswith s "[" then Some (JList []) else None;
|}.
Next Obligation. intros n p. apply StrFacts.eqb_refl. Qed.

Lemma codes_are_not_json codes :
  codes <> [] -> forallb recovery_code codes = true -> loads (Str.join "," codes) = None.
Proof.
  destruct codes as [|c l]; [done|]. intros _ [Hc _]%andb_true_iff.
  destruct c as [|a c]; [discriminate Hc|].
  assert (exists r, Str.join "," (String a c :: l) = String a r) as [r ->] by (destruct l; eexists; cbn; reflexivity).
  change (loads ?s) with (if Str.startswith s "[" then Some (JList []) else None).
  unfold Str.startswith. rewrite StrFacts.prefix_one. destruct (Ascii.eqb_spec "[" a) as [<-|]; [|done].
  exfalso. unfold recovery_code in Hc. cbn [Str.split] in Hc.
  change (Ascii.eqb "[" "-") with false in Hc. cbn iota in Hc.
  destruct (Str.split "-" c) as [|w [|w1 [|w2 [|w3 [|]]]]]; try done.
  apply andb_true_iff in Hc as [[_ Hc]%andb_true_iff _]. discriminate Hc.
Qed.

Definition bob (secret : option string) (confirmed : bool) (codes : option string) : account :=
  Account 1 "bob" "bob@example.org" "admin" true "hsecret" secret confirmed codes false
    (Some (sha256_hex "tok")) (Some 100%Z) None None None None.
Definition s0 : state :=
  State [bob (Some "TOTP") true None] ∅ cleared Anomaly.empty_cache.
Definition guess (t : Z) : attempt :=
  Attempt (Some (JDict [("username", JStr "bob"); ("password", JStr "wrong")])) "10.0.0.1" "curl" "" t.
Definition six : list attempt := List.map guess [0; 1; 2; 3; 4; 5]%Z.

Lemma lockout_window_witness : guesses "bob" (replies "k" six s0 ([] : list string)) <= 5.
Proof.
  apply (lockout_window "k" "bob" 0 six s0 [] (bob (Some "TOTP") true None)).
  - apply NoDup_singleton.
  - reflexivity.
  - cbn. lia.
  - intros a Ha. simpl in Ha. unfold Time.minutes, Time.second.
    repeat (destruct Ha as [<-|Ha]; [cbn; lia|]). done.
  - intros p Hp _. vm_compute in Hp. repeat (destruct Hp as [<-|Hp]; [reflexivity|]). done.
Defined.
(** The bound is met: the sixth guess is not looked at. *)
Example six_guesses : guesses "bob" (replies "k" six s0 ([] : list string)) = 5.
Proof. vm_compute. reflexivity. Qed.

Definition repr (j : json) : string := "".
Definition step1 :=
  login_password "k" (Some (JDict [("username", JStr "bob"); ("password", JStr "secret")])) "" 5 s0 ([] : list string).
Lemma two_factor_witness :
  Auth.s_user_id (w_session (web step1.1.1)) = None /\ w_pending (web step1.1.1) = Some (Pending 1 "bob" "password").
Proof.
  destruct (two_factor_gate "k" repr (Some (JDict [("username", JStr "bob"); ("password", JStr "secret")])) ""
    5 s0 ([] : list string)) as [H _].
  destruct (H step1.1.1 step1.1.2 step1.2) as [[E _]|(u & pw & d & Hu & _ & _ & _ & _ & Hc)].
  - unfold step1. destruct (login_password _ _ _ _ _ _) as [[a b] c]. reflexivity.
  - exfalso. apply (f_equal w_pending) in E. vm_compute in E. discriminate E.
  - destruct Hu as [<-|[]]. exact (proj2 Hc).
Defined.

Lemma skips_second_factor_witness :
  Auth.s_user_id (w_session (web (login "k" (Some (JDict [("username", JStr "bob"); ("password", JStr "secret")]))
    "10.0.0.1" "curl" "" 5 s0 ([] : list string)).1.1)) = Some 1%Z.
Proof.
  exact (proj2 (login_skips_second_factor "k" "bob" "secret" "10.0.0.1" "curl" "" 5 s0 ([] : list string)
    (bob (Some "TOTP") true None) eq_refl eq_refl eq_refl eq_refl eq_refl eq_refl eq_refl eq_refl)).
Defined.

Definition fresh_codes : list string := ["00FF-1234-ABCD-9876"; "1111-2222-3333-4444"].
Definition confirmed :=
  confirm_2fa 1 (Some (JDict [("code", JStr "123456")])) fresh_codes 5
    (State [bob (Some "TOTP") false None] ∅ cleared Anomaly.empty_cache) ([] : list string).
Lemma recovery_codes_witness :
  let_in (login_2fa "k" repr (Some (JDict [("code", JStr "1111-2222-3333-4444")])) "" 9
    (with_web (WebSession Auth.empty_session None (Some (Pending 1 "bob" "password"))) confirmed.1.1)
    ([] : list string)).2 = false.
Proof.
  exact (recovery_codes_never_work "k" codes_are_not_json repr 1 (Some (JDict [("code", JStr "123456")])) fresh_codes 5
    (State [bob (Some "TOTP") false None] ∅ cleared Anomaly.empty_cache) [] confirmed.1.1 confirmed.1.2
    "1111-2222-3333-4444" (WebSession Auth.empty_session None (Some (Pending 1 "bob" "password")))
    (Pending 1 "bob" "password") "" 9 [] eq_refl ltac:(discriminate) eq_refl ltac:(right; left; reflexivity)
    eq_refl eq_refl (fun s => eq_refl)).
Defined.

Lemma reset_password_witness :
  (reset_password (Some (JDict [("token", JStr "tok"); ("password", JStr "Tr4vel-Light!Moon")])) 0 50 s0
     ([] : list string)).2 = Done "Password has been reset successfully".
Proof.
  refine (proj1 (reset_password_once "tok" "Tr4vel-Light!Moon" 0 50 s0 [] (bob (Some "TOTP") true None) 100
    _ _ _ _ _ _ _ _)).
  - apply NoDup_singleton.
  - reflexivity.
  - vm_compute. reflexivity.
  - cbn. lia.
  - vm_compute. reflexivity.
  - intros v [<-|[]] _. reflexivity.
  - reflexivity.
  - lia.
Defined.

End Run.

End LoginFacts.
