(* ===== verification/Policies.v ===== *)
(** Approval requests: the state machine of [models/policy.py:ApprovalRequest] and the
    routes of [api/v2/policies.py] that move it, delete a policy or switch it. *)
From S2P Require Import Prelude.

Module Policies.
Local Open Scope string_scope.
Local Open Scope list_scope.

(** * Rows *)

Inductive action := Approve | Reject.
#[global] Instance action_eq_dec : EqDecision action.
Proof. solve_decision. Defined.
Inductive status := Pending | Approved | Rejected.
#[global] Instance status_eq_dec : EqDecision status.
Proof. solve_decision. Defined.
Definition status_text (s : status) : string :=
  match s with Pending => "pending" | Approved => "approved" | Rejected => "rejected" end.

(** A member of the JSON array [approvals]. *)
Record entry := Entry {
  e_user_id : json;
  e_username : json;
  e_action : action;
  e_comment : json;
  e_timestamp : Z;
}.
Record approval_request := ApprovalRequest {
  r_id : Z;
  r_policy_id : option Z;
  r_status : status;
  r_approvals : list entry;
  r_required_approvals : Z;
  r_resolved_at : option Z;
}.
(** [CertificatePolicy], as far as these routes read it. *)
Record policy := Policy { p_id : Z; p_name : string; p_is_active : bool }.
Record state := State { policies : list policy; requests : list approval_request }.

Definition count (a : action) (l : list entry) : Z :=
  Z.of_nat (length (List.filter (fun e => bool_decide (e_action e = a)) l)).

(** [ApprovalRequest.add_approval] *)
Definition add_approval (user_id username : json) (a : action) (comment : json) (now : Z)
    (r : approval_request) : approval_request :=
  let approvals := r_approvals r ++ [Entry user_id username a comment now] in
  let approve_count := count Approve approvals in
  let reject_count := count Reject approvals in
  if (r_required_approvals r <=? approve_count)%Z
  then ApprovalRequest (r_id r) (r_policy_id r) Approved approvals (r_required_approvals r) (Some now)
  else if (0 <? reject_count)%Z
  then ApprovalRequest (r_id r) (r_policy_id r) Rejected approvals (r_required_approvals r) (Some now)
  else ApprovalRequest (r_id r) (r_policy_id r) (r_status r) approvals (r_required_approvals r) (r_resolved_at r).

(** * Routes *)

Inductive reply := Ok (message : string) | Failure (code : Z) (message : string) | NotFound | Raised.

Definition get_request (id : Z) (st : state) : option approval_request :=
  Table.first (fun r => (r_id r =? id)%Z) (requests st).
Definition get_policy (id : Z) (st : state) : option policy :=
  Table.first (fun p => (p_id p =? id)%Z) (policies st).
Definition update_request (id : Z) (f : approval_request -> approval_request) (st : state) : state :=
  State (policies st) (Table.update (fun r => (r_id r =? id)%Z) f (requests st)).

(** [request.get_json() or {}] with the attribute error of a body that is no dict. *)
Definition body (request : option json) : option json :=
  data ← request;
  if negb (Json.truthy data) then Some (JDict []) else if Json.is_dict data then Some data else None.

(** [approve_request] and [reject_request]: [user] is the dict of the current user,
    the empty one when the request carries none. *)
Definition approve_request (id : Z) (user : json) (request : option json) (now : Z) (st : state)
  : state * reply :=
  match get_request id st with
  | None => (st, NotFound)
  | Some r =>
      if negb (bool_decide (r_status r = Pending))
      then (st, Failure 400 ("Request is already " ^+ status_text (r_status r)))
      else match body request with
      | None => (st, Raised)
      | Some data =>
          (update_request id (add_approval (Json.get_or "id" JNull user)
             (Json.get_or "username" (JStr "system") user) Approve (Json.get_or "comment" JNull data) now) st,
           Ok "Approval recorded")
      end
  end.
Definition reject_request (id : Z) (user : json) (request : option json) (now : Z) (st : state)
  : state * reply :=
  match get_request id st with
  | None => (st, NotFound)
  | Some r =>
      if negb (bool_decide (r_status r = Pending))
      then (st, Failure 400 ("Request is already " ^+ status_text (r_status r)))
      else match body request with
      | None => (st, Raised)
      | Some data =>
          let comment := Json.get_or "comment" JNull data in
          if negb (Json.truthy comment) then (st, Failure 400 "Rejection reason is required")
          else
            (update_request id (add_approval (Json.get_or "id" JNull user)
               (Json.get_or "username" (JStr "system") user) Reject comment now) st,
             Ok "Request rejected")
      end
  end.

(** [delete_policy] and [toggle_policy]; [db_ok] is whether the commit succeeds. *)
Definition of_policy (id : Z) (r : approval_request) : bool :=
  match r_policy_id r with Some p => (p =? id)%Z | None => false end.
Definition delete_policy (id : Z) (db_ok : bool) (st : state) : state * reply :=
  match get_policy id st with
  | None => (st, NotFound)
  | Some p =>
      let pending := Table.count (fun r => of_policy id r && bool_decide (r_status r = Pending)) (requests st) in
      if (0 <? pending)%nat
      then (st, Failure 400 ("Cannot delete policy with " ^+ Num.str (Z.of_nat pending)
                               ^+ " pending approval requests"))
      else if db_ok
      then (State (Table.delete (fun q => (p_id q =? id)%Z) (policies st))
                  (Table.delete (of_policy id) (requests st)), Ok "Policy deleted")
      else (st, Failure 500 "Failed to delete policy")
  end.
Definition toggle_policy (id : Z) (db_ok : bool) (st : state) : state * reply :=
  match get_policy id st with
  | None => (st, NotFound)
  | Some p =>
      let active := negb (p_is_active p) in
      if db_ok
      then (State (Table.update (fun q => (p_id q =? id)%Z) (fun q => Policy (p_id q) (p_name q) active)
                     (policies st)) (requests st),
            Ok ("Policy " ^+ (if active then "enabled" else "disabled")))
      else (st, Failure 500 "Failed to update policy")
  end.

(** [approval_stats]: pending, approved, rejected and the total. *)
Definition approval_stats (st : state) : list (string * nat) :=
  let n s := Table.count (fun r => bool_decide (r_status r = s)) (requests st) in
  [("pending", n Pending); ("approved", n Approved); ("rejected", n Rejected);
   ("total", n Pending + n Approved + n Rejected)%nat].

(** * The workflow *)

Inductive call :=
| CallApprove (id : Z) (user : json) (request : option json) (now : Z)
| CallReject (id : Z) (user : json) (request : option json) (now : Z)
| CallDelete (id : Z) (db_ok : bool)
| CallToggle (id : Z) (db_ok : bool).
Definition serve (c : call) (st : state) : state :=
  match c with
  | CallApprove id u q now => (approve_request id u q now st).1
  | CallReject id u q now => (reject_request id u q now st).1
  | CallDelete id ok => (delete_policy id ok st).1
  | CallToggle id ok => (toggle_policy id ok st).1
  end.
Definition run (l : list call) (st : state) : state := fold_left (fun st c => serve c st) l st.

(** What the counts say about the status. *)
Definition consistent (r : approval_request) : Prop :=
  (1 <= r_required_approvals r)%Z /\
  let yes := count Approve (r_approvals r) in
  let no := count Reject (r_approvals r) in
  match r_status r with
  | Pending => no = 0%Z /\ (yes < r_required_approvals r)%Z /\ r_resolved_at r = None
  | Approved => no = 0%Z /\ yes = r_required_approvals r /\ r_resolved_at r <> None
  | Rejected => no = 1%Z /\ (yes < r_required_approvals r)%Z /\ r_resolved_at r <> None
  end.

Lemma count_snoc a l e : count a (l ++ [e]) = (count a l + if decide (e_action e = a) then 1 else 0)%Z.
Proof.
  unfold count. rewrite List.filter_app, length_app, Nat2Z.inj_add. f_equal. cbn [List.filter].
  destruct (decide (e_action e = a)) as [E|E].
  - by rewrite bool_decide_eq_true_2.
  - by rewrite bool_decide_eq_false_2.
Qed.

Lemma add_approval_consistent u n a c now r :
  r_status r = Pending -> consistent r -> consistent (add_approval u n a c now r).
Proof.
  unfold consistent. intros Hs [Hr Hc]. rewrite Hs in Hc. destruct Hc as (Hno & Hyes & Hres).
  unfold add_approval. cbv zeta. rewrite !count_snoc. cbn [e_action].
  destruct (Z.leb_spec (r_required_approvals r)
    (count Approve (r_approvals r) + if decide (a = Approve) then 1 else 0)) as [Hle|Hgt].
  - cbn. rewrite !count_snoc. cbn [e_action]. destruct a; repeat case_decide; try discriminate; repeat split; lia || done.
  - destruct (Z.ltb_spec 0 (count Reject (r_approvals r) + if decide (a = Reject) then 1 else 0)) as [H0|H0];
      cbn; rewrite ?Hs, !count_snoc; cbn [e_action]; destruct a; repeat case_decide; try discriminate;
      repeat split; lia || done.
Qed.

(** The rows after a call: unchanged, or pending before and one entry longer. *)
Lemma serve_rows c st r' :
  In r' (requests (serve c st)) ->
  exists r, In r (requests st) /\ r_id r = r_id r' /\
    (r' = r \/ ((exists x, get_request (r_id r) st = Some x /\ r_status x = Pending) /\
                exists u n a c now, r' = add_approval u n a c now r)).
Proof.
  assert (forall id f st' (b : bool), (forall x, r_id (f x) = r_id x) ->
    (exists x, get_request id st = Some x /\ r_status x = Pending) ->
    (forall x, exists u n a c now, f x = add_approval u n a c now x) ->
    st' = update_request id f st -> In r' (requests st') ->
    exists r, In r (requests st) /\ r_id r = r_id r' /\
      (r' = r \/ ((exists x, get_request (r_id r) st = Some x /\ r_status x = Pending) /\
                  exists u n a c now, r' = add_approval u n a c now r))) as Hup.
  { intros id f st' _ Hid Hx Hf -> Hin. apply Table.In_update in Hin as (r & Hr & ->). exists r.
    destruct (Z.eqb_spec (r_id r) id) as [E|]; [|by auto]. rewrite Hid. split; [done|]. split; [done|].
    right. rewrite E. by split. }
  assert (forall u n a c now x, r_id (add_approval u n a c now x) = r_id x) as Hid.
  { intros. unfold add_approval. cbv zeta. destruct (_ <=? _)%Z; [done|]. by destruct (_ <? _)%Z. }
  destruct c as [id u q now|id u q now|id ok|id ok]; cbn [serve].
  - unfold approve_request. destruct (get_request id st) as [x|] eqn:Ex; [|intros Hin; exists r'; auto].
    destruct (bool_decide_reflect (r_status x = Pending)); cbn [negb]; [|intros Hin; exists r'; auto].
    destruct (body q) as [data|]; [|intros Hin; exists r'; auto]. cbn [fst].
    intros Hin. eapply (Hup id _ _ true); [| |by eauto 10|reflexivity|exact Hin]; [intros; apply Hid|by exists x].
  - unfold reject_request. destruct (get_request id st) as [x|] eqn:Ex; [|intros Hin; exists r'; auto].
    destruct (bool_decide_reflect (r_status x = Pending)); cbn [negb]; [|intros Hin; exists r'; auto].
    destruct (body q) as [data|]; [|intros Hin; exists r'; auto]. cbv zeta.
    destruct (negb _); [intros Hin; exists r'; auto|]. cbn [fst].
    intros Hin. eapply (Hup id _ _ true); [| |by eauto 10|reflexivity|exact Hin]; [intros; apply Hid|by exists x].
  - unfold delete_policy. destruct (get_policy id st); [|intros Hin; exists r'; auto]. cbv zeta.
    destruct (_ <? _)%nat; [intros Hin; exists r'; auto|]. destruct ok; [|intros Hin; exists r'; auto].
    cbn. intros [Hin _]%Table.In_delete. exists r'. auto.
  - unfold toggle_policy. destruct (get_policy id st); [|intros Hin; exists r'; auto].
    destruct ok; intros Hin; exists r'; auto.
Qed.

Definition unique (st : state) : Prop := NoDup (List.map r_id (requests st)).

Lemma unique_filter p st pol : unique st -> unique (State pol (Table.delete p (requests st))).
Proof.
  unfold unique, Table.delete. cbn [requests]. induction (requests st) as [|r l IH]; [done|]. cbn [List.map List.filter].
  intros [Hr Hl]%NoDup_cons. destruct (negb (p r)); [|by apply IH]. cbn. constructor; [|by apply IH].
  rewrite list_elem_of_In in Hr |- *. intros (x & E & [Hx _]%List.filter_In)%in_map_iff.
  apply Hr. rewrite <-E. by apply in_map.
Qed.
Lemma update_keeps_unique id u n a c now st :
  unique st -> unique (update_request id (add_approval u n a c now) st).
Proof.
  unfold unique, update_request, Table.update. cbn [requests]. rewrite List.map_map.
  erewrite List.map_ext; [done|]. intros r. cbn. destruct (_ =? _)%Z; [|done].
  unfold add_approval. cbv zeta. destruct (_ <=? _)%Z; [done|]. by destruct (_ <? _)%Z.
Qed.

Lemma serve_unique c st : unique st -> unique (serve c st).
Proof.
  intros Hu. destruct c as [id u q now|id u q now|id ok|id ok]; cbn [serve].
  - unfold approve_request. destruct (get_request id st); [|done]. destruct (negb _); [done|].
    destruct (body q); [by apply update_keeps_unique|done].
  - unfold reject_request. destruct (get_request id st); [|done]. destruct (negb _); [done|].
    destruct (body q); [|done]. cbv zeta. destruct (negb _); [done|]. by apply update_keeps_unique.
  - unfold delete_policy. destruct (get_policy id st); [|done]. cbv zeta. destruct (_ <? _)%nat; [done|].
    destruct ok; [by apply unique_filter|done].
  - unfold toggle_policy. destruct (get_policy id st); [|done]. by destruct ok.
Qed.

Lemma unique_row st r x : unique st -> In r (requests st) -> get_request (r_id r) st = Some x -> x = r.
Proof.
  unfold unique, get_request, Table.first. induction (requests st) as [|y l IH]; [done|].
  cbn [List.map List.find]. intros [Hy Hl]%NoDup_cons. rewrite list_elem_of_In in Hy.
  intros [->|Hr]; [rewrite Z.eqb_refl; by intros [= ->]|].
  destruct (Z.eqb_spec (r_id y) (r_id r)) as [E|]; [|by apply IH].
  exfalso. apply Hy. rewrite E. by apply in_map.
Qed.

(** A row after a call: consistent if it was, and the same row once it is resolved. *)
Lemma serve_row c st r' :
  unique st -> In r' (requests (serve c st)) ->
  exists r, In r (requests st) /\ r_id r = r_id r' /\ (consistent r -> consistent r') /\
    (r_status r <> Pending -> r' = r).
Proof.
  intros Hu (r & Hr & Hid & [->|((x & Hx & Hp) & u & n & a & cm & now & ->)])%serve_rows; exists r; [done|].
  apply (unique_row st r x Hu Hr) in Hx as ->. do 2 (split; [done|]).
  split; [by apply add_approval_consistent|done].
Qed.

Lemma run_row l st r' :
  unique st -> In r' (requests (run l st)) ->
  exists r, In r (requests st) /\ r_id r = r_id r' /\ (consistent r -> consistent r') /\
    (r_status r <> Pending -> r' = r).
Proof.
  revert st. induction l as [|c l IH]; intros st Hu Hin; [by exists r'|].
  destruct (IH (serve c st) (serve_unique c st Hu) Hin) as (r1 & H1 & E1 & C1 & F1).
  destruct (serve_row c st r1 Hu H1) as (r & Hr & E & C & F). exists r. rewrite E.
  split; [done|]. split; [done|]. split; [auto|]. intros Hp. rewrite <-(F Hp). apply F1. by rewrite (F Hp).
Qed.
Lemma run_unique l st : unique st -> unique (run l st).
Proof. revert st. induction l as [|c l IH]; intros st Hu; [done|]. by apply IH, serve_unique. Qed.

(** However approvals, rejections and changes of policies are mixed, an approval
    request is approved exactly when it has the approvals it requires and no
    rejection, rejected at its first rejection, and pending otherwise, with its
    resolution time set accordingly; and a request once resolved stays as it is. *)
Theorem approval_workflow l l' st :
  unique st -> Forall consistent (requests st) ->
  Forall consistent (requests (run l st)) /\
  (forall r r', In r (requests (run l st)) -> r_status r <> Pending ->
     In r' (requests (run l' (run l st))) -> r_id r' = r_id r -> r' = r).
Proof.
  intros Hu Hc. split.
  - rewrite List.Forall_forall in *. intros r' Hr'.
    destruct (run_row l st r' Hu Hr') as (r & Hr & _ & C & _). by apply C, Hc.
  - intros r r' Hr Hs Hr' E. pose proof (run_unique l st Hu) as Hu'.
    destruct (run_row l' (run l st) r' Hu' Hr') as (x & Hx & Ex & _ & F).
    assert (x = r) as ->; [|by apply F]. rewrite E in Ex.
    assert (get_request (r_id x) (run l st) = Some x) as Hg.
    { unfold get_request, Table.first. destruct (List.find _ _) as [y|] eqn:Ey.
      - f_equal. by apply (unique_row (run l st) x y Hu' Hx).
      - pose proof (List.find_none _ _ Ey x Hx) as Hn. cbn in Hn. by rewrite Z.eqb_refl in Hn. }
    rewrite Ex in Hg. by apply (unique_row (run l st) r x Hu').
Qed.

(** A request that needs two approvals; the same person gives both. *)
Definition s0 : state := State [Policy 1 "external" true] [ApprovalRequest 7 (Some 1%Z) Pending [] 2 None].
Definition twice : list call :=
  [CallApprove 7 (JDict []) (Some JNull) 10; CallApprove 7 (JDict []) (Some JNull) 20].
Lemma approval_workflow_witness :
  Forall consistent (requests (run twice s0)) /\
  List.map r_status (requests (run twice s0)) = [Approved].
Proof.
  split; [|vm_compute; reflexivity].
  apply (approval_workflow twice [] s0).
  - apply NoDup_singleton.
  - constructor; [|constructor]. split; [cbn; lia|]. split; [reflexivity|]. split; reflexivity.
Defined.
End Policies.
