(* ===== verification/Users.v ===== *)
(** Managing users, groups and custom roles: [api/v2/users.py], [api/v2/groups.py] and
    [api/v2/rbac.py], with [models/group.py], [models/rbac.py] and [User].

    A request body is the value [request.get_json()] returns ([None] when it raises);
    [me] is the id of the user the request was authenticated for.  The session that
    authenticated the request holds that user's row, so a handler that changes it sees
    the change in [g.current_user]; a reply that is an error leaves the transaction
    uncommitted. *)
From S2P Require Import Prelude Permissions AuditSink PasswordPolicy Login.

Module Users.
Local Open Scope string_scope.
Local Open Scope list_scope.

(** * Tables *)

Record user := User {
  u_id : Z; u_username : string; u_email : string; u_full_name : option string;
  u_role : string; u_custom_role_id : option Z; u_active : option bool; u_password_hash : string;
}.
Record group := Group { g_id : Z; g_name : string; g_description : string; g_permissions : json }.
Record member := Member { m_id : Z; m_group_id : Z; m_user_id : Z; m_role : string }.
(** [r_inherits_from] is the value of the column, a number or a text. *)
Record role := Role {
  r_id : Z; r_name : string; r_description : option string; r_permissions : json;
  r_inherits_from : json; r_is_system : bool;
}.
Record db := Db { users : list user; groups : list group; members : list member; roles : list role }.

Definition with_users l d := Db l (groups d) (members d) (roles d).
Definition with_groups l d := Db (users d) l (members d) (roles d).
Definition with_members l d := Db (users d) (groups d) l (roles d).
Definition with_roles l d := Db (users d) (groups d) (members d) l.

Definition set_email (e : string) (u : user) : user :=
  User (u_id u) (u_username u) e (u_full_name u) (u_role u) (u_custom_role_id u) (u_active u) (u_password_hash u).
Definition set_full_name (n : option string) (u : user) : user :=
  User (u_id u) (u_username u) (u_email u) n (u_role u) (u_custom_role_id u) (u_active u) (u_password_hash u).
Definition set_role (r : string) (u : user) : user :=
  User (u_id u) (u_username u) (u_email u) (u_full_name u) r (u_custom_role_id u) (u_active u) (u_password_hash u).
Definition set_custom_role (r : option Z) (u : user) : user :=
  User (u_id u) (u_username u) (u_email u) (u_full_name u) (u_role u) r (u_active u) (u_password_hash u).
Definition set_active (a : bool) (u : user) : user :=
  User (u_id u) (u_username u) (u_email u) (u_full_name u) (u_role u) (u_custom_role_id u) (Some a) (u_password_hash u).
Definition set_hash (h : string) (u : user) : user :=
  User (u_id u) (u_username u) (u_email u) (u_full_name u) (u_role u) (u_custom_role_id u) (u_active u) h.

Definition user_by_id (id : Z) (d : db) : option user := Table.first (fun u => (u_id u =? id)%Z) (users d).
Definition user_by_name (name : string) (d : db) : option user :=
  Table.first (fun u => String.eqb (u_username u) name) (users d).
Definition user_by_email (email : string) (d : db) : option user :=
  Table.first (fun u => String.eqb (u_email u) email) (users d).
Definition group_by_id (id : Z) (d : db) : option group := Table.first (fun g => (g_id g =? id)%Z) (groups d).
Definition group_by_name (name : string) (d : db) : option group :=
  Table.first (fun g => String.eqb (g_name g) name) (groups d).
Definition role_by_id (id : Z) (d : db) : option role := Table.first (fun r => (r_id r =? id)%Z) (roles d).
Definition role_by_name (name : string) (d : db) : option role :=
  Table.first (fun r => String.eqb (r_name r) name) (roles d).
Definition membership (gid uid : Z) (d : db) : option member :=
  Table.first (fun m => (m_group_id m =? gid)%Z && (m_user_id m =? uid)%Z) (members d).

Definition change_user (id : Z) (f : user -> user) (d : db) : db :=
  with_users (Table.update (fun u => (u_id u =? id)%Z) f (users d)) d.

(** [g.current_user.role] *)
Definition role_of (me : Z) (d : db) : option string := u_role <$> user_by_id me d.
Definition is_admin (me : Z) (d : db) : bool := bool_decide (role_of me d = Some "admin").

(** * Values bound to columns

    How the database reads a text in an integer column is the parameter [column_int]. *)

(** A nullable text column: the outer [None] is the error of a list or a dict. *)
Definition text_column (j : json) : option (option string) :=
  match j with JNull => Some None | _ => Some <$> Json.bind_text j end.
(** A boolean column takes a boolean, NULL, 0 or 1. *)
Definition bool_column (j : json) : option (option bool) :=
  match j with
  | JNull => Some None
  | JBool b => Some (Some b)
  | JInt z => if (z =? 0)%Z then Some (Some false) else if (z =? 1)%Z then Some (Some true) else None
  | _ => None
  end.
Definition scalar (j : json) : bool := match j with JList _ | JDict _ => false | _ => true end.

(** Replies.  [ServerError] stands for an uncaught exception and for a handler's own
    500 after a rollback. *)
Inductive reply :=
| Failure (code : Z) (message : string)
| ServerError
| Created (id : Z)
| Done (message : string)
| Bulk (success : list json) (failed : list (json * string))
| Imported (imported skipped : nat) (errors : list string)
| Listed (permissions : list (list json)).

(** [data.get(k, dflt)]: [None] is the AttributeError. *)
Definition member_of (data : json) : option (string -> json -> json) :=
  match data with JDict _ => Some (fun k dflt => Json.get_or k dflt data) | _ => None end.

Definition valid_roles : list string := ["admin"; "operator"; "auditor"; "viewer"].
Definition invalid_role : string := "Invalid role. Must be one of: " ^+ Str.join ", " valid_roles.
Definition in_texts (j : json) (l : list string) : option string :=
  match j with JStr s => if Permissions.mem s l then Some s else None | _ => None end.

Section Handlers.
Context `{Login.Secrets} {T} `{AuditSink T}.
Context (column_int : string -> option Z) (py_repr : json -> string).

(** [Model.query.get(j)]: a list or a dict of one value names a key too; the outer
    [None] is the exception of any other. *)
Definition scalar_key (j : json) : option (option Z) :=
  match j with
  | JNull => Some None
  | JBool b => Some (Some (Z.b2z b))
  | JInt z => Some (Some z)
  | JStr s => Some (column_int s)
  | _ => None
  end.
Definition key_of (j : json) : option (option Z) :=
  match j with
  | JList [x] => scalar_key x
  | JDict kv => x ← Json.assoc "id" kv; scalar_key x
  | _ => scalar_key j
  end.
(** [int(j)]: [inl true] is a ValueError, [inl false] a TypeError. *)
Definition to_int (j : json) : bool + Z :=
  match j with
  | JInt z => inr z
  | JBool b => inr (Z.b2z b)
  | JStr s => match Num.py_int s with Some z => inr z | None => inl true end
  | _ => inl false
  end.

(** * Users *)

(** [validate_password_strength]: an error message; the outer [None] is the exception
    of a value that is no text. *)
Definition validate_password_strength (password : json) (username : option json) : option (option string) :=
  match password, username with
  | JStr p, (None | Some (JStr _)) =>
      let name := match username with Some (JStr s) => Some s | _ => None end in
      match PasswordPolicy.validate_password p None name with
      | Some (true, _) => Some None
      | Some (false, errors) => Some (Some (default "Invalid password" (head errors)))
      | None => None
      end
  | _, _ => None
  end.

Definition user_event (action : string) (id : Z) (name details : string) : event :=
  Event action (Some "user") (AStr (Num.str id)) (AStr name) (AStr details) true None.

(** The custom role a new user gets: a reply, or the column. *)
Definition new_custom_role (j : json) (d : db) : reply + option Z :=
  if negb (Json.truthy j) then inr None
  else match to_int j with
  | inl true => inr None
  | inl false => inl ServerError
  | inr z => match role_by_id z d with Some _ => inr (Some z) | None => inl (Failure 404 "Custom role not found") end
  end.
(** A falsy id is stored as it is: NULL, 0, false, or the empty text. *)
Definition falsy_key (j : json) : option (option Z) :=
  match j with
  | JNull => Some None
  | JBool _ | JInt _ => Some (Some 0%Z)
  | JStr _ => Some (column_int EmptyString)
  | _ => None
  end.

Definition create_user (me : Z) (request : option json) (salt : nat) (d : db) (trail : T) : db * T * reply :=
  let fail r := (d, trail, r) in
  if negb (is_admin me d) then fail (Failure 403 "Insufficient permissions")
  else match request ≫= member_of with
  | None => fail ServerError
  | Some get =>
      let username := get "username" JNull in
      let email := get "email" JNull in
      let password := get "password" JNull in
      if negb (Json.truthy username) then fail (Failure 400 "Username is required")
      else if negb (Json.truthy email) then fail (Failure 400 "Email is required")
      else if negb (Json.truthy password) then fail (Failure 400 "Password is required")
      else match validate_password_strength password (Some username), username, password, Json.bind_text email with
      | Some (Some message), _, _, _ => fail (Failure 400 message)
      | Some None, JStr name, JStr p, bound_email =>
          match user_by_name name d, bound_email with
          | Some _, _ => fail (Failure 409 "Username already exists")
          | None, None => fail ServerError
          | None, Some email =>
              match user_by_email email d with
              | Some _ => fail (Failure 409 "Email already exists")
              | None =>
                  match in_texts (get "role" (JStr "viewer")) valid_roles with
                  | None => fail (Failure 400 invalid_role)
                  | Some role =>
                      let crid := get "custom_role_id" JNull in
                      match new_custom_role crid d with
                      | inl r => fail r
                      | inr c =>
                          match (if Json.truthy crid then Some c else falsy_key crid),
                                text_column (get "full_name" (JStr "")), bool_column (get "active" (JBool true)) with
                          | Some c, Some full_name, Some active =>
                              let id := Table.next_id u_id (users d) in
                              let u := User id name email full_name role c active (Login.generate_password_hash salt p) in
                              (with_users (users d ++ [u]) d,
                               record_event (user_event "user_create" id name
                                 ("Created user: " ^+ name ^+ " (role: " ^+ role ^+ ")")) trail,
                               Created id)
                          | _, _, _ => fail ServerError
                          end
                      end
                  end
              end
          end
      | _, _, _, _ => fail ServerError
      end
  end.

(** ** Updating: each field in turn, on a transaction; a reply ends it.  [bad] holds when
    a value that the database refuses waits to be written, which happens at the next
    query or at the end. *)
Record work := Work { w_db : db; bad : bool }.
Definition on_user (id : Z) (f : user -> user) (w : work) : work := Work (change_user id f (w_db w)) (bad w).

Definition update_email (id : Z) (data : json) (w : work) : reply + work :=
  match Json.field "email" data with
  | None => inl ServerError
  | Some None => inr w
  | Some (Some j) =>
      match text_column j with
      | None => inl ServerError
      | Some None => inr (Work (w_db w) true)
      | Some (Some email) =>
          match Table.first (fun u => String.eqb (u_email u) email && negb (u_id u =? id)%Z) (users (w_db w)) with
          | Some _ => inl (Failure 409 "Email already in use")
          | None => inr (on_user id (set_email email) w)
          end
      end
  end.
Definition update_full_name (id : Z) (data : json) (w : work) : reply + work :=
  match Json.field "full_name" data with
  | None => inl ServerError
  | Some None => inr w
  | Some (Some j) =>
      match text_column j with
      | Some n => inr (on_user id (set_full_name n) w)
      | None => inr (Work (w_db w) true)
      end
  end.
Definition update_role (me id : Z) (data : json) (w : work) : reply + work :=
  match Json.field "role" data with
  | None => inl ServerError
  | Some None => inr w
  | Some (Some j) =>
      if negb (is_admin me (w_db w)) then inl (Failure 403 "Only admins can change roles")
      else match in_texts j valid_roles with
      | None => inl (Failure 400 invalid_role)
      | Some r => inr (on_user id (set_role r) w)
      end
  end.
Definition update_custom_role_id (me id : Z) (data : json) (w : work) : reply + work :=
  match Json.field "custom_role_id" data with
  | None => inl ServerError
  | Some None => inr w
  | Some (Some j) =>
      if negb (is_admin me (w_db w)) then inl (Failure 403 "Only admins can assign custom roles")
      else if Json.truthy j then
        match to_int j with
        | inl true => inl (Failure 400 "Invalid custom role ID")
        | inl false => inl ServerError
        | inr z =>
            if bad w then inl ServerError
            else match role_by_id z (w_db w) with
            | None => inl (Failure 404 "Custom role not found")
            | Some _ => inr (on_user id (set_custom_role (Some z)) w)
            end
        end
      else inr (on_user id (set_custom_role None) w)
  end.
Definition update_active (me id : Z) (data : json) (w : work) : reply + work :=
  match Json.field "active" data with
  | None => inl ServerError
  | Some None => inr w
  | Some (Some j) =>
      if negb (is_admin me (w_db w)) then inl (Failure 403 "Only admins can change active status")
      else inr (on_user id (set_active (Json.truthy j)) w)
  end.
Definition update_password (id : Z) (data : json) (salt : nat) (w : work) : reply + work :=
  match Json.field "password" data with
  | None => inl ServerError
  | Some None => inr w
  | Some (Some j) =>
      if negb (Json.truthy j) then inr w
      else match validate_password_strength j None, j with
      | Some (Some message), _ => inl (Failure 400 message)
      | Some None, JStr p => inr (on_user id (set_hash (Login.generate_password_hash salt p)) w)
      | _, _ => inl ServerError
      end
  end.

Definition and_then (x : reply + work) (f : work -> reply + work) : reply + work :=
  match x with inl r => inl r | inr w => f w end.

Definition update_fields (me id : Z) (data : json) (salt : nat) (d : db) : reply + work :=
  and_then (and_then (and_then (and_then (and_then
    (update_email id data (Work d false)) (update_full_name id data)) (update_role me id data))
    (update_custom_role_id me id data)) (update_active me id data)) (update_password id data salt).

Definition update_user (me id : Z) (request : option json) (salt : nat) (d : db) (trail : T) : db * T * reply :=
  let fail r := (d, trail, r) in
  if negb (is_admin me d) && negb (me =? id)%Z then fail (Failure 403 "Access denied")
  else match user_by_id id d, request with
  | None, _ => fail (Failure 404 "User not found")
  | Some _, None => fail ServerError
  | Some u, Some data =>
      match update_fields me id data salt d with
      | inl r => fail r
      | inr (Work _ true) => fail ServerError
      | inr (Work w false) =>
          (w, record_event (user_event "user_update" id (u_username u) ("Updated user: " ^+ u_username u)) trail,
           Done ("User " ^+ u_username u ^+ " updated successfully"))
      end
  end.

(** [delete_user] deactivates. *)
Definition delete_user (me id : Z) (d : db) (trail : T) : db * T * reply :=
  if negb (is_admin me d) then (d, trail, Failure 403 "Insufficient permissions")
  else if (me =? id)%Z then (d, trail, Failure 403 "Cannot delete your own account")
  else match user_by_id id d with
  | None => (d, trail, Failure 404 "User not found")
  | Some u =>
      (change_user id (set_active false) d,
       record_event (user_event "user_deactivate" id (u_username u) ("Deactivated user: " ^+ u_username u)) trail,
       Done ("User " ^+ u_username u ^+ " deactivated successfully"))
  end.

(** One element of a bulk deactivation; each is committed by itself. *)
Definition deactivate_one (me : Z) (x : db * list json * list (json * string)) (j : json)
  : db * list json * list (json * string) :=
  let '(d, success, failed) := x in
  if Json.py_eq (JInt me) j then (d, success, failed ++ [(j, "Cannot delete your own account")])
  else match key_of j with
  | None => (d, success, failed ++ [(j, "Deletion failed")])
  | Some k =>
      match (id ← k; user_by_id id d) with
      | None => (d, success, failed ++ [(j, "Not found")])
      | Some u => (change_user (u_id u) (set_active false) d, success ++ [j], failed)
      end
  end.
Definition bulk_delete_users (me : Z) (request : option json) (d : db) (trail : T) : db * T * reply :=
  let fail r := (d, trail, r) in
  if negb (is_admin me d) then fail (Failure 403 "Insufficient permissions")
  else match request with
  | None => fail ServerError
  | Some data =>
      if negb (Json.truthy data) then fail (Failure 400 "ids array required")
      else match member_of data with
      | None => fail ServerError
      | Some get =>
          let ids := get "ids" JNull in
          if negb (Json.truthy ids) then fail (Failure 400 "ids array required")
          else match Json.elements ids with
          | None => fail ServerError
          | Some l =>
              let '(d', success, failed) := fold_left (deactivate_one me) l (d, [], []) in
              let n := Num.str (Z.of_nat (length success)) in
              (d', record_event (Event "users_bulk_deactivated" (Some "user")
                     (AStr (Str.join "," (List.map (fun j => match j with JStr s => s | _ => py_repr j end) success)))
                     (AStr (n ^+ " users")) (AStr ("Bulk deactivated " ^+ n ^+ " users")) true None) trail,
               Bulk success failed)
          end
      end
  end.

Definition reset_user_password (me id : Z) (request : option json) (salt : nat) (d : db) (trail : T)
  : db * T * reply :=
  let fail r := (d, trail, r) in
  if negb (is_admin me d) && negb (me =? id)%Z then fail (Failure 403 "Access denied")
  else match user_by_id id d with
  | None => fail (Failure 404 "User not found")
  | Some u =>
      match request ≫= member_of with
      | None => fail ServerError
      | Some get =>
          let new := get "new_password" JNull in
          if negb (Json.truthy new) then fail (Failure 400 "New password is required")
          else match validate_password_strength new None, new with
          | Some (Some message), _ => fail (Failure 400 message)
          | Some None, JStr p =>
              (change_user id (set_hash (Login.generate_password_hash salt p)) d,
               record_event (user_event "password_change" id (u_username u)
                 ("Password reset for user: " ^+ u_username u)) trail,
               Done ("Password reset successfully for user " ^+ u_username u))
          | _, _ => fail ServerError
          end
      end
  end.

Definition toggle_user_status (me id : Z) (d : db) (trail : T) : db * T * reply :=
  if negb (is_admin me d) then (d, trail, Failure 403 "Insufficient permissions")
  else if (me =? id)%Z then (d, trail, Failure 403 "Cannot toggle your own account status")
  else match user_by_id id d with
  | None => (d, trail, Failure 404 "User not found")
  | Some u =>
      let active := negb (default false (u_active u)) in
      let status := if active then "activated" else "deactivated" in
      (change_user id (set_active active) d,
       record_event (user_event (if active then "user_activate" else "user_deactivate") id (u_username u)
         ("User " ^+ u_username u ^+ " " ^+ status)) trail,
       Done ("User " ^+ u_username u ^+ " " ^+ status ^+ " successfully"))
  end.

(** ** Importing: [csv.DictReader] gives the rows ([None] when reading raises); a cell is
    absent, or [None] in a short row. *)
Definition csv_row := list (string * option string).
Definition cell (k : string) (row : csv_row) : option string := c ← Json.assoc k row; c.
Record upload := Upload { filename : string; rows : option (list csv_row) }.
Record progress := Progress { p_users : list user; p_imported : nat; p_skipped : nat; p_errors : list string }.

Definition skip (message : string) (p : progress) : progress :=
  Progress (p_users p) (p_imported p) (S (p_skipped p))
    (p_errors p ++ ["Row " ^+ Num.str (Z.of_nat (p_imported p + p_skipped p + 1)) ^+ ": " ^+ message]).
Definition import_role (row : csv_row) : string :=
  match Json.assoc "role" row with
  | Some (Some r) => if Permissions.mem r ["admin"; "operator"; "viewer"] then r else "viewer"
  | _ => "viewer"
  end.
Definition import_row (salt : nat) (p : progress) (row : csv_row) : option progress :=
  match cell "username" row, cell "email" row, cell "password" row with
  | Some name, Some email, Some password =>
      if negb (Str.truthy name && Str.truthy email && Str.truthy password)
      then Some (skip "Missing required fields" p)
      else match validate_password_strength (JStr password) None with
      | None => None
      | Some (Some message) => Some (skip message p)
      | Some None =>
          if existsb (fun u => String.eqb (u_username u) name) (p_users p)
          then Some (skip ("Username '" ^+ name ^+ "' already exists") p)
          else if existsb (fun u => String.eqb (u_email u) email) (p_users p)
          then Some (skip ("Email '" ^+ email ^+ "' already exists") p)
          else
            let full_name := match Json.assoc "full_name" row with Some c => c | None => Some EmptyString end in
            let u := User (Table.next_id u_id (p_users p)) name email full_name (import_role row) None (Some true)
                       (Login.generate_password_hash (salt + p_imported p) password) in
            Some (Progress (p_users p ++ [u]) (S (p_imported p)) (p_skipped p) (p_errors p))
      end
  | _, _, _ => Some (skip "Missing required fields" p)
  end.
Fixpoint import_rows (salt : nat) (l : list csv_row) (p : progress) : option progress :=
  match l with
  | [] => Some p
  | row :: l' => p' ← import_row salt p row; import_rows salt l' p'
  end.
Definition endswith (s p : string) : bool := Str.startswith (Str.rev s) (Str.rev p).
Definition import_users (me : Z) (file : option upload) (salt : nat) (d : db) (trail : T) : db * T * reply :=
  let fail r := (d, trail, r) in
  if negb (is_admin me d) then fail (Failure 403 "Insufficient permissions")
  else match file with
  | None => fail (Failure 400 "No file provided")
  | Some f =>
      if negb (Str.truthy (filename f)) then fail (Failure 400 "No file selected")
      else if negb (endswith (filename f) ".csv") then fail (Failure 400 "File must be CSV format")
      else match (l ← rows f; import_rows salt l (Progress (users d) 0 0 [])) with
      | None => fail ServerError
      | Some p =>
          (with_users (p_users p) d,
           record_event (Event "user_import" (Some "user") ANone (AStr "CSV Import")
             (AStr ("Imported " ^+ Num.str (Z.of_nat (p_imported p)) ^+ " users, skipped "
                      ^+ Num.str (Z.of_nat (p_skipped p)))) true None) trail,
           Imported (p_imported p) (p_skipped p) (p_errors p))
      end
  end.

End Handlers.
End Users.
