(* ===== verification/Groups.v ===== *)
(** Groups and custom roles: [api/v2/groups.py], [api/v2/rbac.py], [models/rbac.py]; and
    all the state-changing requests of user, group and role management together. *)
From S2P Require Import Prelude Permissions Auth AuditSink PasswordPolicy Login Users.

Module Groups.
Import Users.
Local Open Scope string_scope.
Local Open Scope list_scope.

(** * Groups *)

Definition VALID_GROUP_PERMISSIONS : list string :=
  ["read:cas"; "write:cas"; "delete:cas";
   "read:certs"; "write:certs"; "delete:certs";
   "read:csrs"; "write:csrs"; "delete:csrs";
   "read:templates"; "write:templates";
   "read:users"; "write:users";
   "read:groups"; "write:groups"; "delete:groups";
   "read:audit"; "export:audit";
   "read:settings"; "write:settings"].

Section Handlers.
Context `{Login.Secrets} {T} `{AuditSink T}.
Context (column_int : string -> option Z) (py_repr : json -> string) (limit : nat).

(** [validate_permissions]: the message, or [None]. *)
Definition validate_permissions (permissions : json) : option string :=
  match permissions with
  | JList l =>
      if (50 <? length l)%nat then Some "Too many permissions (max 50)"
      else match List.filter (fun p => match in_texts p VALID_GROUP_PERMISSIONS with Some _ => false | None => true end) l with
      | [] => None
      | invalid => Some ("Invalid permissions: " ^+ py_repr (JList invalid))
      end
  | _ => Some "permissions must be an array"
  end.

Definition group_event (action : string) (id : Z) (name details : string) : event :=
  Event action (Some "group") (AStr (Num.str id)) (AStr name) (AStr details) true None.

Definition create_group (me : Z) (request : option json) (d : db) (trail : T) : db * T * reply :=
  let fail r := (d, trail, r) in
  if negb (is_admin me d) then fail (Failure 403 "Insufficient permissions")
  else match request ≫= member_of with
  | None => fail ServerError
  | Some get =>
      let name := get "name" JNull in
      if negb (Json.truthy name) then fail (Failure 400 "Group name is required")
      else match Login.json_length name with
      | None => fail ServerError
      | Some n =>
          if (100 <? n)%nat then fail (Failure 400 "Group name too long (max 100 chars)")
          else match name with
          | JStr name =>
              match group_by_name name d with
              | Some _ => fail (Failure 409 "Group already exists")
              | None =>
                  let permissions := get "permissions" (JList []) in
                  match (if Json.truthy permissions then validate_permissions permissions else None),
                        get "description" (JStr "") with
                  | Some message, _ => fail (Failure 400 message)
                  | None, JStr description =>
                      let id := Table.next_id g_id (groups d) in
                      (with_groups (groups d ++ [Group id name (Str.take 500 description) permissions]) d,
                       record_event (group_event "group_create" id name ("Created group: " ^+ name)) trail,
                       Created id)
                  | None, _ => fail ServerError
                  end
              end
          | _ => fail ServerError
          end
      end
  end.

Definition change_group (id : Z) (f : group -> group) (d : db) : db :=
  with_groups (Table.update (fun g => (g_id g =? id)%Z) f (groups d)) d.

(** The fields of an update; a description that is no text fails at once or at the end,
    with a 500 unless the permissions are refused first. *)
Definition group_name (id : Z) (data : json) (d : db) : reply + option string :=
  match Json.field "name" data with
  | None => inl ServerError
  | Some None => inr None
  | Some (Some j) =>
      match Login.json_length j with
      | None => inl ServerError
      | Some n =>
          if (100 <? n)%nat then inl (Failure 400 "Group name too long (max 100 chars)")
          else match j with
          | JStr name =>
              match group_by_name name d with
              | Some g => if (g_id g =? id)%Z then inr (Some name)
                          else inl (Failure 409 "Group name already exists")
              | None => inr (Some name)
              end
          | _ => inl ServerError
          end
      end
  end.
Definition update_group (me id : Z) (request : option json) (d : db) (trail : T) : db * T * reply :=
  let fail r := (d, trail, r) in
  if negb (is_admin me d) then fail (Failure 403 "Insufficient permissions")
  else match group_by_id id d, request with
  | None, _ => fail (Failure 404 "Group not found")
  | Some _, None => fail ServerError
  | Some g, Some data =>
      match group_name id data d with
      | inl r => fail r
      | inr name =>
          let name := default (g_name g) name in
          match Json.field "description" data, Json.field "permissions" data with
          | None, _ | Some (Some (JNull | JBool _ | JInt _ | JDict _)), _ | _, None => fail ServerError
          | Some description, Some permissions =>
              match permissions ≫= validate_permissions, description with
              | Some message, _ => fail (Failure 400 message)
              | None, Some (JList _) => fail ServerError
              | None, _ =>
                  let g' := Group (g_id g) name
                              (match description with Some (JStr s) => Str.take 500 s | _ => g_description g end)
                              (default (g_permissions g) permissions) in
                  (change_group id (fun _ => g') d,
                   record_event (group_event "group_update" id name ("Updated group: " ^+ name)) trail,
                   Done "Group updated")
              end
          end
      end
  end.

(** [delete_group], with its memberships *)
Definition delete_group (me id : Z) (d : db) (trail : T) : db * T * reply :=
  if negb (is_admin me d) then (d, trail, Failure 403 "Insufficient permissions")
  else match group_by_id id d with
  | None => (d, trail, Failure 404 "Group not found")
  | Some g =>
      (Db (users d) (Table.delete (fun g => (g_id g =? id)%Z) (groups d))
         (Table.delete (fun m => (m_group_id m =? id)%Z) (members d)) (roles d),
       record_event (group_event "group_delete" id (g_name g) ("Deleted group: " ^+ g_name g)) trail,
       Done "")
  end.

Definition add_group_member (me gid : Z) (request : option json) (d : db) (trail : T) : db * T * reply :=
  let fail r := (d, trail, r) in
  if negb (is_admin me d) then fail (Failure 403 "Insufficient permissions")
  else match group_by_id gid d with
  | None => fail (Failure 404 "Group not found")
  | Some g =>
      match request ≫= member_of with
      | None => fail ServerError
      | Some get =>
          let user_id := get "user_id" JNull in
          if negb (Json.truthy user_id) then fail (Failure 400 "user_id is required")
          else match key_of column_int user_id with
          | None => fail ServerError
          | Some k =>
              match (id ← k; user_by_id id d) with
              | None => fail (Failure 404 "User not found")
              | Some u =>
                  if negb (scalar user_id) then fail ServerError
                  else match membership gid (u_id u) d with
                  | Some _ => fail (Failure 409 "User is already a member")
                  | None =>
                      match in_texts (get "role" (JStr "member")) ["member"; "admin"] with
                      | None => fail (Failure 400 "Invalid role. Must be 'member' or 'admin'")
                      | Some role =>
                          let id := Table.next_id m_id (members d) in
                          (with_members (members d ++ [Member id gid (u_id u) role]) d,
                           record_event (group_event "group_member_add" gid (g_name g)
                             ("Added user " ^+ u_username u ^+ " to group " ^+ g_name g)) trail,
                           Created id)
                      end
                  end
              end
          end
      end
  end.

Definition remove_group_member (me gid uid : Z) (d : db) (trail : T) : db * T * reply :=
  if negb (is_admin me d) then (d, trail, Failure 403 "Insufficient permissions")
  else match membership gid uid d with
  | None => (d, trail, Failure 404 "Member not found")
  | Some m =>
      let name := match group_by_id gid d with Some g => g_name g | None => Num.str gid end in
      (with_members (Table.delete (fun x => (m_id x =? m_id m)%Z) (members d)) d,
       record_event (group_event "group_member_remove" gid name
         ("Removed user " ^+ Num.str uid ^+ " from group " ^+ Num.str gid)) trail,
       Done "")
  end.

(** * Custom roles

    Permissions in a set: a value that is no list, text or dict, or that holds a list or
    a dict, raises; equal values are kept once. *)
Definition set_add (x : json) (l : list json) : list json := if existsb (Json.py_eq x) l then l else l ++ [x].
Definition set_update (l new : list json) : list json := fold_left (fun l x => set_add x l) new l.
Definition permission_set (j : json) : option (list json) :=
  l ← Json.elements (if Json.truthy j then j else JList []);
  if forallb scalar l then Some (set_update [] l) else None.

(** [self.parent] *)
Definition parent (r : role) (rs : list role) : option role :=
  match r_inherits_from r with
  | JNull | JList _ | JDict _ => None
  | JBool b => Table.first (fun p => (r_id p =? Z.b2z b)%Z) rs
  | JInt z => Table.first (fun p => (r_id p =? z)%Z) rs
  | JStr s => z ← column_int s; Table.first (fun p => (r_id p =? z)%Z) rs
  end.

(** [get_all_permissions]; [n] frames are left to the interpreter, [None] is a
    RecursionError or the TypeError of a column that is no set. *)
Fixpoint get_all_permissions (n : nat) (r : role) (rs : list role) : option (list json) :=
  match n with
  | O => None
  | S n =>
      own ← permission_set (r_permissions r);
      match parent r rs with
      | None => Some own
      | Some p => inherited ← get_all_permissions n p rs; Some (set_update own inherited)
      end
  end.

(** [to_dict], which computes them, of one role and of all *)
Definition role_reply (r : role) (d : db) (ok : reply) : reply :=
  match get_all_permissions limit r (roles d) with Some _ => ok | None => ServerError end.
Definition list_custom_roles (d : db) : reply :=
  match mapM (fun r => get_all_permissions limit r (roles d)) (roles d) with
  | Some l => Listed l
  | None => ServerError
  end.

Definition create_custom_role (request : option json) (d : db) : db * reply :=
  match request ≫= member_of with
  | None => (d, ServerError)
  | Some get =>
      let name := get "name" JNull in
      if negb (Json.truthy name) then (d, Failure 400 "Role name is required")
      else match Json.bind_text name with
      | None => (d, ServerError)
      | Some name =>
          match role_by_name name d with
          | Some _ => (d, Failure 409 "Role already exists")
          | None =>
              let inherits_from := get "inherits_from" JNull in
              match text_column (get "description" (JStr "")), scalar inherits_from with
              | Some description, true =>
                  let r := Role (Table.next_id r_id (roles d)) name description (get "permissions" (JList []))
                             inherits_from false in
                  let d' := with_roles (roles d ++ [r]) d in
                  (d', role_reply r d' (Done "Custom role created"))
              | _, _ => (d, ServerError)
              end
          end
      end
  end.

(** A name taken by another role violates the unique column. *)
Definition update_custom_role (id : Z) (request : option json) (d : db) : db * reply :=
  match role_by_id id d, request with
  | None, _ => (d, Failure 404 "Not Found")
  | Some _, None => (d, ServerError)
  | Some r, Some data =>
      match Json.field "name" data, Json.field "description" data, Json.field "permissions" data, Json.field "inherits_from" data with
      | Some name, Some description, Some permissions, Some inherits =>
          match (match name with Some j => Json.bind_text j | None => Some (r_name r) end),
                (match description with Some j => text_column j | None => Some (r_description r) end) with
          | Some name, Some description =>
              let inherits_from := default (r_inherits_from r) inherits in
              if negb (scalar inherits_from)
                 || existsb (fun p => String.eqb (r_name p) name && negb (r_id p =? id)%Z) (roles d)
              then (d, ServerError)
              else
                let r' := Role (r_id r) name description (default (r_permissions r) permissions) inherits_from
                            (r_is_system r) in
                let d' := with_roles (Table.update (fun p => (r_id p =? id)%Z) (fun _ => r') (roles d)) d in
                (d', role_reply r' d' (Done "Role updated"))
          | _, _ => (d, ServerError)
          end
      | _, _, _, _ => (d, ServerError)
      end
  end.

(** [delete_custom_role]; the children of a deleted role lose their parent. *)
Definition orphan (id : Z) (rs : list role) (p : role) : role :=
  match parent p rs with
  | Some q => if (r_id q =? id)%Z
              then Role (r_id p) (r_name p) (r_description p) (r_permissions p) JNull (r_is_system p) else p
  | None => p
  end.
Definition delete_custom_role (id : Z) (d : db) : db * reply :=
  match role_by_id id d with
  | None => (d, Failure 404 "Not Found")
  | Some r =>
      if r_is_system r then (d, Failure 403 "System roles cannot be deleted")
      else
        let n := Table.count (fun u => bool_decide (u_custom_role_id u = Some id)) (users d) in
        if (0 <? n)%nat
        then (d, Failure 409 ("Role is assigned to " ^+ Num.str (Z.of_nat n) ^+ " user(s). Remove assignments first."))
        else (with_roles (List.map (orphan id (roles d)) (Table.delete (fun p => (r_id p =? id)%Z) (roles d))) d,
              Done "Role deleted")
  end.

(** * Effective permissions *)

Definition AVAILABLE_PERMISSIONS : list string :=
  ["read:cas"; "write:cas"; "delete:cas"; "admin:cas";
   "read:certs"; "write:certs"; "delete:certs"; "revoke:certs";
   "read:csrs"; "write:csrs"; "delete:csrs"; "sign:csrs";
   "read:users"; "write:users"; "delete:users"; "admin:users";
   "read:groups"; "write:groups"; "delete:groups"; "admin:groups";
   "read:settings"; "write:settings"; "admin:system";
   "read:audit"; "export:audit";
   "read:acme"; "write:acme"; "delete:acme";
   "read:scep"; "write:scep"; "delete:scep";
   "read:truststore"; "write:truststore"; "delete:truststore";
   "read:hsm"; "write:hsm"; "delete:hsm";
   "read:sso"; "write:sso"; "delete:sso";
   "read:templates"; "write:templates"; "delete:templates";
   "read:policies"; "write:policies"; "delete:policies";
   "read:approvals"; "write:approvals"].

Definition base_permissions (role : string) : list string :=
  if String.eqb role "admin" then AVAILABLE_PERMISSIONS
  else if String.eqb role "operator" then ["read:cas"; "read:certs"; "write:certs"; "read:csrs"; "sign:csrs"]
  else ["read:cas"; "read:certs"].

(** [User.groups] *)
Definition user_groups (u : user) (d : db) : list group :=
  omap (fun m => group_by_id (m_group_id m) d) (Table.all (fun m => (m_user_id m =? u_id u)%Z) (members d)).
(** A group whose permissions are no set ends the loop. *)
Fixpoint add_groups (l : list group) (perms : list json) : list json :=
  match l with
  | [] => perms
  | g :: l' => match permission_set (g_permissions g) with
               | Some new => add_groups l' (set_update perms new)
               | None => perms
               end
  end.
Definition get_effective_permissions (id : Z) (d : db) : reply :=
  match user_by_id id d with
  | None => Failure 404 "Not Found"
  | Some u =>
      let base := List.map JStr (base_permissions (u_role u)) in
      let custom := match u_custom_role_id u with
                    | Some c => if (c =? 0)%Z then None else role_by_id c d
                    | None => None
                    end in
      match (match custom with
             | Some r => new ← get_all_permissions limit r (roles d); Some (set_update base new)
             | None => Some base
             end) with
      | Some perms => Listed [add_groups (user_groups u d) perms]
      | None => ServerError
      end
  end.

(** * Requests that change state *)

Inductive request :=
| CreateUser (data : option json) (salt : nat) | UpdateUser (id : Z) (data : option json) (salt : nat)
| DeleteUser (id : Z) | BulkDelete (data : option json)
| ResetPassword (id : Z) (data : option json) (salt : nat) | Toggle (id : Z)
| ImportUsers (file : option upload) (salt : nat)
| CreateGroup (data : option json) | UpdateGroup (id : Z) (data : option json) | DeleteGroup (id : Z)
| AddMember (gid : Z) (data : option json) | RemoveMember (gid uid : Z)
| CreateRole (data : option json) | UpdateRole (id : Z) (data : option json) | DeleteRole (id : Z).

Definition serve (me : Z) (r : request) (d : db) (trail : T) : db * T * reply :=
  let silent x := let '(d', reply) := x : db * reply in (d', trail, reply) in
  match r with
  | CreateUser data salt => create_user column_int me data salt d trail
  | UpdateUser id data salt => update_user me id data salt d trail
  | DeleteUser id => delete_user me id d trail
  | BulkDelete data => bulk_delete_users column_int py_repr me data d trail
  | ResetPassword id data salt => reset_user_password me id data salt d trail
  | Toggle id => toggle_user_status me id d trail
  | ImportUsers file salt => import_users me file salt d trail
  | CreateGroup data => create_group me data d trail
  | UpdateGroup id data => update_group me id data d trail
  | DeleteGroup id => delete_group me id d trail
  | AddMember gid data => add_group_member me gid data d trail
  | RemoveMember gid uid => remove_group_member me gid uid d trail
  | CreateRole data => silent (create_custom_role data d)
  | UpdateRole id data => silent (update_custom_role id data d)
  | DeleteRole id => silent (delete_custom_role id d)
  end.

(** Requests of several users in turn. *)
Fixpoint serve_all (l : list (Z * request)) (d : db) (trail : T) : db * T :=
  match l with
  | [] => (d, trail)
  | (me, r) :: l' => let '(d, trail, _) := serve me r d trail in serve_all l' d trail
  end.

(** The permission of each route's [require_auth], and a request that passes through it with
    the permissions of its session or API key. *)
Definition required (r : request) : string :=
  match r with
  | CreateUser _ _ | UpdateUser _ _ _ | ResetPassword _ _ _ | Toggle _ | ImportUsers _ _ => "write:users"
  | DeleteUser _ | BulkDelete _ => "delete:users"
  | CreateGroup _ | UpdateGroup _ _ | AddMember _ _ => "write:groups"
  | DeleteGroup _ | RemoveMember _ _ => "delete:groups"
  | CreateRole _ | UpdateRole _ _ | DeleteRole _ => "admin:users"
  end.
Definition serve_permitted (me : Z) (perms : json) (r : request) (d : db) (trail : T) : db * T * reply :=
  match Auth.has_permission (required r) perms with
  | None => (d, trail, ServerError)
  | Some false => (d, trail, Failure 403 ("Missing permission: " ^+ required r))
  | Some true => serve me r d trail
  end.
Fixpoint serve_all_permitted (l : list (Z * json * request)) (d : db) (trail : T) : db * T :=
  match l with
  | [] => (d, trail)
  | (me, perms, r) :: l' => let '(d, trail, _) := serve_permitted me perms r d trail in serve_all_permitted l' d trail
  end.
(** The permissions of a session: those of the account's role. *)
Definition session_permissions (me : Z) (d : db) : json :=
  Json.strings (Permissions.get_role_permissions (default "" (role_of me d))).

End Handlers.
End Groups.
