(* ===== verification/UsersTables.v ===== *)
(** The tables of user, group and role management under all its requests: keys and names
    are unique, every account has a system role, every membership joins an existing
    account with an existing group. *)
From S2P Require Import Prelude Permissions AuditSink PasswordPolicy Login Users Groups.

Module UsersTables.
Import Users Groups.
Local Open Scope string_scope.
Local Open Scope list_scope.

(** Falsy permissions are stored as they are. *)
Definition group_permissions_ok (j : json) : Prop :=
  Json.truthy j = false \/
  exists l, j = Json.strings l /\ length l <= 50 /\ Forall (fun p => In p VALID_GROUP_PERMISSIONS) l.
Definition has_group (id : Z) (d : db) : Prop := exists g, In g (groups d) /\ g_id g = id.
Definition has_user (id : Z) (d : db) : Prop := exists u, In u (users d) /\ u_id u = id.

Record users_ok (l : list user) : Prop := {
  ok_user_ids : NoDup (List.map u_id l);
  ok_usernames : NoDup (List.map u_username l);
  ok_emails : NoDup (List.map u_email l);
  ok_user_roles : Forall (fun u => In (u_role u) valid_roles) l;
}.
Record groups_ok (l : list group) : Prop := {
  ok_group_ids : NoDup (List.map g_id l);
  ok_group_names : NoDup (List.map g_name l);
  ok_group_permissions : Forall (fun g => group_permissions_ok (g_permissions g)) l;
}.
Record roles_ok (l : list role) : Prop := {
  ok_role_ids : NoDup (List.map r_id l);
  ok_role_names : NoDup (List.map r_name l);
}.
Record tables_ok (d : db) : Prop := {
  ok_users : users_ok (users d);
  ok_groups : groups_ok (groups d);
  ok_roles : roles_ok (roles d);
  ok_member_ids : NoDup (List.map m_id (members d));
  ok_memberships : NoDup (List.map (fun m => (m_group_id m, m_user_id m)) (members d));
  ok_member_refs : Forall (fun m => has_group (m_group_id m) d /\ has_user (m_user_id m) d) (members d);
}.

Lemma in_texts_Some j l s : in_texts j l = Some s -> j = JStr s /\ In s l.
Proof.
  destruct j as [| | |t| |]; try done. unfold in_texts. destruct (Permissions.mem t l) eqn:E; [|done].
  intros [= <-]. by apply Permissions.mem_In in E.
Qed.
Lemma in_texts_In j l s : in_texts j l = Some s -> In s l.
Proof. by intros [_ ?]%in_texts_Some. Qed.

(** Searches that fail. *)
Lemma no_first {A} (f : A -> string) k l :
  Table.first (fun x => String.eqb (f x) k) l = None -> forall x, In x l -> f x <> k.
Proof. intros Hf x Hx E. apply (Table.first_None _ _ _ Hf) in Hx. by rewrite E, StrFacts.eqb_refl in Hx. Qed.

(** * Users *)

Lemma users_ok_add l u :
  users_ok l -> u_id u = Table.next_id u_id l -> (forall v, In v l -> u_username v <> u_username u) ->
  (forall v, In v l -> u_email v <> u_email u) -> In (u_role u) valid_roles -> users_ok (l ++ [u]).
Proof.
  intros [H1 H2 H3 H4] Hid Hn He Hr. split.
  - apply Table.NoDup_map_snoc; [done|]. intros v Hv. apply (Table.next_id_fresh u_id) in Hv. lia.
  - by apply Table.NoDup_map_snoc.
  - by apply Table.NoDup_map_snoc.
  - apply Forall_app. by split; [|apply Forall_singleton].
Qed.

(** Rewriting the row of one id: id and name stay, a new address is nobody else's. *)
Definition fits (id : Z) (l : list user) (f : user -> user) : Prop :=
  forall u, In u l -> u_id u = id ->
    u_id (f u) = u_id u /\ u_username (f u) = u_username u /\ (In (u_role u) valid_roles -> In (u_role (f u)) valid_roles) /\
    (forall v, In v l -> u_email (f u) = u_email v -> u_email u = u_email v).

Lemma users_ok_update id f l :
  users_ok l -> fits id l f -> users_ok (Table.update (fun u => (u_id u =? id)%Z) f l).
Proof.
  intros [H1 H2 H3 H4] Hf. split.
  - rewrite Table.map_update; [done|]. intros u Hu Hid%Z.eqb_eq. by apply Hf.
  - rewrite Table.map_update; [done|]. intros u Hu Hid%Z.eqb_eq. by apply Hf.
  - apply Table.NoDup_map_update; [done| |].
    + intros u v Hu Hv Hid%Z.eqb_eq. by apply Hf.
    + intros u v Hu Hv Hx%Z.eqb_eq Hy%Z.eqb_eq. f_equal.
      apply (Table.NoDup_map_eq u_id l); [done..|congruence].
  - apply List.Forall_forall. intros x (u & Hu & ->)%Table.In_update. rewrite List.Forall_forall in H4.
    destruct (Z.eqb_spec (u_id u) id); [|by apply H4]. apply Hf; [done|done|by apply H4].
Qed.

Lemma has_user_update id f l x :
  (forall u, In u l -> u_id u = id -> u_id (f u) = u_id u) ->
  (exists u, In u l /\ u_id u = x) -> exists u, In u (Table.update (fun u => (u_id u =? id)%Z) f l) /\ u_id u = x.
Proof.
  intros Hf (u & Hu & E). exists (if (u_id u =? id)%Z then f u else u). split; [apply Table.In_update; by exists u|].
  destruct (Z.eqb_spec (u_id u) id); [rewrite Hf|]; done.
Qed.

(** Only the users change, and nobody disappears. *)
Lemma tables_ok_users d l :
  tables_ok d -> users_ok l -> (forall x, has_user x d -> exists u, In u l /\ u_id u = x) -> tables_ok (with_users l d).
Proof.
  intros [U G R M1 M2 M3] Hl Hx. split; try done. eapply Forall_impl; [exact M3|].
  intros m [Hg Hu]. split; [done|by apply Hx].
Qed.

Lemma tables_ok_change id f d : tables_ok d -> fits id (users d) f -> tables_ok (change_user id f d).
Proof.
  intros Hd Hf. apply tables_ok_users; [done|by apply users_ok_update; [apply Hd|]|].
  intros x Hx. apply has_user_update; [|done]. intros u Hu Hid. by apply Hf.
Qed.

Lemma fits_plain id l f :
  (forall u, u_id (f u) = u_id u /\ u_username (f u) = u_username u /\ u_email (f u) = u_email u /\
             (In (u_role u) valid_roles -> In (u_role (f u)) valid_roles)) -> fits id l f.
Proof. intros Hf u Hu _. destruct (Hf u) as (-> & -> & E & Hr). repeat split; [done|]. intros v _. by rewrite E. Qed.

Section Facts.
Context `{Login.Secrets} {T} `{AuditSink T} (column_int : string -> option Z) (py_repr : json -> string) (limit : nat).

#[local] Abbreviation serve := (serve column_int py_repr limit).

Ltac fails := injection 1 as <- <- <-; assumption.

Lemma create_user_ok me data salt d trail d' trail' r :
  create_user column_int me data salt d trail = (d', trail', r) -> tables_ok d -> tables_ok d'.
Proof.
  intros E Hd. revert E. unfold create_user. destruct (negb _); [fails|].
  destruct (_ ≫= member_of) as [get|]; [|fails]. do 3 (destruct (negb _); [fails|]).
  destruct (validate_password_strength _ _) as [[m|]|]; [fails| |fails].
  destruct (get "username" JNull) as [| | |name| |]; try fails. destruct (get "password" JNull) as [| | |p| |]; try fails.
  destruct (user_by_name name d) eqn:En; [fails|]. destruct (Json.bind_text _) as [email|]; [|fails].
  destruct (user_by_email email d) eqn:Ee; [fails|]. destruct (in_texts _ valid_roles) as [role|] eqn:Er; [|fails].
  destruct (new_custom_role _ d) as [|c]; [fails|]. destruct (if Json.truthy _ then Some c else falsy_key column_int _) as [c'|]; [|fails].
  destruct (text_column _) as [n|]; [|fails]. destruct (bool_column _) as [a|]; [|fails]. intros [= <- _ _].
  apply tables_ok_users; [done| |].
  - apply users_ok_add; [apply Hd|done|by apply no_first|by apply no_first|by apply in_texts_In in Er].
  - intros x (u & Hu & E). exists u. split; [apply in_or_app; by left|done].
Qed.

(** The steps of an update. *)
Definition work_ok (x : reply + work) : Prop := match x with inl _ => True | inr w => tables_ok (w_db w) end.
Lemma work_ok_then x f : work_ok x -> (forall w, tables_ok (w_db w) -> work_ok (f w)) -> work_ok (and_then x f).
Proof. destruct x; [done|]. cbn. auto. Qed.

Lemma update_fields_ok me id data salt d : tables_ok d -> work_ok (update_fields me id data salt d).
Proof.
  intros Hd. unfold update_fields. repeat apply work_ok_then.
  - unfold update_email. destruct (Json.field _ data) as [[j|]|]; [|done|done].
    destruct (text_column j) as [[e|]|]; [|done|done]. destruct (Table.first _ _) eqn:Ef; [done|].
    apply tables_ok_change; [done|]. intros u Hu Hid. repeat split; [done|]. cbn. intros v Hv ->.
    apply (Table.first_None _ _ _ Ef) in Hv as Hx. rewrite StrFacts.eqb_refl in Hx. cbn in Hx.
    apply negb_false_iff, Z.eqb_eq in Hx. f_equal.
    apply (Table.NoDup_map_eq u_id (users d)); [apply Hd|done..|congruence].
  - intros w Hw. unfold update_full_name. destruct (Json.field _ data) as [[j|]|]; [|done|done].
    destruct (text_column j) as [n|]; [|done]. apply tables_ok_change; [done|]. by apply fits_plain.
  - intros w Hw. unfold update_role. destruct (Json.field _ data) as [[j|]|]; [|done|done]. destruct (negb _); [done|].
    destruct (in_texts j valid_roles) as [r|] eqn:Er; [|done]. apply tables_ok_change; [done|].
    apply fits_plain. intros u. repeat split. intros _. by apply in_texts_In in Er.
  - intros w Hw. unfold update_custom_role_id. destruct (Json.field _ data) as [[j|]|]; [|done|done]. destruct (negb _); [done|].
    destruct (Json.truthy j); [|by apply tables_ok_change; [|apply fits_plain]].
    destruct (to_int j) as [[]|z]; [done|done|]. destruct (bad w); [done|]. destruct (role_by_id z _); [|done].
    by apply tables_ok_change; [|apply fits_plain].
  - intros w Hw. unfold update_active. destruct (Json.field _ data) as [[j|]|]; [|done|done]. destruct (negb _); [done|].
    by apply tables_ok_change; [|apply fits_plain].
  - intros w Hw. unfold update_password. destruct (Json.field _ data) as [[j|]|]; [|done|done].
    destruct (negb _); [done|]. destruct (validate_password_strength j None) as [[m|]|]; [done| |done].
    destruct j; try done. by apply tables_ok_change; [|apply fits_plain].
Qed.

Lemma bulk_ok me l x : tables_ok x.1.1 -> tables_ok (fold_left (deactivate_one column_int me) l x).1.1.
Proof.
  revert x. induction l as [|j l IH]; intros [[d s] f] Hd; [done|]. cbn [fold_left]. apply IH.
  unfold deactivate_one. destruct (Json.py_eq _ j); [done|]. destruct (key_of column_int j) as [k|]; [|done].
  destruct (k ≫= _) as [u|]; [|done]. by apply tables_ok_change; [|apply fits_plain].
Qed.

Lemma import_rows_ok salt l p p' :
  import_rows salt l p = Some p' -> users_ok (p_users p) ->
  users_ok (p_users p') /\ exists new, p_users p' = p_users p ++ new.
Proof.
  revert p. induction l as [|row l IH]; intros p; [intros [= <-] Hp; split; [done|]; exists []; by rewrite app_nil_r|].
  cbn [import_rows]. destruct (import_row salt p row) as [q|] eqn:Eq; [|done]. intros E Hp.
  assert (users_ok (p_users q) /\ exists new, p_users q = p_users p ++ new) as [Hq [new En]].
  { revert Eq. unfold import_row.
    assert (forall m, Some (skip m p) = Some q -> users_ok (p_users q) /\ exists new, p_users q = p_users p ++ new) as Hskip
      by (intros m [= <-]; split; [done|]; exists []; by rewrite app_nil_r).
    destruct (cell "username" row) as [name|]; [|apply Hskip]. destruct (cell "email" row) as [email|]; [|apply Hskip].
    destruct (cell "password" row) as [pw|]; [|apply Hskip]. destruct (negb _); [apply Hskip|].
    destruct (validate_password_strength _ _) as [[m|]|]; [apply Hskip| |done].
    destruct (existsb _ _) eqn:E1; [apply Hskip|]. destruct (existsb (fun u => String.eqb (u_email u) email) _) eqn:E2; [apply Hskip|].
    intros [= <-]. cbn [p_users]. split; [|by eexists].
    assert (forall f k, existsb (fun u => String.eqb (f u) k) (p_users p) = false -> forall v : user, In v (p_users p) -> f v <> k) as Hx.
    { intros f k Hf v Hv Ek. rewrite <-not_true_iff_false, existsb_exists in Hf. apply Hf. exists v. by rewrite Ek, StrFacts.eqb_refl. }
    apply users_ok_add; [done|done|by apply Hx|by apply Hx|]. cbn [u_role]. unfold import_role.
    destruct (Json.assoc "role" row) as [[r|]|]; [|right;right;right; by left..].
    destruct (Permissions.mem r _) eqn:Em; [|right;right;right; by left]. apply Permissions.mem_In in Em. cbn in Em |- *. tauto. }
  apply IH in E as [Hp' [new' E']]; [|done]. split; [done|]. exists (new ++ new'). by rewrite E', En, app_assoc.
Qed.

Lemma users_requests_ok me r d trail :
  tables_ok d ->
  match r with
  | CreateUser _ _ | UpdateUser _ _ _ | DeleteUser _ | BulkDelete _ | ResetPassword _ _ _ | Toggle _ | ImportUsers _ _ =>
      tables_ok (serve me r d trail).1.1
  | _ => True
  end.
Proof.
  intros Hd. destruct r; try done; cbn [Groups.serve].
  - destruct (create_user _ _ _ _ _ _) as [[d' t'] rep] eqn:E. by eapply create_user_ok.
  - unfold update_user. destruct (_ && _); [done|]. destruct (user_by_id id d); [|done]. destruct data as [data|]; [|done].
    pose proof (update_fields_ok me id data salt d Hd) as Hu. by destruct (update_fields _ _ _ _ _) as [?|[w []]].
  - unfold delete_user. destruct (negb _); [done|]. destruct (me =? id)%Z; [done|]. destruct (user_by_id id d); [|done].
    by apply tables_ok_change; [|apply fits_plain].
  - unfold bulk_delete_users. destruct (negb _); [done|]. destruct data as [data|]; [|done]. destruct (negb _); [done|].
    destruct (member_of data) as [get|]; [|done]. destruct (negb _); [done|]. destruct (Json.elements _) as [l|]; [|done].
    pose proof (bulk_ok me l (d, [], []) Hd) as Hb. by destruct (fold_left _ _ _) as [[d' s] f].
  - unfold reset_user_password. destruct (_ && _); [done|]. destruct (user_by_id id d); [|done].
    destruct (_ ≫= member_of) as [get|]; [|done]. destruct (negb _); [done|].
    destruct (validate_password_strength _ _) as [[m|]|]; [done| |done]. destruct (get _ _); try done.
    by apply tables_ok_change; [|apply fits_plain].
  - unfold toggle_user_status. destruct (negb _); [done|]. destruct (me =? id)%Z; [done|]. destruct (user_by_id id d); [|done].
    by apply tables_ok_change; [|apply fits_plain].
  - unfold import_users. destruct (negb _); [done|]. destruct file as [f|]; [|done]. do 2 (destruct (negb _); [done|]).
    destruct (rows f ≫= _) as [p|] eqn:E; [|done]. destruct (rows f) as [l|]; [|done].
    apply import_rows_ok in E as [Hp [new E]]; [|apply Hd]. apply tables_ok_users; [done|done|].
    intros x (u & Hu & Ex). exists u. cbn [p_users] in E. rewrite E. split; [apply in_or_app; by left|done].
Qed.

(** * Groups *)

Lemma validate_permissions_ok j : validate_permissions py_repr j = None -> group_permissions_ok j.
Proof.
  destruct j as [| | | |l|]; try done. cbn [validate_permissions]. destruct (Nat.ltb_spec 50 (length l)); [done|].
  destruct (List.filter _ l) eqn:Ef; [|done]. intros _. right.
  assert (forall p, In p l -> exists s, p = JStr s /\ In s VALID_GROUP_PERMISSIONS) as Hl.
  { intros p Hp. destruct (in_texts p VALID_GROUP_PERMISSIONS) as [s|] eqn:E.
    - exists s. by apply in_texts_Some in E.
    - assert (In p (List.filter (fun p => match in_texts p VALID_GROUP_PERMISSIONS with Some _ => false | None => true end) l)) as Hin
        by (apply List.filter_In; by rewrite E). by rewrite Ef in Hin. }
  clear Ef. assert (exists ss, l = List.map JStr ss /\ Forall (fun p => In p VALID_GROUP_PERMISSIONS) ss) as (ss & -> & Hs).
  { clear H1. induction l as [|p l IH]; [by exists []|]. destruct IH as (ss & -> & Hs); [by intros q Hq; apply Hl; right|].
    destruct (Hl p) as (s & -> & Hin); [by left|]. exists (s :: ss). split; [done|by constructor]. }
  exists ss. split; [done|]. by rewrite List.length_map in H1.
Qed.

(** A group may change its name to one no other group has. *)
Lemma groups_ok_update id g l :
  groups_ok l -> In g l -> g_id g = id -> forall g', g_id g' = id -> group_permissions_ok (g_permissions g') ->
  (forall x, In x l -> g_name g' = g_name x -> g_id x = id) ->
  groups_ok (Table.update (fun x => (g_id x =? id)%Z) (fun _ => g') l).
Proof.
  intros [H1 H2 H3] Hg Hid g' Hid' Hp Hn.
  assert (forall x y, In x l -> In y l -> g_id x = id -> g_id y = id -> x = y) as Huniq
    by (intros x y Hx Hy Ex Ey; apply (Table.NoDup_map_eq g_id l); [done..|congruence]).
  split.
  - rewrite Table.map_update; [done|]. intros x Hx Hx'%Z.eqb_eq. congruence.
  - apply Table.NoDup_map_update; [done| |].
    + intros x y Hx Hy Hx'%Z.eqb_eq E. f_equal. apply Huniq; [done..|]. by apply Hn.
    + intros x y Hx Hy Hx'%Z.eqb_eq Hy'%Z.eqb_eq. f_equal. by apply Huniq.
  - apply List.Forall_forall. intros x (y & Hy & ->)%Table.In_update. rewrite List.Forall_forall in H3.
    destruct (g_id y =? id)%Z; [done|by apply H3].
Qed.

Lemma group_name_free id data d name :
  group_name id data d = inr (Some name) -> NoDup (List.map g_name (groups d)) ->
  forall x, In x (groups d) -> name = g_name x -> g_id x = id.
Proof.
  unfold group_name. destruct (Json.field "name" data) as [[j|]|]; [|done|done]. destruct (Login.json_length j); [|done].
  destruct (100 <? _)%nat; [done|]. destruct j as [| | |s| |]; try done.
  destruct (group_by_name s d) as [g|] eqn:E.
  - destruct (Z.eqb_spec (g_id g) id); [|done]. intros [= <-] Hn x Hx Ex.
    apply Table.first_Some in E as [Hg Eg%String.eqb_eq].
    assert (x = g) as -> by (apply (Table.NoDup_map_eq g_name (groups d)); [done..|congruence]). done.
  - intros [= <-] _ x Hx Ex. by destruct (no_first _ _ _ E x Hx).
Qed.

Lemma tables_ok_groups d l :
  tables_ok d -> groups_ok l -> (forall x, has_group x d -> exists g, In g l /\ g_id g = x) -> tables_ok (with_groups l d).
Proof.
  intros [U G R M1 M2 M3] Hl Hx. split; try done. eapply Forall_impl; [exact M3|].
  intros m [Hg Hu]. split; [by apply Hx|done].
Qed.

Lemma update_group_ok me id data d trail : tables_ok d -> tables_ok (update_group py_repr me id data d trail).1.1.
Proof.
  intros Hd. unfold update_group. destruct (negb _); [done|]. destruct (group_by_id id d) as [g|] eqn:Eg; [|done].
  destruct data as [data|]; [|done]. destruct (group_name id data d) as [|name] eqn:En; [done|].
  destruct (Json.field "description" data) as [desc|]; [|done]. destruct (Json.field "permissions" data) as [perms|]; [|by destruct desc as [[]|]].
  apply Table.first_Some in Eg as [Hg Hid%Z.eqb_eq].
  assert (forall desc', (perms ≫= validate_permissions py_repr) = None ->
    tables_ok (change_group id (fun _ => Group (g_id g) (default (g_name g) name) desc' (default (g_permissions g) perms)) d)) as Hchange.
  { intros desc' Hp. apply tables_ok_groups; [done| |].
    - apply (groups_ok_update id g); [apply Hd|done|done|done| |].
      + cbn [g_permissions]. destruct perms as [j|]; cbn in Hp |- *; [by apply validate_permissions_ok|].
        pose proof (ok_group_permissions _ (ok_groups _ Hd)) as Hf. rewrite List.Forall_forall in Hf. by apply Hf.
      + cbn [g_name]. destruct name as [n|]; cbn [default].
        * by apply (group_name_free _ _ _ _ En), Hd.
        * intros x Hx E. rewrite <-Hid. f_equal.
          apply (Table.NoDup_map_eq g_name (groups d)); [apply Hd|done|done|done].
    - intros x (y & Hy & Ey). exists (if (g_id y =? id)%Z then Group (g_id g) (default (g_name g) name) desc' (default (g_permissions g) perms) else y).
      split; [apply Table.In_update; by exists y|]. destruct (Z.eqb_spec (g_id y) id); [cbn; congruence|done]. }
  destruct desc as [[]|]; try done; destruct (perms ≫= _) eqn:Ep; try done; by apply Hchange.
Qed.

Lemma groups_requests_ok me r d trail :
  tables_ok d ->
  match r with
  | CreateGroup _ | UpdateGroup _ _ | DeleteGroup _ | AddMember _ _ | RemoveMember _ _ => tables_ok (serve me r d trail).1.1
  | _ => True
  end.
Proof.
  intros Hd. destruct r; try done; cbn [Groups.serve].
  - unfold create_group. destruct (negb _); [done|]. destruct (_ ≫= member_of) as [get|]; [|done]. destruct (negb _); [done|].
    destruct (Login.json_length _); [|done]. destruct (100 <? _)%nat; [done|]. destruct (get "name" JNull) as [| | |name| |]; try done.
    destruct (group_by_name name d) eqn:En; [done|]. cbv zeta. set (perms := get "permissions" (JList [])).
    destruct (if Json.truthy perms then _ else None) eqn:Ep; [done|]. destruct (get "description" _) as [| | |desc| |]; try done.
    apply tables_ok_groups; [done| |].
    + pose proof (ok_groups _ Hd) as [H1 H2 H3]. split.
      * apply Table.NoDup_map_snoc; [done|]. intros g Hg. apply (Table.next_id_fresh g_id) in Hg. cbn. lia.
      * apply Table.NoDup_map_snoc; [done|]. by apply no_first.
      * apply Forall_app. split; [done|]. apply Forall_singleton. cbn [g_permissions].
        destruct (Json.truthy perms) eqn:Et; [by apply validate_permissions_ok|by left].
    + intros x (g & Hg & E). exists g. split; [apply in_or_app; by left|done].
  - by apply update_group_ok.
  - unfold delete_group. destruct (negb _); [done|]. destruct (group_by_id id d); [|done].
    destruct Hd as [U [G1 G2 G3] R M1 M2 M3]. split; cbn [users groups members roles fst]; [done| |done| | |].
    + split; [by apply Table.NoDup_map_delete..|]. apply List.Forall_forall. intros x Hx%Table.In_delete_weaken.
      rewrite List.Forall_forall in G3. by apply G3.
    + by apply Table.NoDup_map_delete.
    + by apply Table.NoDup_map_delete.
    + apply List.Forall_forall. intros m [Hm Hid%Z.eqb_neq]%Table.In_delete. rewrite List.Forall_forall in M3.
      destruct (M3 m Hm) as [(x & Hg & E) Hu]. split; [|done]. exists x. split; [|done].
      apply Table.In_delete. split; [done|]. apply Z.eqb_neq. congruence.
  - unfold add_group_member. destruct (negb _); [done|]. destruct (group_by_id gid d) as [g|] eqn:Eg; [|done].
    destruct (_ ≫= member_of) as [get|]; [|done]. destruct (negb _); [done|]. destruct (key_of column_int _) as [k|]; [|done].
    destruct (k ≫= _) as [u|] eqn:Eu; [|done]. destruct (negb _); [done|]. destruct (membership gid (u_id u) d) eqn:Em; [done|].
    destruct (in_texts _ _) as [role|]; [|done]. destruct Hd as [U G R M1 M2 M3]. split; cbn [users groups members roles with_members fst]; [done..| | |].
    + apply Table.NoDup_map_snoc; [done|]. intros m Hm. apply (Table.next_id_fresh m_id) in Hm. cbn. lia.
    + apply Table.NoDup_map_snoc; [done|]. intros m Hm. cbn. intros [= E1 E2].
      apply (Table.first_None _ _ _ Em) in Hm. by rewrite E1, E2, !Z.eqb_refl in Hm.
    + apply Forall_app. split; [done|]. apply Forall_singleton. cbn. split.
      * apply Table.first_Some in Eg as [Hg Hid%Z.eqb_eq]. by exists g.
      * destruct k as [k|]; [|done]. apply Table.first_Some in Eu as [Hu _]. by exists u.
  - unfold remove_group_member. destruct (negb _); [done|]. destruct (membership gid uid d) as [m|]; [|done].
    destruct Hd as [U G R M1 M2 M3]. split; cbn [users groups members roles with_members fst]; [done..| | |];
      [by apply Table.NoDup_map_delete..|].
    apply List.Forall_forall. intros x Hx%Table.In_delete_weaken. rewrite List.Forall_forall in M3. by apply M3.
Qed.

(** * Roles *)

Lemma tables_ok_roles d l : tables_ok d -> roles_ok l -> tables_ok (with_roles l d).
Proof. intros [U G R M1 M2 M3] Hl. by split. Qed.

Lemma roles_requests_ok me r d trail :
  tables_ok d ->
  match r with CreateRole _ | UpdateRole _ _ | DeleteRole _ => tables_ok (serve me r d trail).1.1 | _ => True end.
Proof.
  intros Hd. pose proof (ok_roles _ Hd) as [R1 R2]. destruct r; try done; cbn [Groups.serve].
  - unfold create_custom_role. destruct (_ ≫= member_of) as [get|]; [|done]. destruct (negb _); [done|].
    destruct (Json.bind_text _) as [name|]; [|done]. destruct (role_by_name name d) eqn:En; [done|].
    destruct (text_column _); [|done]. destruct (scalar _); [|done]. apply tables_ok_roles; [done|]. split.
    + apply Table.NoDup_map_snoc; [done|]. intros x Hx. apply (Table.next_id_fresh r_id) in Hx. cbn. lia.
    + apply Table.NoDup_map_snoc; [done|]. by apply no_first.
  - unfold update_custom_role. destruct (role_by_id id d) as [q|] eqn:Eq; [|done]. destruct data as [data|]; [|done].
    do 4 (destruct (Json.field _ data); [|done]). destruct (match o with Some j => _ | None => _ end) as [name|]; [|done].
    destruct (match o0 with Some j => _ | None => _ end); [|done]. destruct (_ || existsb _ _) eqn:Ex; [done|].
    apply orb_false_iff in Ex as [_ Ex]. apply Table.first_Some in Eq as [Hq Hid%Z.eqb_eq].
    assert (forall x, In x (roles d) -> r_name x = name -> r_id x = id) as Hfree.
    { intros x Hx E. rewrite <-not_true_iff_false, existsb_exists in Ex. destruct (Z.eqb_spec (r_id x) id) as [|Hne]; [done|].
      destruct Ex. exists x. split; [done|]. rewrite E, StrFacts.eqb_refl. by apply Z.eqb_neq in Hne as ->. }
    assert (forall x y, In x (roles d) -> In y (roles d) -> r_id x = id -> r_id y = id -> x = y) as Huniq
      by (intros x y Hx Hy Ex' Ey; apply (Table.NoDup_map_eq r_id (roles d)); [done..|congruence]).
    apply tables_ok_roles; [done|]. split.
    + rewrite Table.map_update; [done|]. intros x Hx Hx'%Z.eqb_eq. cbn. congruence.
    + apply Table.NoDup_map_update; [done| |].
      * intros x y Hx Hy Hx'%Z.eqb_eq E. f_equal. apply Huniq; [done..|]. by apply Hfree.
      * intros x y Hx Hy Hx'%Z.eqb_eq Hy'%Z.eqb_eq. f_equal. by apply Huniq.
  - unfold delete_custom_role. destruct (role_by_id id d); [|done]. destruct (r_is_system r); [done|].
    destruct (_ <? _)%nat; [done|]. apply tables_ok_roles; [done|].
    assert (forall p, r_id (orphan column_int id (roles d) p) = r_id p /\ r_name (orphan column_int id (roles d) p) = r_name p) as Ho
      by (intros p; unfold orphan; destruct (parent _ _ _) as [q|]; [by destruct (r_id q =? id)%Z|done]).
    split; rewrite List.map_map.
    + rewrite (List.map_ext _ r_id) by apply Ho. by apply Table.NoDup_map_delete.
    + rewrite (List.map_ext _ r_name) by apply Ho. by apply Table.NoDup_map_delete.
Qed.

(** C6: The tables stay consistent through any sequence of requests of user, group and
    role management, whoever makes them: keys, user names, addresses and the names of
    groups and roles are unique, every account has one of the four system roles, no user
    is in a group twice, every membership joins an existing account with an existing
    group, and the permissions of a group are at most fifty and from the fixed list. *)
Theorem tables_stay_consistent l d trail :
  tables_ok d -> tables_ok (serve_all column_int py_repr limit l d trail).1.
Proof.
  revert d trail. induction l as [|[me r] l IH]; intros d trail Hd; [done|]. cbn [serve_all].
  assert (tables_ok (serve me r d trail).1.1) as Hs.
  { pose proof (users_requests_ok me r d trail Hd) as H1. pose proof (groups_requests_ok me r d trail Hd) as H2.
    pose proof (roles_requests_ok me r d trail Hd) as H3. by destruct r. }
  destruct (serve me r d trail) as [[d1 t1] rep]. by apply IH.
Qed.

End Facts.
End UsersTables.
