(* ===== verification/UsersFacts.v ===== *)
(** What user, group and role management guarantees: the tables stay consistent, accounts
    without the admin role cannot gain rights through it, and permissions are inherited
    along the parents of a role; and what it lets through: administrators can lock
    everybody out, and a role can inherit from itself. *)
From S2P Require Import Prelude Permissions Auth AuditSink PasswordPolicy Login LoginFacts Users Groups UsersTables.

Module UsersFacts.
Import Users Groups.
Local Open Scope string_scope.
Local Open Scope list_scope.

(** * Rights *)

(** Two versions of a row that grant the same. *)
Definition same_rights (u u' : user) : Prop :=
  u_id u' = u_id u /\ u_username u' = u_username u /\ u_role u' = u_role u /\
  u_custom_role_id u' = u_custom_role_id u /\ u_active u' = u_active u.
#[export] Instance same_rights_refl : Reflexive same_rights.
Proof. by repeat split. Qed.
#[export] Instance same_rights_trans : Transitive same_rights.
Proof. intros u v w (?&?&?&?&?) (?&?&?&?&?). repeat split; congruence. Qed.

(** Row by row, only rows of [who] differ and they grant the same. *)
Definition harmless (who : list Z) (d d' : db) : Prop :=
  groups d' = groups d /\ members d' = members d /\
  Forall2 (fun u u' => same_rights u u' /\ (u_id u ∉ who -> u' = u)) (users d) (users d').

Lemma harmless_refl who d : harmless who d d.
Proof. split; [done|]. split; [done|]. induction (users d); constructor; [done|done]. Qed.

Lemma harmless_trans who d1 d2 d3 : harmless who d1 d2 -> harmless who d2 d3 -> harmless who d1 d3.
Proof.
  intros (G1 & M1 & U1) (G2 & M2 & U2). split; [congruence|]. split; [congruence|]. clear G1 M1 G2 M2.
  revert U2. generalize (users d3). induction U1 as [|u v l l' [Hr He] U1 IH]; intros l3 U2; inversion U2; subst; constructor.
  - destruct H1 as [Hr' He']. split; [by etransitivity|]. intros Hn. rewrite He'; [by apply He|].
    destruct Hr as [-> _]. done.
  - by apply IH.
Qed.

Lemma harmless_more who who' d d' : (forall x, x ∈ who -> x ∈ who') -> harmless who d d' -> harmless who' d d'.
Proof.
  intros Hw (G & M & U). split; [done|]. split; [done|]. eapply Forall2_impl; [exact U|].
  intros u v [Hr He]. split; [done|]. intros Hn. apply He. auto.
Qed.

Lemma harmless_change me f d : (forall u, same_rights u (f u)) -> harmless [me] d (change_user me f d).
Proof.
  intros Hf. split; [done|]. split; [done|]. unfold change_user, Table.update. cbn [users with_users].
  induction (users d) as [|u l IH]; [constructor|]. cbn [List.map]. constructor; [|done].
  destruct (Z.eqb_spec (u_id u) me) as [E|E]; [|done]. split; [done|]. rewrite E. set_solver.
Qed.

Lemma first_rights (p : Z -> bool) l l' :
  Forall2 (fun u u' => same_rights u u') l l' ->
  (u_role <$> Table.first (fun u => p (u_id u)) l') = (u_role <$> Table.first (fun u => p (u_id u)) l).
Proof.
  unfold Table.first. induction 1 as [|u v l l' (E & _ & Er & _) _ IH]; [done|]. cbn [List.find].
  rewrite E. destruct (p (u_id u)); [cbn; by rewrite Er|done].
Qed.

Lemma harmless_role who d d' me : harmless who d d' -> role_of me d' = role_of me d.
Proof.
  intros (_ & _ & U). unfold role_of, user_by_id. apply (first_rights (fun z => (z =? me)%Z) (users d) (users d')).
  eapply Forall2_impl; [exact U|]. by intros u v [? _].
Qed.

Lemma harmless_admin who d d' me : harmless who d d' -> is_admin me d' = is_admin me d.
Proof.
  intros Hh. unfold is_admin. by rewrite (harmless_role _ _ _ _ Hh).
Qed.

Lemma same_rights_set u :
  (forall e, same_rights u (set_email e u)) /\ (forall n, same_rights u (set_full_name n u)) /\
  (forall h, same_rights u (set_hash h u)).
Proof. repeat split. Qed.

Section Facts.
Context `{Login.Secrets} {T} `{AuditSink T} (column_int : string -> option Z) (py_repr : json -> string) (limit : nat).

#[local] Abbreviation serve := (serve column_int py_repr limit).
#[local] Abbreviation serve_all := (serve_all column_int py_repr limit).

(** The steps of an update by an account that is no administrator. *)
Definition on_self (me : Z) (d : db) (x : reply + work) : Prop :=
  match x with inl _ => True | inr w => harmless [me] d (w_db w) end.

Lemma on_self_then me d x f :
  on_self me d x -> (forall w, is_admin me (w_db w) = false -> on_self me (w_db w) (f w)) ->
  is_admin me d = false -> on_self me d (and_then x f).
Proof.
  destruct x as [r|w]; [done|]. cbn. intros Hw Hf Hme.
  specialize (Hf w (eq_trans (harmless_admin _ _ _ me Hw) Hme)). destruct (f w) as [r|w']; [done|].
  by eapply harmless_trans.
Qed.

Lemma update_fields_self me data salt d :
  is_admin me d = false -> on_self me d (update_fields me me data salt d).
Proof.
  intros Hme. unfold update_fields.
  assert (forall w, on_self me (w_db w) (inr w)) as Hid by (intros w; apply harmless_refl).
  assert (forall w f, (forall u, same_rights u (f u)) -> on_self me (w_db w) (inr (on_user me f w))) as Hon
    by (intros w f Hf; by apply harmless_change).
  repeat (apply on_self_then; [| |done]).
  - unfold update_email. destruct (Json.field _ data) as [[j|]|]; [|apply harmless_refl|done].
    destruct (text_column j) as [[e|]|]; [|apply harmless_refl|done]. destruct (Table.first _ _); [done|].
    apply (Hon (Work d false)). intros u. by apply same_rights_set.
  - intros w _. unfold update_full_name. destruct (Json.field _ data) as [[j|]|]; [|done|done].
    destruct (text_column j) as [n|]; [|apply (Hid (Work (w_db w) true))]. apply Hon. intros u. by apply same_rights_set.
  - intros w Hw. unfold update_role. destruct (Json.field _ data) as [[j|]|]; [by rewrite Hw|done|done].
  - intros w Hw. unfold update_custom_role_id. destruct (Json.field _ data) as [[j|]|]; [by rewrite Hw|done|done].
  - intros w Hw. unfold update_active. destruct (Json.field _ data) as [[j|]|]; [by rewrite Hw|done|done].
  - intros w Hw. unfold update_password. destruct (Json.field _ data) as [[j|]|]; [|done|done].
    destruct (negb _); [done|]. destruct (validate_password_strength j None) as [[m|]|]; [done| |done].
    destruct j; try done. apply Hon. intros u. by apply same_rights_set.
Qed.

Lemma serve_self me r d trail :
  is_admin me d = false -> harmless [me] d (serve me r d trail).1.1.
Proof.
  intros Hme. pose proof (harmless_refl [me] d) as Hid.
  destruct r; cbn [Groups.serve]; unfold create_user, update_user, delete_user, bulk_delete_users, reset_user_password,
    toggle_user_status, import_users, create_group, update_group, delete_group, add_group_member,
    remove_group_member; rewrite ?Hme; try exact Hid.
  - (* update *) cbn [negb andb]. destruct (Z.eqb_spec me id) as [<-|]; [|done]. cbn [negb].
    destruct (user_by_id me d) as [u|]; [|done]. destruct data as [data|]; [|done].
    pose proof (update_fields_self me data salt d Hme) as Hu. destruct (update_fields _ _ _ _ _) as [?|[w []]]; done.
  - (* reset *) cbn [negb andb]. destruct (Z.eqb_spec me id) as [<-|]; [|done]. cbn [negb].
    destruct (user_by_id me d) as [u|]; [|done]. destruct (_ ≫= member_of) as [get|]; [|done].
    destruct (negb (Json.truthy _)); [done|]. destruct (validate_password_strength _ _) as [[m|]|]; [done| |done].
    destruct (get _ _); try done. apply harmless_change. intros v. by apply same_rights_set.
  - (* roles *) unfold create_custom_role. destruct (_ ≫= member_of); [|done]. destruct (negb _); [done|].
    destruct (Json.bind_text _); [|done]. destruct (role_by_name _ _); [done|].
    destruct (text_column _); [|done]. by destruct (scalar _).
  - unfold update_custom_role. destruct (role_by_id id d); [|done]. destruct data; [|done].
    destruct (Json.field _ _); [|done]. destruct (Json.field _ _); [|done]. destruct (Json.field _ _); [|done]. destruct (Json.field _ _); [|done].
    destruct (match o with Some j0 => _ | None => _ end); [|done]. destruct (match o0 with Some j0 => _ | None => _ end); [|done].
    by destruct (_ || _).
  - unfold delete_custom_role. destruct (role_by_id id d); [|done]. destruct (r_is_system r); [done|]. by destruct (_ <? _)%nat.
Qed.

(** The table of roles is written by its own routes alone. *)
Definition roles_kept (d : db) (x : reply + work) : Prop := match x with inl _ => True | inr w => roles (w_db w) = roles d end.
Lemma roles_kept_then d x f :
  roles_kept d x -> (forall w, roles_kept (w_db w) (f w)) -> roles_kept d (and_then x f).
Proof.
  destruct x as [r|w]; [done|]. cbn. intros Hw Hf. specialize (Hf w). destruct (f w) as [r|w']; [done|]. cbn in *. congruence.
Qed.
Lemma update_fields_roles me id data salt d : roles_kept d (update_fields me id data salt d).
Proof.
  unfold update_fields. repeat (apply roles_kept_then; [|intros w]);
    unfold update_email, update_full_name, update_role, update_custom_role_id, update_active, update_password;
    repeat case_match; done.
Qed.
Lemma serve_roles me r d trail :
  is_admin me d = false -> required r <> "admin:users" -> roles (serve me r d trail).1.1 = roles d.
Proof.
  intros Hme Hr. destruct r; try (by destruct Hr); cbn [Groups.serve]; unfold create_user, update_user, delete_user,
    bulk_delete_users, reset_user_password, toggle_user_status, import_users, create_group, update_group, delete_group,
    add_group_member, remove_group_member; rewrite ?Hme; try done.
  - pose proof (update_fields_roles me id (default JNull data) salt d) as Hu. destruct (_ && _); [done|].
    destruct (user_by_id id d); [|done]. destruct data as [data|]; [|done]. cbn [default from_option Datatypes.id] in Hu.
    by destruct (update_fields _ _ _ _ _) as [?|[w []]].
  - destruct (_ && _); [done|]. repeat case_match; done.
Qed.
Lemma session_cannot_change_roles me d :
  is_admin me d = false -> Auth.has_permission "admin:users" (session_permissions me d) = Some false.
Proof.
  unfold is_admin, session_permissions. intros Hn%bool_decide_eq_false.
  destruct (role_of me d) as [role|]; [|done]. assert (role <> "admin") as Hr by congruence. cbn [default from_option Datatypes.id].
  unfold Permissions.get_role_permissions, Permissions.ROLE_PERMISSIONS. cbn [Json.assoc].
  destruct (String.eqb_spec role "admin") as [|_]; [done|].
  repeat (destruct (String.eqb role _); [vm_compute; reflexivity|]). vm_compute. reflexivity.
Qed.

Lemma permitted_self me perms r d trail :
  is_admin me d = false -> let d' := (serve_permitted column_int py_repr limit me perms r d trail).1.1 in
  harmless [me] d d' /\ (perms = session_permissions me d -> roles d' = roles d).
Proof.
  intros Hme. unfold serve_permitted. destruct (Auth.has_permission (required r) perms) as [[|]|] eqn:Hp;
    [|by split; [apply harmless_refl|]..]. split; [by apply serve_self|]. intros ->. apply serve_roles; [done|].
  intros E. rewrite E in Hp. by rewrite session_cannot_change_roles in Hp.
Qed.

(** C4: Accounts without the admin role gain nothing through user, group and role
    management: after any sequence of requests by such accounts, with whatever permissions,
    no account exists that did not exist, nobody's name, role, custom role or active flag has
    changed, the groups and their members are the same, and the row of everybody who made no
    request is untouched; and where the requests come from sessions, whose permissions are
    those of the account's role, the table of custom roles is the same. *)
Theorem non_admins_change_only_themselves l d trail :
  Forall (fun x => is_admin x.1.1 d = false) l ->
  let d' := (serve_all_permitted column_int py_repr limit l d trail).1 in
  groups d' = groups d /\ members d' = members d /\
  Forall2 (fun u u' => same_rights u u' /\ (u_id u ∉ List.map (fun x => x.1.1) l -> u' = u)) (users d) (users d') /\
  (Forall (fun x => x.1.2 = session_permissions x.1.1 d) l -> roles d' = roles d).
Proof.
  cbv zeta. intros Hl. enough (harmless (List.map (fun x => x.1.1) l) d (serve_all_permitted column_int py_repr limit l d trail).1 /\
    (Forall (fun x => x.1.2 = session_permissions x.1.1 d) l ->
       roles (serve_all_permitted column_int py_repr limit l d trail).1 = roles d)) as [(? & ? & ?) ?] by done.
  revert d trail Hl. induction l as [|[[me perms] r] l IH]; intros d trail; [by split; [apply harmless_refl|]|].
  intros [Hme Hl]%Forall_cons. cbn [serve_all_permitted]. pose proof (permitted_self me perms r d trail Hme) as [Hs Hr].
  destruct (serve_permitted _ _ _ me perms r d trail) as [[d1 t1] rep]. cbn [fst snd] in *.
  destruct (IH d1 t1) as [IHs IHr].
  { eapply Forall_impl; [exact Hl|]. intros x Hx. by rewrite (harmless_admin _ _ _ _ Hs). }
  split.
  - eapply harmless_trans; [eapply harmless_more; [|exact Hs]; set_solver|].
    eapply harmless_more; [|exact IHs]; set_solver.
  - intros [Hp Hps]%Forall_cons. rewrite <-(Hr Hp). apply IHr. eapply Forall_impl; [exact Hps|].
    intros x ->. unfold session_permissions. by rewrite (harmless_role _ _ _ _ Hs).
Qed.

(** Without an administrator nobody ever becomes one. *)
Definition no_admin (d : db) : Prop := Forall (fun u => u_role u <> "admin") (users d).

Lemma no_admin_is_admin d me : no_admin d -> is_admin me d = false.
Proof.
  unfold no_admin, is_admin, role_of, user_by_id. intros Hn. apply bool_decide_eq_false.
  destruct (Table.first _ _) as [u|] eqn:E; [|done]. apply Table.first_Some in E as [Hin _].
  rewrite List.Forall_forall in Hn. cbn. intros [= Er]. by apply (Hn u).
Qed.

Lemma no_admin_forever l d trail : no_admin d -> no_admin (serve_all l d trail).1.
Proof.
  revert d trail. induction l as [|[me r] l IH]; intros d trail Hd; [done|]. cbn [Groups.serve_all].
  pose proof (serve_self me r d trail (no_admin_is_admin d me Hd)) as (_ & _ & U).
  destruct (serve me r d trail) as [[d1 t1] rep]. apply IH. cbn [fst] in U. clear -Hd U. unfold no_admin in *.
  induction U as [|u v l l' [(_ & _ & Er & _) _] U IH]; [constructor|]. inversion Hd; subst. constructor; [by rewrite Er|by apply IH].
Qed.

(** The only administrator cannot delete or toggle the own account, but can give the
    role up through an update, and deactivate the own account through a bulk request
    that writes the own id as a text; after giving the role up nobody is an
    administrator again, whatever requests anyone makes. *)
Theorem admin_can_lock_everybody_out me u d salt text trail :
  user_by_id me d = Some u -> u_role u = "admin" ->
  Forall (fun v => u_id v = me \/ u_role v <> "admin") (users d) -> column_int text = Some me ->
  (serve me (DeleteUser me) d trail = (d, trail, Failure 403 "Cannot delete your own account") /\
   serve me (Toggle me) d trail = (d, trail, Failure 403 "Cannot toggle your own account status")) /\
  (let x := serve me (BulkDelete (Some (JDict [("ids", JList [JStr text])]))) d trail in
   x.2 = Bulk [JStr text] [] /\ u_active <$> user_by_id me x.1.1 = Some (Some false)) /\
  (let x := serve me (UpdateUser me (Some (JDict [("role", JStr "viewer")])) salt) d trail in
   x.2 = Done ("User " ^+ u_username u ^+ " updated successfully") /\
   forall l trail', no_admin (serve_all l x.1.1 trail').1).
Proof.
  intros Hu Hr Ho Ht.
  assert (is_admin me d = true) as Ha by (unfold is_admin, role_of; rewrite Hu; cbn; rewrite Hr; done).
  split; [|split].
  - cbn [Groups.serve]. unfold delete_user, toggle_user_status. by rewrite Ha, Z.eqb_refl.
  - cbn [Groups.serve]. unfold bulk_delete_users. rewrite Ha. cbn [negb Json.truthy member_of Json.get_or Json.get Json.assoc].
    cbn -[Str.join]. rewrite Ht. cbn [mbind option_bind]. rewrite Hu. cbn [fst snd]. split; [done|].
    unfold user_by_id, change_user. cbn [users with_users].
    rewrite (Table.first_update (fun v => (u_id v =? me)%Z)) by done. unfold user_by_id in Hu. rewrite Hu. cbn.
    apply Table.first_Some in Hu as [_ Hu]. by rewrite Z.eqb_refl.
  - cbn [Groups.serve]. unfold update_user, update_fields. rewrite Ha. cbn [negb andb]. rewrite Hu.
    unfold update_email, update_full_name, update_role, update_custom_role_id, update_active, update_password.
    cbn -[Str.join is_admin user_by_id]. rewrite Ha. cbn -[Str.join is_admin]. split; [done|].
    intros l trail'. apply no_admin_forever. unfold no_admin, change_user, Table.update. cbn [users with_users].
    rewrite List.Forall_map. eapply Forall_impl; [exact Ho|]. intros v [E|E]; cbn beta.
    + by rewrite E, Z.eqb_refl.
    + by destruct (u_id v =? me)%Z.
Qed.

End Facts.
End UsersFacts.

(** Inherited permissions of custom roles: when their computation ends and what it gives,
    how a role that inherits from itself breaks the role pages, and that the effective
    permissions a user is shown are not those the routes ask for. *)
Module RolesFacts.
Import Users Groups.
Local Open Scope string_scope.
Local Open Scope list_scope.

(** * Sets of values *)

(** Equal scalars are the same once booleans are numbers. *)
Definition norm (j : json) : json := match j with JBool b => JInt (Z.b2z b) | _ => j end.
Lemma py_eq_norm x y : scalar x = true -> scalar y = true -> Json.py_eq x y = true <-> norm x = norm y.
Proof.
  destruct x as [|[]|z|s|l|kv], y as [|[]|z'|s'|l'|kv']; try done; intros _ _; cbn -[Z.eqb];
    rewrite ?Z.eqb_eq, ?String.eqb_eq; split; intros E; simplify_eq; done.
Qed.

Definition in_set (x : json) (l : list json) : Prop := exists y, In y l /\ Json.py_eq x y = true.
Definition scalars (l : list json) : Prop := Forall (fun x => scalar x = true) l.

Lemma in_set_add x y l :
  scalar x = true -> scalar y = true -> scalars l ->
  in_set x (set_add y l) <-> in_set x l \/ Json.py_eq x y = true.
Proof.
  intros Hx Hy Hl. unfold set_add. destruct (existsb (Json.py_eq y) l) eqn:E.
  - split; [by left|]. intros [Hin|Hxy]; [done|]. apply existsb_exists in E as (z & Hz & Ez). exists z. split; [done|].
    assert (scalar z = true) as Hs by (unfold scalars in Hl; rewrite List.Forall_forall in Hl; by apply Hl).
    apply py_eq_norm in Hxy, Ez; [|done..]. apply py_eq_norm; [done..|congruence].
  - unfold in_set. setoid_rewrite in_app_iff. cbn. naive_solver.
Qed.

Lemma scalars_add y l : scalar y = true -> scalars l -> scalars (set_add y l).
Proof.
  intros Hy Hl. unfold set_add. destruct (existsb _ l); [done|]. unfold scalars. apply Forall_app.
  by split; [|apply Forall_singleton].
Qed.

Lemma set_update_spec new l :
  scalars new -> scalars l ->
  scalars (set_update l new) /\ (forall x, scalar x = true -> in_set x (set_update l new) <-> in_set x l \/ in_set x new).
Proof.
  unfold set_update. revert l. induction new as [|y new IH]; intros l Hn Hl.
  - split; [done|]. intros x _. unfold in_set. naive_solver.
  - apply Forall_cons in Hn as [Hy Hn]. cbn [fold_left]. destruct (IH (set_add y l) Hn (scalars_add y l Hy Hl)) as [Hs IHx].
    split; [done|]. intros x Hx. rewrite IHx, in_set_add by done. unfold in_set. cbn. naive_solver.
Qed.

Lemma permission_set_scalars j l : permission_set j = Some l -> scalars l.
Proof.
  unfold permission_set. destruct (Json.elements _) as [es|]; [|done]. cbn. destruct (forallb scalar es) eqn:E; [|done].
  intros [= <-]. apply set_update_spec; [|constructor]. apply List.Forall_forall. by rewrite forallb_forall in E.
Qed.

Lemma set_update_In x l new : In x l -> In x (set_update l new).
Proof.
  unfold set_update. revert l. induction new as [|y new IH]; intros l Hx; [done|]. cbn [fold_left]. apply IH.
  unfold set_add. destruct (existsb _ l); [done|]. apply in_or_app. by left.
Qed.

Section Facts.
Context (column_int : string -> option Z).

#[local] Abbreviation parent := (parent column_int).
#[local] Abbreviation get_all_permissions := (get_all_permissions column_int).

(** A role, its parent, and so on up to a role without one. *)
Inductive lineage (rs : list role) : role -> list role -> Prop :=
| lineage_top r : parent r rs = None -> lineage rs r [r]
| lineage_up r p l : parent r rs = Some p -> lineage rs p l -> lineage rs r (r :: l).

Lemma lineage_fun rs r l l' : lineage rs r l -> lineage rs r l' -> l = l'.
Proof.
  intros Hl. revert l'. induction Hl as [r Hp|r p l Hp Hl IH]; intros l' Hl'; inversion Hl'; subst; try congruence.
  f_equal. apply IH. congruence.
Qed.

(** Every role further up has the rest of the lineage. *)
Lemma lineage_suffix rs r l a : lineage rs r l -> In a l -> exists pre suf, l = pre ++ suf /\ lineage rs a suf.
Proof.
  induction 1 as [r Hp|r p l Hp Hl IH]; intros Hin.
  - destruct Hin as [<-|[]]. exists [], [r]. split; [done|by constructor].
  - destruct Hin as [<-|Hin]; [exists [], (r :: l); split; [done|by econstructor]|].
    destruct (IH Hin) as (pre & suf & -> & Hs). by exists (r :: pre), suf.
Qed.

Lemma lineage_NoDup rs r l : lineage rs r l -> List.NoDup l.
Proof.
  induction 1 as [r Hp|r p l Hp Hl IH]; [by constructor; [intros []|constructor]|]. constructor; [|done]. intros Hin.
  destruct (lineage_suffix _ _ _ _ Hl Hin) as (pre & suf & -> & Hs).
  assert (r :: pre ++ suf = suf) as E by (eapply lineage_fun; [by econstructor|exact Hs]).
  apply (f_equal length) in E. cbn in E. rewrite length_app in E. lia.
Qed.

Lemma parent_In r p rs : parent r rs = Some p -> In p rs.
Proof.
  unfold Groups.parent. destruct (r_inherits_from r) as [| | |s| |]; try done; try (by intros [? _]%Table.first_Some).
  destruct (column_int s) as [z|]; [|done]. by intros [? _]%Table.first_Some.
Qed.

Lemma lineage_bound rs r l : lineage rs r l -> length l <= S (length rs).
Proof.
  intros Hl. assert (forall a, In a (List.tail l) -> In a rs) as Hincl.
  { clear -Hl. induction Hl as [r Hp|r p l Hp Hl IH]; [done|]. cbn [List.tail]. intros a Ha.
    destruct l as [|b l]; [done|]. destruct Ha as [<-|Ha]; [|by apply IH].
    apply parent_In in Hp. by inversion Hl; subst. }
  pose proof (lineage_NoDup _ _ _ Hl) as Hn. destruct l as [|b l]; [cbn; lia|]. inversion Hn; subst.
  pose proof (List.NoDup_incl_length H2 Hincl). cbn. lia.
Qed.

Lemma get_all_lineage n r rs perms : get_all_permissions n r rs = Some perms -> exists l, lineage rs r l /\ length l <= n.
Proof.
  revert r perms. induction n as [|n IH]; intros r perms; [done|]. cbn [Groups.get_all_permissions].
  destruct (permission_set _) as [own|]; [|done]. cbn. destruct (parent r rs) as [p|] eqn:Ep.
  - destruct (get_all_permissions n p rs) as [inh|] eqn:E; [|done]. intros _.
    destruct (IH _ _ E) as (l & Hl & Hn). exists (r :: l). split; [by econstructor|cbn; lia].
  - intros _. exists [r]. split; [by constructor|cbn; lia].
Qed.

Definition own_set (a : role) (x : json) : Prop := exists s, permission_set (r_permissions a) = Some s /\ in_set x s.

Lemma get_all_sound rs r l n :
  lineage rs r l -> length l <= n -> Forall (fun a => is_Some (permission_set (r_permissions a))) l ->
  exists perms, get_all_permissions n r rs = Some perms /\ scalars perms /\
    forall x, scalar x = true -> in_set x perms <-> exists a, In a l /\ own_set a x.
Proof.
  intros Hl. revert n. induction Hl as [r Hp|r p l Hp Hl IH]; intros n Hn Hs; (destruct n as [|n]; [cbn in Hn; lia|]);
    apply Forall_cons in Hs as [[own Eo] Hs]; cbn [Groups.get_all_permissions]; rewrite Eo; cbn [mbind option_bind]; rewrite Hp.
  - exists own. split; [done|]. split; [by eapply permission_set_scalars|]. intros x _. unfold own_set. cbn. naive_solver.
  - destruct (IH n) as (inh & -> & Hsc & Hx); [cbn in Hn; lia|done|]. cbn [mbind option_bind].
    eexists. split; [reflexivity|]. destruct (set_update_spec inh own) as [H1 H2]; [done|by eapply permission_set_scalars|].
    split; [done|]. intros x Hxs. rewrite H2, Hx by done. unfold own_set. cbn. split.
    + intros [Hin|(a & Ha & Hin)]; [exists r; split; [by left|by exists own]|exists a; auto].
    + intros (a & [<-|Ha] & s & Es & Hin); [left; congruence|right; exists a; split; [done|by exists s]].
Qed.

(** Inherited permissions.  The recursion over the parents of a role returns only
    when the chain of parents ends, and then within one call per role of the table: it
    gives exactly the permissions of the role and of its ancestors, provided each has a
    list of plain values.  On a cycle it never returns, whatever depth the interpreter
    allows. *)
Theorem inherited_permissions rs r :
  (forall l, lineage rs r l -> Forall (fun a => is_Some (permission_set (r_permissions a))) l ->
     length l <= S (length rs) /\
     forall n, S (length rs) <= n -> exists perms, get_all_permissions n r rs = Some perms /\
       forall x, scalar x = true -> in_set x perms <-> exists a, In a l /\ own_set a x) /\
  ((~ exists l, lineage rs r l) -> forall n, get_all_permissions n r rs = None).
Proof.
  split.
  - intros l Hl Hs. pose proof (lineage_bound _ _ _ Hl) as Hb. split; [done|]. intros n Hn.
    destruct (get_all_sound rs r l n) as (perms & E & _ & Hx); [done|lia|done|]. by exists perms.
  - intros Hno n. destruct (get_all_permissions n r rs) as [perms|] eqn:E; [|done].
    apply get_all_lineage in E as (l & Hl & _). destruct Hno. by exists l.
Qed.

(** * A role that inherits from itself *)

Lemma self_parent_diverges rs r n : parent r rs = Some r -> get_all_permissions n r rs = None.
Proof.
  intros Hp. apply inherited_permissions. intros [l Hl].
  assert (forall a l, lineage rs a l -> a = r -> False) as Hd; [|by eapply Hd].
  clear -Hp. induction 1 as [a Ha|a p l Ha Hl IH]; intros ->; [congruence|]. apply IH. congruence.
Qed.

Lemma mapM_None {A B} (f : A -> option B) l x : In x l -> f x = None -> mapM f l = None.
Proof.
  induction l as [|y l IH]; [done|]. intros [->|Hx] Hf; cbn; [by rewrite Hf|]. destruct (f y); [|done].
  cbn. by rewrite (IH Hx Hf).
Qed.

(** A role can be made to inherit from itself: the request answers with an error, but
    the change is stored.  From then on the list of roles answers with an error, and so
    do the effective permissions of everyone who has the role. *)
Theorem self_inheritance_breaks_roles limit id r d :
  role_by_id id d = Some r -> NoDup (List.map r_name (roles d)) -> NoDup (List.map r_id (roles d)) ->
  scalar (r_inherits_from r) = true -> id <> 0%Z ->
  let x := update_custom_role column_int limit id (Some (JDict [("inherits_from", JInt id)])) d in
  x.2 = ServerError /\
  (r_inherits_from <$> role_by_id id x.1) = Some (JInt id) /\
  forall limit', list_custom_roles column_int limit' x.1 = ServerError /\
    forall u, In u (users d) -> NoDup (List.map u_id (users d)) -> u_custom_role_id u = Some id ->
      get_effective_permissions column_int limit' (u_id u) x.1 = ServerError.
Proof.
  intros Hr Hn Hi Hsc Hid. unfold update_custom_role. rewrite Hr.
  cbn -[existsb role_reply with_roles]. pose proof Hr as Hr'. apply Table.first_Some in Hr' as [Hin Heq%Z.eqb_eq].
  assert (existsb (fun p => String.eqb (r_name p) (r_name r) && negb (r_id p =? id)%Z) (roles d) = false) as ->.
  { apply not_true_iff_false. intros (p & Hp & [Ep%String.eqb_eq Hne%negb_true_iff%Z.eqb_neq]%andb_true_iff)%existsb_exists.
    apply Hne. rewrite <-Heq. f_equal. by apply (Table.NoDup_map_eq r_name (roles d)). }
  set (r' := Role (r_id r) _ _ _ _ _). set (rs := Table.update _ _ (roles d)).
  assert (role_by_id id (with_roles rs d) = Some r') as Hfound.
  { unfold role_by_id, rs. cbn [roles with_roles]. unfold Table.update.
    assert (exists pre post, roles d = pre ++ r :: post /\ Forall (fun p => r_id p <> id) pre) as (pre & post & E & Hpre).
    { clear -Hr. unfold role_by_id, Table.first in Hr. induction (roles d) as [|p l IH]; [done|]. cbn in Hr.
      destruct (Z.eqb_spec (r_id p) id); [injection Hr as ->; by exists [], l|].
      destruct (IH Hr) as (pre & post & -> & Hp). exists (p :: pre), post. split; [done|by constructor]. }
    rewrite E, List.map_app. unfold Table.first. clear -Hpre Heq.
    induction Hpre as [|p pre Hp _ IH]; cbn.
    - rewrite Heq, Z.eqb_refl. cbn. by rewrite Heq, Z.eqb_refl.
    - apply Z.eqb_neq in Hp. rewrite Hp. by rewrite Hp. }
  assert (parent r' rs = Some r') as Hp by (unfold Groups.parent; cbn [r_inherits_from r']; exact Hfound).
  assert (forall n, get_all_permissions n r' rs = None) as Hnone by (intros n; by apply self_parent_diverges).
  cbn [fst snd]. split; [unfold role_reply; cbn [roles with_roles]; by rewrite Hnone|]. split; [by rewrite Hfound|].
  intros limit'. split.
  - unfold list_custom_roles. cbn [roles with_roles]. rewrite (mapM_None _ _ r'); [done| |by apply Hnone].
    by apply Table.first_Some in Hfound as [? _].
  - intros u Hu Hnd Ec. unfold get_effective_permissions.
    assert (user_by_id (u_id u) (with_roles rs d) = Some u) as ->.
    { unfold user_by_id. cbn [users with_roles]. destruct (Table.first _ (users d)) as [v|] eqn:E.
      - apply Table.first_Some in E as [Hv Ev%Z.eqb_eq]. f_equal. by apply (Table.NoDup_map_eq u_id (users d)).
      - apply (Table.first_None _ _ _ E) in Hu. by rewrite Z.eqb_refl in Hu. }
    rewrite Ec. apply Z.eqb_neq in Hid as ->. rewrite Hfound. cbn [roles with_roles]. by rewrite Hnone.
Qed.

(** * Shown and enforced permissions *)

Lemma add_groups_In x gs perms : In x perms -> In x (add_groups gs perms).
Proof.
  revert perms. induction gs as [|g gs IH]; intros perms Hx; [done|]. cbn. destruct (permission_set _); [|done].
  by apply IH, set_update_In.
Qed.

(** The effective permissions shown for a user are not those the routes ask for:
    everyone is shown [read:certs], which only an administrator passes; a user without
    a custom role and groups is not shown [read:certificates], which every role passes;
    and what custom roles and groups add is shown but never asked for, since the check
    of a request looks at the system role alone. *)
Theorem shown_permissions_are_not_enforced limit id u d perms :
  user_by_id id d = Some u -> In (u_role u) ["operator"; "auditor"; "viewer"] ->
  get_effective_permissions column_int limit id d = Listed [perms] ->
  (In (JStr "read:certs") perms /\ Permissions.has_permission (u_role u) "read:certs" = false) /\
  Permissions.has_permission (u_role u) "read:certificates" = true /\
  (u_custom_role_id u = None -> user_groups u d = [] -> ~ In (JStr "read:certificates") perms).
Proof.
  intros Hu Hr. unfold get_effective_permissions. rewrite Hu.
  assert (In (JStr "read:certs") (List.map JStr (base_permissions (u_role u)))) as Hbase
    by (destruct Hr as [<-|[<-|[<-|[]]]]; cbn; tauto).
  intros E. split; [split|split].
  - destruct (match u_custom_role_id u with Some c => _ | None => None end) as [r|].
    + destruct (get_all_permissions limit r (roles d)) as [new|]; [|done]. cbn in E. injection E as <-.
      by apply add_groups_In, set_update_In.
    + injection E as <-. by apply add_groups_In.
  - destruct Hr as [<-|[<-|[<-|[]]]]; reflexivity.
  - destruct Hr as [<-|[<-|[<-|[]]]]; reflexivity.
  - intros Hc Hg. rewrite Hc, Hg in E. cbn [add_groups] in E. injection E as <-.
    destruct Hr as [<-|[<-|[<-|[]]]]; cbn; intuition discriminate.
Qed.

End Facts.
End RolesFacts.

(** User, group and role management on a small installation: an administrator, an operator
    and a viewer, a group, and two roles of which one inherits from the other. *)
Module UsersRun.
Import Users Groups.
Local Open Scope string_scope.
Local Open Scope list_scope.
#[local] Existing Instance list_sink.
#[local] Existing Instance LoginFacts.Run.toy_secrets.

Definition admin : user := User 1 "admin" "admin@x" (Some "Root") "admin" None (Some true) "h".
Definition oper : user := User 2 "oper" "oper@x" None "operator" (Some 2%Z) (Some true) "h".
Definition view : user := User 3 "view" "view@x" None "viewer" None (Some true) "h".
Definition team : group := Group 1 "team" "" (Json.strings ["read:certs"; "write:cas"]).
Definition base : role := Role 1 "base" None (Json.strings ["read:hsm"]) JNull false.
Definition derived : role := Role 2 "derived" None (Json.strings ["write:hsm"]) (JInt 1) false.
Definition site : db := Db [admin; oper; view] [team] [Member 1 1 3 "member"] [base; derived].

(** SQLite reads a text of digits in an integer column as its number. *)
Definition column_int : string -> option Z := Num.py_int.
Definition repr (j : json) : string := Json.dumps j.
#[local] Abbreviation serve := (serve column_int repr 1000).
#[local] Abbreviation serve_all := (serve_all column_int repr 1000).

Example requests_at_work :
  (serve 1 (CreateUser (Some (JDict [("username", JStr "neo"); ("email", JStr "neo@x");
      ("password", JStr "Tr1nity!Zion"); ("role", JStr "auditor")])) 0) site []).2 = Created 4 /\
  (serve 2 (UpdateUser 3 (Some (JDict [("role", JStr "admin")])) 0) site []).2 = Failure 403 "Access denied" /\
  (serve 1 (UpdateUser 1 (Some (JDict [("role", JStr "viewer"); ("active", JBool true)])) 0) site []).2
    = Failure 403 "Only admins can change active status" /\
  (serve 1 (ImportUsers (Some (Upload "u.csv" (Some [[("username", Some "a"); ("email", Some "a@x");
      ("password", Some "Tr1nity!Zion"); ("role", Some "auditor")]; [("username", Some "b")]]))) 0) site []).2
    = Imported 1 1 ["Row 2: Missing required fields"] /\
  (serve 1 (AddMember 1 (Some (JDict [("user_id", JStr "2")]))) site []).2 = Created 2 /\
  (serve 1 (DeleteRole 2) site []).2 = Failure 409 "Role is assigned to 1 user(s). Remove assignments first." /\
  list_custom_roles column_int 1000 site
    = Listed [[JStr "read:hsm"]; [JStr "write:hsm"; JStr "read:hsm"]] /\
  list_custom_roles column_int 1 site = ServerError.
Proof. vm_compute. repeat split. Qed.

(** Two accounts without the admin role try what they can. *)
Definition attempts : list (Z * request) :=
  [(2%Z, UpdateUser 2 (Some (JDict [("email", JStr "new@x"); ("password", JStr "Tr1nity!Zion")])) 0);
   (3%Z, UpdateUser 3 (Some (JDict [("role", JStr "admin")])) 0);
   (2%Z, ResetPassword 1 (Some (JDict [("new_password", JStr "Tr1nity!Zion")])) 0);
   (2%Z, DeleteUser 1)].

(** The operator changes an address with an API key, and tries to make a role in a session. *)
Definition sessions : list (Z * json * request) :=
  (2%Z, session_permissions 2 site, CreateRole (Some (JDict [("name", JStr "all"); ("permissions", JList [JStr "*"])])))
  :: List.map (fun x => (x.1, session_permissions x.1 site, x.2)) attempts.
Definition with_keys : list (Z * json * request) := List.map (fun x => (x.1, JList [JStr "*"], x.2)) attempts.
Lemma non_admins_witness :
  List.map u_email (users (serve_all_permitted column_int repr 1000 with_keys site []).1) = ["admin@x"; "new@x"; "view@x"] /\
  let d' := (serve_all_permitted column_int repr 1000 sessions site []).1 in
  groups d' = groups site /\ members d' = members site /\ roles d' = roles site /\
  Forall2 (fun u u' => UsersFacts.same_rights u u' /\ (u_id u ∉ List.map (fun x => x.1.1) sessions -> u' = u)) (users site) (users d').
Proof.
  split; [vm_compute; reflexivity|]. cbv zeta.
  destruct (UsersFacts.non_admins_change_only_themselves column_int repr 1000 sessions site []) as (Hg & Hm & Hu & Hr).
  - repeat constructor.
  - split_and!; [exact Hg|exact Hm| |exact Hu]. apply Hr. repeat constructor.
Defined.

Lemma lock_out_witness :
  (let x := serve 1 (UpdateUser 1 (Some (JDict [("role", JStr "viewer")])) 0) site [] in
   x.2 = Done "User admin updated successfully" /\
   forall l trail', UsersFacts.no_admin (serve_all l x.1.1 trail').1) /\
  (serve 1 (BulkDelete (Some (JDict [("ids", JList [JStr "1"])]))) site []).2 = Bulk [JStr "1"] [].
Proof.
  destruct (UsersFacts.admin_can_lock_everybody_out column_int repr 1000 1 admin site 0 "1" [])
    as (_ & [Hb _] & Hl); [reflexivity|reflexivity| |reflexivity|].
  { constructor; [by left|]. repeat (constructor; [right; discriminate|]). constructor. }
  split; [exact Hl|exact Hb].
Defined.

Lemma decided {P} `{Decision P} : bool_decide P = true -> P.
Proof. apply bool_decide_eq_true. Qed.

Lemma site_ok : UsersTables.tables_ok site.
Proof.
  split; [split|split|split| | |]; try (apply decided; vm_compute; reflexivity).
  - constructor; [|constructor]. right. exists ["read:certs"; "write:cas"]. split; [done|]. split; [cbn; lia|].
    do 2 (constructor; [cbn; tauto|]). constructor.
  - constructor; [|constructor]. split; [exists team|exists view]; cbn; tauto.
Qed.

Lemma tables_witness :
  UsersTables.tables_ok (serve_all ((1%Z, AddMember 1 (Some (JDict [("user_id", JInt 2)]))) :: attempts) site []).1.
Proof. apply (UsersTables.tables_stay_consistent column_int repr 1000). exact site_ok. Defined.

Lemma inheritance_witness :
  RolesFacts.lineage column_int (roles site) derived [derived; base] /\
  exists perms, get_all_permissions column_int 3 derived (roles site) = Some perms /\
    (RolesFacts.in_set (JStr "read:hsm") perms <->
     exists a, In a [derived; base] /\ RolesFacts.own_set a (JStr "read:hsm")).
Proof.
  assert (RolesFacts.lineage column_int (roles site) derived [derived; base]) as Hl
    by (eapply RolesFacts.lineage_up; [reflexivity|by apply RolesFacts.lineage_top]).
  split; [exact Hl|].
  destruct (RolesFacts.inherited_permissions column_int (roles site) derived) as [H _].
  destruct (H _ Hl) as [_ Hp]; [repeat constructor; eexists; reflexivity|].
  destruct (Hp 3 ltac:(cbn; lia)) as (perms & E & Hx). exists perms. split; [exact E|]. by apply Hx.
Defined.

Lemma self_inheritance_witness :
  let x := update_custom_role column_int 1000 2 (Some (JDict [("inherits_from", JInt 2)])) site in
  x.2 = ServerError /\ list_custom_roles column_int 1000 x.1 = ServerError /\
  get_effective_permissions column_int 1000 2 x.1 = ServerError.
Proof.
  pose proof site_ok as [U _ R _ _ _].
  destruct (RolesFacts.self_inheritance_breaks_roles column_int 1000 2 derived site eq_refl
    (UsersTables.ok_role_names _ R) (UsersTables.ok_role_ids _ R) eq_refl ltac:(lia)) as (H1 & _ & H2).
  split; [exact H1|]. split; [apply (H2 1000)|].
  apply (proj2 (H2 1000) oper); [cbn; tauto|apply (UsersTables.ok_user_ids _ U)|reflexivity].
Defined.

Lemma shown_permissions_witness :
  exists perms, get_effective_permissions column_int 1000 3 site = Listed [perms] /\
    In (JStr "read:certs") perms /\ Permissions.has_permission "viewer" "read:certs" = false.
Proof.
  eexists. split; [vm_compute; reflexivity|].
  apply (RolesFacts.shown_permissions_are_not_enforced column_int 1000 3 view site); [reflexivity|cbn; tauto|vm_compute; reflexivity].
Defined.

End UsersRun.
