(* ===== verification/ApiKeys.v ===== *)
(** The API keys of an account: the key routes of [api/v2/account.py], on the tables of
    the authentication manager.

    Every route runs for the user id [uid] the request was authenticated for, with any
    permissions ([@require_auth()]); [token] is the random part of a new key. *)
From S2P Require Import Prelude Hashes Permissions Auth AuditSink Users.

Module ApiKeys.
Import Auth.
Local Open Scope string_scope.
Local Open Scope list_scope.

Inductive reply :=
| Failure (code : Z) (message : string)
| ServerError
| KeyCreated (key : string) (row : api_key)
| Done (message : string).

Definition valid_categories : list string := ["read"; "write"; "delete"; "admin"].
Definition valid_resources : list string :=
  ["cas"; "certificates"; "acme"; "scep"; "crl"; "settings"; "users"; "system"].

(** The text before the first colon, and after it. *)
Fixpoint cut_colon (s : string) : string * string :=
  match s with
  | String c s' => if Ascii.eqb c ":" then (EmptyString, s') else let '(a, b) := cut_colon s' in (String c a, b)
  | EmptyString => (EmptyString, EmptyString)
  end.

(** Days from now that [timedelta] and [datetime] can hold. *)
Definition days_ok (days now : Z) : bool :=
  ((-999999999 <=? days) && (days <=? 999999999)
   && (-62135596800 * Time.second <=? now + Time.days days)
   && (now + Time.days days <? 253402300800 * Time.second))%Z.

Section Routes.
Context `{Hashes} {T} `{AuditSink T} (py_repr : json -> string) (max_keys : nat).

(** A value in a text: its [str]. *)
Definition py_str (j : json) : string := match j with JStr s => s | _ => py_repr j end.

(** One permission of a new key: the outer [None] is an exception, the inner one fine. *)
Definition check_format (perm : json) : option (option string) :=
  match perm with
  | JStr p =>
      if String.eqb p "*" then Some None
      else if Str.has_char ":" p then
        let '(category, resource) := cut_colon p in
        if negb (Permissions.mem category valid_categories) && negb (String.eqb category "*")
        then Some (Some ("Invalid permission category: " ^+ category))
        else if negb (Permissions.mem resource valid_resources) && negb (String.eqb resource "*")
        then Some (Some ("Invalid permission resource: " ^+ resource))
        else Some None
      else Some (Some ("Invalid permission format: " ^+ p))
  | _ => match Json.contains ":" perm with
         | Some false => Some (Some ("Invalid permission format: " ^+ py_repr perm))
         | _ => None
         end
  end.
Fixpoint check_formats (l : list json) : option (option string) :=
  match l with
  | [] => Some None
  | p :: l' => match check_format p with Some None => check_formats l' | r => r end
  end.

Definition is_own (uid kid : Z) (k : api_key) : bool := (k_id k =? kid)%Z && (k_user_id k =? uid)%Z.
Definition own_key (uid kid : Z) (st : state) : option api_key := Table.first (is_own uid kid) (api_keys st).
Definition active_of (uid : Z) (k : api_key) : bool := (k_user_id k =? uid)%Z && k_is_active k.

(** [AuthManager.create_api_key] in the database: the hash column is unique. *)
Definition issue (uid : Z) (name : string) (permissions : json) (days : Z) (token : string) (now now' : Z) (st : state)
  : option (state * (string * api_key)) :=
  if negb (days_ok days now)
     || existsb (fun k => String.eqb (k_key_hash k) (sha256_hex ("ucm_ak_" ^+ token))) (api_keys st)
  then None
  else Some (Auth.create_api_key uid name permissions days token (Table.next_id k_id (api_keys st)) now now' st).

Definition key_event (action : string) (id : pyarg) (name details : string) : event :=
  Event action (Some "api_key") id (AStr name) (AStr details) true None.

Definition create_api_key (uid : Z) (request : option json) (token : string) (now now' : Z) (st : state) (trail : T)
  : state * T * reply :=
  let fail r := (st, trail, r) in
  match request with
  | None => fail ServerError
  | Some data =>
      if negb (Json.truthy data) then fail (Failure 400 "Name is required")
      else if negb (Json.is_dict data) then fail ServerError
      else
        let name := Json.get_or "name" JNull data in
        let permissions := Json.get_or "permissions" JNull data in
        if negb (Json.truthy name) then fail (Failure 400 "Name is required")
        else if negb (Json.truthy permissions) then fail (Failure 400 "Permissions are required")
        else match permissions with
        | JList l =>
            match check_formats l with
            | None => fail ServerError
            | Some (Some message) => fail (Failure 400 message)
            | Some None =>
                if (max_keys <=? Table.count (active_of uid) (api_keys st))%nat
                then fail (Failure 400 ("Maximum " ^+ Num.str (Z.of_nat max_keys) ^+ " active API keys per user"))
                else match (match Json.get_or "expires_days" (JInt 365) data with
                            | JInt z => Some z | JBool b => Some (Z.b2z b) | _ => None end),
                           Json.bind_text name with
                | Some days, Some text =>
                    match issue uid text permissions days token now now' st with
                    | Some (st', (key, row)) =>
                        (st', record_event (key_event "apikey_create" ANone (py_str name)
                                ("Created API key: " ^+ py_str name)) trail,
                         KeyCreated key row)
                    | None => fail ServerError
                    end
                | _, _ => fail ServerError
                end
            end
        | _ => fail (Failure 400 "Permissions must be a list")
        end
  end.

Definition change_key (uid kid : Z) (f : api_key -> api_key) (st : state) : state :=
  with_api_keys (Table.update (is_own uid kid) f (api_keys st)) st.
Definition rename (name : string) (k : api_key) : api_key :=
  APIKey (k_id k) (k_user_id k) (k_key_hash k) name (k_permissions k) (k_created_at k) (k_expires_at k)
    (k_last_used_at k) (k_is_active k).
Definition revoke (k : api_key) : api_key :=
  APIKey (k_id k) (k_user_id k) (k_key_hash k) (k_name k) (k_permissions k) (k_created_at k) (k_expires_at k)
    (k_last_used_at k) false.

Definition update_api_key (uid kid : Z) (request : option json) (st : state) (trail : T) : state * T * reply :=
  match own_key uid kid st, request with
  | None, _ => (st, trail, Failure 404 "API key not found")
  | Some _, None => (st, trail, ServerError)
  | Some k, Some data =>
      match Json.field "name" data with
      | None => (st, trail, ServerError)
      | Some None => (st, trail, Done "API key updated")
      | Some (Some j) =>
          match Json.bind_text j with
          | Some name => (change_key uid kid (rename name) st, trail, Done "API key updated")
          | None => (st, trail, ServerError)
          end
      end
  end.

Definition delete_api_key (uid kid : Z) (st : state) (trail : T) : state * T * reply :=
  match own_key uid kid st with
  | None => (st, trail, Failure 404 "API key not found")
  | Some k =>
      (change_key uid kid revoke st,
       record_event (key_event "apikey_delete" (AStr (Num.str kid)) (k_name k) ("Revoked API key: " ^+ k_name k)) trail,
       Done "API key revoked")
  end.

(** A new key with the permissions of an old one, which is revoked. *)
Definition regenerate_api_key (uid kid : Z) (token : string) (now now' : Z) (st : state) (trail : T)
  : state * T * reply :=
  match own_key uid kid st with
  | None => (st, trail, Failure 404 "API key not found")
  | Some k =>
      match k_permissions k with
      | JText permissions =>
          match issue uid (k_name k ^+ " (regenerated)") permissions 365 token now now' st with
          | Some (st', (key, row)) =>
              (change_key uid kid revoke st',
               record_event (key_event "apikey_regenerate" (AStr (Num.str kid)) (k_name k)
                 ("Regenerated API key: " ^+ k_name k)) trail,
               KeyCreated key row)
          | None => (st, trail, ServerError)
          end
      | _ => (st, trail, ServerError)
      end
  end.

Inductive request :=
| Create (data : option json) (token : string) | Rename (kid : Z) (data : option json)
| Revoke (kid : Z) | Regenerate (kid : Z) (token : string).
Definition serve (uid : Z) (r : request) (now now' : Z) (st : state) (trail : T) : state * T * reply :=
  match r with
  | Create data token => create_api_key uid data token now now' st trail
  | Rename kid data => update_api_key uid kid data st trail
  | Revoke kid => delete_api_key uid kid st trail
  | Regenerate kid token => regenerate_api_key uid kid token now now' st trail
  end.

(** Requests of several users at several times. *)
Fixpoint serve_all (l : list (Z * request * Z * Z)) (st : state) (trail : T) : state * T :=
  match l with
  | [] => (st, trail)
  | (uid, r, now, now') :: l' => let '(st, trail, _) := serve uid r now now' st trail in serve_all l' st trail
  end.

(** * Facts *)

(** A later version of a key: the same credential with the same permissions and expiry,
    and never active again once revoked; rows of others are untouched. *)
Definition evolves (who : list Z) (k k' : api_key) : Prop :=
  k_id k' = k_id k /\ k_user_id k' = k_user_id k /\ k_key_hash k' = k_key_hash k /\
  k_permissions k' = k_permissions k /\ k_expires_at k' = k_expires_at k /\
  (k_is_active k = false -> k_is_active k' = false) /\ (k_user_id k ∉ who -> k' = k).
Definition grown (who : list Z) (st st' : state) : Prop :=
  users st' = users st /\ sess st' = sess st /\ cfg st' = cfg st /\
  exists old new, api_keys st' = old ++ new /\ Forall2 (evolves who) (api_keys st) old /\
    Forall (fun k => k_user_id k ∈ who) new.

Lemma evolves_refl who k : evolves who k k.
Proof. by repeat split. Qed.
Lemma evolves_trans who k1 k2 k3 : evolves who k1 k2 -> evolves who k2 k3 -> evolves who k1 k3.
Proof.
  intros (A1&A2&A3&A4&A5&A6&A7) (B1&B2&B3&B4&B5&B6&B7). repeat split; try congruence; [by auto|].
  intros Hn. rewrite B7; [by apply A7|]. by rewrite A2.
Qed.

Lemma grown_refl who st : grown who st st.
Proof.
  repeat split. exists (api_keys st), []. rewrite app_nil_r. split; [done|]. split; [|constructor].
  induction (api_keys st); constructor; [apply evolves_refl|done].
Qed.

Lemma grown_trans who st1 st2 st3 : grown who st1 st2 -> grown who st2 st3 -> grown who st1 st3.
Proof.
  intros (A1&A2&A3&old&new&E&F&G) (B1&B2&B3&old'&new'&E'&F'&G'). split; [congruence|]. split; [congruence|]. split; [congruence|].
  rewrite E in F'. apply Forall2_app_inv_l in F' as (o1 & o2 & Fo & Fn & ->).
  exists o1, (o2 ++ new'). rewrite E', app_assoc. split; [done|]. split.
  - clear -F Fo. revert o1 Fo. induction F as [|k k' l l' Hk F IH]; intros o1 Fo; inversion Fo; subst; constructor;
      [by eapply evolves_trans|by apply IH].
  - apply Forall_app. split; [|done]. clear -Fn G. induction Fn as [|k k' l l' Hk Fn IH]; [constructor|].
    apply Forall_cons in G as [Gk G]. constructor; [|by apply IH]. by destruct Hk as (_ & -> & _).
Qed.

Lemma grown_more who who' st st' : (forall x, x ∈ who -> x ∈ who') -> grown who st st' -> grown who' st st'.
Proof.
  intros Hw (A1&A2&A3&old&new&E&F&G). repeat split; try done. exists old, new. split; [done|]. split.
  - eapply Forall2_impl; [exact F|]. intros k k' (B1&B2&B3&B4&B5&B6&B7). repeat split; try done. auto.
  - eapply Forall_impl; [exact G|]. auto.
Qed.

Lemma grown_change uid kid f st :
  (forall k, k_id (f k) = k_id k /\ k_user_id (f k) = k_user_id k /\ k_key_hash (f k) = k_key_hash k /\
     k_permissions (f k) = k_permissions k /\ k_expires_at (f k) = k_expires_at k /\
     (k_is_active k = false -> k_is_active (f k) = false)) ->
  grown [uid] st (change_key uid kid f st).
Proof.
  intros Hf. repeat split. exists (Table.update (is_own uid kid) f (api_keys st)), []. rewrite app_nil_r.
  split; [done|]. split; [|constructor]. unfold Table.update.
  induction (api_keys st) as [|k l IH]; constructor; [|done]. destruct (is_own uid kid k) eqn:E; [|apply evolves_refl].
  destruct (Hf k) as (?&?&?&?&?&?). repeat split; try done. intros Hn.
  apply andb_true_iff in E as [_ E%Z.eqb_eq]. rewrite E in Hn. set_solver.
Qed.

Lemma grown_issue uid name permissions days token now now' st st' x :
  issue uid name permissions days token now now' st = Some (st', x) -> grown [uid] st st'.
Proof.
  unfold issue. destruct (_ || _); [done|]. intros [= <- <-]. repeat split. cbn [api_keys with_api_keys].
  eexists _, [_]. split; [reflexivity|]. split; [|apply Forall_singleton; cbn; set_solver].
  induction (api_keys st); constructor; [apply evolves_refl|done].
Qed.

Lemma serve_grown uid r now now' st trail : grown [uid] st (serve uid r now now' st trail).1.1.
Proof.
  pose proof (grown_refl [uid] st) as Hid. destruct r; cbn [serve].
  - unfold create_api_key. destruct data as [data|]; [|done]. do 4 (destruct (negb _); [done|]).
    destruct (Json.get_or "permissions" JNull data); try done. destruct (check_formats l) as [[m|]|]; [done| |done].
    destruct (_ <=? _)%nat; [done|]. destruct (match Json.get_or _ _ _ with JInt z => _ | _ => _ end); [|done].
    destruct (Json.bind_text _); [|done]. destruct (issue _ _ _ _ _ _ _ _) as [[st' [key row]]|] eqn:E; [|done].
    by eapply grown_issue.
  - unfold update_api_key. destruct (own_key uid kid st); [|done]. destruct data as [data|]; [|done].
    destruct (Json.field _ _) as [[j|]|]; [|done|done]. destruct (Json.bind_text j); [|done]. by apply grown_change.
  - unfold delete_api_key. destruct (own_key uid kid st); [|done]. by apply grown_change.
  - unfold regenerate_api_key. destruct (own_key uid kid st) as [k|]; [|done]. destruct (k_permissions k) as [| |perms]; try done.
    destruct (issue _ _ _ _ _ _ _ _) as [[st' [key row]]|] eqn:E; [|done]. eapply grown_trans; [by eapply grown_issue|].
    by apply grown_change.
Qed.

(** The key routes only touch the keys of the user who calls them: after any sequence
    of requests every earlier key has the same secret, permissions and expiry, no
    revoked key is active again, the keys of everyone who made no request are untouched,
    and a new key belongs to someone who made one. *)
Theorem keys_stay_with_their_owner l st trail : grown (List.map (fun x => x.1.1.1) l) st (serve_all l st trail).1.
Proof.
  revert st trail. induction l as [|[[[uid r] now] now'] l IH]; intros st trail; [apply grown_refl|].
  cbn [serve_all]. pose proof (serve_grown uid r now now' st trail) as Hs.
  destruct (serve uid r now now' st trail) as [[st1 t1] rep].
  eapply grown_trans; [eapply grown_more; [|exact Hs]; set_solver|eapply grown_more; [|apply IH]; set_solver].
Qed.

(** The limit on active keys.  Creating a key never takes a user beyond [max_keys]
    active keys.  Regenerating a key does not look at the limit nor at whether the key
    is revoked: a revoked key gives a new active one with the same permissions, for
    another year. *)
Theorem active_key_limit uid data token now now' st trail :
  Table.count (active_of uid) (api_keys (create_api_key uid data token now now' st trail).1.1)
    <= Nat.max max_keys (Table.count (active_of uid) (api_keys st)) /\
  (forall kid k permissions, own_key uid kid st = Some k -> k_is_active k = false ->
     k_permissions k = JText permissions -> days_ok 365 now = true ->
     NoDup (List.map k_id (api_keys st)) ->
     Forall (fun k => k_key_hash k <> sha256_hex ("ucm_ak_" ^+ token)) (api_keys st) ->
     exists st' trail' row, regenerate_api_key uid kid token now now' st trail = (st', trail', KeyCreated ("ucm_ak_" ^+ token) row) /\
       In row (api_keys st') /\ k_user_id row = uid /\ k_is_active row = true /\ k_permissions row = JText permissions /\
       k_expires_at row = Some (now + Time.days 365)%Z /\
       Table.count (active_of uid) (api_keys st') = S (Table.count (active_of uid) (api_keys st))).
Proof.
  split.
  - unfold create_api_key. destruct data as [data|]; [|cbn; lia]. do 4 (destruct (negb _); [cbn; lia|]).
    destruct (Json.get_or "permissions" JNull data); try (cbn; lia). destruct (check_formats l) as [[m|]|]; try (cbn; lia).
    destruct (Nat.leb_spec max_keys (Table.count (active_of uid) (api_keys st))); [cbn; lia|].
    destruct (match Json.get_or _ _ _ with JInt z => _ | _ => _ end); [|cbn; lia].
    destruct (Json.bind_text _); [|cbn; lia]. destruct (issue _ _ _ _ _ _ _ _) as [[st' [key row]]|] eqn:E; [|cbn; lia].
    revert E. unfold issue. destruct (_ || _); [done|]. intros [= <- <- <-]. cbn [fst api_keys with_api_keys].
    rewrite Table.count_app. unfold Table.count at 2, Table.all. cbn [List.filter]. destruct (active_of _ _); cbn [length]; lia.
  - intros kid k permissions Hk Ha Hp Hd Hn Hh. unfold regenerate_api_key. rewrite Hk, Hp. unfold issue. rewrite Hd.
    destruct (existsb _ _) eqn:Ex.
    { apply existsb_exists in Ex as (k' & Hin & E%String.eqb_eq). rewrite List.Forall_forall in Hh. by destruct (Hh k' Hin). }
    cbn [negb orb Auth.create_api_key]. set (row := APIKey _ _ _ _ _ _ _ _ _).
    assert (own_key uid kid st = Some k) as Hk' by done. apply Table.first_Some in Hk' as [Hin [Hid%Z.eqb_eq Hu%Z.eqb_eq]%andb_true_iff].
    assert (k_id row <> kid) as Hr by (apply (Table.next_id_fresh k_id) in Hin; cbn; lia).
    eexists _, _, row. split; [reflexivity|]. cbn [api_keys change_key with_api_keys].
    split; [|repeat split].
    + apply Table.In_update. exists row. split; [apply in_or_app; right; by left|].
      unfold is_own. apply Z.eqb_neq in Hr as ->. done.
    + rewrite Table.count_update_same.
      * rewrite Table.count_app. unfold Table.count at 2, Table.all. cbn [List.filter]. unfold active_of at 2.
        cbn [k_user_id k_is_active row]. rewrite Z.eqb_refl. cbn. lia.
      * intros x Hx [Ex1%Z.eqb_eq Ex2%Z.eqb_eq]%andb_true_iff. apply in_app_or in Hx as [Hx|[<-|[]]]; [|done].
        assert (x = k) as -> by (apply (Table.NoDup_map_eq k_id (api_keys st)); [done..|congruence]).
        unfold active_of. cbn. by rewrite Ha, !andb_false_r.
Qed.

End Routes.
End ApiKeys.
