(* ===== verification/CertLogin.v ===== *)
(** Logging in with a client certificate, and enrolling certificates for it:
    [models/auth_certificate.py], [services/certificate_parser.py],
    [services/mtls_auth_service.py], [middleware/mtls_middleware.py], the route
    [login_mtls] of [api/v2/auth_methods.py], [api/v2/mtls.py] and the certificate routes
    of [api/v2/users.py].

    Certificates are read by the [Loader] of the smart import; [subject_cn] is the common
    name the library finds in a certificate.  The users, the session and the settings are
    those of the authentication manager. *)
From Stdlib Require Import HexadecimalString.
From S2P Require Import Prelude Base64 Hashes Permissions Auth AuditSink SmartParser Users.

Module CertLogin.
Import SmartParser.
Local Open Scope string_scope.
Local Open Scope list_scope.

(** * State *)

(** [AuthCertificate] *)
Record auth_cert := AuthCert {
  c_id : Z; c_user_id : Z; c_pem : option string; c_serial : string; c_subject : string; c_issuer : option string;
  c_fingerprint : option string; c_name : string; c_enabled : bool;
  c_valid_from : option Z; c_valid_until : option Z; c_last_used_at : option Z;
}.
(** The columns of [Certificate] and [CA] these routes read or write. *)
Record cert_row := CertRow {
  r_id : Z; r_descr : string; r_caref : option string; r_crt : option string; r_prv : option string;
  r_cert_type : string; r_subject : option string; r_subject_cn : option string; r_issuer : option string;
  r_serial_number : option string; r_valid_from : option Z; r_valid_to : option Z; r_created_by : option string;
}.
Record ca_row := CaRow { a_id : Z; a_refid : string; a_subject : option string; a_crt : option string; a_caref : option string }.
(** The login columns of a user. *)
Record stat := Stat { last_login : option Z; login_count : option Z; failed_logins : option Z }.

Record state := State {
  manager : Auth.state;
  auth_method : option string;
  enrolled : list auth_cert;
  certs : list cert_row;
  cas : list ca_row;
  stats : gmap Z stat;
}.
Definition with_manager m st := State m (auth_method st) (enrolled st) (certs st) (cas st) (stats st).
Definition with_enrolled l st := State (manager st) (auth_method st) l (certs st) (cas st) (stats st).
Definition with_certs l st := State (manager st) (auth_method st) (enrolled st) l (cas st) (stats st).
Definition with_stats m st := State (manager st) (auth_method st) (enrolled st) (certs st) (cas st) m.
Definition with_session (s : Auth.session) (how : option string) st :=
  State (Auth.with_sess s (manager st)) how (enrolled st) (certs st) (cas st) (stats st).

Definition user_by_id (id : Z) (st : state) : option Auth.user :=
  Table.first (fun u => (Auth.u_id u =? id)%Z) (Auth.users (manager st)).
Definition by_serial (serial : string) (st : state) : option auth_cert :=
  Table.first (fun c => String.eqb (c_serial c) serial) (enrolled st).
Definition by_fingerprint (f : string) (st : state) : option auth_cert :=
  Table.first (fun c => bool_decide (c_fingerprint c = Some f)) (enrolled st).
Definition enrolled_by_id (id : Z) (st : state) : option auth_cert :=
  Table.first (fun c => (c_id c =? id)%Z) (enrolled st).
Definition cert_by_serial (serial : string) (st : state) : option cert_row :=
  Table.first (fun c => bool_decide (r_serial_number c = Some serial)) (certs st).
Definition config_value (key : string) (st : state) : option string :=
  v ← Json.assoc key (Auth.cfg (manager st)); v.

(** * Certificate information *)

(** [format(n, 'X')] *)
Definition hex_upper (n : Z) : string := Str.upper (NilZero.string_of_int (Z.to_hex_int n)).
Definition otruthy (o : option string) : bool := match o with Some s => Str.truthy s | None => false end.

(** The dictionaries of the parser; times are aware. *)
Record cert_info := CertInfo {
  i_subject_dn : option string; i_issuer_dn : option string; i_serial : option string; i_fingerprint : option string;
  i_common_name : option string; i_valid_from : option Z; i_valid_until : option Z; i_is_valid : bool;
}.

Section Parser.
Context `{Loader} `{Hashes} (subject_cn : xcert -> option string).

(** [parse_pem_certificate] *)
Definition newline : string := String (ascii_of_N 10) EmptyString.
Definition endswith (s p : string) : bool := Str.startswith (Str.rev s) (Str.rev p).
Definition parse_pem_certificate (pem_data : string) : option xcert :=
  let pem := Str.replace "%0A" newline (Str.replace "\n" newline (Str.strip pem_data)) in
  let pem := if Str.startswith pem "-----BEGIN CERTIFICATE-----" then pem
             else "-----BEGIN CERTIFICATE-----" ^+ newline ^+ pem in
  let pem := if endswith pem "-----END CERTIFICATE-----" then pem
             else pem ^+ newline ^+ "-----END CERTIFICATE-----" in
  match load_pem_certificate pem with inl c => Some c | inr _ => None end.

Definition fingerprint (c : xcert) : string := Str.upper (sha256_hex (xc_der c)).
Definition extract_certificate_info (c : xcert) (now : Z) : cert_info :=
  CertInfo (Some (xc_subject c)) (Some (xc_issuer c)) (Some (hex_upper (xc_serial c))) (Some (fingerprint c))
    (subject_cn c) (Some (xc_not_before c)) (Some (xc_not_after c))
    ((xc_not_before c <=? now) && (now <=? xc_not_after c))%Z.

(** [parse_dn_string]: split at the commas that no backslash precedes. *)
Fixpoint split_dn (escaped : bool) (s : string) : list string :=
  match s with
  | EmptyString => [EmptyString]
  | String c s' =>
      if Ascii.eqb c "," && negb escaped then EmptyString :: split_dn false s'
      else match split_dn (Ascii.eqb c "\") s' with
           | w :: ws => String c w :: ws
           | [] => [String c EmptyString]
           end
  end.
Fixpoint cut_equals (s : string) : option (string * string) :=
  match s with
  | EmptyString => None
  | String c s' => if Ascii.eqb c "=" then Some (EmptyString, s')
                   else '(a, b) ← cut_equals s'; Some (String c a, b)
  end.
Definition parse_dn_string (dn : string) : list (string * string) :=
  omap (fun part => '(k, v) ← cut_equals (Str.strip part);
                    Some (Str.upper (Str.strip k), Str.replace "\," "," (Str.strip v))) (split_dn false dn).
(** A later component replaces an earlier one of the same key. *)
Definition component (k : string) (l : list (string * string)) : option string := Json.assoc k (List.rev l).

Definition headers := list (string * string).
Definition header (k : string) (h : headers) : option string := Json.assoc k h.

(** What the two header extractions share. *)
Definition extract_from_headers (serial_header : string) (with_fingerprint : bool) (h : headers) (now : Z)
  : option cert_info :=
  if negb (String.eqb (Str.upper (default EmptyString (header "X-SSL-Client-Verify" h))) "SUCCESS") then None
  else
    let dn := header "X-SSL-Client-S-DN" h in
    let from_dn := if otruthy dn then
      Some (CertInfo dn (header "X-SSL-Client-I-DN" h) (header serial_header h)
              (if with_fingerprint then header "X-SSL-Client-Fingerprint" h else None)
              (component "CN" (parse_dn_string (default EmptyString dn))) None None true)
      else None in
    match header "X-SSL-Client-Cert" h with
    | Some pem => if Str.truthy pem then
                    match parse_pem_certificate pem with
                    | Some c => Some (extract_certificate_info c now)
                    | None => from_dn
                    end
                  else from_dn
    | None => from_dn
    end.
Definition extract_from_nginx_headers := extract_from_headers "X-SSL-Client-Serial" true.
Definition extract_from_apache_headers := extract_from_headers "X-SSL-Client-M-Serial" false.

(** [extract_from_flask_native] of the DER bytes the worker puts into the environment *)
Definition extract_from_flask_native (peercert : string) : option cert_info :=
  c ← load_der_certificate peercert;
  Some (CertInfo (Some (xc_subject c)) (Some (xc_issuer c)) (Some (hex_upper (xc_serial c)))
          (Some (Str.upper (sha256_hex peercert))) (subject_cn c) (Some (xc_not_before c)) (Some (xc_not_after c)) true).

(** * Authentication *)

(** The enrolment a serial number and a fingerprint name: the serial as presented, then
    from hexadecimal to decimal, then from decimal to hexadecimal, then the fingerprint. *)
Definition hex_digits (s : string) : bool :=
  Str.forall_char (fun c => Str.has_char c "0123456789ABCDEFabcdef") s.
Definition find_enrolled (serial : string) (fp : option string) (st : state) : option auth_cert :=
  let first := by_serial serial st in
  let second := match first with
    | Some c => Some c
    | None =>
        let decimal := if hex_digits serial then n ← Num.parse 16 serial; by_serial (Num.str n) st else None in
        match decimal with
        | Some c => Some c
        | None => n ← Num.py_int serial; by_serial (hex_upper n) st
        end
    end in
  match second with
  | Some c => Some c
  | None => if otruthy fp then by_fingerprint (default EmptyString fp) st else None
  end.

Definition authenticate_certificate (info : option cert_info) (now : Z) (st : state)
  : state * (Auth.user * auth_cert + string) :=
  match info with
  | None => (st, inr "No certificate information provided")
  | Some i =>
      match i_serial i with
      | None => (st, inr "Certificate serial number not found")
      | Some serial =>
          if negb (Str.truthy serial) then (st, inr "Certificate serial number not found")
          else match find_enrolled serial (i_fingerprint i) st with
          | None => (st, inr "Certificate not enrolled")
          | Some c =>
              if negb (c_enabled c) then (st, inr "Certificate is disabled")
              else if match i_valid_until i with Some t => (t <? now)%Z | None => false end
              then (st, inr "Certificate has expired")
              else if match i_valid_from i with Some t => (now <? t)%Z | None => false end
              then (st, inr "Certificate is not yet valid")
              else match user_by_id (c_user_id c) st with
              | None => (st, inr "User not found")
              | Some u =>
                  if negb (Auth.u_active u) then (st, inr "User account is disabled")
                  else
                    let touch c := AuthCert (c_id c) (c_user_id c) (c_pem c) (c_serial c) (c_subject c) (c_issuer c)
                      (c_fingerprint c) (c_name c) (c_enabled c) (c_valid_from c) (c_valid_until c) (Some now) in
                    (with_enrolled (Table.update (fun x => (c_id x =? c_id c)%Z) touch (enrolled st)) st, inl (u, c))
              end
          end
      end
  end.

(** [is_mtls_enabled] *)
Definition is_mtls_enabled (st : state) : bool :=
  match config_value "mtls_enabled" st with
  | Some v => Str.truthy v && Permissions.mem (Str.lower v) ["true"; "1"; "yes"]
  | None => false
  end.

(** * Middleware

    [env] is the variable UCM_TRUSTED_PROXIES ([EmptyString] when it is not set); [None]
    trusts every address. *)
Definition get_trusted_proxies (env : string) : option (list string) :=
  if negb (Str.truthy env) then Some ["127.0.0.1"; "::1"]
  else if String.eqb env "*" then None
  else Some (List.filter Str.truthy (List.map Str.strip (Str.split "," env))).

(** The parts of a request these functions read: the TLS certificate, the address and
    the dictionary made of the headers. *)
Record request := Request {
  peercert : option string; remote_addr : string; request_headers : headers; x_api_key : option string;
}.

Definition native (r : request) : option cert_info :=
  p ← peercert r; if Str.truthy p then extract_from_flask_native p else None.
Definition extract_certificate (env : string) (r : request) (now : Z) : option cert_info :=
  match native r with
  | Some i => Some i
  | None =>
      let h := request_headers r in
      if match get_trusted_proxies env with
         | Some (p :: ps) => negb (Permissions.mem (remote_addr r) (p :: ps))
         | _ => false
         end then None
      else
        let apache := if bool_decide (is_Some (header "X-SSL-Client-S-DN" h))
                      then extract_from_apache_headers h now else None in
        if bool_decide (is_Some (header "X-SSL-Client-Verify" h)) then
          match extract_from_nginx_headers h now with Some i => Some i | None => apache end
        else apache
  end.

Context {T} `{AuditSink T}.

Definition logged_in (id : option Z) : bool := match id with Some z => negb (z =? 0)%Z | None => false end.

Definition process_client_certificate (env : string) (r : request) (now now' : Z) (st : state) (trail : T) : state * T :=
  let sess := Auth.sess (manager st) in
  if logged_in (Auth.s_user_id sess) && bool_decide (auth_method st = Some "certificate") then (st, trail)
  else
    let '(st, authenticated) :=
      if logged_in (Auth.s_user_id sess) then
        match Auth.verify_request_auth (x_api_key r) now now' (manager st) with
        | (m, Some _) => (with_manager m st, true)
        | (m, None) => (with_session Auth.empty_session None (with_manager m st), false)
        end
      else (st, false) in
    if authenticated : bool then (st, trail)
    else if negb (is_mtls_enabled st) then (st, trail)
    else match extract_certificate env r now with
    | None => (st, trail)
    | Some i =>
        match authenticate_certificate (Some i) now st with
        | (st, inr _) => (st, trail)
        | (st, inl (u, c)) =>
            let s := Auth.Session (Some (Auth.u_id u)) (Some (Auth.u_username u)) (Some (Auth.SAt now)) (Some (Auth.SAt now))
                       (Auth.s_expires_at (Auth.sess (manager st))) true in
            (with_session s (Some "certificate") st,
             record_event (Event "login_success" (Some "user") (AInt (Auth.u_id u)) (AStr (Auth.u_username u))
               (AStr ("mTLS auto-login (cert: " ^+ c_serial c ^+ ")")) true (Some (Auth.u_username u))) trail)
        end
    end.

(** [login_mtls]: no address is checked, and whether certificate login is enabled is not
    looked at. *)
Inductive reply := Failure (code : Z) (message : string) | ServerError | LoggedIn (user_id : Z) | Created (id : Z)
| Done (message : string).

Definition presented (r : request) (now : Z) : option cert_info :=
  let h := request_headers r in
  if bool_decide (is_Some (header "X-SSL-Client-Verify" h)) then extract_from_nginx_headers h now
  else if bool_decide (is_Some (header "X-SSL-Client-S-DN" h)) then extract_from_apache_headers h now
  else native r.
Definition count_login (uid now : Z) (st : state) : state :=
  let n := match stats st !! uid with Some s => default 0%Z (login_count s) | None => 0%Z end in
  with_stats (<[uid := Stat (Some now) (Some (n + 1)%Z) (Some 0%Z)]> (stats st)) st.
Definition login_mtls (r : request) (now : Z) (st : state) : state * reply :=
  match presented r now with
  | None => (st, Failure 401 "No client certificate presented")
  | Some i =>
      match authenticate_certificate (Some i) now st with
      | (st, inr e) => (st, Failure 401 e)
      | (st, inl (u, c)) =>
          let s := Auth.Session (Some (Auth.u_id u)) (Some (Auth.u_username u)) None None None true in
          (with_session s (Some "mtls") (count_login (Auth.u_id u) now st), LoggedIn (Auth.u_id u))
      end
  end.

End Parser.
End CertLogin.
