(* ===== verification/CertEnroll.v ===== *)
(** Enrolling, assigning, downloading and deleting client certificates: [api/v2/mtls.py],
    the certificate routes of [api/v2/users.py] and [MTLSAuthService].

    [me] is [g.current_user], the row of the authenticated user.  Left out is the route
    that issues a certificate ([create_mtls_certificate]), which calls
    [CertificateService.create_certificate]. *)
From S2P Require Import Prelude Base64 Hashes Permissions Auth AuditSink SmartParser Users CertLogin.

Module CertEnroll.
Import Base64 SmartParser CertLogin.
Local Open Scope string_scope.
Local Open Scope list_scope.

(** What a download sends: the certificate, or a PKCS12 file. *)
Inductive download := Pem (cert : string) | P12 (key : xkey) (cert : xcert) (chain : list xcert).

Section Routes.
Context `{Loader} `{Hashes} {T} `{AuditSink T}.
Context (subject_cn : xcert -> option string) (column_int : string -> option Z) (py_repr : json -> string).

Definition event_of (action : string) (id : option string) (name details : string) : event :=
  Event action (Some "certificate") (match id with Some s => AStr s | None => ANone end) (AStr name) (AStr details) true None.

(** [data.get(k, '').strip()]: [None] is an AttributeError. *)
Definition stripped (k : string) (data : json) : option string :=
  match Json.get_or k (JStr EmptyString) data with JStr s => Some (Str.strip s) | _ => None end.
(** [request.get_json() or {}] *)
Definition body_or_empty (data : option json) : option json :=
  j ← data; if negb (Json.truthy j) then Some (JDict []) else if Json.is_dict j then Some j else None.

(** A PEM text, or base64 of one. *)
Definition ascii_only (s : string) : bool := Str.forall_char (fun c => (Str.code c <? 128)%N) s.
Definition pem_of (text : string) : option string :=
  if Str.startswith text "-----BEGIN" then Some text
  else if negb (ascii_only text) then None
  else b ← b64decode text; if Str.utf8_valid 0 0 0 b then Some b else None.

Definition either (a b : string) : string := if Str.truthy a then a else b.
Definition imported_name (name : string) (c : xcert) : string :=
  either name (either (default EmptyString (subject_cn c)) ("Imported " ^+ Str.take 8 (Num.str (xc_serial c)))).

(** The rows an import adds: a certificate unless one has the serial number, and the
    enrolment; the second value is the id of the certificate row. *)
Definition certificate_row (c : xcert) (pem name owner : string) (st : state) : state :=
  let serial := Num.str (xc_serial c) in
  match cert_by_serial serial st with
  | Some _ => st
  | None =>
      let caref := a_refid <$> Table.first (fun a => bool_decide (a_subject a = Some (xc_issuer c))) (cas st) in
      with_certs (certs st ++ [CertRow (Table.next_id r_id (certs st)) name caref (Some (b64encode pem)) None "usr_cert"
        (Some (xc_subject c)) (Some (default EmptyString (subject_cn c))) (Some (xc_issuer c)) (Some serial)
        (Some (xc_not_before c)) (Some (xc_not_after c)) (Some owner)]) st
  end.
Definition enrol (uid : Z) (pem : option string) (serial subject : string) (issuer fp : option string) (name : string)
    (from until : option Z) (st : state) : state * Z :=
  let id := Table.next_id c_id (enrolled st) in
  (with_enrolled (enrolled st ++ [AuthCert id uid pem serial subject issuer fp name true from until None]) st, id).
Definition import_rows (uid : Z) (owner : string) (c : xcert) (pem name : string) (st : state) : state * Z :=
  enrol uid (Some pem) (Num.str (xc_serial c)) (xc_subject c) (Some (xc_issuer c)) (Some (fingerprint c)) name
    (Some (xc_not_before c)) (Some (xc_not_after c)) (certificate_row c pem name owner st).

(** ** [api/v2/users.py]: certificates of any user, behind [admin:users] *)

Definition find_ca (j : json) (st : state) : option ca_row :=
  match j with
  | JStr s => Table.first (fun a => String.eqb (a_refid a) s || bool_decide (column_int s = Some (a_id a))) (cas st)
  | JInt z => Table.first (fun a => String.eqb (a_refid a) (Num.str z) || (a_id a =? z)%Z) (cas st)
  | _ => None
  end.
(** Generating calls [CertificateService.create_user_certificate], which does not exist;
    the exception is caught. *)
Definition generate_user_certificate (data : json) (st : state) : reply :=
  match stripped "name" data with
  | None => ServerError
  | Some _ =>
      let ca_id := Json.get_or "ca_id" JNull data in
      let by_id := if Json.truthy ca_id then find_ca ca_id st else None in
      let ca := match by_id with
                | Some a => Some a
                | None => v ← config_value "mtls_trusted_ca" st; Table.first (fun a => String.eqb (a_refid a) v) (cas st)
                end in
      match ca with
      | None => Failure 400 "No CA available for mTLS certificate generation"
      | Some _ => Failure 500 "Failed to generate certificate"
      end
  end.
Definition create_user_mtls_certificate (uid : Z) (request : option json) (st : state) (trail : T) : state * T * reply :=
  let fail r := (st, trail, r) in
  match user_by_id uid st with
  | None => fail (Failure 404 "User not found")
  | Some target =>
      match body_or_empty request with
      | None => fail ServerError
      | Some data =>
          match Json.get_or "mode" (JStr "generate") data with
          | JStr "import" =>
              match stripped "pem" data, stripped "name" data with
              | Some pem_text, Some name =>
                  if negb (Str.truthy pem_text) then fail (Failure 400 "PEM certificate data is required")
                  else match pem_of pem_text with
                  | None => fail (Failure 400 "Invalid certificate format")
                  | Some pem =>
                      match load_pem_certificate pem with
                      | inr _ => fail (Failure 400 "Invalid PEM certificate data")
                      | inl c =>
                          match by_serial (Num.str (xc_serial c)) st with
                          | Some _ => fail (Failure 409 "This certificate is already enrolled")
                          | None =>
                              let name := imported_name name c in
                              let '(st, id) := import_rows uid (Auth.u_username target) c pem name st in
                              (st, record_event (event_of "admin_mtls_import" None name
                                     ("Admin imported mTLS cert for user " ^+ Auth.u_username target)) trail,
                               Created id)
                          end
                      end
                  end
              | _, _ => fail ServerError
              end
          | _ => fail (generate_user_certificate data st)
          end
      end
  end.

Definition delete_user_mtls_certificate (uid cert_id : Z) (st : state) (trail : T) : state * T * reply :=
  match user_by_id uid st with
  | None => (st, trail, Failure 404 "User not found")
  | Some target =>
      match enrolled_by_id cert_id st with
      | Some c =>
          if negb (c_user_id c =? uid)%Z then (st, trail, Failure 404 "Certificate not found")
          else
            let name := either (c_name c) ("Certificate #" ^+ Num.str cert_id) in
            (with_enrolled (Table.delete (fun x => (c_id x =? cert_id)%Z) (enrolled st)) st,
             record_event (event_of "admin_mtls_delete" (Some (Num.str cert_id)) name
               ("Admin deleted mTLS cert " ^+ name ^+ " for user " ^+ Auth.u_username target)) trail,
             Done "")
      | None => (st, trail, Failure 404 "Certificate not found")
      end
  end.

(** ** [api/v2/mtls.py]: settings *)

Definition set_config (key : string) (value : string) (st : state) : state :=
  let m := manager st in
  let cfg := match Json.assoc key (Auth.cfg m) with
             | Some _ => List.map (fun kv => if String.eqb kv.1 key then (key, Some value) else kv) (Auth.cfg m)
             | None => Auth.cfg m ++ [(key, Some value)]
             end in
  with_manager (Auth.State (Auth.users m) (Auth.api_keys m) (Auth.sess m) cfg) st.
Definition admin_with_certificate (st : state) : bool :=
  existsb (fun u => String.eqb (Auth.u_role u) "admin" && Auth.u_active u
                    && existsb (fun c => (c_user_id c =? Auth.u_id u)%Z && c_enabled c) (enrolled st))
    (Auth.users (manager st)).
Definition bool_text (j : json) : string := if Json.truthy j then "true" else "false".
Definition py_str (j : json) : string := match j with JStr s => s | _ => py_repr j end.
Definition given (j : json) : bool := match j with JNull => false | _ => true end.
Definition update_mtls_settings (request : option json) (st : state) (trail : T) : state * T * reply :=
  let fail r := (st, trail, r) in
  match request with
  | None => fail ServerError
  | Some data =>
      if negb (Json.truthy data) then fail (Failure 400 "No data provided")
      else if negb (Json.is_dict data) then fail ServerError
      else
        let enabled := Json.get_or "enabled" JNull data in
        let required := Json.get_or "required" JNull data in
        let ca_id := Json.get_or "trusted_ca_id" JNull data in
        match (if Json.truthy enabled && Json.truthy ca_id
               then match Json.bind_text ca_id with
                    | None => Some ServerError
                    | Some v => match Table.first (fun a => String.eqb (a_refid a) v) (cas st) with
                                | Some _ => None
                                | None => Some (Failure 404 "Trusted CA not found")
                                end
                    end
               else None) with
        | Some r => fail r
        | None =>
            if Json.truthy required && Json.truthy enabled && negb (admin_with_certificate st)
            then fail (Failure 400 ("Cannot require mTLS: no admin user has an enrolled certificate. "
                                      ^+ "Enroll at least one admin certificate first."))
            else
              let set on key value st := if on : bool then set_config key value st else st in
              let st := set (given enabled) "mtls_enabled" (bool_text enabled) st in
              let st := set (given required) "mtls_required" (bool_text required) st in
              let st := set (given ca_id) "mtls_trusted_ca_id" (py_str ca_id) st in
              let change on text := if on : bool then [text] else [] in
              (st, record_event (Event "mtls_settings_update" (Some "settings") ANone (AStr "mTLS")
                     (AStr ("Updated mTLS settings: " ^+ Str.join ", "
                        (change (given enabled) ("enabled=" ^+ bool_text enabled)
                         ++ change (given required) ("required=" ^+ bool_text required)
                         ++ change (given ca_id) ("trusted_ca_id=" ^+ py_str ca_id)))) true None) trail,
               Done "mTLS settings updated")
        end
  end.

(** ** The user's own certificates *)

Definition delete_mtls_certificate (me : Auth.user) (cert_id : Z) (st : state) (trail : T) : state * T * reply :=
  match enrolled_by_id cert_id st with
  | None => (st, trail, Failure 404 "Certificate not found")
  | Some c =>
      if negb (c_user_id c =? Auth.u_id me)%Z && negb (String.eqb (Auth.u_role me) "admin")
      then (st, trail, Failure 403 "Not authorized")
      else (with_enrolled (Table.delete (fun x => (c_id x =? cert_id)%Z) (enrolled st)) st,
            record_event (event_of "mtls_cert_delete" (Some (Num.str cert_id)) (either (c_name c) (c_serial c))
              ("Deleted mTLS certificate for user: " ^+ Auth.u_username me)) trail,
            Done "Certificate deleted")
  end.

(** The certificate the request itself presents.  A missing serial number violates the
    table. *)
Definition enroll_presented_certificate (me : Auth.user) (r : request) (data : option json) (now : Z) (st : state)
    (trail : T) : state * T * reply :=
  let fail r := (st, trail, r) in
  let h := request_headers r in
  let info := match native subject_cn r with
    | Some i => Some i
    | None =>
        if bool_decide (is_Some (header "X-SSL-Client-Verify" h)) then extract_from_nginx_headers subject_cn h now
        else if bool_decide (is_Some (header "X-SSL-Client-S-DN" h)) then extract_from_apache_headers subject_cn h now
        else None
    end in
  match info with
  | None => fail (Failure 400 "No client certificate detected in this request")
  | Some i =>
      if match i_valid_until i with Some t => (t <? now)%Z | None => false end
      then fail (Failure 400 "Cannot enroll expired certificate")
      else if match i_valid_from i with Some t => (now <? t)%Z | None => false end
      then fail (Failure 400 "Cannot enroll certificate that is not yet valid")
      else match i_serial i with
      | None => fail ServerError
      | Some serial =>
          match by_serial serial st with
          | Some _ => fail (Failure 409 "This certificate is already enrolled")
          | None =>
              match body_or_empty data with
              | None => fail ServerError
              | Some data =>
                  let name := Json.get_or "name" JNull data in
                  match (if Json.truthy name then Json.bind_text name
                         else Some (either (default EmptyString (i_common_name i)) ("Certificate " ^+ Str.take 8 serial))) with
                  | None => fail ServerError
                  | Some name =>
                      let '(st, id) := enrol (Auth.u_id me) None serial (default EmptyString (i_subject_dn i)) (i_issuer_dn i)
                        (i_fingerprint i) name (i_valid_from i) (i_valid_until i) st in
                      (st, record_event (event_of "mtls_cert_enroll" None name
                             ("Enrolled presented certificate for user: " ^+ Auth.u_username me)) trail,
                       Done "Certificate enrolled")
                  end
              end
          end
      end
  end.

(** The user an administrator names, or the caller. *)
Definition enroll_import_certificate (me : Auth.user) (request : option json) (now : Z) (st : state) (trail : T)
  : state * T * reply :=
  let fail r := (st, trail, r) in
  match body_or_empty request with
  | None => fail ServerError
  | Some data =>
      match stripped "pem" data, stripped "name" data with
      | Some pem_text, Some name =>
          let target_user_id := Json.get_or "user_id" JNull data in
          if negb (Str.truthy pem_text) then fail (Failure 400 "PEM certificate data is required")
          else match pem_of pem_text with
          | None => fail (Failure 400 "Invalid certificate format. Expected PEM data.")
          | Some pem =>
              match load_pem_certificate pem with
              | inr _ => fail (Failure 400 "Invalid PEM certificate data")
              | inl c =>
                  if (xc_not_after c <? now)%Z then fail (Failure 400 "Cannot enroll expired certificate")
                  else match by_serial (Num.str (xc_serial c)) st with
                  | Some e => fail (Failure 409 (if (c_user_id e =? Auth.u_id me)%Z
                                                 then "This certificate is already enrolled to your account"
                                                 else "This certificate is already enrolled to another user"))
                  | None =>
                      let name := imported_name name c in
                      match (if Json.truthy target_user_id && String.eqb (Auth.u_role me) "admin"
                             then k ← Users.key_of column_int target_user_id;
                                  Some (match (id ← k; user_by_id id st) with Some u => u | None => me end)
                             else Some me) with
                      | None => fail ServerError
                      | Some target =>
                          let '(st, id) := import_rows (Auth.u_id target) (Auth.u_username target) c pem name st in
                          (st, record_event (event_of "mtls_cert_import" None name
                                 ("Imported PEM certificate for user: " ^+ Auth.u_username target)) trail,
                           Created id)
                      end
                  end
              end
          end
      | _, _ => fail ServerError
      end
  end.

(** Whom [assign_certificate] enrols: a reply, or the user. *)
Definition assign_target (me : Auth.user) (target_user_id : json) (c : cert_row) (st : state) : reply + Auth.user :=
  if Json.truthy target_user_id && String.eqb (Auth.u_role me) "admin" then
    match Users.key_of column_int target_user_id with
    | None => inl ServerError
    | Some k => match (id ← k; user_by_id id st) with
                | Some u => inr u
                | None => inl (Failure 404 "Target user not found")
                end
    end
  else if Permissions.mem (Auth.u_role me) ["admin"; "operator"] then inr me
  else if bool_decide (r_created_by c = Some (Auth.u_username me)) then inr me
  else inl (Failure 403 "Not authorized to assign this certificate").

Definition assign_certificate (me : Auth.user) (request : option json) (st : state) (trail : T) : state * T * reply :=
  let fail r := (st, trail, r) in
  match body_or_empty request with
  | None => fail ServerError
  | Some data =>
      let cert_id := Json.get_or "cert_id" JNull data in
      if negb (Json.truthy cert_id) then fail (Failure 400 "cert_id is required")
      else match Users.key_of column_int cert_id with
      | None => fail ServerError
      | Some k =>
          match (id ← k; Table.first (fun c => (r_id c =? id)%Z) (certs st)) with
          | None => fail (Failure 404 "Certificate not found")
          | Some c =>
              if negb (String.eqb (r_cert_type c) "usr_cert")
              then fail (Failure 400 "Only user certificates can be assigned for mTLS")
              else match assign_target me (Json.get_or "user_id" JNull data) c st with
              | inl r => fail r
              | inr target =>
                  match r_serial_number c with
                  | None => fail ServerError
                  | Some serial =>
                      match by_serial serial st with
                      | Some e => fail (Failure 409 (if (c_user_id e =? Auth.u_id target)%Z
                                                     then "This certificate is already assigned to this account"
                                                     else "This certificate is already assigned to another user"))
                      | None =>
                          match (crt ← r_crt c; pem ← b64decode crt;
                                 match load_pem_certificate pem with inl x => Some (pem, x) | inr _ => None end) with
                          | None => fail (Failure 500 "Failed to parse certificate")
                          | Some (pem, x) =>
                              let name := Json.get_or "name" JNull data in
                              match (if Json.truthy name then Json.bind_text name
                                     else Some (either (r_descr c) (either (default EmptyString (r_subject_cn c))
                                                                      ("Certificate " ^+ Str.take 8 serial)))) with
                              | None => fail ServerError
                              | Some name =>
                                  let '(st, id) := enrol (Auth.u_id target) (Some pem) serial (xc_subject x)
                                    (Some (xc_issuer x)) (Some (fingerprint x)) name (Some (xc_not_before x))
                                    (Some (xc_not_after x)) st in
                                  (st, record_event (event_of "mtls_cert_assign" (Some (py_str cert_id)) name
                                         ("Assigned certificate to user: " ^+ Auth.u_username target)) trail,
                                   Created id)
                              end
                          end
                      end
                  end
              end
          end
      end
  end.

(** ** Downloading *)

(** The issuers of a certificate, each once and at most ten that load: a round adds a
    reference to [seen], so there are no more rounds than authorities. *)
Definition ca_by_refid (r : string) (st : state) : option ca_row := Table.first (fun a => String.eqb (a_refid a) r) (cas st).
Definition issuer_of (r : option string) (st : state) : option ca_row :=
  r ← r; if Str.truthy r then ca_by_refid r st else None.
Fixpoint ca_chain (rounds room : nat) (st : state) (seen : list string) (a : option ca_row) : list xcert :=
  match rounds, room, a with
  | S rounds, S room', Some a =>
      if Permissions.mem (a_refid a) seen then []
      else
        let rest room := ca_chain rounds room st (a_refid a :: seen) (issuer_of (a_caref a) st) in
        if otruthy (a_crt a) then
          match (crt ← a_crt a; pem ← b64decode crt; match load_pem_certificate pem with inl x => Some x | inr _ => None end) with
          | Some x => x :: rest room'
          | None => []
          end
        else rest room
  | _, _, _ => []
  end.

(** [format] and [password] are query parameters; a certificate or key that does not load
    raises. *)
Definition download_mtls_certificate (me : Auth.user) (cert_id : Z) (format password : string) (st : state) (trail : T)
  : T * (reply + download) :=
  let own := Table.first (fun c => (c_id c =? cert_id)%Z && (c_user_id c =? Auth.u_id me)%Z) (enrolled st) in
  let admin := String.eqb (Auth.u_role me) "admin" in
  match (match own with Some c => Some c | None => if admin then enrolled_by_id cert_id st else None end) with
  | None => (trail, inl (Failure 404 (if admin then "Certificate not found" else "Certificate not found or not authorized")))
  | Some e =>
      match (c ← cert_by_serial (c_serial e) st; if otruthy (r_crt c) then Some c else None) with
      | None => (trail, inl (Failure 404 "Certificate data not available"))
      | Some c =>
          let name := either (c_name e) (Num.str cert_id) in
          let log kind := record_event (event_of "mtls_cert_download" (Some (Num.str cert_id)) name
                            ("Downloaded certificate as " ^+ kind ^+ " by user: " ^+ Auth.u_username me)) trail in
          match (crt ← r_crt c; b64decode crt) with
          | None => (trail, inl ServerError)
          | Some pem =>
              if Permissions.mem format ["p12"; "pkcs12"] then
                if (String.length password <? 8)%nat
                then (trail, inl (Failure 400 "PKCS12 export requires a password of at least 8 characters"))
                else if negb (otruthy (r_prv c))
                then (trail, inl (Failure 400 "Private key not available for PKCS12 export"))
                else match (prv ← r_prv c; key ← b64decode prv; load_pem_private_key key None), load_pem_certificate pem with
                | Some key, inl x =>
                    (log "PKCS12", inr (P12 key x (ca_chain (S (length (cas st))) 10 st [] (issuer_of (r_caref c) st))))
                | _, _ => (trail, inl ServerError)
                end
              else (log "PEM", inr (Pem pem))
          end
      end
  end.

(** ** [MTLSAuthService]: enrolling, revoking and deleting for other callers *)

Definition enroll_certificate (uid : Z) (cert_pem : string) (name : option string) (now : Z) (st : state) : state * (bool * string) :=
  match parse_pem_certificate cert_pem with
  | None => (st, (false, "Invalid certificate format"))
  | Some c =>
      let i := extract_certificate_info subject_cn c now in
      let serial := hex_upper (xc_serial c) in
      match by_serial serial st with
      | Some _ => (st, (false, "Certificate already enrolled"))
      | None =>
          if negb (i_is_valid i) then (st, (false, "Certificate is not valid (expired or not yet valid)"))
          else
            let name := either (default EmptyString name)
              (either (default EmptyString (i_common_name i)) ("Certificate " ^+ Str.take 8 serial)) in
            ((enrol uid None serial (xc_subject c) (Some (xc_issuer c)) (Some (fingerprint c)) name
                (Some (xc_not_before c)) (Some (xc_not_after c)) st).1,
             (true, "Certificate enrolled successfully"))
      end
  end.
(** Whether [user_id], when given and not zero, may change an enrolment. *)
Definition may_change (user_id : option Z) (c : auth_cert) (st : state) : bool :=
  match user_id with
  | Some uid =>
      (uid =? 0)%Z || (c_user_id c =? uid)%Z
      || match user_by_id uid st with Some u => String.eqb (Auth.u_role u) "admin" | None => false end
  | None => true
  end.
Definition disable (c : auth_cert) : auth_cert :=
  AuthCert (c_id c) (c_user_id c) (c_pem c) (c_serial c) (c_subject c) (c_issuer c) (c_fingerprint c) (c_name c) false
    (c_valid_from c) (c_valid_until c) (c_last_used_at c).
Definition revoke_certificate (cert_id : Z) (user_id : option Z) (st : state) : state * (bool * string) :=
  match enrolled_by_id cert_id st with
  | None => (st, (false, "Certificate not found"))
  | Some c =>
      if negb (may_change user_id c st) then (st, (false, "Not authorized to revoke this certificate"))
      else (with_enrolled (Table.update (fun x => (c_id x =? cert_id)%Z) disable (enrolled st)) st,
            (true, "Certificate revoked successfully"))
  end.
Definition delete_certificate (cert_id : Z) (user_id : option Z) (st : state) : state * (bool * string) :=
  match enrolled_by_id cert_id st with
  | None => (st, (false, "Certificate not found"))
  | Some c =>
      if negb (may_change user_id c st) then (st, (false, "Not authorized to delete this certificate"))
      else (with_enrolled (Table.delete (fun x => (c_id x =? cert_id)%Z) (enrolled st)) st,
            (true, "Certificate deleted successfully"))
  end.

End Routes.
End CertEnroll.
