(* ===== verification/CertLoginFacts.v ===== *)
(** What certificate login guarantees and what it lets through: a session opened by the
    middleware rests on an enabled enrolment of an active user; the header paths are dead
    behind a framework that capitalizes header names; an enrolment is found by the text
    of a serial number; and any account can reach an administrator's, or any stored
    private key. *)
From Stdlib Require Import HexadecimalString HexadecimalPos.
From S2P Require Import Prelude Base64 Hashes Permissions Auth AuditSink SmartParser Users ApiKeys CertLogin CertEnroll.

Module CertLoginFacts.
Import Base64 SmartParser CertLogin CertEnroll.
Local Open Scope string_scope.
Local Open Scope list_scope.

(** * Serial numbers: reading in base 16 undoes writing *)

Lemma hex_uint_digits d acc prev :
  prev = true \/ d <> Hexadecimal.Nil ->
  Num.digits 16 (Z.of_N acc) prev (Str.upper (NilEmpty.string_of_uint d))
  = Some (Z.of_N (match acc with
                  | 0%N => Pos.of_hex_uint d
                  | N.pos p => N.pos (Pos.of_hex_uint_acc d p)
                  end)).
Proof.
  revert acc prev.
  induction d as [|d IH|d IH|d IH|d IH|d IH|d IH|d IH|d IH|d IH|d IH|d IH|d IH|d IH|d IH|d IH|d IH];
    intros acc prev Hp; [destruct acc; simpl; destruct Hp as [->|?]; done|..].
  all: cbn [NilEmpty.string_of_uint Str.upper Str.map]; fold Str.upper.
  all: match goal with |- Num.digits 16 _ _ (String ?c _) = _ => let c' := eval vm_compute in c in change c with c' end.
  all: match goal with |- Num.digits 16 ?a ?p (String ?c ?s) = _ =>
         let v := eval vm_compute in (match Num.digit_val 16 c with Some v => Z.to_N v | None => 0%N end) in
         change (Num.digits 16 a p (String c s)) with (Num.digits 16 (a * 16 + Z.of_N v) true s);
         replace (a * 16 + Z.of_N v)%Z with (Z.of_N (acc * 16 + v)) by lia
       end.
  all: change (Str.map Str.upper1 ?s) with (Str.upper s); rewrite IH by (by left); do 2 f_equal.
  all: destruct acc as [|p]; [done|]; simpl.
  all: match goal with
       | |- N.pos (Pos.of_hex_uint_acc _ ?a) = N.pos (Pos.of_hex_uint_acc _ ?b) => replace a with b by lia; done
       end.
Qed.

(** Texts of upper-case hexadecimal digits. *)
Lemma hex_text d :
  Str.exists_char Str.is_space (Str.upper (NilEmpty.string_of_uint d)) = false /\
  hex_digits (Str.upper (NilEmpty.string_of_uint d)) = true /\
  Str.startswith (Str.upper (NilEmpty.string_of_uint d)) "0x" = false /\
  Str.startswith (Str.upper (NilEmpty.string_of_uint d)) "0X" = false /\
  (d <> Hexadecimal.Nil -> exists c r, Str.upper (NilEmpty.string_of_uint d) = String c r /\
     Ascii.eqb c "-" = false /\ Ascii.eqb c "+" = false).
Proof.
  assert (forall d, Str.exists_char Str.is_space (Str.upper (NilEmpty.string_of_uint d)) = false) as Hs
    by (clear d; induction d; simpl; auto).
  assert (forall d, hex_digits (Str.upper (NilEmpty.string_of_uint d)) = true) as Hh.
  { unfold hex_digits, Str.forall_char. clear d. intros d. apply negb_true_iff. induction d; [done|..];
      cbn [NilEmpty.string_of_uint Str.upper Str.map Str.exists_char]; exact IHd. }
  repeat split; [done|done|..].
  - destruct d as [|d|d|d|d|d|d|d|d|d|d|d|d|d|d|d|d]; try done. by destruct d.
  - destruct d as [|d|d|d|d|d|d|d|d|d|d|d|d|d|d|d|d]; try done. by destruct d.
  - intros Hd. destruct d; [done|..]; cbn [NilEmpty.string_of_uint Str.upper Str.map]; eexists _, _; done.
Qed.

Lemma hex_upper_nonneg n :
  (0 <= n)%Z -> exists d, d <> Hexadecimal.Nil /\ hex_upper n = Str.upper (NilEmpty.string_of_uint d) /\
    Z.of_N (Pos.of_hex_uint d) = n.
Proof.
  intros Hn. destruct n as [|p|p]; [..|lia]; unfold hex_upper; simpl.
  - by exists (Hexadecimal.D0 Hexadecimal.Nil).
  - exists (Pos.to_hex_uint p). unfold NilZero.string_of_uint. pose proof (Unsigned.of_to p) as E.
    destruct (Pos.to_hex_uint p) eqn:Ep; [done|..]; by rewrite E.
Qed.

Lemma parse_hex_upper n : (0 <= n)%Z -> Num.parse 16 (hex_upper n) = Some n /\ hex_digits (hex_upper n) = true.
Proof.
  intros Hn. destruct (hex_upper_nonneg n Hn) as (d & Hd & -> & Hv). destruct (hex_text d) as (Hs & Hh & H1 & H2 & Hc).
  split; [|done]. unfold Num.parse. rewrite StrFacts.strip_id by done. destruct (Hc Hd) as (c & r & E & Hm & Hp).
  rewrite E, Hm, Hp, <-E. unfold Num.magnitude. rewrite H1, H2. cbn [Z.eqb andb orb].
  pose proof (hex_uint_digits d 0 false (or_intror Hd)) as H. cbn [Z.of_N] in H. by rewrite H, Hv.
Qed.

(** * A session opened by the middleware *)

Section Facts.
Context `{Loader} `{Hashes} (subject_cn : xcert -> option string) {T} `{AuditSink T}.

#[local] Abbreviation process := (process_client_certificate subject_cn).

Lemma enrolment_sound i now st st' u c :
  authenticate_certificate (Some i) now st = (st', inl (u, c)) ->
  exists serial, i_serial i = Some serial /\ find_enrolled serial (i_fingerprint i) st = Some c /\ c_enabled c = true /\
    In u (Auth.users (manager st)) /\ Auth.u_id u = c_user_id c /\ Auth.u_active u = true /\
    (forall t, i_valid_until i = Some t -> (now <= t)%Z) /\ (forall t, i_valid_from i = Some t -> (t <= now)%Z) /\
    manager st' = manager st /\ auth_method st' = auth_method st.
Proof.
  unfold authenticate_certificate. destruct (i_serial i) as [serial|]; [|done]. destruct (negb (Str.truthy serial)); [done|].
  destruct (find_enrolled _ _ st) as [e|] eqn:Ef; [|done]. destruct (c_enabled e) eqn:Ee; [|done]. cbn [negb].
  destruct (match i_valid_until i with Some t => _ | None => _ end) eqn:Eu; [done|].
  destruct (match i_valid_from i with Some t => _ | None => _ end) eqn:Ev; [done|].
  destruct (user_by_id _ st) as [v|] eqn:Eb; [|done]. destruct (Auth.u_active v) eqn:Ea; [|done]. intros [= <- <- <-].
  apply Table.first_Some in Eb as [Hin Hid%Z.eqb_eq]. exists serial. repeat split; try done.
  - intros t Et. rewrite Et in Eu. by apply Z.ltb_ge in Eu.
  - intros t Et. rewrite Et in Ev. by apply Z.ltb_ge in Ev.
Qed.

Lemma find_enrolled_In serial fp st c : find_enrolled serial fp st = Some c -> In c (enrolled st).
Proof.
  unfold find_enrolled, by_serial, by_fingerprint.
  destruct (Table.first _ (enrolled st)) as [c1|] eqn:E1; [intros [= <-]; by apply Table.first_Some in E1 as [? _]|].
  set (d := if hex_digits serial then _ else None). destruct d as [c2|] eqn:E2.
  { intros [= <-]. unfold d in E2. destruct (hex_digits serial); [|done]. destruct (Num.parse 16 serial); [|done].
    by apply Table.first_Some in E2 as [? _]. }
  destruct (Num.py_int serial) as [n|]; cbn [mbind option_bind].
  - destruct (Table.first (fun c => String.eqb (c_serial c) (hex_upper n)) (enrolled st)) as [c3|] eqn:E3.
    + intros [= <-]. by apply Table.first_Some in E3 as [? _].
    + destruct (otruthy fp); [|done]. by intros [? _]%Table.first_Some.
  - destruct (otruthy fp); [|done]. by intros [? _]%Table.first_Some.
Qed.

Lemma request_auth_keeps key now now' m m' r :
  Auth.verify_request_auth key now now' m = (m', r) -> Auth.users m' = Auth.users m /\ Auth.cfg m' = Auth.cfg m.
Proof.
  assert (forall k m m' r, Auth.verify_api_key k now now' m = (m', r) -> Auth.users m' = Auth.users m /\ Auth.cfg m' = Auth.cfg m) as Hk.
  { intros k m1 m2 r1. unfold Auth.verify_api_key. destruct (Table.first _ _) as [x|]; [|by intros [= <- _]].
    destruct (match Auth.k_expires_at x with Some e => _ | None => _ end); by intros [= <- _]. }
  assert (forall m m' r, Auth.verify_session now' m = (m', r) -> Auth.users m' = Auth.users m /\ Auth.cfg m' = Auth.cfg m) as Hs.
  { intros m1 m2 r1. unfold Auth.verify_session. destruct (Auth.s_user_id _); [|by intros [= <- _]].
    destruct (z =? 0)%Z; [by intros [= <- _]|]. destruct (Table.first _ _) as [x|]; [|by intros [= <- _]].
    destruct (negb _); [by intros [= <- _]|]. destruct (Auth.too_old _ _ _); [by intros [= <- _]|].
    destruct (Auth.too_old _ _ _); by intros [= <- _]. }
  unfold Auth.verify_request_auth, Auth.authenticate_request.
  set (x := match key with Some k => _ | None => _ end).
  assert (Auth.users x.1 = Auth.users m /\ Auth.cfg x.1 = Auth.cfg m) as Hx.
  { unfold x. destruct key as [k|]; [|done]. destruct (Str.truthy k); [|done].
    destruct (Auth.verify_api_key k now now' m) eqn:E. by apply (Hk _ _ _ _ E). }
  destruct x as [m1 [r1|]]; cbn [fst] in Hx; [by intros [= <- _]|].
  destruct (Auth.s_user_id _); [|by intros [= <- _]]. intros [E1 E2]%Hs. destruct Hx. split; congruence.
Qed.

(** Where a certificate may come from: the TLS connection, or headers that report a
    successful verification, of a proxy on the list of the settings, or of any sender where
    the settings name none. *)
Definition from_tls (r : request) (i : cert_info) : Prop :=
  exists p x, peercert r = Some p /\ load_der_certificate p = Some x /\ i_serial i = Some (hex_upper (xc_serial x)) /\
    i_valid_from i = Some (xc_not_before x) /\ i_valid_until i = Some (xc_not_after x).
Definition from_proxy (env : string) (r : request) : Prop :=
  (get_trusted_proxies env = None \/ get_trusted_proxies env = Some [] \/
   exists ps, get_trusted_proxies env = Some ps /\ In (remote_addr r) ps) /\
  exists v, header "X-SSL-Client-Verify" (request_headers r) = Some v /\ Str.upper v = "SUCCESS".

Lemma headers_verified sh fp h now i :
  extract_from_headers subject_cn sh fp h now = Some i ->
  exists v, header "X-SSL-Client-Verify" h = Some v /\ Str.upper v = "SUCCESS".
Proof.
  unfold extract_from_headers. destruct (header "X-SSL-Client-Verify" h) as [v|]; cbn [default from_option id];
    [|intros Hi; cbn in Hi; discriminate Hi].
  destruct (String.eqb_spec (Str.upper v) "SUCCESS"); [|done]. intros _. by exists v.
Qed.

Lemma native_from_tls r i : native subject_cn r = Some i -> from_tls r i.
Proof.
  unfold native, from_tls. destruct (peercert r) as [p|]; [|done]. cbn. destruct (Str.truthy p); [|done].
  unfold extract_from_flask_native. destruct (load_der_certificate p) as [x|] eqn:E; [|done]. intros [= <-]. by exists p, x.
Qed.

Lemma extracted env r now i :
  extract_certificate subject_cn env r now = Some i -> from_tls r i \/ from_proxy env r.
Proof.
  unfold extract_certificate. destruct (native subject_cn r) as [j|] eqn:En.
  { intros [= ->]. left. by apply native_from_tls. }
  destruct (match get_trusted_proxies env with Some (p :: ps) => _ | _ => _ end) eqn:Ep; [done|]. intros Hi. right. split.
  - destruct (get_trusted_proxies env) as [[|p ps]|]; [right; by left| |by left]. right. right. exists (p :: ps).
    split; [done|]. apply negb_false_iff in Ep. by apply Permissions.mem_In.
  - destruct (bool_decide (is_Some (header "X-SSL-Client-Verify" _))).
    + destruct (extract_from_nginx_headers _ _ _) eqn:E1; [by apply headers_verified in E1|].
      destruct (bool_decide _); [by apply headers_verified in Hi|done].
    + destruct (bool_decide _); [by apply headers_verified in Hi|done].
Qed.

(** C5: A certificate session rests on an enrolment: when the middleware turns a session
    into a certificate session, certificate login is enabled, the certificate came over
    the TLS connection or in headers that a proxy on the list marked as verified (any sender
    where the list is empty or switched off with [*]; the local addresses where nothing is
    set), it names by its serial number or fingerprint an enabled enrolment, the dates
    presented with it, if any, include the moment, and the session belongs to the active
    user of that enrolment. *)
Theorem certificate_session_is_enrolled env r now now' st trail st' trail' :
  process env r now now' st trail = (st', trail') ->
  auth_method st <> Some "certificate" -> auth_method st' = Some "certificate" ->
  exists i serial c u, is_mtls_enabled st = true /\
    (from_tls r i \/ from_proxy env r) /\
    (env = "" -> from_tls r i \/ remote_addr r = "127.0.0.1" \/ remote_addr r = "::1") /\ i_serial i = Some serial /\
    find_enrolled serial (i_fingerprint i) st = Some c /\ In c (enrolled st) /\ c_enabled c = true /\
    (forall t, i_valid_until i = Some t -> (now <= t)%Z) /\ (forall t, i_valid_from i = Some t -> (t <= now)%Z) /\
    In u (Auth.users (manager st)) /\ Auth.u_id u = c_user_id c /\ Auth.u_active u = true /\
    Auth.s_user_id (Auth.sess (manager st')) = Some (Auth.u_id u).
Proof.
  unfold process_client_certificate. intros E Hn Hc. destruct (_ && _) eqn:Ea; [congruence|].
  set (x := if logged_in _ then _ else _) in E.
  assert (Auth.users (manager x.1) = Auth.users (manager st) /\ Auth.cfg (manager x.1) = Auth.cfg (manager st) /\
    enrolled x.1 = enrolled st /\ auth_method x.1 <> Some "certificate") as (X1 & X2 & X3 & X4).
  { unfold x. destruct (logged_in _); [|done]. destruct (Auth.verify_request_auth _ _ _ _) as [m [a|]] eqn:Ev;
      destruct (request_auth_keeps _ _ _ _ _ _ Ev); done. }
  destruct x as [st1 b]. cbn [fst] in *. destruct b; [congruence|].
  assert (is_mtls_enabled st1 = is_mtls_enabled st) as Em by (unfold is_mtls_enabled, config_value; by rewrite X2).
  destruct (is_mtls_enabled st1) eqn:Eon; cbn [negb] in E; [|congruence].
  destruct (extract_certificate _ _ _ _) as [i|] eqn:Ei; [|congruence].
  destruct (authenticate_certificate (Some i) now st1) as [st2 [[u c]|]] eqn:Eau.
  - apply enrolment_sound in Eau as (serial & A1 & A2 & A3 & A4 & A5 & A6 & A7 & A8 & A9 & A10). injection E as <- <-.
    assert (find_enrolled serial (i_fingerprint i) st = Some c) as A2'
      by (rewrite <-A2; unfold find_enrolled, by_serial, by_fingerprint; by rewrite X3).
    exists i, serial, c, u. rewrite <-X1. repeat split; try done.
    + by apply extracted in Ei.
    + intros ->. apply extracted in Ei as [?|[[?|[?|(ps & [= <-] & Hin)]] _]]; [by left|done..|]. cbn in Hin. naive_solver.
    + by apply find_enrolled_In in A2'.
  - injection E as <- _. exfalso. revert Eau. unfold authenticate_certificate.
    destruct (i_serial i); [|intros [= <- _]; done]. destruct (negb _); [intros [= <- _]; done|].
    destruct (find_enrolled _ _ _); [|intros [= <- _]; done]. destruct (negb _); [intros [= <- _]; done|].
    destruct (match i_valid_until i with Some t => _ | None => _ end); [intros [= <- _]; done|].
    destruct (match i_valid_from i with Some t => _ | None => _ end); [intros [= <- _]; done|].
    destruct (user_by_id _ _); [|intros [= <- _]; done]. by destruct (negb _); [intros [= <- _]|].
Qed.

End Facts.
End CertLoginFacts.

(** What certificate login lets through: header names the framework never produces, serial
    numbers that name another certificate, and two ways from any account to more than it
    may have. *)
Module CertLoginRisks.
Import Base64 SmartParser CertLogin CertEnroll.
Local Open Scope string_scope.
Local Open Scope list_scope.

Section Facts.
Context `{Loader} `{Hashes} (subject_cn : xcert -> option string) {T} `{AuditSink T}.
Context (column_int : string -> option Z) (py_repr : json -> string).

(** * Header names *)

(** The names werkzeug gives the members of [dict(request.headers)]. *)
Definition capitalized (h : headers) : Prop := Forall (fun kv => kv.1 = Str.title kv.1) h.

Lemma header_capitalized k h : capitalized h -> k <> Str.title k -> header k h = None.
Proof.
  unfold header. induction 1 as [|[k' v] h Hk Hh IH]; [done|]. intros Hne. cbn.
  destruct (String.eqb_spec k k') as [<-|]; [done|by apply IH].
Qed.

(** Behind a framework that capitalizes the words of header names the headers of a
    reverse proxy are never read: only a certificate of the TLS connection counts, and
    without one nobody logs in and nothing is enrolled, whatever the proxy reports. *)
Theorem proxy_headers_are_never_read r now st :
  capitalized (request_headers r) ->
  (forall env, extract_certificate subject_cn env r now = native subject_cn r) /\
  (peercert r = None ->
     login_mtls subject_cn r now st = (st, Failure 401 "No client certificate presented") /\
     forall me data trail, enroll_presented_certificate subject_cn me r data now st trail
       = (st, trail, Failure 400 "No client certificate detected in this request")).
Proof.
  intros Hc.
  assert (header "X-SSL-Client-Verify" (request_headers r) = None) as E1 by (by apply header_capitalized).
  assert (header "X-SSL-Client-S-DN" (request_headers r) = None) as E2 by (by apply header_capitalized).
  split.
  - intros env. unfold extract_certificate. destruct (native subject_cn r) as [i|] eqn:En; [done|].
    rewrite E1, E2. by destruct (match get_trusted_proxies env with Some (p :: ps) => _ | _ => _ end).
  - intros Hp. assert (native subject_cn r = None) as En by (unfold native; by rewrite Hp). split.
    + unfold login_mtls, presented. by rewrite E1, E2, En.
    + intros me data trail. unfold enroll_presented_certificate. by rewrite En, E1, E2.
Qed.

(** * A session from a TLS certificate *)

Lemma hex_upper_truthy n : (0 <= n)%Z -> Str.truthy (hex_upper n) = true.
Proof.
  intros Hn. destruct (CertLoginFacts.hex_upper_nonneg n Hn) as (d & Hd & -> & _).
  destruct (CertLoginFacts.hex_text d) as (_ & _ & _ & _ & Hc). by destruct (Hc Hd) as (c & s & -> & _).
Qed.

Lemma process_opens env r now now' st trail p x c u fp :
  Auth.s_user_id (Auth.sess (manager st)) = None -> is_mtls_enabled st = true ->
  peercert r = Some p -> Str.truthy p = true -> load_der_certificate p = Some x -> (0 <= xc_serial x)%Z ->
  (xc_not_before x <= now <= xc_not_after x)%Z ->
  fp = Some (Str.upper (sha256_hex p)) ->
  find_enrolled (hex_upper (xc_serial x)) fp st = Some c -> c_enabled c = true ->
  user_by_id (c_user_id c) st = Some u -> Auth.u_active u = true ->
  let st' := (process_client_certificate subject_cn env r now now' st trail).1 in
  Auth.s_user_id (Auth.sess (manager st')) = Some (Auth.u_id u) /\ auth_method st' = Some "certificate".
Proof.
  intros Hs Hon Hp Ht Hl Hn [Hb Ha] -> Hf He Hu Hact. unfold process_client_certificate. rewrite Hs. cbn [logged_in andb negb].
  rewrite Hon. cbn [negb]. unfold extract_certificate, native. rewrite Hp. cbn [mbind option_bind]. rewrite Ht.
  unfold extract_from_flask_native. rewrite Hl. cbn [mbind option_bind]. unfold authenticate_certificate.
  cbn [i_serial i_fingerprint i_valid_until i_valid_from]. rewrite hex_upper_truthy by done. cbn [negb]. rewrite Hf, He. cbn [negb].
  assert ((xc_not_after x <? now)%Z = false) as -> by lia. assert ((now <? xc_not_before x)%Z = false) as -> by lia.
  rewrite Hu, Hact. done.
Qed.

(** An enrolment is found by the text of a serial number alone.  A certificate that was
    imported is stored under its decimal serial number; any other certificate whose
    serial number has the same digits in hexadecimal opens a session for the owner,
    whoever issued it and whatever its key, subject and fingerprint are. *)
Theorem serial_numbers_are_confused env r now now' st trail p x y c u :
  by_serial (Num.str (xc_serial x)) st = Some c -> c_enabled c = true ->
  user_by_id (c_user_id c) st = Some u -> Auth.u_active u = true ->
  peercert r = Some p -> Str.truthy p = true -> load_der_certificate p = Some y -> (0 <= xc_serial y)%Z ->
  hex_upper (xc_serial y) = Num.str (xc_serial x) -> (xc_not_before y <= now <= xc_not_after y)%Z ->
  is_mtls_enabled st = true -> Auth.s_user_id (Auth.sess (manager st)) = None ->
  let st' := (process_client_certificate subject_cn env r now now' st trail).1 in
  Auth.s_user_id (Auth.sess (manager st')) = Some (Auth.u_id u) /\ auth_method st' = Some "certificate".
Proof.
  intros Hc He Hu Ha Hp Ht Hl Hn Eh Hd Hon Hs. eapply process_opens; try done.
  unfold find_enrolled. by rewrite Eh, Hc.
Qed.

(** * From any account to an administrator's *)

(** A key with the permission [*], minted with any authenticated request. *)
Definition star_key : option json :=
  Some (JDict [("name", JStr "k"); ("permissions", JList [JStr "*"])]).

Lemma star_key_minted max_keys uid token now now' m trail :
  (Table.count (ApiKeys.active_of uid) (Auth.api_keys m) < max_keys)%nat -> ApiKeys.days_ok 365 now = true ->
  Forall (fun k => Auth.k_key_hash k <> sha256_hex ("ucm_ak_" ^+ token)) (Auth.api_keys m) ->
  let key := "ucm_ak_" ^+ token in
  exists m' trail' row, ApiKeys.create_api_key py_repr max_keys uid star_key token now now' m trail
    = (m', trail', ApiKeys.KeyCreated key row) /\
    Auth.users m' = Auth.users m /\ Auth.cfg m' = Auth.cfg m /\
    forall perms t t', (t <= now + Time.days 365)%Z ->
      exists m'' a, Auth.require_auth perms (Some key) t t' m' = (m'', Auth.Granted a) /\ Auth.r_user_id a = uid /\
        Auth.users m'' = Auth.users m /\ Auth.cfg m'' = Auth.cfg m.
Proof.
  intros Hn Hd Hh. cbv zeta. unfold ApiKeys.create_api_key, star_key.
  cbn -[Table.count ApiKeys.issue Auth.require_auth Nat.leb Num.str].
  destruct (Nat.leb_spec max_keys (Table.count (ApiKeys.active_of uid) (Auth.api_keys m))); [lia|].
  unfold ApiKeys.issue. rewrite Hd. destruct (existsb _ _) eqn:Ex.
  { apply existsb_exists in Ex as (k & Hin & E%String.eqb_eq). rewrite List.Forall_forall in Hh. by destruct (Hh k Hin). }
  cbn [negb orb]. unfold Auth.create_api_key. eexists _, _, _. split; [reflexivity|]. split; [done|]. split; [done|].
  intros perms t t' Ht. unfold Auth.require_auth, Auth.authenticate_request.
  change (Str.truthy ("ucm_ak_" ^+ token)) with true. cbn match. unfold Auth.verify_api_key.
  cbn [Auth.api_keys Auth.with_api_keys].
  rewrite Table.first_app. destruct (Table.first _ (Auth.api_keys m)) as [k|] eqn:E.
  { apply Table.first_Some in E as [Hin [Ek%String.eqb_eq _]%andb_true_iff].
    rewrite List.Forall_forall in Hh. by destruct (Hh k Hin). }
  unfold Table.first at 1. cbn [List.find Auth.k_key_hash Auth.k_is_active].
  rewrite StrFacts.eqb_refl. cbn [andb Auth.k_expires_at]. destruct (Z.ltb_spec (now + Time.days 365) t); [lia|].
  destruct perms as [|perm perms]; cbn -[Table.update Table.first]; eexists _, _; done.
Qed.

Lemma by_serial_snoc s st l c :
  Forall (fun c => c_serial c <> s) l -> enrolled st = l ++ [c] ->
  by_serial s st = if String.eqb (c_serial c) s then Some c else None.
Proof.
  intros Hl E. unfold by_serial. rewrite E, Table.first_app.
  destruct (Table.first _ l) as [d|] eqn:Ef.
  - apply Table.first_Some in Ef as [Hin Ed%String.eqb_eq]. rewrite List.Forall_forall in Hl. by destruct (Hl d Hin).
  - unfold Table.first. cbn. by destruct (String.eqb _ _).
Qed.

(** An imported certificate names its own enrolment when it is presented. *)
Lemma imported_found st l c n fp :
  (0 <= n)%Z -> enrolled st = l ++ [c] -> c_serial c = Num.str n ->
  Forall (fun c => c_serial c <> Num.str n /\ c_serial c <> hex_upper n) l -> find_enrolled (hex_upper n) fp st = Some c.
Proof.
  intros Hn E Es Hl. destruct (CertLoginFacts.parse_hex_upper n Hn) as [Hp Hh]. apply Forall_and in Hl as [Hd Hx].
  unfold find_enrolled. rewrite (by_serial_snoc _ st l c Hx E), Es. destruct (String.eqb (Num.str n) (hex_upper n)); [done|].
  rewrite Hh, Hp. cbn [mbind option_bind]. by rewrite (by_serial_snoc _ st l c Hd E), Es, StrFacts.eqb_refl.
Qed.

(** C12: Any account reaches any other, an administrator's too.  Whoever is authenticated,
    with whatever role, can mint a key with all permissions; the key passes the check of
    every route, for a year; and one of these routes enrols the caller's certificate for
    another user without looking at the caller's role, after which presenting the
    certificate opens that user's session. *)
Theorem any_account_becomes_administrator st m0 cookie uid a pem p x token max_keys env r now now' t t' t2 t2' trail :
  Auth.require_auth [] cookie now now' m0 = (manager st, Auth.Granted uid) ->
  (Table.count (ApiKeys.active_of (Auth.r_user_id uid)) (Auth.api_keys (manager st)) < max_keys)%nat ->
  ApiKeys.days_ok 365 now = true -> (t <= now + Time.days 365)%Z ->
  Forall (fun k => Auth.k_key_hash k <> sha256_hex ("ucm_ak_" ^+ token)) (Auth.api_keys (manager st)) ->
  user_by_id (Auth.u_id a) st = Some a -> Auth.u_active a = true -> is_mtls_enabled st = true ->
  Str.strip pem = pem -> Str.startswith pem "-----BEGIN" = true -> load_pem_certificate pem = inl x ->
  peercert r = Some p -> Str.truthy p = true -> load_der_certificate p = Some x -> (0 <= xc_serial x)%Z ->
  (xc_not_before x <= t2 <= xc_not_after x)%Z ->
  Forall (fun c => c_serial c <> Num.str (xc_serial x) /\ c_serial c <> hex_upper (xc_serial x)) (enrolled st) ->
  exists key row m2 trail2 m3 r3 st4 trail4 id,
    ApiKeys.create_api_key py_repr max_keys (Auth.r_user_id uid) star_key token now now' (manager st) trail
      = (m2, trail2, ApiKeys.KeyCreated key row) /\
    Auth.require_auth ["admin:users"] (Some key) t t' m2 = (m3, Auth.Granted r3) /\
    Auth.r_user_id r3 = Auth.r_user_id uid /\
    create_user_mtls_certificate subject_cn column_int (Auth.u_id a)
      (Some (JDict [("mode", JStr "import"); ("pem", JStr pem)])) (with_manager m3 st) trail2 = (st4, trail4, Created id) /\
    let st5 := (process_client_certificate subject_cn env r t2 t2' (with_session Auth.empty_session None st4) trail4).1 in
    Auth.s_user_id (Auth.sess (manager st5)) = Some (Auth.u_id a) /\ auth_method st5 = Some "certificate".
Proof.
  intros _ Hcount Hdays Ht Hfresh Ha Hact Hon Hstrip Hbegin Hpem Hp Htp Hder Hn Hdates Hserial.
  destruct (star_key_minted max_keys (Auth.r_user_id uid) token now now' (manager st) trail Hcount Hdays Hfresh)
    as (m2 & trail2 & row & E1 & _ & _ & Hkey).
  destruct (Hkey ["admin:users"] t t' Ht) as (m3 & r3 & E2 & Er & Hu3 & Hc3).
  assert (user_by_id (Auth.u_id a) (with_manager m3 st) = Some a) as Ha3
    by (unfold user_by_id in *; cbn [manager with_manager]; by rewrite Hu3).
  assert (by_serial (Num.str (xc_serial x)) st = None) as Hno.
  { destruct (by_serial _ st) as [c|] eqn:E; [|done]. apply Table.first_Some in E as [Hin Ec%String.eqb_eq].
    rewrite List.Forall_forall in Hserial. by destruct (Hserial c Hin). }
  exists ("ucm_ak_" ^+ token), row, m2, trail2, m3, r3. unfold create_user_mtls_certificate. rewrite Ha3.
  cbn [body_or_empty mbind option_bind Json.truthy negb Json.is_dict Json.get_or Json.get Json.assoc String.eqb Ascii.eqb Bool.eqb default].
  unfold stripped. cbn [Json.get_or Json.get Json.assoc String.eqb Ascii.eqb Bool.eqb default from_option id]. rewrite Hstrip.
  assert (Str.truthy pem = true) as Htr by (destruct pem; [by cbn in Hbegin|done]). rewrite Htr. cbn [negb].
  unfold pem_of. rewrite Hbegin, Hpem. change (by_serial ?s (with_manager m3 st)) with (by_serial s st). rewrite Hno.
  set (name := imported_name _ _ x). destruct (import_rows _ _ _ x pem name _) as [st4 id] eqn:E4.
  eexists st4, _, id. split; [exact E1|]. split; [exact E2|]. split; [exact Er|]. split; [reflexivity|].
  assert (exists c, enrolled st4 = enrolled st ++ [c] /\ c_serial c = Num.str (xc_serial x) /\ c_enabled c = true /\
    c_user_id c = Auth.u_id a /\ manager st4 = m3) as (c & C1 & C2 & C3 & C4 & C5).
  { unfold import_rows, enrol, certificate_row in E4. destruct (cert_by_serial _ _); injection E4 as <- _; by eexists. }
  eapply process_opens; try done.
  - unfold is_mtls_enabled, config_value in *. cbn [manager with_session Auth.with_sess Auth.cfg]. by rewrite C5, Hc3.
  - eapply (imported_found _ (enrolled st) c); done.
  - unfold user_by_id in *. cbn [manager with_session Auth.with_sess Auth.users]. by rewrite C4, C5, Hu3.
Qed.

(** * From any account to any stored private key *)

Lemma own_snoc l c uid :
  c_id c = Table.next_id c_id l -> c_user_id c = uid ->
  Table.first (fun e => (c_id e =? Table.next_id c_id l)%Z && (c_user_id e =? uid)%Z) (l ++ [c]) = Some c.
Proof.
  intros Hi Hu. rewrite Table.first_app. destruct (Table.first _ l) as [e|] eqn:Ee.
  - apply Table.first_Some in Ee as [Hin [Ee%Z.eqb_eq _]%andb_true_iff]. apply (Table.next_id_fresh c_id) in Hin. lia.
  - unfold Table.first. cbn. by rewrite Hi, Hu, !Z.eqb_refl.
Qed.

(** Any account reads any stored private key that is not encrypted: it imports a
    certificate of its own making that repeats the serial number of a stored
    certificate, and then downloads what is stored under that serial number, the
    private key included. *)
Theorem any_account_reads_private_keys me pem y c crt cp x prv kp key pw now st trail :
  Str.strip pem = pem -> Str.startswith pem "-----BEGIN" = true -> load_pem_certificate pem = inl y ->
  (now <= xc_not_after y)%Z -> by_serial (Num.str (xc_serial y)) st = None ->
  cert_by_serial (Num.str (xc_serial y)) st = Some c ->
  r_crt c = Some crt -> Str.truthy crt = true -> b64decode crt = Some cp -> load_pem_certificate cp = inl x ->
  r_prv c = Some prv -> Str.truthy prv = true -> b64decode prv = Some kp -> load_pem_private_key kp None = Some key ->
  (8 <= String.length pw)%nat ->
  exists st1 trail1 id trail2 chain,
    enroll_import_certificate subject_cn column_int me (Some (JDict [("pem", JStr pem)])) now st trail = (st1, trail1, Created id) /\
    download_mtls_certificate me id "p12" pw st1 trail1 = (trail2, inr (P12 key x chain)).
Proof.
  intros Hstrip Hbegin Hpem Hdate Hno Hc Ecrt Htc Ecp Hx Eprv Htp Ekp Hkey Hpw.
  unfold enroll_import_certificate.
  cbn [body_or_empty mbind option_bind Json.truthy negb Json.is_dict Json.get_or Json.get Json.assoc String.eqb Ascii.eqb Bool.eqb default].
  unfold stripped. cbn [Json.get_or Json.get Json.assoc String.eqb Ascii.eqb Bool.eqb default from_option id]. rewrite Hstrip.
  assert (Str.truthy pem = true) as Htr by (destruct pem; [by cbn in Hbegin|done]). rewrite Htr. cbn [negb].
  unfold pem_of. rewrite Hbegin, Hpem. destruct (Z.ltb_spec (xc_not_after y) now); [lia|]. rewrite Hno. cbn [Json.truthy andb].
  unfold import_rows, certificate_row. rewrite Hc. unfold enrol. cbn [fst snd].
  set (name := imported_name _ _ y). eexists _, _, _. unfold download_mtls_certificate.
  eexists _, _. split; [reflexivity|]. cbn [enrolled with_enrolled]. rewrite own_snoc by done. cbn [c_serial].
  change (cert_by_serial ?s (with_enrolled _ st)) with (cert_by_serial s st). rewrite Hc.
  cbn [mbind option_bind]. rewrite Ecrt. cbn [otruthy]. rewrite Htc, ?Ecrt. cbn [mbind option_bind]. rewrite Ecp.
  destruct (Nat.ltb_spec (String.length pw) 8); [lia|]. rewrite Eprv. cbn [otruthy]. rewrite Htp. cbn [negb mbind option_bind].
  rewrite Ekp. cbn [mbind option_bind]. by rewrite Hkey, Hx.
Qed.

(** * What the own routes keep *)

(** Nothing is enrolled, or one certificate for the caller. *)
Definition for_oneself (me : Auth.user) (st st' : state) : Prop :=
  manager st' = manager st /\
  (enrolled st' = enrolled st \/ exists c, enrolled st' = enrolled st ++ [c] /\ c_user_id c = Auth.u_id me).

(** Through the routes for one's own certificates an account that is no administrator
    enrols certificates for itself alone, and deletes only its own. *)
Theorem own_routes_enrol_oneself me r data now st trail cert_id :
  Auth.u_role me <> "admin" ->
  for_oneself me st (enroll_presented_certificate subject_cn me r data now st trail).1.1 /\
  for_oneself me st (enroll_import_certificate subject_cn column_int me data now st trail).1.1 /\
  for_oneself me st (assign_certificate column_int py_repr me data st trail).1.1 /\
  let st' := (delete_mtls_certificate me cert_id st trail).1.1 in
  manager st' = manager st /\
  (NoDup (List.map c_id (enrolled st)) ->
   forall c, In c (enrolled st) -> In c (enrolled st') \/ c_user_id c = Auth.u_id me).
Proof.
  intros Hrole. assert (String.eqb (Auth.u_role me) "admin" = false) as Hr by (by apply String.eqb_neq).
  assert (forall st0, for_oneself me st0 st0) as Hid by (intros st0; split; [done|by left]).
  split; [|split; [|split]].
  - unfold enroll_presented_certificate. destruct (match native subject_cn r with Some i => _ | None => _ end) as [i|]; [|apply Hid].
    destruct (match i_valid_until i with Some t => _ | None => _ end); [apply Hid|].
    destruct (match i_valid_from i with Some t => _ | None => _ end); [apply Hid|].
    destruct (i_serial i) as [s|]; [|apply Hid]. destruct (by_serial s st); [apply Hid|].
    destruct (body_or_empty data); [|apply Hid]. destruct (if Json.truthy _ then _ else _); [|apply Hid].
    cbn. split; [done|]. right. by eexists.
  - unfold enroll_import_certificate. destruct (body_or_empty data) as [j|]; [|apply Hid].
    destruct (stripped "pem" j); [|apply Hid]. destruct (stripped "name" j); [|apply Hid].
    destruct (negb _); [apply Hid|]. destruct (pem_of s); [|apply Hid]. destruct (load_pem_certificate _) as [c|]; [|apply Hid].
    destruct (_ <? _)%Z; [apply Hid|]. destruct (by_serial _ st); [apply Hid|]. rewrite Hr, andb_false_r.
    unfold import_rows, certificate_row. destruct (cert_by_serial _ st); cbn; (split; [done|]; right; by eexists).
  - unfold assign_certificate. destruct (body_or_empty data) as [j|]; [|apply Hid]. destruct (negb _); [apply Hid|].
    destruct (Users.key_of _ _) as [k|]; [|apply Hid]. destruct (k ≫= _) as [c|]; [|apply Hid]. destruct (negb _); [apply Hid|].
    destruct (assign_target _ _ _ _ _) as [?|target] eqn:Et; [apply Hid|].
    assert (target = me) as ->.
    { revert Et. unfold assign_target. rewrite Hr, andb_false_r. destruct (Permissions.mem _ _); [by intros [= ->]|].
      by destruct (bool_decide _); [intros [= ->]|]. }
    destruct (r_serial_number c) as [s|]; [|apply Hid]. destruct (by_serial s st); [apply Hid|].
    destruct (r_crt c ≫= _) as [[pem x]|]; [|apply Hid]. destruct (if Json.truthy _ then _ else _); [|apply Hid].
    cbn. split; [done|]. right. by eexists.
  - unfold delete_mtls_certificate. destruct (enrolled_by_id cert_id st) as [e|] eqn:Ee; [|by split; [|auto]].
    rewrite Hr. cbn [negb]. rewrite andb_true_r. destruct (Z.eqb_spec (c_user_id e) (Auth.u_id me)) as [Eo|]; [|by split; [|auto]].
    split; [done|]. intros Hnd c Hc. cbn. destruct (Z.eqb_spec (c_id c) cert_id) as [E|E].
    + right. apply Table.first_Some in Ee as [Hin Ei%Z.eqb_eq].
      by assert (c = e) as -> by (apply (Table.NoDup_map_eq c_id (enrolled st)); [done..|congruence]).
    + left. apply Table.In_delete. split; [done|]. by apply Z.eqb_neq.
Qed.

End Facts.
End CertLoginRisks.

(** Certificate login on a small installation, with an executable stand-in for the loaders
    of the certificate library. *)
Module CertLoginRun.
Import Base64 SmartParser CertLogin CertEnroll.
Local Open Scope string_scope.
Local Open Scope list_scope.
#[local] Existing Instance list_sink.
#[local] Existing Instance sha256_hashes.

(** A certificate is written in one character, its serial number counted from [0]; its
    DER form is that character and its PEM form has it behind the first marker. *)
Definition toy (c : ascii) : xcert :=
  XCert ("CN=" ^+ String c EmptyString) "CN=ca" (Z.of_N (Str.code c) - 48) 0 (Time.days 3650) None (RSA 2048) None ""
    (String c EmptyString).
#[local] Instance toy_loader : Loader := {|
  load_pem_certificate s := match Str.drop 28 s with String c _ => inl (toy c) | EmptyString => inr "no certificate" end;
  load_pem_csr s := inr "no request";
  load_pem_private_key s p := Some (XKey (RSA 2048) (Some s) None);
  load_der_certificate s := match s with String c _ => Some (toy c) | EmptyString => None end;
  load_der_private_key s p := None; load_pkcs12 s p := None; load_der_pkcs7 s := None; load_pem_pkcs7 s := None;
  verify parent child := None;
|}.
Definition cn (c : xcert) : option string := Some (xc_subject c).
Definition pem (c : string) : string := "-----BEGIN CERTIFICATE----- " ^+ c ^+ " -----END CERTIFICATE-----".

Definition root : Auth.user := Auth.User 1 "root" "admin" true.
Definition eve : Auth.user := Auth.User 2 "eve" "viewer" true.
Definition site_manager : Auth.state :=
  Auth.State [root; eve] [] (Auth.Session (Some 2%Z) (Some "eve") (Some (Auth.SAt 0)) (Some (Auth.SAt 0)) None true)
    [("mtls_enabled", Some "true")].
(** A stored server certificate with serial number 5 and its key, and the administrator's
    enrolment under the decimal serial number 10. *)
Definition server : cert_row :=
  CertRow 1 "server" None (Some (b64encode (pem "5"))) (Some (b64encode "secret key")) "server_cert" (Some "CN=5")
    (Some "5") (Some "CN=ca") (Some "5") None None None.
Definition admin_cert : auth_cert := AuthCert 1 1 None "10" "CN=:" None None "admin" true None None None.
Definition site : state := State site_manager None [admin_cert] [server] [] ∅.
Definition from_tls (p : string) : request := Request (Some p) "10.0.0.9" [] None.
Definition by_headers : request :=
  Request None "127.0.0.1" [("X-Ssl-Client-Verify", "SUCCESS"); ("X-Ssl-Client-S-Dn", "CN=root"); ("X-Ssl-Client-Serial", "10")] None.
Definition nobody : state := with_session Auth.empty_session None site.

(** The same headers under the names the code asks for. *)
Example headers_would_do :
  (login_mtls cn (Request None "203.0.113.1" [("X-SSL-Client-Verify", "SUCCESS"); ("X-SSL-Client-S-DN", "CN=root");
     ("X-SSL-Client-Serial", "10")] None) 0 nobody).2 = LoggedIn 1.
Proof. vm_compute. reflexivity. Qed.
Example dn_components : parse_dn_string "CN=John\, Doe, O=ACME" = [("CN", "John, Doe"); ("O", "ACME")].
Proof. vm_compute. reflexivity. Qed.
Example proxies : (get_trusted_proxies "", get_trusted_proxies "*", get_trusted_proxies "10.0.0.1, ,10.0.0.2")
  = (Some ["127.0.0.1"; "::1"], None, Some ["10.0.0.1"; "10.0.0.2"]).
Proof. vm_compute. reflexivity. Qed.

Lemma proxy_headers_witness :
  extract_certificate cn "" by_headers 0 = None /\ (login_mtls cn by_headers 0 nobody).2 = Failure 401 "No client certificate presented".
Proof.
  destruct (CertLoginRisks.proxy_headers_are_never_read cn by_headers 0 nobody) as [H1 H2];
    [repeat (constructor; [reflexivity|]); constructor|].
  split; [exact (H1 "")|]. destruct (H2 eq_refl) as [E _]. exact (f_equal snd E).
Defined.

(** Solves the premises of the risks by evaluation. *)
Ltac premise := first [reflexivity | vm_compute; split; discriminate | vm_compute; discriminate | vm_compute; lia].

(** Presenting number 16, which is 10 in hexadecimal. *)
Lemma serial_confusion_witness :
  let st' := (process_client_certificate cn "" (from_tls "@") 1 1 nobody []).1 in
  xc_serial (toy "@") = 16%Z /\ Auth.s_user_id (Auth.sess (manager st')) = Some 1%Z.
Proof.
  split; [reflexivity|].
  apply (CertLoginRisks.serial_numbers_are_confused cn "" (from_tls "@") 1 1 nobody [] "@" (toy ":") (toy "@") admin_cert root);
    premise.
Defined.

Lemma session_witness :
  let '(st', trail') := process_client_certificate cn "" (from_tls "@") 1 1 nobody [] in
  exists i serial c u, is_mtls_enabled nobody = true /\ i_serial i = Some serial /\
    find_enrolled serial (i_fingerprint i) nobody = Some c /\ Auth.u_active u = true /\
    Auth.s_user_id (Auth.sess (manager st')) = Some (Auth.u_id u).
Proof.
  destruct (process_client_certificate cn "" (from_tls "@") 1 1 nobody []) as [st' trail'] eqn:E.
  destruct (CertLoginFacts.certificate_session_is_enrolled cn "" (from_tls "@") 1 1 nobody [] st' trail' E)
    as (i & serial & c & u & H1 & _ & _ & H2 & H3 & _ & _ & _ & _ & _ & _ & H4 & H5).
  - discriminate.
  - apply (f_equal fst) in E. cbn [fst] in E. rewrite <-E. premise.
  - exists i, serial, c, u. auto.
Defined.

(** [eve] becomes [root] with the certificate [3]. *)
Lemma takeover_witness :
  exists st4 trail4,
    let st5 := (process_client_certificate cn "" (from_tls "3") 4 4 (with_session Auth.empty_session None st4) trail4).1 in
    Auth.s_user_id (Auth.sess (manager st5)) = Some 1%Z.
Proof.
  destruct (CertLoginRisks.any_account_becomes_administrator cn Num.py_int Json.dumps
    (with_manager (Auth.require_auth [] None 1 1 site_manager).1 site) site_manager None
    (Auth.AuthResult 2 (Some eve) (Auth.BySession None) (Json.strings (Permissions.get_role_permissions "viewer")))
    root (pem "3") "3" (toy "3") "t" 10 "" (from_tls "3") 1 1 2 2 4 4 [])
    as (key & row & m2 & trail2 & m3 & r3 & st4 & trail4 & id & E1 & _ & _ & _ & H & _);
    try premise; [constructor|repeat constructor; discriminate|].
  exists st4, trail4. exact H.
Defined.

(** [eve] reads the key of [server] with a certificate that carries the number 5. *)
Lemma key_theft_witness :
  exists st1 trail1 id trail2 chain,
    enroll_import_certificate cn Num.py_int eve (Some (JDict [("pem", JStr (pem "5"))])) 1 nobody [] = (st1, trail1, Created id) /\
    download_mtls_certificate eve id "p12" "12345678" st1 trail1
      = (trail2, inr (P12 (XKey (RSA 2048) (Some "secret key") None) (toy "5") chain)).
Proof.
  eapply (CertLoginRisks.any_account_reads_private_keys cn Num.py_int eve (pem "5") (toy "5") server
    (b64encode (pem "5")) (pem "5") (toy "5") (b64encode "secret key") "secret key");
    premise.
Defined.

Lemma own_routes_witness :
  let st' := (enroll_import_certificate cn Num.py_int eve
    (Some (JDict [("pem", JStr (pem "5")); ("user_id", JInt 1)])) 1 nobody []).1.1 in
  List.map c_user_id (enrolled st') = [1; 2]%Z /\ CertLoginRisks.for_oneself eve nobody st'.
Proof.
  split; [vm_compute; reflexivity|].
  apply (CertLoginRisks.own_routes_enrol_oneself cn Num.py_int Json.dumps eve (from_tls "5")
    (Some (JDict [("pem", JStr (pem "5")); ("user_id", JInt 1)])) 1 nobody [] 1). discriminate.
Defined.

End CertLoginRun.
