(* ===== verification/Scheduler.v ===== *)
(** The background scheduler: [services/scheduler_service.py] and the registrations in
    [app.py].  Threads are explicit: the state keeps where each loop thread is, an event
    is one step of one thread, of the rest of the program, or of the clock.  Task objects
    live in a store, because a running loop holds them beyond their registration. *)
From S2P Require Import Prelude.

Module Scheduler.
Local Open Scope string_scope.
Local Open Scope list_scope.

(** A dict: a new key goes to the end, an old one keeps its place. *)
Fixpoint put {A} (k : string) (v : A) (kv : list (string * A)) : list (string * A) :=
  match kv with
  | [] => [(k, v)]
  | (k', v') :: kv' => if String.eqb k k' then (k, v) :: kv' else (k', v') :: put k v kv'
  end.

Section Service.
(** [W] is the rest of the program: tables, files, mails. *)
Context {W : Type}.

(** What a call of a task's function leaves: the rest of the program, the time it took,
    and the text of the exception it ended with, if any. *)
Record outcome := Outcome { o_world : W; took : N; o_error : option string }.

Record ScheduledTask := Task {
  name : string;
  func : bool -> Z -> W -> outcome;  (* with or without an application context *)
  interval : Z;                      (* seconds *)
  description : string;
  enabled : bool;
  last_run : option Z;
  next_run : option Z;
  run_count : nat;
  last_error : option string;
  last_duration : N;                 (* microseconds *)
  created_at : Z;
}.

(** Where a loop thread is: at the test of [_running], in the [for] over the tasks to
    run, in [time.sleep], or at its end. *)
Inductive point := Top | Executing (todo : list nat) | Sleeping (until : Z) | Ended.

Record state := State {
  objects : list ScheduledTask;
  tasks : list (string * nat);       (* the dict: the names of the objects *)
  threads : list point;
  thread : option nat;               (* the attribute [_thread] *)
  running : bool;
  app : bool;
  wake_interval : Z;
  now : Z;
  world : W;
}.

Definition with_objects l st :=
  State l (tasks st) (threads st) (thread st) (running st) (app st) (wake_interval st) (now st) (world st).
Definition with_tasks l st :=
  State (objects st) l (threads st) (thread st) (running st) (app st) (wake_interval st) (now st) (world st).
Definition with_threads l st :=
  State (objects st) (tasks st) l (thread st) (running st) (app st) (wake_interval st) (now st) (world st).
Definition with_running b st :=
  State (objects st) (tasks st) (threads st) (thread st) b (app st) (wake_interval st) (now st) (world st).
Definition with_world t w st :=
  State (objects st) (tasks st) (threads st) (thread st) (running st) (app st) (wake_interval st) t w.

Definition lookup_task (n : string) (st : state) : option nat := Json.assoc n (tasks st).

(** * [ScheduledTask] *)

Definition grace : Z := 30 * Time.second.
Definition should_run (t : Z) (x : ScheduledTask) : bool :=
  if negb (enabled x) then false
  else match last_run x with
  | None => (grace <=? t - created_at x)%Z
  | Some r => (interval x * Time.second <=? t - r)%Z
  end.

(** * [_run_task] *)

Definition succeeded (t : Z) (d : N) (x : ScheduledTask) : ScheduledTask :=
  Task (name x) (func x) (interval x) (description x) (enabled x) (Some t) (Some (t + interval x * Time.second)%Z)
    (S (run_count x)) None d (created_at x).
Definition failed (t : Z) (d : N) (message : string) (x : ScheduledTask) : ScheduledTask :=
  Task (name x) (func x) (interval x) (description x) (enabled x) (Some t) (next_run x)
    (run_count x) (Some message) d (created_at x).

Definition run_task (o : nat) (st : state) : state :=
  match objects st !! o with
  | None => st
  | Some x =>
      let r := func x (app st) (now st) (world st) in
      let t := (now st + Z.of_N (took r))%Z in
      let f := match o_error r with None => succeeded t (took r) | Some m => failed t (took r) m end in
      with_world t (o_world r) (with_objects (alter f o (objects st)) st)
  end.

(** * The loop: one step of the thread [k] *)

Definition due (st : state) : list nat :=
  List.filter (fun o => match objects st !! o with Some x => should_run (now st) x | None => false end)
    (List.map snd (tasks st)).

Definition move (k : nat) (p : point) (st : state) : state := with_threads (<[k := p]> (threads st)) st.

Definition scheduler_loop (k : nat) (st : state) : state :=
  match threads st !! k with
  | Some Top => move k (if running st then Executing (due st) else Ended) st
  | Some (Executing []) => move k (Sleeping (now st + wake_interval st * Time.second)%Z) st
  | Some (Executing (o :: todo)) => run_task o (move k (Executing todo) st)
  | Some (Sleeping u) => if (now st <? u)%Z then st else move k Top st
  | Some Ended | None => st
  end.

(** * Calls from other threads *)

Inductive call :=
| RegisterTask (n : string) (f : bool -> Z -> W -> outcome) (seconds : Z) (text : string) (on : bool)
| UnregisterTask (n : string) | EnableTask (n : string) | DisableTask (n : string)
| RunTaskNow (n : string) | Start (with_app : bool) | Stop.

Definition register_task n f seconds text on st : state :=
  let o := length (objects st) in
  with_tasks (put n o (tasks st))
    (with_objects (objects st ++ [Task n f seconds text on None None 0 None 0 (now st)]) st).

Definition unregister_task (n : string) (st : state) : state * bool :=
  match lookup_task n st with
  | Some _ => (with_tasks (List.filter (fun kv => negb (String.eqb n kv.1)) (tasks st)) st, true)
  | None => (st, false)
  end.

Definition set_enabled (b : bool) (x : ScheduledTask) : ScheduledTask :=
  Task (name x) (func x) (interval x) (description x) b (last_run x) (next_run x) (run_count x) (last_error x)
    (last_duration x) (created_at x).
Definition switch_task (b : bool) (n : string) (st : state) : state * bool :=
  match lookup_task n st with
  | Some o => (with_objects (alter (set_enabled b) o (objects st)) st, true)
  | None => (st, false)
  end.
Definition enable_task := switch_task true.
Definition disable_task := switch_task false.

(** The status it returns is the task after the run. *)
Definition run_task_now (n : string) (st : state) : state * option ScheduledTask :=
  match lookup_task n st with
  | Some o => let st' := run_task o st in (st', objects st' !! o)
  | None => (st, None)
  end.
Definition get_task_status (n : string) (st : state) : option ScheduledTask :=
  o ← lookup_task n st; objects st !! o.

Definition start (a : bool) (st : state) : state :=
  if running st then st
  else State (objects st) (tasks st) (threads st ++ [Top]) (Some (length (threads st))) true a (wake_interval st)
         (now st) (world st).

(** [stop] clears the flag and then waits for the thread; [joined] is its answer when the
    wait is over. *)
Definition stop (st : state) : state := with_running false st.
Definition joined (st : state) : bool :=
  match k ← thread st; threads st !! k with Some Ended | None => true | Some _ => false end.

Definition serve (c : call) (st : state) : state :=
  match c with
  | RegisterTask n f seconds text on => register_task n f seconds text on st
  | UnregisterTask n => (unregister_task n st).1
  | EnableTask n => (enable_task n st).1
  | DisableTask n => (disable_task n st).1
  | RunTaskNow n => (run_task_now n st).1
  | Start a => start a st
  | Stop => stop st
  end.

(** * Executions *)

Inductive event := Loop (k : nat) | Api (c : call) | Tick (d : N) | Elsewhere (w : W).

Definition step (e : event) (st : state) : state :=
  match e with
  | Loop k => scheduler_loop k st
  | Api c => serve c st
  | Tick d => with_world (now st + Z.of_N d)%Z (world st) st
  | Elsewhere w => with_world (now st) w st
  end.
Definition run (l : list event) (st : state) : state := fold_left (fun st e => step e st) l st.

(** [init_scheduler]; [None] is the ValueError. *)
Definition init_scheduler (a : bool) (wake : Z) (autostart : bool) (t : Z) (w : W) : option state :=
  if (wake <=? 0)%Z then None
  else
    let st := State [] [] [] None false false wake t w in
    Some (if autostart then start a st
          else if a then State [] [] [] None false true wake t w else st).

End Service.
Arguments ScheduledTask W : clear implicits.
Arguments state W : clear implicits.
Arguments event W : clear implicits.
Arguments call W : clear implicits.
Arguments outcome W : clear implicits.

(** What [app.py] registers before it starts the scheduler, the functions left open. *)
Definition registered_tasks : list (string * Z * string) :=
  [("crl_auto_regen", 3600, "Auto-regenerate expiring CRLs");
   ("audit_log_cleanup", 86400, "Clean up old audit logs based on retention policy");
   ("cert_expiry_alerts", 86400, "Check for expiring certificates and send alerts");
   ("acme_auto_renewal", 21600, "Auto-renew Let's Encrypt certificates");
   ("ski_aki_backfill", 3600, "Backfill SKI/AKI and repair certificate chain links");
   ("cert_auto_renewal", 43200, "Auto-renew certificates before expiry");
   ("ocsp_cache_cleanup", 86400, "Clean up expired OCSP response cache");
   ("update_check", 86400, "Check for available UCM updates");
   ("discovery_scan", 60, "Run scheduled network discovery scans");
   ("scheduled_reports", 60, "Send scheduled email reports");
   ("session_cleanup", 900, "Clean up expired session files")]%Z.

Definition start_scheduler {W} (func_of : string -> bool -> Z -> W -> outcome W) (t : Z) (w : W) : option (state W) :=
  st ← init_scheduler true 60 false t w;
  Some (start true (fold_left (fun st '(n, seconds, text) => register_task n (func_of n) seconds text true st)
                      registered_tasks st)).

End Scheduler.
