(* ===== verification/SchedulerFacts.v ===== *)
(** What the scheduler guarantees: every enabled task runs again and again, whatever the
    other tasks do and however they fail; and what a restart breaks. *)
From S2P Require Import Prelude Scheduler.

Module SchedulerFacts.
Import Scheduler.
Local Open Scope string_scope.
Local Open Scope list_scope.

(** * The store of tasks *)
Section Facts.
Context {W : Type}.
Implicit Types (st : state W) (e : event W) (x : ScheduledTask W).

(** Every name has an object of its own. *)
Record wf st : Prop := {
  wf_objects : Forall (fun kv => kv.2 < length (objects st)) (tasks st);
  wf_distinct : NoDup (List.map snd (tasks st));
}.

Lemma put_In {A} k (v : A) l kv : In kv (put k v l) -> kv = (k, v) \/ In kv l.
Proof.
  induction l as [|[k' v'] l IH]; cbn; [naive_solver|]. destruct (String.eqb k k'); cbn; naive_solver.
Qed.
Lemma put_other {A} k k' (v : A) l : k' <> k -> Json.assoc k' (put k v l) = Json.assoc k' l.
Proof.
  intros Hk. induction l as [|[k2 v2] l IH]; cbn.
  - by destruct (String.eqb_spec k' k).
  - destruct (String.eqb_spec k k2) as [<-|]; cbn; [by destruct (String.eqb_spec k' k)|by rewrite IH].
Qed.
Lemma put_NoDup {A} k (v : A) l :
  NoDup (List.map snd l) -> ~ In v (List.map snd l) -> NoDup (List.map snd (put k v l)).
Proof.
  induction l as [|[k' v'] l IH]; cbn; intros Hl Hv; [repeat constructor; set_solver|].
  inversion Hl as [|? ? Hn Hd]; subst. destruct (String.eqb k k'); cbn.
  - constructor; [intros Hin%list_elem_of_In; tauto|done].
  - constructor; [|apply IH; tauto]. intros (kv & E & Hin)%list_elem_of_In%in_map_iff.
    apply put_In in Hin as [->|Hin]; [cbn in E; naive_solver|]. apply Hn, list_elem_of_In, in_map_iff. by exists kv.
Qed.

Lemma run_task_length o st : length (objects (run_task o st)) = length (objects st).
Proof. unfold run_task. destruct (objects st !! o); [|done]. cbn. by rewrite length_alter. Qed.
Lemma run_task_tasks o st : tasks (run_task o st) = tasks st.
Proof. unfold run_task. by destruct (objects st !! o). Qed.

Lemma scheduler_loop_keeps k st :
  tasks (scheduler_loop k st) = tasks st /\ length (objects (scheduler_loop k st)) = length (objects st).
Proof.
  unfold scheduler_loop. destruct (threads st !! k) as [[|[|o todo]|u|]|]; try done.
  - by rewrite run_task_length, run_task_tasks.
  - by destruct (now st <? u)%Z.
Qed.

Lemma wf_step e st : wf st -> wf (step e st).
Proof.
  intros [Ho Hd].
  assert (forall st', tasks st' = tasks st -> length (objects st') = length (objects st) -> wf st') as Hsame.
  { intros st' E1 E2. split; [by rewrite E1, E2|by rewrite E1]. }
  destruct e as [k|c|d|w]; cbn; [apply Hsame; apply scheduler_loop_keeps| |by apply Hsame|by apply Hsame].
  destruct c as [n f seconds text on|n|n|n|n|a|]; cbn.
  - unfold register_task. split; cbn.
    + apply List.Forall_forall. intros kv [->|Hin]%put_In; rewrite length_app; cbn; [lia|].
      rewrite List.Forall_forall in Ho. specialize (Ho _ Hin). lia.
    + apply put_NoDup; [done|]. intros ([? o] & E & Hin)%in_map_iff. cbn in E. subst o.
      rewrite List.Forall_forall in Ho. specialize (Ho _ Hin). cbn in Ho. lia.
  - unfold unregister_task. destruct (lookup_task n st); [|by apply Hsame]. split; cbn.
    + apply List.Forall_forall. intros kv [Hin _]%filter_In. rewrite List.Forall_forall in Ho. by apply Ho.
    + clear Ho Hsame. induction (tasks st) as [|kv l IH]; cbn; [done|]. inversion Hd as [|? ? Hn Hl]; subst.
      destruct (negb _); cbn; [|by apply IH]. constructor; [|by apply IH]. intros Hin. apply Hn.
      apply list_elem_of_In, in_map_iff in Hin as (kv' & <- & [Hin _]%filter_In).
      by apply list_elem_of_In, in_map.
  - unfold enable_task, switch_task. destruct (lookup_task n st); apply Hsame; cbn; by rewrite ?length_alter.
  - unfold disable_task, switch_task. destruct (lookup_task n st); apply Hsame; cbn; by rewrite ?length_alter.
  - unfold run_task_now. destruct (lookup_task n st); apply Hsame; cbn; by rewrite ?run_task_tasks, ?run_task_length.
  - unfold start. by destruct (running st); apply Hsame.
  - by apply Hsame.
Qed.

(** Two names never share an object. *)
Lemma lookup_inj st n n' o : wf st -> lookup_task n st = Some o -> lookup_task n' st = Some o -> n = n'.
Proof.
  intros [_ Hd]. unfold lookup_task. induction (tasks st) as [|[k v] l IH]; cbn in *; [done|].
  inversion Hd as [|? ? Hn Hl]; subst. assert (forall m, Json.assoc m l <> Some v) as Hv.
  { intros m E. apply Hn. clear -E. induction l as [|[k2 v2] l IH]; [done|]. cbn in E |- *.
    destruct (String.eqb m k2); [injection E as ->; by left|right; by apply IH]. }
  destruct (String.eqb_spec n k) as [->|], (String.eqb_spec n' k) as [->|]; try done.
  - intros [= <-] E. by destruct (Hv n').
  - intros E [= <-]. by destruct (Hv n).
  - by apply IH.
Qed.

(** * One step *)

(** The event runs the object [o]: a loop thread takes it, or somebody asks for it. *)
Definition runs (o : nat) e st : Prop :=
  match e with
  | Loop k => exists todo, threads st !! k = Some (Executing (o :: todo))
  | Api (RunTaskNow n) => lookup_task n st = Some o
  | _ => False
  end.

(** Nobody stops the scheduler, or removes, replaces or disables the task [n]. *)
Definition calm (n : string) e : Prop :=
  match e with
  | Api (RegisterTask m _ _ _ _) | Api (UnregisterTask m) | Api (DisableTask m) => m <> n
  | Api Stop => False
  | _ => True
  end.

(** The data of a task that only a run changes, and what not even a run changes. *)
Definition same_timing x x' : Prop :=
  last_run x' = last_run x /\ interval x' = interval x /\ created_at x' = created_at x.

Lemma run_task_object o o' st x :
  objects st !! o = Some x ->
  exists x', objects (run_task o' st) !! o = Some x' /\ enabled x' = enabled x /\ (o' <> o -> same_timing x x').
Proof.
  intros Hx. unfold run_task. destruct (objects st !! o') as [y|] eqn:Ey; [|by exists x]. cbn.
  destruct (decide (o' = o)) as [->|Ho].
  - rewrite list_lookup_alter, decide_True, Hx by done. cbn. eexists. split; [done|]. by destruct (o_error _).
  - rewrite list_lookup_alter_ne by done. by exists x.
Qed.

Lemma scheduler_loop_object k o st x :
  objects st !! o = Some x ->
  exists x', objects (scheduler_loop k st) !! o = Some x' /\ enabled x' = enabled x /\
    (~ runs o (Loop k) st -> same_timing x x').
Proof.
  intros Hx. unfold scheduler_loop, runs. destruct (threads st !! k) as [[|[|o' todo]|u|]|] eqn:Ek; try by exists x.
  - destruct (run_task_object o o' (move k (Executing todo) st) x Hx) as (x' & E & He & Hs). exists x'. split; [done|].
    split; [done|]. intros Hn. apply Hs. intros ->. apply Hn. by exists todo.
  - destruct (now st <? u)%Z; by exists x.
Qed.

Lemma object_step n e o st x :
  wf st -> calm n e -> lookup_task n st = Some o -> objects st !! o = Some x ->
  exists x', objects (step e st) !! o = Some x' /\ (enabled x = true -> enabled x' = true) /\
    (~ runs o e st -> same_timing x x').
Proof.
  intros Hwf Hc Hn Hx. assert (exists x', objects st !! o = Some x' /\ (enabled x = true -> enabled x' = true) /\
    (~ runs o e st -> same_timing x x')) as Hid by (by exists x).
  destruct e as [k|c|d|w]; cbn [step]; try done.
  - destruct (scheduler_loop_object k o st x Hx) as (x' & E & He & Hs). exists x'. by rewrite He.
  - destruct c as [m f seconds text on|m|m|m|m|a|]; cbn [serve] in *.
    + exists x. cbn. by rewrite lookup_app_l by (by eapply lookup_lt_Some).
    + unfold unregister_task. by destruct (lookup_task m st).
    + unfold enable_task, switch_task. destruct (lookup_task m st) as [o'|]; [|done]. cbn.
      destruct (decide (o' = o)) as [->|Ho]; [|by rewrite list_lookup_alter_ne].
      rewrite list_lookup_alter, decide_True, Hx by done. by eexists.
    + unfold disable_task, switch_task. destruct (lookup_task m st) as [o'|] eqn:Em; [|done]. cbn.
      rewrite list_lookup_alter_ne; [done|]. intros ->. apply Hc. by eapply lookup_inj.
    + unfold run_task_now. destruct (lookup_task m st) as [o'|] eqn:Em; [|done]. cbn.
      destruct (run_task_object o o' st x Hx) as (x' & E & He & Hs). exists x'. split; [done|]. split; [by rewrite He|].
      intros Hr. apply Hs. intros ->. by apply Hr.
    + unfold start. by destruct (running st).
    + by destruct Hc.
Qed.

Lemma lookup_step n e o st : calm n e -> lookup_task n st = Some o -> lookup_task n (step e st) = Some o.
Proof.
  intros Hc Hn. destruct e as [k|c|d|w]; cbn [step]; try done.
  - unfold lookup_task. by rewrite (proj1 (scheduler_loop_keeps k st)).
  - destruct c as [m f seconds text on|m|m|m|m|a|]; cbn in *; unfold lookup_task in *.
    + cbn. by rewrite put_other.
    + unfold unregister_task. destruct (lookup_task m st); [|done]. cbn. rewrite <-Hn. clear Hn.
      induction (tasks st) as [|[k' v] l IH]; [done|]. cbn. destruct (String.eqb_spec m k') as [<-|Hm]; cbn.
      * destruct (String.eqb_spec n m) as [->|]; [done|exact IH].
      * by rewrite IH.
    + unfold enable_task, switch_task. by destruct (lookup_task m st).
    + unfold disable_task, switch_task. by destruct (lookup_task m st).
    + unfold run_task_now. destruct (lookup_task m st); [|done]. cbn. by rewrite run_task_tasks.
    + unfold start. by destruct (running st).
    + done.
Qed.

Lemma run_task_threads o st :
  threads (run_task o st) = threads st /\ running (run_task o st) = running st /\ (now st <= now (run_task o st))%Z.
Proof. unfold run_task. destruct (objects st !! o); [|done]. cbn. repeat split. lia. Qed.

(** Only a step of the thread [k] moves it, and while the scheduler runs it does not end. *)
Lemma point_step k e st p :
  threads st !! k = Some p -> e <> Loop k -> threads (step e st) !! k = Some p.
Proof.
  intros Hp He. destruct e as [j|c|d|w]; cbn [step]; try done.
  - assert (j <> k) as Hj by congruence. unfold scheduler_loop. destruct (threads st !! j) as [[|[|o todo]|u|]|]; try done.
    + cbn. by rewrite list_lookup_insert_ne.
    + cbn. by rewrite list_lookup_insert_ne.
    + rewrite (proj1 (run_task_threads _ _)). cbn. by rewrite list_lookup_insert_ne.
    + destruct (now st <? u)%Z; [done|]. cbn. by rewrite list_lookup_insert_ne.
  - destruct c as [m f seconds text on|m|m|m|m|a|]; cbn; try done.
    + unfold unregister_task. by destruct (lookup_task m st).
    + unfold enable_task, switch_task. by destruct (lookup_task m st).
    + unfold disable_task, switch_task. by destruct (lookup_task m st).
    + unfold run_task_now. destruct (lookup_task m st); [|done]. cbn. by rewrite (proj1 (run_task_threads _ _)).
    + unfold start. destruct (running st); [done|]. cbn. rewrite lookup_app_l; [done|]. by eapply lookup_lt_Some.
Qed.

Lemma running_step n e st : calm n e -> running st = true -> running (step e st) = true.
Proof.
  intros Hc Hr. destruct e as [k|c|d|w]; cbn [step]; try done.
  - unfold scheduler_loop. destruct (threads st !! k) as [[|[|o todo]|u|]|]; try done.
    + by rewrite (proj1 (proj2 (run_task_threads _ _))).
    + by destruct (now st <? u)%Z.
  - destruct c as [m f seconds text on|m|m|m|m|a|]; cbn in *; try done.
    + unfold unregister_task. by destruct (lookup_task m st).
    + unfold enable_task, switch_task. by destruct (lookup_task m st).
    + unfold disable_task, switch_task. by destruct (lookup_task m st).
    + unfold run_task_now. destruct (lookup_task m st); [|done]. cbn. by rewrite (proj1 (proj2 (run_task_threads _ _))).
    + unfold start. by rewrite Hr.
Qed.

Lemma now_step e st : (now st <= now (step e st))%Z.
Proof.
  destruct e as [k|c|d|w]; cbn [step]; [| |cbn; lia|cbn; lia].
  - unfold scheduler_loop. destruct (threads st !! k) as [[|[|o todo]|u|]|]; try (cbn; lia).
    + apply (run_task_threads o (move k (Executing todo) st)).
    + destruct (now st <? u)%Z; cbn; lia.
  - destruct c as [m f seconds text on|m|m|m|m|a|]; cbn; try lia.
    + unfold unregister_task. destruct (lookup_task m st); cbn; lia.
    + unfold enable_task, switch_task. destruct (lookup_task m st); cbn; lia.
    + unfold disable_task, switch_task. destruct (lookup_task m st); cbn; lia.
    + unfold run_task_now. destruct (lookup_task m st); [|cbn; lia]. cbn. apply run_task_threads.
    + unfold start. destruct (running st); cbn; lia.
Qed.

End Facts.

(** * Infinite executions *)
Section Execution.
Context {W : Type} (s : nat -> state W) (e : nat -> event W).
Context (Hexec : forall m, s (S m) = step (e m) (s m)).
Context (n : string) (o k : nat).

(** The task stays registered and enabled, and the thread [k] does not end. *)
Record alive (st : state W) : Prop := {
  alive_wf : wf st;
  alive_running : running st = true;
  alive_name : lookup_task n st = Some o;
  alive_object : exists x, objects st !! o = Some x /\ enabled x = true;
  alive_thread : exists p, threads st !! k = Some p /\ p <> Ended;
}.

Lemma alive_step ev st : alive st -> calm n ev -> alive (step ev st).
Proof.
  intros [Hw Hr Hn (x & Hx & He) (p & Hp & Hne)] Hc. split.
  - by apply wf_step.
  - by eapply running_step.
  - by apply lookup_step.
  - destruct (object_step n ev o st x Hw Hc Hn Hx) as (x' & E & Hen & _). exists x'. auto.
  - assert (forall q, ev = Loop k -> threads (scheduler_loop k st) !! k = Some q -> q <> Ended ->
      exists p, threads (step ev st) !! k = Some p /\ p <> Ended) as Hloop by (intros q -> ? ?; by exists q).
    assert (ev = Loop k \/ ev <> Loop k) as [->|Hk].
    { destruct ev as [j|c|d|w]; [destruct (decide (j = k)) as [->|]; [by left|right; congruence]|by right..]. }
    2:{ exists p. split; [by apply point_step|done]. }
    assert (forall q, q <> Ended -> threads (move k q st) !! k = Some q) as Hmove.
    { intros q _. cbn. rewrite list_lookup_insert_eq; [done|]. by eapply lookup_lt_Some. }
    cbn [step]. unfold scheduler_loop. rewrite Hp. destruct p as [|[|o' todo]|u|]; [..|done].
    + rewrite Hr. by eexists; split; [apply Hmove|].
    + by eexists; split; [apply Hmove|].
    + eexists. rewrite (proj1 (run_task_threads _ _)). by split; [apply Hmove|].
    + destruct (now st <? u)%Z; [by exists (Sleeping u)|]. by eexists; split; [apply Hmove|].
Qed.

Context (Hcalm : forall m, calm n (e m)) (Hstart : alive (s 0)).

Lemma always_alive m : alive (s m).
Proof. induction m as [|m IH]; [done|]. rewrite Hexec. by apply alive_step. Qed.

Lemma now_mono i j : i <= j -> (now (s i) <= now (s j))%Z.
Proof.
  induction 1 as [|j _ IH]; [lia|]. rewrite Hexec. pose proof (now_step (e j) (s j)). lia.
Qed.

(** The thread [k] is scheduled again and again, and time passes. *)
Context (Hfair : forall i, exists j, i <= j /\ e j = Loop k).
Context (Htime : forall t i, exists j, i <= j /\ (t <= now (s j))%Z).

Definition is_loop (ev : event W) : bool := match ev with Loop j => bool_decide (j = k) | _ => false end.
Lemma is_loop_true ev : is_loop ev = true <-> ev = Loop k.
Proof. destruct ev as [j|c|d|w]; cbn; try done. rewrite bool_decide_eq_true. naive_solver. Qed.

(** The next step of the thread; until then it stays where it is. *)
Lemma next_loop i p : threads (s i) !! k = Some p ->
  exists j, i <= j /\ e j = Loop k /\ threads (s j) !! k = Some p.
Proof.
  intros Hp. destruct (Hfair i) as (j & Hij & Hj). remember (j - i) as d eqn:Hd.
  revert i p Hp Hij Hd. induction d as [|d IH]; intros i p Hp Hij Hd.
  - exists i. replace i with j in * by lia. done.
  - destruct (is_loop (e i)) eqn:Ei; [apply is_loop_true in Ei; by exists i|].
    destruct (IH (S i) p) as (j' & H1 & H2 & H3); [|lia|lia|exists j'; repeat split; [lia|done|done]].
    rewrite Hexec. apply point_step; [done|]. intros E%is_loop_true. congruence.
Qed.

Lemma moved j q : e j = Loop k -> threads (scheduler_loop k (s j)) !! k = Some q -> threads (s (S j)) !! k = Some q.
Proof. intros Ej. by rewrite Hexec, Ej. Qed.
Lemma move_at q j p : threads (s j) !! k = Some p -> threads (move k q (s j)) !! k = Some q.
Proof. intros Hp. cbn. rewrite list_lookup_insert_eq; [done|]. by eapply lookup_lt_Some. Qed.

(** From anywhere the thread comes back to the top. *)
Lemma reaches_top i : exists j, i <= j /\ threads (s j) !! k = Some Top.
Proof.
  assert (forall u i, threads (s i) !! k = Some (Sleeping u) -> exists j, i <= j /\ threads (s j) !! k = Some Top) as Hsleep.
  { clear i. intros u i Hp. destruct (Htime u i) as (i1 & Hi1 & Hu).
    remember (i1 - i) as d eqn:Hd. revert i Hp Hi1 Hd. induction d as [|d IH]; intros i Hp Hi1 Hd.
    - replace i1 with i in * by lia. destruct (next_loop i _ Hp) as (j & Hj & Ej & Hpj). exists (S j). split; [lia|].
      apply moved; [done|]. unfold scheduler_loop. rewrite Hpj. pose proof (now_mono i j Hj).
      destruct (Z.ltb_spec (now (s j)) u); [lia|]. by eapply move_at.
    - destruct (is_loop (e i)) eqn:Ei.
      + apply is_loop_true in Ei. assert (threads (s (S i)) !! k = Some Top \/ threads (s (S i)) !! k = Some (Sleeping u)) as Hor.
        { rewrite Hexec, Ei. cbn [step]. unfold scheduler_loop. rewrite Hp.
          destruct (now (s i) <? u)%Z; [by right|left; by eapply move_at]. }
        destruct Hor as [Ht|Hp']; [exists (S i); split; [lia|done]|].
        destruct (IH (S i) Hp') as (j & Hj & Hjt); [lia|lia|]. exists j. split; [lia|done].
      + destruct (IH (S i)) as (j & Hj & Hjt); [|lia|lia|exists j; split; [lia|done]].
        rewrite Hexec. apply point_step; [done|]. intros E%is_loop_true. congruence. }
  assert (forall todo i, threads (s i) !! k = Some (Executing todo) -> exists j, i <= j /\ threads (s j) !! k = Some Top) as Hexe.
  { clear i. induction todo as [|o' todo IH]; intros i Hp; destruct (next_loop i _ Hp) as (j & Hj & Ej & Hpj).
    - destruct (Hsleep (now (s j) + wake_interval (s j) * Time.second)%Z (S j)) as (j' & H1 & H2); [|exists j'; split; [lia|done]].
      apply moved; [done|]. unfold scheduler_loop. rewrite Hpj. by eapply move_at.
    - destruct (IH (S j)) as (j' & H1 & H2); [|exists j'; split; [lia|done]].
      apply moved; [done|]. unfold scheduler_loop. rewrite Hpj, (proj1 (run_task_threads _ _)). by eapply move_at. }
  destruct (alive_thread _ (always_alive i)) as (p & Hp & Hne).
  destruct p as [|todo|u|]; [exists i; by split|by eapply Hexe|by eapply Hsleep|done].
Qed.

(** Once the task is among the ones to run, it runs. *)
Lemma todo_runs todo i : threads (s i) !! k = Some (Executing todo) -> In o todo -> exists j, i <= j /\ runs o (e j) (s j).
Proof.
  revert i. induction todo as [|o' todo IH]; intros i Hp Hin; [done|].
  destruct (next_loop i _ Hp) as (j & Hj & Ej & Hpj). destruct Hin as [->|Hin].
  - exists j. split; [done|]. rewrite Ej. by exists todo.
  - destruct (IH (S j)) as (j' & H1 & H2); [|done|exists j'; split; [lia|done]].
    apply moved; [done|]. unfold scheduler_loop. rewrite Hpj, (proj1 (run_task_threads _ _)). by eapply move_at.
Qed.

Lemma runs_dec j : runs o (e j) (s j) \/ ~ runs o (e j) (s j).
Proof.
  unfold runs. destruct (e j) as [k'|c|d|w]; [|destruct c as [| | | |m| |]; try (right; tauto)|right; tauto..].
  - destruct (threads (s j) !! k') as [[|[|o' todo]|u|]|]; try (right; intros [? ?]; congruence).
    destruct (decide (o' = o)) as [->|]; [left; by exists todo|right; intros [? ?]; congruence].
  - destruct (decide (lookup_task m (s j) = Some o)); auto.
Qed.

(** Until it runs its timing stays. *)
Lemma timing i j x : i <= j -> objects (s i) !! o = Some x ->
  (exists m, i <= m < j /\ runs o (e m) (s m)) \/
  exists x', objects (s j) !! o = Some x' /\ same_timing x x'.
Proof.
  intros Hij Hx. induction Hij as [|j Hij IH]; [right; by exists x|].
  destruct IH as [(m & Hm & Hr)|(x' & Hx' & Hs)]; [left; exists m; split; [lia|done]|].
  destruct (runs_dec j) as [Hr|Hr]; [left; exists j; split; [lia|done]|]. right.
  destruct (always_alive j) as [Hw _ Hn _ _]. rewrite Hexec.
  destruct (object_step n (e j) o (s j) x' Hw (Hcalm j) Hn Hx') as (x2 & E2 & _ & H2). exists x2. split; [done|].
  unfold same_timing in *. destruct (H2 Hr) as (-> & -> & ->). done.
Qed.

Definition due_at (x : ScheduledTask W) : Z :=
  match last_run x with None => created_at x + grace | Some r => r + interval x * Time.second end.
Lemma should_run_due (x : ScheduledTask W) t : enabled x = true -> should_run t x = (due_at x <=? t)%Z.
Proof. unfold should_run, due_at. intros ->. cbn. destruct (last_run x); lia. Qed.

Lemma due_In (st : state W) x : lookup_task n st = Some o -> objects st !! o = Some x -> should_run (now st) x = true -> In o (due st).
Proof.
  intros Hn Hx Hs. apply filter_In. split; [|by rewrite Hx]. revert Hn. unfold lookup_task.
  induction (tasks st) as [|[m v] l IH]; [done|]. cbn. destruct (String.eqb n m); [intros [= ->]; by left|right; auto].
Qed.

Lemma runs_effect j : runs o (e j) (s j) ->
  exists x, objects (s (S j)) !! o = Some x /\ last_run x = Some (now (s (S j))).
Proof.
  intros Hr. destruct (alive_object _ (always_alive j)) as (x & Hx & _).
  assert (forall st : state W, objects st !! o = Some x ->
    exists x', objects (run_task o st) !! o = Some x' /\ last_run x' = Some (now (run_task o st))) as Hrun.
  { intros st E. unfold run_task. rewrite E. cbn. rewrite list_lookup_alter, decide_True, E by done. cbn.
    eexists. split; [done|]. by destruct (o_error _). }
  rewrite Hexec. destruct (e j) as [k'|c|d|w]; [|destruct c as [| | | |m| |]; try done|done..]; cbn in Hr |- *.
  - destruct Hr as [todo Hk]. unfold scheduler_loop. rewrite Hk. by apply Hrun.
  - unfold run_task_now. rewrite Hr. by apply Hrun.
Qed.

(** C14: A task that stays registered and enabled while the scheduler is running is run
    again and again: after any moment of any execution it is run and its [last_run] set,
    whatever happens on other threads, however the other tasks end and however long they
    take, provided the operating system schedules the loop thread and time passes. *)
Theorem enabled_tasks_run_again i :
  exists j x, i <= j /\ runs o (e j) (s j) /\
    objects (s (S j)) !! o = Some x /\ last_run x = Some (now (s (S j))).
Proof.
  destruct (alive_object _ (always_alive i)) as (x & Hx & _).
  assert (exists j, i <= j /\ runs o (e j) (s j)) as (j & Hj & Hr).
  2:{ destruct (runs_effect j Hr) as (y & Hy & Hl). by exists j, y. }
  destruct (Htime (due_at x) i) as (i1 & Hi1 & Hdue). destruct (reaches_top i1) as (i2 & Hi2 & Htop).
  destruct (next_loop i2 _ Htop) as (i3 & Hi3 & E3 & Htop3).
  destruct (timing i i3 x) as [(m & Hm & Hr)|(x' & Hx' & Hs)]; [lia|done|exists m; split; [lia|done]|].
  destruct (always_alive i3) as [_ Hrun Hn (x2 & Hx2 & Hen) _]. assert (x2 = x') as -> by congruence.
  assert (should_run (now (s i3)) x' = true) as Hsr.
  { rewrite should_run_due by done. unfold due_at in *. destruct Hs as (-> & -> & ->). pose proof (now_mono i1 i3). lia. }
  destruct (todo_runs (due (s i3)) (S i3)) as (j & Hj & Hr); [| |exists j; split; [lia|done]].
  - apply moved; [done|]. unfold scheduler_loop. rewrite Htop3, Hrun. by eapply move_at.
  - by eapply due_In.
Qed.

End Execution.

(** * Restarting *)

(** [stop] waits for at most its timeout, and a sleeping loop does not notice the
    flag before it wakes up.  If the scheduler is started again before that, the old loop
    goes on beside the new one, and a task that is due is taken by both. *)
Theorem restart_doubles_the_loop {W} (st : state W) n o x k u d r a :
  running st = true -> thread st = Some k -> threads st !! k = Some (Sleeping u) ->
  (now st + Z.of_N d < u)%Z -> (u <= now st + Z.of_N d + Z.of_N r)%Z ->
  lookup_task n st = Some o -> objects st !! o = Some x -> enabled x = true ->
  (due_at x <= now st + Z.of_N d + Z.of_N r)%Z ->
  let stopped := run [Api Stop; Tick d] st in
  let k' := length (threads st) in
  let restarted := run [Api (Start a); Tick r; Loop k; Loop k; Loop k'] stopped in
  joined stopped = false /\
  exists todo, In o todo /\ threads restarted !! k = Some (Executing todo) /\
    threads restarted !! k' = Some (Executing todo).
Proof.
  intros Hr Ht Hk Hd Hu Hn Hx He Hdue. cbv zeta. set (k' := length (threads st)).
  assert (k < k') as Hlt by (by eapply lookup_lt_Some).
  set (l0 := threads st) in *. set (l1 := l0 ++ [Top]).
  assert (l1 !! k = Some (Sleeping u)) as H1 by (unfold l1; by rewrite lookup_app_l).
  assert (l1 !! k' = Some Top) as H2 by (unfold l1; rewrite lookup_app_r by done; unfold k'; by rewrite Nat.sub_diag).
  assert (length l1 = S k') as Hl by (unfold l1; rewrite length_app; cbn; lia).
  split; [unfold joined; cbn; rewrite Ht; cbn; by unfold l0 in Hk; rewrite Hk|].
  set (st1 := State (objects st) (tasks st) l1 (Some k') true a (wake_interval st)
    (now st + Z.of_N d + Z.of_N r)%Z (world st)).
  change (run [Api (Start a); Tick r; Loop k; Loop k; Loop k'] (run [Api Stop; Tick d] st))
    with (scheduler_loop k' (scheduler_loop k (scheduler_loop k st1))).
  assert (scheduler_loop k st1 = move k Top st1) as ->.
  { unfold scheduler_loop. cbn [threads st1]. rewrite H1. cbn [now st1]. by destruct (Z.ltb_spec (now st + Z.of_N d + Z.of_N r) u); [lia|]. }
  assert (scheduler_loop k (move k Top st1) = move k (Executing (due st1)) (move k Top st1)) as ->.
  { unfold scheduler_loop. cbn [threads move with_threads st1]. by rewrite list_lookup_insert_eq by lia. }
  exists (due st1). unfold scheduler_loop. cbn [threads move with_threads st1].
  rewrite !list_lookup_insert_ne, H2 by lia. cbn [running with_threads st1 threads].
  split; [|split].
  - eapply due_In; [exact Hn|exact Hx|]. rewrite should_run_due by done. cbn [now st1]. lia.
  - change (<[k' := Executing (due st1)]> (<[k := Executing (due st1)]> (<[k := Top]> l1)) !! k = Some (Executing (due st1))).
    rewrite list_lookup_insert_ne by lia. rewrite list_lookup_insert_eq; [done|]. rewrite length_insert. lia.
  - change (<[k' := Executing (due st1)]> (<[k := Executing (due st1)]> (<[k := Top]> l1)) !! k' = Some (Executing (due st1))).
    rewrite list_lookup_insert_eq; [done|]. rewrite !length_insert. lia.
Qed.

End SchedulerFacts.

(** The scheduler on a small program: one task that succeeds and one that fails. *)
Module SchedulerRun.
Import Scheduler SchedulerFacts.
Local Open Scope string_scope.
Local Open Scope list_scope.

(** The rest of the program is a list of notes; a call takes a second. *)
Definition note (text : string) (error : option string) (app : bool) (t : Z) (w : list string) : outcome (list string) :=
  Outcome (w ++ [text]) 1000000 error.
Definition seconds (n : Z) : Z := (n * Time.second)%Z.
Definition second : N := 1000000.

Definition fresh : state (list string) := default (State [] [] [] None false false 60 0 []) (init_scheduler true 60 false 0 []).
Definition started : state (list string) :=
  run [Api (RegisterTask "good" (note "good" None) 120 "" true);
       Api (RegisterTask "bad" (note "bad" (Some "ValueError: no")) 60 "" true); Api (Start true)] fresh.

(** The loop alternates with minutes that pass. *)
Fixpoint trace {W} (e : nat -> event W) (st : state W) (m : nat) : state W :=
  match m with O => st | S m => step (e m) (trace e st m) end.
Definition alternate (m : nat) : event (list string) := if Nat.even m then Tick (60 * second) else Loop 0.

(** Two rounds of the loop: the grace period has passed in the first. *)
Example two_rounds :
  let st := trace alternate started 16 in
  (world st, List.map (fun x => (name x, run_count x, last_error x)) (objects st))
  = (["good"; "bad"; "good"; "bad"], [("good", 2, None); ("bad", 0, Some "ValueError: no")]).
Proof. vm_compute. reflexivity. Qed.

Lemma alternate_time m : (Z.of_nat m <= now (trace alternate started (2 * m)))%Z.
Proof.
  induction m as [|m IH]; [vm_compute; discriminate|]. replace (2 * S m) with (S (S (2 * m))) by lia.
  cbn [trace]. set (st := trace alternate started (2 * m)) in *.
  assert (alternate (2 * m) = Tick (60 * second)) as -> by (unfold alternate; by rewrite Nat.even_mul).
  pose proof (now_step (alternate (S (2 * m))) (step (Tick (60 * second)) st)) as Hs.
  assert (now (step (Tick (60 * second)) st) = now st + Z.of_N (60 * second))%Z as E by reflexivity.
  assert (1 <= Z.of_N (60 * second))%Z by (vm_compute; discriminate). lia.
Qed.

Lemma runs_again_witness :
  exists j x, 100 <= j /\ objects (trace alternate started (S j)) !! 1 = Some x /\
    last_run x = Some (now (trace alternate started (S j))).
Proof.
  destruct (enabled_tasks_run_again (trace alternate started) alternate (fun m => eq_refl) "bad" 1 0) with (i := 100)
    as (j & x & Hj & _ & Hx & Hl); [..|by exists j, x].
  - intros m. unfold alternate. by destruct (Nat.even m).
  - split.
    + split; [repeat (constructor; [vm_compute; lia|]); constructor|].
      apply (bool_decide_unpack _). vm_compute. exact I.
    + reflexivity.
    + reflexivity.
    + eexists. split; reflexivity.
    + exists Top. split; [reflexivity|discriminate].
  - intros i. exists (S (2 * i)). split; [lia|]. unfold alternate. by rewrite Nat.even_succ, Nat.odd_mul.
  - intros t i. exists (2 * Nat.max i (Z.to_nat t)). split; [lia|].
    pose proof (alternate_time (Nat.max i (Z.to_nat t))). lia.
Defined.

(** The loop sleeps; a restart with a timeout of ten seconds leaves two loops, and the
    task that is due runs twice. *)
Definition asleep : state (list string) := run [Loop 0; Loop 0] started.
Lemma restart_witness :
  let restarted := run [Api (Start true); Tick (200 * second); Loop 0; Loop 0; Loop 1] (run [Api Stop; Tick (10 * second)] asleep) in
  joined (run [Api Stop; Tick (10 * second)] asleep) = false /\
  (exists todo, In 0 todo /\ threads restarted !! 0 = Some (Executing todo) /\ threads restarted !! 1 = Some (Executing todo)) /\
  world (run [Loop 0; Loop 1] restarted) = ["good"; "good"].
Proof.
  assert (H := restart_doubles_the_loop asleep "good" 0
    (Task "good" (note "good" None) 120 "" true None None 0 None 0 0) 0 (seconds 60) (10 * second) (200 * second) true).
  destruct H as [H1 H2]; [reflexivity|reflexivity|reflexivity|reflexivity|vm_compute; discriminate|reflexivity|reflexivity
    |reflexivity|vm_compute; discriminate|].
  split; [exact H1|]. split; [exact H2|]. vm_compute. reflexivity.
Defined.

End SchedulerRun.
