(* ===== verification/Scep.v ===== *)
(** SCEP enrolment: [services/scep_service.py], its routes in [api/scep_protocol.py] and
    the management routes in [api/v2/scep.py].

    CMS and its ciphers are the interface [Cms]; certificates, requests and keys are
    those of [Pki].  The files written beside the database and the column [san_uri] are
    not modelled.  A request handler that raises leaves what it committed: the session is
    thrown away at the end of the HTTP request. *)
From S2P Require Import Prelude Base64 AuditSink AuditLog Pki.

Module Scep.
Local Open Scope string_scope.
Local Open Scope list_scope.

(** * Messages *)

(** A native attribute value: bytes or text. *)
Inductive attr_value := ABytes (s : string) | AText (s : string).

(** An envelope: the encrypted key, the content, the cipher and its parameter; [iv] is
    [None] without parameters and [Some None] when they are not an octet string. *)
Record enveloped := Enveloped {
  v_key : string; v_content : string; v_algorithm : string; v_iv : option (option string);
}.

(** The signed part of a CertRep: the attributes by their identifiers, and the content. *)
Record cert_rep := CertRep { p_attributes : list (string * string); p_content : option string }.

Class Cms := {
  (** [ContentInfo.load]: the content type, and for signed data the encapsulated octets
      and the attributes of the signers; [None] is an exception *)
  load_content : string -> option string;
  encapsulated : string -> option string;
  signers : string -> option (list (list (string * list attr_value)));
  load_enveloped : string -> option enveloped;
  rsa_decrypt : string -> string -> option string;
  cbc_decrypt : string -> string -> string -> string -> option string;
  load_der_csr : string -> option Pki.csr;
  csr_challenge : string -> option attr_value;
  key_identifier : string -> string;
  (** encrypting a list of certificates for a public key, and signing a CertRep; [None]
      is the exception of a key that is no RSA key *)
  envelope : string -> list Pki.cert -> option string;
  sign_rep : string -> cert_rep -> option string;
}.

(** * State *)

Inductive status := Pending | Approved | Rejected.
#[export] Instance status_eq_dec : EqDecision status.
Proof. solve_decision. Defined.
Definition status_text (s : status) : string :=
  match s with Pending => "pending" | Approved => "approved" | Rejected => "rejected" end.

Record scep_request := ScepRequest {
  s_id : Z; s_transaction_id : string; s_csr : string; s_status : status;
  s_approved_by : option string; s_approved_at : option Z; s_rejection_reason : option string;
  s_cert_refid : option string; s_subject : string; s_client_ip : string;
}.

Record state := State { pki : Pki.db; requests : list scep_request; config : list (string * option string) }.
Definition with_pki d st := State d (requests st) (config st).
Definition with_requests l st := State (pki st) l (config st).
Definition with_config l st := State (pki st) (requests st) l.

Definition by_transaction (t : string) (st : state) : option scep_request :=
  Table.first (fun r => String.eqb (s_transaction_id r) t) (requests st).
Definition request_by_id (id : Z) (st : state) : option scep_request :=
  Table.first (fun r => (s_id r =? id)%Z) (requests st).
Definition cert_by_refid (r : string) (d : Pki.db) : option Pki.certificate :=
  Table.first (fun c => String.eqb (Pki.c_refid c) r) (Pki.certs d).

(** [get_config] and [set_config] *)
Definition get_config (key : string) (dflt : option string) (st : state) : option string :=
  match Json.assoc key (config st) with Some v => v | None => dflt end.
Definition set_config (key : string) (value : option string) (st : state) : state :=
  match Json.assoc key (config st) with
  | Some _ => with_config (List.map (fun kv => if String.eqb kv.1 key then (key, value) else kv) (config st)) st
  | None => with_config (config st ++ [(key, value)]) st
  end.

(** The service object: its CA with the loaded certificate and key, and the policy. *)
Record service := Service {
  v_ca : Pki.ca; v_cert : Pki.cert; v_prv : string; v_challenge : option string; v_auto_approve : bool;
}.

(** The random values one request draws: the new refid, the serial number, two nonces. *)
Record draws := Draws { d_refid : string; d_serial : Z; d_nonce : string; d_recipient : string }.

Section Scep.
Context `{Pki.X509} `{Cms}.

(** [SCEPService.__init__]; [None] is an exception. *)
Definition new_service (ca_refid : string) (challenge : option string) (auto_approve : bool) (st : state)
  : option service :=
  a ← Pki.ca_by_refid ca_refid (pki st);
  c ← Pki.load_cert (Pki.ca_crt a);
  prv ← Pki.ca_prv a;
  k ← Pki.load_key prv;
  Some (Service a c k challenge auto_approve).

(** * Answers: [_create_cert_rep] and its callers *)

Definition STATUS_SUCCESS : Z := 0.
Definition STATUS_FAILURE : Z := 2.
Definition STATUS_PENDING : Z := 3.
Definition FAIL_BAD_MESSAGE_CHECK : Z := 1.
Definition FAIL_BAD_REQUEST : Z := 2.

Definition create_cert_rep (code : Z) (data transaction_id : string) (recipient_nonce : option string)
    (fail_info : option Z) (r : draws) : cert_rep :=
  let nonce := default (d_recipient r) recipient_nonce in
  CertRep
    ((if Str.truthy transaction_id then [("2.16.840.1.113733.1.9.7", transaction_id)] else [])
     ++ [("2.16.840.1.113733.1.9.2", "3"); ("2.16.840.1.113733.1.9.3", Num.str code)]
     ++ (match fail_info with
         | Some f => if (code =? STATUS_FAILURE)%Z then [("2.16.840.1.113733.1.9.4", Num.str f)] else []
         | None => []
         end)
     ++ [("2.16.840.1.113733.1.9.5", d_nonce r)]
     ++ (if Str.truthy nonce then [("2.16.840.1.113733.1.9.6", nonce)] else []))
    (if Str.truthy data then Some data else None).

Definition create_error_response (fail_info : Z) (r : draws) : cert_rep :=
  create_cert_rep STATUS_FAILURE "" "" None (Some fail_info) r.
Definition create_cert_rep_pending (t : string) (nonce : option string) (r : draws) : cert_rep :=
  create_cert_rep STATUS_PENDING "" t nonce None r.
(** [None] when the certificate cannot be encrypted for the client. *)
Definition create_cert_rep_success (s : service) (c : Pki.cert) (t : string) (nonce : option string) (q : Pki.csr)
    (r : draws) : option cert_rep :=
  data ← envelope (Pki.q_public_key q) [c; v_cert s];
  Some (create_cert_rep STATUS_SUCCESS data t nonce None r).

(** * [_extract_scep_attributes] *)

Record attributes := Attributes {
  a_transaction_id : option string; a_sender_nonce : option string; a_challenge : option string;
}.
Definition raw (v : attr_value) : string := match v with ABytes s | AText s => s end.

(** An exception ends the loop with what was read so far; a byte text must be UTF-8. *)
Fixpoint read_attributes (l : list (string * list attr_value)) (a : attributes) : attributes :=
  match l with
  | [] => a
  | (_, []) :: l => read_attributes l a
  | (oid, v :: _) :: l =>
      if String.eqb oid "2.16.840.1.113733.1.9.7" then
        match v with
        | ABytes s => if Str.utf8_valid 0 0 0 s then read_attributes l (Attributes (Some s) (a_sender_nonce a) (a_challenge a)) else a
        | AText s => read_attributes l (Attributes (Some s) (a_sender_nonce a) (a_challenge a))
        end
      else if String.eqb oid "2.16.840.1.113733.1.9.5" then
        read_attributes l (Attributes (a_transaction_id a) (Some (raw v)) (a_challenge a))
      else if String.eqb oid "1.2.840.113549.1.9.7" then
        read_attributes l (Attributes (a_transaction_id a) (a_sender_nonce a) (Some (raw v)))
      else read_attributes l a
  end.
Definition extract_scep_attributes (message : string) : attributes :=
  match signers message with
  | Some (first :: _) => read_attributes first (Attributes None None None)
  | _ => Attributes None None None
  end.

(** * Opening the envelope *)

Definition contains (p s : string) : bool := Str.contains p s.

(** [csr_data[:-csr_data[-1]]]; [None] is the IndexError of no data. *)
Definition last_code (s : string) : option nat :=
  match Str.rev s with String c _ => Some (N.to_nat (Str.code c)) | EmptyString => None end.
Definition unpad (s : string) : option string :=
  n ← last_code s;
  Some (if (n =? 0)%nat then EmptyString else Str.take (String.length s - n) s).

Fixpoint nul_bytes (n : nat) : string := match n with O => EmptyString | S n => String "000" (nul_bytes n) end.
Definition cipher_of (oid : string) : option string :=
  if contains "1.3.14.3.2.7" oid then Some "DES"
  else if contains "1.2.840.113549.3.7" oid then Some "DES3"
  else if contains "2.16.840.1.101.3.4.1" oid then Some "AES"
  else None.
Definition open_envelope (s : service) (bytes : string) : option string :=
  kind ← load_content bytes;
  if negb (String.eqb kind "enveloped_data") then Some bytes
  else
    e ← load_enveloped bytes;
    key ← rsa_decrypt (v_prv s) (v_key e);
    iv ← match v_iv e with Some iv => iv | None => Some (nul_bytes 8) end;
    cipher ← cipher_of (v_algorithm e);
    plain ← cbc_decrypt cipher key iv (v_content e);
    unpad plain.

(** * Issuing: [_auto_approve_request] *)

(** The extensions taken over from the request. *)
Definition copied (x : Pki.xext) : option Pki.xext :=
  match Pki.x_value x with
  | Pki.SubjectAlternativeName _ | Pki.ExtendedKeyUsage _ => Some (Pki.Ext (Pki.x_value x) false)
  | Pki.KeyUsage _ => Some (Pki.Ext (Pki.x_value x) true)
  | _ => None
  end.
Definition template (s : service) (q : Pki.csr) (validity_days : Z) (serial now : Z) : Pki.cert :=
  Pki.Cert (Pki.q_subject q) (Pki.x_subject (v_cert s)) (Pki.q_public_key q) serial
    (Pki.whole_second now) (Pki.whole_second (now + Time.days validity_days))
    (omap copied (Pki.q_extensions q)
     ++ [Pki.Ext (Pki.BasicConstraints false None) true;
         Pki.Ext (Pki.OtherExtension "2.5.29.14" (key_identifier (Pki.q_public_key q))) false;
         Pki.Ext (Pki.OtherExtension "2.5.29.35" (key_identifier (Pki.x_public_key (v_cert s)))) false]).

Definition list_column (l : list string) : option (list string) := match l with [] => None | _ => Some l end.
Definition issued_row (s : service) (id : Z) (refid pem : string) (q : Pki.csr) (c : Pki.cert) : Pki.certificate :=
  let ns := default [] (Pki.san_names (Pki.x_extensions c)) in
  let subject := Pki.rfc4514 (Pki.q_subject q) in
  let cn := Pki.cn_of_subject subject in
  let cn := if Pki.otruthy cn then cn else match Pki.dns_list ns with d :: _ => Some d | [] => cn end in
  Pki.Certificate id refid ("SCEP: " ^+ subject) (Some (Pki.ca_refid (v_ca s))) (Some pem) None (Some "server_cert")
    (Some subject) cn (Some (Pki.rfc4514 (Pki.x_issuer c))) (Some (Num.str (Pki.x_serial c)))
    (Some (Pki.x_not_before c)) (Some (Pki.x_not_after c))
    (list_column (Pki.dns_list ns)) (list_column (Pki.ip_list ns)) (list_column (Pki.email_list ns))
    false None None (Some "scep") (Some "scep").

(** The tables with the new row; [None] is an exception of the library or of the unique
    column [refid]. *)
Definition auto_approve_request (s : service) (q : Pki.csr) (validity_days : Z) (r : draws) (now : Z) (d : Pki.db)
  : option Pki.db :=
  let c := template s q validity_days (d_serial r) now in
  pem ← Pki.sign_cert "sha256" (v_prv s) c;
  if existsb (fun x => String.eqb (Pki.c_refid x) (d_refid r)) (Pki.certs d) then None else
  Some (Pki.set_certs (Pki.certs d ++ [issued_row s (Table.next_id Pki.c_id (Pki.certs d)) (d_refid r) pem q c]) d).

(** * [process_pkcs_req] *)

Definition update_request (id : Z) (f : scep_request -> scep_request) (st : state) : state :=
  with_requests (Table.update (fun r => (s_id r =? id)%Z) f (requests st)) st.
Definition approve (cert_refid : option string) (by' : string) (now : Z) (r : scep_request) : scep_request :=
  ScepRequest (s_id r) (s_transaction_id r) (s_csr r) Approved (Some by') (Some now) (s_rejection_reason r)
    (match cert_refid with Some c => Some c | None => s_cert_refid r end) (s_subject r) (s_client_ip r).
Definition reject (reason : string) (r : scep_request) : scep_request :=
  ScepRequest (s_id r) (s_transaction_id r) (s_csr r) Rejected (s_approved_by r) (s_approved_at r) (Some reason)
    (s_cert_refid r) (s_subject r) (s_client_ip r).

Definition challenge_ok (s : service) (given : option string) : bool :=
  match v_challenge s with
  | Some c => if Str.truthy c then Pki.otruthy given && String.eqb (default "" given) c else true
  | None => true
  end.

(** A request that is not known yet is stored, and with [auto_approve] answered at once;
    [None] is an exception before the commit, a transaction number in use included. *)
Definition new_request (s : service) (csr_data : string) (q : Pki.csr) (t client_ip : string) (nonce : option string)
    (r : draws) (now : Z) (st : state) : option (state * cert_rep) :=
  match by_transaction t st with
  | Some _ => None
  | None =>
      let row := ScepRequest (Table.next_id s_id (requests st)) t csr_data Pending None None None None
        (Pki.rfc4514 (Pki.q_subject q)) client_ip in
      if v_auto_approve s then
        d ← auto_approve_request s q 365 r now (pki st);
        let st := with_requests (requests st ++ [approve (Some (d_refid r)) "auto" now row]) (with_pki d st) in
        Some (st,
          default (create_error_response FAIL_BAD_REQUEST r)
            (row ← cert_by_refid (d_refid r) d; pem ← Pki.c_crt row; c ← Pki.load_cert pem;
             create_cert_rep_success s c t nonce q r))
      else Some (with_requests (requests st ++ [row]) st, create_cert_rep_pending t nonce r)
  end.

(** What the transaction number is answered with. *)
Definition answer (s : service) (csr_data : string) (q : Pki.csr) (t client_ip : string) (nonce : option string)
    (r : draws) (now : Z) (st : state) : option (state * cert_rep) :=
  match by_transaction t st with
  | Some e =>
      match s_status e, s_cert_refid e with
      | Approved, Some refid =>
          if Str.truthy refid then
            match cert_by_refid refid (pki st) with
            | Some row =>
                pem ← Pki.c_crt row; c ← Pki.load_cert pem; q0 ← load_der_csr (s_csr e);
                rep ← create_cert_rep_success s c t nonce q0 r; Some (st, rep)
            | None => new_request s csr_data q t client_ip nonce r now st
            end
          else Some (st, create_cert_rep_pending t nonce r)
      | Rejected, _ => Some (st, create_error_response FAIL_BAD_REQUEST r)
      | _, _ => Some (st, create_cert_rep_pending t nonce r)
      end
  | None => new_request s csr_data q t client_ip nonce r now st
  end.

Definition process (s : service) (message client_ip : string) (r : draws) (now : Z) (st : state)
  : state * cert_rep :=
  let failed := (st, create_error_response FAIL_BAD_REQUEST r) in
  match load_content message with
  | None => failed
  | Some kind =>
      if negb (String.eqb kind "signed_data") then failed
      else match (b ← encapsulated message; d ← open_envelope s b; q ← load_der_csr d; Some (d, q)) with
      | None => failed
      | Some (csr_data, q) =>
          let a := extract_scep_attributes message in
          let given := if Pki.otruthy (a_challenge a) then a_challenge a
                       else match csr_challenge csr_data with Some v => Some (raw v) | None => a_challenge a end in
          match a_transaction_id a with
          | None => failed
          | Some t =>
              if negb (Str.truthy t) then failed
              else if negb (challenge_ok s given) then (st, create_error_response FAIL_BAD_MESSAGE_CHECK r)
              else default failed (answer s csr_data q t client_ip (a_sender_nonce a) r now st)
          end
      end
  end.

(** Its answer is signed in the end; [None] is the exception of a key that cannot. *)
Definition process_pkcs_req (s : service) (message client_ip : string) (r : draws) (now : Z) (st : state)
  : state * option string :=
  let '(st', rep) := process s message client_ip r now st in (st', sign_rep (v_prv s) rep).

(** [approve_request] and [reject_request] of the service *)
Definition approve_request (s : service) (t approved_by : string) (validity_days : Z) (r : draws) (now : Z) (st : state)
  : option (state * option string) :=
  match by_transaction t st with
  | Some e =>
      if bool_decide (s_status e = Pending) then
        q ← load_der_csr (s_csr e);
        d ← auto_approve_request s q validity_days r now (pki st);
        Some (update_request (s_id e) (approve (Some (d_refid r)) approved_by now) (with_pki d st), Some (d_refid r))
      else Some (st, None)
  | None => Some (st, None)
  end.
Definition reject_request (t reason : string) (st : state) : state * bool :=
  match by_transaction t st with
  | Some e => if bool_decide (s_status e = Pending) then (update_request (s_id e) (reject reason) st, true) else (st, false)
  | None => (st, false)
  end.

(** [get_ca_cert_chain]: the loop has no bound of its own; [None] is a loop that still
    runs, [Some None] an exception. *)
Fixpoint chain (fuel : nat) (current : Pki.ca) (acc : list Pki.cert) (d : Pki.db) : option (option (list Pki.cert)) :=
  match fuel with
  | O => None
  | S fuel =>
      if negb (Pki.otruthy (Pki.ca_caref current)) then Some (Some acc)
      else match Pki.ca_by_refid (default "" (Pki.ca_caref current)) d with
      | None => Some (Some acc)
      | Some p =>
          if negb (Str.truthy (Pki.ca_crt p)) then Some (Some acc)
          else match Pki.load_cert (Pki.ca_crt p) with
          | None => Some None
          | Some c => chain fuel p (acc ++ [c]) d
          end
      end
  end.
Definition get_ca_cert_chain (fuel : nat) (s : service) (st : state) : option (option (list Pki.cert)) :=
  chain fuel (v_ca s) [v_cert s] (pki st).

(** * [api/scep_protocol.py] *)

Inductive reply :=
| Failure (code : Z) (message : string) | ServerError
| Capabilities (l : list string) | CaCertificate (c : Pki.cert) | CaChain (l : list Pki.cert)
| PkiMessage (bytes : string) | Done (message : string) | Challenge (s : string).

(** [get_scep_service] *)
Definition configured_ca (ca_id : string) (st : state) : option Pki.ca :=
  match Num.py_int ca_id with
  | Some id => match Pki.get_ca id (pki st) with Some a => Some a | None => Pki.ca_by_refid ca_id (pki st) end
  | None => Pki.ca_by_refid ca_id (pki st)
  end.
Definition get_scep_service (st : state) : service + string :=
  if negb (bool_decide (get_config "scep_enabled" (Some "true") st = Some "true")) then inr "SCEP is disabled"
  else match get_config "scep_ca_id" None st with
  | None => inr "No CA configured for SCEP"
  | Some ca_id =>
      if negb (Str.truthy ca_id) then inr "No CA configured for SCEP"
      else match configured_ca ca_id st with
      | None => inr "Configured CA not found"
      | Some a =>
          if negb (Pki.otruthy (Pki.ca_prv a)) then inr "CA does not have a private key"
          else match new_service (Pki.ca_refid a) (get_config ("scep_challenge_" ^+ Num.str (Pki.ca_id a)) None st)
                       (bool_decide (get_config "scep_auto_approve" (Some "false") st = Some "true")) st with
          | Some s => inl s
          | None => inr "error"
          end
      end
  end.

Definition capabilities : list string :=
  ["POSTPKIOperation"; "SHA-1"; "SHA-256"; "SHA-512"; "DES3"; "AES"; "SCEPStandard"; "Renewal"].

Definition handle_get_ca_cert (fuel : nat) (st : state) : option reply :=
  match get_scep_service st with
  | inr message => Some (Failure 500 message)
  | inl s =>
      if Pki.otruthy (Pki.ca_caref (v_ca s)) then
        match get_ca_cert_chain fuel s st with
        | None => None
        | Some (Some l) => Some (CaChain l)
        | Some None => Some (Failure 500 "SCEP server error")
        end
      else Some (CaCertificate (v_cert s))
  end.

(** A message: the body of a POST, or the parameter of a GET. *)
Inductive pki_request := Post (data : string) | GetMessage (message : string).
Definition message_of (q : pki_request) : reply + string :=
  match q with
  | Post data => inr data
  | GetMessage m =>
      if negb (Str.truthy m) then inl (Failure 400 "Missing 'message' parameter")
      else match Base64.b64decode m with
      | Some data => inr data
      | None => inl (Failure 400 "Invalid base64 in 'message' parameter")
      end
  end.
Definition handle_pki_operation (q : pki_request) (client_ip : string) (r : draws) (now : Z) (st : state)
  : state * reply :=
  match get_scep_service st with
  | inr message => (st, Failure 500 message)
  | inl s =>
      match message_of q with
      | inl e => (st, e)
      | inr data =>
          if negb (Str.truthy data) then (st, Failure 400 "Empty PKCS#7 message")
          else match process_pkcs_req s data client_ip r now st with
          | (st, Some bytes) => (st, PkiMessage bytes)
          | (st, None) => (st, Failure 500 "SCEP processing error")
          end
      end
  end.

(** [scep_endpoint]; [None] is a request that is never answered. *)
Definition scep_endpoint (fuel : nat) (operation : string) (q : pki_request) (client_ip : string) (r : draws) (now : Z)
    (st : state) : state * option reply :=
  if negb (Str.truthy operation) || String.eqb operation "GetCACaps" then (st, Some (Capabilities capabilities))
  else if String.eqb operation "GetCACert" then (st, handle_get_ca_cert fuel st)
  else if String.eqb operation "PKIOperation" then
    let '(st, reply) := handle_pki_operation q client_ip r now st in (st, Some reply)
  else (st, Some (Failure 400 ("Unknown operation: " ^+ operation))).

(** * [api/v2/scep.py] *)
Section Management.
Context {T} `{AuditSink T} (py_repr : json -> string).

(** [str(x)] *)
Definition py_str (j : json) : string := match j with JStr s => s | _ => py_repr j end.
Definition scep_event (action : string) (kind : string) (id name details : pyarg) : event :=
  Event action (Some kind) id name details true None.

(** One setting: [None] is the TypeError of a body that is no dict. *)
Definition update_setting (k key : string) (f : json -> option string) (data : json) (st : state) : option state :=
  v ← Json.field k data; Some (match v with Some j => set_config key (f j) st | None => st end).
Definition flag (j : json) : option string := Some (if Json.truthy j then "true" else "false").
(** [set_config]'s own [str], which keeps [None]. *)
Definition text (j : json) : option string := match j with JNull => None | _ => Some (py_str j) end.

Definition update_scep_config (request : option json) (st : state) (trail : T) : state * T * reply :=
  match request with
  | None => (st, trail, ServerError)
  | Some j =>
      let data := if Json.truthy j then j else JDict [] in
      match (st ← update_setting "enabled" "scep_enabled" flag data st;
             st ← update_setting "url" "scep_url" text data st;
             st ← update_setting "ca_id" "scep_ca_id"
                    (fun j => Some (if Json.truthy j then py_str j else EmptyString)) data st;
             st ← update_setting "ca_ident" "scep_ca_ident" text data st;
             st ← update_setting "auto_approve" "scep_auto_approve" flag data st;
             update_setting "challenge_validity" "scep_challenge_validity" (fun j => Some (py_str j)) data st) with
      | Some st =>
          (st, record_event (scep_event "scep_config_update" "scep" ANone (AStr "SCEP Configuration")
                 (AStr "Updated SCEP configuration")) trail, Done "SCEP configuration saved")
      | None => (st, trail, ServerError)
      end
  end.

Definition request_event (action text : string) (id : Z) : event :=
  scep_event action "scep_request" (AStr (Num.str id)) (AStr ("SCEP request " ^+ Num.str id)) (AStr text).

(** The attribute [g.user] exists on requests with a certificate session; it is a row,
    without the method [get]. *)
Definition approve_scep_request (g_user : bool) (id : Z) (now : Z) (st : state) (trail : T) : state * T * reply :=
  match request_by_id id st with
  | None => (st, trail, Failure 404 "Request not found")
  | Some e =>
      if negb (bool_decide (s_status e = Pending))
      then (st, trail, Failure 400 ("Request is already " ^+ status_text (s_status e)))
      else if g_user then (st, trail, ServerError)
      else (update_request id (approve None "admin" now) st,
            record_event (request_event "scep_approve" ("Approved SCEP request " ^+ Num.str id) id) trail,
            Done "SCEP request approved")
  end.

Definition reject_by (reason : option string) (by' : string) (now : Z) (r : scep_request) : scep_request :=
  ScepRequest (s_id r) (s_transaction_id r) (s_csr r) Rejected (Some by') (Some now) reason (s_cert_refid r)
    (s_subject r) (s_client_ip r).
Definition reject_scep_request (g_user : bool) (id : Z) (request : option json) (now : Z) (st : state) (trail : T)
  : state * T * reply :=
  match request with
  | None => (st, trail, ServerError)
  | Some data =>
      match (if Json.truthy data then (if Json.is_dict data then Some (Json.get_or "reason" (JStr "Rejected by admin") data) else None)
             else Some (JStr "Rejected by admin")) with
      | None => (st, trail, ServerError)
      | Some reason =>
          match request_by_id id st with
          | None => (st, trail, Failure 404 "Request not found")
          | Some e =>
              if negb (bool_decide (s_status e = Pending))
              then (st, trail, Failure 400 ("Request is already " ^+ status_text (s_status e)))
              else if g_user then (st, trail, ServerError)
              else match (match reason with JNull => Some None | _ => Some <$> Json.bind_text reason end) with
              | Some t =>
                  (update_request id (reject_by t "admin" now) st,
                   record_event (request_event "scep_reject"
                     ("Rejected SCEP request " ^+ Num.str id ^+ ": " ^+ py_str reason) id) trail,
                   Done "SCEP request rejected")
              | None => (st, trail, ServerError)
              end
          end
      end
  end.

Definition get_challenge_password (ca_id : Z) (st : state) : reply :=
  match Pki.get_ca ca_id (pki st) with
  | None => Failure 404 "CA not found"
  | Some _ =>
      let c := get_config ("scep_challenge_" ^+ Num.str ca_id) None st in
      Challenge (if Pki.otruthy c then default "" c else "Not configured")
  end.
Definition regenerate_challenge_password (ca_id : Z) (token : string) (st : state) (trail : T) : state * T * reply :=
  match Pki.get_ca ca_id (pki st) with
  | None => (st, trail, Failure 404 "CA not found")
  | Some a =>
      (set_config ("scep_challenge_" ^+ Num.str ca_id) (Some token) st,
       record_event (scep_event "scep_challenge_regenerate" "scep" (AStr (Num.str ca_id)) (AStr (Pki.ca_descr a))
         (AStr ("Regenerated SCEP challenge password for CA: " ^+ Pki.ca_descr a))) trail,
       Challenge token)
  end.

(** * All requests *)

Inductive request :=
| Protocol (operation : string) (q : pki_request) (client_ip : string) (r : draws)
| Settings (data : option json) | Approve (g_user : bool) (id : Z) | Reject (g_user : bool) (id : Z) (data : option json)
| Regenerate (ca_id : Z) (token : string).

Definition serve (fuel : nat) (x : request) (now : Z) (st : state) (trail : T) : state * T :=
  match x with
  | Protocol operation q ip r => ((scep_endpoint fuel operation q ip r now st).1, trail)
  | Settings data => (update_scep_config data st trail).1
  | Approve u id => (approve_scep_request u id now st trail).1
  | Reject u id data => (reject_scep_request u id data now st trail).1
  | Regenerate id token => (regenerate_challenge_password id token st trail).1
  end.
Fixpoint serve_all (fuel : nat) (l : list (request * Z)) (st : state) (trail : T) : state * T :=
  match l with
  | [] => (st, trail)
  | (x, now) :: l => let '(st, trail) := serve fuel x now st trail in serve_all fuel l st trail
  end.

End Management.
End Scep.
End Scep.
