(* ===== verification/ScepFacts.v ===== *)
(** What SCEP enrolment guarantees: the state machine of a transaction, who gets a
    certificate, and where it goes wrong. *)
From S2P Require Import Prelude Base64 AuditSink AuditLog Pki Scep.

Module ScepFacts.
Import Scep.
Local Open Scope string_scope.
Local Open Scope list_scope.

Section Facts.
Context `{Pki.X509} `{Cms} {T} `{AuditSink T} (py_repr : json -> string).
Implicit Types (st : state) (s : service) (r : draws) (e : scep_request).

(** * One message *)

(** The key of the CA decrypts an envelope: the key of the content, then the content. *)
Definition decrypts s (envelope plain : string) : Prop :=
  exists (e : enveloped) key iv cipher padded, load_content envelope = Some "enveloped_data" /\ load_enveloped envelope = Some e /\
    rsa_decrypt (v_prv s) (v_key e) = Some key /\ (v_iv e = Some (Some iv) \/ v_iv e = None /\ iv = nul_bytes 8) /\
    cipher_of (v_algorithm e) = Some cipher /\ cbc_decrypt cipher key iv (v_content e) = Some padded /\ unpad padded = Some plain.
Lemma open_envelope_inv s b plain :
  open_envelope s b = Some plain ->
  decrypts s b plain \/ (exists kind, load_content b = Some kind /\ kind <> "enveloped_data") /\ plain = b.
Proof.
  unfold open_envelope, decrypts. destruct (load_content b) as [kind|] eqn:Ek; cbn [mbind option_bind]; [|done].
  destruct (String.eqb_spec kind "enveloped_data") as [->|Hk]; cbn [negb]; [|intros [= <-]; right; split; [by exists kind|done]].
  destruct (load_enveloped b) as [e|]; cbn [mbind option_bind]; [|done].
  destruct (rsa_decrypt _ _) as [key|] eqn:Er; cbn [mbind option_bind]; [|done].
  destruct (match v_iv e with Some iv => iv | None => Some (nul_bytes 8) end) as [iv|] eqn:Ei; cbn [mbind option_bind]; [|done].
  destruct (cipher_of _) as [c|] eqn:Ec; cbn [mbind option_bind]; [|done].
  destruct (cbc_decrypt _ _ _ _) as [p|] eqn:Ep; cbn [mbind option_bind]; [|done].
  intros Hu. left. exists e, key, iv, c, p. split_and!; try done. destruct (v_iv e) as [iv'|]; [left; congruence|right; by injection Ei as <-].
Qed.

Lemma open_envelope_back s b plain :
  decrypts s b plain \/ (exists kind, load_content b = Some kind /\ kind <> "enveloped_data") /\ plain = b ->
  open_envelope s b = Some plain.
Proof.
  unfold open_envelope. intros [(e & key & iv & c & p & -> & He & Hr & Hi & Hc & Hd & Hu)|[(kind & -> & Hk) ->]]; cbn [mbind option_bind].
  - rewrite String.eqb_refl. cbn [negb]. rewrite He. cbn [mbind option_bind]. rewrite Hr. cbn [mbind option_bind].
    destruct Hi as [->|[-> ->]]; cbn [mbind option_bind]; rewrite Hc; cbn [mbind option_bind]; by rewrite Hd.
  - by rewrite (proj2 (String.eqb_neq _ _) Hk).
Qed.

(** What a message opens to under a service.  Content that is no envelope is taken as it is. *)
Record opened s (message csr_data : string) (q : Pki.csr) (t : string) (given : option string) : Prop := {
  o_kind : load_content message = Some "signed_data";
  o_body : exists b, encapsulated message = Some b /\
    (decrypts s b csr_data \/ (exists kind, load_content b = Some kind /\ kind <> "enveloped_data") /\ csr_data = b);
  o_csr : load_der_csr csr_data = Some q;
  o_transaction : a_transaction_id (extract_scep_attributes message) = Some t /\ Str.truthy t = true;
  o_given : given = (if Pki.otruthy (a_challenge (extract_scep_attributes message))
                     then a_challenge (extract_scep_attributes message)
                     else match csr_challenge csr_data with
                          | Some v => Some (raw v)
                          | None => a_challenge (extract_scep_attributes message)
                          end);
}.

(** Either nothing changes, or the message is opened and its transaction is new. *)
Lemma process_cases s message ip r now st :
  (process s message ip r now st).1 = st \/
  exists csr_data q t given, opened s message csr_data q t given /\ challenge_ok s given = true /\
    by_transaction t st = None /\
    new_request s csr_data q t ip (a_sender_nonce (extract_scep_attributes message)) r now st
      = Some (process s message ip r now st).
Proof.
  unfold process. destruct (load_content message) as [kind|] eqn:Ek; [|by left].
  destruct (String.eqb_spec kind "signed_data") as [->|]; cbn [negb]; [|by left].
  destruct (encapsulated message) as [b|] eqn:Eb; cbn [mbind option_bind]; [|by left].
  destruct (open_envelope s b) as [csr_data|] eqn:Eo; cbn [mbind option_bind]; [|by left].
  destruct (load_der_csr csr_data) as [q|] eqn:Eq; cbn [mbind option_bind]; [|by left].
  destruct (a_transaction_id _) as [t|] eqn:Et; [|by left].
  destruct (Str.truthy t) eqn:Ett; cbn [negb]; [|by left].
  set (given := if Pki.otruthy _ then _ else _). destruct (challenge_ok s given) eqn:Ec; cbn [negb]; [|by left].
  destruct (answer s csr_data q t ip _ r now st) as [[st' rep]|] eqn:Ea; [|by left]. cbn [default].
  assert (opened s message csr_data q t given) as Hop by (split; eauto using open_envelope_inv).
  unfold answer in Ea. destruct (by_transaction t st) as [e|] eqn:Etr.
  - left. assert (new_request s csr_data q t ip (a_sender_nonce (extract_scep_attributes message)) r now st = None) as Hn
      by (unfold new_request; by rewrite Etr).
    destruct (s_status e), (s_cert_refid e) as [refid|]; try (by injection Ea as <- <-).
    destruct (Str.truthy refid); [|by injection Ea as <- <-]. destruct (cert_by_refid refid (pki st)) as [row|]; [|congruence].
    destruct (Pki.c_crt row); [|done]. cbn in Ea. destruct (Pki.load_cert _); [|done]. cbn in Ea.
    destruct (load_der_csr (s_csr e)); [|done]. cbn in Ea. destruct (create_cert_rep_success _ _ _ _ _ _); [|done].
    by injection Ea as <- <-.
  - right. exists csr_data, q, t, given. by rewrite Ea.
Qed.

(** The answer to a new transaction: the request alone, or the request and a certificate. *)
Lemma new_request_cases s csr_data q t ip nonce r now st x :
  new_request s csr_data q t ip nonce r now st = Some x ->
  exists row, s_transaction_id row = t /\ s_csr row = csr_data /\ s_id row = Table.next_id s_id (requests st) /\
    requests x.1 = requests st ++ [row] /\ config x.1 = config st /\
    ((v_auto_approve s = false /\ s_status row = Pending /\ s_cert_refid row = None /\ pki x.1 = pki st) \/
     (v_auto_approve s = true /\ s_status row = Approved /\ s_cert_refid row = Some (d_refid r) /\
      cert_by_refid (d_refid r) (pki st) = None /\
      exists pem, let c := template s q 365 (d_serial r) now in
        Pki.sign_cert "sha256" (v_prv s) c = Some pem /\
        pki x.1 = Pki.set_certs (Pki.certs (pki st) ++
          [issued_row s (Table.next_id Pki.c_id (Pki.certs (pki st))) (d_refid r) pem q c]) (pki st))).
Proof.
  unfold new_request. destruct (by_transaction t st); [done|]. destruct (v_auto_approve s).
  - unfold auto_approve_request. destruct (Pki.sign_cert _ _ _) as [pem|] eqn:Es; [|done]. cbn [mbind option_bind].
    destruct (existsb _ _) eqn:Ex; [done|]. cbn [mbind option_bind]. intros [= <-]. cbn. eexists.
    split; [|split; [|split; [|split; [reflexivity|split; [done|right]]]]]; try done.
    split; [done|]. split; [done|]. split; [done|]. split; [|by exists pem].
    unfold cert_by_refid. destruct (Table.first _ (Pki.certs (pki st))) as [c|] eqn:Ef; [|done].
    apply Table.first_Some in Ef as [Hin Hc]. assert (existsb (fun x => String.eqb (Pki.c_refid x) (d_refid r)) (Pki.certs (pki st)) = true)
      by (apply existsb_exists; by exists c). congruence.
  - intros [= <-]. cbn. eexists. split; [|split; [|split; [|split; [reflexivity|split; [done|left]]]]]; done.
Qed.

(** * The state machine of the requests *)

(** A request keeps its transaction and its request data; a pending one may be settled, a
    settled one stays as it is. *)
Definition evolves e e' : Prop :=
  s_id e' = s_id e /\ s_transaction_id e' = s_transaction_id e /\ s_csr e' = s_csr e /\ s_cert_refid e' = s_cert_refid e /\
  (s_status e = Pending \/ e' = e).
Definition grown st st' : Prop :=
  (forall e, In e (requests st) -> exists e', In e' (requests st') /\ evolves e e') /\
  (forall c, In c (Pki.certs (pki st)) -> In c (Pki.certs (pki st'))).

Record ok st : Prop := {
  ok_ids : NoDup (List.map s_id (requests st));
  ok_transactions : NoDup (List.map s_transaction_id (requests st));
  ok_refids : NoDup (omap s_cert_refid (requests st));
  ok_issued : Forall (fun e => forall c, s_cert_refid e = Some c ->
                s_status e = Approved /\ exists row, cert_by_refid c (pki st) = Some row) (requests st);
}.

Lemma requests_evolve_refl e : evolves e e.
Proof. repeat split; auto. Qed.
Lemma grown_same st st' : requests st' = requests st -> pki st' = pki st -> grown st st'.
Proof. intros E1 E2. split; [rewrite E1; intros e He; exists e; split; [done|apply requests_evolve_refl]|by rewrite E2]. Qed.
Lemma ok_same st st' : requests st' = requests st -> pki st' = pki st -> ok st -> ok st'.
Proof. intros E1 E2 [? ? ? ?]. by split; rewrite ?E1, ?E2. Qed.

Lemma requests_grown_trans st1 st2 st3 : grown st1 st2 -> grown st2 st3 -> grown st1 st3.
Proof.
  intros [Hr Hc] [Hr' Hc']. split; [|auto]. intros e He. destruct (Hr e He) as (e1 & He1 & E1).
  destruct (Hr' e1 He1) as (e2 & He2 & E2). exists e2. split; [done|]. unfold evolves in *. destruct E1 as (? & ? & ? & ? & Hs).
  destruct E2 as (? & ? & ? & ? & Hs'). repeat split; try congruence.
  destruct Hs as [Hs| ->]; [by left|done].
Qed.

Lemma by_transaction_In t st e : by_transaction t st = Some e -> In e (requests st) /\ s_transaction_id e = t.
Proof. intros [Hin E%String.eqb_eq]%Table.first_Some. done. Qed.
Lemma by_transaction_None t st : by_transaction t st = None -> forall e, In e (requests st) -> s_transaction_id e <> t.
Proof. intros Hn e He E. pose proof (Table.first_None _ _ _ Hn He) as Hf. by apply String.eqb_neq in Hf. Qed.

(** Settling a pending request keeps what it is about. *)
Definition settles (f : scep_request -> scep_request) : Prop := forall e,
  s_id (f e) = s_id e /\ s_transaction_id (f e) = s_transaction_id e /\ s_csr (f e) = s_csr e /\ s_cert_refid (f e) = s_cert_refid e.

Lemma settle_ok id f st e :
  settles f -> In e (requests st) -> s_id e = id -> s_status e = Pending -> ok st ->
  ok (update_request id f st) /\ grown st (update_request id f st).
Proof.
  intros Hf He Hid Hp [Hids Ht Hr Hi].
  assert (forall x, In x (requests st) -> (s_id x =? id)%Z = true -> x = e) as Hx.
  { intros x Hx E%Z.eqb_eq. apply (Table.NoDup_map_eq s_id (requests st)); [done..|congruence]. }
  split.
  - split; cbn.
    + rewrite Table.map_update; [done|]. intros x _ _. apply Hf.
    + rewrite Table.map_update; [done|]. intros x _ _. apply Hf.
    + rewrite Table.omap_update; [done|]. intros x _ _. apply Hf.
    + apply List.Forall_forall. intros x' (x & Hin & ->)%Table.In_update c. rewrite List.Forall_forall in Hi.
      destruct (s_id x =? id)%Z eqn:E; [|by apply Hi]. rewrite (Hx x Hin E). destruct (Hf e) as (_ & _ & _ & ->).
      intros Hc. destruct (Hi e He c Hc) as [Ha _]. congruence.
  - split; [|done]. intros x Hin. exists (if (s_id x =? id)%Z then f x else x). split; [apply Table.In_update; by exists x|].
    destruct (s_id x =? id)%Z eqn:E; [|apply requests_evolve_refl]. rewrite (Hx x Hin E). destruct (Hf e) as (? & ? & ? & ?).
    unfold evolves. auto 6.
Qed.

Lemma new_request_ok s csr_data q t ip nonce r now st x :
  by_transaction t st = None -> new_request s csr_data q t ip nonce r now st = Some x -> ok st -> ok x.1 /\ grown st x.1.
Proof.
  intros Hn Hx [Hids Ht Hr Hi]. pose proof (by_transaction_None t st Hn) as Hfresh.
  destruct (new_request_cases _ _ _ _ _ _ _ _ _ _ Hx) as (row & Et & _ & Ei & Eq & _ & Hcase).
  assert (forall c, s_cert_refid row = Some c -> s_status row = Approved /\ (exists y, cert_by_refid c (pki x.1) = Some y) /\
    cert_by_refid c (pki st) = None) as Hrow.
  { destruct Hcase as [(_ & _ & -> & _)|(_ & Es & -> & Hno & pem & _ & Ep)]; [done|]. intros c [= <-].
    split; [done|]. split; [|done]. rewrite Ep. unfold cert_by_refid, Pki.set_certs. cbn.
    rewrite Table.first_app. destruct (Table.first _ (Pki.certs (pki st))); [by eexists|].
    unfold Table.first. cbn. rewrite StrFacts.eqb_refl. by eexists. }
  assert (forall c y, cert_by_refid c (pki st) = Some y -> exists z, cert_by_refid c (pki x.1) = Some z) as Hkeep.
  { intros c y Hy. destruct Hcase as [(_ & _ & _ & ->)|(_ & _ & _ & _ & pem & _ & ->)]; [by exists y|].
    unfold cert_by_refid, Pki.set_certs in *. cbn. rewrite Table.first_app, Hy. by exists y. }
  split.
  - split; rewrite Eq.
    + apply Table.NoDup_map_snoc; [done|]. intros y Hy E. apply (Table.next_id_fresh s_id) in Hy. lia.
    + apply Table.NoDup_map_snoc; [done|]. intros y Hy. rewrite Et. by apply Hfresh.
    + apply Table.NoDup_omap_snoc; [done|]. intros y c Hy Hc Hc'. destruct (Hrow c Hc') as (_ & _ & Hno).
      rewrite List.Forall_forall in Hi. destruct (Hi y Hy c Hc) as [_ [z Hz]]. congruence.
    + apply Forall_app. split.
      * eapply List.Forall_impl; [|exact Hi]. intros y Hy c Hc. destruct (Hy c Hc) as [Ha [z Hz]]. split; [done|]. by eapply Hkeep.
      * constructor; [|constructor]. intros c Hc. destruct (Hrow c Hc) as (? & ? & _). done.
  - split.
    + intros y Hy. exists y. split; [rewrite Eq; apply in_or_app; by left|apply requests_evolve_refl].
    + destruct Hcase as [(_ & _ & _ & ->)|(_ & _ & _ & _ & pem & _ & ->)]; [done|]. intros c Hc. cbn. apply in_or_app. by left.
Qed.

(** * Requests *)

(** What a protocol request does to the state, if anything. *)
Lemma protocol_cases fuel op q ip r now st :
  let st' := (scep_endpoint fuel op q ip r now st).1 in
  st' = st \/
  exists s data csr_data csr t given x, get_scep_service st = inl s /\ message_of q = inr data /\
    opened s data csr_data csr t given /\ challenge_ok s given = true /\ by_transaction t st = None /\
    new_request s csr_data csr t ip (a_sender_nonce (extract_scep_attributes data)) r now st = Some x /\ st' = x.1.
Proof.
  cbv zeta. unfold scep_endpoint. destruct (_ || _); [by left|]. destruct (String.eqb op "GetCACert"); [by left|].
  destruct (String.eqb op "PKIOperation"); [|by left]. unfold handle_pki_operation.
  destruct (get_scep_service st) as [s|] eqn:Es; [|by left]. destruct (message_of q) as [e|data] eqn:Em; [by left|].
  destruct (negb (Str.truthy data)); [by left|]. unfold process_pkcs_req.
  destruct (process_cases s data ip r now st) as [E|(csr_data & csr & t & given & Ho & Hc & Ht & Hn)];
    destruct (process s data ip r now st) as [st' rep].
  - left. cbn in E. subst st'. by destruct (sign_rep _ _).
  - right. exists s, data, csr_data, csr, t, given, (st', rep). repeat (split; [done|]). by destruct (sign_rep _ _).
Qed.

Lemma set_config_same key v st : requests (set_config key v st) = requests st /\ pki (set_config key v st) = pki st.
Proof. unfold set_config. by destruct (Json.assoc key (config st)). Qed.
Lemma update_setting_same k key f data st st' :
  update_setting k key f data st = Some st' -> requests st' = requests st /\ pki st' = pki st.
Proof.
  unfold update_setting. destruct (Json.field k data) as [[j|]|]; cbn; intros [= <-]; [apply set_config_same|done].
Qed.
Lemma settings_same data st (trail : T) :
  let st' := (update_scep_config py_repr data st trail).1.1 in requests st' = requests st /\ pki st' = pki st.
Proof.
  cbv zeta. unfold update_scep_config. destruct data as [j|]; [|done]. destruct (_ ≫= _) as [st'|] eqn:E; [|done]. cbn.
  revert E. set (d := if Json.truthy j then j else JDict []).
  repeat (match goal with |- (?x ≫= _) = _ -> _ => destruct x eqn:?; [|done] end; cbn [mbind option_bind]).
  intros Elast. repeat match goal with H : update_setting _ _ _ _ _ = Some _ |- _ => apply update_setting_same in H as [? ?] end.
  split; congruence.
Qed.

Lemma serve_ok fuel x now st trail :
  ok st -> ok (serve py_repr fuel x now st trail).1 /\ grown st (serve py_repr fuel x now st trail).1.
Proof.
  intros Hok.
  assert (forall st', requests st' = requests st -> pki st' = pki st -> ok st' /\ grown st st') as Hsame.
  { intros st' E1 E2. split; [by eapply ok_same|by apply grown_same]. }
  destruct x as [op q ip r|data|u id|u id data|id token]; cbn [serve].
  - destruct (protocol_cases fuel op q ip r now st) as [->|(s & d & csr_data & csr & t & given & x & _ & _ & _ & _ & Hn & Hx & ->)];
      [by apply Hsame|by eapply new_request_ok].
  - destruct (settings_same data st trail). by apply Hsame.
  - unfold approve_scep_request. destruct (request_by_id id st) as [e|] eqn:Ee; [|by apply Hsame].
    apply Table.first_Some in Ee as [Hin Hid%Z.eqb_eq]. destruct (bool_decide_reflect (s_status e = Pending)); [|by apply Hsame].
    destruct u; [by apply Hsame|]. eapply settle_ok; try done.
  - unfold reject_scep_request. destruct data as [j|]; [|by apply Hsame]. destruct (if Json.truthy j then _ else _); [|by apply Hsame].
    destruct (request_by_id id st) as [e|] eqn:Ee; [|by apply Hsame].
    apply Table.first_Some in Ee as [Hin Hid%Z.eqb_eq]. destruct (bool_decide_reflect (s_status e = Pending)); [|by apply Hsame].
    destruct u; [by apply Hsame|]. destruct (match j0 with JNull => _ | _ => _ end); [|by apply Hsame]. eapply settle_ok; try done.
  - unfold regenerate_challenge_password. destruct (Pki.get_ca id (pki st)); [|by apply Hsame].
    destruct (set_config_same ("scep_challenge_" ^+ Num.str id) (Some token) st). by apply Hsame.
Qed.

Lemma scep_settled fuel l st trail :
  ok st -> ok (serve_all py_repr fuel l st trail).1 /\ grown st (serve_all py_repr fuel l st trail).1.
Proof.
  revert st trail. induction l as [|[x now] l IH]; intros st trail Hok; [split; [done|by apply grown_same]|].
  cbn [serve_all]. pose proof (serve_ok fuel x now st trail Hok) as [Ho1 Hg1].
  destruct (serve py_repr fuel x now st trail) as [st1 trail1]. destruct (IH st1 trail1 Ho1) as [Ho2 Hg2].
  split; [done|]. by eapply requests_grown_trans.
Qed.

(** Whatever requests arrive in whatever order, a transaction number belongs to one
    request, a request has at most one certificate and no two requests share one, only
    approved requests have one, and requests and certificates are never lost: a pending
    request may be settled once, a settled one stays as it is. *)
Theorem scep_transactions_settle_once fuel l st trail :
  ok st -> ok (serve_all py_repr fuel l st trail).1 /\ grown st (serve_all py_repr fuel l st trail).1.
Proof. apply scep_settled. Qed.

(** * Who gets a certificate *)

(** The certificate for a request: its names and key, issued by the CA, and no CA itself. *)
Definition for_request s q (c : Pki.cert) : Prop :=
  Pki.x_subject c = Pki.q_subject q /\ Pki.x_public_key c = Pki.q_public_key q /\
  Pki.x_issuer c = Pki.x_subject (v_cert s) /\
  forall x, In x (Pki.x_extensions c) -> Pki.is_basic x = true -> Pki.x_value x = Pki.BasicConstraints false None.

Lemma template_for_request s q days serial now : for_request s q (template s q days serial now).
Proof.
  split; [done|]. split; [done|]. split; [done|]. intros x [Hx|Hx]%in_app_or Hb.
  - apply list_elem_of_In, list_elem_of_omap in Hx as (y & _ & Hy). unfold copied in Hy.
    destruct (Pki.x_value y) eqn:Ey; try done; injection Hy as <-; unfold Pki.is_basic in Hb; cbn in Hb; by rewrite ?Ey in Hb.
  - by destruct Hx as [<-|[<-|[<-|[]]]].
Qed.

Lemma serve_issues fuel x now st trail row :
  In row (Pki.certs (pki (serve py_repr fuel x now st trail).1)) -> ~ In row (Pki.certs (pki st)) ->
  exists op m ip r s data csr_data q t given pem, x = Protocol op m ip r /\
    get_scep_service st = inl s /\ v_auto_approve s = true /\ message_of m = inr data /\
    opened s data csr_data q t given /\ challenge_ok s given = true /\ by_transaction t st = None /\
    Pki.c_crt row = Some pem /\ Pki.sign_cert "sha256" (v_prv s) (template s q 365 (d_serial r) now) = Some pem.
Proof.
  destruct x as [op m ip r|data|u id|u id data|id token]; cbn [serve]; intros Hin Hnot.
  - destruct (protocol_cases fuel op m ip r now st) as [E|(s & d & csr_data & q & t & given & x & Hs & Hm & Ho & Hc & Hn & Hx & E)];
      cbn [fst] in Hin; rewrite E in Hin; [done|].
    destruct (new_request_cases _ _ _ _ _ _ _ _ _ _ Hx) as (r0 & _ & _ & _ & _ & _ & [(_ & _ & _ & Ep)|(Ha & _ & _ & _ & pem & Hsign & Ep)]);
      rewrite Ep in Hin; [done|]. cbn in Hin. apply in_app_or in Hin as [Hin|[<-|[]]]; [done|].
    exists op, m, ip, r, s, d, csr_data, q, t, given, pem. auto 10.
  - destruct (settings_same data st trail) as [_ E]. by rewrite E in Hin.
  - exfalso. apply Hnot. revert Hin. unfold approve_scep_request. destruct (request_by_id id st); [|done].
    destruct (negb _); [done|]. by destruct u.
  - exfalso. apply Hnot. revert Hin. unfold reject_scep_request. destruct data as [j|]; [|done].
    destruct (if Json.truthy j then _ else _); [|done]. destruct (request_by_id id st); [|done]. destruct (negb _); [done|].
    destruct u; [done|]. by destruct (match j0 with JNull => _ | _ => _ end).
  - exfalso. apply Hnot. revert Hin. unfold regenerate_challenge_password. destruct (Pki.get_ca id (pki st)); [|done].
    cbn [fst]. by rewrite (proj2 (set_config_same ("scep_challenge_" ^+ Num.str id) (Some token) st)).
Qed.

(** What the settings say of the service: SCEP is on, a CA is chosen, automatic approval is on,
    and a client knows the challenge of that CA where one is set. *)
Record admits st s (given : option string) : Prop := {
  ad_enabled : get_config "scep_enabled" (Some "true") st = Some "true";
  ad_auto : get_config "scep_auto_approve" (Some "false") st = Some "true";
  ad_ca : exists ca_id a, get_config "scep_ca_id" None st = Some ca_id /\ configured_ca ca_id st = Some a /\
    Pki.ca_by_refid (Pki.ca_refid a) (pki st) = Some (v_ca s) /\
    forall c, get_config ("scep_challenge_" ^+ Num.str (Pki.ca_id a)) None st = Some c -> c <> "" -> given = Some c;
}.
Lemma new_service_inv refid challenge auto st s :
  new_service refid challenge auto st = Some s ->
  Pki.ca_by_refid refid (pki st) = Some (v_ca s) /\ v_challenge s = challenge /\ v_auto_approve s = auto.
Proof.
  unfold new_service. destruct (Pki.ca_by_refid refid (pki st)) as [a|]; cbn [mbind option_bind]; [|done].
  destruct (Pki.load_cert _); cbn [mbind option_bind]; [|done]. destruct (Pki.ca_prv a); cbn [mbind option_bind]; [|done].
  destruct (Pki.load_key _); cbn [mbind option_bind]; [|done]. by intros [= <-].
Qed.
Lemma service_admits st s given :
  get_scep_service st = inl s -> v_auto_approve s = true -> challenge_ok s given = true -> admits st s given.
Proof.
  unfold get_scep_service. case_bool_decide as Hen; [|done]. cbn [negb].
  destruct (get_config "scep_ca_id" None st) as [ca_id|] eqn:Eca; [|done]. destruct (negb (Str.truthy ca_id)); [done|].
  destruct (configured_ca ca_id st) as [a|] eqn:Ea; [|done]. destruct (negb _); [done|].
  destruct (new_service _ _ _ _) as [s'|] eqn:En; [|done]. intros [= ->] Hauto Hc.
  apply new_service_inv in En as (Hca & Ev & Eau). rewrite Eau in Hauto. apply bool_decide_eq_true in Hauto.
  split; [done|done|]. exists ca_id, a. split_and!; [done|done|done|]. intros c Hg Hne. unfold challenge_ok in Hc. rewrite Ev, Hg in Hc.
  destruct c as [|x c]; [done|]. cbn [Str.truthy] in Hc. destruct given as [g|]; [|done].
  apply andb_true_iff in Hc as [_ E%String.eqb_eq]. cbn in E. by rewrite E.
Qed.

(** C15: A certificate appears only in answer to a signed enrolment message, while SCEP and
    automatic approval are on, under a transaction number that was not known, and with the
    challenge password if the chosen CA has one; the request in it was decrypted with the
    key of the CA where it came in an envelope (content that is none is taken as it is).
    The certificate carries the subject and the key of the request, is signed by the CA and
    is no CA itself. *)
Theorem scep_certificates_are_authorized fuel l st trail row :
  In row (Pki.certs (pki (serve_all py_repr fuel l st trail).1)) -> ~ In row (Pki.certs (pki st)) ->
  exists l1 op m ip r now l2 s data csr_data q t given c pem,
    l = l1 ++ (Protocol op m ip r, now) :: l2 /\
    let st1 := (serve_all py_repr fuel l1 st trail).1 in
    get_scep_service st1 = inl s /\ admits st1 s given /\
    message_of m = inr data /\ opened s data csr_data q t given /\ by_transaction t st1 = None /\
    Pki.c_crt row = Some pem /\ Pki.sign_cert "sha256" (v_prv s) c = Some pem /\ Pki.load_cert pem = Some c /\
    for_request s q c.
Proof.
  revert st trail. induction l as [|[x now] l IH]; intros st trail Hin Hnot; [done|]. cbn [serve_all] in Hin.
  destruct (serve py_repr fuel x now st trail) as [st1 trail1] eqn:E.
  destruct (In_dec Pki.certificate_eq_dec row (Pki.certs (pki st1))) as [Hnew|Hold].
  - destruct (serve_issues fuel x now st trail row) as (op & m & ip & r & s & data & csr_data & q & t & given & pem & -> & Hs);
      [by rewrite E|done|].
    exists [], op, m, ip, r, now, l, s, data, csr_data, q, t, given, (template s q 365 (d_serial r) now), pem.
    split; [done|]. destruct Hs as (Hs & Hau & ? & ? & Hch & ? & ? & Hsign). cbn zeta.
    split; [done|]. split; [by apply service_admits|]. repeat (split; [done|]).
    split; [by eapply Pki.load_sign|apply template_for_request].
  - destruct (IH st1 trail1 Hin Hold) as (l1 & op & m & ip & r & now' & l2 & s & data & csr_data & q & t & given & c & pem & -> & Hs).
    exists ((x, now) :: l1), op, m, ip, r, now', l2, s, data, csr_data, q, t, given, c, pem. split; [done|].
    cbn [serve_all]. by rewrite E.
Qed.

(** * Approval by hand *)

Definition status_code (p : cert_rep) : option string := Json.assoc "2.16.840.1.113733.1.9.3" (p_attributes p).

Lemma status_of code data t nonce f r : status_code (create_cert_rep code data t nonce f r) = Some (Num.str code).
Proof. unfold status_code, create_cert_rep. cbn. by destruct (Str.truthy t). Qed.

Lemma grown_request st st' e : grown st st' -> In e (requests st) -> s_status e <> Pending -> In e (requests st').
Proof. intros [Hr _] He Hp. destruct (Hr e He) as (e' & Hin & _ & _ & _ & _ & [Hs| ->]); done. Qed.

Lemma by_transaction_unique st e : ok st -> In e (requests st) -> by_transaction (s_transaction_id e) st = Some e.
Proof.
  intros [_ Ht _ _] He. destruct (by_transaction (s_transaction_id e) st) as [e'|] eqn:E.
  - apply by_transaction_In in E as [Hin Et]. f_equal. by apply (Table.NoDup_map_eq s_transaction_id (requests st)).
  - by destruct (by_transaction_None _ _ E e He).
Qed.

Lemma never_success s message ip r now st e :
  by_transaction (s_transaction_id e) st = Some e -> s_status e = Approved -> s_cert_refid e = None ->
  a_transaction_id (extract_scep_attributes message) = Some (s_transaction_id e) ->
  (process s message ip r now st).1 = st /\ status_code (process s message ip r now st).2 <> Some "0".
Proof.
  intros Ht Ha Hc Hm. assert (forall f, status_code (create_error_response f r) <> Some "0") as Herr
    by (intros f; unfold create_error_response; by rewrite status_of).
  unfold process. destruct (load_content message) as [kind|]; [|done]. destruct (negb _); [done|].
  destruct (_ ≫= _) as [[csr_data q]|]; [|done]. rewrite Hm. destruct (negb (Str.truthy _)); [done|].
  destruct (negb (challenge_ok _ _)); [done|]. unfold answer. rewrite Ht, Ha, Hc. cbn [default fst snd].
  split; [done|]. unfold create_cert_rep_pending. cbn [id snd]. by rewrite status_of.
Qed.

(** A request that an administrator approves never gets its certificate: the approval
    records the decision and issues nothing, and from then on, whatever else happens,
    every message of its transaction is answered without a certificate. *)
Theorem approval_by_hand_issues_nothing st e now trail fuel l s message ip r now' :
  ok st -> In e (requests st) -> s_status e = Pending ->
  a_transaction_id (extract_scep_attributes message) = Some (s_transaction_id e) ->
  let '(st1, trail1, reply) := approve_scep_request false (s_id e) now st trail in
  reply = Done "SCEP request approved" /\ pki st1 = pki st /\
  let st2 := (serve_all py_repr fuel l st1 trail1).1 in
  (process s message ip r now' st2).1 = st2 /\ status_code (process s message ip r now' st2).2 <> Some "0".
Proof.
  intros Hok He Hp Hm. assert (s_cert_refid e = None) as Hc.
  { destruct Hok as [_ _ _ Hi]. rewrite List.Forall_forall in Hi. specialize (Hi e He).
    destruct (s_cert_refid e) as [c|]; [|done]. destruct (Hi c eq_refl). congruence. }
  assert (request_by_id (s_id e) st = Some e) as Hid.
  { destruct (request_by_id (s_id e) st) as [e'|] eqn:E.
    - apply Table.first_Some in E as [Hin Ei%Z.eqb_eq]. f_equal. destruct Hok. by apply (Table.NoDup_map_eq s_id (requests st)).
    - pose proof (Table.first_None _ _ _ E He) as Hf. cbn in Hf. lia. }
  unfold approve_scep_request. rewrite Hid, Hp. cbn [bool_decide negb]. rewrite bool_decide_true by done. cbn [negb].
  split; [done|]. split; [done|].
  set (f := approve None "admin" now). destruct (settle_ok (s_id e) f st e) as [Ho1 Hg1]; try done.
  set (st1 := update_request (s_id e) f st) in *.
  assert (In (f e) (requests st1)) as Hf.
  { apply Table.In_update. exists e. split; [done|]. by rewrite Z.eqb_refl. }
  destruct (scep_settled fuel l st1 (record_event (request_event "scep_approve"
    ("Approved SCEP request " ^+ Num.str (s_id e)) (s_id e)) trail) Ho1) as [Ho2 Hg2].
  apply (never_success s message ip r now' _ (f e)).
  - apply by_transaction_unique; [done|]. by apply (grown_request st1).
  - done.
  - cbn. by rewrite Hc.
  - done.
Qed.

(** * The chain of the CA *)

(** The issuer the loop goes on with. *)
Definition issuer_of (d : Pki.db) (a : Pki.ca) : option Pki.ca :=
  if Pki.otruthy (Pki.ca_caref a) then
    p ← Pki.ca_by_refid (default "" (Pki.ca_caref a)) d;
    if Str.truthy (Pki.ca_crt p) then (_ ← Pki.load_cert (Pki.ca_crt p); Some p) else None
  else None.

Lemma chain_step fuel a acc d :
  (exists x, chain (S fuel) a acc d = Some x /\ issuer_of d a = None) \/
  exists p c, issuer_of d a = Some p /\ Pki.load_cert (Pki.ca_crt p) = Some c /\
    chain (S fuel) a acc d = chain fuel p (acc ++ [c]) d.
Proof.
  cbn [chain]. unfold issuer_of. destruct (Pki.otruthy (Pki.ca_caref a)); cbn [negb]; [|left; by eexists].
  destruct (Pki.ca_by_refid _ d) as [p|]; cbn [mbind option_bind]; [|left; by eexists].
  destruct (Str.truthy (Pki.ca_crt p)); cbn [negb]; [|left; by eexists].
  destruct (Pki.load_cert (Pki.ca_crt p)) as [c|] eqn:E; cbn; [right; by exists p, c|left; by eexists].
Qed.

(** The CA reached after [n] steps. *)
Fixpoint ancestor (d : Pki.db) (n : nat) (a : Pki.ca) : option Pki.ca :=
  match n with O => Some a | S n => p ← issuer_of d a; ancestor d n p end.

Lemma ancestor_add d m n a : ancestor d (m + n) a = p ← ancestor d m a; ancestor d n p.
Proof. revert a. induction m as [|m IH]; intros a; [done|]. cbn. destruct (issuer_of d a); [apply IH|done]. Qed.

Lemma chain_ends fuel a acc d : (exists x, chain fuel a acc d = Some x) <-> ancestor d fuel a = None.
Proof.
  revert a acc. induction fuel as [|fuel IH]; intros a acc; [split; [intros [x E]|]; done|].
  destruct (chain_step fuel a acc d) as [(x & -> & E)|(p & c & E & _ & ->)]; cbn [ancestor]; rewrite E; cbn [mbind option_bind].
  - split; [done|]. by exists x.
  - apply IH.
Qed.

Lemma issuer_In d a p : issuer_of d a = Some p -> In p (Pki.cas d).
Proof.
  unfold issuer_of. destruct (Pki.otruthy _); [|done]. destruct (Pki.ca_by_refid _ d) as [q|] eqn:E; cbn; [|done].
  apply Table.first_Some in E as [Hin _]. destruct (Str.truthy _); [|done]. destruct (Pki.load_cert _); cbn; [|done].
  by intros [= <-].
Qed.

Lemma ancestor_mono d a m n : m <= n -> ancestor d m a = None -> ancestor d n a = None.
Proof. intros Hmn E. replace n with (m + (n - m)) by lia. by rewrite ancestor_add, E. Qed.

(** A line longer than the table visits a CA twice, and a line that does so never ends. *)
Definition circle d a : Prop := exists i n p, ancestor d i a = Some p /\ ancestor d (S n) p = Some p.

Lemma long_line_circles d a p : ancestor d (S (length (Pki.cas d))) a = Some p -> circle d a.
Proof.
  remember (length (Pki.cas d)) as N eqn:HN. intros Hp.
  assert (forall i, i <= S N -> exists q, ancestor d i a = Some q) as Hall.
  { intros i Hi. destruct (ancestor d i a) as [q|] eqn:E; [by exists q|]. by rewrite (ancestor_mono d a i (S N) Hi E) in Hp. }
  destruct (Table.repeats (fun i => default a (ancestor d (S i) a)) (Pki.cas d)) as (i & j & Hij & E); rewrite <-?HN in *.
  - intros i Hi. destruct (Hall (S i)) as [q Hq]; [lia|]. rewrite Hq. cbn [default].
    replace (S i) with (i + 1) in Hq by lia. rewrite ancestor_add in Hq. destruct (ancestor d i a) as [q0|]; [|done].
    cbn in Hq. destruct (issuer_of d q0) as [q1|] eqn:Eq1; [|done]. injection Hq as <-. by eapply issuer_In.
  - destruct (Hall (S i)) as [q Hq]; [lia|]. destruct (Hall (S j)) as [q' Hq']; [lia|]. rewrite Hq, Hq' in E. cbn in E. subst q'.
    exists (S i), (j - i - 1), q. split; [done|]. replace (S j) with (S i + S (j - i - 1)) in Hq' by lia.
    by rewrite ancestor_add, Hq in Hq'.
Qed.

Lemma circle_goes_on d a fuel : circle d a -> ancestor d fuel a <> None.
Proof.
  intros (i & n & q & Hi & Hq) Hf. assert (forall k, ancestor d (i + k * S n) a = Some q) as Hk.
  { intros k. induction k as [|k IH]; [by rewrite Nat.add_0_r|]. replace (i + S k * S n) with (i + k * S n + S n) by lia.
    by rewrite ancestor_add, IH. }
  specialize (Hk (S fuel)). rewrite (ancestor_mono d a fuel) in Hk; [done| |done]. nia.
Qed.

(** The chain of a CA is built after as many rounds as there are CAs, or not at all:
    if the issuers above a CA form a circle, and only then, the request for the CA
    certificate is never answered. *)
Theorem ca_chain_ends_or_circles s st :
  ((exists x, get_ca_cert_chain (S (length (Pki.cas (pki st)))) s st = Some x) <->
   (exists fuel x, get_ca_cert_chain fuel s st = Some x)) /\
  ((forall fuel, get_ca_cert_chain fuel s st = None) <-> circle (pki st) (v_ca s)).
Proof.
  assert (Hend : forall fuel, (exists x, get_ca_cert_chain fuel s st = Some x) <-> ancestor (pki st) fuel (v_ca s) = None)
    by (intros fuel; apply chain_ends).
  split; [split|split].
  - intros [x Hx]. by exists (S (length (Pki.cas (pki st)))), x.
  - intros (fuel & x & Hx). apply Hend. destruct (ancestor _ (S _) _) as [p|] eqn:Ep; [|done].
    apply long_line_circles, (circle_goes_on _ _ fuel) in Ep. destruct Ep. apply Hend. by exists x.
  - intros Hnone. destruct (ancestor (pki st) (S (length (Pki.cas (pki st)))) (v_ca s)) as [p|] eqn:Ep.
    + by eapply long_line_circles.
    + apply Hend in Ep as [x Hx]. by rewrite Hnone in Hx.
  - intros Hc fuel. destruct (get_ca_cert_chain fuel s st) as [x|] eqn:Ex; [|done].
    destruct (circle_goes_on _ _ fuel Hc). apply Hend. by exists x.
Qed.

(** * Proof of possession *)

(** The signature of a request is never checked: whoever sends the public key of somebody
    else gets a certificate for it. *)
Theorem unsigned_requests_are_certified s message ip r now st csr_data q t given pem :
  opened s message csr_data q t given -> Pki.q_signature_valid q = false ->
  v_auto_approve s = true -> challenge_ok s given = true -> by_transaction t st = None ->
  cert_by_refid (d_refid r) (pki st) = None ->
  Pki.sign_cert "sha256" (v_prv s) (template s q 365 (d_serial r) now) = Some pem ->
  exists row, In row (Pki.certs (pki (process s message ip r now st).1)) /\ Pki.c_crt row = Some pem.
Proof.
  intros [Hk (b & Hb & Ho%open_envelope_back) Hq [Ht Htt] Hg] _ Ha Hc Hn Hr Hs. unfold process. rewrite Hk. cbn [String.eqb Ascii.eqb Bool.eqb negb].
  rewrite Hb. cbn [mbind option_bind]. rewrite Ho. cbn [mbind option_bind]. rewrite Hq. cbn [mbind option_bind].
  rewrite Ht, Htt. cbn [negb]. rewrite <-Hg, Hc. cbn [negb]. unfold answer. rewrite Hn. unfold new_request. rewrite Hn, Ha.
  unfold auto_approve_request. rewrite Hs. cbn [mbind option_bind].
  assert (existsb (fun x => String.eqb (Pki.c_refid x) (d_refid r)) (Pki.certs (pki st)) = false) as ->.
  { apply not_true_iff_false. intros (x & Hx & E)%existsb_exists. pose proof (Table.first_None _ _ _ Hr Hx). cbn in *. congruence. }
  cbn. eexists. split; [apply in_or_app; right; by left|done].
Qed.

End Facts.
End ScepFacts.

(** SCEP enrolment on a small installation, with an executable stand-in for the libraries. *)
Module ScepRun.
Import Scep ScepFacts.
Local Open Scope string_scope.
Local Open Scope list_scope.
#[local] Existing Instance list_sink.

(** A request that asks to be a CA and whose signature is not even valid. *)
Definition q0 : Pki.csr :=
  Pki.Csr false [("CN", "device")] "PUB"
    [Pki.Ext (Pki.BasicConstraints true None) true; Pki.Ext (Pki.SubjectAlternativeName [Pki.DNSName "device.example"]) false].
Definition ca_x : Pki.cert := Pki.Cert [("CN", "Root")] [("CN", "Root")] "CAPUB" 1 0 (Time.days 3650) [].
Definition x0 : Pki.cert :=
  Pki.Cert [("CN", "device")] [("CN", "Root")] "PUB" 77 0 (Time.days 365)
    [Pki.Ext (Pki.SubjectAlternativeName [Pki.DNSName "device.example"]) false; Pki.Ext (Pki.BasicConstraints false None) true;
     Pki.Ext (Pki.OtherExtension "2.5.29.14" "id PUB") false; Pki.Ext (Pki.OtherExtension "2.5.29.35" "id CAPUB") false].

#[local] Program Instance toy_x509 : Pki.X509 := {
  load_csr _ := None;
  load_cert s := Json.assoc s [("CACERT", ca_x); ("PEM", x0)];
  load_key s := Json.assoc s [("KEY", "KEY")];
  sign_cert _ _ c := if decide (c = x0) then Some "PEM" else None;
  sign_crl _ _ := Some "CRL";
  rfc4514 n := Str.join "," (List.map (fun p => p.1 ^+ "=" ^+ p.2) n);
}.
Next Obligation. intros d k c pem. simpl. destruct (decide (c = x0)) as [->|]; [|done]. by intros [= <-]. Qed.
Next Obligation. intros d k c pem. simpl. destruct (decide (c = x0)); [|done]. by intros [= <-]. Qed.

Definition pad3 : string := String "003" (String "003" (String "003" EmptyString)).
#[local] Instance toy_cms : Cms := {|
  load_content s := Json.assoc s [("M", "signed_data"); ("E", "enveloped_data")];
  encapsulated s := Json.assoc s [("M", "E")];
  signers s := Some [[("2.16.840.1.113733.1.9.7", [AText "T1"]); ("2.16.840.1.113733.1.9.5", [ABytes "N"]);
                      ("1.2.840.113549.1.9.7", [AText "secret"])]];
  load_enveloped s := Some (Enveloped "K" "C" "2.16.840.1.101.3.4.1.42" (Some (Some "IV")));
  rsa_decrypt k s := if String.eqb k "KEY" then Some "CEK" else None;
  cbc_decrypt cipher k iv s := Some ("Q" ^+ pad3);
  load_der_csr s := Json.assoc s [("Q", q0)];
  csr_challenge s := None;
  key_identifier s := "id " ^+ s;
  envelope k l := Some "ENVELOPE";
  sign_rep k p := Some (default "" (status_code p));
|}.

Definition root : Pki.ca := Pki.CA 1 "root" "Root CA" "CACERT" (Some "KEY") None None None true false false.
Definition circular : Pki.ca := Pki.CA 2 "loop" "Loop CA" "CACERT" (Some "KEY") None (Some "loop") None true false false.
Definition settings (auto : string) : list (string * option string) :=
  [("scep_enabled", Some "true"); ("scep_ca_id", Some "1"); ("scep_challenge_1", Some "secret"); ("scep_auto_approve", Some auto)].
Definition site (auto : string) : state := State (Pki.Db [root; circular] [] []) [] (settings auto).
Definition draw : draws := Draws "uuid" 77 "n1" "n2".
Definition enrol : request * Z := (Protocol "PKIOperation" (Post "M") "10.0.0.9" draw, 0%Z).
Definition run (l : list (request * Z)) (st : state) : state := (serve_all Json.dumps 10 l st ([] : list string)).1.

Example enrolled_at_once :
  (List.map (fun r => (s_transaction_id r, s_status r, s_cert_refid r)) (requests (run [enrol; enrol] (site "true"))),
   List.map Pki.c_refid (Pki.certs (pki (run [enrol; enrol] (site "true")))))
  = ([("T1", Approved, Some "uuid")], ["uuid"]).
Proof. vm_compute. reflexivity. Qed.
Example answers :
  let reply st := (handle_pki_operation (Post "M") "10.0.0.9" draw 0 st).2 in
  (reply (site "true"), reply (site "false"), reply (run [enrol; (Approve false 1, 1%Z)] (site "false")),
   reply (with_config (settings "true" ++ [("scep_challenge_1", Some "other")]) (site "true")),
   reply (with_config [("scep_ca_id", Some "1"); ("scep_challenge_1", Some "other")] (site "true")))
  = (PkiMessage "0", PkiMessage "3", PkiMessage "3", PkiMessage "0", PkiMessage "2").
Proof. vm_compute. reflexivity. Qed.
Example padding : (unpad ("Q" ^+ pad3), unpad "Q", unpad "", unpad (String "000" EmptyString)) = (Some "Q", Some "", None, Some "").
Proof. vm_compute. reflexivity. Qed.

Lemma ok_empty auto : ok (site auto).
Proof. repeat constructor. Qed.

Lemma settle_once_witness :
  ok (run [enrol; (Approve false 1, 1%Z); (Reject false 1 (Some JNull), 2%Z)] (site "false")) /\
  List.map s_status (requests (run [enrol; (Approve false 1, 1%Z); (Reject false 1 (Some JNull), 2%Z)] (site "false"))) = [Approved].
Proof.
  split; [|vm_compute; reflexivity].
  exact (proj1 (scep_transactions_settle_once Json.dumps 10 [enrol; (Approve false 1, 1%Z); (Reject false 1 (Some JNull), 2%Z)]
    (site "false") ([] : list string) (ok_empty "false"))).
Defined.

Lemma authorized_witness :
  exists row s q c given, In row (Pki.certs (pki (run [enrol] (site "true")))) /\ admits (site "true") s given /\ for_request s q c /\
    Pki.c_crt row = Some "PEM".
Proof.
  assert (exists row, Pki.certs (pki (run [enrol] (site "true"))) = [row] /\ Pki.c_crt row = Some "PEM") as (row & E & Ec)
    by (vm_compute; eexists; split; reflexivity).
  destruct (scep_certificates_are_authorized Json.dumps 10 [enrol] (site "true") ([] : list string) row)
    as (l1 & op & m & ip & r & now & l2 & s & data & csr_data & q & t & given & c & pem & El & Hs).
  - change (In row (Pki.certs (pki (run [enrol] (site "true"))))). rewrite E. by left.
  - intros [].
  - destruct l1 as [|y l1]; [|apply (f_equal (@List.length _)) in El; cbn in El; rewrite length_app in El; cbn in El; lia].
    cbv zeta in Hs. destruct Hs as (_ & Ha & _ & _ & _ & _ & _ & _ & Hf).
    exists row, s, q, c, given. rewrite E. split; [by left|]. auto.
Defined.

Definition waiting : state := run [enrol] (site "false").
Definition first_request : scep_request :=
  ScepRequest 1 "T1" "Q" Pending None None None None "CN=device" "10.0.0.9".
Definition service_of_site : service := Service root ca_x "KEY" (Some "secret") true.

Lemma by_hand_witness :
  let '(st1, trail1, reply) := approve_scep_request false 1 1 waiting ([] : list string) in
  reply = Done "SCEP request approved" /\ pki st1 = pki waiting /\
  let st2 := (serve_all Json.dumps 10 [enrol; enrol] st1 trail1).1 in
  (process service_of_site "M" "10.0.0.9" draw 5 st2).1 = st2 /\
  status_code (process service_of_site "M" "10.0.0.9" draw 5 st2).2 <> Some "0".
Proof.
  apply (approval_by_hand_issues_nothing Json.dumps waiting first_request 1 ([] : list string) 10 [enrol; enrol] service_of_site
    "M" "10.0.0.9" draw 5).
  - exact (proj1 (scep_settled Json.dumps 10 [enrol] (site "false") ([] : list string) (ok_empty "false"))).
  - vm_compute. by left.
  - reflexivity.
  - reflexivity.
Defined.

(** The loop CA is its own issuer. *)
Example unanswered : (scep_endpoint 50 "GetCACert" (Post "") "" draw 0
  (with_config [("scep_ca_id", Some "2")] (site "true"))).2 = None.
Proof. vm_compute. reflexivity. Qed.

Lemma unsigned_witness :
  exists row, In row (Pki.certs (pki (process service_of_site "M" "10.0.0.9" draw 0 (site "true")).1)) /\ Pki.c_crt row = Some "PEM".
Proof.
  apply (unsigned_requests_are_certified service_of_site "M" "10.0.0.9" draw 0 (site "true") "Q" q0 "T1" (Some "secret") "PEM");
    [|vm_compute; reflexivity..]. split; [reflexivity|exists "E"; split; [reflexivity|apply open_envelope_inv; reflexivity]|reflexivity|split; reflexivity|reflexivity].
Defined.

End ScepRun.
