(* ===== verification/CertModel.v ===== *)
(** The row of a certificate and what the application computes from it: the class
    [Certificate] of [models/__init__.py] with its properties and [to_dict]. *)
From S2P Require Import Prelude Base64.

Module CertModel.
Local Open Scope string_scope.
Local Open Scope list_scope.
Local Open Scope Z_scope.

Record certificate := Certificate {
  id : Z;
  refid : string;
  descr : string;
  caref : option string;
  crt : option string;
  csr : option string;
  prv : option string;
  cert_type : option string;
  subject : option string;
  subject_cn : option string;
  issuer : option string;
  serial_number : option string;
  aki : option string;
  ski : option string;
  valid_from : option Z;
  valid_to : option Z;
  key_algo : option string;
  san_dns : option string;
  san_ip : option string;
  san_email : option string;
  san_uri : option string;
  ocsp_uri : option string;
  private_key_location : option string;
  revoked : option bool;
  revoked_at : option Z;
  revoke_reason : option string;
  archived : option bool;
  imported_from : option string;
  created_at : option Z;
  created_by : option string;
  source : option string;
  template_id : option Z;
  owner_group_id : option Z;
}.

(** What the certificate library finds in a PEM text. *)
Inductive public_key :=
| RSAPublicKey (key_size : Z)
| EllipticCurvePublicKey (curve_name : string)
| DSAPublicKey (key_size : Z)
| OtherPublicKey.
Record oid := Oid { dotted_string : string; oid_name : string; oid_repr : string }.

Class Inspection := {
  (** the key of a certificate, of a request; [None] is an exception *)
  certificate_key : string -> option public_key;
  csr_key : string -> option public_key;
  signature_oid : string -> option oid;
  (** [cert.fingerprint(...)] as bytes *)
  fingerprint_sha1 : string -> option string;
  fingerprint_sha256 : string -> option string;
  loads : string -> option json;
  (** [f'{x}'] of a value that is no text *)
  py_repr : json -> string;
}.

(** A column that Python takes for true, and [bool] of one. *)
Definition filled (c : option string) : option string :=
  match c with Some s => if Str.truthy s then Some s else None | None => None end.
Definition true_flag (b : option bool) : bool := match b with Some b => b | None => false end.

(** [s.split()]: the words between white space. *)
Fixpoint pieces (s : string) : list string :=
  match s with
  | EmptyString => [EmptyString]
  | String c s' =>
      if Str.is_space c then EmptyString :: pieces s'
      else match pieces s' with w :: ws => String c w :: ws | [] => [String c EmptyString] end
  end.
Definition words (s : string) : list string := List.filter Str.truthy (pieces s).

(** [base64.b64decode(x).decode('utf-8')] *)
Definition pem_text (column : string) : option string :=
  b ← Base64.b64decode column;
  if Str.utf8_valid 0 0%N 0%N b then Some b else None.

(** [t.strftime("%Y-%m-%d %H:%M:%S UTC")]: the year is not padded. *)
Definition formatted (t : Z) : string :=
  let '(y, m, d) := Time.civil (t / Time.days 1) in
  let s := t mod Time.days 1 / Time.second in
  (Num.str y ^+ "-" ^+ Time.padded 2 m ^+ "-" ^+ Time.padded 2 d ^+ " " ^+
   Time.padded 2 (s / 3600) ^+ ":" ^+ Time.padded 2 (s / 60 mod 60) ^+ ":" ^+
   Time.padded 2 (s mod 60) ^+ " UTC")%ucm.

(** [f'{b:02X}'] of each byte, joined by colons. *)
Definition upper_hex (c : ascii) : string :=
  Str.upper (String (Json.hex1 (Str.code c / 16)) (String (Json.hex1 (Str.code c mod 16)) EmptyString)).
Definition thumbprint_text (digest : string) : string :=
  Str.join ":" (List.map upper_hex (String.list_ascii_of_string digest)).

(** * Distinguished names *)

Definition DN_FIELD_ALIASES : list (string * string) :=
  [("CN", "commonName"); ("O", "organizationName"); ("OU", "organizationalUnitName");
   ("C", "countryName"); ("ST", "stateOrProvinceName"); ("L", "localityName")].

Definition prefixes_of (field : string) : list string :=
  [field ^+ "="]
  ++ (match Json.assoc field DN_FIELD_ALIASES with
      | Some alias => if Str.truthy alias then [alias ^+ "="] else []
      | None => []
      end)
  ++ (match List.find (fun p => String.eqb field p.2) DN_FIELD_ALIASES with
      | Some p => [p.1 ^+ "="]
      | None => []
      end).

Fixpoint first_field (prefixes parts : list string) : string :=
  match parts with
  | [] => ""
  | part :: parts' =>
      let part := Str.strip part in
      match List.find (Str.startswith part) prefixes with
      | Some p => Str.drop (String.length p) part
      | None => first_field prefixes parts'
      end
  end.

Definition extract_dn_field (field : string) (dn : option string) : string :=
  match filled dn with
  | Some s => first_field (prefixes_of field) (Str.split "," s)
  | None => ""
  end.

Section Properties.
Context `{Inspection}.

Definition has_private_key (c : certificate) : bool :=
  match prv c with Some p => Str.truthy p && (0 <? String.length p)%nat | None => false end.

(** The lists of alternative names; the result of [json.loads] is not looked at. *)
Definition san_list (column : option string) : json :=
  match filled column with
  | Some s => default (JList []) (loads s)
  | None => JList []
  end.
Definition san_dns_list (c : certificate) : json := san_list (san_dns c).
Definition san_ip_list (c : certificate) : json := san_list (san_ip c).
Definition san_email_list (c : certificate) : json := san_list (san_email c).
Definition san_uri_list (c : certificate) : json := san_list (san_uri c).

Definition key_text (k : public_key) : string :=
  match k with
  | RSAPublicKey n => "RSA " ^+ Num.str n
  | EllipticCurvePublicKey curve => "EC " ^+ curve
  | DSAPublicKey n => "DSA " ^+ Num.str n
  | OtherPublicKey => "Unknown"
  end.
Definition key_type (c : certificate) : string :=
  let key :=
    match filled (crt c) with
    | Some s => pem ← pem_text s; certificate_key pem
    | None =>
        match filled (csr c) with
        | Some s => pem ← pem_text s; csr_key pem
        | None => None
        end
    end in
  match key with Some k => key_text k | None => "N/A" end.

Definition key_algorithm (c : certificate) : string :=
  let key_info := key_type c in
  if Str.truthy key_info && negb (String.eqb key_info "N/A")
  then default "" (head (words key_info))
  else "Unknown".

Definition key_size (c : certificate) : Z :=
  let key_info := key_type c in
  if Str.truthy key_info && negb (String.eqb key_info "N/A")
  then match words key_info with _ :: p :: _ => default 0 (Num.py_int p) | _ => 0 end
  else 0.

Definition sig_map : list (string * string) :=
  [("1.2.840.113549.1.1.11", "SHA256-RSA"); ("1.2.840.113549.1.1.12", "SHA384-RSA");
   ("1.2.840.113549.1.1.13", "SHA512-RSA"); ("1.2.840.113549.1.1.5", "SHA1-RSA");
   ("1.2.840.10045.4.3.2", "ECDSA-SHA256"); ("1.2.840.10045.4.3.3", "ECDSA-SHA384");
   ("1.2.840.10045.4.3.4", "ECDSA-SHA512")].
Definition signature_algorithm (c : certificate) : string :=
  match filled (crt c) with
  | Some s =>
      match (pem ← pem_text s; signature_oid pem) with
      | Some o =>
          default (if Str.truthy (oid_name o) then oid_name o else oid_repr o)
            (Json.assoc (dotted_string o) sig_map)
      | None => "N/A"
      end
  | None => "N/A"
  end.

Definition get_thumbprint (digest : string -> option string) (c : certificate) : string :=
  match filled (crt c) with
  | Some s => match (pem ← pem_text s; digest pem) with Some d => thumbprint_text d | None => "" end
  | None => ""
  end.
Definition thumbprint_sha1 := get_thumbprint fingerprint_sha1.
Definition thumbprint_sha256 := get_thumbprint fingerprint_sha256.

Definition organization (c : certificate) : string := extract_dn_field "O" (subject c).
Definition organizational_unit (c : certificate) : string := extract_dn_field "OU" (subject c).
Definition country (c : certificate) : string := extract_dn_field "C" (subject c).
Definition state (c : certificate) : string := extract_dn_field "ST" (subject c).
Definition locality (c : certificate) : string := extract_dn_field "L" (subject c).
Definition email (c : certificate) : string :=
  let e := extract_dn_field "emailAddress" (subject c) in
  if Str.truthy e then e else extract_dn_field "1.2.840.113549.1.9.1" (subject c).
Definition issuer_name (c : certificate) : string :=
  match filled (issuer c) with
  | None => ""
  | Some i => let cn := extract_dn_field "CN" (issuer c) in if Str.truthy cn then cn else i
  end.

(** The values of a column that holds a JSON list or a single text; [None] is an
    exception of [json.loads]. *)
Definition column_values (s : string) : option (list json) :=
  if Str.startswith s "[" then loads s ≫= Json.elements else Some [JStr s].

(** The first alternative name may be any JSON value. *)
Definition common_name (c : certificate) : json :=
  let cn := extract_dn_field "CN" (subject c) in
  if Str.truthy cn then JStr cn
  else match filled (san_dns c) ≫= column_values with
  | Some (first :: _) => first
  | _ => JStr (if Str.truthy (descr c) then descr c else "")
  end.

Definition py_str (j : json) : string := match j with JStr s => s | _ => py_repr j end.
Definition san_part (label : string) (column : option string) : list string :=
  match filled column with
  | None => []
  | Some s =>
      match column_values s with
      | Some l => List.map (fun v => label ^+ py_str v) l
      | None => [label ^+ s]
      end
  end.
Definition san_combined (c : certificate) : string :=
  Str.join ", " (san_part "DNS:" (san_dns c) ++ san_part "IP:" (san_ip c) ++ san_part "Email:" (san_email c)).

Definition days_remaining (now : Z) (c : certificate) : Z :=
  match valid_to c with
  | None => -1
  | Some t => Z.max 0 (Time.delta_days (t - now))
  end.

Definition not_valid_before (c : certificate) : string :=
  match valid_from c with Some t => formatted t | None => "" end.
Definition not_valid_after (c : certificate) : string :=
  match valid_to c with Some t => formatted t | None => "" end.

Definition decode_pem (column : option string) : option string := filled column ≫= pem_text.

(** * [to_dict] *)

Definition status (now : Z) (c : certificate) : string :=
  if true_flag (revoked c) then "revoked"
  else match valid_to c with
  | Some t => if t <? now then "expired" else if t <? now + Time.days 30 then "expiring" else "valid"
  | None => "valid"
  end.

Definition text (c : option string) : json := match c with Some s => JStr s | None => JNull end.
Definition number (c : option Z) : json := match c with Some z => JInt z | None => JNull end.
Definition flag (c : option bool) : json := match c with Some b => JBool b | None => JNull end.
Definition moment (c : option Z) : json :=
  match c with Some t => JStr (Time.isoformat "T" t) | None => JNull end.

(** [owner_group] is the group the foreign key names, if it is there. *)
Definition to_dict (owner_group : option string) (now : Z) (include_private : bool) (c : certificate) : json :=
  JDict ([
    ("id", JInt (id c)); ("refid", JStr (refid c)); ("descr", JStr (descr c)); ("caref", text (caref c));
    ("cert_type", text (cert_type c)); ("subject", text (subject c)); ("issuer", text (issuer c));
    ("serial_number", text (serial_number c)); ("aki", text (aki c)); ("ski", text (ski c));
    ("valid_from", moment (valid_from c)); ("valid_to", moment (valid_to c));
    ("revoked", flag (revoked c)); ("revoked_at", moment (revoked_at c));
    ("revoke_reason", text (revoke_reason c)); ("archived", JBool (true_flag (archived c)));
    ("imported_from", text (imported_from c)); ("created_at", moment (created_at c));
    ("created_by", text (created_by c)); ("source", JStr (default "manual" (filled (source c))));
    ("has_private_key", JBool (has_private_key c)); ("private_key_location", text (private_key_location c));
    ("san_dns", text (san_dns c)); ("san_ip", text (san_ip c)); ("san_email", text (san_email c));
    ("san_uri", text (san_uri c)); ("ocsp_uri", text (ocsp_uri c));
    ("common_name", common_name c); ("cn", common_name c); ("organization", JStr (organization c));
    ("country", JStr (country c)); ("state", JStr (state c)); ("locality", JStr (locality c));
    ("email", JStr (email c)); ("organizational_unit", JStr (organizational_unit c));
    ("issuer_name", JStr (issuer_name c)); ("not_valid_before", JStr (not_valid_before c));
    ("not_valid_after", JStr (not_valid_after c)); ("status", JStr (status now c));
    ("key_type", JStr (key_type c)); ("key_algo", text (key_algo c));
    ("key_algorithm", JStr (key_algorithm c)); ("key_size", JInt (key_size c));
    ("signature_algorithm", JStr (signature_algorithm c));
    ("thumbprint_sha1", JStr (thumbprint_sha1 c)); ("thumbprint_sha256", JStr (thumbprint_sha256 c));
    ("days_remaining", JInt (days_remaining now c)); ("san_combined", JStr (san_combined c));
    ("owner_group_id", number (owner_group_id c)); ("owner_group_name", text owner_group);
    ("pem", text (decode_pem (crt c)))]
    ++ (if include_private then [("crt", text (crt c)); ("csr", text (csr c)); ("prv", text (prv c))] else [])).

End Properties.
End CertModel.
