(* ===== verification/Compliance.v ===== *)
(** Compliance scores: [services/compliance_service.py], over the dictionaries that
    [Certificate.to_dict] builds, and the certificate listing, statistics and score
    routes of [api/v2/certificates.py]. *)
From S2P Require Import Prelude CertModel.

Module Compliance.
Local Open Scope string_scope.
Local Open Scope list_scope.
Local Open Scope Z_scope.

Definition GRADE_THRESHOLDS : list (Z * string) :=
  [(95, "A+"); (85, "A"); (70, "B"); (55, "C"); (40, "D"); (0, "F")].

Record item := Item { score : Z; max : Z; reason : string }.
Record breakdown := Breakdown {
  key_strength : item; signature : item; validity : item; san : item; lifetime : item;
}.
Record result := Result { total : Z; grade : string; parts : option breakdown }.

(** [d.get(k)]; [None] is the AttributeError of a value that is no dict. *)
Definition dict_get (k : string) (d : json) : option json :=
  match d with JDict kv => Some (default JNull (Json.assoc k kv)) | _ => None end.
(** [(x or '')] used as text: [None] is an AttributeError. *)
Definition text_or (dflt : string) (j : json) : option string :=
  if Json.truthy j then match j with JStr s => Some s | _ => None end else Some dflt.
(** [a or b] *)
Definition or_else (a b : json) : json := if Json.truthy a then a else b.
(** A value compared with a number: [None] is a TypeError. *)
Definition as_number (j : json) : option Z :=
  match j with JInt z => Some z | JBool b => Some (Z.b2z b) | _ => None end.
Definition number_text (j : json) : string :=
  match j with JInt z => Num.str z | JBool true => "True" | JBool false => "False" | _ => "" end.
(** [text in key_algo or key_size >= n]: the size is looked at when no text is found. *)
Definition curve_of (names : list string) (key_algo : string) (key_size : json) (n : Z) : option bool :=
  if existsb (fun t => Str.contains t key_algo) names then Some true
  else (fun z => n <=? z) <$> as_number key_size.

Definition score_key_strength (d : json) : option item :=
  let max_points := 30 in
  let item s r := Some (Item s max_points r) in
  a ← dict_get "key_algorithm" d; b ← dict_get "key_algo" d;
  key_algo ← text_or "" (or_else a b);
  let key_algo := Str.upper key_algo in
  size ← dict_get "key_size" d;
  let key_size := or_else size (JInt 0) in
  t ← dict_get "key_type" d;
  key_type ← text_or "" t;
  let key_type := Str.upper key_type in
  let key_algo := if negb (Str.truthy key_algo) && Str.truthy key_type then key_type else key_algo in
  let has s := Str.contains s key_algo in
  if has "EC" || has "ECDSA" || has "P-" then
    p521 ← curve_of ["P-521"; "SECP521"] key_algo key_size 521;
    if (p521 : bool) then item max_points "ECDSA P-521"
    else
    p384 ← curve_of ["P-384"; "SECP384"] key_algo key_size 384;
    if (p384 : bool) then item max_points "ECDSA P-384"
    else
    p256 ← curve_of ["P-256"; "SECP256"] key_algo key_size 256;
    if (p256 : bool) then item 25 "ECDSA P-256"
    else item 15 ("ECDSA (" ^+ number_text key_size ^+ "-bit)")
  else if has "ED25519" || has "ED448" then item max_points (Str.strip key_algo)
  else if has "RSA" then
    n ← as_number key_size;
    let shown := "RSA " ^+ number_text key_size in
    if 4096 <=? n then item max_points shown
    else if 3072 <=? n then item 25 shown
    else if 2048 <=? n then item 20 shown
    else if 1024 <=? n then item 5 (shown ^+ " (weak)")
    else item 0 (shown ^+ " (critical)")
  else item 10 (if Str.truthy key_algo then key_algo else "Unknown").

Definition score_signature (d : json) : option item :=
  let max_points := 25 in
  let item s r := Some (Item s max_points r) in
  j ← dict_get "signature_algorithm" d;
  sig_algo ← text_or "" j;
  let sig_algo := Str.upper sig_algo in
  let has s := Str.contains s sig_algo in
  if negb (Str.truthy sig_algo) then item 10 "Unknown"
  else if has "SHA512" || has "SHA-512" then item max_points "SHA-512"
  else if has "SHA384" || has "SHA-384" then item max_points "SHA-384"
  else if has "SHA256" || has "SHA-256" then item 22 "SHA-256"
  else if has "ED25519" || has "ED448" || has "EDDSA" then item max_points (Str.strip sig_algo)
  else if has "SHA1" || has "SHA-1" then item 0 "SHA-1 (deprecated)"
  else if has "MD5" then item 0 "MD5 (broken)"
  else item 10 (Str.strip sig_algo).

Definition score_validity (d : json) : option item :=
  let max_points := 25 in
  let item s r := Some (Item s max_points r) in
  j ← dict_get "status" d;
  status ← text_or "" j;
  let status := Str.lower status in
  days ← dict_get "days_remaining" d;
  if String.eqb status "revoked" then item 0 "revoked"
  else if String.eqb status "expired" then item 0 "expired"
  else match days with
  | JNull => if String.eqb status "valid" then item max_points "valid" else item 15 "unknown"
  | _ =>
      n ← as_number days;
      if n <=? 0 then item 0 "expired"
      else if n <=? 7 then item 5 "expires_week"
      else if n <=? 30 then item 15 "expires_month"
      else item max_points "valid"
  end.

(** [cert_type in ('ca', 'root', 'intermediate')] *)
Definition ca_exempt (cert_type : string) : bool :=
  existsb (String.eqb cert_type) ["ca"; "root"; "intermediate"].

Definition score_san (d : json) : option item :=
  let max_points := 10 in
  j ← dict_get "san_combined" d;
  san_combined ← text_or "" j;
  dns ← dict_get "san_dns" d; ip ← dict_get "san_ip" d; email ← dict_get "san_email" d;
  let present s :=
    negb (existsb (Json.py_eq (or_else s (JStr "[]"))) [JStr "[]"; JStr ""; JStr "null"; JNull]) in
  let has_sans := Str.truthy (Str.strip san_combined) || existsb present [dns; ip; email] in
  t ← dict_get "cert_type" d;
  cert_type ← text_or "" t;
  if ca_exempt (Str.lower cert_type) then Some (Item max_points max_points "ca_exempt")
  else if has_sans then Some (Item max_points max_points "present")
  else Some (Item 0 max_points "missing").

(** [datetime.fromisoformat], a naive date read as UTC; [None] is a ValueError. *)
Section Scores.
Context (fromisoformat : string -> option Z).

Definition score_lifetime (d : json) : option item :=
  let max_points := 10 in
  let item s r := Some (Item s max_points r) in
  t ← dict_get "cert_type" d;
  cert_type ← text_or "" t;
  if ca_exempt (Str.lower cert_type) then item max_points "ca_exempt"
  else
  valid_from ← dict_get "valid_from" d; valid_to ← dict_get "valid_to" d;
  if negb (Json.truthy valid_from) || negb (Json.truthy valid_to) then item 5 "unknown"
  else
  match valid_from, valid_to with
  | JStr a, JStr b =>
      match fromisoformat (Str.replace "Z" "+00:00" a), fromisoformat (Str.replace "Z" "+00:00" b) with
      | Some t0, Some t1 =>
          let lifetime_days := Time.delta_days (t1 - t0) in
          if lifetime_days <=? 398 then item max_points "short"
          else if lifetime_days <=? 825 then item 7 "moderate"
          else item 3 "long"
      | _, _ => item 5 "unknown"
      end
  | JStr a, _ =>                       (* the second value has no attribute [tzinfo] *)
      match fromisoformat (Str.replace "Z" "+00:00" a) with Some _ => None | None => item 5 "unknown" end
  | _, JStr b =>
      match fromisoformat (Str.replace "Z" "+00:00" b) with Some _ => None | None => item 5 "unknown" end
  | _, _ => None
  end.

Definition grade_of (total : Z) : string :=
  match List.find (fun t => t.1 <=? total) GRADE_THRESHOLDS with Some t => t.2 | None => "F" end.

Definition calculate_compliance_score (d : json) : option result :=
  k ← score_key_strength d; s ← score_signature d; v ← score_validity d;
  n ← score_san d; l ← score_lifetime d;
  let total := Z.min (score k + score s + score v + score n + score l) 100 in
  Some (Result total (grade_of total) (Some (Breakdown k s v n l))).

(** [results[cert_id] = value]: a list or dict is no key. *)
Definition hashable (j : json) : bool := match j with JList _ | JDict _ => false | _ => true end.
Fixpoint put (k : json) (r : result) (l : list (json * result)) : list (json * result) :=
  match l with
  | [] => [(k, r)]
  | p :: l' => if Json.py_eq k p.1 then (p.1, r) :: l' else p :: put k r l'
  end.
Fixpoint batch (results : list (json * result)) (certs : list json) : option (list (json * result)) :=
  match certs with
  | [] => Some results
  | cert :: certs' =>
      cert_id ← dict_get "id" cert;
      if negb (hashable cert_id) then None
      else batch (put cert_id (default (Result 0 "F" None) (calculate_compliance_score cert)) results) certs'
  end.
Definition score_certificates_batch (certs : list json) : option (list (json * result)) := batch [] certs.

End Scores.
End Compliance.
