(* ===== verification/CertListing.v ===== *)
(** The read routes of [api/v2/certificates.py] over the certificate table: the listing
    with its filters, search, order and pages, the statistics, and the aggregate
    compliance scores. *)
From S2P Require Import Prelude CertModel Compliance.

Module CertListing.
Import CertModel.
Local Open Scope string_scope.
Local Open Scope list_scope.
Local Open Scope Z_scope.

(** * SQL *)

(** [t LIKE p ESCAPE '\'] *)
Definition escape_char : ascii := Json.backslash.
Fixpoint like (p : string) : string -> bool :=
  match p with
  | EmptyString => fun t => negb (Str.truthy t)
  | String c p' =>
      if Ascii.eqb c escape_char then
        match p' with
        | String e p'' => fun t =>
            match t with String d t' => Ascii.eqb e d && like p'' t' | EmptyString => false end
        | EmptyString => fun _ => false
        end
      else if Ascii.eqb c "%" then
        fix any (t : string) : bool :=
          like p' t || match t with String _ t' => any t' | EmptyString => false end
      else if Ascii.eqb c "_" then
        fun t => match t with String _ t' => like p' t' | EmptyString => false end
      else
        fun t => match t with String d t' => Ascii.eqb c d && like p' t' | EmptyString => false end
  end.
(** [column.ilike(p)]: both sides are lowered; NULL matches nothing. *)
Definition ilike (p : string) (column : option string) : bool :=
  match column with Some s => like (Str.lower p) (Str.lower s) | None => false end.

(** Values in the order of SQLite: NULL, numbers, text by its bytes. *)
Inductive cell := Null | Number (z : Z) | Text (s : string).
Definition cell_le (a b : cell) : bool :=
  match a, b with
  | Null, _ => true
  | Number _, Null => false
  | Number x, Number y => (x <=? y)
  | Number _, Text _ => true
  | Text x, Text y => String.leb x y
  | Text _, _ => false
  end.
Definition of_text (c : option string) : cell := match c with Some s => Text s | None => Null end.
Definition of_number (c : option Z) : cell := match c with Some z => Number z | None => Null end.

(** ORDER BY keys, each with its direction. *)
Definition order (A : Type) := list ((A -> cell) * bool).
Fixpoint row_le {A} (o : order A) (a b : A) : bool :=
  match o with
  | [] => true
  | (key, desc) :: o' =>
      let '(x, y) := if desc then (key b, key a) else (key a, key b) in
      cell_le x y && (negb (cell_le y x) || row_le o' a b)
  end.
Fixpoint insert {A} (le : A -> A -> bool) (x : A) (l : list A) : list A :=
  match l with
  | [] => [x]
  | y :: l' => if le x y then x :: l else y :: insert le x l'
  end.
Definition sort {A} (le : A -> A -> bool) (l : list A) : list A := fold_right (insert le) [] l.

Definition is_revoked (b : bool) (c : certificate) : bool := bool_decide (revoked c = Some b).
Definition before (t : Z) (c : certificate) : bool :=
  match valid_to c with Some v => v <=? t | None => false end.
Definition after (t : Z) (c : certificate) : bool :=
  match valid_to c with Some v => t <? v | None => false end.

(** * The listing *)

Definition args := list (string * string).
Definition arg (k dflt : string) (q : args) : string := default dflt (Json.assoc k q).
(** [request.args.get(k, dflt, type=int)] *)
Definition int_arg (k : string) (dflt : Z) (q : args) : Z :=
  default dflt (Json.assoc k q ≫= Num.py_int).

Definition page_of (q : args) : Z := Z.max 1 (int_arg "page" 1 q).
Definition per_page_of (q : args) : Z := Z.min (Z.max 1 (int_arg "per_page" 20 q)) 100.

Definition status_filter (now : Z) (status : option string) (c : certificate) : bool :=
  match status with
  | Some "revoked" => is_revoked true c
  | Some "valid" => is_revoked false c && after now c
  | Some "expired" => before now c
  | Some "expiring" => before (now + Time.days 30) c && after now c && is_revoked false c
  | _ => true
  end.

Definition bs : string := String escape_char EmptyString.
Definition safe_search (search : string) : string :=
  Str.replace "_" (bs ^+ "_") (Str.replace "%" (bs ^+ "%") (Str.replace bs (bs ^+ bs) search)).
Definition search_filter (search : string) (c : certificate) : bool :=
  if Str.truthy search then
    let p := "%" ^+ safe_search search ^+ "%" in
    ilike p (subject c) || ilike p (issuer c) || ilike p (Some (descr c)) || ilike p (serial_number c)
  else true.

Definition cn_sort (c : certificate) : cell :=
  match subject_cn c with Some s => Text s | None => Text (descr c) end.
Definition status_order (now : Z) (c : certificate) : cell :=
  Number (if is_revoked true c then 1 else if before now c then 2
          else if before (now + Time.days 30) c then 3 else 4).
Definition compliance_order (now : Z) (c : certificate) : cell :=
  let key s := ilike s (key_algo c) in
  Number ((if key "%4096%" then 30 else if key "%EC%" then 30 else if key "%P-256%" then 30
           else if key "%P-384%" then 30 else if key "%Ed25519%" then 30 else if key "%2048%" then 20
           else if key "%1024%" then 5 else 15)
          + (if is_revoked true c then 0 else if before now c then 0
             else if before (now + Time.days 30) c then 15 else 25)).

Definition ALLOWED_SORT_COLUMNS : list (string * (certificate -> cell)) :=
  [("subject", cn_sort); ("subject_cn", cn_sort); ("issuer", fun c => of_text (issuer c));
   ("valid_to", fun c => of_number (valid_to c)); ("valid_from", fun c => of_number (valid_from c));
   ("created_at", fun c => of_number (created_at c)); ("serial_number", fun c => of_text (serial_number c));
   ("revoked", fun c => of_number (Z.b2z <$> revoked c)); ("descr", fun c => Text (descr c));
   ("key_algo", fun c => of_text (key_algo c))].
(** The fallback for an unknown name is the column [subject]. *)
Definition sort_order (now : Z) (q : args) : order certificate :=
  let desc := String.eqb (arg "sort_order" "asc" q) "desc" in
  let sort_by := arg "sort_by" "subject" q in
  if String.eqb sort_by "status" then [(status_order now, desc); (fun c => of_text (subject c), false)]
  else if String.eqb sort_by "compliance_grade" then [(compliance_order now, desc); (cn_sort, false)]
  else [(default (fun c => of_text (subject c)) (Json.assoc sort_by ALLOWED_SORT_COLUMNS), desc)].

Definition selected (now : Z) (q : args) (rows : list certificate) : list certificate :=
  List.filter (search_filter (Str.strip (arg "search" "" q)))
    (List.filter (status_filter now (Json.assoc "status" q)) rows).
Definition listed (now : Z) (q : args) (rows : list certificate) : list certificate :=
  sort (row_le (sort_order now q)) (selected now q rows).

(** [query.paginate(...)]: one page of a listing. *)
Definition page_slice {A} (page per_page : Z) (l : list A) : list A :=
  take (Z.to_nat per_page) (drop (Z.to_nat ((page - 1) * per_page)) l).

Inductive reply := Page (data : list json) (total page per_page : Z) | Raised.

Section Routes.
Context `{Inspection} (fromisoformat : string -> option Z) (group_name : Z -> option string).

Definition row_dict (now : Z) (c : certificate) : json :=
  to_dict (owner_group_id c ≫= group_name) now false c.
Definition scored (now : Z) (c : certificate) : option json :=
  r ← Compliance.calculate_compliance_score fromisoformat (row_dict now c);
  match row_dict now c with
  | JDict kv => Some (JDict (kv ++ [("compliance_score", JInt (Compliance.total r));
                                    ("compliance_grade", JStr (Compliance.grade r))]))
  | _ => None
  end.

(** The filter on [ca_id] names an attribute that certificates do not have. *)
Definition list_certificates (now : Z) (q : args) (rows : list certificate) : reply :=
  let page := page_of q in
  let per_page := per_page_of q in
  if negb (int_arg "ca_id" 0 q =? 0) then Raised
  else if 2 ^ 63 <=? (page - 1) * per_page then Raised
  else
    match mapM (scored now) (page_slice page per_page (listed now q rows)) with
    | Some data => Page data (Z.of_nat (length (selected now q rows))) page per_page
    | None => Raised
    end.

(** * Statistics *)

Record stats := Stats { n_total : Z; n_valid : Z; n_expiring : Z; n_expired : Z; n_revoked : Z }.
Definition count (p : certificate -> bool) (rows : list certificate) : Z := Z.of_nat (Table.count p rows).
Definition get_certificate_stats (now : Z) (rows : list certificate) : stats :=
  let threshold := now + Time.days 30 in
  let expiring := count (fun c => before threshold c && after now c && is_revoked false c) rows in
  Stats (Z.of_nat (length rows))
    (count (fun c => after now c && is_revoked false c) rows - expiring)
    expiring
    (count (fun c => before now c && is_revoked false c) rows)
    (count (is_revoked true) rows).

(** [round(a / b)] of numbers that are not negative: halves go to the even number. *)
Definition round_div (a b : Z) : Z :=
  let q := a / b in
  let r := a mod b in
  if 2 * r <? b then q else if b <? 2 * r then q + 1 else if Z.even q then q else q + 1.

Definition GRADES : list string := ["A+"; "A"; "B"; "C"; "D"; "F"].
Record tally := Tally { sum : Z; n : Z; grades : list (string * Z) }.
Definition no_tally : tally := Tally 0 0 (List.map (fun g => (g, 0)) GRADES).
Definition add_grade (g : string) (l : list (string * Z)) : list (string * Z) :=
  List.map (fun p => if String.eqb p.1 g then (p.1, p.2 + 1) else p) l.
Fixpoint tally_rows (now : Z) (t : tally) (rows : list certificate) : option tally :=
  match rows with
  | [] => Some t
  | c :: rows' =>
      r ← Compliance.calculate_compliance_score fromisoformat (row_dict now c);
      tally_rows now (Tally (sum t + Compliance.total r) (n t + 1) (add_grade (Compliance.grade r) (grades t))) rows'
  end.
Definition BATCH_SIZE : nat := 200.
(** [while True]: [None] when the rounds given do not suffice, [Some None] an exception. *)
Fixpoint batches (fuel : nat) (now : Z) (offset : nat) (t : tally) (rows : list certificate) : option (option tally) :=
  match fuel with
  | O => None
  | S fuel =>
      match take BATCH_SIZE (drop offset rows) with
      | [] => Some (Some t)
      | batch =>
          match tally_rows now t batch with
          | None => Some None
          | Some t => batches fuel now (offset + BATCH_SIZE) t rows
          end
      end
  end.
Inductive score_reply := Scores (average : Z) (distribution : list (string * Z)) (total : Z) | ScoreError.
Definition get_compliance_stats (now : Z) (rows : list certificate) : option score_reply :=
  let active := List.filter (is_revoked false) rows in
  match active with
  | [] => Some (Scores 0 (grades no_tally) 0)
  | _ =>
      t ← batches (S (length active)) now 0 no_tally active;
      Some (match t with
            | Some t => Scores (if n t =? 0 then 0 else round_div (sum t) (n t)) (grades t) (n t)
            | None => ScoreError
            end)
  end.

End Routes.
End CertListing.
