(* ===== verification/ComplianceFacts.v ===== *)
(** What the compliance scores and the certificate listing guarantee. *)
From S2P Require Import Prelude Base64 CertModel Compliance CertListing.

Module ComplianceFacts.
Import CertModel Compliance CertListing.
Local Open Scope string_scope.
Local Open Scope list_scope.
Local Open Scope Z_scope.

(** * The entries of a row's dictionary the scores read *)
Section Row.
Context `{Inspection} (fromisoformat : string -> option Z) (owner : option string) (now : Z) (priv : bool) (c : certificate).
#[local] Abbreviation d := (to_dict owner now priv c).

Lemma row_key_algorithm : dict_get "key_algorithm" d = Some (JStr (key_algorithm c)).
Proof. reflexivity. Qed.
Lemma row_key_algo : dict_get "key_algo" d = Some (text (key_algo c)).
Proof. reflexivity. Qed.
Lemma row_key_size : dict_get "key_size" d = Some (JInt (key_size c)).
Proof. reflexivity. Qed.
Lemma row_key_type : dict_get "key_type" d = Some (JStr (key_type c)).
Proof. reflexivity. Qed.
Lemma row_signature : dict_get "signature_algorithm" d = Some (JStr (signature_algorithm c)).
Proof. reflexivity. Qed.
Lemma row_status : dict_get "status" d = Some (JStr (status now c)).
Proof. reflexivity. Qed.
Lemma row_days : dict_get "days_remaining" d = Some (JInt (days_remaining now c)).
Proof. reflexivity. Qed.
Lemma row_san : dict_get "san_combined" d = Some (JStr (san_combined c))
  /\ dict_get "san_dns" d = Some (text (san_dns c)) /\ dict_get "san_ip" d = Some (text (san_ip c))
  /\ dict_get "san_email" d = Some (text (san_email c)).
Proof. repeat split; reflexivity. Qed.
Lemma row_cert_type : dict_get "cert_type" d = Some (text (cert_type c)).
Proof. reflexivity. Qed.
Lemma row_dates : dict_get "valid_from" d = Some (moment (valid_from c))
  /\ dict_get "valid_to" d = Some (moment (valid_to c)).
Proof. split; reflexivity. Qed.

Lemma text_or_str dflt s : exists t, text_or dflt (JStr s) = Some t.
Proof. unfold text_or. cbn. destruct (Str.truthy s); eauto. Qed.
Lemma text_or_text dflt s : exists t, text_or dflt (text s) = Some t.
Proof. destruct s; [apply text_or_str|]. by exists dflt. Qed.

(** A text between two alternatives. *)
Lemma or_else_text s t : exists u, text_or "" (or_else (JStr s) (text t)) = Some u.
Proof. unfold or_else. cbn. destruct (Str.truthy s) eqn:E; [|apply text_or_text]. apply text_or_str. Qed.

Lemma or_else_number z : exists n, or_else (JInt z) (JInt 0) = JInt n /\ (n = z).
Proof. unfold or_else. cbn. destruct (Z.eqb_spec z 0); cbn; eauto. Qed.

Lemma key_points : exists i, score_key_strength d = Some i.
Proof.
  unfold score_key_strength. rewrite row_key_algorithm, row_key_algo, row_key_size, row_key_type. cbn [mbind option_bind].
  destruct (or_else_text (key_algorithm c) (key_algo c)) as [u ->]. cbn [mbind option_bind].
  destruct (or_else_number (key_size c)) as (n & -> & _).
  destruct (text_or_str "" (key_type c)) as [t ->]. cbn [mbind option_bind].
  unfold curve_of, as_number. cbn [fmap option_fmap option_map]. repeat case_match; simplify_eq; cbn [mbind option_bind] in *;
    repeat case_match; simplify_eq; eauto.
Qed.
Lemma signature_points : exists i, score_signature d = Some i.
Proof.
  unfold score_signature. rewrite row_signature. cbn [mbind option_bind].
  destruct (text_or_str "" (signature_algorithm c)) as [t ->]. cbn [mbind option_bind]. repeat case_match; eauto.
Qed.
Lemma validity_points : exists i, score_validity d = Some i.
Proof.
  unfold score_validity. rewrite row_status, row_days. cbn [mbind option_bind].
  destruct (text_or_str "" (status now c)) as [t ->]. cbn [mbind option_bind as_number]. repeat case_match; eauto.
Qed.
Lemma san_points : exists i, score_san d = Some i.
Proof.
  destruct row_san as (E1 & E2 & E3 & E4). unfold score_san. rewrite E1, E2, E3, E4, row_cert_type. cbn [mbind option_bind].
  destruct (text_or_str "" (san_combined c)) as [s ->]. destruct (text_or_text "" (cert_type c)) as [t ->].
  cbn [mbind option_bind]. repeat case_match; eauto.
Qed.
Lemma lifetime_points : exists i, score_lifetime fromisoformat d = Some i.
Proof.
  destruct row_dates as (E1 & E2). unfold score_lifetime. rewrite E1, E2, row_cert_type. cbn [mbind option_bind].
  destruct (text_or_text "" (cert_type c)) as [t ->]. cbn [mbind option_bind].
  destruct (valid_from c), (valid_to c); cbn [moment Json.truthy negb orb]; rewrite ?orb_true_r; repeat case_match; eauto.
Qed.

Lemma row_scores : exists r, calculate_compliance_score fromisoformat d = Some r.
Proof.
  unfold calculate_compliance_score. destruct key_points as [k ->], signature_points as [s ->], validity_points as [v ->],
    san_points as [n ->], lifetime_points as [l ->]. cbn. eauto.
Qed.
End Row.

(** * Bounds *)
Ltac crack E :=
  repeat first [apply bind_Some in E as (? & ? & E) | case_match | progress simplify_eq]; cbn; lia.

Lemma key_bounds d i : score_key_strength d = Some i -> 0 <= score i <= 30 /\ max i = 30.
Proof. unfold score_key_strength. intros E. crack E. Qed.
Lemma signature_bounds d i : score_signature d = Some i -> 0 <= score i <= 25 /\ max i = 25.
Proof. unfold score_signature. intros E. crack E. Qed.
Lemma validity_bounds d i : score_validity d = Some i -> 0 <= score i <= 25 /\ max i = 25.
Proof. unfold score_validity. intros E. crack E. Qed.
Lemma san_bounds d i : score_san d = Some i -> 0 <= score i <= 10 /\ max i = 10.
Proof. unfold score_san. intros E. crack E. Qed.
Lemma lifetime_bounds fromiso d i : score_lifetime fromiso d = Some i -> 0 <= score i <= 10 /\ max i = 10.
Proof. unfold score_lifetime. intros E. crack E. Qed.

Lemma grade_spec n : 0 <= n -> 
  grade_of n = if 95 <=? n then "A+" else if 85 <=? n then "A" else if 70 <=? n then "B"
               else if 55 <=? n then "C" else if 40 <=? n then "D" else "F".
Proof.
  intros Hn. unfold grade_of, GRADE_THRESHOLDS. cbn [List.find fst].
  repeat case_match; simplify_eq; try done; try lia.
Qed.

Lemma row_bounded `{Inspection} fromiso owner now priv c :
  exists r, calculate_compliance_score fromiso (to_dict owner now priv c) = Some r
    /\ 0 <= Compliance.total r <= 100 /\ In (grade r) CertListing.GRADES.
Proof.
  destruct (row_scores fromiso owner now priv c) as [r E]. exists r. split; [done|].
  unfold calculate_compliance_score in E. repeat (apply bind_Some in E as (? & ? & E)). simplify_eq.
  repeat match goal with
  | Hk : score_key_strength _ = _ |- _ => apply key_bounds in Hk as []
  | Hk : score_signature _ = _ |- _ => apply signature_bounds in Hk as []
  | Hk : score_validity _ = _ |- _ => apply validity_bounds in Hk as []
  | Hk : score_san _ = _ |- _ => apply san_bounds in Hk as []
  | Hk : score_lifetime _ _ = _ |- _ => apply lifetime_bounds in Hk as []
  end.
  cbn. split; [lia|]. rewrite grade_spec by lia. repeat case_match; cbn; tauto.
Qed.

(** Every stored certificate has a score: scoring its dictionary raises nothing, no
    category exceeds its maximum, the total is the sum of the categories, and the
    grade is the one of its band. *)
Theorem scores_are_bounded `{Inspection} fromiso owner now priv c :
  exists k s v n l,
    let sum := score k + score s + score v + score n + score l in
    calculate_compliance_score fromiso (to_dict owner now priv c)
    = Some (Result sum
        (if 95 <=? sum then "A+" else if 85 <=? sum then "A" else if 70 <=? sum then "B"
         else if 55 <=? sum then "C" else if 40 <=? sum then "D" else "F")
        (Some (Breakdown k s v n l)))
    /\ 0 <= sum <= 100
    /\ Forall (fun i => 0 <= score i <= max i) [k; s; v; n; l].
Proof.
  destruct (key_points owner now priv c) as [k Ek], (signature_points owner now priv c) as [s Es],
    (validity_points owner now priv c) as [v Ev], (san_points owner now priv c) as [n En],
    (lifetime_points fromiso owner now priv c) as [l El].
  exists k, s, v, n, l. unfold calculate_compliance_score. rewrite Ek, Es, Ev, En, El. cbn [mbind option_bind].
  apply key_bounds in Ek as []. apply signature_bounds in Es as []. apply validity_bounds in Ev as [].
  apply san_bounds in En as []. apply lifetime_bounds in El as [].
  rewrite Z.min_l by lia. rewrite grade_spec by lia. split; [done|]. split; [lia|].
  repeat constructor; lia.
Qed.

(** * Keys on curves *)

Lemma pieces_no_space s : Str.exists_char Str.is_space s = false -> pieces s = [s].
Proof.
  induction s as [|a s IH]; [done|]. cbn. intros [Ha Hs]%orb_false_iff. by rewrite Ha, IH.
Qed.

Lemma words_of_curve curve : Str.truthy curve = true -> Str.exists_char Str.is_space curve = false ->
  words ("EC " ^+ curve) = ["EC"; curve].
Proof.
  intros Ht Hs. unfold words. change ("EC " ^+ curve) with (String "E" (String "C" (String " " curve))).
  cbn [pieces]. rewrite pieces_no_space by done. change (Str.is_space "E") with false. change (Str.is_space "C") with false.
  change (Str.is_space " ") with true. cbn [List.filter]. by rewrite Ht.
Qed.

Lemma stored_key `{Inspection} c col pem k :
  filled (crt c) = Some col -> pem_text col = Some pem -> certificate_key pem = Some k -> key_type c = key_text k.
Proof. intros Ec Ep Ek. unfold key_type. rewrite Ec, Ep. cbn [mbind option_bind]. by rewrite Ek. Qed.

(** A certificate with an elliptic-curve key gets fifteen points for its key, whatever the
    curve, and one with an Edwards-curve key ten: the key size is read from the name of the
    curve, which is no number, and other keys are called Unknown.  The first never reaches
    the grade A+, the second never A; an RSA key of 2048 bits gets twenty points. *)
Theorem curve_keys_are_marked_down `{Inspection} fromiso owner now priv c col pem k
  (Hcrt : filled (crt c) = Some col) (Hpem : pem_text col = Some pem) (Hkey : certificate_key pem = Some k) :
  match k with
  | EllipticCurvePublicKey curve =>
      Str.truthy curve = true -> Str.exists_char Str.is_space curve = false -> Num.py_int curve = None ->
      exists r b, calculate_compliance_score fromiso (to_dict owner now priv c) = Some r /\ parts r = Some b
        /\ score (key_strength b) = 15 /\ total r <= 85 /\ grade r <> "A+"
  | OtherPublicKey =>
      exists r b, calculate_compliance_score fromiso (to_dict owner now priv c) = Some r /\ parts r = Some b
        /\ score (key_strength b) = 10 /\ total r <= 80 /\ grade r <> "A+" /\ grade r <> "A"
  | RSAPublicKey 2048 =>
      exists r b, calculate_compliance_score fromiso (to_dict owner now priv c) = Some r /\ parts r = Some b
        /\ score (key_strength b) = 20
  | _ => True
  end.
Proof.
  pose proof (stored_key c col pem k Hcrt Hpem Hkey) as Et.
  assert (forall i, score_key_strength (to_dict owner now priv c) = Some i -> exists r b,
    calculate_compliance_score fromiso (to_dict owner now priv c) = Some r /\ parts r = Some b
    /\ key_strength b = i /\ total r <= score i + 70 /\ 0 <= total r /\ grade r = grade_of (total r)) as Hr.
  { intros i Ei. unfold calculate_compliance_score. rewrite Ei.
    destruct (signature_points owner now priv c) as [s Es], (validity_points owner now priv c) as [v Ev],
      (san_points owner now priv c) as [n En], (lifetime_points fromiso owner now priv c) as [l El].
    rewrite Es, Ev, En, El. cbn. eexists _, _. split; [done|]. cbn.
    apply key_bounds in Ei as []. apply signature_bounds in Es as []. apply validity_bounds in Ev as [].
    apply san_bounds in En as []. apply lifetime_bounds in El as [].
    repeat split; lia. }
  assert (forall n, 0 <= n -> grade_of n = "A+" -> 95 <= n) as Hplus.
  { intros n Hn. rewrite grade_spec by done. repeat case_match; try done. lia. }
  assert (forall n, 0 <= n -> grade_of n = "A" -> 85 <= n) as HA.
  { intros n Hn. rewrite grade_spec by done. repeat case_match; try done. lia. }
  assert (forall algo size t, key_algorithm c = algo -> key_size c = size -> key_type c = t ->
    score_key_strength (to_dict owner now priv c)
    = score_key_strength (JDict [("key_algorithm", JStr algo); ("key_algo", text (key_algo c));
        ("key_size", JInt size); ("key_type", JStr t)])) as Hk.
  { intros algo size t <- <- <-. unfold score_key_strength.
    rewrite row_key_algorithm, row_key_algo, row_key_size, row_key_type. done. }
  destruct k as [n|curve|n|]; [|intros Ht Hs Hn|done|].
  - repeat case_match; try done. subst.
    destruct (Hr (Item 20 30 "RSA 2048")) as (r & b & E & Eb & Ei & _).
    { rewrite (Hk "RSA" 2048 "RSA 2048"); [by vm_compute| | |done]; unfold key_algorithm, key_size; rewrite Et; by vm_compute. }
    exists r, b. by rewrite Ei.
  - destruct (Hr (Item 15 30 "ECDSA (0-bit)")) as (r & b & E & Eb & Ei & Hb & H0 & Hg).
    { rewrite (Hk "EC" 0 (key_text (EllipticCurvePublicKey curve))).
      - unfold score_key_strength. cbn [dict_get Json.assoc String.eqb]. cbn -[Str.upper Str.contains text_or key_text].
        destruct (text_or_str "" (key_text (EllipticCurvePublicKey curve))) as [t ->]. by vm_compute.
      - unfold key_algorithm. rewrite Et. cbn [key_text]. rewrite words_of_curve by done. by vm_compute.
      - unfold key_size. rewrite Et. cbn [key_text]. rewrite words_of_curve by done. cbn -[Num.py_int]. by rewrite Hn.
      - done. }
    exists r, b. rewrite Ei. cbn in *. repeat split; try done. rewrite Hg. intros E'. apply Hplus in E'; lia.
  - destruct (Hr (Item 10 30 "UNKNOWN")) as (r & b & E & Eb & Ei & Hb & H0 & Hg).
    { rewrite (Hk "Unknown" 0 "Unknown"); [by vm_compute| | |done]; unfold key_algorithm, key_size; rewrite Et; by vm_compute. }
    exists r, b. rewrite Ei. cbn in *. rewrite Hg. repeat split; try done; intros E'; [apply Hplus in E'|apply HA in E']; lia.
Qed.

End ComplianceFacts.

(** The certificate listing: what the search finds, and that its pages are the selected
    rows, each once, in the order asked for. *)
Module ListingFacts.
Import CertModel CertListing.
Local Open Scope string_scope.
Local Open Scope list_scope.
Local Open Scope Z_scope.

(** * The search *)

(** The text with each character replaced by a text. *)
Fixpoint expand (f : ascii -> string) (s : string) : string :=
  match s with EmptyString => EmptyString | String a s' => f a ^+ expand f s' end.

Lemma replace_char c new s :
  Str.replace (String c "") new s = expand (fun a => if Ascii.eqb c a then new else String a "") s.
Proof.
  unfold Str.replace. induction s as [|a s IH]; [done|].
  cbn [String.length Str.replace_fuel]. rewrite StrFacts.prefix_one.
  destruct (Ascii.eqb c a) eqn:E; cbn [Str.drop String.length].
  - rewrite IH. cbn [expand]. by rewrite E.
  - rewrite IH. cbn [expand]. by rewrite E.
Qed.

Lemma expand_app f s t : expand f (s ^+ t) = expand f s ^+ expand f t.
Proof. induction s as [|a s IH]; [done|]. cbn. by rewrite IH, StrFacts.app_assoc. Qed.

Lemma expand_expand f g s : expand f (expand g s) = expand (fun a => expand f (g a)) s.
Proof. induction s as [|a s IH]; [done|]. cbn. by rewrite expand_app, IH. Qed.

Lemma expand_ext f g s : (forall a, f a = g a) -> expand f s = expand g s.
Proof. intros Hf. induction s as [|a s IH]; [done|]. cbn. by rewrite Hf, IH. Qed.

Definition special (a : ascii) : bool := Ascii.eqb escape_char a || Ascii.eqb "%" a || Ascii.eqb "_" a.
Definition escaped (a : ascii) : string := if special a then bs ^+ String a "" else String a "".

Lemma escaped_eq a : escaped a = if special a then bs ^+ String a "" else String a "".
Proof. reflexivity. Qed.

Lemma safe_search_expand s : safe_search s = expand escaped s.
Proof.
  unfold safe_search. change bs with (String escape_char ""). rewrite !replace_char, !expand_expand.
  apply expand_ext. intros a. unfold escaped, special.
  destruct (Ascii.eqb_spec escape_char a) as [<-|H1]; [done|].
  destruct (Ascii.eqb_spec "%" a) as [<-|H2]; [done|]. cbn -[Ascii.eqb].
  destruct (Ascii.eqb_spec escape_char a); [done|]. cbn -[Ascii.eqb].
  destruct (Ascii.eqb_spec "%" a); [done|]. cbn -[Ascii.eqb].
  by destruct (Ascii.eqb_spec "_" a) as [<-|].
Qed.

Lemma lower1_special a : special (Str.lower1 a) = special a /\ (special a = true -> Str.lower1 a = a).
Proof. destruct a as [[] [] [] [] [] [] [] []]; vm_compute; done. Qed.

Lemma lower_expand s : Str.lower (expand escaped s) = expand escaped (Str.lower s).
Proof.
  induction s as [|a s IH]; [done|]. cbn [expand]. unfold Str.lower in *. cbn [Str.map expand].
  destruct (lower1_special a) as [Hs Ha]. rewrite (escaped_eq a), (escaped_eq (Str.lower1 a)), Hs. destruct (special a).
  - rewrite (Ha eq_refl). cbn. rewrite IH, (Ha eq_refl). done.
  - cbn. by rewrite IH.
Qed.

Lemma like_percent t : like "%" t = true.
Proof. induction t as [|a t IH]; [done|]. cbn in *. by rewrite IH. Qed.

Lemma like_escaped s t : like (expand escaped s ^+ "%") t = String.prefix s t.
Proof.
  revert t. induction s as [|a s IH]; intros t; [transitivity true; [exact (like_percent t)|by destruct t]|].
  cbn [expand]. rewrite escaped_eq. destruct (special a) eqn:E; cbn [String.append like].
  - change (bs ^+ String a "") with (String escape_char (String a "")). cbn [String.append].
    cbn [like]. rewrite Ascii.eqb_refl. destruct t as [|b t]; [done|].
    rewrite IH. cbn [String.prefix]. destruct (ascii_dec a b) as [->|Hne].
    + by rewrite Ascii.eqb_refl.
    + by destruct (Ascii.eqb_spec a b).
  - unfold special in E. apply orb_false_iff in E as [[E1 E2]%orb_false_iff E3].
    rewrite (Ascii.eqb_sym a escape_char), E1, (Ascii.eqb_sym a "%"), E2, (Ascii.eqb_sym a "_"), E3.
    destruct t as [|b t]; [done|]. rewrite IH. cbn [String.prefix]. destruct (ascii_dec a b) as [->|Hne].
    + by rewrite Ascii.eqb_refl.
    + by destruct (Ascii.eqb_spec a b).
Qed.

(** The pattern the listing builds finds the searched text anywhere, as plain text. *)
Lemma ilike_contains s column :
  ilike ("%" ^+ safe_search s ^+ "%") column
  = match column with Some c => Str.contains (Str.lower s) (Str.lower c) | None => false end.
Proof.
  destruct column as [c|]; [|done]. unfold ilike. rewrite safe_search_expand.
  assert (forall u v, Str.lower (u ^+ v) = Str.lower u ^+ Str.lower v) as Happ.
  { intros u v. induction u as [|a u IH]; [done|]. unfold Str.lower in *. cbn. by rewrite IH. }
  rewrite !Happ, lower_expand. change (Str.lower "%") with "%". cbn [String.append].
  remember (Str.lower s) as p. generalize (Str.lower c). clear. intros t.
  induction t as [|a t IH].
  - cbn -[like]. change (like (String "%" (expand escaped p ^+ "%")) "")
      with (like (expand escaped p ^+ "%") "" || false). by rewrite like_escaped.
  - change (like (String "%" (expand escaped p ^+ "%")) (String a t))
      with (like (expand escaped p ^+ "%") (String a t) || like (String "%" (expand escaped p ^+ "%")) t).
    rewrite like_escaped, IH. done.
Qed.

(** * Sorting and pages *)

Lemma insert_Permutation {A} (le : A -> A -> bool) x l : Permutation (x :: l) (insert le x l).
Proof.
  induction l as [|y l IH]; cbn; [done|]. destruct (le x y); [done|].
  etransitivity; [apply perm_swap|]. by constructor.
Qed.
Lemma sort_Permutation {A} (le : A -> A -> bool) l : Permutation l (sort le l).
Proof.
  induction l as [|x l IH]; [done|]. cbn. etransitivity; [by constructor|]. apply insert_Permutation.
Qed.

Definition total {A} (le : A -> A -> bool) : Prop := forall a b, le a b = false -> le b a = true.
Lemma sort_Sorted {A} (le : A -> A -> bool) l : total le -> Sorted (fun a b => le a b = true) (sort le l).
Proof.
  intros Ht. induction l as [|x l IH]; cbn; [constructor|].
  change (Sorted (fun a b => le a b = true) (insert le x (sort le l))).
  induction (sort le l) as [|y s IHs]; cbn; [by repeat constructor|].
  destruct (le x y) eqn:E; [constructor; [done|by constructor]|]. inversion IH as [|? ? Hs Hy]; subst.
  constructor; [by apply IHs|]. destruct s as [|z s]; cbn.
  - constructor. by apply Ht.
  - destruct (le x z); constructor; [by apply Ht|by inversion Hy].
Qed.

Lemma cell_le_total : total cell_le.
Proof.
  intros [|x|s] [|y|t]; cbn; try done.
  - intros ?%Z.leb_gt. apply Z.leb_le. lia.
  - intros E. destruct (String.leb_total s t) as [?|?]; [congruence|done].
Qed.
Lemma row_le_total {A} (o : order A) : total (row_le o).
Proof.
  induction o as [|[key desc] o IH]; intros a b; cbn; [done|].
  destruct desc; cbn; intros E; apply andb_false_iff in E as [E|E].
  - rewrite (cell_le_total _ _ E). by rewrite E.
  - apply orb_false_iff in E as [E1%negb_false_iff E2]. rewrite E1, (IH _ _ E2). by rewrite orb_true_r.
  - rewrite (cell_le_total _ _ E). by rewrite E.
  - apply orb_false_iff in E as [E1%negb_false_iff E2]. rewrite E1, (IH _ _ E2). by rewrite orb_true_r.
Qed.

Lemma NoDup_map_filter {A B} (f : A -> B) p l : NoDup (List.map f l) -> NoDup (List.map f (List.filter p l)).
Proof.
  induction l as [|x l IH]; [done|]. intros [Hx Hl]%NoDup_cons. cbn. destruct (p x); [|by apply IH].
  constructor; [|by apply IH]. intros (y & E & Hy)%list_elem_of_In%in_map_iff.
  apply List.filter_In in Hy as [Hy _]. apply Hx, list_elem_of_In, in_map_iff. by exists y.
Qed.

(** The first [k] pages of a list are its first [k * per_page] elements. *)
Lemma pages_concat {A} (per_page k : nat) (l : list A) :
  concat (List.map (fun i => page_slice (Z.of_nat i) (Z.of_nat per_page) l) (seq 1 k)) = take (k * per_page) l.
Proof.
  induction k as [|k IH]; [done|]. rewrite seq_S, List.map_app, concat_app, IH. cbn [List.map concat].
  rewrite List.app_nil_r. unfold page_slice.
  replace (Z.to_nat ((Z.of_nat (1 + k) - 1) * Z.of_nat per_page)) with (k * per_page)%nat by lia.
  rewrite Nat2Z.id. change (S k * per_page)%nat with (per_page + k * per_page)%nat.
  rewrite (Nat.add_comm per_page). by rewrite take_take_drop.
Qed.

Section Listing.
Context `{Inspection} (fromisoformat : string -> option Z) (group_name : Z -> option string).

Lemma row_scored now c : exists j, scored fromisoformat group_name now c = Some j.
Proof.
  unfold scored, row_dict. destruct (ComplianceFacts.row_scores fromisoformat (owner_group_id c ≫= group_name) now false c) as [r ->].
  cbn [mbind option_bind]. unfold to_dict. eauto.
Qed.
(** A row as the listing shows it. *)
Definition shown now c : json := default JNull (scored fromisoformat group_name now c).
Lemma mapM_scored now l : mapM (scored fromisoformat group_name now) l = Some (List.map (shown now) l).
Proof.
  apply mapM_Some_2. induction l as [|c l IH]; cbn [List.map]; constructor; [|done].
  unfold shown. by destruct (row_scored now c) as [j ->].
Qed.

Definition with_page (k : Z) (q : args) : args := ("page", Num.str k) :: q.


Lemma page_of_with k q : 1 <= k -> page_of (with_page k q) = k.
Proof. intros Hk. unfold page_of, int_arg. cbn. rewrite NumFacts.py_int_str by lia. cbn. lia. Qed.

Lemma one_page now q rows k : int_arg "ca_id" 0 q = 0 -> 1 <= k < 2 ^ 56 ->
  list_certificates fromisoformat group_name now (with_page k q) rows
  = Page (List.map (shown now) (page_slice k (per_page_of q) (listed now q rows)))
      (Z.of_nat (length (selected now q rows))) k (per_page_of q).
Proof.
  intros Hca Hk. unfold list_certificates. rewrite page_of_with by lia.
  change (int_arg "ca_id" 0 (with_page k q)) with (int_arg "ca_id" 0 q). rewrite Hca.
  change (per_page_of (with_page k q)) with (per_page_of q). cbn [negb Z.eqb].
  assert (0 < per_page_of q <= 100) by (unfold per_page_of; lia).
  destruct (Z.leb_spec (2 ^ 63) ((k - 1) * per_page_of q)); [nia|]. by rewrite mapM_scored.
Qed.

(** What a request selects: the rows with the status asked for that hold the searched text,
    in any case, in the subject, the issuer, the description or the serial number. *)
Definition wanted (now : Z) (q : args) (c : certificate) : Prop :=
  let search := Str.strip (arg "search" "" q) in
  status_filter now (Json.assoc "status" q) c = true
  /\ (search = "" \/ exists text, In (Some text) [subject c; issuer c; Some (descr c); serial_number c]
      /\ Str.contains (Str.lower search) (Str.lower text) = true).

Lemma selected_wanted now q rows c : In c (selected now q rows) <-> In c rows /\ wanted now q c.
Proof.
  unfold selected, wanted. rewrite !List.filter_In. unfold search_filter.
  set (search := Str.strip _). rewrite !ilike_contains.
  destruct (Str.truthy search) eqn:E.
  - assert (search <> "") as Hs by (by destruct search). rewrite !orb_true_iff. split.
    + intros [[Hin Hst] Hm]. repeat split; try done. right.
      destruct Hm as [[[Hm|Hm]|Hm]|Hm]; [destruct (subject c) as [t|]|destruct (issuer c) as [t|]|set (t := descr c) in Hm|destruct (serial_number c) as [t|]];
        try done; exists t; (split; [cbn; tauto|exact Hm]).
    + intros (Hin & Hst & [?|(t & Ht & Hm)]); [done|]. split; [done|].
      cbn in Ht. destruct Ht as [->|[->|[[= <-]|[->|[]]]]]; auto.
  - assert (search = "") as -> by (by destruct search). naive_solver.
Qed.

(** The pages of a listing, taken together, show exactly the rows the request asks for,
    each once and in the order asked for; every page reports their number. *)
Theorem listing_is_complete now q rows pages_asked
  (Hca : int_arg "ca_id" 0 q = 0) (Hsmall : Z.of_nat pages_asked < 2 ^ 56)
  (Henough : Z.of_nat (length (selected now q rows)) <= Z.of_nat pages_asked * per_page_of q) :
  exists ordered pages,
    (forall i page, pages !! i = Some page ->
       list_certificates fromisoformat group_name now (with_page (Z.of_nat i + 1) q) rows
       = Page page (Z.of_nat (length ordered)) (Z.of_nat i + 1) (per_page_of q))
    /\ length pages = pages_asked
    /\ concat pages = List.map (shown now) ordered
    /\ Sorted (fun a b => row_le (sort_order now q) a b = true) ordered
    /\ (forall c, In c ordered <-> In c rows /\ wanted now q c)
    /\ (NoDup (List.map id rows) -> NoDup (List.map id ordered)).
Proof.
  assert (Permutation (selected now q rows) (listed now q rows)) as Hp by apply sort_Permutation.
  pose proof (Permutation_length Hp) as Hlen.
  exists (listed now q rows),
    (List.map (fun i => List.map (shown now) (page_slice (Z.of_nat i) (per_page_of q) (listed now q rows))) (seq 1 pages_asked)).
  split_and!.
  - intros i page Hi. apply list_lookup_fmap_Some in Hi as (k & -> & [-> Hk]%lookup_seq).
    rewrite one_page by (done || lia). rewrite Hlen.
    by replace (Z.of_nat (1 + i)) with (Z.of_nat i + 1) by lia.
  - by rewrite List.length_map, length_seq.
  - assert (0 < per_page_of q) by (unfold per_page_of; lia).
    rewrite <-(List.map_map (fun i => page_slice (Z.of_nat i) (per_page_of q) (listed now q rows)) (List.map (shown now))).
    rewrite <-concat_map. f_equal. rewrite <-(Z2Nat.id (per_page_of q)) by lia. rewrite pages_concat.
    apply take_ge. nia.
  - apply sort_Sorted, row_le_total.
  - intros c. rewrite <-selected_wanted. split; by apply Permutation_in.
  - intros Hn. rewrite <-(Permutation_map id Hp). unfold selected.
    apply NoDup_map_filter. by apply NoDup_map_filter.
Qed.
End Listing.
End ListingFacts.

(** The statistics of the certificate table and the aggregate scores: the batches of the
    score route are one pass over the table, and nothing is counted twice. *)
Module StatsFacts.
Import CertModel CertListing.
Local Open Scope string_scope.
Local Open Scope list_scope.
Local Open Scope Z_scope.

(** The rows no number but the total counts: without a revocation flag, or not revoked and
    without an end. *)
Definition left_out (c : certificate) : bool :=
  match revoked c with
  | None => true
  | Some true => false
  | Some false => match valid_to c with None => true | Some _ => false end
  end.

Lemma count_cons p c rows : count p (c :: rows) = Z.b2z (p c) + count p rows.
Proof. unfold count, Table.count, Table.all. cbn [List.filter]. destruct (p c); cbn [length Z.b2z]; lia. Qed.

(** The statistics split the table: every row is counted as valid, expiring, expired or
    revoked, in one of them only, except the rows left out. *)
Theorem statistics_split_the_table now rows :
  let s := get_certificate_stats now rows in
  n_total s = n_valid s + n_expiring s + n_expired s + n_revoked s + count left_out rows
  /\ 0 <= n_valid s /\ 0 <= n_expiring s /\ 0 <= n_expired s /\ 0 <= n_revoked s.
Proof.
  cbn -[count]. induction rows as [|c rows IH]; [done|]. rewrite !count_cons. cbn [length].
  set (f := fun c => before (now + Time.days 30) c && after now c && is_revoked false c) in *. cbv beta.
  assert (Z.b2z (left_out c) + Z.b2z (after now c && is_revoked false c)
    + Z.b2z (before now c && is_revoked false c) + Z.b2z (is_revoked true c) = 1
    /\ Z.b2z (f c) <= Z.b2z (after now c && is_revoked false c)) as [? ?].
  { unfold f, is_revoked, after, before, left_out. destruct (valid_to c) as [v|].
    - destruct (Z.leb_spec v now), (Z.ltb_spec now v), (v <=? now + Time.days 30); try lia;
        by destruct (revoked c) as [[]|].
    - by destruct (revoked c) as [[]|]. }
  assert (forall b, 0 <= Z.b2z b) as Hb by (by intros []).
  pose proof (Hb (f c)). pose proof (Hb (before now c && is_revoked false c)). pose proof (Hb (is_revoked true c)). change (before (now + Time.days 30) c && after now c && is_revoked false c) with (f c). lia.
Qed.

(** * The score route *)
Section Scores.
Context `{Inspection} (fromisoformat : string -> option Z) (group_name : Z -> option string) (now : Z).

Definition score_of (c : certificate) : Compliance.result :=
  default (Compliance.Result 0 "F" None)
    (Compliance.calculate_compliance_score fromisoformat (row_dict group_name now c)).
Definition sum_of (rows : list certificate) : Z := fold_right (fun c s => Compliance.total (score_of c) + s) 0 rows.
Lemma sum_of_cons c l : sum_of (c :: l) = Compliance.total (score_of c) + sum_of l.
Proof. reflexivity. Qed.
Definition graded (g : string) (c : certificate) : bool := String.eqb g (Compliance.grade (score_of c)).

Lemma row_score c :
  Compliance.calculate_compliance_score fromisoformat (row_dict group_name now c) = Some (score_of c)
  /\ 0 <= Compliance.total (score_of c) <= 100 /\ In (Compliance.grade (score_of c)) GRADES.
Proof.
  unfold score_of, row_dict.
  destruct (ComplianceFacts.row_bounded fromisoformat (owner_group_id c ≫= group_name) now false c) as (r & -> & Hr & Hg).
  done.
Qed.

Definition tally_of (t : tally) (rows : list certificate) : tally :=
  Tally (sum t + sum_of rows) (n t + Z.of_nat (length rows))
    (List.map (fun p => (p.1, p.2 + count (graded p.1) rows)) (grades t)).

Lemma tally_rows_spec t rows : tally_rows fromisoformat group_name now t rows = Some (tally_of t rows).
Proof.
  revert t. induction rows as [|c rows IH]; intros t; cbn [tally_rows].
  - unfold tally_of. cbn. rewrite !Z.add_0_r. destruct t as [s k g]. cbn. do 2 f_equal.
    induction g as [|[g v] l IHg]; [done|]. cbn. by rewrite Z.add_0_r, <-IHg.
  - destruct (row_score c) as [-> _]. cbn [mbind option_bind]. rewrite IH. f_equal.
    unfold tally_of. cbn [sum n grades length]. f_equal; [rewrite sum_of_cons; lia|lia|].
    unfold add_grade. rewrite List.map_map. apply map_ext. intros [g v]. cbn [fst snd].
    unfold count, Table.count, Table.all. cbn [List.filter]. unfold graded at 2.
    destruct (String.eqb g _); cbn [fst snd length]; f_equal; lia.
Qed.

Lemma sum_of_app a b : sum_of (a ++ b) = sum_of a + sum_of b.
Proof. induction a as [|c a IH]; [done|]. cbn [app]. rewrite !sum_of_cons, IH. lia. Qed.

Lemma tally_of_app t a b : tally_of (tally_of t a) b = tally_of t (a ++ b).
Proof.
  unfold tally_of. cbn [sum n grades]. f_equal.
  - rewrite sum_of_app. lia.
  - rewrite length_app. lia.
  - rewrite List.map_map. apply map_ext. intros [g v]. cbn. unfold count. rewrite Table.count_app. f_equal. lia.
Qed.

Lemma batches_spec fuel offset t rows : (length rows - offset < fuel)%nat ->
  batches fromisoformat group_name fuel now offset t rows = Some (Some (tally_of t (drop offset rows))).
Proof.
  revert offset t. induction fuel as [|fuel IH]; intros offset t Hf; [lia|]. cbn [batches].
  rewrite <-(take_drop BATCH_SIZE (drop offset rows)) at 2. rewrite drop_drop.
  destruct (take BATCH_SIZE (drop offset rows)) as [|c batch] eqn:E.
  - apply (f_equal length) in E. rewrite length_take, length_drop in E. unfold BATCH_SIZE in *. cbn [length] in E.
    rewrite (drop_ge rows (offset + 200)) by lia. cbn [app]. do 2 f_equal.
    pose proof (tally_rows_spec t []) as Ht. cbn in Ht. by injection Ht as <-.
  - rewrite tally_rows_spec. apply (f_equal length) in E. rewrite length_take, length_drop in E. cbn [length] in E.
    rewrite IH by (unfold BATCH_SIZE in *; lia). by rewrite tally_of_app.
Qed.

Lemma sum_of_bounds rows : 0 <= sum_of rows <= 100 * Z.of_nat (length rows).
Proof.
  induction rows as [|c rows IH]; [done|]. rewrite sum_of_cons. cbn [length].
  destruct (row_score c) as (_ & ? & _). lia.
Qed.

Lemma round_div_bounds a b m : 0 < b -> 0 <= a <= m * b -> 0 <= round_div a b <= m.
Proof.
  intros Hb Ha. unfold round_div. pose proof (Z.div_mod a b ltac:(lia)). pose proof (Z.mod_pos_bound a b Hb).
  assert (0 <= a / b) by (apply Z.div_pos; lia). assert (a / b <= m) by nia.
  assert (a / b = m -> a mod b = 0) by nia.
  destruct (Z.ltb_spec (2 * (a mod b)) b); [lia|]. destruct (Z.ltb_spec b (2 * (a mod b))); [lia|].
  destruct (Z.even (a / b)); lia.
Qed.

Lemma grades_partition rows :
  fold_right Z.add 0 (List.map (fun g => count (graded g) rows) GRADES) = Z.of_nat (length rows).
Proof.
  induction rows as [|c rows IH]; [done|]. destruct (row_score c) as (_ & _ & Hg).
  assert (fold_right Z.add 0 (List.map (fun g => Z.b2z (graded g c)) GRADES) = 1) as Hc.
  { unfold graded. cbn [In GRADES] in Hg. by destruct Hg as [<-|[<-|[<-|[<-|[<-|[<-|[]]]]]]]. }
  cbn [GRADES List.map fold_right length] in *. rewrite !count_cons. lia.
Qed.

(** C19: The score route, which reads the certificates that are not revoked in batches of two
    hundred, always ends and answers what one pass over them gives: their number, how many
    have each grade, and the rounded average of their scores. *)
Theorem score_route_is_one_pass rows :
  let active := List.filter (is_revoked false) rows in
  exists average,
    get_compliance_stats fromisoformat group_name now rows
    = Some (Scores average (List.map (fun g => (g, count (graded g) active)) GRADES) (Z.of_nat (length active)))
    /\ (active = [] -> average = 0)
    /\ (active <> [] -> average = round_div (sum_of active) (Z.of_nat (length active)))
    /\ 0 <= average <= 100
    /\ fold_right Z.add 0 (List.map (fun g => count (graded g) active) GRADES) = Z.of_nat (length active).
Proof.
  cbn. unfold get_compliance_stats. remember (List.filter (is_revoked false) rows) as active.
  destruct active as [|c active].
  { exists 0. split_and!; (done || lia). }
  rewrite batches_spec by (cbn [drop]; lia). cbn [drop mbind option_bind].
  remember (c :: active) as l. assert (0 < Z.of_nat (length l)) by (subst; cbn; lia).
  exists (round_div (sum_of l) (Z.of_nat (length l))). cbn [tally_of sum n grades no_tally].
  rewrite !Z.add_0_l. destruct (Z.eqb_spec (Z.of_nat (length l)) 0); [lia|].
  split_and!; [done|by subst|done|..|apply grades_partition];
    by apply (round_div_bounds _ _ 100); [|apply sum_of_bounds].
Qed.

End Scores.
End StatsFacts.

(** Scores and listings of a small table, and instances of the theorems there. *)
Module ComplianceRun.
Import CertModel Compliance CertListing.
Local Open Scope string_scope.
Local Open Scope list_scope.
Local Open Scope Z_scope.

(** A certificate library for texts that name a kind of key. *)
#[local] Instance sample_inspection : Inspection := {|
  certificate_key pem :=
    if String.eqb pem "p256" then Some (EllipticCurvePublicKey "secp256r1")
    else if String.eqb pem "rsa" then Some (RSAPublicKey 2048)
    else if String.eqb pem "ed25519" then Some OtherPublicKey else None;
  csr_key _ := None;
  signature_oid pem :=
    Some (if String.eqb pem "p256" then Oid "1.2.840.10045.4.3.2" "ecdsa-with-SHA256" ""
          else if String.eqb pem "rsa" then Oid "1.2.840.113549.1.1.11" "sha256WithRSAEncryption" ""
          else Oid "1.3.101.112" "ed25519" "");
  fingerprint_sha1 _ := None; fingerprint_sha256 _ := Some "AB";
  loads s := if String.eqb s "[]" then Some (JList []) else None;
  py_repr _ := "";
|}.
Definition iso (s : string) : option Z :=
  if Str.startswith s "2025" then Some 0 else if Str.startswith s "2026" then Some (Time.days 365) else None.

Definition day : Z := 1735689600 * Time.second.   (* 2025-01-01 *)
Definition row (i : Z) (name key : string) (revoked : bool) : certificate :=
  Certificate i ("ref" ^+ Num.str i) name None (Some (Base64.b64encode key)) None None (Some "server_cert")
    (Some ("CN=" ^+ name ^+ ",O=Acme")) (Some name) (Some "CN=Root") (Some (Num.str i)) None None
    (Some day) (Some (day + Time.days 365)) (Some "EC secp256r1") (Some name) None None None None None
    (Some revoked) None None None None (Some day) None None None None.
Definition table : list certificate :=
  [row 1 "b.example" "p256" false; row 2 "a_b.example" "rsa" false; row 3 "c.example" "ed25519" true].
Definition now : Z := day + Time.days 10.

Example scores_of_the_table :
  List.map (fun c => let r := default (Result 0 "" None) (calculate_compliance_score iso (to_dict None now false c)) in
                     (total r, grade r)) table
  = [(82, "B"); (87, "A"); (55, "C")].
Proof. vm_compute. reflexivity. Qed.

Example dictionary_of_a_row :
  List.map (fun k => Json.get k (to_dict None now false (row 1 "b.example" "p256" false)))
    ["common_name"; "organization"; "status"; "days_remaining"; "key_type"; "key_size"; "san_combined"; "thumbprint_sha256"; "not_valid_after"]
  = [Some (JStr "b.example"); Some (JStr "Acme"); Some (JStr "valid"); Some (JInt 355); Some (JStr "EC secp256r1");
     Some (JInt 0); Some (JStr "DNS:b.example"); Some (JStr "41:42"); Some (JStr "2026-01-01 00:00:00 UTC")].
Proof. vm_compute. reflexivity. Qed.

(** The underscore of a search stands for itself. *)
Example underscore : List.map id (selected now [("search", "a_B")] table) = [2].
Proof. vm_compute. reflexivity. Qed.
Example by_name : List.map id (listed now [("sort_by", "subject"); ("status", "valid")] table) = [2; 1].
Proof. vm_compute. reflexivity. Qed.

Lemma curve_keys_witness :
  exists r b, calculate_compliance_score iso (to_dict None now false (row 1 "b.example" "p256" false)) = Some r
    /\ parts r = Some b /\ score (key_strength b) = 15 /\ total r <= 85 /\ grade r <> "A+".
Proof.
  exact (ComplianceFacts.curve_keys_are_marked_down iso None now false (row 1 "b.example" "p256" false) _ "p256"
    (EllipticCurvePublicKey "secp256r1") eq_refl eq_refl eq_refl eq_refl eq_refl eq_refl).
Defined.

Lemma listing_witness :
  exists ordered pages,
    (forall i page, pages !! i = Some page ->
       list_certificates iso (fun _ => None) now (ListingFacts.with_page (Z.of_nat i + 1) [("per_page", "2")]) table
       = Page page (Z.of_nat (length ordered)) (Z.of_nat i + 1) (per_page_of [("per_page", "2")]))
    /\ length pages = 2%nat
    /\ concat pages = List.map (ListingFacts.shown iso (fun _ => None) now) ordered
    /\ Sorted (fun a b => row_le (sort_order now [("per_page", "2")]) a b = true) ordered
    /\ (forall c, In c ordered <-> In c table /\ ListingFacts.wanted now [("per_page", "2")] c)
    /\ (NoDup (List.map id table) -> NoDup (List.map id ordered)).
Proof.
  apply (ListingFacts.listing_is_complete iso (fun _ => None) now [("per_page", "2")] table 2);
    vm_compute; [reflexivity|reflexivity|discriminate].
Defined.

End ComplianceRun.
