(* ===== verification/IpAddress.v ===== *)
(** Python's [ipaddress.ip_address] and the validation of name fields
    ([utils/dn_validation.py]), which the certificate routes call on their input. *)
From S2P Require Import Prelude.

Module IpAddress.
Local Open Scope string_scope.
Local Open Scope list_scope.
Local Open Scope Z_scope.

Inductive ip := V4 (n : Z) | V6 (n : Z) (scope : option string).

(** Four numbers of at most three digits, without leading zeros. *)
Definition octet (s : string) : option Z :=
  if negb (Str.truthy s) || negb (Str.forall_char Str.is_digit s) || (3 <? String.length s)%nat then None
  else if Str.startswith s "0" && (1 <? String.length s)%nat then None
  else n ← Num.digits 10 0 false s; if 255 <? n then None else Some n.
Definition ipv4 (s : string) : option Z :=
  match mapM octet (Str.split "." s) with
  | Some [a; b; c; d] => Some (((a * 256 + b) * 256 + c) * 256 + d)
  | _ => None
  end.

Definition hextet (s : string) : option Z :=
  if negb (Str.truthy s) || (4 <? String.length s)%nat || Str.has_char "_" s then None
  else Num.digits 16 0 false s.
Definition hextets (l : list string) : option (list Z) := mapM hextet l.

(** The parts, a trailing IPv4 address turned into two of them. *)
Definition with_ipv4 (parts : list string) : option (list string) :=
  match List.rev parts with
  | tail :: front =>
      if Str.has_char "." tail
      then n ← ipv4 tail;
           Some (List.rev front ++ [Num.hex (n / 65536); Num.hex (n mod 65536)])
      else Some parts
  | [] => Some parts
  end.
(** The places of empty parts other than the first and the last. *)
Definition gaps (parts : list string) : list nat :=
  List.filter (fun i => match parts !! i with Some p => negb (Str.truthy p) | None => false end)
    (seq 1 (length parts - 2)).
Definition blank (o : option string) : bool := match o with Some s => negb (Str.truthy s) | None => false end.

Definition ipv6_number (s : string) : option Z :=
  let parts := Str.split ":" s in
  if (length parts <? 3)%nat then None
  else
  parts ← with_ipv4 parts;
  let n := length parts in
  if (9 <? n)%nat then None
  else
  let value l := fold_left (fun acc h => acc * 65536 + h) l 0 in
  match gaps parts with
  | _ :: _ :: _ => None
  | [i] =>
      let hi := i in
      let lo := (n - i - 1)%nat in
      let first_blank := blank (head parts) in
      let last_blank := blank (last parts) in
      if first_blank && negb (hi - 1 =? 0)%nat then None
      else if last_blank && negb (lo - 1 =? 0)%nat then None
      else
      let hi := if first_blank then (hi - 1)%nat else hi in
      let lo := if last_blank then (lo - 1)%nat else lo in
      if (8 <=? hi + lo)%nat then None
      else
      a ← hextets (take hi parts); b ← hextets (drop (n - lo) parts);
      Some (value (a ++ repeat 0 (8 - (hi + lo)) ++ b))
  | [] =>
      if negb (n =? 8)%nat then None
      else value <$> hextets parts
  end.
Definition ipv6 (s : string) : option ip :=
  if Str.has_char "/" s then None
  else match Str.split "%" s with
  | [addr] => (fun n => V6 n None) <$> ipv6_number addr
  | [addr; scope] => if Str.truthy scope then (fun n => V6 n (Some scope)) <$> ipv6_number addr else None
  | _ => None
  end.

(** [ip_address(x)]; [None] is the ValueError. *)
Definition ip_of_text (s : string) : option ip :=
  match ipv4 s with Some n => Some (V4 n) | None => ipv6 s end.
Definition ip_of_number (z : Z) : option ip :=
  if z <? 0 then None else if z <? 2 ^ 32 then Some (V4 z) else if z <? 2 ^ 128 then Some (V6 z None) else None.
Definition ip_address (j : json) : option ip :=
  match j with
  | JStr s => ip_of_text s
  | JInt z => ip_of_number z
  | JBool b => ip_of_number (Z.b2z b)
  | _ => None
  end.

(** The text of an address; the groups of an IPv6 address in full. *)
Definition dotted (n : Z) : string :=
  Str.join "." (List.map Num.str [n / 16777216; n / 65536 mod 256; n / 256 mod 256; n mod 256]).
Definition group (z : Z) : string :=
  let h := Num.hex z in Time.zeros (4 - String.length h) ^+ h.
Definition exploded (n : Z) : string :=
  Str.join ":" (List.map (fun i => group (n / 65536 ^ i mod 65536)) [7; 6; 5; 4; 3; 2; 1; 0]).
Definition ip_text (a : ip) : string :=
  match a with
  | V4 n => dotted n
  | V6 n scope => exploded n ^+ match scope with Some s => "%" ^+ s | None => "" end
  end.

Example addresses :
  List.map ip_of_text ["10.0.0.1"; "256.0.0.1"; "01.2.3.4"; "1.2.3"; "::1"; "::"; "1::2::3"; ":1::2"; "fe80::1%eth0";
                       "::ffff:1.2.3.4"; "1:2:3:4:5:6:7:8"; "1:2:3:4:5:6:7:8:9"; "12345::"; "www.example.com"]
  = [Some (V4 167772161); None; None; None; Some (V6 1 None); Some (V6 0 None); None; None;
     Some (V6 338288524927261089654018896841347694593 (Some "eth0"));
     Some (V6 281470698652420 None); Some (V6 5192455318486707404433266433261576 None); None; None; None].
Proof. vm_compute. reflexivity. Qed.
Example texts : List.map ip_text [V4 167772161; V6 1 None] = ["10.0.0.1"; "0000:0000:0000:0000:0000:0000:0000:0001"].
Proof. vm_compute. reflexivity. Qed.

(** * Name fields *)

Definition is_word (c : ascii) : bool := Str.is_upper c || Str.is_lower c || Str.is_digit c || Ascii.eqb c "_".
Definition one_of (l : list ascii) (c : ascii) : bool := existsb (Ascii.eqb c) l.
Definition quote1 : ascii := "'"%char.

(** The characters each pattern of [DN_FIELD_PATTERNS] allows; a country is two capitals. *)
Definition allowed (field : string) : option (ascii -> bool) :=
  let plus l := Some (fun c => is_word c || Str.is_space c || one_of l c) in
  if String.eqb field "CN" then plus ["-"; "."; ","; quote1; "@"; "("; ")"; "*"]%char
  else if existsb (String.eqb field) ["O"; "OU"] then plus ["-"; "."; ","; quote1; "&"]%char
  else if existsb (String.eqb field) ["ST"; "L"] then plus ["-"; "."]%char
  else None.
Definition matches (field value : string) : bool :=
  match allowed field with
  | Some p => Str.truthy value && Str.forall_char p value
  | None =>
      if String.eqb field "C" then (String.length value =? 2)%nat && Str.forall_char Str.is_upper value
      else true
  end.
Definition MAX_DN_FIELD_LENGTH : nat := 64.
Definition dangerous_patterns : list string :=
  let one n := String (ascii_of_N n) EmptyString in
  [";"; "|"; "`"; "$"; String Json.backslash "n"; String Json.backslash "r"; one 0%N; one 10%N; one 13%N].

(** [validate_dn_field]; [None] when the value is accepted. *)
Definition validate_dn_field (py_str : json -> string) (field : string) (value : json) : option string :=
  if negb (Json.truthy value) then None
  else
  let v := Str.strip (py_str value) in
  if (MAX_DN_FIELD_LENGTH <? String.length v)%nat then Some (field ^+ " must be 64 characters or less")
  else if negb (matches field v) then Some ("Invalid characters in " ^+ field)
  else if existsb (fun p => Str.contains p v) dangerous_patterns then Some ("Invalid character in " ^+ field)
  else None.

(** [validate_dn] *)
Fixpoint validate_dn (py_str : json -> string) (fields : list (string * json)) : option string :=
  match fields with
  | [] => None
  | (field, value) :: fields' =>
      match (if Json.truthy value then validate_dn_field py_str field value else None) with
      | Some e => Some e
      | None => validate_dn py_str fields'
      end
  end.

End IpAddress.
