(* ===== verification/CaModel.v ===== *)
(** The row of a certificate authority and what the application computes from it: the
    class [CA] of [models/__init__.py] with its properties and [to_dict]. *)
From S2P Require Import Prelude Base64 CertModel.

Module CaModel.
Import CertModel.
Local Open Scope string_scope.
Local Open Scope list_scope.
Local Open Scope Z_scope.

Record ca := CA {
  a_id : Z;
  a_refid : string;
  a_descr : string;
  a_crt : string;
  a_prv : option string;
  a_serial : option Z;
  a_caref : option string;
  a_subject : option string;
  a_issuer : option string;
  a_serial_number : option string;
  a_ski : option string;
  a_valid_from : option Z;
  a_valid_to : option Z;
  a_imported_from : option string;
  a_created_at : option Z;
  a_created_by : option string;
  a_owner_group_id : option Z;
  a_cdp_enabled : bool;
  a_cdp_url : option string;
  a_delta_crl_enabled : bool;
  a_delta_crl_interval : option Z;
  a_ocsp_enabled : bool;
  a_ocsp_url : option string;
  a_hsm_key_id : option Z;
}.

Definition uses_hsm (a : ca) : bool := match a_hsm_key_id a with Some k => negb (k =? 0) | None => false end.
Definition has_private_key (a : ca) : bool :=
  (match a_prv a with Some p => Str.truthy p && (0 <? String.length p)%nat | None => false end) || uses_hsm a.

(** The same search through the parts of a name as for certificates. *)
Definition common_name (a : ca) : string := extract_dn_field "CN" (a_subject a).
Definition organization (a : ca) : string := extract_dn_field "O" (a_subject a).
Definition organizational_unit (a : ca) : string := extract_dn_field "OU" (a_subject a).
Definition country (a : ca) : string := extract_dn_field "C" (a_subject a).
Definition state (a : ca) : string := extract_dn_field "ST" (a_subject a).
Definition locality (a : ca) : string := extract_dn_field "L" (a_subject a).

Definition is_root (a : ca) : bool :=
  match filled (a_subject a), filled (a_issuer a) with
  | Some s, Some i => String.eqb s i
  | _, _ => false
  end.

Section Properties.
Context `{Inspection}.

Definition key_type (a : ca) : string :=
  if negb (Str.truthy (a_crt a)) then "N/A"
  else match (pem ← pem_text (a_crt a); certificate_key pem) with
  | Some k => key_text k
  | None => "N/A"
  end.

Definition hash_algorithm (a : ca) : string :=
  if negb (Str.truthy (a_crt a)) then "N/A"
  else match (pem ← pem_text (a_crt a); signature_oid pem) with
  | Some o => Str.replace "SHA" "SHA-" (Str.upper (oid_name o))
  | None => "N/A"
  end.

(** [t.strftime("%Y-%m-%d")] *)
Definition day_text (t : option Z) : string :=
  match t with
  | Some t =>
      let '(y, m, d) := Time.civil (t / Time.days 1) in
      (Num.str y ^+ "-" ^+ Time.padded 2 m ^+ "-" ^+ Time.padded 2 d)%ucm
  | None => ""
  end.

(** [parents] are the CAs of the table, [issued] the number of certificates that name
    this one. *)
Definition to_dict (parents : list ca) (issued : nat) (owner_group : option string) (now : Z)
    (include_private : bool) (a : ca) : json :=
  let parent_id :=
    match filled (a_caref a) with
    | Some r => a_id <$> Table.first (fun p => String.eqb (a_refid p) r) parents
    | None => None
    end in
  JDict ([
    ("id", JInt (a_id a)); ("refid", JStr (a_refid a)); ("descr", JStr (a_descr a)); ("name", JStr (a_descr a));
    ("serial", number (a_serial a)); ("caref", text (a_caref a)); ("parent_id", number parent_id);
    ("ski", text (a_ski a)); ("subject", text (a_subject a)); ("issuer", text (a_issuer a));
    ("valid_from", moment (a_valid_from a)); ("valid_to", moment (a_valid_to a));
    ("issued", JStr (day_text (a_valid_from a))); ("expires", JStr (day_text (a_valid_to a)));
    ("expiry", JStr (day_text (a_valid_to a))); ("imported_from", text (a_imported_from a));
    ("created_at", moment (a_created_at a)); ("created_by", text (a_created_by a));
    ("has_private_key", JBool (has_private_key a)); ("common_name", JStr (common_name a));
    ("organization", JStr (organization a)); ("organizational_unit", JStr (organizational_unit a));
    ("country", JStr (country a)); ("state", JStr (state a)); ("locality", JStr (locality a));
    ("is_root", JBool (is_root a)); ("type", JStr (if is_root a then "root" else "intermediate"));
    ("status", JStr (match a_valid_to a with Some t => if t <? now then "Expired" else "Active" | None => "Active" end));
    ("certs", JInt (Z.of_nat issued)); ("key_type", JStr (key_type a)); ("hash_algorithm", JStr (hash_algorithm a));
    ("cdp_enabled", JBool (a_cdp_enabled a)); ("cdp_url", text (a_cdp_url a));
    ("delta_crl_enabled", JBool (a_delta_crl_enabled a));
    ("delta_crl_interval", JInt (match a_delta_crl_interval a with Some 0 | None => 4 | Some n => n end));
    ("ocsp_enabled", JBool (a_ocsp_enabled a)); ("ocsp_url", text (a_ocsp_url a));
    ("owner_group_id", number (a_owner_group_id a)); ("owner_group_name", text owner_group);
    ("pem", text (if Str.truthy (a_crt a) then pem_text (a_crt a) else None))]
    ++ (if include_private then [("crt", JStr (a_crt a)); ("prv", text (a_prv a))] else [])).

End Properties.
End CaModel.
