(* ===== verification/CertRoutes.v ===== *)
(** Issuing and renewing certificates: [create_certificate] and [renew_certificate] of
    [api/v2/certificates.py].

    Columns hold the base64 text the code stores.  The certificate library is the
    interface [Pki.X509] with the key operations below; [sign_cert] stands for the
    builder's methods and [sign], and is [None] when any of them raises.  The key that is
    generated and the random serial number are arguments. *)
From S2P Require Import Prelude Base64 AuditSink AuditLog Pki ApiKeys CertModel Compliance IpAddress CaModel.

Module CertRoutes.
Import CertModel.
Local Open Scope string_scope.
Local Open Scope list_scope.
Local Open Scope Z_scope.

Record db := Db {
  cas : list CaModel.ca;
  certs : list certificate;
  approvals : list (Z * option Z);     (* approval requests: id, certificate_id *)
  crls : list Pki.crl_meta;
}.
Definition with_certs (l : list certificate) (d : db) : db := Db (cas d) l (approvals d) (crls d).

Definition get_cert (i : Z) (d : db) : option certificate := Table.first (fun c => id c =? i) (certs d).
Definition ca_by_refid (r : string) (d : db) : option CaModel.ca :=
  Table.first (fun a => String.eqb (CaModel.a_refid a) r) (cas d).
Definition ca_by_subject (s : string) (d : db) : option CaModel.ca :=
  Table.first (fun a => bool_decide (CaModel.a_subject a = Some s)) (cas d).
(** [CA.query.filter_by(refid=cert.caref).first()]: NULL equals nothing. *)
Definition issuing_ca (c : certificate) (d : db) : option CaModel.ca := caref c ≫= (fun r => ca_by_refid r d).

(** A JSON value compared with an integer column; the outer [None] is an exception. *)
Definition bind_id (j : json) : option (option Z) :=
  match j with
  | JInt z => if (- 2 ^ 63 <=? z) && (z <? 2 ^ 63) then Some (Some z) else None
  | JBool b => Some (Some (Z.b2z b))
  | JStr s => Some (Num.py_int s)
  | JNull => Some None
  | _ => None
  end.
(** A JSON value in a text column. *)
Definition column (j : json) : option (option string) :=
  match j with JNull => Some None | _ => Some <$> Json.bind_text j end.
Definition as_text (j : json) : option string := match j with JStr s => Some s | _ => None end.
Definition as_int (j : json) : option Z :=
  match j with JStr s => Num.py_int s | JInt z => Some z | JBool b => Some (Z.b2z b) | _ => None end.
Definition hashable (j : json) : bool := match j with JList _ | JDict _ => false | _ => true end.

(** [d[k] = v] *)
Fixpoint put (k : string) (v : json) (kv : list (string * json)) : list (string * json) :=
  match kv with
  | [] => [(k, v)]
  | (k', v') :: kv' => if String.eqb k k' then (k, v) :: kv' else (k', v') :: put k v kv'
  end.

Inductive reply :=
| Success (code : Z) (row : certificate) (message : string)
| Failure (code : Z) (message : string)
| Raised.

(** What a key is generated from, and the library's operations on keys. *)
Inductive key_spec := RSAKey (bits : Z) | ECKey (curve : string).
Inductive key_load := Loaded (key : string) | NeedsPassword | BadKey.
Class Keys := {
  public_key : string -> string;              (* of a loaded private key *)
  key_identifier : string -> string;          (* of a public key: pairs of digits and colons *)
  unencrypted_pem : string -> string;         (* of a loaded private key *)
  key_kind : string -> option key_spec;       (* of a public key *)
  load_with_password : string -> option string -> key_load;
}.

(** * Subject alternative names from one text *)

Fixpoint split_any (p : ascii -> bool) (s : string) : list string :=
  match s with
  | EmptyString => [EmptyString]
  | String a s' =>
      if p a then EmptyString :: split_any p s'
      else match split_any p s' with w :: ws => String a w :: ws | [] => [String a EmptyString] end
  end.
Definition newline : ascii := ascii_of_N 10.
Definition raw_sans (san_raw : string) : list string :=
  List.filter Str.truthy (List.map Str.strip
    (split_any (fun c => Ascii.eqb c "," || Ascii.eqb c newline || Ascii.eqb c ";") san_raw)).
(** [re.sub(r'^(DNS|IP|EMAIL|URI):\s*', '', entry, flags=re.IGNORECASE)] *)
Definition entry_clean (entry : string) : string :=
  match List.find (Str.startswith (Str.upper entry)) ["DNS:"; "IP:"; "EMAIL:"; "URI:"] with
  | Some p => Str.lstrip (Str.drop (String.length p) entry)
  | None => entry
  end.
Definition is_ip (s : string) : bool := match IpAddress.ip_of_text s with Some _ => true | None => false end.
Definition sans_of (l : list string) : list string * list string * list string :=
  let l := List.filter Str.truthy (List.map entry_clean l) in
  let rest := List.filter (fun s => negb (is_ip s)) l in
  (List.filter (fun s => negb (Str.has_char "@" s)) rest, List.filter is_ip l, List.filter (Str.has_char "@") rest).

Section Routes.
Context `{Pki.X509} `{Keys} {T} `{AuditSink T} (py_repr : json -> string).
Definition py_str (j : json) : string := match j with JStr s => s | _ => py_repr j end.

(** The request with the names of [san] sorted into the typed lists; [None] is a TypeError. *)
Definition parse_san (data : json) : option json :=
  match data with
  | JDict kv =>
      let san := Json.get_or "san" JNull data in
      if Json.truthy san && negb (Json.truthy (Json.get_or "san_dns" JNull data)) then
        san_raw ← match san with
          | JList l => Some (Str.join "," (List.map py_str l))
          | JStr s => Some s
          | _ => None
          end;
        let '(dns, ips, emails) := sans_of (raw_sans san_raw) in
        let set k l kv := match l with [] => kv | _ => put k (Json.strings l) kv end in
        Some (JDict (set "san_email" emails (set "san_ip" ips (set "san_dns" dns kv))))
      else Some data
  | _ => None
  end.

(** The fields that are validated, with the value that is. *)
Definition dn_validations (data : json) : option (list (string * json)) :=
  let get k := Json.get_or k JNull data in
  country ← (if Json.truthy (get "country") then as_text (get "country") else Some "");
  Some [("CN", get "cn"); ("O", get "organization"); ("OU", get "organizational_unit");
        ("C", if Str.truthy country then JStr (Str.upper country) else JNull);
        ("ST", get "state"); ("L", get "locality")].
Fixpoint dn_error (l : list (string * json)) : option string :=
  match l with
  | [] => None
  | (f, v) :: l' => match IpAddress.validate_dn_field py_str f v with Some e => Some e | None => dn_error l' end
  end.

(** * The certificate *)

Definition curve_map : list (string * string) :=
  [("256", "secp256r1"); ("prime256v1", "secp256r1"); ("secp256r1", "secp256r1"); ("384", "secp384r1");
   ("secp384r1", "secp384r1"); ("521", "secp521r1"); ("secp521r1", "secp521r1")].
(** The outer [None] is an exception. *)
Definition requested_key (data : json) : option (key_spec + reply) :=
  key_type ← as_text (Json.get_or "key_type" (JStr "RSA") data);
  let key_size := Json.get_or "key_size" (JStr "2048") data in
  if existsb (String.eqb (Str.upper key_type)) ["EC"; "ECDSA"] then
    let curve_name :=
      match Json.assoc (py_str key_size) curve_map with
      | Some c => JStr c
      | None => Json.get_or "curve" (JStr "secp256r1") data
      end in
    if negb (hashable curve_name) then None
    else Some (inl (ECKey (match curve_name with
      | JStr c => if existsb (String.eqb c) ["secp256r1"; "secp384r1"; "secp521r1"] then c else "secp256r1"
      | _ => "secp256r1"
      end)))
  else
    bits ← as_int key_size;
    Some (if bits <? 2048 then inr (Failure 400 "RSA key size must be at least 2048 bits") else inl (RSAKey bits)).

(** An attribute for each field that is given; other values than text are refused. *)
Definition attribute (data : json) (k label : string) (f : string -> string) : option Pki.name :=
  let v := Json.get_or k JNull data in
  if Json.truthy v then (fun s => [(label, f s)]) <$> as_text v else Some [].
Definition subject_of (data : json) : option Pki.name :=
  cn ← as_text (Json.get_or "cn" JNull data);
  o ← attribute data "organization" "O" Datatypes.id;
  ou ← attribute data "organizational_unit" "OU" Datatypes.id;
  c ← attribute data "country" "C" Str.upper;
  st ← attribute data "state" "ST" Datatypes.id;
  l ← attribute data "locality" "L" Datatypes.id;
  e ← attribute data "email" "emailAddress" Datatypes.id;
  Some (("CN", cn) :: o ++ ou ++ c ++ st ++ l ++ e).

(** The profiles: key usage and extended key usage. *)
Definition cert_profiles : list (string * (list string * list string)) :=
  [("server", (["digital_signature"; "key_encipherment"], ["serverAuth"]));
   ("client", (["digital_signature"], ["clientAuth"]));
   ("combined", (["digital_signature"; "key_encipherment"], ["serverAuth"; "clientAuth"]));
   ("code_signing", (["digital_signature"], ["codeSigning"]));
   ("email", (["digital_signature"; "key_encipherment"; "content_commitment"], ["emailProtection"]))].
Definition profile (cert_type : json) : option (list string * list string) :=
  if negb (hashable cert_type) then None
  else Some (default (["digital_signature"; "key_encipherment"], ["serverAuth"])
    (match cert_type with JStr t => Json.assoc t cert_profiles | _ => None end)).

(** The texts of a list of the request. *)
Definition texts (data : json) (k : string) : option (list string) :=
  let v := Json.get_or k JNull data in
  if Json.truthy v then l ← Json.elements v; mapM as_text l else Some [].
Definition addresses (data : json) : option (list string) :=
  let v := Json.get_or "san_ip" JNull data in
  if Json.truthy v then l ← Json.elements v; mapM (fun j => IpAddress.ip_text <$> IpAddress.ip_address j) l else Some [].

Definition one_of (t : json) (l : list string) : bool :=
  match t with JStr s => existsb (String.eqb s) l | _ => false end.
(** [x not in (data.get(k) or [])] *)
Definition not_in (x : string) (data : json) (k : string) : option bool :=
  let v := Json.get_or k JNull data in
  if Json.truthy v then negb <$> Json.contains x v else Some true.
Definition last_part (c : ascii) (s : string) : string := default "" (last (Str.split c s)).

Definition san_list (data : json) (cn : string) (cert_type : json) : option (list Pki.general_name) :=
  dns ← texts data "san_dns"; ips ← addresses data; emails ← texts data "san_email"; uris ← texts data "san_uri";
  let l := List.map Pki.DNSName dns ++ List.map Pki.IPAddress ips ++ List.map Pki.RFC822Name emails
           ++ List.map Pki.UniformResourceIdentifier uris in
  let looks_like_hostname := Str.has_char "." cn || Str.startswith cn "*" in
  let looks_like_email := Str.has_char "@" cn && Str.has_char "." (last_part "@" cn) in
  l ← (if one_of cert_type ["server"; "combined"] && looks_like_hostname
       then b ← not_in cn data "san_dns"; Some (if b : bool then Pki.DNSName cn :: l else l) else Some l);
  l ← (if one_of cert_type ["email"; "combined"] && looks_like_email
       then b ← not_in cn data "san_email"; Some (if b : bool then Pki.RFC822Name cn :: l else l) else Some l);
  let subject_email := Json.get_or "email" (JStr "") data in
  if one_of cert_type ["email"; "combined"] && Json.truthy subject_email then
    e ← as_text subject_email;
    if Str.has_char "@" e && negb (String.eqb e cn) then
      b ← not_in e data "san_email";
      Some (if (b : bool) && negb (existsb (String.eqb e) (Pki.email_list l)) then l ++ [Pki.RFC822Name e] else l)
    else Some l
  else Some l.

Definition SKI_OID : string := "2.5.29.14".
Definition AKI_OID : string := "2.5.29.35".
Definition key_ids (new_key ca_key : string) : list Pki.xext :=
  [Pki.Ext (Pki.OtherExtension SKI_OID (key_identifier (public_key new_key))) false;
   Pki.Ext (Pki.OtherExtension AKI_OID (key_identifier (public_key ca_key))) false].
Definition extensions (usage : list string * list string) (names : list Pki.general_name)
    (new_key ca_key : string) : list Pki.xext :=
  [Pki.Ext (Pki.BasicConstraints false None) true; Pki.Ext (Pki.KeyUsage usage.1) true;
   Pki.Ext (Pki.ExtendedKeyUsage usage.2) false]
  ++ (match names with [] => [] | _ => [Pki.Ext (Pki.SubjectAlternativeName names) false] end)
  ++ key_ids new_key ca_key.

(** The certificate and key of a CA, from its columns. *)
Definition ca_material (a : CaModel.ca) : option (Pki.cert * string) :=
  pem ← Base64.b64decode (CaModel.a_crt a); c ← Pki.load_cert pem;
  k ← Base64.b64decode (default "" (CaModel.a_prv a)); key ← Pki.load_key k;
  Some (c, key).

(** What is signed: the template and the key it is for; [inr] is an early reply. *)
Definition template (data : json) (a : CaModel.ca) (generate : key_spec -> option string) (serial now : Z)
  : option ((Pki.cert * string * string * Z) + reply) :=
  m ← ca_material a;
  let '(ca_cert, ca_key) := m in
  spec ← requested_key data;
  match spec with
  | inr r => Some (inr r)
  | inl spec =>
      new_key ← generate spec;
      subject ← subject_of data;
      days ← Compliance.as_number (Json.get_or "validity_days" (JInt 365) data);
      if negb (ApiKeys.days_ok days now) then None
      else
      let not_after := now + Time.days days in
      let cert_type := Json.get_or "cert_type" (JStr "server") data in
      usage ← profile cert_type;
      cn ← as_text (Json.get_or "cn" JNull data);
      names ← san_list data cn cert_type;
      Some (inl (Pki.Cert subject (Pki.x_subject ca_cert) (public_key new_key) serial (Pki.whole_second now)
                   (Pki.whole_second not_after) (extensions usage names new_key ca_key), new_key, ca_key, not_after))
  end.

(** * [create_certificate] *)

(** What a request is answered with before anything is signed. *)
Definition lookup_ca (data : json) (d : db) : option (CaModel.ca + reply) :=
  i ← bind_id (Json.get_or "ca_id" JNull data);
  Some (match i ≫= (fun i => Table.first (fun a => CaModel.a_id a =? i) (cas d)) with
        | None => inr (Failure 404 "CA not found")
        | Some a =>
            match filled (CaModel.a_prv a) with
            | None => inr (Failure 400 "CA private key not available")
            | Some _ => inl a
            end
        end).

(** The row of an issued certificate. *)
Definition new_row (i : Z) (uuid : string) (data : json) (a : CaModel.ca) (x : Pki.cert) (pem : string)
    (new_key ca_key : string) (not_after now : Z) (username : option string) : option certificate :=
  descr ← column (Json.get_or "description" (Json.get_or "cn" JNull data) data);
  descr ← descr;
  cert_type ← column (Json.get_or "cert_type" (JStr "server") data);
  let list k := Some (Json.dumps (Json.get_or k (JList []) data)) in
  Some (Certificate i (Str.take 8 uuid) descr (Some (CaModel.a_refid a))
    (Some (Base64.b64encode pem)) None (Some (Base64.b64encode (unencrypted_pem new_key)))
    cert_type (Some (Pki.rfc4514 (Pki.x_subject x))) None (Some (Pki.rfc4514 (Pki.x_issuer x)))
    (Some (Num.hex (Pki.x_serial x))) (Some (key_identifier (public_key ca_key)))
    (Some (key_identifier (public_key new_key))) (Some now) (Some not_after) None
    (list "san_dns") (list "san_ip") (list "san_email") None None (Some "stored")
    (Some false) None None (Some false) None (Some now) username (Some "manual") None None).

(** Nothing checks that the certificate ends before its CA, or asks the policies. *)
Definition create_certificate (request : json) (generate : key_spec -> option string) (serial : Z)
    (uuid : string) (username : option string) (now : Z) (d : db) (trail : T) : db * T * reply :=
  if negb (Json.truthy request) then (d, trail, Failure 400 "Common Name (cn) is required")
  else if negb (Json.is_dict request) then (d, trail, Raised)
  else if negb (Json.truthy (Json.get_or "cn" JNull request))
  then (d, trail, Failure 400 "Common Name (cn) is required")
  else if negb (Json.truthy (Json.get_or "ca_id" JNull request)) then (d, trail, Failure 400 "CA ID is required")
  else match dn_validations request with
  | None => (d, trail, Raised)
  | Some fields =>
      match dn_error fields with
      | Some e => (d, trail, Failure 400 e)
      | None =>
          match (data ← parse_san request; r ← lookup_ca data d; Some (data, r)) with
          | None => (d, trail, Raised)
          | Some (_, inr r) => (d, trail, r)
          | Some (data, inl a) =>
              let failed := (d, trail, Failure 500 "Failed to create certificate") in
              match template data a generate serial now with
              | None => failed
              | Some (inr r) => (d, trail, r)
              | Some (inl (x, new_key, ca_key, not_after)) =>
                  let i := Table.next_id id (certs d) in
                  match (pem ← Pki.sign_cert "sha256" ca_key x;
                         row ← new_row i uuid data a x pem new_key ca_key not_after now username;
                         if existsb (fun c => String.eqb (refid c) (refid row)) (certs d) then None else Some row) with
                  | None => failed
                  | Some row =>
                      let cn := py_str (Json.get_or "cn" JNull data) in
                      (with_certs (certs d ++ [row]) d,
                       record_event (Event "certificate_created" (Some "certificate") (AStr (Num.str i)) (AStr cn)
                         (AStr ("CA: " ^+ Num.str (CaModel.a_id a) ^+ ", CN: " ^+ cn)) true None) trail,
                       Success 201 row "Certificate created successfully")
                  end
              end
          end
      end
  end.

(** * [renew_certificate] *)

(** [s.split('CN=')[1].split(',')[0] if 'CN=' in s else None] *)
Fixpoint cut_at (sub s : string) : string :=
  if Str.startswith s sub then EmptyString
  else match s with EmptyString => EmptyString | String c s' => String c (cut_at sub s') end.
Fixpoint after (sub s : string) : option string :=
  if Str.startswith s sub then Some (Str.drop (String.length sub) s)
  else match s with EmptyString => None | String _ s' => after sub s' end.
Definition cn_piece (s : string) : option string :=
  t ← after "CN=" s; head (Str.split "," (cut_at "CN=" t)).

Definition partial_match (issuer : string) (a : CaModel.ca) : bool :=
  match filled (CaModel.a_subject a) with
  | Some s =>
      match filled (cn_piece s), filled (cn_piece issuer) with
      | Some x, Some y => String.eqb x y
      | _, _ => false
      end
  | None => false
  end.
Definition find_issuer (c : certificate) (d : db) : option CaModel.ca :=
  match issuing_ca c d with
  | Some a => Some a
  | None =>
      match filled (issuer c) with
      | None => None
      | Some i =>
          match ca_by_subject i d with
          | Some a => Some a
          | None => Table.first (partial_match i) (cas d)
          end
      end
  end.

Definition is_key_id (x : Pki.xext) : bool :=
  match Pki.x_value x with
  | Pki.OtherExtension oid _ => String.eqb oid SKI_OID || String.eqb oid AKI_OID
  | _ => false
  end.
(** The new certificate: the same subject and extensions for a new key, as long as before. *)
Definition renewed (orig ca_cert : Pki.cert) (ca_key new_key : string) (serial now : Z) : option (Pki.cert * Z) :=
  let duration := Time.delta_days (Pki.x_not_after orig - Pki.x_not_before orig) in
  let days := if 0 <? duration then duration else 365 in
  if negb (ApiKeys.days_ok days now) then None
  else
    let not_after := now + Time.days days in
    Some (Pki.Cert (Pki.x_subject orig) (Pki.x_subject ca_cert) (public_key new_key) serial
            (Pki.whole_second now) (Pki.whole_second not_after)
            (List.filter (fun x => negb (is_key_id x)) (Pki.x_extensions orig) ++ key_ids new_key ca_key), not_after).

(** The row afterwards: the revocation is cleared, the key identifiers stay. *)
Definition renewed_row (pem new_key : string) (x : Pki.cert) (not_after now : Z) (c : certificate) : certificate :=
  Certificate (id c) (refid c) (descr c) (caref c) (Some (Base64.b64encode pem)) (csr c)
    (Some (Base64.b64encode (unencrypted_pem new_key))) (cert_type c) (subject c) (subject_cn c) (issuer c)
    (Some (Num.hex (Pki.x_serial x))) (aki c) (ski c) (Some now) (Some not_after) (key_algo c)
    (san_dns c) (san_ip c) (san_email c) (san_uri c) (ocsp_uri c) (private_key_location c)
    (Some false) None None (archived c) (imported_from c) (created_at c) (created_by c) (source c)
    (template_id c) (owner_group_id c).

Definition update_cert (i : Z) (f : certificate -> certificate) (d : db) : db :=
  with_certs (Table.update (fun c => id c =? i) f (certs d)) d.

(** The renewal itself, shared by the single and the bulk route; [None] is an exception. *)
Definition renew (c : certificate) (a : CaModel.ca) (generate : key_spec -> option string) (serial now : Z)
  : option certificate :=
  col ← crt c; pem ← Base64.b64decode col; orig ← Pki.load_cert pem;
  m ← ca_material a;
  let '(ca_cert, ca_key) := m in
  new_key ← generate (default (RSAKey 2048) (key_kind (Pki.x_public_key orig)));
  r ← renewed orig ca_cert ca_key new_key serial now;
  let '(x, not_after) := r in
  new_pem ← Pki.sign_cert "sha256" ca_key x;
  Some (renewed_row new_pem new_key x not_after now c).

Definition renew_certificate (i : Z) (generate : key_spec -> option string) (serial now : Z)
    (d : db) (trail : T) : db * T * reply :=
  match get_cert i d with
  | None => (d, trail, Failure 404 "Certificate not found")
  | Some c =>
      match filled (crt c), find_issuer c d with
      | None, _ => (d, trail, Failure 400 "Certificate data not available")
      | _, None =>
          (d, trail, Failure 404 "Issuing CA not found. The CA that signed this certificate is not in the system.")
      | _, Some a =>
          if negb (AuditLog.otruthy (CaModel.a_prv a))
          then (d, trail, Failure 400 "CA private key not available. Cannot renew without CA private key.")
          else match renew c a generate serial now with
          | None => (d, trail, Failure 500 "Failed to renew certificate")
          | Some c' =>
              (update_cert i (fun _ => c') d,
               record_event (Event "certificate_renewed" (Some "certificate") (AStr (Num.str i))
                 (match subject c with Some s => AStr s | None => ANone end)
                 (AStr ("Renewed until " ^+ match valid_to c' with Some t => Time.isoformat "T" t | None => "" end))
                 true None) trail,
               Success 200 c' "Certificate renewed successfully")
          end
      end
  end.

End Routes.
End CertRoutes.
