(* ===== verification/CertActions.v ===== *)
(** What can be done with an issued certificate: revoking, lifting a hold, deleting,
    attaching a key, the bulk operations and the exports of [api/v2/certificates.py], with
    [CertificateService.revoke_certificate].  CRLs are those of [Pki], over the columns
    CRLs read. *)
From S2P Require Import Prelude Base64 Auth AuditSink AuditLog Encryption Pki CertModel CaModel CertRoutes.

Module CertActions.
Import CertModel CertRoutes.
Local Open Scope string_scope.
Local Open Scope list_scope.
Local Open Scope Z_scope.

(** * The tables as the CRL service sees them *)

Definition decoded (c : option string) : option string := c ≫= pem_text.
Section View.
Context `{Fernet} (encryption_enabled : bool).
(** A key column holds base64 text, possibly encrypted: the view holds the text [Pki]
    reads, a blank, which is no key, where the column is not one. *)
Definition key_column (s : string) : string :=
  match Encryption.decrypt_private_key encryption_enabled s with
  | Some b => default " " (pem_text b)
  | None => s
  end.
Definition pki_ca (a : CaModel.ca) : Pki.ca :=
  Pki.CA (CaModel.a_id a) (CaModel.a_refid a) (CaModel.a_descr a)
    (default "" (pem_text (CaModel.a_crt a))) (key_column <$> filled (CaModel.a_prv a)) (CaModel.a_serial a)
    (CaModel.a_caref a) (CaModel.a_hsm_key_id a) (CaModel.a_cdp_enabled a) (CaModel.a_delta_crl_enabled a)
    (CaModel.a_ocsp_enabled a).
Definition pki_cert (c : certificate) : Pki.certificate :=
  Pki.Certificate (id c) (refid c) (descr c) (caref c) (decoded (crt c)) (decoded (csr c)) (cert_type c)
    (subject c) (subject_cn c) (issuer c) (serial_number c) (valid_from c) (valid_to c) None None None
    (true_flag (revoked c)) (revoked_at c) (revoke_reason c) (source c) (created_by c).
Definition pki_view (d : db) : Pki.db := Pki.Db (List.map pki_ca (cas d)) (List.map pki_cert (certs d)) (crls d).
End View.
Definition with_crls (l : list Pki.crl_meta) (d : db) : db := Db (cas d) (certs d) (approvals d) l.

Definition set_revocation (flag : bool) (at_ : option Z) (reason : option string) (c : certificate) : certificate :=
  Certificate (id c) (refid c) (descr c) (caref c) (crt c) (csr c) (prv c) (cert_type c) (subject c) (subject_cn c)
    (issuer c) (serial_number c) (aki c) (ski c) (valid_from c) (valid_to c) (key_algo c) (san_dns c) (san_ip c)
    (san_email c) (san_uri c) (ocsp_uri c) (private_key_location c) (Some flag) at_ reason (archived c)
    (imported_from c) (created_at c) (created_by c) (source c) (template_id c) (owner_group_id c).
Definition set_prv (k : string) (c : certificate) : certificate :=
  Certificate (id c) (refid c) (descr c) (caref c) (crt c) (csr c) (Some k) (cert_type c) (subject c) (subject_cn c)
    (issuer c) (serial_number c) (aki c) (ski c) (valid_from c) (valid_to c) (key_algo c) (san_dns c) (san_ip c)
    (san_email c) (san_uri c) (ocsp_uri c) (private_key_location c) (revoked c) (revoked_at c) (revoke_reason c)
    (archived c) (imported_from c) (created_at c) (created_by c) (source c) (template_id c) (owner_group_id c).

(** [cert.descr or cert.refid] and the fallback to the number. *)
Definition shown_name (c : certificate) : string := if Str.truthy (descr c) then descr c else refid c.
Definition cert_name (c : certificate) : string :=
  if Str.truthy (descr c) then descr c else "Certificate #" ^+ Num.str (id c).

Inductive outcome := Finished (r : reply) | Deleted.

Section Actions.
Context `{Pki.X509} `{Keys} `{Fernet} (encryption_enabled : bool) {T} `{AuditSink T}.
Context (library_error : string) (py_repr : json -> string).
#[local] Abbreviation py_str := (py_str py_repr).
#[local] Abbreviation generate_crl := (Pki.generate_crl encryption_enabled).

(** * Revoking *)

(** The service, for a certificate that is there and not revoked; [reason] is what the
    column holds, [shown] how it reads.  The clean-up of the OCSP cache names a column that
    does not exist; the exception is caught. *)
Definition service_revoke (c : certificate) (reason : option string) (shown username : string) (now now' : Z)
    (d : db) (trail : T) : db * T * certificate :=
  let c' := set_revocation true (Some now) reason c in
  let d := update_cert (id c) (fun _ => c') d in
  let trail := record_event (AuditLog.log_certificate "cert_revoked" (Some (descr c)) (subject c) (id c)
                 (Some ("Revoked certificate: " ^+ descr c ^+ " - Reason: " ^+ shown)) true) trail in
  match issuing_ca c' d with
  | Some a =>
      if CaModel.a_cdp_enabled a then
        let '(v, trail, r) := generate_crl (CaModel.a_id a) 7 username now' (pki_view encryption_enabled d) trail in
        let trail := match r with
          | inl _ => trail
          | inr e => record_event (AuditLog.log_ca "crl_auto_generation_failed" (Some (CaModel.a_descr a)) None
                       (CaModel.a_id a) (Some ("Failed to auto-generate CRL after revocation: "
                                               ^+ Pki.crl_error_text library_error (pki_ca encryption_enabled a) e)) false) trail
          end in
        (with_crls (Pki.crls v) d, trail, c')
      else (d, trail, c')
  | None => (d, trail, c')
  end.

Definition revoke_certificate (i : Z) (request : json) (username : string) (now now' : Z)
    (d : db) (trail : T) : db * T * reply :=
  let reason := if Json.truthy request
                then (if Json.is_dict request then Some (Json.get_or "reason" (JStr "unspecified") request) else None)
                else Some (JStr "unspecified") in
  match reason with
  | None => (d, trail, Raised)
  | Some reason =>
      match get_cert i d with
      | None => (d, trail, Failure 404 "Certificate not found")
      | Some c =>
          if true_flag (revoked c) then (d, trail, Failure 400 "Certificate already revoked")
          else match column reason with
          | None => (d, trail, Failure 500 "Failed to revoke certificate")
          | Some r =>
              let '(d, trail, c') := service_revoke c r (py_str reason) username now now' d trail in
              (d, trail, Success 200 c' "Certificate revoked successfully")
          end
      end
  end.

(** * Lifting a hold *)

(** After the commit the route calls [AuditService.log], which does not exist: the
    exception ends the work there, before the CRL and the OCSP cache. *)
Definition unhold_certificate (i : Z) (d : db) (trail : T) : db * T * reply :=
  match get_cert i d with
  | None => (d, trail, Failure 404 "Certificate not found")
  | Some c =>
      if negb (true_flag (revoked c)) then (d, trail, Failure 400 "Certificate is not revoked")
      else if negb (match revoke_reason c with
                    | Some r => existsb (String.eqb r) ["certificate_hold"; "certificateHold"]
                    | None => false end)
      then (d, trail, Failure 400 ("Only certificates with reason " ^+ Json.quoted "certificateHold" ^+ " can be unheld"))
      else (update_cert i (set_revocation false None None) d, trail,
            Failure 500 "Failed to remove certificate hold")
  end.

(** * Deleting *)

Definition remove_cert (i : Z) (d : db) : db :=
  Db (cas d) (Table.delete (fun c => id c =? i) (certs d))
    (List.filter (fun r => negb (bool_decide (r.2 = Some i))) (approvals d)) (crls d).
Definition delete_certificate (i : Z) (d : db) (trail : T) : db * T * outcome :=
  match get_cert i d with
  | None => (d, trail, Finished (Failure 404 "Certificate not found"))
  | Some c =>
      (remove_cert i d,
       record_event (Event "certificate_deleted" (Some "certificate") (AInt i) (AStr (cert_name c))
         (AStr ("Deleted certificate: " ^+ cert_name c)) true None) trail, Deleted)
  end.

(** * Attaching a key *)

Definition upload_private_key (i : Z) (request : json) (iv : nat) (username : string) (d : db) (trail : T)
  : db * T * reply :=
  let fail code m := (d, trail, Failure code m) in
  match get_cert i d with
  | None => fail 404 "Certificate not found"
  | Some c =>
      if has_private_key c then fail 400 "Certificate already has a private key"
      else if Json.truthy request && negb (Json.is_dict request) then (d, trail, Raised)
      else if negb (Json.truthy (Json.get_or "key" JNull request)) then fail 400 "Private key is required"
      else match as_text (Json.get_or "key" JNull request) with
      | None => (d, trail, Raised)
      | Some key =>
          let key_data := Str.strip key in
          match (if Str.startswith key_data "-----BEGIN" then Some key_data else pem_text key_data) with
          | None => fail 400 "Invalid key format - must be PEM or base64-encoded PEM"
          | Some key_data =>
              if negb (Str.contains "PRIVATE KEY" key_data) then fail 400 "Invalid private key format"
              else
              let passphrase := Json.get_or "passphrase" JNull request in
              match (if Json.truthy passphrase then Some <$> as_text passphrase else Some None) with
              | None => fail 500 "Failed to upload private key"
              | Some password =>
                  match load_with_password key_data password with
                  | NeedsPassword => fail 400 "Private key is encrypted - please provide passphrase"
                  | BadKey => fail 400 "Invalid private key format"
                  | Loaded k =>
                      let verified :=
                        match filled (crt c) with
                        | None => Some true
                        | Some col => pem ← Base64.b64decode col; x ← Pki.load_cert pem;
                                      Some (String.eqb (Pki.x_public_key x) (public_key k))
                        end in
                      match verified with
                      | None => fail 400 "Failed to verify key matches certificate"
                      | Some false => fail 400 "Private key does not match certificate public key"
                      | Some true =>
                          let prv := Encryption.encrypt_private_key encryption_enabled iv
                                       (Base64.b64encode (unencrypted_pem k)) in
                          let c' := set_prv prv c in
                          (update_cert i (fun _ => c') d,
                           record_event (Event "certificate_key_uploaded" (Some "certificate") (AInt i)
                             (AStr (cert_name c)) (AStr ("Private key uploaded by " ^+ username)) true None) trail,
                           Success 200 c' "Private key uploaded successfully")
                      end
                  end
              end
          end
      end
  end.

(** * Bulk operations *)

Record results := Results { done_ids : list json; failed_ids : list (json * string) }.
Definition succeeded (i : json) (r : results) : results := Results (done_ids r ++ [i]) (failed_ids r).
Definition failed (i : json) (e : string) (r : results) : results := Results (done_ids r) (failed_ids r ++ [(i, e)]).
Definition bulk_event (action verb tail : string) (r : results) : event :=
  let n := Num.str (Z.of_nat (length (done_ids r))) in
  Event action (Some "certificate") (AStr (Str.join "," (List.map py_str (done_ids r)))) (AStr (n ^+ " certificates"))
    (AStr ("Bulk " ^+ verb ^+ " " ^+ n ^+ " certificates" ^+ tail)) true None.

Inductive bulk_reply := Bulk (r : results) (message : string) | BulkFailure (code : Z) (message : string) | BulkRaised.
(** The ids of a request, or the reply to a request without them. *)
Definition bulk_ids (request : json) : list json + bulk_reply :=
  if negb (Json.truthy request) then inr (BulkFailure 400 "ids array required")
  else if negb (Json.is_dict request) then inr BulkRaised
  else if negb (Json.truthy (Json.get_or "ids" JNull request)) then inr (BulkFailure 400 "ids array required")
  else match Json.elements (Json.get_or "ids" JNull request) with Some l => inl l | None => inr BulkRaised end.
Definition bulk_message (verb : string) (r : results) : string :=
  Num.str (Z.of_nat (length (done_ids r))) ^+ " certificates " ^+ verb.

(** [Certificate.query.get(cert_id)] of a JSON value; the outer [None] is an exception. *)
Definition query_get (j : json) (d : db) : option (option certificate) :=
  i ← bind_id j; Some (i ≫= (fun i => get_cert i d)).

(** Nothing is rolled back after an exception, so after a reason the column refuses the
    session is broken and every later certificate fails. *)
Fixpoint bulk_revoke_loop (reason : json) (username : string) (now : nat -> Z) (n : nat) (broken : bool)
    (ids : list json) (r : results) (d : db) (trail : T) : db * T * results * bool :=
  match ids with
  | [] => (d, trail, r, broken)
  | i :: ids =>
      let next := bulk_revoke_loop reason username now (S n) in
      if broken then next true ids (failed i "Revocation failed" r) d trail
      else match query_get i d with
      | None => next false ids (failed i "Revocation failed" r) d trail
      | Some None => next false ids (failed i "Not found" r) d trail
      | Some (Some c) =>
          if true_flag (revoked c) then next false ids (failed i "Already revoked" r) d trail
          else match column reason with
          | None => next true ids (failed i "Revocation failed" r) d trail
          | Some x =>
              let '(d, trail, _) := service_revoke c x (py_str reason) username (now n) (now n) d trail in
              next false ids (succeeded i r) d trail
          end
      end
  end.
Definition bulk_revoke_certificates (request : json) (username : string) (now : nat -> Z) (d : db) (trail : T)
  : db * T * bulk_reply :=
  match bulk_ids request with
  | inr r => (d, trail, r)
  | inl ids =>
      let reason := Json.get_or "reason" (JStr "unspecified") request in
      let '(d, trail, r, broken) := bulk_revoke_loop reason username now 0 false ids (Results [] []) d trail in
      let e := bulk_event "certificates_bulk_revoked" "revoked" (" (reason: " ^+ py_str reason ^+ ")") r in
      (d, if broken then trail else record_event e trail, Bulk r (bulk_message "revoked" r))
  end.

Fixpoint bulk_renew_loop (generate : nat -> key_spec -> option string) (serial now : nat -> Z) (n : nat)
    (ids : list json) (r : results) (d : db) : db * results :=
  match ids with
  | [] => (d, r)
  | i :: ids =>
      let next := bulk_renew_loop generate serial now (S n) ids in
      match query_get i d with
      | None => next (failed i "Renewal failed" r) d
      | Some None => next (failed i "Not found" r) d
      | Some (Some c) =>
          match filled (crt c), issuing_ca c d with
          | None, _ => next (failed i "No certificate data" r) d
          | _, None => next (failed i "Issuing CA not found or no private key" r) d
          | _, Some a =>
              if negb (AuditLog.otruthy (CaModel.a_prv a))
              then next (failed i "Issuing CA not found or no private key" r) d
              else match renew c a (generate n) (serial n) (now n) with
              | None => next (failed i "Renewal failed" r) d
              | Some c' => next (succeeded i r) (update_cert (id c) (fun _ => c') d)
              end
          end
      end
  end.
Definition bulk_renew_certificates (request : json) (generate : nat -> key_spec -> option string)
    (serial now : nat -> Z) (d : db) (trail : T) : db * T * bulk_reply :=
  match bulk_ids request with
  | inr r => (d, trail, r)
  | inl ids =>
      let '(d, r) := bulk_renew_loop generate serial now 0 ids (Results [] []) d in
      (d, record_event (bulk_event "certificates_bulk_renewed" "renewed" "" r) trail, Bulk r (bulk_message "renewed" r))
  end.

Fixpoint bulk_delete_loop (ids : list json) (r : results) (d : db) : db * results :=
  match ids with
  | [] => (d, r)
  | i :: ids =>
      match query_get i d with
      | None => bulk_delete_loop ids (failed i "Deletion failed" r) d
      | Some None => bulk_delete_loop ids (failed i "Not found" r) d
      | Some (Some c) => bulk_delete_loop ids (succeeded i r) (remove_cert (id c) d)
      end
  end.
Definition bulk_delete_certificates (request : json) (d : db) (trail : T) : db * T * bulk_reply :=
  match bulk_ids request with
  | inr r => (d, trail, r)
  | inl ids =>
      let '(d, r) := bulk_delete_loop ids (Results [] []) d in
      (d, record_event (bulk_event "certificates_bulk_deleted" "deleted" "" r) trail, Bulk r (bulk_message "deleted" r))
  end.

End Actions.
End CertActions.
