(* ===== verification/CertExport.v ===== *)
(** Exports of certificates and keys ([api/v2/certificates.py]) and the file names they
    are sent under ([utils/sanitize.py]).  Bodies are byte texts; DER, PKCS7 and PKCS12
    are made by libraries. *)
From S2P Require Import Prelude Base64 Auth Encryption Pki CertModel CertListing CaModel CertRoutes.

Module CertExport.
Import CertModel CertRoutes.
Local Open Scope string_scope.
Local Open Scope list_scope.
Local Open Scope Z_scope.

(** * [sanitize_filename] *)

Fixpoint keep (p : ascii -> bool) (s : string) : string :=
  match s with
  | EmptyString => EmptyString
  | String c s' => if p c then String c (keep p s') else keep p s'
  end.
Definition is_control (c : ascii) : bool := ((Str.code c <=? 31) || (Str.code c =? 127))%N.
Definition is_separator (c : ascii) : bool := Ascii.eqb c "/" || Ascii.eqb c Json.backslash.
Definition sanitize_filename (name : string) : string :=
  if negb (Str.truthy name) then "download"
  else
    let name := keep (fun c => negb (is_control c)) name in
    let name := Str.map (fun c => if is_separator c then "_"%char else c) name in
    let name := keep (fun c => negb (Ascii.eqb c Json.quote)) name in
    let name := Str.take 200 name in
    if Str.truthy name then name else "download".

(** * Bodies *)

Definition ends_line (s : string) : bool :=
  match Str.rev s with String c _ => Ascii.eqb c newline | EmptyString => false end.
Definition line_end : string := String newline EmptyString.
Definition closed (s : string) : string := if ends_line s then s else s ^+ line_end.
(** [if not result.endswith(newline): result += newline], then [result += part] *)
Definition append_part (result part : string) : string := closed result ^+ part.

Class Formats := {
  to_der : string -> option string;                          (* of a PEM certificate *)
  crl2pkcs7 : string -> option string;                       (* the openssl command *)
  encrypted_pem : string -> string -> option string;         (* a loaded key, a password *)
  (** name, loaded key, certificate, CA certificates, password *)
  serialize_p12 : string -> string -> Pki.cert -> list Pki.cert -> string -> option string;
}.

Inductive reply := File (body name : string) | Failure (code : Z) (message : string) | Raised.

Section Exports.
Context `{Pki.X509} `{Keys} `{Fernet} `{Formats} (encryption_enabled : bool).

(** The certificates of a CA and of the CAs above it, each read with [f]: [None] is a
    loop that still runs, [Some None] an exception. *)
Fixpoint ca_walk {A} (f : string -> option A) (fuel : nat) (a : option CaModel.ca) (d : db) : option (option (list A)) :=
  match a with
  | None => Some (Some [])
  | Some a =>
      match fuel with
      | O => None
      | S fuel =>
          match (if Str.truthy (CaModel.a_crt a) then (fun x => [x]) <$> f (CaModel.a_crt a) else Some []) with
          | None => Some None
          | Some x =>
              match filled (CaModel.a_caref a) with
              | None => Some (Some x)
              | Some r => option_map (option_map (app x)) (ca_walk f fuel (ca_by_refid r d) d)
              end
          end
      end
  end.
Definition read_cert (col : string) : option Pki.cert := pem ← Base64.b64decode col; Pki.load_cert pem.
Definition stored_key (col : string) : option string :=
  b ← Encryption.decrypt_private_key encryption_enabled col; Base64.b64decode b.

Definition base_name (c : certificate) : string :=
  sanitize_filename (if Str.truthy (descr c) then descr c else refid c).
(** The CA the chain starts from: none without a reference. *)
Definition chain_start (c : certificate) (d : db) : option CaModel.ca := filled (caref c) ≫= (fun r => ca_by_refid r d).
Definition flag_arg (k : string) (q : CertListing.args) : bool :=
  String.eqb (Str.lower (CertListing.arg k "false" q)) "true".

(** An exception in the body of the route. *)
Definition or_failed (r : option reply) : reply := default (Failure 500 "Export failed") r.

Definition export_key (c : certificate) (password : option string) : option reply :=
  match filled (prv c) with
  | None => Some (Failure 400 "Certificate has no private key")
  | Some col =>
      key_pem ← stored_key col;
      body ← (match filled password with
              | Some p => k ← Pki.load_key key_pem; encrypted_pem k p
              | None => Some key_pem
              end);
      Some (File body (base_name c ^+ ".key"))
  end.

Definition export_pem (c : certificate) (cert_pem : string) (include_key include_chain : bool) (fuel : nat) (d : db)
  : option (option reply) :=
  match (match filled (prv c) with
         | Some col => if include_key then (fun k => (append_part cert_pem k, "_with_key.pem")) <$> stored_key col
                       else Some (cert_pem, ".crt")
         | None => Some (cert_pem, ".crt")
         end) with
  | None => Some None
  | Some (result, suffix) =>
      match filled (caref c) with
      | Some _ =>
          if include_chain then
            l ← ca_walk Base64.b64decode fuel (chain_start c d) d;
            Some (option_map (fun l => File (fold_left append_part l result)
                     (base_name c ^+ (if include_key then "_full_chain.pem" else "_chain.pem"))) l)
          else Some (Some (File result (base_name c ^+ suffix)))
      | None => Some (Some (File result (base_name c ^+ suffix)))
      end
  end.

(** [pkcs12] and [pfx] differ in their words and the suffix. *)
Definition export_p12 (c : certificate) (cert_pem : string) (password : option string) (label suffix : string)
    (fuel : nat) (d : db) : option (option reply) :=
  match filled password, filled (prv c) with
  | None, _ => Some (Some (Failure 400 ("Password required for " ^+ label ^+ " export")))
  | _, None => Some (Some (Failure 400 ("Certificate has no private key for " ^+ label ^+ " export")))
  | Some p, Some col =>
      match (x ← Pki.load_cert cert_pem; k ← stored_key col; key ← Pki.load_key k; Some (x, key)) with
      | None => Some None
      | Some (x, key) =>
          cas ← ca_walk read_cert fuel (chain_start c d) d;
          Some (cas ← cas;
                body ← serialize_p12 (if Str.truthy (descr c) then descr c else refid c) key x cas p;
                Some (File body (base_name c ^+ suffix)))
      end
  end.

Definition export_p7b (c : certificate) (cert_pem : string) (include_chain : bool) (fuel : nat) (d : db)
  : option (option reply) :=
  l ← (if include_chain then ca_walk Base64.b64decode fuel (chain_start c d) d else Some (Some []));
  Some (l ← l;
        body ← crl2pkcs7 (fold_left (fun r p => r ^+ line_end ^+ p) l cert_pem);
        Some (File body (base_name c ^+ ".p7b"))).

(** The route; [None] when the walk up the CAs does not come to an end. *)
Definition export_certificate (i : Z) (q : CertListing.args) (permissions : json) (fuel : nat) (d : db) : option reply :=
  match get_cert i d with
  | None => Some (Failure 404 "Certificate not found")
  | Some c =>
      match filled (crt c) with
      | None => Some (Failure 400 "Certificate data not available")
      | Some col =>
          let format := Str.lower (CertListing.arg "format" "pem" q) in
          let include_key := flag_arg "include_key" q in
          let include_chain := flag_arg "include_chain" q in
          let password := Json.assoc "password" q in
          let allowed :=
            if include_key || existsb (String.eqb format) ["pkcs12"; "pfx"; "key"]
            then Auth.has_permission "write:certificates" permissions else Some true in
          match allowed with
          | None => Some Raised
          | Some false => Some (Failure 403 "Private key export requires write:certificates permission")
          | Some true =>
              or_failed <$>
              match Base64.b64decode col with
              | None => Some None
              | Some cert_pem =>
                  if String.eqb format "key" then Some (export_key c password)
                  else if String.eqb format "pem" then export_pem c cert_pem include_key include_chain fuel d
                  else if String.eqb format "der" then
                    Some ((fun b => File b (base_name c ^+ ".der")) <$> to_der cert_pem)
                  else if String.eqb format "pkcs12" then export_p12 c cert_pem password "PKCS12" ".p12" fuel d
                  else if existsb (String.eqb format) ["pkcs7"; "p7b"] then export_p7b c cert_pem include_chain fuel d
                  else if String.eqb format "pfx" then export_p12 c cert_pem password "PFX" ".pfx" fuel d
                  else Some (Some (Failure 400 ("Unsupported format: " ^+ format)))
              end
          end
      end
  end.

(** * Many certificates *)

Definition concat_pem (l : list string) : option string :=
  l ← mapM Base64.b64decode l; Some (fold_left (fun r p => closed (r ^+ p)) l "").
Definition concat_lines (l : list string) : option string :=
  l ← mapM Base64.b64decode l; Some (fold_left (fun r p => r ^+ p ^+ line_end) l "").
Definition export_many (format unsupported : string) (l : list string) : reply :=
  if String.eqb format "pem" then or_failed ((fun b => File b "certificates.pem") <$> concat_pem l)
  else if existsb (String.eqb format) ["pkcs7"; "p7b"]
  then or_failed (t ← concat_lines l; b ← crl2pkcs7 t; Some (File b "certificates.p7b"))
  else Failure 400 unsupported.

(** Rows with a certificate; an empty one adds nothing. *)
Definition export_all_certificates (q : CertListing.args) (d : db) : reply :=
  match omap crt (certs d) with
  | [] => Failure 404 "No certificates to export"
  | l => export_many (Str.lower (CertListing.arg "format" "pem" q))
           "Bulk export only supports PEM and P7B formats. Use individual export for DER/PKCS12/PFX"
           (List.filter Str.truthy l)
  end.

Definition bulk_export_certificates (request : json) (d : db) : reply :=
  if negb (Json.truthy request) then Failure 400 "ids array required"
  else if negb (Json.is_dict request) then Raised
  else if negb (Json.truthy (Json.get_or "ids" JNull request)) then Failure 400 "ids array required"
  else match (f ← as_text (Json.get_or "format" (JStr "pem") request);
              ids ← (match Json.get_or "ids" JNull request with JList l => mapM bind_id l | _ => None end);
              Some (f, ids)) with
  | None => Raised
  | Some (f, ids) =>
      match omap crt (List.filter (fun c => existsb (fun i => bool_decide (i = Some (id c))) ids) (certs d)) with
      | [] => Failure 404 "No certificates found"
      | l => export_many (Str.lower f) "Supported formats: pem, p7b" l
      end
  end.

End Exports.
End CertExport.
