(* ===== verification/CertImport.v ===== *)
(** Importing one certificate: [import_certificate] of [api/v2/certificates.py],
    [services/import_service.py] and [utils/file_validation.py].

    The libraries' errors on files they cannot read are ValueErrors. *)
From S2P Require Import Prelude Base64 AuditSink Pki CertModel CertListing CaModel CertRoutes.

Module CertImport.
Import CertModel CertRoutes.
Local Open Scope string_scope.
Local Open Scope list_scope.
Local Open Scope Z_scope.

(** * Uploads *)

Definition MAX_UPLOAD_SIZE : Z := 10 * 1024 * 1024.
Definition CERT_EXTENSIONS : list string := [".pem"; ".crt"; ".cer"; ".p12"; ".pfx"; ".p7b"; ".der"; ".key"].

(** [Path(name).suffix] of a name without separators: from the last dot on, unless that is
    the first or the last character. *)
Definition suffix (name : string) : string :=
  match List.rev (Str.split "." name) with
  | last :: ((_ :: _) as front) =>
      if Str.truthy last && Str.truthy (Str.join "." (List.rev front)) then "." ^+ last else ""
  | _ => ""
  end.
Example suffix_samples : List.map suffix ["a.pem"; "a.b.pem"; ".pem"; "a."; "a"] = [".pem"; ".pem"; ""; ""; ""].
Proof. reflexivity. Qed.

Section Import.
Context `{Pki.X509} `{Keys} {T} `{AuditSink T}.
Context (secure_filename : string -> string).
(** PKCS7 and PKCS12 containers: certificates; key and certificate. *)
Context (load_pem_pkcs7 load_der_pkcs7 : string -> option (list Pki.cert)).
Context (load_der : string -> option Pki.cert).
Context (load_p12 : string -> option string -> option (option string * option Pki.cert)).
(** [cert.public_bytes(PEM)] *)
Context (to_pem : Pki.cert -> string).

Definition validate_upload (allowed : list string) (filename data : string) : option (string * string) :=
  if negb (Str.truthy filename) then None
  else
  let name := secure_filename filename in
  if negb (Str.truthy name) then None
  else if negb (existsb (String.eqb (Str.lower (suffix name))) allowed) then None
  else if MAX_UPLOAD_SIZE <? Z.of_nat (String.length data) then None
  else Some (data, name).

(** * [parse_certificate_file] *)

Fixpoint from (sub s : string) : option string :=
  if Str.startswith s sub then Some s
  else match s with EmptyString => None | String _ s' => from sub s' end.
(** What a pattern matched: the text without the rest. *)
Definition without_rest (s rest : string) : string := Str.take (String.length s - String.length rest) s.
(** [b.+?e] *)
Definition lazy_match (b e s : string) : option string :=
  s ← from b s; r ← after b s;
  match r with
  | EmptyString => None
  | String _ r => rest ← after e r; Some (without_rest s rest)
  end.
Definition cert_block : string -> option string :=
  lazy_match "-----BEGIN CERTIFICATE-----" "-----END CERTIFICATE-----".
(** [-----BEGIN.*?PRIVATE KEY-----.+?-----END.*?PRIVATE KEY-----]: from the first marker of
    any kind on. *)
Definition key_block (data : string) : option string :=
  s ← from "-----BEGIN" data; r ← after "-----BEGIN" s; r ← after "PRIVATE KEY-----" r;
  match r with
  | EmptyString => None
  | String _ r => r ← after "-----END" r; rest ← after "PRIVATE KEY-----" r; Some (without_rest s rest)
  end.
Definition ends_with (e s : string) : bool := Str.startswith (Str.rev s) (Str.rev e).

Definition first_of (l : option (list Pki.cert)) : option Pki.cert := l ≫= head.
Definition parse_certificate_file (data filename : string) (password : option string) (import_key : bool)
  : option (Pki.cert * option string) :=
  if Str.contains "-----BEGIN" data then
    let pem_data := default data (cert_block data) in
    let cert := if Str.contains "-----BEGIN PKCS7-----" data then first_of (load_pem_pkcs7 data) else None in
    cert ← (match cert with Some c => Some c | None => Pki.load_cert pem_data end);
    let key :=
      if import_key && Str.contains "PRIVATE KEY" data then
        match key_block data with
        | Some k => match load_with_password k (filled password) with Loaded key => Some key | _ => None end
        | None => None
        end
      else None in
    Some (cert, key)
  else if ends_with ".p12" filename || ends_with ".pfx" filename then
    r ← load_p12 data (filled password);
    cert ← r.2; Some (cert, r.1)
  else if ends_with ".p7b" filename || ends_with ".p7c" filename then
    certs ← (match load_der_pkcs7 data with Some l => Some l | None => load_pem_pkcs7 data end);
    cert ← head certs; Some (cert, None)
  else
    cert ← (match load_der data with Some c => Some c | None => first_of (load_der_pkcs7 data) end);
    Some (cert, None).

(** [is_ca_certificate] *)
Definition is_ca_certificate (x : Pki.cert) : bool :=
  match List.find Pki.is_basic (Pki.x_extensions x) with
  | Some (Pki.Ext (Pki.BasicConstraints ca _) _) => ca
  | _ => false
  end.

Record cert_info := CertInfo {
  i_cn : string; i_subject : string; i_issuer : string; i_valid_from : Z; i_valid_to : Z;
  i_ski : option string; i_aki : option string;
}.
Definition key_id (oid : string) (x : Pki.cert) : option string :=
  match List.find (fun e => match Pki.x_value e with Pki.OtherExtension o _ => String.eqb o oid | _ => false end)
          (Pki.x_extensions x) with
  | Some (Pki.Ext (Pki.OtherExtension _ v) _) => Some v
  | _ => None
  end.
Definition extract_cert_info (x : Pki.cert) : cert_info :=
  CertInfo (default "" (Json.assoc "CN" (Pki.x_subject x))) (Pki.rfc4514 (Pki.x_subject x))
    (Pki.rfc4514 (Pki.x_issuer x)) (Pki.x_not_before x) (Pki.x_not_after x)
    (key_id SKI_OID x) (filled (key_id AKI_OID x)).

Definition find_existing_ca (i : cert_info) (d : db) : option CaModel.ca := ca_by_subject (i_subject i) d.
Definition find_existing_certificate (i : cert_info) (d : db) : option certificate :=
  Table.first (fun c => bool_decide (subject c = Some (i_subject i)) && bool_decide (issuer c = Some (i_issuer i)))
    (certs d).

(** * Rows *)

(** The first text that is not empty. *)
Definition first_filled (a b : string) (c : option string) : option string :=
  if Str.truthy a then Some a else if Str.truthy b then Some b else c.

Definition updated_ca (name pem : string) (key_pem : option string) (i : cert_info) (a : CaModel.ca) : CaModel.ca :=
  CaModel.CA (CaModel.a_id a) (CaModel.a_refid a) (default "" (first_filled name (i_cn i) (Some (CaModel.a_descr a))))
    (Base64.b64encode pem)
    (match filled key_pem with Some k => Some (Base64.b64encode k) | None => CaModel.a_prv a end)
    (CaModel.a_serial a) (CaModel.a_caref a) (CaModel.a_subject a) (Some (i_issuer i)) (CaModel.a_serial_number a)
    (i_ski i) (Some (i_valid_from i)) (Some (i_valid_to i)) (CaModel.a_imported_from a) (CaModel.a_created_at a)
    (CaModel.a_created_by a) (CaModel.a_owner_group_id a) (CaModel.a_cdp_enabled a) (CaModel.a_cdp_url a)
    (CaModel.a_delta_crl_enabled a) (CaModel.a_delta_crl_interval a) (CaModel.a_ocsp_enabled a) (CaModel.a_ocsp_url a)
    (CaModel.a_hsm_key_id a).
Definition new_ca (n : Z) (uuid descr pem : string) (key_pem : option string) (i : cert_info) (now : Z) : CaModel.ca :=
  CaModel.CA n uuid descr (Base64.b64encode pem) (Base64.b64encode <$> filled key_pem) (Some 0) None
    (Some (i_subject i)) (Some (i_issuer i)) None (i_ski i) (Some (i_valid_from i)) (Some (i_valid_to i))
    (Some "manual") (Some now) None None false None false (Some 4) false None None.

Definition updated_cert (name pem : string) (key_pem parent : option string) (i : cert_info) (c : certificate) : certificate :=
  Certificate (id c) (refid c) (default "" (first_filled name (i_cn i) (Some (descr c))))
    (match parent with Some r => Some r | None => caref c end) (Some (Base64.b64encode pem)) (csr c)
    (match filled key_pem with Some k => Some (Base64.b64encode k) | None => prv c end)
    (cert_type c) (subject c) (subject_cn c) (issuer c) (serial_number c) (i_aki i) (i_ski i)
    (Some (i_valid_from i)) (Some (i_valid_to i)) (key_algo c) (san_dns c) (san_ip c) (san_email c) (san_uri c)
    (ocsp_uri c) (private_key_location c) (revoked c) (revoked_at c) (revoke_reason c) (archived c)
    (imported_from c) (created_at c) (created_by c) (source c) (template_id c) (owner_group_id c).
Definition new_cert (n : Z) (uuid descr pem : string) (key_pem parent : option string) (i : cert_info) (now : Z) : certificate :=
  Certificate n uuid descr parent (Some (Base64.b64encode pem)) None (Base64.b64encode <$> filled key_pem) None
    (Some (i_subject i)) None (Some (i_issuer i)) None (i_aki i) (i_ski i) (Some (i_valid_from i)) (Some (i_valid_to i))
    None None None None None None (Some "stored") (Some false) None None (Some false) None (Some now)
    (Some "import") (Some "manual") None None.

Inductive reply :=
| StoredCA (code : Z) (row : CaModel.ca) (message : string)
| StoredCert (code : Z) (row : certificate) (message : string)
| Failure (code : Z) (message : string).

(** The CA a new certificate is linked to. *)
Definition get_ca (n : Z) (d : db) : option CaModel.ca := Table.first (fun a => CaModel.a_id a =? n) (cas d).
Definition parent_of (ca_id : Z) (i : cert_info) (d : db) : option string :=
  CaModel.a_refid <$>
  (if negb (ca_id =? 0) then get_ca ca_id d
   else match filled (i_aki i) ≫= (fun k => Table.first (fun a => bool_decide (CaModel.a_ski a = Some k)) (cas d)) with
        | Some a => if Str.truthy (CaModel.a_refid a) then Some a else ca_by_subject (i_issuer i) d
        | None => ca_by_subject (i_issuer i) d
        end).

Definition update_ca (n : Z) (f : CaModel.ca -> CaModel.ca) (d : db) : db :=
  Db (Table.update (fun a => CaModel.a_id a =? n) f (cas d)) (certs d) (approvals d) (crls d).
Definition import_event (action kind : string) (n : Z) (name details : string) : event :=
  Event action (Some kind) (AInt n) (AStr name) (AStr (details ^+ name)) true None.
Definition quoted_name (s : string) : string := String Json.quote (s ^+ String Json.quote EmptyString).

(** A certificate of a CA goes to the table of CAs; [filename] is that of the upload. *)
Definition store_ca (name : string) (filename : option string) (uuid pem : string) (key_pem : option string)
    (update_existing : bool) (i : cert_info) (now : Z) (d : db) (trail : T) : db * T * reply :=
  match find_existing_ca i d with
  | Some a =>
      if negb update_existing
      then (d, trail, Failure 409 ("CA with subject " ^+ quoted_name (i_cn i) ^+ " already exists (ID: "
                                   ^+ Num.str (CaModel.a_id a) ^+ ")"))
      else
        let a' := updated_ca name pem key_pem i a in
        (update_ca (CaModel.a_id a) (fun _ => a') d,
         record_event (import_event "ca_updated" "ca" (CaModel.a_id a) (CaModel.a_descr a') "Updated CA via import: ") trail,
         StoredCA 200 a' ("CA certificate " ^+ quoted_name (CaModel.a_descr a') ^+ " updated (already existed)"))
  | None =>
      match first_filled name (i_cn i) filename with
      | None => (d, trail, Failure 500 "Import failed")
      | Some descr =>
          let a := new_ca (Table.next_id CaModel.a_id (cas d)) uuid descr pem key_pem i now in
          if existsb (fun b => String.eqb (CaModel.a_refid b) uuid) (cas d)
          then (d, trail, Failure 500 "Import failed")
          else (Db (cas d ++ [a]) (certs d) (approvals d) (crls d),
                record_event (import_event "ca_imported" "ca" (CaModel.a_id a) descr "Imported CA (auto-detected): ") trail,
                StoredCA 201 a ("CA certificate " ^+ quoted_name descr ^+ " imported successfully (detected as CA)"))
      end
  end.

Definition store_cert (name : string) (filename : option string) (uuid pem : string) (key_pem : option string)
    (ca_id : Z) (update_existing : bool) (i : cert_info) (now : Z) (d : db) (trail : T) : db * T * reply :=
  match find_existing_certificate i d with
  | Some c =>
      if negb update_existing
      then (d, trail, Failure 409 ("Certificate with subject " ^+ quoted_name (i_cn i) ^+ " already exists (ID: "
                                   ^+ Num.str (id c) ^+ ")"))
      else
        let parent := if ca_id =? 0 then None else CaModel.a_refid <$> get_ca ca_id d in
        let c' := updated_cert name pem key_pem parent i c in
        (update_cert (id c) (fun _ => c') d,
         record_event (import_event "certificate_updated" "certificate" (id c) (descr c') "Updated certificate via import: ") trail,
         StoredCert 200 c' ("Certificate " ^+ quoted_name (descr c') ^+ " updated (already existed)"))
  | None =>
      match first_filled name (i_cn i) filename with
      | None => (d, trail, Failure 500 "Import failed")
      | Some descr =>
          let c := new_cert (Table.next_id id (certs d)) uuid descr pem key_pem (parent_of ca_id i d) i now in
          if existsb (fun b => String.eqb (refid b) uuid) (certs d)
          then (d, trail, Failure 500 "Import failed")
          else (with_certs (certs d ++ [c]) d,
                record_event (import_event "certificate_imported" "certificate" (id c) descr "Imported certificate: ") trail,
                StoredCert 201 c ("Certificate " ^+ quoted_name descr ^+ " imported successfully"))
      end
  end.

(** The route: the upload, if it has a name, or the pasted text, for which the variable that
    holds the upload is never assigned.  Keys are stored as they
    are, without encryption. *)
Definition import_certificate (upload : option (string * string)) (form : CertListing.args) (uuid : string)
    (now : Z) (d : db) (trail : T) : db * T * reply :=
  let fail code m := (d, trail, Failure code m) in
  let form_flag k := String.eqb (Str.lower (CertListing.arg k "true" form)) "true" in
  let input :=
    match upload with
    | Some (filename, data) =>
        if Str.truthy filename
        then match validate_upload CERT_EXTENSIONS filename data with
             | Some (data, name) => inl (data, name, Some filename)
             | None => inr (Failure 400 "Invalid input")
             end
        else match filled (Json.assoc "pem_content" form) with
             | Some t => inl (t, "pasted.pem", None)
             | None => inr (Failure 400 "No file or PEM content provided")
             end
    | None =>
        match filled (Json.assoc "pem_content" form) with
        | Some t => inl (t, "pasted.pem", None)
        | None => inr (Failure 400 "No file or PEM content provided")
        end
    end in
  match input with
  | inr r => (d, trail, r)
  | inl (data, filename, uploaded) =>
      let import_key := form_flag "import_key" in
      match parse_certificate_file data filename (Json.assoc "password" form) import_key with
      | None => fail 400 "Invalid input"
      | Some (x, key) =>
          let i := extract_cert_info x in
          let key_pem := if import_key then unencrypted_pem <$> key else None in
          let name := CertListing.arg "name" "" form in
          let update_existing := form_flag "update_existing" in
          if is_ca_certificate x
          then store_ca name uploaded uuid (to_pem x) key_pem update_existing i now d trail
          else store_cert name uploaded uuid (to_pem x) key_pem (CertListing.int_arg "ca_id" 0 form) update_existing
                 i now d trail
      end
  end.

End Import.
End CertImport.
