(* ===== verification/CertRoutesFacts.v ===== *)
(** What the certificate routes guarantee: issuing, renewing, revoking and exporting. *)
From Stdlib Require Import Hexadecimal HexadecimalString.
From S2P Require Import Prelude Base64 Auth AuditSink AuditLog Encryption Pki PkiFacts CertModel IpAddress CaModel.
From S2P Require Import CertLoginFacts CertListing ComplianceFacts CertRoutes CertActions CertExport.

Module CertRoutesFacts.
Import CertModel CertRoutes CertActions.
Local Open Scope string_scope.
Local Open Scope list_scope.
Local Open Scope Z_scope.

(** * Serial numbers: what is stored is what the CRL reads *)

Lemma digit_upper c :
  Num.digit_val 16 (Str.upper1 c) = Num.digit_val 16 c /\ Ascii.eqb (Str.upper1 c) "_" = Ascii.eqb c "_".
Proof. destruct c as [[] [] [] [] [] [] [] []]; vm_compute; done. Qed.
Lemma digits_upper s a p : Num.digits 16 a p (Str.upper s) = Num.digits 16 a p s.
Proof.
  revert a p. induction s as [|c s IH]; intros a p; [done|]. unfold Str.upper in *. cbn [Str.map Num.digits].
  destruct (digit_upper c) as [-> ->]. repeat case_match; try done; apply IH.
Qed.

Lemma hex_shape n : 0 <= n -> exists d, d <> Hexadecimal.Nil /\ Num.hex n = NilEmpty.string_of_uint d /\
  Z.of_N (Pos.of_hex_uint d) = n.
Proof.
  intros Hn. destruct n as [|p|p]; [..|lia]; unfold Num.hex; simpl.
  - by exists (Hexadecimal.D0 Hexadecimal.Nil).
  - exists (Pos.to_hex_uint p). unfold NilZero.string_of_uint. pose proof (HexadecimalPos.Unsigned.of_to p) as E.
    destruct (Pos.to_hex_uint p) eqn:Ep; [done|..]; by rewrite E.
Qed.

Lemma hex_chars d : Str.exists_char Str.is_space (NilEmpty.string_of_uint d) = false
  /\ Str.has_char ":" (NilEmpty.string_of_uint d) = false.
Proof. unfold Str.has_char. split; induction d; simpl; auto. Qed.

Lemma parse_hex n : 0 <= n -> Num.parse 16 (Num.hex n) = Some n.
Proof.
  intros Hn. destruct (hex_shape n Hn) as (d & Hd & -> & Hv). destruct (hex_chars d) as [Hs _].
  assert (exists c r, NilEmpty.string_of_uint d = String c r /\ Ascii.eqb c "-" = false /\ Ascii.eqb c "+" = false)
    as (c & r & E & Hm & Hp) by (destruct d; [done|..]; cbn; eexists _, _; done).
  assert (Str.startswith (NilEmpty.string_of_uint d) "0x" = false /\ Str.startswith (NilEmpty.string_of_uint d) "0X" = false)
    as [H1 H2].
  { destruct d as [|d|d|d|d|d|d|d|d|d|d|d|d|d|d|d|d]; try done. by destruct d. }
  unfold Num.parse. rewrite StrFacts.strip_id by done. rewrite E, Hm, Hp, <-E. unfold Num.magnitude. rewrite H1, H2.
  cbn [Z.eqb andb orb]. pose proof (CertLoginFacts.hex_uint_digits d 0 false (or_intror Hd)) as Hu. rewrite digits_upper in Hu.
  cbn [Z.of_N] in Hu. by rewrite Hu, Hv.
Qed.

Lemma crl_serial_hex n : 0 <= n < 2 ^ 159 -> Pki.crl_serial (Num.hex n) = Some n.
Proof.
  intros Hn. unfold Pki.crl_serial. destruct (hex_shape n ltac:(lia)) as (d & _ & E & _).
  rewrite StrFacts.replace_nochar by (rewrite E; apply hex_chars). rewrite parse_hex by lia. cbn [mbind option_bind].
  by destruct (Z.leb_spec (2 ^ 159) (Z.abs n)); [lia|].
Qed.

Lemma hex_truthy n : 0 <= n -> Str.truthy (Num.hex n) = true.
Proof. intros Hn. destruct (hex_shape n Hn) as (d & Hd & -> & _). by destruct d. Qed.

(** * Issuing *)

Section Facts.
Context `{Pki.X509} `{Keys} `{Fernet} (encryption_enabled : bool) {T} `{AuditSink T}.
Context (py_repr : json -> string) (library_error : string).

(** The replies before the signing are refusals. *)
Lemma lookup_refuses data d r : lookup_ca data d = Some (inr r) -> exists code m, r = Failure code m.
Proof. unfold lookup_ca. intros E. apply bind_Some in E as (i & _ & E). repeat case_match; simplify_eq; eauto. Qed.

Lemma requested_key_refuses data r : requested_key py_repr data = Some (inr r) -> exists code m, r = Failure code m.
Proof.
  unfold requested_key. intros E. apply bind_Some in E as (t & _ & E). case_match; [by case_match|].
  apply bind_Some in E as (n & _ & E). case_match; simplify_eq. eauto.
Qed.

Lemma template_inv data a generate serial now r :
  template py_repr data a generate serial now = Some r ->
  exists ca_cert ca_key, ca_material a = Some (ca_cert, ca_key) /\
  match r with
  | inr r => exists code m, r = Failure code m
  | inl (x, new_key, ca_key', not_after) =>
      ca_key' = ca_key /\
      exists spec subject days usage cn names,
        requested_key py_repr data = Some (inl spec) /\ generate spec = Some new_key /\
        subject_of data = Some subject /\
        Compliance.Compliance.as_number (Json.get_or "validity_days" (JInt 365) data) = Some days /\
        ApiKeys.ApiKeys.days_ok days now = true /\ not_after = now + Time.days days /\
        as_text (Json.get_or "cn" JNull data) = Some cn /\
        san_list data cn (Json.get_or "cert_type" (JStr "server") data) = Some names /\
        x = Pki.Cert subject (Pki.x_subject ca_cert) (public_key new_key) serial (Pki.whole_second now)
              (Pki.whole_second not_after) (extensions usage names new_key ca_key)
  end.
Proof.
  unfold template. intros E. apply bind_Some in E as ([ca_cert ca_key] & Em & E).
  exists ca_cert, ca_key. split; [done|]. apply bind_Some in E as ([spec|r0] & Es & E).
  2:{ simplify_eq. by eapply requested_key_refuses. }
  apply bind_Some in E as (new_key & Eg & E). apply bind_Some in E as (subj & Esub & E).
  apply bind_Some in E as (days & Ed & E). destruct (negb _) eqn:Eok; [done|].
  apply bind_Some in E as (usage & _ & E). apply bind_Some in E as (cn & Ecn & E).
  apply bind_Some in E as (names & En & E). simplify_eq. apply negb_false_iff in Eok. split; [done|].
  by exists spec, subj, days, usage, cn, names.
Qed.

(** What an answer 201 went through. *)
Lemma create_inv request generate serial uuid username now d trail d' trail' row m :
  create_certificate py_repr request generate serial uuid username now d trail = (d', trail', Success 201 row m) ->
  exists fields data a x new_key ca_key not_after pem,
    dn_validations request = Some fields /\ dn_error py_repr fields = None /\
    parse_san py_repr request = Some data /\ lookup_ca data d = Some (inl a) /\
    template py_repr data a generate serial now = Some (inl (x, new_key, ca_key, not_after)) /\
    Pki.sign_cert "sha256" ca_key x = Some pem /\
    new_row (Table.next_id id (certs d)) uuid data a x pem new_key ca_key not_after now username = Some row /\
    existsb (fun c => String.eqb (refid c) (refid row)) (certs d) = false /\
    d' = with_certs (certs d ++ [row]) d /\ actions trail' = actions trail ++ ["certificate_created"].
Proof.
  unfold create_certificate. do 4 (destruct (negb _); [done|]).
  destruct (dn_validations request) as [fields|] eqn:E1; [|done].
  destruct (dn_error py_repr fields) as [e|] eqn:E2; [done|].
  destruct (data ← parse_san py_repr request; r ← lookup_ca data d; Some (data, r)) as [[data [a|r]]|] eqn:E3; [| |done].
  2:{ apply bind_Some in E3 as (? & _ & (? & Hl & ?)%bind_Some). simplify_eq.
      apply lookup_refuses in Hl as (? & ? & ->). done. }
  apply bind_Some in E3 as (? & Hp & (? & Hl & ?)%bind_Some). simplify_eq.
  destruct (template _ _ _ _ _ _) as [[[[[x new_key] ca_key] not_after]|r]|] eqn:E5; [| |done].
  2:{ apply template_inv in E5 as (? & ? & _ & ? & ? & ->). done. }
  destruct (pem ← _; _) as [row'|] eqn:E6; [|done]. apply bind_Some in E6 as (pem & Es & (row2 & Er & E6)%bind_Some).
  destruct (existsb _ _) eqn:E8; [done|]. intros [= <- <- <- _]. simplify_eq.
  exists fields, data, a, x, new_key, ca_key, not_after, pem. split_and!; try done. by rewrite record_actions.
Qed.

Lemma assoc_put k k' v kv : k <> k' -> Json.assoc k (put k' v kv) = Json.assoc k kv.
Proof.
  intros Hk. induction kv as [|[k0 v0] kv IH]; cbn.
  - by destruct (String.eqb_spec k k').
  - destruct (String.eqb_spec k' k0) as [->|]; cbn; [by destruct (String.eqb_spec k k0)|].
    destruct (String.eqb k k0); [done|apply IH].
Qed.
(** Sorting the names changes no other field of a request. *)
Lemma parse_san_get request data k dflt :
  parse_san py_repr request = Some data -> ~ In k ["san_dns"; "san_ip"; "san_email"] ->
  Json.get_or k dflt data = Json.get_or k dflt request.
Proof.
  destruct request as [| | | | |kv]; try done. unfold parse_san. intros E Hk.
  assert (k <> "san_dns" /\ k <> "san_ip" /\ k <> "san_email") as (H1' & H2' & H3') by (repeat split; intros ->; apply Hk; cbn; tauto).
  destruct (Json.truthy _ && _); [|by simplify_eq]. apply bind_Some in E as (raw & _ & E).
  destruct (sans_of _) as [[dns ips] emails]. simplify_eq. unfold Json.get_or, Json.get.
  destruct dns, ips, emails; rewrite ?assoc_put by done; done.
Qed.

Lemma lookup_ca_In data d a : lookup_ca data d = Some (inl a) -> In a (cas d) /\ AuditLog.otruthy (CaModel.a_prv a) = true.
Proof.
  unfold lookup_ca. intros E. apply bind_Some in E as (i & _ & E).
  destruct (i ≫= _) as [b|] eqn:Eb; [|done]. destruct (filled (CaModel.a_prv b)) eqn:Ef; simplify_eq.
  apply bind_Some in Eb as (j & _ & [Hin _]%Table.first_Some). split; [done|].
  unfold filled in Ef. destruct (CaModel.a_prv a) as [p|]; [|done]. cbn. by destruct (Str.truthy p).
Qed.

Lemma requested_key_san request data :
  parse_san py_repr request = Some data -> requested_key py_repr data = requested_key py_repr request.
Proof.
  intros Hp. unfold requested_key.
  by rewrite !(parse_san_get _ _ _ _ Hp) by (cbn; intros [?|[?|[?|[]]]]; discriminate).
Qed.

(** C17: An issued certificate is what was asked for: it carries the common name of the
    request, whose fields passed their validation, and the key generated for the kind of key
    that was asked for, is valid from now (whole seconds) for the days asked for, is signed
    by the chosen CA with its key, is no CA, and its row is new, says the same and points to
    that CA.  Its private key is stored as it is, whether or not the encryption of keys is
    on. *)
Theorem created_certificate_is_as_asked request generate serial uuid username now d trail d' trail' row m
  (Hc : create_certificate py_repr request generate serial uuid username now d trail
        = (d', trail', Success 201 row m)) :
  certs d' = certs d ++ [row] /\ cas d' = cas d
  /\ (forall c, In c (certs d) -> id c < id row /\ refid c <> refid row)
  /\ (exists fields, dn_validations request = Some fields /\ dn_error py_repr fields = None)
  /\ exists a ca_cert ca_key spec new_key cn days x pem,
       In a (cas d) /\ caref row = Some (CaModel.a_refid a) /\ ca_material a = Some (ca_cert, ca_key)
       /\ Pki.sign_cert "sha256" ca_key x = Some pem /\ crt row = Some (Base64.b64encode pem)
       /\ Json.get_or "cn" JNull request = JStr cn /\ head (Pki.x_subject x) = Some ("CN", cn)
       /\ requested_key py_repr request = Some (inl spec) /\ generate spec = Some new_key
       /\ Pki.x_issuer x = Pki.x_subject ca_cert /\ Pki.x_public_key x = public_key new_key
       /\ Pki.x_not_before x = Pki.whole_second now /\ Pki.x_not_after x = Pki.whole_second (now + Time.days days)
       /\ Pki.x_serial x = serial /\ serial_number row = Some (Num.hex serial)
       /\ valid_from row = Some now /\ valid_to row = Some (now + Time.days days)
       /\ Compliance.Compliance.as_number (Json.get_or "validity_days" (JInt 365) request) = Some days
       /\ (forall e ca l, In e (Pki.x_extensions x) -> Pki.x_value e = Pki.BasicConstraints ca l -> ca = false)
       /\ prv row = Some (Base64.b64encode (unencrypted_pem new_key))
       /\ revoked row = Some false.
Proof.
  apply create_inv in Hc as (fields & data & a & x & new_key & ca_key & not_after & pem & Hf & He & Hp & Hl & Ht & Hs & Hr & Hn & -> & _).
  apply template_inv in Ht as (ca_cert & k & Hm & -> & spec & subj & days & usage & cn & names & Hk & Hgen & Hsub & Hd & _ & -> & Hcn & _ & ->).
  rewrite (requested_key_san _ _ Hp) in Hk. unfold new_row in Hr. apply bind_Some in Hr as (dd & _ & (ds & _ & (ct & _ & Hr)%bind_Some)%bind_Some). simplify_eq.
  cbn [certs cas with_certs id refid caref crt serial_number valid_from valid_to prv revoked Pki.x_subject Pki.x_issuer Pki.x_public_key Pki.x_serial Pki.x_extensions].
  split; [done|]. split; [done|]. split.
  { intros c Hin. split; [by apply Table.next_id_fresh|]. cbn in Hn. apply not_true_iff_false in Hn.
    intros E. apply Hn, existsb_exists. exists c. split; [done|]. by apply String.eqb_eq. }
  split; [by exists fields|]. apply lookup_ca_In in Hl as [Hin _].
  exists a, ca_cert, k, spec, new_key, cn, days.
  eexists _, pem. split_and!; try reflexivity; try done.
  - rewrite <-(parse_san_get _ _ "cn" JNull Hp) by (cbn; naive_solver). by destruct (Json.get_or "cn" JNull data); simplify_eq/=.
  - unfold subject_of in Hsub. rewrite Hcn in Hsub. cbn [mbind option_bind] in Hsub.
    repeat (apply bind_Some in Hsub as (? & _ & Hsub)). by simplify_eq.
  - rewrite <-(parse_san_get _ _ "validity_days" (JInt 365) Hp) by (cbn; naive_solver). done.
  - cbn [Pki.x_extensions]. unfold extensions, key_ids. intros e ca l Hine Hv.
    destruct names; cbn in Hine; naive_solver.
Qed.

(** * Revocation *)

Lemma first_map {A B} (f : A -> B) p q l : (forall x, q (f x) = p x) ->
  Table.first q (List.map f l) = f <$> Table.first p l.
Proof. intros Hq. unfold Table.first. induction l as [|x l IH]; [done|]. cbn. rewrite Hq. by destruct (p x). Qed.

Lemma get_pki_ca i d :
  Pki.get_ca i (pki_view encryption_enabled d)
  = pki_ca encryption_enabled <$> Table.first (fun a => CaModel.a_id a =? i) (cas d).
Proof. by apply first_map. Qed.

Lemma get_cert_In i d c : get_cert i d = Some c -> In c (certs d) /\ id c = i.
Proof. intros [Hin E%Z.eqb_eq]%Table.first_Some. done. Qed.

Lemma get_update i c d : get_cert i d = Some c -> forall c', id c' = i -> get_cert i (update_cert i (fun _ => c') d) = Some c'.
Proof.
  unfold get_cert, update_cert, Table.first, Table.update. cbn [certs with_certs]. intros Hg c' Hc'.
  induction (certs d) as [|x l IH]; [done|]. cbn in *. destruct (Z.eqb_spec (id x) i); cbn.
  - by rewrite Hc', Z.eqb_refl.
  - destruct (Z.eqb_spec (id x) i); [done|]. by apply IH.
Qed.

Lemma shown_crl i u now d v trail (tr : T) m :
  Pki.generate_crl encryption_enabled i 7 u now (pki_view encryption_enabled d) tr = (v, trail, inl m) ->
  exists content a, Table.first (fun a => CaModel.a_id a =? i) (cas d) = Some a
    /\ Pki.get_latest_crl i (pki_view encryption_enabled (with_crls (Pki.crls v) d)) = Some m
    /\ PkiFacts.signed_over m content
    /\ Pki.cc_entries content
       = List.flat_map (Pki.crl_entry_of now) (Pki.revoked_of (pki_ca encryption_enabled a) (pki_view encryption_enabled d))
    /\ actions trail = actions tr ++ ["generate_crl"].
Proof.
  intros (_ & _ & _ & _ & Hl & Ha & a & content & Hg & Hs & _ & He)%PkiFacts.generate_crl_inv.
  rewrite get_pki_ca in Hg. destruct (Table.first _ (cas d)) as [a0|] eqn:E; [|done]. injection Hg as <-.
  exists content, a0. split_and!; done.
Qed.

(** Revoking: the row is marked; when the CA publishes CRLs, either the generation failed,
    which is recorded, or the new CRL is the latest and lists the serial number. *)
Lemma service_revoke_spec c reason shown u now now' d trail d' trail' c' a n :
  service_revoke encryption_enabled library_error c reason shown u now now' d trail = (d', trail', c') ->
  get_cert (id c) d = Some c -> NoDup (List.map CaModel.a_id (cas d)) ->
  issuing_ca c d = Some a -> CaModel.a_refid a <> "" ->
  AuditLog.otruthy (serial_number c) = true -> Pki.crl_serial (default "" (serial_number c)) = Some n ->
  get_cert (id c) d' = Some c' /\ c' = set_revocation true (Some now) reason c
  /\ if CaModel.a_cdp_enabled a then
       (crls d' = crls d /\ actions trail' = actions trail ++ ["cert_revoked"; "crl_auto_generation_failed"])
       \/ (exists m content e,
          Pki.get_latest_crl (CaModel.a_id a) (pki_view encryption_enabled d') = Some m
          /\ PkiFacts.signed_over m content /\ In e (Pki.cc_entries content) /\ Pki.e_serial e = n
          /\ actions trail' = actions trail ++ ["cert_revoked"; "generate_crl"])
     else crls d' = crls d /\ actions trail' = actions trail ++ ["cert_revoked"].
Proof.
  intros Hs Hg Hnd Ha Hne Hser Hn. unfold service_revoke in Hs.
  set (c1 := set_revocation true (Some now) reason c) in *.
  set (d1 := update_cert (id c) (fun _ => c1) d) in *.
  assert (issuing_ca c1 d1 = Some a) as Ha1 by exact Ha. rewrite Ha1 in Hs.
  assert (get_cert (id c) d1 = Some c1) as Hg1 by (eapply get_update; done).
  set (tr1 := record_event _ trail) in *. destruct (CaModel.a_cdp_enabled a).
  2:{ injection Hs as <- <- <-. do 3 (split; [done|]). unfold tr1. by rewrite record_actions. }
  destruct (Pki.generate_crl encryption_enabled _ _ _ _ _ tr1) as [[v tr2] r] eqn:Eg.
  assert (actions tr1 = actions trail ++ ["cert_revoked"]) as Htr1 by (unfold tr1; by rewrite record_actions).
  destruct r as [m|e]; injection Hs as <- <- <-; (split; [exact Hg1|]; split; [done|]).
  - right. apply shown_crl in Eg as (content & a0 & Ef & Hl & Hso & He & Hact).
    assert (a0 = a) as ->.
    { apply Table.first_Some in Ef as [Hin0 E0%Z.eqb_eq].
      assert (In a (cas d)) as Hin by (unfold issuing_ca in Ha; apply bind_Some in Ha as (r & _ & [? _]%Table.first_Some); done).
      by apply (Table.NoDup_map_eq CaModel.a_id (cas d)). }
    assert (caref c = Some (CaModel.a_refid a)) as Hca.
    { unfold issuing_ca in Ha. apply bind_Some in Ha as (r & -> & [_ E%String.eqb_eq]%Table.first_Some). by rewrite E. }
    destruct (PkiFacts.revoked_listed (pki_ca encryption_enabled a) (pki_cert c1) (pki_view encryption_enabled d1) now' n)
      as (e & Hine & Hse); try done.
    { cbn. apply in_map. by apply get_cert_In in Hg1 as [? _]. }
    exists m, content, e. rewrite He. split_and!; try done. by rewrite Hact, Htr1, <-app_assoc.
  - left. apply PkiFacts.generate_crl_fails in Eg as [-> ->]. split; [done|]. by rewrite record_actions, Htr1, <-app_assoc.
Qed.

(** C16: From issuing to the CRL: a certificate issued here and revoked afterwards is marked as
    revoked.  If its CA has a distribution point, either the generation of a CRL failed,
    which the trail says, or the latest CRL of the CA lists exactly the serial number the
    certificate was issued with; without one, which is the default, no CRL is made. *)
Theorem issued_certificates_reach_the_crl request generate serial uuid username now d trail d1 trail1 row m
    reason u now1 now2 d2 trail2 c' m2 a
  (Hc : create_certificate py_repr request generate serial uuid username now d trail
        = (d1, trail1, Success 201 row m))
  (Hserial : 0 <= serial < 2 ^ 159)
  (Hr : revoke_certificate encryption_enabled library_error py_repr (id row) reason u now1 now2 d1 trail1
        = (d2, trail2, Success 200 c' m2))
  (Hids : NoDup (List.map CaModel.a_id (cas d))) (Hrefids : NoDup (List.map CaModel.a_refid (cas d)))
  (Ha : In a (cas d)) (Href : caref row = Some (CaModel.a_refid a)) (Hne : CaModel.a_refid a <> "") :
  get_cert (id row) d2 = Some c' /\ revoked c' = Some true /\ revoked_at c' = Some now1
  /\ if CaModel.a_cdp_enabled a then
       (crls d2 = crls d1 /\ actions trail2 = actions trail1 ++ ["cert_revoked"; "crl_auto_generation_failed"])
       \/ (exists crl content e,
          Pki.get_latest_crl (CaModel.a_id a) (pki_view encryption_enabled d2) = Some crl
          /\ PkiFacts.signed_over crl content /\ In e (Pki.cc_entries content) /\ Pki.e_serial e = serial
          /\ actions trail2 = actions trail1 ++ ["cert_revoked"; "generate_crl"])
     else crls d2 = crls d1 /\ actions trail2 = actions trail1 ++ ["cert_revoked"].
Proof.
  apply create_inv in Hc as (fields & data & a0 & x & new_key & ca_key & not_after & pem & _ & _ & _ & _ & Ht & _ & Hrow & _ & -> & _).
  apply template_inv in Ht as (ca_cert & k & _ & _ & spec & subj & days & usage & cn & names & _ & _ & _ & _ & _ & _ & _ & _ & ->).
  assert (serial_number row = Some (Num.hex serial) /\ id row = Table.next_id id (certs d)) as [Hsn Hid].
  { unfold new_row in Hrow. apply bind_Some in Hrow as (? & _ & (? & _ & (? & _ & Hrow)%bind_Some)%bind_Some). by simplify_eq. }
  assert (get_cert (id row) (with_certs (certs d ++ [row]) d) = Some row) as Hg.
  { unfold get_cert. cbn [certs with_certs]. rewrite Table.first_app.
    destruct (Table.first _ (certs d)) as [c|] eqn:E.
    - apply Table.first_Some in E as [Hin E%Z.eqb_eq]. apply (Table.next_id_fresh id) in Hin. lia.
    - cbn. by rewrite Z.eqb_refl. }
  unfold revoke_certificate in Hr. destruct (if Json.truthy reason then _ else _) as [rj|]; [|done].
  rewrite Hg in Hr. destruct (true_flag (revoked row)); [done|]. destruct (column rj) as [rc|]; [|done].
  destruct (service_revoke _ _ _ _ _ _ _ _ _ _) as [[dd tt] cc] eqn:Es. injection Hr as -> -> -> _.
  assert (issuing_ca row (with_certs (certs d ++ [row]) d) = Some a) as Hiss.
  { unfold issuing_ca. rewrite Href. cbn [mbind option_bind]. unfold ca_by_refid. cbn [cas with_certs].
    destruct (Table.first _ (cas d)) as [b|] eqn:E.
    - apply Table.first_Some in E as [Hin E%String.eqb_eq]. f_equal. by apply (Table.NoDup_map_eq CaModel.a_refid (cas d)).
    - apply (Table.first_None _ _ a) in E; [|done]. cbn in E. by rewrite String.eqb_refl in E. }
  destruct (service_revoke_spec _ _ _ _ _ _ _ _ _ _ _ a serial Es Hg) as (H1' & -> & Hlist); try done.
  - rewrite Hsn. cbn. by rewrite hex_truthy by lia.
  - rewrite Hsn. cbn [default from_option Datatypes.id]. by apply crl_serial_hex.
Qed.

(** * Ways off the CRL *)

(** The entries of the next CRL of a CA. *)
Definition listed (a : CaModel.ca) (now : Z) (d : db) : list Pki.crl_entry :=
  List.flat_map (Pki.crl_entry_of now) (Pki.revoked_of (pki_ca encryption_enabled a) (pki_view encryption_enabled d)).

Lemma listed_from a now d e : In e (listed a now d) ->
  exists c, In c (certs d) /\ true_flag (revoked c) = true /\ In e (Pki.crl_entry_of now (pki_cert c)).
Proof.
  unfold listed. intros (pc & [Hin Hp]%Table.In_all & He)%in_flat_map. cbn in Hin.
  apply in_map_iff in Hin as (c & <- & Hin). exists c. split; [done|]. split; [|done].
  by apply andb_true_iff in Hp as [_ ?].
Qed.

(** What is left of the entries when the row with number [i] is gone or not revoked. *)
Lemma listed_without a now i d d' :
  (forall c, In c (certs d') -> (In c (certs d) /\ id c <> i) \/ true_flag (revoked c) = false) ->
  forall e, In e (listed a now d') -> exists c, In c (certs d) /\ id c <> i /\ In e (Pki.crl_entry_of now (pki_cert c)).
Proof.
  intros Hd e (c & Hin & Hr & He)%listed_from. destruct (Hd c Hin) as [[? ?]|Hf]; [by exists c|congruence].
Qed.

Lemma In_update_cert i c' d c : In c (certs (update_cert i (fun _ => c') d)) -> (In c (certs d) /\ id c <> i) \/ c = c'.
Proof.
  intros (c0 & Hin & ->)%Table.In_update. destruct (Z.eqb_spec (id c0) i); [by right|by left].
Qed.

(** A revocation is forgotten by renewing the certificate, by deleting it, and by lifting a
    hold: afterwards every entry of a CRL of any CA comes from another certificate.  The
    last of these answers that it failed and leaves no trace in the trail. *)
Theorem revocations_can_be_forgotten i generate serial now d trail d' trail' :
  (forall c' m,
     renew_certificate i generate serial now d trail = (d', trail', Success 200 c' m) ->
     get_cert i d' = Some c' /\ revoked c' = Some false /\ serial_number c' = Some (Num.hex serial)
     /\ forall a now' e, In e (listed a now' d') ->
          exists c, In c (certs d) /\ id c <> i /\ In e (Pki.crl_entry_of now' (pki_cert c)))
  /\ (delete_certificate i d trail = (d', trail', Deleted) ->
      get_cert i d' = None /\ forall a now' e, In e (listed a now' d') ->
          exists c, In c (certs d) /\ id c <> i /\ In e (Pki.crl_entry_of now' (pki_cert c)))
  /\ (forall c, get_cert i d = Some c -> revoked c = Some true -> revoke_reason c = Some "certificateHold" ->
      exists d2, unhold_certificate i d trail = (d2, trail, Failure 500 "Failed to remove certificate hold")
        /\ (revoked <$> get_cert i d2) = Some (Some false)
        /\ forall a now' e, In e (listed a now' d2) ->
          exists c, In c (certs d) /\ id c <> i /\ In e (Pki.crl_entry_of now' (pki_cert c))).
Proof.
  split; [|split].
  - intros c' m. unfold renew_certificate. destruct (get_cert i d) as [c|] eqn:Ec; [|done].
    destruct (filled (crt c)), (find_issuer c d) as [a|]; try done. destruct (negb _); [done|].
    destruct (renew c a generate serial now) as [c2|] eqn:Er; [|done]. intros [= <- _ <- _].
    assert (id c2 = i /\ revoked c2 = Some false /\ serial_number c2 = Some (Num.hex serial)) as (Hi & Hr & Hs).
    { apply get_cert_In in Ec as [_ <-]. unfold renew in Er.
      do 3 (apply bind_Some in Er as (? & _ & Er)). apply bind_Some in Er as ([? ?] & _ & Er).
      apply bind_Some in Er as (? & _ & Er). apply bind_Some in Er as ([xx na] & Hx & Er).
      apply bind_Some in Er as (? & _ & Er). simplify_eq. cbn. split; [done|]. split; [done|].
      unfold renewed in Hx. destruct (negb (ApiKeys.ApiKeys.days_ok _ _)); by simplify_eq. }
    split; [by eapply get_update|]. split; [done|]. split; [done|]. intros a0 now'. apply listed_without.
    intros c0 [?| ->]%In_update_cert; [by left|right; by rewrite Hr].
  - unfold delete_certificate. destruct (get_cert i d) as [c|] eqn:Ec; [|done]. intros [= <- _]. split.
    + destruct (get_cert i (remove_cert i d)) as [c0|] eqn:E; [|done].
      apply Table.first_Some in E as [[_ Hf]%Table.In_delete Ht]. congruence.
    + intros a now'. apply listed_without. intros c0 [Hin Hf%Z.eqb_neq]%Table.In_delete. by left.
  - intros c Hc Hr Hre. unfold unhold_certificate. rewrite Hc, Hr, Hre. cbn.
    eexists. split; [reflexivity|]. split.
    + unfold get_cert, update_cert. cbn [certs with_certs]. rewrite Table.first_update by done.
      unfold get_cert in Hc. rewrite Hc. apply Table.first_Some in Hc as [_ Hi]. cbn. by rewrite Hi.
    + intros a now'. apply listed_without. intros c0 (c1 & Hin & ->)%Table.In_update.
      destruct (Z.eqb_spec (id c1) i); [by right|by left].
Qed.

End Facts.
End CertRoutesFacts.
