(* ===== verification/SsoProviders.v ===== *)
(** Identity providers: the rows of [models/sso.py] with their encrypted columns, the
    routes of [api/v2/sso.py] that manage them, and the role an external account is given.

    The columns that only one kind of provider uses are a dict by column name, NULL where
    it has no entry; [role_mapping] and [attribute_mapping] hold JSON. *)
From S2P Require Import Prelude AuditSink Encryption.

Module SsoProviders.
Local Open Scope string_scope.
Local Open Scope list_scope.
Local Open Scope Z_scope.

Record provider := Provider {
  p_id : Z;
  p_name : string;
  p_type : string;
  p_enabled : option bool;
  p_is_default : option bool;
  p_display_name : option string;
  p_icon : option string;
  p_default_role : option string;
  p_auto_create_users : option bool;
  p_auto_update_users : option bool;
  p_attribute_mapping : jcol;
  p_role_mapping : jcol;
  p_columns : list (string * json);
}.
Record sso_session := Session {
  q_id : Z; q_user_id : Z; q_provider_id : Z;
  q_session_id : option string; q_name_id : option string; q_expires_at : Z;
}.

Definition col (k : string) (p : provider) : json := default JNull (Json.assoc k (p_columns p)).
Definition flag (b : option bool) : bool := default false b.
Definition VALID_ROLES : list string := ["admin"; "operator"; "auditor"; "viewer"].
Definition hashable (j : json) : bool := match j with JList _ | JDict _ => false | _ => true end.
(** [v in VALID_ROLES]: a set, so the value must be hashable. *)
Definition valid_role (v : json) : option bool :=
  if hashable v then Some (match v with JStr s => existsb (String.eqb s) VALID_ROLES | _ => false end) else None.

(** * Secrets at rest: [utils/encryption.py] and the properties of the model *)

Section Secrets.
Context `{Fernet}.
Definition is_encrypted (s : string) : bool := Str.startswith s "gAAAAA" && (50 <? String.length s)%nat.
Definition encrypt_if_needed (iv : nat) (s : string) : string :=
  if negb (Str.truthy s) || is_encrypted s then s else fernet_encrypt iv s.
(** A text that does not decrypt reads as nothing. *)
Definition decrypt_if_needed (s : string) : option string :=
  if negb (Str.truthy s) || negb (is_encrypted s) then Some s else fernet_decrypt s.

Definition set_secret (iv : nat) (v : json) : json :=
  if Json.truthy v then match v with JStr s => JStr (encrypt_if_needed iv s) | _ => v end else JNull.
Definition get_secret (stored : json) : json :=
  if Json.truthy stored
  then match stored with JStr s => match decrypt_if_needed s with Some t => JStr t | None => JNull end | _ => stored end
  else JNull.

(** The second layer of the routes, for LDAP alone: when key encryption is enabled they
    call methods that [KeyEncryption] does not have. *)
Context (encryption_enabled : bool).
Definition encrypt_ldap_password (v : json) : option json :=
  if Json.truthy v && encryption_enabled then None else Some v.
Definition decrypt_ldap_password (p : provider) : option json :=
  let v := get_secret (col "ldap_bind_password" p) in
  if Json.truthy v && encryption_enabled then None else Some v.
End Secrets.

(** * Roles *)

Section Sso.
Context `{Fernet} (encryption_enabled : bool) {T} `{AuditSink T} (loads : string -> option json).

Definition parse_json_field (c : jcol) : list (string * json) :=
  match c with
  | JText (JDict kv) => kv
  | JText (JStr s) => match loads s with Some (JDict kv) => kv | _ => [] end
  | _ => []
  end.

Definition fallback_role (p : provider) : string :=
  match p_default_role p with
  | Some r => if existsb (String.eqb r) VALID_ROLES then r else "viewer"
  | None => "viewer"
  end.
(** The first entry of the mapping that the account has; [None] is a TypeError. *)
Fixpoint mapped_role (mapping : list (string * json)) (external : json) : option (option string) :=
  match mapping with
  | [] => Some None
  | (ext_role, ucm_role) :: mapping =>
      match Json.contains ext_role external with
      | None => None
      | Some true =>
          match valid_role ucm_role with
          | None => None
          | Some b => Some (Some (match ucm_role with JStr r => if b then r else "viewer" | _ => "viewer" end))
          end
      | Some false => mapped_role mapping external
      end
  end.
Definition resolve_role (p : provider) (external_data : json) : option string :=
  match parse_json_field (p_role_mapping p) with
  | [] => Some (fallback_role p)
  | mapping =>
      let roles := Json.get_or "roles" (Json.get_or "groups" (JList []) external_data) external_data in
      let roles := match roles with JStr s => JList [JStr s] | _ => roles end in
      match mapped_role mapping roles with
      | None => None
      | Some (Some r) => Some r
      | Some None => Some (fallback_role p)
      end
  end.

(** * Managing providers *)

(** What a column holds after a commit; [None] is an exception of the database. *)
Definition text_column (v : json) : option json := match v with JNull => Some JNull | _ => JStr <$> Json.bind_text v end.
Definition bool_column (v : json) : option (option bool) :=
  match v with
  | JNull => Some None
  | JBool b => Some (Some b)
  | JInt 0 => Some (Some false)
  | JInt 1 => Some (Some true)
  | _ => None
  end.
Definition bool_columns : list string :=
  ["saml_sign_requests"; "saml_verify_ssl"; "oauth2_verify_ssl"; "ldap_use_ssl"; "ldap_verify_ssl"].
Definition stored (k : string) (v : json) : option json :=
  if existsb (String.eqb k) bool_columns
  then (fun b => match b with Some b => JBool b | None => JNull end) <$> bool_column v
  else if String.eqb k "ldap_port"
  then match v with JList _ | JDict _ => None | _ => Some v end
  else text_column v.
Definition stored_columns (kv : list (string * json)) : option (list (string * json)) :=
  mapM (fun p => (fun v => (p.1, v)) <$> stored p.1 p.2) kv.

Fixpoint put (k : string) (v : json) (kv : list (string * json)) : list (string * json) :=
  match kv with
  | [] => [(k, v)]
  | (k', v') :: kv => if String.eqb k k' then (k, v) :: kv else (k', v') :: put k v kv
  end.

(** [ca if isinstance(ca, str) and ca.strip() else None] *)
Definition bundle (v : json) : json := match v with JStr s => if Str.truthy (Str.strip s) then v else JNull | _ => JNull end.
(** The columns of a new provider of each kind, from the request and its defaults. *)
Definition given (data : json) (l : list (string * json)) : list (string * json) :=
  List.map (fun p => (p.1, Json.get_or p.1 p.2 data)) l.
Definition type_columns (type : string) (iv : nat) (data : json) : option (list (string * json)) :=
  if String.eqb type "saml" then
    Some (given data [("saml_metadata_url", JNull); ("saml_entity_id", JNull); ("saml_sso_url", JNull);
                      ("saml_slo_url", JNull); ("saml_certificate", JNull); ("saml_sign_requests", JBool true);
                      ("saml_sp_cert_source", JStr "https"); ("saml_verify_ssl", JBool true)]
          ++ [("saml_ca_bundle", bundle (Json.get_or "saml_ca_bundle" JNull data))])
  else if String.eqb type "oauth2" then
    Some (given data [("oauth2_client_id", JNull)]
          ++ [("oauth2_client_secret", set_secret iv (Json.get_or "oauth2_client_secret" JNull data))]
          ++ given data [("oauth2_auth_url", JNull); ("oauth2_token_url", JNull); ("oauth2_userinfo_url", JNull)]
          ++ [("oauth2_scopes", JStr (Json.dumps (Json.get_or "oauth2_scopes"
                (Json.strings ["openid"; "profile"; "email"]) data)))]
          ++ given data [("oauth2_verify_ssl", JBool true)]
          ++ [("oauth2_ca_bundle", bundle (Json.get_or "oauth2_ca_bundle" JNull data))])
  else
    password ← encrypt_ldap_password encryption_enabled (Json.get_or "ldap_bind_password" JNull data);
    Some (given data [("ldap_server", JNull); ("ldap_port", JInt 389); ("ldap_use_ssl", JBool false);
                      ("ldap_verify_ssl", JBool true)]
          ++ [("ldap_ca_bundle", bundle (Json.get_or "ldap_ca_bundle" JNull data))]
          ++ given data [("ldap_bind_dn", JNull)] ++ [("ldap_bind_password", set_secret iv password)]
          ++ given data [("ldap_base_dn", JNull); ("ldap_user_filter", JStr "(uid={username})");
                         ("ldap_group_filter", JNull); ("ldap_group_member_attr", JStr "member");
                         ("ldap_username_attr", JStr "uid"); ("ldap_email_attr", JStr "mail");
                         ("ldap_fullname_attr", JStr "cn")]).

(** A mapping of a request: a text is parsed first. *)
Definition mapping_column (v : json) : option jcol :=
  match v with JStr s => JText <$> loads s | _ => Some (JText v) end.

Definition db := (list provider * list sso_session)%type.
Inductive reply := Done (p : option provider) (message : string) | Failure (code : Z) (message : string) | Raised.

Definition by_name (v : json) (l : list provider) : option (option provider) :=
  match v with
  | JNull => Some None
  | _ => n ← Json.bind_text v; Some (Table.first (fun p => String.eqb (p_name p) n) l)
  end.
Definition by_type (t : string) (l : list provider) : option provider :=
  Table.first (fun p => String.eqb (p_type p) t) l.
Definition get (i : Z) (l : list provider) : option provider := Table.first (fun p => p_id p =? i) l.
Definition set_default (b : option bool) (p : provider) : provider :=
  Provider (p_id p) (p_name p) (p_type p) (p_enabled p) b (p_display_name p) (p_icon p) (p_default_role p)
    (p_auto_create_users p) (p_auto_update_users p) (p_attribute_mapping p) (p_role_mapping p) (p_columns p).
Definition set_enabled (b : option bool) (p : provider) : provider :=
  Provider (p_id p) (p_name p) (p_type p) b (p_is_default p) (p_display_name p) (p_icon p) (p_default_role p)
    (p_auto_create_users p) (p_auto_update_users p) (p_attribute_mapping p) (p_role_mapping p) (p_columns p).
(** [SSOProvider.query.filter(SSOProvider.id != i).update(is_default=False)] *)
Definition clear_default (i : option Z) (l : list provider) : list provider :=
  List.map (fun p => if bool_decide (i = Some (p_id p)) then p else set_default (Some false) p) l.

Definition provider_event (action : string) (p : provider) (details : string) : event :=
  Event action (Some "sso_provider") (AInt (p_id p)) (AStr (p_name p)) (AStr details) true None.

Definition types : list string := ["saml"; "oauth2"; "ldap"].
Definition opt_text (v : json) : option (option string) :=
  match v with JNull => Some None | _ => Some <$> Json.bind_text v end.

(** The row that is written; [None] is an exception before or at the commit. *)
Definition new_provider (i : Z) (type : string) (iv : nat) (data : json) : option provider :=
  let field k d := Json.get_or k d data in
  ok ← valid_role (field "default_role" JNull);
  columns ← type_columns type iv data ≫= stored_columns;
  attributes ← (if Json.truthy (field "attribute_mapping" JNull) then mapping_column (field "attribute_mapping" JNull)
                else Some JCNull);
  roles ← (if Json.truthy (field "role_mapping" JNull) then mapping_column (field "role_mapping" JNull)
           else Some JCNull);
  name ← Json.bind_text (field "name" JNull);
  enabled ← bool_column (field "enabled" (JBool false));
  is_default ← bool_column (field "is_default" (JBool false));
  display ← opt_text (field "display_name" JNull); icon ← opt_text (field "icon" JNull);
  create ← bool_column (field "auto_create_users" (JBool true));
  upd ← bool_column (field "auto_update_users" (JBool true));
  Some (Provider i name type enabled is_default display icon
          (Some (match field "default_role" JNull with JStr r => if ok : bool then r else "viewer" | _ => "viewer" end))
          create upd attributes roles columns).

Definition create_provider (data : json) (iv : nat) (d : db) (trail : T) : db * T * reply :=
  let fail code m := (d, trail, Failure code m) in
  let field k := Json.get_or k JNull data in
  if negb (Json.is_dict data) then (d, trail, Raised)
  else if negb (Json.truthy (field "name")) then fail 400 "Provider name is required"
  else if negb (Json.truthy (field "provider_type")) then fail 400 "Provider type is required"
  else match field "provider_type" with
  | JStr type =>
      if negb (existsb (String.eqb type) types) then fail 400 "Invalid provider type. Must be: saml, oauth2, ldap"
      else match by_name (field "name") d.1 with
      | None => (d, trail, Raised)
      | Some (Some _) => fail 400 "Provider name already exists"
      | Some None =>
          match by_type type d.1 with
          | Some _ => fail 400 ("A " ^+ Str.upper type ^+ " provider already exists. Only one provider per type is allowed.")
          | None =>
              match new_provider (Table.next_id p_id d.1) type iv data with
              | None => (d, trail, Raised)
              | Some p =>
                  let l := if flag (p_is_default p) then clear_default None d.1 else d.1 in
                  ((l ++ [p], d.2),
                   record_event (provider_event "sso_provider_created" p ("Type: " ^+ type)) trail,
                   Done (Some p) "SSO provider created")
              end
          end
      end
  | _ => fail 400 "Invalid provider type. Must be: saml, oauth2, ldap"
  end.

(** ** Updates *)

Definition has (k : string) (data : json) : bool := Json.has k data.
(** A field that is taken over when it is given. *)
Definition taken {A} (k : string) (data : json) (read : json -> option A) (old : A) : option A :=
  match Json.get k data with Some v => read v | None => Some old end.
Fixpoint take_all (fields : list string) (data : json) (kv : list (string * json)) : list (string * json) :=
  match fields with
  | [] => kv
  | k :: fields => take_all fields data (match Json.get k data with Some v => put k v kv | None => kv end)
  end.
(** A bundle is taken over from a text alone; the empty one removes it. *)
Definition take_bundle (k : string) (data : json) (kv : list (string * json)) : list (string * json) :=
  match Json.get k data with
  | Some (JStr s) => put k (if Str.truthy s then JStr s else JNull) kv
  | _ => kv
  end.
Definition updated_columns (type : string) (iv : nat) (data : json) (kv : list (string * json))
  : option (list (string * json)) :=
  if String.eqb type "saml" then
    Some (take_bundle "saml_ca_bundle" data
      (take_all ["saml_metadata_url"; "saml_entity_id"; "saml_sso_url"; "saml_slo_url"; "saml_certificate";
                 "saml_sign_requests"; "saml_sp_cert_source"; "saml_verify_ssl"] data kv))
  else if String.eqb type "oauth2" then
    let kv := take_all ["oauth2_client_id"; "oauth2_auth_url"; "oauth2_token_url"; "oauth2_userinfo_url";
                        "oauth2_verify_ssl"] data kv in
    let kv := take_bundle "oauth2_ca_bundle" data kv in
    let secret := Json.get_or "oauth2_client_secret" JNull data in
    let kv := if Json.truthy secret then put "oauth2_client_secret" (set_secret iv secret) kv else kv in
    Some (match Json.get "oauth2_scopes" data with Some v => put "oauth2_scopes" (JStr (Json.dumps v)) kv | None => kv end)
  else if String.eqb type "ldap" then
    let kv := take_all ["ldap_server"; "ldap_port"; "ldap_use_ssl"; "ldap_bind_dn"; "ldap_base_dn"; "ldap_user_filter";
                        "ldap_group_filter"; "ldap_group_member_attr"; "ldap_username_attr"; "ldap_email_attr";
                        "ldap_fullname_attr"; "ldap_verify_ssl"] data kv in
    let kv := take_bundle "ldap_ca_bundle" data kv in
    let password := Json.get_or "ldap_bind_password" JNull data in
    if Json.truthy password
    then v ← encrypt_ldap_password encryption_enabled password; Some (put "ldap_bind_password" (set_secret iv v) kv)
    else Some kv
  else Some kv.

Definition updated (data : json) (iv : nat) (p : provider) : option provider :=
  name ← taken "name" data Json.bind_text (p_name p);
  display ← taken "display_name" data opt_text (p_display_name p);
  icon ← taken "icon" data opt_text (p_icon p);
  enabled ← taken "enabled" data bool_column (p_enabled p);
  is_default ← taken "is_default" data bool_column (p_is_default p);
  role ← taken "default_role" data (fun v => b ← valid_role v;
           Some (Some (match v with JStr r => if b : bool then r else "viewer" | _ => "viewer" end))) (p_default_role p);
  create ← taken "auto_create_users" data bool_column (p_auto_create_users p);
  upd ← taken "auto_update_users" data bool_column (p_auto_update_users p);
  columns ← updated_columns (p_type p) iv data (p_columns p) ≫= stored_columns;
  attributes ← taken "attribute_mapping" data mapping_column (p_attribute_mapping p);
  roles ← taken "role_mapping" data mapping_column (p_role_mapping p);
  Some (Provider (p_id p) name (p_type p) enabled is_default display icon role create upd attributes roles columns).

Definition update_provider (p : provider) (data : json) (iv : nat) (d : db) (trail : T) : db * T * reply :=
  match data with
  | JDict kv =>
      let taken_name := match Json.get "name" data with Some v => by_name v d.1 | None => Some None end in
      match taken_name with
      | None => (d, trail, Raised)
      | Some other =>
          if match other with Some q => negb (p_id q =? p_id p) | None => false end
          then (d, trail, Failure 400 "Provider name already exists")
          else match updated data iv p with
          | None => (d, trail, Raised)
          | Some p' =>
              let l := if has "is_default" data && flag (p_is_default p') then clear_default (Some (p_id p)) d.1 else d.1 in
              ((Table.update (fun q => p_id q =? p_id p) (fun _ => p') l, d.2),
               record_event (provider_event "sso_provider_updated" p'
                 ("Updated fields: " ^+ Str.join ", " (List.map fst kv))) trail,
               Done (Some p') "SSO provider updated")
          end
      end
  | _ => (d, trail, Raised)
  end.
Definition not_found : reply := Failure 404 "Not found".
Definition update_provider_by_id (i : Z) (data : json) (iv : nat) (d : db) (trail : T) : db * T * reply :=
  if i =? 0 then (d, trail, Failure 400 "Provider ID or type required")
  else match get i d.1 with Some p => update_provider p data iv d trail | None => (d, trail, not_found) end.
Definition update_provider_by_type (type : string) (data : json) (iv : nat) (d : db) (trail : T) : db * T * reply :=
  match by_type type d.1 with
  | Some p => update_provider p data iv d trail
  | None => (d, trail, Failure 404 ("No provider found with type: " ^+ type))
  end.

Definition delete_provider (i : Z) (d : db) (trail : T) : db * T * reply :=
  match get i d.1 with
  | None => (d, trail, not_found)
  | Some p =>
      ((Table.delete (fun q => p_id q =? i) d.1, Table.delete (fun s => q_provider_id s =? i) d.2),
       record_event (provider_event "sso_provider_deleted" p ("Type: " ^+ p_type p)) trail,
       Done None "SSO provider deleted")
  end.
Definition toggle_provider (i : Z) (d : db) (trail : T) : db * T * reply :=
  match get i d.1 with
  | None => (d, trail, not_found)
  | Some p =>
      let b := negb (flag (p_enabled p)) in
      let p' := set_enabled (Some b) p in
      let status := if b then "enabled" else "disabled" in
      ((Table.update (fun q => p_id q =? i) (fun _ => p') d.1, d.2),
       record_event (provider_event ("sso_provider_" ^+ status) p' ("Type: " ^+ p_type p)) trail,
       Done (Some p') ("SSO provider " ^+ status))
  end.

Inductive request :=
| Create (data : json) (iv : nat)
| UpdateById (i : Z) (data : json) (iv : nat)
| UpdateByType (type : string) (data : json) (iv : nat)
| Delete (i : Z)
| Toggle (i : Z).
Definition serve (r : request) (d : db) (trail : T) : db * T * reply :=
  match r with
  | Create data iv => create_provider data iv d trail
  | UpdateById i data iv => update_provider_by_id i data iv d trail
  | UpdateByType type data iv => update_provider_by_type type data iv d trail
  | Delete i => delete_provider i d trail
  | Toggle i => toggle_provider i d trail
  end.
Fixpoint serve_all (rs : list request) (d : db) (trail : T) : db * T :=
  match rs with
  | [] => (d, trail)
  | r :: rs => let '(d, trail, _) := serve r d trail in serve_all rs d trail
  end.

End Sso.
End SsoProviders.
