(* ===== verification/SsoLogin.v ===== *)
(** Logging in through an identity provider: the LDAP login, the OAuth2 and SAML callbacks
    and the provisioning of accounts of [api/v2/sso.py].

    The directory, the HTTP calls to an OAuth2 server, the SAML library and the XML parser
    are interfaces; [None] stands for an exception they raise.  The session is the one of
    [Login]; the members only this file uses are [sso_state]. *)
From S2P Require Import Prelude Base64 Permissions Auth AuditSink Encryption Login SsoProviders.

Module SsoLogin.
Import SsoProviders.
Local Open Scope string_scope.
Local Open Scope list_scope.
Local Open Scope Z_scope.

Record user := User { acct : Login.account; full_name : option string }.
Record world := World {
  users : list user;
  providers : list provider;
  sso_sessions : list sso_session;
  web : Login.web_session;
  sso_state : option string;
}.
Definition with_users l w := World l (providers w) (sso_sessions w) (web w) (sso_state w).
Definition with_sso_sessions l w := World (users w) (providers w) l (web w) (sso_state w).
Definition with_web s w := World (users w) (providers w) (sso_sessions w) s (sso_state w).
Definition with_sso_state s w := World (users w) (providers w) (sso_sessions w) (web w) s.

Definition uid (u : user) : Z := Login.u_id (acct u).
Definition named (name : string) (w : world) : option user :=
  Table.first (fun u => String.eqb (Login.u_username (acct u)) name) (users w).
Definition update_user (i : Z) (f : user -> user) (l : list user) : list user := Table.update (fun u => uid u =? i) f l.
Definition on_account (f : Login.account -> Login.account) (u : user) : user := User (f (acct u)) (full_name u).

(** The rows an external login writes. *)
Definition refreshed (email full : option string) (role : string) (now : Z) (u : user) : user :=
  let a := acct u in
  User (Login.Account (Login.u_id a) (Login.u_username a) (default (Login.u_email a) email) role (Login.u_active a)
          (Login.u_password_hash a) (Login.u_totp_secret a) (Login.u_totp_confirmed a) (Login.u_backup_codes a)
          (Login.u_force_password_change a) (Login.u_password_reset_token a) (Login.u_password_reset_expires a)
          (Some now) (Login.u_login_count a) (Login.u_failed_logins a) (Login.u_locked_until a))
       (match full with Some f => Some f | None => full_name u end).
(** The same before the role and the time are set. *)
Definition renamed (email full : option string) (u : user) : user :=
  let a := acct u in
  User (Login.Account (Login.u_id a) (Login.u_username a) (default (Login.u_email a) email) (Login.u_role a) (Login.u_active a)
          (Login.u_password_hash a) (Login.u_totp_secret a) (Login.u_totp_confirmed a) (Login.u_backup_codes a)
          (Login.u_force_password_change a) (Login.u_password_reset_token a) (Login.u_password_reset_expires a)
          (Login.u_last_login a) (Login.u_login_count a) (Login.u_failed_logins a) (Login.u_locked_until a))
       (match full with Some f => Some f | None => full_name u end).
Definition new_user (i : Z) (name email : string) (full : option string) (role : string) (now : Z) : user :=
  User (Login.Account i name email role true "" None false None false None None (Some now) (Some 0) (Some 0) None) full.

Inductive reply :=
| Redirect (to : string)
| ToProvider (p : provider) (scope : string)
| Failure (code : Z) (message : string)
| LoggedIn (u : user) (permissions : list string)
| Raised.

(** ** What the code calls *)

Record entry := Entry { e_dn : string; e_attributes : list (string * string); e_member_of : option (list string) }.
Inductive saml_outcome :=
| SamlErrors
| SamlAccepted (attributes : list (string * list string)) (name_id : option string)
| SamlRaised.
(** The parts of an XML document the fallback looks for: the text of the first NameID,
    and the attributes with their values. *)
Record assertion := Assertion {
  x_name_id : option (option string);
  x_attributes : list (string * list (option string));
}.
Class External := {
  escape_filter_chars : string -> string;
  (** connecting to the server of a provider with its account and a password, and searching:
      base, filter, attributes *)
  directory_search : provider -> json -> json -> string -> list json -> option (list entry);
  (** binding as a user *)
  directory_bind : provider -> string -> json -> option bool;
  (** the replies of the token and user information endpoints: the flag [ok] and the body *)
  oauth2_token : provider -> string -> option (bool * option json);
  oauth2_userinfo : provider -> json -> option (bool * option json);
  (** python3-saml with its settings: the redirect of a login, and processing a response *)
  saml_login : json -> string -> option string;
  saml_process : json -> option string -> option saml_outcome;
  parse_xml : string -> option assertion;
  json_loads : string -> option json;
}.

Section Sso.
Context `{External} `{Fernet} (encryption_enabled : bool) {T} `{AuditSink T} (py_repr : json -> string).
#[local] Abbreviation resolve_role := (resolve_role json_loads).
#[local] Abbreviation parse_json_field := (parse_json_field json_loads).
Definition py_str (j : json) : string := match j with JStr s => s | _ => py_repr j end.

(** * Lockout of LDAP logins *)

Definition LDAP_MAX_FAILED_ATTEMPTS : Z := 5.
Definition LDAP_LOCKOUT_MINUTES : Z := 15.
Definition check_ldap_lockout (name : string) (now : Z) (w : world) : world * bool :=
  match named name w with
  | None => (w, false)
  | Some u =>
      match Login.u_locked_until (acct u) with
      | None => (w, false)
      | Some t =>
          if now <? t then (w, true)
          else (with_users (update_user (uid u) (on_account (Login.set_lock (Some 0) None)) (users w)) w, false)
      end
  end.
Definition failed_again (now : Z) (a : Login.account) : Login.account :=
  let n := default 0 (Login.u_failed_logins a) + 1 in
  Login.set_lock (Some n)
    (if LDAP_MAX_FAILED_ATTEMPTS <=? n then Some (now + Time.minutes LDAP_LOCKOUT_MINUTES) else Login.u_locked_until a) a.
Definition record_ldap_failed_attempt (name : string) (now : Z) (w : world) : world :=
  match named name w with
  | None => w
  | Some u => with_users (update_user (uid u) (on_account (failed_again now)) (users w)) w
  end.
Definition clear_ldap_failed_attempts (name : string) (w : world) : world :=
  match named name w with
  | None => w
  | Some u =>
      if negb (default 0 (Login.u_failed_logins (acct u)) =? 0)
         || match Login.u_locked_until (acct u) with Some _ => true | None => false end
      then with_users (update_user (uid u) (on_account (Login.set_lock (Some 0) None)) (users w)) w
      else w
  end.

(** * Accounts *)

(** What comes of an external identity.  [Threw l] is an exception with the changes [l]
    not yet written, [Broken] one of the database. *)
Inductive provisioning :=
| Provisioned (l : list user) (u : user)
| Refused (code : string)
| Threw (l : list user)
| Broken.

(** The addresses of accounts are unique. *)
Definition email_free (i : Z) (e : string) (l : list user) : bool :=
  negb (existsb (fun u => negb (uid u =? i) && String.eqb (Login.u_email (acct u)) e) l).
(** A value that is set when it is not empty: the outer [None] is a value no column takes. *)
Definition given_text (v : json) : option (option string) :=
  if Json.truthy v then Some <$> Json.bind_text v else Some None.

Definition get_or_create_sso_user (p : provider) (username email fullname external_data : json) (now : Z) (w : world)
  : provisioning :=
  match Json.bind_text username with
  | None => Threw (users w)
  | Some name =>
      match named name w with
      | Some u =>
          if flag (p_auto_update_users p) then
            match given_text email, given_text fullname with
            | Some e, Some f =>
                match resolve_role p external_data with
                | None =>
                    if email_free (uid u) (default (Login.u_email (acct u)) e) (users w)
                    then Threw (update_user (uid u) (renamed e f) (users w)) else Broken
                | Some role =>
                    let u' := refreshed e f role now u in
                    if email_free (uid u) (Login.u_email (acct u')) (users w)
                    then Provisioned (update_user (uid u) (fun _ => u') (users w)) u' else Broken
                end
            | _, _ => Broken
            end
          else Provisioned (users w) u
      | None =>
          if negb (flag (p_auto_create_users p)) then Refused "auto_create_disabled"
          else match resolve_role p external_data with
          | None => Threw (users w)
          | Some role =>
              match given_text email, given_text fullname with
              | Some e, Some f =>
                  let i := Table.next_id uid (users w) in
                  let u := new_user i name (default (py_str username ^+ "@sso.local") e) (Some (default name f)) role now in
                  if email_free i (Login.u_email (acct u)) (users w) then Provisioned (users w ++ [u]) u else Broken
              | _, _ => Broken
              end
          end
      end
  end.

(** The row that tracks a login: of an existing one only the end is moved. *)
Definition SESSION_HOURS : Z := 8.
Definition track_session (u : user) (p : provider) (session_id name_id : option string) (now : Z) (w : world) : world :=
  let ends := now + Time.hours SESSION_HOURS in
  match Table.first (fun s => bool_decide (q_session_id s = session_id)) (sso_sessions w) with
  | Some s =>
      with_sso_sessions (Table.update (fun q => q_id q =? q_id s)
        (fun q => Session (q_id q) (q_user_id q) (q_provider_id q) (q_session_id q) (q_name_id q) ends) (sso_sessions w)) w
  | None =>
      with_sso_sessions (sso_sessions w ++
        [Session (Table.next_id q_id (sso_sessions w)) (uid u) (p_id p) session_id name_id ends]) w
  end.
(** The session of the browser keeps its other members. *)
Definition establish (u : user) (method : string) (w : world) : world :=
  let s := Login.w_session (web w) in
  with_web (Login.WebSession
    (Auth.Session (Some (uid u)) (Some (Login.u_username (acct u))) (Auth.s_login_time s) (Auth.s_last_activity s)
       (Auth.s_expires_at s) true) (Some method) (Login.w_pending (web w))) w.
Definition success_event (u : user) (details : string) : event :=
  Event "login_success" (Some "user") (AInt (uid u)) (AStr (Login.u_username (acct u))) (AStr details) true
    (Some (Login.u_username (acct u))).
Definition failure_event (kind : string) (details : string) (username : option string) : event :=
  Event "login_failure" (Some kind) ANone ANone (AStr details) false username.

(** * LDAP *)

Record user_info := UserInfo { i_dn : string; i_username : string; i_email : string; i_fullname : string; i_groups : list string }.
(** [str(getattr(entry, name, default))] *)
Definition attribute (e : entry) (name : json) (dflt : string) : option string :=
  match name with JStr n => Some (default dflt (Json.assoc n (e_attributes e))) | _ => None end.
Definition text (j : json) : option string := match j with JStr s => Some s | _ => None end.
Definition user_filter (p : provider) (username : string) : option string :=
  f ← text (col "ldap_user_filter" p); Some (Str.replace "{username}" (escape_filter_chars username) f).

(** The common name of a group from its distinguished name. *)
Definition group_cn (dn : string) : option string :=
  Str.drop 3 <$> List.find (fun part => Str.startswith (Str.upper part) "CN=") (List.map Str.strip (Str.split "," dn)).
Definition member_of_groups (p : provider) (password base : json) (username dn : string) : option (list string) :=
  l ← directory_search p password base ("(distinguishedName=" ^+ escape_filter_chars dn ^+ ")") [JStr "memberOf"];
  l ← (match l with [] => f ← user_filter p username; directory_search p password base f [JStr "memberOf"] | _ => Some l end);
  Some (match l with
        | e :: _ => match e_member_of e with Some dns => omap group_cn dns | None => [] end
        | [] => []
        end).
Definition searched_groups (p : provider) (password : json) (base member_attr group_filter dn : string) : option (list string) :=
  let rest := Str.join "," (tail (Str.split "," base)) in
  let gf := Str.strip group_filter in
  let gf := if Str.startswith gf "(" then gf else "(" ^+ gf ^+ ")" in
  option_map (fun l : list entry => omap (fun e => Json.assoc "cn" (e_attributes e)) l)
    (directory_search p password (JStr (if Str.truthy rest then rest else base))
       ("(&" ^+ gf ^+ "(" ^+ member_attr ^+ "=" ^+ escape_filter_chars dn ^+ "))") [JStr "cn"]).
(** An exception while the groups are fetched leaves none. *)
Definition groups_of (p : provider) (username dn : string) : option (list string) :=
  match col "ldap_group_filter" p with
  | JStr gf =>
      if Str.truthy gf then
        attr ← (match col "ldap_group_member_attr" p with
                | JNull => Some "member"
                | JStr s => Some (if Str.truthy s then s else "member")
                | _ => None
                end);
        let attr := Str.lower (Str.strip attr) in
        Some (default [] (
          password ← decrypt_ldap_password encryption_enabled p;
          if String.eqb attr "memberof" then member_of_groups p password (col "ldap_base_dn" p) username dn
          else base ← text (col "ldap_base_dn" p); searched_groups p password base attr gf dn))
      else Some []
  | _ => Some []
  end.

(** [None] is any of the errors, which the route answers alike. *)
Definition ldap_authenticate_user (p : provider) (username password : json) : option user_info :=
  service_password ← decrypt_ldap_password encryption_enabled p;
  name ← text username;
  f ← user_filter p name;
  l ← directory_search p service_password (col "ldap_base_dn" p) f [col "ldap_username_attr" p; col "ldap_email_attr" p; col "ldap_fullname_attr" p];
  e ← head l;
  accepted ← directory_bind p (e_dn e) password;
  if negb accepted then None
  else
    groups ← groups_of p name (e_dn e);
    u ← attribute e (col "ldap_username_attr" p) name;
    mail ← attribute e (col "ldap_email_attr" p) "";
    full ← attribute e (col "ldap_fullname_attr" p) "";
    Some (UserInfo (e_dn e) u mail full groups).
Definition info_dict (i : user_info) : json :=
  JDict [("dn", JStr (i_dn i)); ("username", JStr (i_username i)); ("email", JStr (i_email i));
         ("fullname", JStr (i_fullname i)); ("groups", Json.strings (i_groups i))].

(** [provider_id] or the first enabled provider; the outer [None] is an exception. *)
Definition bind_id (j : json) : option (option Z) :=
  match j with
  | JInt z => if (- 2 ^ 63 <=? z) && (z <? 2 ^ 63) then Some (Some z) else None
  | JBool b => Some (Some (Z.b2z b))
  | JStr s => Some (Num.py_int s)
  | JNull => Some None
  | _ => None
  end.
Definition enabled_of (type : string) (w : world) : option provider :=
  Table.first (fun p => String.eqb (p_type p) type && bool_decide (p_enabled p = Some true)) (providers w).
Definition chosen_provider (provider_id : json) (w : world) : option (option provider) :=
  if Json.truthy provider_id then i ← bind_id provider_id; Some (i ≫= (fun i => SsoProviders.get i (providers w)))
  else Some (enabled_of "ldap" w).

(** The reply also carries a CSRF token for the user. *)
Definition ldap_login (data : json) (now : Z) (w : world) (trail : T) : world * T * reply :=
  let field k := Json.get_or k JNull data in
  if negb (Json.is_dict data) then (w, trail, Raised)
  else
  let username := field "username" in
  let password := field "password" in
  if negb (Json.truthy username) || negb (Json.truthy password)
  then (w, trail, Failure 400 "Username and password required")
  else match Json.bind_text username with
  | None => (w, trail, Raised)
  | Some name =>
      let '(w, locked) := check_ldap_lockout name now w in
      if locked : bool then (w, trail, Failure 429 "Account temporarily locked due to too many failed attempts")
      else match chosen_provider (field "provider_id") w with
      | None => (w, trail, Raised)
      | Some None => (w, trail, Failure 400 "No LDAP provider configured")
      | Some (Some p) =>
          if negb (flag (p_enabled p)) then (w, trail, Failure 400 "LDAP provider is disabled")
          else match ldap_authenticate_user p username password with
          | None =>
              (record_ldap_failed_attempt name now w,
               record_event (failure_event "user" ("LDAP authentication failed for " ^+ py_str username) (Some name)) trail,
               Failure 401 "Invalid credentials")
          | Some i =>
              match get_or_create_sso_user p (JStr (i_username i)) (JStr (i_email i)) (JStr (i_fullname i)) (info_dict i) now w with
              | Threw _ | Broken => (w, trail, Raised)
              | Refused _ =>
                  (w, trail, Failure 403 "User not found and automatic account creation is disabled. Contact your administrator.")
              | Provisioned l u =>
                  let w := clear_ldap_failed_attempts name (with_users l w) in
                  let w := track_session u p (Some (i_dn i)) (Some (i_dn i)) now w in
                  (establish u "ldap" w,
                   record_event (success_event u ("LDAP login via " ^+ p_name p)) trail,
                   LoggedIn u (Permissions.get_role_permissions (Login.u_role (acct u))))
              end
          end
      end
  end.

(** * Starting a login *)

Fixpoint without_slashes (s : string) : string :=
  match s with String "/" s' => without_slashes s' | _ => s end.
(** [url.rstrip('/')] *)
Definition rstrip_slash (s : string) : string := Str.rev (without_slashes (Str.rev s)).
Definition saml_settings (url_root : string) (p : provider) : json :=
  let base := rstrip_slash url_root in
  JDict ([("strict", JBool false); ("sp_base", JStr base);
          ("idp", JDict [("entityId", col "saml_entity_id" p); ("singleSignOnService", col "saml_sso_url" p);
                         ("singleLogoutService", if Json.truthy (col "saml_slo_url" p) then col "saml_slo_url" p else JNull);
                         ("x509cert", match col "saml_certificate" p with JStr s => JStr s | _ => JStr "" end)]);
          ("wantAssertionsSigned", JBool false); ("wantMessagesSigned", JBool false); ("wantNameIdEncrypted", JBool false);
          ("wantAssertionsEncrypted", JBool false)]).

(** [' '.join(scopes)] *)
Definition scope_text (p : provider) : option string :=
  scopes ← (match col "oauth2_scopes" p with
            | JStr s => if Str.truthy s then json_loads s else Some (Json.strings ["openid"; "profile"; "email"])
            | _ => Some (Json.strings ["openid"; "profile"; "email"])
            end);
  l ← Json.elements scopes; l ← mapM text l; Some (Str.join " " l).
Definition initiate_sso_login (type url_root token : string) (w : world) : world * reply :=
  if negb (existsb (String.eqb type) ["saml"; "oauth2"])
  then (w, Failure 400 "Use /api/v2/sso/ldap/login for LDAP authentication")
  else match enabled_of type w with
  | None => (w, Failure 404 ("No enabled " ^+ Str.upper type ^+ " provider found"))
  | Some p =>
      let w := with_sso_state (Some token) w in
      if String.eqb type "oauth2" then
        match scope_text p, text (col "oauth2_auth_url" p) with
        | Some s, Some _ => (w, ToProvider p s)
        | _, _ => (w, Raised)
        end
      else if negb (Json.truthy (col "saml_sso_url" p)) then (w, Failure 400 "SAML SSO URL not configured")
      else match saml_login (saml_settings url_root p) token with
      | Some to => (w, Redirect to)
      | None => (w, Failure 500 "SAML login failed. Check SAML configuration.")
      end
  end.

(** * Callbacks *)

Definition filled (s : option string) : option string := match s with Some t => if Str.truthy t then s else None | None => None end.
Definition login_error (code : string) : reply := Redirect ("/login?error=" ^+ code).
(** The tail of both callbacks: an exception is logged, and what the session of the
    database still holds is written with the entry, unless the database refused it. *)
Definition callback_error (label : string) (p : provider) (l : list user) (w : world) (trail : T) : world * T * reply :=
  (with_users l w,
   record_event (failure_event "sso" (label ^+ " callback error for provider " ^+ p_name p) None) trail,
   login_error "callback_error").
Definition finish (label : string) (p : provider) (r : provisioning) (session_id : option (option string)) (now : Z)
    (w : world) (trail : T) : world * T * reply :=
  match r with
  | Refused code => (w, trail, login_error code)
  | Threw l => callback_error label p l w trail
  | Broken => (w, trail, login_error "callback_error")
  | Provisioned l u =>
      match session_id with
      | None => callback_error label p l w trail
      | Some i =>
          (establish u "sso" (track_session u p i i now (with_users l w)),
           record_event (success_event u (label ^+ " SSO login via " ^+ p_name p)) trail,
           Redirect "/login/sso-complete")
      end
  end.

Definition ascii_text (s : string) : bool := Str.forall_char (fun c => (Str.code c <? 128)%N) s.
(** [d.get(key)] where the key is a value of the mapping; [None] is an exception. *)
Definition get_by (key data : json) : option (option json) :=
  if negb (Json.is_dict data) || negb (hashable key) then None
  else Some (match key with JStr k => Json.get k data | _ => None end).
Definition mapped (k dflt : string) (p : provider) : json :=
  default (JStr dflt) (Json.assoc k (parse_json_field (p_attribute_mapping p))).

(** The name, mail and full name of the user information. *)
Definition oauth2_identity (p : provider) (info : json) : option (json * json * json) :=
  u ← get_by (mapped "username" "preferred_username" p) info;
  let u := default JNull u in
  username ← (if Json.truthy u then Some u
              else e ← text (Json.get_or "email" (JStr "") info); Some (JStr (default "" (head (Str.split "@" e)))));
  email ← get_by (mapped "email" "email" p) info;
  fullname ← get_by (mapped "fullname" "name" p) info;
  Some (username, default (JStr "") email, default (JStr "") fullname).

Definition oauth2_callback (p : provider) (code error : option string) (now : Z) (w : world) (trail : T) : world * T * reply :=
  let threw := callback_error "OAuth2" p (users w) w trail in
  match filled code with
  | None => (w, trail, login_error (default "no_code" error))
  | Some code =>
      match oauth2_token p code with
      | None => threw
      | Some (false, _) => (w, trail, login_error "token_exchange_failed")
      | Some (true, body) =>
          match body with
          | Some (JDict kv) =>
              let token := default JNull (Json.assoc "access_token" kv) in
              if negb (Json.truthy token) then (w, trail, login_error "no_access_token")
              else match oauth2_userinfo p token with
              | None => threw
              | Some (false, _) => (w, trail, login_error "userinfo_failed")
              | Some (true, None) => threw
              | Some (true, Some info) =>
                  match oauth2_identity p info with
                  | None => threw
                  | Some (username, email, fullname) =>
                      if negb (Json.truthy username) then (w, trail, login_error "no_username")
                      else
                        let session_id := match Json.get_or "sub" username info with
                                          | JNull => Some None
                                          | v => Some <$> Json.bind_text v
                                          end in
                        finish "OAuth2" p (get_or_create_sso_user p username email fullname info now w) session_id now w trail
                  end
              end
          | _ => threw
          end
      end
  end.

(** What the fallback makes of a response: nothing in it is verified. *)
Definition first_values (l : list (string * list (option string))) : list (string * list string) :=
  fold_left (fun acc p =>
    if Str.truthy p.1 && negb (existsb (fun q => String.eqb q.1 p.1) acc)
    then acc ++ [(p.1, List.map (default "") p.2)] else acc) l [].
Definition parsed_by_hand (response : option string) : option (list (string * list string) * option string) :=
  xml ← Base64.b64decode (default "" response);
  a ← parse_xml xml;
  Some (first_values (x_attributes a), default (Some "") (x_name_id a)).
(** [attrs.get(key, [None])[0]] *)
Definition first_value (key : json) (attrs : list (string * list string)) : option (option string) :=
  if negb (hashable key) then None
  else match match key with JStr k => Json.assoc k attrs | _ => None end with
       | None => Some None
       | Some l => Some <$> head l
       end.
Definition or_text (a : option string) (b : string) : string :=
  match a with Some s => if Str.truthy s then s else b | None => b end.
Definition saml_identity (p : provider) (attrs : list (string * list string)) (name_id : option string)
  : option (string * string * string) :=
  u ← first_value (mapped "username" "username" p) attrs;
  e ← first_value (mapped "email" "email" p) attrs;
  f ← first_value (mapped "fullname" "name" p) attrs;
  Some (Str.strip (or_text u (or_text name_id "")), Str.strip (or_text e ""), Str.strip (or_text f "")).
Definition saml_data (attrs : list (string * list string)) (name_id : option string) : json :=
  JDict [("name_id", match name_id with Some n => JStr n | None => JNull end);
         ("attributes", JDict (List.map (fun p => (p.1, Json.strings p.2)) attrs))].

(** From the attributes on. *)
Definition saml_sign_in (p : provider) (attrs : list (string * list string)) (name_id : option string) (now : Z)
    (w : world) (trail : T) : world * T * reply :=
  match saml_identity p attrs name_id with
  | None => callback_error "SAML" p (users w) w trail
  | Some (username, email, fullname) =>
      if negb (Str.truthy username) then (w, trail, login_error "no_username")
      else finish "SAML" p
             (get_or_create_sso_user p (JStr username) (JStr email) (JStr fullname) (saml_data attrs name_id) now w)
             (Some name_id) now w trail
  end.
Definition saml_callback (p : provider) (url_root : string) (response : option string) (now : Z) (w : world) (trail : T)
  : world * T * reply :=
  let threw := callback_error "SAML" p (users w) w trail in
  match saml_process (saml_settings url_root p) response with
  | None => threw
  | Some SamlErrors => (w, trail, login_error "saml_validation_failed")
  | Some (SamlAccepted attrs name_id) => saml_sign_in p attrs name_id now w trail
  | Some SamlRaised =>
      match parsed_by_hand response with
      | None => threw
      | Some (attrs, name_id) => saml_sign_in p attrs name_id now w trail
      end
  end.

Record callback := Callback { r_state : option string; r_code : option string; r_error : option string; r_response : option string }.
(** The state is compared for OAuth2 alone, and it is not used up. *)
Definition sso_callback (type url_root : string) (r : callback) (now : Z) (w : world) (trail : T) : world * T * reply :=
  if negb (existsb (String.eqb type) ["saml"; "oauth2"]) then (w, trail, login_error "invalid_provider_type")
  else match enabled_of type w with
  | None => (w, trail, login_error "provider_not_found")
  | Some p =>
      if String.eqb type "oauth2" then
        match filled (r_state r) with
        | None => (w, trail, login_error "invalid_state")
        | Some state =>
            if negb (ascii_text state) then (w, trail, Raised)
            else if negb (String.eqb state (default "" (sso_state w))) then (w, trail, login_error "invalid_state")
            else oauth2_callback p (r_code r) (r_error r) now w trail
        end
      else saml_callback p url_root (r_response r) now w trail
  end.

(** * Requests *)

Inductive request :=
| LdapLogin (data : json)
| Initiate (type url_root token : string)
| Return (type url_root : string) (r : callback).
Definition serve (q : request) (now : Z) (w : world) (trail : T) : world * T * reply :=
  match q with
  | LdapLogin data => ldap_login data now w trail
  | Initiate type url_root token => let '(w, r) := initiate_sso_login type url_root token w in (w, trail, r)
  | Return type url_root r => sso_callback type url_root r now w trail
  end.

End Sso.
End SsoLogin.
