(* ===== verification/SsoFacts.v ===== *)
(** What the identity providers guarantee: consistent tables, and the ways a session comes
    about. *)
From S2P Require Import Prelude Base64 Permissions Auth AuditSink Encryption Login SsoProviders SsoLogin.

Module SsoFacts.
Import SsoProviders SsoLogin.
Local Open Scope string_scope.
Local Open Scope list_scope.
Local Open Scope Z_scope.

(** * The table of providers *)

Definition consistent (d : db) : Prop :=
  NoDup (List.map p_id d.1) /\ NoDup (List.map p_name d.1) /\ NoDup (List.map p_type d.1)
  /\ Forall (fun p => In (p_type p) types /\ exists r, p_default_role p = Some r /\ In r VALID_ROLES) d.1
  /\ (length (List.filter (fun p => flag (p_is_default p)) d.1) <= 1)%nat
  /\ Forall (fun s => exists p, In p d.1 /\ p_id p = q_provider_id s) d.2.

Section Providers.
Context `{Fernet} (encryption_enabled : bool) {T} `{AuditSink T} (loads : string -> option json).

Lemma viewer_valid : In "viewer" VALID_ROLES.
Proof. do 3 right. by left. Qed.
Lemma role_valid v ok : valid_role v = Some ok ->
  In (match v with JStr r => if ok : bool then r else "viewer" | _ => "viewer" end) VALID_ROLES.
Proof.
  unfold valid_role. destruct (hashable v); [|done]. intros E.
  assert (ok = match v with JStr s => existsb (String.eqb s) VALID_ROLES | _ => false end) as -> by congruence. clear E.
  destruct v as [| | |s| |]; try exact viewer_valid.
  destruct (existsb (String.eqb s) VALID_ROLES) eqn:E; [|exact viewer_valid].
  by apply existsb_exists in E as (r & Hin & ->%String.eqb_eq).
Qed.

Lemma new_provider_spec i type iv data p : new_provider encryption_enabled loads i type iv data = Some p ->
  p_id p = i /\ p_type p = type /\ Json.bind_text (Json.get_or "name" JNull data) = Some (p_name p)
  /\ exists r, p_default_role p = Some r /\ In r VALID_ROLES.
Proof.
  unfold new_provider. intros (ok & Hok & E)%bind_Some. repeat (apply bind_Some in E as (? & ? & E)). simplify_eq.
  cbn. split_and!; try done. eexists. split; [done|]. by apply role_valid.
Qed.

Lemma updated_spec data iv p p' : updated encryption_enabled loads data iv p = Some p' ->
  p_id p' = p_id p /\ p_type p' = p_type p
  /\ taken "name" data Json.bind_text (p_name p) = Some (p_name p')
  /\ taken "is_default" data bool_column (p_is_default p) = Some (p_is_default p')
  /\ ((exists r, p_default_role p = Some r /\ In r VALID_ROLES) -> exists r, p_default_role p' = Some r /\ In r VALID_ROLES).
Proof.
  unfold updated. intros E. repeat (apply bind_Some in E as (? & ? & E)). simplify_eq. cbn. split_and!; try done.
  intros Hr. match goal with H : taken "default_role" _ _ _ = Some _ |- _ => rename H into Ht end.
  unfold taken in Ht. destruct (Json.get "default_role" data) as [v|]; [|by simplify_eq].
  apply bind_Some in Ht as (b & Hb & Ht). simplify_eq. eexists. split; [done|]. by apply role_valid.
Qed.

(** What the invariant looks at apart from the default. *)
Definition key (p : provider) : Z * string * string * option string := (p_id p, p_name p, p_type p, p_default_role p).
Definition good (p : provider) : Prop := In (p_type p) types /\ exists r, p_default_role p = Some r /\ In r VALID_ROLES.
Definition tidy (l : list provider) : Prop :=
  NoDup (List.map p_id l) /\ NoDup (List.map p_name l) /\ NoDup (List.map p_type l) /\ Forall good l.

Lemma map_key {A} (f : provider -> A) (g : _ -> A) l l' : (forall p, f p = g (key p)) ->
  List.map key l = List.map key l' -> List.map f l = List.map f l'.
Proof.
  intros Hg E. rewrite !(List.map_ext f (fun p => g (key p))) by done. rewrite <-!(List.map_map key g). by rewrite E.
Qed.
Lemma tidy_key l l' : List.map key l = List.map key l' -> tidy l -> tidy l'.
Proof.
  intros E (H1 & H2 & H3 & H4). unfold tidy.
  rewrite <-(map_key p_id (fun k => k.1.1.1) l l'), <-(map_key p_name (fun k => k.1.1.2) l l'), <-(map_key p_type (fun k => k.1.2) l l') by done.
  split_and!; try done. revert l' E H4. induction l as [|p l IH]; intros [|p' l'] E Hf; try done.
  inversion Hf as [|? ? Hg Hf']; subst.
  assert (key p = key p') as Ek by exact (f_equal (fun l => default (key p) (head l)) E). apply (f_equal tail) in E.
  constructor; [|eapply IH; try done; [apply (NoDup_cons (p_id p)), H1|apply (NoDup_cons (p_name p)), H2|apply (NoDup_cons (p_type p)), H3]].
  unfold good in *. injection Ek as _ _ <- <-. done.
Qed.

Lemma key_clear i l : List.map key (clear_default i l) = List.map key l.
Proof. unfold clear_default. rewrite List.map_map. apply List.map_ext. intros p. by case_bool_decide. Qed.
Lemma cleared_none l : List.filter (fun p => flag (p_is_default p)) (clear_default None l) = [].
Proof. unfold clear_default. induction l as [|p l IH]; [done|]. cbn [List.map]. rewrite bool_decide_eq_false_2 by done. exact IH. Qed.
Lemma filter_snoc {A} (f : A -> bool) l x : List.filter f (l ++ [x]) = List.filter f l ++ (if f x then [x] else []).
Proof. induction l as [|y l IH]; [done|]. cbn. rewrite IH. by destruct (f y). Qed.
(** Rows of sessions only need the numbers of providers. *)
Lemma sessions_kept (l l' : list provider) (ss : list sso_session) :
  (forall i, In i (List.map p_id l) -> In i (List.map p_id l')) ->
  Forall (fun s => exists p, In p l /\ p_id p = q_provider_id s) ss ->
  Forall (fun s => exists p, In p l' /\ p_id p = q_provider_id s) ss.
Proof.
  intros Hl Hf. eapply Forall_impl; [exact Hf|]. intros s (p & Hp & <-). apply (in_map p_id), Hl in Hp as (q & E & Hq)%in_map_iff. by exists q.
Qed.

Lemma by_name_free v n l : by_name v l = Some None -> Json.bind_text v = Some n -> forall q, In q l -> p_name q <> n.
Proof.
  intros E En q Hq Hn. assert (Table.first (fun p => String.eqb (p_name p) n) l = None) as Hf.
  { unfold by_name in E. destruct v; try done; rewrite En in E; by injection E. }
  eapply Table.first_None in Hf; [|done]. cbn in Hf. by rewrite Hn, String.eqb_refl in Hf.
Qed.

Lemma create_consistent data iv d (trail : T) :
  consistent d -> consistent (create_provider encryption_enabled loads data iv d trail).1.1.
Proof.
  intros Hd. unfold create_provider. destruct (negb _); [done|]. do 2 (destruct (negb _); [done|]).
  destruct (Json.get_or "provider_type" JNull data) as [| | |type| |] eqn:Et; try done.
  destruct (existsb (String.eqb type) types) eqn:Ety; [|done]. cbn [negb].
  destruct (by_name _ d.1) as [[q|]|] eqn:En; try done. destruct (by_type type d.1) eqn:Eb; [done|].
  destruct (new_provider _ _ _ _ _ _) as [p|] eqn:Ep; [|done].
  apply new_provider_spec in Ep as (Hi & Ht & Hn & Hr).
  destruct d as [l ss], Hd as (H1 & H2 & H3 & H4 & H5 & H6). cbn [fst snd] in *.
  set (l' := if flag (p_is_default p) then clear_default None l else l).
  assert (List.map key l' = List.map key l) as Hk by (unfold l'; destruct (flag _); [apply key_clear|done]).
  destruct (tidy_key l l') as (T1 & T2 & T3 & T4); [done|done|].
  assert (forall q, In q l' -> exists q0, In q0 l /\ key q0 = key q) as Hin.
  { intros q Hq. apply (in_map key) in Hq. rewrite Hk in Hq. apply in_map_iff in Hq as (q0 & ? & ?). by exists q0. }
  split_and!; cbn [fst snd].
  - apply Table.NoDup_map_snoc; [done|]. intros q (q0 & Hq & E)%Hin. injection E as <- _ _ _.
    apply (Table.next_id_fresh p_id) in Hq. lia.
  - apply Table.NoDup_map_snoc; [done|]. intros q (q0 & Hq & E)%Hin. injection E as _ <- _ _. by eapply by_name_free.
  - apply Table.NoDup_map_snoc; [done|]. intros q (q0 & Hq & E)%Hin. injection E as _ _ <- _. rewrite Ht. intros E.
    unfold by_type in Eb. eapply Table.first_None in Eb; [|done]. cbn in Eb. by rewrite E, String.eqb_refl in Eb.
  - apply Forall_app. split; [done|]. constructor; [|done]. rewrite Ht. split; [|done].
    by apply existsb_exists in Ety as (t & Hin0 & ->%String.eqb_eq).
  - rewrite filter_snoc, length_app. unfold l'. destruct (flag (p_is_default p)); cbv iota; [rewrite cleared_none|]; cbn; lia.
  - eapply sessions_kept, H6. intros i. rewrite List.map_app, <-(map_key p_id (fun k => k.1.1.1) l' l) by done.
    intros ?. apply in_or_app. by left.
Qed.

(** Replacing the row of a provider by one with its number and type. *)
Lemma replace_consistent p p' i l ss :
  consistent (l, ss) -> In p l -> p_id p' = p_id p -> p_type p' = p_type p -> i = p_id p ->
  (forall q, In q l -> p_name q = p_name p' -> q = p) -> (good p -> good p') ->
  (length (List.filter (fun q => flag (p_is_default q)) (Table.update (fun q => p_id q =? i)%Z (fun _ => p') l)) <= 1)%nat ->
  consistent (Table.update (fun q => p_id q =? i) (fun _ => p') l, ss).
Proof.
  intros (H1 & H2 & H3 & H4 & H5 & H6) Hp Hi Ht -> Hn Hg Hd. cbn [fst snd] in *.
  assert (forall q, In q l -> p_id q = p_id p -> q = p) as Hu by (intros q Hq E; by apply (Table.NoDup_map_eq p_id l)).
  split_and!; cbn [fst snd]; [| | | |done|].
  - rewrite (Table.map_update p_id); [done|]. intros q Hq E%Z.eqb_eq. congruence.
  - apply Table.NoDup_map_update; [done| |].
    + intros x y Hx Hy E%Z.eqb_eq E'. apply Hu in E as ->; [|done]. symmetry in E'. by apply Hn in E' as ->.
    + intros x y Hx Hy Ex%Z.eqb_eq Ey%Z.eqb_eq. apply Hu in Ex as ->; [|done]. by apply Hu in Ey as ->.
  - rewrite (Table.map_update p_type); [done|]. intros q Hq E%Z.eqb_eq. apply Hu in E as ->; done.
  - apply List.Forall_forall. intros q (q0 & Hq & ->)%Table.In_update. rewrite List.Forall_forall in H4.
    destruct (Z.eqb_spec (p_id q0) (p_id p)) as [E|]; [|by apply H4]. apply Hg, H4, Hp.
  - eapply sessions_kept, H6. intros j. rewrite (Table.map_update p_id); [done|]. intros q Hq E%Z.eqb_eq. congruence.
Qed.

(** One row takes a value: the defaults that remain. *)
Lemma defaults_update p p' l :
  NoDup (List.map p_id l) -> In p l -> p_id p' = p_id p ->
  (length (List.filter (fun q => flag (p_is_default q)) l) <= 1)%nat ->
  flag (p_is_default p') = flag (p_is_default p) \/ flag (p_is_default p') = false ->
  (length (List.filter (fun q => flag (p_is_default q)) (Table.update (fun q => p_id q =? p_id p)%Z (fun _ => p') l)) <= 1)%nat.
Proof.
  intros Hn Hp Hi Hl Hf. etransitivity; [|exact Hl]. clear Hl.
  assert (forall q, In q l -> p_id q = p_id p -> q = p) as Hu by (intros q Hq E; by apply (Table.NoDup_map_eq p_id l)).
  clear Hn Hp. unfold Table.update. induction l as [|q l IH]; [done|]. cbn [List.map List.filter].
  assert (length (List.filter (fun q => flag (p_is_default q)) (List.map (fun r => if (p_id r =? p_id p)%Z then p' else r) l))
          <= length (List.filter (fun q => flag (p_is_default q)) l))%nat as IH' by (apply IH; intros; apply Hu; [by right|done]).
  destruct (Z.eqb_spec (p_id q) (p_id p)) as [E|_].
  - rewrite (Hu q) by (try done; by left). destruct Hf as [-> | ->]; destruct (flag (p_is_default p)); cbn [length]; lia.
  - destruct (flag (p_is_default q)); cbn [length]; lia.
Qed.

(** With the other rows cleared, one default remains at most. *)
Lemma defaults_cleared p p' l : p_id p' = p_id p -> NoDup (List.map p_id l) ->
  (length (List.filter (fun q => flag (p_is_default q))
     (Table.update (fun q => p_id q =? p_id p)%Z (fun _ => p') (clear_default (Some (p_id p)) l))) <= 1)%nat.
Proof.
  intros Hi. unfold Table.update, clear_default. rewrite List.map_map.
  assert (forall l, ~ In (p_id p) (List.map p_id l) ->
    List.filter (fun q => flag (p_is_default q)) (List.map (fun x => if p_id (if bool_decide (Some (p_id p) = Some (p_id x)) then x else set_default (Some false) x) =? p_id p
      then p' else if bool_decide (Some (p_id p) = Some (p_id x)) then x else set_default (Some false) x) l) = []) as Hnone.
  { clear l. induction l as [|q l IH]; [done|]. cbn [List.map In]. intros Hnot.
    rewrite bool_decide_eq_false_2 by (intros [= E]; apply Hnot; by left). cbn [p_id set_default].
    destruct (Z.eqb_spec (p_id q) (p_id p)); [by destruct Hnot; left|]. cbn [List.filter]. apply IH. tauto. }
  induction l as [|q l IH]; [cbn; lia|]. cbn [List.map]. intros [Hq Hn]%NoDup_cons.
  destruct (decide (p_id q = p_id p)) as [E|E].
  - rewrite bool_decide_eq_true_2 by congruence. rewrite (proj2 (Z.eqb_eq (p_id q) (p_id p)) E). cbn [List.filter].
    rewrite Hnone by (rewrite <-E; by rewrite <-list_elem_of_In). destruct (flag _); cbn; lia.
  - rewrite bool_decide_eq_false_2 by congruence. cbn [p_id set_default].
    rewrite (proj2 (Z.eqb_neq (p_id q) (p_id p)) E). cbn [List.filter]. by apply IH.
Qed.

Lemma update_consistent p data iv d (trail : T) :
  consistent d -> In p d.1 -> consistent (update_provider encryption_enabled loads p data iv d trail).1.1.
Proof.
  intros Hd Hp. unfold update_provider. destruct data as [| | | | |kv]; try done.
  destruct (match Json.get "name" (JDict kv) with Some v => _ | None => _ end) as [other|] eqn:En; [|done].
  destruct (match other with Some q => _ | None => _ end) eqn:Eo; [done|].
  destruct (updated _ _ _ _ _) as [p'|] eqn:Eu; [|done].
  apply updated_spec in Eu as (Hi & Ht & Hn & Hdef & Hr). destruct d as [l ss]. cbn [fst snd] in *.
  assert (forall q, In q l -> p_name q = p_name p' -> q = p) as Hnames.
  { intros q Hq E. destruct Hd as (H1 & H2 & _). cbn [fst] in *.
    unfold taken in Hn. destruct (Json.get "name" (JDict kv)) as [v|] eqn:Eg.
    - destruct other as [q'|]; [|by eapply by_name_free in E].
      apply negb_false_iff, Z.eqb_eq in Eo. unfold by_name in En. destruct v; try done;
        apply bind_Some in En as (n & En & E'); rewrite Hn in En; injection En as <-; injection E' as E';
        apply Table.first_Some in E' as [Hq' En'%String.eqb_eq];
        assert (q' = p) as -> by (by apply (Table.NoDup_map_eq p_id l)); apply (Table.NoDup_map_eq p_name l); congruence.
    - injection Hn as Hn. apply (Table.NoDup_map_eq p_name l); congruence. }
  destruct (has "is_default" (JDict kv) && flag (p_is_default p')) eqn:Eb.
  - set (l' := clear_default (Some (p_id p)) l).
    assert (In p l') as Hp'.
    { unfold l', clear_default. apply in_map_iff. exists p. by rewrite bool_decide_eq_true_2. }
    destruct Hd as (H1 & H2 & H3 & H4 & H5 & H6). cbn [fst snd] in *.
    destruct (tidy_key l l') as (T1 & T2 & T3 & T4); [symmetry; apply key_clear|done|].
    apply (replace_consistent p); try done.
    + split_and!; try done; cbn [fst snd].
      * unfold l'. etransitivity; [|exact H5]. clear. induction l as [|q l IH]; [done|]. cbn [clear_default List.map List.filter].
        case_bool_decide; cbn [p_is_default set_default flag default from_option]; destruct (flag (p_is_default q)); cbn [length] in *; unfold clear_default in IH; cbn in *; lia.
      * eapply sessions_kept, H6. intros i. rewrite (map_key p_id (fun k => k.1.1.1) l l'); [done|done|]. symmetry. apply key_clear.
    + intros q Hq E. apply (in_map key) in Hq as Hk. unfold l' in Hk. rewrite key_clear in Hk. apply in_map_iff in Hk as (q0 & E0 & Hq0).
      injection E0 as Ei En' _ _. rewrite <-En' in E. apply Hnames in E as ->; [|done].
      by apply (Table.NoDup_map_eq p_id l').
    + intros [Hg1 Hg2]. split; [by rewrite Ht|by apply Hr].
    + by apply defaults_cleared.
  - apply (replace_consistent p); try done; [intros [Hg1 Hg2]; split; [by rewrite Ht|by apply Hr]|].
    apply defaults_update; try done; [apply Hd|apply Hd|]. unfold taken in Hdef. unfold has, Json.has in Eb. destruct (Json.get "is_default" (JDict kv)); [|left; congruence]. by right.
Qed.

Lemma delete_consistent i d (trail : T) : consistent d -> consistent (delete_provider i d trail).1.1.
Proof.
  intros Hd. unfold delete_provider. destruct (SsoProviders.get i d.1) as [p|]; [|done].
  destruct d as [l ss], Hd as (H1 & H2 & H3 & H4 & H5 & H6). cbn [fst snd] in *.
  split_and!; cbn [fst snd]; try (by apply Table.NoDup_map_delete).
  - apply List.Forall_forall. intros q [Hq _]%Table.In_delete. rewrite List.Forall_forall in H4. by apply H4.
  - etransitivity; [|exact H5]. clear. induction l as [|q l IH]; [done|]. cbn [Table.delete List.filter].
    unfold Table.delete in IH. destruct (negb _); cbn [List.filter]; destruct (flag _); cbn [length]; lia.
  - apply List.Forall_forall. intros s [Hs Hn%Z.eqb_neq]%Table.In_delete. rewrite List.Forall_forall in H6.
    destruct (H6 s Hs) as (q & Hq & E). exists q. split; [|done]. apply Table.In_delete. split; [done|]. apply Z.eqb_neq. congruence.
Qed.

Lemma toggle_consistent i d (trail : T) : consistent d -> consistent (toggle_provider i d trail).1.1.
Proof.
  intros Hd. unfold toggle_provider. destruct (SsoProviders.get i d.1) as [p|] eqn:Eg; [|done].
  apply Table.first_Some in Eg as [Hp Ei%Z.eqb_eq]. destruct d as [l ss]. cbn [fst snd] in *.
  apply (replace_consistent p); try done.
  - intros q Hq E. destruct Hd as (_ & H2 & _). by apply (Table.NoDup_map_eq p_name l).
  - rewrite <-Ei. apply defaults_update; try done; [apply Hd|apply Hd|by left].
Qed.

(** Whatever requests are made to manage the identity providers, their table stays
    consistent: unique numbers and names, one provider of each kind at most, known kinds and
    default roles, one default at most, and sessions that refer to providers. *)
Theorem providers_stay_consistent rs d (trail : T) (Hd : consistent d) :
  consistent (serve_all encryption_enabled loads rs d trail).1.
Proof.
  revert d trail Hd. induction rs as [|r rs IH]; intros d trail Hd; [done|]. cbn [serve_all].
  destruct (SsoProviders.serve encryption_enabled loads r d trail) as [[d' trail'] rep] eqn:E. apply IH.
  change d' with (d', trail', rep).1.1. rewrite <-E. destruct r as [data iv|i data iv|t data iv|i|i]; cbn [SsoProviders.serve].
  - by apply create_consistent.
  - unfold update_provider_by_id. destruct (i =? 0); [done|]. destruct (SsoProviders.get i d.1) as [p|] eqn:Eg; [|done].
    apply update_consistent; [done|]. by apply Table.first_Some in Eg as [? _].
  - unfold update_provider_by_type. destruct (by_type t d.1) as [p|] eqn:Eg; [|done].
    apply update_consistent; [done|]. by apply Table.first_Some in Eg as [? _].
  - by apply delete_consistent.
  - by apply toggle_consistent.
Qed.

End Providers.
End SsoFacts.

(** Sessions through identity providers: who vouches for them, how long they last, and the
    guesses an LDAP login allows. *)
Module SsoLoginFacts.
Import SsoProviders SsoLogin.
Local Open Scope string_scope.
Local Open Scope list_scope.
Local Open Scope Z_scope.

(** A user of the session: number and name. *)
Definition signed_in (w : world) : option Z * option string :=
  (Auth.s_user_id (Login.w_session (web w)), Auth.s_username (Login.w_session (web w))).
(** The rows as the authentication manager sees them. *)
Definition auth_user (u : user) : Auth.user :=
  Auth.User (uid u) (Login.u_username (acct u)) (Login.u_role (acct u)) (Login.u_active (acct u)).
Definition auth_view (keys : list Auth.api_key) (cfg : Auth.config) (w : world) : Auth.state :=
  Auth.State (List.map auth_user (users w)) keys (Login.w_session (web w)) cfg.

Section Facts.
Context `{External} `{Fernet} (encryption_enabled : bool) {T} `{AuditSink T} (py_repr : json -> string).
#[local] Abbreviation resolve_role := (resolve_role json_loads).
#[local] Abbreviation authenticate := (ldap_authenticate_user encryption_enabled).

Definition row_of (u : user) : Z * string := (uid u, Login.u_username (acct u)).
Lemma map_row f i l : (forall u, row_of (f u) = row_of u) -> List.map row_of (update_user i f l) = List.map row_of l.
Proof. intros Hf. unfold update_user. apply Table.map_update. intros u _ _. apply Hf. Qed.
Lemma cleared_rows n w : List.map row_of (users (clear_ldap_failed_attempts n w)) = List.map row_of (users w).
Proof. unfold clear_ldap_failed_attempts. destruct (named n w); [|done]. destruct (_ || _); [by apply map_row|done]. Qed.
Lemma cleared_web n w : web (clear_ldap_failed_attempts n w) = web w.
Proof. unfold clear_ldap_failed_attempts. destruct (named n w) as [u|]; [|done]. by destruct (negb _ || _). Qed.

(** What an external identity becomes: the account of that name, or a new one. *)
Lemma provisioned_spec p username email fullname x now w l u :
  get_or_create_sso_user py_repr p username email fullname x now w = Provisioned l u ->
  Json.bind_text username = Some (Login.u_username (acct u)) /\ In u l
  /\ (named (Login.u_username (acct u)) w = Some u /\ flag (p_auto_update_users p) = false /\ l = users w
      \/ resolve_role p x = Some (Login.u_role (acct u))
         /\ (flag (p_auto_create_users p) = true
             \/ exists u0, named (Login.u_username (acct u)) w = Some u0 /\ uid u0 = uid u
                           /\ Login.u_active (acct u) = Login.u_active (acct u0))).
Proof.
  unfold get_or_create_sso_user. destruct (Json.bind_text username) as [name|]; [|done].
  destruct (named name w) as [u0|] eqn:En.
  - pose proof En as [Hin Hn%String.eqb_eq]%Table.first_Some. destruct (flag (p_auto_update_users p)) eqn:Ea.
    + destruct (given_text email) as [e|], (given_text fullname) as [f|]; try done.
      destruct (resolve_role p x) as [role|]; [|by destruct (email_free _ _ _)].
      destruct (email_free _ _ _); [|done]. intros [= <- <-]. cbn. rewrite Hn. split; [done|]. split.
      * apply Table.In_update. exists u0. by rewrite Z.eqb_refl.
      * right. split; [done|]. right. exists u0. done.
    + intros [= <- <-]. rewrite Hn. split; [done|]. split; [done|]. by left.
  - destruct (flag (p_auto_create_users p)); [|done]. cbn [negb].
    destruct (resolve_role p x) as [role|]; [|done].
    destruct (given_text email) as [e|], (given_text fullname) as [f|]; try done.
    destruct (email_free _ _ _); [|done]. intros [= <- <-]. cbn. split; [done|]. split.
    + apply in_or_app. right. by left.
    + right. split; [done|]. by left.
Qed.

Lemma enabled_of_spec t w p : enabled_of t w = Some p -> In p (providers w) /\ p_type p = t /\ p_enabled p = Some true.
Proof. intros [Hin [E%String.eqb_eq He%bool_decide_eq_true]%andb_true_iff]%Table.first_Some. done. Qed.

Lemma tracked_web u p i n now w : web (track_session u p i n now w) = web w /\ users (track_session u p i n now w) = users w.
Proof. unfold track_session. by destruct (Table.first _ _). Qed.

(** The account of a session, and what vouches for it. *)
Definition opened (w w' : world) (u : user) : Prop :=
  (exists m, web w' = web (establish u m w)) /\ In (row_of u) (List.map row_of (users w')).
Definition ldap_vouches (data : json) (now : Z) (w : world) (p : provider) (u : user) : Prop :=
  exists name dn filter entries e,
    Json.get_or "username" JNull data = JStr name /\ user_filter p name = Some filter
    /\ decrypt_ldap_password encryption_enabled p ≫= (fun password =>
         directory_search p password (col "ldap_base_dn" p) filter
           [col "ldap_username_attr" p; col "ldap_email_attr" p; col "ldap_fullname_attr" p]) = Some (e :: entries)
    /\ e_dn e = dn /\ directory_bind p dn (Json.get_or "password" JNull data) = Some true
    /\ attribute e (col "ldap_username_attr" p) name = Some (Login.u_username (acct u))
    /\ forall u0 t, named name w = Some u0 -> Login.u_locked_until (acct u0) = Some t -> t <= now.
Definition oauth2_vouches (r : callback) (w : world) (p : provider) (u : user) : Prop :=
  exists state code token tokens info username email fullname,
    r_state r = Some state /\ state <> "" /\ sso_state w = Some state /\ r_code r = Some code
    /\ oauth2_token p code = Some (true, Some (JDict tokens)) /\ Json.assoc "access_token" tokens = Some token
    /\ oauth2_userinfo p token = Some (true, Some info)
    /\ oauth2_identity p info = Some (username, email, fullname)
    /\ Json.bind_text username = Some (Login.u_username (acct u)).
(** The library accepts the response, or fails on it. *)
Definition saml_vouches (url_root : string) (r : callback) (p : provider) (u : user) : Prop :=
  exists attrs name_id email fullname,
    saml_identity p attrs name_id = Some (Login.u_username (acct u), email, fullname)
    /\ (saml_process (saml_settings url_root p) (r_response r) = Some (SamlAccepted attrs name_id)
        \/ saml_process (saml_settings url_root p) (r_response r) = Some SamlRaised
           /\ parsed_by_hand (r_response r) = Some (attrs, name_id)).

Lemma authenticated data name p i :
  authenticate p (JStr name) (Json.get_or "password" JNull data) = Some i ->
  exists filter entries e,
    user_filter p name = Some filter
    /\ decrypt_ldap_password encryption_enabled p ≫= (fun password =>
         directory_search p password (col "ldap_base_dn" p) filter
           [col "ldap_username_attr" p; col "ldap_email_attr" p; col "ldap_fullname_attr" p]) = Some (e :: entries)
    /\ directory_bind p (e_dn e) (Json.get_or "password" JNull data) = Some true
    /\ attribute e (col "ldap_username_attr" p) name = Some (i_username i).
Proof.
  unfold ldap_authenticate_user. intros (pw & Hpw & E)%bind_Some. cbn [text mbind option_bind] in E.
  apply bind_Some in E as (f & Hf & E). apply bind_Some in E as (l & Hl & E). apply bind_Some in E as (e & He & E).
  apply bind_Some in E as (b & Hb & E). destruct b; [|done]. cbn [negb] in E.
  apply bind_Some in E as (g & _ & E). apply bind_Some in E as (u & Hu & E). apply bind_Some in E as (m & _ & E).
  apply bind_Some in E as (fn & _ & E). injection E as <-. destruct l as [|e' l]; [done|]. injection He as ->.
  exists f, l, e. rewrite Hpw. done.
Qed.

Lemma locked_out name now w : let '(w', b) := check_ldap_lockout name now w in
  web w' = web w /\ providers w' = providers w /\ List.map row_of (users w') = List.map row_of (users w)
  /\ (b = false -> forall u0 t, named name w = Some u0 -> Login.u_locked_until (acct u0) = Some t -> t <= now).
Proof.
  unfold check_ldap_lockout. destruct (named name w) as [u|]; [|by split_and!].
  destruct (Login.u_locked_until (acct u)) as [t|] eqn:Et; [|split_and!; naive_solver].
  destruct (Z.ltb_spec now t); [by split_and!|]. cbn. split_and!; try done; [by apply map_row|].
  intros _ u0 t0 [= ->]. rewrite Et. intros [= <-]. lia.
Qed.

(** A text compared with a column is the text. *)
Lemma bound_text n s : Json.bind_text (JStr n) = Some s -> n = s.
Proof. by intros [= ->]. Qed.

Lemma finish_opens label p username email fullname x session_id now w trail w' trail' r :
  finish label p (get_or_create_sso_user py_repr p username email fullname x now w) session_id now w trail = (w', trail', r) ->
  web w' = web w \/
  exists u, opened w w' u /\ Json.bind_text username = Some (Login.u_username (acct u)).
Proof.
  destruct (get_or_create_sso_user _ _ _ _ _ _ _ _) as [l u|c|l|] eqn:E; cbn [finish].
  2,3,4: unfold callback_error; intros [= <- _ _]; by left.
  apply provisioned_spec in E as (Hn & Hin & _). destruct session_id as [i|].
  - intros [= <- _ _]. right. exists u. split; [|done]. split.
    + exists "sso". unfold establish. cbn [web with_web]. by rewrite (proj1 (tracked_web _ _ _ _ _ _)).
    + cbn [users establish with_web]. rewrite (proj2 (tracked_web _ _ _ _ _ _)). by apply in_map.
  - unfold callback_error. intros [= <- _ _]. by left.
Qed.

Lemma ldap_opens data now w trail w' trail' r :
  ldap_login encryption_enabled py_repr data now w trail = (w', trail', r) ->
  web w' = web w \/ exists p u, In p (providers w) /\ flag (p_enabled p) = true /\ opened w w' u /\ ldap_vouches data now w p u.
Proof.
  unfold ldap_login. intros Hq. destruct (negb _); [by simplify_eq; left|]. destruct (_ || _); [by simplify_eq; left|].
  destruct (Json.bind_text (Json.get_or "username" JNull data)) as [name|] eqn:En; [|by simplify_eq; left].
  pose proof (locked_out name now w) as Hl. destruct (check_ldap_lockout name now w) as [w1 locked].
  destruct Hl as (Hw & Hp & Hr & Hlock). destruct locked; [by simplify_eq; left|].
  destruct (chosen_provider _ w1) as [[p|]|] eqn:Ep; [|by simplify_eq; left..].
  destruct (flag (p_enabled p)) eqn:Ee; cbn [negb] in Hq; [|by simplify_eq; left].
  destruct (authenticate p _ _) as [i|] eqn:Ea.
  2:{ left. unfold record_ldap_failed_attempt in Hq. destruct (named name w1); by simplify_eq. }
  destruct (get_or_create_sso_user _ _ _ _ _ _ _ _) as [l u|c|l|] eqn:Eg; [|by simplify_eq; left..].
  apply provisioned_spec in Eg as (Hn%bound_text & Hin & _). injection Hq as <- _ _. right. exists p, u.
  split; [|split; [done|split]].
  - rewrite <-Hp. unfold chosen_provider in Ep. destruct (Json.truthy _).
    + apply bind_Some in Ep as (j & _ & [= Ep]). apply bind_Some in Ep as (z & _ & [? _]%Table.first_Some). done.
    + injection Ep as Ep. by apply enabled_of_spec in Ep as [? _].
  - split.
    + exists "ldap". unfold establish. cbn [web with_web]. rewrite (proj1 (tracked_web _ _ _ _ _ _)), cleared_web.
      cbn. by rewrite Hw.
    + cbn [users establish with_web]. rewrite (proj2 (tracked_web _ _ _ _ _ _)), cleared_rows. by apply in_map.
  - destruct (Json.get_or "username" JNull data) as [| | |s| |] eqn:Eu;
      try (unfold ldap_authenticate_user in Ea; apply bind_Some in Ea as (? & _ & Ea); done).
    injection En as ->. apply authenticated in Ea as (f & es & e & Hf & Hs & Hb & Ha). rewrite Hn in Ha.
    exists name, (e_dn e), f, es, e. split_and!; try done. by apply Hlock.
Qed.

Lemma filled_Some o s : filled o = Some s -> o = Some s /\ s <> "".
Proof. unfold filled. destruct o as [t|]; [|done]. destruct (Str.truthy t) eqn:E; [|done]. intros [= ->]. split; [done|]. by intros ->. Qed.

Lemma oauth2_opens p code error now w trail w' trail' r :
  oauth2_callback py_repr p code error now w trail = (w', trail', r) ->
  web w' = web w \/ exists u c token tokens info username email fullname,
    opened w w' u /\ code = Some c /\ oauth2_token p c = Some (true, Some (JDict tokens))
    /\ Json.assoc "access_token" tokens = Some token /\ oauth2_userinfo p token = Some (true, Some info)
    /\ oauth2_identity p info = Some (username, email, fullname)
    /\ Json.bind_text username = Some (Login.u_username (acct u)).
Proof.
  unfold oauth2_callback, callback_error. intros Hq. destruct (filled code) as [c|] eqn:Ec; [|by simplify_eq; left].
  destruct (oauth2_token p c) as [[[] body]|] eqn:Eto; [|by simplify_eq; left..].
  destruct body as [[| | | | |kv]|]; try (by simplify_eq; left).
  destruct (Json.assoc "access_token" kv) as [token|] eqn:Etk; cbn [default from_option] in Hq; [|cbn in Hq; by simplify_eq; left].
  destruct (negb _); [by simplify_eq; left|].
  destruct (oauth2_userinfo _ _) as [[[] [info|]]|] eqn:Eui; try (by simplify_eq; left).
  destruct (oauth2_identity p info) as [[[un em] fn]|] eqn:Ei; [|by simplify_eq; left].
  destruct (negb (Json.truthy un)); [by simplify_eq; left|].
  apply finish_opens in Hq as [Hw|(u & Ho & Hb)]; [by left|right].
  exists u, c, token, kv, info, un, em, fn. apply filled_Some in Ec as [-> _]. by split_and!.
Qed.

Lemma saml_opens p root response now w trail w' trail' r :
  saml_callback py_repr p root response now w trail = (w', trail', r) ->
  web w' = web w \/ exists u attrs name_id email fullname,
    opened w w' u /\ saml_identity p attrs name_id = Some (Login.u_username (acct u), email, fullname)
    /\ (saml_process (saml_settings root p) response = Some (SamlAccepted attrs name_id)
        \/ saml_process (saml_settings root p) response = Some SamlRaised /\ parsed_by_hand response = Some (attrs, name_id)).
Proof.
  unfold saml_callback. intros Hq. destruct (saml_process _ _) as [o|] eqn:Eo; [|unfold callback_error in Hq; by simplify_eq; left].
  assert (forall attrs n, saml_sign_in py_repr p attrs n now w trail = (w', trail', r) ->
    web w' = web w \/ exists u email fullname, opened w w' u
      /\ saml_identity p attrs n = Some (Login.u_username (acct u), email, fullname)) as Hid.
  { intros attrs n. unfold saml_sign_in, callback_error.
    destruct (saml_identity p attrs n) as [[[un em] fn]|]; [|intros [= <- _ _]; by left].
    destruct (negb _); [intros [= <- _ _]; by left|].
    intros [Hw|(u & Ho & ->%bound_text)]%finish_opens; [by left|right]. by exists u, em, fn. }
  destruct o as [|attrs n|]; [by simplify_eq; left| |].
  - apply Hid in Hq as [?|(u & em & fn & ? & ?)]; [by left|right]. exists u, attrs, n, em, fn. split_and!; try done. by left.
  - destruct (parsed_by_hand response) as [[attrs n]|]; [|unfold callback_error in Hq; by simplify_eq; left].
    apply Hid in Hq as [?|(u & em & fn & ? & ?)]; [by left|right]. exists u, attrs, n, em, fn. split_and!; try done. by right.
Qed.

(** C20: The session of the browser changes only when an enabled provider vouches for an account:
    the directory accepts the password for the entry the escaped name finds, and no lock
    of the typed name holds; the OAuth2 server names the account in answer to a code that
    came with the state of this browser; or the SAML library accepts the response or,
    without any check, fails to process it. *)
Theorem external_sessions_are_vouched q now w trail w' trail' r
  (Hq : SsoLogin.serve encryption_enabled py_repr q now w trail = (w', trail', r)) :
  web w' = web w \/
  exists p u, In p (providers w) /\ flag (p_enabled p) = true /\ opened w w' u /\
  match q with
  | LdapLogin data => ldap_vouches data now w p u
  | Initiate _ _ _ => False
  | Return type url_root r =>
      p_type p = type /\ (type = "oauth2" /\ oauth2_vouches r w p u \/ type = "saml" /\ saml_vouches url_root r p u)
  end.
Proof.
  destruct q as [data|t root tok|t root cb]; cbn [SsoLogin.serve] in Hq.
  - apply ldap_opens in Hq as [?|(p & u & ?)]; [by left|right]. by exists p, u.
  - left. unfold initiate_sso_login in Hq. destruct (negb _); [by simplify_eq|]. destruct (enabled_of t w); [|by simplify_eq].
    repeat case_match; by simplify_eq.
  - unfold sso_callback in Hq. destruct (existsb _ _) eqn:Et; cbn [negb] in Hq; [|by simplify_eq; left].
    destruct (enabled_of t w) as [p|] eqn:Ep; [|by simplify_eq; left].
    apply enabled_of_spec in Ep as (Hp & Hty & He). assert (flag (p_enabled p) = true) as Hfl by (by rewrite He).
    destruct (String.eqb_spec t "oauth2") as [->|Hne].
    + destruct (filled (r_state cb)) as [s|] eqn:Es; [|by simplify_eq; left]. apply filled_Some in Es as [Es Hs].
      destruct (negb (ascii_text s)); [by simplify_eq; left|].
      destruct (String.eqb_spec s (default "" (sso_state w))) as [Hst|]; cbn [negb] in Hq; [|by simplify_eq; left].
      apply oauth2_opens in Hq as [?|(u & c & token & kv & info & un & em & fn & Ho & Hv)]; [by left|right].
      exists p, u. split_and!; try done. left. split; [done|]. exists s, c, token, kv, info, un, em, fn.
      split_and!; try apply Hv; try done. destruct (sso_state w); cbn in Hst; by rewrite Hst in *.
    + assert (t = "saml") as -> by (apply existsb_exists in Et as (x & Hx & ->%String.eqb_eq); cbn in Hx; naive_solver).
      apply saml_opens in Hq as [?|(u & attrs & n & em & fn & Ho & Hv)]; [by left|right].
      exists p, u. split_and!; try done. right. split; [done|]. by exists attrs, n, em, fn.
Qed.

End Facts.
End SsoLoginFacts.
