(* ===== verification/SsoRisks.v ===== *)
(** What logging in through an identity provider lets through: unverified SAML responses,
    ignored role mappings, sessions without an end, and names that are never locked. *)
From S2P Require Import Prelude Base64 Permissions Auth AuditSink Encryption Pki PkiFacts Login SsoProviders SsoLogin SsoFacts.

Module SsoRisks.
Import SsoProviders SsoLogin SsoLoginFacts.
Local Open Scope string_scope.
Local Open Scope list_scope.
Local Open Scope Z_scope.

Section Facts.
Context `{External} `{Fernet} (encryption_enabled : bool) {T} `{AuditSink T} (py_repr : json -> string).
#[local] Abbreviation resolve_role := (resolve_role json_loads).
#[local] Abbreviation parse_json_field := (parse_json_field json_loads).

(** * SAML *)

(** The data of a SAML login holds no roles or groups. *)
Lemma saml_role p attrs n : resolve_role p (saml_data attrs n) = Some (fallback_role p).
Proof.
  unfold SsoProviders.resolve_role. destruct (parse_json_field (p_role_mapping p)) as [|kv l]; [done|].
  change (Json.get_or "roles" _ _) with (JList []). cbn beta iota.
  assert (forall m, mapped_role m (JList []) = Some None) as Hm by (induction m as [|[k v] m IH]; [done|exact IH]).
  by rewrite Hm.
Qed.

(** Every SAML login leaves its account with the default role, whatever the mapping of roles
    and the groups of the response, unless accounts are not updated. *)
Theorem saml_logins_ignore_role_mapping p root response now w trail w' trail' r
  (Hs : saml_callback py_repr p root response now w trail = (w', trail', r)) :
  web w' = web w \/
  exists u, (exists m, web w' = web (establish u m w)) /\ In u (users w')
    /\ (Login.u_role (acct u) = fallback_role p \/ In u (users w) /\ flag (p_auto_update_users p) = false).
Proof.
  unfold saml_callback in Hs.
  assert (forall attrs n, saml_sign_in py_repr p attrs n now w trail = (w', trail', r) ->
    web w' = web w \/ exists u, (exists m, web w' = web (establish u m w)) /\ In u (users w')
      /\ (Login.u_role (acct u) = fallback_role p \/ In u (users w) /\ flag (p_auto_update_users p) = false)) as Hin.
  { intros attrs n. unfold saml_sign_in, callback_error.
    destruct (saml_identity p attrs n) as [[[un em] fn]|]; [|intros [= <- _ _]; by left].
    destruct (negb _); [intros [= <- _ _]; by left|].
    destruct (get_or_create_sso_user _ _ _ _ _ _ _ _) as [l u|c|l|] eqn:E; cbn [finish]; unfold callback_error.
    2,3,4: intros [= <- _ _]; by left.
    apply provisioned_spec in E as (_ & Hin & Hr). intros [= <- _ _]. right. exists u. split; [|split].
    - exists "sso". unfold establish. cbn [web with_web]. by rewrite (proj1 (tracked_web _ _ _ _ _ _)).
    - cbn [users establish with_web]. by rewrite (proj2 (tracked_web _ _ _ _ _ _)).
    - destruct Hr as [(_ & Hf & ->)|[Hr _]]; [by right|left]. rewrite saml_role in Hr. by injection Hr. }
  destruct (saml_process _ _) as [[|attrs n|]|]; unfold callback_error in Hs.
  - simplify_eq. by left.
  - by apply Hin in Hs.
  - destruct (parsed_by_hand response) as [[attrs n]|]; [by apply Hin in Hs|simplify_eq; by left].
  - simplify_eq. by left.
Qed.

(** * Sessions *)

(** The session of [w] belongs to [u], an active account. *)
Definition session_of (u : user) (w : world) : Prop :=
  Auth.s_user_id (Login.w_session (web w)) = Some (uid u) /\ uid u <> 0 /\ In u (users w)
  /\ NoDup (List.map uid (users w)) /\ Login.u_active (acct u) = true.

Lemma session_user u w : session_of u w ->
  Table.first (fun v => Auth.u_id v =? uid u) (List.map auth_user (users w)) = Some (auth_user u).
Proof.
  intros (_ & _ & Hin & Hn & _). unfold Table.first. induction (users w) as [|v l IH]; [done|].
  cbn [List.map List.find]. cbn [List.map] in Hn. apply NoDup_cons in Hn as [Hv Hn].
  cbn [Auth.u_id auth_user]. destruct (Z.eqb_spec (uid v) (uid u)) as [E|E].
  - destruct Hin as [->|Hin]; [done|]. destruct Hv. apply list_elem_of_In. rewrite E. by apply in_map.
  - destruct Hin as [->|Hin]; [done|]. by apply IH.
Qed.

(** Every visit is accepted: the state with the session that results. *)
Fixpoint visits (ts : list Z) (st : Auth.state) : bool :=
  match ts with
  | [] => true
  | t :: ts => let '(st, r) := Auth.verify_session t st in match r with Some _ => visits ts st | None => false end
  end.
(** No pause between visits is longer than the inactivity timeout. *)
Fixpoint steady (limit last : Z) (ts : list Z) : Prop :=
  match ts with [] => True | t :: ts => t - last <= limit * Time.second /\ steady limit t ts end.

(** What a visit leaves, and that it is accepted. *)
Definition touched (t : Z) (w : world) : world :=
  let s := Login.w_session (web w) in
  with_web (Login.WebSession
    (Auth.Session (Auth.s_user_id s) (Auth.s_username s) (Auth.s_login_time s) (Some (Auth.SAt t)) (Auth.s_expires_at s)
       (Auth.s_permanent s)) (Login.w_auth_method (web w)) (Login.w_pending (web w))) w.
Lemma visit_accepted u keys cfg w t : session_of u w ->
  Auth.s_login_time (Login.w_session (web w)) = None ->
  Auth.too_old t (Auth.get_session_timeout cfg) (Auth.s_last_activity (Login.w_session (web w))) = false ->
  exists m, Auth.verify_session t (auth_view keys cfg w)
    = (auth_view keys cfg (touched t w),
       Some (Auth.AuthResult (uid u) (Some (auth_user u)) m
               (Json.strings (Permissions.get_role_permissions (Login.u_role (acct u)))))).
Proof.
  intros Hs Hl Ha. pose proof (session_user u w Hs) as Hf. destruct Hs as (Hid & H0' & _ & _ & Hac).
  unfold Auth.verify_session. change (Auth.sess (auth_view keys cfg w)) with (Login.w_session (web w)).
  change (Auth.users (auth_view keys cfg w)) with (List.map auth_user (users w)).
  change (Auth.cfg (auth_view keys cfg w)) with cfg.
  rewrite Hid. cbn beta iota. rewrite (proj2 (Z.eqb_neq _ _) H0'), Hf. cbn [Auth.u_active auth_user]. rewrite Hac, Hl. cbn [negb].
  rewrite Ha. unfold touched. rewrite Hl, Hid. by eexists.
Qed.

Lemma visited u keys cfg w last ts : session_of u w ->
  Auth.s_login_time (Login.w_session (web w)) = None ->
  Auth.s_last_activity (Login.w_session (web w)) = Some (Auth.SAt last) ->
  steady (Auth.get_session_timeout cfg) last ts -> visits ts (auth_view keys cfg w) = true.
Proof.
  intros Hu Hl. revert w last Hu Hl. induction ts as [|t ts IH]; intros w last Hu Hl Ha; [done|]. intros [Ht Hs].
  destruct (visit_accepted u keys cfg w t Hu Hl) as [m E]; [rewrite Ha; cbn; by apply Z.ltb_ge|].
  cbn [visits]. rewrite E. by apply (IH (touched t w) t).
Qed.

(** A session that an identity provider opens in a fresh browser has no end: its first visit
    may come any time later, and as long as no pause exceeds the inactivity timeout every
    visit is accepted, however far beyond the configured maximum lifetime. *)
Theorem external_sessions_outlive_the_maximum u m w keys cfg t ts
  (Hu : In u (users w)) (Hn : NoDup (List.map uid (users w))) (Hid : uid u <> 0) (Hac : Login.u_active (acct u) = true)
  (Hfresh : Auth.s_login_time (Login.w_session (web w)) = None /\ Auth.s_last_activity (Login.w_session (web w)) = None)
  (Hts : steady (Auth.get_session_timeout cfg) t ts) :
  visits (t :: ts) (auth_view keys cfg (establish u m w)) = true.
Proof.
  destruct Hfresh as [Hl Ha]. destruct (visit_accepted u keys cfg (establish u m w) t) as [k E].
  - by split_and!.
  - exact Hl.
  - cbn [establish web with_web Login.w_session Auth.s_last_activity]. by rewrite Ha.
  - cbn [visits]. rewrite E. apply (visited u _ _ _ t); [by split_and!|exact Hl|done|done].
Qed.

(** C21: A response that the SAML library fails on, instead of rejecting it, is believed: the name
    it holds opens a session of that account, with the permissions of its role.  Nothing
    in it is signed, and no state of the browser is asked for. *)
Theorem unverified_saml_responses_log_in p root response xml name u r now w trail keys cfg later
  (Hp : enabled_of "saml" w = Some p) (Hk : flag (p_auto_update_users p) = false)
  (Hm : parse_json_field (p_attribute_mapping p) = [])
  (Hr : r_response r = Some response) (Hx : Base64.b64decode response = Some xml)
  (Hparse : parse_xml xml = Some (Assertion (Some (Some name)) []))
  (Hraise : saml_process (saml_settings root p) (Some response) = Some SamlRaised)
  (Hname : Str.strip name = name) (Hne : name <> "") (Hu : named name w = Some u)
  (Hn : NoDup (List.map uid (users w))) (Hid : uid u <> 0) (Hac : Login.u_active (acct u) = true)
  (Hfresh : Auth.s_login_time (Login.w_session (web w)) = None /\ Auth.s_last_activity (Login.w_session (web w)) = None) :
  exists w' trail' a,
    sso_callback py_repr "saml" root r now w trail = (w', trail', Redirect "/login/sso-complete")
    /\ (Auth.verify_session later (auth_view keys cfg w')).2 = Some a
    /\ Auth.r_user_id a = uid u
    /\ Auth.r_permissions a = Json.strings (Permissions.get_role_permissions (Login.u_role (acct u))).
Proof.
  pose proof Hu as [Hin Hun%String.eqb_eq]%Table.first_Some.
  assert (Str.truthy name = true) as Ht by (by destruct name).
  assert (parsed_by_hand (Some response) = Some ([], Some name)) as Hh.
  { unfold parsed_by_hand. cbn [default from_option Datatypes.id]. rewrite Hx. cbn [mbind option_bind]. by rewrite Hparse. }
  assert (saml_identity p [] (Some name) = Some (name, "", "")) as Hi.
  { unfold saml_identity, mapped. rewrite Hm.
    change (Some (Str.strip (if Str.truthy name then name else ""), "", "") = Some (name, "", "")). by rewrite Ht, Hname. }
  unfold sso_callback. cbn [existsb String.eqb Ascii.eqb Bool.eqb orb negb]. rewrite Hp. unfold saml_callback. rewrite Hr, Hraise, Hh.
  unfold saml_sign_in. rewrite Hi, Ht. cbn [negb].
  assert (get_or_create_sso_user py_repr p (JStr name) (JStr "") (JStr "") (saml_data [] (Some name)) now w = Provisioned (users w) u) as ->.
  { unfold get_or_create_sso_user. cbn [Json.bind_text]. by rewrite Hu, Hk. }
  cbn [finish]. set (w0 := track_session _ _ _ _ _ _).
  assert (users w0 = users w /\ web w0 = web w) as [Hus Hw] by (unfold w0; by destruct (tracked_web u p (Some name) (Some name) now (with_users (users w) w))).
  assert (session_of u (establish u "sso" w0)) as Hs by (unfold session_of; cbn; by rewrite Hus).
  destruct (visit_accepted u keys cfg (establish u "sso" w0) later Hs) as [k E].
  - cbn [establish web with_web Login.w_session Auth.s_login_time]. rewrite Hw. apply Hfresh.
  - cbn [establish web with_web Login.w_session Auth.s_last_activity]. rewrite Hw. destruct Hfresh as [_ ->]. done.
  - eexists _, _, _. split; [reflexivity|]. rewrite E. split; [reflexivity|done].
Qed.

(** * Guessing passwords *)

(** The body of an LDAP login. *)
Definition attempt (name : string) (password : json) : json := JDict [("username", JStr name); ("password", password)].
Fixpoint guess_all (name : string) (l : list (json * Z)) (w : world) (trail : T) : world * T * list reply :=
  match l with
  | [] => (w, trail, [])
  | (pw, now) :: l =>
      let '(w, trail, r) := ldap_login encryption_enabled py_repr (attempt name pw) now w trail in
      let '(w, trail, rs) := guess_all name l w trail in (w, trail, r :: rs)
  end.
Definition refused : reply := Failure 401 "Invalid credentials".
(** A guess the directory refuses. *)
Definition wrong (p : provider) (name : string) (g : json * Z) : Prop :=
  Json.truthy g.1 = true /\ ldap_authenticate_user encryption_enabled p (JStr name) g.1 = None.

(** The login of an attempt from the lockout on. *)
Lemma attempted name pw now w trail : name <> "" -> Json.truthy pw = true ->
  ldap_login encryption_enabled py_repr (attempt name pw) now w trail =
  let '(w, locked) := check_ldap_lockout name now w in
  if locked : bool then (w, trail, Failure 429 "Account temporarily locked due to too many failed attempts")
  else match enabled_of "ldap" w with
  | None => (w, trail, Failure 400 "No LDAP provider configured")
  | Some p =>
      if negb (flag (p_enabled p)) then (w, trail, Failure 400 "LDAP provider is disabled")
      else match ldap_authenticate_user encryption_enabled p (JStr name) pw with
      | None =>
          (record_ldap_failed_attempt name now w,
           record_event (failure_event "user" ("LDAP authentication failed for " ^+ name) (Some name)) trail, refused)
      | Some i =>
          match get_or_create_sso_user py_repr p (JStr (i_username i)) (JStr (i_email i)) (JStr (i_fullname i)) (info_dict i) now w with
          | Threw _ | Broken => (w, trail, Raised)
          | Refused _ =>
              (w, trail, Failure 403 "User not found and automatic account creation is disabled. Contact your administrator.")
          | Provisioned l u =>
              let w := clear_ldap_failed_attempts name (with_users l w) in
              let w := track_session u p (Some (i_dn i)) (Some (i_dn i)) now w in
              (establish u "ldap" w, record_event (success_event u ("LDAP login via " ^+ p_name p)) trail,
               LoggedIn u (Permissions.get_role_permissions (Login.u_role (acct u))))
          end
      end
  end.
Proof.
  intros Hne Hpw. assert (Str.truthy name = true) as Ht by (by destruct name). unfold ldap_login.
  change (Json.get_or "username" JNull (attempt name pw)) with (JStr name).
  change (Json.get_or "password" JNull (attempt name pw)) with pw.
  change (Json.get_or "provider_id" JNull (attempt name pw)) with JNull.
  cbn [Json.is_dict attempt negb Json.truthy Json.bind_text]. rewrite Ht, Hpw. cbn [negb orb].
  destruct (check_ldap_lockout name now w) as [w1 []]; [done|]. unfold chosen_provider. cbn [Json.truthy].
  by destruct (enabled_of "ldap" w1).
Qed.

Lemma wrong_guess p name pw now w trail : name <> "" -> enabled_of "ldap" w = Some p -> wrong p name (pw, now) ->
  let '(w1, locked) := check_ldap_lockout name now w in
  locked = false ->
  exists trail', ldap_login encryption_enabled py_repr (attempt name pw) now w trail
    = (record_ldap_failed_attempt name now w1, trail', refused).
Proof.
  intros Hne Hp [Hpw Ha]. cbn [fst] in *. assert (Str.truthy name = true) as Ht by (by destruct name).
  pose proof (locked_out name now w) as Hl. destruct (check_ldap_lockout name now w) as [w1 b] eqn:E.
  destruct Hl as (_ & Hpr & _). intros ->. rewrite attempted by done. rewrite E.
  assert (enabled_of "ldap" w1 = Some p) as -> by (unfold enabled_of; by rewrite Hpr).
  apply enabled_of_spec in Hp as (_ & _ & He). rewrite He. cbn [flag default from_option Datatypes.id negb]. rewrite Ha. by eexists.
Qed.

(** A wrong guess of a name that the table holds and no lock protects. *)
Definition after_guess (u : user) (now : Z) (w : world) : world :=
  with_users (update_user (uid u) (on_account (failed_again now)) (users w)) w.
Lemma guess_counted p name pw now w trail u : name <> "" -> enabled_of "ldap" w = Some p -> wrong p name (pw, now) ->
  named name w = Some u -> Login.u_locked_until (acct u) = None ->
  (exists trail', ldap_login encryption_enabled py_repr (attempt name pw) now w trail = (after_guess u now w, trail', refused))
  /\ enabled_of "ldap" (after_guess u now w) = Some p
  /\ named name (after_guess u now w) = Some (on_account (failed_again now) u).
Proof.
  intros Hne Hp Hw Hu Hl. pose proof (wrong_guess p name pw now w trail Hne Hp Hw) as Hg.
  unfold check_ldap_lockout in Hg. rewrite Hu, Hl in Hg. destruct (Hg eq_refl) as [trail' E].
  unfold record_ldap_failed_attempt in E. rewrite Hu in E. split; [by exists trail'|]. split; [done|].
  unfold named, after_guess, update_user. cbn [users with_users]. rewrite Table.first_update by done.
  unfold named in Hu. rewrite Hu. cbn. by rewrite Z.eqb_refl.
Qed.

Lemma guesses_counted p name l : name <> "" -> Forall (wrong p name) l ->
  forall w trail u k, enabled_of "ldap" w = Some p -> named name w = Some u ->
  Login.u_failed_logins (acct u) = Some k -> Login.u_locked_until (acct u) = None ->
  0 <= k -> k + Z.of_nat (length l) < LDAP_MAX_FAILED_ATTEMPTS ->
  exists w' trail' u', guess_all name l w trail = (w', trail', repeat refused (length l))
    /\ enabled_of "ldap" w' = Some p /\ named name w' = Some u'
    /\ Login.u_failed_logins (acct u') = Some (k + Z.of_nat (length l)) /\ Login.u_locked_until (acct u') = None.
Proof.
  intros Hne Hf. induction Hf as [|[pw now] l Hw Hf IH]; intros w trail u k Hp Hu Hk Hl H0' Hlt.
  { exists w, trail, u. rewrite Z.add_0_r. by split_and!. }
  destruct (guess_counted p name pw now w trail u Hne Hp Hw Hu Hl) as ((tr & E) & Hp' & Hu').
  cbn [length] in Hlt. unfold LDAP_MAX_FAILED_ATTEMPTS in *.
  assert (Login.u_failed_logins (acct (on_account (failed_again now) u)) = Some (k + 1)) as Hk' by (cbn; by rewrite Hk).
  assert (Login.u_locked_until (acct (on_account (failed_again now) u)) = None) as Hl'.
  { cbn. rewrite Hk, Hl. cbn. unfold LDAP_MAX_FAILED_ATTEMPTS. by destruct (Z.leb_spec 5 (k + 1)); [lia|]. }
  destruct (IH _ tr _ _ Hp' Hu' Hk' Hl') as (w' & trail' & u' & E' & ? & ? & Hk2 & ?); [lia|lia|].
  exists w', trail', u'. cbn [guess_all]. rewrite E, E'. split_and!; try done. rewrite Hk2. cbn [length]. f_equal. lia.
Qed.

Lemma guess_all_app name l1 l2 w trail :
  guess_all name (l1 ++ l2) w trail =
  let '(w, trail, r1) := guess_all name l1 w trail in
  let '(w, trail, r2) := guess_all name l2 w trail in (w, trail, r1 ++ r2).
Proof.
  revert w trail. induction l1 as [|[pw now] l1 IH]; intros w trail; cbn [guess_all app].
  - by destruct (guess_all name l2 w trail) as [[? ?] ?].
  - destruct (ldap_login _ _ _ _ _ _) as [[w1 t1] r]. rewrite IH. destruct (guess_all name l1 w1 t1) as [[w2 t2] r1].
    by destruct (guess_all name l2 w2 t2) as [[? ?] ?].
Qed.

(** Five wrong guesses of a name that the table holds lock it for fifteen minutes, against the
    right password too; a spelling that the table does not hold, under which the
    directory may know the same person, is never locked and leaves no trace in the tables. *)
Theorem respelled_names_are_never_locked p name w trail
  (Hne : name <> "") (Hp : enabled_of "ldap" w = Some p) :
  (forall l, named name w = None -> Forall (wrong p name) l ->
     exists trail', guess_all name l w trail = (w, trail', repeat refused (length l)))
  /\ (forall u l pw5 t5, named name w = Some u ->
        Login.u_failed_logins (acct u) = Some 0 -> Login.u_locked_until (acct u) = None ->
        length l = 4%nat -> Forall (wrong p name) (l ++ [(pw5, t5)]) ->
        exists w' trail', guess_all name (l ++ [(pw5, t5)]) w trail = (w', trail', repeat refused 5)
          /\ forall pw now trail2, Json.truthy pw = true -> now < t5 + Time.minutes LDAP_LOCKOUT_MINUTES ->
               ldap_login encryption_enabled py_repr (attempt name pw) now w' trail2
               = (w', trail2, Failure 429 "Account temporarily locked due to too many failed attempts")).
Proof.
  assert (Str.truthy name = true) as Ht by (by destruct name). split.
  - intros l Hn Hf. revert trail. induction Hf as [|[pw now] l Hw Hf IH]; intros trail; [by exists trail|].
    pose proof (wrong_guess p name pw now w trail Hne Hp Hw) as Hg. unfold check_ldap_lockout in Hg. rewrite Hn in Hg.
    destruct (Hg eq_refl) as [tr E]. unfold record_ldap_failed_attempt in E. rewrite Hn in E.
    cbn [guess_all]. rewrite E. destruct (IH tr) as [tr' E']. rewrite E'. by exists tr'.
  - intros u l pw5 t5 Hu Hk Hl Hlen [Hf Hw]%Forall_app. apply Forall_cons in Hw as [Hw _].
    destruct (guesses_counted p name l Hne Hf w trail u 0 Hp Hu Hk Hl) as (w4 & tr4 & u4 & E & Hp4 & Hu4 & Hk4 & Hl4);
      [lia|rewrite Hlen; unfold LDAP_MAX_FAILED_ATTEMPTS; cbn; lia|]. rewrite Hlen in Hk4, E.
    destruct (guess_counted p name pw5 t5 w4 tr4 u4 Hne Hp4 Hw Hu4 Hl4) as ((tr5 & E5) & _ & Hu5).
    exists (after_guess u4 t5 w4), tr5. rewrite guess_all_app, E. cbn [guess_all]. rewrite E5. split; [done|].
    intros pw now trail2 Hpw Hnow. rewrite attempted by done. unfold check_ldap_lockout. rewrite Hu5.
    assert (Login.u_locked_until (acct (on_account (failed_again t5) u4)) = Some (t5 + Time.minutes LDAP_LOCKOUT_MINUTES)) as ->.
    { cbn. by rewrite Hk4. }
    by rewrite (proj2 (Z.ltb_lt _ _)) by done.
Qed.

(** * Encryption *)

(** With encryption of keys switched on and a stored password for the directory, nobody logs
    in through LDAP, and five right passwords lock an account. *)
Theorem encryption_closes_ldap p name w trail u l pw5 t5
  (Henc : encryption_enabled = true) (Hpw : Json.truthy (get_secret (col "ldap_bind_password" p)) = true)
  (Hne : name <> "") (Hp : enabled_of "ldap" w = Some p) (Hu : named name w = Some u)
  (Hk : Login.u_failed_logins (acct u) = Some 0) (Hl : Login.u_locked_until (acct u) = None)
  (Hlen : length l = 4%nat) (Hgiven : Forall (fun g => Json.truthy g.1 = true) (l ++ [(pw5, t5)])) :
  exists w' trail' u', guess_all name (l ++ [(pw5, t5)]) w trail = (w', trail', repeat refused 5)
    /\ named name w' = Some u' /\ Login.u_locked_until (acct u') = Some (t5 + Time.minutes LDAP_LOCKOUT_MINUTES).
Proof.
  assert (Forall (wrong p name) (l ++ [(pw5, t5)])) as Hw.
  { eapply Forall_impl; [exact Hgiven|]. intros g Hg. split; [done|]. unfold ldap_authenticate_user, decrypt_ldap_password.
    by rewrite Hpw, Henc. }
  apply Forall_app in Hw as [Hf Hw]. apply Forall_cons in Hw as [Hw _].
  destruct (guesses_counted p name l Hne Hf w trail u 0 Hp Hu Hk Hl) as (w4 & tr4 & u4 & E & Hp4 & Hu4 & Hk4 & Hl4);
    [lia|rewrite Hlen; unfold LDAP_MAX_FAILED_ATTEMPTS; cbn; lia|]. rewrite Hlen in Hk4, E.
  destruct (guess_counted p name pw5 t5 w4 tr4 u4 Hne Hp4 Hw Hu4 Hl4) as ((tr5 & E5) & _ & Hu5).
  exists (after_guess u4 t5 w4), tr5, (on_account (failed_again t5) u4). rewrite guess_all_app, E. cbn [guess_all]. rewrite E5.
  split_and!; try done. cbn. by rewrite Hk4.
Qed.

(** What a provider's secret column gives back is what was set, when tokens of the cipher look
    like tokens and the text does not. *)
Theorem secrets_read_back iv s
  (Htoken : forall iv s, is_encrypted (fernet_encrypt iv s) = true) (Hs : s <> "") (Hplain : is_encrypted s = false) :
  get_secret (set_secret iv (JStr s)) = JStr s.
Proof.
  assert (Str.truthy s = true) as Ht by (by destruct s). unfold set_secret, get_secret, encrypt_if_needed. cbn [Json.truthy].
  rewrite Ht, Hplain. cbn [negb orb]. specialize (Htoken iv s).
  assert (Str.truthy (fernet_encrypt iv s) = true) as Hf by (by destruct (fernet_encrypt iv s)).
  cbn [Json.truthy]. rewrite Hf. unfold decrypt_if_needed. rewrite Hf, Htoken. cbn [negb orb]. by rewrite fernet_law.
Qed.

End Facts.
End SsoRisks.

(** Identity providers at work on a small installation, and instances of the theorems there. *)
Module SsoRun.
Import SsoProviders SsoLogin SsoFacts SsoLoginFacts SsoRisks.
Local Open Scope string_scope.
Local Open Scope list_scope.
#[local] Existing Instance list_sink.
#[local] Existing Instance PkiWitness.toy_fernet.

(** A directory that knows alice under any spelling of the first letter, an OAuth2 server, and
    a SAML library that fails on one response. *)
Definition xml : string := "<EncryptedAssertion/>".
#[local] Instance toy_external : External := {|
  escape_filter_chars s := Str.replace "*" "2a" s;
  directory_search p pw base f attrs :=
    if existsb (String.eqb f) ["(uid=alice)"; "(uid=Alice)"]
    then Some [Entry "uid=alice" [("uid", "alice"); ("mail", "a@x")] None]
    else Some (if Str.contains "member=" f then [Entry "cn=ops" [("cn", "ops")] None] else []);
  directory_bind p dn pw := Some (Json.eqb pw (JStr "right"));
  oauth2_token p c := Some (true, Some (JDict [("access_token", JStr "T")]));
  oauth2_userinfo p t := Some (true, Some (JDict [("preferred_username", JStr "alice"); ("groups", JNull)]));
  saml_login s token := Some "idp";
  saml_process s r := Some (if bool_decide (r = Some (Base64.b64encode xml)) then SamlRaised else SamlErrors);
  parse_xml s := if String.eqb s xml then Some (Assertion (Some (Some "admin")) []) else None;
  json_loads s := None;
|}.
Definition no_repr (j : json) : string := "repr".

Definition account (i : Z) (name role : string) : user :=
  User (Login.Account i name (name ^+ "@local") role true "hash" None false None false None None None (Some 0%Z) (Some 0%Z) None) None.
Definition saml_row : json :=
  JDict [("name", JStr "idp"); ("provider_type", JStr "saml"); ("enabled", JBool true); ("auto_update_users", JBool false);
         ("saml_sso_url", JStr "https://idp"); ("default_role", JStr "operator"); ("role_mapping", JDict [("ops", JStr "admin")])].
Definition ldap_row : json :=
  JDict [("name", JStr "dir"); ("provider_type", JStr "ldap"); ("enabled", JBool true); ("is_default", JBool true);
         ("ldap_base_dn", JStr "ou=people,dc=x"); ("ldap_group_filter", JStr "objectClass=group");
         ("role_mapping", JDict [("ops", JStr "operator")])].
Definition requests : list SsoProviders.request :=
  [Create saml_row 0; Create ldap_row 0; Create (JDict [("name", JStr "b"); ("provider_type", JStr "ldap")]) 0;
   UpdateByType "saml" (JDict [("is_default", JBool true)]) 0; SsoProviders.Toggle 9].
Definition managed := serve_all false json_loads requests ([], []) ([] : list string).

Example managed_rows :
  (List.map (fun p => (p_name p, p_type p, p_is_default p, p_default_role p)) managed.1.1, managed.2)
  = ([("idp", "saml", Some true, Some "operator"); ("dir", "ldap", Some false, Some "viewer")],
     ["sso_provider_created"; "sso_provider_created"; "sso_provider_updated"]).
Proof. vm_compute. reflexivity. Qed.

Lemma providers_witness : consistent managed.1.
Proof.
  apply (providers_stay_consistent false json_loads requests ([], []) ([] : list string)).
  split_and!; try constructor. cbn. lia.
Defined.

Definition fresh : Login.web_session := Login.cleared.
Definition saml_provider : provider := default (Provider 0 "" "" None None None None None None None JCNull JCNull []) (SsoProviders.get 1 managed.1.1).
Definition ldap_provider : provider := default saml_provider (SsoProviders.get 2 managed.1.1).
Definition site : world := World [account 1 "admin" "admin"; account 2 "alice" "viewer"] managed.1.1 [] fresh None.

(** ** An LDAP login *)
Definition logged_in := SsoLogin.serve false no_repr (LdapLogin (attempt "alice" (JStr "right"))) 7 site ([] : list string).
Definition alice : user := default (account 0 "" "") (named "alice" logged_in.1.1).
Example login_role : (Login.u_role (acct alice), Login.u_email (acct alice), signed_in logged_in.1.1) = ("operator", "a@x", (Some 2%Z, Some "alice")).
Proof. vm_compute. reflexivity. Qed.
Lemma vouched_witness : exists p u, In p managed.1.1 /\ opened site logged_in.1.1 u /\ ldap_vouches false (attempt "alice" (JStr "right")) 7 site p u.
Proof.
  destruct (external_sessions_are_vouched (H := toy_external) (H0 := PkiWitness.toy_fernet) (H1 := list_sink) false no_repr
    (LdapLogin (attempt "alice" (JStr "right"))) 7 site ([] : list string) logged_in.1.1 logged_in.1.2 logged_in.2)
    as [Hw|(p & u & Hp & _ & Ho & Hv)].
  - change (logged_in = (logged_in.1.1, logged_in.1.2, logged_in.2)). destruct logged_in as [[a b] c]. reflexivity.
  - exfalso. vm_compute in Hw. discriminate Hw.
  - exists p, u. exact (conj Hp (conj Ho Hv)).
Defined.

(** ** SAML *)
Definition forged : callback := Callback None None None (Some (Base64.b64encode xml)).
Lemma unverified_witness : exists w' trail' a,
  sso_callback no_repr "saml" "https://ca/" forged 7 site ([] : list string) = (w', trail', Redirect "/login/sso-complete")
  /\ (Auth.verify_session 9 (auth_view [] [] w')).2 = Some a /\ Auth.r_user_id a = 1%Z
  /\ Auth.r_permissions a = Json.strings (Permissions.get_role_permissions "admin").
Proof.
  refine (unverified_saml_responses_log_in (H := toy_external) (H1 := list_sink) no_repr saml_provider
    "https://ca/" (Base64.b64encode xml) xml "admin" (account 1 "admin" "admin") forged 7 site ([] : list string) [] [] 9
    _ _ _ _ _ _ _ _ _ _ _ _ _ _); try (vm_compute; reflexivity); try discriminate.
  - vm_compute. repeat constructor; vm_compute; intros Hin; repeat (apply list_elem_of_In in Hin; cbn in Hin); intuition discriminate.
  - split; reflexivity.
Defined.

Definition forged_run := saml_callback no_repr saml_provider "https://ca/" (r_response forged) 7 site ([] : list string).
Lemma saml_roles_witness : exists u, In u (users forged_run.1.1)
  /\ (Login.u_role (acct u) = "operator" \/ In u (users site) /\ flag (p_auto_update_users saml_provider) = false).
Proof.
  destruct (saml_logins_ignore_role_mapping (H := toy_external) (H1 := list_sink) no_repr saml_provider "https://ca/"
    (r_response forged) 7 site ([] : list string) forged_run.1.1 forged_run.1.2 forged_run.2) as [Hw|(u & _ & Hin & Hr)].
  - change (forged_run = (forged_run.1.1, forged_run.1.2, forged_run.2)). destruct forged_run as [[a b] c]. reflexivity.
  - exfalso. vm_compute in Hw. discriminate Hw.
  - exists u. exact (conj Hin Hr).
Defined.

(** ** Sessions and guesses *)
Lemma outlive_witness :
  visits [Time.days 400; Time.days 400 + Time.hours 8; Time.days 400 + Time.hours 16; Time.days 401; Time.days 401 + Time.hours 8]%Z
    (auth_view [] [] (establish (account 2 "alice" "viewer") "ldap" site)) = true.
Proof.
  apply (external_sessions_outlive_the_maximum (account 2 "alice" "viewer") "ldap" site [] [] (Time.days 400)).
  - right. left. reflexivity.
  - vm_compute. repeat constructor; vm_compute; intros Hin; repeat (apply list_elem_of_In in Hin; cbn in Hin); intuition discriminate.
  - discriminate.
  - reflexivity.
  - split; reflexivity.
  - vm_compute. intuition discriminate.
Defined.

Definition guesses : list (json * Z) := [(JStr "a", 1); (JStr "b", 2); (JStr "c", 3); (JStr "d", 4)]%Z.
Lemma respelled_witness :
  (exists trail', guess_all false no_repr "Alice" (guesses ++ guesses) site ([] : list string) = (site, trail', repeat refused 8))
  /\ exists w' trail', guess_all false no_repr "alice" (guesses ++ [(JStr "e", 5%Z)]) site ([] : list string) = (w', trail', repeat refused 5)
      /\ (ldap_login false no_repr (attempt "alice" (JStr "right")) 9 w' []).2
         = Failure 429 "Account temporarily locked due to too many failed attempts".
Proof.
  split.
  - refine (proj1 (respelled_names_are_never_locked (H := toy_external) (H0 := PkiWitness.toy_fernet) (H1 := list_sink)
      false no_repr ldap_provider "Alice" site ([] : list string) ltac:(discriminate) ltac:(vm_compute; reflexivity)) (guesses ++ guesses) _ _).
    + vm_compute. reflexivity.
    + repeat constructor; vm_compute; reflexivity.
  - destruct (proj2 (respelled_names_are_never_locked (H := toy_external) (H0 := PkiWitness.toy_fernet) (H1 := list_sink)
      false no_repr ldap_provider "alice" site ([] : list string) ltac:(discriminate) ltac:(vm_compute; reflexivity))
      (account 2 "alice" "viewer") guesses (JStr "e") 5%Z) as (w' & tr & E & Hl); try (vm_compute; reflexivity).
    + repeat constructor; vm_compute; reflexivity.
    + exists w', tr. split; [exact E|]. rewrite (Hl (JStr "right") 9%Z []); [reflexivity|reflexivity|vm_compute; reflexivity].
Defined.

Definition with_password : provider :=
  Provider 2 "dir" "ldap" (Some true) None None None None None None JCNull JCNull [("ldap_bind_password", JStr "secret")].
Definition closed_site : world := World (users site) [with_password] [] fresh None.
Lemma closed_witness : exists w' trail' u',
  guess_all true no_repr "alice" ([(JStr "right", 1); (JStr "right", 2); (JStr "right", 3); (JStr "right", 4)] ++ [(JStr "right", 5)])%Z
    closed_site ([] : list string) = (w', trail', repeat refused 5)
  /\ named "alice" w' = Some u' /\ Login.u_locked_until (acct u') = Some (5 + Time.minutes 15)%Z.
Proof.
  apply (encryption_closes_ldap (H := toy_external) (H0 := PkiWitness.toy_fernet) (H1 := list_sink)
    true no_repr with_password "alice" closed_site ([] : list string) (account 2 "alice" "viewer")); try (vm_compute; reflexivity).
  - discriminate.
  - repeat constructor; vm_compute; reflexivity.
Defined.

(** A null claim ends the callback with an exception, and the new mail address is written with
    the entry that records the failure. *)
Example oauth2_exception :
  let p := Provider 3 "oidc" "oauth2" (Some true) None None None None (Some true) (Some true) JCNull (JText (JDict [("g", JStr "admin")])) [] in
  let '(w, trail, r) := oauth2_callback no_repr p (Some "code") None 7 (World (users site) [p] [] fresh None) ([] : list string) in
  (r, trail, signed_in w) = (Redirect "/login?error=callback_error", ["login_failure"], (None, None)).
Proof. vm_compute. reflexivity. Qed.

End SsoRun.
