(* ===== verification/Ocsp.v ===== *)
(** The OCSP responder: [services/ocsp_service.py], [models/ocsp.py] and
    [api/ocsp_routes.py].

    Requests, hashes and the builder of responses are the interface [Responder]; bodies are
    byte texts.  The tables are those of [CertRoutes] with the cache of responses. *)
From S2P Require Import Prelude Base64 Encryption Pki CertModel CaModel CertRoutes.

Module Ocsp.
Import CertModel CertRoutes.
Local Open Scope string_scope.
Local Open Scope list_scope.
Local Open Scope Z_scope.

(** * Rows *)

Record response := Response {
  r_id : Z;
  r_ca_id : Z;
  r_cert_serial : string;
  r_response_der : string;
  r_status : string;
  r_this_update : Z;
  r_next_update : Z;
  r_revocation_time : option Z;
  r_revocation_reason : option string;
  r_created_at : Z;
  r_updated_at : Z;
}.
Record world := World { tables : db; responses : list response }.
Definition with_responses (l : list response) (w : world) : world := World (tables w) l.

(** * The library *)

Inductive hash_algorithm := SHA1 | SHA256 | OtherHash.
Record ocsp_request := Request {
  o_serial_number : Z;
  o_issuer_name_hash : string;
  o_issuer_key_hash : string;
  o_hash_algorithm : hash_algorithm;
  o_nonce : option (option string);     (* the outer [None]: its extensions cannot be read *)
}.
Inductive unsuccessful := MALFORMED_REQUEST | INTERNAL_ERROR | UNAUTHORIZED.
Inductive cert_status := GOOD | REVOKED | UNKNOWN.
(** What a single response says; [s_cert] is the certificate it is made from, if any. *)
Record single := Single {
  s_cert : option Pki.cert;
  s_issuer : Pki.cert;
  s_serial_number : Z;
  s_status : cert_status;
  s_this_update : Z;
  s_next_update : Z;
  s_revocation_time : option Z;
  s_revocation_reason : option string;
  s_nonce : option string;
}.
Class Responder := {
  load_der_ocsp_request : string -> option ocsp_request;
  digest : hash_algorithm -> string -> string;
  name_bytes : Pki.name -> string;
  (** the wrapper of a key in a security module *)
  hsm_private_key : Z -> option string;
  sign_response : string -> single -> option string;
  unsuccessful_response : unsuccessful -> string;
}.

(** * The cache *)

Definition is_entry (ca_id : Z) (cert_serial : string) (r : response) : bool :=
  (r_ca_id r =? ca_id) && String.eqb (r_cert_serial r) cert_serial.
Definition cached_entry (ca_id : Z) (cert_serial : string) (w : world) : option response :=
  Table.first (is_entry ca_id cert_serial) (responses w).

(** Of several entries the first is replaced; an error leaves the table as it was. *)
Definition cache_response (ca_id : Z) (cert_serial response_der status : string) (this_update next_update : Z)
    (revocation_time : option Z) (revocation_reason : option string) (now : Z) (w : world) : world :=
  match cached_entry ca_id cert_serial w with
  | Some old =>
      with_responses (Table.update (fun r => r_id r =? r_id old)
        (fun r => Response (r_id r) (r_ca_id r) (r_cert_serial r) response_der status this_update next_update
                    revocation_time revocation_reason (r_created_at r) now) (responses w)) w
  | None =>
      with_responses (responses w ++
        [Response (Table.next_id r_id (responses w)) ca_id cert_serial response_der status this_update next_update
           revocation_time revocation_reason now now]) w
  end.
Definition get_cached_response (ca_id : Z) (cert_serial : string) (now : Z) (w : world) : option string :=
  r ← cached_entry ca_id cert_serial w;
  if r_next_update r <? now then None else Some (r_response_der r).
Definition expired (now : Z) (r : response) : bool := r_next_update r <? now.
Definition cleanup_expired_responses (now : Z) (w : world) : world :=
  with_responses (Table.delete (expired now) (responses w)) w.

(** * Responses *)

Definition REASON_MAP : list (string * string) :=
  [("unspecified", "unspecified"); ("key_compromise", "keyCompromise"); ("keyCompromise", "keyCompromise");
   ("ca_compromise", "cACompromise"); ("caCompromise", "cACompromise");
   ("affiliation_changed", "affiliationChanged"); ("affiliationChanged", "affiliationChanged");
   ("superseded", "superseded"); ("cessation_of_operation", "cessationOfOperation");
   ("cessationOfOperation", "cessationOfOperation"); ("certificate_hold", "certificateHold");
   ("certificateHold", "certificateHold"); ("privilege_withdrawn", "privilegeWithdrawn");
   ("privilegeWithdrawn", "privilegeWithdrawn"); ("aa_compromise", "aACompromise"); ("aACompromise", "aACompromise")].
Definition reason_flag (reason : option string) : string :=
  default "unspecified" (reason ≫= (fun r => Json.assoc r REASON_MAP)).

(** [Certificate.query.filter_by(column=value)] for a text: a name that is no column of the
    class raises. *)
Definition text_columns : list (string * (certificate -> option string)) :=
  [("refid", fun c => Some (refid c)); ("descr", fun c => Some (descr c)); ("caref", caref); ("crt", crt); ("csr", csr);
   ("prv", prv); ("cert_type", cert_type); ("subject", subject); ("subject_cn", subject_cn); ("issuer", issuer);
   ("serial_number", serial_number); ("aki", aki); ("ski", ski); ("key_algo", key_algo); ("san_dns", san_dns);
   ("san_ip", san_ip); ("san_email", san_email); ("san_uri", san_uri); ("ocsp_uri", ocsp_uri);
   ("private_key_location", private_key_location); ("revoke_reason", revoke_reason); ("imported_from", imported_from);
   ("created_by", created_by); ("source", source)].
Definition filter_by (column value : string) (rows : list certificate) : option (list certificate) :=
  f ← Json.assoc column text_columns; Some (Table.all (fun c => bool_decide (f c = Some value)) rows).

Section Service.
Context `{Pki.X509} `{Fernet} `{Responder} (encryption_enabled : bool).

(** [_load_ca_key]; an exception is [None]. *)
Definition load_ca_key (a : CaModel.ca) : option string :=
  if CaModel.uses_hsm a then CaModel.a_hsm_key_id a ≫= hsm_private_key
  else
    p ← filled (CaModel.a_prv a);
    b ← Encryption.decrypt_private_key encryption_enabled p;
    pem ← pem_text b; Pki.load_key pem.
Definition load_cert (c : certificate) : option Pki.cert :=
  col ← filled (crt c); pem ← pem_text col; Pki.load_cert pem.

Definition status_of (found : option certificate) (now : Z)
  : cert_status * string * option Z * option string :=
  match found with
  | None => (UNKNOWN, "unknown", None, None)
  | Some c =>
      if true_flag (revoked c)
      then (REVOKED, "revoked", Some (default now (revoked_at c)), Some (reason_flag (revoke_reason c)))
      else (GOOD, "good", None, None)
  end.
Definition single_of (ca_cert : Pki.cert) (serial : Z) (nonce : option string) (found : option certificate) (now : Z)
  : single :=
  let '(status, _, time, reason) := status_of found now in
  let x := found ≫= load_cert in
  Single x ca_cert (match x with Some x => Pki.x_serial x | None => serial end) status now (now + Time.hours 24)
    time reason (filled nonce).

(** What follows once the table of certificates has answered. *)
Definition answer (a : CaModel.ca) (ca_cert : Pki.cert) (key : string) (serial : Z) (nonce : option string)
    (found : option certificate) (now : Z) (w : world) : option (world * string * string) :=
  let '(_, status, time, reason) := status_of found now in
  der ← sign_response key (single_of ca_cert serial nonce found now);
  Some (cache_response (CaModel.a_id a) (Num.hex serial) der status now (now + Time.hours 24) time reason now w,
        der, status).
Definition generate_response (a : CaModel.ca) (serial : Z) (nonce : option string) (now : Z) (w : world)
  : world * string * string :=
  match (pem ← pem_text (CaModel.a_crt a); ca_cert ← Pki.load_cert pem; key ← load_ca_key a;
         found ← filter_by "serial" (Num.hex serial) (certs (tables w));
         answer a ca_cert key serial nonce (head found) now w) with
  | Some r => r
  | None => (w, unsuccessful_response INTERNAL_ERROR, "error")
  end.

(** * Routes *)

Inductive reply :=
| Error (e : unsuccessful)
| Reply (body : string) (cacheable : bool).

(** The column is read as it is stored; of the two hashes only that of the name is
    compared. *)
Definition issued_with (q : ocsp_request) (a : CaModel.ca) : bool :=
  match Pki.load_cert (CaModel.a_crt a) with
  | None => false
  | Some x =>
      let h := match o_hash_algorithm q with SHA256 => SHA256 | _ => SHA1 end in
      String.eqb (digest h (name_bytes (Pki.x_subject x))) (o_issuer_name_hash q)
  end.
Definition find_ca_by_issuer_hash (q : ocsp_request) (w : world) : option CaModel.ca :=
  Table.first (issued_with q) (cas (tables w)).

Definition process_ocsp_request (request_der : string) (now : Z) (w : world) : world * reply :=
  if negb (Str.truthy request_der) then (w, Error MALFORMED_REQUEST)
  else match load_der_ocsp_request request_der with
  | None => (w, Error MALFORMED_REQUEST)
  | Some q =>
      match o_nonce q with
      | None => (w, Error INTERNAL_ERROR)
      | Some nonce =>
          match find_ca_by_issuer_hash q w with
          | None => (w, Error UNAUTHORIZED)
          | Some a =>
              if negb (CaModel.a_ocsp_enabled a) then (w, Error UNAUTHORIZED)
              else
                let cacheable := negb (Str.truthy (default "" nonce)) in
                match filled (get_cached_response (CaModel.a_id a) (Num.hex (o_serial_number q)) now w) with
                | Some cached => (w, Reply cached cacheable)
                | None =>
                    let '(w, der, _) := generate_response a (o_serial_number q) nonce now w in
                    (w, Reply der cacheable)
                end
          end
      end
  end.

(** [urllib.parse.unquote], as bytes. *)
Definition hex_value (c : ascii) : option N := Z.to_N <$> Num.digit_val 16 c.
Fixpoint unquote (s : string) : string :=
  match s with
  | String "%" (String a (String b s') as t) =>
      match hex_value a, hex_value b with
      | Some x, Some y => String (ascii_of_N (x * 16 + y)) (unquote s')
      | _, _ => String "%" (unquote t)
      end
  | String c s' => String c (unquote s')
  | EmptyString => EmptyString
  end.

Inductive request := Post (body : string) | Get (query_string : string) | GetPath (encoded_request : string).
Definition encoded (s : string) (now : Z) (w : world) : world * reply :=
  match Base64.b64decode (unquote s) with
  | Some der => process_ocsp_request der now w
  | None => (w, Error MALFORMED_REQUEST)
  end.
Definition ocsp_responder (q : request) (now : Z) (w : world) : world * reply :=
  match q with
  | Post body => process_ocsp_request body now w
  | Get query =>
      if negb (Str.utf8_valid 0 0%N 0%N query) then (w, Error INTERNAL_ERROR)
      else if negb (Str.truthy query) then (w, Error MALFORMED_REQUEST)
      else encoded query now w
  | GetPath path => encoded path now w
  end.

End Service.
End Ocsp.
