(* ===== verification/CaRoutes.v ===== *)
(** Certificate authorities: creating, importing, changing, listing and deleting them
    ([api/v2/cas.py]) with [CAService.create_internal_ca] of [services/ca_service.py] and
    [TrustStoreService.create_ca_certificate].

    Notifications, websocket events and the files written beside the database are left
    out.  The generated key and the random serial number are arguments, as in [CertRoutes];
    rows of other tables that name a CA are only the CRLs and the cached OCSP responses. *)
From S2P Require Import Prelude Base64 AuditSink AuditLog Encryption Pki ApiKeys CertModel CertListing IpAddress CaModel CertRoutes CertActions CertImport Ocsp.

Module CaRoutes.
Import CertModel CertRoutes Ocsp.
Local Open Scope string_scope.
Local Open Scope list_scope.
Local Open Scope Z_scope.

Definition with_tables (d : db) (w : world) : world := World d (responses w).
Definition with_cas (l : list CaModel.ca) (d : db) : db := Db l (certs d) (approvals d) (crls d).
Definition get_ca (i : Z) (d : db) : option CaModel.ca := Table.first (fun a => CaModel.a_id a =? i) (cas d).
Definition update_ca_row (i : Z) (f : CaModel.ca -> CaModel.ca) (d : db) : db :=
  with_cas (Table.update (fun a => CaModel.a_id a =? i) f (cas d)) d.

Definition bump_serial (a : CaModel.ca) : CaModel.ca :=
  CaModel.CA (CaModel.a_id a) (CaModel.a_refid a) (CaModel.a_descr a) (CaModel.a_crt a) (CaModel.a_prv a)
    (Some (default 0 (CaModel.a_serial a) + 1)) (CaModel.a_caref a) (CaModel.a_subject a) (CaModel.a_issuer a)
    (CaModel.a_serial_number a) (CaModel.a_ski a) (CaModel.a_valid_from a) (CaModel.a_valid_to a)
    (CaModel.a_imported_from a) (CaModel.a_created_at a) (CaModel.a_created_by a) (CaModel.a_owner_group_id a)
    (CaModel.a_cdp_enabled a) (CaModel.a_cdp_url a) (CaModel.a_delta_crl_enabled a) (CaModel.a_delta_crl_interval a)
    (CaModel.a_ocsp_enabled a) (CaModel.a_ocsp_url a) (CaModel.a_hsm_key_id a).

Inductive reply :=
| Stored (code : Z) (row : CaModel.ca) (message : string)
| NoContent
| Failure (code : Z) (message : string)
| Raised.

Section Routes.
Context `{Pki.X509} `{Keys} `{Fernet} (encryption_enabled : bool) {T} `{AuditSink T} (py_repr : json -> string).
#[local] Abbreviation py_str := (py_str py_repr).

(** * Creating *)

(** [x or None] *)
Definition or_none (v : json) : json := if Json.truthy v then v else JNull.
(** The name in the order of the request; [None] when the country has no upper case. *)
Definition requested_dn (data : json) : option (list (string * json)) :=
  let get k := Json.get_or k JNull data in
  country ← (if Json.truthy (get "country") then as_text (get "country") else Some "");
  Some [("CN", get "commonName"); ("O", get "organization"); ("OU", or_none (get "organizationalUnit"));
        ("C", or_none (JStr (Str.upper country))); ("ST", or_none (get "state")); ("L", or_none (get "locality"))].

(** [TrustStoreService.build_subject] *)
Definition dn_order : list (string * string) :=
  [("C", "C"); ("ST", "ST"); ("L", "L"); ("O", "O"); ("OU", "OU"); ("CN", "CN"); ("email", "emailAddress")].
Definition build_subject (dn : list (string * json)) : Pki.name :=
  List.flat_map (fun p : string * string =>
    match Json.assoc p.1 dn with
    | Some v => if Json.truthy v then [(p.2, py_str v)] else []
    | None => []
    end) dn_order.

Definition KEY_TYPES : list (string * key_spec) :=
  [("2048", RSAKey 2048); ("3072", RSAKey 3072); ("4096", RSAKey 4096); ("8192", RSAKey 8192);
   ("prime256v1", ECKey "secp256r1"); ("secp384r1", ECKey "secp384r1"); ("secp521r1", ECKey "secp521r1")].
(** The kind of key; [None] is an exception, there or where the key is generated. *)
Definition requested_key_type (data : json) : option (json + reply) :=
  let size := Json.get_or "keySize" JNull data in
  match Json.get_or "keyAlgo" JNull data with
  | JStr "RSA" =>
      bits ← (if Json.truthy size then as_int size else Some 2048);
      Some (if bits <? 2048 then inr (Failure 400 "RSA key size must be at least 2048 bits") else inl (JStr (Num.str bits)))
  | JStr "ECDSA" => Some (inl (if Json.truthy size then size else JStr "prime256v1"))
  | _ => Some (inl (JStr "2048"))
  end.
Definition key_spec_of (key_type : json) : option key_spec :=
  match key_type with JStr k => Json.assoc k KEY_TYPES | _ => None end.

Definition load_ca_cert (a : CaModel.ca) : option Pki.cert :=
  pem ← Base64.b64decode (CaModel.a_crt a); Pki.load_cert pem.
(** The parent of an intermediate; a request that is not for one has none. *)
Definition parent_ca (data : json) (now : Z) (d : db) : option (option CaModel.ca + reply) :=
  let p := Json.get_or "parentCAId" JNull data in
  match Json.get_or "type" JNull data with
  | JStr "intermediate" =>
      if negb (Json.truthy p) then Some (inl None)
      else
        n ← as_int p; i ← bind_id (JInt n);
        match i ≫= (fun i => get_ca i d) with
        | None => Some (inr (Failure 400 "Parent CA not found"))
        | Some a =>
            match filled (CaModel.a_prv a) with
            | None => Some (inr (Failure 400 "Parent CA has no private key"))
            | Some _ =>
                x ← load_ca_cert a;
                Some (if Pki.x_not_after x <? now then inr (Failure 400 "Parent CA certificate has expired")
                      else inl (Some a))
            end
        end
  | _ => Some (inl None)
  end.

(** [create_ca_certificate]: what is signed, and with which key. *)
Definition ca_extensions (new_key issuer_key : string) (self_issued : bool) : list Pki.xext :=
  [Pki.Ext (Pki.BasicConstraints true None) true; Pki.Ext (Pki.KeyUsage Pki.ca_key_usage) true;
   Pki.Ext (Pki.OtherExtension SKI_OID (key_identifier (public_key new_key))) false]
  ++ (if self_issued then []
      else [Pki.Ext (Pki.OtherExtension AKI_OID (key_identifier (public_key issuer_key))) false]).
Definition ca_template (subject issuer : Pki.name) (new_key issuer_key : string) (days serial now : Z) : Pki.cert :=
  Pki.Cert subject issuer (public_key new_key) serial (Pki.whole_second now)
    (Pki.whole_second (now + Time.days days)) (ca_extensions new_key issuer_key (bool_decide (issuer = subject))).

(** The certificate and the key of the CA a new one is issued by. *)
Definition issuer_material (caref : option string) (d : db) : option (option (CaModel.ca * Pki.cert * string)) :=
  match filled caref with
  | None => Some None
  | Some r =>
      a ← ca_by_refid r d; x ← load_ca_cert a;
      prv ← filled (CaModel.a_prv a); b ← Encryption.decrypt_private_key encryption_enabled prv;
      k ← Base64.b64decode b; key ← Pki.load_key k;
      Some (Some (a, x, key))
  end.

(** [CAService.create_internal_ca]; an exception, with nothing written, is [None].  [descr]
    is what the column is given. *)
Definition create_internal_ca (descr : json) (dn : list (string * json)) (key_type : json) (validity_days : Z)
    (caref : option string) (generate : key_spec -> option string) (serial : Z) (uuid : string) (iv : nat)
    (username : string) (now : Z) (d : db) (trail : T) : option (db * T * CaModel.ca) :=
  let subject := build_subject dn in
  spec ← key_spec_of key_type;
  new_key ← generate spec;
  issuer ← issuer_material caref d;
  if negb (ApiKeys.days_ok validity_days now) then None
  else
  let x := match issuer with
           | Some (_, p, k) => ca_template subject (Pki.x_subject p) new_key k validity_days serial now
           | None => ca_template subject subject new_key new_key validity_days serial now
           end in
  pem ← Pki.sign_cert "sha256" (match issuer with Some (_, _, k) => k | None => new_key end) x;
  descr ← Json.bind_text descr;
  if existsb (fun b => String.eqb (CaModel.a_refid b) uuid) (cas d) then None
  else
  let a := CaModel.CA (Table.next_id CaModel.a_id (cas d)) uuid descr (Base64.b64encode pem)
             (Some (Encryption.encrypt_private_key encryption_enabled iv (Base64.b64encode (unencrypted_pem new_key))))
             (Some 0) caref (Some (Pki.rfc4514 (Pki.x_subject x))) (Some (Pki.rfc4514 (Pki.x_issuer x))) None
             (Some (key_identifier (public_key new_key))) (Some (Pki.x_not_before x)) (Some (Pki.x_not_after x))
             (Some "generated") (Some now) (Some username) None false None false (Some 4) false None None in
  let d := match issuer with Some (p, _, _) => update_ca_row (CaModel.a_id p) bump_serial d | None => d end in
  Some (with_cas (cas d ++ [a]) d,
        record_event (AuditLog.log_ca "ca_created" (Some descr) (CaModel.a_subject a) (CaModel.a_id a)
                        (Some ("Created CA: " ^+ descr)) true) trail, a).

(** The validity of the new CA is not compared with that of its parent. *)
Definition create_ca (request : json) (generate : key_spec -> option string) (serial : Z) (uuid : string) (iv : nat)
    (username : string) (now : Z) (w : world) (trail : T) : world * T * reply :=
  let fail code m := (w, trail, Failure code m) in
  let failed := fail 500 "Failed to create CA" in
  if negb (Json.truthy request) then fail 400 "Common Name is required"
  else if negb (Json.is_dict request) then (w, trail, Raised)
  else if negb (Json.truthy (Json.get_or "commonName" JNull request)) then fail 400 "Common Name is required"
  else match requested_dn request with
  | None => failed
  | Some dn =>
      match IpAddress.validate_dn py_str dn with
      | Some e => fail 400 e
      | None =>
          match requested_key_type request with
          | None => failed
          | Some (inr r) => (w, trail, r)
          | Some (inl key_type) =>
              match parent_ca request now (tables w) with
              | None => failed
              | Some (inr r) => (w, trail, r)
              | Some (inl parent) =>
                  let years := Json.get_or "validityYears" JNull request in
                  let descr := Json.get_or "description" JNull request in
                  match (y ← (if Json.truthy years then as_int years else Some 10);
                         create_internal_ca (if Json.truthy descr then descr else Json.get_or "commonName" JNull request)
                           dn key_type (y * 365) (CaModel.a_refid <$> parent) generate serial uuid iv username now
                           (tables w) trail) with
                  | None => failed
                  | Some (d, trail, a) => (with_tables d w, trail, Stored 201 a "CA created successfully")
                  end
              end
          end
      end
  end.

(** * Changing *)

(** [if k in data: column = f(data[k])]: the outer [None] is an exception of the route,
    the inner one a value the column does not take. *)
Definition change {A} (k : string) (data : json) (f : json -> option A) (old : A) : option (option A) :=
  v ← Json.field k data; Some (match v with Some v => f v | None => Some old end).
Definition switch (j : json) : option bool := Some (Json.truthy j).

Definition set_settings (descr : string) (ocsp_enabled : bool) (ocsp_url : option string) (cdp_enabled : bool)
    (cdp_url : option string) (a : CaModel.ca) : CaModel.ca :=
  CaModel.CA (CaModel.a_id a) (CaModel.a_refid a) descr (CaModel.a_crt a) (CaModel.a_prv a) (CaModel.a_serial a)
    (CaModel.a_caref a) (CaModel.a_subject a) (CaModel.a_issuer a) (CaModel.a_serial_number a) (CaModel.a_ski a)
    (CaModel.a_valid_from a) (CaModel.a_valid_to a) (CaModel.a_imported_from a) (CaModel.a_created_at a)
    (CaModel.a_created_by a) (CaModel.a_owner_group_id a) cdp_enabled cdp_url (CaModel.a_delta_crl_enabled a)
    (CaModel.a_delta_crl_interval a) ocsp_enabled ocsp_url (CaModel.a_hsm_key_id a).
Definition route_event (action : string) (i : Z) (name details : string) : event :=
  Event action (Some "ca") (AInt i) (AStr name) (AStr details) true None.

(** [is_active] is no column: its value is accepted and forgotten. *)
Definition update_ca (i : Z) (request : json) (w : world) (trail : T) : world * T * reply :=
  match get_ca i (tables w) with
  | None => (w, trail, Failure 404 "CA not found")
  | Some a =>
      let data := if Json.truthy request then request else JDict [] in
      match (n ← change "name" data Json.bind_text (CaModel.a_descr a);
             oe ← change "ocsp_enabled" data switch (CaModel.a_ocsp_enabled a);
             ou ← change "ocsp_url" data column (CaModel.a_ocsp_url a);
             ce ← change "cdp_enabled" data switch (CaModel.a_cdp_enabled a);
             cu ← change "cdp_url" data column (CaModel.a_cdp_url a);
             _ ← change "is_active" data switch true;
             Some (n ← n; oe ← oe; ou ← ou; ce ← ce; cu ← cu; Some (set_settings n oe ou ce cu a))) with
      | None => (w, trail, Raised)
      | Some None => (w, trail, Failure 500 "Failed to update CA")
      | Some (Some a') =>
          (with_tables (update_ca_row i (fun _ => a') (tables w)) w,
           record_event (route_event "ca_updated" i (CaModel.a_descr a')
             ("CA " ^+ CaModel.a_descr a' ^+ " settings updated")) trail,
           Stored 200 a' "CA updated successfully")
      end
  end.

(** * Deleting *)

Definition children (a : CaModel.ca) (d : db) : Z :=
  Z.of_nat (Table.count (fun b => bool_decide (CaModel.a_caref b = Some (CaModel.a_refid a))) (cas d)).
Definition issued (a : CaModel.ca) (d : db) : Z :=
  Z.of_nat (Table.count (fun c => bool_decide (caref c = Some (CaModel.a_refid a))) (certs d)).
Definition remove_ca (i : Z) (w : world) : world :=
  let d := tables w in
  World (Db (Table.delete (fun a => CaModel.a_id a =? i) (cas d)) (certs d) (approvals d)
            (Table.delete (fun m => Pki.m_ca_id m =? i) (crls d)))
        (Table.delete (fun r => r_ca_id r =? i) (responses w)).
Definition ca_name (a : CaModel.ca) (shown : string) : string :=
  if Str.truthy (CaModel.a_descr a) then CaModel.a_descr a else "CA #" ^+ shown.

Definition delete_ca (i : Z) (w : world) (trail : T) : world * T * reply :=
  match get_ca i (tables w) with
  | None => (w, trail, Failure 404 "CA not found")
  | Some a =>
      let d := tables w in
      if 0 <? children a d
      then (w, trail, Failure 409 ("Cannot delete CA: " ^+ Num.str (children a d)
              ^+ " intermediate CA(s) depend on it. Delete them first."))
      else if 0 <? issued a d
      then (w, trail, Failure 409 ("Cannot delete CA: " ^+ Num.str (issued a d)
              ^+ " certificate(s) were issued by it. Revoke and delete them first."))
      else
        let name := ca_name a (Num.str i) in
        (remove_ca i w,
         record_event (route_event "ca_deleted" i name
           ("Deleted CA: " ^+ name ^+ " (cleaned "
            ^+ Num.str (Z.of_nat (Table.count (fun m => Pki.m_ca_id m =? i) (crls d))) ^+ " CRLs, "
            ^+ Num.str (Z.of_nat (Table.count (fun r => r_ca_id r =? i) (responses w))) ^+ " OCSP responses)")) trail,
         NoContent)
  end.

Fixpoint bulk_delete_loop (ids : list json) (r : CertActions.results) (w : world) : world * CertActions.results :=
  match ids with
  | [] => (w, r)
  | j :: ids =>
      match (i ← bind_id j; Some (i ≫= (fun i => get_ca i (tables w)))) with
      | None => bulk_delete_loop ids (CertActions.failed j "Deletion failed" r) w
      | Some None => bulk_delete_loop ids (CertActions.failed j "Not found" r) w
      | Some (Some a) =>
          let d := tables w in
          if 0 <? children a d
          then bulk_delete_loop ids (CertActions.failed j (Num.str (children a d) ^+ " intermediate CA(s) depend on it") r) w
          else if 0 <? issued a d
          then bulk_delete_loop ids (CertActions.failed j (Num.str (issued a d) ^+ " certificate(s) issued by it") r) w
          else bulk_delete_loop ids (CertActions.succeeded j r) (remove_ca (CaModel.a_id a) w)
      end
  end.
Definition bulk_delete_cas (request : json) (w : world) (trail : T) : world * T * CertActions.bulk_reply :=
  match CertActions.bulk_ids request with
  | inr r => (w, trail, r)
  | inl ids =>
      let '(w, r) := bulk_delete_loop ids (CertActions.Results [] []) w in
      let n := Num.str (Z.of_nat (length (CertActions.done_ids r))) in
      (w, record_event (Event "cas_bulk_deleted" (Some "ca")
            (AStr (Str.join "," (List.map py_str (CertActions.done_ids r)))) (AStr (n ^+ " CAs"))
            (AStr ("Bulk deleted " ^+ n ^+ " CAs")) true None) trail,
       CertActions.Bulk r (n ^+ " CAs deleted"))
  end.

End Routes.
End CaRoutes.
