(* ===== verification/CaStore.v ===== *)
(** Importing, listing and exporting certificate authorities: the remaining routes of
    [api/v2/cas.py] but the details of one CA. *)
From S2P Require Import Prelude Base64 Auth AuditSink Encryption Pki CertModel CertListing CaModel CertRoutes CertExport CertImport Ocsp CaRoutes.

Module CaStore.
Import CertModel CertListing CertRoutes Ocsp CaRoutes.
Local Open Scope string_scope.
Local Open Scope list_scope.
Local Open Scope Z_scope.

(** * Importing *)

Section Import.
Context `{Pki.X509} `{Keys} {T} `{AuditSink T}.
Context (secure_filename : string -> string).
Context (load_pem_pkcs7 load_der_pkcs7 : string -> option (list Pki.cert)).
Context (load_der : string -> option Pki.cert).
Context (load_p12 : string -> option string -> option (option string * option Pki.cert)).
Context (to_pem : Pki.cert -> string).
#[local] Abbreviation parse_file := (CertImport.parse_certificate_file load_pem_pkcs7 load_der_pkcs7 load_der load_p12).

(** The row that already has the subject: its key identifier stays. *)
Definition reimported (name pem : string) (key_pem : option string) (i : CertImport.cert_info) (a : CaModel.ca) : CaModel.ca :=
  CaModel.CA (CaModel.a_id a) (CaModel.a_refid a)
    (default "" (CertImport.first_filled name (CertImport.i_cn i) (Some (CaModel.a_descr a)))) (Base64.b64encode pem)
    (match filled key_pem with Some k => Some (Base64.b64encode k) | None => CaModel.a_prv a end)
    (CaModel.a_serial a) (CaModel.a_caref a) (CaModel.a_subject a) (Some (CertImport.i_issuer i))
    (CaModel.a_serial_number a) (CaModel.a_ski a) (Some (CertImport.i_valid_from i)) (Some (CertImport.i_valid_to i))
    (CaModel.a_imported_from a) (CaModel.a_created_at a) (CaModel.a_created_by a) (CaModel.a_owner_group_id a)
    (CaModel.a_cdp_enabled a) (CaModel.a_cdp_url a) (CaModel.a_delta_crl_enabled a) (CaModel.a_delta_crl_interval a)
    (CaModel.a_ocsp_enabled a) (CaModel.a_ocsp_url a) (CaModel.a_hsm_key_id a).

(** What is imported, and under which file name. *)
Definition input (upload : option (string * string)) (form : args) : (string * string) + reply :=
  let pasted :=
    match filled (Json.assoc "pem_content" form) with
    | Some t => inl (t, "pasted.pem")
    | None => inr (Failure 400 "No file or PEM content provided")
    end in
  match upload with
  | Some (filename, data) =>
      if Str.truthy filename
      then match CertImport.validate_upload secure_filename CertImport.CERT_EXTENSIONS filename data with
           | Some r => inl r
           | None => inr (Failure 400 "Invalid file upload")
           end
      else pasted
  | None => pasted
  end.

(** Nothing asks whether the certificate is one of a CA; keys are stored as they are. *)
Definition import_ca (upload : option (string * string)) (form : args) (uuid : string) (now : Z) (w : world) (trail : T)
  : world * T * reply :=
  let fail code m := (w, trail, Failure code m) in
  let form_flag k := String.eqb (Str.lower (arg k "true" form)) "true" in
  match input upload form with
  | inr r => (w, trail, r)
  | inl (data, filename) =>
      let import_key := form_flag "import_key" in
      match parse_file data filename (Json.assoc "password" form) import_key with
      | None => fail 400 "Invalid CA data"
      | Some (x, key) =>
          let i := CertImport.extract_cert_info x in
          let key_pem := if import_key then unencrypted_pem <$> key else None in
          let name := arg "name" "" form in
          let d := tables w in
          match CertImport.find_existing_ca i d with
          | Some a =>
              if negb (form_flag "update_existing")
              then fail 409 ("CA with subject " ^+ CertImport.quoted_name (CertImport.i_cn i) ^+ " already exists (ID: "
                             ^+ Num.str (CaModel.a_id a) ^+ ")")
              else
                let a' := reimported name (to_pem x) key_pem i a in
                (with_tables (update_ca_row (CaModel.a_id a) (fun _ => a') d) w,
                 record_event (route_event "ca_updated" (CaModel.a_id a) (CaModel.a_descr a')
                   ("Updated CA via import: " ^+ CaModel.a_descr a')) trail,
                 Stored 200 a' ("CA " ^+ CertImport.quoted_name (CaModel.a_descr a') ^+ " updated (already existed)"))
          | None =>
              let descr := default "" (CertImport.first_filled name (CertImport.i_cn i) (Some filename)) in
              let a := CertImport.new_ca (Table.next_id CaModel.a_id (cas d)) uuid descr (to_pem x) key_pem i now in
              if existsb (fun b => String.eqb (CaModel.a_refid b) uuid) (cas d) then fail 500 "Import failed"
              else
                (with_tables (with_cas (cas d ++ [a]) d) w,
                 record_event (route_event "ca_imported" (CaModel.a_id a) descr ("Imported CA: " ^+ descr)) trail,
                 Stored 201 a ("CA " ^+ CertImport.quoted_name descr ^+ " imported successfully"))
          end
      end
  end.

End Import.

(** * Listing *)

(** [l[start:stop]] *)
Definition slice_index (n i : Z) : Z := if i <? 0 then Z.max 0 (i + n) else Z.min i n.
Definition py_slice {A} (start stop : Z) (l : list A) : list A :=
  let n := Z.of_nat (length l) in
  let a := slice_index n start in
  take (Z.to_nat (slice_index n stop - a)) (drop (Z.to_nat a) l).

(** [Certificate.issuer.ilike] with the common name as it is: only the escape character is
    not special there. *)
Definition issuer_matches (cn : string) (c : certificate) : bool :=
  let cn := Str.replace bs (bs ^+ bs) cn in
  ilike ("CN=" ^+ cn ^+ ",%") (issuer c) || ilike ("%,CN=" ^+ cn ^+ ",%") (issuer c)
  || ilike ("%,CN=" ^+ cn) (issuer c).
Definition cert_count (a : CaModel.ca) (d : db) : Z :=
  let n := issued a d in
  if (n =? 0) && Str.truthy (CaModel.common_name a)
  then Z.of_nat (Table.count (issuer_matches (CaModel.common_name a)) (certs d)) else n.

Definition newest_first : list CaModel.ca -> list CaModel.ca :=
  CertListing.sort (row_le [(fun a => of_number (CaModel.a_created_at a), true)]).
Definition is_orphan (a : CaModel.ca) : bool :=
  bool_decide (CaModel.a_imported_from a = Some "manual") && negb (CaModel.is_root a)
  && match filled (CaModel.a_caref a) with Some _ => false | None => true end.
Definition listed_cas (q : args) (d : db) : list CaModel.ca :=
  let search := arg "search" "" q in
  List.filter (fun a =>
    (negb (Str.truthy search) || Str.contains (Str.lower search) (Str.lower (CaModel.a_descr a)))
    && (if String.eqb (arg "type" "" q) "orphan" then is_orphan a else true)) (newest_first (cas d)).

Inductive listing := Listing (rows : list (CaModel.ca * Z)) (total page per_page total_pages : Z) | ListingRaised.
(** Each row is shown with its number of certificates; neither the page nor its size is
    checked. *)
Definition list_cas (q : args) (d : db) : listing :=
  let page := int_arg "page" 1 q in
  let per_page := int_arg "per_page" 20 q in
  let l := listed_cas q d in
  let total := Z.of_nat (length l) in
  let start := (page - 1) * per_page in
  if per_page =? 0 then ListingRaised
  else Listing (List.map (fun a => (a, cert_count a d)) (py_slice start (start + per_page) l)) total page per_page
         ((total + per_page - 1) / per_page).

(** [list_ca_certificates], with [utils/pagination.py]. *)
Inductive cert_listing := CertPage (rows : list certificate) (total page per_page total_pages : Z) | NoSuchCA.
Definition list_ca_certificates (i : Z) (q : args) (d : db) : cert_listing :=
  match get_ca i d with
  | None => NoSuchCA
  | Some a =>
      let page := Z.max 1 (int_arg "page" 1 q) in
      let per_page := let n := int_arg "per_page" 20 q in if n <? 1 then 20 else Z.min n 100 in
      let l := CertListing.sort (row_le [(fun c => of_number (created_at c), true)])
                 (List.filter (fun c => bool_decide (caref c = Some (CaModel.a_refid a))) (certs d)) in
      let total := Z.of_nat (length l) in
      CertPage (page_slice page per_page l) total page per_page
        (if 0 <? total then (total + per_page - 1) / per_page else 0)
  end.

(** * Exports *)

Section Exports.
Context `{Pki.X509} `{Keys} `{Fernet} `{CertExport.Formats} (encryption_enabled : bool).
#[local] Abbreviation stored_key := (CertExport.stored_key encryption_enabled).
#[local] Abbreviation File := CertExport.File.

Definition base_name (a : CaModel.ca) : string :=
  CertExport.sanitize_filename (if Str.truthy (CaModel.a_descr a) then CaModel.a_descr a else CaModel.a_refid a).
Definition parent (a : CaModel.ca) (d : db) : option CaModel.ca :=
  filled (CaModel.a_caref a) ≫= (fun r => ca_by_refid r d).

Definition export_key (a : CaModel.ca) (password : option string) : option CertExport.reply :=
  match filled (CaModel.a_prv a) with
  | None => Some (CertExport.Failure 400 "CA has no private key")
  | Some col =>
      key_pem ← stored_key col;
      body ← (match filled password with
              | Some p => k ← Pki.load_key key_pem; CertExport.encrypted_pem k p
              | None => Some key_pem
              end);
      Some (File body (base_name a ^+ ".key"))
  end.

Definition export_pem (a : CaModel.ca) (cert_pem : string) (include_key include_chain : bool) (fuel : nat) (d : db)
  : option (option CertExport.reply) :=
  match (match filled (CaModel.a_prv a) with
         | Some col => if include_key then (fun k => (CertExport.append_part cert_pem k, "_with_key.pem")) <$> stored_key col
                       else Some (cert_pem, ".crt")
         | None => Some (cert_pem, ".crt")
         end) with
  | None => Some None
  | Some (result, suffix) =>
      match filled (CaModel.a_caref a) with
      | Some _ =>
          if include_chain then
            l ← CertExport.ca_walk Base64.b64decode fuel (parent a d) d;
            Some (option_map (fun l => File (fold_left CertExport.append_part l result)
                     (base_name a ^+ (if include_key then "_full_chain.pem" else "_chain.pem"))) l)
          else Some (Some (File result (base_name a ^+ suffix)))
      | None => Some (Some (File result (base_name a ^+ suffix)))
      end
  end.

(** PKCS12 has the CAs above, PFX does not. *)
Definition export_p12 (a : CaModel.ca) (cert_pem : string) (password : option string) (label suffix : string)
    (with_chain : bool) (fuel : nat) (d : db) : option (option CertExport.reply) :=
  match filled password, filled (CaModel.a_prv a) with
  | None, _ => Some (Some (CertExport.Failure 400 ("Password required for " ^+ label ^+ " export")))
  | _, None => Some (Some (CertExport.Failure 400 ("CA has no private key for " ^+ label ^+ " export")))
  | Some p, Some col =>
      match (x ← Pki.load_cert cert_pem; k ← stored_key col; key ← Pki.load_key k; Some (x, key)) with
      | None => Some None
      | Some (x, key) =>
          cas ← (if with_chain then CertExport.ca_walk CertExport.read_cert fuel (parent a d) d else Some (Some []));
          Some (cas ← cas;
                body ← CertExport.serialize_p12
                  (if Str.truthy (CaModel.a_descr a) then CaModel.a_descr a else CaModel.a_refid a) key x cas p;
                Some (File body (base_name a ^+ suffix)))
      end
  end.

Definition export_p7b (a : CaModel.ca) (cert_pem : string) (include_chain : bool) (fuel : nat) (d : db)
  : option (option CertExport.reply) :=
  l ← (if include_chain then CertExport.ca_walk Base64.b64decode fuel (parent a d) d else Some (Some []));
  Some (l ← l;
        body ← CertExport.crl2pkcs7 (fold_left (fun r p => r ^+ CertExport.line_end ^+ p) l cert_pem);
        Some (File body (base_name a ^+ ".p7b"))).

(** The route; [None] when the walk up the CAs does not come to an end. *)
Definition export_ca (i : Z) (q : args) (permissions : json) (fuel : nat) (d : db) : option CertExport.reply :=
  match get_ca i d with
  | None => Some (CertExport.Failure 404 "CA not found")
  | Some a =>
      if negb (Str.truthy (CaModel.a_crt a)) then Some (CertExport.Failure 400 "CA certificate data not available")
      else
      let format := Str.lower (arg "format" "pem" q) in
      let include_key := CertExport.flag_arg "include_key" q in
      let include_chain := CertExport.flag_arg "include_chain" q in
      let password := Json.assoc "password" q in
      match (if include_key || existsb (String.eqb format) ["pkcs12"; "pfx"; "key"]
             then Auth.has_permission "write:cas" permissions else Some true) with
      | None => Some CertExport.Raised
      | Some false => Some (CertExport.Failure 403 "Private key export requires write:cas permission")
      | Some true =>
          CertExport.or_failed <$>
          match Base64.b64decode (CaModel.a_crt a) with
          | None => Some None
          | Some cert_pem =>
              if String.eqb format "key" then Some (export_key a password)
              else if String.eqb format "pem" then export_pem a cert_pem include_key include_chain fuel d
              else if String.eqb format "der" then
                Some ((fun b => File b (base_name a ^+ ".der")) <$> CertExport.to_der cert_pem)
              else if String.eqb format "pkcs12" then export_p12 a cert_pem password "PKCS12" ".p12" true fuel d
              else if existsb (String.eqb format) ["pkcs7"; "p7b"] then export_p7b a cert_pem include_chain fuel d
              else if String.eqb format "pfx" then export_p12 a cert_pem password "PFX" ".pfx" false fuel d
              else Some (Some (CertExport.Failure 400 ("Unsupported format: " ^+ format)))
          end
      end
  end.

Definition export_many (format unsupported : string) (l : list string) : CertExport.reply :=
  if String.eqb format "pem" then CertExport.or_failed ((fun b => File b "ca-certificates.pem") <$> CertExport.concat_pem l)
  else if existsb (String.eqb format) ["pkcs7"; "p7b"]
  then CertExport.or_failed (t ← CertExport.concat_lines l; b ← CertExport.crl2pkcs7 t; Some (File b "ca-certificates.p7b"))
  else CertExport.Failure 400 unsupported.
Definition export_all_cas (q : args) (d : db) : CertExport.reply :=
  match cas d with
  | [] => CertExport.Failure 404 "No CAs to export"
  | l => export_many (Str.lower (arg "format" "pem" q))
           "Bulk export only supports PEM and P7B formats. Use individual export for DER/PKCS12/PFX"
           (List.filter Str.truthy (List.map CaModel.a_crt l))
  end.
Definition bulk_export_cas (request : json) (d : db) : CertExport.reply :=
  if negb (Json.truthy request) then CertExport.Failure 400 "ids array required"
  else if negb (Json.is_dict request) then CertExport.Raised
  else if negb (Json.truthy (Json.get_or "ids" JNull request)) then CertExport.Failure 400 "ids array required"
  else match (f ← as_text (Json.get_or "format" (JStr "pem") request);
              ids ← (match Json.get_or "ids" JNull request with JList l => mapM bind_id l | _ => None end);
              Some (f, ids)) with
  | None => CertExport.Raised
  | Some (f, ids) =>
      match List.filter (fun a => existsb (fun i => bool_decide (i = Some (CaModel.a_id a))) ids) (cas d) with
      | [] => CertExport.Failure 404 "No CAs found"
      | l => export_many (Str.lower f) "Supported formats: pem, p7b" (List.map CaModel.a_crt l)
      end
  end.

End Exports.
End CaStore.
