(* ===== verification/CsrRoutes.v ===== *)
(** Signing requests: [api/v2/csrs.py] with [generate_csr], [sign_csr] and
    [delete_certificate] of [services/cert_service.py], over the columns of the table.

    A request is a row of the table of certificates without a certificate.  [CsrBuilder] is
    the library's builder of requests; issuing is [Pki.trust_sign_csr].  The generated key
    and the random serial number are arguments; files are left out. *)
From S2P Require Import Prelude Base64 AuditSink AuditLog Encryption Pki ApiKeys CertModel Compliance CertListing IpAddress CaModel CertRoutes CertActions CertExport CertImport CaRoutes.

Module CsrRoutes.
Import CertModel CertRoutes.
Local Open Scope string_scope.
Local Open Scope list_scope.
Local Open Scope Z_scope.

Class CsrBuilder `{Pki.X509} := {
  (** a loaded key and what is asked for, to PEM *)
  sign_request : string -> Pki.csr -> option string;
  load_request k q pem : sign_request k q = Some pem -> Pki.load_csr pem = Some q;
}.

(** A row that has nothing but these columns. *)
Definition csr_row (i : Z) (uuid descr : string) (csr : string) (prv subject : option string)
    (dns ip email : option string) (imported_from source created_by : option string) (now : Z) : certificate :=
  Certificate i uuid descr None None (Some csr) prv None subject None None None None None None None None dns ip email
    None None (Some "stored") (Some false) None None (Some false) imported_from (Some now) created_by source None None.

Definition add_row (c : certificate) (d : db) : option db :=
  if existsb (fun b => String.eqb (refid b) (refid c)) (certs d) then None else Some (with_certs (certs d ++ [c]) d).

Section Routes.
Context `{CsrBuilder} `{Keys} `{Fernet} (encryption_enabled : bool) {T} `{AuditSink T} (py_repr : json -> string).
Context (secure_filename : string -> string).
#[local] Abbreviation py_str := (py_str py_repr).

(** * Creating *)

(** The members that are given, in this order. *)
Definition requested_dn (data : json) : option (list (string * json)) :=
  let get k := Json.get_or k JNull data in
  country ← (if Json.truthy (get "country") then as_text (get "country") else Some "");
  let given k v := if Json.truthy v then [(k, v)] else [] in
  Some ([("CN", get "cn")] ++ given "OU" (get "department") ++ given "O" (get "organization")
        ++ given "C" (JStr (Str.upper country))).
(** [dn_error] of the route: each field is validated. *)
Definition dn_error := dn_error py_repr.

Definition requested_key_type (data : json) : option string :=
  let full := Json.get_or "key_type" (JStr "RSA 2048") data in
  let rest (kind dflt : string) :=
    s ← as_text full;
    let t := Str.strip (Str.replace kind "" s) in
    Some (if Str.truthy t then t else dflt) in
  rsa ← Json.contains "RSA" full;
  if rsa : bool then rest "RSA" "2048"
  else ec ← Json.contains "EC" full; if ec : bool then rest "EC" "secp256r1" else Some "2048".

(** The texts that are not addresses are all taken for DNS names. *)
Definition requested_sans (data : json) : option (list string * list string) :=
  l ← Json.elements (Json.get_or "sans" (JList []) data); l ← mapM as_text l;
  let l := List.filter Str.truthy (List.map (fun s => entry_clean (Str.strip s)) l) in
  Some (List.filter (fun s => negb (is_ip s)) l, List.filter is_ip l).

Definition san_extension (dns ip : list string) : option (list Pki.xext) :=
  ips ← mapM (fun s => IpAddress.ip_text <$> IpAddress.ip_of_text s) ip;
  let names := List.map Pki.DNSName dns ++ List.map Pki.IPAddress ips in
  Some (match names with [] => [] | _ => [Pki.Ext (Pki.SubjectAlternativeName names) false] end).

(** [CertificateService.generate_csr]: the key is stored as it is. *)
Definition generate_csr (descr : string) (dn : list (string * json)) (key_type : string) (dns ip : list string)
    (username : string) (generate : key_spec -> option string) (uuid : string) (now : Z) (d : db) (trail : T)
  : option (db * T * certificate) :=
  spec ← Json.assoc key_type CaRoutes.KEY_TYPES;
  key ← generate spec;
  exts ← san_extension dns ip;
  let q := Pki.Csr true (CaRoutes.build_subject py_repr dn) (public_key key) exts in
  pem ← sign_request key q;
  let c := csr_row (Table.next_id id (certs d)) uuid descr (Base64.b64encode pem)
             (Some (Base64.b64encode (unencrypted_pem key))) (Some (Pki.rfc4514 (Pki.q_subject q))) None None None
             (Some "csr_generated") None (Some username) now in
  d ← add_row c d;
  Some (d, record_event (AuditLog.log_csr "csr_generated" (Some descr) (subject c) (id c)
             (Some ("Generated CSR: " ^+ descr)) true) trail, c).

Definition create_csr (request : json) (generate : key_spec -> option string) (uuid username : string) (now : Z)
    (d : db) (trail : T) : db * T * reply :=
  let failed := (d, trail, Failure 500 "Failed to create CSR") in
  let cn := Json.get_or "cn" JNull request in
  if negb (Json.truthy request) then (d, trail, Failure 400 "Common Name (cn) is required")
  else if negb (Json.is_dict request) then (d, trail, Raised)
  else if negb (Json.truthy cn) then (d, trail, Failure 400 "Common Name (cn) is required")
  else match requested_dn request with
  | None => failed
  | Some dn =>
      match dn_error dn with
      | Some e => (d, trail, Failure 400 e)
      | None =>
          match (k ← requested_key_type request; sans ← requested_sans request;
                 generate_csr ("CSR for " ^+ py_str cn) dn k sans.1 sans.2 username generate uuid now d trail) with
          | None => failed
          | Some (d, trail, c) =>
              (d, record_event (Event "csr_create" (Some "csr") (AStr (Num.str (id c))) (AStr (py_str cn))
                    (AStr ("Created CSR for: " ^+ py_str cn)) true None) trail,
               Success 201 c "CSR created successfully")
          end
      end
  end.

(** * Uploading and importing *)

(** The last attribute of a type. *)
Definition last_attribute (k : string) (n : Pki.name) : option string :=
  snd <$> last (List.filter (fun p => String.eqb p.1 k) n).
Definition subject_text (n : Pki.name) : string :=
  let part k := match filled (last_attribute k n) with Some v => [k ^+ "=" ^+ v] | None => [] end in
  match (part "CN" ++ part "O" ++ part "OU")%list with [] => "Unknown" | l => Str.join ", " l end.
Definition name_or (name : json) (cn : option string) (dflt : string) : json :=
  if Json.truthy name then name else JStr (default dflt (filled cn)).

(** A PEM text that is no text at all is refused by the library; [g.username], which the row
    would be credited to, is set nowhere. *)
Definition upload_csr (request : json) (uuid : string) (now : Z) (d : db) (trail : T) : db * T * reply :=
  if negb (Json.truthy request) then (d, trail, Failure 400 "PEM content required")
  else if negb (Json.is_dict request) then (d, trail, Raised)
  else if negb (Json.truthy (Json.get_or "pem" JNull request)) then (d, trail, Failure 400 "PEM content required")
  else match (pem ← as_text (Json.get_or "pem" JNull request); q ← Pki.load_csr pem;
              let cn := last_attribute "CN" (Pki.q_subject q) in
              descr ← Json.bind_text (name_or (Json.get_or "name" (JStr "") request) cn "Uploaded CSR");
              let c := csr_row (Table.next_id id (certs d)) uuid descr (Base64.b64encode pem) None
                         (Some (subject_text (Pki.q_subject q))) None None None None (Some "upload") (Some "system") now in
              d ← add_row c d; Some (d, c, cn)) with
  | None => (d, trail, Failure 500 "Failed to upload CSR")
  | Some (d, c, cn) =>
      (d, record_event (Event "csr_uploaded" (Some "csr") (AInt (id c)) (match cn with Some s => AStr s | None => ANone end)
            (AStr ("CSR uploaded: " ^+ default "" (subject c))) true None) trail,
       Success 201 c "CSR uploaded successfully")
  end.

(** The lists of names are stored as Python shows them. *)
Definition shown_list (l : list string) : option string :=
  match l with [] => None | _ => Some (py_repr (Json.strings l)) end.
Definition import_csr (upload : option (string * string)) (form : CertListing.args) (uuid : string) (now : Z)
    (d : db) (trail : T) : db * T * reply :=
  let pasted :=
    match filled (Json.assoc "pem_content" form) with
    | Some t => inl t
    | None => inr (Failure 400 "No file or PEM content provided")
    end in
  match (match upload with
         | Some (filename, data) =>
             if Str.truthy filename
             then match CertImport.validate_upload secure_filename CertImport.CERT_EXTENSIONS filename data with
                  | Some (data, _) => inl data
                  | None => inr (Failure 400 "Invalid file upload")
                  end
             else pasted
         | None => pasted
         end) with
  | inr r => (d, trail, r)
  | inl pem =>
      match (q ← Pki.load_csr pem;
             let cn := last_attribute "CN" (Pki.q_subject q) in
             let ns := default [] (Pki.san_names (Pki.q_extensions q)) in
             let name := CertListing.arg "name" "" form in
             let descr := if Str.truthy name then name else default "Imported CSR" (filled cn) in
             let c := csr_row (Table.next_id id (certs d)) uuid descr (Base64.b64encode pem) None
                        (Some (Pki.rfc4514 (Pki.q_subject q))) (shown_list (Pki.dns_list ns)) (shown_list (Pki.ip_list ns))
                        (shown_list (Pki.email_list ns)) None None (Some "import") now in
             d ← add_row c d; Some (d, c)) with
      | None => (d, trail, Failure 500 "Import failed")
      | Some (d, c) =>
          (d, record_event (Event "csr_imported" (Some "csr") (AInt (id c)) (AStr (descr c))
                (AStr ("Imported CSR: " ^+ descr c)) true None) trail,
           Success 201 c ("CSR " ^+ CertImport.quoted_name (descr c) ^+ " imported successfully"))
      end
  end.

(** * Signing *)

Definition stored_list (l : list string) (old : option string) : option string :=
  match l with [] => old | _ => Some (Json.dumps (Json.strings l)) end.
Definition signed_row (ca_ref ct pem : string) (x : Pki.cert) (c : certificate) : certificate :=
  let subject_str := Pki.rfc4514 (Pki.x_subject x) in
  let ns := default [] (Pki.san_names (Pki.x_extensions x)) in
  let cn := Pki.cn_of_subject subject_str in
  let cn := match filled cn, Pki.dns_list ns with None, s :: _ => Some s | _, _ => cn end in
  let cn := match filled cn with None => if Str.truthy (descr c) then Some (descr c) else cn | _ => cn end in
  Certificate (id c) (refid c) (descr c) (Some ca_ref) (Some (Base64.b64encode pem)) (csr c) (prv c) (Some ct)
    (if Str.truthy subject_str then Some subject_str else None) cn (Some (Pki.rfc4514 (Pki.x_issuer x)))
    (Some (Num.str (Pki.x_serial x))) (aki c) (ski c) (Some (Pki.x_not_before x)) (Some (Pki.x_not_after x)) (key_algo c)
    (stored_list (Pki.dns_list ns) (san_dns c)) (stored_list (Pki.ip_list ns) (san_ip c))
    (stored_list (Pki.email_list ns) (san_email c)) (san_uri c) (ocsp_uri c) (private_key_location c) (revoked c)
    (revoked_at c) (revoke_reason c) (archived c) (imported_from c) (created_at c) (created_by c) (source c)
    (template_id c) (owner_group_id c).

(** The text of the request: columns of older versions hold the PEM itself. *)
Definition csr_text (col : string) : option string :=
  if Str.startswith col "-----BEGIN" then Some col else Base64.b64decode col.

(** [CertificateService.sign_csr]; [None] is an exception.  The key of the CA is read without
    decrypting it, and nothing compares the validity with that of the CA. *)
Definition service_sign (i : Z) (a : CaModel.ca) (ct : string) (validity_days : json) (serial now : Z)
    (d : db) (trail : T) : option (db * T * certificate) :=
  c ← get_cert i d;
  col ← filled (csr c);
  match filled (crt c) with
  | Some _ => None
  | None =>
      prv ← filled (CaModel.a_prv a);
      ca_cert ← CaRoutes.load_ca_cert a;
      k ← Base64.b64decode prv; key ← Pki.load_key k;
      q ← csr_text col;
      days ← Compliance.as_number validity_days;
      if negb (ApiKeys.days_ok days now) then None
      else
      pem ← Pki.trust_sign_csr q ca_cert key days "sha256" ct serial now;
      x ← Pki.load_cert pem;
      let c' := signed_row (CaModel.a_refid a) ct pem x c in
      Some (CaRoutes.update_ca_row (CaModel.a_id a) CaRoutes.bump_serial (update_cert i (fun _ => c') d),
            record_event (AuditLog.log_certificate "csr_signed" (Some (descr c')) (subject c') i
              (Some ("Signed CSR: " ^+ descr c')) true) trail, c')
  end.

Definition cert_type_map : list (string * string) :=
  [("server", "server_cert"); ("client", "client_cert"); ("combined", "combined_cert"); ("code_signing", "code_signing");
   ("email", "email_cert"); ("intermediate_ca", "intermediate_ca")].
Definition backend_cert_type (j : json) : option string :=
  if negb (hashable j) then None
  else Some (default "server_cert" (match j with JStr s => Json.assoc s cert_type_map | _ => None end)).
(** [CA.query.get(ca_id)]; the outer [None] is an exception. *)
Definition query_ca (j : json) (d : db) : option (option CaModel.ca) :=
  i ← bind_id j; Some (i ≫= (fun i => CaRoutes.get_ca i d)).
Definition can_sign (a : CaModel.ca) : bool :=
  Str.truthy (CaModel.a_crt a) && AuditLog.otruthy (CaModel.a_prv a).

Definition sign_csr (i : Z) (request : json) (serial now : Z) (d : db) (trail : T) : db * T * reply :=
  let fail code m := (d, trail, Failure code m) in
  match get_cert i d with
  | None => fail 404 "CSR not found"
  | Some c =>
      if negb (AuditLog.otruthy (csr c)) then fail 400 "No CSR data found"
      else if AuditLog.otruthy (crt c) then fail 400 "CSR already signed"
      else
      let data := if Json.truthy request then request else JDict [] in
      if negb (Json.is_dict data) then (d, trail, Raised)
      else
      let ca_id := Json.get_or "ca_id" JNull data in
      let days := Json.get_or "validity_days" (JInt 365) data in
      match backend_cert_type (Json.get_or "cert_type" (JStr "server") data) with
      | None => (d, trail, Raised)
      | Some ct =>
          if negb (Json.truthy ca_id) then fail 400 "CA ID required"
          else match query_ca ca_id d with
          | None => (d, trail, Raised)
          | Some None => fail 404 "CA not found"
          | Some (Some a) =>
              if negb (can_sign a) then fail 400 "CA is not valid for signing"
              else match service_sign i a ct days serial now d trail with
              | None => fail 500 "Failed to sign CSR"
              | Some (d, trail, c') =>
                  (d, record_event (Event "csr_signed" (Some "certificate") (AInt i)
                        (match subject c' with Some s => AStr s | None => ANone end)
                        (AStr ("CSR signed by CA " ^+ CaModel.a_descr a ^+ " (id=" ^+ py_str ca_id ^+ "), validity="
                               ^+ py_str days ^+ " days")) true None) trail,
                   Success 200 c' "CSR signed successfully")
              end
          end
      end
  end.

Definition csr_bulk_event (action verb tail : string) (r : CertActions.results) : event :=
  let n := Num.str (Z.of_nat (length (CertActions.done_ids r))) in
  Event action (Some "csr") (AStr (Str.join "," (List.map py_str (CertActions.done_ids r)))) (AStr (n ^+ " CSRs"))
    (AStr ("Bulk " ^+ verb ^+ " " ^+ n ^+ " CSRs" ^+ tail)) true None.
Definition csr_bulk_message (verb : string) (r : CertActions.results) : string :=
  Num.str (Z.of_nat (length (CertActions.done_ids r))) ^+ " CSRs " ^+ verb.

Fixpoint bulk_sign_loop (a : CaModel.ca) (days : json) (serial now : nat -> Z) (n : nat) (ids : list json)
    (r : CertActions.results) (d : db) (trail : T) : db * T * CertActions.results :=
  match ids with
  | [] => (d, trail, r)
  | i :: ids =>
      let next := bulk_sign_loop a days serial now (S n) ids in
      match CertActions.query_get i d with
      | None => next (CertActions.failed i "Signing failed" r) d trail
      | Some None => next (CertActions.failed i "Not found" r) d trail
      | Some (Some c) =>
          if negb (AuditLog.otruthy (csr c)) then next (CertActions.failed i "No CSR data" r) d trail
          else if AuditLog.otruthy (crt c) then next (CertActions.failed i "Already signed" r) d trail
          else match service_sign (id c) a "server_cert" days (serial n) (now n) d trail with
          | None => next (CertActions.failed i "Signing failed" r) d trail
          | Some (d, trail, _) => next (CertActions.succeeded i r) d trail
          end
      end
  end.
Definition bulk_sign_csrs (request : json) (serial now : nat -> Z) (d : db) (trail : T)
  : db * T * CertActions.bulk_reply :=
  let field k := Json.get_or k JNull request in
  if negb (Json.truthy request) then (d, trail, CertActions.BulkFailure 400 "ids array required")
  else if negb (Json.is_dict request) then (d, trail, CertActions.BulkRaised)
  else if negb (Json.truthy (field "ids")) then (d, trail, CertActions.BulkFailure 400 "ids array required")
  else if negb (Json.truthy (field "ca_id")) then (d, trail, CertActions.BulkFailure 400 "ca_id required")
  else match query_ca (field "ca_id") d with
  | None => (d, trail, CertActions.BulkRaised)
  | Some a =>
      match (a ← a; if can_sign a then Some a else None), Json.elements (field "ids") with
      | None, _ => (d, trail, CertActions.BulkFailure 404 "CA not found or not valid for signing")
      | _, None => (d, trail, CertActions.BulkRaised)
      | Some a, Some ids =>
          let '(d, trail, r) := bulk_sign_loop a (Json.get_or "validity_days" (JInt 365) request) serial now 0 ids
                                  (CertActions.Results [] []) d trail in
          (d, record_event (csr_bulk_event "csrs_bulk_signed" "signed" (" with CA " ^+ CaModel.a_descr a) r) trail,
           CertActions.Bulk r (csr_bulk_message "signed" r))
      end
  end.

(** * Deleting *)

(** [CertificateService.delete_certificate]: any row of the table; approval requests that
    name it stay. *)
Definition service_delete (i : Z) (d : db) (trail : T) : option (db * T) :=
  c ← get_cert i d;
  Some (with_certs (Table.delete (fun c => id c =? i) (certs d)) d,
        record_event (AuditLog.log_certificate "cert_deleted" (Some (descr c)) (subject c) i
          (Some ("Deleted certificate: " ^+ descr c)) true) trail).
Definition delete_csr (i : Z) (d : db) (trail : T) : db * T * CertActions.outcome :=
  match service_delete i d trail with
  | None => (d, trail, CertActions.Finished (Failure 404 "CSR not found"))
  | Some (d, trail) =>
      (d, record_event (Event "csr_delete" (Some "csr") (AStr (Num.str i)) (AStr ("CSR " ^+ Num.str i))
            (AStr ("Deleted CSR " ^+ Num.str i)) true None) trail, CertActions.Deleted)
  end.

Fixpoint bulk_delete_loop (ids : list json) (r : CertActions.results) (d : db) (trail : T)
  : db * T * CertActions.results :=
  match ids with
  | [] => (d, trail, r)
  | j :: ids =>
      match CertActions.query_get j d with
      | None => bulk_delete_loop ids (CertActions.failed j "Deletion failed" r) d trail
      | Some c =>
          match (c ← c; service_delete (id c) d trail) with
          | None => bulk_delete_loop ids (CertActions.failed j "Not found" r) d trail
          | Some (d, trail) => bulk_delete_loop ids (CertActions.succeeded j r) d trail
          end
      end
  end.
Definition bulk_delete_csrs (request : json) (d : db) (trail : T) : db * T * CertActions.bulk_reply :=
  match CertActions.bulk_ids request with
  | inr r => (d, trail, r)
  | inl ids =>
      let '(d, trail, r) := bulk_delete_loop ids (CertActions.Results [] []) d trail in
      (d, record_event (csr_bulk_event "csrs_bulk_deleted" "deleted" "" r) trail,
       CertActions.Bulk r (csr_bulk_message "deleted" r))
  end.

(** * Attaching a key *)

(** The key is not compared with the one of the request. *)
Definition upload_csr_private_key (i : Z) (request : json) (iv : nat) (username : string) (d : db) (trail : T)
  : db * T * reply :=
  let fail code m := (d, trail, Failure code m) in
  match get_cert i d with
  | None => fail 404 "CSR not found"
  | Some c =>
      if negb (AuditLog.otruthy (csr c)) || AuditLog.otruthy (crt c) then fail 400 "Not a pending CSR"
      else if has_private_key c then fail 400 "CSR already has a private key"
      else if Json.truthy request && negb (Json.is_dict request) then (d, trail, Raised)
      else if negb (Json.truthy (Json.get_or "key" JNull request)) then fail 400 "Private key is required"
      else match as_text (Json.get_or "key" JNull request) with
      | None => (d, trail, Raised)
      | Some key =>
          let key_data := Str.strip key in
          match (if Str.startswith key_data "-----BEGIN" then Some key_data else pem_text key_data) with
          | None => fail 400 "Invalid key format - must be PEM or base64-encoded PEM"
          | Some key_data =>
              if negb (Str.contains "PRIVATE KEY" key_data) then fail 400 "Invalid private key format"
              else
              let passphrase := Json.get_or "passphrase" JNull request in
              match (if Json.truthy passphrase then Some <$> as_text passphrase else Some None) with
              | None => fail 500 "Failed to upload private key"
              | Some password =>
                  match load_with_password key_data password with
                  | NeedsPassword => fail 400 "Private key is encrypted - please provide passphrase"
                  | BadKey => fail 400 "Invalid private key format"
                  | Loaded k =>
                      let c' := CertActions.set_prv (Encryption.encrypt_private_key encryption_enabled iv
                                  (Base64.b64encode (unencrypted_pem k))) c in
                      (update_cert i (fun _ => c') d,
                       record_event (Event "csr_key_uploaded" (Some "csr") (AInt i)
                         (AStr (if Str.truthy (descr c) then descr c else "CSR #" ^+ Num.str i))
                         (AStr ("Private key uploaded by " ^+ username)) true None) trail,
                       Success 200 c' "Private key uploaded successfully")
                  end
              end
          end
      end
  end.

(** * Reading *)

Definition newest : list certificate -> list certificate :=
  CertListing.sort (CertListing.row_le [(fun c => CertListing.of_number (created_at c), true)]).
Definition is_null (c : option string) : bool := match c with None => true | Some _ => false end.
(** One page of the rows that are pending, or have been signed; with the total. *)
Definition listing (p : certificate -> bool) (q : CertListing.args) (d : db) : list certificate * Z :=
  let l := newest (List.filter p (certs d)) in
  (CertListing.page_slice (CertListing.page_of q) (CertListing.per_page_of q) l, Z.of_nat (length l)).
Definition list_csrs := listing (fun c => negb (is_null (csr c)) && is_null (crt c)).
Definition list_csrs_history := listing (fun c => negb (is_null (csr c)) && negb (is_null (crt c))).

(** The name of the CA that signed, as the history shows it. *)
Definition signed_by (d : db) (c : certificate) : string :=
  match filled (caref c) ≫= (fun r => last (List.filter (fun a => String.eqb (CaModel.a_refid a) r) (cas d))) with
  | Some a => CaModel.a_descr a
  | None => if Str.truthy (issuer_name c) then issuer_name c else "Unknown CA"
  end.

Definition export_csr (i : Z) (d : db) : CertExport.reply :=
  match get_cert i d ≫= (fun c => col ← filled (csr c); Some (c, col)) with
  | None => CertExport.Failure 404 "CSR not found"
  | Some (c, col) =>
      CertExport.or_failed (body ← Base64.b64decode col; Some (CertExport.File body (CertExport.base_name c ^+ ".csr")))
  end.

End Routes.
End CsrRoutes.
