(* ===== verification/CaFlow.v ===== *)
(** The tables of CAs and certificates under all the routes that write them: the links
    between rows stay whole, the CAs form a forest, and so every walk up the CAs ends. *)
From S2P Require Import Prelude Base64 AuditSink AuditLog Encryption Pki CertModel CertListing CaModel CertRoutes CertActions CertExport CertImport CertRoutesFacts Ocsp CaRoutes CaStore CsrRoutes.

Module CaFacts.
Import CertModel CertRoutes Ocsp.
Local Open Scope string_scope.
Local Open Scope list_scope.
Local Open Scope Z_scope.

(** * Links *)

(** What the links of a CA are made of. *)
Definition links (a : CaModel.ca) : Z * string * option string := (CaModel.a_id a, CaModel.a_refid a, CaModel.a_caref a).
Definition names (d : db) (r : string) : Prop := exists p, In p (cas d) /\ CaModel.a_refid p = r.

(** Identifiers are unique; the CA a CA refers to is there and older, that of a
    certificate is there. *)
Record linked (d : db) : Prop := {
  unique_ids : NoDup (List.map CaModel.a_id (cas d));
  unique_refids : NoDup (List.map CaModel.a_refid (cas d));
  parents_older a r : In a (cas d) -> CaModel.a_caref a = Some r ->
    exists p, In p (cas d) /\ CaModel.a_refid p = r /\ CaModel.a_id p < CaModel.a_id a;
  issuers_there c r : In c (certs d) -> caref c = Some r -> names d r;
}.

(** A change that keeps the CAs' links and gives certificates issuers that are there. *)
Definition keeps (d d' : db) : Prop :=
  List.map links (cas d') = List.map links (cas d)
  /\ forall c' r, In c' (certs d') -> caref c' = Some r -> (exists c, In c (certs d) /\ caref c = Some r) \/ names d r.

Lemma links_In (l l' : list CaModel.ca) a :
  List.map links l' = List.map links l -> In a l' -> exists b, In b l /\ links b = links a.
Proof.
  intros E Ha. apply (in_map links) in Ha. rewrite E in Ha. apply in_map_iff in Ha as (b & Hb & Hin). by exists b.
Qed.
Lemma links_refids (l l' : list CaModel.ca) :
  List.map links l' = List.map links l -> List.map CaModel.a_refid l' = List.map CaModel.a_refid l.
Proof. intros E. apply (f_equal (List.map (fun p => p.1.2))) in E. by rewrite !List.map_map in E. Qed.
Lemma links_ids (l l' : list CaModel.ca) :
  List.map links l' = List.map links l -> List.map CaModel.a_id l' = List.map CaModel.a_id l.
Proof. intros E. apply (f_equal (List.map (fun p => p.1.1))) in E. by rewrite !List.map_map in E. Qed.

Lemma names_links d d' r : List.map links (cas d') = List.map links (cas d) -> names d r -> names d' r.
Proof.
  intros E (p & Hp & <-). destruct (links_In (cas d') (cas d) p (eq_sym E) Hp) as (b & Hb & Hl).
  exists b. split; [done|]. by injection Hl.
Qed.

Lemma keeps_linked d d' : keeps d d' -> linked d -> linked d'.
Proof.
  intros [E Hc] [Hi Hr Hp Hn]. split.
  - by rewrite (links_ids _ _ E).
  - by rewrite (links_refids _ _ E).
  - intros a r Ha Er. destruct (links_In _ _ _ E Ha) as (b & Hb & [= Eid _ Eref]).
    destruct (Hp b r Hb ltac:(congruence)) as (p & Hin & Erp & Hlt).
    destruct (links_In _ _ p (eq_sym E) Hin) as (q & Hq & [= Eq1 Eq2 _]).
    exists q. split_and!; [done|congruence|lia].
  - intros c r Hin Er. apply (names_links d); [done|].
    destruct (Hc c r Hin Er) as [(c0 & Hc0 & E0)|]; [by apply (Hn c0)|done].
Qed.

Lemma keeps_refl d : keeps d d.
Proof. split; [done|]. intros c r Hc Er. left. by exists c. Qed.
Lemma keeps_trans d1 d2 d3 : keeps d1 d2 -> keeps d2 d3 -> keeps d1 d3.
Proof.
  intros [E1 H1] [E2 H2]. split; [by rewrite E2|]. intros c r Hc Er.
  destruct (H2 c r Hc Er) as [(c0 & H0 & E0)|Hn]; [by apply (H1 c0)|right].
  by apply (names_links d2); [rewrite E1|].
Qed.

Lemma map_update_same {A B} (g : A -> B) p f l : (forall x, g (f x) = g x) -> List.map g (Table.update p f l) = List.map g l.
Proof.
  intros Hf. unfold Table.update. rewrite List.map_map. apply map_ext. intros x. destruct (p x); [apply Hf|done].
Qed.

(** The kinds of change. *)
Lemma keeps_cas d l : List.map links l = List.map links (cas d) -> keeps d (CaRoutes.with_cas l d).
Proof. intros E. split; [done|]. intros c r Hc Er. left. by exists c. Qed.
Lemma keeps_certs d d' : cas d' = cas d ->
  (forall c', In c' (certs d') -> In c' (certs d) \/ caref c' = None
     \/ (exists c, In c (certs d) /\ caref c' = caref c) \/ exists a, In a (cas d) /\ caref c' = Some (CaModel.a_refid a)) ->
  keeps d d'.
Proof.
  intros Ea Hc. split; [by rewrite Ea|]. intros c' r Hin Er.
  destruct (Hc c' Hin) as [?|[?|[(c & ? & Ec)|(a & ? & Ec)]]].
  - left. by exists c'.
  - congruence.
  - left. exists c. split; [done|congruence].
  - right. exists a. split; [done|congruence].
Qed.
Lemma keeps_add d c : caref c = None \/ (exists a, In a (cas d) /\ caref c = Some (CaModel.a_refid a)) ->
  keeps d (with_certs (certs d ++ [c]) d).
Proof.
  intros Hc. apply keeps_certs; [done|]. intros c' Hin. cbn in Hin. apply in_app_or in Hin as [|[->|[]]]; [by left|].
  destruct Hc as [|Hc]; [by right; left|]. by do 3 right.
Qed.
Lemma keeps_update d i c' :
  (exists c, In c (certs d) /\ caref c' = caref c) \/ (exists a, In a (cas d) /\ caref c' = Some (CaModel.a_refid a)) ->
  keeps d (update_cert i (fun _ => c') d).
Proof.
  intros Hc. apply keeps_certs; [done|]. intros c Hin. cbn in Hin. apply Table.In_update in Hin as (x & Hx & Ex).
  destruct (id x =? i); subst c; [|by left]. by do 2 right.
Qed.
Lemma keeps_sub d l : (forall c, In c l -> In c (certs d)) -> keeps d (with_certs l d).
Proof. intros Hl. apply keeps_certs; [done|]. intros c Hc. left. by apply Hl. Qed.
Lemma keeps_ca d i f : (forall a, links (f a) = links a) -> keeps d (CaRoutes.update_ca_row i f d).
Proof. intros Hf. apply keeps_cas, map_update_same, Hf. Qed.

Lemma cert_row_In i d c : get_cert i d = Some c -> In c (certs d) /\ id c = i.
Proof. intros [Hin E]%Table.first_Some. split; [done|]. by apply Z.eqb_eq. Qed.
Lemma get_ca_In i d a : CaRoutes.get_ca i d = Some a -> In a (cas d) /\ CaModel.a_id a = i.
Proof. intros [Hin E]%Table.first_Some. split; [done|]. by apply Z.eqb_eq. Qed.

(** A row with the links of the one it replaces. *)
Lemma keeps_ca_row d i a a' : CaRoutes.get_ca i d = Some a -> NoDup (List.map CaModel.a_id (cas d)) ->
  links a' = links a -> keeps d (CaRoutes.update_ca_row i (fun _ => a') d).
Proof.
  intros [Ha Ei]%get_ca_In Hnd El. apply keeps_cas. unfold Table.update. rewrite List.map_map. apply map_ext_in. intros b Hb.
  destruct (Z.eqb_spec (CaModel.a_id b) i) as [E|]; [|done]. rewrite El. f_equal.
  by apply (Table.NoDup_map_eq CaModel.a_id (cas d)); [| | |congruence].
Qed.

(** A new CA below one that is there, and the removal of one that nothing refers to. *)
Lemma linked_add d a : linked d -> CaModel.a_id a = Table.next_id CaModel.a_id (cas d) ->
  existsb (fun b => String.eqb (CaModel.a_refid b) (CaModel.a_refid a)) (cas d) = false ->
  CaModel.a_caref a = None \/ (exists p, In p (cas d) /\ CaModel.a_caref a = Some (CaModel.a_refid p)) ->
  linked (CaRoutes.with_cas (cas d ++ [a]) d).
Proof.
  intros [Hi Hr Hp Hn] Eid Hfresh Hpar.
  assert (forall b, In b (cas d) -> CaModel.a_refid b <> CaModel.a_refid a) as Hdiff.
  { intros b Hb E. assert (existsb (fun b => String.eqb (CaModel.a_refid b) (CaModel.a_refid a)) (cas d) = true); [|congruence].
    apply existsb_exists. exists b. split; [done|]. by apply String.eqb_eq. }
  split; cbn.
  - apply Table.NoDup_map_snoc; [done|]. intros b Hb E. pose proof (Table.next_id_fresh CaModel.a_id (cas d) b Hb). rewrite E, Eid in H. by apply Z.lt_irrefl in H.
  - apply Table.NoDup_map_snoc; [done|]. intros b Hb. by apply Hdiff.
  - intros b r Hb Er. apply in_app_or in Hb as [Hb|[->|[]]].
    + destruct (Hp b r Hb Er) as (p & ? & ? & ?). exists p. split_and!; [apply in_or_app; by left|done|done].
    + destruct Hpar as [|(p & Hin & E)]; [congruence|]. exists p. split_and!; [apply in_or_app; by left|congruence|].
      rewrite Eid. by apply Table.next_id_fresh.
  - intros c r Hc Er. destruct (Hn c r Hc Er) as (p & ? & ?). exists p. split; [apply in_or_app; by left|done].
Qed.

Lemma not_counted {A} p (l : list A) x : (0 <? Z.of_nat (Table.count p l)) = false -> In x l -> p x = false.
Proof.
  intros Hz Hx. destruct (p x) eqn:E; [|done]. assert (In x (Table.all p l)) as Hin by (by apply Table.In_all).
  unfold Table.count in Hz. destruct (Table.all p l); [done|]. apply Z.ltb_ge in Hz. cbn [length] in Hz. lia.
Qed.
Lemma linked_remove i w a : linked (tables w) -> CaRoutes.get_ca i (tables w) = Some a ->
  (0 <? CaRoutes.children a (tables w)) = false -> (0 <? CaRoutes.issued a (tables w)) = false ->
  linked (tables (CaRoutes.remove_ca i w)).
Proof.
  intros [Hi Hr Hp Hn] [Ha Ei]%get_ca_In Hch Hiss. unfold CaRoutes.remove_ca. split; cbn.
  - by apply Table.NoDup_map_delete.
  - by apply Table.NoDup_map_delete.
  - intros b r [Hb Hbi]%Table.In_delete Er. destruct (Hp b r Hb Er) as (p & Hin & Epr & Hlt). exists p. split_and!; try done.
    apply Table.In_delete. split; [done|]. apply Z.eqb_neq. intros Epi.
    assert (p = a) as -> by (by apply (Table.NoDup_map_eq CaModel.a_id (cas (tables w))); [| | |congruence]).
    pose proof (not_counted _ _ b Hch Hb) as Hnc. cbn in Hnc. apply bool_decide_eq_false in Hnc. congruence.
  - intros c r Hc Er. destruct (Hn c r Hc Er) as (p & Hin & Epr). exists p. split; [|done]. apply Table.In_delete. split; [done|].
    apply Z.eqb_neq. intros Epi.
    assert (p = a) as -> by (by apply (Table.NoDup_map_eq CaModel.a_id (cas (tables w))); [| | |congruence]).
    pose proof (not_counted _ _ c Hiss Hc) as Hnc. cbn in Hnc. apply bool_decide_eq_false in Hnc. congruence.
Qed.

(** * Walks end *)

Definition below (i : Z) (l : list CaModel.ca) : nat := Table.count (fun b => CaModel.a_id b <? i) l.
Lemma below_lt p a l : In p l -> CaModel.a_id p < CaModel.a_id a -> (below (CaModel.a_id p) l < below (CaModel.a_id a) l)%nat.
Proof.
  unfold below, Table.count, Table.all. intros Hp Hlt. induction l as [|b l IH]; [done|].
  assert (forall l, (length (List.filter (fun b => (CaModel.a_id b <? CaModel.a_id p)%Z) l)
          <= length (List.filter (fun b => (CaModel.a_id b <? CaModel.a_id a)%Z) l))%nat) as Hle.
  { intros l'. induction l' as [|x l' IHl]; [done|]. cbn. destruct (Z.ltb_spec (CaModel.a_id x) (CaModel.a_id p)), (Z.ltb_spec (CaModel.a_id x) (CaModel.a_id a)); cbn; lia. }
  cbn. destruct Hp as [->|Hp].
  - rewrite Z.ltb_irrefl. destruct (Z.ltb_spec (CaModel.a_id p) (CaModel.a_id a)); [|lia]. cbn. specialize (Hle l). lia.
  - specialize (IH Hp). destruct (Z.ltb_spec (CaModel.a_id b) (CaModel.a_id p)), (Z.ltb_spec (CaModel.a_id b) (CaModel.a_id a)); cbn; lia.
Qed.
Lemma below_all i l : (below i l <= length l)%nat.
Proof. apply List.filter_length_le. Qed.

Lemma walk_ends {A} (f : string -> option A) d fuel a : linked d -> In a (cas d) -> (below (CaModel.a_id a) (cas d) < fuel)%nat ->
  CertExport.ca_walk f fuel (Some a) d <> None.
Proof.
  intros Hd. revert a. induction fuel as [|fuel IH]; intros a Ha Hf; [lia|]. cbn [CertExport.ca_walk].
  destruct (if Str.truthy _ then _ else _) as [x|]; [|done].
  destruct (filled (CaModel.a_caref a)) as [r|] eqn:Er; [|done].
  assert (CaModel.a_caref a = Some r) as Ec by (unfold filled in Er; repeat case_match; congruence).
  destruct (parents_older d Hd a r Ha Ec) as (p & Hp & Epr & Hlt).
  assert (ca_by_refid r d = Some p) as ->.
  { unfold ca_by_refid. destruct (Table.first _ (cas d)) as [q|] eqn:Eq.
    - apply Table.first_Some in Eq as [Hq Eqr%String.eqb_eq]. f_equal.
      apply (Table.NoDup_map_eq CaModel.a_refid (cas d)); try done; [apply Hd|congruence].
    - pose proof (Table.first_None _ _ p Eq Hp) as E. cbn in E. by rewrite Epr, String.eqb_refl in E. }
  pose proof (below_lt p a (cas d) Hp Hlt). specialize (IH p Hp ltac:(lia)).
  by destruct (CertExport.ca_walk f fuel (Some p) d) as [[]|].
Qed.

End CaFacts.

(** Everything that can happen to the tables of CAs and certificates: the routes of
    [api/v2/cas.py], [csrs.py] and [certificates.py] as one step relation, which keeps the
    tables linked ([CaFacts]). *)
Module CaFlow.
Import CertModel CertRoutes Ocsp CaFacts.
Local Open Scope string_scope.
Local Open Scope list_scope.
Local Open Scope Z_scope.

Section Flow.
Context `{CsrRoutes.CsrBuilder} `{Keys} `{Fernet} (encryption_enabled : bool) {T} `{AuditSink T}.
Context (library_error : string) (py_repr : json -> string) (secure_filename : string -> string).
Context (load_pem_pkcs7 load_der_pkcs7 : string -> option (list Pki.cert)) (load_der : string -> option Pki.cert).
Context (load_p12 : string -> option string -> option (option string * option Pki.cert)) (to_pem : Pki.cert -> string).

(** What happens to the tables alone. *)
Inductive table_step (d : db) : db -> Prop :=
| CreateCertificate q gen serial uuid u now (t t' : T) d' r :
    create_certificate py_repr q gen serial uuid u now d t = (d', t', r) -> table_step d d'
| RenewCertificate i gen serial now (t t' : T) d' r : renew_certificate i gen serial now d t = (d', t', r) -> table_step d d'
| RevokeCertificate i q u now now' (t t' : T) d' r :
    CertActions.revoke_certificate encryption_enabled library_error py_repr i q u now now' d t = (d', t', r) -> table_step d d'
| UnholdCertificate i (t t' : T) d' r : CertActions.unhold_certificate i d t = (d', t', r) -> table_step d d'
| DeleteCertificate i (t t' : T) d' r : CertActions.delete_certificate i d t = (d', t', r) -> table_step d d'
| UploadKey i q iv u (t t' : T) d' r :
    CertActions.upload_private_key encryption_enabled i q iv u d t = (d', t', r) -> table_step d d'
| BulkRevoke q u now (t t' : T) d' r :
    CertActions.bulk_revoke_certificates encryption_enabled library_error py_repr q u now d t = (d', t', r) -> table_step d d'
| BulkRenew q gen serial now (t t' : T) d' r :
    CertActions.bulk_renew_certificates py_repr q gen serial now d t = (d', t', r) -> table_step d d'
| BulkDelete q (t t' : T) d' r : CertActions.bulk_delete_certificates py_repr q d t = (d', t', r) -> table_step d d'
| ImportCertificate file form uuid now (t t' : T) d' r :
    CertImport.import_certificate secure_filename load_pem_pkcs7 load_der_pkcs7 load_der load_p12 to_pem
      file form uuid now d t = (d', t', r) -> table_step d d'
| CreateCsr q gen uuid u now (t t' : T) d' r : CsrRoutes.create_csr py_repr q gen uuid u now d t = (d', t', r) -> table_step d d'
| UploadCsr q uuid now (t t' : T) d' r : CsrRoutes.upload_csr q uuid now d t = (d', t', r) -> table_step d d'
| ImportCsr file form uuid now (t t' : T) d' r :
    CsrRoutes.import_csr py_repr secure_filename file form uuid now d t = (d', t', r) -> table_step d d'
| SignCsr i q serial now (t t' : T) d' r : CsrRoutes.sign_csr py_repr i q serial now d t = (d', t', r) -> table_step d d'
| BulkSign q serial now (t t' : T) d' r : CsrRoutes.bulk_sign_csrs py_repr q serial now d t = (d', t', r) -> table_step d d'
| DeleteCsr i (t t' : T) d' r : CsrRoutes.delete_csr i d t = (d', t', r) -> table_step d d'
| BulkDeleteCsrs q (t t' : T) d' r : CsrRoutes.bulk_delete_csrs py_repr q d t = (d', t', r) -> table_step d d'
| UploadCsrKey i q iv u (t t' : T) d' r :
    CsrRoutes.upload_csr_private_key encryption_enabled i q iv u d t = (d', t', r) -> table_step d d'.

Inductive step (w : world) : world -> Prop :=
| OnTables d' : table_step (tables w) d' -> step w (CaRoutes.with_tables d' w)
| CreateCa q gen serial uuid iv u now (t t' : T) w' r :
    CaRoutes.create_ca encryption_enabled py_repr q gen serial uuid iv u now w t = (w', t', r) -> step w w'
| ImportCa file form uuid now (t t' : T) w' r :
    CaStore.import_ca secure_filename load_pem_pkcs7 load_der_pkcs7 load_der load_p12 to_pem file form uuid now w t
    = (w', t', r) -> step w w'
| UpdateCa i q (t t' : T) w' r : CaRoutes.update_ca i q w t = (w', t', r) -> step w w'
| DeleteCa i (t t' : T) w' r : CaRoutes.delete_ca i w t = (w', t', r) -> step w w'
| BulkDeleteCas q (t t' : T) w' r : CaRoutes.bulk_delete_cas py_repr q w t = (w', t', r) -> step w w'.

(** Several steps. *)
Inductive run (w : world) : world -> Prop :=
| Start : run w w
| Then w' w'' : run w w' -> step w' w'' -> run w w''.

(** * Certificates *)

Ltac keep := solve [simplify_eq; apply keeps_refl].
Lemma keeps_row i c c' d : get_cert i d = Some c -> caref c' = caref c -> keeps d (update_cert i (fun _ => c') d).
Proof. intros [Hc _]%CaFacts.cert_row_In E. apply keeps_update. left. by exists c. Qed.

Lemma create_keeps q gen serial uuid u now (t t' : T) d d' r :
  create_certificate py_repr q gen serial uuid u now d t = (d', t', r) -> keeps d d'.
Proof.
  unfold create_certificate. do 4 (destruct (negb _); [intros; keep|]).
  destruct (dn_validations q); [|intros; keep]. destruct (dn_error _ _); [intros; keep|].
  destruct (data ← _; _) as [[data [a|r0]]|] eqn:E3; [|intros; keep..].
  apply bind_Some in E3 as (? & _ & (? & Hl & ?)%bind_Some). simplify_eq.
  destruct (template _ _ _ _ _ _) as [[[[[x new_key] ca_key] not_after]|r0]|]; [|intros; keep..].
  destruct (pem ← _; _) as [row|] eqn:E6; [|intros; keep]. intros [= <- _ _].
  apply bind_Some in E6 as (pem & _ & (row2 & Er & E6)%bind_Some). case_match; [done|]. simplify_eq.
  apply keeps_add. right. exists a. split; [by apply CertRoutesFacts.lookup_ca_In in Hl as [? _]|].
  unfold new_row in Er. apply bind_Some in Er as (? & _ & (? & _ & (? & _ & Er)%bind_Some)%bind_Some). by simplify_eq.
Qed.

Lemma renew_caref c a gen serial now c' : renew c a gen serial now = Some c' -> caref c' = caref c.
Proof.
  unfold renew. intros (? & _ & (? & _ & (? & _ & ([? ?] & _ & E)%bind_Some)%bind_Some)%bind_Some)%bind_Some.
  apply bind_Some in E as (? & _ & ([? ?] & _ & (? & _ & E)%bind_Some)%bind_Some). by simplify_eq.
Qed.
Lemma renew_keeps i gen serial now (t t' : T) d d' r : renew_certificate i gen serial now d t = (d', t', r) -> keeps d d'.
Proof.
  unfold renew_certificate. destruct (get_cert i d) as [c|] eqn:Ec; [|intros; keep].
  destruct (filled (crt c)), (find_issuer c d) as [a|]; try (intros; keep).
  destruct (negb _); [intros; keep|]. destruct (renew _ _ _ _ _) as [c'|] eqn:Er; [|intros; keep].
  intros [= <- _ _]. apply (keeps_row i c); [done|by apply renew_caref in Er].
Qed.

Lemma service_revoke_keeps c reason shown u now now' d (t t' : T) d' c' :
  CertActions.service_revoke encryption_enabled library_error c reason shown u now now' d t = (d', t', c') ->
  In c (certs d) -> keeps d d'.
Proof.
  unfold CertActions.service_revoke. intros E Hc. set (c1 := CertActions.set_revocation _ _ _ _) in E.
  assert (keeps d (update_cert (id c) (fun _ => c1) d)) as Hk by (apply keeps_update; left; by exists c).
  repeat case_match; simplify_eq; exact Hk.
Qed.
Lemma revoke_keeps i q u now now' (t t' : T) d d' r :
  CertActions.revoke_certificate encryption_enabled library_error py_repr i q u now now' d t = (d', t', r) -> keeps d d'.
Proof.
  unfold CertActions.revoke_certificate. destruct (if Json.truthy q then _ else _) as [reason|]; [|intros; keep].
  destruct (get_cert i d) as [c|] eqn:Ec; [|intros; keep]. destruct (true_flag _); [intros; keep|].
  destruct (column reason); [|intros; keep].
  destruct (CertActions.service_revoke _ _ _ _ _ _ _ _ _ _) as [[d1 t1] c1] eqn:Er. intros [= <- _ _].
  apply (service_revoke_keeps _ _ _ _ _ _ _ _ _ _ _ Er). by apply CaFacts.cert_row_In in Ec as [? _].
Qed.

Lemma actions_keep d d' : 
  (exists i (t t' : T) r, CertActions.unhold_certificate i d t = (d', t', r))
  \/ (exists i (t t' : T) r, CertActions.delete_certificate i d t = (d', t', r))
  \/ (exists i q iv u (t t' : T) r, CertActions.upload_private_key encryption_enabled i q iv u d t = (d', t', r)) -> keeps d d'.
Proof.
  intros [(i & t & t' & r & E)|[(i & t & t' & r & E)|(i & q & iv & u & t & t' & r & E)]].
  - unfold CertActions.unhold_certificate in E. destruct (get_cert i d) as [c|] eqn:Ec; [|keep].
    repeat case_match; try keep. simplify_eq. apply keeps_certs; [done|]. intros c' Hc'. cbn in Hc'.
    apply Table.In_update in Hc' as (x & Hx & ->). right. right. left. exists x. split; [done|]. by case_match.
  - unfold CertActions.delete_certificate in E. destruct (get_cert i d); [|keep]. simplify_eq.
    apply keeps_certs; [done|]. intros c' Hc'. left. by apply Table.In_delete_weaken in Hc'.
  - unfold CertActions.upload_private_key in E. destruct (get_cert i d) as [c|] eqn:Ec; [|keep].
    repeat case_match; try keep; simplify_eq; by apply (keeps_row i c).
Qed.

Lemma query_get_In j d c : CertActions.query_get j d = Some (Some c) -> get_cert (id c) d = Some c.
Proof.
  unfold CertActions.query_get. intros (i & _ & E)%bind_Some. injection E as (k & _ & Ec)%bind_Some.
  by destruct (CaFacts.cert_row_In _ _ _ Ec) as [_ ->].
Qed.
Lemma bulk_revoke_keeps reason u now ids : forall n b r d (t t' : T) d' r' b',
  CertActions.bulk_revoke_loop encryption_enabled library_error py_repr reason u now n b ids r d t = (d', t', r', b') -> keeps d d'.
Proof.
  induction ids as [|i ids IH]; intros n b r d t t' d' r' b' E; cbn [CertActions.bulk_revoke_loop] in E; [keep|].
  destruct b; [by apply IH in E|]. destruct (CertActions.query_get i d) as [[c|]|] eqn:Ec; [|by apply IH in E..].
  destruct (true_flag _); [by apply IH in E|]. destruct (column reason) as [x|]; [|by apply IH in E].
  destruct (CertActions.service_revoke _ _ _ _ _ _ _ _ _ _) as [[d1 t1] c1] eqn:Er. apply IH in E.
  apply (keeps_trans _ d1); [|done]. apply (service_revoke_keeps _ _ _ _ _ _ _ _ _ _ _ Er).
  by apply query_get_In, CaFacts.cert_row_In in Ec as [? _].
Qed.
Lemma bulk_renew_keeps gen serial now ids : forall n r d d' r',
  CertActions.bulk_renew_loop gen serial now n ids r d = (d', r') -> keeps d d'.
Proof.
  induction ids as [|i ids IH]; intros n r d d' r' E; cbn [CertActions.bulk_renew_loop] in E; [keep|].
  destruct (CertActions.query_get i d) as [[c|]|] eqn:Ec; [|by apply IH in E..].
  destruct (filled (crt c)), (issuing_ca c d) as [a|]; try by apply IH in E.
  destruct (negb _); [by apply IH in E|]. destruct (renew _ _ _ _ _) as [c'|] eqn:Er; [|by apply IH in E].
  apply IH in E. apply (keeps_trans _ _ _ (keeps_row _ _ _ _ (query_get_In _ _ _ Ec) (renew_caref _ _ _ _ _ _ Er)) E).
Qed.
Lemma delete_keeps d l : (forall c, In c l -> In c (certs d)) -> forall x y, keeps d (Db (cas d) l x y).
Proof. intros Hl x y. apply keeps_certs; [done|]. intros c Hc. left. by apply Hl. Qed.
Lemma bulk_delete_keeps ids : forall r d d' r', CertActions.bulk_delete_loop ids r d = (d', r') -> keeps d d'.
Proof.
  induction ids as [|i ids IH]; intros r d d' r' E; cbn [CertActions.bulk_delete_loop] in E; [keep|].
  destruct (CertActions.query_get i d) as [[c|]|] eqn:Ec; [|by apply IH in E..]. apply IH in E.
  apply (keeps_trans _ (CertActions.remove_cert (id c) d)); [|done]. apply delete_keeps. intros x. apply Table.In_delete_weaken.
Qed.

Lemma parent_of_In ca_id i d r : CertImport.parent_of ca_id i d = Some r -> exists a, In a (cas d) /\ Some r = Some (CaModel.a_refid a).
Proof.
  unfold CertImport.parent_of. intros (a & E & ->)%fmap_Some. exists a. split; [|done].
  unfold CertImport.get_ca, ca_by_subject in E. repeat case_match; simplify_eq;
    by repeat match goal with
      | H : Table.first _ _ = Some _ |- _ => apply Table.first_Some in H as [? _]
      | H : _ ≫= _ = Some _ |- _ => apply bind_Some in H as (? & _ & H) end.
Qed.
Lemma by_subject_get i d a : linked d -> ca_by_subject i d = Some a -> CaRoutes.get_ca (CaModel.a_id a) d = Some a.
Proof.
  intros Hd [Hin _]%Table.first_Some. unfold CaRoutes.get_ca.
  destruct (Table.first _ (cas d)) as [b|] eqn:Eb.
  - apply Table.first_Some in Eb as [Hb E%Z.eqb_eq]. f_equal.
    by apply (Table.NoDup_map_eq CaModel.a_id (cas d)); [apply Hd| | |].
  - pose proof (Table.first_None _ _ a Eb Hin) as E. cbn in E. lia.
Qed.
Lemma update_row_linked d i a a' : linked d -> ca_by_subject i d = Some a -> links a' = links a ->
  linked (CaRoutes.update_ca_row (CaModel.a_id a) (fun _ => a') d).
Proof.
  intros Hd Ha El. apply (keeps_linked d); [|done].
  apply (keeps_ca_row d _ a); [by apply (by_subject_get i)|apply Hd|done].
Qed.
Lemma new_ca_linked d uuid descr pem key i now : linked d ->
  existsb (fun b => String.eqb (CaModel.a_refid b) uuid) (cas d) = false ->
  linked (CaRoutes.with_cas (cas d ++ [CertImport.new_ca (Table.next_id CaModel.a_id (cas d)) uuid descr pem key i now]) d).
Proof. intros Hd Hu. apply linked_add; [done|done|done|by left]. Qed.

Lemma import_linked file form uuid now (t t' : T) d d' r :
  CertImport.import_certificate secure_filename load_pem_pkcs7 load_der_pkcs7 load_der load_p12 to_pem file form uuid now d t
  = (d', t', r) -> linked d -> linked d'.
Proof.
  unfold CertImport.import_certificate. intros E Hd.
  match type of E with (match ?m with _ => _ end) = _ => destruct m as [[[data filename] uploaded]|r0] end; [|by simplify_eq].
  destruct (CertImport.parse_certificate_file _ _ _ _ _ _ _ _) as [[x key]|]; [|by simplify_eq].
  destruct (CertImport.is_ca_certificate x).
  - unfold CertImport.store_ca in E. destruct (CertImport.find_existing_ca _ d) as [a|] eqn:Ea.
    + destruct (negb _); [by simplify_eq|]. simplify_eq. by apply (update_row_linked d _ a _ Hd Ea).
    + destruct (CertImport.first_filled _ _ _) as [descr|]; [|by simplify_eq].
      destruct (existsb _ _) eqn:Eu; simplify_eq; [done|]. by apply new_ca_linked.
  - apply (keeps_linked d); [|done]. unfold CertImport.store_cert in E.
    destruct (CertImport.find_existing_certificate _ d) as [c|] eqn:Ec.
    + destruct (negb _); [keep|]. simplify_eq. apply keeps_update.
      apply Table.first_Some in Ec as [Hc _]. cbn [CertImport.updated_cert caref].
      destruct (CertListing.int_arg _ _ _ =? 0); [by left; exists c|].
      destruct (CertImport.get_ca _ d) as [a|] eqn:Ea; cbn; [right|by left; exists c].
      exists a. by apply Table.first_Some in Ea as [? _].
    + destruct (CertImport.first_filled _ _ _) as [descr|]; [|keep].
      destruct (existsb _ _); [keep|]. simplify_eq. apply keeps_add. cbn [CertImport.new_cert caref].
      destruct (CertImport.parent_of _ _ d) as [p|] eqn:Ep; [right|by left]. by apply parent_of_In in Ep.
Qed.

(** * Signing requests *)

Lemma add_row_keeps c d d' : CsrRoutes.add_row c d = Some d' -> caref c = None -> keeps d d'.
Proof. unfold CsrRoutes.add_row. intros E Hc. case_match; simplify_eq. apply keeps_add. by left. Qed.
Ltac add_csr Hadd := apply (add_row_keeps _ _ _ Hadd); done.

Lemma create_csr_keeps q gen uuid u now (t t' : T) d d' r :
  CsrRoutes.create_csr py_repr q gen uuid u now d t = (d', t', r) -> keeps d d'.
Proof.
  unfold CsrRoutes.create_csr. do 3 (destruct (negb _); [intros; keep|]).
  destruct (CsrRoutes.requested_dn q) as [dn|]; [|intros; keep]. destruct (CsrRoutes.dn_error _ _); [intros; keep|].
  destruct (k ← _; _) as [[[d1 t1] c]|] eqn:E; [|intros; keep]. intros [= <- _ _].
  apply bind_Some in E as (k & _ & ([dns ip] & _ & E)%bind_Some). unfold CsrRoutes.generate_csr in E.
  apply bind_Some in E as (? & _ & (? & _ & (? & _ & (pem & _ & E)%bind_Some)%bind_Some)%bind_Some).
  apply bind_Some in E as (d2 & Ea & E). injection E as <- _ _. add_csr Ea.
Qed.
Lemma upload_csr_keeps q uuid now (t t' : T) d d' r : CsrRoutes.upload_csr q uuid now d t = (d', t', r) -> keeps d d'.
Proof.
  unfold CsrRoutes.upload_csr. do 3 (destruct (negb _); [intros; keep|]).
  destruct (pem ← _; _) as [[[d1 c] cn]|] eqn:E; [|intros; keep]. intros [= <- _ _].
  apply bind_Some in E as (? & _ & (? & _ & (? & _ & (d2 & Ea & E)%bind_Some)%bind_Some)%bind_Some).
  injection E as <- _ _. add_csr Ea.
Qed.
Lemma import_csr_keeps file form uuid now (t t' : T) d d' r :
  CsrRoutes.import_csr py_repr secure_filename file form uuid now d t = (d', t', r) -> keeps d d'.
Proof.
  unfold CsrRoutes.import_csr. intros E.
  match type of E with (match ?m with _ => _ end) = _ => destruct m as [pem|r0] end; [|keep].
  destruct (q ← _; _) as [[d1 c]|] eqn:Eq; [|keep]. injection E as <- _ _.
  apply bind_Some in Eq as (? & _ & (d2 & Ea & E)%bind_Some). injection E as <- _. add_csr Ea.
Qed.

Lemma service_sign_keeps i a ct days serial now d (t t' : T) d' c' :
  CsrRoutes.service_sign i a ct days serial now d t = Some (d', t', c') ->
  (exists b, In b (cas d) /\ links b = links a) -> keeps d d'.
Proof.
  unfold CsrRoutes.service_sign. intros (c & Hc & (col & _ & E)%bind_Some)%bind_Some (b & Hb & Hl).
  destruct (filled (crt c)); [done|].
  apply bind_Some in E as (? & _ & (? & _ & (? & _ & (? & _ & (? & _ & (? & _ & E)%bind_Some)%bind_Some)%bind_Some)%bind_Some)%bind_Some).
  case_match; [done|]. apply bind_Some in E as (pem & _ & (issued & _ & E)%bind_Some). injection E as <- _ _.
  apply (keeps_trans _ (update_cert i (fun _ => CsrRoutes.signed_row (CaModel.a_refid a) ct pem issued c) d)).
  - apply keeps_update. right. exists b. split; [done|]. by injection Hl as _ -> _.
  - by apply keeps_ca.
Qed.
Lemma query_ca_In j d a : CsrRoutes.query_ca j d = Some (Some a) -> In a (cas d).
Proof. unfold CsrRoutes.query_ca. intros (i & _ & E)%bind_Some. injection E as (k & _ & [? _]%get_ca_In)%bind_Some. done. Qed.
Lemma sign_csr_keeps i q serial now (t t' : T) d d' r :
  CsrRoutes.sign_csr py_repr i q serial now d t = (d', t', r) -> keeps d d'.
Proof.
  unfold CsrRoutes.sign_csr. destruct (get_cert i d) as [c|]; [|intros; keep].
  destruct (negb _); [intros; keep|]. destruct (AuditLog.otruthy _); [intros; keep|]. destruct (negb _); [intros; keep|].
  destruct (CsrRoutes.backend_cert_type _) as [ct|]; [|intros; keep].
  destruct (negb _); [intros; keep|].
  destruct (CsrRoutes.query_ca _ d) as [[a|]|] eqn:Ea; [|intros; keep..]. destruct (negb _); [intros; keep|].
  destruct (CsrRoutes.service_sign _ _ _ _ _ _ _ _) as [[[d1 t1] c']|] eqn:E; [|intros; keep]. intros [= <- _ _].
  apply (service_sign_keeps _ _ _ _ _ _ _ _ _ _ _ E). exists a. split; [by apply query_ca_In in Ea|done].
Qed.
Lemma bulk_sign_keeps a days serial now ids : forall n r d (t t' : T) d' r',
  CsrRoutes.bulk_sign_loop a days serial now n ids r d t = (d', t', r') ->
  (exists b, In b (cas d) /\ links b = links a) -> keeps d d'.
Proof.
  induction ids as [|i ids IH]; intros n r d t t' d' r' E Ha; cbn [CsrRoutes.bulk_sign_loop] in E; [keep|].
  destruct (CertActions.query_get i d) as [[c|]|]; [|by apply IH in E..].
  destruct (negb _); [by apply IH in E|]. destruct (AuditLog.otruthy _); [by apply IH in E|].
  destruct (CsrRoutes.service_sign _ _ _ _ _ _ _ _) as [[[d1 t1] c']|] eqn:Es; [|by apply IH in E].
  pose proof (service_sign_keeps _ _ _ _ _ _ _ _ _ _ _ Es Ha) as Hk.
  apply (keeps_trans _ d1); [done|]. apply IH in E; [done|].
  destruct Ha as (b & Hb & Hl), Hk as [El _]. destruct (links_In (cas d1) (cas d) b (eq_sym El) Hb) as (b' & Hb' & Hl').
  exists b'. split; [done|]. congruence.
Qed.
Lemma bulk_sign_csrs_keeps q serial now (t t' : T) d d' r :
  CsrRoutes.bulk_sign_csrs py_repr q serial now d t = (d', t', r) -> keeps d d'.
Proof.
  unfold CsrRoutes.bulk_sign_csrs. do 4 (destruct (negb _); [intros; keep|]).
  destruct (CsrRoutes.query_ca _ d) as [[a|]|] eqn:Ea; cbn; [|intros; keep..].
  destruct (CsrRoutes.can_sign a); [|intros; keep]. destruct (Json.elements _) as [ids|]; [|intros; keep].
  destruct (CsrRoutes.bulk_sign_loop _ _ _ _ _ _ _ _ _) as [[d1 t1] rs] eqn:E. intros [= <- _ _].
  apply (bulk_sign_keeps _ _ _ _ _ _ _ _ _ _ _ _ E). exists a. split; [by apply query_ca_In in Ea|done].
Qed.

Lemma service_delete_keeps i d (t t' : T) d' : CsrRoutes.service_delete i d t = Some (d', t') -> keeps d d'.
Proof.
  unfold CsrRoutes.service_delete. intros (c & _ & E)%bind_Some. injection E as <- _.
  apply delete_keeps. intros x. apply Table.In_delete_weaken.
Qed.
Lemma bulk_delete_csrs_keeps ids : forall r d (t t' : T) d' r',
  CsrRoutes.bulk_delete_loop ids r d t = (d', t', r') -> keeps d d'.
Proof.
  induction ids as [|j ids IH]; intros r d t t' d' r' E; cbn [CsrRoutes.bulk_delete_loop] in E; [keep|].
  destruct (CertActions.query_get j d) as [c|]; [|by apply IH in E].
  destruct (c ← c; _) as [[d1 t1]|] eqn:Ed; [|by apply IH in E].
  apply bind_Some in Ed as (c0 & _ & Ed). apply IH in E. apply (keeps_trans _ d1); [by apply service_delete_keeps in Ed|done].
Qed.
Lemma csr_key_keeps i q iv u (t t' : T) d d' r :
  CsrRoutes.upload_csr_private_key encryption_enabled i q iv u d t = (d', t', r) -> keeps d d'.
Proof.
  unfold CsrRoutes.upload_csr_private_key. destruct (get_cert i d) as [c|] eqn:Ec; [|intros; keep].
  intros E. repeat case_match; try keep; simplify_eq; by apply (keeps_row i c).
Qed.

(** * Authorities *)

Lemma linked_add_to d d0 a : List.map links (cas d) = List.map links (cas d0) ->
  CaModel.a_id a = Table.next_id CaModel.a_id (cas d0) ->
  existsb (fun b => String.eqb (CaModel.a_refid b) (CaModel.a_refid a)) (cas d0) = false ->
  CaModel.a_caref a = None \/ (exists p, In p (cas d0) /\ CaModel.a_caref a = Some (CaModel.a_refid p)) ->
  linked d -> linked (CaRoutes.with_cas (cas d ++ [a]) d).
Proof.
  intros El Eid Eu Hp Hd. apply linked_add; [done|..].
  - rewrite Eid. unfold Table.next_id. f_equal. generalize (links_ids _ _ El). clear.
    generalize (cas d). induction (cas d0) as [|x l IH]; intros [|y l']; try done. cbn. intros [= -> E]. by rewrite (IH l').
  - destruct (existsb _ (cas d)) eqn:E; [|done]. apply existsb_exists in E as (b & Hb & Eb).
    destruct (links_In _ _ b El Hb) as (b0 & Hb0 & [= _ E0 _]). rewrite <-Eu. symmetry. apply existsb_exists.
    exists b0. by rewrite E0.
  - destruct Hp as [?|(p & Hin & Ec)]; [by left|right].
    destruct (links_In _ _ p (eq_sym El) Hin) as (p' & Hp' & [= _ E0 _]). exists p'. split; [done|congruence].
Qed.
Lemma parent_ca_In q now d a : CaRoutes.parent_ca q now d = Some (inl (Some a)) -> In a (cas d).
Proof.
  unfold CaRoutes.parent_ca. intros E. repeat (case_match; try done).
  all: apply bind_Some in E as (n & _ & (pi & _ & E)%bind_Some); destruct (pi ≫= _) as [pa|] eqn:Epa; [|done].
  all: destruct (filled _); [|done]; apply bind_Some in E as (px & _ & E); destruct (Pki.x_not_after px <? now); [done|].
  all: simplify_eq; apply bind_Some in Epa as (k & _ & Epa); by apply get_ca_In in Epa as [? _].
Qed.
Lemma create_ca_linked q gen serial uuid iv u now w (t t' : T) w' r :
  CaRoutes.create_ca encryption_enabled py_repr q gen serial uuid iv u now w t = (w', t', r) ->
  linked (tables w) -> linked (tables w').
Proof.
  unfold CaRoutes.create_ca. intros E Hd. repeat (destruct (negb _); [by simplify_eq|]).
  destruct (CaRoutes.requested_dn q) as [dn|]; [|by simplify_eq]. destruct (IpAddress.IpAddress.validate_dn _ _); [by simplify_eq|].
  destruct (CaRoutes.requested_key_type q) as [[k|?]|]; [|by simplify_eq..].
  destruct (CaRoutes.parent_ca q now (tables w)) as [[p|?]|] eqn:Ep; [|by simplify_eq..].
  destruct (y ← _; _) as [[[d1 t1] a]|] eqn:Ec; [|by simplify_eq]. simplify_eq. cbn [tables CaRoutes.with_tables].
  apply bind_Some in Ec as (y & _ & Ec). unfold CaRoutes.create_internal_ca in Ec.
  apply bind_Some in Ec as (spec & _ & (key & _ & (issuer & Ei & Ec)%bind_Some)%bind_Some).
  destruct (negb _); [done|]. apply bind_Some in Ec as (pem & _ & (descr & _ & Ec)%bind_Some).
  destruct (existsb _ _) eqn:Eu; [done|]. injection Ec as <- _ _.
  set (d2 := match issuer with Some _ => _ | None => _ end).
  assert (List.map links (cas d2) = List.map links (cas (tables w)) /\ linked d2) as [El Hd2].
  { unfold d2. destruct issuer as [[[b x] key']|]; [|done].
    pose proof (keeps_ca (tables w) (CaModel.a_id b) CaRoutes.bump_serial ltac:(done)) as Hk.
    split; [apply Hk|by apply (keeps_linked (tables w))]. }
  apply (linked_add_to _ (tables w)); try done. cbn [CaModel.a_caref].
  destruct p as [b|]; [right|by left]. exists b. split; [|done]. by apply parent_ca_In in Ep.
Qed.

Lemma import_ca_linked file form uuid now w (t t' : T) w' r :
  CaStore.import_ca secure_filename load_pem_pkcs7 load_der_pkcs7 load_der load_p12 to_pem file form uuid now w t = (w', t', r) ->
  linked (tables w) -> linked (tables w').
Proof.
  unfold CaStore.import_ca. intros E Hd. destruct (CaStore.input _ _ _) as [[data filename]|r0]; [|by simplify_eq].
  destruct (CertImport.parse_certificate_file _ _ _ _ _ _ _ _) as [[x key]|]; [|by simplify_eq].
  destruct (CertImport.find_existing_ca _ (tables w)) as [a|] eqn:Ea.
  - destruct (negb _); [by simplify_eq|]. simplify_eq. by apply (update_row_linked (tables w) _ a _ Hd Ea).
  - destruct (existsb _ _) eqn:Eu; simplify_eq; [done|]. by apply new_ca_linked.
Qed.

Lemma update_ca_linked i q w (t t' : T) w' r : CaRoutes.update_ca i q w t = (w', t', r) -> linked (tables w) -> linked (tables w').
Proof.
  unfold CaRoutes.update_ca. intros E Hd. destruct (CaRoutes.get_ca i (tables w)) as [a|] eqn:Ea; [|by simplify_eq].
  destruct (n ← _; _) as [[a'|]|] eqn:Eq; simplify_eq; [|done..]. apply (keeps_linked (tables w)); [|done].
  apply (keeps_ca_row _ _ a); [done|apply Hd|].
  repeat (apply bind_Some in Eq as (? & _ & Eq)). injection Eq as Eq. repeat (apply bind_Some in Eq as (? & _ & Eq)). by simplify_eq.
Qed.
Lemma delete_ca_linked i w (t t' : T) w' r : CaRoutes.delete_ca i w t = (w', t', r) -> linked (tables w) -> linked (tables w').
Proof.
  unfold CaRoutes.delete_ca. intros E Hd. destruct (CaRoutes.get_ca i (tables w)) as [a|] eqn:Ea; [|by simplify_eq].
  destruct (0 <? CaRoutes.children _ _) eqn:E1; [by simplify_eq|].
  destruct (0 <? CaRoutes.issued _ _) eqn:E2; [by simplify_eq|]. simplify_eq. by apply (linked_remove i w a).
Qed.
Lemma bulk_delete_cas_linked ids : forall r w w' r',
  CaRoutes.bulk_delete_loop ids r w = (w', r') -> linked (tables w) -> linked (tables w').
Proof.
  induction ids as [|j ids IH]; intros r w w' r' E Hd; cbn [CaRoutes.bulk_delete_loop] in E; [by simplify_eq|].
  destruct (i ← _; _) as [[a|]|] eqn:Ei; [|by apply IH in E..].
  apply bind_Some in Ei as (i & _ & Ei). injection Ei as (k & _ & Ea)%bind_Some.
  destruct (0 <? CaRoutes.children _ _) eqn:E1; [by apply IH in E|].
  destruct (0 <? CaRoutes.issued _ _) eqn:E2; [by apply IH in E|]. apply IH in E; [done|].
  apply (linked_remove _ w a); try done. by destruct (get_ca_In _ _ _ Ea) as [_ ->].
Qed.
Lemma table_step_linked d d' : table_step d d' -> linked d -> linked d'.
Proof.
  intros Hs Hd. destruct Hs as [? ? ? ? ? ? ? ? ? ? E|? ? ? ? ? ? ? ? E|? ? ? ? ? ? ? ? ? E|? ? ? ? ? E|? ? ? ? ? E|? ? ? ? ? ? ? ? E
    |q u now t t' d' r E|q gen serial now t t' d' r E|q t t' d' r E|? ? ? ? ? ? ? ? E|? ? ? ? ? ? ? ? ? E|? ? ? ? ? ? ? E|? ? ? ? ? ? ? ? E
    |? ? ? ? ? ? ? ? E|? ? ? ? ? ? ? E|i t t' d' r E|q t t' d' r E|? ? ? ? ? ? ? ? E];
    try (by apply import_linked in E); apply (keeps_linked d); try done.
  - by apply create_keeps in E.
  - by apply renew_keeps in E.
  - by apply revoke_keeps in E.
  - apply actions_keep. left. eauto.
  - apply actions_keep. right. left. eauto.
  - apply actions_keep. right. right. do 7 eexists. exact E.
  - unfold CertActions.bulk_revoke_certificates in E. destruct (CertActions.bulk_ids q); [|keep].
    destruct (CertActions.bulk_revoke_loop _ _ _ _ _ _ _ _ _ _ _ _) as [[[? ?] ?] ?] eqn:El. simplify_eq. by apply bulk_revoke_keeps in El.
  - unfold CertActions.bulk_renew_certificates in E. destruct (CertActions.bulk_ids q); [|keep].
    destruct (CertActions.bulk_renew_loop _ _ _ _ _ _ _) as [? ?] eqn:El. simplify_eq. by apply bulk_renew_keeps in El.
  - unfold CertActions.bulk_delete_certificates in E. destruct (CertActions.bulk_ids q); [|keep].
    destruct (CertActions.bulk_delete_loop _ _ _) as [? ?] eqn:El. simplify_eq. by apply bulk_delete_keeps in El.
  - by apply create_csr_keeps in E.
  - by apply upload_csr_keeps in E.
  - by apply import_csr_keeps in E.
  - by apply sign_csr_keeps in E.
  - by apply bulk_sign_csrs_keeps in E.
  - unfold CsrRoutes.delete_csr in E. destruct (CsrRoutes.service_delete i d t) as [[d1 t1]|] eqn:Es; [|keep].
    simplify_eq. by apply service_delete_keeps in Es.
  - unfold CsrRoutes.bulk_delete_csrs in E. destruct (CertActions.bulk_ids q); [|keep].
    destruct (CsrRoutes.bulk_delete_loop _ _ _ _) as [[? ?] ?] eqn:El. simplify_eq. by apply bulk_delete_csrs_keeps in El.
  - by apply csr_key_keeps in E.
Qed.
Lemma step_linked w w' : step w w' -> linked (tables w) -> linked (tables w').
Proof.
  intros Hs Hw. destruct Hs as [d' Hs|? ? ? ? ? ? ? ? ? ? ? E|? ? ? ? ? ? ? ? E|? ? ? ? ? ? E|? ? ? ? ? E|q t t' w' r E].
  - by apply table_step_linked in Hs.
  - by apply create_ca_linked in E.
  - by apply import_ca_linked in E.
  - by apply update_ca_linked in E.
  - by apply delete_ca_linked in E.
  - unfold CaRoutes.bulk_delete_cas in E. destruct (CertActions.bulk_ids q); [|by simplify_eq].
    destruct (CaRoutes.bulk_delete_loop _ _ _) as [? ?] eqn:El. simplify_eq. by apply bulk_delete_cas_linked in El.
Qed.

(** C22: Whatever the routes of CAs, requests and certificates do, in whatever order: the
    identifiers of CAs stay unique, every certificate that names its CA names one that is
    there, and every CA is newer than the one above it, so that the CAs form a forest. *)
Theorem tables_stay_linked w w' (Hrun : run w w') (Hw : linked (tables w)) : linked (tables w').
Proof. induction Hrun as [|w1 w2 _ IH Hs]; [done|]. by apply (step_linked w1). Qed.

Lemma start_ends {A} (f : string -> option A) d start fuel : linked d ->
  (forall a, start = Some a -> In a (cas d)) -> (length (cas d) < fuel)%nat -> CertExport.ca_walk f fuel start d <> None.
Proof.
  intros Hd Ha Hf. destruct start as [a|]; [|by destruct fuel]. apply walk_ends; [done|by apply Ha|].
  pose proof (below_all (CaModel.a_id a) (cas d)). lia.
Qed.
Lemma by_refid_In o d a : o ≫= (fun r => ca_by_refid r d) = Some a -> In a (cas d).
Proof. intros (r & _ & E)%bind_Some. by apply Table.first_Some in E as [? _]. Qed.

(** Case analysis that stops at a walk up the CAs. *)
Ltac walks tac :=
  repeat match goal with
  | |- context [CertExport.ca_walk ?f ?n ?s ?d] =>
      let E := fresh in destruct (CertExport.ca_walk f n s d) eqn:E; [|exfalso; revert E; tac]
  end;
  repeat case_match; done.

Context `{CertExport.Formats}.
(** The exports that walk up the CAs come to an end: after any run of the routes, as many
    steps as there are CAs, and one more, are enough for every CA, every certificate and
    every format. *)
Theorem exports_come_to_an_end w w' i q permissions fuel (Hrun : run w w') (Hw : linked (tables w))
  (Hfuel : (length (cas (tables w')) < fuel)%nat) :
  CaStore.export_ca encryption_enabled i q permissions fuel (tables w') <> None
  /\ CertExport.export_certificate encryption_enabled i q permissions fuel (tables w') <> None.
Proof.
  assert (linked (tables w')) as Hd by (clear Hfuel; induction Hrun as [|w1 w2 _ IH Hs]; [done|by apply (step_linked w1)]).
  set (d := tables w') in *.
  assert (forall A (f : string -> option A) a, CertExport.ca_walk f fuel (CaStore.parent a d) d <> None) as Hca
    by (intros A f a; apply start_ends; [done|intros b; apply by_refid_In|done]).
  assert (forall A (f : string -> option A) c, CertExport.ca_walk f fuel (CertExport.chain_start c d) d <> None) as Hcert
    by (intros A f c; apply start_ends; [done|intros b; apply by_refid_In|done]).
  split.
  - unfold CaStore.export_ca. destruct (CaRoutes.get_ca i d) as [a|]; [|done]. destruct (negb _); [done|]. cbn zeta.
    destruct (if _ : bool then _ else _) as [[]|]; [|done..]. destruct (Base64.b64decode _) as [pem|]; [|done].
    unfold CaStore.export_pem, CaStore.export_p12, CaStore.export_p7b. walks ltac:(by apply Hca).
  - unfold CertExport.export_certificate. destruct (get_cert i d) as [c|]; [|done]. destruct (filled (crt c)) as [col|]; [|done].
    cbn zeta. destruct (if _ : bool then _ else _) as [[]|]; [|done..]. destruct (Base64.b64decode _) as [pem|]; [|done].
    unfold CertExport.export_pem, CertExport.export_p12, CertExport.export_p7b. walks ltac:(by apply Hcert).
Qed.

End Flow.
End CaFlow.
