(* ===== verification/JsonText.v ===== *)
(** Python's [json] on text: [json.dumps(j, indent=2)], with and without [sort_keys], and
    [json.loads], with the theorem that the second reads back what the first wrote.

    Floats and code points above 255 are outside [json]; a text with one of them is not
    read.  So are Python's limits on the depth of a value and the digits of a number. *)
From Stdlib Require Import DecimalPos DecimalString.
From stdpp Require Import sorting.
From S2P Require Import Prelude.

Module JsonText.
Local Open Scope string_scope.
Local Open Scope list_scope.

(** * Printing *)

(** [sorted(d.items())]: keys are distinct, so they alone decide. *)
Fixpoint insert_item {A} (p : string * A) (l : list (string * A)) : list (string * A) :=
  match l with
  | [] => [p]
  | q :: l' => if String.leb p.1 q.1 then p :: l else q :: insert_item p l'
  end.
Definition sort_items {A} (l : list (string * A)) : list (string * A) := fold_right insert_item [] l.

Definition newline : ascii := ascii_of_N 10.
Fixpoint spaces (n : nat) : string := match n with O => EmptyString | S n => String " " (spaces n) end.
Definition new_line (level : nat) : string := String newline (spaces (2 * level)).

Fixpoint render (level : nat) (j : json) : string :=
  match j with
  | JNull => "null"
  | JBool true => "true"
  | JBool false => "false"
  | JInt z => Num.str z
  | JStr s => Json.quoted s
  | JList [] => "[]"
  | JList l =>
      "[" ^+ new_line (S level) ^+ Str.join ("," ^+ new_line (S level)) (List.map (render (S level)) l)
      ^+ new_line level ^+ "]"
  | JDict [] => "{}"
  | JDict kv =>
      "{" ^+ new_line (S level)
      ^+ Str.join ("," ^+ new_line (S level))
           (List.map (fun p => Json.quoted p.1 ^+ ": " ^+ render (S level) p.2) kv)
      ^+ new_line level ^+ "}"
  end.
(** [json.dumps(j, indent=2)]. *)
Definition dumps_in_order : json -> string := render 0.

(** The value with the members of each dict in the order of their keys. *)
Fixpoint sorted (j : json) : json :=
  match j with
  | JList l => JList (List.map sorted l)
  | JDict kv => JDict (sort_items (List.map (fun p => (p.1, sorted p.2)) kv))
  | _ => j
  end.
(** [json.dumps(j, indent=2, sort_keys=True)]. *)
Definition dumps_indented (j : json) : string := render 0 (sorted j).

(** * Reading *)

Definition is_white (c : ascii) : bool :=
  let n := Str.code c in ((n =? 32) || (n =? 9) || (n =? 10) || (n =? 13))%N.
Fixpoint skip (s : string) : string :=
  match s with
  | String c s' => if is_white c then skip s' else s
  | EmptyString => EmptyString
  end.

Definition unescape (c : ascii) : option ascii :=
  let n := Str.code c in
  if ((n =? 34) || (n =? 92) || (n =? 47))%N then Some c
  else if (n =? 98)%N then Some (ascii_of_N 8)
  else if (n =? 102)%N then Some (ascii_of_N 12)
  else if (n =? 110)%N then Some (ascii_of_N 10)
  else if (n =? 114)%N then Some (ascii_of_N 13)
  else if (n =? 116)%N then Some (ascii_of_N 9)
  else None.
Definition hex_digit (c : ascii) : option N := Z.to_N <$> Num.digit_val 16 c.

(** What follows the opening quote: the text, and what comes after the closing one. *)
Fixpoint string_body (s : string) : option (string * string) :=
  match s with
  | EmptyString => None
  | String c s1 =>
      if Ascii.eqb c Json.quote then Some (EmptyString, s1)
      else if Ascii.eqb c Json.backslash then
        match s1 with
        | EmptyString => None
        | String "u" (String a (String b (String x (String y s2)))) =>
            match hex_digit a, hex_digit b, hex_digit x, hex_digit y with
            | Some 0%N, Some 0%N, Some h, Some l =>
                r ← string_body s2; Some (String (ascii_of_N (16 * h + l)) r.1, r.2)
            | _, _, _, _ => None
            end
        | String e s2 => d ← unescape e; r ← string_body s2; Some (String d r.1, r.2)
        end
      else if (Str.code c <? 32)%N then None
      else r ← string_body s1; Some (String c r.1, r.2)
  end.

Fixpoint span_digits (s : string) : string * string :=
  match s with
  | String c s' => if Str.is_digit c then let r := span_digits s' in (String c r.1, r.2) else (EmptyString, s)
  | EmptyString => (EmptyString, EmptyString)
  end.
Definition ends_number (s : string) : bool :=
  match s with
  | String c _ => negb (Str.is_digit c || Ascii.eqb c "." || Ascii.eqb c "e" || Ascii.eqb c "E")
  | EmptyString => true
  end.
(** A number with a superfluous zero in front is an error, here or right after the zero. *)
Definition natural (s : string) : option (Z * string) :=
  let '(ds, r) := span_digits s in
  match ds with
  | EmptyString => None
  | String "0" (String _ _) => None
  | _ => if ends_number r then z ← Num.digits 10 0 false ds; Some (z, r) else None
  end.
Definition number (s : string) : option (json * string) :=
  match s with
  | String "-" s' => r ← natural s'; Some (JInt (- r.1), r.2)
  | _ => r ← natural s; Some (JInt r.1, r.2)
  end.

(** [d[k] = v] while a dict is read: a key that is there keeps its place. *)
Fixpoint set_item (k : string) (v : json) (kv : list (string * json)) : list (string * json) :=
  match kv with
  | [] => [(k, v)]
  | p :: kv' => if String.eqb p.1 k then (k, v) :: kv' else p :: set_item k v kv'
  end.

Definition opens (c : ascii) (s : string) : option string :=
  match s with String d s' => if Ascii.eqb d c then Some s' else None | EmptyString => None end.
Definition keyword (s : string) : option (json * string) :=
  if Str.startswith s "null" then Some (JNull, Str.drop 4 s)
  else if Str.startswith s "true" then Some (JBool true, Str.drop 4 s)
  else if Str.startswith s "false" then Some (JBool false, Str.drop 5 s)
  else None.

(** Every call consumes a character: the length of the text, and one more, is fuel enough. *)
Fixpoint value (fuel : nat) (s : string) {struct fuel} : option (json * string) :=
  match fuel with
  | O => None
  | S fuel =>
      match opens Json.quote s, opens "[" s, opens "{" s with
      | Some r, _, _ => t ← string_body r; Some (JStr t.1, t.2)
      | _, Some r, _ =>
          match opens "]" (skip r) with
          | Some r => Some (JList [], r)
          | None => elements fuel [] (skip r)
          end
      | _, _, Some r =>
          match opens "}" (skip r) with
          | Some r => Some (JDict [], r)
          | None => members fuel [] (skip r)
          end
      | _, _, _ => match keyword s with Some r => Some r | None => number s end
      end
  end
with elements (fuel : nat) (l : list json) (s : string) {struct fuel} : option (json * string) :=
  match fuel with
  | O => None
  | S fuel =>
      v ← value fuel s;
      let r := skip v.2 in
      match opens "," r with
      | Some r => elements fuel (l ++ [v.1]) (skip r)
      | None => r ← opens "]" r; Some (JList (l ++ [v.1]), r)
      end
  end
with members (fuel : nat) (kv : list (string * json)) (s : string) {struct fuel} : option (json * string) :=
  match fuel with
  | O => None
  | S fuel =>
      k ← opens Json.quote s ≫= string_body;
      r ← opens ":" (skip k.2);
      v ← value fuel (skip r);
      let kv := set_item k.1 v.1 kv in
      let r := skip v.2 in
      match opens "," r with
      | Some r => members fuel kv (skip r)
      | None => r ← opens "}" r; Some (JDict kv, r)
      end
  end.

Definition loads (s : string) : option json :=
  v ← value (S (String.length s)) (skip s);
  match skip v.2 with EmptyString => Some v.1 | _ => None end.

(** No dict, at any depth, has a key twice, as in every Python value. *)
Fixpoint distinct_keys (j : json) : bool :=
  match j with
  | JList l => forallb distinct_keys l
  | JDict kv => bool_decide (NoDup (List.map fst kv)) && forallb (fun p => distinct_keys p.2) kv
  | _ => true
  end.

Example loads_sample :
  let j := JDict [("b", JList [JInt (-12); JNull; JList []; JDict []]); ("a", JStr (String Json.quote "x"))] in
  loads (dumps_indented j) = Some (sorted j).
Proof. vm_compute. reflexivity. Qed.

(** * Reading what was printed *)

Lemma insert_item_map {A B} (f : A -> B) p l :
  insert_item (p.1, f p.2) (List.map (fun q => (q.1, f q.2)) l) = List.map (fun q => (q.1, f q.2)) (insert_item p l).
Proof. induction l as [|q l IH]; [done|]. cbn. destruct (String.leb p.1 q.1); [done|]. cbn. by rewrite IH. Qed.
Lemma sort_items_map {A B} (f : A -> B) l :
  sort_items (List.map (fun p => (p.1, f p.2)) l) = List.map (fun p => (p.1, f p.2)) (sort_items l).
Proof. unfold sort_items. induction l as [|p l IH]; [done|]. cbn. by rewrite IH, (insert_item_map f p). Qed.
Lemma insert_item_Permutation {A} (p : string * A) l : Permutation (insert_item p l) (p :: l).
Proof.
  induction l as [|q l IH]; [done|]. cbn. destruct (String.leb p.1 q.1); [done|].
  rewrite IH. apply Permutation_swap.
Qed.
Lemma sort_items_Permutation {A} (l : list (string * A)) : Permutation (sort_items l) l.
Proof. unfold sort_items. induction l as [|p l IH]; [done|]. cbn. by rewrite insert_item_Permutation, IH. Qed.

Lemma skip_spaces n s : skip (spaces n ^+ s) = skip s.
Proof. induction n as [|n IH]; [done|]. exact IH. Qed.
Lemma skip_new_line n s : skip (new_line n ^+ s) = skip s.
Proof. unfold new_line. cbn [String.append]. change (skip (String newline ?t)) with (skip t). apply skip_spaces. Qed.

(** ** Texts *)

Lemma string_body_escape1 c t : string_body (Json.escape1 c t) = (r ← string_body t; Some (String c r.1, r.2)).
Proof.
  destruct c as [b0 b1 b2 b3 b4 b5 b6 b7].
  destruct b0, b1, b2, b3, b4, b5, b6, b7; cbn; reflexivity.
Qed.
Lemma string_body_escape s rest : string_body (Json.escape s ^+ String Json.quote rest) = Some (s, rest).
Proof.
  assert (forall c t u, Json.escape1 c t ^+ u = Json.escape1 c (t ^+ u)) as Happ.
  { intros c t u. unfold Json.escape1. repeat case_match; done. }
  induction s as [|c s IH]; [done|]. cbn [Json.escape]. by rewrite Happ, string_body_escape1, IH.
Qed.
Lemma quoted_app s rest : Json.quoted s ^+ rest = String Json.quote (Json.escape s ^+ String Json.quote rest).
Proof. unfold Json.quoted. cbn [String.append]. by rewrite StrFacts.app_assoc. Qed.

(** ** Numbers *)

Lemma span_digits_uint d rest : ends_number rest = true ->
  span_digits (NilEmpty.string_of_uint d ^+ rest) = (NilEmpty.string_of_uint d, rest).
Proof.
  intros Hr. induction d as [|d IH|d IH|d IH|d IH|d IH|d IH|d IH|d IH|d IH|d IH];
    [|change (NilEmpty.string_of_uint ?x ^+ rest) with (String (match NilEmpty.string_of_uint x with String c _ => c | _ => "0"%char end) (NilEmpty.string_of_uint d ^+ rest)); cbn; by rewrite IH..].
  destruct rest as [|c r]; [done|]. cbn in *. destruct (Str.is_digit c); [done|reflexivity].
Qed.
Lemma nzhead_no_zero d d' : Decimal.nzhead d <> Decimal.D0 d'.
Proof. induction d; cbn; congruence. Qed.
Lemma to_uint_no_zero p d : Pos.to_uint p <> Decimal.D0 d.
Proof.
  intros E. pose proof (DecimalPos.Unsigned.of_to p) as Ho.
  pose proof (DecimalPos.Unsigned.to_of (Pos.to_uint p)) as Ht. rewrite Ho in Ht. cbn in Ht.
  unfold Decimal.unorm in Ht. destruct (Decimal.nzhead (Pos.to_uint p)) as [|d'|d'|d'|d'|d'|d'|d'|d'|d'|d'] eqn:En;
    [|by apply nzhead_no_zero in En|congruence..].
  by apply (DecimalPos.Unsigned.to_uint_nonzero p).
Qed.

Lemma natural_str z rest : (0 <= z)%Z -> ends_number rest = true -> natural (Num.str z ^+ rest) = Some (z, rest).
Proof.
  intros Hz Hr.
  assert (exists d, Num.str z = NilEmpty.string_of_uint d /\ (forall d', d = Decimal.D0 d' -> d' = Decimal.Nil)
            /\ d <> Decimal.Nil /\ Z.of_N (Pos.of_uint d) = z) as (d & -> & Hd0 & Hd & Hv).
  { destruct z as [|p|p]; [by exists (Decimal.D0 Decimal.Nil); split_and!; [|intros d' [= <-]|..]| |lia].
    exists (Pos.to_uint p). unfold Num.str, NilZero.string_of_int. cbn [Z.to_int]. pose proof (DecimalPos.Unsigned.of_to p) as E.
    split_and!; [|by intros d' ?%to_uint_no_zero|by apply DecimalPos.Unsigned.to_uint_nonnil|by rewrite E].
    unfold NilZero.string_of_uint. destruct (Pos.to_uint p); done. }
  unfold natural. rewrite span_digits_uint by done.
  pose proof (NumFacts.digits_uint d 0 false (or_intror Hd)) as Hn. cbn [Z.of_N] in Hn. rewrite Hv in Hn.
  rewrite Hr, Hn. cbn [mbind option_bind]. destruct d as [|d|d|d|d|d|d|d|d|d|d]; [done| |done..].
  by rewrite (Hd0 d eq_refl).
Qed.

(** What a printed value starts with is neither white space nor the end of a list or dict. *)
Definition starts_value (s : string) : bool :=
  match s with String c _ => negb (is_white c || Ascii.eqb c "]" || Ascii.eqb c "}") | EmptyString => false end.

Lemma number_str z n rest : ends_number rest = true ->
  value (S n) (Num.str z ^+ rest) = Some (JInt z, rest) /\ starts_value (Num.str z ^+ rest) = true.
Proof.
  intros Hr. assert (forall z, (0 <= z)%Z -> exists c s, Num.str z = String c s /\ Str.is_digit c = true) as Hd.
  { intros m Hm. destruct (NumFacts.str_nonneg m Hm) as ([|d|d|d|d|d|d|d|d|d|d] & ? & -> & _); [done|cbn; by eexists _, _..]. }
  assert (forall z, (0 <= z)%Z -> number (Num.str z ^+ rest) = Some (JInt z, rest)) as Hnat.
  { intros m Hm. destruct (Hd m Hm) as (c & s & E & Hc). unfold number. rewrite (natural_str m rest Hm Hr).
    rewrite E. cbn [String.append]. destruct c as [[] [] [] [] [] [] [] []]; done. }
  destruct (Z.le_gt_cases 0 z) as [Hz|Hz].
  - destruct (Hd z Hz) as (c & s & E & Hc). specialize (Hnat z Hz). rewrite E in *. cbn [String.append] in *.
    destruct c as [[] [] [] [] [] [] [] []]; try done; split; try done; exact Hnat.
  - destruct z as [|p|p]; [lia|lia|]. change (Num.str (Zneg p)) with ("-" ^+ Num.str (Zpos p)). split; [|done].
    change (value (S n) (("-" ^+ Num.str (Zpos p)) ^+ rest)) with (r ← natural (Num.str (Zpos p) ^+ rest); Some (JInt (- r.1), r.2)).
    by rewrite natural_str.
Qed.

(** ** Lists and dicts *)

Lemma starts_skip s : starts_value s = true -> skip s = s /\ opens "]" s = None /\ opens "}" s = None.
Proof.
  destruct s as [|c s]; [done|]. cbn. intros H. apply negb_true_iff, orb_false_iff in H as [[Hw ->]%orb_false_iff ->].
  by rewrite Hw.
Qed.
Lemma set_item_new k v kv : k ∉ List.map fst kv -> set_item k v kv = kv ++ [(k, v)].
Proof.
  induction kv as [|[k' v'] kv IH]; [done|]. cbn. intros Hk. apply not_elem_of_cons in Hk as [Hne Hk].
  destruct (String.eqb_spec k' k); [congruence|]. by rewrite IH.
Qed.
Lemma length_new_line n : 1 <= String.length (new_line n).
Proof. unfold new_line. cbn. lia. Qed.
Lemma ends_new_line n s : ends_number (new_line n ^+ s) = true.
Proof. done. Qed.

Lemma join_cons sep w l : l <> [] -> Str.join sep (w :: l) = w ^+ sep ^+ Str.join sep l.
Proof. by destruct l. Qed.

(** What is to be shown of a value, whatever stands after it. *)
Definition reads (j : json) : Prop := forall level n rest, ends_number rest = true ->
  String.length (render level j) <= n ->
  value (S n) (render level j ^+ rest) = Some (j, rest) /\ starts_value (render level j ^+ rest) = true.

Lemma elements_render l : Forall reads l -> l <> [] -> forall level k acc n rest,
  let body := Str.join ("," ^+ new_line level) (List.map (render level) l) in
  String.length body < n ->
  elements (S n) acc (body ^+ new_line k ^+ "]" ^+ rest) = Some (JList (acc ++ l), rest)
  /\ starts_value (body ^+ new_line k ^+ "]" ^+ rest) = true.
Proof.
  induction 1 as [|x l Hx Hl IH]; [done|]. intros _ level k acc n rest body Hn. subst body. destruct n as [|n]; [lia|].
  destruct l as [|y l].
  - cbn [List.map Str.join] in *. destruct (Hx level n (new_line k ^+ "]" ^+ rest)) as [E Hs]; [done|lia|]. split; [|done].
    cbn [elements]. rewrite E. cbn [mbind option_bind fst snd]. by rewrite skip_new_line.
  - cbn [List.map] in *. rewrite join_cons in * by done. set (tail := Str.join _ (render level y :: _)) in *.
    rewrite !StrFacts.app_assoc. rewrite !StrFacts.app_length in Hn. pose proof (length_new_line level).
    change (String.length ",") with 1 in Hn. destruct n as [|n]; [lia|].
    destruct (Hx level (S n) ("," ^+ new_line level ^+ tail ^+ new_line k ^+ "]" ^+ rest)) as [E Hs]; [done|lia|]. split; [|done].
    destruct (IH ltac:(done) level k (acc ++ [x]) (S n) rest) as [E' Hs']; [cbn [List.map]; fold tail; lia|].
    change (elements (S (S (S n))) acc ?s) with
      (v ← value (S (S n)) s; match opens "," (skip v.2) with
        | Some r => elements (S (S n)) (acc ++ [v.1]) (skip r) | None => r ← opens "]" (skip v.2); Some (JList (acc ++ [v.1]), r) end).
    rewrite E. cbn [mbind option_bind fst snd]. change (skip ("," ^+ ?t)) with ("," ^+ t).
    change (opens "," ("," ^+ ?t)) with (Some t). cbv iota. rewrite skip_new_line.
    cbn [List.map] in E', Hs'. fold tail in E', Hs'. rewrite (proj1 (starts_skip _ Hs')), E'. by rewrite <-app_assoc.
Qed.

Definition member_text (level : nat) (p : string * json) : string := Json.quoted p.1 ^+ ": " ^+ render level p.2.
Lemma length_member level p : String.length (render level p.2) + 4 <= String.length (member_text level p).
Proof. unfold member_text, Json.quoted. rewrite !StrFacts.app_length. cbn. rewrite StrFacts.app_length. cbn. lia. Qed.
Lemma member_app level p rest :
  member_text level p ^+ rest = String Json.quote (Json.escape p.1 ^+ String Json.quote (": " ^+ render level p.2 ^+ rest)).
Proof. unfold member_text. rewrite !StrFacts.app_assoc. apply quoted_app. Qed.

Lemma members_render kv : Forall (fun p => reads p.2) kv -> kv <> [] -> forall level k acc n rest,
  let body := Str.join ("," ^+ new_line level) (List.map (member_text level) kv) in
  NoDup (List.map fst (acc ++ kv)) -> String.length body < n ->
  members (S n) acc (body ^+ new_line k ^+ "}" ^+ rest) = Some (JDict (acc ++ kv), rest)
  /\ starts_value (body ^+ new_line k ^+ "}" ^+ rest) = true.
Proof.
  induction 1 as [|x kv Hx Hkv IH]; [done|]. intros _ level k acc n rest body Hnd Hn. subst body. destruct n as [|n]; [lia|].
  assert (x.1 ∉ List.map fst acc) as Hnew.
  { rewrite List.map_app in Hnd. apply NoDup_app in Hnd as (_ & Hnd & _). intros Hin. apply (Hnd _ Hin). cbn. by left. }
  pose proof (length_member level x) as Hlen.
  assert (forall n tail, ends_number tail = true -> String.length (render level x.2) <= n ->
    members (S (S n)) acc (member_text level x ^+ tail)
    = match opens "," (skip tail) with
      | Some r => members (S n) (acc ++ [x]) (skip r)
      | None => r ← opens "}" (skip tail); Some (JDict (acc ++ [x]), r)
      end) as Hone.
  { intros m tail Ht Hm. rewrite member_app.
    change (members (S (S m)) acc (String Json.quote ?s)) with
      (k ← string_body s; r ← opens ":" (skip k.2); v ← value (S m) (skip r);
       match opens "," (skip v.2) with
       | Some r => members (S m) (set_item k.1 v.1 acc) (skip r)
       | None => r ← opens "}" (skip v.2); Some (JDict (set_item k.1 v.1 acc), r)
       end).
    rewrite string_body_escape. cbn [mbind option_bind fst snd].
    change (opens ":" (skip (": " ^+ ?s))) with (Some (" " ^+ s)). cbn [mbind option_bind].
    change (skip (" " ^+ ?s)) with (skip s).
    destruct (Hx level m tail Ht Hm) as [E Hs]. rewrite (proj1 (starts_skip _ Hs)), E. cbn [fst snd].
    cbn [mbind option_bind fst snd]. by rewrite (set_item_new x.1 x.2 acc Hnew), <-surjective_pairing. }
  destruct kv as [|y kv].
  - cbn [List.map Str.join] in *. split; [|by rewrite member_app]. rewrite Hone by (done || lia). by rewrite skip_new_line.
  - cbn [List.map] in *. rewrite join_cons in * by done. set (tail := Str.join _ (member_text level y :: _)) in *.
    rewrite !StrFacts.app_assoc. rewrite !StrFacts.app_length in Hn. pose proof (length_new_line level).
    change (String.length ",") with 1 in Hn. destruct n as [|n]; [lia|]. split; [|by rewrite member_app].
    rewrite Hone by (done || lia).
    destruct (IH ltac:(done) level k (acc ++ [x]) (S n) rest) as [E' Hs'].
    { rewrite <-app_assoc. cbn [app]. rewrite !List.map_app in *. cbn [List.map fst] in *. exact Hnd. }
    { cbn [List.map]. fold tail. lia. }
    change (skip ("," ^+ ?t)) with ("," ^+ t). change (opens "," ("," ^+ ?t)) with (Some t). cbv iota. rewrite skip_new_line.
    cbn [List.map] in E', Hs'. fold tail in E', Hs'. rewrite (proj1 (starts_skip _ Hs')), E'. by rewrite <-app_assoc.
Qed.

Lemma render_reads j : distinct_keys j = true -> reads j.
Proof.
  induction j as [|b|z|s|l IH|kv IH] using Json.json_rec'; intros Hd level n rest Hr Hn.
  - destruct rest; split; reflexivity.
  - destruct b, rest; split; reflexivity.
  - by apply number_str.
  - cbn [render]. rewrite quoted_app. split; [|done].
    change (value (S n) (String Json.quote ?s)) with (t ← string_body s; Some (JStr t.1, t.2)). by rewrite string_body_escape.
  - cbn [distinct_keys] in Hd. assert (Forall reads l) as Hl.
    { rewrite forallb_forall in Hd. apply Forall_forall. intros x Hx. rewrite Forall_forall in IH. apply (IH x Hx), Hd, list_elem_of_In, Hx. }
    destruct l as [|x l]; [done|]. cbn [render] in Hn |- *. set (l1 := x :: l) in *.
    rewrite !StrFacts.app_length in Hn. pose proof (length_new_line (S level)). pose proof (length_new_line level).
    change (String.length "[") with 1 in Hn.
    do 2 (destruct n as [|n]; [lia|]). 
    destruct (elements_render l1 Hl ltac:(done) (S level) level [] (S n) rest) as [E Hs]; [lia|].
    rewrite !StrFacts.app_assoc. split; [|done].
    change (value (S (S (S n))) ("[" ^+ ?s)) with
      (match opens "]" (skip s) with Some r => Some (JList [], r) | None => elements (S (S n)) [] (skip s) end).
    rewrite skip_new_line. destruct (starts_skip _ Hs) as (-> & -> & _). exact E.
  - cbn [distinct_keys] in Hd. apply andb_true_iff in Hd as [Hk%bool_decide_eq_true Hd].
    assert (Forall (fun p => reads p.2) kv) as Hl.
    { rewrite forallb_forall in Hd. apply Forall_forall. intros x Hx.
      rewrite Forall_forall in IH. apply (IH x Hx), Hd, list_elem_of_In, Hx. }
    destruct kv as [|x kv]; [done|]. cbn [render] in Hn |- *. set (kv1 := x :: kv) in *.
    change (fun x => Json.quoted x.1 ^+ ": " ^+ render (S level) x.2) with (member_text (S level)) in *.
    rewrite !StrFacts.app_length in Hn. pose proof (length_new_line (S level)). pose proof (length_new_line level).
    change (String.length "{") with 1 in Hn.
    do 2 (destruct n as [|n]; [lia|]).
    destruct (members_render kv1 Hl ltac:(done) (S level) level [] (S n) rest) as [E Hs]; [done|lia|].
    rewrite !StrFacts.app_assoc. split; [|done].
    change (value (S (S (S n))) ("{" ^+ ?s)) with
      (match opens "}" (skip s) with Some r => Some (JDict [], r) | None => members (S (S n)) [] (skip s) end).
    rewrite skip_new_line. destruct (starts_skip _ Hs) as (-> & _ & ->). exact E.
Qed.

(** What [json.dumps] wrote is read back by [json.loads]. *)
Lemma loads_in_order j : distinct_keys j = true -> loads (dumps_in_order j) = Some j.
Proof.
  intros Hd. unfold loads, dumps_in_order.
  destruct (render_reads j Hd 0 (String.length (render 0 j)) "") as [E Hs]; [done..|].
  rewrite StrFacts.app_nil_r in *. rewrite (proj1 (starts_skip _ Hs)), E. done.
Qed.

(** * The order of the keys *)

Lemma leb_cons a s b t :
  String.leb (String a s) (String b t) = ((Str.code a <? Str.code b)%N || ((Str.code a =? Str.code b)%N && String.leb s t)).
Proof.
  unfold String.leb. cbn. unfold Ascii.compare, Str.code.
  destruct (N.compare_spec (N_of_ascii a) (N_of_ascii b)) as [E|E|E].
  - rewrite E, N.ltb_irrefl, N.eqb_refl. done.
  - by apply N.ltb_lt in E as ->.
  - assert ((N_of_ascii a <? N_of_ascii b)%N = false) as -> by (apply N.ltb_ge; lia).
    by assert ((N_of_ascii a =? N_of_ascii b)%N = false) as -> by (apply N.eqb_neq; lia).
Qed.
Lemma leb_trans a b c : String.leb a b = true -> String.leb b c = true -> String.leb a c = true.
Proof.
  revert b c. induction a as [|x a IH]; intros [|y b] [|z c]; try done. rewrite !leb_cons, !orb_true_iff, !andb_true_iff.
  rewrite !N.ltb_lt, !N.eqb_eq. intros [?|[? ?]] [?|[? ?]]; [left; lia..|]. right. split; [lia|]. by apply (IH b).
Qed.

Definition key_le {A} (p q : string * A) : Prop := String.leb p.1 q.1 = true.
#[local] Instance key_le_trans {A} : Transitive (@key_le A).
Proof. intros p q r. apply leb_trans. Qed.
Lemma insert_item_sorted {A} (p : string * A) l : StronglySorted key_le l -> StronglySorted key_le (insert_item p l).
Proof.
  induction 1 as [|q l Hl IH Hq]; cbn; [by repeat constructor|].
  destruct (String.leb p.1 q.1) eqn:E; constructor.
  - by constructor.
  - constructor; [done|]. rewrite Forall_forall in Hq |- *. intros r Hr. by transitivity q; [|apply Hq].
  - done.
  - rewrite (insert_item_Permutation p l). constructor; [|done]. unfold key_le.
    destruct (String.leb_total p.1 q.1) as [?|?]; [congruence|done].
Qed.
Lemma sort_items_sorted {A} (l : list (string * A)) : StronglySorted key_le (sort_items l).
Proof. unfold sort_items. induction l as [|p l IH]; [constructor|]. by apply insert_item_sorted. Qed.

(** Sorted dicts with the same members are the same list. *)
Lemma sorted_unique {A} (l l' : list (string * A)) : StronglySorted key_le l -> StronglySorted key_le l' ->
  NoDup (List.map fst l) -> Permutation l l' -> l = l'.
Proof.
  intros Hl Hl' Hnd Hp. apply (StronglySorted_unique_strong key_le); [|done..].
  intros p q Hin1 Hin2 Hle Hge. apply (Table.NoDup_map_eq fst l); [done|by apply list_elem_of_In| |].
  - apply list_elem_of_In. by rewrite Hp.
  - by apply String.leb_antisym.
Qed.
Lemma sort_items_id {A} (l : list (string * A)) : NoDup (List.map fst l) -> StronglySorted key_le l -> sort_items l = l.
Proof.
  intros Hnd Hs. symmetry. apply sorted_unique; [done|apply sort_items_sorted|done|]. by rewrite sort_items_Permutation.
Qed.
Lemma NoDup_sort {A} (l : list (string * A)) : NoDup (List.map fst (sort_items l)) <-> NoDup (List.map fst l).
Proof. by rewrite (Permutation_map _ (sort_items_Permutation l)). Qed.

(** ** Looking up *)

Lemma assoc_In {A} k (l : list (string * A)) v : NoDup (List.map fst l) -> In (k, v) l -> Json.assoc k l = Some v.
Proof.
  induction l as [|[k' v'] l IH]; [done|]. cbn. intros Hnd [[= -> ->]|Hin]; [by rewrite String.eqb_refl|].
  apply NoDup_cons in Hnd as [Hn Hnd]. destruct (String.eqb_spec k k') as [->|]; [|by apply IH].
  exfalso. apply Hn. apply list_elem_of_In, in_map_iff. by exists (k', v).
Qed.
Lemma assoc_Some_In {A} k (l : list (string * A)) v : Json.assoc k l = Some v -> In (k, v) l.
Proof.
  induction l as [|[k' v'] l IH]; [done|]. cbn. destruct (String.eqb_spec k k') as [->|]; [intros [= ->]; by left|].
  intros E. right. by apply IH.
Qed.
Lemma assoc_Permutation {A} k (l l' : list (string * A)) : NoDup (List.map fst l) -> Permutation l l' ->
  Json.assoc k l = Json.assoc k l'.
Proof.
  intros Hnd Hp. assert (NoDup (List.map fst l')) as Hnd' by (by rewrite <-(Permutation_map _ Hp)).
  destruct (Json.assoc k l) as [v|] eqn:E.
  - symmetry. apply assoc_In; [done|]. apply assoc_Some_In in E. apply list_elem_of_In. rewrite <-Hp. by apply list_elem_of_In.
  - destruct (Json.assoc k l') as [v|] eqn:E'; [|done]. apply assoc_Some_In in E'.
    rewrite (assoc_In k l v) in E; [done|done|]. apply list_elem_of_In. rewrite Hp. by apply list_elem_of_In.
Qed.
Lemma assoc_map {A B} (f : A -> B) k (l : list (string * A)) :
  Json.assoc k (List.map (fun p => (p.1, f p.2)) l) = f <$> Json.assoc k l.
Proof. induction l as [|[k' v] l IH]; [done|]. cbn. by destruct (String.eqb k k'). Qed.
Lemma assoc_sorted k kv : NoDup (List.map fst kv) ->
  Json.assoc k (sort_items (List.map (fun p => (p.1, sorted p.2)) kv)) = sorted <$> Json.assoc k kv.
Proof.
  intros Hnd. rewrite <-assoc_map. symmetry. apply assoc_Permutation; [by rewrite List.map_map|].
  by rewrite sort_items_Permutation.
Qed.
Lemma get_sorted k j : distinct_keys j = true -> Json.get k (sorted j) = sorted <$> Json.get k j.
Proof. destruct j; try done. cbn. intros [Hnd%bool_decide_eq_true _]%andb_true_iff. by apply assoc_sorted. Qed.
Lemma distinct_get k j v : distinct_keys j = true -> Json.get k j = Some v -> distinct_keys v = true.
Proof.
  destruct j; try done. cbn. intros [_ Hd]%andb_true_iff E%assoc_Some_In. rewrite forallb_forall in Hd. apply (Hd _ E).
Qed.

(** ** Sorting does not change what is printed *)

Lemma sorted_sorted j : distinct_keys j = true -> sorted (sorted j) = sorted j.
Proof.
  induction j as [| | | |l IH|kv IH] using Json.json_rec'; try done; cbn [sorted distinct_keys]; intros Hd.
  - f_equal. rewrite List.map_map. apply List.map_ext_in. intros x Hx. rewrite forallb_forall in Hd.
    rewrite Forall_forall in IH. apply IH; [by apply list_elem_of_In|by apply Hd].
  - apply andb_true_iff in Hd as [Hnd%bool_decide_eq_true Hd]. f_equal.
    rewrite (sort_items_map sorted kv), List.map_map. cbn [fst snd].
    assert (List.map (fun p => (p.1, sorted (sorted p.2))) (sort_items kv) = List.map (fun p => (p.1, sorted p.2)) (sort_items kv)) as ->.
    { apply List.map_ext_in. intros p Hp. f_equal. rewrite Forall_forall in IH. rewrite forallb_forall in Hd.
      apply list_elem_of_In in Hp. rewrite sort_items_Permutation in Hp. apply (IH p Hp), Hd, list_elem_of_In, Hp. }
    rewrite <-(sort_items_map sorted kv). apply sort_items_id; [|apply sort_items_sorted]. by rewrite NoDup_sort, List.map_map.
Qed.
Lemma dumps_sorted j : distinct_keys j = true -> dumps_indented (sorted j) = dumps_indented j.
Proof. intros Hd. unfold dumps_indented. by rewrite sorted_sorted. Qed.
Lemma distinct_sorted j : distinct_keys j = true -> distinct_keys (sorted j) = true.
Proof.
  induction j as [| | | |l IH|kv IH] using Json.json_rec'; intros Hd; try done; cbn [sorted distinct_keys] in *.
  - rewrite forallb_forall in *. intros y (x & <- & Hx)%in_map_iff. rewrite Forall_forall in IH. apply IH; [by apply list_elem_of_In|by apply Hd].
  - apply andb_true_iff in Hd as [Hnd%bool_decide_eq_true Hd]. apply andb_true_iff. split.
    + apply bool_decide_eq_true. by rewrite NoDup_sort, List.map_map.
    + rewrite forallb_forall in *. intros p Hp. apply list_elem_of_In in Hp. rewrite sort_items_Permutation in Hp.
      apply list_elem_of_In, in_map_iff in Hp as (q & <- & Hq). cbn. rewrite Forall_forall in IH. apply IH; [by apply list_elem_of_In|by apply Hd].
Qed.

(** Sorted dicts come back in the order of their keys. *)
Lemma loads_dumps j : distinct_keys j = true -> loads (dumps_indented j) = Some (sorted j).
Proof. intros Hd. apply loads_in_order. by apply distinct_sorted. Qed.

(** ** The text is ASCII *)

Definition ascii_text (s : string) : bool := Str.forall_char (fun c => (Str.code c <? 128)%N) s.
Lemma ascii_app s t : ascii_text (s ^+ t) = ascii_text s && ascii_text t.
Proof. unfold ascii_text, Str.forall_char. by rewrite StrFacts.exists_char_app, negb_orb. Qed.
Lemma ascii_utf8 s : ascii_text s = true -> Str.utf8_valid 0 0%N 0%N s = true.
Proof.
  unfold ascii_text, Str.forall_char. induction s as [|c s IH]; [done|]. cbn.
  rewrite negb_orb, negb_involutive, andb_true_iff. intros [-> Hs]. by apply IH.
Qed.
Lemma ascii_quoted s : ascii_text (Json.quoted s) = true.
Proof.
  unfold Json.quoted. cbn [String.append]. change (ascii_text (String Json.quote ?t)) with (ascii_text t).
  rewrite ascii_app, andb_true_r. induction s as [|c s IH]; [done|]. cbn [Json.escape].
  assert (forall t, ascii_text (Json.escape1 c t) = ascii_text t) as ->; [|done].
  intros t. destruct c as [[] [] [] [] [] [] [] []]; reflexivity.
Qed.
Lemma ascii_uint d : ascii_text (NilEmpty.string_of_uint d) = true.
Proof. by induction d. Qed.
Lemma ascii_num z : ascii_text (Num.str z) = true.
Proof.
  destruct (Z.le_gt_cases 0 z) as [Hz|Hz].
  - destruct (NumFacts.str_nonneg z Hz) as (d & _ & -> & _). apply ascii_uint.
  - destruct z as [|p|p]; [lia|lia|]. change (Num.str (Zneg p)) with ("-" ^+ Num.str (Zpos p)).
    destruct (NumFacts.str_nonneg (Zpos p)) as (d & _ & -> & _); [lia|]. rewrite ascii_app. apply ascii_uint.
Qed.
Lemma ascii_new_line n : ascii_text (new_line n) = true.
Proof.
  unfold new_line. change (ascii_text (String newline ?t)) with (ascii_text t).
  induction (2 * n)%nat as [|m IH]; [done|]. exact IH.
Qed.
Lemma ascii_join sep l : ascii_text sep = true -> Forall (fun s => ascii_text s = true) l -> ascii_text (Str.join sep l) = true.
Proof.
  intros Hs. induction 1 as [|s l Hx Hl IH]; [done|]. destruct l as [|t l]; [done|].
  rewrite join_cons by done. by rewrite !ascii_app, Hx, Hs, IH.
Qed.
Lemma render_ascii j level : ascii_text (render level j) = true.
Proof.
  revert level. induction j as [|b|z|s|l IH|kv IH] using Json.json_rec'; intros level.
  - done.
  - by destruct b.
  - apply ascii_num.
  - apply ascii_quoted.
  - destruct l as [|x l]; [done|]. cbn [render]. rewrite !ascii_app, !ascii_new_line, ascii_join; [done|by rewrite ascii_app, ascii_new_line|].
    apply Forall_forall. intros s Hs. apply list_elem_of_In, in_map_iff in Hs as (y & <- & Hy).
    rewrite Forall_forall in IH. apply IH. by apply list_elem_of_In.
  - destruct kv as [|x kv]; [done|]. cbn [render]. rewrite !ascii_app, !ascii_new_line, ascii_join; [done|by rewrite ascii_app, ascii_new_line|].
    apply Forall_forall. intros s Hs. apply list_elem_of_In, in_map_iff in Hs as (p & <- & Hp).
    rewrite !ascii_app, ascii_quoted. cbn [andb]. apply list_elem_of_In in Hp.
    rewrite Forall_forall in IH. by rewrite (IH p Hp).
Qed.

End JsonText.
