(* ===== verification/Orm.v ===== *)
(** Rows of tables whose columns are only copied: the behaviour of SQLAlchemy and SQLite
    that [services/backup_service.py] relies on, over a description of the columns.

    A statement of the code that writes such a row names its columns in a list of
    [assignment]s.  Time stamps that are set by a clock and never read are left out. *)
From S2P Require Import Prelude.

Module Orm.
Local Open Scope string_scope.
Local Open Scope list_scope.
Local Open Scope Z_scope.

(** * Fallible code *)

Inductive failure := ValueError | Exception.
Inductive result (A : Type) := Ok (a : A) | Err (e : failure).
#[global] Arguments Ok {_} _.
#[global] Arguments Err {_} _.
#[global] Instance result_bind : MBind result := fun _ _ f r => match r with Ok a => f a | Err e => Err e end.
#[global] Instance result_ret : MRet result := fun _ => Ok.
Definition lift {A} (o : option A) : result A := match o with Some a => Ok a | None => Err Exception end.

Lemma bind_Ok {A B} (f : A -> result B) r b : r ≫= f = Ok b <-> exists a, r = Ok a /\ f a = Ok b.
Proof. destruct r as [a|e]; cbn; [split; [by exists a|by intros (? & [= ->] & ?)]|split; [done|by intros (? & ? & _)]]. Qed.
Lemma lift_Ok {A} (o : option A) a : lift o = Ok a <-> o = Some a.
Proof. destruct o; cbn; split; congruence. Qed.

Fixpoint fold_steps {A S} (f : A -> S -> result S) (l : list A) (s : S) : result S :=
  match l with
  | [] => Ok s
  | x :: l => s ← f x s; fold_steps f l s
  end.

(** * Columns and rows *)

Inductive column_type := TText | TInteger | TBoolean | TJson | TBinary | TDateTime.
(** The value of an attribute: [Val JNull] is [None]. *)
Inductive cell := Val (j : json) | Bytes (s : string) | Moment (t : Z).
#[global] Instance cell_eq_dec : EqDecision cell.
Proof. solve_decision. Defined.
Record column := Column {
  c_name : string;
  c_type : column_type;
  c_required : bool;             (* nullable=False *)
  c_unique : bool;
  c_default : option json;
}.
Record row := Row { r_id : Z; cells : list (string * cell) }.

(** [x.k]; [None] is an AttributeError. *)
Definition attr (k : string) (r : row) : option cell :=
  if String.eqb k "id" then Some (Val (JInt (r_id r))) else Json.assoc k (cells r).
Definition is_null (c : cell) : bool := bool_decide (c = Val JNull).
Definition set_cell (k : string) (v : cell) (r : row) : row :=
  Row (r_id r) (List.map (fun p => if String.eqb p.1 k then (k, v) else p) (cells r)).

Section Binding.
(** How a text is kept in an integer column. *)
Context (integer_affinity : string -> json).

(** What is stored for a value; [None] is an exception of the statement. *)
Definition bind (t : column_type) (c : cell) : option cell :=
  match t, c with
  | TJson, Val j => Some (Val j)
  | _, Val JNull => Some (Val JNull)
  | TText, Val j => (fun s => Val (JStr s)) <$> Json.bind_text j
  | TInteger, Val (JInt z) => if (- 2 ^ 63 <=? z) && (z <? 2 ^ 63) then Some (Val (JInt z)) else None
  | TInteger, Val (JBool b) => Some (Val (JInt (Z.b2z b)))
  | TInteger, Val (JStr s) => Some (Val (integer_affinity s))
  | TBoolean, Val (JBool b) => Some (Val (JBool b))
  | TBoolean, Val (JInt 0) => Some (Val (JBool false))
  | TBoolean, Val (JInt 1) => Some (Val (JBool true))
  | TBinary, Bytes s => Some (Bytes s)
  | TDateTime, Moment t => Some (Moment t)
  | _, _ => None
  end.

Definition required_ok (k : column) (c : cell) : bool :=
  match c_type k with TJson => true | _ => negb (c_required k && is_null c) end.
(** NULL is not a duplicate of NULL. *)
Definition unique_ok (k : column) (c : cell) (i : option Z) (rows : list row) : bool :=
  negb (c_unique k) || is_null c
  || forallb (fun r => bool_decide (Some (r_id r) = i) || negb (bool_decide (attr (c_name k) r = Some c))) rows.
Definition checked (k : column) (c : cell) (i : option Z) (rows : list row) : option cell :=
  if required_ok k c && unique_ok k c i rows then Some c else None.

(** * Statements *)

Definition assignment := list (string * cell).

(** The value of a column in a new row: the ORM leaves [None] out, and then the default
    of the column counts; a JSON column takes it. *)
Definition new_cell (vals : assignment) (rows : list row) (k : column) : option (string * cell) :=
  let dflt := match c_default k with Some j => Val j | None => Val JNull end in
  let v := match Json.assoc (c_name k) vals with
           | Some v => match c_type k with TJson => v | _ => if is_null v then dflt else v end
           | None => dflt
           end in
  v ← bind (c_type k) v; v ← checked k v None rows; Some (c_name k, v).
(** [db.session.add(T(...))] with its flush. *)
Definition insert (schema : list column) (vals : assignment) (rows : list row) : option (list row) :=
  cs ← mapM (new_cell vals rows) schema;
  Some (rows ++ [Row (Table.next_id r_id rows) cs]).

(** [x.k = v] for each column, with its flush.  An attribute that is no column is set on the
    object alone. *)
Definition set_column (schema : list column) (i : Z) (a : string * cell) (rows : list row) : option (list row) :=
  match List.find (fun k => String.eqb (c_name k) a.1) schema with
  | None => Some rows
  | Some k =>
      v ← bind (c_type k) a.2; v ← checked k v (Some i) rows;
      Some (Table.update (fun r => r_id r =? i) (set_cell a.1 v) rows)
  end.
Fixpoint assign (schema : list column) (i : Z) (vals : assignment) (rows : list row) : option (list row) :=
  match vals with
  | [] => Some rows
  | a :: vals => rows ← set_column schema i a rows; assign schema i vals rows
  end.

(** [T.query.filter_by(k=v).first()] on a text column: the outer [None] is an exception. *)
Definition find_by (k : string) (v : json) (rows : list row) : option (option row) :=
  c ← bind TText (Val v);
  Some (Table.first (fun r => bool_decide (attr k r = Some c)) rows).

End Binding.

(** * Facts *)

Lemma set_cell_id k v r : r_id (set_cell k v r) = r_id r.
Proof. done. Qed.
Lemma attr_set_cell k v r k' : k <> "id" ->
  attr k' (set_cell k v r) = if String.eqb k' k then (_ ← attr k' r; Some v) else attr k' r.
Proof.
  intros Hk. unfold attr, set_cell. cbn [r_id cells].
  destruct (String.eqb_spec k' "id") as [->|Hid]; [by destruct (String.eqb_spec "id" k)|].
  induction (cells r) as [|[n c] l IH]; cbn; [by destruct (String.eqb k' k)|].
  destruct (String.eqb_spec n k) as [->|Hn]; cbn.
  - destruct (String.eqb_spec k' k); [done|exact IH].
  - destruct (String.eqb_spec k' n) as [->|]; [by destruct (String.eqb_spec n k)|exact IH].
Qed.

Lemma checked_Some k v i rows w : checked k v i rows = Some w -> w = v.
Proof. unfold checked. destruct (_ && _); congruence. Qed.
Lemma new_cells_attr aff schema vals rows cs k : mapM (new_cell aff vals rows) schema = Some cs ->
  NoDup (List.map c_name schema) -> In k schema ->
  exists c, new_cell aff vals rows k = Some (c_name k, c) /\ Json.assoc (c_name k) cs = Some c.
Proof.
  revert cs. induction schema as [|k0 schema IH]; [done|]. cbn. intros cs (p & Hp & (ps & Hps & [= <-])%bind_Some)%bind_Some Hnd Hk.
  apply NoDup_cons in Hnd as [Hni Hnd].
  assert (p.1 = c_name k0) as E1.
  { unfold new_cell in Hp. apply bind_Some in Hp as (? & _ & (? & _ & [= <-])%bind_Some). done. }
  destruct p as [n c]. cbn in *. subst n. destruct Hk as [<-|Hk].
  - exists c. by rewrite String.eqb_refl.
  - destruct (IH ps Hps Hnd Hk) as (c' & Hc & Ha). exists c'. split; [done|].
    destruct (String.eqb_spec (c_name k) (c_name k0)) as [E|]; [|done].
    exfalso. apply Hni. rewrite <-E. by apply list_elem_of_In, in_map.
Qed.

(** An update changes one row, and of it the columns that are named. *)
Lemma assign_spec aff schema i vals : "id" ∉ List.map c_name schema -> forall rows rows',
  assign aff schema i vals rows = Some rows' ->
  exists f, rows' = Table.update (fun r => r_id r =? i) f rows
    /\ forall r, r_id (f r) = r_id r /\ forall k, k ∉ List.map fst vals -> attr k (f r) = attr k r.
Proof.
  intros Hid. induction vals as [|[n v] vals IH]; intros rows rows'; cbn.
  - intros [= <-]. exists (fun r => r). split; [|done]. unfold Table.update. rewrite <-(List.map_id rows) at 1.
    apply List.map_ext. intros r. by destruct (_ =? _).
  - intros (rows1 & E1 & E)%bind_Some. apply IH in E as (f & -> & Hf). unfold set_column in E1. cbn in E1.
    destruct (List.find _ schema) as [c|] eqn:Ec.
    + apply List.find_some in Ec as [Hc En%String.eqb_eq]. apply bind_Some in E1 as (w & _ & (w' & _ & [= <-])%bind_Some).
      exists (fun r => f (set_cell n w' r)). split.
      * unfold Table.update. rewrite List.map_map. apply List.map_ext. intros r.
        destruct (r_id r =? i) eqn:E; cbn; by rewrite E.
      * intros r. split; [by rewrite (proj1 (Hf _))|]. intros k Hk. apply not_elem_of_cons in Hk as [Hne Hk].
        rewrite (proj2 (Hf _) k Hk), attr_set_cell.
        -- by destruct (String.eqb_spec k n).
        -- intros ->. apply Hid. rewrite <-En. by apply list_elem_of_In, in_map.
    + injection E1 as <-. exists f. split; [done|]. intros r. split; [apply Hf|]. intros k Hk.
      apply not_elem_of_cons in Hk as [_ Hk]. by apply Hf.
Qed.
Lemma insert_spec aff schema vals rows rows' : insert aff schema vals rows = Some rows' ->
  exists cs, mapM (new_cell aff vals rows) schema = Some cs /\ rows' = rows ++ [Row (Table.next_id r_id rows) cs].
Proof. unfold insert. intros (cs & Hcs & [= <-])%bind_Some. by exists cs. Qed.

(** ** Unique columns *)

Lemma unique_ok_spec k c i rows : c_unique k = true -> is_null c = false -> unique_ok k c i rows = true ->
  forall r, In r rows -> Some (r_id r) <> i -> attr (c_name k) r <> Some c.
Proof.
  intros Hu Hn. unfold unique_ok. rewrite Hu, Hn. cbn. rewrite forallb_forall. intros Hall r Hr Hi.
  specialize (Hall r Hr). rewrite bool_decide_eq_false_2 in Hall by done. cbn in Hall.
  by apply negb_true_iff, bool_decide_eq_false in Hall.
Qed.
Lemma checked_required k c i rows w : c_required k = true -> c_type k <> TJson -> checked k c i rows = Some w ->
  w = c /\ is_null c = false /\ unique_ok k c i rows = true.
Proof.
  intros Hr Ht. unfold checked, required_ok. rewrite Hr. cbn [andb]. destruct (unique_ok _ _ _ _), (is_null c), (c_type k); cbn; try done;
    intros [= ->]; done.
Qed.

(** A column that is unique and required: no value occurs twice. *)
Definition key_column (k : column) : Prop := c_unique k = true /\ c_required k = true /\ c_type k <> TJson /\ c_name k <> "id".
Lemma insert_unique aff schema vals rows rows' k : key_column k -> NoDup (List.map c_name schema) -> In k schema ->
  NoDup (List.map (attr (c_name k)) rows) -> insert aff schema vals rows = Some rows' ->
  NoDup (List.map (attr (c_name k)) rows').
Proof.
  intros (Hu & Hr & Ht & Hid) Hnd Hk Hn (cs & Hcs & ->)%insert_spec.
  destruct (new_cells_attr _ _ _ _ _ k Hcs Hnd Hk) as (c & Hc & Ha).
  unfold new_cell in Hc. apply bind_Some in Hc as (v & _ & (w & Hw & [= <-])%bind_Some).
  apply checked_required in Hw as (-> & Hnull & Hok); [|done..].
  assert (attr (c_name k) (Row (Table.next_id r_id rows) cs) = Some v) as E
    by (unfold attr; destruct (String.eqb_spec (c_name k) "id"); [done|exact Ha]).
  rewrite List.map_app. cbn [List.map]. rewrite E. rewrite (Permutation_app_comm _ [_]). cbn [app]. apply NoDup_cons. split; [|done].
  intros (r & Er & Hin)%list_elem_of_In%in_map_iff. by apply (unique_ok_spec _ _ _ _ Hu Hnull Hok r Hin).
Qed.
Lemma insert_ids aff schema vals rows rows' : NoDup (List.map r_id rows) -> insert aff schema vals rows = Some rows' ->
  NoDup (List.map r_id rows').
Proof.
  intros Hn (cs & _ & ->)%insert_spec. apply Table.NoDup_map_snoc; [done|]. intros r Hr Eid. cbn in Eid.
  pose proof (Table.next_id_fresh r_id _ r Hr) as Hlt. rewrite Eid in Hlt. by apply Z.lt_irrefl in Hlt.
Qed.

Lemma update_ids {A} (f : row -> row) (p : row -> bool) rows (g : Z -> A) : (forall r, r_id (f r) = r_id r) ->
  List.map (fun r => g (r_id r)) (Table.update p f rows) = List.map (fun r => g (r_id r)) rows.
Proof.
  intros Hf. unfold Table.update. rewrite List.map_map. apply List.map_ext. intros r. destruct (p r); [by rewrite Hf|done].
Qed.
Lemma set_column_unique aff schema i a rows rows' k : key_column k -> NoDup (List.map r_id rows) ->
  "id" ∉ List.map c_name schema -> (forall k', In k' schema -> c_name k' = c_name k -> k' = k) ->
  NoDup (List.map (attr (c_name k)) rows) -> set_column aff schema i a rows = Some rows' ->
  NoDup (List.map r_id rows') /\ NoDup (List.map (attr (c_name k)) rows').
Proof.
  intros (Hu & Hr & Ht & Hid) Hids Hnoid Honly Hn. unfold set_column. destruct (List.find _ _) as [c|] eqn:Ef; [|by intros [= <-]].
  apply List.find_some in Ef as [Hc En%String.eqb_eq]. destruct a as [n x]. cbn in *. subst n.
  assert (c_name c <> "id") as Hcid by (intros E; apply Hnoid; rewrite <-E; by apply list_elem_of_In, in_map).
  intros (v & _ & (w & Hw & [= <-])%bind_Some)%bind_Some. split.
  - change (List.map r_id ?l) with (List.map (fun r => (fun z => z) (r_id r)) l). by rewrite update_ids.
  - destruct (decide (c_name c = c_name k)) as [E|Hne].
    + rewrite (Honly c Hc E) in *. apply checked_required in Hw as (-> & Hnull & Hok); [|done..].
      pose proof (unique_ok_spec _ _ _ _ Hu Hnull Hok) as Hfresh. clear Hok.
      induction rows as [|r rows IH]; [constructor|]. cbn in Hids, Hn |- *. apply NoDup_cons in Hids as [Hni Hids], Hn as [Hnn Hn].
      apply NoDup_cons. split; [|apply IH; [done..|intros q Hq; apply Hfresh; by right]].
      intros (q & Eq & Hq)%list_elem_of_In%in_map_iff. apply in_map_iff in Hq as (q0 & <- & Hq0).
      assert (r_id q0 <> r_id r) as Hqr by (intros E'; apply Hni; rewrite <-E'; by apply list_elem_of_In, in_map).
      destruct (Z.eqb_spec (r_id q0) i) as [E1|E1], (Z.eqb_spec (r_id r) i) as [E2|E2]; [congruence| | |].
      * rewrite attr_set_cell, String.eqb_refl in Eq by done. destruct (attr (c_name k) q0) eqn:Ea; cbn in Eq.
        -- apply (Hfresh r); [by left|congruence|done].
        -- apply Hnn. rewrite <-Eq. apply list_elem_of_In, in_map_iff. by exists q0.
      * rewrite attr_set_cell, String.eqb_refl in Eq by done. destruct (attr (c_name k) r) eqn:Ea; cbn in Eq.
        -- apply (Hfresh q0); [by right|congruence|done].
        -- apply Hnn. apply list_elem_of_In, in_map_iff. by exists q0.
      * apply Hnn. rewrite <-Eq. by apply list_elem_of_In, in_map.
    + enough (List.map (attr (c_name k)) (Table.update (fun r => r_id r =? i) (set_cell (c_name c) w) rows) = List.map (attr (c_name k)) rows) as -> by done.
      unfold Table.update. rewrite List.map_map. apply List.map_ext. intros r. destruct (_ =? _); [|done].
      rewrite attr_set_cell by done. by destruct (String.eqb_spec (c_name k) (c_name c)).
Qed.
Lemma assign_unique aff schema i vals k : key_column k -> "id" ∉ List.map c_name schema ->
  (forall k', In k' schema -> c_name k' = c_name k -> k' = k) -> forall rows rows',
  NoDup (List.map r_id rows) -> NoDup (List.map (attr (c_name k)) rows) -> assign aff schema i vals rows = Some rows' ->
  NoDup (List.map r_id rows') /\ NoDup (List.map (attr (c_name k)) rows').
Proof.
  intros Hk Hnoid Honly. induction vals as [|a vals IH]; intros rows rows' Hi Hn; cbn; [by intros [= <-]|].
  intros (rows1 & E1 & E)%bind_Some. destruct (set_column_unique _ _ _ _ _ _ _ Hk Hi Hnoid Honly Hn E1) as [Hi1 Hn1].
  by apply (IH rows1 rows').
Qed.

(** ** A row that fits is inserted *)

Lemma insert_fresh aff schema vals rows cs : mapM (new_cell aff vals []) schema = Some cs ->
  (forall k c, In k schema -> c_unique k = true -> In (c_name k, c) cs -> forall r, In r rows -> attr (c_name k) r <> Some c) ->
  insert aff schema vals rows = Some (rows ++ [Row (Table.next_id r_id rows) cs]).
Proof.
  intros Hcs Hfresh. unfold insert. enough (mapM (new_cell aff vals rows) schema = Some cs) as -> by done.
  assert (forall k, In k schema -> c_unique k = true -> forall c, In (c_name k, c) cs -> forall r, In r rows -> attr (c_name k) r <> Some c) as Hf
    by (intros k Hk Hu c Hc; by apply Hfresh). clear Hfresh.
  revert cs Hcs Hf. induction schema as [|k schema IH]; [done|]. cbn.
  intros cs (p & Hp & (ps & Hps & [= <-])%bind_Some)%bind_Some Hf. rewrite (IH ps Hps) by (intros k' Hk' Hu c Hc; apply Hf; [by right|done|by right]).
  enough (new_cell aff vals rows k = Some p) as -> by done.
  unfold new_cell in Hp |- *. set (v := match Json.assoc _ _ with Some _ => _ | None => _ end) in *.
  destruct (bind aff (c_type k) v) as [w|]; [|done]. cbn in Hp |- *. apply bind_Some in Hp as (w' & Hw & [= <-]).
  pose proof Hw as ->%checked_Some. unfold checked in *. destruct (required_ok k w); [|done]. cbn [andb] in *.
  enough (unique_ok k w None rows = true) as -> by done. unfold unique_ok. destruct (c_unique k) eqn:Hu; [|done]. destruct (is_null w); [done|].
  cbn. apply forallb_forall. intros r Hr. apply orb_true_iff. right. apply negb_true_iff, bool_decide_eq_false.
  apply (Hf k); [by left|done|by left|done].
Qed.

End Orm.
