(* ===== verification/Backup.v ===== *)
(** Backups: [services/backup_service.py] and its routes in [api/v2/system.py].

    CAs and certificates are the typed rows of [CertRoutes], the other tables the rows of
    [Orm].  The ciphers are the interface [BackupCrypto]; salts, nonces and initialisation
    vectors are arguments.  The copies of certificates and keys that a restore writes
    beside the database are left out. *)
From S2P Require Import Prelude Base64 Hashes AuditSink Encryption Pki CertModel CaModel CertRoutes CertImport JsonText Orm.

Class BackupCrypto := {
  (** PBKDF2 with SHA-256 and 32 bytes of output: iterations, salt, secret *)
  derive : Z -> string -> string -> string;
  (** AES-GCM: key, nonce, data *)
  aes_gcm_encrypt : string -> string -> string -> string;
  aes_gcm_decrypt : string -> string -> string -> option string;
  aes_gcm_law k n d : aes_gcm_decrypt k n (aes_gcm_encrypt k n d) = Some d;
}.

Module Backup.
Import CertModel CertRoutes Orm.
Local Open Scope string_scope.
Local Open Scope list_scope.
Local Open Scope Z_scope.

(** * Tables *)

Inductive table :=
| Users | WebAuthnCredentials | SystemConfig | AcmeAccounts | Groups | GroupMembers | CustomRoles | Templates
| TrustedCertificates | SsoProviders | HsmProviders | ApiKeys | SmtpConfig | NotificationConfig | Policies
| AuthCertificates | DnsProviders | AcmeDomains | AcmeLocalDomains.
#[global] Instance table_eq_dec : EqDecision table.
Proof. solve_decision. Defined.

Definition text (k : string) : column := Column k TText false false None.
Definition integer (k : string) : column := Column k TInteger false false None.
Definition flag (k : string) (b : bool) : column := Column k TBoolean false false (Some (JBool b)).
Definition moment (k : string) : column := Column k TDateTime false false None.
Definition json_list (k : string) : column := Column k TJson false false (Some (JList [])).
Definition required (c : column) : column := Column (c_name c) (c_type c) true (c_unique c) (c_default c).
Definition unique (c : column) : column := Column (c_name c) (c_type c) (c_required c) true (c_default c).
Definition with_default (j : json) (c : column) : column := Column (c_name c) (c_type c) (c_required c) (c_unique c) (Some j).

Definition user_columns : list column :=
  [required (unique (text "username")); required (unique (text "email")); required (text "password_hash");
   text "full_name"; required (with_default (JStr "viewer") (text "role")); integer "custom_role_id";
   flag "active" true; flag "mfa_enabled" false; text "totp_secret"; flag "totp_confirmed" false;
   text "backup_codes"; flag "force_password_change" false; text "password_reset_token";
   moment "password_reset_expires"; moment "created_at"; moment "last_login";
   with_default (JInt 0) (integer "login_count"); with_default (JInt 0) (integer "failed_logins");
   moment "locked_until"].
Definition webauthn_credential_columns : list column :=
  [required (integer "user_id"); required (unique (Column "credential_id" TBinary false false None));
   required (Column "public_key" TBinary false false None); required (with_default (JInt 0) (integer "sign_count"));
   text "name"; text "aaguid"; required (flag "enabled" true)].
Definition system_config_columns : list column :=
  [required (unique (text "key")); text "value"; flag "encrypted" false; text "description"].
Definition acme_account_columns : list column :=
  [required (unique (text "account_id")); required (text "jwk"); required (unique (text "jwk_thumbprint"));
   text "contact"; required (with_default (JStr "valid") (text "status")); flag "terms_of_service_agreed" false;
   text "external_account_binding"].
Definition group_columns : list column :=
  [required (unique (text "name")); with_default (JStr "") (text "description"); json_list "permissions";
   moment "created_at"].
Definition group_member_columns : list column :=
  [required (integer "group_id"); required (integer "user_id"); with_default (JStr "member") (text "role")].
Definition custom_role_columns : list column :=
  [required (unique (text "name")); with_default (JStr "") (text "description"); json_list "permissions";
   integer "inherits_from"; flag "is_system" false; moment "created_at"].
Definition certificate_template_columns : list column :=
  [required (unique (text "name")); text "description"; required (text "template_type");
   with_default (JStr "RSA-2048") (text "key_type"); with_default (JInt 397) (integer "validity_days");
   with_default (JStr "sha256") (text "digest"); text "dn_template"; required (text "extensions_template");
   flag "is_system" false; flag "is_active" true; text "created_by"; text "updated_by"].
Definition trusted_certificate_columns : list column :=
  [required (text "name"); text "description"; required (text "certificate_pem");
   required (unique (text "fingerprint_sha256")); text "fingerprint_sha1"; text "subject"; text "issuer";
   text "serial_number"; moment "not_before"; moment "not_after"; text "purpose"; text "added_by"; text "notes"].
Definition sso_provider_columns : list column :=
  [required (unique (text "name")); required (text "provider_type"); flag "enabled" false; flag "is_default" false;
   text "display_name"; text "icon"; text "saml_metadata_url"; text "saml_entity_id"; text "saml_sso_url";
   text "saml_slo_url"; text "saml_certificate"; flag "saml_sign_requests" true;
   with_default (JStr "https") (text "saml_sp_cert_source"); flag "saml_verify_ssl" true; text "saml_ca_bundle";
   text "oauth2_client_id"; text "_oauth2_client_secret"; text "oauth2_auth_url"; text "oauth2_token_url";
   text "oauth2_userinfo_url"; text "oauth2_scopes"; flag "oauth2_verify_ssl" true; text "oauth2_ca_bundle";
   text "ldap_server"; with_default (JInt 389) (integer "ldap_port"); flag "ldap_use_ssl" false;
   flag "ldap_verify_ssl" true; text "ldap_ca_bundle"; text "ldap_bind_dn"; text "_ldap_bind_password";
   text "ldap_base_dn"; with_default (JStr "(uid={username})") (text "ldap_user_filter"); text "ldap_group_filter";
   with_default (JStr "uid") (text "ldap_username_attr"); with_default (JStr "mail") (text "ldap_email_attr");
   with_default (JStr "cn") (text "ldap_fullname_attr"); with_default (JStr "member") (text "ldap_group_member_attr");
   text "attribute_mapping"; text "role_mapping"; with_default (JStr "viewer") (text "default_role");
   flag "auto_create_users" true; flag "auto_update_users" true].
Definition hsm_provider_columns : list column :=
  [required (unique (text "name")); required (text "type"); required (text "config");
   with_default (JStr "unknown") (text "status"); text "error_message"; integer "created_by"].
Definition api_key_columns : list column :=
  [required (integer "user_id"); required (unique (text "key_hash")); required (text "name");
   required (text "permissions"); moment "created_at"; moment "expires_at"; moment "last_used_at"; flag "is_active" true].
Definition smtp_config_columns : list column :=
  [text "smtp_host"; with_default (JInt 587) (integer "smtp_port"); text "smtp_user"; text "_smtp_password";
   text "smtp_from"; with_default (JStr "UCM Notifications") (text "smtp_from_name"); flag "smtp_use_tls" true;
   flag "smtp_use_ssl" false; flag "smtp_auth" true; with_default (JStr "html") (text "smtp_content_type");
   text "email_template"; text "email_text_template"; flag "enabled" false; text "updated_by"].
Definition notification_config_columns : list column :=
  [required (unique (text "type")); flag "enabled" true; integer "days_before"; text "recipients";
   text "subject_template"; text "description"; with_default (JInt 24) (integer "cooldown_hours")].
Definition certificate_policy_columns : list column :=
  [required (unique (text "name")); text "description"; with_default (JStr "issuance") (text "policy_type");
   integer "ca_id"; integer "template_id"; required (with_default (JStr "{}") (text "rules"));
   flag "requires_approval" false; integer "approval_group_id"; with_default (JInt 1) (integer "min_approvers");
   flag "notify_on_violation" true; text "notification_emails"; flag "is_active" true;
   with_default (JInt 100) (integer "priority"); text "created_by"].
Definition auth_certificate_columns : list column :=
  [required (integer "user_id"); Column "cert_pem" TBinary false false None; required (unique (text "cert_serial"));
   required (text "cert_subject"); text "cert_issuer"; text "cert_fingerprint"; text "name";
   required (flag "enabled" true); moment "valid_from"; moment "valid_until"].
Definition dns_provider_columns : list column :=
  [required (text "name"); required (text "provider_type"); text "credentials"; text "zones";
   flag "is_default" false; flag "enabled" true].
Definition acme_domain_columns : list column :=
  [required (unique (text "domain")); required (integer "dns_provider_id"); integer "issuing_ca_id";
   flag "is_wildcard_allowed" true; flag "auto_approve" true; text "created_by"].
Definition acme_local_domain_columns : list column :=
  [required (unique (text "domain")); required (integer "issuing_ca_id"); flag "auto_approve" true; text "created_by"].
Definition schema (t : table) : list column :=
  match t with
  | Users => user_columns
  | WebAuthnCredentials => webauthn_credential_columns
  | SystemConfig => system_config_columns
  | AcmeAccounts => acme_account_columns
  | Groups => group_columns
  | GroupMembers => group_member_columns
  | CustomRoles => custom_role_columns
  | Templates => certificate_template_columns
  | TrustedCertificates => trusted_certificate_columns
  | SsoProviders => sso_provider_columns
  | HsmProviders => hsm_provider_columns
  | ApiKeys => api_key_columns
  | SmtpConfig => smtp_config_columns
  | NotificationConfig => notification_config_columns
  | Policies => certificate_policy_columns
  | AuthCertificates => auth_certificate_columns
  | DnsProviders => dns_provider_columns
  | AcmeDomains => acme_domain_columns
  | AcmeLocalDomains => acme_local_domain_columns
  end.

Record site := Site {
  pki : db;
  rows : table -> list row;
  https_cert : option string;       (* the files; [None]: absent or unreadable *)
  https_key : option string;
}.
Definition with_pki (d : db) (s : site) : site := Site d (rows s) (https_cert s) (https_key s).
Definition with_rows (t : table) (l : list row) (s : site) : site :=
  Site (pki s) (fun u => if decide (u = t) then l else rows s u) (https_cert s) (https_key s).

(** * Export *)

(** The process: version of the application, environment variables, the clock. *)
Record environment := Environment { app_version : string; environ : list (string * string); utc_now : Z }.
Definition env (k dflt : string) (e : environment) : string := default dflt (Json.assoc k (environ e)).

Definition metadata (backup_type : string) (e : environment) : json :=
  JDict [("version", JStr "1.0"); ("ucm_version", JStr (app_version e)); ("database_type", JStr "sqlite");
   ("created_at", JStr (Time.isoformat "T" (utc_now e) ^+ "Z")); ("hostname", JStr (env "FQDN" "unknown" e));
   ("backup_type", JStr backup_type); ("format_version", JStr "2.0")].

Definition iso (t : option Z) : json := match t with Some t => JStr (Time.isoformat "T" t) | None => JNull end.
(** A member of an exported dict: [None] is an attribute that does not exist, or bytes,
    which are no JSON. *)
Definition exported (k : string) (r : row) : option json :=
  match attr k r with
  | Some (Val j) => Some j
  | Some (Moment t) => Some (iso (Some t))
  | Some (Bytes _) | None => None
  end.
Definition export_row (members : list (string * string)) (r : row) : option (list (string * json)) :=
  mapM (fun p : string * string => v ← exported p.2 r; Some (p.1, v)) members.
Definition same (ks : list string) : list (string * string) := List.map (fun k => (k, k)) ks.
Definition base64_of (c : option cell) : option json :=
  match c with
  | Some (Bytes b) => Some (JStr (Base64.b64encode b))
  | Some (Val j) => Some j
  | _ => None
  end.

Definition user_members : list (string * string) := same ["username"; "email"; "full_name"; "role"; "active"; "mfa_enabled"; "created_at"; "password_hash"].
Definition acme_account_members : list (string * string) := same ["email"; "account_url"; "status"] ++ [("key_pem", "private_key")].
Definition group_members : list (string * string) := same ["name"; "description"; "permissions"; "created_at"].
Definition group_member_members : list (string * string) := same ["user_id"; "role"].
Definition custom_role_members : list (string * string) := same ["name"; "description"; "permissions"; "is_system"; "created_at"].
Definition certificate_template_members : list (string * string) :=
  same ["name"; "description"; "template_type"; "key_type"; "validity_days"; "digest"; "dn_template";
        "extensions_template"; "is_system"; "is_active"; "created_by"].
Definition trusted_certificate_members : list (string * string) :=
  same ["name"; "description"; "certificate_pem"; "fingerprint_sha256"; "fingerprint_sha1"; "subject"; "issuer";
        "serial_number"; "not_before"; "not_after"; "purpose"; "added_by"; "notes"].
Definition sso_provider_members : list (string * string) :=
  same ["name"; "provider_type"; "enabled"; "is_default"; "display_name"; "icon"; "default_role";
        "auto_create_users"; "auto_update_users"; "attribute_mapping"; "role_mapping"; "saml_entity_id";
        "saml_sso_url"; "saml_slo_url"; "saml_certificate"; "saml_sign_requests"; "oauth2_client_id"]
  ++ [("oauth2_client_secret", "_oauth2_client_secret")]
  ++ same ["oauth2_auth_url"; "oauth2_token_url"; "oauth2_userinfo_url"; "oauth2_scopes"; "ldap_server"; "ldap_port";
           "ldap_use_ssl"; "ldap_bind_dn"]
  ++ [("ldap_bind_password", "_ldap_bind_password")]
  ++ same ["ldap_base_dn"; "ldap_user_filter"; "ldap_group_filter"; "ldap_username_attr"; "ldap_email_attr";
           "ldap_fullname_attr"].
Definition hsm_provider_members : list (string * string) := same ["name"; "type"; "config"; "status"].
Definition api_key_members : list (string * string) := same ["user_id"; "key_hash"; "name"; "permissions"; "is_active"; "expires_at"; "created_at"].
Definition smtp_config_members : list (string * string) :=
  same ["smtp_host"; "smtp_port"; "smtp_user"] ++ [("smtp_password", "_smtp_password")]
  ++ same ["smtp_from"; "smtp_from_name"; "smtp_use_tls"; "smtp_use_ssl"; "enabled"].
Definition notification_config_members : list (string * string) :=
  same ["type"; "enabled"; "days_before"; "recipients"; "subject_template"; "description"; "cooldown_hours"].
Definition certificate_policy_members : list (string * string) :=
  same ["name"; "description"; "policy_type"; "ca_id"; "template_id"; "rules"; "requires_approval";
        "approval_group_id"; "min_approvers"; "notify_on_violation"; "notification_emails"; "is_active"; "priority";
        "created_by"].
Definition auth_certificate_members : list (string * string) :=
  same ["user_id"; "cert_serial"; "cert_subject"; "cert_issuer"; "cert_fingerprint"; "name"; "enabled"; "valid_from";
        "valid_until"].
Definition dns_provider_members : list (string * string) := same ["name"; "provider_type"; "credentials"; "zones"; "is_default"; "enabled"].
Definition acme_domain_members : list (string * string) := same ["domain"; "dns_provider_id"; "issuing_ca_id"; "is_wildcard_allowed"; "auto_approve"; "created_by"].
Definition acme_local_domain_members : list (string * string) := same ["domain"; "issuing_ca_id"; "auto_approve"; "created_by"].
Definition members_of (t : table) : list (string * string) :=
  match t with
  | Users => user_members
  | AcmeAccounts => acme_account_members
  | Groups => group_members
  | GroupMembers => group_member_members
  | CustomRoles => custom_role_members
  | Templates => certificate_template_members
  | TrustedCertificates => trusted_certificate_members
  | SsoProviders => sso_provider_members
  | HsmProviders => hsm_provider_members
  | ApiKeys => api_key_members
  | SmtpConfig => smtp_config_members
  | NotificationConfig => notification_config_members
  | Policies => certificate_policy_members
  | AuthCertificates => auth_certificate_members
  | DnsProviders => dns_provider_members
  | AcmeDomains => acme_domain_members
  | AcmeLocalDomains => acme_local_domain_members
  | WebAuthnCredentials | SystemConfig => []
  end.

(** What is added to the members of a row. *)
Definition own_rows (t : table) (k : string) (i : Z) (s : site) : list row :=
  List.filter (fun r => bool_decide (attr k r = Some (Val (JInt i)))) (rows s t).
Definition export_credential (c : row) : option json :=
  i ← base64_of (attr "credential_id" c); k ← base64_of (attr "public_key" c);
  l ← export_row (same ["sign_count"; "name"; "aaguid"]) c;
  Some (JDict ([("credential_id", i); ("public_key", k)] ++ l)).
Definition added_members (t : table) (r : row) (s : site) : option (list (string * json)) :=
  match t with
  | Users =>
      l ← mapM export_credential
            (List.filter (fun c => bool_decide (attr "enabled" c = Some (Val (JBool true))))
               (own_rows WebAuthnCredentials "user_id" (r_id r) s));
      Some [("webauthn_credentials", JList l)]
  | Groups =>
      l ← mapM (export_row (members_of GroupMembers)) (own_rows GroupMembers "group_id" (r_id r) s);
      Some [("members", JList (List.map JDict l))]
  | CustomRoles =>
      i ← attr "inherits_from" r;
      name ← match Table.first (fun p => bool_decide (Some (Val (JInt (r_id p))) = Some i)) (rows s CustomRoles) with
             | Some p => exported "name" p
             | None => Some JNull
             end;
      Some [("inherits_from", name)]
  | AuthCertificates => b ← base64_of (attr "cert_pem" r); Some [("cert_pem", b)]
  | _ => Some []
  end.
Definition export_table (include : bool) (t : table) (s : site) : option json :=
  if negb include then Some (JList [])
  else
    l ← mapM (fun r => a ← export_row (members_of t) r; b ← added_members t r s; Some (JDict (a ++ b))) (rows s t);
    Some (JList l).

Definition export_configuration (include : bool) (e : environment) (s : site) : option json :=
  if negb include then Some (JDict [])
  else
    let number k dflt := JInt <$> Num.py_int (env k dflt e) in
    port ← number "HTTPS_PORT" "8443"; timeout ← number "SESSION_TIMEOUT" "3600"; jwt ← number "JWT_EXPIRATION" "86400";
    settings ← mapM (fun r => k ← exported "key" r; v ← exported "value" r;
                              match k with JStr k => Some (k, v) | _ => None end)
                 (List.filter (fun r => negb (bool_decide (attr "encrypted" r = Some (Val (JBool true))))) (rows s SystemConfig));
    Some (JDict [("system", JDict [("fqdn", JStr (env "FQDN" "" e)); ("https_port", port); ("session_timeout", timeout);
                                   ("jwt_expiration", jwt)]);
                 ("settings", JDict settings)]).
Definition export_https_files (s : site) : json :=
  let file k o := match o with Some t => [(k, JStr t)] | None => [] end in
  JDict (file "cert_pem" (https_cert s) ++ file "key_pem" (https_key s)).

Definition opt_text (o : option string) : json := match o with Some s => JStr s | None => JNull end.
Definition opt_int (o : option Z) : json := match o with Some z => JInt z | None => JNull end.
(** [base64.b64decode(column).decode() if column else None]; the outer [None] is an exception. *)
Definition pem_or_none (column : option string) : option json :=
  match filled column with
  | Some c => JStr <$> pem_text c
  | None => Some JNull
  end.

Section Export.
Context `{Fernet} (encryption_enabled : bool).

(** The key as it stands for a moment in the backup: decrypted and decoded, or the column
    itself when that fails. *)
Definition plaintext_key (prv : option string) : list (string * json) :=
  match filled prv with
  | None => []
  | Some p =>
      let k := match (b ← Encryption.decrypt_private_key encryption_enabled p; pem_text b) with
               | Some pem => pem
               | None => p
               end in
      [("_private_key_plaintext", JStr k)]
  end.
Definition ca_members (a : CaModel.ca) (pem : json) : list (string * json) :=
  [("refid", JStr (CaModel.a_refid a)); ("descr", JStr (CaModel.a_descr a));
   ("subject", opt_text (CaModel.a_subject a)); ("issuer", opt_text (CaModel.a_issuer a));
   ("valid_from", iso (CaModel.a_valid_from a)); ("valid_to", iso (CaModel.a_valid_to a));
   ("serial", opt_int (CaModel.a_serial a)); ("caref", opt_text (CaModel.a_caref a));
   ("cdp_enabled", JBool (CaModel.a_cdp_enabled a)); ("cdp_url", opt_text (CaModel.a_cdp_url a));
   ("ocsp_enabled", JBool (CaModel.a_ocsp_enabled a)); ("ocsp_url", opt_text (CaModel.a_ocsp_url a));
   ("imported_from", opt_text (CaModel.a_imported_from a)); ("certificate_pem", pem);
   ("private_key_pem_encrypted", JNull)].
Definition export_ca (a : CaModel.ca) : option (list (string * json)) :=
  pem ← pem_or_none (Some (CaModel.a_crt a));
  Some (ca_members a pem ++ plaintext_key (CaModel.a_prv a)).
Definition certificate_members (c : certificate) (pem csr_pem : json) : list (string * json) :=
  [("refid", JStr (refid c)); ("descr", JStr (descr c)); ("caref", opt_text (caref c));
   ("cert_type", opt_text (cert_type c)); ("subject", opt_text (subject c)); ("issuer", opt_text (issuer c));
   ("serial_number", opt_text (serial_number c)); ("valid_from", iso (valid_from c)); ("valid_to", iso (valid_to c));
   ("san_dns", opt_text (san_dns c)); ("san_ip", opt_text (san_ip c)); ("san_email", opt_text (san_email c));
   ("san_uri", opt_text (san_uri c)); ("ocsp_uri", opt_text (ocsp_uri c));
   ("private_key_location", opt_text (private_key_location c)); ("certificate_pem", pem); ("csr_pem", csr_pem);
   ("private_key_pem_encrypted", JNull)].
Definition export_certificate (c : certificate) : option (list (string * json)) :=
  pem ← pem_or_none (crt c); csr_pem ← pem_or_none (csr c);
  Some (certificate_members c pem csr_pem ++ plaintext_key (prv c)).
End Export.

(** * Encryption *)

Definition hex_byte (c : ascii) (tail : string) : string :=
  String (Json.hex1 (Str.code c / 16)) (String (Json.hex1 (Str.code c mod 16)) tail).
(** [b.hex()] and [bytes.fromhex(s)], which passes over white space between bytes. *)
Fixpoint hex (s : string) : string :=
  match s with EmptyString => EmptyString | String c s' => hex_byte c (hex s') end.
Fixpoint fromhex (s : string) : option string :=
  match s with
  | EmptyString => Some EmptyString
  | String c (String d s' as t) =>
      if Str.is_space c && negb (bool_decide (28 <= Str.code c <= 31)%N) then fromhex t
      else h ← JsonText.hex_digit c; l ← JsonText.hex_digit d; r ← fromhex s';
           Some (String (ascii_of_N (16 * h + l)) r)
  | String c EmptyString =>
      if Str.is_space c && negb (bool_decide (28 <= Str.code c <= 31)%N) then Some EmptyString else None
  end.

Definition SALT_SIZE : nat := 32.
Definition NONCE_SIZE : nat := 12.
Definition PBKDF2_ITERATIONS : Z := 100000.

Definition distinct_chars (s : string) : nat := length (remove_dups (String.list_ascii_of_string s)).
Definition validate_password (password : string) : result unit :=
  if (String.length password <? 12)%nat then Err ValueError
  else if (distinct_chars password <? 8)%nat then Err ValueError
  else Ok tt.

(** The random bytes of a backup: salt and nonce of the whole, and of the n-th key. *)
Record randomness := Randomness { master_salt : string; master_nonce : string; key_salt : nat -> string; key_nonce : nat -> string }.

Section Service.
Context `{BackupCrypto} `{Hashes} `{Fernet} (encryption_enabled : bool) (integer_affinity : string -> json).

Definition derive_master_key (password salt : string) : string := derive PBKDF2_ITERATIONS salt password.
Definition encrypt_private_key (key_pem master_key salt nonce : string) : json :=
  JDict [("algorithm", JStr "AES-256-GCM"); ("salt", JStr (hex salt)); ("nonce", JStr (hex nonce));
   ("ciphertext", JStr (hex (aes_gcm_encrypt (derive 10000 salt master_key) nonce key_pem)))].
(** The rows of one table; the [n]-th of them draws the [n]-th salt and nonce. *)
Fixpoint encrypt_private_keys (rand : randomness) (master_key : string) (n : nat) (l : list (list (string * json)))
  : list json :=
  match l with
  | [] => []
  | d :: l =>
      let d :=
        match Json.assoc "_private_key_plaintext" d with
        | Some (JStr k) =>
            List.filter (fun p => negb (String.eqb p.1 "_private_key_plaintext"))
              (JsonText.set_item "private_key_pem_encrypted"
                 (encrypt_private_key k master_key (key_salt rand n) (key_nonce rand n)) d)
        | _ => d
        end in
      JDict d :: encrypt_private_keys rand master_key (S n) l
  end.

Definition included (include : list (string * bool)) (k : string) : bool := default true (Json.assoc k include).
(** The dict before it is serialized. *)
Definition backup_data (backup_type : string) (include : list (string * bool)) (rand : randomness) (master_key : string)
    (e : environment) (s : site) : option (list (string * json)) :=
  let on := included include in
  let part k t := l ← export_table (on k) t s; Some (k, l) in
  configuration ← export_configuration (on "configuration") e s;
  users ← part "users" Users;
  cas ← (if on "cas" then mapM (export_ca encryption_enabled) (cas (pki s)) else Some []);
  certs ← (if on "certificates" then mapM (export_certificate encryption_enabled) (certs (pki s)) else Some []);
  acme ← part "acme_accounts" AcmeAccounts;
  rest ← mapM (fun p : string * table => part p.1 p.2)
    [("groups", Groups); ("custom_roles", CustomRoles); ("certificate_templates", Templates);
     ("trusted_certificates", TrustedCertificates); ("sso_providers", SsoProviders); ("hsm_providers", HsmProviders);
     ("api_keys", ApiKeys); ("smtp_config", SmtpConfig); ("notification_config", NotificationConfig);
     ("certificate_policies", Policies); ("auth_certificates", AuthCertificates); ("dns_providers", DnsProviders);
     ("acme_domains", AcmeDomains); ("acme_local_domains", AcmeLocalDomains)];
  Some ([("metadata", metadata backup_type e); ("configuration", configuration); users;
   ("certificate_authorities", JList (encrypt_private_keys rand master_key 0 cas));
   ("certificates", JList (encrypt_private_keys rand master_key (length cas) certs)); acme]
        ++ rest ++ [("https_server", export_https_files s)]).

Definition checksum_of (d : json) : json :=
  JDict [("algorithm", JStr "SHA256"); ("value", JStr (sha256_hex (JsonText.dumps_indented d)))].
Definition seal (password : string) (rand : randomness) (data : list (string * json)) : string :=
  let master_key := derive_master_key password (master_salt rand) in
  let final_json := JsonText.dumps_indented (JDict (data ++ [("checksum", checksum_of (JDict data))])) in
  master_salt rand ^+ master_nonce rand ^+ aes_gcm_encrypt master_key (master_nonce rand) final_json.

Definition create_backup (password backup_type : string) (include : list (string * bool)) (rand : randomness)
    (e : environment) (s : site) : result string :=
  _ ← validate_password password;
  data ← lift (backup_data backup_type include rand (derive_master_key password (master_salt rand)) e s);
  Ok (seal password rand data).

(** * Opening *)

(** The key the backup was made with, and its data. *)
Definition open_backup (backup_bytes password : string) : result (string * list (string * json)) :=
  if (String.length backup_bytes <? SALT_SIZE + NONCE_SIZE)%nat then Err ValueError
  else
    let encrypted_data := Str.drop SALT_SIZE backup_bytes in
    let master_key := derive_master_key password (Str.take SALT_SIZE backup_bytes) in
    match aes_gcm_decrypt master_key (Str.take NONCE_SIZE encrypted_data) (Str.drop NONCE_SIZE encrypted_data) with
    | None => Err ValueError
    | Some plaintext =>
        if negb (Str.utf8_valid 0 0%N 0%N plaintext) then Err ValueError
        else match JsonText.loads plaintext with
        | None => Err ValueError
        | Some (JDict d) =>
            let data := List.filter (fun p => negb (String.eqb p.1 "checksum")) d in
            let saved := default JNull (Json.assoc "checksum" d) in
            if negb (Json.truthy saved) then Ok (master_key, data)
            else if negb (Json.is_dict saved) then Err Exception
            else if Json.py_eq (Json.get_or "value" JNull saved) (JStr (sha256_hex (JsonText.dumps_indented (JDict data))))
            then Ok (master_key, data)
            else Err ValueError
        | Some _ => Err Exception
        end
    end.

(** * Restoring rows *)

(** Where the value of a column comes from: [data.get(k, d)], [data[k]], and the bytes of
    a text that may be base64. *)
Inductive value_source := Get (k : string) (d : json) | Item (k : string) | Blob (k : string).
Definition eval_source (data : json) (f : value_source) : option cell :=
  match f with
  | Get k d => Some (Val (Json.get_or k d data))
  | Item k => Val <$> Json.get k data
  | Blob k =>
      Some (match Json.get_or k JNull data with
            | JStr t => if Str.truthy t then Bytes (default t (Base64.b64decode t)) else Val (JStr t)
            | v => Val v
            end)
  end.
Definition eval_sources (data : json) (l : list (string * value_source)) : option assignment :=
  mapM (fun p : string * value_source => v ← eval_source data p.2; Some (p.1, v)) l.

(** One loop of [restore_backup]: the row is looked for by the column [by_key], or any row is
    taken. *)
Record rule := Rule {
  r_table : table;
  by_key : option string;
  on_insert : list (string * value_source);
  on_update : list (string * value_source);
}.
Definition existing_row (x : rule) (data : json) (s : site) : option (option row) :=
  match by_key x with
  | None => Some (head (rows s (r_table x)))
  | Some k =>
      v ← Json.get k data;
      if existsb (fun c => String.eqb (c_name c) k) (schema (r_table x)) then find_by integer_affinity k v (rows s (r_table x)) else None
  end.
Definition known (t : table) (l : list (string * value_source)) : bool :=
  forallb (fun p => existsb (fun c => String.eqb (c_name c) p.1) (schema t)) l.
(** The new state and the row that was written. *)
Definition upsert (x : rule) (data : json) (s : site) : option (site * Z) :=
  let t := r_table x in
  if negb (Json.is_dict data) then None
  else
    old ← existing_row x data s;
    match old with
    | Some r =>
        vals ← eval_sources data (on_update x);
        l ← assign integer_affinity (schema t) (r_id r) vals (rows s t);
        Some (with_rows t l s, r_id r)
    | None =>
        if negb (known t (on_insert x)) then None
        else
          vals ← eval_sources data (on_insert x);
          l ← insert integer_affinity (schema t) vals (rows s t);
          Some (with_rows t l s, Table.next_id r_id (rows s t))
    end.

Definition plain (ks : list string) : list (string * value_source) := List.map (fun k => (k, Get k JNull)) ks.
Definition get (k : string) (d : json) : string * value_source := (k, Get k d).
Definition item (k : string) : string * value_source := (k, Item k).

Definition users_rule : rule :=
  let rest := plain ["email"; "full_name"] ++ [get "role" (JStr "user"); get "active" (JBool true)] ++ plain ["password_hash"] in
  Rule Users (Some "username") (item "username" :: rest) rest.
Definition acme_rule : rule :=
  Rule AcmeAccounts (Some "email")
    (item "email" :: plain ["account_url"] ++ [get "status" (JStr "valid"); ("private_key", Get "key_pem" JNull)])
    (plain ["account_url"; "status"]).
Definition groups_rule : rule :=
  let rest := plain ["description"; "permissions"] in Rule Groups (Some "name") (item "name" :: rest) rest.
Definition roles_rule : rule :=
  let rest := plain ["description"; "permissions"] ++ [get "is_system" (JBool false)] in
  Rule CustomRoles (Some "name") (item "name" :: rest) rest.
Definition templates_rule : rule :=
  Rule Templates (Some "name")
    ([item "name"] ++ plain ["description"] ++ [get "template_type" (JStr "custom")]
     ++ plain ["key_type"; "validity_days"; "digest"; "dn_template"] ++ [get "extensions_template" (JStr "{}")]
     ++ [get "is_system" (JBool false); get "is_active" (JBool true)] ++ plain ["created_by"])
    (plain ["description"; "template_type"; "key_type"; "validity_days"; "digest"; "dn_template"; "extensions_template"]
     ++ [get "is_system" (JBool false); get "is_active" (JBool true)]).
Definition trusted_rule : rule :=
  Rule TrustedCertificates (Some "fingerprint_sha256")
    ([get "name" (JStr "")] ++ plain ["description"] ++ [get "certificate_pem" (JStr ""); item "fingerprint_sha256"]
     ++ plain ["fingerprint_sha1"; "subject"; "issuer"; "serial_number"; "purpose"; "added_by"; "notes"])
    (plain ["name"; "description"; "certificate_pem"; "purpose"; "notes"]).
Definition sso_rule : rule :=
  let rest :=
    [get "provider_type" (JStr "oauth2"); get "enabled" (JBool false); get "is_default" (JBool false)]
    ++ plain ["display_name"; "icon"]
    ++ [get "default_role" (JStr "viewer"); get "auto_create_users" (JBool true); get "auto_update_users" (JBool true)]
    ++ plain ["attribute_mapping"; "role_mapping"; "saml_entity_id"; "saml_sso_url"; "saml_slo_url"; "saml_certificate"]
    ++ [get "saml_sign_requests" (JBool true)] ++ plain ["oauth2_client_id"]
    ++ [("_oauth2_client_secret", Get "oauth2_client_secret" JNull)]
    ++ plain ["oauth2_auth_url"; "oauth2_token_url"; "oauth2_userinfo_url"; "oauth2_scopes"; "ldap_server"]
    ++ [get "ldap_port" (JInt 389); get "ldap_use_ssl" (JBool false)] ++ plain ["ldap_bind_dn"]
    ++ [("_ldap_bind_password", Get "ldap_bind_password" JNull)]
    ++ plain ["ldap_base_dn"; "ldap_user_filter"; "ldap_group_filter"; "ldap_username_attr"; "ldap_email_attr";
              "ldap_fullname_attr"] in
  Rule SsoProviders (Some "name") (item "name" :: rest) rest.
Definition hsm_rule : rule :=
  let rest := [get "config" (JStr "{}"); get "status" (JStr "unknown")] in
  Rule HsmProviders (Some "name") (item "name" :: get "type" (JStr "pkcs11") :: rest) (plain ["type"] ++ rest).
Definition api_keys_rule : rule :=
  let rest := [get "permissions" (JStr "[]"); get "is_active" (JBool true)] in
  Rule ApiKeys (Some "key_hash") (get "user_id" (JInt 1) :: item "key_hash" :: get "name" (JStr "restored") :: rest)
    (plain ["name"] ++ rest).
Definition smtp_rule : rule :=
  let rest :=
    plain ["smtp_host"] ++ [get "smtp_port" (JInt 587)] ++ plain ["smtp_user"]
    ++ [("_smtp_password", Get "smtp_password" JNull)] ++ plain ["smtp_from"; "smtp_from_name"]
    ++ [get "smtp_use_tls" (JBool true); get "smtp_use_ssl" (JBool false); get "enabled" (JBool false)] in
  Rule SmtpConfig None rest rest.
Definition notifications_rule : rule :=
  let rest :=
    [get "enabled" (JBool true)] ++ plain ["days_before"; "recipients"; "subject_template"; "description"]
    ++ [get "cooldown_hours" (JInt 24)] in
  Rule NotificationConfig (Some "type") (item "type" :: rest) rest.
Definition policies_rule : rule :=
  Rule Policies (Some "name")
    ([item "name"] ++ plain ["description"] ++ [get "policy_type" (JStr "issuance")] ++ plain ["ca_id"; "template_id"]
     ++ [get "rules" (JStr "{}"); get "requires_approval" (JBool false)] ++ plain ["approval_group_id"]
     ++ [get "min_approvers" (JInt 1); get "notify_on_violation" (JBool true)] ++ plain ["notification_emails"]
     ++ [get "is_active" (JBool true); get "priority" (JInt 100)] ++ plain ["created_by"])
    (plain ["description"; "policy_type"] ++ [get "rules" (JStr "{}"); get "requires_approval" (JBool false)]
     ++ [get "min_approvers" (JInt 1); get "notify_on_violation" (JBool true)] ++ plain ["notification_emails"]
     ++ [get "is_active" (JBool true); get "priority" (JInt 100)]).
Definition auth_certificates_rule : rule :=
  let rest := get "cert_subject" (JStr "") :: plain ["cert_issuer"; "cert_fingerprint"; "name"] ++ [get "enabled" (JBool true)] in
  Rule AuthCertificates (Some "cert_serial")
    (get "user_id" (JInt 1) :: ("cert_pem", Blob "cert_pem") :: item "cert_serial" :: rest)
    (("cert_pem", Blob "cert_pem") :: rest).
Definition dns_rule : rule :=
  let rest := plain ["credentials"; "zones"] ++ [get "is_default" (JBool false); get "enabled" (JBool true)] in
  Rule DnsProviders (Some "name") (item "name" :: get "provider_type" (JStr "manual") :: rest) (plain ["provider_type"] ++ rest).
Definition domains_rule : rule :=
  let flags := [get "is_wildcard_allowed" (JBool true); get "auto_approve" (JBool true)] in
  Rule AcmeDomains (Some "domain")
    ([item "domain"; get "dns_provider_id" (JInt 1)] ++ plain ["issuing_ca_id"] ++ flags ++ plain ["created_by"])
    (flags ++ plain ["issuing_ca_id"; "created_by"]).
Definition local_domains_rule : rule :=
  let rest := plain ["issuing_ca_id"] ++ [get "auto_approve" (JBool true)] ++ plain ["created_by"] in
  Rule AcmeLocalDomains (Some "domain") (item "domain" :: rest) rest.

Definition restore_rows (x : rule) (data : json) (s : site) : result site := lift (fst <$> upsert x data s).

(** Members are named by the number of the account they had. *)
Definition restore_member (group_id : Z) (m : json) (s : site) : option site :=
  if negb (Json.is_dict m) then None
  else
    j ← Json.get "user_id" m;
    u ← bind integer_affinity TInteger (Val j);
    if existsb (fun r => bool_decide (attr "group_id" r = Some (Val (JInt group_id))) && bool_decide (attr "user_id" r = Some u))
         (rows s GroupMembers)
    then Some s
    else
      l ← insert integer_affinity (schema GroupMembers)
            [("group_id", Val (JInt group_id)); ("user_id", Val j); ("role", Val (Json.get_or "role" (JStr "member") m))]
            (rows s GroupMembers);
      Some (with_rows GroupMembers l s).
Definition restore_group (data : json) (s : site) : result site :=
  p ← lift (upsert groups_rule data s);
  ms ← lift (Json.elements (Json.get_or "members" (JList []) data));
  fold_steps (fun m s => lift (restore_member p.2 m s)) ms p.1.

Definition restore_setting (p : string * json) (s : site) : result site :=
  lift (old ← find_by integer_affinity "key" (JStr p.1) (rows s SystemConfig);
        l ← match old with
            | Some r => assign integer_affinity (schema SystemConfig) (r_id r) [("value", Val p.2)] (rows s SystemConfig)
            | None => insert integer_affinity (schema SystemConfig) [("key", Val (JStr p.1)); ("value", Val p.2)] (rows s SystemConfig)
            end;
        Some (with_rows SystemConfig l s)).

(** * Restoring CAs and certificates *)

Definition hex_member (k : string) (d : json) : result string :=
  v ← lift (Json.get k d);
  match v with
  | JStr t => match fromhex t with Some b => Ok b | None => Err ValueError end
  | _ => Err Exception
  end.
Definition decrypt_private_key (d : json) (master_key : string) : result string :=
  salt ← hex_member "salt" d; nonce ← hex_member "nonce" d; ciphertext ← hex_member "ciphertext" d;
  plaintext ← lift (aes_gcm_decrypt (derive 10000 salt master_key) nonce ciphertext);
  if Str.utf8_valid 0 0%N 0%N plaintext then Ok plaintext else Err ValueError.
(** The key column: encrypted again if keys are encrypted at rest. *)
Definition restored_key (data : json) (master_key : string) (iv : nat) : result (option string) :=
  let v := Json.get_or "private_key_pem_encrypted" JNull data in
  if negb (Json.truthy v) then Ok None
  else
    k ← decrypt_private_key v master_key;
    Ok (match filled (Some k) with
        | None => None
        | Some k => Some (Encryption.encrypt_private_key encryption_enabled iv (Base64.b64encode k))
        end).
Definition restored_pem (data : json) : option (option string) :=
  let v := Json.get_or "certificate_pem" JNull data in
  if negb (Json.truthy v) then Some None
  else match v with JStr t => Some (Some (Base64.b64encode t)) | _ => None end.
Definition text_or_null (k : string) (data : json) : option (option string) :=
  match Json.get_or k JNull data with JNull => Some None | j => Some <$> Json.bind_text j end.
(** An integer column: a text is outside the typed row. *)
Definition int_or_null (k : string) (data : json) : option (option Z) :=
  match Json.get_or k JNull data with
  | JNull => Some None
  | JInt z => if (- 2 ^ 63 <=? z) && (z <? 2 ^ 63) then Some (Some z) else None
  | JBool b => Some (Some (Z.b2z b))
  | _ => None
  end.

Definition set_material (d crt : string) (prv : option string) (a : CaModel.ca) : CaModel.ca :=
  CaModel.CA (CaModel.a_id a) (CaModel.a_refid a) d crt prv (CaModel.a_serial a)
    (CaModel.a_caref a) (CaModel.a_subject a) (CaModel.a_issuer a) (CaModel.a_serial_number a) (CaModel.a_ski a)
    (CaModel.a_valid_from a) (CaModel.a_valid_to a) (CaModel.a_imported_from a) (CaModel.a_created_at a)
    (CaModel.a_created_by a) (CaModel.a_owner_group_id a) (CaModel.a_cdp_enabled a) (CaModel.a_cdp_url a)
    (CaModel.a_delta_crl_enabled a) (CaModel.a_delta_crl_interval a) (CaModel.a_ocsp_enabled a) (CaModel.a_ocsp_url a)
    (CaModel.a_hsm_key_id a).
Definition restore_ca (master_key : string) (now : Z) (iv : nat) (data : json) (s : site) : result site :=
  if negb (Json.is_dict data) then Err Exception
  else
    ref ← lift (_ ← Json.get "refid" data; text_or_null "refid" data);
    prv ← restored_key data master_key iv;
    lift (
      descr ← text_or_null "descr" data; descr ← descr;
      crt ← restored_pem data; crt ← crt;
      match ref ≫= (fun r => ca_by_refid r (pki s)) with
      | Some a =>
          Some (with_pki (Db (Table.update (fun b => CaModel.a_id b =? CaModel.a_id a) (set_material descr crt prv) (cas (pki s)))
                            (certs (pki s)) (approvals (pki s)) (crls (pki s))) s)
      | None =>
          ref ← ref; subject ← text_or_null "subject" data; issuer ← text_or_null "issuer" data;
          serial ← int_or_null "serial" data; caref ← text_or_null "caref" data;
          let a := CaModel.CA (Table.next_id CaModel.a_id (cas (pki s))) ref descr crt prv
                     (Some (default 0 serial)) caref subject issuer None None None None None (Some now) None None
                     false None false (Some 4) false None None in
          Some (with_pki (Db (cas (pki s) ++ [a]) (certs (pki s)) (approvals (pki s)) (crls (pki s))) s)
      end).

Definition set_cert_material (d : string) (x k : option string) (c : certificate) : certificate :=
  Certificate (id c) (refid c) d (caref c) x (csr c) k (cert_type c) (subject c) (subject_cn c)
    (issuer c) (serial_number c) (aki c) (ski c) (valid_from c) (valid_to c) (key_algo c) (san_dns c) (san_ip c)
    (san_email c) (san_uri c) (ocsp_uri c) (private_key_location c) (revoked c) (revoked_at c) (revoke_reason c)
    (archived c) (imported_from c) (created_at c) (created_by c) (source c) (template_id c) (owner_group_id c).
Definition restore_certificate (master_key : string) (now : Z) (iv : nat) (data : json) (s : site) : result site :=
  if negb (Json.is_dict data) then Err Exception
  else
    ref ← lift (_ ← Json.get "refid" data; text_or_null "refid" data);
    k ← restored_key data master_key iv;
    lift (
      d ← text_or_null "descr" data; d ← d;
      x ← restored_pem data;
      match ref ≫= (fun r => Table.first (fun c => String.eqb (refid c) r) (certs (pki s))) with
      | Some c =>
          Some (with_pki (Db (cas (pki s)) (Table.update (fun b => id b =? id c) (set_cert_material d x k) (certs (pki s)))
                            (approvals (pki s)) (crls (pki s))) s)
      | None =>
          ref ← ref; ca_ref ← text_or_null "caref" data; ct ← text_or_null "cert_type" data;
          sub ← text_or_null "subject" data; iss ← text_or_null "issuer" data; sn ← text_or_null "serial_number" data;
          let c := Certificate (Table.next_id id (certs (pki s))) ref d ca_ref x None k ct sub None iss sn
                     None None None None None None None None None None (Some "stored") (Some false) None None (Some false)
                     None (Some now) None (Some "manual") None None in
          Some (with_pki (Db (cas (pki s)) (certs (pki s) ++ [c]) (approvals (pki s)) (crls (pki s))) s)
      end).

Fixpoint with_ivs (f : nat -> json -> site -> result site) (iv : nat) (l : list json) (s : site) : result site :=
  match l with
  | [] => Ok s
  | j :: l => s ← f iv j s; with_ivs f (S iv) l s
  end.

(** * The whole backup *)

(** [for x in backup_data.get(k, [])] *)
Definition items (k : string) (data : list (string * json)) : result (list json) :=
  lift (Json.elements (default (JList []) (Json.assoc k data))).
Definition sub_dict (k : string) (d : json) : result json :=
  if Json.is_dict d then Ok (Json.get_or k (JDict []) d) else Err Exception.
Definition entries (d : json) : result (list (string * json)) :=
  match d with JDict kv => Ok kv | _ => Err Exception end.

(** Up to the first commit. *)
Definition restore_first (master_key : string) (data : list (string * json)) (now : Z) (iv : nat) (s : site) : result site :=
  users ← items "users" data; s ← fold_steps (restore_rows users_rule) users s;
  l ← items "certificate_authorities" data; s ← with_ivs (restore_ca master_key now) iv l s;
  m ← items "certificates" data; s ← with_ivs (restore_certificate master_key now) (iv + length l) m s;
  acme ← items "acme_accounts" data; s ← fold_steps (restore_rows acme_rule) acme s;
  c ← sub_dict "settings" (default (JDict []) (Json.assoc "configuration" data));
  kv ← entries c; fold_steps restore_setting kv s.
(** The rest, in this order. *)
Definition later_loops : list (string * (json -> site -> result site)) :=
  [("groups", restore_group); ("custom_roles", restore_rows roles_rule); ("certificate_templates", restore_rows templates_rule);
   ("trusted_certificates", restore_rows trusted_rule); ("sso_providers", restore_rows sso_rule);
   ("hsm_providers", restore_rows hsm_rule); ("api_keys", restore_rows api_keys_rule);
   ("smtp_config", restore_rows smtp_rule); ("notification_config", restore_rows notifications_rule);
   ("certificate_policies", restore_rows policies_rule); ("auth_certificates", restore_rows auth_certificates_rule);
   ("dns_providers", restore_rows dns_rule); ("acme_domains", restore_rows domains_rule);
   ("acme_local_domains", restore_rows local_domains_rule)].
(** A file is written if its member is a text and the file can be written. *)
Definition written (writable : bool) (v : json) : option string :=
  match v with JStr t => if writable && Str.truthy t then Some t else None | _ => None end.
Definition restore_files (writable : bool) (data : list (string * json)) (s : site) : result site :=
  let d := default (JDict []) (Json.assoc "https_server" data) in
  if negb (Json.is_dict d) then Err Exception
  else
    let file k old := match written writable (Json.get_or k JNull d) with Some t => Some t | None => old end in
    Ok (Site (pki s) (rows s) (file "cert_pem" (https_cert s)) (file "key_pem" (https_key s))).
Definition restore_second (data : list (string * json)) (writable : bool) (s : site) : result site :=
  s ← fold_steps (fun p s => l ← items p.1 data; fold_steps p.2 l s) later_loops s;
  restore_files writable data s.

(** How many rows of each kind were written. *)
Definition counts (data : list (string * json)) (writable : bool) : list (string * Z) :=
  let n k := Z.of_nat (length (default [] (Json.elements (default (JList []) (Json.assoc k data))))) in
  let file k := match Json.get k (default (JDict []) (Json.assoc "https_server" data)) with
                | Some v => match written writable v with Some _ => 1 | None => 0 end
                | None => 0
                end in
  [("users", n "users"); ("cas", n "certificate_authorities"); ("certificates", n "certificates");
   ("acme_accounts", n "acme_accounts");
   ("settings", match Json.get "settings" (default (JDict []) (Json.assoc "configuration" data)) with
                | Some (JDict kv) => Z.of_nat (length kv) | _ => 0 end)]
  ++ List.map (fun p => (p.1, n p.1)) later_loops ++ [("https_server", file "cert_pem" + file "key_pem")].

(** What was committed stays when what follows fails. *)
Definition restore_backup (backup_bytes password : string) (now : Z) (iv : nat) (writable : bool) (s : site)
  : site * result (list (string * Z)) :=
  match ('(master_key, data) ← open_backup backup_bytes password;
         s ← restore_first master_key data now iv s; Ok (data, s)) with
  | Err e => (s, Err e)
  | Ok (data, s) =>
      match restore_second data writable s with
      | Err e => (s, Err e)
      | Ok s => (s, Ok (counts data writable))
      end
  end.

(** * Routes *)

Inductive reply :=
| Created (filename : string) (size : nat)
| Restored (results : list (string * Z))
| Deleted
| Failure (code : Z) (message : string).
Definition backup_dir : Type := list (string * string).

Definition stamp (t : Z) : string :=
  let '(y, m, d) := Time.civil (t / Time.days 1) in
  let s := t mod Time.days 1 / Time.second in
  Num.str y ^+ Time.padded 2 m ^+ Time.padded 2 d ^+ "_" ^+ Time.padded 2 (s / 3600) ^+ Time.padded 2 (s / 60 mod 60)
  ^+ Time.padded 2 (s mod 60).
Definition backup_name (t : Z) : string := "ucm_backup_" ^+ stamp t ^+ ".ucmbkp".
Definition store_file (name bytes : string) (files : backup_dir) : backup_dir :=
  List.filter (fun p => negb (String.eqb p.1 name)) files ++ [(name, bytes)].

Context {T} `{AuditSink T} (secure_filename : string -> string).
Definition backup_event (action : string) (name details : string) : event :=
  Event action (Some "system") ANone (AStr name) (AStr details) true None.

(** A password that is no text fails one way or another. *)
Definition create_route (request : json) (rand : randomness) (e : environment) (files : backup_dir) (s : site) (trail : T)
  : backup_dir * T * reply :=
  let fail code m := (files, trail, Failure code m) in
  let data := if Json.truthy request then request else JDict [] in
  if negb (Json.is_dict data) then fail 500 "Backup failed"
  else
  let p := Json.get_or "password" JNull data in
  if negb (Json.truthy p) then fail 400 "Password required for encryption"
  else match p with
  | JStr password =>
      if (String.length password <? 12)%nat then fail 400 "Password must be at least 12 characters"
      else match create_backup password "full" [] rand e s with
      | Ok bytes =>
          let name := backup_name (utc_now e) in
          (store_file name bytes files,
           record_event (backup_event "system_backup" name ("Created backup: " ^+ name)) trail,
           Created name (String.length bytes))
      | Err ValueError => fail 400 "Invalid backup parameters"
      | Err Exception => fail 500 "Backup failed"
      end
  | _ => fail 500 "Backup failed"
  end.

Definition BACKUP_EXTENSIONS : list string := [".zip"; ".enc"].
Definition MAX_BACKUP_SIZE : Z := 100 * 1024 * 1024.
(** [validate_upload(file, BACKUP_EXTENSIONS, max_size=...)]; [None] is a ValueError. *)
Definition validate_upload (filename data : string) : option string :=
  if negb (Str.truthy filename) then None
  else
    let name := secure_filename filename in
    if negb (Str.truthy name) then None
    else if negb (existsb (String.eqb (Str.lower (CertImport.suffix name))) BACKUP_EXTENSIONS) then None
    else if MAX_BACKUP_SIZE <? Z.of_nat (String.length data) then None
    else Some data.

Definition restore_route (file : option (string * string)) (password : option string) (now : Z) (iv : nat) (writable : bool)
    (s : site) (trail : T) : site * T * reply :=
  let fail code m := (s, trail, Failure code m) in
  match file with
  | None => fail 400 "No backup file provided"
  | Some (filename, data) =>
      match filled password with
      | None => fail 400 "Password required for decryption"
      | Some password =>
          if (String.length password <? 12)%nat then fail 400 "Password must be at least 12 characters"
          else match validate_upload filename data with
          | None => fail 400 "Invalid backup file"
          | Some bytes =>
              match restore_backup bytes password now iv writable s with
              | (s, Ok results) =>
                  (s, record_event (backup_event "system_restore" "Backup Restore" "Restored from backup file") trail,
                   Restored results)
              | (s, Err ValueError) => (s, trail, Failure 400 "Invalid restore parameters")
              | (s, Err Exception) => (s, trail, Failure 500 "Restore failed")
              end
          end
      end
  end.

Definition delete_route (filename : string) (files : backup_dir) (trail : T) : backup_dir * T * reply :=
  let name := secure_filename filename in
  if negb (Str.truthy name) then (files, trail, Failure 500 "Failed to delete backup")      (* the directory *)
  else match Json.assoc name files with
  | None => (files, trail, Failure 404 "Backup file not found")
  | Some _ =>
      (List.filter (fun p => negb (String.eqb p.1 name)) files,
       record_event (backup_event "backup_delete" name ("Deleted backup: " ^+ name)) trail, Deleted)
  end.

End Service.
End Backup.
