(* ===== verification/BackupFacts.v ===== *)
(** Backups read back what was put in; what a restore brings back, and what is lost on
    the way. *)
From Stdlib Require Import DecimalString.
From S2P Require Import Prelude Base64 Hashes AuditSink Encryption Pki PkiFacts CertModel CaModel CertRoutes CertActions CertImport CaFlow CaRouteFacts JsonText Orm Backup.

Module BackupFacts.
Import CertModel CertRoutes Orm Backup.
Local Open Scope string_scope.
Local Open Scope list_scope.
Local Open Scope Z_scope.

(** * The file *)

Lemma fromhex_hex s : fromhex (hex s) = Some s.
Proof.
  induction s as [|c s IH]; [done|]. cbn [hex]. unfold hex_byte.
  assert (forall n, (n < 16)%N -> JsonText.hex_digit (Json.hex1 n) = Some n /\ Str.is_space (Json.hex1 n) = false) as Hd.
  { intros n Hn. assert (forallb (fun k => bool_decide (JsonText.hex_digit (Json.hex1 (N.of_nat k)) = Some (N.of_nat k))
      && negb (Str.is_space (Json.hex1 (N.of_nat k)))) (List.seq 0 16) = true) as Hall by (vm_compute; reflexivity).
    rewrite forallb_forall in Hall. specialize (Hall (N.to_nat n)). rewrite N2Nat.id in Hall.
    destruct (andb_prop _ _ (Hall ltac:(apply in_seq; lia))) as [H1%bool_decide_eq_true H2%negb_true_iff]. done. }
  assert (Str.code c < 256)%N as Hc by apply Base64.code_lt.
  destruct (Hd (Str.code c / 16)%N) as [H1 H2]; [apply N.Div0.div_lt_upper_bound; lia|].
  destruct (Hd (Str.code c mod 16)%N) as [H3 _]; [by apply N.mod_lt|].
  cbn [fromhex]. rewrite H2. cbn [andb]. rewrite H1, H3. cbn [mbind option_bind]. rewrite IH. cbn [mbind option_bind].
  rewrite <-N.div_mod by done. by rewrite (Base64.ascii_code c _ eq_refl).
Qed.

Section Facts.
Context `{BackupCrypto} `{Hashes} `{Fernet} (encryption_enabled : bool) (integer_affinity : string -> json).

(** The data as the restore sees it. *)
Definition read_back (data : list (string * json)) : list (string * json) :=
  JsonText.sort_items (List.map (fun p => (p.1, JsonText.sorted p.2)) data).

Lemma filter_perm {A} (f : A -> bool) l l' : Permutation l l' -> Permutation (List.filter f l) (List.filter f l').
Proof.
  induction 1 as [|x l l' _ IH|x y l|l l' l'' _ IH _ IH']; cbn; [done| | |by rewrite IH].
  - destruct (f x); by rewrite IH.
  - destruct (f x), (f y); try done. apply Permutation_swap.
Qed.
Lemma NoDup_list_filter_fst {A} (f : string * A -> bool) l : NoDup (List.map fst l) -> NoDup (List.map fst (List.filter f l)).
Proof.
  induction l as [|p l IH]; [done|]. cbn. intros [Hn Hnd]%NoDup_cons. destruct (f p); [|by apply IH]. cbn.
  apply NoDup_cons. split; [|by apply IH]. intros (q & E & [Hq _]%filter_In)%list_elem_of_In%in_map_iff.
  apply Hn. apply list_elem_of_In, in_map_iff. by exists q.
Qed.
Lemma filter_checksum data c : NoDup ("checksum" :: List.map fst data) ->
  List.filter (fun p : string * json => negb (String.eqb p.1 "checksum"))
    (JsonText.sort_items (List.map (fun p => (p.1, JsonText.sorted p.2)) (data ++ [("checksum", c)]))) = read_back data.
Proof.
  intros [Hn Hnd]%NoDup_cons. set (l := List.map _ (data ++ _)). set (l0 := List.map (fun p => (p.1, JsonText.sorted p.2)) data).
  set (f := fun p : string * json => negb (String.eqb p.1 "checksum")).
  assert (List.map fst l0 = List.map fst data) as Hk by (unfold l0; by rewrite List.map_map).
  assert (List.filter f l = l0) as Hf.
  { unfold l. rewrite List.map_app, List.filter_app. cbn. rewrite app_nil_r. fold l0. apply List.forallb_filter_id.
    apply forallb_forall. intros p Hp. unfold f. apply negb_true_iff, String.eqb_neq. intros E. apply Hn. rewrite <-E, <-Hk.
    by apply list_elem_of_In, in_map. }
  unfold read_back. fold l0. apply JsonText.sorted_unique.
  - clear. pose proof (JsonText.sort_items_sorted l) as Hs. induction Hs as [|p m Hm IH Hp]; [constructor|].
    cbn. destruct (f p); [|done]. constructor; [done|]. apply Forall_forall. intros q Hq. rewrite Forall_forall in Hp.
    apply Hp. apply list_elem_of_In in Hq. apply filter_In in Hq as [Hq _]. by apply list_elem_of_In.
  - apply JsonText.sort_items_sorted.
  - rewrite (Permutation_map fst (filter_perm f _ _ (JsonText.sort_items_Permutation l))), Hf, Hk. done.
  - by rewrite (filter_perm f _ _ (JsonText.sort_items_Permutation l)), Hf, JsonText.sort_items_Permutation.
Qed.

(** What was sealed is opened with the same password: the checksum is that of the data. *)
Lemma open_seal password rand data : String.length (master_salt rand) = SALT_SIZE -> String.length (master_nonce rand) = NONCE_SIZE ->
  JsonText.distinct_keys (JDict data) = true -> ~ In "checksum" (List.map fst data) ->
  open_backup (seal password rand data) password = Ok (derive_master_key password (master_salt rand), read_back data).
Proof.
  intros Hs Hn Hd Hc. unfold seal, open_backup.
  set (key := derive_master_key password (master_salt rand)).
  set (full := JDict (data ++ [("checksum", checksum_of (JDict data))])).
  assert (NoDup ("checksum" :: List.map fst data)) as Hnd.
  { apply NoDup_cons. split; [by rewrite list_elem_of_In|]. cbn in Hd. by apply andb_true_iff in Hd as [?%bool_decide_eq_true _]. }
  assert (JsonText.distinct_keys full = true) as Hfull.
  { cbn in Hd |- *. apply andb_true_iff in Hd as [_ Hd]. rewrite List.map_app, forallb_app, Hd. cbn.
    rewrite andb_true_r. apply bool_decide_eq_true. rewrite (Permutation_app_comm (List.map fst data)). done. }
  set (c := aes_gcm_encrypt key _ _).
  assert ((String.length (master_salt rand ^+ master_nonce rand ^+ c) <? SALT_SIZE + NONCE_SIZE)%nat = false) as ->.
  { rewrite !StrFacts.app_length, Hs, Hn. apply Nat.ltb_ge. lia. }
  cbn zeta. rewrite <-Hs, StrFacts.drop_app, StrFacts.take_app, <-Hn, StrFacts.drop_app, StrFacts.take_app. fold key.
  unfold c. rewrite aes_gcm_law.
  rewrite (JsonText.ascii_utf8 (JsonText.dumps_indented full) (JsonText.render_ascii (JsonText.sorted full) 0)). cbn [negb].
  rewrite (JsonText.loads_dumps full Hfull). unfold full. cbn [JsonText.sorted].
  rewrite (filter_checksum data _ Hnd), (JsonText.assoc_sorted "checksum").
  2: { rewrite List.map_app. cbn. rewrite (Permutation_app_comm (List.map fst data)). done. }
  assert (Json.assoc "checksum" (data ++ [("checksum", checksum_of (JDict data))]) = Some (checksum_of (JDict data))) as ->.
  { apply JsonText.assoc_In; [|apply in_app_iff; right; by left]. rewrite List.map_app. cbn.
    rewrite (Permutation_app_comm (List.map fst data)). done. }
  cbn [fmap option_fmap option_map default]. 
  change (JDict (read_back data)) with (JsonText.sorted (JDict data)).
  rewrite (JsonText.dumps_sorted (JDict data) Hd).
  change (JsonText.sorted (checksum_of (JDict data))) with (checksum_of (JDict data)). cbn. by rewrite String.eqb_refl.
Qed.

(** ** No dict of the backup has a key twice *)

(** JSON columns hold Python values, and the names of settings are unique. *)
Record plain_site (s : site) : Prop := {
  plain_cells t r k j : In r (rows s t) -> In (k, Val j) (cells r) -> JsonText.distinct_keys j = true;
  plain_settings : NoDup (List.map (exported "key") (rows s SystemConfig));
}.

Lemma mapM_In {A B} (f : A -> option B) l m y : mapM f l = Some m -> In y m -> exists x, In x l /\ f x = Some y.
Proof.
  revert m. induction l as [|x l IH]; intros m; cbn; [by intros [= <-]|].
  intros (z & Hz & (m' & Hm & [= <-])%bind_Some)%bind_Some [<-|Hin]; [by exists x; split; [left|]|].
  destruct (IH m' Hm Hin) as (w & Hw & Ew). exists w. split; [by right|done].
Qed.
Lemma mapM_keys {A B} (f : A -> option B) (g : A -> string) (h : B -> string) l m :
  (forall x y, f x = Some y -> h y = g x) -> mapM f l = Some m -> List.map h m = List.map g l.
Proof.
  intros Hf. revert m. induction l as [|x l IH]; intros m; cbn; [by intros [= <-]|].
  intros (z & Hz & (m' & Hm & [= <-])%bind_Some)%bind_Some. cbn. by rewrite (Hf x z Hz), (IH m' Hm).
Qed.

Lemma exported_distinct s t r k j : plain_site s -> In r (rows s t) -> exported k r = Some j -> JsonText.distinct_keys j = true.
Proof.
  intros Hs Hr. unfold exported, attr. destruct (String.eqb k "id"); [by intros [= <-]|].
  destruct (Json.assoc k (cells r)) as [[j'|b|t']|] eqn:E; try done; intros [= <-].
  - apply JsonText.assoc_Some_In in E. by apply (plain_cells s Hs t r k).
  - done.
Qed.
Lemma export_row_keys l r m : export_row l r = Some m -> List.map fst m = List.map fst l.
Proof. apply mapM_keys. intros p q (v & _ & [= <-])%bind_Some. done. Qed.
Lemma export_row_distinct s t r l m : plain_site s -> In r (rows s t) -> export_row l r = Some m ->
  forallb (fun p : string * json => JsonText.distinct_keys p.2) m = true.
Proof.
  intros Hs Hr E. apply forallb_forall. intros q Hq. destruct (mapM_In _ _ _ _ E Hq) as (p & _ & (v & Hv & [= <-])%bind_Some).
  by apply (exported_distinct s t r p.2).
Qed.
Lemma base64_distinct s t r k j : plain_site s -> In r (rows s t) -> base64_of (attr k r) = Some j -> JsonText.distinct_keys j = true.
Proof.
  intros Hs Hr E. pose proof (exported_distinct s t r k) as Hx. unfold exported in Hx. 
  destruct (attr k r) as [[j'|b|t']|]; try done; injection E as <-; [|done]. by apply Hx.
Qed.

Definition added_keys (t : table) : list string :=
  match t with
  | Users => ["webauthn_credentials"] | Groups => ["members"] | CustomRoles => ["inherits_from"]
  | AuthCertificates => ["cert_pem"] | _ => []
  end.
Lemma row_keys t : NoDup (List.map fst (members_of t) ++ added_keys t).
Proof. refine (bool_decide_eq_true_1 _ _). by destruct t; vm_compute. Qed.
Lemma dict_distinct m : NoDup (List.map fst m) -> forallb (fun p : string * json => JsonText.distinct_keys p.2) m = true ->
  JsonText.distinct_keys (JDict m) = true.
Proof. intros Hn Hd. cbn. by rewrite Hd, andb_true_r, bool_decide_eq_true. Qed.

Lemma added_distinct s t r m : plain_site s -> In r (rows s t) -> added_members t r s = Some m ->
  List.map fst m = added_keys t /\ forallb (fun p : string * json => JsonText.distinct_keys p.2) m = true.
Proof.
  intros Hs Hr. destruct t; cbn; try (intros [= <-]; done).
  - intros (l & Hl & [= <-])%bind_Some. split; [done|]. cbn. rewrite andb_true_r. apply forallb_forall. intros j Hj.
    destruct (mapM_In _ _ _ _ Hl Hj) as (c & Hc & Ec). apply filter_In in Hc as [[Hc _]%filter_In _].
    unfold export_credential in Ec. apply bind_Some in Ec as (i & Hi & (k & Hk & (x & Hx & [= <-])%bind_Some)%bind_Some).
    apply dict_distinct.
    + cbn. rewrite (export_row_keys _ _ _ Hx). by refine (bool_decide_eq_true_1 _ _).
    + cbn. rewrite (base64_distinct s WebAuthnCredentials c "credential_id" i), (base64_distinct s WebAuthnCredentials c "public_key" k) by done.
      by eapply export_row_distinct; [exact Hs|exact Hc|exact Hx].
  - intros (l & Hl & [= <-])%bind_Some. split; [done|]. cbn. rewrite andb_true_r. apply forallb_forall. intros y (x & <- & Hx)%in_map_iff.
    destruct (mapM_In _ _ _ _ Hl Hx) as (c & Hc & Ec). apply filter_In in Hc as [Hc _]. apply dict_distinct.
    + rewrite (export_row_keys _ _ _ Ec). by refine (bool_decide_eq_true_1 _ _).
    + by eapply export_row_distinct; [exact Hs|exact Hc|exact Ec].
  - intros (i & _ & (n & Hn & [= <-])%bind_Some)%bind_Some. split; [done|]. cbn. rewrite andb_true_r.
    destruct (Table.first _ _) as [p|] eqn:E; [|by injection Hn as <-]. apply Table.first_Some in E as [Hp _].
    by apply (exported_distinct s CustomRoles p "name").
  - intros (b & Hb & [= <-])%bind_Some. split; [done|]. cbn. by rewrite (base64_distinct s AuthCertificates r "cert_pem" b).
Qed.
Lemma export_table_distinct inc t s j : plain_site s -> export_table inc t s = Some j -> JsonText.distinct_keys j = true.
Proof.
  intros Hs. unfold export_table. destruct (negb inc); [by intros [= <-]|]. intros (l & Hl & [= <-])%bind_Some.
  cbn. apply forallb_forall. intros x Hx. destruct (mapM_In _ _ _ _ Hl Hx) as (r & Hr & (a & Ha & (b & Hb & [= <-])%bind_Some)%bind_Some).
  destruct (added_distinct s t r b Hs Hr Hb) as [Hk Hd]. apply dict_distinct.
  - rewrite List.map_app, (export_row_keys _ _ _ Ha), Hk. apply row_keys.
  - rewrite forallb_app, Hd, andb_true_r. by eapply export_row_distinct; [exact Hs|exact Hr|exact Ha].
Qed.
Lemma configuration_distinct inc e s j : plain_site s -> export_configuration inc e s = Some j -> JsonText.distinct_keys j = true.
Proof.
  intros Hs. unfold export_configuration. destruct (negb inc); [by intros [= <-]|].
  intros (p & Hp & (t & Ht & (w & Hw & (l & Hl & [= <-])%bind_Some)%bind_Some)%bind_Some)%bind_Some.
  apply fmap_Some in Hp as (? & _ & ->). apply fmap_Some in Ht as (? & _ & ->). apply fmap_Some in Hw as (? & _ & ->).
  enough (JsonText.distinct_keys (JDict l) = true) as E
    by (apply dict_distinct; [by refine (bool_decide_eq_true_1 _ _)|]; cbn in E |- *; by rewrite E).
  apply dict_distinct.
  - pose proof (plain_settings s Hs) as Hnd. revert Hl. generalize dependent (rows s SystemConfig). intros rs Hnd.
    revert l. induction rs as [|r rs IH]; intros l; cbn; [intros [= <-]; constructor|].
    cbn in Hnd. apply NoDup_cons in Hnd as [Hn Hnd]. destruct (negb _); [|by apply IH]. cbn.
    intros (q & (k & Hk & (v & Hv & Eq)%bind_Some)%bind_Some & (m & Hm & [= <-])%bind_Some)%bind_Some. cbn.
    destruct k; try done. injection Eq as <-. cbn. apply NoDup_cons. split; [|by apply IH].
    intros (q & Eq & Hq)%list_elem_of_In%in_map_iff. destruct (mapM_In _ _ _ _ Hm Hq) as (r' & Hr' & (k' & Hk' & (v' & Hv' & Eq')%bind_Some)%bind_Some).
    destruct k'; try done. injection Eq' as <-. cbn in Eq. subst. apply Hn. apply list_elem_of_In, in_map_iff. exists r'.
    apply filter_In in Hr' as [Hr' _]. split; [|done].
    by rewrite Hk, Hk'.
  - apply forallb_forall. intros q Hq. destruct (mapM_In _ _ _ _ Hl Hq) as (r & Hr & (k & _ & (v & Hv & Eq)%bind_Some)%bind_Some).
    destruct k; try done. injection Eq as <-. apply filter_In in Hr as [Hr _]. by apply (exported_distinct s SystemConfig r "value").
Qed.

Lemma set_item_keys k v kv : In k (List.map fst kv) -> List.map fst (JsonText.set_item k v kv) = List.map fst kv.
Proof.
  induction kv as [|[k' v'] kv IH]; [done|]. cbn. destruct (String.eqb_spec k' k) as [->|]; [done|].
  intros [?|Hin]; [done|]. cbn. by rewrite IH.
Qed.
Lemma set_item_distinct k v kv : JsonText.distinct_keys v = true ->
  forallb (fun p : string * json => JsonText.distinct_keys p.2) kv = true ->
  forallb (fun p : string * json => JsonText.distinct_keys p.2) (JsonText.set_item k v kv) = true.
Proof.
  intros Hv. induction kv as [|[k' v'] kv IH]; cbn; [by rewrite Hv|]. intros [Hv' Hd]%andb_true_iff.
  destruct (String.eqb k' k); cbn; [by rewrite Hv, Hd|]. by rewrite Hv', IH.
Qed.
Lemma assoc_set_item k v kv k' : In k (List.map fst kv) ->
  Json.assoc k' (JsonText.set_item k v kv) = if String.eqb k' k then Some v else Json.assoc k' kv.
Proof.
  induction kv as [|[n w] kv IH]; [done|]. cbn. intros Hin.
  destruct (String.eqb_spec n k) as [->|Hn]; cbn; [by destruct (String.eqb k' k)|].
  destruct Hin as [?|Hin]; [done|]. rewrite (IH Hin).
  destruct (String.eqb_spec k' n) as [->|]; [by destruct (String.eqb_spec n k)|done].
Qed.
Lemma assoc_filter k k' (kv : list (string * json)) : k' <> k ->
  Json.assoc k' (List.filter (fun p => negb (String.eqb p.1 k)) kv) = Json.assoc k' kv.
Proof.
  intros Hne. induction kv as [|[n w] kv IH]; [done|]. cbn. destruct (String.eqb_spec n k) as [->|]; cbn; rewrite IH; [|done].
  by destruct (String.eqb_spec k' k).
Qed.

Lemma assoc_app {A} k (l l' : list (string * A)) :
  Json.assoc k (l ++ l') = match Json.assoc k l with Some v => Some v | None => Json.assoc k l' end.
Proof. induction l as [|[n w] l IH]; [done|]. cbn. by destruct (String.eqb k n). Qed.
Lemma mapM_assoc {A B} (f : string * A -> option (string * B)) l m k x : mapM f l = Some m ->
  (forall p q, f p = Some q -> q.1 = p.1) -> In (k, x) l -> NoDup (List.map fst l) ->
  exists v, f (k, x) = Some (k, v) /\ Json.assoc k m = Some v.
Proof.
  intros Hm Hf. revert m Hm. induction l as [|p l IH]; [done|]. cbn.
  intros m (q & Hq & (m' & Hm & [= <-])%bind_Some)%bind_Some Hin [Hn Hnd]%NoDup_cons.
  pose proof (Hf p q Hq) as Eq. destruct q as [n v]. cbn in Eq. subst n. destruct Hin as [->|Hin].
  - exists v. cbn in *. by rewrite String.eqb_refl.
  - destruct (IH m' Hm Hin Hnd) as (w & Hw & Ew). exists w. split; [done|]. cbn.
    destruct (String.eqb_spec k p.1) as [->|]; [|done]. exfalso. apply Hn, list_elem_of_In, in_map_iff. by exists (p.1, x).
Qed.

(** ** A dict whose key is encrypted *)

Definition plaintext : string := "_private_key_plaintext".
Definition key_member : string := "private_key_pem_encrypted".
(** The dict after the key, if there is one, is encrypted. *)
Definition sealed (rand : randomness) (master_key : string) (n : nat) (d : list (string * json)) : list (string * json) :=
  match Json.assoc plaintext d with
  | Some (JStr k) =>
      List.filter (fun p => negb (String.eqb p.1 plaintext))
        (JsonText.set_item key_member (encrypt_private_key k master_key (key_salt rand n) (key_nonce rand n)) d)
  | _ => d
  end.
Lemma encrypt_all rand mk n l : encrypt_private_keys rand mk n l = List.map (fun p => JDict (sealed rand mk p.1 p.2)) (zip (seq n (length l)) l).
Proof. revert n. induction l as [|d l IH]; intros n; [done|]. cbn. by rewrite IH. Qed.

Lemma sealed_distinct rand mk n d : JsonText.distinct_keys (JDict d) = true -> In key_member (List.map fst d) ->
  JsonText.distinct_keys (JDict (sealed rand mk n d)) = true.
Proof.
  intros Hd Hk. unfold sealed. destruct (Json.assoc plaintext d) as [[| | |k| |]|]; try done.
  cbn in Hd. apply andb_true_iff in Hd as [Hn%bool_decide_eq_true Hd]. apply dict_distinct.
  - apply NoDup_list_filter_fst. by rewrite set_item_keys.
  - assert (forall l, forallb (fun p : string * json => JsonText.distinct_keys p.2) l = true ->
      forallb (fun p : string * json => JsonText.distinct_keys p.2) (List.filter (fun p => negb (String.eqb p.1 plaintext)) l) = true) as Hf.
    { intros l Hl. rewrite forallb_forall in Hl |- *. intros p [Hp _]%filter_In. by apply Hl. }
    apply Hf, set_item_distinct; [|done]. apply dict_distinct; [by refine (bool_decide_eq_true_1 _ _)|done].
Qed.
Lemma sealed_get rand mk n d k : JsonText.distinct_keys (JDict d) = true -> In key_member (List.map fst d) ->
  k <> plaintext -> k <> key_member ->
  Json.get k (JsonText.sorted (JDict (sealed rand mk n d))) = JsonText.sorted <$> Json.assoc k d.
Proof.
  intros Hd Hk Hn1 Hn2. rewrite JsonText.get_sorted by (by apply sealed_distinct). cbn [Json.get]. f_equal.
  unfold sealed. destruct (Json.assoc plaintext d) as [[| | |t| |]|]; try done.
  rewrite assoc_filter, assoc_set_item by done. by destruct (String.eqb_spec k key_member).
Qed.

(** ** The key that comes back *)

(** The text of a stored private key. *)
Definition key_text (prv : option string) : option string :=
  p ← filled prv; b ← Encryption.decrypt_private_key encryption_enabled p; pem_text b.
Definition readable (prv : option string) : Prop := filled prv = None \/ exists k, key_text prv = Some k /\ k <> "".

Lemma pem_text_encode k : Str.utf8_valid 0 0%N 0%N k = true -> pem_text (Base64.b64encode k) = Some k.
Proof. intros Hk. unfold pem_text. rewrite Base64.decode_encode. cbn. by rewrite Hk. Qed.
Lemma key_text_utf8 prv k : key_text prv = Some k -> Str.utf8_valid 0 0%N 0%N k = true.
Proof.
  unfold key_text, pem_text. intros (p & _ & (b & _ & (t & _ & E)%bind_Some)%bind_Some)%bind_Some. by case_match; simplify_eq.
Qed.

Lemma decrypt_sealed k mk salt nonce : Str.utf8_valid 0 0%N 0%N k = true ->
  decrypt_private_key (JsonText.sorted (encrypt_private_key k mk salt nonce)) mk = Ok k.
Proof.
  intros Hk. set (d := encrypt_private_key k mk salt nonce).
  assert (JsonText.distinct_keys d = true) as Hd by (apply dict_distinct; [by refine (bool_decide_eq_true_1 _ _)|done]).
  unfold decrypt_private_key, hex_member. rewrite !JsonText.get_sorted by done. unfold d. cbn.
  rewrite !fromhex_hex. cbn. rewrite aes_gcm_law. cbn. by rewrite Hk.
Qed.

Lemma stored_key_text iv k : Str.utf8_valid 0 0%N 0%N k = true -> k <> "" ->
  key_text (Some (Encryption.encrypt_private_key encryption_enabled iv (Base64.b64encode k))) = Some k.
Proof.
  intros Hk Hne. unfold key_text. set (c := Encryption.encrypt_private_key _ _ _).
  assert (Encryption.decrypt_private_key encryption_enabled c = Some (Base64.b64encode k)) as E by apply CaRouteFacts.stored_key_reads_back.
  destruct (filled (Some c)) as [p|] eqn:Ef; cbn in Ef; destruct (Str.truthy c) eqn:Et; simplify_eq.
  - cbn. rewrite E. cbn. by apply pem_text_encode.
  - exfalso. unfold Encryption.decrypt_private_key in E. rewrite Et in E. injection E as E. rewrite E in Et.
    destruct k as [|a [|b [|x k]]]; done.
Qed.

(** The member of the dict, and the column that is restored from it. *)
Lemma restored_key_of rand mk n iv d prv :
  JsonText.distinct_keys (JDict (d ++ plaintext_key encryption_enabled prv)) = true ->
  Json.assoc key_member d = Some JNull -> ~ In plaintext (List.map fst d) -> readable prv ->
  exists prv', restored_key encryption_enabled (JsonText.sorted (JDict (sealed rand mk n (d ++ plaintext_key encryption_enabled prv)))) mk iv = Ok prv'
    /\ key_text prv' = key_text prv.
Proof.
  intros Hd Hk Hp Hr. set (d1 := d ++ _) in *.
  assert (In key_member (List.map fst d1)) as Hin
    by (unfold d1; rewrite List.map_app, in_app_iff; left; apply JsonText.assoc_Some_In in Hk; by apply (in_map fst) in Hk).
  assert (Json.assoc plaintext d1 = Json.assoc plaintext (plaintext_key encryption_enabled prv)) as Epl.
  { unfold d1. rewrite assoc_app. destruct (Json.assoc plaintext d) eqn:E; [|done]. by apply JsonText.assoc_Some_In, (in_map fst) in E. }
  pose proof (sealed_distinct rand mk n d1 Hd Hin) as Hsd.
  unfold restored_key, Json.get_or. rewrite JsonText.get_sorted by done. cbn [Json.get].
  change "private_key_pem_encrypted" with key_member.
  destruct Hr as [Hr|(k & Ek & Hne)].
  - assert (plaintext_key encryption_enabled prv = []) as E0 by (unfold plaintext_key; by rewrite Hr).
    unfold sealed. rewrite Epl, E0. cbn [Json.assoc]. unfold d1. rewrite E0, app_nil_r, Hk. cbn. exists None. split; [done|].
    unfold key_text. by rewrite Hr.
  - pose proof (key_text_utf8 _ _ Ek) as Hu.
    assert (plaintext_key encryption_enabled prv = [(plaintext, JStr k)]) as E1.
    { unfold plaintext_key. unfold key_text in Ek. apply bind_Some in Ek as (p & Ep & Ek). by rewrite Ep, Ek. }
    unfold sealed. rewrite Epl, E1. cbn [Json.assoc]. rewrite String.eqb_refl.
    rewrite assoc_filter by done. rewrite assoc_set_item by done. rewrite String.eqb_refl.
    change (default JNull (JsonText.sorted <$> Some ?x)) with (JsonText.sorted x).
    set (v := JsonText.sorted _). assert (Json.truthy v = true) as -> by done. unfold v. clear v.
    cbn [negb]. rewrite decrypt_sealed by done. cbn [mbind result_bind filled].
    assert (Str.truthy k = true) as -> by (by destruct k).
    eexists. split; [done|]. rewrite Ek. by apply stored_key_text.
Qed.

(** * CAs *)

Definition stored_pem (col : string) : Prop := exists pem, col = Base64.b64encode pem /\ Str.utf8_valid 0 0%N 0%N pem = true /\ pem <> "".
Lemma stored_pem_json col : stored_pem col -> exists pem, pem_or_none (Some col) = Some (JStr pem) /\ Str.truthy pem = true /\ Base64.b64encode pem = col.
Proof.
  intros (pem & -> & Hu & Hne). exists pem. split_and!; [|by destruct pem|done]. unfold pem_or_none. cbn [filled].
  assert (Str.truthy (Base64.b64encode pem) = true) as -> by (destruct pem as [|a [|b [|x k]]]; done). by rewrite pem_text_encode.
Qed.

Lemma plaintext_distinct prv : JsonText.distinct_keys (JDict (plaintext_key encryption_enabled prv)) = true
  /\ (List.map fst (plaintext_key encryption_enabled prv) = [] \/ List.map fst (plaintext_key encryption_enabled prv) = [plaintext]).
Proof.
  unfold plaintext_key. destruct (filled prv); [|by split; [|left]]. split; [|by right].
  apply dict_distinct; [|done]. cbn. apply NoDup_singleton.
Qed.
Lemma with_plaintext prv m : NoDup (plaintext :: List.map fst m) ->
  forallb (fun p : string * json => JsonText.distinct_keys p.2) m = true ->
  JsonText.distinct_keys (JDict (m ++ plaintext_key encryption_enabled prv)) = true.
Proof.
  intros Hn Hd. destruct (plaintext_distinct prv) as [Hp Hk]. cbn in Hp. apply andb_true_iff in Hp as [_ Hp]. apply dict_distinct.
  - rewrite List.map_app. destruct Hk as [->| ->]; [rewrite app_nil_r; by apply NoDup_cons in Hn as [_ ?]|].
    by rewrite (Permutation_app_comm (List.map fst m)).
  - by rewrite forallb_app, Hd, Hp.
Qed.

Lemma leaf_text o : JsonText.distinct_keys (opt_text o) = true. Proof. by destruct o. Qed.
Lemma leaf_int o : JsonText.distinct_keys (opt_int o) = true. Proof. by destruct o. Qed.
Lemma leaf_iso o : JsonText.distinct_keys (iso o) = true. Proof. by destruct o. Qed.

(** What is kept of a CA. *)
Definition kept_ca (a a' : CaModel.ca) : Prop :=
  CaModel.a_refid a' = CaModel.a_refid a /\ CaModel.a_descr a' = CaModel.a_descr a /\ CaModel.a_crt a' = CaModel.a_crt a
  /\ key_text (CaModel.a_prv a') = key_text (CaModel.a_prv a).
Definition whole_ca (a : CaModel.ca) : Prop := stored_pem (CaModel.a_crt a) /\ readable (CaModel.a_prv a).

Lemma export_ca_dict a d : whole_ca a -> export_ca encryption_enabled a = Some d ->
  JsonText.distinct_keys (JDict d) = true /\ In key_member (List.map fst d)
  /\ (forall rand mk n iv, exists prv, restored_key encryption_enabled (JsonText.sorted (JDict (sealed rand mk n d))) mk iv = Ok prv
        /\ key_text prv = key_text (CaModel.a_prv a))
  /\ Json.assoc "refid" d = Some (JStr (CaModel.a_refid a)) /\ Json.assoc "descr" d = Some (JStr (CaModel.a_descr a))
  /\ exists pem, Json.assoc "certificate_pem" d = Some (JStr pem) /\ Str.truthy pem = true /\ Base64.b64encode pem = CaModel.a_crt a.
Proof.
  intros [Hc Hk] E. destruct (stored_pem_json _ Hc) as (pem & Epem & Ht & Eb). unfold export_ca in E. rewrite Epem in E.
  injection E as <-. set (m := ca_members a (JStr pem)).
  assert (JsonText.distinct_keys (JDict (m ++ plaintext_key encryption_enabled (CaModel.a_prv a))) = true) as Hd.
  { apply with_plaintext; [by refine (bool_decide_eq_true_1 _ _)|]. cbn -[opt_text opt_int iso]. by rewrite !leaf_text, !leaf_int, !leaf_iso. }
  split; [exact Hd|]. split; [by apply (in_map fst (m ++ _) (key_member, JNull)), in_app_iff; left; cbn; tauto|]. split_and!; try done.
  - intros rand mk n iv. apply (restored_key_of rand mk n iv m); [done..| |done]. clear. cbn. intros Hin. repeat (destruct Hin as [Hin|Hin]; [done|]). done.
  - by exists pem.
Qed.

Lemma restore_ca_step a d rand mk n now iv s s' : whole_ca a -> export_ca encryption_enabled a = Some d ->
  restore_ca encryption_enabled mk now iv (JsonText.sorted (JDict (sealed rand mk n d))) s = Ok s' ->
  NoDup (List.map CaModel.a_id (cas (pki s))) ->
  (exists a', In a' (cas (pki s')) /\ kept_ca a a')
  /\ (forall b, In b (cas (pki s)) -> CaModel.a_refid b <> CaModel.a_refid a -> In b (cas (pki s')))
  /\ NoDup (List.map CaModel.a_id (cas (pki s'))) /\ certs (pki s') = certs (pki s) /\ crls (pki s') = crls (pki s) /\ rows s' = rows s.
Proof.
  intros Hw Hx E Hnd. destruct (export_ca_dict a d Hw Hx) as (Hd & Hin & Hkey & Href & Hdescr & pem & Hpem & Ht & Eb).
  destruct (Hkey rand mk n iv) as (prv & Eprv & Ek). set (data := JsonText.sorted _) in *.
  assert (forall k, k <> plaintext -> k <> key_member -> Json.get k data = JsonText.sorted <$> Json.assoc k d) as Hget
    by (intros k ? ?; by apply sealed_get).
  assert (Json.is_dict data = true) as Edict by done. clearbody data.
  unfold restore_ca, text_or_null, restored_pem, Json.get_or in E.
  rewrite Edict, Eprv, (Hget "refid"), (Hget "descr"), (Hget "certificate_pem"), Href, Hdescr, Hpem in E by done.
  cbn -[Json.get Table.update Table.next_id] in E. rewrite Ht, Eb in E. cbn -[Json.get Table.update Table.next_id] in E.
  destruct (ca_by_refid (CaModel.a_refid a) (pki s)) as [a0|] eqn:Ea.
  - injection E as <-. cbn. apply Table.first_Some in Ea as [Ha0 Er%String.eqb_eq]. split_and!; try done.
    + exists (set_material (CaModel.a_descr a) (CaModel.a_crt a) prv a0). split; [|done].
      apply Table.In_update. exists a0. split; [done|]. by rewrite Z.eqb_refl.
    + intros b Hb Hne. apply Table.In_update. exists b. split; [done|].
      destruct (Z.eqb_spec (CaModel.a_id b) (CaModel.a_id a0)) as [E|]; [|done].
      exfalso. apply Hne. rewrite (Table.NoDup_map_eq CaModel.a_id (cas (pki s)) b a0); done.
    + rewrite CaFacts.map_update_same; done.
  - apply lift_Ok in E. apply bind_Some in E as (sub & _ & (iss & _ & (sn & _ & (cr & _ & [= <-])%bind_Some)%bind_Some)%bind_Some). cbn.
    split_and!; try done.
    + eexists. split; [apply in_app_iff; right; by left|]. done.
    + intros b Hb _. apply in_app_iff. by left.
    + apply Table.NoDup_map_snoc; [done|]. intros b Hb Eid. pose proof (Table.next_id_fresh CaModel.a_id _ b Hb) as Hlt. cbn in Eid.
      rewrite Eid in Hlt. by apply Z.lt_irrefl in Hlt.
Qed.

Lemma restore_cas_spec mk now rand l : forall n iv ds s s', Forall whole_ca l -> NoDup (List.map CaModel.a_refid l) ->
  mapM (export_ca encryption_enabled) l = Some ds ->
  with_ivs (restore_ca encryption_enabled mk now) iv (List.map JsonText.sorted (encrypt_private_keys rand mk n ds)) s = Ok s' ->
  NoDup (List.map CaModel.a_id (cas (pki s))) ->
  (forall a, In a l -> exists a', In a' (cas (pki s')) /\ kept_ca a a')
  /\ (forall b, In b (cas (pki s)) -> ~ In (CaModel.a_refid b) (List.map CaModel.a_refid l) -> In b (cas (pki s')))
  /\ certs (pki s') = certs (pki s) /\ crls (pki s') = crls (pki s) /\ rows s' = rows s.
Proof.
  induction l as [|a l IH]; intros n iv ds s s' Hw Hr Hm E Hnd.
  - injection Hm as <-. injection E as <-. done.
  - apply Forall_cons in Hw as [Ha Hw]. cbn in Hr. apply NoDup_cons in Hr as [Hna Hr]. cbn in Hm.
    apply bind_Some in Hm as (d & Hx & (ds' & Hds & [= <-])%bind_Some).
    cbn [encrypt_private_keys List.map with_ivs] in E. apply bind_Ok in E as (s1 & E1 & E).
    apply (restore_ca_step a d rand mk n) in E1 as ((a' & Ha' & Hk) & Hb & Hnd1 & Ec & El & Erow); [|done..].
    destruct (IH (S n) (S iv) ds' s1 s' Hw Hr Hds E Hnd1) as (Hall & Hother & Ec' & El' & Erow').
    assert (~ In (CaModel.a_refid a) (List.map CaModel.a_refid l)) as Hna' by (by rewrite <-list_elem_of_In).
    split_and!; [| |congruence..].
    + intros x [<-|Hx']; [|by apply Hall]. exists a'. split; [|done]. apply Hother; [done|]. by rewrite (proj1 Hk).
    + intros b Hin Hn. cbn in Hn. apply Hother; [|tauto]. apply Hb; [done|]. intros E'. apply Hn. left. by rewrite E'.
Qed.

(** * Certificates *)

Definition kept_certificate (c c' : certificate) : Prop :=
  refid c' = refid c /\ descr c' = descr c /\ crt c' = crt c /\ key_text (prv c') = key_text (prv c).
Definition whole_certificate (c : certificate) : Prop :=
  match crt c with Some col => stored_pem col | None => True end /\ readable (prv c).

Lemma export_certificate_dict c d : whole_certificate c -> export_certificate encryption_enabled c = Some d ->
  JsonText.distinct_keys (JDict d) = true /\ In key_member (List.map fst d)
  /\ (forall rand mk n iv, exists k, restored_key encryption_enabled (JsonText.sorted (JDict (sealed rand mk n d))) mk iv = Ok k
        /\ key_text k = key_text (prv c))
  /\ Json.assoc "refid" d = Some (JStr (refid c)) /\ Json.assoc "descr" d = Some (JStr (descr c))
  /\ exists j, Json.assoc "certificate_pem" d = Some j /\ (forall data, Json.get "certificate_pem" data = Some (JsonText.sorted j) -> restored_pem data = Some (crt c)).
Proof.
  intros [Hc Hk] E. unfold export_certificate in E. apply bind_Some in E as (pem & Epem & (q & Eq & [= <-])%bind_Some).
  assert (JsonText.distinct_keys pem = true /\ forall data, Json.get "certificate_pem" data = Some (JsonText.sorted pem) -> restored_pem data = Some (crt c)) as [Hpd Hpem].
  { destruct (crt c) as [col|].
    - destruct (stored_pem_json _ Hc) as (t & Et & Ht & <-). rewrite Epem in Et. injection Et as ->. split; [done|].
      intros data Ed. unfold restored_pem, Json.get_or. rewrite Ed. cbn. by rewrite Ht.
    - injection Epem as <-. split; [done|]. intros data Ed. unfold restored_pem, Json.get_or. by rewrite Ed. }
  assert (JsonText.distinct_keys q = true) as Hq.
  { unfold pem_or_none in Eq. destruct (filled (csr c)); [|by injection Eq as <-]. by apply fmap_Some in Eq as (? & _ & ->). }
  assert (JsonText.distinct_keys (JDict (certificate_members c pem q ++ plaintext_key encryption_enabled (prv c))) = true) as Hd.
  { apply with_plaintext; [by refine (bool_decide_eq_true_1 _ _)|]. cbn -[opt_text iso]. by rewrite !leaf_text, !leaf_iso, Hpd, Hq. }
  split; [exact Hd|]. split; [by apply (in_map fst (certificate_members c pem q ++ _) (key_member, JNull)), in_app_iff; left; cbn; tauto|].
  split_and!; try done.
  - intros rand mk n iv. apply (restored_key_of rand mk n iv (certificate_members c pem q)); [done..| |done]. clear. cbn.
    intros Hin. repeat (destruct Hin as [Hin|Hin]; [done|]). done.
  - by exists pem.
Qed.

Definition unrevoked (c : certificate) : Prop := revoked c = Some false.
Lemma restore_certificate_step c d rand mk n now iv s s' : whole_certificate c -> export_certificate encryption_enabled c = Some d ->
  restore_certificate encryption_enabled mk now iv (JsonText.sorted (JDict (sealed rand mk n d))) s = Ok s' ->
  NoDup (List.map id (certs (pki s))) ->
  (exists c', In c' (certs (pki s')) /\ kept_certificate c c')
  /\ (forall b, In b (certs (pki s)) -> refid b <> refid c -> In b (certs (pki s')))
  /\ NoDup (List.map id (certs (pki s'))) /\ (Forall unrevoked (certs (pki s)) -> Forall unrevoked (certs (pki s')))
  /\ cas (pki s') = cas (pki s) /\ crls (pki s') = crls (pki s) /\ rows s' = rows s.
Proof.
  intros Hw Hx E Hnd. destruct (export_certificate_dict c d Hw Hx) as (Hd & Hin & Hkey & Href & Hdescr & pem & Hpem & Ecrt).
  destruct (Hkey rand mk n iv) as (k & Eprv & Ek). set (data := JsonText.sorted _) in *.
  assert (forall k, k <> plaintext -> k <> key_member -> Json.get k data = JsonText.sorted <$> Json.assoc k d) as Hget
    by (intros k0 ? ?; by apply sealed_get).
  assert (Json.is_dict data = true) as Edict by done. clearbody data.
  specialize (Ecrt data ltac:(by rewrite (Hget "certificate_pem"), Hpem)).
  unfold restore_certificate, text_or_null, Json.get_or in E.
  rewrite Edict, Eprv, Ecrt, (Hget "refid"), (Hget "descr"), Href, Hdescr in E by done.
  cbn -[Json.get Table.update Table.next_id Table.first] in E.
  destruct (Table.first _ (certs (pki s))) as [c0|] eqn:Ea.
  - injection E as <-. cbn. apply Table.first_Some in Ea as [Ha0 Er%String.eqb_eq]. split_and!; try done.
    + exists (set_cert_material (descr c) (crt c) k c0). split; [|done].
      apply Table.In_update. exists c0. split; [done|]. by rewrite Z.eqb_refl.
    + intros b Hb Hne. apply Table.In_update. exists b. split; [done|].
      destruct (Z.eqb_spec (id b) (id c0)) as [E|]; [|done].
      exfalso. apply Hne. rewrite (Table.NoDup_map_eq id (certs (pki s)) b c0); done.
    + rewrite CaFacts.map_update_same; done.
    + rewrite !Forall_forall. intros Hu b Hb. apply list_elem_of_In, Table.In_update in Hb as (x & Hx' & ->).
      apply list_elem_of_In, Hu in Hx'. by destruct (_ =? _).
  - apply lift_Ok in E. apply bind_Some in E as (cr & _ & (ct & _ & (sub & _ & (iss & _ & (sn & _ & [= <-])%bind_Some)%bind_Some)%bind_Some)%bind_Some).
    cbn. split_and!; try done.
    + eexists. split; [apply in_app_iff; right; by left|]. done.
    + intros b Hb _. apply in_app_iff. by left.
    + apply Table.NoDup_map_snoc; [done|]. intros b Hb Eid. pose proof (Table.next_id_fresh id _ b Hb) as Hlt. cbn in Eid.
      rewrite Eid in Hlt. by apply Z.lt_irrefl in Hlt.
    + intros Hu. apply Forall_app. split; [done|]. by repeat constructor.
Qed.

Lemma restore_certificates_spec mk now rand l : forall n iv ds s s', Forall whole_certificate l -> NoDup (List.map refid l) ->
  mapM (export_certificate encryption_enabled) l = Some ds ->
  with_ivs (restore_certificate encryption_enabled mk now) iv (List.map JsonText.sorted (encrypt_private_keys rand mk n ds)) s = Ok s' ->
  NoDup (List.map id (certs (pki s))) ->
  (forall c, In c l -> exists c', In c' (certs (pki s')) /\ kept_certificate c c')
  /\ (forall b, In b (certs (pki s)) -> ~ In (refid b) (List.map refid l) -> In b (certs (pki s')))
  /\ (Forall unrevoked (certs (pki s)) -> Forall unrevoked (certs (pki s')))
  /\ cas (pki s') = cas (pki s) /\ crls (pki s') = crls (pki s) /\ rows s' = rows s.
Proof.
  induction l as [|c l IH]; intros n iv ds s s' Hw Hr Hm E Hnd.
  - injection Hm as <-. injection E as <-. done.
  - apply Forall_cons in Hw as [Hc Hw]. cbn in Hr. apply NoDup_cons in Hr as [Hnc Hr]. cbn in Hm.
    apply bind_Some in Hm as (d & Hx & (ds' & Hds & [= <-])%bind_Some).
    cbn [encrypt_private_keys List.map with_ivs] in E. apply bind_Ok in E as (s1 & E1 & E).
    apply (restore_certificate_step c d rand mk n) in E1 as ((c' & Hc' & Hk) & Hb & Hnd1 & Hu & Ec & El & Erow); [|done..].
    destruct (IH (S n) (S iv) ds' s1 s' Hw Hr Hds E Hnd1) as (Hall & Hother & Hu' & Ec' & El' & Erow').
    assert (~ In (refid c) (List.map refid l)) as Hnc' by (by rewrite <-list_elem_of_In).
    split_and!; [| |tauto|congruence..].
    + intros x [<-|Hx']; [|by apply Hall]. exists c'. split; [|done]. apply Hother; [done|]. by rewrite (proj1 Hk).
    + intros b Hin Hn. cbn in Hn. apply Hother; [|tauto]. apply Hb; [done|]. intros E'. apply Hn. left. by rewrite E'.
Qed.

(** * The whole backup *)

Record whole_site (s : site) : Prop := {
  whole_plain : plain_site s;
  whole_cas : Forall whole_ca (cas (pki s));
  whole_certs : Forall whole_certificate (certs (pki s));
  whole_ca_refs : NoDup (List.map CaModel.a_refid (cas (pki s)));
  whole_cert_refs : NoDup (List.map refid (certs (pki s)));
}.

Lemma sealed_all_distinct {A} (f : A -> option (list (string * json))) l ds rand mk n :
  (forall x d, In x l -> f x = Some d -> JsonText.distinct_keys (JDict d) = true /\ In key_member (List.map fst d)) ->
  mapM f l = Some ds -> JsonText.distinct_keys (JList (encrypt_private_keys rand mk n ds)) = true.
Proof.
  intros Hf Hm. cbn. apply forallb_forall. intros j. rewrite encrypt_all. intros ([k d] & <- & Hp)%in_map_iff.
  apply list_elem_of_In, elem_of_zip_r, list_elem_of_In in Hp. destruct (mapM_In _ _ _ _ Hm Hp) as (x & Hx & Ex).
  destruct (Hf x d Hx Ex). by apply sealed_distinct.
Qed.

(** The parts of the data that what follows looks at. *)
Lemma backup_data_spec type rand mk e s data : whole_site s ->
  backup_data encryption_enabled type [] rand mk e s = Some data ->
  JsonText.distinct_keys (JDict data) = true /\ ~ In "checksum" (List.map fst data)
  /\ (exists ds, mapM (export_ca encryption_enabled) (cas (pki s)) = Some ds
        /\ Json.assoc "certificate_authorities" data = Some (JList (encrypt_private_keys rand mk 0 ds))
        /\ exists ds', mapM (export_certificate encryption_enabled) (certs (pki s)) = Some ds'
        /\ Json.assoc "certificates" data = Some (JList (encrypt_private_keys rand mk (length ds) ds')))
  /\ (exists us, export_table true Users s = Some (JList us) /\ Json.assoc "users" data = Some (JList us))
  /\ (exists us, export_table true ApiKeys s = Some (JList us) /\ Json.assoc "api_keys" data = Some (JList us)).
Proof.
  assert (forall t j, export_table true t s = Some j -> exists us, j = JList us) as Hlist.
  { intros t j. unfold export_table. cbn [negb]. intros (us & _ & [= <-])%bind_Some. by exists us. }
  intros Hs E. unfold backup_data, included in E. cbn [Json.assoc default] in E.
  apply bind_Some in E as (conf & Hconf & ([ku users] & Hu & (ds & Hds & (ds' & Hds' & ([ka acme] & Ha & (rest & Hrest & [= <-])%bind_Some)%bind_Some)%bind_Some)%bind_Some)%bind_Some).
  apply bind_Some in Hu as (us & Hus & [= <- <-]). apply bind_Some in Ha as (ac & Hac & [= <- <-]).
  pose proof (whole_plain s Hs) as Hp.
  assert (List.map fst rest = ["groups"; "custom_roles"; "certificate_templates"; "trusted_certificates"; "sso_providers";
    "hsm_providers"; "api_keys"; "smtp_config"; "notification_config"; "certificate_policies"; "auth_certificates";
    "dns_providers"; "acme_domains"; "acme_local_domains"]) as Hk.
  { erewrite (mapM_keys _ fst fst); [|intros x y|exact Hrest]; [done|]. by intros (l & _ & [= <-])%bind_Some. }
  split_and!.
  - assert (JsonText.distinct_keys (JList (encrypt_private_keys rand mk 0 ds)) = true) as H1'.
    { apply (sealed_all_distinct (export_ca encryption_enabled) (cas (pki s))); [|done]. intros x d Hx Ex.
      pose proof (whole_cas s Hs) as Hw. rewrite Forall_forall in Hw.
      destruct (export_ca_dict x d (Hw x ltac:(by apply list_elem_of_In)) Ex) as (? & ? & _). done. }
    assert (JsonText.distinct_keys (JList (encrypt_private_keys rand mk (length ds) ds')) = true) as H2'.
    { apply (sealed_all_distinct (export_certificate encryption_enabled) (certs (pki s))); [|done]. intros x d Hx Ex.
      pose proof (whole_certs s Hs) as Hw. rewrite Forall_forall in Hw.
      destruct (export_certificate_dict x d (Hw x ltac:(by apply list_elem_of_In)) Ex) as (? & ? & _). done. }
    assert (forallb (fun p : string * json => JsonText.distinct_keys p.2) rest = true) as Hr.
    { apply forallb_forall. intros q Hq. destruct (mapM_In _ _ _ _ Hrest Hq) as (x & _ & (l & Hl & [= <-])%bind_Some).
      by apply (export_table_distinct _ _ _ _ Hp Hl). }
    apply dict_distinct; [cbn [List.map fst]; rewrite List.map_app, Hk; by refine (bool_decide_eq_true_1 _ _)|].
    cbn [forallb snd]. rewrite forallb_app, H1', H2', Hr, (configuration_distinct _ _ _ _ Hp Hconf),
      (export_table_distinct _ _ _ _ Hp Hus), (export_table_distinct _ _ _ _ Hp Hac).
    unfold export_https_files. by destruct (https_cert s), (https_key s).
  - cbn [List.map fst]. rewrite List.map_app, Hk. cbn. intros Hin. repeat (destruct Hin as [Hin|Hin]; [done|]). done.
  - exists ds. split; [done|]. split; [done|]. by exists ds'.
  - destruct (Hlist _ _ Hus) as [l ->]. by exists l.
  - destruct (mapM_assoc _ _ _ "api_keys" ApiKeys Hrest) as (v & Hv & Ev).
    + by intros x y (l & _ & [= <-])%bind_Some.
    + cbn. tauto.
    + by refine (bool_decide_eq_true_1 _ _).
    + apply bind_Some in Hv as (l & Hl & [= <-]). cbn [fst snd] in Hl.
      destruct (Hlist _ _ Hl) as [ks ->]. exists ks. split; [done|]. cbn -[export_table]. by rewrite assoc_app, Ev.
Qed.

(** ** What a step leaves alone *)

Definition only (ts : list table) (s s' : site) : Prop := pki s' = pki s /\ forall t, t ∉ ts -> rows s' t = rows s t.
Lemma only_refl ts s : only ts s s.
Proof. done. Qed.
Lemma only_trans ts s1 s2 s3 : only ts s1 s2 -> only ts s2 s3 -> only ts s1 s3.
Proof. intros [E1 R1] [E2 R2]. split; [congruence|]. intros t Ht. by rewrite R2, R1. Qed.
Lemma only_mono ts ts' s s' : ts ⊆ ts' -> only ts s s' -> only ts' s s'.
Proof. intros Hsub [E R]. split; [done|]. intros t Ht. apply R. set_solver. Qed.
Lemma only_rows t l s : only [t] s (with_rows t l s).
Proof. split; [done|]. intros u Hu. cbn. rewrite decide_False; [done|]. set_solver. Qed.

Lemma fold_only {A} (f : A -> site -> result site) ts l : (forall x s s', In x l -> f x s = Ok s' -> only ts s s') ->
  forall s s', fold_steps f l s = Ok s' -> only ts s s'.
Proof.
  induction l as [|x l IH]; intros Hf s s'; cbn; [by intros [= <-]|]. intros (s1 & E1 & E)%bind_Ok.
  apply only_trans with s1; [apply (Hf x); [by left|done]|]. apply IH; [|done]. intros y s2 s3 Hy. apply Hf. by right.
Qed.
Lemma upsert_only x data s s' i : upsert integer_affinity x data s = Some (s', i) -> only [r_table x] s s'.
Proof.
  unfold upsert. destruct (negb _); [done|]. intros (old & _ & E)%bind_Some. destruct old as [r|].
  - apply bind_Some in E as (v & _ & (l & _ & [= <- _])%bind_Some). apply only_rows.
  - destruct (negb _); [done|]. apply bind_Some in E as (v & _ & (l & _ & [= <- _])%bind_Some). apply only_rows.
Qed.
Lemma restore_rows_only x data s s' : restore_rows integer_affinity x data s = Ok s' -> only [r_table x] s s'.
Proof. unfold restore_rows. intros E%lift_Ok. apply fmap_Some in E as ([s1 i] & E & ->). by apply upsert_only in E. Qed.
Lemma restore_group_only data s s' : restore_group integer_affinity data s = Ok s' -> only [Groups; GroupMembers] s s'.
Proof.
  unfold restore_group. intros ([s1 i] & E1%lift_Ok & (ms & _ & E)%bind_Ok)%bind_Ok. cbn [fst snd] in E.
  apply only_trans with s1; [apply upsert_only in E1; by apply (only_mono [Groups]); [set_solver|]|].
  revert E. apply fold_only. intros m s2 s3 _ E%lift_Ok.
  apply (only_mono [GroupMembers]); [set_solver|]. unfold restore_member in E. destruct (negb _); [done|].
  apply bind_Some in E as (j & _ & (u & _ & E)%bind_Some). destruct (existsb _ _); [by injection E as <-|].
  apply bind_Some in E as (l & _ & [= <-]). apply only_rows.
Qed.
Lemma restore_setting_only p s s' : restore_setting integer_affinity p s = Ok s' -> only [SystemConfig] s s'.
Proof.
  unfold restore_setting. intros E%lift_Ok. apply bind_Some in E as (old & _ & (l & _ & [= <-])%bind_Some). apply only_rows.
Qed.

Definition later_tables : list table :=
  [Groups; GroupMembers; CustomRoles; Templates; TrustedCertificates; SsoProviders; HsmProviders; ApiKeys; SmtpConfig;
   NotificationConfig; Policies; AuthCertificates; DnsProviders; AcmeDomains; AcmeLocalDomains].
Lemma loop_only {A} (f : A -> site -> result site) ts ts' l s s' : (forall x s s', f x s = Ok s' -> only ts s s') ->
  ts ⊆ ts' -> fold_steps f l s = Ok s' -> only ts' s s'.
Proof. intros Hf Hsub. apply fold_only. intros x s1 s2 _ E. apply (only_mono ts); [done|by apply (Hf x)]. Qed.
Lemma restore_second_only data w s s' : restore_second integer_affinity data w s = Ok s' -> only later_tables s s'.
Proof.
  unfold restore_second. intros (s1 & E1 & E)%bind_Ok. apply only_trans with s1.
  - revert E1. apply fold_only. clear. intros p s s' Hp (l & _ & E)%bind_Ok. unfold later_loops in Hp. repeat (destruct Hp as [<-|Hp]; [cbn [snd] in E; revert E;
      first [apply (loop_only _ [Groups; GroupMembers]); [by intros ? ? ?; apply restore_group_only|unfold later_tables; set_solver]
            |eapply loop_only; [by intros ? ? ?; apply restore_rows_only|unfold later_tables; set_solver]]|]). done.
  - unfold restore_files in E. destruct (negb _); [done|]. injection E as <-. done.
Qed.

(** ** The first part *)

Lemma read_back_assoc k data : JsonText.distinct_keys (JDict data) = true ->
  Json.assoc k (read_back data) = JsonText.sorted <$> Json.assoc k data.
Proof. intros Hd. cbn in Hd. apply andb_true_iff in Hd as [Hd%bool_decide_eq_true _]. by apply JsonText.assoc_sorted. Qed.

Lemma restore_first_spec type rand mk mk' e s data now iv s0 s1 : whole_site s ->
  backup_data encryption_enabled type [] rand mk e s = Some data -> mk' = mk ->
  restore_first encryption_enabled integer_affinity mk' (read_back data) now iv s0 = Ok s1 ->
  NoDup (List.map CaModel.a_id (cas (pki s0))) -> NoDup (List.map id (certs (pki s0))) ->
  (forall a, In a (cas (pki s)) -> exists a', In a' (cas (pki s1)) /\ kept_ca a a')
  /\ (forall b, In b (cas (pki s0)) -> ~ In (CaModel.a_refid b) (List.map CaModel.a_refid (cas (pki s))) -> In b (cas (pki s1)))
  /\ (forall c, In c (certs (pki s)) -> exists c', In c' (certs (pki s1)) /\ kept_certificate c c')
  /\ (forall b, In b (certs (pki s0)) -> ~ In (refid b) (List.map refid (certs (pki s))) -> In b (certs (pki s1)))
  /\ (Forall unrevoked (certs (pki s0)) -> Forall unrevoked (certs (pki s1)))
  /\ crls (pki s1) = crls (pki s0)
  /\ (exists us, export_table true Users s = Some (JList us)
        /\ exists s', fold_steps (restore_rows integer_affinity users_rule) (List.map JsonText.sorted us) s0 = Ok s'
        /\ rows s1 Users = rows s' Users)
  /\ forall t, t ∉ [Users; AcmeAccounts; SystemConfig] -> rows s1 t = rows s0 t.
Proof.
  intros Hs Hdata -> E Hnd Hnd'.
  destruct (backup_data_spec _ _ _ _ _ _ Hs Hdata) as (Hd & _ & (ds & Hds & Ecas & ds' & Hds' & Ecerts) & (us & Eus & Eu) & _).
  unfold restore_first, items in E. rewrite !(read_back_assoc _ data Hd), Ecas, Ecerts, Eu in E.
  cbn [fmap option_fmap option_map from_option Datatypes.id JsonText.sorted Json.elements lift mbind result_bind] in E.
  apply bind_Ok in E as (s2 & E2 & (s3 & E3 & (s4 & E4 & (acme & _ & (s5 & E5 & (c & _ & (kv & _ & E6)%bind_Ok)%bind_Ok)%bind_Ok)%bind_Ok)%bind_Ok)%bind_Ok).
  assert (only [Users] s0 s2) as [P2 R2] by (revert E2; apply fold_only; intros ? ? ? _; apply restore_rows_only).
  assert (only [AcmeAccounts] s4 s5) as [P5 R5] by (revert E5; apply fold_only; intros ? ? ? _; apply restore_rows_only).
  assert (only [SystemConfig] s5 s1) as [P6 R6] by (revert E6; apply fold_only; intros ? ? ? _; apply restore_setting_only).
  destruct (restore_cas_spec _ _ _ _ _ _ _ _ _ (whole_cas s Hs) (whole_ca_refs s Hs) Hds E3) as (A1 & A2 & A3 & A4 & A5); [by rewrite P2|].
  destruct (restore_certificates_spec _ _ _ _ _ _ _ _ _ (whole_certs s Hs) (whole_cert_refs s Hs) Hds' E4) as (C1 & C2 & C3 & C4 & C5 & C6);
    [by rewrite A3, P2|].
  assert (pki s1 = pki s4) as Ep by congruence. rewrite Ep, C4, C5, A4, P2. rewrite A3, P2 in C2, C3. rewrite P2 in A2.
  split_and!; try done.
  - exists us. split; [done|]. exists s2. split; [done|]. rewrite R6, R5, C6, A5 by set_solver. done.
  - intros t Ht. rewrite R6, R5, C6, A5, R2 by set_solver. done.
Qed.

(** * One loop *)

(** The rule looks a row up by a text column that it never changes. *)
Definition keyed (x : rule) (k : string) : bool :=
  bool_decide (by_key x = Some k) && negb (existsb (fun p => String.eqb p.1 k) (on_update x))
  && existsb (fun p => String.eqb p.1 k) (on_insert x)
  && match Json.assoc k (on_insert x) with Some (Item k') => String.eqb k' k | _ => false end
  && existsb (fun c => String.eqb (c_name c) k && match c_type c with TText => true | _ => false end) (schema (r_table x))
  && bool_decide (NoDup ("id" :: List.map c_name (schema (r_table x)))).

(** What the row has that is made from a dict. *)
Definition made_from (x : rule) (data : json) (r : row) : Prop :=
  exists vals rs, eval_sources data (on_insert x) = Some vals /\
    forall c, In c (schema (r_table x)) -> exists v, new_cell integer_affinity vals rs c = Some (c_name c, v) /\ attr (c_name c) r = Some v.

Lemma eval_sources_assoc data l vals k src : eval_sources data l = Some vals -> Json.assoc k l = Some src ->
  exists v, eval_source data src = Some v /\ Json.assoc k vals = Some v.
Proof.
  unfold eval_sources. revert vals. induction l as [|[n f] l IH]; [done|]. cbn.
  intros vals (q & (v & Hv & [= <-])%bind_Some & (m & Hm & [= <-])%bind_Some)%bind_Some. cbn.
  destruct (String.eqb k n); [intros [= ->]; by exists v|]. by apply IH.
Qed.
Lemma eval_sources_none data l vals k : eval_sources data l = Some vals -> Json.assoc k l = None -> Json.assoc k vals = None.
Proof.
  unfold eval_sources. revert vals. induction l as [|[n f] l IH]; cbn; [by intros vals [= <-]|].
  intros vals (q & (v & Hv & [= <-])%bind_Some & (m & Hm & [= <-])%bind_Some)%bind_Some. cbn.
  destruct (String.eqb k n); [done|]. by apply IH.
Qed.

Lemma made_attr x data r c : NoDup ("id" :: List.map c_name (schema (r_table x))) -> made_from x data r -> In c (schema (r_table x)) ->
  exists vals rs v, eval_sources data (on_insert x) = Some vals /\ new_cell integer_affinity vals rs c = Some (c_name c, v) /\ attr (c_name c) r = Some v.
Proof. intros _ (vals & rs & Hv & Hc) Hin. destruct (Hc c Hin) as (v & Hn & Ha). by exists vals, rs, v. Qed.

Section Loop.
Context (x : rule) (k : string) (Hkeyed : keyed x k = true).
#[local] Abbreviation t := (r_table x).

Lemma keyed_names : ("id" ∉ List.map c_name (schema t)) /\ NoDup (List.map c_name (schema t)).
Proof. unfold keyed in Hkeyed. apply andb_true_iff in Hkeyed as [_ Hn%bool_decide_eq_true]. by apply NoDup_cons in Hn. Qed.

Lemma upsert_spec data v s s' i : upsert integer_affinity x data s = Some (s', i) -> Json.get k data = Some (JStr v) ->
  NoDup (List.map r_id (rows s t)) ->
  (forall r, In r (rows s t) -> attr k r <> Some (Val (JStr v)) -> In r (rows s' t))
  /\ (forall r, In r (rows s' t) -> In r (rows s t) \/ attr k r = Some (Val (JStr v)))
  /\ NoDup (List.map r_id (rows s' t))
  /\ ((forall r, In r (rows s t) -> attr k r <> Some (Val (JStr v))) -> exists r, In r (rows s' t) /\ made_from x data r).
Proof.
  intros E Hv Hnd. destruct keyed_names as [Hid Hnames].
  pose proof Hkeyed as Hx. unfold keyed in Hx. apply andb_true_iff in Hx as [[[[[Hk%bool_decide_eq_true Hup]%andb_true_iff _]%andb_true_iff Hitem]%andb_true_iff Hcol]%andb_true_iff _].
  unfold upsert in E. destruct (negb _); [done|]. apply bind_Some in E as (old & Hold & E).
  unfold existing_row in Hold. rewrite Hk, Hv in Hold. cbn in Hold. destruct (existsb _ (schema t)) eqn:Ecol; [|done].
  unfold find_by in Hold. cbn in Hold. injection Hold as <-.
  destruct (Table.first _ (rows s t)) as [r0|] eqn:Ef.
  - apply Table.first_Some in Ef as [Hr0 Hk0%bool_decide_eq_true].
    apply bind_Some in E as (vals & Hvals & (l & Hl & [= <- <-])%bind_Some). cbn. rewrite decide_True by done.
    apply (assign_spec _ _ _ _ Hid) in Hl as (f & -> & Hf).
    assert (k ∉ List.map fst vals) as Hkv.
    { assert (List.map fst vals = List.map fst (on_update x)) as ->.
      { revert Hvals. apply mapM_keys. intros p q (w & _ & [= <-])%bind_Some. done. }
      intros (p & Ep & Hp)%list_elem_of_In%in_map_iff.
      apply negb_true_iff in Hup. assert (existsb (fun p => String.eqb p.1 k) (on_update x) = true) as Hc; [|congruence].
      apply existsb_exists. exists p. split; [done|]. by apply String.eqb_eq. }
    split_and!.
    + intros r Hr Hne. apply Table.In_update. exists r. split; [done|].
      destruct (Z.eqb_spec (r_id r) (r_id r0)) as [Ei|]; [|done]. exfalso. apply Hne.
      by rewrite (Table.NoDup_map_eq r_id (rows s t) r r0).
    + intros r Hr. apply Table.In_update in Hr as (r1 & Hr1 & ->). destruct (Z.eqb_spec (r_id r1) (r_id r0)) as [Ei|]; [|by left].
      right. rewrite (Table.NoDup_map_eq r_id (rows s t) r1 r0) by done. by rewrite (proj2 (Hf r0) k Hkv).
    + rewrite CaFacts.map_update_same; [done|]. intros r. apply Hf.
    + intros Hno. by destruct (Hno r0 Hr0).
  - assert (forall r, In r (rows s t) -> attr k r <> Some (Val (JStr v))) as Hno.
    { intros r Hr Hc. pose proof (Table.first_None _ _ r Ef Hr) as Hn. by apply bool_decide_eq_false in Hn. }
    destruct (negb (known _ _)); [done|]. apply bind_Some in E as (vals & Hvals & (l & Hl & [= <- <-])%bind_Some).
    cbn. rewrite decide_True by done. apply insert_spec in Hl as (cs & Hcs & ->).
    assert (made_from x data (Row (Table.next_id r_id (rows s t)) cs)) as Hmade.
    { exists vals, (rows s t). split; [done|]. intros c Hc. destruct (new_cells_attr _ _ _ _ _ c Hcs Hnames Hc) as (w & Hw & Ha).
      exists w. split; [done|]. unfold attr. destruct (String.eqb_spec (c_name c) "id") as [E|]; [|done].
      exfalso. apply Hid. rewrite <-E. by apply list_elem_of_In, in_map. }
    split_and!.
    + intros r Hr _. apply in_app_iff. by left.
    + intros r [Hr|[<-|[]]]%in_app_iff; [by left|right].
      apply existsb_exists in Hcol as (c & Hc & [En%String.eqb_eq Ht]%andb_true_iff).
      destruct Hmade as (vals' & rs & Hvals' & Hcells). destruct (Hcells c Hc) as (w & Hw & Ha). rewrite En in *. rewrite Ha. f_equal.
      destruct (Json.assoc k (on_insert x)) as [[| |]|] eqn:Eit; try done. apply String.eqb_eq in Hitem. subst k0.
      all: destruct (eval_sources_assoc _ _ _ _ _ Hvals' Eit) as (u & Hu & Eu); cbn in Hu; rewrite Hv in Hu; injection Hu as <-.
      unfold new_cell in Hw. rewrite En, Eu in Hw. destruct (c_type c); try done. cbn in Hw.
      apply bind_Some in Hw as (w1 & Hw1 & (w2 & Hw2 & [= <-])%bind_Some). unfold checked in Hw2.
      assert (is_null (Val (JStr v)) = false) as E0 by done. rewrite E0 in Hw1. injection Hw1 as <-. by case_match; simplify_eq.
    + apply Table.NoDup_map_snoc; [done|]. intros r Hr Eid. pose proof (Table.next_id_fresh r_id _ r Hr) as Hlt. cbn in Eid.
      rewrite Eid in Hlt. by apply Z.lt_irrefl in Hlt.
    + intros _. eexists. split; [apply in_app_iff; right; by left|done].
Qed.

Lemma loop_spec ds : forall s s' vs, fold_steps (restore_rows integer_affinity x) ds s = Ok s' ->
  List.map (Json.get k) ds = List.map (fun v => Some (JStr v)) vs -> NoDup vs -> NoDup (List.map r_id (rows s t)) ->
  (forall r v, In r (rows s t) -> In v vs -> attr k r <> Some (Val (JStr v))) ->
  forall d, In d ds -> exists r, In r (rows s' t) /\ made_from x d r.
Proof.
  assert (forall ds s s' vs, fold_steps (restore_rows integer_affinity x) ds s = Ok s' ->
    List.map (Json.get k) ds = List.map (fun v => Some (JStr v)) vs -> NoDup (List.map r_id (rows s t)) ->
    forall r, In r (rows s t) -> (forall v, In v vs -> attr k r <> Some (Val (JStr v))) -> In r (rows s' t)) as Hkeep.
  { clear ds. intros ds. induction ds as [|d ds IH]; intros s s' vs E Hvs Hnd r Hr Hno; [cbn in E; by injection E as <-|].
    destruct vs as [|v vs]; [done|]. cbn [List.map] in Hvs. injection Hvs as Hv Hvs.
     cbn in E. apply bind_Ok in E as (s1 & E1 & E).
    unfold restore_rows in E1. apply lift_Ok, fmap_Some in E1 as ([s1' i] & E1 & ->). cbn [fst] in E.
    destruct (upsert_spec d v s s1' i E1 Hv Hnd) as (Ha & Hb & Hc & _).
    apply (IH s1' s' vs E Hvs Hc); [apply Ha; [done|]; apply Hno; by left|]. intros w Hw. apply Hno. by right. }
  induction ds as [|d ds IH]; intros s s' vs E Hvs Hndv Hnd Hno d0; [done|].
  destruct vs as [|v vs]; [done|]. cbn [List.map] in Hvs. injection Hvs as Hv Hvs.
     cbn in E. apply bind_Ok in E as (s1 & E1 & E).
  unfold restore_rows in E1. apply lift_Ok, fmap_Some in E1 as ([s1' i] & E1 & ->). cbn [fst] in E.
  apply NoDup_cons in Hndv as [Hnv Hndv].
  destruct (upsert_spec d v s s1' i E1 Hv Hnd) as (Ha & Hb & Hc & Hd).
  intros [<-|Hin].
  - destruct Hd as (r & Hr & Hm); [intros r Hr; apply (Hno r v Hr); by left|]. exists r. split; [|done].
    apply (Hkeep ds s1' s' vs E Hvs Hc r Hr). intros w Hw.
    destruct (Hb r Hr) as [Hold|Ek]; [apply Hno; [done|by right]|]. rewrite Ek. intros [= ->]. apply Hnv. by apply list_elem_of_In.
  - apply (IH s1' s' vs E Hvs Hndv Hc); [|done]. intros r w Hr Hw.
    destruct (Hb r Hr) as [Hold|Ek]; [apply Hno; [done|by right]|]. rewrite Ek. intros [= ->]. apply Hnv. by apply list_elem_of_In.
Qed.
End Loop.

Lemma made_value x data r c k d j v : made_from x data r -> In c (schema (r_table x)) ->
  Json.assoc (c_name c) (on_insert x) = Some (Get k d) -> Json.get k data = Some j -> is_null (Val j) = false ->
  bind integer_affinity (c_type c) (Val j) = Some v -> attr (c_name c) r = Some v.
Proof.
  intros (vals & rs & Hvals & Hcells) Hc Es Ej Hn Hb. destruct (Hcells c Hc) as (w & Hw & ->).
  destruct (eval_sources_assoc _ _ _ _ _ Hvals Es) as (u & Hu & Eu). cbn in Hu. unfold Json.get_or in Hu. rewrite Ej in Hu. injection Hu as <-.
  unfold new_cell in Hw. rewrite Eu in Hw. change (from_option Datatypes.id JNull (Some j)) with j in Hw. rewrite Hn in Hw.
  replace (match c_type c with TJson => Val j | _ => Val j end) with (Val j) in Hw by (by destruct (c_type c)).
  rewrite Hb in Hw. apply bind_Some in Hw as (? & [= <-] & (y & Hy%checked_Some & [= <-])%bind_Some). by rewrite Hy.
Qed.
Lemma made_item x data r c k j v : made_from x data r -> In c (schema (r_table x)) ->
  Json.assoc (c_name c) (on_insert x) = Some (Item k) -> Json.get k data = Some j -> is_null (Val j) = false ->
  bind integer_affinity (c_type c) (Val j) = Some v -> attr (c_name c) r = Some v.
Proof.
  intros (vals & rs & Hvals & Hcells) Hc Es Ej Hn Hb. destruct (Hcells c Hc) as (w & Hw & ->).
  destruct (eval_sources_assoc _ _ _ _ _ Hvals Es) as (u & Hu & Eu). cbn in Hu. rewrite Ej in Hu. injection Hu as <-.
  unfold new_cell in Hw. rewrite Eu, Hn in Hw.
  replace (match c_type c with TJson => Val j | _ => Val j end) with (Val j) in Hw by (by destruct (c_type c)).
  rewrite Hb in Hw. apply bind_Some in Hw as (? & [= <-] & (y & Hy%checked_Some & [= <-])%bind_Some). by rewrite Hy.
Qed.
Lemma made_default x data r c v : made_from x data r -> In c (schema (r_table x)) -> Json.assoc (c_name c) (on_insert x) = None ->
  bind integer_affinity (c_type c) (Val (default JNull (c_default c))) = Some v -> attr (c_name c) r = Some v.
Proof.
  intros (vals & rs & Hvals & Hcells) Hc Es Hb. destruct (Hcells c Hc) as (w & Hw & ->).
  unfold new_cell in Hw. rewrite (eval_sources_none _ _ _ _ Hvals Es) in Hw.
  replace (match c_default c with Some j => Val j | None => Val JNull end) with (Val (default JNull (c_default c))) in Hw by (by destruct (c_default c)).
  rewrite Hb in Hw. apply bind_Some in Hw as (? & [= <-] & (y & Hy%checked_Some & [= <-])%bind_Some). by rewrite Hy.
Qed.

(** The dicts of a table, row by row. *)
Lemma export_get s t us : plain_site s -> export_table true t s = Some (JList us) ->
  Forall2 (fun r u => forall p, In p (members_of t) -> exists j, exported p.2 r = Some j
             /\ Json.get p.1 (JsonText.sorted u) = Some (JsonText.sorted j)) (rows s t) us.
Proof.
  intros Hs E. pose proof (export_table_distinct _ _ _ _ Hs E) as Hd. unfold export_table in E. cbn [negb] in E.
  apply bind_Some in E as (l & Hl & [= ->]). apply mapM_Some in Hl. revert Hl Hd. cbn. generalize (rows s t). intros rs Hl.
  induction Hl as [|r u rs us (a & Ha & (b & Hb & [= <-])%bind_Some)%bind_Some _ IH]; [constructor|]. cbn [forallb].
  intros [Hd Hds]%andb_true_iff. constructor; [|by apply IH]. intros [n k] Hp. cbn [fst snd].
  rewrite JsonText.get_sorted by done. cbn [Json.get]. rewrite assoc_app.
  pose proof (row_keys t) as Hn. apply NoDup_app in Hn as (Hn & _).
  destruct (mapM_assoc _ _ _ n k Ha ltac:(by intros p q (w & _ & [= <-])%bind_Some) Hp Hn) as (v & Hv & Ev).
  cbn in Hv. apply bind_Some in Hv as (w & Hw & [= <-]). exists w. by rewrite Ev.
Qed.

(** The dict of a row, and the keys of all of them. *)
Lemma row_dict s t us r : plain_site s -> export_table true t s = Some (JList us) -> In r (rows s t) ->
  exists d, In d (List.map JsonText.sorted us) /\
    forall k v, In (k, k) (members_of t) -> attr k r = Some (Val v) -> Json.get k d = Some (JsonText.sorted v).
Proof.
  intros Hs Ex Hr. apply list_elem_of_In, list_elem_of_lookup in Hr as [i Hi].
  destruct (Forall2_lookup_l _ _ _ _ _ (export_get s t us Hs Ex) Hi) as (x & Hx & Hxj).
  exists (JsonText.sorted x). split; [apply in_map, list_elem_of_In, list_elem_of_lookup; by exists i|]. intros k v Hk Ev.
  destruct (Hxj (k, k) Hk) as (j & Ej & Eg). cbn [fst snd] in *. rewrite Eg. unfold exported in Ej. rewrite Ev in Ej. by injection Ej as <-.
Qed.
Lemma dict_keys s t us k hs : plain_site s -> export_table true t s = Some (JList us) -> In (k, k) (members_of t) ->
  List.map (attr k) (rows s t) = List.map (fun h => Some (Val (JStr h))) hs ->
  List.map (Json.get k) (List.map JsonText.sorted us) = List.map (fun h => Some (JStr h)) hs.
Proof.
  intros Hs Ex Hk. pose proof (export_get s t us Hs Ex) as Hget. clear Ex. revert hs. induction Hget as [|x y l m Hxy _ IH]; intros hs Hhs; [by destruct hs|].
  destruct hs as [|h hs]; [done|]. cbn [List.map] in *. injection Hhs as Hx Hhs. rewrite (IH hs Hhs). f_equal.
  destruct (Hxy (k, k) Hk) as (j & Ej & Eg). cbn [fst snd] in *. rewrite Eg. unfold exported in Ej. rewrite Hx in Ej. by injection Ej as <-.
Qed.

Lemma fold_steps_app {A S} (f : A -> S -> result S) l l' s s' : fold_steps f (l ++ l') s = Ok s' ->
  exists s1, fold_steps f l s = Ok s1 /\ fold_steps f l' s1 = Ok s'.
Proof.
  revert s. induction l as [|x l IH]; intros s; cbn; [by exists s|]. intros (s1 & E1 & E)%bind_Ok.
  destruct (IH s1 E) as (s2 & E2 & E'). exists s2. split; [|done]. by rewrite E1.
Qed.
(** The loop over the API keys. *)
Lemma api_keys_loop data w s s' : restore_second integer_affinity data w s = Ok s' ->
  exists ds s1 s2, items "api_keys" data = Ok ds /\ fold_steps (restore_rows integer_affinity api_keys_rule) ds s1 = Ok s2
    /\ rows s1 ApiKeys = rows s ApiKeys /\ rows s' ApiKeys = rows s2 ApiKeys.
Proof.
  unfold restore_second. intros (s3 & E & Ef)%bind_Ok.
  assert (rows s' ApiKeys = rows s3 ApiKeys) as ->
    by (unfold restore_files in Ef; destruct (negb _); [done|]; by injection Ef as <-).
  set (f := fun p s => l ← items p.1 data; fold_steps p.2 l s) in E.
  change (later_loops integer_affinity) with (take 6 (later_loops integer_affinity) ++ [("api_keys", restore_rows integer_affinity api_keys_rule)] ++ drop 7 (later_loops integer_affinity)) in E.
  apply fold_steps_app in E as (s1 & E1 & (s2 & E2 & E3)%fold_steps_app). cbn in E2. apply bind_Ok in E2 as (s2' & (ds & Eds & E2)%bind_Ok & [= ->]).
  exists ds, s1, s2. split_and!; try done.
  - assert (only [Groups; GroupMembers; CustomRoles; Templates; TrustedCertificates; SsoProviders; HsmProviders] s s1) as [_ R]; [|apply R; set_solver].
    revert E1. apply fold_only. clear. intros p s s' Hp (l & _ & E)%bind_Ok. cbn in Hp.
    repeat (destruct Hp as [<-|Hp]; [cbn [snd] in E; revert E;
      first [apply (loop_only _ [Groups; GroupMembers]); [by intros ? ? ?; apply restore_group_only|set_solver]
            |eapply loop_only; [by intros ? ? ?; apply restore_rows_only|set_solver]]|]). done.
  - assert (only [SmtpConfig; NotificationConfig; Policies; AuthCertificates; DnsProviders; AcmeDomains; AcmeLocalDomains] s2 s3) as [_ R]; [|apply R; set_solver].
    revert E3. apply fold_only. clear. intros p s s' Hp (l & _ & E)%bind_Ok. cbn in Hp.
    repeat (destruct Hp as [<-|Hp]; [cbn [snd] in E; revert E;
      eapply loop_only; [by intros ? ? ?; apply restore_rows_only|set_solver]|]). done.
Qed.

(** * Backup and restore *)

Definition random_sizes (rand : randomness) : Prop :=
  String.length (master_salt rand) = SALT_SIZE /\ String.length (master_nonce rand) = NONCE_SIZE.
Definition distinct_ids (s : site) : Prop :=
  NoDup (List.map CaModel.a_id (cas (pki s))) /\ NoDup (List.map id (certs (pki s))) /\ forall t, NoDup (List.map r_id (rows s t)).
(** A backup of [s] is restored on [s0], which becomes [s1]. *)
Definition round_trip (password type : string) (rand : randomness) (e : environment) (s s0 s1 : site) : Prop :=
  exists bytes now iv writable counts,
    create_backup encryption_enabled password type [] rand e s = Ok bytes /\
    restore_backup encryption_enabled integer_affinity bytes password now iv writable s0 = (s1, Ok counts).

Lemma round_trip_steps password type rand e s s0 s1 : round_trip password type rand e s s0 s1 -> random_sizes rand -> whole_site s ->
  exists data now iv w s', backup_data encryption_enabled type [] rand (derive_master_key password (master_salt rand)) e s = Some data
    /\ restore_first encryption_enabled integer_affinity (derive_master_key password (master_salt rand)) (read_back data) now iv s0 = Ok s'
    /\ restore_second integer_affinity (read_back data) w s' = Ok s1.
Proof.
  intros (bytes & now & iv & w & counts & Hc & Hr) [Hl1 Hl2] Hs. unfold create_backup in Hc.
  apply bind_Ok in Hc as ([] & _ & (data & Hd%lift_Ok & [= <-])%bind_Ok).
  destruct (backup_data_spec _ _ _ _ _ _ Hs Hd) as (Hdist & Hck & _).
  unfold restore_backup in Hr. rewrite (open_seal password rand data Hl1 Hl2 Hdist Hck) in Hr. cbn [mbind result_bind] in Hr.
  destruct (restore_first _ _ _ _ _ _ _) as [s'|] eqn:E1; [|done]. cbn -[restore_second Backup.counts] in Hr.
  destruct (restore_second _ _ _ _) as [s2|] eqn:E2; [|done]. injection Hr as -> _.
  by exists data, now, iv, w, s'.
Qed.

(** C24: A restored backup brings back every CA and every certificate of the backed-up
    installation, under its reference, with its certificate and with its private key,
    which reads as the same text although it was decrypted, encrypted for the backup,
    decrypted and encrypted for the new installation.  CAs and certificates of the new
    installation whose references the backup does not name stay as they are. *)
Theorem backup_brings_back_cas_and_certificates password type rand e s s0 s1
  (Htrip : round_trip password type rand e s s0 s1) (Hrand : random_sizes rand) (Hs : whole_site s) (Hids : distinct_ids s0) :
  (forall a, In a (cas (pki s)) -> exists a', In a' (cas (pki s1)) /\ kept_ca a a')
  /\ (forall c, In c (certs (pki s)) -> exists c', In c' (certs (pki s1)) /\ kept_certificate c c')
  /\ (forall a, In a (cas (pki s0)) -> ~ In (CaModel.a_refid a) (List.map CaModel.a_refid (cas (pki s))) -> In a (cas (pki s1)))
  /\ (forall c, In c (certs (pki s0)) -> ~ In (refid c) (List.map refid (certs (pki s))) -> In c (certs (pki s1))).
Proof.
  destruct (round_trip_steps _ _ _ _ _ _ _ Htrip Hrand Hs) as (data & now & iv & w & s' & Hd & E1 & [Ep _]%restore_second_only).
  destruct (restore_first_spec _ _ _ _ _ _ _ _ _ _ _ Hs Hd eq_refl E1) as (? & ? & ? & ? & _); [apply Hids..|].
  rewrite Ep. done.
Qed.

(** C25: Restoring a backup undoes every revocation: on an installation without certificates,
    all those of the backup come back, none of them revoked, and no CRL of any CA lists
    one of them. *)
Theorem restore_forgets_revocations password type rand e s s0 s1
  (Htrip : round_trip password type rand e s s0 s1) (Hrand : random_sizes rand) (Hs : whole_site s) (Hids : distinct_ids s0)
  (Hempty : certs (pki s0) = []) :
  (forall c, In c (certs (pki s)) -> exists c', In c' (certs (pki s1)) /\ kept_certificate c c' /\ revoked c' = Some false)
  /\ forall a, Pki.revoked_of a (CertActions.pki_view encryption_enabled (pki s1)) = [].
Proof.
  destruct (round_trip_steps _ _ _ _ _ _ _ Htrip Hrand Hs) as (data & now & iv & w & s' & Hd & E1 & [Ep _]%restore_second_only).
  destruct (restore_first_spec _ _ _ _ _ _ _ _ _ _ _ Hs Hd eq_refl E1) as (_ & _ & Hc & _ & Hu & _); [apply Hids..|].
  rewrite Ep. rewrite Hempty in Hu. specialize (Hu ltac:(constructor)). rewrite Forall_forall in Hu. split.
  - intros c Hin. destruct (Hc c Hin) as (c' & Hc' & Hk). exists c'. split_and!; [done..|]. by apply Hu, list_elem_of_In.
  - intros a. destruct (Pki.revoked_of a _) as [|p l] eqn:E; [done|]. exfalso.
    assert (In p (Pki.revoked_of a (CertActions.pki_view encryption_enabled (pki s')))) as Hp by (rewrite E; by left).
    unfold Pki.revoked_of in Hp. apply Table.In_all in Hp as [Hp [_ Hr]%andb_true_iff]. cbn in Hp.
    apply in_map_iff in Hp as (c & <- & Hin). cbn in Hr. rewrite (Hu c) in Hr by (by apply list_elem_of_In). done.
Qed.

(** An API key that ends comes back as one that never ends: the restore copies the digest,
    the permissions and the number of the account, whoever has it now, but not the end. *)
Theorem restored_api_keys_never_expire password type rand e s s0 s1 hs r u h p b
  (Htrip : round_trip password type rand e s s0 s1) (Hrand : random_sizes rand) (Hs : whole_site s) (Hids : distinct_ids s0)
  (Hhs : List.map (attr "key_hash") (rows s ApiKeys) = List.map (fun h => Some (Val (JStr h))) hs) (Hnd : NoDup hs)
  (Hnew : forall r h, In r (rows s0 ApiKeys) -> In h hs -> attr "key_hash" r <> Some (Val (JStr h)))
  (Hr : In r (rows s ApiKeys)) (Hu : attr "user_id" r = Some (Val (JInt u))) (Hrange : - 2 ^ 63 <= u < 2 ^ 63)
  (Hh : attr "key_hash" r = Some (Val (JStr h)))
  (Hp : attr "permissions" r = Some (Val (JStr p))) (Hb : attr "is_active" r = Some (Val (JBool b))) :
  exists r', In r' (rows s1 ApiKeys) /\ attr "user_id" r' = Some (Val (JInt u)) /\ attr "key_hash" r' = Some (Val (JStr h))
    /\ attr "permissions" r' = Some (Val (JStr p)) /\ attr "is_active" r' = Some (Val (JBool b))
    /\ attr "expires_at" r' = Some (Val JNull).
Proof.
  destruct (round_trip_steps _ _ _ _ _ _ _ Htrip Hrand Hs) as (data & now & iv & w & s' & Hd & E1 & E2).
  destruct (restore_first_spec _ _ _ _ _ _ _ _ _ _ _ Hs Hd eq_refl E1) as (_ & _ & _ & _ & _ & _ & _ & Hother); [apply Hids..|].
  destruct (backup_data_spec _ _ _ _ _ _ Hs Hd) as (Hdist & _ & _ & _ & us & Ex & Ek).
  destruct (api_keys_loop _ _ _ _ E2) as (ds & t1 & t2 & Eds & Eloop & R1 & R2).
  unfold items in Eds. rewrite (read_back_assoc _ data Hdist), Ek in Eds. cbn in Eds. injection Eds as <-.
  destruct (row_dict _ _ _ r (whole_plain s Hs) Ex Hr) as (d & Hd' & Hmem).
  destruct (loop_spec api_keys_rule "key_hash" eq_refl _ t1 t2 hs Eloop) with (d := d) as (r' & Hr' & Hmade); try done.
  - by apply (dict_keys s ApiKeys us "key_hash" hs (whole_plain s Hs) Ex); [cbn; tauto|].
  - cbn [r_table api_keys_rule]. rewrite R1, Hother by set_solver. apply Hids.
  - cbn [r_table api_keys_rule]. rewrite R1, Hother by set_solver. done.
  - cbn [r_table api_keys_rule] in Hr'. exists r'. rewrite R2. split; [done|].
    split_and!.
    + apply (made_value _ _ _ (required (integer "user_id")) "user_id" (JInt 1) (JInt u) _ Hmade); try done; [cbn; tauto|exact (Hmem "user_id" (JInt u) ltac:(cbn; tauto) Hu)|].
      unfold bind. cbn [c_type required integer]. by assert ((- 2 ^ 63 <=? u) && (u <? 2 ^ 63) = true) as -> by lia.
    + apply (made_item _ _ _ (required (unique (text "key_hash"))) "key_hash" (JStr h) _ Hmade); try done; [cbn; tauto|exact (Hmem "key_hash" (JStr h) ltac:(cbn; tauto) Hh)].
    + apply (made_value _ _ _ (required (text "permissions")) "permissions" (JStr "[]") (JStr p) _ Hmade); try done; [cbn; tauto|exact (Hmem "permissions" (JStr p) ltac:(cbn; tauto) Hp)].
    + apply (made_value _ _ _ (flag "is_active" true) "is_active" (JBool true) (JBool b) _ Hmade); try done; [cbn; tauto|exact (Hmem "is_active" (JBool b) ltac:(cbn; tauto) Hb)].
    + apply (made_default _ _ _ (moment "expires_at") _ Hmade); try done. cbn; tauto.
Qed.

(** An installation with an ACME account makes no backup: the export reads attributes the
    account does not have. *)
Theorem acme_accounts_prevent_backups password type include rand e s r
  (Hin : In r (rows s AcmeAccounts)) (Hcols : List.map fst (cells r) = List.map c_name (schema AcmeAccounts))
  (Hinc : included include "acme_accounts" = true) (Hpw : validate_password password = Ok tt) :
  create_backup encryption_enabled password type include rand e s = Err Exception.
Proof.
  unfold create_backup. rewrite Hpw. cbn [mbind result_bind].
  destruct (backup_data _ _ _ _ _ _ _) as [data|] eqn:E; [|done]. exfalso. unfold backup_data in E. rewrite Hinc in E.
  apply bind_Some in E as (conf & _ & (us & _ & (ds & _ & (ds' & _ & (acme & Ha & _)%bind_Some)%bind_Some)%bind_Some)%bind_Some).
  apply bind_Some in Ha as (j & Hj & _). unfold export_table in Hj. cbn [negb] in Hj. apply bind_Some in Hj as (l & Hl & _).
  assert (exists x, (a ← export_row (members_of AcmeAccounts) r; b ← added_members AcmeAccounts r s; Some (JDict (a ++ b))) = Some x) as (x & Hx).
  { apply list_elem_of_In, list_elem_of_lookup in Hin as [i Hi]. apply mapM_Some in Hl.
    destruct (Forall2_lookup_l _ _ _ _ _ Hl Hi) as (x & _ & Hx). by exists x. }
  apply bind_Some in Hx as (a & Ha & _). unfold export_row in Ha. cbn in Ha.
  assert (exported "email" r = None) as Hno.
  { unfold exported, attr. cbn [String.eqb Ascii.eqb Bool.eqb]. destruct (Json.assoc "email" (cells r)) as [c|] eqn:Ec; [|done]. exfalso.
    apply JsonText.assoc_Some_In, (in_map fst) in Ec. rewrite Hcols in Ec. cbn in Ec. repeat (destruct Ec as [Ec|Ec]; [done|]). done. }
  rewrite Hno in Ha. done.
Qed.
End Facts.

(** * The file names *)

Lemma str_no_dot z : Str.has_char "." (Num.str z) = false.
Proof.
  assert (forall d, Str.has_char "." (NilEmpty.string_of_uint d) = false) as Hd by (intros d; by induction d).
  assert (forall d, Str.has_char "." (NilZero.string_of_uint d) = false) as Hz by (intros d; destruct d; [done|apply Hd..]).
  unfold Num.str. destruct z as [|p|p]; [done|apply Hz|exact (Hz _)].
Qed.
Lemma has_char_app c s t : Str.has_char c (s ^+ t) = Str.has_char c s || Str.has_char c t.
Proof. induction s as [|a s IH]; [done|]. unfold Str.has_char in *. cbn. rewrite IH. by destruct (Ascii.eqb c a). Qed.
Lemma padded_no_dot w z : Str.has_char "." (Time.padded w z) = false.
Proof.
  unfold Time.padded. cbn zeta. rewrite has_char_app, str_no_dot, orb_false_r.
  generalize (w - String.length (Num.str z))%nat as n. intros n. by induction n.
Qed.
Lemma backup_name_suffix t : CertImport.suffix (backup_name t) = ".ucmbkp".
Proof.
  assert (Str.has_char "." ("ucm_backup_" ^+ stamp t) = false) as Hn.
  { unfold stamp. destruct (Time.civil _) as [[y m] d]. by rewrite !has_char_app, str_no_dot, !padded_no_dot. }
  unfold backup_name. rewrite <-StrFacts.app_assoc. unfold CertImport.suffix.
  change ("ucm_backup_" ^+ stamp t) with (String "u" ("cm_backup_" ^+ stamp t)) in *.
  set (front := String "u" _) in *.
  change (front ^+ ".ucmbkp") with (front ^+ String "." "ucmbkp").
  rewrite (StrFacts.split_app "." front "ucmbkp" Hn). reflexivity.
Qed.

(** The program refuses the backups it makes: the route that restores accepts [.zip] and
    [.enc], and the route that creates names its files [.ucmbkp]. *)
Theorem own_backups_are_refused `{BackupCrypto} `{Hashes} `{Fernet} {T} `{AuditSink T} encryption_enabled integer_affinity
    secure_filename t data password now iv writable s trail
  (Hname : secure_filename (backup_name t) = backup_name t) :
  exists m, restore_route encryption_enabled integer_affinity secure_filename (Some (backup_name t, data)) password now iv writable s trail
    = (s, trail, Failure 400 m).
Proof.
  assert (validate_upload secure_filename (backup_name t) data = None) as E.
  { unfold validate_upload. cbn [Str.truthy negb]. rewrite Hname. cbn zeta. rewrite backup_name_suffix.
    assert (Str.truthy (backup_name t) = true) as -> by done. done. }
  unfold restore_route. destruct (filled password) as [p|]; [|by eexists]. destruct (_ <? 12)%nat; [by eexists|]. rewrite E. by eexists.
Qed.
End BackupFacts.

(** Backups run on a small installation: the witnesses of [BackupFacts]. *)
Module BackupRun.
Import CertModel CertRoutes Orm Backup BackupFacts.
Local Open Scope string_scope.
Local Open Scope list_scope.
Local Open Scope Z_scope.

(** Ciphers for the witnesses: the key stands before the text. *)
#[local] Program Instance toy_crypto : BackupCrypto := {
  derive n salt secret := salt ^+ secret;
  aes_gcm_encrypt k n d := k ^+ d;
  aes_gcm_decrypt k n c := if Str.startswith c k then Some (Str.drop (String.length k) c) else None;
}.
Next Obligation.
  intros k n d. cbn beta. rewrite StrFacts.drop_app. assert (Str.startswith (k ^+ d) k = true) as ->; [|done].
  induction k as [|c k IH]; [by destruct d|]. cbn. destruct (ascii_dec c c); [exact IH|done].
Qed.
#[local] Existing Instance PkiWitness.toy_fernet.
#[local] Existing Instance list_sink.

Definition affinity (s : string) : json := JStr s.
Definition row_of (t : table) (vals : assignment) : list row := default [] (insert affinity (schema t) vals []).

Definition root : CaModel.ca :=
  CaModel.CA 1 "ca-1" "Root" (Base64.b64encode "-----ROOT") (Some (Base64.b64encode "-----KEY1")) (Some 0) None (Some "CN=Root")
    (Some "CN=Root") None None None None None None None None false None false None false None None.
Definition leaf : certificate :=
  Certificate 1 "cert-1" "www" (Some "ca-1") (Some (Base64.b64encode "-----WWW")) None (Some (Base64.b64encode "-----KEY2"))
    (Some "server_cert") (Some "CN=www") (Some "www") (Some "CN=Root") (Some "777") None None None None None None None None None
    None (Some "stored") (Some true) (Some 5) (Some "keyCompromise") (Some false) None None None None None None.
Definition admin : list row :=
  row_of Users [("username", Val (JStr "admin")); ("email", Val (JStr "admin@example.org")); ("password_hash", Val (JStr "hash"));
                ("role", Val (JStr "admin"))].
Definition api_key : list row :=
  row_of ApiKeys [("user_id", Val (JInt 1)); ("key_hash", Val (JStr "digest")); ("name", Val (JStr "ci"));
                  ("permissions", Val (JStr "[]")); ("expires_at", Moment 1735689600000000)].
Definition old_site : site :=
  Site (Db [root] [leaf] [] []) (fun t => match t with Users => admin | ApiKeys => api_key | _ => [] end) None (Some "HTTPS KEY").
Definition new_site : site := Site (Db [] [] [] []) (fun t => match t with Users => admin | _ => [] end) None None.

Definition salt : string := "0123456789abcdef0123456789abcdef".
Definition rand : randomness := Randomness salt "0123456789ab" (fun _ => salt) (fun _ => "ba9876543210").
Definition machine : environment := Environment "2.52" [] 1735689600000000.
Definition password : string := "correct horse".

Definition or_else {A} (d : A) (r : result A) : A := match r with Ok a => a | Err _ => d end.
Definition bytes : string := or_else "" (create_backup true password "full" [] rand machine old_site).
Definition outcome : site * result (list (string * Z)) := restore_backup true affinity bytes password 9 0 true new_site.
Definition restored : site := outcome.1.
Definition written : list (string * Z) := or_else [] outcome.2.

Lemma made : create_backup true password "full" [] rand machine old_site = Ok bytes.
Proof. vm_compute. reflexivity. Qed.
Lemma success : (restore_backup true affinity bytes password 9 0 true new_site).2 = Ok written.
Proof. vm_compute. reflexivity. Qed.
Lemma trip : round_trip true affinity password "full" rand machine old_site new_site restored.
Proof.
  pose proof made as Hmade. pose proof success as Hok. unfold restored, outcome, round_trip.
  generalize dependent written. generalize dependent bytes. intros b Hb c Hc. exists b, 9, 0%nat, true, c.
  split; [exact Hb|]. revert Hc. generalize (restore_backup true affinity b password 9 0 true new_site). intros p Hp. rewrite <-Hp. by destruct p.
Qed.
Lemma rand_ok : random_sizes rand. Proof. done. Qed.
Lemma new_ids : distinct_ids new_site.
Proof. split_and!; [constructor..|]. intros t. destruct t; vm_compute; repeat constructor; set_solver. Qed.
Lemma old_whole : whole_site true old_site.
Proof.
  split.
  - split; [|constructor]. intros t r k j Hr Hin. destruct t; cbn [old_site rows] in Hr; try done.
    all: vm_compute in Hr; destruct Hr as [Hr|[]]; subst r; cbn [cells] in Hin;
      repeat (destruct Hin as [Hin|Hin]; [first [discriminate Hin|injection Hin as <- <-; reflexivity]|]); done.
  - apply Forall_singleton. split; [by exists "-----ROOT"|]. right. exists "-----KEY1". by vm_compute.
  - apply Forall_singleton. split; [by exists "-----WWW"|]. right. exists "-----KEY2". by vm_compute.
  - apply NoDup_singleton.
  - apply NoDup_singleton.
Qed.

Lemma brings_back_witness : exists a c, In a (cas (pki restored)) /\ CaModel.a_refid a = "ca-1" /\ key_text true (CaModel.a_prv a) = Some "-----KEY1"
  /\ In c (certs (pki restored)) /\ refid c = "cert-1" /\ key_text true (prv c) = Some "-----KEY2".
Proof.
  destruct (backup_brings_back_cas_and_certificates (H := toy_crypto) (H0 := sha256_hashes) (H1 := PkiWitness.toy_fernet) true affinity
    password "full" rand machine old_site new_site restored trip rand_ok old_whole new_ids) as (Ha & Hc & _).
  destruct (Ha root (or_introl eq_refl)) as (a & Hin & Er & _ & _ & Ek). destruct (Hc leaf (or_introl eq_refl)) as (c & Hin' & Er' & _ & _ & Ek').
  exists a, c. split_and!; [exact Hin|exact Er|rewrite Ek; vm_compute; reflexivity|exact Hin'|exact Er'|rewrite Ek'; vm_compute; reflexivity].
Defined.

Lemma forgets_witness : revoked leaf = Some true /\ exists c, In c (certs (pki restored)) /\ refid c = "cert-1" /\ revoked c = Some false.
Proof.
  split; [reflexivity|].
  destruct (restore_forgets_revocations (H := toy_crypto) (H0 := sha256_hashes) (H1 := PkiWitness.toy_fernet) true affinity
    password "full" rand machine old_site new_site restored trip rand_ok old_whole new_ids eq_refl) as [Hc _].
  destruct (Hc leaf (or_introl eq_refl)) as (c & Hin & Hk & Hr). exists c. split_and!; [exact Hin|exact (proj1 Hk)|exact Hr].
Defined.

Definition key_row : row := match api_key with r :: _ => r | [] => Row 0 [] end.
Lemma never_expires_witness : attr "expires_at" key_row = Some (Moment 1735689600000000)
  /\ exists r, In r (rows restored ApiKeys) /\ attr "key_hash" r = Some (Val (JStr "digest")) /\ attr "expires_at" r = Some (Val JNull).
Proof.
  split; [vm_compute; reflexivity|].
  destruct (restored_api_keys_never_expire (H := toy_crypto) (H0 := sha256_hashes) (H1 := PkiWitness.toy_fernet) true affinity
    password "full" rand machine old_site new_site restored ["digest"] key_row 1 "digest" "[]" true trip rand_ok old_whole new_ids)
    as (r & Hr & _ & Hh & _ & _ & He).
  - vm_compute. reflexivity.
  - apply NoDup_singleton.
  - intros r h [].
  - vm_compute. by left.
  - vm_compute. reflexivity.
  - lia.
  - vm_compute. reflexivity.
  - vm_compute. reflexivity.
  - vm_compute. reflexivity.
  - exists r. split_and!; [exact Hr|exact Hh|exact He].
Defined.

(** The revocation, the end of the key and the HTTPS key, run. *)
Example restored_rows :
  List.map revoked (certs (pki restored)) = [Some false] /\ List.map (attr "expires_at") (rows restored ApiKeys) = [Some (Val JNull)]
  /\ https_key restored = Some "HTTPS KEY".
Proof. vm_compute. done. Qed.
(** Another password opens nothing. *)
Example wrong_password : open_backup bytes "wrong password" = Err ValueError.
Proof. vm_compute. reflexivity. Qed.

Definition with_acme : site :=
  with_rows AcmeAccounts (row_of AcmeAccounts [("account_id", Val (JStr "a")); ("jwk", Val (JStr "{}")); ("jwk_thumbprint", Val (JStr "t"))]) old_site.
Lemma acme_witness : create_backup true password "full" [] rand machine with_acme = Err Exception.
Proof.
  refine (acme_accounts_prevent_backups (H := toy_crypto) (H0 := sha256_hashes) (H1 := PkiWitness.toy_fernet) true
    password "full" [] rand machine with_acme (match rows with_acme AcmeAccounts with r :: _ => r | [] => Row 0 [] end) _ _ _ _).
  - vm_compute. by left.
  - vm_compute. reflexivity.
  - reflexivity.
  - vm_compute. reflexivity.
Defined.

Lemma own_backups_witness : exists m,
  restore_route true affinity (fun n => n) (Some ("ucm_backup_20250101_000000.ucmbkp", bytes)) (Some password) 9 0 true new_site ([] : list string)
  = (new_site, [], Failure 400 m).
Proof.
  exact (own_backups_are_refused (H := toy_crypto) (H0 := sha256_hashes) (H1 := PkiWitness.toy_fernet) (H2 := list_sink) true affinity (fun n => n)
    1735689600000000 bytes (Some password) 9 0 true new_site ([] : list string) eq_refl).
Defined.
End BackupRun.
