(* ===== verification/Templates.v ===== *)
(** Certificate templates: [api/v2/templates.py] and [services/template_service.py].

    The table is a list of [Orm] rows with the columns [Backup] names; its clock columns
    are left out, and with them the order of the listing.  The routes do not call the
    service: of it, the seeding of the system templates, the rendering and the guarded
    deletion are modelled, its copies of the routes' create and update are not. *)
From S2P Require Import Prelude AuditSink Users CertModel CertListing CertRoutes CertActions CertExport CertImport JsonText Orm Backup.

Module Templates.
Import CertModel CertRoutes Orm.
Local Open Scope string_scope.
Local Open Scope list_scope.
Local Open Scope Z_scope.

(** * Rows *)

Definition columns : list column := Backup.certificate_template_columns.
Definition col (k : string) (r : row) : json := match attr k r with Some (Val j) => j | _ => JNull end.
Definition text_of (j : json) : string := match j with JStr s => s | _ => "" end.
Definition name (r : row) : string := text_of (col "name" r).
Definition is_system (r : row) : bool := Json.truthy (col "is_system" r).
Definition get_template_row (i : Z) (rows : list row) : option row := Table.first (fun r => r_id r =? i) rows.

(** [json.loads(column) if column else {}]; [None] is an exception. *)
Definition parsed (j : json) : option json :=
  if Json.truthy j then JsonText.loads (text_of j) else Some (JDict []).
Definition to_dict (r : row) : option (list (string * json)) :=
  d ← parsed (col "dn_template" r); e ← parsed (col "extensions_template" r);
  Some ([("id", JInt (r_id r))]
        ++ List.map (fun k => (k, col k r)) ["name"; "description"; "template_type"; "key_type"; "validity_days"; "digest"]
        ++ [("dn_template", d); ("extensions_template", e)]
        ++ List.map (fun k => (k, col k r)) ["is_system"; "is_active"; "created_by"; "updated_by"]).

Definition valid_types : list string :=
  ["web_server"; "email"; "vpn_server"; "vpn_client"; "code_signing"; "client_auth"; "piv"; "custom"].
Definition usages (key_usage extended : list string) : json :=
  JDict [("key_usage", Json.strings key_usage); ("extended_key_usage", Json.strings extended);
         ("basic_constraints", JDict [("ca", JBool false)])].
Definition default_extensions (type : string) (given : json) : json :=
  if String.eqb type "web_server" then usages ["digitalSignature"; "keyEncipherment"] ["serverAuth"]
  else if String.eqb type "email" then usages ["digitalSignature"; "keyEncipherment"] ["emailProtection"]
  else if String.eqb type "code_signing" then usages ["digitalSignature"] ["codeSigning"]
  else given.

Inductive reply :=
| Success (code : Z) (data : json) (message : string)
| Download (text filename : string)
| BulkDeleted (r : CertActions.results) (message : string)
| Failure (code : Z) (message : string)
| Raised.

Section Routes.
Context {T} `{AuditSink T} (py_repr : json -> string) (integer_affinity : string -> json) (secure_filename : string -> string).
Definition py_str (j : json) : string := CertRoutes.py_str py_repr j.
Definition template_event (action : string) (id : pyarg) (nm details : string) : event :=
  Event action (Some "template") id (AStr nm) (AStr details) true None.

(** What follows a commit that is still inside the [try]. *)
Definition replied (code : Z) (r : row) (message error : string) : reply :=
  match to_dict r with
  | Some d => Success code (JDict d) message
  | None => Failure 500 error
  end.

(** * Reading *)

Definition list_templates (type active : option string) (search : string) (rows : list row) : reply :=
  let shown r :=
    match filled type with Some t => bool_decide (col "template_type" r = JStr t) | None => true end
    && match filled active with
       | Some a => bool_decide (col "is_active" r = JBool (String.eqb (Str.lower a) "true"))
       | None => true
       end
    && (let s := Str.strip search in
        negb (Str.truthy s)
        || existsb (fun k => CertListing.ilike ("%" ^+ s ^+ "%") (match col k r with JStr t => Some t | _ => None end)) ["name"; "description"]) in
  match mapM to_dict (List.filter shown rows) with
  | Some l => Success 200 (JList (List.map JDict l)) ""
  | None => Raised
  end.
Definition get_template (i : Z) (rows : list row) : reply :=
  match get_template_row i rows with
  | None => Failure 404 "Template not found"
  | Some r => match to_dict r with Some d => Success 200 (JDict d) "" | None => Raised end
  end.

Definition exported_keys : list string :=
  ["name"; "description"; "template_type"; "key_type"; "validity_days"; "digest"; "dn_template"; "extensions_template"].
Definition export_data (r : row) : json :=
  JDict (List.map (fun k => (k, col k r)) exported_keys ++ [("is_system", JBool false); ("is_active", col "is_active" r)]).
Definition export_template (i : Z) (rows : list row) : reply :=
  match get_template_row i rows with
  | None => Failure 404 "Template not found"
  | Some r => Download (JsonText.dumps_in_order (export_data r)) (CertExport.sanitize_filename (name r) ^+ ".json")
  end.
Definition is_custom (r : row) : bool := bool_decide (col "is_system" r = JBool false).
Definition export_all (rows : list row) : string :=
  JsonText.dumps_in_order (JList (List.map export_data (List.filter is_custom rows))).
Definition export_all_templates (rows : list row) : reply := Download (export_all rows) "templates_export.json".

(** * Writing *)

Definition create_template (data : json) (username : string) (rows : list row) (trail : T) : list row * T * reply :=
  let fail code m := (rows, trail, Failure code m) in
  if negb (Json.is_dict data) then (rows, trail, Raised)
  else if negb (Json.truthy (Json.get_or "name" JNull data)) then fail 400 "Template name is required"
  else if negb (Json.truthy (Json.get_or "template_type" JNull data)) then fail 400 "Template type is required"
  else match find_by integer_affinity "name" (Json.get_or "name" JNull data) rows with
  | None => (rows, trail, Raised)
  | Some (Some _) => fail 409 "Template name already exists"
  | Some None =>
      match Users.in_texts (Json.get_or "template_type" JNull data) valid_types with
      | None => fail 400 ("Invalid template type. Must be one of: " ^+ Str.join ", " valid_types)
      | Some type =>
          let given := Json.get_or "extensions_template" (JDict []) data in
          let extensions := if Json.truthy given then given else default_extensions type given in
          match insert integer_affinity columns
                  [("name", Val (Json.get_or "name" JNull data)); ("description", Val (Json.get_or "description" (JStr "") data));
                   ("template_type", Val (JStr type)); ("key_type", Val (Json.get_or "key_type" (JStr "RSA-2048") data));
                   ("validity_days", Val (Json.get_or "validity_days" (JInt 397) data));
                   ("digest", Val (Json.get_or "digest" (JStr "sha256") data));
                   ("dn_template", Val (JStr (Json.dumps (Json.get_or "dn_template" (JDict []) data))));
                   ("extensions_template", Val (JStr (Json.dumps extensions))); ("is_system", Val (JBool false));
                   ("is_active", Val (JBool true)); ("created_by", Val (JStr username))] rows with
          | None => fail 500 "Failed to create template"
          | Some rows' =>
              let r := List.last rows' (Row 0 []) in
              (rows',
               record_event (template_event "template_create" (AStr (Num.str (r_id r))) (name r)
                 ("Created template: " ^+ name r ^+ " (" ^+ type ^+ ")")) trail,
               replied 201 r ("Template " ^+ name r ^+ " created successfully") "Failed to create template")
          end
      end
  end.

Definition update_keys : list string :=
  ["name"; "description"; "template_type"; "key_type"; "validity_days"; "digest"; "dn_template"; "extensions_template"; "is_active"].
(** The members that [k in data] and [data[k]] see; [None] is a TypeError. *)
Definition members (data : json) : option (list (string * json)) :=
  match data with
  | JDict kv => Some kv
  | _ => if forallb (fun k => match Json.contains k data with Some false => true | _ => false end) update_keys then Some [] else None
  end.
(** Another template has the name; [None] is an exception. *)
Definition conflict (i : Z) (kv : list (string * json)) (rows : list row) : option bool :=
  match Json.assoc "name" kv with
  | None | Some JNull => Some false
  | Some v => t ← Json.bind_text v;
              Some (existsb (fun r => bool_decide (attr "name" r = Some (Val (JStr t))) && negb (r_id r =? i)) rows)
  end.
Definition as_given (k : string) (kv : list (string * json)) : assignment :=
  match Json.assoc k kv with Some v => [(k, Val v)] | None => [] end.
Definition as_dumped (k : string) (kv : list (string * json)) : assignment :=
  match Json.assoc k kv with Some v => [(k, Val (JStr (Json.dumps v)))] | None => [] end.
(** The assignments, once the type is known to be valid; [None] is the error of [int]. *)
Definition changes (kv : list (string * json)) (username : string) : option assignment :=
  days ← match Json.assoc "validity_days" kv with
         | None => Some []
         | Some v => z ← as_int v; Some [("validity_days", Val (JInt z))]
         end;
  Some (as_given "name" kv ++ as_given "description" kv ++ as_given "template_type" kv ++ as_given "key_type" kv ++ days
        ++ as_given "digest" kv ++ as_dumped "dn_template" kv ++ as_dumped "extensions_template" kv
        ++ match Json.assoc "is_active" kv with Some v => [("is_active", Val (JBool (Json.truthy v)))] | None => [] end
        ++ [("updated_by", Val (JStr username))]).
Definition update_template (i : Z) (data : json) (username : string) (rows : list row) (trail : T) : list row * T * reply :=
  let fail code m := (rows, trail, Failure code m) in
  match get_template_row i rows with
  | None => fail 404 "Template not found"
  | Some r =>
      if is_system r then fail 403 "Cannot modify system templates"
      else match members data with
      | None => (rows, trail, Raised)
      | Some kv =>
          match conflict i kv rows with
          | None => (rows, trail, Raised)
          | Some true => fail 409 "Template name already in use"
          | Some false =>
              let bad_type := match Json.assoc "template_type" kv with
                              | Some v => match Users.in_texts v valid_types with None => true | Some _ => false end
                              | None => false
                              end in
              if bad_type : bool then fail 400 "Invalid template type"
              else match changes kv username with
              | None => (rows, trail, Raised)
              | Some vals =>
                  match assign integer_affinity columns i vals rows with
                  | None => fail 500 "Failed to update template"
                  | Some rows' =>
                      let r := default r (get_template_row i rows') in
                      (rows',
                       record_event (template_event "template_update" (AStr (Num.str i)) (name r) ("Updated template: " ^+ name r)) trail,
                       replied 200 r ("Template " ^+ name r ^+ " updated successfully") "Failed to update template")
                  end
              end
          end
      end
  end.

(** Certificates that name the template are not looked at. *)
Definition delete_template (i : Z) (rows : list row) (trail : T) : list row * T * reply :=
  match get_template_row i rows with
  | None => (rows, trail, Failure 404 "Template not found")
  | Some r =>
      if is_system r then (rows, trail, Failure 403 "Cannot delete system templates")
      else (Table.delete (fun r => r_id r =? i) rows,
            record_event (template_event "template_delete" (AStr (Num.str i)) (name r) ("Deleted template: " ^+ name r)) trail,
            Success 204 JNull "")
  end.

Fixpoint bulk_delete_loop (ids : list json) (res : CertActions.results) (rows : list row) : list row * CertActions.results :=
  match ids with
  | [] => (rows, res)
  | j :: ids =>
      match bind_id j with
      | None => bulk_delete_loop ids (CertActions.failed j "Delete failed" res) rows
      | Some i =>
          match i ≫= (fun i => get_template_row i rows) with
          | None => bulk_delete_loop ids (CertActions.failed j "Not found" res) rows
          | Some r =>
              if is_system r then bulk_delete_loop ids (CertActions.failed j "Cannot delete system template" res) rows
              else bulk_delete_loop ids (CertActions.succeeded j res) (Table.delete (fun q => r_id q =? r_id r) rows)
          end
      end
  end.
Definition bulk_delete_templates (request : json) (rows : list row) (trail : T) : list row * T * reply :=
  match CertActions.bulk_ids request with
  | inr (CertActions.BulkFailure code m) => (rows, trail, Failure code m)
  | inr _ => (rows, trail, Raised)
  | inl ids =>
      let '(rows, res) := bulk_delete_loop ids (CertActions.Results [] []) rows in
      let n := Num.str (Z.of_nat (length (CertActions.done_ids res))) in
      (rows,
       record_event (template_event "templates_bulk_deleted" (AStr (Str.join "," (List.map py_str (CertActions.done_ids res))))
         (n ^+ " templates") ("Bulk deleted " ^+ n ^+ " templates")) trail,
       BulkDeleted res (n ^+ " templates deleted"))
  end.

(** ** Copies *)

Definition taken (nm : string) (rows : list row) : bool :=
  existsb (fun r => bool_decide (attr "name" r = Some (Val (JStr nm)))) rows.
(** [while ...first(): name = f'{base_name} {counter}'; counter += 1]; [None]: out of fuel. *)
Fixpoint free_name (fuel : nat) (base nm : string) (counter : Z) (rows : list row) : option string :=
  match fuel with
  | O => None
  | S fuel => if taken nm rows then free_name fuel base (base ^+ " " ^+ Num.str counter) (counter + 1) rows else Some nm
  end.
Definition duplicate_template (fuel : nat) (i : Z) (username : string) (rows : list row) (trail : T)
  : option (list row * T * reply) :=
  match get_template_row i rows with
  | None => Some (rows, trail, Failure 404 "Template not found")
  | Some r =>
      let base := name r ^+ " (Copy)" in
      nm ← free_name fuel base base 2 rows;
      Some (match insert integer_affinity columns
              ([("name", Val (JStr nm))]
               ++ List.map (fun k => (k, Val (col k r)))
                    ["description"; "template_type"; "key_type"; "validity_days"; "digest"; "dn_template"; "extensions_template"]
               ++ [("is_system", Val (JBool false)); ("is_active", Val (col "is_active" r)); ("created_by", Val (JStr username))]) rows with
            | None => (rows, trail, Failure 500 "Failed to duplicate template")
            | Some rows' =>
                let clone := List.last rows' (Row 0 []) in
                (rows',
                 record_event (template_event "template_duplicate" (AStr (Num.str (r_id clone))) (name clone)
                   ("Duplicated from template: " ^+ name r ^+ " (id=" ^+ Num.str (r_id r) ^+ ")")) trail,
                 replied 201 clone ("Template duplicated as " ^+ name clone) "Failed to duplicate template")
            end)
  end.

(** ** Import *)

Definition JSON_EXTENSIONS : list string := [".json"].
Record report := Report { imported : list json; updated : list json; skipped : list string }.
Definition kept_keys : list string :=
  ["description"; "template_type"; "key_type"; "validity_days"; "digest"; "dn_template"; "extensions_template"; "is_active"].
(** One turn of the loop; [None] is an exception. *)
Definition import_one (update_existing : bool) (tpl : json) (st : list row * report) : option (list row * report) :=
  let '(rows, x) := st in
  if negb (Json.is_dict tpl) then None
  else
    let v := Json.get_or "name" JNull tpl in
    if negb (Json.truthy v) then Some (rows, Report (imported x) (updated x) (skipped x ++ ["Template without name"]))
    else
      old ← find_by integer_affinity "name" v rows;
      match old with
      | Some r =>
          if is_system r then Some (rows, Report (imported x) (updated x) (skipped x ++ [py_str v ^+ " (system template)"]))
          else if negb update_existing then Some (rows, Report (imported x) (updated x) (skipped x ++ [py_str v ^+ " (already exists)"]))
          else
            let kv := match tpl with JDict kv => kv | _ => [] end in
            rows ← assign integer_affinity columns (r_id r) (List.concat (List.map (fun k => as_given k kv) kept_keys)) rows;
            Some (rows, Report (imported x) (updated x ++ [col "name" r]) (skipped x))
      | None =>
          rows ← insert integer_affinity columns
                   [("name", Val v); ("description", Val (Json.get_or "description" (JStr "") tpl));
                    ("template_type", Val (Json.get_or "template_type" (JStr "server") tpl));
                    ("key_type", Val (Json.get_or "key_type" (JStr "rsa:2048") tpl));
                    ("validity_days", Val (Json.get_or "validity_days" (JInt 365) tpl));
                    ("digest", Val (Json.get_or "digest" (JStr "sha256") tpl));
                    ("dn_template", Val (Json.get_or "dn_template" JNull tpl));
                    ("extensions_template", Val (Json.get_or "extensions_template" JNull tpl));
                    ("is_system", Val (JBool false)); ("is_active", Val (Json.get_or "is_active" (JBool true) tpl))] rows;
          Some (rows, Report (imported x ++ [v]) (updated x) (skipped x))
      end.
Fixpoint import_all (update_existing : bool) (l : list json) (st : list row * report) : option (list row * report) :=
  match l with
  | [] => Some st
  | j :: l => st ← import_one update_existing j st; import_all update_existing l st
  end.
(** [', '.join(l)]; [None] is the TypeError of a member that is no text. *)
Definition joined (l : list json) : option string := Str.join ", " <$> mapM as_text l.
Definition import_message (x : report) : option string :=
  let part (label : string) (t : string) (l : nat) := if (l =? 0)%nat then [] else [label ^+ t] in
  a ← joined (imported x); b ← joined (updated x);
  let m := Str.join " | " (part "Imported: " a (length (imported x)) ++ part "Updated: " b (length (updated x))
                           ++ part "Skipped: " (Str.join ", " (skipped x)) (length (skipped x))) in
  Some (if Str.truthy m then m else "No templates imported").
Definition import_text (json_data : string) (update_existing : bool) (rows : list row) (trail : T) : list row * T * reply :=
  match JsonText.loads json_data with
  | None => (rows, trail, Failure 400 "Invalid JSON format")
  | Some data =>
      match import_all update_existing (match data with JList l => l | _ => [data] end) (rows, Report [] [] []) with
      | None => (rows, trail, Failure 500 "Import failed")
      | Some (rows, x) =>
          let n {A} (l : list A) := Num.str (Z.of_nat (length l)) in
          (rows,
           record_event (Event "template_import" (Some "template") ANone (AStr "Template Import")
             (AStr ("Imported " ^+ n (imported x) ^+ " templates, updated " ^+ n (updated x) ^+ ", skipped " ^+ n (skipped x))) true None) trail,
           match import_message x with
           | Some m =>
               Success 200 (JDict [("imported", JInt (Z.of_nat (length (imported x)))); ("updated", JInt (Z.of_nat (length (updated x))));
                                   ("skipped", JInt (Z.of_nat (length (skipped x))))]) m
           | None => Failure 500 "Import failed"
           end)
      end
  end.
Definition import_template (file : option (string * string)) (json_content update_existing : option string)
    (rows : list row) (trail : T) : list row * T * reply :=
  let update := String.eqb (Str.lower (default "false" update_existing)) "true" in
  match (f ← file; if Str.truthy f.1 then Some f else None) with
  | Some (filename, bytes) =>
      match CertImport.validate_upload secure_filename JSON_EXTENSIONS filename bytes with
      | Some (raw, _) =>
          if Str.utf8_valid 0 0%N 0%N raw then import_text raw update rows trail
          else (rows, trail, Failure 400 "Invalid file upload")
      | None => (rows, trail, Failure 400 "Invalid file upload")
      end
  | None =>
      match filled json_content with
      | Some text => import_text text update rows trail
      | None => (rows, trail, Failure 400 "No file or JSON content provided")
      end
  end.

(** * The service *)

Definition system_template (nm descr type : string) (days : Z) (cn ou : string) (key_usage extended san : list string) : assignment :=
  [("name", Val (JStr nm)); ("description", Val (JStr descr)); ("template_type", Val (JStr type)); ("key_type", Val (JStr "RSA-2048"));
   ("validity_days", Val (JInt days)); ("digest", Val (JStr "sha256"));
   ("dn_template", Val (JStr (Json.dumps (JDict [("CN", JStr cn); ("O", JStr ""); ("OU", JStr ou); ("C", JStr ""); ("ST", JStr ""); ("L", JStr "")]))));
   ("extensions_template", Val (JStr (Json.dumps (JDict [("key_usage", Json.strings key_usage); ("extended_key_usage", Json.strings extended);
      ("basic_constraints", JDict [("ca", JBool false)]); ("san_types", Json.strings san)]))));
   ("is_system", Val (JBool true)); ("is_active", Val (JBool true)); ("created_by", Val (JStr "system"))].
Definition SYSTEM_TEMPLATES : list (string * assignment) :=
  let t nm descr type days cn ou ku eku san := (nm, system_template nm descr type days cn ou ku eku san) in
  [t "Web Server (TLS/SSL)" "SSL/TLS certificate for web servers (HTTPS). Compatible with Apache, Nginx, IIS. Validity: 397 days (Apple/Chrome limit)."
     "web_server" 397 "{hostname}" "IT" ["digitalSignature"; "keyEncipherment"] ["serverAuth"] ["dns"; "ip"];
   t "Email Certificate (S/MIME)" "S/MIME certificate for email encryption and digital signatures. Compatible with Outlook, Thunderbird, Apple Mail."
     "email" 397 "{email}" "Users" ["digitalSignature"; "keyEncipherment"; "dataEncipherment"] ["emailProtection"] ["email"];
   t "VPN Server" "VPN server certificate for OpenVPN, IPsec, WireGuard. Includes serverAuth and ipsecEndSystem extended key usage."
     "vpn_server" 825 "{hostname}" "VPN" ["digitalSignature"; "keyEncipherment"] ["serverAuth"; "ipsecEndSystem"] ["dns"; "ip"];
   t "VPN Client" "VPN client certificate for user authentication. Compatible with OpenVPN, IPsec clients."
     "vpn_client" 397 "{username}" "VPN Users" ["digitalSignature"; "keyEncipherment"] ["clientAuth"; "ipsecUser"] ["email"];
   t "Code Signing" "Code signing certificate for software developers. Sign executables, scripts, packages. Validity: 3 years max."
     "code_signing" 1095 "{username}" "Development" ["digitalSignature"] ["codeSigning"] [];
   t "Client Authentication" "Client authentication certificate for user/device authentication. Compatible with 802.1X, RADIUS, mTLS."
     "client_auth" 397 "{username}" "Users" ["digitalSignature"; "keyEncipherment"] ["clientAuth"] ["email"]].
(** The number of templates that were added; [None] is an exception. *)
Fixpoint seed_loop (l : list (string * assignment)) (rows : list row) (count : nat) : option (list row * nat) :=
  match l with
  | [] => Some (rows, count)
  | (nm, vals) :: l =>
      if taken nm rows then seed_loop l rows count
      else rows ← insert integer_affinity columns vals rows; seed_loop l rows (S count)
  end.
Definition seed_system_templates (rows : list row) : option (list row * nat) := seed_loop SYSTEM_TEMPLATES rows 0.

Definition service_delete (i : Z) (rows : list row) (d : db) : list row * option string :=
  match get_template_row i rows with
  | None => (rows, Some "Template not found")
  | Some r =>
      if is_system r then (rows, Some "Cannot delete system templates")
      else
        let in_use := List.filter (fun c => bool_decide (template_id c = Some i)) (certs d) in
        if (0 <? length in_use)%nat
        then (rows, Some ("Cannot delete template: " ^+ Num.str (Z.of_nat (length in_use)) ^+ " certificate(s) using this template"))
        else (Table.delete (fun r => r_id r =? i) rows, None)
  end.

Definition substitute (variables : list (string * string)) (value : string) : string :=
  fold_left (fun value p => Str.replace ("{" ^+ p.1 ^+ "}") p.2 value) variables value.
(** [None] is an exception of the parser. *)
Definition render_template (i : Z) (variables : list (string * string)) (rows : list row) : option (list (string * json)) :=
  r ← get_template_row i rows;
  dn ← parsed (col "dn_template" r); e ← parsed (col "extensions_template" r);
  dn ← match dn with JDict kv => Some kv | _ => None end;
  Some (List.map (fun k => (k, col k r)) ["name"; "template_type"; "key_type"; "validity_days"; "digest"]
        ++ [("dn", JDict (List.map (fun p => (p.1, match p.2 with JStr s => JStr (substitute variables s) | v => v end)) dn));
            ("extensions", e)]).
End Routes.
End Templates.
