(* ===== verification/TemplatesFacts.v ===== *)
(** Certificate templates: system templates are never touched, names stay unique, a copy
    always finds a name, exports are read back by the import, and what one import can
    break. *)
From S2P Require Import Prelude AuditSink Users CertModel CertRoutes CertActions CertImport JsonText Orm Backup Templates.

Module TemplatesFacts.
Import CertModel CertRoutes Orm Templates.
Local Open Scope string_scope.
Local Open Scope list_scope.
Local Open Scope Z_scope.

(** * The table *)

Definition name_column : column := Backup.required (Backup.unique (Backup.text "name")).
Lemma name_key : key_column name_column.
Proof. done. Qed.
Lemma name_only k : In k columns -> c_name k = c_name name_column -> k = name_column.
Proof. cbn. intros Hk. repeat (destruct Hk as [<-|Hk]; [done|]). done. Qed.
Lemma no_id : "id" ∉ List.map c_name columns.
Proof. refine (bool_decide_eq_true_1 _ _). by vm_compute. Qed.
Lemma columns_distinct : NoDup (List.map c_name columns).
Proof. refine (bool_decide_eq_true_1 _ _). by vm_compute. Qed.

(** No two templates share a number or a name. *)
Definition consistent (rows : list row) : Prop :=
  NoDup (List.map r_id rows) /\ NoDup (List.map (attr "name") rows).

Lemma filter_update p f rows : (forall r, In r rows -> p r = true -> is_system r = false /\ is_system (f r) = false) ->
  List.filter is_system (Table.update p f rows) = List.filter is_system rows.
Proof.
  induction rows as [|r rows IH]; [done|]. intros Hp. cbn. unfold Table.update in IH. rewrite IH by (intros q Hq; apply Hp; by right).
  destruct (p r) eqn:E; [|done]. by destruct (Hp r ltac:(by left) E) as [-> ->].
Qed.
Lemma filter_delete p rows : (forall r, In r rows -> p r = true -> is_system r = false) ->
  List.filter is_system (Table.delete p rows) = List.filter is_system rows.
Proof.
  induction rows as [|r rows IH]; [done|]. intros Hp. cbn. unfold Table.delete in IH. destruct (p r) eqn:E; cbn.
  - rewrite (Hp r ltac:(by left) E). apply IH. intros q Hq. apply Hp. by right.
  - rewrite IH; [done|]. intros q Hq. apply Hp. by right.
Qed.
Lemma deleted_rows_consistent p rows : consistent rows -> consistent (Table.delete p rows).
Proof.
  intros [Hi Hn]. split; unfold Table.delete.
  - induction rows as [|r rows IH]; [done|]. cbn in Hi, Hn |- *. apply NoDup_cons in Hi as [Hni Hi], Hn as [_ Hn].
    destruct (negb (p r)); [|by apply IH]. cbn. apply NoDup_cons. split; [|by apply IH].
    intros (q & E & [Hq _]%filter_In)%list_elem_of_In%in_map_iff. apply Hni. rewrite <-E. by apply list_elem_of_In, in_map.
  - induction rows as [|r rows IH]; [done|]. cbn in Hi, Hn |- *. apply NoDup_cons in Hi as [_ Hi], Hn as [Hnn Hn].
    destruct (negb (p r)); [|by apply IH]. cbn. apply NoDup_cons. split; [|by apply IH].
    intros (q & E & [Hq _]%filter_In)%list_elem_of_In%in_map_iff. apply Hnn. rewrite <-E. by apply list_elem_of_In, in_map.
Qed.
Lemma row_is_row rows i r q : consistent rows -> get_template_row i rows = Some r -> In q rows -> r_id q = i -> q = r.
Proof.
  intros [Hi _] [Hr Ei%Z.eqb_eq]%Table.first_Some Hq <-. by apply (Table.NoDup_map_eq r_id rows).
Qed.

(** What a request may do to the table. *)
Definition safe (rows rows' : list row) : Prop :=
  consistent rows -> consistent rows' /\ List.filter is_system rows' = List.filter is_system rows.
Lemma safe_refl rows : safe rows rows. Proof. done. Qed.
Lemma safe_trans rows1 rows2 rows3 : safe rows1 rows2 -> safe rows2 rows3 -> safe rows1 rows3.
Proof. intros H12 H23 H1. destruct (H12 H1) as [H2 E]. destruct (H23 H2) as [H3 E']. split; [done|congruence]. Qed.

Section Facts.
Context {T} `{AuditSink T} (py_repr : json -> string) (integer_affinity : string -> json) (secure_filename : string -> string).

Lemma insert_safe vals rows rows' : Json.assoc "is_system" vals = Some (Val (JBool false)) ->
  insert integer_affinity columns vals rows = Some rows' -> safe rows rows'.
Proof.
  intros Hv E [Hi Hn]. split.
  - split; [by eapply insert_ids|]. apply (insert_unique _ _ _ _ _ name_column name_key columns_distinct ltac:(by left) Hn E).
  - apply insert_spec in E as (cs & Hcs & ->). rewrite List.filter_app. cbn [List.filter].
    assert (is_system (Row (Table.next_id r_id rows) cs) = false) as ->; [|by rewrite app_nil_r].
    destruct (new_cells_attr _ _ _ _ _ (Backup.flag "is_system" false) Hcs columns_distinct) as (c & Hc & Ha); [cbn; tauto|].
    unfold new_cell in Hc. cbn [c_name Backup.flag] in *. rewrite Hv in Hc. cbn in Hc. injection Hc as <-.
    unfold is_system, col, attr. cbn [String.eqb Ascii.eqb Bool.eqb cells]. by rewrite Ha.
Qed.
Lemma assign_safe i vals rows rows' r : "is_system" ∉ List.map fst vals -> get_template_row i rows = Some r -> is_system r = false ->
  assign integer_affinity columns i vals rows = Some rows' -> safe rows rows'.
Proof.
  intros Hv Hr Hs E Hc. pose proof Hc as [Hi Hn]. split.
  - exact (assign_unique _ _ _ _ _ name_key no_id name_only _ _ Hi Hn E).
  - destruct (assign_spec _ _ _ _ no_id _ _ E) as (f & -> & Hf). apply filter_update. intros q Hq Eq%Z.eqb_eq.
    rewrite (row_is_row rows i r q Hc Hr Hq Eq). split; [done|]. unfold is_system, col in *. by rewrite (proj2 (Hf r) _ Hv).
Qed.
Lemma delete_safe i rows r : get_template_row i rows = Some r -> is_system r = false ->
  safe rows (Table.delete (fun q => r_id q =? i) rows).
Proof.
  intros Hr Hs Hc. split; [by apply deleted_rows_consistent|]. apply filter_delete. intros q Hq Eq%Z.eqb_eq.
  by rewrite (row_is_row rows i r q Hc Hr Hq Eq).
Qed.

(** * Requests *)

Inductive step : list row * T -> list row * T -> Prop :=
| Create data username rows trail rows' trail' a :
    create_template integer_affinity data username rows trail = (rows', trail', a) -> step (rows, trail) (rows', trail')
| Update i data username rows trail rows' trail' a :
    update_template integer_affinity i data username rows trail = (rows', trail', a) -> step (rows, trail) (rows', trail')
| Delete i rows trail rows' trail' a :
    delete_template i rows trail = (rows', trail', a) -> step (rows, trail) (rows', trail')
| BulkDelete request rows trail rows' trail' a :
    bulk_delete_templates py_repr request rows trail = (rows', trail', a) -> step (rows, trail) (rows', trail')
| Duplicate fuel i username rows trail rows' trail' a :
    duplicate_template integer_affinity fuel i username rows trail = Some (rows', trail', a) -> step (rows, trail) (rows', trail')
| Import file content update rows trail rows' trail' a :
    import_template py_repr integer_affinity secure_filename file content update rows trail = (rows', trail', a) ->
    step (rows, trail) (rows', trail').

Lemma create_safe data username rows trail rows' trail' a :
  create_template integer_affinity data username rows trail = (rows', trail', a) -> safe rows rows'.
Proof.
  unfold create_template. intros E.
  repeat (destruct (negb _); [injection E as <- _ _; apply safe_refl|]).
  destruct (find_by _ _ _ _) as [[r|]|]; [injection E as <- _ _; apply safe_refl| |injection E as <- _ _; apply safe_refl].
  destruct (Users.in_texts _ _) as [type|]; [|injection E as <- _ _; apply safe_refl].
  destruct (insert _ _ _ _) as [rows1|] eqn:Ei; injection E as <- _ _; [|apply safe_refl].
  by apply insert_safe in Ei.
Qed.
Lemma given_keys k x kv : x <> k -> x ∉ List.map fst (as_given k kv).
Proof. intros Hne. unfold as_given. destruct (Json.assoc k kv); cbn; set_solver. Qed.
Lemma dumped_keys k x kv : x <> k -> x ∉ List.map fst (as_dumped k kv).
Proof. intros Hne. unfold as_dumped. destruct (Json.assoc k kv); cbn; set_solver. Qed.
Lemma changes_keys kv username vals : changes kv username = Some vals -> "is_system" ∉ List.map fst vals.
Proof.
  unfold changes. intros (days & Hd & [= <-])%bind_Some.
  assert ("is_system" ∉ List.map fst days) as Hdays.
  { destruct (Json.assoc "validity_days" kv); [|injection Hd as <-; by apply not_elem_of_nil].
    apply bind_Some in Hd as (z & _ & [= <-]). cbn. set_solver. }
  assert ("is_system" ∉ List.map fst (match Json.assoc "is_active" kv with Some v => [("is_active", Val (JBool (Json.truthy v)))] | None => [] end)) as Hactive
    by (destruct (Json.assoc "is_active" kv); cbn; set_solver).
  rewrite !List.map_app, !not_elem_of_app. split_and!; try apply given_keys; try apply dumped_keys; try done. cbn. set_solver.
Qed.
Lemma update_safe i data username rows trail rows' trail' a :
  update_template integer_affinity i data username rows trail = (rows', trail', a) -> safe rows rows'.
Proof.
  unfold update_template. intros E. destruct (get_template_row i rows) as [r|] eqn:Er; [|injection E as <- _ _; apply safe_refl].
  destruct (is_system r) eqn:Es; [injection E as <- _ _; apply safe_refl|].
  destruct (members data) as [kv|]; [|injection E as <- _ _; apply safe_refl].
  destruct (conflict i kv rows) as [[]|]; [injection E as <- _ _; apply safe_refl| |injection E as <- _ _; apply safe_refl].
  cbn zeta in E. set (bad := match Json.assoc "template_type" kv with Some _ => _ | None => _ end) in E.
  destruct bad; [injection E as <- _ _; apply safe_refl|].
  destruct (changes kv username) as [vals|] eqn:Ev; [|injection E as <- _ _; apply safe_refl].
  destruct (assign _ _ _ _ _) as [rows1|] eqn:Ea; injection E as <- _ _; [|apply safe_refl].
  by apply (assign_safe i vals rows rows1 r (changes_keys _ _ _ Ev) Er Es).
Qed.
Lemma bulk_safe ids : forall res rows rows' res', bulk_delete_loop ids res rows = (rows', res') -> safe rows rows'.
Proof.
  induction ids as [|j ids IH]; intros res rows rows' res'; cbn; [by intros [= <- _]|].
  destruct (bind_id j) as [i|]; [|apply IH]. destruct (i ≫= _) as [r|] eqn:Er; [|apply IH].
  destruct (is_system r) eqn:Es; [apply IH|]. intros E%IH. eapply safe_trans; [|exact E].
  apply bind_Some in Er as (z & _ & Er). apply (delete_safe _ _ r); [|done].
  pose proof Er as [_ Ez%Z.eqb_eq]%Table.first_Some. by rewrite Ez.
Qed.
Lemma import_one_safe upd tpl rows x rows' x' :
  import_one py_repr integer_affinity upd tpl (rows, x) = Some (rows', x') -> safe rows rows'.
Proof.
  unfold import_one. intros E. destruct (negb (Json.is_dict tpl)); [done|].
  destruct (negb (Json.truthy _)); [injection E as <- _; apply safe_refl|].
  apply bind_Some in E as (old & Hold & E). destruct old as [r|].
  - destruct (is_system r) eqn:Es; [injection E as <- _; apply safe_refl|]. destruct (negb upd); [injection E as <- _; apply safe_refl|].
    apply bind_Some in E as (rows1 & E1 & [= <- _]). intros Hc.
    apply bind_Some in Hold as (c & _ & [= Hr]). apply Table.first_Some in Hr as [Hr _].
    refine (assign_safe (r_id r) _ rows rows1 r _ _ Es E1 Hc).
    + cbn [List.map List.concat kept_keys]. rewrite !List.map_app, !not_elem_of_app. split_and!; try (by apply given_keys). apply not_elem_of_nil.
    + unfold get_template_row. destruct (Table.first _ rows) as [q|] eqn:Eq.
      * apply Table.first_Some in Eq as [Hq Eq%Z.eqb_eq]. f_equal. by apply (Table.NoDup_map_eq r_id rows); [apply Hc|..].
      * pose proof (Table.first_None _ _ r Eq Hr) as Hn. cbn in Hn. by rewrite Z.eqb_refl in Hn.
  - apply bind_Some in E as (rows1 & E1 & [= <- _]). by apply insert_safe in E1.
Qed.
Lemma import_all_safe upd l : forall rows x rows' x', import_all py_repr integer_affinity upd l (rows, x) = Some (rows', x') -> safe rows rows'.
Proof.
  induction l as [|j l IH]; intros rows x rows' x'; cbn -[import_one]; [by intros [= <- _]|].
  intros ([rows1 x1] & E1%import_one_safe & E%IH)%bind_Some. by eapply safe_trans.
Qed.
Lemma import_text_safe text upd rows trail rows' trail' a :
  import_text py_repr integer_affinity text upd rows trail = (rows', trail', a) -> safe rows rows'.
Proof.
  unfold import_text. intros E. destruct (JsonText.loads text) as [data|]; [|injection E as <- _ _; apply safe_refl].
  destruct (import_all _ _ _ _ _) as [[rows1 x]|] eqn:Ei; injection E as <- _ _; [|apply safe_refl]. by apply import_all_safe in Ei.
Qed.
Lemma step_safe s s' : step s s' -> safe s.1 s'.1.
Proof.
  intros Hst. destruct Hst as [? ? ? ? ? ? ? E|? ? ? ? ? ? ? ? E|i rows trail rows' trail' a E|request rows trail rows' trail' a E|fuel i username rows trail rows' trail' a E|file content update rows trail rows' trail' a E]; cbn.
  - by apply create_safe in E.
  - by apply update_safe in E.
  - unfold delete_template in E. destruct (get_template_row i rows) as [r|] eqn:Er; [|injection E as <- _ _; apply safe_refl].
    destruct (is_system r) eqn:Es; injection E as <- _ _; [apply safe_refl|]. by apply (delete_safe i rows r).
  - unfold bulk_delete_templates in E. destruct (CertActions.bulk_ids request) as [ids|[]]; try (injection E as <- _ _; apply safe_refl).
    destruct (bulk_delete_loop _ _ _) as [rows1 res] eqn:Eb. injection E as <- _ _. by apply bulk_safe in Eb.
  - unfold duplicate_template in E. destruct (get_template_row i rows) as [r|]; [|injection E as <- _ _; apply safe_refl].
    apply bind_Some in E as (nm & _ & E). destruct (insert _ _ _ _) as [rows1|] eqn:Ei; injection E as <- _ _; [|apply safe_refl].
    by apply insert_safe in Ei.
  - unfold import_template in E. destruct (f ← file; _) as [[fn bytes]|].
    + destruct (CertImport.validate_upload _ _ _ _) as [[raw n]|]; [|injection E as <- _ _; apply safe_refl].
      destruct (Str.utf8_valid _ _ _ _); [by apply import_text_safe in E|injection E as <- _ _; apply safe_refl].
    + destruct (filled content); [by apply import_text_safe in E|injection E as <- _ _; apply safe_refl].
Qed.

(** C26: Whatever requests arrive in whatever order, the templates that come with the program
    stay as they are, no request makes another one of them, and numbers and names stay
    unique. *)
Theorem system_templates_are_kept s s' (Hc : consistent s.1) (Hrun : rtc step s s') :
  consistent s'.1 /\ List.filter is_system s'.1 = List.filter is_system s.1.
Proof.
  revert Hc. change (safe s.1 s'.1). induction Hrun as [s|s1 s2 s3 Hst _ IH]; [apply safe_refl|].
  apply safe_trans with s2.1; [by apply step_safe|exact IH].
Qed.

End Facts.

Section Values.
Context {T} `{AuditSink T} (py_repr : json -> string) (integer_affinity : string -> json).

(** * Copies of a row *)

(** A value as the table holds it. *)
Definition fits (k : column) (j : json) : Prop :=
  bind integer_affinity (c_type k) (Val j) = Some (Val j) /\ (c_required k = true -> j <> JNull) /\ (j = JNull -> c_default k = None).
Definition stored (r : row) : Prop :=
  (forall k, In k columns -> fits k (col (c_name k) r)) /\ attr "name" r = Some (Val (JStr (name r))).

Lemma new_cell_copy k vals j : c_type k <> TJson -> fits k j -> Json.assoc (c_name k) vals = Some (Val j) ->
  new_cell integer_affinity vals [] k = Some (c_name k, Val j).
Proof.
  intros Ht (Hb & Hr & Hd) Ha. unfold new_cell. rewrite Ha.
  assert (match c_type k with TJson => Val j | _ => if is_null (Val j) then match c_default k with Some d => Val d | None => Val JNull end else Val j end = Val j) as ->.
  { unfold is_null. destruct (decide (Val j = Val JNull)) as [[= ->]|Hn].
    - rewrite (Hd eq_refl). by destruct (c_type k).
    - rewrite bool_decide_eq_false_2 by done. by destruct (c_type k). }
  rewrite Hb. cbn. unfold checked, required_ok, unique_ok. cbn. rewrite orb_true_r, andb_true_r.
  assert (match c_type k with TJson => true | _ => negb (c_required k && is_null (Val j)) end = true) as ->; [|done].
  destruct (c_required k) eqn:Er; [|by destruct (c_type k)]. unfold is_null. rewrite bool_decide_eq_false_2; [by destruct (c_type k)|].
  intros [= ->]. by apply Hr.
Qed.
Lemma assoc_cells (g : string -> json) ks n : In n ks -> Json.assoc n (List.map (fun k => (k, Val (g k))) ks) = Some (Val (g n)).
Proof. induction ks as [|k ks IH]; [done|]. cbn. intros Hin. destruct (String.eqb_spec n k) as [->|]; [done|]. destruct Hin; [done|]. by apply IH. Qed.

(** A new row whose cells are known. *)
Lemma insert_copy vals rows (g : string -> json) :
  (forall k, In k columns -> new_cell integer_affinity vals [] k = Some (c_name k, Val (g (c_name k)))) ->
  (forall r, In r rows -> attr "name" r <> Some (Val (g "name"))) ->
  exists r, insert integer_affinity columns vals rows = Some (rows ++ [r]) /\ r_id r = Table.next_id r_id rows
    /\ forall k, In k (List.map c_name columns) -> attr k r = Some (Val (g k)).
Proof.
  intros Hcells Hfresh. set (cs := List.map (fun n => (n, Val (g n))) (List.map c_name columns)).
  exists (Row (Table.next_id r_id rows) cs). split_and!.
  - apply insert_fresh.
    + unfold cs. clear Hfresh cs. induction columns as [|k l IH]; [done|]. cbn. rewrite (Hcells k) by (by left).
      cbn. rewrite IH by (intros k' Hk'; apply Hcells; by right). done.
    + intros k c Hk Hu Hin. assert (k = name_column) as -> by (clear -Hk Hu; cbn in Hk; repeat (destruct Hk as [<-|Hk]; [done|]); done).
      unfold cs in Hin. rewrite List.map_map in Hin. apply in_map_iff in Hin as (k' & [= En <-] & _). cbn in En. rewrite En. exact Hfresh.
  - done.
  - intros k Hk. unfold attr. destruct (String.eqb_spec k "id") as [->|]; [exfalso; by apply no_id, list_elem_of_In|].
    by apply assoc_cells.
Qed.

(** ** A free name *)

Fixpoint candidates (fuel : nat) (base nm : string) (counter : Z) : list string :=
  match fuel with
  | O => []
  | S fuel => nm :: candidates fuel base (base ^+ " " ^+ Num.str counter) (counter + 1)
  end.
Lemma candidates_taken fuel base rows : forall nm counter, free_name fuel base nm counter rows = None ->
  forall x, In x (candidates fuel base nm counter) -> taken x rows = true.
Proof.
  induction fuel as [|fuel IH]; [done|]. intros nm counter. cbn. destruct (taken nm rows) eqn:E; [|done].
  intros Hn x [<-|Hx]; [done|]. by apply (IH _ _ Hn).
Qed.
Lemma app_inj_l s t u : s ^+ t = s ^+ u -> t = u.
Proof. induction s as [|c s IH]; [done|]. cbn. intros [= E]. by apply IH. Qed.
Lemma candidates_In fuel base : forall c x, 0 <= c -> In x (candidates fuel base (base ^+ " " ^+ Num.str c) (c + 1)) ->
  exists k, c <= k /\ x = base ^+ " " ^+ Num.str k.
Proof.
  induction fuel as [|fuel IH]; [done|]. intros c x Hc [<-|Hx]; [by exists c|].
  destruct (IH (c + 1) x ltac:(lia) Hx) as (k & Hk & ->). exists k. split; [lia|done].
Qed.
Lemma candidates_distinct fuel base : forall c, 0 <= c -> NoDup (candidates fuel base (base ^+ " " ^+ Num.str c) (c + 1)).
Proof.
  induction fuel as [|fuel IH]; [constructor|]. intros c Hc. cbn. apply NoDup_cons. split; [|apply IH; lia].
  intros (k & Hk & E)%list_elem_of_In%candidates_In; [|lia]. apply app_inj_l in E. injection E as E.
  apply NumFacts.str_inj_nonneg in E; lia.
Qed.
Lemma taken_spec nm rows : taken nm rows = true <-> In (Some (Val (JStr nm))) (List.map (attr "name") rows).
Proof.
  unfold taken. rewrite existsb_exists, in_map_iff. split; intros (r & H1 & H2); exists r; [apply bool_decide_eq_true in H2|]; split; try done.
  by apply bool_decide_eq_true.
Qed.
(** One more name than there are templates is enough. *)
Lemma free_name_found base rows : exists nm, free_name (S (length rows)) base base 2 rows = Some nm /\ taken nm rows = false.
Proof.
  assert (forall fuel nm counter x, free_name fuel base nm counter rows = Some x -> taken x rows = false) as Hfree.
  { clear. intros fuel. induction fuel as [|fuel IH]; [done|]. intros nm counter x. cbn. destruct (taken nm rows) eqn:E; [apply IH|by intros [= <-]]. }
  destruct (free_name (S (length rows)) base base 2 rows) as [nm|] eqn:E; [exists nm; split; [done|by eapply Hfree]|]. exfalso.
  set (l := candidates (S (length rows)) base base 2).
  assert (NoDup l) as Hnd.
  { unfold l. cbn. apply NoDup_cons. split; [|by apply (candidates_distinct _ base 2)].
    intros (k & _ & Ek)%list_elem_of_In%(candidates_In _ base 2); [|lia]. rewrite <-(StrFacts.app_nil_r base) in Ek at 1.
    by apply app_inj_l in Ek. }
  assert (length (List.map (fun n => Some (Val (JStr n))) l) <= length (List.map (attr "name") rows))%nat as Hlen.
  { apply List.NoDup_incl_length.
    - apply NoDup_ListNoDup. apply NoDup_fmap_2; [|done]. intros x y [= ->]. done.
    - intros c (x & <- & Hx)%in_map_iff. apply taken_spec. by apply (candidates_taken _ _ _ _ _ E). }
  rewrite !List.length_map in Hlen. assert (forall f b n c, length (candidates f b n c) = f) as Hl
    by (intros f; induction f as [|f IH]; intros; cbn; [done|by rewrite IH]).
  unfold l in Hlen. rewrite Hl in Hlen. lia.
Qed.

Definition copied_keys : list string :=
  ["description"; "template_type"; "key_type"; "validity_days"; "digest"; "dn_template"; "extensions_template"; "is_active"].

(** Copying a template ends: of one more candidate than there are templates one name is
    free, and the copy takes it, with the other columns of the original; it is no system
    template even if the original is. *)
Theorem copies_find_a_name i username rows trail r (Hr : get_template_row i rows = Some r) (Hs : stored r) :
  exists clone trail' a, duplicate_template integer_affinity (S (length rows)) i username rows trail = Some (rows ++ [clone], trail', a)
    /\ taken (name clone) rows = false /\ is_system clone = false /\ forall k, In k copied_keys -> col k clone = col k r.
Proof.
  unfold duplicate_template. rewrite Hr. destruct (free_name_found (name r ^+ " (Copy)") rows) as (nm & -> & Hfree).
  cbn [mbind option_bind]. set (vals := _ ++ _).
  set (g := fun k => if String.eqb k "name" then JStr nm else if String.eqb k "is_system" then JBool false
                     else if String.eqb k "created_by" then JStr username else if String.eqb k "updated_by" then JNull else col k r).
  destruct (insert_copy vals rows g) as (clone & -> & _ & Hclone).
  - intros k Hk. destruct Hs as [Hs _]. specialize (Hs k Hk). cbn in Hk. clear Hfree.
    repeat (destruct Hk as [<-|Hk]; [first [reflexivity|apply new_cell_copy; [done|exact Hs|reflexivity]]|]). done.
  - intros q Hq E. change (attr "name" q = Some (Val (JStr nm))) in E. assert (taken nm rows = true) as Ht; [|congruence]. apply taken_spec. rewrite <-E. by apply in_map.
  - exists clone. do 2 eexists. split; [reflexivity|]. assert (forall k, In k (List.map c_name columns) -> col k clone = g k) as Hcol
      by (intros k Hk; unfold col; by rewrite (Hclone k Hk)).
    split_and!.
    + unfold name. rewrite Hcol by (cbn; tauto). done.
    + unfold is_system. rewrite Hcol by (cbn; tauto). done.
    + intros k Hk. rewrite Hcol by (cbn in Hk |- *; tauto). cbn in Hk. clear - Hk. repeat (destruct Hk as [<-|Hk]; [done|]). done.
Qed.

(** * Export and import *)

Definition kept_row (r r' : row) : Prop :=
  is_custom r' = true /\ forall k, In k ("name" :: copied_keys) -> col k r' = col k r.
(** A template the import takes: it has a name. *)
Definition named (r : row) : Prop := stored r /\ name r <> "".

Lemma stored_leaf r k : stored r -> In k ("name" :: copied_keys) -> JsonText.distinct_keys (col k r) = true.
Proof.
  intros [Hs _] Hk. assert (exists c, In c columns /\ c_name c = k /\ c_type c <> TJson) as (c & Hc & <- & Ht).
  { assert (forallb (fun k => existsb (fun c => String.eqb (c_name c) k && match c_type c with TJson => false | _ => true end) columns)
      ("name" :: copied_keys) = true) as Hall by (vm_compute; reflexivity).
    rewrite forallb_forall in Hall. apply Hall, existsb_exists in Hk as (c & Hc & [En%String.eqb_eq Ht]%andb_true_iff).
    exists c. split_and!; [done..|]. by destruct (c_type c). }
  destruct (Hs c Hc) as [Hb _]. revert Hb. generalize (col (c_name c) r). intros j Hb.
  destruct j as [|b|z|t|l|kv]; try done; destruct (c_type c); cbn in Hb; done.
Qed.
Lemma col_name r : stored r -> col "name" r = JStr (name r).
Proof. intros [_ Hn]. unfold name, col. by rewrite Hn. Qed.

Lemma import_fresh upd r rows x : named r -> taken (name r) rows = false ->
  exists r', import_one py_repr integer_affinity upd (export_data r) (rows, x)
             = Some (rows ++ [r'], Report (imported x ++ [JStr (name r)]) (updated x) (skipped x))
    /\ kept_row r r' /\ attr "name" r' = Some (Val (JStr (name r))).
Proof.
  intros [Hs Hne] Ht. pose proof (col_name r Hs) as En. unfold import_one, export_data.
  cbn [Json.is_dict negb List.map app exported_keys]. rewrite En.
  change (Json.get_or "name" JNull (JDict (("name", JStr (name r)) :: ?l))) with (JStr (name r)). cbn zeta.
  assert (Json.truthy (JStr (name r)) = true) as -> by (cbn; by destruct (name r)). cbn [negb].
  assert (find_by integer_affinity "name" (JStr (name r)) rows = Some None) as ->.
  { unfold find_by. cbn. f_equal. destruct (Table.first _ rows) as [q|] eqn:Ef; [|done]. exfalso.
    apply Table.first_Some in Ef as [Hq Eq%bool_decide_eq_true].
    change (attr "name" q = Some (Val (JStr (name r)))) in Eq.
    assert (taken (name r) rows = true) as Hy; [|congruence]. apply taken_spec. rewrite <-Eq. by apply in_map. }
  cbn [mbind option_bind]. match goal with |- context [insert _ _ ?v _] => set (vals := v) end.
  set (g := fun k => if String.eqb k "name" then JStr (name r) else if String.eqb k "is_system" then JBool false
                     else if String.eqb k "created_by" then JNull else if String.eqb k "updated_by" then JNull else col k r).
  destruct (insert_copy vals rows g) as (r' & -> & _ & Hr').
  - intros k Hk. destruct Hs as [Hs _]. specialize (Hs k Hk). cbn in Hk. clear Ht.
    repeat (destruct Hk as [<-|Hk]; [first [reflexivity|apply new_cell_copy; [done| |reflexivity]; first [exact Hs|cbn in Hs; rewrite <-En; exact Hs]]|]). done.
  - intros q Hq E. change (attr "name" q = Some (Val (JStr (name r)))) in E. assert (taken (name r) rows = true) as Hy; [|congruence].
    apply taken_spec. rewrite <-E. by apply in_map.
  - exists r'. split; [reflexivity|]. assert (forall k, In k (List.map c_name columns) -> col k r' = g k) as Hcol
      by (intros k Hk; unfold col; by rewrite (Hr' k Hk)). split; [split|by apply Hr'; left].
    + unfold is_custom. rewrite Hcol by (cbn; tauto). done.
    + intros k Hk. rewrite Hcol by (cbn in Hk |- *; tauto). cbn in Hk. clear - Hk En. repeat (destruct Hk as [<-|Hk]; [done|]). done.
Qed.

Lemma import_all_fresh upd l : forall rows x, Forall named l -> NoDup (List.map name l) -> (forall r, In r l -> taken (name r) rows = false) ->
  exists news, import_all py_repr integer_affinity upd (List.map export_data l) (rows, x)
               = Some (rows ++ news, Report (imported x ++ List.map (fun r => JStr (name r)) l) (updated x) (skipped x))
    /\ Forall2 kept_row l news.
Proof.
  induction l as [|r l IH]; intros rows x Hl Hnd Hfree.
  - exists []. cbn. rewrite !app_nil_r. destruct x. by split.
  - apply Forall_cons in Hl as [Hr Hl]. cbn [List.map] in Hnd. apply NoDup_cons in Hnd as [Hnr Hnd].
    destruct (import_fresh upd r rows x Hr (Hfree r ltac:(by left))) as (r' & E & Hk & En).
    destruct (IH (rows ++ [r']) (Report (imported x ++ [JStr (name r)]) (updated x) (skipped x)) Hl Hnd) as (news & E' & Hnews).
    + intros q Hq. unfold taken. rewrite existsb_app. fold (taken (name q) rows). rewrite Hfree by (by right). cbn [existsb orb]. rewrite En, orb_false_r.
      apply bool_decide_eq_false. intros [= Eq]. apply Hnr. rewrite Eq. by apply list_elem_of_In, in_map.
    + exists (r' :: news). cbn [List.map import_all]. rewrite E. cbn [mbind option_bind]. rewrite E'. cbn [imported updated skipped List.map].
      split; [by rewrite <-!app_assoc|by constructor].
Qed.

Lemma export_distinct l : Forall stored l -> JsonText.distinct_keys (JList (List.map export_data l)) = true.
Proof.
  intros Hl. cbn. apply forallb_forall. intros j (r & <- & Hr)%in_map_iff. rewrite Forall_forall in Hl.
  specialize (Hl r ltac:(by apply list_elem_of_In)). unfold export_data. cbn -[bool_decide]. apply andb_true_iff. split.
  - apply bool_decide_eq_true. refine (bool_decide_eq_true_1 _ _). by vm_compute.
  - rewrite !(stored_leaf r _ Hl) by (cbn; tauto). done.
Qed.

(** C27: The file with all templates, imported on an installation where their names are free,
    brings every one of them, with all that makes it up, and changes nothing else. *)
Theorem exported_templates_come_back rows rows0 upd trail
  (Hn : Forall named (List.filter is_custom rows)) (Hnd : NoDup (List.map name rows))
  (Hfree : forall r, In r rows -> is_custom r = true -> taken (name r) rows0 = false) :
  exists news trail' data m,
    import_text py_repr integer_affinity (export_all rows) upd rows0 trail = (rows0 ++ news, trail', Success 200 data m)
    /\ Forall2 kept_row (List.filter is_custom rows) news.
Proof.
  set (l := List.filter is_custom rows) in *. unfold import_text, export_all. fold l.
  rewrite JsonText.loads_in_order by (apply export_distinct; eapply Forall_impl; [exact Hn|by intros r []]).
  assert (NoDup (List.map name l)) as Hndl.
  { unfold l. clear -Hnd. induction rows as [|r rows IH]; [constructor|]. cbn in Hnd |- *. apply NoDup_cons in Hnd as [Hnr Hnd].
    destruct (is_custom r); [|by apply IH]. cbn. apply NoDup_cons. split; [|by apply IH].
    intros (q & E & [Hq _]%filter_In)%list_elem_of_In%in_map_iff. apply Hnr. rewrite <-E. by apply list_elem_of_In, in_map. }
  destruct (import_all_fresh upd l rows0 (Report [] [] []) Hn Hndl) as (news & -> & Hnews).
  - intros r [Hr Hc]%filter_In. by apply Hfree.
  - unfold import_message, joined. cbn [imported updated skipped app].
    assert (mapM as_text (List.map (fun r => JStr (name r)) l) = Some (List.map name l)) as ->
      by (clear; induction l as [|r l IH]; cbn; [done|by rewrite IH]).
    cbn -[Str.join]. exists news. do 3 eexists. split; [reflexivity|done].
Qed.

(** ** What one import breaks *)

Definition poison : json := JDict [("name", JStr "broken"); ("extensions_template", JStr "oops")].
Lemma filter_keeps_member {A B} (f : A -> option B) l x : In x l -> f x = None -> mapM f l = None.
Proof.
  intros Hx Hf. destruct (mapM f l) as [m|] eqn:E; [|done]. apply mapM_Some in E.
  apply list_elem_of_In, list_elem_of_lookup in Hx as [i Hi]. destruct (Forall2_lookup_l _ _ _ _ _ E Hi) as (y & _ & Hy). congruence.
Qed.
(** The import does not look at what it stores: after one file whose extensions are no
    JSON, which is answered with success, no listing of the templates succeeds. *)
Theorem import_breaks_the_listing upd rows trail (Hfree : taken "broken" rows = false) :
  exists rows' trail' data m,
    import_text py_repr integer_affinity (JsonText.dumps_in_order poison) upd rows trail = (rows', trail', Success 200 data m)
    /\ list_templates None None "" rows' = Raised.
Proof.
  unfold import_text. rewrite (JsonText.loads_in_order poison eq_refl). cbn [poison import_all import_one].
  assert (find_by integer_affinity "name" (JStr "broken") rows = Some None) as E.
  { unfold find_by. cbn. f_equal. destruct (Table.first _ rows) as [q|] eqn:Ef; [|done]. exfalso.
    apply Table.first_Some in Ef as [Hq Eq%bool_decide_eq_true].
    change (attr "name" q = Some (Val (JStr "broken"))) in Eq.
    assert (taken "broken" rows = true) as Hy; [|congruence]. apply taken_spec. rewrite <-Eq. by apply in_map. }
  cbn -[find_by insert list_templates columns]. rewrite E. cbn -[find_by insert list_templates columns].
  match goal with |- context [insert _ _ ?v _] => set (vals := v) end. assert (exists cs, mapM (new_cell integer_affinity vals []) columns = Some cs /\ In ("extensions_template", Val (JStr "oops")) cs
    /\ Json.assoc "extensions_template" cs = Some (Val (JStr "oops")) /\ Json.assoc "dn_template" cs = Some (Val JNull)
    /\ forall k c, In k columns -> c_unique k = true -> In (c_name k, c) cs -> c = Val (JStr "broken") /\ c_name k = "name") as (cs & Hcs & _ & Hx & Hdn & Hu).
  { eexists. split; [reflexivity|]. split_and!; [cbn; tauto|reflexivity|reflexivity|]. intros k c Hk Hu Hin.
    cbn in Hk. repeat (destruct Hk as [<-|Hk]; [try discriminate Hu|]); [|done]. cbn in Hin.
    repeat (destruct Hin as [Hin|Hin]; [try discriminate Hin; by injection Hin as <-|]). done. }
  rewrite (insert_fresh integer_affinity columns vals rows cs Hcs).
  2: { intros k c Hk Hk' Hin r Hr. destruct (Hu k c Hk Hk' Hin) as [-> ->]. intros Er. assert (taken "broken" rows = true) as Hy; [|congruence].
       apply taken_spec. rewrite <-Er. by apply in_map. }
  cbn -[list_templates]. do 4 eexists. split; [reflexivity|]. unfold list_templates.
  rewrite (filter_keeps_member to_dict _ (Row (Table.next_id r_id rows) cs)); [done| |].
  - apply filter_In. split; [apply in_app_iff; right; by left|done].
  - unfold to_dict, parsed, col, attr. cbn [String.eqb Ascii.eqb Bool.eqb cells]. rewrite Hx, Hdn. reflexivity.
Qed.

(** The route deletes a template that certificates use; the service, which the route does
    not call, would refuse. *)
Theorem used_templates_are_deleted i rows d trail r c
  (Hr : get_template_row i rows = Some r) (Hs : is_system r = false) (Hc : In c (certs d)) (Huse : template_id c = Some i) :
  (exists m, service_delete i rows d = (rows, Some m))
  /\ exists rows' trail', delete_template i rows trail = (rows', trail', Success 204 JNull "") /\ get_template_row i rows' = None.
Proof.
  unfold service_delete, delete_template. rewrite Hr, Hs. split.
  - set (used := List.filter _ _). assert (In c used) as Hin by (apply filter_In; split; [done|by apply bool_decide_eq_true]).
    destruct used as [|c0 l]; [done|]. cbn. by eexists.
  - do 2 eexists. split; [reflexivity|]. unfold get_template_row.
    destruct (Table.first _ (Table.delete _ rows)) as [q|] eqn:E; [|done]. exfalso.
    apply Table.first_Some in E as [[_ Hn]%Table.In_delete Hq]. congruence.
Qed.

(** * The system templates *)

Lemma seed_loop_spec l : forall rows n rows' n', seed_loop integer_affinity l rows n = Some (rows', n') ->
  (forall nm vals, In (nm, vals) l -> Json.assoc "name" vals = Some (Val (JStr nm))) ->
  (forall r, In r rows -> In r rows') /\ forall nm vals, In (nm, vals) l -> taken nm rows' = true.
Proof.
  induction l as [|[nm vals] l IH]; intros rows n rows' n'; cbn -[insert]; [by intros [= <- _]|]. intros E Hnames.
  assert (forall rows1 n1, (forall r, In r rows -> In r rows1) -> taken nm rows1 = true -> seed_loop integer_affinity l rows1 n1 = Some (rows', n') ->
    (forall r, In r rows -> In r rows') /\ forall nm0 vals0, (nm, vals) = (nm0, vals0) \/ In (nm0, vals0) l -> taken nm0 rows' = true) as Hgo.
  { intros rows1 n1 Hsub Ht E1. destruct (IH rows1 n1 rows' n' E1 ltac:(intros; apply Hnames; by right)) as [Hin Hall]. split; [intros r Hr; by apply Hin, Hsub|].
    intros nm0 vals0 [[= <- <-]|Hl]; [|by eapply Hall]. apply taken_spec in Ht as (r & Er & Hr)%in_map_iff. apply taken_spec, in_map_iff.
    exists r. split; [done|]. by apply Hin. }
  destruct (taken nm rows) eqn:Et; [by apply (Hgo rows n)|]. apply bind_Some in E as (rows1 & E1 & E).
  pose proof E1 as (cs & Hcs & ->)%insert_spec. eapply Hgo; [| |exact E].
  - intros r Hr. apply in_app_iff. by left.
  - apply taken_spec, in_map_iff. exists (Row (Table.next_id r_id rows) cs). split; [|apply in_app_iff; right; by left].
    destruct (new_cells_attr _ _ _ _ _ name_column Hcs columns_distinct) as (c & Hc & Ha); [by left|].
    unfold new_cell in Hc. cbn [c_name name_column Backup.required Backup.unique Backup.text] in *. rewrite (Hnames nm vals ltac:(by left)) in Hc.
    assert (is_null (Val (JStr nm)) = false) as E0 by done. rewrite E0 in Hc. cbn -[checked] in Hc.
    apply bind_Some in Hc as (w & Hw & Ec). injection Ec as Ec. apply checked_Some in Hw. subst. exact Ha.
Qed.
Lemma seed_again l : forall rows n, (forall nm vals, In (nm, vals) l -> taken nm rows = true) -> seed_loop integer_affinity l rows n = Some (rows, n).
Proof.
  induction l as [|[nm vals] l IH]; intros rows n Hall; [done|]. cbn. rewrite (Hall nm vals) by (by left). apply IH. intros nm0 v0 Hin.
  apply (Hall nm0 v0). by right.
Qed.

Lemma seed_loop_total l : (forall nm vals, In (nm, vals) l -> exists cs, mapM (new_cell integer_affinity vals []) columns = Some cs
    /\ forall k c, In k columns -> c_unique k = true -> In (c_name k, c) cs -> c = Val (JStr nm) /\ c_name k = "name") ->
  forall rows n, exists rows' n', seed_loop integer_affinity l rows n = Some (rows', n').
Proof.
  induction l as [|[nm vals] l IH]; intros Hl rows n; cbn -[insert]; [by do 2 eexists|].
  assert (forall nm vals, In (nm, vals) l -> exists cs, mapM (new_cell integer_affinity vals []) columns = Some cs
    /\ forall k c, In k columns -> c_unique k = true -> In (c_name k, c) cs -> c = Val (JStr nm) /\ c_name k = "name") as Hl'
    by (intros nm0 v0 Hin; apply Hl; by right).
  destruct (taken nm rows) eqn:Et; [by apply IH|]. destruct (Hl nm vals ltac:(by left)) as (cs & Hcs & Hu).
  rewrite (insert_fresh integer_affinity columns vals rows cs Hcs); [by apply IH|].
  intros k c Hk Hk' Hin r Hr Er. destruct (Hu k c Hk Hk' Hin) as [-> En]. rewrite En in Er.
  assert (taken nm rows = true) as Hy; [|congruence]. apply taken_spec. rewrite <-Er. by apply in_map.
Qed.

(** Seeding always succeeds, leaves what is there alone, and provides all system
    templates; seeding again adds nothing. *)
Theorem seeding_is_idempotent rows : exists rows' n,
  seed_system_templates integer_affinity rows = Some (rows', n)
  /\ (forall r, In r rows -> In r rows')
  /\ (forall p, In p SYSTEM_TEMPLATES -> taken p.1 rows' = true)
  /\ seed_system_templates integer_affinity rows' = Some (rows', 0%nat).
Proof.
  unfold seed_system_templates. destruct (seed_loop_total SYSTEM_TEMPLATES) with (rows := rows) (n := 0%nat) as (rows' & n & E).
  { intros nm vals Hin. repeat (destruct Hin as [[= <- <-]|Hin]; [eexists; split; [reflexivity|]|]); [..|done].
    all: intros k c Hk Hu Hc; cbn in Hk; repeat (destruct Hk as [<-|Hk]; [try discriminate Hu|]); [|done].
    all: cbn in Hc; repeat (destruct Hc as [Hc|Hc]; [try discriminate Hc; by injection Hc as <-|]); done. }
  exists rows', n. split; [done|]. destruct (seed_loop_spec _ _ _ _ _ E) as [Hin Hall].
  { intros nm vals Hp. repeat (destruct Hp as [[= <- <-]|Hp]; [done|]). done. }
  split_and!; [done|intros [nm vals] Hp; by eapply Hall|]. by apply seed_again.
Qed.
End Values.

(** * Runs *)
Module Runs.
Definition no_repr (j : json) : string := "".
Definition affinity (s : string) : json := JStr s.
Definition plain (s : string) : string := s.
#[local] Existing Instance list_sink.

Definition ask : json := JDict [("name", JStr "Mine"); ("template_type", JStr "custom")].
Definition seeded : list row := default [] (fst <$> seed_system_templates affinity []).
Definition t1 : list row := (create_template affinity ask "admin" seeded ([] : list string)).1.1.
Definition mine : row := List.last t1 (Row 0 []).
Lemma seeded_consistent : consistent seeded.
Proof. split; refine (bool_decide_eq_true_1 _ _); vm_compute; reflexivity. Qed.
Lemma mine_stored : named affinity mine.
Proof.
  split; [|by vm_compute]. split; [|by vm_compute]. intros k Hk. cbn in Hk.
  repeat (destruct Hk as [<-|Hk]; [vm_compute; done|]). done.
Qed.

Lemma system_templates_witness : consistent t1 /\ List.filter is_system t1 = seeded.
Proof.
  refine (system_templates_are_kept (H := list_sink) no_repr affinity plain (seeded, [] : list string)
    (t1, (create_template affinity ask "admin" seeded ([] : list string)).1.2) seeded_consistent _).
  eapply rtc_once, (Create no_repr affinity plain ask "admin" seeded [] _ _ (create_template affinity ask "admin" seeded ([] : list string)).2).
  vm_compute. reflexivity.
Defined.

Lemma copies_witness : exists clone trail a, duplicate_template affinity (S (length t1)) 7 "admin" t1 ([] : list string) = Some (t1 ++ [clone], trail, a)
  /\ taken (name clone) t1 = false.
Proof.
  destruct (copies_find_a_name (H := list_sink) affinity 7 "admin" t1 ([] : list string) mine) as (clone & trail & a & E & Hf & _).
  - vm_compute. reflexivity.
  - exact (proj1 mine_stored).
  - exists clone, trail, a. split; [exact E|exact Hf].
Defined.

Lemma come_back_witness : exists news trail' data m,
  import_text no_repr affinity (export_all t1) false seeded ([] : list string) = (seeded ++ news, trail', Success 200 data m)
  /\ Forall2 kept_row [mine] news.
Proof.
  refine (exported_templates_come_back (H := list_sink) no_repr affinity t1 seeded false ([] : list string) _ _ _).
  - change (List.filter is_custom t1) with [mine]. apply Forall_singleton. exact mine_stored.
  - refine (bool_decide_eq_true_1 _ _). vm_compute. reflexivity.
  - intros r Hr Hc. assert (In r [mine]) as [<-|[]] by (change [mine] with (List.filter is_custom t1); by apply filter_In).
    vm_compute. reflexivity.
Defined.

Lemma breaks_witness : exists rows' trail' data m,
  import_text no_repr affinity (JsonText.dumps_in_order poison) false t1 ([] : list string) = (rows', trail', Success 200 data m)
  /\ list_templates None None "" rows' = Raised.
Proof. refine (import_breaks_the_listing (H := list_sink) no_repr affinity false t1 ([] : list string) _). vm_compute. reflexivity. Defined.

Definition leaf : certificate :=
  Certificate 1 "cert-1" "www" None None None None None None None None None None None None None None None None None None None
    None None None None None None None None None (Some 7) None.
Lemma used_witness : exists rows' trail', delete_template 7 t1 ([] : list string) = (rows', trail', Success 204 JNull "").
Proof.
  destruct (used_templates_are_deleted (H := list_sink) 7 t1 (Db [] [leaf] [] []) ([] : list string) mine leaf) as [_ (rows' & trail' & E & _)];
    [vm_compute; reflexivity|vm_compute; reflexivity|by left|reflexivity|].
  exists rows', trail'. exact E.
Defined.

(** A variable's value is itself searched for the variables that follow. *)
Example rendered_twice :
  substitute [("hostname", "{username}"); ("username", "root")] "{hostname}" = "root".
Proof. reflexivity. Qed.
End Runs.
End TemplatesFacts.
