(* ===== verification/UserCerts.v ===== *)
(** The certificates of users: [api/v2/user_certificates.py].  An enrolment is a row of
    [CertLogin] with its date; the certificate behind it is the first row of the
    certificate table with its serial number.  The facts say who sees what, that exports end
    on any table of CAs, and what revoking and deleting do to logins and CRLs. *)
From S2P Require Import Prelude Base64 Auth AuditSink AuditLog Encryption Pki PkiFacts CertLogin CertLoginFacts CertModel CertListing CaModel CertRoutes CertActions CertExport CertRoutesFacts ManageFacts JsonText.

Module UserCerts.
Import CertModel CertRoutes.
Local Open Scope string_scope.
Local Open Scope list_scope.
Local Open Scope Z_scope.

Record enrolment := Enrolment { row : CertLogin.auth_cert; enrolled_at : option Z }.
Record world := World { tables : db; enrolled : list enrolment }.
Definition e_id (e : enrolment) : Z := CertLogin.c_id (row e).
Definition e_user (e : enrolment) : Z := CertLogin.c_user_id (row e).
Definition e_name (e : enrolment) : string := CertLogin.c_name (row e).
Definition get_enrolment (i : Z) (w : world) : option enrolment := Table.first (fun e => e_id e =? i) (enrolled w).

Definition is_admin_or_operator (u : Auth.user) : bool := existsb (String.eqb (Auth.u_role u)) ["admin"; "operator"].
Definition is_auditor (u : Auth.user) : bool := String.eqb (Auth.u_role u) "auditor".
Definition can_access_cert (u : Auth.user) (e : enrolment) : bool :=
  is_admin_or_operator u || is_auditor u || (e_user e =? Auth.u_id u).
Definition certificate_for (e : enrolment) (d : db) : option certificate :=
  Table.first (fun c => bool_decide (serial_number c = Some (CertLogin.c_serial (row e)))) (certs d).

(** * Responses *)

Definition status (now : Z) (c : certificate) : string :=
  if true_flag (revoked c) then "revoked"
  else match valid_to c with
  | Some t => if t <=? now then "expired" else if t <=? now + Time.days 30 then "expiring" else "valid"
  | None => "valid"
  end.
(** The first part of the subject that names a CN, whatever its case. *)
Definition subject_name (c : certificate) : string :=
  match List.find (fun p => Str.startswith (Str.upper p) "CN=") (List.map Str.strip (Str.split "," (default "" (subject c)))) with
  | Some p => Str.drop 3 p
  | None => ""
  end.
Definition first_text (l : list string) : string := default "" (List.find Str.truthy l).
Definition enrolment_dict (e : enrolment) : list (string * json) :=
  let r := row e in
  [("id", JInt (CertLogin.c_id r)); ("user_id", JInt (CertLogin.c_user_id r)); ("cert_serial", JStr (CertLogin.c_serial r));
   ("cert_subject", JStr (CertLogin.c_subject r)); ("cert_issuer", text (CertLogin.c_issuer r));
   ("cert_fingerprint", text (CertLogin.c_fingerprint r)); ("name", JStr (CertLogin.c_name r));
   ("enabled", JBool (CertLogin.c_enabled r)); ("valid_from", moment (CertLogin.c_valid_from r));
   ("valid_until", moment (CertLogin.c_valid_until r)); ("created_at", moment (enrolled_at e));
   ("last_used_at", moment (CertLogin.c_last_used_at r))].
Definition set_all (l kv : list (string * json)) : list (string * json) :=
  fold_left (fun kv p => JsonText.set_item p.1 p.2 kv) l kv.

Section Routes.
Context `{Inspection} `{Pki.X509} `{Keys} `{Fernet} `{CertExport.Formats} (encryption_enabled : bool) {T} `{AuditSink T}.
Context (library_error : string) (py_repr : json -> string).
(** [User.query.get(...).username] *)
Context (username_of : Z -> option string).

Definition build_cert_response (now : Z) (e : enrolment) (found : option certificate) : list (string * json) :=
  set_all
    (match found with
     | Some c =>
         let cn := JStr (first_text [subject_name c; e_name e; descr c]) in
         [("cert_id", JInt (id c)); ("refid", JStr (refid c)); ("description", JStr (descr c)); ("subject", text (subject c));
          ("issuer", text (issuer c)); ("serial_number", text (serial_number c)); ("valid_from", moment (valid_from c));
          ("valid_to", moment (valid_to c)); ("cert_type", text (cert_type c)); ("revoked", JBool (true_flag (revoked c)));
          ("has_private_key", JBool (AuditLog.otruthy (prv c))); ("caref", text (caref c)); ("common_name", cn); ("cn", cn);
          ("key_algorithm", JStr (first_text [key_algorithm c; "RSA"])); ("key_size", JInt (key_size c));
          ("signature_algorithm", JStr (signature_algorithm c)); ("status", JStr (status now c))]
         ++ match valid_to c with Some t => [("days_remaining", JInt (Time.delta_days (t - now)))] | None => [] end
     | None =>
         [("status", JStr "orphan"); ("has_private_key", JBool false); ("common_name", JStr (e_name e)); ("cn", JStr (e_name e))]
     end
     ++ match username_of (e_user e) with
        | Some name => [("owner", JStr name); ("owner_id", JInt (e_user e))]
        | None => []
        end)
    (enrolment_dict e).

Inductive reply :=
| Success (data : json) (message : string)
| File (body filename : string)
| NoContent
| Failure (code : Z) (message : string)
| Raised.

(** * Reading *)

Definition status_wanted (now : Z) (wanted : option string) (c : certificate) : bool :=
  match filled wanted with
  | Some "revoked" => true_flag (revoked c)
  | Some "expired" => CertListing.before now c && negb (true_flag (revoked c))
  | Some "valid" => CertListing.after now c && negb (true_flag (revoked c))
  | Some "expiring" => CertListing.after now c && CertListing.before (now + Time.days 30) c && negb (true_flag (revoked c))
  | _ => true
  end.
Definition sort_columns : list (string * (enrolment -> CertListing.cell)) :=
  [("created_at", fun e => CertListing.of_number (enrolled_at e)); ("name", fun e => CertListing.Text (e_name e));
   ("valid_until", fun e => CertListing.of_number (CertLogin.c_valid_until (row e)));
   ("last_used_at", fun e => CertListing.of_number (CertLogin.c_last_used_at (row e)))].
Definition visible (u : Auth.user) (user_filter : Z) (e : enrolment) : bool :=
  if negb (is_admin_or_operator u) && negb (is_auditor u) then e_user e =? Auth.u_id u
  else if negb (user_filter =? 0) then e_user e =? user_filter else true.
Definition searched (search : string) (e : enrolment) : bool :=
  if Str.truthy search then
    let p := "%" ^+ search ^+ "%" in
    existsb (fun t => CertListing.ilike p (Some t)) [e_name e; CertLogin.c_subject (row e); CertLogin.c_serial (row e)]
  else true.
(** The enrolments of a page: the status is looked at after the page was cut. *)
Definition listed (u : Auth.user) (q : CertListing.args) (w : world) : list enrolment :=
  let key := default (fun e => CertListing.of_number (enrolled_at e)) (Json.assoc (CertListing.arg "sort_by" "created_at" q) sort_columns) in
  CertListing.sort (CertListing.row_le [(key, negb (String.eqb (CertListing.arg "sort_order" "desc" q) "asc"))])
    (List.filter (searched (Str.strip (CertListing.arg "search" "" q)))
       (List.filter (visible u (CertListing.int_arg "user_id" 0 q)) (enrolled w))).
(** What [paginate] makes of the numbers. *)
Definition page_number (page : Z) : Z := Z.max 1 page.
Definition page_size (per_page : Z) : Z := if per_page <? 1 then 20 else per_page.
Definition page_items (now : Z) (u : Auth.user) (q : CertListing.args) (w : world) : list enrolment :=
  let page := page_number (CertListing.int_arg "page" 1 q) in
  let per_page := page_size (Z.min (CertListing.int_arg "per_page" 25 q) 100) in
  List.filter (fun e => match certificate_for e (tables w) with Some c => status_wanted now (Json.assoc "status" q) c | None => true end)
    (CertListing.page_slice page per_page (listed u q w)).
Definition list_user_certificates (now : Z) (u : Auth.user) (q : CertListing.args) (w : world) : reply :=
  let page := CertListing.int_arg "page" 1 q in
  let per_page := Z.min (CertListing.int_arg "per_page" 25 q) 100 in
  let total := Z.of_nat (length (listed u q w)) in
  if 2 ^ 63 <=? (page_number page - 1) * page_size per_page then Raised
  else
    Success (JDict [("items", JList (List.map (fun e => JDict (build_cert_response now e (certificate_for e (tables w)))) (page_items now u q w)));
                    ("total", JInt total); ("page", JInt page); ("per_page", JInt per_page);
                    ("pages", JInt ((total + page_size per_page - 1) / page_size per_page))]) "".

Record counts := Counts { total : Z; valid : Z; expiring : Z; expired : Z; is_revoked : Z; users : option Z }.
Definition get_user_certificate_stats (now : Z) (u : Auth.user) (w : world) : counts :=
  let mine := List.filter (visible u 0) (enrolled w) in
  let found := omap (fun e => certificate_for e (tables w)) mine in
  let count s := Z.of_nat (length (List.filter (fun c => String.eqb (status now c) s) found)) in
  Counts (Z.of_nat (length mine)) (count "valid") (count "expiring") (count "expired") (count "revoked")
    (if is_admin_or_operator u || is_auditor u
     then Some (Z.of_nat (length (remove_dups (List.map e_user (enrolled w))))) else None).

Definition get_user_certificate (i now : Z) (u : Auth.user) (w : world) : reply :=
  match get_enrolment i w with
  | None => Failure 404 "Certificate not found"
  | Some e =>
      if negb (can_access_cert u e) then Failure 404 "Certificate not found"
      else Success (JDict (build_cert_response now e (certificate_for e (tables w)))) ""
  end.

(** * Export *)

(** The CA and the CAs above it, until one is met again; [None]: out of fuel. *)
Fixpoint ca_line (fuel : nat) (seen : list string) (a : option CaModel.ca) (d : db) : option (list CaModel.ca) :=
  match a with
  | None => Some []
  | Some a =>
      match fuel with
      | O => None
      | S fuel =>
          if existsb (String.eqb (CaModel.a_refid a)) seen then Some []
          else cons a <$> ca_line fuel (CaModel.a_refid a :: seen) (filled (CaModel.a_caref a) ≫= (fun r => ca_by_refid r d)) d
      end
  end.
Definition line_of (fuel : nat) (include_chain : bool) (c : certificate) (d : db) : option (list CaModel.ca) :=
  if include_chain then ca_line fuel [] (CertExport.chain_start c d) d else Some [].
Definition columns_of (l : list CaModel.ca) : list string := List.filter Str.truthy (List.map CaModel.a_crt l).

Definition export_event (i : Z) (kind base : string) : event :=
  Event "user_certificate_exported" (Some "user_certificate") (AInt i) (AStr base)
    (AStr ("Exported " ^+ kind ^+ " for user cert: " ^+ base)) true None.
(** The outer [None] is a loop that still runs, an inner one an exception. *)
Definition export_p12 (fuel : nat) (base password : string) (include_chain : bool) (c : certificate) (cert_pem : string) (d : db)
  : option (option reply) :=
  if (String.length password <? 8)%nat then Some (Some (Failure 400 "Password required (minimum 8 characters) for PKCS12 export"))
  else match filled (prv c) with
  | None => Some (Some (Failure 400 "Certificate has no private key for PKCS12 export"))
  | Some col =>
      match (x ← Pki.load_cert cert_pem; k ← Base64.b64decode col; key ← Pki.load_key k; Some (x, key)) with
      | None => Some None
      | Some (x, key) =>
          l ← line_of fuel include_chain c d;
          Some (body ← CertExport.serialize_p12 base key x (take 10 (omap CertExport.read_cert (columns_of l))) password;
                Some (File body (base ^+ ".p12")))
      end
  end.
Definition export_pem (fuel : nat) (base : string) (include_key include_chain : bool) (c : certificate) (cert_pem : string) (d : db)
  : option (option reply) :=
  match (match filled (prv c) with
         | Some col => if include_key then (fun k => (CertExport.append_part cert_pem k, base ^+ ".pem")) <$> Base64.b64decode col
                       else Some (cert_pem, base ^+ ".crt")
         | None => Some (cert_pem, base ^+ ".crt")
         end) with
  | None => Some None
  | Some (result, filename) =>
      l ← line_of fuel include_chain c d;
      Some (parts ← mapM Base64.b64decode (columns_of l); Some (File (fold_left CertExport.append_part parts result) filename))
  end.
Definition export_user_certificate (fuel : nat) (i : Z) (u : Auth.user) (q : CertListing.args) (w : world) (trail : T)
  : option (T * reply) :=
  let fail code m := Some (trail, Failure code m) in
  if is_auditor u then fail 403 "Auditors cannot export certificates"
  else match get_enrolment i w with
  | None => fail 404 "Certificate not found"
  | Some e =>
      if negb (can_access_cert u e) then fail 404 "Certificate not found"
      else match certificate_for e (tables w) with
      | None => fail 404 "Certificate data not found"
      | Some c =>
          let flag k := String.eqb (Str.lower (CertListing.arg k "true" q)) "true" in
          let base := CertExport.sanitize_filename (first_text [e_name e; descr c; refid c]) in
          match crt c ≫= Base64.b64decode with
          | None => fail 500 "Failed to export certificate"
          | Some cert_pem =>
              let p12 := existsb (String.eqb (Str.lower (CertListing.arg "format" "pem" q))) ["pkcs12"; "p12"; "pfx"] in
              r ← (if p12 then export_p12 fuel base (CertListing.arg "password" "" q) (flag "include_chain") c cert_pem (tables w)
                   else export_pem fuel base (flag "include_key") (flag "include_chain") c cert_pem (tables w));
              Some (match r with
                    | None => (trail, Failure 500 "Failed to export certificate")
                    | Some (File body name) =>
                        (record_event (export_event i (if p12 then "PKCS12" else "PEM") base) trail, File body name)
                    | Some r => (trail, r)
                    end)
          end
      end
  end.

(** * Writing *)

Definition disabled (e : enrolment) : enrolment :=
  let r := row e in
  Enrolment (CertLogin.AuthCert (CertLogin.c_id r) (CertLogin.c_user_id r) (CertLogin.c_pem r) (CertLogin.c_serial r)
    (CertLogin.c_subject r) (CertLogin.c_issuer r) (CertLogin.c_fingerprint r) (CertLogin.c_name r) false
    (CertLogin.c_valid_from r) (CertLogin.c_valid_until r) (CertLogin.c_last_used_at r)) (enrolled_at e).
Definition revoke_user_certificate (i : Z) (request : json) (u : Auth.user) (now now' : Z) (w : world) (trail : T)
  : world * T * reply :=
  let fail code m := (w, trail, Failure code m) in
  match get_enrolment i w with
  | None => fail 404 "Certificate not found"
  | Some e =>
      match certificate_for e (tables w) with
      | None => fail 404 "Certificate data not found"
      | Some c =>
          if true_flag (revoked c) then fail 400 "Certificate already revoked"
          else
            let data := if Json.truthy request then request else JDict [] in
            if negb (Json.is_dict data) then (w, trail, Raised)
            else
              let reason := Json.get_or "reason" (JStr "unspecified") data in
              match column reason with
              | None => fail 500 "Failed to revoke certificate"
              | Some r =>
                  let shown := CertRoutes.py_str py_repr reason in
                  let '(d, trail, c') := CertActions.service_revoke encryption_enabled library_error c r shown (Auth.u_username u)
                                           now now' (tables w) trail in
                  let e' := disabled e in
                  let name := first_text [e_name e; descr c] in
                  (World d (Table.update (fun x => e_id x =? i) disabled (enrolled w)),
                   record_event (Event "user_certificate_revoked" (Some "user_certificate") (AInt i) (AStr name)
                     (AStr ("Revoked user certificate: " ^+ name ^+ " (reason: " ^+ shown ^+ ")")) true None) trail,
                   Success (JDict (build_cert_response now' e' (Some c'))) "Certificate revoked successfully")
              end
      end
  end.

Definition delete_user_certificate (i : Z) (u : Auth.user) (w : world) (trail : T) : world * T * reply :=
  match get_enrolment i w with
  | None => (w, trail, Failure 404 "Certificate not found")
  | Some e =>
      let name := if Str.truthy (e_name e) then e_name e else "User Certificate #" ^+ Num.str i in
      let d := match certificate_for e (tables w) with Some c => CertActions.remove_cert (id c) (tables w) | None => tables w end in
      (World d (Table.delete (fun x => e_id x =? i) (enrolled w)),
       record_event (Event "user_certificate_deleted" (Some "user_certificate") (AInt i) (AStr name)
         (AStr ("Deleted user certificate: " ^+ name ^+ " (by: " ^+ Auth.u_username u ^+ ")")) true None) trail,
       NoContent)
  end.
End Routes.
End UserCerts.

Module UserCertsFacts.
Import CertModel CertRoutes UserCerts.
Local Open Scope string_scope.
Local Open Scope list_scope.
Local Open Scope Z_scope.

Lemma insert_In {A} (le : A -> A -> bool) x l y : In y (CertListing.insert le x l) -> y = x \/ In y l.
Proof. induction l as [|z l IH]; cbn; [intuition congruence|]. destruct (le x z); cbn; intuition congruence. Qed.
Lemma sort_In {A} (le : A -> A -> bool) l y : In y (CertListing.sort le l) -> In y l.
Proof. induction l as [|x l IH]; [done|]. cbn. intros [->|Hy]%insert_In; [by left|right; by apply IH]. Qed.
Lemma slice_In {A} page per_page (l : list A) x : In x (CertListing.page_slice page per_page l) -> In x l.
Proof.
  unfold CertListing.page_slice. rewrite <-!list_elem_of_In. intros Hx%elem_of_take. destruct Hx as (i & Hi & _).
  rewrite lookup_drop in Hi. by apply list_elem_of_lookup_2 in Hi.
Qed.

Section Facts.
Context `{Inspection} `{Pki.X509} `{Keys} `{Fernet} `{CertExport.Formats} (encryption_enabled : bool) {T} `{AuditSink T}.
Context (library_error : string) (py_repr : json -> string) (username_of : Z -> option string).

(** * Who sees what *)

Definition ordinary (u : Auth.user) : Prop := is_admin_or_operator u = false /\ is_auditor u = false.

Definition own (u : Auth.user) (e : enrolment) : bool := e_user e =? Auth.u_id u.
(** Two worlds with the same enrolments of an account, the same certificates under the serial
    numbers of these, and the same CAs; everything else may differ. *)
Record same_view (u : Auth.user) (w w' : world) : Prop := {
  sv_own : List.filter (own u) (enrolled w') = List.filter (own u) (enrolled w);
  sv_certs e : In e (enrolled w) -> own u e = true -> certificate_for e (tables w') = certificate_for e (tables w);
  sv_cas : cas (tables w') = cas (tables w);
}.

Lemma ordinary_access u e : ordinary u -> can_access_cert u e = own u e.
Proof. intros [Ha Hb]. unfold can_access_cert. by rewrite Ha, Hb. Qed.
Lemma ordinary_visible u n : ordinary u -> visible u n = own u.
Proof. intros [Ha Hb]. unfold visible. by rewrite Ha, Hb. Qed.

(** The enrolment of an identifier, if it is the account's own. *)
Lemma own_enrolment u i w :
  NoDup (List.map e_id (enrolled w)) ->
  (e ← get_enrolment i w; if own u e then Some e else None) = Table.first (fun e => e_id e =? i) (List.filter (own u) (enrolled w)).
Proof.
  unfold get_enrolment, Table.first. induction (enrolled w) as [|e l IH]; [done|]. cbn [List.map].
  intros [Hn Hnd]%NoDup_cons. cbn [List.find List.filter]. destruct (Z.eqb_spec (e_id e) i) as [Ei|Ei].
  - cbn [mbind option_bind]. destruct (own u e); [cbn [List.find]; by rewrite Ei, Z.eqb_refl|].
    destruct (List.find (fun e0 => e_id e0 =? i) (List.filter (own u) l)) as [x|] eqn:Ex.
    2: reflexivity. apply find_some in Ex as [[Hx _]%filter_In Ex%Z.eqb_eq].
    exfalso. apply Hn, list_elem_of_In, in_map_iff. exists x. split; [congruence|done].
  - rewrite (IH Hnd). destruct (own u e); [|done]. cbn [List.find]. by rewrite (proj2 (Z.eqb_neq _ _) Ei).
Qed.
Lemma same_enrolment u i w w' :
  NoDup (List.map e_id (enrolled w)) -> NoDup (List.map e_id (enrolled w')) -> same_view u w w' ->
  (e ← get_enrolment i w'; if own u e then Some e else None) = (e ← get_enrolment i w; if own u e then Some e else None).
Proof. intros Hn Hn' Hv. rewrite !own_enrolment by done. by rewrite (sv_own _ _ _ Hv). Qed.

Lemma own_shown u i w e :
  (e ← get_enrolment i w; if own u e then Some e else None) = Some e -> In e (enrolled w) /\ e_id e = i /\ own u e = true.
Proof.
  destruct (get_enrolment i w) as [x|] eqn:E; [|done]. cbn [mbind option_bind]. destruct (own u x) eqn:Eo; [|done].
  intros [= ->]. apply Table.first_Some in E as [? ?%Z.eqb_eq]. done.
Qed.
Lemma get_shown u i now w : ordinary u ->
  get_user_certificate username_of i now u w
  = match (e ← get_enrolment i w; if own u e then Some e else None) with
    | None => Failure 404 "Certificate not found"
    | Some e => Success (JDict (build_cert_response username_of now e (certificate_for e (tables w)))) ""
    end.
Proof.
  intros Hu. unfold get_user_certificate. destruct (get_enrolment i w) as [e|]; [|done]. cbn [mbind option_bind].
  rewrite (ordinary_access u e Hu). by destruct (own u e).
Qed.
Lemma export_shown fuel u i q w (trail : T) : ordinary u ->
  export_user_certificate fuel i u q w trail
  = match (e ← get_enrolment i w; if own u e then Some e else None) with
    | None => Some (trail, Failure 404 "Certificate not found")
    | Some e => export_user_certificate fuel (e_id e) u q (World (tables w) [e]) trail
    end.
Proof.
  intros Hu. unfold export_user_certificate at 1. rewrite (proj2 Hu). destruct (get_enrolment i w) as [e|] eqn:Ee; [|reflexivity].
  apply Table.first_Some in Ee as [_ <-%Z.eqb_eq]. cbn [mbind option_bind]. rewrite (ordinary_access u e Hu). destruct (own u e) eqn:Eo; [|reflexivity]. cbn [negb].
  unfold export_user_certificate. rewrite (proj2 Hu). unfold get_enrolment, Table.first.
  cbn [enrolled List.find]. rewrite Z.eqb_refl, (ordinary_access u e Hu), Eo. reflexivity.
Qed.

Lemma ca_line_same fuel : forall seen a d d', cas d' = cas d -> ca_line fuel seen a d' = ca_line fuel seen a d.
Proof.
  induction fuel as [|fuel IH]; intros seen [a|] d d' E; try done. cbn [ca_line]. destruct (existsb _ seen); [done|].
  f_equal. unfold ca_by_refid. rewrite E. by apply IH.
Qed.
Lemma line_of_same fuel b c d d' : cas d' = cas d -> line_of fuel b c d' = line_of fuel b c d.
Proof.
  intros E. unfold line_of. destruct b; [|done]. rewrite (ca_line_same _ _ _ _ _ E). unfold CertExport.chain_start, ca_by_refid. by rewrite E.
Qed.

Lemma export_same fuel u i q e d d' (trail : T) :
  certificate_for e d' = certificate_for e d -> cas d' = cas d ->
  export_user_certificate fuel i u q (World d' [e]) trail = export_user_certificate fuel i u q (World d [e]) trail.
Proof.
  intros Hc Ha. unfold export_user_certificate. destruct (is_auditor u); [done|].
  change (get_enrolment i (World d' [e])) with (get_enrolment i (World d [e])).
  destruct (get_enrolment i (World d [e])) as [x|] eqn:E; [|done]. apply Table.first_Some in E as [[<-|[]] _].
  destruct (negb _); [done|]. cbn [tables]. rewrite Hc. destruct (certificate_for e d) as [c|]; [|done].
  destruct (crt c ≫= Base64.b64decode) as [pem|]; [|done]. cbv zeta. unfold export_p12, export_pem.
  by rewrite !(line_of_same _ _ _ _ _ Ha).
Qed.

Lemma listed_own u q w e : ordinary u -> In e (listed u q w) -> In e (enrolled w) /\ own u e = true.
Proof. intros Hu Hin%sort_In. rewrite (ordinary_visible u _ Hu) in Hin. by apply filter_In in Hin as [Hin%filter_In _]. Qed.
Lemma listed_same u q w w' : ordinary u -> same_view u w w' -> listed u q w' = listed u q w.
Proof. intros Hu Hv. unfold listed. by rewrite !(ordinary_visible u _ Hu), (sv_own _ _ _ Hv). Qed.
Lemma page_items_own now u q w e : ordinary u -> In e (page_items now u q w) -> In e (enrolled w) /\ own u e = true.
Proof. intros Hu [Hin%slice_In _]%filter_In. by apply (listed_own u q w e Hu). Qed.
Lemma page_items_same now u q w w' : ordinary u -> same_view u w w' -> page_items now u q w' = page_items now u q w.
Proof.
  intros Hu Hv. unfold page_items. rewrite (listed_same u q w w' Hu Hv). apply List.filter_ext_in.
  intros e Hin%slice_In. destruct (listed_own u q w e Hu Hin) as [He Ho]. by rewrite (sv_certs _ _ _ Hv e He Ho).
Qed.

(** C28: The listing, the counts, a single answer and the export of an account without one of
    the three roles depend on nothing but its own enrolments, the certificates under their
    serial numbers and the CAs: they are the same whatever enrolments and certificates the
    other accounts have.  What is listed or shown are its own enrolments, each with the
    certificate found under its serial number. *)
Theorem accounts_see_their_own u w w' (Hu : ordinary u)
  (Hn : NoDup (List.map e_id (enrolled w))) (Hn' : NoDup (List.map e_id (enrolled w'))) (Hv : same_view u w w') :
  (forall now q, list_user_certificates username_of now u q w' = list_user_certificates username_of now u q w)
  /\ (forall now, get_user_certificate_stats now u w' = get_user_certificate_stats now u w)
  /\ (forall i now, get_user_certificate username_of i now u w' = get_user_certificate username_of i now u w)
  /\ (forall fuel i q (trail : T), export_user_certificate fuel i u q w' trail = export_user_certificate fuel i u q w trail)
  /\ (forall now q data m, list_user_certificates username_of now u q w = Success data m ->
        exists l, (forall e, In e l -> In e (enrolled w) /\ e_user e = Auth.u_id u)
          /\ Json.get "items" data = Some (JList (List.map (fun e => JDict (build_cert_response username_of now e (certificate_for e (tables w)))) l)))
  /\ (forall i now data m, get_user_certificate username_of i now u w = Success data m ->
        exists e, In e (enrolled w) /\ e_id e = i /\ e_user e = Auth.u_id u
          /\ data = JDict (build_cert_response username_of now e (certificate_for e (tables w)))).
Proof.
  split_and!.
  - intros now q. unfold list_user_certificates. rewrite (listed_same u q w w' Hu Hv), (page_items_same now u q w w' Hu Hv).
    destruct (_ <=? _); [reflexivity|].
    enough (List.map (fun e => JDict (build_cert_response username_of now e (certificate_for e (tables w')))) (page_items now u q w)
            = List.map (fun e => JDict (build_cert_response username_of now e (certificate_for e (tables w)))) (page_items now u q w)) as -> by reflexivity.
    apply List.map_ext_in. intros e Hin.
    destruct (page_items_own now u q w e Hu Hin) as [He Ho]. by rewrite (sv_certs _ _ _ Hv e He Ho).
  - intros now. unfold get_user_certificate_stats. rewrite !(ordinary_visible u _ Hu), (sv_own _ _ _ Hv).
    assert (omap (fun e => certificate_for e (tables w')) (List.filter (own u) (enrolled w))
            = omap (fun e => certificate_for e (tables w)) (List.filter (own u) (enrolled w))) as ->.
    { pose proof (fun e He => sv_certs _ _ _ Hv e (proj1 (proj1 (filter_In _ _ _) He)) (proj2 (proj1 (filter_In (own u) e (enrolled w)) He))) as Hc.
      induction (List.filter (own u) (enrolled w)) as [|e l IH]; [done|]. csimpl.
      rewrite (Hc e (or_introl eq_refl)), IH; [done|]. intros x Hx. apply Hc. by right. }
    destruct Hu as [-> ->]. done.
  - intros i now. rewrite !(get_shown _ _ _ _ Hu), (same_enrolment u i w w' Hn Hn' Hv).
    destruct (e ← get_enrolment i w; _) as [e|] eqn:E; [|done]. apply own_shown in E as (He & _ & Ho).
    by rewrite (sv_certs _ _ _ Hv e He Ho).
  - intros fuel i q trail. rewrite !(export_shown _ _ _ _ _ _ Hu), (same_enrolment u i w w' Hn Hn' Hv).
    destruct (e ← get_enrolment i w; _) as [e|] eqn:E; [|done]. apply own_shown in E as (He & _ & Ho).
    apply export_same; [apply (sv_certs _ _ _ Hv e He Ho)|apply (sv_cas _ _ _ Hv)].
  - intros now q data m. unfold list_user_certificates. destruct (_ <=? _); [done|]. intros [= <- _].
    exists (page_items now u q w). split; [|done]. intros e Hin. destruct (page_items_own now u q w e Hu Hin) as [? Ho].
    split; [done|]. by apply Z.eqb_eq.
  - intros i now data m. rewrite (get_shown _ _ _ _ Hu). destruct (e ← get_enrolment i w; _) as [e|] eqn:E; [|done].
    apply own_shown in E as (He & Ei & Ho). intros [= <- _]. exists e. split_and!; [done|done|by apply Z.eqb_eq|done].
Qed.

(** * Exports end *)

Lemma ca_line_ends d fuel : forall seen a, NoDup seen -> incl seen (List.map CaModel.a_refid (cas d)) ->
  (forall b, a = Some b -> In b (cas d)) -> (length (cas d) < fuel + length seen)%nat -> is_Some (ca_line fuel seen a d).
Proof.
  induction fuel as [|fuel IH]; intros seen a Hnd Hincl Ha Hlen.
  - exfalso. apply NoDup_ListNoDup in Hnd. pose proof (List.NoDup_incl_length Hnd Hincl) as Hle. rewrite List.length_map in Hle. cbn in Hlen. lia.
  - cbn. destruct a as [a|]; [|by eexists]. destruct (existsb _ seen) eqn:Ee; [by eexists|].
    destruct (IH (CaModel.a_refid a :: seen) (filled (CaModel.a_caref a) ≫= (fun r => ca_by_refid r d))) as [l ->].
    + apply NoDup_cons. split; [|done]. intros Hin%list_elem_of_In. enough (existsb (String.eqb (CaModel.a_refid a)) seen = true) by congruence.
      apply existsb_exists. exists (CaModel.a_refid a). split; [done|by apply String.eqb_eq].
    + intros r [<-|Hr]; [by apply in_map, Ha|by apply Hincl].
    + intros b Hb. apply bind_Some in Hb as (r & _ & Hb). by apply Table.first_Some in Hb as [? _].
    + cbn. lia.
    + by eexists.
Qed.

(** Unlike the export of a certificate, that of a user certificate ends even when the CAs
    name each other in a circle: one round more than there are CAs is enough. *)
Theorem user_exports_end i u q w (trail : T) : is_Some (export_user_certificate (S (length (cas (tables w)))) i u q w trail).
Proof.
  assert (forall b c, is_Some (line_of (S (length (cas (tables w)))) b c (tables w))) as Hline.
  { intros b c. unfold line_of. destruct b; [|by eexists]. apply ca_line_ends; [by apply NoDup_nil_2|by intros ? []| |cbn; lia].
    intros a Ha. unfold CertExport.chain_start in Ha. apply bind_Some in Ha as (r & _ & Ha). by apply Table.first_Some in Ha as [? _]. }
  set (fuel := S _) in *. clearbody fuel. unfold export_user_certificate. destruct (is_auditor u); [by eexists|].
  destruct (get_enrolment i w) as [e|]; [|by eexists]. destruct (negb _); [by eexists|].
  destruct (certificate_for e (tables w)) as [c|]; [|by eexists]. cbn zeta. destruct (crt c ≫= _) as [pem|]; [|by eexists].
  match goal with |- is_Some (?r ≫= _) => assert (is_Some r) as [r' ->]; [|by eexists] end.
  destruct (existsb _ _).
  - unfold export_p12. destruct (_ <? 8)%nat; [by eexists|]. destruct (filled (prv c)); [|by eexists].
    destruct (x ← _; _) as [[x k]|]; [|by eexists]. destruct (Hline (String.eqb (Str.lower (CertListing.arg "include_chain" "true" q)) "true") c) as [l ->].
    by eexists.
  - unfold export_pem. set (first := match filled (prv c) with Some _ => _ | None => _ end). destruct first as [[result fn]|]; [|by eexists].
    destruct (Hline (String.eqb (Str.lower (CertListing.arg "include_chain" "true" q)) "true") c) as [l ->]. by eexists.
Qed.

(** * Revoking *)

(** C29: A user certificate that was revoked logs nobody in any more, and its row is marked. *)
Theorem revoked_user_certificates_log_nobody_in i request u now now' w (trail : T) w' trail' data m e c
  (Hr : revoke_user_certificate encryption_enabled library_error py_repr username_of i request u now now' w trail = (w', trail', Success data m))
  (He : get_enrolment i w = Some e) (Hc : certificate_for e (tables w) = Some c) (Hids : NoDup (List.map id (certs (tables w)))) :
  (exists c', get_cert (id c) (tables w') = Some c' /\ revoked c' = Some true /\ serial_number c' = serial_number c)
  /\ forall st info serial found t, CertLogin.enrolled st = List.map row (enrolled w') -> CertLogin.i_serial info = Some serial ->
       Str.truthy serial = true -> CertLogin.find_enrolled serial (CertLogin.i_fingerprint info) st = Some found -> CertLogin.c_id found = i ->
       CertLogin.authenticate_certificate (Some info) t st = (st, inr "Certificate is disabled").
Proof.
  unfold revoke_user_certificate in Hr. rewrite He, Hc in Hr. destruct (true_flag (revoked c)) eqn:Erev; [done|].
  destruct (negb _); [done|]. destruct (column _) as [r|]; [|done]. cbn zeta in Hr.
  destruct (CertActions.service_revoke _ _ _ _ _ _ _ _ _ _) as [[d tr] c'] eqn:Es. injection Hr as <- _ _ _. cbn [tables enrolled].
  assert (get_cert (id c) (tables w) = Some c) as Hg.
  { apply Table.first_Some in Hc as [Hin _]. unfold get_cert. destruct (Table.first _ _) as [x|] eqn:Ex.
    - apply Table.first_Some in Ex as [Hx Exi%Z.eqb_eq]. f_equal. by apply (Table.NoDup_map_eq id (certs (tables w))).
    - pose proof (Table.first_None _ _ _ Ex Hin) as Hne. cbn in Hne. by rewrite Z.eqb_refl in Hne. }
  split.
  - exists (CertActions.set_revocation true (Some now) r c). split; [|done].
    pose proof (ManageFacts.service_revoke_certs encryption_enabled library_error c r
      (CertRoutes.py_str py_repr (Json.get_or "reason" (JStr "unspecified") (if Json.truthy request then request else JDict []))) (Auth.u_username u) now now' (tables w) trail) as Hcs.
    rewrite Es in Hcs. cbn [fst] in Hcs. unfold get_cert. rewrite Hcs. by apply (CertRoutesFacts.get_update (id c) c (tables w)).
  - intros st info serial found t Hst Hser Htr Hf Hi. unfold CertLogin.authenticate_certificate. rewrite Hser, Htr. cbn [negb]. rewrite Hf.
    apply CertLoginFacts.find_enrolled_In in Hf. rewrite Hst in Hf. apply in_map_iff in Hf as (x & Ex & Hx).
    apply Table.In_update in Hx as (y & _ & ->). assert (e_id y = i) as Hy by (rewrite <-Ex in Hi; unfold e_id in *; destruct (_ =? _); exact Hi).
    rewrite Hy, Z.eqb_refl in Ex. by rewrite <-Ex.
Qed.

(** * Deleting *)

(** Deleting a user certificate takes the certificate off the table as it is: if it was
    not revoked it never will be, and no CRL made afterwards has an entry of it. *)
Theorem deletion_is_no_revocation i u w (trail : T) e c
  (He : get_enrolment i w = Some e) (Hc : certificate_for e (tables w) = Some c) :
  exists w' trail', delete_user_certificate i u w trail = (w', trail', NoContent)
    /\ get_enrolment i w' = None /\ get_cert (id c) (tables w') = None
    /\ forall a t entry, In entry (CertRoutesFacts.listed encryption_enabled a t (tables w')) ->
         exists c0, In c0 (certs (tables w)) /\ id c0 <> id c /\ In entry (Pki.crl_entry_of t (CertActions.pki_cert c0)).
Proof.
  unfold delete_user_certificate. rewrite He, Hc. do 2 eexists. split; [reflexivity|]. cbn [tables enrolled]. split_and!.
  - unfold get_enrolment. destruct (Table.first _ _) as [x|] eqn:E; [|done]. exfalso. apply Table.first_Some in E as [Hx E].
    cbn [enrolled] in Hx. apply Table.In_delete in Hx as [_ Hn]. congruence.
  - unfold get_cert. destruct (Table.first _ _) as [x|] eqn:E; [|done]. exfalso. apply Table.first_Some in E as [[_ Hn]%Table.In_delete Hq]. congruence.
  - intros a t entry Hin. apply (CertRoutesFacts.listed_without encryption_enabled a t (id c) (tables w) _) in Hin; [done|].
    intros x [Hx Hn%Z.eqb_neq]%Table.In_delete. by left.
Qed.
End Facts.
(** The certificate issued in [ManageFacts], enrolled by bob. *)
Module Runs.
Import CertRoutesRun.
#[local] Existing Instance list_sink.
#[local] Existing Instance PkiWitness.toy_fernet.
#[local] Existing Instance toy_keys.
#[local] Existing Instance toy_x509.
#[local] Existing Instance toy_formats.
#[local] Instance no_inspection : Inspection := {|
  certificate_key _ := None; csr_key _ := None; signature_oid _ := None; fingerprint_sha1 _ := None; fingerprint_sha256 _ := None;
  loads _ := None; CertModel.py_repr _ := "";
|}.
Definition bob : Auth.user := Auth.User 7 "bob" "viewer" true.
Definition carol : Auth.user := Auth.User 8 "carol" "viewer" true.
Definition boss : Auth.user := Auth.User 1 "admin" "admin" true.
Definition bobs : enrolment :=
  Enrolment (CertLogin.AuthCert 3 7 None "309" "CN=www.example.com" None None "laptop" true None (Some (Time.days 365)) None) (Some 0).
Definition w0 : world := World d1 [bobs].
Definition username (i : Z) : option string := if i =? 7 then Some "bob" else None.
Definition args0 : CertListing.args := [].

(** The certificate of another account beside bob's. *)
Definition carols : enrolment :=
  Enrolment (CertLogin.AuthCert 4 8 None "30A" "CN=secret.example.com" None None "phone" true None (Some (Time.days 365)) None) (Some 0).
Definition carols_row : certificate :=
  Certificate 2 "refid2" "phone" None (Some (Base64.b64encode "OTHER")) None (Some (Base64.b64encode "OTHERKEY")) None
    (Some "CN=secret.example.com") None None (Some "30A") None None (Some 0) (Some (Time.days 365))
    None None None None None None (Some "stored") (Some false) None None (Some false) None (Some 0) None (Some "manual") None None.
Definition w1 : world := World (with_certs (certs d1 ++ [carols_row]) d1) [carols; bobs].
Lemma bobs_view : same_view bob w0 w1.
Proof.
  split; [vm_compute; reflexivity| |reflexivity]. intros e [<-|[]] _. vm_compute. reflexivity.
Qed.
Lemma see_their_own_witness :
  get_user_certificate username 3 5 bob w1 = get_user_certificate username 3 5 bob w0
  /\ get_user_certificate username 4 5 bob w1 = Failure 404 "Certificate not found"
  /\ List.map e_id (page_items 5 bob args0 w1) = [3].
Proof.
  split_and!; [|vm_compute; reflexivity..].
  refine (proj1 (proj2 (proj2 (accounts_see_their_own (H := no_inspection) (H0 := toy_x509) (H3 := toy_formats) (H4 := list_sink)
    username bob w0 w1 (conj eq_refl eq_refl) _ _ bobs_view))) 3 5).
  - apply NoDup_singleton.
  - refine (bool_decide_eq_true_1 _ _). vm_compute. reflexivity.
Defined.

Example chain_is_exported :
  (export_user_certificate 2 3 bob args0 w0 ([] : list string),
   export_user_certificate 2 3 carol args0 w0 ([] : list string))
  = (Some (["user_certificate_exported"],
           File ("PEM" ^+ CertExport.line_end ^+ "NEWKEY PRIVATE KEY" ^+ CertExport.line_end ^+ "CACERT") "laptop.pem"),
     Some ([], Failure 404 "Certificate not found")).
Proof. vm_compute. reflexivity. Qed.

Definition revoked_run := revoke_user_certificate false "error" no_repr username 3 JNull boss 5 9 w0 ([] : list string).
Definition answer : json := match revoked_run.2 with Success j _ => j | _ => JNull end.
Definition info : CertLogin.cert_info :=
  CertLogin.CertInfo None None (Some "309") None None None None true.
Definition login : CertLogin.state :=
  CertLogin.State (Auth.State [bob] [] (Auth.Session None None None None None false) []) None (List.map row (enrolled revoked_run.1.1)) [] [] empty.

Lemma revoked_user_witness :
  CertLogin.authenticate_certificate (Some info) 10 login = (login, inr "Certificate is disabled").
Proof.
  refine (proj2 (revoked_user_certificates_log_nobody_in (H := no_inspection) (H0 := toy_x509) (H2 := PkiWitness.toy_fernet) (H4 := list_sink)
    false "error" no_repr username 3 JNull boss 5 9 w0 ([] : list string) revoked_run.1.1 revoked_run.1.2 answer
    "Certificate revoked successfully" bobs row1 _ _ _ _) login info "309" (row (disabled bobs)) 10 _ _ _ _ _); vm_compute; try reflexivity.
  apply NoDup_singleton.
Defined.

Lemma deleted_user_witness : exists w' trail', delete_user_certificate 3 boss w0 ([] : list string) = (w', trail', NoContent).
Proof.
  destruct (deletion_is_no_revocation (H2 := PkiWitness.toy_fernet) (H4 := list_sink) false 3 boss w0 ([] : list string) bobs row1
    eq_refl ltac:(vm_compute; reflexivity)) as (w' & trail' & E & _).
  exists w', trail'. exact E.
Defined.
End Runs.
End UserCertsFacts.
