(* ===== verification/Crl.v ===== *)
(** Serving and renewing CRLs: the routes of [api/v2/crl.py], the distribution points of
    [api/cdp_routes.py] and the hourly task of [services/crl_scheduler_task.py], over the
    generators of [Pki].

    The columns of a CRL row that [Pki] leaves out are a class; the websocket event of a
    renewal is left out, and so is the second name under which [filter_by] would find a
    row.  Numbers of a JSON request are integers. *)
From S2P Require Import Prelude AuditSink Encryption Pki PkiFacts CertModel CaModel CertRoutes CertActions CertRoutesFacts ManageFacts Ocsp CaRoutes UserCerts.

Module Crl.
Import CertModel CertRoutes CertActions.
Local Open Scope string_scope.
Local Open Scope list_scope.
Local Open Scope Z_scope.

Class RowColumns := {
  row_id : Pki.crl_meta -> Z;
  created_at : Pki.crl_meta -> Z;
  updated_at : Pki.crl_meta -> option Z;
}.

(** * A CRL row *)

Definition is_stale (now : Z) (m : Pki.crl_meta) : bool := Pki.m_next_update m <? now.
Definition days_until_expiry (now : Z) (m : Pki.crl_meta) : Z := Z.max 0 (Time.delta_days (Pki.m_next_update m - now)).
Definition of_ca (i : Z) (m : Pki.crl_meta) : bool := Pki.m_ca_id m =? i.

Inductive reply :=
| Answer (data : json) (message : string)
| Served (m : Pki.crl_meta) (max_age : Z)           (* the DER text of a row *)
| NotFound
| Failure (code : Z) (message : string)
| Raised.

Section Service.
Context `{RowColumns} `{Pki.X509} `{Fernet} (encryption_enabled : bool) {T} `{AuditSink T}.
#[local] Abbreviation view := (pki_view encryption_enabled).

Definition to_dict (now : Z) (include_crl_data : bool) (m : Pki.crl_meta) : list (string * json) :=
  [("id", JInt (row_id m)); ("ca_id", JInt (Pki.m_ca_id m)); ("crl_number", JInt (Pki.m_crl_number m));
   ("this_update", moment (Some (Pki.m_this_update m))); ("next_update", moment (Some (Pki.m_next_update m)));
   ("revoked_count", JInt (Pki.m_revoked_count m)); ("is_stale", JBool (is_stale now m));
   ("days_until_expiry", JInt (days_until_expiry now m)); ("created_at", moment (Some (created_at m)));
   ("updated_at", moment (updated_at m)); ("generated_by", JStr (Pki.m_generated_by m));
   ("is_delta", JBool (Pki.m_is_delta m)); ("base_crl_number", number (Pki.m_base_crl_number m))]
  ++ (if include_crl_data then [("crl_pem", JStr (Pki.m_pem m))] else []).

(** The generators on the tables of the routes. *)
Definition generate_crl (i : Z) (username : string) (now : Z) (d : db) (trail : T) : db * T * (Pki.crl_meta + Pki.crl_error) :=
  let '(v, trail, r) := Pki.generate_crl encryption_enabled i 7 username now (view d) trail in
  (with_crls (Pki.crls v) d, trail, r).
Definition generate_delta_crl (i validity_hours : Z) (username : string) (now : Z) (d : db) (trail : T)
  : db * T * (Pki.crl_meta + Pki.crl_error) :=
  let '(v, trail, r) := Pki.generate_delta_crl encryption_enabled i validity_hours username now (view d) trail in
  (with_crls (Pki.crls v) d, trail, r).
Definition latest_base (i : Z) (d : db) : option Pki.crl_meta := Pki.get_latest_crl i (view d).
Definition latest_delta (i : Z) (d : db) : option Pki.crl_meta := Pki.get_latest_delta_crl i (view d).

(** * The hourly task *)

Definition REGENERATION_THRESHOLD_HOURS : Z := 24.
(** The CRL of a CA that was stored last, base or delta. *)
Definition newest (i : Z) (d : db) : option Pki.crl_meta := Table.last_by created_at (Table.all (of_ca i) (crls d)).
Definition should_regenerate_crl (i now : Z) (d : db) : bool * option string :=
  match CaRoutes.get_ca i d with
  | None => (false, Some ("CA " ^+ Num.str i ^+ " not found"))
  | Some a =>
      let name := "CA '" ^+ CaModel.a_descr a ^+ "'" in
      if negb (CaModel.has_private_key a) then (false, Some (name ^+ " has no private key"))
      else match newest i d with
      | None => (true, Some ("No CRL exists for " ^+ name ^+ " - needs generation"))
      | Some m =>
          if is_stale now m then (true, Some ("CRL is stale for " ^+ name ^+ " - needs regeneration"))
          else
            let hours_until_expiry := days_until_expiry now m * 24 in
            if hours_until_expiry <=? REGENERATION_THRESHOLD_HOURS
            then (true, Some ("CRL expires in " ^+ Num.str hours_until_expiry ^+ ".0h for " ^+ name
                              ^+ " (threshold: " ^+ Num.str REGENERATION_THRESHOLD_HOURS ^+ "h)"))
            else (false, None)
      end
  end.
Definition regenerate_crl_task (i : Z) (now : Z) (d : db) (trail : T) : db * T * bool :=
  match CaRoutes.get_ca i d with
  | None => (d, trail, false)
  | Some _ => let '(d, trail, r) := generate_crl i "scheduler" now d trail in
              (d, trail, match r with inl _ => true | inr _ => false end)
  end.

(** [filter_by(has_private_key=True, ...)]: the name is a property of the class and no
    column, so the condition compares the property object itself with [True]. *)
Definition property_is_true : bool := false.
Definition cas_with_keys (d : db) : list CaModel.ca :=
  Table.all (fun a => property_is_true && CaModel.a_cdp_enabled a) (cas d).
Definition delta_cas (d : db) : list CaModel.ca :=
  Table.all (fun a => property_is_true && CaModel.a_cdp_enabled a && CaModel.a_delta_crl_enabled a) (cas d).

Record run_counts := RunCounts { regenerated : nat; skipped : nat; errors : nat }.
Definition base_step (now : Z) (s : db * T * run_counts) (a : CaModel.ca) : db * T * run_counts :=
  let '(d, trail, n) := s in
  if (should_regenerate_crl (CaModel.a_id a) now d).1 then
    let '(d, trail, ok) := regenerate_crl_task (CaModel.a_id a) now d trail in
    (d, trail, if ok then RunCounts (S (regenerated n)) (skipped n) (errors n)
               else RunCounts (regenerated n) (skipped n) (S (errors n)))
  else (d, trail, RunCounts (regenerated n) (S (skipped n)) (errors n)).
Definition delta_interval (a : CaModel.ca) : Z :=
  match CaModel.a_delta_crl_interval a with Some h => if h =? 0 then 4 else h | None => 4 end.
Definition need_delta (a : CaModel.ca) (now : Z) (d : db) : bool :=
  match latest_delta (CaModel.a_id a) d with
  | None => match latest_base (CaModel.a_id a) d with Some _ => true | None => false end
  | Some m => is_stale now m || (Time.hours (delta_interval a) <=? now - Pki.m_this_update m)
  end.
Definition delta_step (now : Z) (s : db * T) (a : CaModel.ca) : db * T :=
  let '(d, trail) := s in
  if need_delta a now d
  then (generate_delta_crl (CaModel.a_id a) (delta_interval a * 2) "scheduler" now d trail).1
  else (d, trail).
Definition execute (now : Z) (d : db) (trail : T) : db * T :=
  match cas_with_keys d with
  | [] => (d, trail)
  | l =>
      let '(d, trail, _) := fold_left (base_step now) l (d, trail, RunCounts 0 0 0) in
      fold_left (delta_step now) (delta_cas d) (d, trail)
  end.

(** * The distribution points *)

Definition cdp_get_crl (ca_id : string) (now : Z) (d : db) (trail : T) : db * T * reply :=
  match Num.py_int ca_id with
  | None => (d, trail, NotFound)
  | Some i =>
      match CaRoutes.get_ca i d with
      | None => (d, trail, NotFound)
      | Some a =>
          match latest_base i d with
          | Some m => (d, trail, Served m 3600)
          | None =>
              if CaModel.has_private_key a && CaModel.a_cdp_enabled a then
                match generate_crl i "system" now d trail with
                | (d, trail, inl m) => (d, trail, Served m 3600)
                | (d, trail, inr _) => (d, trail, NotFound)
                end
              else (d, trail, NotFound)
          end
      end
  end.
Definition cdp_get_delta_crl (ca_id : string) (d : db) : reply :=
  match (i ← Num.py_int ca_id; _ ← CaRoutes.get_ca i d; latest_delta i d) with
  | Some m => Served m 900
  | None => NotFound
  end.

(** * The routes *)

(** The rows of a kind with the highest number of their CA. *)
Definition is_highest (delta : bool) (d : db) (m : Pki.crl_meta) : bool :=
  Bool.eqb (Pki.m_is_delta m) delta
  && forallb (fun x => Pki.m_crl_number x <=? Pki.m_crl_number m)
       (Table.all (fun x => of_ca (Pki.m_ca_id m) x && Bool.eqb (Pki.m_is_delta x) delta) (crls d)).
Definition highest (delta : bool) (d : db) : list Pki.crl_meta := Table.all (is_highest delta d) (crls d).
Definition with_caref (a : option CaModel.ca) (kv : list (string * json)) : list (string * json) :=
  kv ++ match a with Some a => [("caref", JStr (CaModel.a_refid a))] | None => [] end.
Definition list_crls (now : Z) (d : db) : json :=
  JList (List.map (fun m =>
    JDict (with_caref (CaRoutes.get_ca (Pki.m_ca_id m) d) (to_dict now false m)
           ++ match last (Table.all (of_ca (Pki.m_ca_id m)) (highest true d)) with
              | Some x => [("delta_crl", JDict (to_dict now false x))]
              | None => []
              end)) (highest false d)).

Definition get_crl (i now : Z) (d : db) : reply :=
  match CaRoutes.get_ca i d with
  | None => Failure 404 "CA not found"
  | Some a => match latest_base i d with
              | None => Answer JNull ""
              | Some m => Answer (JDict (with_caref (Some a) (to_dict now true m))) ""
              end
  end.
Definition get_delta_crl (i now : Z) (d : db) : reply :=
  match CaRoutes.get_ca i d with
  | None => Failure 404 "CA not found"
  | Some a => match latest_delta i d with
              | None => Answer JNull ""
              | Some m => Answer (JDict (with_caref (Some a) (to_dict now true m))) ""
              end
  end.

(** [g.user] is set in the request that logs in with a client certificate; it is an
    account, which has no [get]. *)
Definition acting_user (g_user : bool) : option string := if g_user then None else Some "admin".
Definition crl_event (action resource : string) (i : Z) (name details : string) : event :=
  Event action (Some resource) (AStr (Num.str i)) (AStr name) (AStr details) true None.

Definition regenerate_crl (i : Z) (g_user : bool) (now now' : Z) (d : db) (trail : T) : db * T * reply :=
  match CaRoutes.get_ca i d with
  | None => (d, trail, Failure 404 "CA not found")
  | Some a =>
      if negb (CaModel.has_private_key a)
      then (d, trail, Failure 400 ("CA " ^+ String Json.quote (CaModel.a_descr a ^+ String Json.quote "") ^+ " does not have a private key - cannot sign CRL"))
      else match acting_user g_user with
      | None => (d, trail, Failure 500 "Failed to regenerate CRL")
      | Some name =>
          match generate_crl i name now d trail with
          | (d, trail, inr _) => (d, trail, Failure 500 "Failed to regenerate CRL")
          | (d, trail, inl m) =>
              (d, record_event (crl_event "crl_regenerate" "crl" i (CaModel.a_descr a)
                    ("Regenerated CRL for CA: " ^+ CaModel.a_descr a)) trail,
               Answer (JDict (with_caref (Some a) (to_dict now' false m))) "CRL regenerated successfully")
          end
      end
  end.

(** Another value of the three CRL settings of a CA. *)
Definition set_crl_settings (cdp delta : bool) (interval : option Z) (a : CaModel.ca) : CaModel.ca :=
  CaModel.CA (CaModel.a_id a) (CaModel.a_refid a) (CaModel.a_descr a) (CaModel.a_crt a) (CaModel.a_prv a) (CaModel.a_serial a)
    (CaModel.a_caref a) (CaModel.a_subject a) (CaModel.a_issuer a) (CaModel.a_serial_number a) (CaModel.a_ski a)
    (CaModel.a_valid_from a) (CaModel.a_valid_to a) (CaModel.a_imported_from a) (CaModel.a_created_at a)
    (CaModel.a_created_by a) (CaModel.a_owner_group_id a) cdp (CaModel.a_cdp_url a) delta interval
    (CaModel.a_ocsp_enabled a) (CaModel.a_ocsp_url a) (CaModel.a_hsm_key_id a).
(** The row the audit log gets here is added beside the service, outside the chain. *)
Definition toggle_auto_regen (i : Z) (request : json) (g_user : bool) (d : db) (trail : T) : db * T * reply :=
  match CaRoutes.get_ca i d with
  | None => (d, trail, Failure 404 "CA not found")
  | Some a =>
      let data := if Json.truthy request then request else JDict [] in
      if negb (Json.is_dict data) then (d, trail, Raised)
      else
        let enabled := Json.get_or "enabled" (JBool (negb (CaModel.a_cdp_enabled a))) data in
        match (_ ← acting_user g_user; Json.bool_column enabled) with
        | None => (d, trail, Failure 500 "Failed to update CRL settings")
        | Some b =>
            let word := if Json.truthy enabled then "enabled" else "disabled" in
            (CaRoutes.update_ca_row i (fun a => set_crl_settings b (CaModel.a_delta_crl_enabled a) (CaModel.a_delta_crl_interval a) a) d,
             trail,
             Answer (JDict [("cdp_enabled", match enabled with JNull => JNull | _ => JBool b end)])
               ("Automatic CRL regeneration " ^+ word))
        end
  end.

(** The text of the [ValueError] that generating a delta CRL for a CA with all settings
    ends in, [None] for every other exception; [fault] is the one of a library. *)
Definition delta_error (a : CaModel.ca) (fault : option string) (e : Pki.crl_error) : option string :=
  match e with
  | Pki.NoBaseCrl => Some ("No base CRL exists for CA " ^+ CaModel.a_descr a ^+ " — generate a full CRL first")
  | _ => fault
  end.
Definition delta_failure (text : option string) : reply :=
  match text with
  | None => Failure 500 "Failed to generate delta CRL"
  | Some msg =>
      if Str.contains "not found" msg then Failure 404 "CA not found"
      else if Str.contains "private key" msg then Failure 400 "CA does not have a private key"
      else if Str.contains "base CRL" msg then Failure 400 "No base CRL exists — generate a full CRL first"
      else Failure 400 "Delta CRL generation failed"
  end.
Definition regenerate_delta_crl (i : Z) (g_user : bool) (fault : option string) (now now' : Z) (d : db) (trail : T) : db * T * reply :=
  match CaRoutes.get_ca i d with
  | None => (d, trail, Failure 404 "CA not found")
  | Some a =>
      if negb (CaModel.has_private_key a) then (d, trail, Failure 400 "CA does not have a private key")
      else if negb (CaModel.a_cdp_enabled a) then (d, trail, Failure 400 "CDP is not enabled for this CA")
      else if negb (CaModel.a_delta_crl_enabled a) then (d, trail, Failure 400 "Delta CRL is not enabled for this CA")
      else match acting_user g_user with
      | None => (d, trail, Failure 500 "Failed to generate delta CRL")
      | Some name =>
          match generate_delta_crl i 24 name now d trail with
          | (d, trail, inr e) => (d, trail, delta_failure (delta_error a fault e))
          | (d, trail, inl m) =>
              (d, trail, Answer (JDict (with_caref (Some a) (to_dict now' false m))) "Delta CRL generated successfully")
          end
      end
  end.

Definition configure_delta_crl (i : Z) (request : json) (g_user : bool) (d : db) (trail : T) : db * T * reply :=
  let fail code m := (d, trail, Failure code m) in
  match CaRoutes.get_ca i d with
  | None => fail 404 "CA not found"
  | Some a =>
      let data := if Json.truthy request then request else JDict [] in
      match (e ← Json.field "enabled" data; n ← Json.field "interval" data;
             n ← match n with Some j => Some <$> as_int j | None => Some None end; Some (e, n)) with
      | None => fail 500 "Failed to update delta CRL settings"
      | Some (e, n) =>
          let enabled := match e with Some j => Json.truthy j | None => CaModel.a_delta_crl_enabled a end in
          let interval := match n with Some h => Some h | None => CaModel.a_delta_crl_interval a end in
          if match n with Some h => (h <? 1) || (168 <? h) | None => false end
          then fail 400 "Interval must be between 1 and 168 hours"
          else match acting_user g_user with
          | None => fail 500 "Failed to update delta CRL settings"
          | Some _ =>
              (CaRoutes.update_ca_row i (set_crl_settings (CaModel.a_cdp_enabled a) enabled interval) d,
               record_event (crl_event "delta_crl_config" "ca" i (CaModel.a_descr a)
                 ("Delta CRL config: enabled=" ^+ (if enabled then "True" else "False") ^+ ", interval="
                  ^+ match interval with Some h => Num.str h | None => "None" end ^+ "h")) trail,
               Answer (JDict [("delta_crl_enabled", JBool enabled); ("delta_crl_interval", number interval)])
                 "Delta CRL configuration updated")
          end
      end
  end.

Definition get_ocsp_status (d : db) : json :=
  let ocsp_cas := Z.of_nat (Table.count CaModel.a_ocsp_enabled (cas d)) in
  JDict [("enabled", JBool (0 <? ocsp_cas)); ("running", JBool (0 <? ocsp_cas)); ("ca_count", JInt ocsp_cas)].
Definition get_ocsp_stats (w : Ocsp.world) : json :=
  let total := JInt (Z.of_nat (length (Ocsp.responses w))) in
  JDict [("total_requests", total); ("cache_hits", total)].
End Service.
End Crl.

Module CrlFacts.
Import CertModel CertRoutes CertActions Crl.
Local Open Scope string_scope.
Local Open Scope list_scope.
Local Open Scope Z_scope.

Section Facts.
Context `{RowColumns} `{Pki.X509} `{Fernet} (encryption_enabled : bool) {T} `{AuditSink T} (library_error : string) (py_repr : json -> string).
#[local] Abbreviation view := (pki_view encryption_enabled).
#[local] Abbreviation execute := (execute encryption_enabled).
#[local] Abbreviation cdp_get_crl := (cdp_get_crl encryption_enabled).

(** * What a request does to the table of CRLs *)

(** At most one row is added: of CA [i], with a number above those of its other rows. *)
Inductive crl_change (i : Z) (l : list Pki.crl_meta) : list Pki.crl_meta -> Prop :=
| Kept : crl_change i l l
| Added m : Pki.m_ca_id m = i -> (forall x, In x l -> Pki.m_ca_id x = i -> Pki.m_crl_number x < Pki.m_crl_number m) ->
    crl_change i l (l ++ [m]).
#[local] Hint Constructors crl_change : core.

Lemma publish_change a l validity base u action details now v (trail : T) :
  crl_change (Pki.ca_id a) (Pki.crls v) (Pki.crls (Pki.publish encryption_enabled a l validity base u action details now v trail).1.1).
Proof.
  destruct (Pki.publish _ _ _ _ _ _ _ _ _ _ _) as [[v' t'] [m|e]] eqn:E; cbn [fst].
  - apply PkiFacts.publish_inv in E as (_ & _ & -> & Hi & Hn & _). apply Added; [done|].
    intros x Hx Hxi. rewrite Hn. by apply PkiFacts.next_number_above.
  - unfold Pki.publish in E. destruct (_ ≫= _); [done|]. by injection E as <- _ _.
Qed.

Lemma pki_generate_change i days u now v (trail : T) :
  crl_change i (Pki.crls v) (Pki.crls (Pki.generate_crl encryption_enabled i days u now v trail).1.1).
Proof.
  unfold Pki.generate_crl. destruct (Pki.get_ca i v) as [a|] eqn:E; [|done]. destruct (negb _); [done|].
  apply Table.first_Some in E as [_ <-%Z.eqb_eq]. apply publish_change.
Qed.

Lemma generate_change i u now d (trail : T) :
  crl_change i (crls d) (crls (generate_crl encryption_enabled i u now d trail).1.1)
  /\ cas (generate_crl encryption_enabled i u now d trail).1.1 = cas d.
Proof.
  unfold generate_crl. pose proof (pki_generate_change i 7 u now (view d) trail) as Hc.
  destruct (Pki.generate_crl _ _ _ _ _ _ _) as [[v t'] r]. by split.
Qed.

Lemma delta_change i h u now d (trail : T) :
  crl_change i (crls d) (crls (generate_delta_crl encryption_enabled i h u now d trail).1.1)
  /\ cas (generate_delta_crl encryption_enabled i h u now d trail).1.1 = cas d.
Proof.
  unfold generate_delta_crl.
  assert (crl_change i (Pki.crls (view d)) (Pki.crls (Pki.generate_delta_crl encryption_enabled i h u now (view d) trail).1.1)) as Hc.
  { unfold Pki.generate_delta_crl. destruct (Pki.get_ca i (view d)) as [a|] eqn:E; [|done].
    apply Table.first_Some in E as [_ <-%Z.eqb_eq]. do 4 (destruct (negb _) || destruct (_ || _); [done|]).
    destruct (Pki.get_latest_crl _ _); [|done]. apply publish_change. }
  destruct (Pki.generate_delta_crl _ _ _ _ _ _ _) as [[v t'] r]. by split.
Qed.

(** * The task *)

Lemma task_does_nothing now d (trail : T) : execute now d trail = (d, trail).
Proof.
  unfold Crl.execute. enough (cas_with_keys d = []) as -> by done.
  unfold cas_with_keys, Table.all. by induction (cas d).
Qed.

(** When the task would renew the CRL of a CA: it has a key, and the CRL stored last ends
    within two days, although the threshold says 24 hours. *)
Theorem renewal_is_due_two_days_ahead i now d a (Ha : CaRoutes.get_ca i d = Some a) :
  (should_regenerate_crl i now d).1 = true
  <-> CaModel.has_private_key a = true
      /\ (newest i d = None \/ exists m, newest i d = Some m /\ Pki.m_next_update m - now < Time.hours 48).
Proof.
  unfold should_regenerate_crl. rewrite Ha. destruct (CaModel.has_private_key a); cbn [negb].
  2: { split; [done|]. by intros [? _]. }
  destruct (newest i d) as [m|]; [|naive_solver].
  assert ((is_stale now m || (days_until_expiry now m * 24 <=? 24)) = (Pki.m_next_update m - now <? Time.hours 48)) as Heq.
  { unfold is_stale, days_until_expiry, Time.delta_days, Time.days, Time.hours, Time.second. 
    apply eq_true_iff_eq. rewrite orb_true_iff, Z.ltb_lt, Z.leb_le, Z.ltb_lt.
    pose proof (Z.div_mod (Pki.m_next_update m - now) (1 * 86400 * 1000000) ltac:(lia)).
    pose proof (Z.mod_pos_bound (Pki.m_next_update m - now) (1 * 86400 * 1000000) ltac:(lia)). lia. }
  transitivity (Pki.m_next_update m - now < Time.hours 48).
  - rewrite <-Z.ltb_lt, <-Heq. unfold REGENERATION_THRESHOLD_HOURS. destruct (is_stale now m); [done|]. cbn [orb].
    by destruct (_ <=? 24).
  - naive_solver.
Qed.

(** * What stale CRLs lead to *)

(** Nobody renews or revokes anything: the task runs and relying parties fetch CRLs. *)
Inductive idle (d : db) : db -> Prop :=
| TaskRuns now (t : T) : idle d (execute now d t).1
| Fetched ca_id now (t : T) : idle d (cdp_get_crl ca_id now d t).1.1.

Lemma idle_keeps i d d' m : idle d d' -> latest_base encryption_enabled i d = Some m ->
  cas d' = cas d /\ latest_base encryption_enabled i d' = Some m.
Proof.
  intros [now t|s now t] Hm; [by rewrite task_does_nothing|].
  unfold Crl.cdp_get_crl. destruct (Num.py_int s) as [j|]; [|done]. destruct (CaRoutes.get_ca j d); [|done].
  destruct (latest_base _ j d) eqn:Ej; [done|]. destruct (_ && _); [|done].
  destruct (generate_change j "system" now d t) as [Hc Hca].
  destruct (generate_crl _ j _ _ _ _) as [[d1 t1] r]. cbn [fst] in Hc, Hca.
  assert (latest_base encryption_enabled i d1 = Some m) as Hl.
  { unfold latest_base, Pki.get_latest_crl in *. cbn [Pki.crls pki_view] in *.
    inversion Hc as [Heq|x Hx _ Heq]; [congruence|]. unfold Table.all in *. rewrite List.filter_app. cbn [List.filter].
    destruct (Z.eqb_spec (Pki.m_ca_id x) i) as [E|]; [subst; congruence|]. cbn [andb]. by rewrite app_nil_r. }
  by destruct r.
Qed.

(** C30: Once a CA has a CRL the distribution point serves it for ever, however long ago it
    ended: the task renews nothing, and a request never looks at the end. *)
Theorem stale_crls_are_served i s d d' a m now (trail : T)
  (Hs : Num.py_int s = Some i) (Ha : CaRoutes.get_ca i d = Some a) (Hm : latest_base encryption_enabled i d = Some m)
  (Hd : rtc idle d d') : cdp_get_crl s now d' trail = (d', trail, Served m 3600).
Proof.
  assert (cas d' = cas d /\ latest_base encryption_enabled i d' = Some m) as [Hca Hl].
  { clear Ha. induction Hd as [|d d1 d' Hi _ IH]; [done|]. destruct (idle_keeps _ _ _ _ Hi Hm) as [<- Hm1]. by apply IH. }
  unfold Crl.cdp_get_crl. rewrite Hs. unfold CaRoutes.get_ca in *. by rewrite Hca, Ha, Hl.
Qed.

(** * Numbers *)

Definition numbers_increase (l : list Pki.crl_meta) : Prop :=
  forall j k m m', l !! j = Some m -> l !! k = Some m' -> (j < k)%nat -> Pki.m_ca_id m = Pki.m_ca_id m' ->
    Pki.m_crl_number m < Pki.m_crl_number m'.
Lemma numbers_increase_cons x l :
  numbers_increase (x :: l) <->
  (forall m, In m l -> Pki.m_ca_id x = Pki.m_ca_id m -> Pki.m_crl_number x < Pki.m_crl_number m) /\ numbers_increase l.
Proof.
  split.
  - intros Hl. split; [|intros j k m m' Hj Hk Hjk; apply (Hl (S j) (S k)); [done|done|lia]].
    intros m [k Hk]%list_elem_of_In%list_elem_of_lookup. apply (Hl 0%nat (S k)); [done|done|lia].
  - intros [Hx Hl] [|j] [|k] m m' Hj Hk Hjk; try lia; cbn in Hj, Hk.
    + injection Hj as <-. apply Hx. apply list_elem_of_In. by eapply list_elem_of_lookup_2.
    + apply (Hl j k); [done|done|lia].
Qed.
Lemma filter_increases (p : Pki.crl_meta -> bool) l : numbers_increase l -> numbers_increase (List.filter p l).
Proof.
  induction l as [|x l IH]; [done|]. intros [Hx Hl]%numbers_increase_cons. cbn [List.filter]. destruct (p x); [|by apply IH].
  apply numbers_increase_cons. split; [|by apply IH]. intros m [Hm _]%filter_In. by apply Hx.
Qed.

(** The numbers stay in order, and the CRLs of every CA that is not in [gone] stay where they
    are, first among the CRLs of that CA. *)
Record grows (gone : list Z) (l l' : list Pki.crl_meta) : Prop := {
  g_numbers : numbers_increase l -> numbers_increase l';
  g_kept i : ~ In i gone -> List.filter (of_ca i) l `prefix_of` List.filter (of_ca i) l';
}.
Lemma grows_refl gone l : grows gone l l.
Proof. by split. Qed.
Lemma grows_trans g g' l l' l'' : grows g l l' -> grows g' l' l'' -> grows (g ++ g') l l''.
Proof.
  intros [N1 K1] [N2 K2]. split; [auto|]. intros i Hi. etransitivity; [apply K1|apply K2]; intros Hin; apply Hi, in_or_app; auto.
Qed.
Lemma change_grows i l l' : crl_change i l l' -> grows [] l l'.
Proof.
  intros [|m Hm Hn]; [apply grows_refl|]. split.
  - intros Hl j k x y Hx Hy Hjk Hxy.
    apply lookup_snoc_Some in Hx as [[Hj Hx]|[-> <-]], Hy as [[Hk Hy]|[-> <-]]; [by eapply Hl| |lia|lia].
    apply Hn; [|congruence]. apply list_elem_of_In. by eapply list_elem_of_lookup_2.
  - intros j _. rewrite List.filter_app. by eexists.
Qed.
Lemma delete_grows i l : grows [i] l (Table.delete (fun m => Pki.m_ca_id m =? i) l).
Proof.
  split; [apply filter_increases|]. intros j Hj.
  assert (List.filter (of_ca j) (Table.delete (fun m => Pki.m_ca_id m =? i) l) = List.filter (of_ca j) l) as ->; [|done].
  unfold Table.delete, of_ca. induction l as [|m l IH]; [done|]. cbn [List.filter].
  destruct (Z.eqb_spec (Pki.m_ca_id m) i) as [Ei|Ei]; cbn [negb List.filter]; rewrite IH; [|done].
  destruct (Z.eqb_spec (Pki.m_ca_id m) j) as [Ej|Ej]; [|done]. exfalso. apply Hj. left. congruence.
Qed.

(** The CAs a bulk deletion names. *)
Definition named (ids : list json) : list Z := omap (fun j => mjoin (bind_id j)) ids.
Definition named_by (q : json) : list Z := match bulk_ids q with inl ids => named ids | inr _ => [] end.

Section Requests.
Context `{Inspection} (username_of : Z -> option string).
(** The requests that write CRLs, with the CAs they ask to delete. *)
Inductive request (d : db) : list Z -> db -> Prop :=
| ByTask now (t : T) : request d [] (execute now d t).1
| ByFetch ca_id now (t : T) : request d [] (cdp_get_crl ca_id now d t).1.1
| ByRegenerate i g now now' (t : T) : request d [] (regenerate_crl encryption_enabled i g now now' d t).1.1
| ByDelta i g fault now now' (t : T) : request d [] (regenerate_delta_crl encryption_enabled i g fault now now' d t).1.1
| ByToggle i q g (t : T) : request d [] (toggle_auto_regen i q g d t).1.1
| ByConfigure i q g (t : T) : request d [] (configure_delta_crl i q g d t).1.1
| ByRevocation i q u now now' (t : T) :
    request d [] (CertActions.revoke_certificate encryption_enabled library_error py_repr i q u now now' d t).1.1
| ByBulkRevocation q u now (t : T) :
    request d [] (CertActions.bulk_revoke_certificates encryption_enabled library_error py_repr q u now d t).1.1
| ByUserRevocation i q u now now' enrolled (t : T) :
    request d [] (UserCerts.tables (UserCerts.revoke_user_certificate encryption_enabled library_error py_repr username_of
                                      i q u now now' (UserCerts.World d enrolled) t).1.1)
| ByDeletion i responses (t : T) : request d [i] (Ocsp.tables (CaRoutes.delete_ca i (Ocsp.World d responses) t).1.1)
| ByBulkDeletion q responses (t : T) :
    request d (named_by q) (Ocsp.tables (CaRoutes.bulk_delete_cas py_repr q (Ocsp.World d responses) t).1.1).

Lemma revoke_change c reason shown u now now' d (t : T) :
  crl_change (match issuing_ca c d with Some a => CaModel.a_id a | None => 0 end) (crls d)
    (crls (service_revoke encryption_enabled library_error c reason shown u now now' d t).1.1).
Proof.
  unfold service_revoke. change (issuing_ca (set_revocation true (Some now) reason c) (update_cert (id c) (fun _ => set_revocation true (Some now) reason c) d))
    with (issuing_ca c d). destruct (issuing_ca c d) as [a|]; [|done]. destruct (CaModel.a_cdp_enabled a); [|done].
  match goal with |- context [Pki.generate_crl ?e ?i ?n ?u ?t ?v ?tr] =>
    pose proof (pki_generate_change i n u t v tr) as Hc; destruct (Pki.generate_crl e i n u t v tr) as [[v' tr'] r] end.
  exact Hc.
Qed.
Lemma revoke_grows c reason shown u now now' d (t : T) :
  grows [] (crls d) (crls (service_revoke encryption_enabled library_error c reason shown u now now' d t).1.1).
Proof. eapply change_grows, revoke_change. Qed.
Lemma bulk_revoke_grows reason u now ids : forall n broken r d (t : T),
  grows [] (crls d) (crls (bulk_revoke_loop encryption_enabled library_error py_repr reason u now n broken ids r d t).1.1.1).
Proof.
  induction ids as [|i ids IH]; intros n broken r d t; [apply grows_refl|]. cbn [bulk_revoke_loop]. destruct broken; [apply IH|].
  destruct (query_get i d) as [[c|]|]; [|apply IH..]. destruct (true_flag _); [apply IH|]. destruct (column reason) as [x|]; [|apply IH].
  pose proof (revoke_grows c x (py_str py_repr reason) u (now n) (now n) d t) as Hr.
  destruct (service_revoke _ _ _ _ _ _ _ _ _ _) as [[d1 t1] c1]. exact (grows_trans [] [] _ _ _ Hr (IH _ _ _ _ _)).
Qed.
Lemma bulk_delete_grows ids : forall r d responses,
  grows (named ids) (crls d) (crls (Ocsp.tables (CaRoutes.bulk_delete_loop ids r (Ocsp.World d responses)).1)).
Proof.
  induction ids as [|j ids IH]; intros r d responses; [apply grows_refl|]. cbn [CaRoutes.bulk_delete_loop].
  assert (forall r d responses, grows (named (j :: ids)) (crls d) (crls (Ocsp.tables (CaRoutes.bulk_delete_loop ids r (Ocsp.World d responses)).1))) as Hnext.
  { intros r' d' rs'. destruct (IH r' d' rs') as [Hn Hk]. split; [done|]. intros i Hi. apply Hk. intros Hin. apply Hi.
    unfold named in *. csimpl. destruct (mjoin (bind_id j)); [by right|done]. }
  destruct (bind_id j) as [o|] eqn:Eb; cbn [mbind option_bind]; [|apply Hnext].
  destruct o as [i|]; cbn [mbind option_bind]; [|apply Hnext]. cbn [Ocsp.tables].
  destruct (CaRoutes.get_ca i d) as [a|] eqn:Ea; [|apply Hnext]. do 2 (destruct (_ <? _); [apply Hnext|]).
  apply Table.first_Some in Ea as [_ Ea%Z.eqb_eq]. unfold CaRoutes.remove_ca. rewrite Ea. cbn [Ocsp.tables].
  assert (named (j :: ids) = [i] ++ named ids) as -> by (unfold named; csimpl; by rewrite Eb).
  eapply grows_trans; [apply (delete_grows i)|].
  exact (IH (succeeded j r) (Db (Table.delete (fun a => CaModel.a_id a =? i) (cas d)) (certs d) (approvals d)
    (Table.delete (fun m => Pki.m_ca_id m =? i) (crls d))) _).
Qed.

Lemma request_grows d gone d' : request d gone d' -> grows gone (crls d) (crls d').
Proof.
  intros [now t|s now t|i g now now' t|i g fault now now' t|i q g t|i q g t|i q u now now' t|q u now t|i q u now now' en t|i rs t|q rs t].
  - rewrite task_does_nothing. apply grows_refl.
  - unfold Crl.cdp_get_crl. destruct (Num.py_int s) as [i|]; [|apply grows_refl]. apply (change_grows i). destruct (CaRoutes.get_ca i d); [|done].
    destruct (latest_base _ i d); [done|]. destruct (_ && _); [|done]. destruct (generate_change i "system" now d t) as [Hc _].
    by destruct (generate_crl _ _ _ _ _ _) as [[? ?] []].
  - apply (change_grows i). unfold regenerate_crl. destruct (CaRoutes.get_ca i d); [|done]. destruct (negb _); [done|].
    destruct (acting_user g) as [n|]; [|done]. destruct (generate_change i n now d t) as [Hc _].
    by destruct (generate_crl _ _ _ _ _ _) as [[? ?] []].
  - apply (change_grows i). unfold regenerate_delta_crl. destruct (CaRoutes.get_ca i d); [|done]. do 3 (destruct (negb _); [done|]).
    destruct (acting_user g) as [n|]; [|done]. destruct (delta_change i 24 n now d t) as [Hc _].
    by destruct (generate_delta_crl _ _ _ _ _ _ _) as [[? ?] []].
  - apply (change_grows i). unfold toggle_auto_regen. destruct (CaRoutes.get_ca i d); [|done]. destruct (negb _); [done|]. by destruct (_ ≫= _).
  - apply (change_grows i). unfold configure_delta_crl. destruct (CaRoutes.get_ca i d); [|done]. destruct (_ ≫= _) as [[e n]|]; [|done].
    cbn zeta. destruct (match n with Some h => _ | None => _ end); [done|]. by destruct (acting_user g).
  - unfold CertActions.revoke_certificate. destruct (if Json.truthy q then _ else _) as [reason|]; [|apply grows_refl].
    destruct (get_cert i d) as [c|]; [|apply grows_refl]. destruct (true_flag _); [apply grows_refl|].
    destruct (column _) as [x|]; [|apply grows_refl]. pose proof (revoke_grows c x (py_str py_repr reason) u now now' d t) as Hr.
    by destruct (service_revoke _ _ _ _ _ _ _ _ _ _) as [[d1 t1] c1].
  - unfold CertActions.bulk_revoke_certificates. destruct (bulk_ids q) as [ids|]; [|apply grows_refl]. cbv zeta.
    pose proof (bulk_revoke_grows (Json.get_or "reason" (JStr "unspecified") q) u now ids 0 false (Results [] []) d t) as Hr.
    by destruct (bulk_revoke_loop _ _ _ _ _ _ _ _ _ _ _ _) as [[[d1 t1] r1] b1].
  - unfold UserCerts.revoke_user_certificate. destruct (UserCerts.get_enrolment i _) as [e|]; [|apply grows_refl]. cbn [UserCerts.tables].
    destruct (UserCerts.certificate_for e d) as [c|]; [|apply grows_refl]. destruct (true_flag _); [apply grows_refl|]. cbv zeta.
    destruct (negb _); [apply grows_refl|]. destruct (column _) as [x|]; [|apply grows_refl].
    match goal with |- context [service_revoke ?e ?l ?c ?x ?s ?u ?n ?n' ?d ?t] =>
      pose proof (revoke_grows c x s u n n' d t) as Hr; destruct (service_revoke e l c x s u n n' d t) as [[d1 t1] c1] end.
    exact Hr.
  - unfold CaRoutes.delete_ca. cbn [Ocsp.tables]. destruct (CaRoutes.get_ca i d); [|apply grows_refl].
    do 2 (destruct (_ <? _); [apply grows_refl|]). apply delete_grows.
  - unfold CaRoutes.bulk_delete_cas, named_by. destruct (bulk_ids q) as [ids|]; [|apply grows_refl].
    pose proof (bulk_delete_grows ids (Results [] []) d rs) as Hr. by destruct (CaRoutes.bulk_delete_loop _ _ _) as [w r].
Qed.

(** Requests one after the other. *)
Inductive requests (d : db) : list Z -> db -> Prop :=
| NoRequest : requests d [] d
| OneMore gone d1 gone' d' : requests d gone d1 -> request d1 gone' d' -> requests d (gone ++ gone') d'.

(** C31: The numbers of the CRLs of a CA, base and delta CRLs together, go up in the order in
    which they were made, through any sequence of the requests that make CRLs (the hourly
    task, the distribution point, renewals, revocations of any kind) and of those that delete
    CAs; and the CRLs of a CA that none of them asks to delete are not taken back. *)
Theorem crl_numbers_increase d gone d' (Hd : numbers_increase (crls d)) (Hr : requests d gone d') :
  numbers_increase (crls d')
  /\ forall i, ~ In i gone -> List.filter (of_ca i) (crls d) `prefix_of` List.filter (of_ca i) (crls d').
Proof.
  enough (grows gone (crls d) (crls d')) as [Hn Hk] by (split; [by apply Hn|done]).
  induction Hr as [|gone d1 gone' d' _ IH Hs%request_grows]; [apply grows_refl|]. by eapply grows_trans.
Qed.
End Requests.

Definition latest (delta : bool) (i : Z) (d : db) : option Pki.crl_meta :=
  if delta then latest_delta encryption_enabled i d else latest_base encryption_enabled i d.
Lemma latest_eq delta i d :
  latest delta i d = Table.last_by Pki.m_crl_number (Table.all (fun m => of_ca i m && Bool.eqb (Pki.m_is_delta m) delta) (crls d)).
Proof.
  destruct delta; cbn; unfold latest_delta, latest_base, Pki.get_latest_delta_crl, Pki.get_latest_crl; cbn [Pki.crls pki_view];
    f_equal; unfold Table.all, of_ca; apply List.filter_ext; intros m; by destruct (Pki.m_is_delta m).
Qed.
Lemma highest_latest delta i d m : numbers_increase (crls d) ->
  (In m (highest delta d) /\ Pki.m_ca_id m = i) <-> latest delta i d = Some m.
Proof.
  intros Hd. rewrite latest_eq. set (l := Table.all _ (crls d)).
  assert (forall x, In x l <-> In x (crls d) /\ Pki.m_ca_id x = i /\ Pki.m_is_delta x = delta) as Hl.
  { intros x. unfold l, of_ca. by rewrite Table.In_all, andb_true_iff, Z.eqb_eq, eqb_true_iff. }
  assert (In m (highest delta d) /\ Pki.m_ca_id m = i <-> In m l /\ forall x, In x l -> Pki.m_crl_number x <= Pki.m_crl_number m) as ->.
  { unfold highest, is_highest. rewrite Table.In_all, andb_true_iff, eqb_true_iff, forallb_forall. setoid_rewrite Table.In_all.
    unfold of_ca. setoid_rewrite andb_true_iff. setoid_rewrite eqb_true_iff. setoid_rewrite Z.eqb_eq. setoid_rewrite Z.leb_le.
    rewrite Hl. setoid_rewrite Hl. naive_solver. }
  split.
  - intros [Hm Hx]. destruct (Table.last_by _ l) as [x|] eqn:E; [|apply Table.last_by_None in E; by rewrite E in Hm].
    pose proof (Table.last_by_max _ _ _ _ E Hm) as Hle. apply Table.last_by_In in E. specialize (Hx _ E).
    apply Hl in E as (Hx1 & Hx2 & _), Hm as (Hm1 & Hm2 & _). f_equal.
    apply list_elem_of_In, list_elem_of_lookup in Hx1 as [j Hj], Hm1 as [k Hk].
    destruct (Nat.lt_trichotomy j k) as [Hlt|[->|Hlt]]; [|congruence|].
    + pose proof (Hd _ _ _ _ Hj Hk Hlt ltac:(congruence)). lia.
    + pose proof (Hd _ _ _ _ Hk Hj Hlt ltac:(congruence)). lia.
  - intros E. split; [by eapply Table.last_by_In|]. intros x. by apply Table.last_by_max.
Qed.

Lemma delta_of_listing i d : numbers_increase (crls d) ->
  last (Table.all (of_ca i) (highest true d)) = latest_delta encryption_enabled i d.
Proof.
  intros Hd. pose proof (fun m => highest_latest true i d m Hd) as Hi. cbn [latest] in Hi.
  destruct (last _) as [m|] eqn:E.
  - apply last_Some in E as [l E]. symmetry. apply Hi.
    assert (In m (Table.all (of_ca i) (highest true d))) as [? ?%Z.eqb_eq]%Table.In_all; [|done].
    rewrite E. apply in_app_iff. right. by left.
  - apply last_None in E. destruct (latest_delta _ i d) as [m|]; [|done]. destruct (proj2 (Hi m) eq_refl) as [Hm Hmi].
    enough (In m []) as [] by done. rewrite <-E. apply Table.In_all. split; [done|]. by apply Z.eqb_eq.
Qed.

(** The listing, made of two grouped queries, agrees with the routes of single CAs: a row
    is listed exactly when it is the CRL its CA is asked for, and its delta CRL is the
    one its CA is asked for. *)
Theorem listing_agrees_with_single_routes now d (Hd : numbers_increase (crls d)) :
  list_crls now d
  = JList (List.map (fun m =>
      JDict (with_caref (CaRoutes.get_ca (Pki.m_ca_id m) d) (to_dict now false m)
             ++ match latest_delta encryption_enabled (Pki.m_ca_id m) d with
                | Some x => [("delta_crl", JDict (to_dict now false x))]
                | None => []
                end)) (highest false d))
  /\ forall i m, (In m (highest false d) /\ Pki.m_ca_id m = i) <-> latest_base encryption_enabled i d = Some m.
Proof.
  split; [|intros i m; by apply (highest_latest false)].
  unfold list_crls. f_equal. apply List.map_ext. intros m. by rewrite (delta_of_listing _ _ Hd).
Qed.
End Facts.
End CrlFacts.

(** The CRL made in [ManageFacts]. *)
Module CrlRun.
Import CertModel CertRoutes CertActions Crl CrlFacts ManageFacts.CertRoutesRun.
Local Open Scope string_scope.
Local Open Scope Z_scope.
#[local] Existing Instance list_sink.
#[local] Existing Instance PkiWitness.toy_fernet.
#[local] Existing Instance toy_keys.
#[local] Existing Instance toy_x509.
#[local] Instance toy_columns : RowColumns := {| row_id := Pki.m_crl_number; created_at := Pki.m_this_update; updated_at _ := None |}.
Definition crl1 : Pki.crl_meta := default (Pki.CrlMeta 0 0 0 0 "" 0 "" false None) (head (crls d2)).
Definition later : Z := Time.days 365.
Definition regenerated := Crl.regenerate_crl false 1 false (Time.days 6) (Time.days 6) d2 ([] : list string).
Definition d3 : db := regenerated.1.1.

Lemma two_days_witness :
  (should_regenerate_crl 1 (Time.days 6) d2).1 = true /\ (should_regenerate_crl 1 (Time.days 4) d2).1 = false.
Proof.
  split; [|vm_compute; reflexivity].
  apply (proj2 (renewal_is_due_two_days_ahead 1 (Time.days 6) d2 root eq_refl)). split; [vm_compute; reflexivity|].
  right. exists crl1. split; vm_compute; reflexivity.
Defined.

Lemma stale_served_witness :
  is_stale later crl1 = true /\ cdp_get_crl false "1" later d2 ([] : list string) = (d2, [], Served crl1 3600).
Proof.
  split; [vm_compute; reflexivity|].
  apply (stale_crls_are_served (H := toy_columns) (H0 := toy_x509) (H1 := PkiWitness.toy_fernet) (H2 := list_sink)
    false 1 "1" d2 d2 root crl1 later []); [vm_compute; reflexivity..|].
  eapply rtc_l; [|apply rtc_refl].
  exact (TaskRuns (H := toy_columns) (H0 := toy_x509) (H1 := PkiWitness.toy_fernet) (H2 := list_sink) false d2 later []).
Defined.

(** A renewal, and the request to delete another CA. *)
Definition d4 : db := Ocsp.tables (CaRoutes.delete_ca 9 (Ocsp.World d3 []) ([] : list string)).1.1.
Lemma numbers_witness : numbers_increase (crls d4) /\ List.filter (of_ca 1) (crls d2) `prefix_of` List.filter (of_ca 1) (crls d4)
  /\ List.map Pki.m_crl_number (crls d4) = [1; 2].
Proof.
  destruct (crl_numbers_increase (H := toy_columns) (H0 := toy_x509) (H1 := PkiWitness.toy_fernet) (H2 := list_sink)
    (H3 := UserCerts.UserCertsFacts.Runs.no_inspection) false "error" no_repr (fun _ => None) d2 [9] d4) as [Hn Hk].
  - intros j k m m' Hj Hk Hjk _. exfalso.
    apply lookup_lt_Some in Hj, Hk. assert (length (crls d2) = 1%nat) as Hl by (vm_compute; reflexivity). lia.
  - refine (OneMore false "error" no_repr (fun _ => None) d2 [] d3 [9] d4 (OneMore false "error" no_repr (fun _ => None) d2 [] d2 [] d3 _ _) _).
    + constructor.
    + exact (ByRegenerate false "error" no_repr (fun _ => None) d2 1 false (Time.days 6) (Time.days 6) ([] : list string)).
    + exact (ByDeletion false "error" no_repr (fun _ => None) d3 9 [] ([] : list string)).
  - split_and!; [exact Hn| |vm_compute; reflexivity]. apply Hk. intros [E|[]]. discriminate E.
Defined.

Lemma crl_listing_witness : In crl1 (highest false d2) <-> latest_base false 1 d2 = Some crl1.
Proof.
  assert (numbers_increase (crls d2)) as Hn.
  { intros j k m m' Hj Hk Hjk _. exfalso.
    apply lookup_lt_Some in Hj, Hk. assert (length (crls d2) = 1%nat) as Hl by (vm_compute; reflexivity). lia. }
  pose proof (proj2 (listing_agrees_with_single_routes (H := toy_columns) (H1 := PkiWitness.toy_fernet) false 0 d2 Hn) 1 crl1) as Hi.
  assert (Pki.m_ca_id crl1 = 1) as Hone by (vm_compute; reflexivity).
  exact (conj (fun Hin => proj1 Hi (conj Hin Hone)) (fun E => proj1 (proj2 Hi E))).
Defined.
End CrlRun.
