(* ===== verification/Est.v ===== *)
(** Enrollment over Secure Transport: the handlers of [api/est_protocol.py] and the settings
    of [api/v2/est.py].

    A handler asks [CAService] for two methods the class does not have.  The look-up is an
    argument of the handlers, so that what they do around the call is modelled as written;
    what the class holds is [CAService_methods].  The audit rows of the handlers are added
    beside the service.  Ciphers, encodings and the parser of DER requests are arguments. *)
From S2P Require Import Prelude Base64 AuditSink Pki PkiFacts CertModel CertListing CaModel CertRoutes ManageFacts CaRoutes JsonText.

Module Est.
Import CertModel CertRoutes.
Local Open Scope string_scope.
Local Open Scope list_scope.
Local Open Scope Z_scope.

Record audit_row := AuditRow { l_action : string; l_name : string; l_username : option string; l_details : string; l_success : bool }.
Record world := World { tables : db; config : list (string * option string); audit : list audit_row }.
Definition with_config l w := World (tables w) l (audit w).
Definition with_audit l w := World (tables w) (config w) l.

(** [request.authorization]: the members a scheme does not have read as [None]. *)
Record authorization := Authorization { username : option string; password : option string }.
Record request := Request {
  client_cert : option string;               (* environ SSL_CLIENT_CERT *)
  authorization_ : option authorization;
  content_type : option string;
  body : string;
  remote_addr : string;
}.
Inductive reply := Response (status : Z) (text : string) | Raised.
Definition refused : reply := Response 401 "Authentication required".
Definition not_configured : reply := Response 503 "EST not configured".

(** * Settings *)

Definition row (key : string) (w : world) : option (option string) := Json.assoc key (config w).
Definition get_config (key : string) (dflt : string) (w : world) : option string :=
  match row key w with Some v => v | None => Some dflt end.
Definition set_config (key : string) (value : option string) (w : world) : world :=
  match row key w with
  | Some _ => with_config (List.map (fun kv => if String.eqb kv.1 key then (key, value) else kv) (config w)) w
  | None => with_config (config w ++ [(key, value)]) w
  end.
Definition get_est_ca (w : world) : option CaModel.ca := v ← row "est_ca_refid" w; v ≫= (fun r => ca_by_refid r (tables w)).

(** * Authentication *)

(** [hmac.compare_digest]: a TypeError unless both are texts of ASCII characters. *)
Definition compare_digest (a b : option string) : option bool :=
  match a, b with
  | Some a, Some b => if JsonText.ascii_text a && JsonText.ascii_text b then Some (String.eqb a b) else None
  | _, _ => None
  end.
(** [None] is an exception. *)
Definition authenticate_est_client (r : request) (w : world) : option (bool * option string) :=
  match filled (client_cert r) with
  | Some _ => Some (true, Some "mtls-client")
  | None =>
      match authorization_ r, row "est_username" w, row "est_password" w with
      | Some a, Some u, Some p =>
          same_name ← compare_digest (username a) u;
          same ← (if (same_name : bool) then compare_digest (password a) p else Some false);
          Some (if (same : bool) then (true, username a) else (false, None))
      | _, _, _ => Some (false, None)
      end
  end.

(** * Enrolment *)

(** The methods of the class. *)
Definition CAService_methods : list string :=
  ["create_internal_ca"; "import_ca"; "get_ca"; "get_ca_by_refid"; "list_cas"; "delete_ca"; "export_ca"; "get_ca_chain";
   "increment_serial"; "generate_crl"; "export_ca_with_options"; "get_ca_fingerprints"; "get_ca_details"].

Section Handlers.
Context `{Pki.X509}.
Context (load_der_csr : string -> option Pki.csr) (serialize_pkcs7 : list Pki.cert -> option string).
(** [sign_csr_from_crypto] and [get_certificate_chain], where the class has them. *)
#[local] Abbreviation signer := (CaModel.ca -> Pki.csr -> Z -> world -> option (world * string * string)).
Context (sign_csr_from_crypto : option signer) (get_certificate_chain : option (string -> world -> option (list string))).

Definition p7_text (pem : string) : option string :=
  x ← Pki.load_cert pem; der ← serialize_pkcs7 [x]; Some (Base64.b64encode der).
Definition read_csr (r : request) : option Pki.csr :=
  if Str.contains "application/pkcs10" (default "" (content_type r))
  then der ← Base64.b64decode (body r); load_der_csr der
  else Pki.load_csr (body r).
Definition validity_days (w : world) : option Z :=
  match row "est_validity_days" w with Some v => t ← v; Num.py_int t | None => Some 365 end.

Definition get_ca_certs (w : world) : reply :=
  match get_est_ca w with
  | None => not_configured
  | Some a =>
      match (chain ← get_certificate_chain; pems ← chain (CaModel.a_refid a) w; xs ← mapM Pki.load_cert pems;
             der ← serialize_pkcs7 xs; Some (Base64.b64encode der)) with
      | Some text => Response 200 text
      | None => Response 500 "Internal server error"
      end
  end.

(** Signing, the audit row with its commit, and the reply; an exception after the commit
    keeps what was stored. *)
Definition sign_and_reply (failed : string) (action detail : string) (who : option string) (r : request) (a : CaModel.ca)
    (q : Pki.csr) (w : world) : world * reply :=
  match (days ← validity_days w; sign ← sign_csr_from_crypto; sign a q days w) with
  | None => (w, Response 400 failed)
  | Some (w, pem, _) =>
      (with_audit (audit w ++ [AuditRow action (Pki.rfc4514 (Pki.q_subject q)) who (detail ^+ remote_addr r) true]) w,
       match p7_text pem with Some text => Response 200 text | None => Response 400 failed end)
  end.

Definition simple_enroll (r : request) (w : world) : world * reply :=
  match authenticate_est_client r w with
  | None => (w, Raised)
  | Some (false, _) => (w, refused)
  | Some (true, who) =>
      match get_est_ca w with
      | None => (w, not_configured)
      | Some a =>
          match read_csr r with
          | None => (w, Response 400 "Enrollment failed")
          | Some q => sign_and_reply "Enrollment failed" "certificate.issued" "EST enrollment from " who r a q w
          end
      end
  end.

Definition simple_reenroll (r : request) (w : world) : world * reply :=
  match filled (client_cert r) with
  | None => (w, Response 401 "Client certificate required for re-enrollment")
  | Some pem =>
      match get_est_ca w with
      | None => (w, not_configured)
      | Some a =>
          match read_csr r with
          | None => (w, Response 400 "Re-enrollment failed")
          | Some q =>
              match Pki.load_cert pem with
              | None => (w, Response 400 "Invalid client certificate")
              | Some x =>
                  if negb (bool_decide (Pki.x_subject x = Pki.q_subject q))
                  then (w, Response 403 "CSR subject does not match client certificate")
                  else sign_and_reply "Re-enrollment failed" "certificate.renewed" "EST re-enrollment via mTLS from "
                         (Some "mtls-client") r a q w
              end
          end
      end
  end.

Definition get_csr_attrs (r : request) (w : world) : reply :=
  match authenticate_est_client r w with
  | None => Raised
  | Some (false, _) => refused
  | Some (true, _) => Response 204 ""
  end.

(** ** Keys made by the server *)

(** PKCS#7 padding to blocks of 16 bytes. *)
Fixpoint repeated (n : nat) (c : ascii) : string := match n with O => "" | S n => String c (repeated n c) end.
Definition pad (s : string) : string :=
  let pad_len := (16 - String.length s mod 16)%nat in
  s ^+ repeated pad_len (Ascii.ascii_of_nat pad_len).
(** IV, length of the encrypted AES key in two bytes, that key, and the encrypted data. *)
Definition envelope (iv encrypted_key data : string) : option string :=
  let n := String.length encrypted_key in
  if (n / 256 <? 256)%nat
  then Some (iv ^+ String (Ascii.ascii_of_nat (n / 256)) (String (Ascii.ascii_of_nat (n mod 256)) encrypted_key) ^+ data)
  else None.
Context (new_csr : Pki.name -> string -> Pki.csr)                          (* the subject, the new key *)
        (key_bytes : string -> option string -> option string)             (* PKCS#8 text of a key, under a password *)
        (aes_cbc : string -> string -> string -> string)                   (* key, IV, padded text *)
        (oaep : Pki.cert -> string -> option string).
Definition crlf : string := String (Ascii.ascii_of_nat 13) (String (Ascii.ascii_of_nat 10) "").
Definition multipart (boundary key_b64 p7_b64 : string) : string :=
  Str.join crlf ["--" ^+ boundary; "Content-Type: application/pkcs8"; "Content-Transfer-Encoding: base64"; ""; key_b64;
                 "--" ^+ boundary; "Content-Type: application/pkcs7-mime; smime-type=certs-only";
                 "Content-Transfer-Encoding: base64"; ""; p7_b64; "--" ^+ boundary ^+ "--"; ""].
Definition server_keygen (r : request) (key aes_key aes_iv : string) (w : world) : world * reply :=
  let failed := Response 400 "Server key generation failed" in
  match authenticate_est_client r w with
  | None => (w, Raised)
  | Some (false, _) => (w, refused)
  | Some (true, who) =>
      match get_est_ca w with
      | None => (w, not_configured)
      | Some a =>
          match (q ← (der ← Base64.b64decode (body r); load_der_csr der);
                 days ← validity_days w; sign ← sign_csr_from_crypto;
                 sign a (new_csr (Pki.q_subject q) key) days w) with
          | None => (w, failed)
          | Some (w, pem, serial) =>
              (w,
               match (x ← Pki.load_cert pem; p7 ← p7_text pem; Some (x, p7)) with
               | None => failed
               | Some (x, p7) =>
                   let answer key_der :=
                     Response 200 (multipart ("est-boundary-" ^+ Str.take 8 serial) (Base64.b64encode key_der) p7) in
                   match authorization_ r ≫= (fun auth => filled (password auth)) with
                   | Some secret => match key_bytes key (Some secret) with Some der => answer der | None => failed end
                   | None =>
                       match key_bytes key None with
                       | None => failed
                       | Some plain =>
                           match (k ← oaep x aes_key; envelope aes_iv k (aes_cbc aes_key aes_iv (pad plain))) with
                           | Some der => answer der
                           | None => Response 500 "Server key generation failed: unable to encrypt private key"
                           end
                       end
                   end
               end)
          end
      end
  end.
End Handlers.

(** * [api/v2/est.py] *)

Section Management.
Context {T} `{AuditSink T} (py_repr : json -> string).
#[local] Abbreviation py_str := (py_str py_repr).

(** [None]: the setting of the validity is no number. *)
Definition get_est_config (w : world) : option json :=
  let ca_refid := get_config "est_ca_refid" "" w in
  let a := filled ca_refid ≫= (fun r => ca_by_refid r (tables w)) in
  days ← match filled (get_config "est_validity_days" "365" w) with Some t => Num.py_int t | None => Some 365 end;
  Some (JDict [("enabled", JBool (bool_decide (get_config "est_enabled" "false" w = Some "true"))); ("ca_refid", text ca_refid);
               ("ca_id", number (CaModel.a_id <$> a)); ("ca_name", text (CaModel.a_descr <$> a));
               ("username", text (get_config "est_username" "" w));
               ("password_set", JBool (match filled (get_config "est_password" "" w) with Some _ => true | None => false end));
               ("validity_days", JInt days)]).

(** [if k in data: set_config(...)]; the function gives the value, [None] where nothing is
    set; the outer [None] is an exception. *)
Definition setting (k key : string) (f : json -> option (option (option string))) (data : json) (w : world) : option world :=
  v ← Json.field k data;
  match v with
  | None => Some w
  | Some j => o ← f j; Some (match o with Some v => set_config key v w | None => w end)
  end.
Definition as_stored (j : json) : option string := match j with JNull => None | _ => Some (py_str j) end.
Definition update_est_config (request : json) (w : world) (trail : T) : option (world * T) :=
  let data := if Json.truthy request then request else JDict [] in
  w ← setting "enabled" "est_enabled" (fun j => Some (Some (Some (if Json.truthy j then "true" else "false")))) data w;
  w ← setting "ca_refid" "est_ca_refid" (fun j => Some (Some (Some (if Json.truthy j then py_str j else "")))) data w;
  w ← setting "ca_id" "est_ca_refid"
        (fun j => i ← (if Json.truthy j then bind_id j else Some None);
                  let a := i ≫= (fun i => CaRoutes.get_ca i (tables w)) in
                  Some (Some (Some (match a with Some a => CaModel.a_refid a | None => "" end)))) data w;
  w ← setting "username" "est_username" (fun j => Some (Some (as_stored j))) data w;
  w ← setting "password" "est_password" (fun j => Some (if Json.truthy j then Some (as_stored j) else None)) data w;
  w ← setting "validity_days" "est_validity_days" (fun j => Some (Some (Some (py_str j)))) data w;
  Some (w, record_event (Event "est_config_update" (Some "est") ANone (AStr "EST Configuration")
             (AStr "Updated EST configuration") true None) trail).

Definition about_est (l : audit_row) : bool :=
  CertListing.ilike "est.%" (Some (l_action l)) || CertListing.ilike "%EST enrollment%" (Some (l_details l)).
Record stats := Stats { total : nat; successful : nat; failed : nat }.
Definition get_est_stats (w : world) : stats :=
  let issued := Table.count (fun l => String.eqb (l_action l) "certificate.issued" && CertListing.ilike "%EST%" (Some (l_details l))) (audit w) in
  Stats (Table.count about_est (audit w) + issued)
        (Table.count (fun l => about_est l && l_success l) (audit w) + issued)
        (Table.count (fun l => about_est l && negb (l_success l)) (audit w)).
End Management.
End Est.

Module EstFacts.
Import CertModel CertRoutes Est.
Local Open Scope string_scope.
Local Open Scope list_scope.
Local Open Scope Z_scope.

Section Facts.
Context `{Pki.X509}.
Context (load_der_csr : string -> option Pki.csr) (serialize_pkcs7 : list Pki.cert -> option string).
Context (new_csr : Pki.name -> string -> Pki.csr) (key_bytes : string -> option string -> option string)
        (aes_cbc : string -> string -> string -> string) (oaep : Pki.cert -> string -> option string).
#[local] Abbreviation signer := (CaModel.ca -> Pki.csr -> Z -> world -> option (world * string * string)).
#[local] Abbreviation simple_enroll := (simple_enroll load_der_csr serialize_pkcs7).
#[local] Abbreviation simple_reenroll := (simple_reenroll load_der_csr serialize_pkcs7).
#[local] Abbreviation server_keygen sign := (server_keygen load_der_csr serialize_pkcs7 sign new_csr key_bytes aes_cbc oaep).

(** The tables are touched, or a certificate is handed out. *)
Definition enrols (w : world) (x : world * reply) : Prop := x.1 <> w \/ exists t, x.2 = Response 200 t.

Lemma sign_and_reply_enrols failed action detail who r a q w sign :
  enrols w (sign_and_reply serialize_pkcs7 sign failed action detail who r a q w) -> is_Some sign.
Proof.
  unfold sign_and_reply. destruct (validity_days w); cbn; [|intros [?|[? ?]]; done].
  destruct sign; cbn; [by eexists|]. intros [?|[? ?]]; done.
Qed.

(** No request is ever answered with a certificate, and none changes anything: the class
    the handlers ask has neither of the methods. *)
Theorem est_enrols_nobody (f : signer) (g : string -> world -> option (list string)) r key aes_key aes_iv w :
  let sign := getattr "sign_csr_from_crypto" CAService_methods f in
  let chain := getattr "get_certificate_chain" CAService_methods g in
  ~ enrols w (simple_enroll sign r w) /\ ~ enrols w (simple_reenroll sign r w)
  /\ ~ enrols w (server_keygen sign r key aes_key aes_iv w)
  /\ (get_ca_certs serialize_pkcs7 chain w = not_configured \/ get_ca_certs serialize_pkcs7 chain w = Response 500 "Internal server error").
Proof.
  cbn [getattr CAService_methods existsb]. change (getattr _ _ f) with (@None signer).
  change (getattr _ _ g) with (@None (string -> world -> option (list string))).
  assert (forall x : reply, (forall t, x <> Response 200 t) -> ~ enrols w (w, x)) as Hno by (intros x Hx [?|[t ?]]; [done|by apply (Hx t)]).
  split_and!.
  - unfold Est.simple_enroll. destruct (authenticate_est_client r w) as [[[] who]|]; [|by apply Hno..].
    destruct (get_est_ca w); [|by apply Hno]. destruct (read_csr _ _); [|by apply Hno]. by intros [? ?]%sign_and_reply_enrols.
  - unfold Est.simple_reenroll. destruct (filled _); [|by apply Hno]. destruct (get_est_ca w); [|by apply Hno].
    destruct (read_csr _ _); [|by apply Hno]. destruct (Pki.load_cert _); [|by apply Hno]. destruct (negb _); [by apply Hno|].
    by intros [? ?]%sign_and_reply_enrols.
  - unfold Est.server_keygen. destruct (authenticate_est_client r w) as [[[] who]|]; [|by apply Hno..].
    destruct (get_est_ca w); [|by apply Hno]. destruct (x ← _; load_der_csr x); [|by apply Hno]. cbn. destruct (validity_days w); by apply Hno.
  - unfold get_ca_certs. destruct (get_est_ca w); [by right|by left].
Qed.

(** The credentials of the settings. *)
Definition basic_credentials (r : request) (w : world) : Prop :=
  exists u p, authorization_ r = Some (Authorization (Some u) (Some p))
    /\ row "est_username" w = Some (Some u) /\ row "est_password" w = Some (Some p).
Lemma compare_digest_true a b : compare_digest a b = Some true -> exists s, a = Some s /\ b = Some s.
Proof.
  destruct a as [a|], b as [b|]; cbn; try done. destruct (_ && _); [|done]. intros [= ->%String.eqb_eq]. by exists b.
Qed.
Lemma authenticated_by r w who : authenticate_est_client r w = Some (true, who) ->
  is_Some (filled (client_cert r)) \/ basic_credentials r w.
Proof.
  unfold authenticate_est_client. intros Hb. destruct (filled (client_cert r)); [left; by eexists|]. right. revert Hb.
  destruct (authorization_ r) as [[name secret]|] eqn:Ea; [|done]. destruct (row "est_username" w) as [u|] eqn:Eu; [|done].
  destruct (row "est_password" w) as [p|] eqn:Ep; [|done]. cbn [username password] in *.
  intros (b & Hn & (b' & Hs & Hb)%bind_Some)%bind_Some. destruct b' ; [|done]. destruct b; [|done].
  apply compare_digest_true in Hn as (u' & -> & ->), Hs as (p' & -> & ->). by exists u', p'.
Qed.

(** Whatever the signing method would be: who enrols presents a client certificate or the
    name and password of the settings, and who enrols again presents a client certificate
    with the subject of the request. *)
Theorem enrolment_needs_credentials (sign : option signer) r key aes_key aes_iv w :
  (enrols w (simple_enroll sign r w) \/ enrols w (server_keygen sign r key aes_key aes_iv w) ->
     is_Some (get_est_ca w) /\ (is_Some (filled (client_cert r)) \/ basic_credentials r w))
  /\ (enrols w (simple_reenroll sign r w) ->
     exists pem x q, filled (client_cert r) = Some pem /\ Pki.load_cert pem = Some x
       /\ read_csr load_der_csr r = Some q /\ Pki.x_subject x = Pki.q_subject q).
Proof.
  assert (forall x : reply, (forall t, x <> Response 200 t) -> ~ enrols w (w, x)) as Hno by (intros x Hx [?|[t ?]]; [done|by apply (Hx t)]).
  split; [intros [He|He]|intros He].
  - unfold Est.simple_enroll in He. destruct (authenticate_est_client r w) as [[[] who]|] eqn:Ea; [|by apply Hno in He..].
    destruct (get_est_ca w); [|by apply Hno in He]. split; [by eexists|by eapply authenticated_by].
  - unfold Est.server_keygen in He. destruct (authenticate_est_client r w) as [[[] who]|] eqn:Ea; [|by apply Hno in He..].
    destruct (get_est_ca w); [|by apply Hno in He]. split; [by eexists|by eapply authenticated_by].
  - unfold Est.simple_reenroll in He. destruct (filled _) as [pem|]; [|by apply Hno in He]. destruct (get_est_ca w); [|by apply Hno in He].
    destruct (read_csr _ _) as [q|] eqn:Eq; [|by apply Hno in He]. destruct (Pki.load_cert pem) as [x|] eqn:Ex; [|by apply Hno in He].
    destruct (decide (Pki.x_subject x = Pki.q_subject q)) as [Hs|Hs]; [by exists pem, x, q|].
    rewrite bool_decide_eq_false_2 in He by done. by apply Hno in He.
Qed.

(** The switch of the settings is read by nobody. *)
Lemma switch_is_ignored v r w :
  let w' := set_config "est_enabled" v w in
  authenticate_est_client r w' = authenticate_est_client r w /\ get_est_ca w' = get_est_ca w /\ validity_days w' = validity_days w.
Proof.
  cbn zeta. assert (forall k, k <> "est_enabled" -> row k (set_config "est_enabled" v w) = row k w) as Hr.
  { intros k Hk. unfold row, set_config, row. destruct (Json.assoc "est_enabled" (config w)) eqn:E; cbn [config with_config].
    - clear E. induction (config w) as [|[k' v'] l IH]; [done|]. cbn. destruct (String.eqb_spec k' "est_enabled") as [->|]; cbn.
      + destruct (String.eqb_spec k "est_enabled"); [done|]. apply IH.
      + destruct (String.eqb k k'); [done|]. apply IH.
    - clear E. induction (config w) as [|[k' v'] l IH]; cbn; [|destruct (String.eqb k k'); [done|apply IH]].
      by destruct (String.eqb_spec k "est_enabled"). }
  assert (tables (set_config "est_enabled" v w) = tables w) as Ht by (unfold set_config; by destruct (row _ _)).
  unfold authenticate_est_client, get_est_ca, validity_days. rewrite !Hr by done. by rewrite Ht.
Qed.
End Facts.
End EstFacts.

Module EstRun.
Import CertModel CertRoutes Est EstFacts ManageFacts.CertRoutesRun.
Local Open Scope string_scope.
Local Open Scope list_scope.
Local Open Scope Z_scope.
#[local] Existing Instance toy_x509.

Definition settings : list (string * option string) :=
  [("est_enabled", Some "false"); ("est_ca_refid", Some "root"); ("est_username", Some "device"); ("est_password", Some "secret")].
Definition w0 : world := World d0 settings [].
Definition csr0 : Pki.csr := Pki.Csr true [("CN", "www.example.com")] "PUB DEVICE" [].
Definition read_der (s : string) : option Pki.csr := if String.eqb s "CSR" then Some csr0 else None.
Definition p7 (l : list Pki.cert) : option string := Some "P7".
(** A signing method as the handlers expect it. *)
Definition sign : option (CaModel.ca -> Pki.csr -> Z -> world -> option (world * string * string)) :=
  Some (fun a q days w => Some (w, "PEM", "777")).
Definition ask (auth : option authorization) : Est.request :=
  Request None auth (Some "application/pkcs10") (Base64.b64encode "CSR") "10.0.0.9".
Definition device : Est.request := ask (Some (Authorization (Some "device") (Some "secret"))).

Example enrolment_answers :
  (simple_enroll read_der p7 sign device w0).2 = Response 200 (Base64.b64encode "P7")
  /\ (simple_enroll read_der p7 (getattr "sign_csr_from_crypto" CAService_methods (fun a q days w => Some (w, "PEM", "777"))) device w0)
     = (w0, Response 400 "Enrollment failed")
  /\ (simple_enroll read_der p7 sign (ask (Some (Authorization (Some "device") (Some "guess")))) w0).2 = refused
  /\ (simple_enroll read_der p7 sign (ask (Some (Authorization None None))) w0).2 = Raised
  /\ (simple_enroll read_der p7 sign (ask None) w0).2 = refused.
Proof. vm_compute. split_and!; reflexivity. Qed.

Lemma credentials_witness : basic_credentials device w0.
Proof.
  destruct (proj1 (enrolment_needs_credentials (H := toy_x509) read_der p7 (fun _ _ => csr0) (fun k _ => Some k) (fun _ _ s => s) (fun _ k => Some k)
    sign device "KEY" "AES" "IV" w0)) as [_ [Hc|Hb]].
  - left. right. exists (Base64.b64encode "P7"). vm_compute. reflexivity.
  - exfalso. vm_compute in Hc. destruct Hc as [x Hx]. discriminate Hx.
  - exact Hb.
Defined.

(** Every enrolment is counted twice. *)
Example counted_twice :
  total (get_est_stats (simple_enroll read_der p7 sign device w0).1) = 2%nat.
Proof. vm_compute. reflexivity. Qed.

(** A validity that is no number is stored, and the settings can not be read any more. *)
Example settings_break :
  (p ← update_est_config (H := list_sink) no_repr (JDict [("validity_days", JStr "a year")]) w0 []; Some (get_est_config p.1)) = Some None.
Proof. vm_compute. reflexivity. Qed.
End EstRun.
