(* ===== verification/Tasks.v ===== *)
(** Two tasks of the scheduler: expiry alerts ([services/expiry_alert_service.py], with
    their routes in [api/v2/system.py]) and automatic renewal
    ([services/auto_renewal_service.py]).

    Both name an attribute their model class does not have; the look-up is an argument
    where code follows that depends on it.  Mails are a trace; their text is only the
    subject.  Moments stay before the year 10000. *)
From S2P Require Import Prelude AuditLog CertModel.

Module Tasks.
Import CertModel.
Local Open Scope string_scope.
Local Open Scope list_scope.
Local Open Scope Z_scope.


(** * Expiry alerts *)

Record settings := Settings {
  enabled : bool; alert_days : list Z; include_revoked : bool; recipients : list json;
  last_run : option string; total_alerts_sent : Z;
}.
Definition default_settings : settings := Settings true [30; 14; 7; 1] false [] None 0.

(** A number of days above 0, or none; the outer [None] is an exception. *)
Definition positive_day (d : json) : option (option Z) :=
  match d with
  | JInt z => Some (if 0 <? z then Some z else None)
  | JBool b => Some (if b then Some 1 else None)
  | _ => None
  end.
(** [sorted(l, reverse=True)] *)
Definition sorted_down (l : list Z) : list Z := Table.order_by (fun z => - z) l.
(** The settings are changed in place, so that what came before an exception stays; [true]:
    no exception. *)
Definition update_settings (kwargs : list (string * json)) (s : settings) : settings * bool :=
  let s := match Json.assoc "enabled" kwargs with
           | Some v => Settings (Json.truthy v) (alert_days s) (include_revoked s) (recipients s) (last_run s) (total_alerts_sent s)
           | None => s end in
  match (match Json.assoc "alert_days" kwargs with
         | Some (JList l) =>
             ds ← mapM positive_day l;
             Some (Settings (enabled s) (sorted_down (omap (fun d => d) ds)) (include_revoked s) (recipients s) (last_run s) (total_alerts_sent s))
         | _ => Some s
         end) with
  | None => (s, false)
  | Some s =>
      let s := match Json.assoc "include_revoked" kwargs with
               | Some v => Settings (enabled s) (alert_days s) (Json.truthy v) (recipients s) (last_run s) (total_alerts_sent s)
               | None => s end in
      match Json.assoc "recipients" kwargs with
      | Some v =>
          match Json.elements v with
          | Some l => (Settings (enabled s) (alert_days s) (include_revoked s) l (last_run s) (total_alerts_sent s), true)
          | None => (s, false)
          end
      | None => (s, true)
      end
  end.
(** The route; a key that is the name of the class argument is an exception too. *)
Definition update_expiry_alert_settings (request : json) (s : settings) : settings * (settings + string) :=
  let data := if Json.truthy request then request else JDict [] in
  match data with
  | JDict kv =>
      if Json.has "cls" data then (s, inr "Failed to update settings")
      else let '(s, ok) := update_settings kv s in (s, if ok then inl s else inr "Failed to update settings")
  | _ => (s, inr "Failed to update settings")
  end.

Definition get_expiring_certificates (days : Z) (include_revoked : bool) (now : Z) (certs : list certificate) : list (certificate * Z) :=
  omap (fun c => match valid_to c with Some t => Some (c, Time.delta_days (t - now)) | None => None end)
    (Table.order_by (fun c => default 0 (valid_to c))
      (Table.all (fun c => match valid_to c with Some t => (t <=? now + Time.days days) && (now <? t) | None => false end
                           && (include_revoked || negb (true_flag (revoked c)))) certs)).

(** [SMTPConfig]: its columns, its property and its method. *)
Record smtp := Smtp { s_enabled : bool; smtp_from : option string }.
Definition SMTPConfig_attributes : list string :=
  ["id"; "smtp_host"; "smtp_port"; "smtp_user"; "_smtp_password"; "smtp_from"; "smtp_from_name"; "smtp_use_tls"; "smtp_use_ssl";
   "smtp_auth"; "smtp_content_type"; "email_template"; "email_text_template"; "enabled"; "updated_at"; "updated_by";
   "smtp_password"; "to_dict"].

Definition alert_subject (days_left : Z) (name : string) : string :=
  "[UCM] " ^+ (if days_left <=? 7 then "URGENT" else "WARNING") ^+ ": Certificate expires in " ^+ Num.str days_left ^+ " days - " ^+ name.
Record mail := Mail { m_cert : Z; m_days : Z; m_subject : string; m_to : list json }.
Record progress := Progress { alerted : list Z; mails : list mail; failures : list string }.

Section Check.
(** [smtp_config.admin_email], where the class has it, and what [EmailService.send_email]
    makes of a mail: [Some] is the text of a failure. *)
Context (admin_email : option (smtp -> option string)) (send_email : mail -> option string).

(** The recipients; [None] is an exception. *)
Definition recipients_of (s : settings) (c : smtp) : option (list json) :=
  match filled (smtp_from c) with
  | None => Some (recipients s)
  | Some from =>
      f ← admin_email;
      let a := JStr (default from (filled (f c))) in
      Some (if existsb (fun r => Json.eqb r a) (recipients s) then recipients s else recipients s ++ [a])
  end.
Definition lower_end (alert : Z) : Z := if 7 <? alert then alert - 7 else 0.
(** One certificate at one threshold; [false]: an exception ended the run. *)
Definition alert_one (s : settings) (smtp_config : smtp) (alert : Z) (p : progress) (x : certificate * Z) : progress * bool :=
  let '(c, days_left) := x in
  if (days_left <=? alert) && (lower_end alert <? days_left) then
    if existsb (Z.eqb (id c)) (alerted p) then (p, true)
    else match recipients_of s smtp_config with
    | None => (p, false)
    | Some [] => (p, true)
    | Some l =>
        let m := Mail (id c) days_left (alert_subject days_left (descr c)) l in
        match send_email m with
        | None => (Progress (alerted p ++ [id c]) (mails p ++ [m]) (failures p), true)
        | Some msg => (Progress (alerted p) (mails p) (failures p ++ ["Cert " ^+ Num.str (id c) ^+ ": " ^+ msg]), true)
        end
    end
  else (p, true).
Fixpoint alert_certs (s : settings) (c : smtp) (alert : Z) (l : list (certificate * Z)) (p : progress) : progress * bool :=
  match l with
  | [] => (p, true)
  | x :: l => match alert_one s c alert p x with (p, true) => alert_certs s c alert l p | r => r end
  end.
Fixpoint alert_all (s : settings) (c : smtp) (now : Z) (certs : list certificate) (days : list Z) (p : progress) : progress * bool :=
  match days with
  | [] => (p, true)
  | d :: days =>
      match alert_certs s c d (get_expiring_certificates (d + 1) (include_revoked s) now certs) p with
      | (p, true) => alert_all s c now certs days p
      | r => r
      end
  end.

Inductive result := StatusDisabled | SmtpDisabled | Completed (alerts_sent : nat) (errors : list string) | Broke.
(** The settings, the mails that left, and the result. *)
Definition check_and_send_alerts (config : option smtp) (now : Z) (certs : list certificate) (s : settings)
  : settings * list mail * result :=
  if negb (enabled s) then (s, [], StatusDisabled)
  else match config with
  | None => (s, [], SmtpDisabled)
  | Some c =>
      if negb (s_enabled c) then (s, [], SmtpDisabled)
      else match alert_all s c now certs (alert_days s) (Progress [] [] []) with
      | (p, false) => (s, mails p, Broke)
      | (p, true) =>
          let n := length (alerted p) in
          (Settings (enabled s) (alert_days s) (include_revoked s) (recipients s) (Some (Time.isoformat "T" now))
             (total_alerts_sent s + Z.of_nat n), mails p, Completed n (failures p))
      end
  end.
End Check.

(** * Automatic renewal *)

Section Renewal.
Context `{Inspection}.

Record renewal_config := RenewalConfig { r_enabled : bool; days_before_expiry : Z; renewal_sources : json }.
Definition system_config := list (string * option string).
(** [None] is the exception of a setting that can not be read. *)
Definition get_renewal_config (rows : system_config) : option renewal_config :=
  days ← match Json.assoc "auto_renewal_days" rows with Some v => t ← v; Num.py_int t | None => Some 30 end;
  sources ← match Json.assoc "auto_renewal_sources" rows with
            | Some v => t ← v; loads t
            | None => Some (Json.strings ["scep"; "acme"; "est"])
            end;
  Some (RenewalConfig (bool_decide (Json.assoc "auto_renewal_enabled" rows = Some (Some "true"))) days sources).
Definition put_row (key value : string) (rows : system_config) : system_config :=
  match Json.assoc key rows with
  | Some _ => List.map (fun kv => if String.eqb kv.1 key then (key, Some value) else kv) rows
  | None => rows ++ [(key, Some value)]
  end.
Definition renewal_value (key : string) (value : json) : string :=
  if String.eqb key "enabled" then (if Json.truthy value then "true" else "false")
  else if String.eqb key "renewal_sources" then Json.dumps value
  else match value with JStr s => s | _ => CertModel.py_repr value end.
Definition set_renewal_config (config : list (string * json)) (rows : system_config) : system_config :=
  fold_left (fun rows kv => put_row ("auto_renewal_" ^+ kv.1) (renewal_value kv.1 kv.2) rows) config rows.

(** What the class [Certificate] has: columns, relations, properties and methods. *)
Definition Certificate_attributes : list string :=
  ["__tablename__"; "id"; "refid"; "descr"; "caref"; "crt"; "csr"; "prv"; "cert_type"; "subject"; "subject_cn"; "issuer";
   "serial_number"; "aki"; "ski"; "valid_from"; "valid_to"; "key_algo"; "san_dns"; "san_ip"; "san_email"; "san_uri"; "ocsp_uri";
   "private_key_location"; "revoked"; "revoked_at"; "revoke_reason"; "archived"; "imported_from"; "created_at"; "created_by";
   "source"; "template_id"; "owner_group_id"; "owner_group"; "ca"; "template"; "discovered_instances"; "has_private_key"; "san_dns_list";
   "san_ip_list"; "san_email_list"; "san_uri_list"; "key_type"; "common_name"; "organization"; "organizational_unit"; "issuer_name";
   "country"; "state"; "locality"; "email"; "_DN_FIELD_ALIASES"; "_extract_dn_field"; "key_algorithm"; "key_size";
   "signature_algorithm"; "thumbprint_sha1"; "thumbprint_sha256"; "_get_thumbprint"; "days_remaining"; "san_combined";
   "not_valid_before"; "not_valid_after"; "to_dict"; "_decode_pem"].
(** [None] is an exception; the query itself would be an argument. *)
Definition get_certificates_for_renewal {A} (query : renewal_config -> list A) (rows : system_config) : option (list A) :=
  config ← get_renewal_config rows;
  if negb (r_enabled config) then Some []
  else (_ ← getattr "status" Certificate_attributes (); _ ← getattr "not_after" Certificate_attributes (); Some (query config)).
Record renewal_stats := RenewalStats { renewed : Z; failed : Z; skipped : Z }.
(** [run_auto_renewal], also under the name of the task: [renew_all] is its loop. *)
Definition run_auto_renewal_task {A} (query : renewal_config -> list A) (renew_all : list A -> renewal_stats) (rows : system_config)
  : option renewal_stats :=
  config ← get_renewal_config rows;
  if negb (r_enabled config) then Some (RenewalStats 0 0 0)
  else renew_all <$> get_certificates_for_renewal query rows.
End Renewal.
End Tasks.

Module TasksFacts.
Import CertModel Tasks.
Local Open Scope string_scope.
Local Open Scope list_scope.
Local Open Scope Z_scope.

(** A certificate that a run is to report: it has not ended, and the whole days that are
    left lie in the window of a threshold. *)
Definition in_window (alert days_left : Z) : Prop := lower_end alert < days_left <= alert.
Definition reported (s : settings) (now : Z) (c : certificate) : Prop :=
  exists t a, valid_to c = Some t /\ now < t /\ (include_revoked s = true \/ true_flag (revoked c) = false)
    /\ In a (alert_days s) /\ in_window a (Time.delta_days (t - now)).

Lemma expiring_In days inc now certs c d :
  In (c, d) (get_expiring_certificates days inc now certs)
  <-> In c certs /\ exists t, valid_to c = Some t /\ now < t <= now + Time.days days /\ d = Time.delta_days (t - now)
      /\ (inc = true \/ true_flag (revoked c) = false).
Proof.
  unfold get_expiring_certificates. rewrite <-list_elem_of_In, list_elem_of_omap. setoid_rewrite list_elem_of_In.
  setoid_rewrite Table.order_by_In. setoid_rewrite Table.In_all. split.
  - intros (c' & [Hin Hp] & Hv). destruct (valid_to c') as [t|] eqn:Et; [|done]. injection Hv as <- <-.
    apply andb_true_iff in Hp as [[Ht%Z.leb_le Hn%Z.ltb_lt]%andb_true_iff Hr%orb_true_iff].
    split; [done|]. exists t. rewrite negb_true_iff in Hr. split_and!; [done|lia..|done|done].
  - intros (Hin & t & Et & [Hn Ht] & -> & Hr). exists c. rewrite Et. split; [split; [done|]|done].
    rewrite (proj2 (Z.leb_le _ _) Ht), (proj2 (Z.ltb_lt _ _) Hn). cbn [andb]. apply orb_true_iff. by rewrite negb_true_iff.
Qed.

(** The rows a threshold goes through and its window, together. *)
Lemma window_In alert inc now certs c d :
  (In (c, d) (get_expiring_certificates (alert + 1) inc now certs) /\ in_window alert d)
  <-> In c certs /\ exists t, valid_to c = Some t /\ now < t /\ d = Time.delta_days (t - now)
      /\ (inc = true \/ true_flag (revoked c) = false) /\ in_window alert d.
Proof.
  rewrite expiring_In. split; [naive_solver|].
  intros (Hin & t & Et & Hn & -> & Hr & Hw). split; [|done]. split; [done|]. exists t. split_and!; try done.
  destruct Hw as [_ Hw]. unfold Time.delta_days, Time.days, Time.second in *.
  pose proof (Z.div_mod (t - now) (1 * 86400 * 1000000) ltac:(lia)).
  pose proof (Z.mod_pos_bound (t - now) (1 * 86400 * 1000000) ltac:(lia)). nia.
Qed.

(** With the thresholds a new process starts with: nothing is reported between 15 and 23
    days before the end, nor on the last day. *)
Theorem default_windows now c :
  reported default_settings now c
  <-> exists t, valid_to c = Some t /\ true_flag (revoked c) = false
      /\ (1 <= Time.delta_days (t - now) <= 14 \/ 24 <= Time.delta_days (t - now) <= 30).
Proof.
  unfold reported, in_window. cbn [default_settings alert_days include_revoked]. split.
  - intros (t & a & Et & _ & [?|Hr] & Ha & Hw); [done|]. exists t. split_and!; try done.
    unfold lower_end in Hw. destruct Ha as [<-|[<-|[<-|[<-|[]]]]]; cbn in Hw; lia.
  - intros (t & Et & Hr & Hw).
    assert (now < t).
    { unfold Time.delta_days, Time.days, Time.second in Hw.
      pose proof (Z.div_mod (t - now) (1 * 86400 * 1000000) ltac:(lia)).
      pose proof (Z.mod_pos_bound (t - now) (1 * 86400 * 1000000) ltac:(lia)). nia. }
    set (d := Time.delta_days (t - now)) in *. unfold lower_end.
    destruct (Z_le_gt_dec d 7), (Z_le_gt_dec d 14); [exists t, 7|exists t, 7|exists t, 14|exists t, 30];
      (split_and!; [done|done|by right|cbn; tauto|cbn; lia..]).
Qed.

Section Facts.
Context (send_email : mail -> option string).

(** ** Where the look-up fails *)

Lemma broken_certs s c from alert l p : filled (smtp_from c) = Some from ->
  (forall x, In x l -> existsb (Z.eqb (id x.1)) (alerted p) = false) ->
  alert_certs None send_email s c alert l p = (p, forallb (fun x => negb ((x.2 <=? alert) && (lower_end alert <? x.2))) l).
Proof.
  intros Hf. induction l as [|[x d] l IH]; intros Hl; [done|]. cbn [alert_certs forallb alert_one snd].
  destruct ((d <=? alert) && _); cbn [negb andb]; [|by apply IH; intros y Hy; apply Hl; right].
  pose proof (Hl (x, d) (or_introl eq_refl)) as He. cbn [fst] in He. rewrite He. unfold recipients_of. by rewrite Hf.
Qed.

(** C32: As the classes are, no alert is ever sent where a sender address is set: the first
    certificate to report ends the run with an exception. *)
Theorem alerts_never_leave (f : smtp -> option string) c now certs s from
  (Hf : filled (smtp_from c) = Some from) :
  let run := check_and_send_alerts (getattr "admin_email" SMTPConfig_attributes f) send_email (Some c) now certs s in
  run.1.2 = [] /\ (run.2 = Broke <-> enabled s = true /\ s_enabled c = true /\ exists x, In x certs /\ reported s now x).
Proof.
  cbn zeta. change (getattr _ _ f) with (@None (smtp -> option string)). unfold check_and_send_alerts.
  destruct (enabled s); cbn [negb]; [|by split; [|split; [|intros [? ?]]]].
  destruct (s_enabled c); cbn [negb]; [|by split; [|split; [|intros (_ & ? & _)]]].
  assert (forall days, exists ok, alert_all None send_email s c now certs days (Progress [] [] []) = (Progress [] [] [], ok)
    /\ (ok = false <-> exists a x d, In a days /\ In (x, d) (get_expiring_certificates (a + 1) (include_revoked s) now certs) /\ in_window a d)) as Ha.
  { induction days as [|a days (ok & IH & Hok)]; [by exists true; split; [|split; [|intros (? & ? & ? & [] & _)]]|].
    cbn [alert_all]. rewrite (broken_certs s c from) by done. set (l := get_expiring_certificates _ _ _ _).
    assert (forallb (fun x => negb ((x.2 <=? a) && (lower_end a <? x.2))) l = false
            <-> exists x d, In (x, d) l /\ in_window a d) as Hl.
    { split.
      - intros E. assert (~ forall x, In x l -> negb ((x.2 <=? a) && (lower_end a <? x.2)) = true) as Hn
          by (rewrite <-forallb_forall; congruence).
        induction l as [|[x d] l IHl]; [by exfalso; apply Hn|]. cbn in E. destruct ((d <=? a) && _) eqn:Ew; cbn in E.
        + apply andb_true_iff in Ew as [?%Z.leb_le ?%Z.ltb_lt]. exists x, d. split; [by left|by split].
        + destruct IHl as (y & e & Hy & Hw); [done| |exists y, e; split; [by right|done]].
          intros H. apply Hn. intros y [<-|Hy]; [cbn; by rewrite Ew|by apply H].
      - intros (x & d & Hx & Hw1 & Hw2). apply not_true_iff_false. rewrite forallb_forall. intros H.
        specialize (H _ Hx). cbn in H. apply negb_true_iff, andb_false_iff in H as [?%Z.leb_gt|?%Z.ltb_ge]; lia. }
    destruct (forallb _ l) eqn:E.
    - exists ok. split; [done|]. rewrite Hok. split.
      + intros (b & x & d & Hb & Hx). exists b, x, d. split; [by right|done].
      + intros (b & x & d & [<-|Hb] & Hx & Hw); [|by exists b, x, d]. enough (true = false) by done. apply Hl. by exists x, d.
    - exists false. split; [done|]. split; [|done]. intros _. destruct (proj1 Hl eq_refl) as (x & d & Hx). exists a, x, d.
      split; [by left|done]. }
  destruct (Ha (alert_days s)) as (ok & -> & Hok).
  assert ((exists x, In x certs /\ reported s now x) <-> ok = false) as Hr.
  { rewrite Hok. split.
    - intros (x & Hx & t & a & Et & Hn & Hrev & Hd & Hw). exists a, x, (Time.delta_days (t - now)). split; [done|].
      apply window_In. split; [done|]. by exists t.
    - intros (a & x & d & Hd & Hxw). apply window_In in Hxw as (Hx & t & Et & Hn & -> & Hrev & Hw).
      exists x. split; [done|]. by exists t, a. }
  rewrite Hr. destruct ok; cbn; split; try done; naive_solver.
Qed.

(** ** Where the look-up works *)

(** One mail for every reported number. *)
Definition consistent (p : progress) : Prop := List.map m_cert (mails p) = alerted p /\ NoDup (alerted p) /\ failures p = [].

Lemma working_one f s c from alert p x (Hf : filled (smtp_from c) = Some from) (Hs : forall m, send_email m = None) :
  consistent p ->
  exists p', alert_one (Some f) send_email s c alert p x = (p', true) /\ consistent p'
    /\ forall i, In i (alerted p') <-> In i (alerted p) \/ (in_window alert x.2 /\ id x.1 = i).
Proof.
  intros (Hm & Hnd & Hfl). destruct x as [x d]. unfold alert_one, in_window. cbn [fst snd].
  destruct ((d <=? alert) && _) eqn:Ew.
  2: { exists p. split; [done|]. split; [done|]. intros i. apply andb_false_iff in Ew as [?%Z.leb_gt|?%Z.ltb_ge]; naive_solver lia. }
  apply andb_true_iff in Ew as [?%Z.leb_le ?%Z.ltb_lt]. destruct (existsb _ _) eqn:Ee.
  { exists p. split; [done|]. split; [done|]. apply existsb_exists in Ee as (j & Hj & <-%Z.eqb_eq). naive_solver. }
  assert (exists r l, recipients_of (Some f) s c = Some (r :: l)) as (r & l & ->).
  { unfold recipients_of. rewrite Hf. cbn. set (a := JStr _). destruct (existsb (fun r => Json.eqb r a) (recipients s)) eqn:Ea.
    - apply existsb_exists in Ea as (y & Hy & _). destruct (recipients s) as [|z l]; [done|by exists z, l].
    - destruct (recipients s) as [|z l]; cbn [app]; do 2 eexists; reflexivity. }
  rewrite Hs. eexists. split; [reflexivity|]. split; [split_and!|]; cbn [alerted mails failures].
  - by rewrite List.map_app, Hm.
  - apply NoDup_app. split_and!; [done| |apply NoDup_singleton]. intros y Hy ->%list_elem_of_singleton.
    enough (existsb (Z.eqb (id x)) (alerted p) = true) by congruence. apply existsb_exists. exists (id x).
    split; [by apply list_elem_of_In|apply Z.eqb_refl].
  - done.
  - intros i. rewrite in_app_iff. cbn. naive_solver lia.
Qed.

Lemma working_certs f s c from alert l p (Hf : filled (smtp_from c) = Some from) (Hs : forall m, send_email m = None) :
  consistent p ->
  exists p', alert_certs (Some f) send_email s c alert l p = (p', true) /\ consistent p'
    /\ forall i, In i (alerted p') <-> In i (alerted p) \/ exists x d, In (x, d) l /\ in_window alert d /\ id x = i.
Proof.
  revert p. induction l as [|[x d] l IH]; intros p Hp; cbn [alert_certs].
  - exists p. split_and!; [done|done|naive_solver].
  - destruct (working_one f s c from alert p (x, d) Hf Hs Hp) as (p1 & -> & Hp1 & Hi).
    destruct (IH p1 Hp1) as (p' & E & Hp' & Hi'). exists p'. split_and!; [done|done|]. intros i. rewrite Hi', Hi. cbn [fst snd].
    split; [intros [[?|[? ?]]|(y & e & ? & ? & ?)]|intros [?|(y & e & [[= <- <-]|?] & ? & ?)]]; cbn [In]; eauto 10.
Qed.

(** What the check means to do, and does where the class has the address it asks for, a
    sender is set and mails are delivered: every certificate in the window of a threshold
    is reported, no other, and each once however many windows it lies in. *)
Theorem alerts_reach_due_certificates f c now certs s from
  (Hon : enabled s = true) (Hc : s_enabled c = true) (Hf : filled (smtp_from c) = Some from) (Hs : forall m, send_email m = None) :
  let run := check_and_send_alerts (Some f) send_email (Some c) now certs s in
  run.2 = Completed (length run.1.2) [] /\ NoDup (List.map m_cert run.1.2)
  /\ forall i, In i (List.map m_cert run.1.2) <-> exists x, In x certs /\ id x = i /\ reported s now x.
Proof.
  cbn zeta. unfold check_and_send_alerts. rewrite Hon, Hc. cbn [negb].
  assert (forall days p, consistent p -> exists p', alert_all (Some f) send_email s c now certs days p = (p', true) /\ consistent p'
    /\ forall i, In i (alerted p') <-> In i (alerted p) \/ exists a x d, In a days
         /\ (In (x, d) (get_expiring_certificates (a + 1) (include_revoked s) now certs) /\ in_window a d) /\ id x = i) as Ha.
  { induction days as [|a days IH]; intros p Hp; cbn [alert_all]; [exists p; split_and!; [done|done|naive_solver]|].
    destruct (working_certs f s c from a (get_expiring_certificates (a + 1) (include_revoked s) now certs) p Hf Hs Hp) as (p1 & -> & Hp1 & Hi).
    destruct (IH p1 Hp1) as (p' & E & Hp' & Hi'). exists p'. split_and!; [done|done|]. intros i. rewrite Hi', Hi.
    split; [intros [[?|(x & d & ? & ? & ?)]|(b & x & d & ? & ? & ?)]|intros [?|(b & x & d & [<-|?] & [? ?] & ?)]]; cbn [In]; eauto 12. }
  destruct (Ha (alert_days s) (Progress [] [] [])) as (p & -> & (Hm & Hnd & Hfl) & Hi); [split_and!; [done|by apply NoDup_nil_2|done]|].
  cbn [fst snd]. rewrite Hm, Hfl. split_and!; [|done|].
  - by rewrite <-Hm, List.length_map.
  - intros i. rewrite Hi. cbn [alerted In]. split.
    + intros [[]|(a & x & d & Hd & Hxw & <-)]. apply window_In in Hxw as (Hx & t & Et & Hn & -> & Hrev & Hw).
      exists x. split_and!; [done|done|]. by exists t, a.
    + intros (x & Hx & <- & t & a & Et & Hn & Hrev & Hd & Hw). right. exists a, x, (Time.delta_days (t - now)).
      split_and!; try done; apply window_In; (split; [done|]); by exists t.
Qed.
End Facts.
End TasksFacts.

(** A small table: rows that end in 5, 10 and 20 days, and in 12 hours. *)
Module TasksRun.
Import CertModel Tasks TasksFacts.
Local Open Scope string_scope.
Local Open Scope list_scope.
Local Open Scope Z_scope.
Definition ends (i : Z) (name : string) (t : Z) : certificate :=
  Certificate i ("ref" ^+ Num.str i) name None None None None (Some "server_cert") None (Some name) None (Some (Num.str i)) None None
    (Some 0) (Some t) None None None None None None None (Some false) None None None None (Some 0) None None None None.
Definition table : list certificate :=
  [ends 1 "soon" (Time.days 5); ends 2 "later" (Time.days 10); ends 3 "gap" (Time.days 20); ends 4 "today" (Time.hours 12)].
Definition server : smtp := Smtp true (Some "ca@example.com").
Definition no_address (c : smtp) : option string := None.
Definition delivered (m : mail) : option string := None.
Definition now0 : Z := 0.

Lemma reported_1 : reported default_settings now0 (ends 1 "soon" (Time.days 5)).
Proof.
  exists (Time.days 5), 7. split_and!; [reflexivity|reflexivity|right; reflexivity|right; right; left; reflexivity|].
  split; vm_compute; [reflexivity|discriminate].
Qed.

Lemma never_leave_witness :
  (check_and_send_alerts (getattr "admin_email" SMTPConfig_attributes no_address) delivered (Some server) now0 table default_settings).2 = Broke.
Proof.
  apply (proj2 (proj2 (alerts_never_leave delivered no_address server now0 table default_settings "ca@example.com" eq_refl))).
  split; [reflexivity|]. split; [reflexivity|]. exists (ends 1 "soon" (Time.days 5)). split; [left; reflexivity|exact reported_1].
Defined.

Lemma reach_due_witness :
  List.map m_cert (check_and_send_alerts (Some no_address) delivered (Some server) now0 table default_settings).1.2 = [2; 1]
  /\ (check_and_send_alerts (Some no_address) delivered (Some server) now0 table default_settings).2 = Completed 2 [].
Proof.
  split; [vm_compute; reflexivity|].
  exact (proj1 (alerts_reach_due_certificates delivered no_address server now0 table default_settings "ca@example.com"
    eq_refl eq_refl eq_refl (fun _ => eq_refl))).
Defined.
End TasksRun.
