(* ===== verification/Updates.v ===== *)
(** Looking for updates: versions and their order, the choice of a release and the cache of
    [services/updates.py], with the routes of [api/v2/system.py].

    The answer of the release server is an argument, a list of releases or the text of an
    error; so are the kind of package the machine takes and the download.  Texts have fewer
    digits than the limit of the interpreter for numbers. *)
From S2P Require Import Prelude AuditSink.

Module Updates.
Local Open Scope string_scope.
Local Open Scope list_scope.
Local Open Scope Z_scope.

(** * Versions *)

Fixpoint lstrip_v (s : string) : string :=
  match s with
  | String "v" s' => lstrip_v s'
  | _ => s
  end.
(** The first run of digits, as a number. *)
Fixpoint digits_of (s : string) : string :=
  match s with
  | String c s' => if Str.is_digit c then String c (digits_of s') else ""
  | "" => ""
  end.
Fixpoint first_number (s : string) : option Z :=
  match s with
  | "" => None
  | String c s' => if Str.is_digit c then Num.py_int (digits_of s) else first_number s'
  end.
Definition prerelease_order (prerelease : option string) : Z :=
  match prerelease with
  | Some p =>
      if Str.truthy p then
        let num := default 0 (first_number p) in
        if Str.startswith p "dev" then 50 + num
        else if Str.startswith p "alpha" then 100 + num
        else if Str.startswith p "beta" then 200 + num
        else if Str.startswith p "rc" then 300 + num
        else 0
      else 999
  | None => 999
  end.
(** [while len(numbers) < 3] *)
Definition padded (numbers : list Z) : list Z := numbers ++ replicate (3 - length numbers) 0.
Definition parse_version (version_str : string) : list Z :=
  let parts := Str.split "-" (lstrip_v version_str) in
  let main_version := default "" (head parts) in
  let numbers := default [0; 0; 0] (mapM Num.py_int (Str.split "." main_version)) in
  padded numbers ++ [prerelease_order (parts !! 1%nat)].

(** Python's order of tuples. *)
Fixpoint tuple_compare (a b : list Z) : comparison :=
  match a, b with
  | [], [] => Eq
  | [], _ => Lt
  | _, [] => Gt
  | x :: a, y :: b => match x ?= y with Eq => tuple_compare a b | c => c end
  end.
Definition compare_versions (v1 v2 : string) : Z :=
  match tuple_compare (parse_version v1) (parse_version v2) with Lt => -1 | Gt => 1 | Eq => 0 end.

(** * Releases *)

Record asset := Asset { a_name : string; browser_download_url : string }.
Record release := Release {
  draft : bool; prerelease : bool; tag_name : string; release_body : option string; published_at : option string;
  html_url : option string; assets : list asset;
}.
Definition ttl : Z := 300 * Time.second.
(** [_releases_cache]: an empty list counts as nothing, and the moment 0 as long ago. *)
Record cache := Cache { data : option (list release); ts : Z }.
Definition empty_cache : cache := Cache None 0.

Definition tag (r : release) : string := lstrip_v (tag_name r).
(** What follows the first dash. *)
Definition suffix_of (t : string) : string :=
  match Str.split "-" t with _ :: rest => Str.join "-" rest | [] => "" end.
Definition eligible (include_prereleases include_dev : bool) (r : release) : bool :=
  negb (draft r)
  && (negb (prerelease r) || (include_prereleases && (negb (Str.startswith (suffix_of (tag r)) "dev") || include_dev))).
(** [sort(key=parse_version, reverse=True)], which keeps the order of equals. *)
Definition not_below (r x : release) : bool :=
  match tuple_compare (parse_version (tag_name r)) (parse_version (tag_name x)) with Lt => false | _ => true end.
Fixpoint insert_release (r : release) (l : list release) : list release :=
  match l with
  | [] => [r]
  | x :: l' => if not_below r x then r :: l else x :: insert_release r l'
  end.
Definition newest_first (l : list release) : list release := fold_right insert_release [] l.

Inductive platform := Docker | Deb | Rpm | OtherPlatform.
Definition ends_with (s e : string) : bool := Str.startswith (Str.rev s) (Str.rev e).
(** The address and the name of the package. *)
Definition chosen_asset (p : platform) (latest_version : string) (l : list asset) : option (string * string) :=
  match p with
  | Docker => a ← head l; Some ("ghcr.io/neyslim/ultimate-ca-manager:" ^+ latest_version, a_name a)
  | Deb => a ← List.find (fun a => ends_with (a_name a) ".deb") l; Some (browser_download_url a, a_name a)
  | Rpm => a ← List.find (fun a => ends_with (a_name a) ".rpm") l;
           Some (browser_download_url a, a_name a)
  | OtherPlatform => None
  end.

Record offer := Offer {
  update_available : bool; latest_version : string; latest : release; package : option (string * string);
  current_notes : option release;
}.
Inductive outcome :=
| NoReleases | NoApplicable (current_notes : option release)
| Found (o : offer)
| FetchError (message : string).

Section Check.
Context (current : string) (p : platform).

(** What the check makes of the releases it has. *)
Definition choose (include_prereleases include_dev : bool) (releases : list release) : outcome :=
  match releases with
  | [] => NoReleases
  | _ =>
      let candidates := newest_first (List.filter (eligible include_prereleases include_dev) releases) in
      let notes := List.find (fun r => String.eqb (tag r) current && negb (draft r)) releases in
      match candidates with
      | [] => NoApplicable notes
      | r :: _ => Found (Offer (0 <? compare_versions (tag r) current) (tag r) r (chosen_asset p (tag r) (assets r)) notes)
      end
  end.
(** [fetch] is what the server would answer. *)
Definition check_for_updates (include_prereleases include_dev force : bool) (fetch : list release + string) (now : Z) (c : cache)
  : cache * outcome :=
  let include_prereleases := include_dev || include_prereleases in
  let stored := match data c with
                | Some (x :: l) => if negb force && (now - ts c <? ttl) then Some (x :: l) else None
                | _ => None
                end in
  match stored with
  | Some l => (c, choose include_prereleases include_dev l)
  | None =>
      match fetch with
      | inl l => (Cache (Some l) now, choose include_prereleases include_dev l)
      | inr e => (c, FetchError ("Failed to check for updates: " ^+ e))
      end
  end.
Definition invalidate_update_cache (c : cache) : cache := empty_cache.

(** * Installing *)

Record machine := Machine { releases_cache : cache; update_pending : option string }.
(** [os.path.join] *)
Definition path_join (dir name : string) : string :=
  if Str.startswith name "/" then name else dir ^+ "/" ^+ name.
Definition write_trigger (package_path : string) (m : machine) : option machine :=
  if ends_with package_path ".deb" || ends_with package_path ".rpm"
  then Some (Machine (releases_cache m) (Some package_path)) else None.

Inductive reply := Message (text : string) | Failure (code : Z) (message : string).
Context {T} `{AuditSink T} (data_dir : string) (downloads : string -> string -> bool).
Definition install_update (request : json) (fetch : list release + string) (now : Z) (m : machine) (trail : T) : machine * T * reply :=
  match p with
  | Docker =>
      (m, trail, Failure 400 ("Auto-update is not available in Docker. Pull the new image instead: docker pull "
                              ^+ "ghcr.io/neyslim/ultimate-ca-manager:latest"))
  | _ =>
      let failed m := (m, trail, Failure 500 "Update failed") in
      if negb (Json.is_dict request) then failed m
      else
        let flag k := Json.truthy (Json.get_or k (JBool false) request) in
        let '(c, o) := check_for_updates (flag "include_prereleases") (flag "include_dev") false fetch now (releases_cache m) in
        let m := Machine c (update_pending m) in
        match o with
        | Found (Offer true v _ package _) =>
            match package with
            | Some (url, name) =>
                if negb (Str.truthy url) then (m, trail, Failure 400 "No download URL available for this platform")
                else
                  let path := path_join (data_dir ^+ "/updates") name in
                  if negb (downloads url path) then failed m
                  else match write_trigger path m with
                  | None => failed m
                  | Some m =>
                      (m, record_event (Event "settings_update" (Some "system") (AStr "ucm") (AStr "UCM Update")
                            (AStr ("Updated from " ^+ current ^+ " to " ^+ v)) true None) trail,
                       Message ("Update to " ^+ v ^+ " initiated. Service will restart shortly."))
                  end
            | None => (m, trail, Failure 400 "No download URL available for this platform")
            end
        | _ => (m, trail, Failure 400 "No update available")
        end
  end.
End Check.
End Updates.

Module UpdatesFacts.
Import Updates.
Local Open Scope string_scope.
Local Open Scope list_scope.
Local Open Scope Z_scope.

(** * The order of versions *)

Lemma compare_flip a b : tuple_compare b a = CompOpp (tuple_compare a b).
Proof.
  revert b. induction a as [|x a IH]; intros [|y b]; cbn; try done.
  rewrite (Z.compare_antisym x y), IH. by destruct (x ?= y).
Qed.
Lemma compare_eq a b : tuple_compare a b = Eq <-> a = b.
Proof.
  revert b. induction a as [|x a IH]; intros [|y b]; cbn; try done.
  destruct (Z.compare_spec x y) as [->|?|?].
  - rewrite IH. naive_solver.
  - naive_solver lia.
  - naive_solver lia.
Qed.
Lemma compare_trans c a b d : tuple_compare a b = c -> tuple_compare b d = c -> tuple_compare a d = c.
Proof.
  revert b d. induction a as [|x a IH]; intros [|y b] [|z d]; cbn; try (by destruct c); try congruence.
  destruct (Z.compare_spec x y) as [->|Hxy|Hxy], (Z.compare_spec y z) as [->|Hyz|Hyz]; try congruence; intros E1 E2; subst c; try done.
  - by eapply IH.
  - by rewrite (proj2 (Z.compare_lt_iff _ _) Hxy).
  - rewrite (proj2 (Z.compare_lt_iff x z)); [done|lia].
  - by rewrite (proj2 (Z.compare_gt_iff _ _) Hxy).
  - rewrite (proj2 (Z.compare_gt_iff x z)); [done|lia].
Qed.
Lemma not_lt_trans a b c : tuple_compare a b <> Lt -> tuple_compare b c <> Lt -> tuple_compare a c <> Lt.
Proof.
  intros H1 H2. destruct (tuple_compare a b) eqn:E1; [apply compare_eq in E1 as ->; done|done|].
  destruct (tuple_compare b c) eqn:E2; [apply compare_eq in E2 as <-; by rewrite E1|done|]. by rewrite (compare_trans Gt a b c).
Qed.

(** The comparison of versions is a total order of what they are read as: opposite when the
    versions change places, 0 only where both are read alike, and transitive. *)
Theorem versions_are_ordered a b c :
  compare_versions b a = - compare_versions a b
  /\ (compare_versions a b = 0 <-> parse_version a = parse_version b)
  /\ (0 <= compare_versions a b -> 0 <= compare_versions b c -> 0 <= compare_versions a c).
Proof.
  unfold compare_versions. split_and!.
  - rewrite compare_flip. by destruct (tuple_compare (parse_version a) (parse_version b)).
  - rewrite <-compare_eq. by destruct (tuple_compare (parse_version a) (parse_version b)).
  - assert (forall x y, 0 <= match tuple_compare x y with Lt => -1 | Gt => 1 | Eq => 0 end <-> tuple_compare x y <> Lt) as Hn
      by (intros x y; destruct (tuple_compare x y); split; (lia || done)).
    rewrite !Hn. apply not_lt_trans.
Qed.

(** * Versions as they are published *)






(** * The release that is offered *)





(** Within five minutes of an answer nothing is fetched again, unless forced: the choice is
    made from the stored releases whatever the server would say. *)
Theorem cached_releases_are_used current p pre dev pre' dev' l now now' c fetch' (Hl : l <> []) (Htime : now' - now < ttl) :
  check_for_updates current p pre' dev' false fetch' now' (check_for_updates current p pre dev true (inl l) now c).1
  = (Cache (Some l) now, choose current p (dev' || pre') dev' l).
Proof.
  unfold check_for_updates. destruct l as [|x l]; [done|]. destruct (data c) as [[|y k]|]; cbn [negb andb fst data ts];
    by rewrite (proj2 (Z.ltb_lt _ _) Htime).
Qed.

(** Versions that are not ordered as meant: builds of a development branch numbered by date
    and other high numbers stand above the release, a fourth number above 0 stands below
    the same version without it, and an early alpha stands below a late development build. *)
Example ranks_that_surprise :
  (compare_versions "2.48-dev20240101" "2.48", compare_versions "2.48-rc700" "2.48", compare_versions "1.2.3.4" "1.2.3",
   compare_versions "2.0-alpha1" "2.0-dev60", compare_versions "v2.48" "2.48.0", compare_versions "2.48-" "2.48", compare_versions "x" "0")
  = (1, 1, -1, -1, 0, 0, 0).
Proof. vm_compute. reflexivity. Qed.
End UpdatesFacts.

Module UpdatesRun.
Import Updates UpdatesFacts.
Local Open Scope string_scope.
Local Open Scope list_scope.
Local Open Scope Z_scope.
Definition named (t : string) (pre : bool) : release := Release false pre t None None None [Asset ("ucm_" ^+ t ^+ ".deb") ("https://x/" ^+ t)].
Definition releases : list release := [named "v2.47" false; named "v2.49-dev3" true; named "v2.48" false; named "v2.48.0" false].


Lemma cached_witness :
  (check_for_updates "2.47" Deb false false false (inr "no network") 100
     (check_for_updates "2.47" Deb false false true (inl releases) 0 empty_cache).1).1 = Cache (Some releases) 0.
Proof.
  rewrite (cached_releases_are_used "2.47" Deb false false false false releases 0 100 empty_cache (inr "no network")
    ltac:(discriminate) ltac:(vm_compute; reflexivity)).
  reflexivity.
Defined.
End UpdatesRun.
