(* ===== verification/Repair.v ===== *)
(** The hourly repair of the chains: [services/ski_aki_backfill.py] fills in key identifiers,
    links orphans to the CA whose key identifier they name, merges CAs with the same
    identifier and fills in common names.

    The identifiers of a certificate are an argument, as the texts the task stores.  Rows
    the session holds are taken to be as the table; groups of equal identifiers come in the
    order of the table. *)
From S2P Require Import Prelude Base64 Encryption Pki PkiFacts CertModel CaModel CertRoutes CertActions CertExport ManageFacts.

Module Repair.
Import CertModel CertRoutes.
Local Open Scope string_scope.
Local Open Scope list_scope.
Local Open Scope Z_scope.

(** [None]: the certificate has no such extension; the inner [None]: it has no identifier. *)
Class KeyIdentifiers := {
  subject_key_id : Pki.cert -> option string;
  authority_key_id : Pki.cert -> option (option string);
}.

Definition set_ca (descr : string) (prv caref ski : option string) (a : CaModel.ca) : CaModel.ca :=
  CaModel.CA (CaModel.a_id a) (CaModel.a_refid a) descr (CaModel.a_crt a) prv (CaModel.a_serial a) caref (CaModel.a_subject a)
    (CaModel.a_issuer a) (CaModel.a_serial_number a) ski (CaModel.a_valid_from a) (CaModel.a_valid_to a) (CaModel.a_imported_from a)
    (CaModel.a_created_at a) (CaModel.a_created_by a) (CaModel.a_owner_group_id a) (CaModel.a_cdp_enabled a) (CaModel.a_cdp_url a)
    (CaModel.a_delta_crl_enabled a) (CaModel.a_delta_crl_interval a) (CaModel.a_ocsp_enabled a) (CaModel.a_ocsp_url a)
    (CaModel.a_hsm_key_id a).
Definition with_ski (k : option string) (a : CaModel.ca) : CaModel.ca :=
  set_ca (CaModel.a_descr a) (CaModel.a_prv a) (CaModel.a_caref a) k a.
Definition with_parent (r : option string) (a : CaModel.ca) : CaModel.ca :=
  set_ca (CaModel.a_descr a) (CaModel.a_prv a) r (CaModel.a_ski a) a.
Definition set_cert (r cn ak sk : option string) (c : certificate) : certificate :=
  Certificate (id c) (refid c) (descr c) r (crt c) (csr c) (prv c) (cert_type c) (subject c) cn (issuer c) (serial_number c) ak sk
    (valid_from c) (valid_to c) (key_algo c) (san_dns c) (san_ip c) (san_email c) (san_uri c) (ocsp_uri c) (private_key_location c)
    (revoked c) (revoked_at c) (revoke_reason c) (archived c) (imported_from c) (created_at c) (created_by c) (source c)
    (template_id c) (owner_group_id c).
Definition with_issuer (r : option string) (c : certificate) : certificate := set_cert r (subject_cn c) (aki c) (ski c) c.

Record stats := Stats {
  updated_cas : nat; updated_certs : nat; rechained_cas : nat; rechained_certs : nat; deduplicated : nat;
  populated_cn : nat; orphan_cas : nat; orphan_certs : nat; total_cas : nat; total_certs : nat;
}.
(** The rows a pass changes, and how many. *)
Definition pass {A} (f : A -> option A) (l : list A) : list A * nat :=
  (List.map (fun x => default x (f x)) l, length (omap f l)).
Definition orphan (caref : option string) : bool := match filled caref with Some _ => false | None => true end.
Definition same_ski (k : string) (a : CaModel.ca) : bool := bool_decide (CaModel.a_ski a = Some k).

Section Task.
Context `{Pki.X509} `{KeyIdentifiers}.

Definition loaded (column : string) : option Pki.cert := t ← pem_text column; Pki.load_cert t.

(** * Phase 1: identifiers *)

Definition fill_ca (a : CaModel.ca) : option CaModel.ca :=
  match CaModel.a_ski a with
  | Some _ => None
  | None => x ← loaded (CaModel.a_crt a); k ← subject_key_id x; Some (with_ski (Some k) a)
  end.
Definition fill_cert (c : certificate) : option certificate :=
  match crt c, aki c with
  | Some col, None =>
      x ← loaded col;
      Some (set_cert (caref c) (subject_cn c) (match authority_key_id x with Some (Some k) => Some k | _ => aki c end)
              (match subject_key_id x with Some k => Some k | None => ski c end) c)
  | _, _ => None
  end.

(** * Phases 2 and 3: orphans *)

Definition rechain_ca (l : list CaModel.ca) (a : CaModel.ca) : option CaModel.ca :=
  if negb (orphan (CaModel.a_caref a)) then None
  else
    x ← loaded (CaModel.a_crt a); o ← authority_key_id x; k ← o;
    if same_ski k a then None
    else
      parent ← Table.first (fun b => same_ski k b && negb (CaModel.a_id b =? CaModel.a_id a)) l;
      Some (with_parent (Some (CaModel.a_refid parent)) a).
Definition rechain_cert (l : list CaModel.ca) (c : certificate) : option certificate :=
  if negb (orphan (caref c)) then None
  else k ← aki c; parent ← Table.first (same_ski k) l; Some (with_issuer (Some (CaModel.a_refid parent)) c).

(** * Phase 4: CAs with the same identifier *)

Definition dupes (l : list CaModel.ca) : list string :=
  remove_dups (List.filter (fun k => (1 <? Table.count (same_ski k) l)%nat) (omap CaModel.a_ski l)).
Definition has_parent (a : CaModel.ca) : bool := negb (orphan (CaModel.a_caref a)).
Definition has_key (a : CaModel.ca) : bool := match filled (CaModel.a_prv a) with Some _ => true | None => false end.
Definition or_else {A} (x y : option A) : option A := match x with Some _ => x | None => y end.
Definition keeper_of (group : list CaModel.ca) : option CaModel.ca :=
  or_else (List.find (fun a => has_parent a && has_key a) group)
    (or_else (List.find has_parent group) (or_else (List.find has_key group) (head group))).
Definition moved (old new : string) (caref : option string) : option string :=
  if bool_decide (caref = Some old) then Some new else caref.
(** The raw statements for one row that goes. *)
Definition merge_row (keeper : CaModel.ca) (d : db) (a : CaModel.ca) : db :=
  if CaModel.a_id a =? CaModel.a_id keeper then d
  else
    let move := moved (CaModel.a_refid a) (CaModel.a_refid keeper) in
    Db (Table.delete (fun b => CaModel.a_id b =? CaModel.a_id a) (List.map (fun b => with_parent (move (CaModel.a_caref b)) b) (cas d)))
       (List.map (fun c => with_issuer (move (caref c)) c) (certs d)) (approvals d) (crls d).
(** The name of the latest row, and the first parent and key where the keeper has none:
    written when the session flushes, after the raw statements. *)
Definition filled_of (f : CaModel.ca -> option string) (group : list CaModel.ca) : option string := head (omap (fun a => filled (f a)) group).
Definition flush_keeper (keeper : CaModel.ca) (group : list CaModel.ca) (b : CaModel.ca) : CaModel.ca :=
  set_ca (CaModel.a_descr (default keeper (last group)))
    (if has_key keeper then CaModel.a_prv b else or_else (filled_of CaModel.a_prv group) (CaModel.a_prv b))
    (if has_parent keeper then CaModel.a_caref b else or_else (filled_of CaModel.a_caref group) (CaModel.a_caref b))
    (CaModel.a_ski b) b.
Definition merge_group (d : db) (k : string) : db :=
  let group := Table.order_by CaModel.a_id (Table.all (same_ski k) (cas d)) in
  match keeper_of group with
  | None => d
  | Some keeper =>
      let d := fold_left (merge_row keeper) group d in
      Db (Table.update (fun b => CaModel.a_id b =? CaModel.a_id keeper) (flush_keeper keeper group) (cas d)) (certs d) (approvals d) (crls d)
  end.

(** * Phase 5: common names *)

Fixpoint until_comma (s : string) : string :=
  match s with
  | String c s' => if Ascii.eqb c "," then "" else String c (until_comma s')
  | "" => ""
  end.
(** [re.search(r'CN=([^,]+)', s)]: its group. *)
Fixpoint search_cn (s : string) : option string :=
  match s with
  | "" => None
  | String _ s' => if Str.startswith s "CN=" && Str.truthy (until_comma (Str.drop 3 s)) then Some (until_comma (Str.drop 3 s)) else search_cn s'
  end.
Definition name_of (c : certificate) : option string :=
  or_else (filled (t ← filled (subject c); Str.strip <$> search_cn t))
    (or_else (filled (col ← filled (crt c); pem ← Base64.b64decode col; x ← Pki.load_cert pem; Json.assoc "CN" (Pki.x_subject x)))
       (filled (Some (descr c)))).
Definition fill_cn (c : certificate) : option certificate :=
  if orphan (subject_cn c) then n ← name_of c; Some (set_cert (caref c) (Some n) (aki c) (ski c) c) else None.

(** * The task *)

Definition fill (d : db) : db := Db (pass fill_ca (cas d)).1 (pass fill_cert (certs d)).1 (approvals d) (crls d).
Definition rechain (d : db) : db :=
  let l := (pass (rechain_ca (cas d)) (cas d)).1 in Db l (pass (rechain_cert l) (certs d)).1 (approvals d) (crls d).
Definition merge (d : db) : db := fold_left merge_group (dupes (cas d)) d.
Definition name_certs (d : db) : db := Db (cas d) (pass fill_cn (certs d)).1 (approvals d) (crls d).
Definition still_orphan_ca (a : CaModel.ca) : bool :=
  orphan (CaModel.a_caref a) && bool_decide (is_Some (CaModel.a_ski a))
  && match CaModel.a_subject a, CaModel.a_issuer a with Some s, Some i => negb (String.eqb s i) | _, _ => false end.
Definition backfill_ski_aki (d : db) : db * stats :=
  let d1 := fill d in
  let d2 := rechain d1 in
  let d3 := merge d2 in
  let d4 := name_certs d3 in
  (d4,
   Stats (pass fill_ca (cas d)).2 (pass fill_cert (certs d)).2 (pass (rechain_ca (cas d1)) (cas d1)).2
     (pass (rechain_cert (cas d2)) (certs d1)).2 (length (cas d2) - length (cas d3)) (pass fill_cn (certs d3)).2
     (Table.count still_orphan_ca (cas d4))
     (Table.count (fun c => orphan (caref c) && bool_decide (is_Some (aki c))) (certs d4)) (length (cas d)) (length (certs d))).
End Task.
End Repair.

Module RepairFacts.
Import CertModel CertRoutes Repair.
Local Open Scope string_scope.
Local Open Scope list_scope.
Local Open Scope Z_scope.

Definition ids (d : db) : list Z := List.map CaModel.a_id (cas d).
(** Every certificate that names a CA names one that is there. *)
Definition names_present (d : db) : Prop :=
  forall c r, In c (certs d) -> filled (caref c) = Some r -> exists a, In a (cas d) /\ CaModel.a_refid a = r.
Definition skis_unique (d : db) : Prop :=
  forall a b k, In a (cas d) -> In b (cas d) -> CaModel.a_ski a = Some k -> CaModel.a_ski b = Some k -> CaModel.a_id a = CaModel.a_id b.

(** A later version of a row. *)
Definition same_row (a b : CaModel.ca) : Prop :=
  CaModel.a_id a = CaModel.a_id b /\ CaModel.a_refid a = CaModel.a_refid b /\ CaModel.a_crt a = CaModel.a_crt b
  /\ CaModel.a_ski a = CaModel.a_ski b.
Definition comes (l l' : list CaModel.ca) : Prop := forall b, In b l' -> exists a, In a l /\ same_row a b.
Lemma comes_trans l1 l2 l3 : comes l1 l2 -> comes l2 l3 -> comes l1 l3.
Proof.
  intros H1 H2 c Hc. destruct (H2 c Hc) as (b & Hb & E1 & E2 & E3 & E4). destruct (H1 b Hb) as (a & Ha & F1 & F2 & F3 & F4).
  exists a. split; [done|]. split_and!; congruence.
Qed.
Lemma comes_refl l : comes l l.
Proof. intros b Hb. by exists b. Qed.

Lemma pass_In {A} (f : A -> option A) l y : In y (pass f l).1 <-> exists x, In x l /\ y = default x (f x).
Proof. unfold pass. cbn. rewrite in_map_iff. naive_solver. Qed.
Lemma pass_ids (f : CaModel.ca -> option CaModel.ca) l : (forall a b, f a = Some b -> CaModel.a_id b = CaModel.a_id a) ->
  List.map CaModel.a_id (pass f l).1 = List.map CaModel.a_id l.
Proof. intros Hf. unfold pass. cbn. rewrite List.map_map. apply List.map_ext. intros a. destruct (f a) eqn:E; [by apply Hf|done]. Qed.

(** * Merging *)

Section Group.
Context (d0 : db) (keeper : CaModel.ca) (Hids : NoDup (ids d0)).

Record merged (gone : list CaModel.ca) (d : db) : Prop := Merged {
  m_comes : comes (cas d0) (cas d);
  m_ids : NoDup (ids d);
  m_keeper : exists b, In b (cas d) /\ same_row keeper b;
  m_names : names_present d;
  m_gone : forall c, In c gone -> CaModel.a_id c <> CaModel.a_id keeper -> ~ In (CaModel.a_id c) (ids d);
  m_length : length (certs d) = length (certs d0);
}.

Lemma moved_ids old new l : List.map CaModel.a_id (List.map (fun b => with_parent (moved old new (CaModel.a_caref b)) b) l) = List.map CaModel.a_id l.
Proof. rewrite List.map_map. by apply List.map_ext. Qed.

Lemma merge_row_merged gone d a : In a (cas d0) -> merged gone d -> merged (gone ++ [a]) (merge_row keeper d a).
Proof.
  intros Ha [Hc Hnd (bk & Hbk & Hk1 & Hk2 & Hk3 & Hk4) Hn Hg Hl]. unfold merge_row. destruct (Z.eqb_spec (CaModel.a_id a) (CaModel.a_id keeper)) as [E|E].
  { split; try done; [by exists bk|]. intros c [?|[<-|[]]]%in_app_iff; [by apply Hg|done]. }
  set (move := moved (CaModel.a_refid a) (CaModel.a_refid keeper)).
  assert (forall b', In b' (Table.delete (fun b => CaModel.a_id b =? CaModel.a_id a) (List.map (fun b => with_parent (move (CaModel.a_caref b)) b) (cas d)))
    <-> exists b, In b (cas d) /\ CaModel.a_id b <> CaModel.a_id a /\ b' = with_parent (move (CaModel.a_caref b)) b) as Hin.
  { intros b'. rewrite Table.In_delete, in_map_iff. split.
    - intros [(b & <- & Hb) Hne%Z.eqb_neq]. by exists b.
    - intros (b & Hb & Hne & ->). split; [by exists b|]. by apply Z.eqb_neq. }
  split; cbn [cas certs].
  - intros b' (b & Hb & _ & ->)%Hin. destruct (Hc b Hb) as (a0 & ? & ?). by exists a0.
  - apply Table.NoDup_map_delete. unfold move. by rewrite moved_ids.
  - exists (with_parent (move (CaModel.a_caref bk)) bk). split; [|by split]. apply Hin. exists bk. split_and!; [done|congruence|done].
  - intros c' r (c & <- & Hc')%in_map_iff Hr. cbn in Hr. unfold move, moved in Hr.
    destruct (decide (caref c = Some (CaModel.a_refid a))) as [Hca|Hca].
    + rewrite bool_decide_eq_true_2 in Hr by done. eexists. split; [apply Hin; exists bk; split_and!; [done|congruence|reflexivity]|].
      unfold filled in Hr. destruct (Str.truthy _); [|done]. cbn. congruence.
    + rewrite bool_decide_eq_false_2 in Hr by done. destruct (Hn c r Hc' Hr) as (b & Hb & Hbr).
      eexists. split; [apply Hin; exists b; split_and!; [done| |reflexivity]|done]. intros Hid.
      destruct (Hc b Hb) as (b0 & Hb0 & F1 & F2 & _).
      assert (b0 = a) as -> by (apply (Table.NoDup_map_eq CaModel.a_id (cas d0)); [exact Hids|done|done|congruence]).
      apply Hca. rewrite F2, Hbr. unfold filled in Hr. destruct (caref c); [|done]. destruct (Str.truthy _); congruence.
  - intros c Hcg Hne (b' & Hbid & (b & Hb & Hbne & ->)%Hin)%in_map_iff. cbn in Hbid. apply in_app_iff in Hcg as [Hcg|[<-|[]]]; [|done].
    apply (Hg c Hcg Hne). rewrite <-Hbid. by apply in_map.
  - by rewrite List.length_map.
Qed.

Lemma merge_rows_merged group : forall gone d, (forall a, In a group -> In a (cas d0)) -> merged gone d ->
  merged (gone ++ group) (fold_left (merge_row keeper) group d).
Proof.
  induction group as [|a group IH]; intros gone d Hg Hd; cbn [fold_left]; [by rewrite app_nil_r|].
  replace (gone ++ a :: group) with ((gone ++ [a]) ++ group) by (by rewrite <-app_assoc).
  apply IH; [intros; apply Hg; by right|]. apply merge_row_merged; [apply Hg; by left|done].
Qed.
End Group.

Lemma keeper_In group a : keeper_of group = Some a -> In a group.
Proof.
  unfold keeper_of, or_else.
  repeat match goal with |- context [List.find ?p group] => destruct (List.find p group) eqn:?; cbn; [intros [= <-]; by eapply List.find_some|] end.
  destruct group; [done|]. intros [= <-]. by left.
Qed.

Section Facts.
Context `{Pki.X509} `{KeyIdentifiers}.

Lemma merge_group_merged d k : NoDup (ids d) -> names_present d ->
  comes (cas d) (cas (merge_group d k)) /\ NoDup (ids (merge_group d k)) /\ names_present (merge_group d k)
  /\ (forall a b, In a (cas (merge_group d k)) -> In b (cas (merge_group d k)) ->
        CaModel.a_ski a = Some k -> CaModel.a_ski b = Some k -> CaModel.a_id a = CaModel.a_id b)
  /\ length (certs (merge_group d k)) = length (certs d).
Proof.
  intros Hids Hn. unfold merge_group. set (group := Table.order_by _ _).
  assert (forall a, In a group <-> In a (cas d) /\ CaModel.a_ski a = Some k) as Hgroup.
  { intros a. unfold group. rewrite Table.order_by_In, Table.In_all. unfold same_ski. by rewrite bool_decide_eq_true. }
  destruct (keeper_of group) as [keeper|] eqn:Ek.
  2: { split_and!; [apply comes_refl|done|done| |done]. intros a b Ha _ Hak _. exfalso.
       assert (In a group) as Hg by (by apply Hgroup). unfold keeper_of, or_else in Ek.
       repeat match type of Ek with context [List.find ?p group] => destruct (List.find p group); cbn in Ek; [done|] end. by destruct group. }
  apply keeper_In in Ek. assert (In keeper (cas d)) as Hkd by (by apply Hgroup).
  destruct (merge_rows_merged d keeper Hids group [] d) as [Hc Hnd (bk & Hbk & Hk1 & _) Hn' Hg Hl].
  { intros a Ha. by apply Hgroup. }
  { split; try done; [apply comes_refl|by exists keeper]. }
  set (d1 := fold_left _ group d) in *. cbn [cas certs].
  assert (forall b', In b' (Table.update (fun b => CaModel.a_id b =? CaModel.a_id keeper) (flush_keeper keeper group) (cas d1))
    -> exists b, In b (cas d1) /\ same_row b b') as Hup.
  { intros b' (b & Hb & ->)%Table.In_update. exists b. split; [done|]. by destruct (_ =? _). }
  assert (List.map CaModel.a_id (Table.update (fun b => CaModel.a_id b =? CaModel.a_id keeper) (flush_keeper keeper group) (cas d1)) = ids d1) as Hidm.
  { unfold ids, Table.update. rewrite List.map_map. apply List.map_ext. intros b. by destruct (_ =? _). }
  split_and!.
  - by apply (comes_trans _ (cas d1)).
  - unfold ids. cbn [cas]. by rewrite Hidm.
  - intros c r Hcin Hr. destruct (Hn' c r Hcin Hr) as (b & Hb & <-).
    exists (if CaModel.a_id b =? CaModel.a_id keeper then flush_keeper keeper group b else b). split; [|by destruct (_ =? _)].
    cbn [cas]. apply in_map_iff. by exists b.
  - assert (forall a', In a' (Table.update (fun b => CaModel.a_id b =? CaModel.a_id keeper) (flush_keeper keeper group) (cas d1)) ->
      CaModel.a_ski a' = Some k -> CaModel.a_id a' = CaModel.a_id keeper) as Hone.
    { intros a' Ha' Hak. apply Hup in Ha' as (b & Hb & E1 & _ & _ & E4). destruct (Hc b Hb) as (a0 & Ha0 & F1 & _ & _ & F4).
      rewrite <-E1. destruct (decide (CaModel.a_id b = CaModel.a_id keeper)) as [|Hne]; [done|]. exfalso.
      apply (Hg a0); [apply in_app_iff; right; apply Hgroup; split; [done|congruence]|congruence|].
      rewrite F1. by apply in_map. }
    intros a' b' Ha' Hb' Hak Hbk'. by rewrite (Hone a' Ha' Hak), (Hone b' Hb' Hbk').
  - done.
Qed.

Lemma count_one {A} (p : A -> bool) l a b : (Table.count p l <= 1)%nat -> In a l -> In b l -> p a = true -> p b = true -> a = b.
Proof.
  unfold Table.count, Table.all. intros Hc Ha Hb Hpa Hpb.
  assert (In a (List.filter p l)) as Ha' by (by apply filter_In). assert (In b (List.filter p l)) as Hb' by (by apply filter_In).
  destruct (List.filter p l) as [|x [|y k]]; cbn in *; [done| |lia]. naive_solver.
Qed.

Lemma merge_merged d : NoDup (ids d) -> names_present d ->
  comes (cas d) (cas (merge d)) /\ NoDup (ids (merge d)) /\ names_present (merge d) /\ skis_unique (merge d)
  /\ length (certs (merge d)) = length (certs d).
Proof.
  intros Hids Hn. unfold merge.
  assert (forall ks d1, NoDup (ids d1) -> names_present d1 ->
    comes (cas d1) (cas (fold_left merge_group ks d1)) /\ NoDup (ids (fold_left merge_group ks d1))
    /\ names_present (fold_left merge_group ks d1)
    /\ (forall k, In k ks -> forall a b, In a (cas (fold_left merge_group ks d1)) -> In b (cas (fold_left merge_group ks d1)) ->
          CaModel.a_ski a = Some k -> CaModel.a_ski b = Some k -> CaModel.a_id a = CaModel.a_id b)
    /\ length (certs (fold_left merge_group ks d1)) = length (certs d1)) as Hf.
  { induction ks as [|k ks IH]; intros d1 Hi1 Hn1; [split_and!; [apply comes_refl|done|done|by intros ? []|done]|]. cbn [fold_left].
    destruct (merge_group_merged d1 k Hi1 Hn1) as (Hc & Hi2 & Hn2 & Hu & Hl). destruct (IH _ Hi2 Hn2) as (Hc' & Hi3 & Hn3 & Hu' & Hl').
    split_and!; [by eapply comes_trans|done|done| |congruence]. intros k' [<-|Hk']; [|by apply Hu'].
    intros a b Ha Hb Hak Hbk. destruct (Hc' a Ha) as (a1 & Ha1 & E1 & _ & _ & E4). destruct (Hc' b Hb) as (b1 & Hb1 & F1 & _ & _ & F4).
    rewrite <-E1, <-F1. apply Hu; congruence. }
  destruct (Hf (dupes (cas d)) d Hids Hn) as (Hc & Hi & Hn' & Hu & Hl). split_and!; [done|done|done| |done].
  intros a b k Ha Hb Hak Hbk. destruct (in_dec String.string_dec k (dupes (cas d))) as [Hin|Hin]; [by apply (Hu k)|].
  destruct (Hc a Ha) as (a1 & Ha1 & E1 & _ & _ & E4). destruct (Hc b Hb) as (b1 & Hb1 & F1 & _ & _ & F4).
  rewrite <-E1, <-F1. f_equal. apply (count_one (same_ski k) (cas d)); [|done|done|unfold same_ski; apply bool_decide_eq_true; congruence..].
  apply Nat.nlt_ge. intros Hgt. apply Hin. unfold dupes. apply list_elem_of_In, elem_of_remove_dups, list_elem_of_In, filter_In.
  split; [|by apply Nat.ltb_lt]. apply list_elem_of_In, list_elem_of_omap. exists a1. split; [by apply list_elem_of_In|congruence].
Qed.

Lemma names_pass d f g : names_present d -> (forall a b, f a = Some b -> CaModel.a_refid b = CaModel.a_refid a) ->
  (forall c c', g c = Some c' -> caref c' = caref c \/ exists a, In a (pass f (cas d)).1 /\ caref c' = Some (CaModel.a_refid a)) ->
  names_present (Db (pass f (cas d)).1 (pass g (certs d)).1 (approvals d) (crls d)).
Proof.
  intros Hn Hf Hg c' r (c & Hc & ->)%pass_In Hr. cbn [cas certs] in *.
  assert (filled (caref c) = Some r -> exists a, In a (pass f (cas d)).1 /\ CaModel.a_refid a = r) as Hold.
  { intros E. destruct (Hn c r Hc E) as (a & Ha & <-). exists (default a (f a)). split; [apply pass_In; by exists a|].
    destruct (f a) eqn:Ef; [by apply Hf|done]. }
  destruct (g c) as [c'|] eqn:Eg; [|by apply Hold]. cbn in Hr. destruct (Hg c c' Eg) as [E|(a & Ha & E)]; [apply Hold; by rewrite <-E|].
  exists a. split; [done|]. rewrite E in Hr. unfold filled in Hr. destruct (Str.truthy _); congruence.
Qed.

(** C34: The links of the tables after a run of the task: no two CAs have the same key
    identifier, numbers stay unique, no CA is made up, no certificate is lost, and every
    certificate that names a CA names one that is there, although CAs were taken away. *)
Theorem repair_is_sound d (Hids : NoDup (ids d)) (Hn : names_present d) :
  let d' := (backfill_ski_aki d).1 in
  skis_unique d' /\ names_present d' /\ NoDup (ids d') /\ length (certs d') = length (certs d)
  /\ forall b, In b (cas d') -> exists a, In a (cas d)
       /\ CaModel.a_id a = CaModel.a_id b /\ CaModel.a_refid a = CaModel.a_refid b /\ CaModel.a_crt a = CaModel.a_crt b.
Proof.
  cbn zeta. unfold backfill_ski_aki. cbn [fst]. set (d1 := fill d). set (d2 := rechain d1).
  assert (forall a b, fill_ca a = Some b -> b = with_ski (CaModel.a_ski b) a) as Hfill.
  { intros a b. unfold fill_ca. destruct (CaModel.a_ski a); [done|]. intros (x & _ & (k & _ & [= <-])%bind_Some)%bind_Some. done. }
  assert (forall l a b, rechain_ca l a = Some b -> b = with_parent (CaModel.a_caref b) a) as Hre.
  { intros l a b. unfold rechain_ca. destruct (negb _); [done|]. intros (x & _ & (o & _ & (k & _ & Hb)%bind_Some)%bind_Some)%bind_Some.
    destruct (same_ski k a); [done|]. by apply bind_Some in Hb as (p & _ & [= <-]). }
  assert (NoDup (ids d1) /\ names_present d1 /\ length (certs d1) = length (certs d)) as (Hi1 & Hn1 & Hl1).
  { split_and!.
    - unfold ids, d1, fill. cbn [cas]. rewrite pass_ids; [done|]. by intros a b ->%Hfill.
    - apply names_pass; [done|by intros a b ->%Hfill|]. intros c c'. unfold fill_cert. destruct (crt c), (aki c); try done.
      intros (x & _ & [= <-])%bind_Some. by left.
    - unfold d1, fill, pass. cbn. by rewrite List.length_map. }
  assert (NoDup (ids d2) /\ names_present d2 /\ length (certs d2) = length (certs d)) as (Hi2 & Hn2 & Hl2).
  { split_and!.
    - unfold ids, d2, rechain. cbn [cas]. rewrite pass_ids; [done|]. by intros a b ->%Hre.
    - apply names_pass; [done|by intros a b ->%Hre|]. intros c c'. unfold rechain_cert. destruct (negb _); [done|].
      intros (k & _ & (p & [Hp _]%Table.first_Some & [= <-])%bind_Some)%bind_Some. right. by exists p.
    - rewrite <-Hl1. unfold d2, rechain, pass. cbn. by rewrite List.length_map. }
  destruct (merge_merged d2 Hi2 Hn2) as (Hc & Hi3 & Hn3 & Hu & Hl3). split_and!.
  - exact Hu.
  - intros c' r (c & Hcin & ->)%pass_In Hr. apply (Hn3 c r Hcin). rewrite <-Hr. destruct (fill_cn c) as [c'|] eqn:E; [|done].
    unfold fill_cn in E. destruct (orphan _); [|done]. apply bind_Some in E as (n & _ & E). by injection E as <-.
  - exact Hi3.
  - unfold name_certs, pass. cbn [certs fst]. rewrite List.length_map. congruence.
  - intros b Hb. destruct (Hc b Hb) as (a2 & Ha2 & E1 & E2 & E3 & _). unfold d2, rechain in Ha2. cbn [cas] in Ha2.
    apply pass_In in Ha2 as (a1 & Ha1 & Ea2). unfold d1, fill in Ha1. cbn [cas] in Ha1. apply pass_In in Ha1 as (a & Ha & Ea1).
    exists a. split; [done|]. rewrite <-E1, <-E2, <-E3, Ea2.
    assert (forall (x : CaModel.ca) o, (forall y, o = Some y -> CaModel.a_id y = CaModel.a_id x /\ CaModel.a_refid y = CaModel.a_refid x /\ CaModel.a_crt y = CaModel.a_crt x) ->
      CaModel.a_id (default x o) = CaModel.a_id x /\ CaModel.a_refid (default x o) = CaModel.a_refid x /\ CaModel.a_crt (default x o) = CaModel.a_crt x) as Hd
      by (intros x [y|] Hy; [by apply Hy|done]).
    destruct (Hd a1 (rechain_ca (cas d1) a1)) as (-> & -> & ->); [by intros y ->%Hre|].
    rewrite Ea1. destruct (Hd a (fill_ca a)) as (-> & -> & ->); [by intros y ->%Hfill|]. done.
Qed.

(** * What the task lets in *)

(** Nobody else has this number, reference or key identifier. *)
Definition owns (i : Z) (r k : string) (l : list CaModel.ca) : Prop :=
  forall x, In x l -> CaModel.a_id x = i \/ CaModel.a_refid x = r \/ CaModel.a_ski x = Some k ->
    CaModel.a_id x = i /\ CaModel.a_refid x = r /\ CaModel.a_ski x = Some k.
(** The row [i] is there, with the parent [p]. *)
Definition child (i : Z) (p : string) (l : list CaModel.ca) : Prop :=
  (forall x, In x l -> CaModel.a_id x = i -> CaModel.a_caref x = Some p) /\ exists x, In x l /\ CaModel.a_id x = i.
Lemma owns_comes i r k l l' : comes l l' -> owns i r k l -> owns i r k l'.
Proof. intros Hc Ho x' Hx Hor. destruct (Hc x' Hx) as (x & Hin & E1 & E2 & _ & E4). rewrite <-E1, <-E2, <-E4 in *. by apply Ho. Qed.

Lemma merge_row_from keeper d a x' : In x' (cas (merge_row keeper d a)) ->
  exists x, In x (cas d) /\ (x' = x \/ x' = with_parent (moved (CaModel.a_refid a) (CaModel.a_refid keeper) (CaModel.a_caref x)) x).
Proof.
  unfold merge_row. destruct (_ =? _); [by exists x'; auto|]. cbn [cas]. rewrite Table.In_delete, in_map_iff.
  intros [(x & <- & Hx) _]. exists x. auto.
Qed.
Lemma merge_row_child keeper d a i p : CaModel.a_id a <> i -> CaModel.a_refid a <> p -> child i p (cas d) -> child i p (cas (merge_row keeper d a)).
Proof.
  intros Hi Hp [Hc (x & Hx & Ex)]. split.
  - intros x' (y & Hy & [->| ->])%merge_row_from E; [by apply Hc|]. cbn in *. rewrite (Hc y Hy E). unfold moved.
    by rewrite bool_decide_eq_false_2 by congruence.
  - unfold merge_row. destruct (_ =? _); [by exists x|]. cbn [cas].
    exists (with_parent (moved (CaModel.a_refid a) (CaModel.a_refid keeper) (CaModel.a_caref x)) x). split; [|done].
    apply Table.In_delete. split; [apply in_map_iff; by exists x|]. cbn. apply Z.eqb_neq. congruence.
Qed.
Lemma merge_rows_child keeper i p group : forall d, (forall a, In a group -> CaModel.a_id a <> i /\ CaModel.a_refid a <> p) ->
  child i p (cas d) -> child i p (cas (fold_left (merge_row keeper) group d)).
Proof.
  induction group as [|a group IH]; intros d Hg Hd; [done|]. cbn [fold_left]. apply IH; [intros; apply Hg; by right|].
  destruct (Hg a (or_introl eq_refl)). by apply merge_row_child.
Qed.
Lemma merge_rows_from keeper group : forall d, comes (cas d) (cas (fold_left (merge_row keeper) group d)).
Proof.
  induction group as [|a group IH]; intros d; [apply comes_refl|]. cbn [fold_left]. eapply comes_trans; [|apply IH].
  intros x' (x & Hx & [->| ->])%merge_row_from; by exists x.
Qed.
Lemma merge_group_from d k : comes (cas d) (cas (merge_group d k)).
Proof.
  unfold merge_group. destruct (keeper_of _) as [keeper|]; [|apply comes_refl]. eapply comes_trans; [apply merge_rows_from|].
  cbn [cas]. intros b' (b & Hb & ->)%Table.In_update. exists b. split; [done|]. by destruct (_ =? _).
Qed.
Lemma merge_group_child d k i r p j k' kk : k <> kk -> k <> k' -> owns i r kk (cas d) -> owns j p k' (cas d) -> child i p (cas d) ->
  child i p (cas (merge_group d k)).
Proof.
  intros Hk Hk' Ho Ho' Hc. unfold merge_group. set (group := Table.order_by _ _).
  assert (forall a, In a group -> CaModel.a_id a <> i /\ CaModel.a_refid a <> p) as Hg.
  { intros a. unfold group. rewrite Table.order_by_In, Table.In_all. unfold same_ski. rewrite bool_decide_eq_true. intros [Ha Es]. split.
    - intros E. destruct (Ho a Ha (or_introl E)) as (_ & _ & E'). congruence.
    - intros E. destruct (Ho' a Ha (or_intror (or_introl E))) as (_ & _ & E'). congruence. }
  destruct (keeper_of group) as [keeper|] eqn:Ek; [|done]. apply keeper_In, Hg in Ek as [Hki _]. cbn [cas].
  destruct (merge_rows_child keeper i p group d Hg Hc) as [Hall (x & Hx & Ex)]. split.
  - intros x' (y & Hy & ->)%Table.In_update. destruct (Z.eqb_spec (CaModel.a_id y) (CaModel.a_id keeper)) as [E|]; [|by apply Hall].
    cbn. intros E'. congruence.
  - exists x. split; [|done]. unfold Table.update. apply in_map_iff. exists x. split; [|done].
    by rewrite (proj2 (Z.eqb_neq _ _)) by congruence.
Qed.

(** Merging the groups of equal identifiers leaves two CAs alone that are each other's
    parent and share nothing with other rows. *)
Lemma merge_circle ks i j r p k k' : forall d, (forall x, In x ks -> x <> k /\ x <> k') ->
  owns i r k (cas d) -> owns j p k' (cas d) -> child i p (cas d) -> child j r (cas d) ->
  let d' := fold_left merge_group ks d in
  owns i r k (cas d') /\ owns j p k' (cas d') /\ child i p (cas d') /\ child j r (cas d') /\ comes (cas d) (cas d').
Proof.
  cbn zeta. induction ks as [|x ks IH]; intros d Hks Hi Hj Hci Hcj; cbn [fold_left]; [split_and!; try done; apply comes_refl|].
  destruct (Hks x (or_introl eq_refl)) as [Hx Hx']. pose proof (merge_group_from d x) as Hc.
  destruct (IH (merge_group d x)) as (? & ? & ? & ? & ?).
  - intros; apply Hks; by right.
  - by apply (owns_comes _ _ _ _ _ Hc).
  - by apply (owns_comes _ _ _ _ _ Hc).
  - by apply (merge_group_child d x i r p j k' k).
  - by apply (merge_group_child d x j p r i k k').
  - split_and!; try done. by eapply comes_trans.
Qed.
Lemma dupes_own i r k l : NoDup (List.map CaModel.a_id l) -> owns i r k l -> ~ In k (dupes l).
Proof.
  intros Hnd Ho Hin. apply list_elem_of_In in Hin. unfold dupes in Hin. apply elem_of_remove_dups, list_elem_of_In, filter_In in Hin as [_ Hc].
  apply Nat.ltb_lt in Hc. unfold Table.count, Table.all in Hc.
  assert (NoDup (List.filter (same_ski k) l)) as Hn by (apply NoDup_ListNoDup, List.NoDup_filter, NoDup_ListNoDup; by apply NoDup_fmap_1 with (f := CaModel.a_id)).
  destruct (List.filter (same_ski k) l) as [|x [|y m]] eqn:E; cbn in Hc; [lia|lia|].
  assert (In x (List.filter (same_ski k) l) /\ In y (List.filter (same_ski k) l)) as [Hx Hy] by (rewrite E; cbn; auto).
  apply filter_In in Hx as [Hx Hxk%bool_decide_eq_true], Hy as [Hy Hyk%bool_decide_eq_true].
  destruct (Ho x Hx (or_intror (or_intror Hxk))) as [Ex _], (Ho y Hy (or_intror (or_intror Hyk))) as [Ey _].
  assert (x = y) as -> by (apply (Table.NoDup_map_eq CaModel.a_id l); congruence || done).
  apply NoDup_cons in Hn as [Hn _]. apply Hn. by left.
Qed.

Lemma fill_In d a k : CaModel.a_ski a = Some k -> In a (cas d) -> In a (cas (fill d)).
Proof. intros Hk Ha. unfold fill. cbn [cas]. apply pass_In. exists a. split; [done|]. unfold fill_ca. by rewrite Hk. Qed.
Lemma fill_ids d : List.map CaModel.a_id (cas (fill d)) = ids d.
Proof.
  apply pass_ids. intros a b. unfold fill_ca. destruct (CaModel.a_ski a); [done|].
  by intros (x & _ & (k & _ & [= <-])%bind_Some)%bind_Some.
Qed.
Lemma rechain_ca_row l a b : rechain_ca l a = Some b -> b = with_parent (CaModel.a_caref b) a.
Proof.
  unfold rechain_ca. destruct (negb _); [done|]. intros (x & _ & (o & _ & (k & _ & Hb)%bind_Some)%bind_Some)%bind_Some.
  destruct (same_ski k a); [done|]. by apply bind_Some in Hb as (p & _ & [= <-]).
Qed.
Lemma rechain_ids d : List.map CaModel.a_id (cas (rechain d)) = ids d.
Proof. unfold rechain. cbn [cas]. apply pass_ids. by intros a b ->%rechain_ca_row. Qed.
Lemma rechain_comes d : comes (cas d) (cas (rechain d)).
Proof.
  unfold rechain. cbn [cas]. intros b (a & Ha & ->)%pass_In. exists a. split; [done|].
  destruct (rechain_ca (cas d) a) as [c|] eqn:E; [|done]. by apply rechain_ca_row in E as ->.
Qed.
(** An orphan whose certificate names the identifier of another CA becomes its child. *)
Lemma rechain_child d a j p ka kb x : NoDup (ids d) -> In a (cas d) -> owns j p kb (cas d) -> (exists b, In b (cas d) /\ CaModel.a_id b = j) ->
  CaModel.a_ski a = Some ka -> ka <> kb -> loaded (CaModel.a_crt a) = Some x -> authority_key_id x = Some (Some kb) ->
  filled (CaModel.a_caref a) = None \/ CaModel.a_caref a = Some p -> Str.truthy p = true ->
  child (CaModel.a_id a) p (cas (rechain d)).
Proof.
  intros Hnd Ha Ho (b & Hb & Eb) Hka Hk Hx Haki Hp Ht.
  assert (CaModel.a_caref (default a (rechain_ca (cas d) a)) = Some p) as Hr.
  { unfold rechain_ca, orphan. destruct Hp as [Hp|Hp]; [|by rewrite Hp; cbn [filled]; rewrite Ht; cbn; rewrite Hp]. rewrite Hp. cbn [negb].
    rewrite Hx. cbn [mbind option_bind]. rewrite Haki. cbn [mbind option_bind].
    assert (same_ski kb a = false) as -> by (unfold same_ski; rewrite Hka; apply bool_decide_eq_false; congruence).
    destruct (Table.first _ _) as [y|] eqn:Ef.
    - apply Table.first_Some in Ef as [Hy [Hs%bool_decide_eq_true _]%andb_true_iff]. cbn.
      by destruct (Ho y Hy (or_intror (or_intror Hs))) as (_ & -> & _).
    - apply Table.first_None with (r := b) in Ef; [|done]. destruct (Ho b Hb (or_introl Eb)) as (_ & _ & Es). unfold same_ski in Ef.
      rewrite bool_decide_eq_true_2 in Ef by done. cbn [andb] in Ef. apply negb_false_iff, Z.eqb_eq in Ef.
      assert (b = a) as -> by (by apply (Table.NoDup_map_eq CaModel.a_id (cas d))). congruence. }
  split.
  - unfold rechain. cbn [cas]. intros y (y0 & Hy0 & ->)%pass_In E.
    assert (CaModel.a_id y0 = CaModel.a_id a) as E0.
    { rewrite <-E. destruct (rechain_ca (cas d) y0) as [z|] eqn:Ez; [|done]. by apply rechain_ca_row in Ez as ->. }
    by assert (y0 = a) as -> by (by apply (Table.NoDup_map_eq CaModel.a_id (cas d))).
  - exists (default a (rechain_ca (cas d) a)). split; [unfold rechain; cbn [cas]; apply pass_In; by exists a|].
    destruct (rechain_ca (cas d) a) as [z|] eqn:Ez; [|done]. by apply rechain_ca_row in Ez as ->.
Qed.
Lemma own_lookup i r k p d : owns i r k (cas d) -> child i p (cas d) -> exists x, ca_by_refid r d = Some x /\ In x (cas d)
  /\ CaModel.a_id x = i /\ CaModel.a_caref x = Some p.
Proof.
  intros Ho [Hc (x & Hx & Ex)]. unfold ca_by_refid. destruct (Table.first _ _) as [y|] eqn:E.
  - apply Table.first_Some in E as [Hy Hr%String.eqb_eq]. destruct (Ho y Hy (or_intror (or_introl Hr))) as (Ey & _ & _).
    exists y. split_and!; [done|done|done|by apply Hc].
  - apply Table.first_None with (r := x) in E; [|done]. apply String.eqb_neq in E. by destruct (Ho x Hx (or_introl Ex)) as (_ & ? & _).
Qed.

(** C35: Two CAs, each with a certificate that names the key identifier of the other as its
    issuer's, are made each other's parent by a run of the task, whether the row of each has
    no parent or has the other one as its parent already, whatever CAs and certificates
    stand beside them, provided that no other CA has the number, the reference or the key
    identifier of one of the two.  From then on the walk up the CAs from either of them, on
    which the exports with a chain rest, never ends: no number of steps is enough. *)
Theorem repair_closes_circles d a b ka kb xa xb
  (Hids : NoDup (ids d)) (Ha : In a (cas d)) (Hb : In b (cas d))
  (Hka : CaModel.a_ski a = Some ka) (Hkb : CaModel.a_ski b = Some kb) (Hk : ka <> kb)
  (Hxa : loaded (CaModel.a_crt a) = Some xa) (Hab : authority_key_id xa = Some (Some kb))
  (Hxb : loaded (CaModel.a_crt b) = Some xb) (Hba : authority_key_id xb = Some (Some ka))
  (Hpa : filled (CaModel.a_caref a) = None \/ CaModel.a_caref a = Some (CaModel.a_refid b))
  (Hpb : filled (CaModel.a_caref b) = None \/ CaModel.a_caref b = Some (CaModel.a_refid a))
  (Hra : Str.truthy (CaModel.a_refid a) = true) (Hrb : Str.truthy (CaModel.a_refid b) = true)
  (Hoa : owns (CaModel.a_id a) (CaModel.a_refid a) ka (cas (fill d))) (Hob : owns (CaModel.a_id b) (CaModel.a_refid b) kb (cas (fill d))) :
  let d' := (backfill_ski_aki d).1 in
  exists a' b',
    ca_by_refid (CaModel.a_refid a) d' = Some a' /\ CaModel.a_id a' = CaModel.a_id a /\ CaModel.a_caref a' = Some (CaModel.a_refid b)
    /\ ca_by_refid (CaModel.a_refid b) d' = Some b' /\ CaModel.a_id b' = CaModel.a_id b /\ CaModel.a_caref b' = Some (CaModel.a_refid a)
    /\ forall A (f : string -> option A) fuel, f (CaModel.a_crt a') <> None -> f (CaModel.a_crt b') <> None ->
         CertExport.ca_walk f fuel (Some a') d' = None /\ CertExport.ca_walk f fuel (Some b') d' = None.
Proof.
  cbn zeta. unfold backfill_ski_aki. cbn [fst]. set (d1 := fill d) in *. set (d2 := rechain d1).
  assert (In a (cas d1) /\ In b (cas d1)) as [Ha1 Hb1] by (by split; eapply fill_In).
  assert (NoDup (ids d1)) as Hi1 by (unfold ids, d1; by rewrite fill_ids).
  assert (child (CaModel.a_id a) (CaModel.a_refid b) (cas d2)) as Hca by (by eapply (rechain_child d1); eauto).
  assert (child (CaModel.a_id b) (CaModel.a_refid a) (cas d2)) as Hcb by (by eapply (rechain_child d1); eauto).
  pose proof (owns_comes _ _ _ _ _ (rechain_comes d1) Hoa) as Hoa2. pose proof (owns_comes _ _ _ _ _ (rechain_comes d1) Hob) as Hob2.
  assert (NoDup (List.map CaModel.a_id (cas d2))) as Hi2 by (unfold d2; by rewrite rechain_ids).
  destruct (merge_circle (dupes (cas d2)) (CaModel.a_id a) (CaModel.a_id b) (CaModel.a_refid a) (CaModel.a_refid b) ka kb d2) as (Ha3 & Hb3 & Hca3 & Hcb3 & _).
  { intros k Hkin. split; intros ->; [apply (dupes_own _ _ _ _ Hi2 Hoa2 Hkin)|apply (dupes_own _ _ _ _ Hi2 Hob2 Hkin)]. }
  all: try done. fold (merge d2) in *. set (d' := name_certs (merge d2)).
  destruct (own_lookup _ _ _ _ d' Ha3 Hca3) as (a' & Hfa & _ & Eia & Epa).
  destruct (own_lookup _ _ _ _ d' Hb3 Hcb3) as (b' & Hfb & _ & Eib & Epb).
  exists a', b'. split_and!; try done. intros A f fuel Hfa' Hfb'. induction fuel as [|fuel [IHa IHb]]; [done|].
  cbn [CertExport.ca_walk]. rewrite Epa, Epb. cbn [filled]. rewrite Hra, Hrb, Hfa, Hfb, IHa, IHb.
  split; [destruct (Str.truthy (CaModel.a_crt a')), (f (CaModel.a_crt a'))|destruct (Str.truthy (CaModel.a_crt b')), (f (CaModel.a_crt b'))]; done.
Qed.

Lemma fill_two a b d ka kb : cas d = [a; b] -> CaModel.a_ski a = Some ka -> CaModel.a_ski b = Some kb -> cas (fill d) = [a; b].
Proof. intros E Ha Hb. unfold fill, pass, fill_ca. cbn [cas fst]. rewrite E. cbn. by rewrite Ha, Hb. Qed.

(** What the passes leave of a certificate that names a CA. *)
Lemma fill_cert_keeps c : id (default c (fill_cert c)) = id c /\ caref (default c (fill_cert c)) = caref c.
Proof.
  destruct (fill_cert c) as [c'|] eqn:E; [|done]. unfold fill_cert in E. destruct (crt c), (aki c); try done.
  by apply bind_Some in E as (x & _ & [= <-]).
Qed.
Lemma rechain_cert_keeps l c : id (default c (rechain_cert l c)) = id c
  /\ (is_Some (filled (caref c)) -> caref (default c (rechain_cert l c)) = caref c).
Proof.
  unfold rechain_cert, orphan. destruct (filled (caref c)); cbn [negb default]; [done|]. split; [|by intros [? ?]].
  destruct (k ← aki c; _) as [c'|] eqn:E; [|done]. apply bind_Some in E as (? & _ & (? & _ & E)%bind_Some). by injection E as <-.
Qed.
Lemma fill_cn_keeps c : id (default c (fill_cn c)) = id c /\ caref (default c (fill_cn c)) = caref c.
Proof.
  destruct (fill_cn c) as [c'|] eqn:E; [|done]. unfold fill_cn in E. destruct (orphan _); [|done].
  apply bind_Some in E as (n & _ & E). by injection E as <-.
Qed.
Lemma dupes_two a b k : CaModel.a_ski a = Some k -> CaModel.a_ski b = Some k -> dupes [a; b] = [k].
Proof.
  intros Hka Hkb. assert (same_ski k a = true /\ same_ski k b = true) as [Hsa Hsb]
    by (unfold same_ski; rewrite Hka, Hkb; by split; apply bool_decide_eq_true).
  unfold dupes. cbn [omap list_omap]. rewrite Hka, Hkb. cbn [List.filter]. unfold Table.count, Table.all. cbn [List.filter].
  rewrite Hsa, Hsb. cbn. destruct (decide_rel _ k [k]) as [|Hn]; [|destruct Hn; by apply list_elem_of_singleton].
  destruct (decide_rel _ k []) as [Hn|]; [by apply not_elem_of_nil in Hn|done].
Qed.

(** A self-signed CA that carries the key identifier of an imported CA without a private
    key takes its place once it is imported with its own key: the next run takes the older
    row away and hands its certificates to the newer one. *)
Theorem lookalikes_take_over d a b k
  (Hd : cas d = [a; b]) (Hka : CaModel.a_ski a = Some k) (Hkb : CaModel.a_ski b = Some k)
  (Ha : filled (CaModel.a_caref a) = None) (Hb : filled (CaModel.a_caref b) = None)
  (Haki : forall c x, c = a \/ c = b -> loaded (CaModel.a_crt c) = Some x -> authority_key_id x = None \/ authority_key_id x = Some (Some k))
  (Hpa : has_key a = false) (Hpb : has_key b = true) (Hra : Str.truthy (CaModel.a_refid a) = true) (Hid : CaModel.a_id a < CaModel.a_id b) :
  let d' := (backfill_ski_aki d).1 in
  ids d' = [CaModel.a_id b]
  /\ exists g, certs d' = List.map g (certs d)
       /\ forall c, id (g c) = id c /\ (caref c = Some (CaModel.a_refid a) -> caref (g c) = Some (CaModel.a_refid b)).
Proof.
  cbn zeta. unfold backfill_ski_aki. cbn [fst]. set (d1 := fill d). assert (cas d1 = [a; b]) as Hd1 by (by eapply fill_two).
  assert (forall l c, c = a \/ c = b -> rechain_ca l c = None) as Hno.
  { intros l c Hc. unfold rechain_ca. destruct (negb _); [done|]. destruct (loaded _) as [x|] eqn:Ex; [|done]. cbn [mbind option_bind].
    destruct (Haki c x Hc Ex) as [->| ->]; [done|]. cbn [mbind option_bind]. unfold same_ski.
    by rewrite bool_decide_eq_true_2 by (destruct Hc as [-> | ->]; done). }
  set (l := (pass (rechain_ca (cas d1)) (cas d1)).1). assert (l = [a; b]) as Hl.
  { unfold l, pass. cbn [fst]. rewrite Hd1. cbn. by rewrite (Hno _ a (or_introl eq_refl)), (Hno _ b (or_intror eq_refl)). }
  set (cs := (pass (rechain_cert l) (certs d1)).1).
  assert (rechain d1 = Db [a; b] cs (approvals d1) (crls d1)) as -> by (unfold rechain; fold l cs; by rewrite Hl).
  assert (same_ski k a = true /\ same_ski k b = true) as [Hsa Hsb] by (unfold same_ski; rewrite Hka, Hkb; by split; apply bool_decide_eq_true).
  pose proof (dupes_two a b k Hka Hkb) as Hdup.
  unfold merge. cbn [cas]. rewrite Hdup. cbn [fold_left].
  assert (Table.order_by CaModel.a_id (Table.all (same_ski k) [a; b]) = [a; b]) as Hg.
  { unfold Table.all. cbn [List.filter]. rewrite Hsa, Hsb. cbn. by rewrite (proj2 (Z.leb_le _ _) (Z.lt_le_incl _ _ Hid)). }
  unfold merge_group. cbn [cas]. rewrite Hg.
  assert (keeper_of [a; b] = Some b) as ->.
  { unfold keeper_of, has_parent, orphan. cbn [List.find]. rewrite Ha, Hb, Hpa, Hpb. done. }
  cbn [fold_left]. unfold merge_row. rewrite (proj2 (Z.eqb_neq _ _) (Z.lt_neq _ _ Hid)), Z.eqb_refl.
  set (move := moved _ _). cbn [cas certs]. split.
  - unfold ids, name_certs, Table.delete, Table.update. cbn. rewrite Z.eqb_refl, (proj2 (Z.eqb_neq _ _) (not_eq_sym (Z.lt_neq _ _ Hid))). cbn.
    by rewrite Z.eqb_refl.
  - exists (fun c => let c1 := default c (fill_cert c) in let c2 := default c1 (rechain_cert l c1) in
                     let c3 := with_issuer (move (caref c2)) c2 in default c3 (fill_cn c3)).
    split.
    + unfold name_certs, pass. cbn [certs fst]. unfold cs, d1, fill, pass. cbn [certs fst]. by rewrite !List.map_map.
    + intros c. cbn zeta. set (c1 := default c (fill_cert c)). set (c2 := default c1 _). set (c3 := with_issuer _ c2).
      destruct (fill_cert_keeps c) as [E1 F1]. destruct (rechain_cert_keeps l c1) as [E2 F2]. destruct (fill_cn_keeps c3) as [-> ->].
      fold c1 in E1, F1. fold c2 in E2, F2. split; [cbn; congruence|]. intros Hc. cbn.
      rewrite F2 by (rewrite F1, Hc; cbn; by rewrite Hra). rewrite F1, Hc. unfold move, moved. by rewrite bool_decide_eq_true_2.
Qed.
End Facts.
End RepairFacts.

(** The CA of [ManageFacts] without its key, and a self-signed one with the same identifier. *)
Module RepairRun.
Import CertModel CertRoutes Repair RepairFacts ManageFacts.CertRoutesRun.
Local Open Scope string_scope.
Local Open Scope list_scope.
Local Open Scope Z_scope.
#[local] Existing Instance toy_x509.

Definition crossed : KeyIdentifiers := {|
  subject_key_id _ := None;
  authority_key_id x := if decide (x = ca_x) then Some (Some "KB") else if decide (x = evil_x) then Some (Some "KA") else None;
|}.
Definition plain : KeyIdentifiers := {| subject_key_id _ := None; authority_key_id _ := None |}.
Definition other (i : Z) (refid : string) (caref ski : option string) : CaModel.ca :=
  CaModel.CA i refid "Other CA" (Base64.b64encode evil_pem) (Some (Base64.b64encode "EVIL")) (Some 0) caref
    (Some "CN=Other") (Some "CN=Other") None ski (Some 0) (Some (Time.days 36500)) None None None None false None
    false None false None None.
Definition offline : CaModel.ca := set_ca "Root CA" None None (Some "KA") root.
Definition lookalike : CaModel.ca := other 2 "other" None (Some "KA").
Definition crossing : CaModel.ca := other 2 "other" None (Some "KB").
Definition third : CaModel.ca := other 3 "third" None None.
Definition d_twins : db := Db [offline; lookalike] (certs d1) [] [].
Definition d_crossed : db := Db [offline; crossing; third] (certs d1) [] [].

Lemma sound_witness :
  skis_unique (backfill_ski_aki (H0 := plain) d_twins).1
  /\ List.map caref (certs d_twins) = [Some "root"] /\ List.map caref (certs (backfill_ski_aki (H0 := plain) d_twins).1) = [Some "other"].
Proof.
  split; [|split; vm_compute; reflexivity].
  refine (proj1 (repair_is_sound (H := toy_x509) (H0 := plain) d_twins _ _)).
  - refine (bool_decide_eq_true_1 _ _). vm_compute. reflexivity.
  - intros c r Hc Hr. exists offline. split; [left; reflexivity|].
    assert (List.map (fun c => filled (caref c)) (certs d_twins) = [Some "root"]) as E by (vm_compute; reflexivity).
    apply (in_map (fun c => filled (caref c))) in Hc. rewrite E in Hc. destruct Hc as [Hc|[]]. rewrite Hr in Hc. injection Hc as <-. reflexivity.
Defined.

(** Two orphans that certified each other, and a third CA. *)
Lemma circle_witness :
  CertExport.ca_walk Base64.b64decode 100 (ca_by_refid "root" (backfill_ski_aki (H0 := crossed) d_crossed).1)
    (backfill_ski_aki (H0 := crossed) d_crossed).1 = None.
Proof.
  destruct (repair_closes_circles (H := toy_x509) (H0 := crossed) d_crossed offline crossing "KA" "KB" ca_x evil_x)
    as (a' & b' & Ha & _ & _ & Hb & _ & _ & Hw).
  - refine (bool_decide_eq_true_1 _ _). vm_compute. reflexivity.
  - left. reflexivity.
  - right. left. reflexivity.
  - reflexivity.
  - reflexivity.
  - discriminate.
  - vm_compute. reflexivity.
  - vm_compute. reflexivity.
  - vm_compute. reflexivity.
  - vm_compute. reflexivity.
  - left. reflexivity.
  - left. reflexivity.
  - reflexivity.
  - reflexivity.
  - intros x [<-|[<-|[<-|[]]]] [E|[E|E]]; (discriminate E || split_and!; reflexivity).
  - intros x [<-|[<-|[<-|[]]]] [E|[E|E]]; (discriminate E || split_and!; reflexivity).
  - change "root" with (CaModel.a_refid offline). rewrite Ha. apply Hw.
    + vm_compute in Ha. injection Ha as <-. vm_compute. discriminate.
    + vm_compute in Hb. injection Hb as <-. vm_compute. discriminate.
Defined.

Lemma lookalike_witness : ids (backfill_ski_aki (H0 := plain) d_twins).1 = [2].
Proof.
  refine (proj1 (lookalikes_take_over (H := toy_x509) (H0 := plain) d_twins offline lookalike "KA" _ _ _ _ _ _ _ _ _ _)); try (vm_compute; reflexivity).
  intros c x _ _. left. reflexivity.
Defined.
End RepairRun.
