(* ===== verification/Webhooks.v ===== *)
(** Webhooks: endpoints, matching and signing of [services/webhook_service.py] and the routes
    of [api/v2/webhooks.py].

    What the other side answers is an argument; the requests that were made are a trace.
    Numbers in stored JSON texts are integers. *)
From S2P Require Import Prelude Hashes CertModel CertRoutes JsonText.

Module Webhooks.
Import CertModel CertRoutes.
Local Open Scope string_scope.
Local Open Scope list_scope.
Local Open Scope Z_scope.

Record endpoint := Endpoint {
  w_id : Z; w_name : string; w_url : string; w_secret : option string; w_events : option string; w_ca_filter : option string;
  w_enabled : bool; w_last_success : option Z; w_last_failure : option Z; w_failure_count : Z; w_custom_headers : option string;
  w_created_at : option Z;
}.
(** [json.loads(text) if text else default], the default also for a text that is no JSON. *)
Definition loads_or (dflt : json) (text : option string) : json :=
  match filled text with Some t => default dflt (JsonText.loads t) | None => dflt end.
Definition get_events (e : endpoint) : json := loads_or (JList []) (w_events e).
Definition get_headers (e : endpoint) : json := loads_or (JDict []) (w_custom_headers e).
Definition to_dict (e : endpoint) : json :=
  JDict [("id", JInt (w_id e)); ("name", JStr (w_name e)); ("url", JStr (w_url e)); ("events", get_events e);
         ("ca_filter", text (w_ca_filter e)); ("enabled", JBool (w_enabled e)); ("last_success", moment (w_last_success e));
         ("last_failure", moment (w_last_failure e)); ("failure_count", JInt (w_failure_count e)); ("created_at", moment (w_created_at e))].

Definition ALL_EVENTS : list string :=
  ["certificate.issued"; "certificate.revoked"; "certificate.renewed"; "certificate.expiring"; "ca.created"; "ca.updated";
   "csr.submitted"; "csr.approved"; "csr.rejected"].

(** * Sending *)

Inductive answer :=
| Answered (ok : bool) (status : Z) (body : string)
| RequestError (message : string)                       (* a RequestException *)
| OtherError (message : string).
Record call := Call { c_url : string; c_headers : list (string * json); c_body : string }.
(** Headers carry any letter case; those set last win. *)
Definition set_headers (new old : list (string * json)) : list (string * json) :=
  fold_left (fun kv p => JsonText.set_item p.1 p.2 kv) new old.

Definition succeeded (now : Z) (e : endpoint) : endpoint :=
  Endpoint (w_id e) (w_name e) (w_url e) (w_secret e) (w_events e) (w_ca_filter e) (w_enabled e) (Some now) (w_last_failure e) 0
    (w_custom_headers e) (w_created_at e).
Definition failed (now : Z) (e : endpoint) : endpoint :=
  Endpoint (w_id e) (w_name e) (w_url e) (w_secret e) (w_events e) (w_ca_filter e) (w_enabled e) (w_last_success e) (Some now)
    (w_failure_count e + 1) (w_custom_headers e) (w_created_at e).

Section Send.
Context `{Hashes} (post : call -> answer).

Definition base_headers (event_type : string) : list (string * json) :=
  [("Content-Type", JStr "application/json"); ("User-Agent", JStr "UCM-Webhook/2.0"); ("X-UCM-Event", JStr event_type)].
Definition signed (secret : option string) (body : string) (headers : list (string * json)) : list (string * json) :=
  match filled secret with
  | Some s => JsonText.set_item "X-UCM-Signature" (JStr ("sha256=" ^+ hmac_hex s body)) headers
  | None => headers
  end.
Definition body_of (event_type : string) (payload : json) (now : Z) : string :=
  Json.dumps (JDict [("event", JStr event_type); ("timestamp", JStr (Time.isoformat "T" now)); ("data", payload)]).
(** The request for an endpoint; [None]: its stored headers are no headers. *)
Definition call_for (e : endpoint) (event_type : string) (payload : json) (now : Z) : option call :=
  let body := body_of event_type payload now in
  headers ← match get_headers e with
            | JDict kv => Some (set_headers kv (base_headers event_type))
            | JList [] | JStr "" => Some (base_headers event_type)
            | _ => None
            end;
  Some (Call (w_url e) (signed (w_secret e) body headers) body).
Definition send_webhook (e : endpoint) (event_type : string) (payload : json) (now : Z) : endpoint * list call :=
  match call_for e event_type payload now with
  | None => (e, [])
  | Some c =>
      (match post c with
       | Answered true _ _ => succeeded now e
       | Answered false _ _ | RequestError _ => failed now e
       | OtherError _ => e
       end, [c])
  end.

(** [None]: the stored events are nothing a name could be in. *)
Definition subscribed (event_type : string) (e : endpoint) : option bool :=
  b ← Json.contains event_type (get_events e);
  if (b : bool) then Some true else Json.contains "*" (get_events e).
Definition passes_filter (ca_refid : option string) (e : endpoint) : bool :=
  match filled (w_ca_filter e), filled ca_refid with
  | Some f, Some r => String.eqb f r
  | _, _ => true
  end.
(** [false]: an exception ended the loop. *)
Fixpoint send_loop (event_type : string) (payload : json) (ca_refid : option string) (now : Z) (l : list endpoint)
  : list endpoint * list call * bool :=
  match l with
  | [] => ([], [], true)
  | e :: l =>
      if negb (w_enabled e) then
        let '(l, cs, ok) := send_loop event_type payload ca_refid now l in (e :: l, cs, ok)
      else match subscribed event_type e with
      | None => (e :: l, [], false)
      | Some b =>
          let '(e, c) := if b && passes_filter ca_refid e then send_webhook e event_type payload now else (e, []) in
          let '(l, cs, ok) := send_loop event_type payload ca_refid now l in
          (e :: l, c ++ cs, ok)
      end
  end.
Definition send_event := send_loop.
Definition trigger_cert_issued (cert : json) (ca_refid : option string) (now : Z) (l : list endpoint) : list endpoint * list call * bool :=
  send_event "certificate.issued" (JDict [("certificate", cert)]) ca_refid now l.
Definition trigger_cert_revoked (cert : json) (reason : option string) (ca_refid : option string) (now : Z) (l : list endpoint)
  : list endpoint * list call * bool :=
  send_event "certificate.revoked" (JDict [("certificate", cert); ("reason", text reason)]) ca_refid now l.

Definition get_endpoint (i : Z) (l : list endpoint) : option endpoint := Table.first (fun e => w_id e =? i) l.
(** The outcome of a test; the counters of the endpoint stay, and its own headers are not sent. *)
Definition test_endpoint (i : Z) (now : Z) (l : list endpoint) : list call * (bool * string) :=
  match get_endpoint i l with
  | None => ([], (false, "Endpoint not found"))
  | Some e =>
      let stamp := JStr (Time.isoformat "T" now) in
      let body := body_of "test" (JDict [("message", JStr "This is a test webhook from UCM"); ("endpoint_name", JStr (w_name e));
                                         ("test_timestamp", stamp)]) now in
      let c := Call (w_url e) (signed (w_secret e) body (base_headers "test")) body in
      ([c], match post c with
            | Answered true status _ => (true, "Success: " ^+ Num.str status)
            | Answered false status text => (false, "Failed: " ^+ Num.str status ^+ " " ^+ Str.take 200 text)
            | RequestError m => (false, "Request error: " ^+ m)
            | OtherError m => (false, "Error: " ^+ m)
            end)
  end.
End Send.

(** * Routes *)

Inductive reply := Success (data : json) (message : string) | Failure (code : Z) (message : string) | Absent | Raised.

Definition web_address (url : json) : option bool :=
  match url with JStr s => Some (Str.startswith s "http://" || Str.startswith s "https://") | _ => None end.
Definition list_webhooks (l : list endpoint) : reply := Success (JList (List.map to_dict l)) "".
Definition get_webhook (i : Z) (l : list endpoint) : reply :=
  match get_endpoint i l with Some e => Success (to_dict e) "" | None => Absent end.
Definition create_webhook (request : json) (token : string) (now : Z) (l : list endpoint) : list endpoint * reply :=
  if negb (Json.is_dict request) then (l, Raised)
  else if negb (Json.truthy (Json.get_or "name" JNull request)) then (l, Failure 400 "Webhook name is required")
  else if negb (Json.truthy (Json.get_or "url" JNull request)) then (l, Failure 400 "Webhook URL is required")
  else match web_address (Json.get_or "url" JNull request) with
  | None => (l, Raised)
  | Some false => (l, Failure 400 "URL must start with http:// or https://")
  | Some true =>
      match Json.get_or "events" (Json.strings ["*"]) request with
      | JList events =>
          let headers := Json.get_or "custom_headers" (JDict []) request in
          if Json.truthy headers && negb (Json.is_dict headers) then (l, Failure 400 "Custom headers must be an object")
          else
            let secret := Json.get_or "secret" JNull request in
            match (name ← Json.bind_text (Json.get_or "name" JNull request); url ← Json.bind_text (Json.get_or "url" JNull request);
                   s ← (if Json.truthy secret then column secret else Some (Some token));
                   f ← column (Json.get_or "ca_filter" JNull request);
                   b ← Json.bool_column (Json.get_or "enabled" (JBool true) request);
                   Some (Endpoint (Table.next_id w_id l) name url s (Some (Json.dumps (JList events))) f b None None 0
                           (Some (Json.dumps headers)) (Some now))) with
            | None => (l, Raised)
            | Some e => (l ++ [e], Success (to_dict e) "Webhook created")
            end
      | _ => (l, Failure 400 "Events must be an array")
      end
  end.

(** One member of an update: what is stored, a refusal, or an exception. *)
Inductive member (A : Type) := Keep | Set_ (v : A) | Refuse (message : string) | Break.
Arguments Keep {A}. Arguments Set_ {A}. Arguments Refuse {A}. Arguments Break {A}.
Definition member_of {A} (k : string) (data : json) (f : json -> member A) : member A :=
  match Json.field k data with None => Break | Some None => Keep | Some (Some v) => f v end.
Definition stored {A} (o : option A) : member A := match o with Some v => Set_ v | None => Break end.
Definition new {A} (old : A) (m : member A) : A := match m with Set_ v => v | _ => old end.
Definition blocked {A} (m : member A) : option reply :=
  match m with Refuse message => Some (Failure 400 message) | Break => Some Raised | _ => None end.
Definition or_reply (x y : option reply) : option reply := match x with Some _ => x | None => y end.
Definition update_webhook (i : Z) (request : json) (l : list endpoint) : list endpoint * reply :=
  match get_endpoint i l with
  | None => (l, Absent)
  | Some e =>
      let url := member_of "url" request (fun v => match web_address v with
                   | None => Break | Some false => Refuse "URL must start with http:// or https://" | Some true => stored (Json.bind_text v) end) in
      let events := member_of "events" request (fun v => match v with
                      | JList _ => Set_ (Some (Json.dumps v)) | _ => Refuse "Events must be an array" end) in
      let headers := member_of "custom_headers" request (fun v =>
                       if Json.truthy v && negb (Json.is_dict v) then Refuse "Custom headers must be an object"
                       else Set_ (Some (Json.dumps v))) in
      (* names and texts that no column takes are found when everything is stored *)
      let present k := match Json.field k request with None => true | _ => false end in
      let late := (n ← (match Json.field "name" request with Some (Some v) => Json.bind_text v | _ => Some (w_name e) end);
                   s ← (match Json.field "secret" request with Some (Some v) => column v | _ => Some (w_secret e) end);
                   f ← (match Json.field "ca_filter" request with Some (Some v) => column v | _ => Some (w_ca_filter e) end);
                   b ← (match Json.field "enabled" request with Some (Some v) => Json.bool_column v | _ => Some (w_enabled e) end);
                   Some (n, s, f, b)) in
      if existsb present ["name"; "url"; "secret"; "events"; "ca_filter"; "enabled"; "custom_headers"] then (l, Raised)
      else match or_reply (blocked url) (or_reply (blocked events) (blocked headers)) with
      | Some r => (l, r)
      | None =>
          match late with
          | None => (l, Raised)
          | Some (n, s, f, b) =>
              let e' := Endpoint (w_id e) n (new (w_url e) url) s (new (w_events e) events) f b (w_last_success e) (w_last_failure e)
                          (w_failure_count e) (new (w_custom_headers e) headers) (w_created_at e) in
              (Table.update (fun x => w_id x =? i) (fun _ => e') l, Success (to_dict e') "Webhook updated")
          end
      end
  end.
Definition delete_webhook (i : Z) (l : list endpoint) : list endpoint * reply :=
  match get_endpoint i l with
  | None => (l, Absent)
  | Some _ => (Table.delete (fun x => w_id x =? i) l, Success JNull "Webhook deleted")
  end.
Definition toggled (e : endpoint) : endpoint :=
  Endpoint (w_id e) (w_name e) (w_url e) (w_secret e) (w_events e) (w_ca_filter e) (negb (w_enabled e)) (w_last_success e)
    (w_last_failure e) (w_failure_count e) (w_custom_headers e) (w_created_at e).
Definition toggle_webhook (i : Z) (l : list endpoint) : list endpoint * reply :=
  match get_endpoint i l with
  | None => (l, Absent)
  | Some e => (Table.update (fun x => w_id x =? i) toggled l,
               Success (to_dict (toggled e)) ("Webhook " ^+ (if w_enabled e then "disabled" else "enabled")))
  end.
Definition test_webhook `{Hashes} (post : call -> answer) (i now : Z) (l : list endpoint) : list call * reply :=
  let '(cs, (ok, message)) := test_endpoint post i now l in
  (cs, if ok then Success JNull message else Failure 400 message).
Definition with_secret (s : string) (e : endpoint) : endpoint :=
  Endpoint (w_id e) (w_name e) (w_url e) (Some s) (w_events e) (w_ca_filter e) (w_enabled e) (w_last_success e) (w_last_failure e)
    (w_failure_count e) (w_custom_headers e) (w_created_at e).
Definition regenerate_secret (i : Z) (token : string) (l : list endpoint) : list endpoint * reply :=
  match get_endpoint i l with
  | None => (l, Absent)
  | Some _ => (Table.update (fun x => w_id x =? i) (with_secret token) l,
               Success (JDict [("secret", JStr token)]) "Secret regenerated")
  end.
Definition list_events : list string := ALL_EVENTS.
End Webhooks.

Module WebhooksFacts.
Import CertModel CertRoutes Webhooks.
Local Open Scope string_scope.
Local Open Scope list_scope.
Local Open Scope Z_scope.

Section Facts.
Context `{Hashes} (post : call -> answer).

(** Whom an event is meant for. *)
Definition meant_for (event_type : string) (ca_refid : option string) (e : endpoint) : bool :=
  w_enabled e && (default false (Json.contains event_type (get_events e)) || default false (Json.contains "*" (get_events e)))
  && passes_filter ca_refid e.



End Facts.

Module Run.
Definition ok (c : call) : answer := Answered true 200 "".
Definition request : json :=
  JDict [("name", JStr "ops"); ("url", JStr "https://hooks.example.com/x"); ("events", JList [JStr "certificate.issued"]);
         ("secret", JStr "Jefe"); ("custom_headers", JDict [("X-UCM-Signature", JStr "forged"); ("X-Team", JStr "pki")])].
Definition created : list endpoint := (create_webhook request "token" 0 []).1.
Definition nulls : json :=
  JDict [("name", JStr "ops"); ("url", JStr "https://hooks.example.com/x"); ("custom_headers", JNull)].

Example subscribers_of_created :
  (length (List.filter (meant_for "certificate.issued" None) created), length (List.filter (meant_for "certificate.revoked" None) created)) = (1%nat, 0%nat).
Proof. vm_compute. reflexivity. Qed.

(** The header of the endpoint does not replace the signature. *)
Example signature_stays :
  (let cs := (send_event (H := sha256_hashes) ok "certificate.issued" JNull None 5 created).1.2 in
   List.map (fun c => Json.assoc "X-UCM-Signature" (c_headers c)) cs
   = List.map (fun c => Some (JStr ("sha256=" ^+ Sha256.hmac_hexdigest "Jefe" (c_body c)))) cs /\ length cs = 1%nat).
Proof. vm_compute. split; reflexivity. Qed.

(** Headers given as null are stored, and the endpoint is never called nor counted as failing. *)
Example null_headers_silence :
  let l := (create_webhook nulls "token" 0 []).1 in
  (List.map w_enabled l, send_event (H := sha256_hashes) ok "certificate.issued" JNull None 5 l) = ([true], (l, [], true)).
Proof. vm_compute. reflexivity. Qed.
End Run.
End WebhooksFacts.
