(* ===== verification/WebAuthn.v ===== *)
(** Security keys: [services/webauthn_service.py] with the rows of [models/webauthn.py], their
    routes in [api/v2/webauthn.py] and the login of [api/v2/auth_methods.py].

    What the webauthn library checks and builds is the interface [Authenticators]; random
    challenges are arguments, byte texts.  [hostname] is the Host header of the request.
    Names in requests are texts, numbers or absent. *)
From S2P Require Import Prelude Base64 Hashes Permissions Auth AuditSink Csrf Anomaly Login CertModel CertRoutes JsonText.

Module WebAuthn.
Import CertModel.
Local Open Scope string_scope.
Local Open Scope list_scope.
Local Open Scope Z_scope.

(** * Rows *)

Record credential := Credential {
  c_id : Z; c_user_id : Z; c_credential_id : string; c_public_key : string; c_sign_count : Z; c_name : option string;
  c_aaguid : option string; c_transports : option string; c_backup_eligible : bool; c_backup_device : bool;
  c_user_verified : bool; c_enabled : bool; c_created_at : Z; c_last_used_at : option Z;
}.
Record challenge := Challenge {
  h_id : Z; h_user_id : Z; h_challenge : string; h_type : string; h_created_at : Z; h_expires_at : Z; h_used : bool;
}.
Definition is_valid (now : Z) (h : challenge) : bool := negb (h_used h) && (now <? h_expires_at h).

Record state := State {
  credentials : list credential; challenges : list challenge;
  failures : gmap string Login.tracker;                    (* _WEBAUTHN_FAILED *)
  login : Login.state;                                     (* accounts and session *)
}.
Definition with_credentials l st := State l (challenges st) (failures st) (login st).
Definition with_challenges l st := State (credentials st) l (failures st) (login st).
Definition with_failures m st := State (credentials st) (challenges st) m (login st).
Definition with_login s st := State (credentials st) (challenges st) (failures st) s.

Definition to_dict (c : credential) : option json :=
  ts ← match filled (c_transports c) with Some t => JsonText.loads t | None => Some (JList []) end;
  Some (JDict [("id", JInt (c_id c)); ("user_id", JInt (c_user_id c)); ("credential_id", JStr (Base64.b64encode (c_credential_id c)));
               ("name", text (c_name c)); ("aaguid", text (c_aaguid c)); ("transports", ts);
               ("is_backup_eligible", JBool (c_backup_eligible c)); ("is_backup_device", JBool (c_backup_device c));
               ("user_verified", JBool (c_user_verified c)); ("enabled", JBool (c_enabled c)); ("sign_count", JInt (c_sign_count c));
               ("created_at", moment (Some (c_created_at c))); ("last_used_at", moment (c_last_used_at c))]).

(** * Encodings *)

Fixpoint equals_signs (n : nat) : string := match n with O => "" | S n => String "=" (equals_signs n) end.
Definition base64url_decode (data : string) : option string :=
  let n := (4 - String.length data mod 4)%nat in
  Base64.urlsafe_b64decode (data ^+ (if (n =? 4)%nat then "" else equals_signs n)).
(** [urlsafe_b64encode(data).rstrip('=')] *)
Definition urlsafe (c : ascii) : ascii := if Ascii.eqb c "+" then "-" else if Ascii.eqb c "/" then "_" else c.
Fixpoint urlsafe_text (s : string) : string :=
  match s with
  | String c s => if Ascii.eqb c "=" then "" else String (urlsafe c) (urlsafe_text s)
  | "" => ""
  end.
Definition base64url_encode (data : string) : string := urlsafe_text (Base64.b64encode data).
Definition get_rp_id (hostname : string) : string := default hostname (head (Str.split ":" hostname)).

(** What the library reports of a registration. *)
Record registration := Registration {
  r_credential_id : string; r_public_key : string; r_sign_count : Z; r_aaguid : string; r_backed_up : bool;
}.
Record descriptor := Descriptor { d_id : string; d_transports : option (list string) }.
(** [None] stands for an exception. *)
Class Authenticators := {
  verify_registration_response : json -> string -> string -> string -> option registration;   (* challenge, rp id, origin *)
  verify_authentication_response : json -> string -> string -> string -> string -> Z -> option Z;
      (* challenge, rp id, origin, public key, count that is known: the new count *)
  authenticator_transport : json -> option string;
  registration_options : string -> string -> string -> string -> string -> list descriptor -> option json;
      (* rp id, user id, user name, display name, challenge *)
  authentication_options : string -> string -> list descriptor -> option json;
}.
Definition CHALLENGE_TIMEOUT : Z := Time.minutes 5.

Section Service.
Context `{Authenticators} (error : string).

(** The list of transports of a row, empty where it is no JSON or holds another word;
    [None]: a value that can not be iterated. *)
Definition transports_of (c : credential) : option (list string) :=
  match filled (c_transports c) with
  | None => Some []
  | Some t =>
      match JsonText.loads t with
      | None => Some []
      | Some j => l ← Json.elements j; Some (default [] (mapM authenticator_transport (List.filter Json.truthy l)))
      end
  end.
Definition descriptor_of (c : credential) : option descriptor :=
  ts ← transports_of c; Some (Descriptor (c_credential_id c) (match ts with [] => None | _ => Some ts end)).
Definition enabled_of (uid : Z) (st : state) : list credential :=
  Table.all (fun c => (c_user_id c =? uid) && c_enabled c) (credentials st).

(** ** Challenges *)

Definition stale (uid : Z) (type : string) (now : Z) (h : challenge) : bool :=
  (h_user_id h =? uid) && String.eqb (h_type h) type && (h_used h || (h_expires_at h <? now)).
(** The old ones go and a new one is stored; [None]: the text is there already. *)
Definition new_challenge (uid : Z) (type bytes : string) (now : Z) (st : state) : option state :=
  let kept := Table.delete (stale uid type now) (challenges st) in
  let text := base64url_encode bytes in
  if existsb (fun h => String.eqb (h_challenge h) text) kept then None
  else Some (with_challenges (kept ++ [Challenge (Table.next_id h_id kept) uid text type now (now + CHALLENGE_TIMEOUT) false]) st).
(** The challenge in a response: [json.loads(decode(response.clientDataJSON))['challenge']]. *)
Definition member (k : string) (j : json) : option json := match j with JDict kv => Json.assoc k kv | _ => None end.
Definition as_text (j : json) : option string := match j with JStr s => Some s | _ => None end.
Definition signed_challenge (credential_data : json) : option json :=
  r ← member "response" credential_data; d ← member "clientDataJSON" r; s ← as_text d;
  bytes ← base64url_decode s;
  if Str.utf8_valid 0 0%N 0%N bytes then j ← JsonText.loads bytes; member "challenge" j else None.
(** The row for it: the outer [None] is an exception. *)
Definition challenge_row (value : json) (uid : Z) (type : string) (now : Z) (st : state) : option (option challenge) :=
  let row := match value with
             | JNull => Some None
             | _ => s ← Json.bind_text value;
                    Some (Table.first (fun h => String.eqb (h_challenge h) s && (h_user_id h =? uid) && String.eqb (h_type h) type
                                                && negb (h_used h)) (challenges st))
             end in
  r ← row; Some (match r with Some h => if is_valid now h then Some h else None | None => None end).
Definition spend (h : challenge) (st : state) : state := with_challenges (Table.delete (fun x => h_id x =? h_id h) (challenges st)) st.

(** ** Registration *)

(** [full_name] is a column the rows of [Login] leave out. *)
Definition generate_registration_options (u : Login.account) (full_name : option string) (hostname bytes : string) (now : Z) (st : state)
  : state * option json :=
  match new_challenge (Login.u_id u) "registration" bytes now st with
  | None => (st, None)
  | Some st =>
      (st, exclude ← mapM descriptor_of (enabled_of (Login.u_id u) st);
           registration_options (get_rp_id hostname) (Num.str (Login.u_id u)) (Login.u_username u)
             (default (Login.u_username u) (filled full_name)) bytes exclude)
  end.
Definition new_credential (uid : Z) (data name : json) (v : registration) (now : Z) (st : state) : option credential :=
  r ← member "response" data;
  let transports := Json.get_or "transports" (JList []) r in
  n ← (if Json.truthy name then Json.bind_text name else Some "Security Key");
  if existsb (fun c => String.eqb (c_credential_id c) (r_credential_id v)) (credentials st) then None
  else Some (Credential (Table.next_id c_id (credentials st)) uid (r_credential_id v) (r_public_key v) (r_sign_count v) (Some n)
               (filled (Some (r_aaguid v))) (Some (if Json.truthy transports then Json.dumps transports else "[]"))
               (r_backed_up v) false true true now None).
Definition verify_registration (uid : Z) (data : json) (hostname : string) (name : json) (now : Z) (st : state)
  : state * (credential + string) :=
  let failed := (st, inr ("Registration failed: " ^+ error)) in
  match (c ← signed_challenge data; challenge_row c uid "registration" now st) with
  | None => failed
  | Some None => (st, inr "Invalid or expired challenge")
  | Some (Some h) =>
      match (bytes ← base64url_decode (h_challenge h);
             v ← verify_registration_response data bytes (get_rp_id hostname) ("https://" ^+ hostname);
             new_credential uid data name v now st) with
      | None => failed
      | Some c => (with_credentials (credentials st ++ [c]) (spend h st), inl c)
      end
  end.

(** ** Authentication *)

(** The outer [None] is an exception, the inner one an account without credentials. *)
Definition generate_authentication_options (username hostname bytes : string) (now : Z) (st : state) : state * option (option json) :=
  match Login.by_name username (login st) with
  | None => (st, Some None)
  | Some u =>
      match new_challenge (Login.u_id u) "authentication" bytes now st with
      | None => (st, None)
      | Some st =>
          match enabled_of (Login.u_id u) st with
          | [] => (st, Some None)
          | l => (st, allow ← mapM descriptor_of l; Some <$> authentication_options (get_rp_id hostname) bytes allow)
          end
      end
  end.
Definition used (new_count now : Z) (c : credential) : credential :=
  Credential (c_id c) (c_user_id c) (c_credential_id c) (c_public_key c) (Z.max new_count (c_sign_count c + 1)) (c_name c) (c_aaguid c)
    (c_transports c) (c_backup_eligible c) (c_backup_device c) (c_user_verified c) (c_enabled c) (c_created_at c) (Some now).
(** The text of the failure, or the account. *)
Definition verify_authentication (uid : Z) (data : json) (hostname : string) (now : Z) (st : state)
  : state * (option Login.account + string) :=
  let failed := (st, inr ("Authentication failed: " ^+ error)) in
  match (i ← member "id" data; s ← as_text i; base64url_decode s) with
  | None => failed
  | Some cred_id =>
      match Table.first (fun c => String.eqb (c_credential_id c) cred_id && (c_user_id c =? uid) && c_enabled c) (credentials st) with
      | None => (st, inr "Credential not found")
      | Some c =>
          match (v ← signed_challenge data; challenge_row v uid "authentication" now st) with
          | None => failed
          | Some None => (st, inr "Invalid or expired challenge")
          | Some (Some h) =>
              match (bytes ← base64url_decode (h_challenge h);
                     verify_authentication_response data bytes (get_rp_id hostname) ("https://" ^+ hostname) (c_public_key c) 0) with
              | None => failed
              | Some n =>
                  (with_credentials (Table.update (fun x => c_id x =? c_id c) (used n now) (credentials st)) (spend h st),
                   inl (Login.by_id uid (login st)))
              end
          end
      end
  end.

(** ** Keys of an account *)

Definition get_user_credentials (uid : Z) (st : state) : list credential := Table.all (fun c => c_user_id c =? uid) (credentials st).
Definition by_credential (i : Z) (st : state) : option credential := Table.first (fun c => c_id c =? i) (credentials st).
Definition authorized (c : credential) (uid : Z) (st : state) : bool :=
  (c_user_id c =? uid)
  || match Login.by_id uid (login st) with Some u => String.eqb (Login.u_role u) "admin" | None => false end.
Definition delete_credential (i uid : Z) (st : state) : state * (bool * string) :=
  match by_credential i st with
  | None => (st, (false, "Credential not found"))
  | Some c =>
      if negb (authorized c uid st) then (st, (false, "Not authorized"))
      else (with_credentials (Table.delete (fun x => c_id x =? i) (credentials st)) st, (true, "Credential deleted successfully"))
  end.
Definition set_enabled (b : bool) (c : credential) : credential :=
  Credential (c_id c) (c_user_id c) (c_credential_id c) (c_public_key c) (c_sign_count c) (c_name c) (c_aaguid c) (c_transports c)
    (c_backup_eligible c) (c_backup_device c) (c_user_verified c) b (c_created_at c) (c_last_used_at c).
(** [None]: a value the column does not take. *)
Definition toggle_credential (i uid : Z) (enabled : json) (st : state) : state * option (bool * string) :=
  match by_credential i st with
  | None => (st, Some (false, "Credential not found"))
  | Some c =>
      if negb (authorized c uid st) then (st, Some (false, "Not authorized"))
      else match enabled, Json.bool_column enabled with
      | JNull, _ | _, None => (st, None)
      | _, Some b =>
          (with_credentials (Table.update (fun x => c_id x =? i) (set_enabled b) (credentials st)) st,
           Some (true, "Credential " ^+ (if Json.truthy enabled then "enabled" else "disabled") ^+ " successfully"))
      end
  end.
End Service.

(** * Routes *)

Inductive reply :=
| Success (data : json) (message : string)
| Failure (code : Z) (message : string)
| LoggedIn (user : Login.account) (permissions : list string) (csrf_token : string)
| Raised.

Section Routes.
Context `{Authenticators} `{Hashes} {T} `{AuditSink T} (error secret : string) (py_repr : json -> string).
#[local] Abbreviation py_str := (CertRoutes.py_str py_repr).

Definition list_credentials (me : Z) (st : state) : reply :=
  match mapM to_dict (get_user_credentials me st) with Some l => Success (JList l) "" | None => Raised end.
Definition key_event (action : string) (rid : pyarg) (rname : pyarg) (details : string) : event :=
  Event action (Some "webauthn") rid rname (AStr details) true None.
Definition delete_credential_route (i me : Z) (st : state) (trail : T) : state * T * reply :=
  match delete_credential i me st with
  | (st, (false, m)) => (st, trail, Failure 404 m)
  | (st, (true, m)) =>
      (st, record_event (key_event "webauthn_delete" (AStr (Num.str i)) (AStr ("WebAuthn credential " ^+ Num.str i))
             ("Deleted WebAuthn credential " ^+ Num.str i)) trail, Success JNull m)
  end.
Definition toggle_credential_route (i me : Z) (request : json) (st : state) (trail : T) : state * T * reply :=
  let data := if Json.truthy request then request else JDict [] in
  if negb (Json.is_dict data) then (st, trail, Raised)
  else
    let enabled := Json.get_or "enabled" (JBool true) data in
    match toggle_credential i me enabled st with
    | (st, None) => (st, trail, Raised)
    | (st, Some (false, m)) => (st, trail, Failure 404 m)
    | (st, Some (true, m)) =>
        (st, record_event (key_event "webauthn_toggle" (AStr (Num.str i)) (AStr ("WebAuthn credential " ^+ Num.str i))
               ((if Json.truthy enabled then "Enabled" else "Disabled") ^+ " WebAuthn credential " ^+ Num.str i)) trail,
         Success JNull m)
    end.
Definition registration_options_route (u : Login.account) (full_name : option string) (hostname bytes : string) (now : Z) (st : state)
  : state * reply :=
  match generate_registration_options u full_name hostname bytes now st with
  | (st, Some j) => (st, Success j "")
  | (st, None) => (st, Raised)
  end.
Definition name_arg (j : json) : pyarg :=
  match j with JNull => ANone | JInt z => AInt z | _ => AStr (py_str j) end.
Definition verify_registration_route (me : Z) (request : option json) (hostname : string) (now : Z) (st : state) (trail : T)
  : state * T * reply :=
  match request with
  | Some (JDict kv) =>
      let data := JDict kv in
      let name := Json.get_or "name" (JStr "Security Key") data in
      match verify_registration error me (Json.get_or "credential" (JDict []) data) hostname name now st with
      | (st, inr m) => (st, trail, Failure 400 m)
      | (st, inl c) =>
          (st, record_event (key_event "webauthn_register" (AStr (Num.str (c_id c))) (name_arg name)
                 ("Registered WebAuthn credential: " ^+ py_str name)) trail,
           match to_dict c with Some j => Success j "Credential registered successfully" | None => Raised end)
      end
  | _ => (st, trail, Raised)
  end.

Definition webauthn_start (request : json) (hostname bytes : string) (now : Z) (st : state) : state * reply :=
  let data := if Json.truthy request then request else JDict [] in
  if negb (Json.is_dict data) then (st, Raised)
  else
    let username := Json.get_or "username" JNull data in
    if negb (Json.truthy username) then (st, Failure 400 "Username required")
    else match Json.bind_text username with
    | None => (st, Raised)
    | Some name =>
        match Login.by_name name (login st) with
        | None => (st, Failure 401 "Invalid username")
        | Some u =>
            if negb (Login.u_active u) then (st, Failure 401 "Invalid username")
            else match enabled_of (Login.u_id u) st with
            | [] => (st, Failure 401 "WebAuthn authentication not available")
            | _ =>
                match generate_authentication_options name hostname bytes now st with
                | (st, Some (Some options)) =>
                    (st, if Json.truthy options then Success (JDict [("options", options); ("username", JStr (Login.u_username u))]) ""
                         else Failure 500 "Failed to generate WebAuthn options")
                | (st, _) => (st, Failure 500 "Failed to generate WebAuthn options")
                end
            end
        end
    end.

(** The key of [_WEBAUTHN_FAILED]; [None]: a value that can not be one. *)
Definition failure_key (username : json) : option string :=
  match username with
  | JStr s => Some (String "s" s)
  | JInt z => Some (String "i" (Num.str z))
  | JBool b => Some (if b then "i1" else "i0")
  | _ => None
  end.
Definition opened (u : Login.account) : Login.web_session :=
  Login.WebSession (Auth.Session (Some (Login.u_id u)) (Some (Login.u_username u)) None None None true) (Some "webauthn") None.
Definition webauthn_verify (request : option json) (hostname nonce : string) (now : Z) (st : state) (trail : T) : state * T * reply :=
  match request with
  | None => (st, trail, Raised)
  | Some data =>
      if Json.truthy data && negb (Json.is_dict data) then (st, trail, Raised)
      else
        let username := Json.get_or "username" JNull data in
        let response := Json.get_or "response" JNull data in
        if negb (Json.truthy username && Json.truthy response) then (st, trail, Failure 400 "Username and response required")
        else match (k ← failure_key username; n ← Json.bind_text username; Some (k, n)) with
        | None => (st, trail, Raised)
        | Some (key, name) =>
            let '(m, locked) := Login.check_2fa_lockout key now (failures st) in
            let st := with_failures m st in
            if locked : bool then (st, trail, Failure 429 "Too many failed attempts. Try again later.")
            else match Login.by_name name (login st) with
            | None => (st, trail, Failure 401 "Invalid credentials")
            | Some u =>
                if negb (Login.u_active u) then (st, trail, Failure 401 "Invalid credentials")
                else match verify_authentication error (Login.u_id u) response hostname now st with
                | (st, inl (Some _)) =>
                    let st := with_failures (Login.clear_2fa_failures key (failures st)) st in
                    let st := with_login (Login.with_web (opened u) (Login.update_user (Login.u_id u) (Login.set_login now) (login st))) st in
                    (st, record_event (Login.user_event "login_success" (AInt (Login.u_id u)) (name_arg username)
                           ("WebAuthn login successful for " ^+ py_str username) true (py_str username)) trail,
                     LoggedIn (Login.set_login now u) (Permissions.get_role_permissions (Login.u_role u))
                       (Login.csrf_token secret nonce (Login.u_id u) now))
                | (st, _) =>
                    (with_failures (Login.record_2fa_failure key now (failures st)) st,
                     record_event (Login.user_event "login_failure" (AInt (Login.u_id u)) ANone
                       ("WebAuthn login failed for " ^+ py_str username) false (py_str username)) trail,
                     Failure 401 "WebAuthn verification failed")
                end
            end
        end
  end.
End Routes.
End WebAuthn.

Module WebAuthnFacts.
Import WebAuthn.
Local Open Scope string_scope.
Local Open Scope list_scope.
Local Open Scope Z_scope.

Section Facts.
Context `{Authenticators} `{Hashes} {T} `{AuditSink T} (error secret : string) (py_repr : json -> string).
#[local] Abbreviation webauthn_verify := (webauthn_verify error secret py_repr).

(** * Who vouches for a session *)

(** What an accepted response rests on. *)
Record vouched (u : Login.account) (data : json) (hostname : string) (now : Z) (st : state) (c : credential) (h : challenge) (n : Z) : Prop := {
  v_key : In c (credentials st) /\ c_user_id c = Login.u_id u /\ c_enabled c = true;
  v_challenge : In h (challenges st) /\ h_user_id h = Login.u_id u /\ h_type h = "authentication" /\ h_used h = false /\ now < h_expires_at h;
  v_signed : exists v, signed_challenge data = Some v /\ Json.bind_text v = Some (h_challenge h);
  v_accepted : exists bytes, base64url_decode (h_challenge h) = Some bytes
    /\ verify_authentication_response data bytes (get_rp_id hostname) ("https://" ^+ hostname) (c_public_key c) 0 = Some n;
}.

Lemma challenge_row_Some v uid type now st h : challenge_row v uid type now st = Some (Some h) ->
  In h (challenges st) /\ h_user_id h = uid /\ h_type h = type /\ is_valid now h = true /\ Json.bind_text v = Some (h_challenge h).
Proof.
  unfold challenge_row. intros (r & Hr & E)%bind_Some. destruct r as [x|]; [|done].
  destruct (is_valid now x) eqn:Ev; [|done]. injection E as ->.
  assert (exists s, Json.bind_text v = Some s /\ Table.first (fun h => String.eqb (h_challenge h) s && (h_user_id h =? uid) && String.eqb (h_type h) type
    && negb (h_used h)) (challenges st) = Some h) as (s & Es & Hf).
  { destruct v; [done|..]; (apply bind_Some in Hr as (t & Ht & [= Hr]); by exists t). }
  apply Table.first_Some in Hf as [Hin [[[Hc%String.eqb_eq Hu%Z.eqb_eq]%andb_true_iff Ht%String.eqb_eq]%andb_true_iff _]%andb_true_iff].
  rewrite Es, Hc. by split_and!.
Qed.

Lemma verify_inv uid data hostname now st st' a : verify_authentication error uid data hostname now st = (st', inl a) ->
  exists c h n, (forall u, Login.u_id u = uid -> vouched u data hostname now st c h n)
    /\ st' = with_credentials (Table.update (fun x => c_id x =? c_id c) (used n now) (credentials st)) (spend h st)
    /\ a = Login.by_id uid (login st).
Proof.
  unfold verify_authentication. destruct (i ← member "id" data; _) as [cred_id|]; [|done].
  destruct (Table.first _ (credentials st)) as [c|] eqn:Ec; [|done].
  destruct (v ← signed_challenge data; _) as [[h|]|] eqn:Eh; [|done..].
  destruct (bytes ← base64url_decode (h_challenge h); _) as [n|] eqn:En; [|done]. intros [= <- <-]. exists c, h, n. split; [|done].
  intros u Hu. apply Table.first_Some in Ec as [Hc [[_ Hcu%Z.eqb_eq]%andb_true_iff Hce]%andb_true_iff].
  apply bind_Some in Eh as (v & Hv & (Hh & Hhu & Ht & [Hused%negb_true_iff Htime%Z.ltb_lt]%andb_true_iff & Hb)%challenge_row_Some).
  apply bind_Some in En as (bytes & Hby & Hver). split.
  - by rewrite Hu.
  - by rewrite Hu.
  - by exists v.
  - by exists bytes.
Qed.

Lemma verify_authentication_keeps uid data hostname now st st' r : verify_authentication error uid data hostname now st = (st', r) ->
  (st' = st \/ exists c h n, st' = with_credentials (Table.update (fun x => c_id x =? c_id c) (used n now) (credentials st)) (spend h st)).
Proof.
  unfold verify_authentication. destruct (i ← member "id" data; _); [|intros [= <- _]; by left].
  destruct (Table.first _ (credentials st)) as [c|]; [|intros [= <- _]; by left].
  destruct (v ← signed_challenge data; _) as [[h|]|]; [|intros [= <- _]; by left..].
  destruct (bytes ← base64url_decode (h_challenge h); _) as [n|]; [|intros [= <- _]; by left].
  intros [= <- _]. right. by exists c, h, n.
Qed.
(** A login of [u] by [data]. *)
Record logged_in (q : option json) (hostname : string) (now : Z) (st : state) (u : Login.account) (c : credential) (h : challenge) (n : Z) : Prop := {
  l_account : exists data key name, q = Some data /\ failure_key (Json.get_or "username" JNull data) = Some key
    /\ Json.bind_text (Json.get_or "username" JNull data) = Some name
    /\ (forall e t, failures st !! key = Some e -> Login.t_locked_until e = Some t -> t <= now)
    /\ Login.by_name name (login st) = Some u /\ Login.u_active u = true
    /\ vouched u (Json.get_or "response" JNull data) hostname now st c h n;
}.
Lemma webauthn_verify_inv q hostname nonce now st (trail : T) st' t' r :
  webauthn_verify q hostname nonce now st trail = (st', t', r) ->
  (Login.web (login st') = Login.web (login st) /\ (forall u ps tok, r <> LoggedIn u ps tok)
     /\ (challenges st' = challenges st \/ exists h, challenges st' = challenges (spend h st)))
  \/ exists u c h n, logged_in q hostname now st u c h n /\ (exists ps tok, r = LoggedIn (Login.set_login now u) ps tok)
       /\ Login.web (login st') = opened u /\ challenges st' = challenges (spend h st)
       /\ credentials st' = Table.update (fun x => c_id x =? c_id c) (used n now) (credentials st).
Proof.
  unfold WebAuthn.webauthn_verify. destruct q as [data|]; [|intros [= <- _ <-]; left; by eauto].
  destruct (_ && _); [intros [= <- _ <-]; left; by eauto|].
  cbv zeta. destruct (negb _); [intros [= <- _ <-]; left; by eauto|].
  destruct (failure_key _) as [key|] eqn:Ek; [|intros [= <- _ <-]; left; by eauto]. cbn [mbind option_bind].
  destruct (Json.bind_text _) as [name|] eqn:En; [|intros [= <- _ <-]; left; by eauto]. cbn [mbind option_bind].
  destruct (Login.check_2fa_lockout key now (failures st)) as [m b] eqn:El. destruct b; [intros [= <- _ <-]; left; by eauto|].
  change (login (with_failures m st)) with (login st).
  destruct (Login.by_name name (login st)) as [u|] eqn:Eu; [|intros [= <- _ <-]; left; by eauto].
  destruct (Login.u_active u) eqn:Ea; cbn [negb]; [|intros [= <- _ <-]; left; by eauto].
  destruct (verify_authentication _ _ _ _ _ _) as [st1 [a|msg]] eqn:Ev.
  2: { apply verify_authentication_keeps in Ev as [->|(c & h & n & ->)]; intros [= <- _ <-]; left; (split_and!; [done|done|]); by eauto. }
  apply verify_inv in Ev as (c & h & n & Hv & -> & ->).
  destruct (Login.by_id _ _); intros [= <- _ <-]; [|left; split_and!; [done|done|by eauto]].
  right. exists u, c, h, n. split_and!; [|by do 2 eexists|done..]. split. exists data, key, name. split_and!; try done.
  { intros e t He Ht. unfold Login.check_2fa_lockout in El. rewrite He, Ht in El. destruct (Z.ltb_spec now t); [by injection El|done]. }
  destruct (Hv u eq_refl) as [V1 V2 V3 V4]. by split.
Qed.

(** C37: The session changes only by a request that names an active account, when the library
    accepts, for an enabled key of that account, a response that signs a challenge of the
    account: one drawn for a login, not used and not expired.  The name as it was sent is
    not shut out then by failed key responses recorded under it; the lock that
    failed passwords put on the account itself is not looked at.  The session becomes that of the account, and the challenge is gone. *)
Theorem key_sessions_are_vouched q hostname nonce now st (trail : T) :
  let '(st', _, _) := webauthn_verify q hostname nonce now st trail in
  Login.web (login st') <> Login.web (login st) ->
  exists u c h n, logged_in q hostname now st u c h n /\ Login.web (login st') = opened u /\ ~ In h (challenges st').
Proof.
  destruct (webauthn_verify _ _ _ _ _ _) as [[st' t'] r] eqn:E. intros Hne.
  apply webauthn_verify_inv in E as [(He & _)|(u & c & h & n & Hl & _ & Hw & Hc & _)]; [done|]. exists u, c, h, n. split_and!; [done|done|].
  rewrite Hc. cbn. intros [_ Hd]%Table.In_delete. by rewrite Z.eqb_refl in Hd.
Qed.

(** * Challenges are used once *)

Definition texts (st : state) : list string := List.map h_challenge (challenges st).

Lemma new_challenge_inv uid type bytes now st st' : new_challenge uid type bytes now st = Some st' ->
  credentials st' = credentials st /\ login st' = login st /\ failures st' = failures st
  /\ exists kept h, challenges st' = kept ++ [h] /\ kept = Table.delete (stale uid type now) (challenges st)
       /\ h_challenge h = base64url_encode bytes /\ ~ In (base64url_encode bytes) (List.map h_challenge kept).
Proof.
  unfold new_challenge. destruct (existsb _ _) eqn:E; [done|]. intros [= <-]. split_and!; try done. do 2 eexists. split_and!; [reflexivity..|].
  intros (h & Hh & Hin)%in_map_iff. apply not_true_iff_false in E. apply E, existsb_exists. exists h. split; [done|]. by apply String.eqb_eq.
Qed.

Lemma verify_registration_keeps uid data hostname name now st st' r : verify_registration error uid data hostname name now st = (st', r) ->
  st' = st /\ (exists m, r = inr m)
  \/ exists c h, c_user_id c = uid /\ st' = with_credentials (credentials st ++ [c]) (spend h st) /\ r = inl c.
Proof.
  unfold verify_registration. destruct (c ← signed_challenge data; _) as [[h|]|]; [|intros [= <- <-]; left; by eauto..].
  destruct (bytes ← base64url_decode (h_challenge h); _) as [c|] eqn:E; [|intros [= <- <-]; left; by eauto].
  intros [= <- <-]. right. exists c, h. split; [|done].
  apply bind_Some in E as (? & _ & (v & _ & E)%bind_Some). unfold new_credential in E.
  apply bind_Some in E as (? & _ & (? & _ & E)%bind_Some). destruct (existsb _ _); [done|]. by injection E as <-.
Qed.

(** The requests of these routes, and whatever other routes do to accounts and session. *)
Inductive step (st : state) : list string -> state -> Prop :=
| Options u full_name hostname bytes now : step st [base64url_encode bytes] (registration_options_route u full_name hostname bytes now st).1
| Start q hostname bytes now : step st [base64url_encode bytes] (webauthn_start q hostname bytes now st).1
| Register me q hostname now (t : T) : step st [] (verify_registration_route error py_repr me q hostname now st t).1.1
| Verify q hostname nonce now (t : T) : step st [] (webauthn_verify q hostname nonce now st t).1.1
| Delete i me (t : T) : step st [] (delete_credential_route i me st t).1.1
| Toggle i me q (t : T) : step st [] (toggle_credential_route i me q st t).1.1
| Others l : step st [] (with_login l st).
(** A run, with the challenges that were drawn on the way. *)
Inductive run (st : state) : list string -> state -> Prop :=
| Stop : run st [] st
| Next drawn drawn' st1 st2 : step st drawn st1 -> run st1 drawn' st2 -> run st (drawn ++ drawn') st2.

Lemma verify_challenges q hostname nonce now st (t : T) x : In x (challenges (webauthn_verify q hostname nonce now st t).1.1) -> In x (challenges st).
Proof.
  destruct (webauthn_verify _ _ _ _ _ _) as [[st' t'] r] eqn:E. cbn [fst].
  apply webauthn_verify_inv in E as [(_ & _ & [-> |(h & ->)])|(u & c & h & n & _ & _ & _ & -> & _)]; [done|by intros [? _]%Table.In_delete..].
Qed.

Lemma step_challenges st drawn st' x : step st drawn st' -> In x (challenges st') -> In x (challenges st) \/ In (h_challenge x) drawn.
Proof.
  assert (forall uid type bytes now s, new_challenge uid type bytes now st = Some s -> In x (challenges s) ->
    In x (challenges st) \/ In (h_challenge x) [base64url_encode bytes]) as Hnew.
  { intros uid type bytes now s (_ & _ & _ & kept & h & -> & -> & Hh & _)%new_challenge_inv.
    intros [[? _]%Table.In_delete|[<-|[]]]%in_app_iff; [by left|]. right. left. done. }
  intros [u f hn bytes now|q hn bytes now|me q hn now t|q hn nonce now t|i me t|i me q t|l].
  - unfold registration_options_route, generate_registration_options. destruct (new_challenge _ _ _ _ _) as [s|] eqn:E; [|by left].
    intros Hx. eapply Hnew; [exact E|]. revert Hx. by destruct (exclude ← _; _).
  - unfold webauthn_start. destruct (negb _); [by left|]. cbv zeta. destruct (negb _); [by left|]. destruct (Json.bind_text _) as [n|]; [|by left].
    destruct (Login.by_name n (login st)) as [u|] eqn:Eu; [|by left]. destruct (negb _); [by left|]. destruct (enabled_of _ st); [by left|].
    unfold generate_authentication_options. rewrite Eu. destruct (new_challenge _ _ _ _ _) as [s|] eqn:E; [|by left].
    intros Hx. eapply Hnew; [exact E|]. revert Hx. destruct (enabled_of _ s); [done|]. by destruct (_ ≫= _) as [[]|].
  - unfold verify_registration_route. destruct q as [[]|]; try by left. cbv zeta.
    destruct (verify_registration _ _ _ _ _ _ _) as [s r] eqn:E. apply verify_registration_keeps in E as [[-> [m ->]]|(c & h & _ & -> & ->)]; [by left|].
    cbn. intros [? _]%Table.In_delete. by left.
  - intros Hx%verify_challenges. by left.
  - unfold delete_credential_route, delete_credential. destruct (by_credential i st); [|by left]. destruct (negb _); by left.
  - unfold toggle_credential_route. destruct (negb _); [by left|]. cbv zeta. unfold toggle_credential.
    destruct (by_credential i st); [|by left]. destruct (negb _); [by left|].
    generalize (Json.get_or "enabled" (JBool true) (if Json.truthy q then q else JDict [])). intros j. destruct j as [|[]|z| | |]; cbn [Json.bool_column]; try by left. destruct (z =? 0); [by left|]. destruct (z =? 1); by left.
  - by left.
Qed.
Lemma run_challenges st drawn st' s : run st drawn st' -> ~ In s (texts st) -> ~ In s drawn -> ~ In s (texts st').
Proof.
  intros Hr. induction Hr as [|st drawn drawn' st1 st2 Hs _ IH]; [done|]. intros Hst Hd. rewrite in_app_iff in Hd.
  apply IH; [|tauto]. intros (x & <- & Hx)%in_map_iff. destruct (step_challenges _ _ _ _ Hs Hx) as [Hin|?]; [|tauto].
  apply Hst. by apply in_map.
Qed.

(** C38: A response that logged somebody in is of no use again: whatever requests come after it,
    and whoever is named in it, a response that signs the same challenge is refused as long
    as the same challenge is not drawn again. *)
Theorem responses_are_used_once data hostname nonce now st (trail : T) st1 trail1 u ps tok
    drawn st2 data' hostname' nonce' now' (trail' : T) text v v'
  (Hun : NoDup (texts st))
  (Hin : webauthn_verify (Some data) hostname nonce now st trail = (st1, trail1, LoggedIn u ps tok))
  (Hv : signed_challenge (Json.get_or "response" JNull data) = Some v) (Ht : Json.bind_text v = Some text)
  (Hrun : run st1 drawn st2) (Hd : ~ In text drawn)
  (Hv' : signed_challenge (Json.get_or "response" JNull data') = Some v') (Ht' : Json.bind_text v' = Some text) :
  let '(st3, _, r) := webauthn_verify (Some data') hostname' nonce' now' st2 trail' in
  Login.web (login st3) = Login.web (login st2) /\ forall u' ps' tok', r <> LoggedIn u' ps' tok'.
Proof.
  apply webauthn_verify_inv in Hin as [(_ & Hno & _)|(u0 & c & h & n & [(d & key & name & [= <-] & _ & _ & _ & _ & _ & [_ Vc Vs _])] & _ & _ & Hc & _)].
  { by destruct (Hno u ps tok). }
  assert (h_challenge h = text) as Hh by (destruct Vs as (v0 & Hv0 & Hb0); congruence).
  assert (~ In text (texts st1)) as Hgone.
  { unfold texts. rewrite Hc. cbn. intros (x & Hx & [Hxin Hne]%Table.In_delete)%in_map_iff.
    assert (x = h) as -> by (apply (Table.NoDup_map_eq h_challenge (challenges st)); [exact Hun|done|by destruct Vc|congruence]).
    by rewrite Z.eqb_refl in Hne. }
  pose proof (run_challenges _ _ _ _ Hrun Hgone Hd) as Hno.
  destruct (webauthn_verify (Some data') hostname' nonce' now' st2 trail') as [[st3 t3] r] eqn:E.
  apply webauthn_verify_inv in E as [(? & ? & _)|(u' & c' & h' & n' & [(d & k & nm & [= <-] & _ & _ & _ & _ & _ & [_ Vc' (v0 & Hv0 & Hb0) _])] & _)]; [done|].
  exfalso. apply Hno. assert (h_challenge h' = text) as <- by congruence. apply in_map. by destruct Vc'.
Qed.

(** * What the checks leave out *)

Definition recount (f : credential -> Z) (c : credential) : credential :=
  Credential (c_id c) (c_user_id c) (c_credential_id c) (c_public_key c) (f c) (c_name c) (c_aaguid c) (c_transports c) (c_backup_eligible c)
    (c_backup_device c) (c_user_verified c) (c_enabled c) (c_created_at c) (c_last_used_at c).
Lemma first_recounted {A} (p : A -> bool) (g : A -> A) l : (forall x, p (g x) = p x) -> Table.first p (List.map g l) = g <$> Table.first p l.
Proof. intros Hp. unfold Table.first. induction l as [|x l IH]; [done|]. cbn. rewrite Hp. by destruct (p x). Qed.

(** The counter of a key protects nobody against a copy of the key: whatever counts are
    stored, a response is answered the same. *)
Theorem counters_are_ignored f q hostname nonce now st (trail : T) :
  (webauthn_verify q hostname nonce now (with_credentials (List.map (recount f) (credentials st)) st) trail).2
  = (webauthn_verify q hostname nonce now st trail).2.
Proof.
  unfold WebAuthn.webauthn_verify. destruct q as [data|]; [|done]. destruct (_ && _); [done|]. cbv zeta. destruct (negb _); [done|].
  destruct (k ← failure_key _; _) as [[key name]|]; [|done]. cbn [failures login with_credentials with_failures].
  destruct (Login.check_2fa_lockout _ _ _) as [m b]. destruct b; [done|].
  destruct (Login.by_name _ _) as [u|]; [|done]. destruct (negb _); [done|]. unfold verify_authentication.
  destruct (i ← member "id" _; _) as [cred_id|]; [|done]. cbn [credentials with_credentials with_failures]. rewrite first_recounted by done.
  destruct (Table.first _ (credentials st)) as [c|]; [|done]. cbn [fmap option_fmap option_map].
  unfold challenge_row. cbn [challenges with_credentials with_failures].
  destruct (v ← signed_challenge _; _) as [[h|]|]; [|done..]. cbn [c_public_key recount].
  destruct (bytes ← base64url_decode (h_challenge h); _); [|done]. cbn [login with_credentials with_failures spend with_challenges].
  by destruct (Login.by_id _ _).
Qed.

(** * Whose keys a request changes *)

Lemma all_update_other (p q : credential -> bool) (f : credential -> credential) l :
  (forall x, p (f x) = p x) -> (forall x, In x l -> q x = true -> p x = false) -> Table.all p (Table.update q f l) = Table.all p l.
Proof.
  intros Hf Hd. unfold Table.all, Table.update. induction l as [|x l IH]; [done|]. cbn. rewrite IH by (intros; apply Hd; [by right|done]).
  destruct (q x) eqn:Eq; [|done]. rewrite Hf, (Hd x); [done|by left|done].
Qed.
Lemma all_delete_other (p q : credential -> bool) l :
  (forall x, In x l -> q x = true -> p x = false) -> Table.all p (Table.delete q l) = Table.all p l.
Proof.
  intros Hd. unfold Table.all, Table.delete. induction l as [|x l IH]; [done|]. cbn.
  rewrite <-IH by (intros; apply Hd; [by right|done]). destruct (q x) eqn:Eq; cbn; [rewrite (Hd x); [done|by left|done]|done].
Qed.

(** An account without the role admin adds, removes and switches its own keys only. *)
Theorem keys_stay_with_their_owners me i q request hostname now st (trail : T)
  (Hids : NoDup (List.map c_id (credentials st)))
  (Hme : forall u, Login.by_id me (login st) = Some u -> Login.u_role u <> "admin") :
  let others st := Table.all (fun c => negb (c_user_id c =? me)) (credentials st) in
  others (delete_credential_route i me st trail).1.1 = others st
  /\ others (toggle_credential_route i me q st trail).1.1 = others st
  /\ others (verify_registration_route error py_repr me request hostname now st trail).1.1 = others st.
Proof.
  cbn zeta.
  assert (forall c, by_credential i st = Some c -> authorized c me st = true ->
    forall x, In x (credentials st) -> (c_id x =? i) = true -> negb (c_user_id x =? me) = false) as Hown.
  { intros c [Hc Hi%Z.eqb_eq]%Table.first_Some Ha x Hx Hxi%Z.eqb_eq.
    assert (x = c) as -> by (apply (Table.NoDup_map_eq c_id (credentials st)); [done|done|done|congruence]).
    unfold authorized in Ha. destruct (c_user_id c =? me); [done|]. cbn [orb] in Ha.
    destruct (Login.by_id me (login st)) as [u|]; [|done]. apply String.eqb_eq in Ha. by destruct (Hme u eq_refl). }
  split_and!.
  - unfold delete_credential_route, delete_credential. destruct (by_credential i st) as [c|] eqn:Ec; [|done].
    destruct (authorized c me st) eqn:Ea; cbn [negb]; [|done]. apply all_delete_other. by eapply Hown.
  - unfold toggle_credential_route. destruct (negb _); [done|]. cbv zeta. unfold toggle_credential.
    destruct (by_credential i st) as [c|] eqn:Ec; [|done]. destruct (authorized c me st) eqn:Ea; cbn [negb]; [|done].
    generalize (Json.get_or "enabled" (JBool true) (if Json.truthy q then q else JDict [])). intros j.
    destruct j as [|[]|z| | |]; cbn [Json.bool_column]; try done; [| |destruct (z =? 0); [|destruct (z =? 1); [|done]]];
      (apply all_update_other; [done|]; by eapply Hown).
  - unfold verify_registration_route. destruct request as [[]|]; try done. cbv zeta.
    destruct (verify_registration _ _ _ _ _ _ _) as [s r] eqn:E. apply verify_registration_keeps in E as [[-> [m ->]]|(c & h & Hc & -> & ->)]; [done|].
    cbn [fst credentials with_credentials]. unfold Table.all. rewrite List.filter_app. cbn. by rewrite Hc, Z.eqb_refl, app_nil_r.
Qed.
End Facts.
End WebAuthnFacts.

(** One account with one key, from the start of a login to its replay. *)
Module WebAuthnRun.
Import WebAuthn WebAuthnFacts.
Local Open Scope string_scope.
Local Open Scope list_scope.
Local Open Scope Z_scope.

(** The signature is the key, and the client data name the origin. *)
#[local] Instance toy : Authenticators := {|
  verify_registration_response _ _ _ _ := Some (Registration "NEW" "KEY2" 0 "" true);
  verify_authentication_response data _ _ _ key _ :=
    r ← member "response" data; s ← member "signature" r; if Json.eqb s (JStr key) then Some 0 else None;
  authenticator_transport j := as_text j;
  registration_options _ _ _ _ _ _ := Some (JDict [("challenge", JStr "c")]);
  authentication_options _ _ _ := Some (JDict [("challenge", JStr "c")]);
|}.
#[local] Existing Instance sha256_hashes.
#[local] Existing Instance list_sink.
Definition repr (j : json) : string := "".
Definition account (i : Z) (name role : string) : Login.account :=
  Login.Account i name (name ^+ "@example.com") role true "" None false None false None None None None None None.
Definition key (i owner : Z) (name : string) : credential :=
  Credential i owner name ("KEY " ^+ name) 7 (Some name) None (Some "[]") false false true true 0 None.
Definition s0 : state :=
  State [key 1 1 "bob"; key 2 2 "eve"] [] ∅ (Login.State [account 1 "bob" "viewer"; account 2 "eve" "viewer"] ∅ Login.cleared Anomaly.empty_cache).
Definition hostname := "ucm.example.com:8443".
Definition bytes := "0123456789abcdef".
Definition ask : json := JDict [("username", JStr "bob")].
Definition s1 : state := (webauthn_start ask hostname bytes 0 s0).1.
Definition client_data (challenge_text : string) : string := base64url_encode (Json.dumps (JDict [("challenge", JStr challenge_text)])).
Definition answer (signature : string) : json :=
  JDict [("username", JStr "bob");
         ("response", JDict [("id", JStr (base64url_encode "bob"));
                             ("response", JDict [("clientDataJSON", JStr (client_data (base64url_encode bytes))); ("signature", JStr signature)])])].
Definition good : json := answer "KEY bob".
Definition verify (data : json) (now : Z) (st : state) : state * list string * reply :=
  webauthn_verify "error" "k" repr (Some data) hostname "nonce" now st [].
Definition s2 : state := (verify good 5 s1).1.1.

Example decoded_client_data : signed_challenge (Json.get_or "response" JNull good) = Some (JStr (base64url_encode bytes)).
Proof. vm_compute. reflexivity. Qed.
(** The login works, a wrong signature and a late answer do not, and the count that is
    stored goes up although the key reports 0. *)
Example key_logins :
  List.map (fun d => Login.w_auth_method (Login.web (login (verify d.1 d.2 s1).1.1)))
    [(good, 5); (answer "KEY eve", 5); (good, Time.minutes 5)] = [Some "webauthn"; None; None]
  /\ List.map c_sign_count (credentials s2) = [8; 7] /\ challenges s2 = [].
Proof. vm_compute. split_and!; reflexivity. Qed.

Lemma key_vouched_witness : exists u c h n, logged_in (Some good) hostname 5 s1 u c h n.
Proof.
  pose proof (key_sessions_are_vouched "error" "k" repr (Some good) hostname "nonce" 5 s1 ([] : list string)) as Hs.
  change (webauthn_verify _ _ _ _ _ _ _ _ _) with (verify good 5 s1) in Hs.
  assert (Login.w_auth_method (Login.web (login (verify good 5 s1).1.1)) = Some "webauthn") as Hw by (vm_compute; reflexivity).
  destruct (verify good 5 s1) as [[st t] r]. cbn [fst] in Hw.
  destruct Hs as (u & c & h & n & Hl & _); [|exists u, c, h, n; exact Hl].
  intros E. rewrite E in Hw. discriminate Hw.
Defined.

Lemma used_once_witness : match (verify good 6 s2).2 with LoggedIn _ _ _ => False | _ => True end.
Proof.
  destruct (verify good 5 s1) as [[st1 t1] r1] eqn:E1. unfold s2. rewrite E1. cbn [fst].
  assert (exists u ps tok, r1 = LoggedIn u ps tok) as (u & ps & tok & ->).
  { apply (f_equal snd) in E1. cbn [snd] in E1. destruct r1; try (vm_compute in E1; discriminate E1). by do 3 eexists. }
  pose proof (responses_are_used_once "error" "k" repr good hostname "nonce" 5 s1 ([] : list string) st1 t1 u ps tok [] st1
    good hostname "nonce" 6 ([] : list string) (base64url_encode bytes) (JStr (base64url_encode bytes)) (JStr (base64url_encode bytes))) as Hr.
  unfold verify. destruct (webauthn_verify _ _ _ _ _ _ 6 _ _) as [[st3 t3] r3]. cbn [snd].
  assert (forall u' ps' tok', r3 <> LoggedIn u' ps' tok') as Hno;
    [refine (proj2 (Hr _ E1 decoded_client_data eq_refl (Stop _ _ _ _) _ decoded_client_data eq_refl))
    | destruct r3; try exact I; exact (Hno _ _ _ eq_refl)].
  - refine (bool_decide_eq_true_1 _ _). vm_compute. reflexivity.
  - intros [].
Defined.

Lemma owners_witness :
  credentials (delete_credential_route 1 2 s0 ([] : list string)).1.1 = credentials s0
  /\ Table.all (fun c => negb (c_user_id c =? 2)) (credentials (delete_credential_route 2 2 s0 ([] : list string)).1.1) = [key 1 1 "bob"].
Proof.
  split; [vm_compute; reflexivity|].
  refine (proj1 (keys_stay_with_their_owners "error" repr 2 2 JNull None hostname 0 s0 ([] : list string) _ _)).
  - refine (bool_decide_eq_true_1 _ _). vm_compute. reflexivity.
  - intros u Hu. vm_compute in Hu. injection Hu as <-. discriminate.
Defined.
End WebAuthnRun.
