(* ===== verification/AcmeProxy.v ===== *)
(** The ACME proxy: [services/acme/acme_proxy_service.py] and its endpoints in
    [api/acme/acme_proxy_api.py].

    The upstream server answers a request after the requests that were sent before it; the
    trace of these requests is part of the state, as is the trace of DNS changes.  Keys and
    signatures of the upstream account, the DNS providers, the parsers of requests and
    certificates, and the import of a certificate are arguments.  The operations behind the
    handlers without a route ([get_authz], [get_order], [finalize_order], with the request as
    base64 DER, and [get_certificate]) are there; no endpoint reaches them.  A state holds what was
    committed; [directory] is the member of the service object of the current request. *)
From S2P Require Import Prelude Base64 Hashes LocalDomains Acme AcmeApi CertModel JsonText WebAuthn.

Module AcmeProxy.
Import CertModel.
Local Open Scope string_scope.
Local Open Scope list_scope.
Local Open Scope Z_scope.

(** * State *)

(** [AcmeClientOrder], as far as the proxy writes it. *)
Record order := Order {
  o_id : Z; o_domains : string; o_environment : string; o_status : string; o_upstream_order_url : string;
  o_authz_urls : option string; o_is_proxy : bool; o_provider : option Z; o_certificate : option Z;
  o_records : option string; o_created_at : Z;
}.
Record provider := Provider { p_id : Z; p_type : string; p_credentials : option string }.
(** Requests to the upstream server and its answers. *)
Inductive call := Get (url : string) | Head (url : string) | Post (url : string) (data : json).
Record answer := Answer {
  status : Z; body : option json; location : option string; replay_nonce : option string; link : option string;
  content : string; content_type : option string;
}.
Inductive dns_change := Created (provider : Z) (domain name value : string) | Deleted (provider : Z) (domain name : string).

Record world := World {
  config : list (string * option string); orders : list order; domains : list (string * Z); providers : list provider;
  acme : Acme.state; directory : option json; sent : list call; dns : list dns_change;
}.
Definition with_config l w := World l (orders w) (domains w) (providers w) (acme w) (directory w) (sent w) (dns w).
Definition with_orders l w := World (config w) l (domains w) (providers w) (acme w) (directory w) (sent w) (dns w).
Definition with_acme s w := World (config w) (orders w) (domains w) (providers w) s (directory w) (sent w) (dns w).
Definition with_directory d w := World (config w) (orders w) (domains w) (providers w) (acme w) d (sent w) (dns w).
Definition with_sent l w := World (config w) (orders w) (domains w) (providers w) (acme w) (directory w) l (dns w).
Definition with_dns l w := World (config w) (orders w) (domains w) (providers w) (acme w) (directory w) (sent w) l.

(** * Computations that may raise *)

Definition M (A : Type) : Type := world -> world * option A.
Definition ret {A} (x : A) : M A := fun w => (w, Some x).
Definition raise {A} : M A := fun w => (w, None).
Definition bind {A B} (m : M A) (f : A -> M B) : M B :=
  fun w => match m w with (w, Some x) => f x w | (w, None) => (w, None) end.
Definition lift {A} (o : option A) : M A := fun w => (w, o).
Definition read : M world := fun w => (w, Some w).
Definition change (f : world -> world) : M unit := fun w => (f w, Some tt).
#[local] Notation "'let*' x := m 'in' k" := (bind m (fun x => k)) (at level 10, x pattern, m at level 100, k at level 200).
Definition check (b : bool) : M unit := if b then ret tt else raise.

(** * Identifiers: upstream addresses in base64 *)

Definition encode_id (url : string) : string := WebAuthn.base64url_encode url.
Definition decode_id (id : string) : option string :=
  s ← Base64.urlsafe_b64decode (AcmeApi.padded id); if Str.utf8_valid 0 0%N 0%N s then Some s else None.
(** [lstrip('*.')] *)
Fixpoint lstrip_wildcard (s : string) : string :=
  match s with
  | String c s' => if Ascii.eqb c "*" || Ascii.eqb c "." then lstrip_wildcard s' else s
  | "" => ""
  end.
Definition member (k : string) (j : json) : option json := match j with JDict kv => Json.assoc k kv | _ => None end.
Definition as_text (j : json) : option string := match j with JStr s => Some s | _ => None end.
(** [d[k] = v] on a dict. *)
Definition set_member (k : string) (v j : json) : option json :=
  match j with JDict kv => Some (JDict (JsonText.set_item k v kv)) | _ => None end.

(** The key of the upstream account. *)
Class AccountKeys := {
  key : Type;
  load_key : string -> option key;
  key_pem : key -> string;
  sign : key -> string -> string;
  jwk : key -> json;
}.

Section Service.
Context `{Hashes} `{AccountKeys} (upstream : list call -> call -> option answer) (py_repr : json -> string).
#[local] Abbreviation fstr := (Acme.fstr py_repr).

(** A request; an error of the connection raises. *)
Definition ask (c : call) : M answer := fun w => (with_sent (sent w ++ [c]) w, upstream (sent w) c).

Record service := Service { base_url : string; directory_url : string; private_key : key; account_url : string }.
Definition ok (a : answer) : bool := status a <? 400.

(** ** Talking to the upstream server *)

Definition DEFAULT_UPSTREAM : string := "https://acme-staging-v02.api.letsencrypt.org/directory".
Definition row (k : string) (w : world) : option (option string) := Json.assoc k (config w).
Definition put (k v : string) (w : world) : world :=
  match row k w with
  | Some _ => with_config (List.map (fun kv => if String.eqb kv.1 k then (k, Some v) else kv) (config w)) w
  | None => with_config (config w ++ [(k, Some v)]) w
  end.
Definition get_upstream_url : M string :=
  let* w := read in match row "acme.proxy.upstream_url" w with Some v => lift v | None => ret DEFAULT_UPSTREAM end.
(** [fresh] is a new key. *)
Definition load_or_create_account_key (fresh : key) : M key :=
  let* w := read in
  match row "acme.proxy.account_key" w with
  | Some v => lift (pem ← v; load_key pem)
  | None => let* _ := change (put "acme.proxy.account_key" (key_pem fresh)) in ret fresh
  end.
Definition ensure_directory (url : string) : M json :=
  let* w := read in
  match directory w with
  | Some d => if Json.truthy d then ret d
              else let* a := ask (Get url) in let* _ := check (ok a) in let* d := lift (body a) in
                   let* _ := change (with_directory (Some d)) in ret d
  | None => let* a := ask (Get url) in let* _ := check (ok a) in let* d := lift (body a) in
            let* _ := change (with_directory (Some d)) in ret d
  end.
Definition entry (url name : string) : M string := let* d := ensure_directory url in lift (u ← member name d; as_text u).
Definition get_nonce (url : string) : M string :=
  let* u := entry url "newNonce" in let* a := ask (Head u) in lift (replay_nonce a).
(** [None] stands for the empty payload. *)
Definition protected_header (k : key) (kid : option string) (nonce url : string) : json :=
  JDict ([("alg", JStr "RS256")] ++ match kid with Some s => [("kid", JStr s)] | None => [("jwk", jwk k)] end
         ++ [("nonce", JStr nonce); ("url", JStr url)]).
Definition jws (k : key) (protected : json) (payload : option json) : json :=
  let p64 := encode_id (match payload with Some j => Json.dumps j | None => "" end) in
  let h64 := encode_id (Json.dumps protected) in
  JDict [("protected", JStr h64); ("payload", JStr p64); ("signature", JStr (encode_id (sign k (h64 ^+ "." ^+ p64))))].
Definition post_jws (directory_url : string) (k : key) (url : string) (payload : option json) (kid : option string) : M answer :=
  let* nonce := get_nonce directory_url in
  ask (Post url (jws k (protected_header k (filled kid) nonce url) payload)).
Definition post (svc : service) (url : string) (payload : option json) : M answer :=
  post_jws (directory_url svc) (private_key svc) url payload (Some (account_url svc)).

Definition register_upstream_account (fqdn : option string) (url : string) (k : key) : M string :=
  let* new_account := entry url "newAccount" in
  let* a := post_jws url k new_account
              (Some (JDict [("termsOfServiceAgreed", JBool true);
                            ("contact", JList [JStr ("mailto:admin@" ^+ default "ucm.local" (filled fqdn))])])) None in
  let* _ := check ((status a =? 200) || (status a =? 201)) in
  let* loc := lift (location a) in
  let* _ := change (put "acme.proxy.account_url" loc) in ret loc.
Definition get_upstream_account_url (fqdn : option string) (url : string) (k : key) : M string :=
  let* w := read in
  match row "acme.proxy.account_url" w with
  | Some v => lift v
  | None => register_upstream_account fqdn url k
  end.
(** A service object is made for every request. *)
Definition get_proxy_service (fqdn : option string) (fresh : key) (host_url : string) : M service :=
  let* _ := change (with_directory None) in
  let* url := get_upstream_url in
  let* k := load_or_create_account_key fresh in
  let* account := get_upstream_account_url fqdn url k in
  ret (Service host_url url k account).

(** ** Orders *)

Definition get_directory (svc : service) : M json :=
  let* d := ensure_directory (directory_url svc) in
  let proxied name := JStr (base_url svc ^+ "/acme/proxy/" ^+ name) in
  let* _ := check (Json.is_dict d) in
  ret (JDict [("newNonce", proxied "new-nonce"); ("newAccount", proxied "new-account"); ("newOrder", proxied "new-order");
              ("revokeCert", proxied "revoke-cert"); ("keyChange", proxied "key-change"); ("meta", Json.get_or "meta" (JDict []) d)]).

(** The DNS provider of a domain, by the look-up of [LocalDomains]. *)
Definition find_provider_for_domain (domain : string) (w : world) : option Z :=
  LocalDomains.resolve (fun d => Json.assoc d (domains w)) (LocalDomains.candidates (LocalDomains.normalize domain)).
(** The values of the identifiers of type dns. *)
Definition dns_names (identifiers : json) : option (list json) :=
  l ← Json.elements identifiers;
  ds ← mapM (fun i => match i with
                      | JDict _ => Some (if Json.eqb (Json.get_or "type" JNull i) (JStr "dns") then Some (Json.get_or "value" JNull i) else None)
                      | _ => None end) l;
  Some (omap (fun d => d) ds).
Definition providers_of (names : list json) (w : world) : option (list Z) :=
  mapM (fun n => s ← as_text n; find_provider_for_domain (lstrip_wildcard s) w) names.
Definition proxied_order (svc : service) (id : string) (authzs : option (list json)) (o : json) : option json :=
  o ← match authzs with Some l => set_member "authorizations" (JList l) o | None => Some o end;
  set_member "finalize" (JStr (base_url svc ^+ "/acme/proxy/order/" ^+ id ^+ "/finalize")) o.
Definition proxied_authz (svc : service) (u : json) : option json :=
  s ← as_text u; Some (JStr (base_url svc ^+ "/acme/proxy/authz/" ^+ encode_id s)).
(** [not_before] is the text [isoformat()] gives of the date. *)
Definition new_order (svc : service) (identifiers : json) (not_before : option string) (now : Z) : M (json * string) :=
  let* _ := ensure_directory (directory_url svc) in
  let* names := lift (dns_names identifiers) in
  let* w := read in
  let* found := lift (providers_of names w) in
  let payload := JDict (List.filter (fun kv => negb (Json.eqb kv.2 JNull))
                   [("identifiers", identifiers); ("notBefore", match not_before with Some t => JStr (t ^+ "Z") | None => JNull end)]) in
  let* url := entry (directory_url svc) "newOrder" in
  let* a := post svc url (Some payload) in
  let* _ := check (status a =? 201) in
  let* upstream_order := lift (body a) in
  let* loc := lift (location a) in
  let* _ := check (Json.is_dict upstream_order) in
  let urls := Json.get_or "authorizations" (JList []) upstream_order in
  let* first := lift (match found with
                      | [] => Some None
                      | i :: _ => Some <$> (p_id <$> Table.first (fun p => p_id p =? i) (providers w))
                      end) in
  let* _ := change (fun w => with_orders (orders w ++
              [Order (Table.next_id o_id (orders w)) (Json.dumps (JList names))
                 (if Str.contains "staging" (directory_url svc) then "staging" else "production") "pending" loc
                 (Some (Json.dumps urls)) true first None None now]) w) in
  let id := encode_id loc in
  let* authzs := lift (l ← member "authorizations" upstream_order; us ← Json.elements l; mapM (proxied_authz svc) us) in
  let* answer := lift (proxied_order svc id (Some authzs) upstream_order) in
  ret (answer, id).

(** [None] where the upstream server does not answer with 200. *)
Definition proxied_challenge (svc : service) (c : json) : option json :=
  u ← member "url" c; s ← as_text u; set_member "url" (JStr (base_url svc ^+ "/acme/proxy/challenge/" ^+ encode_id s)) c.
Definition get_authz (svc : service) (id : string) : M (option (json * json)) :=
  let* url := lift (decode_id id) in
  let* a := post svc url None in
  if negb (status a =? 200) then ret None
  else
    let* authz := lift (body a) in
    let* _ := check (Json.is_dict authz) in
    let identifier := Json.get_or "identifier" (JDict []) authz in
    let* challenges := lift (l ← member "challenges" authz; cs ← Json.elements l; mapM (proxied_challenge svc) cs) in
    let* authz := lift (set_member "challenges" (JList challenges) authz) in
    ret (Some (authz, identifier)).

(** ** Challenges *)

Definition pending (o : order) : bool := o_is_proxy o && String.eqb (o_status o) "pending".
Definition latest_order (w : world) : option order := Table.last_by o_created_at (Table.all pending (orders w)).
Definition names_authz (url : string) (o : order) : bool :=
  match filled (o_authz_urls o) ≫= JsonText.loads with
  | Some j => default false (Json.contains url j)
  | None => false
  end.
Definition order_for (authz_url : option string) (w : world) : option order :=
  match authz_url ≫= (fun u => Table.first (names_authz u) (Table.all pending (orders w))) with
  | Some o => Some o
  | None => latest_order w
  end.
(** [domains_list] *)
Definition domains_list (o : order) : json :=
  match filled (Some (o_domains o)) with Some t => default (JList []) (JsonText.loads t) | None => JList [] end.
Definition get_account_thumbprint (svc : service) : M string :=
  lift (e ← member "e" (jwk (private_key svc)); t ← member "kty" (jwk (private_key svc)); n ← member "n" (jwk (private_key svc));
        Some (b64url_of_hex (sha256_hex (Json.compact (JDict [("e", e); ("kty", t); ("n", n)]))))).
Definition set_records (i : Z) (records : option string) (o : order) : order :=
  if o_id o =? i
  then Order (o_id o) (o_domains o) (o_environment o) (o_status o) (o_upstream_order_url o) (o_authz_urls o) (o_is_proxy o) (o_provider o)
         (o_certificate o) records (o_created_at o)
  else o.
(** [json.loads(text) if text else default] *)
Definition loads_or (dflt : json) (text : option string) : option json :=
  match filled text with Some t => JsonText.loads t | None => Some dflt end.

(** What a provider makes of a record; its answer is not looked at, and [false] is an
    exception. *)
Context (create_txt_record : provider -> json -> string -> string -> string -> bool)
        (delete_txt_record : provider -> json -> string -> string -> bool)
        (create_provider : string -> json -> bool).
Definition record_of (i : Z) (domain name value : string) : json :=
  JDict [("domain", JStr domain); ("record_name", JStr name); ("value", JStr value); ("provider_id", JInt i)].
Definition add_record (o : order) (p : provider) (domain value : string) : M unit :=
  let name := "_acme-challenge." ^+ domain in
  let* credentials := lift (loads_or (JDict []) (p_credentials p)) in
  let* _ := check (create_provider (p_type p) credentials) in
  let* _ := check (create_txt_record p credentials domain name value) in
  let* _ := change (fun w => with_dns (dns w ++ [Created (p_id p) domain name value]) w) in
  let* old := lift (loads_or (JList []) (o_records o)) in
  let* l := lift (match old with JList l => Some l | _ => None end) in
  change (fun w => with_orders
    (List.map (set_records (o_id o) (Some (Json.dumps (JList (l ++ [record_of (p_id p) domain name value]))))) (orders w)) w).
Definition prepare (svc : service) (token : json) (authz_url : option string) : M unit :=
  let* thumb := get_account_thumbprint svc in
  let value := b64url_of_hex (sha256_hex (fstr token ^+ "." ^+ thumb)) in
  let* w := read in
  match order_for authz_url w with
  | None => ret tt
  | Some o =>
      if negb (Json.truthy (domains_list o)) then ret tt
      else
        let* first := lift (l ← match domains_list o with JList l => Some l | _ => None end; d ← head l; as_text d) in
        let domain := lstrip_wildcard first in
        match find_provider_for_domain domain w with
        | None => ret tt
        | Some i => let* p := lift (Table.first (fun p => p_id p =? i) (providers w)) in add_record o p domain value
        end
  end.
(** [re.search(r'<([^>]+)>', header)]: its group. *)
Fixpoint until_gt (s : string) : option string :=
  match s with
  | "" => None
  | String c s' => if Ascii.eqb c ">" then Some "" else String c <$> until_gt s'
  end.
Fixpoint bracketed (s : string) : option string :=
  match s with
  | "" => None
  | String c s' => if Ascii.eqb c "<" then match until_gt s' with Some (String a t) => Some (String a t) | _ => bracketed s' end
                   else bracketed s'
  end.
Definition proxied_link (svc : service) (header : option string) : option string :=
  match filled header with
  | None => header
  | Some h => match bracketed h with
              | Some u => Some ("<" ^+ base_url svc ^+ "/acme/proxy/authz/" ^+ encode_id u ^+ ">;rel=" ^+ Json.quoted "up")
              | None => Some h
              end
  end.
Definition respond_challenge (svc : service) (id : string) (authz_id : option string) : M (json * option string) :=
  let* url := lift (decode_id id) in
  let* authz_url := lift (match filled authz_id with Some a => Some <$> decode_id a | None => Some None end) in
  let* a := post svc url None in
  let* _ := check (status a =? 200) in
  let* c := lift (body a) in
  let* _ := check (Json.is_dict c) in
  let token := Json.get_or "token" JNull c in
  let* _ := (if Json.eqb (Json.get_or "type" JNull c) (JStr "dns-01") && Json.truthy token then prepare svc token authz_url else ret tt) in
  let* a := post svc url (Some (JDict [])) in
  let* _ := check (status a =? 200) in
  let* c := lift (body a) in
  let* c := lift (set_member "url" (JStr (base_url svc ^+ "/acme/proxy/challenge/" ^+ id)) c) in
  ret (c, proxied_link svc (link a)).

(** ** Polling, finalizing and fetching *)

Definition with_certificate (svc : service) (o : json) : option json :=
  match Json.contains "certificate" o with
  | Some true => u ← member "certificate" o; s ← as_text u;
                 set_member "certificate" (JStr (base_url svc ^+ "/acme/proxy/cert/" ^+ encode_id s)) o
  | Some false => Some o
  | None => None
  end.
Definition get_order (svc : service) (id : string) : M json :=
  let* url := lift (decode_id id) in
  let* a := post svc url None in
  let* _ := check (status a =? 200) in
  let* o := lift (body a) in
  lift (o ← proxied_order svc id None o; with_certificate svc o).
(** The identifier is padded in place, and goes padded into the address. *)
Definition finalize_order (svc : service) (id csr_b64 : string) : M json :=
  let* url := lift (decode_id id) in
  let* a := post svc url None in
  let* o := lift (body a) in
  let* f := lift (f ← member "finalize" o; as_text f) in
  let* a := post svc f (Some (JDict [("csr", JStr csr_b64)])) in
  let* _ := check (status a =? 200) in
  let* o := lift (body a) in
  lift (o ← proxied_order svc (AcmeApi.padded id) None o; with_certificate svc o).
(** Taking the records of an order away; an exception ends it. *)
Fixpoint cleanup (records : list json) (w : world) : world * bool :=
  match records with
  | [] => (w, true)
  | r :: records =>
      match (i ← member "provider_id" r; i ← match i with JInt z => Some z | _ => None end; Some i) with
      | None => (w, false)
      | Some i =>
          match Table.first (fun p => p_id p =? i) (providers w) with
          | None => cleanup records w
          | Some p =>
              match loads_or (JDict []) (p_credentials p) with
              | None => (w, false)
              | Some credentials =>
                  if negb (create_provider (p_type p) credentials) then (w, false)
                  else match (d ← member "domain" r; d ← as_text d; n ← member "record_name" r; n ← as_text n; Some (d, n)) with
                  | Some (d, n) =>
                      if delete_txt_record p credentials d n
                      then cleanup records (with_dns (dns w ++ [Deleted i d n]) w) else cleanup records w
                  | None => cleanup records w
                  end
              end
          end
      end
  end.
Definition settle (i : Z) (cert : option Z) (o : order) : order :=
  if o_id o =? i
  then Order (o_id o) (o_domains o) (o_environment o) "valid" (o_upstream_order_url o) (o_authz_urls o) (o_is_proxy o) (o_provider o)
         (match cert with Some c => Some c | None => o_certificate o end) None (o_created_at o)
  else o.
(** [import_certificate] stores the certificates of a text and gives the number of the row,
    [None] where that fails. *)
Definition get_certificate (import_certificate : string -> option Z) (svc : service) (id : string) : M (string * string * option string) :=
  let* url := lift (decode_id id) in
  let* a := post svc url None in
  let* _ := (if status a =? 200 then
               let stored := import_certificate (content a) in
               let* w := read in
               match latest_order w with
               | None => ret tt
               | Some o =>
                   change (fun w =>
                     match (match filled (o_records o) with Some t => JsonText.loads t ≫= Json.elements | None => Some [] end) with
                     | None => w
                     | Some l => let '(w, fine) := cleanup l w in
                                 if fine then with_orders (List.map (settle (o_id o) stored) (orders w)) w else w
                     end)
               end
             else ret tt) in
  ret (content a, default "application/pem-certificate-chain" (content_type a), link a).
End Service.

(** * Endpoints *)

Inductive payload := PJson (j : json) | PText (s : string) | PEmpty.
Inductive reply :=
| Reply (code : Z) (p : payload) (headers : list (string * string))
| NotFound | MethodNotAllowed | Raised.
(** The endpoints that have a route. *)
Inductive endpoint := Directory | NewNonce | NewAccount | NewOrder | Challenge (id : string).
(** [None]: no rule for the path; [Some None]: none for the method. *)
Definition route (method : string) (path : list string) : option (option endpoint) :=
  let allowed l e := Some (if existsb (String.eqb method) l then Some e else None) in
  match path with
  | ["directory"] => allowed ["GET"; "HEAD"] Directory
  | ["new-nonce"] => allowed ["GET"; "HEAD"] NewNonce
  | ["new-account"] => allowed ["POST"] NewAccount
  | ["new-order"] => allowed ["POST"] NewOrder
  | ["challenge"; id] => allowed ["POST"] (Challenge id)
  | _ => None
  end.

Section Endpoints.
Context `{Hashes} `{AccountKeys} `{AcmeApi.Jose} (upstream : list call -> call -> option answer) (py_repr : json -> string)
        (token_urlsafe : nat -> string) (fqdn : option string) (fresh : key)
        (create_txt_record : provider -> json -> string -> string -> string -> bool) (create_provider : string -> json -> bool)
        (** [fromisoformat] and [isoformat] of a date with its zone *)
        (reformatted : string -> option string).
#[local] Abbreviation get_proxy_service := (get_proxy_service upstream fqdn fresh).

Definition generate_nonce (now : Z) (w : world) : world * string :=
  let '(st, tok) := Acme.generate_nonce token_urlsafe now (acme w) in (with_acme st w, tok).
Definition proxy_response (data : json) (code : Z) (more : list (string * string)) (now : Z) (w : world) : world * reply :=
  let '(w, tok) := generate_nonce now w in
  (w, Reply code (PJson data) ([("Replay-Nonce", tok); ("Cache-Control", "no-store")] ++ more)).
(** [request.get_json()] is [None] where it raises. *)
Definition verify_proxy_jws (request : option json) (url : string) (now : Z) (w : world) : world * AcmeApi.verdict :=
  match request with
  | None => (w, AcmeApi.Refused "JWS verification error")
  | Some data =>
      if negb (Json.truthy data) then (w, AcmeApi.Refused "No JSON")
      else let '(st, v) := AcmeApi.verify_jws py_repr data url None now (acme w) in (with_acme st w, v)
  end.
Definition malformed (detail : string) : reply := Reply 400 (PJson (JDict [("type", JStr "malformed"); ("detail", JStr detail)])) [].
Definition internal : reply :=
  Reply 500 (PJson (JDict [("type", JStr "serverInternal"); ("detail", JStr "Internal server error")])) [].

Definition serve_directory (host : string) (now : Z) (w : world) : world * reply :=
  match bind (get_proxy_service host) (get_directory upstream) w with
  | (w, Some d) => proxy_response d 200 [] now w
  | (w, None) => (w, Raised)
  end.
Definition serve_new_nonce (host : string) (now : Z) (w : world) : world * reply :=
  match bind (get_proxy_service host) (fun svc => ensure_directory upstream (directory_url svc)) w with
  | (w, Some _) => let '(w, tok) := generate_nonce now w in (w, Reply 204 PEmpty [("Replay-Nonce", tok); ("Cache-Control", "no-store")])
  | (w, None) => (w, Raised)
  end.
Definition new_account (request : option json) (host : string) (now : Z) (w : world) : world * reply :=
  let '(w, v) := verify_proxy_jws request (host ^+ "/acme/proxy/new-account") now w in
  match v with
  | AcmeApi.Refused e => (w, malformed e)
  | AcmeApi.Accepted p _ =>
      if negb (Json.is_dict p) then (w, Raised)
      else
        let acct_url := host ^+ "/acme/proxy/acct/1" in
        proxy_response (JDict [("status", JStr "valid"); ("contact", Json.get_or "contact" (JList []) p); ("orders", JStr (acct_url ^+ "/orders"))])
          201 [("Location", acct_url)] now w
  end.
(** The date a client names: [None] is an exception. *)
Definition not_before_of (p : json) : option (option string) :=
  let d := Json.get_or "notBefore" JNull p in
  if negb (Json.truthy d) then Some None else match d with JStr s => Some <$> reformatted s | _ => None end.
Definition serve_new_order (request : option json) (host : string) (now : Z) (w : world) : world * reply :=
  match get_proxy_service host w with
  | (w, None) => (w, Raised)
  | (w, Some svc) =>
      let '(w, v) := verify_proxy_jws request (host ^+ "/acme/proxy/new-order") now w in
      match v with
      | AcmeApi.Refused e => (w, malformed e)
      | AcmeApi.Accepted p _ =>
          if negb (Json.is_dict p) then (w, internal)
          else match not_before_of p with
          | None => (w, internal)
          | Some date =>
              match new_order upstream svc (Json.get_or "identifiers" JNull p) date now w with
              | (w, Some (data, id)) => proxy_response data 201 [("Location", host ^+ "/acme/proxy/order/" ^+ id)] now w
              | (w, None) => (w, internal)
              end
          end
      end
  end.
Definition challenge (id : string) (request : option json) (host : string) (now : Z) (w : world) : world * reply :=
  match get_proxy_service host w with
  | (w, None) => (w, Raised)
  | (w, Some svc) =>
      let '(w, v) := verify_proxy_jws request (host ^+ "/acme/proxy/challenge/" ^+ id) now w in
      match v with
      | AcmeApi.Refused e => (w, malformed e)
      | AcmeApi.Accepted _ _ =>
          match respond_challenge upstream py_repr create_txt_record create_provider svc id None w with
          | (w, Some (data, link_header)) =>
              proxy_response data 200 (match filled link_header with Some h => [("Link", h)] | None => [] end) now w
          | (w, None) => (w, internal)
          end
      end
  end.
(** [host] is the scheme and host of the request. *)
Definition serve (method : string) (path : list string) (request : option json) (host : string) (now : Z) (w : world) : world * reply :=
  match route method path with
  | None => (w, NotFound)
  | Some None => (w, MethodNotAllowed)
  | Some (Some Directory) => serve_directory host now w
  | Some (Some NewNonce) => serve_new_nonce host now w
  | Some (Some NewAccount) => new_account request host now w
  | Some (Some NewOrder) => serve_new_order request host now w
  | Some (Some (Challenge id)) => challenge id request host now w
  end.
End Endpoints.
End AcmeProxy.

Module AcmeProxyFacts.
Import AcmeProxy.
Local Open Scope string_scope.
Local Open Scope list_scope.
Local Open Scope Z_scope.

(** * The identifiers *)

Lemma digit_urlsafe v :
  (v < 64)%N ->
  Ascii.eqb (Base64.digit v) "=" = false /\ (Str.code (WebAuthn.urlsafe (Base64.digit v)) =? 61)%N = false /\
    Base64.urlsafe_value (WebAuthn.urlsafe (Base64.digit v)) = Some v /\
    (Str.code (WebAuthn.urlsafe (Base64.digit v)) <? 128)%N = true.
Proof.
  intros Hv.
  assert (forallb (fun n => let v := N.of_nat n in let c := WebAuthn.urlsafe (Base64.digit v) in
    negb (Ascii.eqb (Base64.digit v) "=") && negb (Str.code c =? 61)%N
    && bool_decide (Base64.urlsafe_value c = Some v) && (Str.code c <? 128)%N) (List.seq 0 64) = true) as H
    by (vm_compute; reflexivity).
  rewrite forallb_forall in H. specialize (H (N.to_nat v)). rewrite N2Nat.id in H.
  rewrite !andb_true_iff, !negb_true_iff, bool_decide_eq_true in H.
  destruct H as [[[H1 H2] H3] H4]; [apply in_seq; lia|done].
Qed.

Lemma urlsafe_digit v s :
  (v < 64)%N -> WebAuthn.urlsafe_text (String (Base64.digit v) s) = String (WebAuthn.urlsafe (Base64.digit v)) (WebAuthn.urlsafe_text s).
Proof. intros Hv. cbn [WebAuthn.urlsafe_text]. by rewrite (proj1 (digit_urlsafe v Hv)). Qed.

Lemma bytes_digit quad pads left v s :
  (v < 64)%N ->
  Base64.b64_bytes Base64.urlsafe_value quad pads left (String (WebAuthn.urlsafe (Base64.digit v)) s)
  = match quad with
    | 0 => Base64.b64_bytes Base64.urlsafe_value 1 0 v s
    | 1 => String (ascii_of_N (left * 4 + v / 16)) <$> Base64.b64_bytes Base64.urlsafe_value 2 0 (v mod 16) s
    | 2 => String (ascii_of_N (left * 16 + v / 4)) <$> Base64.b64_bytes Base64.urlsafe_value 3 0 (v mod 4) s
    | _ => String (ascii_of_N (left * 64 + v)) <$> Base64.b64_bytes Base64.urlsafe_value 0 0 0 s
    end%nat.
Proof. intros Hv. destruct (digit_urlsafe v Hv) as (_ & He & Hd & _). cbn [Base64.b64_bytes]. by rewrite He, Hd. Qed.

Lemma padded_four a b c d s :
  AcmeApi.padded (String a (String b (String c (String d s)))) = String a (String b (String c (String d (AcmeApi.padded s)))).
Proof.
  unfold AcmeApi.padded. cbn [String.length String.append].
  replace (S (S (S (S (String.length s)))) mod 4)%nat with (String.length s mod 4)%nat; [done|].
  rewrite <-(Nat.Div0.mod_add (String.length s) 1 4). f_equal. lia.
Qed.

Lemma padded_bytes s :
  Base64.b64_bytes Base64.urlsafe_value 0 0 0 (AcmeApi.padded (WebAuthn.base64url_encode s)) = Some s.
Proof.
  assert (forall n a t, n = Str.code a -> String (ascii_of_N n) <$> Some t = Some (String a t)) as Hstep
    by (by intros n a t ->%Base64.ascii_code).
  unfold WebAuthn.base64url_encode.
  induction s as [|a|a b|a b c s IH] using Base64.three_ind; [done|..]; cbn [Base64.b64encode];
    rewrite !urlsafe_digit by Base64.b64_side.
  - cbn [WebAuthn.urlsafe_text Ascii.eqb Bool.eqb]. unfold AcmeApi.padded. cbn [String.length Nat.modulo Nat.divmod fst snd Nat.sub Str.take String.append].
    rewrite !bytes_digit by Base64.b64_side. apply Hstep. Base64.b64_side.
  - cbn [WebAuthn.urlsafe_text Ascii.eqb Bool.eqb]. unfold AcmeApi.padded. cbn [String.length Nat.modulo Nat.divmod fst snd Nat.sub Str.take String.append].
    rewrite !bytes_digit by Base64.b64_side. rewrite (Hstep _ b "") by Base64.b64_side. apply Hstep. Base64.b64_side.
  - rewrite padded_four, !bytes_digit by Base64.b64_side.
    rewrite IH, (Hstep _ c), (Hstep _ b) by Base64.b64_side. apply Hstep. Base64.b64_side.
Qed.

Lemma encoded_ascii s : Str.exists_char (fun c => negb (Str.code c <? 128)%N) (WebAuthn.base64url_encode s) = false.
Proof.
  assert (forall v t, (v < 64)%N ->
    Str.exists_char (fun c => negb (Str.code c <? 128)%N) (WebAuthn.urlsafe_text (String (Base64.digit v) t))
    = Str.exists_char (fun c => negb (Str.code c <? 128)%N) (WebAuthn.urlsafe_text t)) as Hd.
  { intros v t Hv. rewrite urlsafe_digit by done. cbn [Str.exists_char].
    by rewrite (proj2 (proj2 (proj2 (digit_urlsafe v Hv)))). }
  unfold WebAuthn.base64url_encode.
  induction s as [|a|a b|a b c s IH] using Base64.three_ind; [done|..]; cbn [Base64.b64encode];
    rewrite !Hd by Base64.b64_side; done.
Qed.

(** The identifiers the proxy hands out are turned back into the upstream addresses they
    were made of. *)
Theorem ids_name_their_address url :
  Str.utf8_valid 0 0%N 0%N url = true -> decode_id (encode_id url) = Some url.
Proof.
  intros Hu. unfold decode_id, encode_id, Base64.urlsafe_b64decode, Base64.decode, Str.forall_char, AcmeApi.padded at 1.
  rewrite StrFacts.exists_char_app, encoded_ascii. cbn [orb].
  rewrite StrFacts.exists_char_take by done. cbn [negb]. fold (AcmeApi.padded (WebAuthn.base64url_encode url)).
  rewrite padded_bytes. cbn [mbind option_bind]. by rewrite Hu.
Qed.

(** * What a request can change *)

(** Computations whose effect stays within a relation, whatever they return. *)
Class Effect (R : world -> world -> Prop) := { effect_refl w : R w w; effect_trans w w' w'' : R w w' -> R w' w'' -> R w w'' }.
Definition keeps (R : world -> world -> Prop) {A} (m : M A) : Prop := forall w, R w (m w).1.
Section Keeps.
Context {R : world -> world -> Prop} `{!Effect R}.
Lemma keeps_bind {A B} (m : M A) (f : A -> M B) : keeps R m -> (forall x, keeps R (f x)) -> keeps R (bind m f).
Proof.
  intros Hm Hf w. specialize (Hm w). unfold bind. destruct (m w) as [w1 [x|]]; [|done].
  exact (effect_trans _ _ _ Hm (Hf x w1)).
Qed.
Lemma keeps_ret {A} (x : A) : keeps R (ret x).
Proof. intros w. apply effect_refl. Qed.
Lemma keeps_lift {A} (o : option A) : keeps R (lift o).
Proof. intros w. apply effect_refl. Qed.
Lemma keeps_read : keeps R read.
Proof. intros w. apply effect_refl. Qed.
Lemma keeps_check b : keeps R (check b).
Proof. destruct b; intros w; apply effect_refl. Qed.
Lemma keeps_change f : (forall w, R w (f w)) -> keeps R (change f).
Proof. intros Hf w. apply Hf. Qed.
End Keeps.
Lemma keeps_weaken (R R' : world -> world -> Prop) {A} (m : M A) : (forall w w', R w w' -> R' w w') -> keeps R m -> keeps R' m.
Proof. intros HR Hm w. apply HR, Hm. Qed.

(** Nothing of the orders and of DNS changes. *)
Definition quiet (w w' : world) : Prop :=
  orders w' = orders w /\ dns w' = dns w /\ domains w' = domains w /\ providers w' = providers w.
#[export] Instance quiet_effect : Effect quiet.
Proof.
  split; [by intros w|]. unfold quiet. intros w w' w'' (-> & -> & -> & ->) (-> & -> & -> & ->). done.
Qed.
(** No order leaves its state or gets a certificate, new orders are pending, and no record is
    taken away. *)
Definition progress (o : order) : Z * string * option Z := (o_id o, o_status o, o_certificate o).
Definition waiting (p : Z * string * option Z) : Prop := p.1.2 = "pending" /\ p.2 = None.
Definition created (c : dns_change) : Prop := match c with Created _ _ _ _ => True | Deleted _ _ _ => False end.
Record unfinished (w w' : world) : Prop := {
  u_orders : exists new, List.map progress (orders w') = List.map progress (orders w) ++ new /\ Forall waiting new;
  u_dns : exists made, dns w' = dns w ++ made /\ Forall created made;
}.
#[export] Instance unfinished_effect : Effect unfinished.
Proof.
  split.
  - intros w. split; exists []; by rewrite app_nil_r.
  - intros w w' w'' [(n1 & E1 & F1) (d1 & D1 & G1)] [(n2 & E2 & F2) (d2 & D2 & G2)]. split.
    + exists (n1 ++ n2). rewrite E2, E1, <-app_assoc. by split; [|apply Forall_app].
    + exists (d1 ++ d2). rewrite D2, D1, <-app_assoc. by split; [|apply Forall_app].
Qed.
Lemma quiet_unfinished w w' : quiet w w' -> unfinished w w'.
Proof. intros (Eo & Ed & _). split; exists []; by rewrite ?Eo, ?Ed, app_nil_r. Qed.

Ltac keep := repeat lazymatch goal with
  | |- forall _, _ => intro
  | |- keeps _ (bind _ _) => apply keeps_bind
  | |- keeps _ (ret _) => apply keeps_ret
  | |- keeps _ (lift _) => apply keeps_lift
  | |- keeps _ read => apply keeps_read
  | |- keeps _ (check _) => apply keeps_check
  | |- keeps _ (let _ := _ in _) => cbv zeta
  | |- keeps _ (match _ with _ => _ end) => case_match
  end.

Section Facts.
Context `{Hashes} `{AccountKeys} `{AcmeApi.Jose} (upstream : list call -> call -> option answer) (py_repr : json -> string)
        (token_urlsafe : nat -> string) (fqdn : option string) (fresh : key)
        (create_txt_record : provider -> json -> string -> string -> string -> bool) (create_provider : string -> json -> bool)
        (reformatted : string -> option string).
#[local] Abbreviation serve := (serve upstream py_repr token_urlsafe fqdn fresh create_txt_record create_provider reformatted).

Lemma put_quiet k v w : quiet w (put k v w).
Proof. unfold put. by destruct (row k w). Qed.
Lemma ask_quiet c : keeps quiet (ask upstream c).
Proof. by intros w. Qed.
Lemma ensure_directory_quiet url : keeps quiet (ensure_directory upstream url).
Proof. unfold ensure_directory. keep; first [apply ask_quiet | by apply keeps_change]. Qed.
Lemma entry_quiet url name : keeps quiet (entry upstream url name).
Proof. unfold entry. keep. apply ensure_directory_quiet. Qed.
Lemma post_jws_quiet durl k url p kid : keeps quiet (post_jws upstream durl k url p kid).
Proof. unfold post_jws, get_nonce. keep; first [apply ask_quiet | apply entry_quiet]. Qed.
Lemma get_proxy_service_quiet host : keeps quiet (get_proxy_service upstream fqdn fresh host).
Proof.
  unfold get_proxy_service, get_upstream_url, load_or_create_account_key, get_upstream_account_url, register_upstream_account.
  keep; first [by apply keeps_change | apply entry_quiet | apply post_jws_quiet | apply keeps_change; intros; apply put_quiet].
Qed.
Lemma verify_proxy_jws_quiet request url now w : quiet w (verify_proxy_jws py_repr request url now w).1.
Proof.
  unfold verify_proxy_jws. destruct request as [data|]; [|done]. destruct (negb _); [done|].
  by destruct (AcmeApi.verify_jws _ _ _ _ _ _).
Qed.
Lemma proxy_response_quiet data code more now w : quiet w (proxy_response token_urlsafe data code more now w).1.
Proof. unfold proxy_response, generate_nonce. by destruct (Acme.generate_nonce _ _ _). Qed.

Lemma new_order_unfinished svc ids date now : keeps unfinished (new_order upstream svc ids date now).
Proof.
  unfold new_order, post. keep;
    first [ apply (keeps_weaken quiet); [apply quiet_unfinished|]; first [apply ensure_directory_quiet | apply entry_quiet | apply post_jws_quiet]
          | apply keeps_change; intros; split ].
  - eexists [_]. split; [cbn; by rewrite List.map_app|]. by repeat constructor.
  - exists []. by rewrite app_nil_r.
Qed.
Lemma set_records_progress i r l : List.map progress (List.map (set_records i r) l) = List.map progress l.
Proof. rewrite List.map_map. apply List.map_ext. intros o. unfold set_records. by destruct (o_id o =? i). Qed.
Lemma add_record_unfinished o p domain value : keeps unfinished (add_record create_txt_record create_provider o p domain value).
Proof.
  unfold add_record. keep; apply keeps_change; intros; split.
  - exists []. by rewrite app_nil_r.
  - eexists [_]. split; [done|]. by repeat constructor.
  - exists []. split; [|done]. cbn. by rewrite set_records_progress, app_nil_r.
  - exists []. by rewrite app_nil_r.
Qed.
Lemma respond_challenge_unfinished svc id a : keeps unfinished (respond_challenge upstream py_repr create_txt_record create_provider svc id a).
Proof.
  unfold respond_challenge, prepare, get_account_thumbprint, post. keep;
    first [ apply (keeps_weaken quiet); [apply quiet_unfinished|apply post_jws_quiet] | apply add_record_unfinished ].
Qed.

(** The next request of a chain: what it gives is forgotten, its effect is kept. *)
Ltac chain lem w0 :=
  let Hq := fresh "Hq" in
  lazymatch goal with
  | |- unfinished _ (match ?p with _ => _ end).1 =>
      assert (unfinished w0 p.1) as Hq by first [apply quiet_unfinished, lem | apply lem];
      refine (effect_trans _ _ _ Hq _); clear Hq; destruct p as [? ?]; cbn [fst]
  end.
Lemma get_proxy_service_effect host w : quiet w (get_proxy_service upstream fqdn fresh host w).1.
Proof. apply get_proxy_service_quiet. Qed.
Lemma serve_directory_quiet host now w : quiet w (serve_directory upstream token_urlsafe fqdn fresh host now w).1.
Proof.
  unfold serve_directory.
  assert (keeps quiet (bind (get_proxy_service upstream fqdn fresh host) (get_directory upstream))) as Hk.
  { unfold get_directory. keep; first [apply get_proxy_service_quiet | apply ensure_directory_quiet]. }
  specialize (Hk w). destruct (bind _ _ w) as [w1 [d|]]; [|done].
  refine (effect_trans _ _ _ Hk (proxy_response_quiet _ _ _ _ _)).
Qed.
Lemma serve_new_nonce_quiet host now w : quiet w (serve_new_nonce upstream token_urlsafe fqdn fresh host now w).1.
Proof.
  unfold serve_new_nonce.
  assert (keeps quiet (bind (get_proxy_service upstream fqdn fresh host) (fun svc => ensure_directory upstream (directory_url svc)))) as Hk.
  { keep; first [apply get_proxy_service_quiet | apply ensure_directory_quiet]. }
  specialize (Hk w). destruct (bind _ _ w) as [w1 [d|]]; [|done].
  unfold generate_nonce. by destruct (Acme.generate_nonce _ _ _).
Qed.
Lemma new_account_quiet request host now w : quiet w (new_account py_repr token_urlsafe request host now w).1.
Proof.
  unfold new_account. pose proof (verify_proxy_jws_quiet request (host ^+ "/acme/proxy/new-account") now w) as Hv.
  destruct (verify_proxy_jws _ _ _ _ _) as [w1 [p j|e]]; [|done]. destruct (negb _); [done|].
  refine (effect_trans _ _ _ Hv (proxy_response_quiet _ _ _ _ _)).
Qed.
Lemma serve_new_order_unfinished request host now w :
  unfinished w (serve_new_order upstream py_repr token_urlsafe fqdn fresh reformatted request host now w).1.
Proof.
  unfold serve_new_order. chain (get_proxy_service_effect host) w. case_match; [|apply effect_refl].
  chain verify_proxy_jws_quiet w0. case_match; [|apply effect_refl]. destruct (negb _); [apply effect_refl|].
  case_match; [|apply effect_refl]. chain new_order_unfinished w1. case_match; [|apply effect_refl]. case_match.
  apply quiet_unfinished, proxy_response_quiet.
Qed.
Lemma challenge_unfinished id request host now w :
  unfinished w (challenge upstream py_repr token_urlsafe fqdn fresh create_txt_record create_provider id request host now w).1.
Proof.
  unfold challenge. chain (get_proxy_service_effect host) w. case_match; [|apply effect_refl].
  chain verify_proxy_jws_quiet w0. case_match; [|apply effect_refl].
  chain respond_challenge_unfinished w1. case_match; [|apply effect_refl]. case_match.
  apply quiet_unfinished, proxy_response_quiet.
Qed.

(** C39: No request to the proxy finishes an order.  The endpoints that have a route only add
    pending orders and create records at the DNS providers: no order changes its state or gets
    a certificate, and no record is taken away again. *)
Theorem orders_never_finish method path request host now w w' r :
  serve method path request host now w = (w', r) -> unfinished w w'.
Proof.
  intros E. replace w' with (serve method path request host now w).1 by (by rewrite E). clear E.
  unfold AcmeProxy.serve. destruct (route method path) as [[e|]|]; [|apply effect_refl..].
  destruct e as [| | | |id];
    [apply quiet_unfinished, serve_directory_quiet | apply quiet_unfinished, serve_new_nonce_quiet
    | apply quiet_unfinished, new_account_quiet | apply serve_new_order_unfinished | apply challenge_unfinished].
Qed.

(** ** The addresses of an answer *)

Lemma assoc_set k v kv k' : Json.assoc k' (JsonText.set_item k v kv) = if String.eqb k' k then Some v else Json.assoc k' kv.
Proof.
  induction kv as [|[k0 v0] kv IH]; cbn; [by destruct (String.eqb k' k)|].
  destruct (String.eqb_spec k0 k) as [->|Hk]; cbn; [by destruct (String.eqb k' k)|].
  destruct (String.eqb_spec k' k0) as [->|]; [by destruct (String.eqb_spec k0 k)|]. exact IH.
Qed.
Lemma member_set k v o o' k' : set_member k v o = Some o' -> member k' o' = if String.eqb k' k then Some v else member k' o.
Proof. destruct o; try done. intros [= <-]. apply assoc_set. Qed.

Lemma bind_returns {A B} (m : M A) (f : A -> M B) w w' y :
  bind m f w = (w', Some y) -> exists w1 x, m w = (w1, Some x) /\ f x w1 = (w', Some y).
Proof. unfold bind. destruct (m w) as [w1 [x|]]; [|done]. intros E. by exists w1, x. Qed.
Lemma lift_Some {A} (o : option A) w w' x : lift o w = (w', Some x) -> o = Some x.
Proof. by intros [= _ ->]. Qed.
Ltac binds E := repeat (apply bind_returns in E as (? & ? & ? & E)).
Lemma get_proxy_service_base host w w' svc : get_proxy_service upstream fqdn fresh host w = (w', Some svc) -> base_url svc = host.
Proof. unfold get_proxy_service. intros E. binds E. by injection E as _ <-. Qed.
Lemma mapM_authz svc us l :
  mapM (proxied_authz svc) us = Some l -> exists authzs, l = List.map (fun a => JStr (base_url svc ^+ "/acme/proxy/authz/" ^+ a)) authzs.
Proof.
  revert l. induction us as [|u us IH]; intros l; cbn [mapM]; [intros [= <-]; by exists []|].
  destruct (proxied_authz svc u) as [y|] eqn:Ey; [|done]. cbn [mbind option_bind].
  destruct (mapM (proxied_authz svc) us) as [l'|]; [|done]. intros [= <-]. destruct (IH l' eq_refl) as [authzs ->].
  unfold proxied_authz in Ey. destruct (as_text u) as [s|]; [|done]. injection Ey as <-. by exists (encode_id s :: authzs).
Qed.
Lemma proxied_order_members svc id l o o' :
  proxied_order svc id (Some l) o = Some o' ->
  member "finalize" o' = Some (JStr (base_url svc ^+ "/acme/proxy/order/" ^+ id ^+ "/finalize")) /\
  member "authorizations" o' = Some (JList l).
Proof.
  unfold proxied_order. destruct (set_member "authorizations" (JList l) o) as [o1|] eqn:E1; [|discriminate].
  cbn [mbind option_bind]. intros E2. pose proof (fun k => member_set _ _ _ _ k E2) as M2. pose proof (fun k => member_set _ _ _ _ k E1) as M1.
  split; [by rewrite M2|]. rewrite M2. cbn. by rewrite M1.
Qed.
Lemma new_order_answer svc ids date now w w' data id :
  new_order upstream svc ids date now w = (w', Some (data, id)) ->
  exists authzs,
    member "finalize" data = Some (JStr (base_url svc ^+ "/acme/proxy/order/" ^+ id ^+ "/finalize")) /\
    member "authorizations" data = Some (JList (List.map (fun a => JStr (base_url svc ^+ "/acme/proxy/authz/" ^+ a)) authzs)).
Proof.
  unfold new_order. intros E. binds E. injection E as _ <- <-.
  repeat match goal with H : lift _ _ = (_, Some _) |- _ => apply lift_Some in H end.
  match goal with H : proxied_order _ _ _ _ = Some _ |- _ => apply proxied_order_members in H as [Hf Ha] end.
  match goal with H : (_ ≫= fun l => Json.elements l ≫= _) = Some ?x |- _ =>
    apply bind_Some in H as (? & _ & H); apply bind_Some in H as (? & _ & H); apply mapM_authz in H as [authzs ->] end.
  by exists authzs.
Qed.

(** Every address the proxy hands out with an order leads nowhere: the handlers of
    [authz], [get_order] and [finalize] are not routed, so that a client that follows the
    protocol gets 404 for each authorization of its order, for the order, and for its
    finalization. *)
Theorem orders_lead_nowhere request host now w w' data hs :
  serve "POST" ["new-order"] request host now w = (w', Reply 201 (PJson data) hs) ->
  exists id authzs,
    In ("Location", host ^+ "/acme/proxy/order/" ^+ id) hs /\
    member "finalize" data = Some (JStr (host ^+ "/acme/proxy/order/" ^+ id ^+ "/finalize")) /\
    member "authorizations" data = Some (JList (List.map (fun a => JStr (host ^+ "/acme/proxy/authz/" ^+ a)) authzs)) /\
    forall method path request' now' w'',
      In path (["order"; id] :: ["order"; id; "finalize"] :: List.map (fun a => ["authz"; a]) authzs) ->
      serve method path request' host now' w'' = (w'', NotFound).
Proof.
  cbn [AcmeProxy.serve route existsb String.eqb orb]. unfold serve_new_order. intros E.
  destruct (get_proxy_service _ _ _ _ _) as [w1 [svc|]] eqn:Es; [|done]. apply get_proxy_service_base in Es.
  destruct (verify_proxy_jws _ _ _ _ _) as [w2 [p j|e]]; [|done]. destruct (negb _); [done|].
  destruct (not_before_of _ _) as [date|]; [|done].
  destruct (new_order _ _ _ _ _ _) as [w3 [[o id]|]] eqn:En; [|done].
  apply new_order_answer in En as (authzs & Hf & Ha). rewrite Es in *.
  unfold proxy_response in E. destruct (generate_nonce _ _ _) as [w4 tok]. injection E as _ -> <-.
  exists id, authzs. split; [right; right; by left|]. split; [done|]. split; [done|].
  intros method path request' now' w'' [<-|[<-|(a & <- & _)%in_map_iff]]; done.
Qed.

(** ** The order of a challenge *)

(** The records made are for the first domain of the latest order. *)
Definition for_latest (w : world) (c : dns_change) : Prop :=
  exists o first rest p v, latest_order w = Some o /\ domains_list o = JList (JStr first :: rest) /\
    c = Created p (lstrip_wildcard first) ("_acme-challenge." ^+ lstrip_wildcard first) v.
Definition adds_for_latest (w w' : world) : Prop := forall c, In c (dns w') -> In c (dns w) \/ for_latest w c.
Lemma quiet_adds w w' : quiet w w' -> adds_for_latest w w'.
Proof. intros (_ & Ed & _) c. rewrite Ed. by left. Qed.
Lemma quiet_first w w1 w2 : quiet w w1 -> adds_for_latest w1 w2 -> adds_for_latest w w2.
Proof.
  intros (Eo & Ed & _) Ha c [Hc|Hc]%Ha; [left; by rewrite <-Ed|right].
  unfold for_latest, latest_order in *. by rewrite <-Eo.
Qed.
Lemma quiet_last w w1 w2 : adds_for_latest w w1 -> quiet w1 w2 -> adds_for_latest w w2.
Proof. intros Ha (_ & Ed & _) c. rewrite Ed. apply Ha. Qed.
Lemma bind_first {A B} (m : M A) (f : A -> M B) : keeps quiet m -> (forall x, keeps adds_for_latest (f x)) -> keeps adds_for_latest (bind m f).
Proof.
  intros Hm Hf w. specialize (Hm w). unfold bind. destruct (m w) as [w1 [x|]]; [|by apply quiet_adds].
  exact (quiet_first _ _ _ Hm (Hf x w1)).
Qed.
Lemma bind_last {A B} (m : M A) (f : A -> M B) : keeps adds_for_latest m -> (forall x, keeps quiet (f x)) -> keeps adds_for_latest (bind m f).
Proof.
  intros Hm Hf w. specialize (Hm w). unfold bind. destruct (m w) as [w1 [x|]]; [|done].
  exact (quiet_last _ _ _ Hm (Hf x w1)).
Qed.
Lemma bind_known {A B} (R : world -> world -> Prop) (x : A) (f : A -> M B) : keeps R (f x) -> keeps R (bind (lift (Some x)) f).
Proof. done. Qed.
Lemma adds_quiet {A} (m : M A) : keeps quiet m -> keeps adds_for_latest m.
Proof. apply keeps_weaken, quiet_adds. Qed.

(** What [add_record] adds to the trace. *)
Definition one_record (domain : string) (w w' : world) : Prop :=
  forall c, In c (dns w') -> In c (dns w) \/ exists p v, c = Created p domain ("_acme-challenge." ^+ domain) v.
#[export] Instance one_record_effect domain : Effect (one_record domain).
Proof. split; [by left|]. intros w w' w'' H1' H2' c [Hc|Hc]%H2'; [by apply H1'|by right]. Qed.
Lemma add_record_adds o p domain value : keeps (one_record domain) (add_record create_txt_record create_provider o p domain value).
Proof.
  unfold add_record. keep; apply keeps_change; intros w c Hc; [|by left].
  apply in_app_or in Hc as [Hc|[<-|[]]]; [by left|right; by eexists _, _].
Qed.
Lemma prepare_adds svc token : keeps adds_for_latest (prepare py_repr create_txt_record create_provider svc token None).
Proof.
  unfold prepare. apply bind_first; [unfold get_account_thumbprint; keep|]. intros thumb. cbv zeta.
  intros w. unfold bind, read, order_for. cbn [mbind option_bind].
  destruct (latest_order w) as [o|] eqn:Eo; [|apply quiet_adds, effect_refl].
  destruct (negb _); [apply quiet_adds, effect_refl|]. unfold lift at 1.
  destruct (domains_list o) as [| | | |l|] eqn:Ed; try apply quiet_adds, effect_refl. cbn [mbind option_bind].
  destruct l as [|d rest]; [apply quiet_adds, effect_refl|]. cbn [head mbind option_bind].
  destruct d as [| | |first| |]; try apply quiet_adds, effect_refl. cbn [as_text].
  destruct (find_provider_for_domain _ w) as [i|]; [|apply quiet_adds, effect_refl]. unfold lift at 1.
  destruct (Table.first _ (providers w)) as [p|]; [|apply quiet_adds, effect_refl].
  intros c [Hc|(p' & v & ->)]%add_record_adds; [by left|right]. by exists o, first, rest, p', v.
Qed.
Lemma respond_challenge_adds svc id : keeps adds_for_latest (respond_challenge upstream py_repr create_txt_record create_provider svc id None).
Proof.
  unfold respond_challenge, post.
  apply bind_first; [keep|intros url]. apply bind_known.
  do 4 (apply bind_first; [keep; apply post_jws_quiet|intro; cbv zeta]).
  apply bind_last.
  - case_match; [apply prepare_adds|apply adds_quiet, keeps_ret].
  - keep. apply post_jws_quiet.
Qed.

(** C40: A challenge is answered for the latest order, whatever order it belongs to: every
    record that the request creates is for the first domain of the latest pending order.  The
    challenges of other orders, and of the other domains of an order, cannot be met. *)
Theorem challenges_serve_the_latest_order id request host now w w' r c :
  serve "POST" ["challenge"; id] request host now w = (w', r) ->
  In c (dns w') -> ~ In c (dns w) -> for_latest w c.
Proof.
  intros E Hc Hnew. assert (adds_for_latest w w') as Ha; [|by destruct (Ha c Hc)]. clear c Hc Hnew.
  replace w' with (serve "POST" ["challenge"; id] request host now w).1 by (by rewrite E). clear E.
  change (serve "POST" ["challenge"; id] request host now w)
    with (challenge upstream py_repr token_urlsafe fqdn fresh create_txt_record create_provider id request host now w).
  unfold challenge.
  pose proof (get_proxy_service_effect host w) as Hs.
  destruct (get_proxy_service _ _ _ _ _) as [w1 [svc|]]; [|by apply quiet_adds]. refine (quiet_first _ _ _ Hs _). clear Hs.
  pose proof (verify_proxy_jws_quiet request (host ^+ "/acme/proxy/challenge/" ^+ id) now w1) as Hv.
  destruct (verify_proxy_jws _ _ _ _ _) as [w2 [p j|e]]; [|exact (quiet_adds _ _ Hv)]. refine (quiet_first _ _ _ Hv _). clear Hv.
  pose proof (respond_challenge_adds svc id w2) as Hr.
  destruct (respond_challenge _ _ _ _ _ _ _ _) as [w3 [[data link]|]]; [|exact Hr]. exact (quiet_last _ _ _ Hr (proxy_response_quiet _ _ _ _ _)).
Qed.
End Facts.
End AcmeProxyFacts.

(** * A proxy before a small upstream server *)
Module AcmeProxyRun.
Import AcmeProxy AcmeProxyFacts.
Local Open Scope string_scope.
Local Open Scope list_scope.
Local Open Scope Z_scope.

#[local] Instance toy_keys : AccountKeys := {|
  key := string; load_key s := Some s; key_pem s := s; sign k s := k;
  jwk k := JDict [("n", JStr k); ("e", JStr "AQAB"); ("kty", JStr "RSA")];
|}.
Definition host : string := "https://ca".
Definition order_header : json := JDict [("url", JStr (host ^+ "/acme/proxy/new-order")); ("nonce", JStr "N"); ("kid", JStr "1")].
Definition order_payload : json := JDict [("identifiers", JList [JDict [("type", JStr "dns"); ("value", JStr "www.a.example")]])].
Definition first_challenge : string := encode_id "https://up/chall/1".
Definition challenge_header : json :=
  JDict [("url", JStr (host ^+ "/acme/proxy/challenge/" ^+ first_challenge)); ("nonce", JStr "N"); ("kid", JStr "1")].
#[local] Instance toy_jose : AcmeApi.Jose := {|
  AcmeApi.key := string;
  AcmeApi.utf8 s := Some s;
  AcmeApi.loads s := Json.assoc s [("h1", order_header); ("p1", order_payload); ("h2", challenge_header); ("p2", JDict [])];
  AcmeApi.fromisoformat _ := None;
  AcmeApi.load_rsa _ := None;
  AcmeApi.load_ec _ := None;
  AcmeApi.key_verify _ _ _ _ := false;
  AcmeApi.csr_der_to_pem _ := None;
  AcmeApi.cert_serial _ := None;
|}.
(** The requests name an account and are not signed by it. *)
Definition request (header payload : string) : json :=
  JDict [("protected", JStr (encode_id header)); ("payload", JStr (encode_id payload)); ("signature", JStr "")].

Definition replies (code : Z) (b : json) (loc : option string) : answer := Answer code (Some b) loc (Some "M") None "" None.
Definition upstream (_ : list call) (c : call) : option answer :=
  match c with
  | Get _ => Some (replies 200 (JDict [("newNonce", JStr "https://up/nonce"); ("newOrder", JStr "https://up/new-order")]) None)
  | Head _ => Some (replies 200 JNull None)
  | Post url _ =>
      if String.eqb url "https://up/new-order"
      then Some (replies 201 (JDict [("authorizations", JList [JStr "https://up/authz/9"]); ("finalize", JStr "https://up/order/9/f")])
                   (Some "https://up/order/9"))
      else Some (replies 200 (JDict [("type", JStr "dns-01"); ("token", JStr "t"); ("url", JStr url)]) None)
  end.
Definition pending_order (i : Z) (domain authz : string) (at_ : Z) : order :=
  Order i (Json.dumps (JList [JStr domain])) "production" "pending" ("https://up/order/" ^+ Num.str i)
    (Some (Json.dumps (JList [JStr authz]))) true (Some 1) None None at_.
(** The challenge of order 1 is answered while order 2, for another domain, is the latest. *)
Definition w0 : world :=
  World [("acme.proxy.upstream_url", Some "https://up/dir"); ("acme.proxy.account_key", Some "pem"); ("acme.proxy.account_url", Some "https://up/acct")]
    [pending_order 1 "a.example" "https://up/authz/1" 10; pending_order 2 "*.b.example" "https://up/authz/2" 20]
    [("a.example", 1); ("b.example", 2)] [Provider 1 "manual" None; Provider 2 "manual" None]
    (Acme.State [] [] [] [] [Acme.Nonce "N" 100 false None] (Pki.Pki.Db [] [] []) [] [] None 0) None [] [].
Definition tokens (n : nat) : string := "T".
Definition no_repr (_ : json) : string := "".
Definition fresh_key : @key toy_keys := "fresh".
Definition serve := AcmeProxy.serve upstream no_repr tokens None fresh_key (fun _ _ _ _ _ => true) (fun _ _ => true) (fun s => Some s).
#[local] Abbreviation order_reply := (serve "POST" ["new-order"] (Some (request "h1" "p1")) host 5 w0).
#[local] Abbreviation challenge_reply := (serve "POST" ["challenge"; first_challenge] (Some (request "h2" "p2")) host 5 w0).
Lemma serve_pair m p q t w :
  AcmeProxy.serve upstream no_repr tokens None fresh_key (fun _ _ _ _ _ => true) (fun _ _ => true) (fun s => Some s) m p q host t w
  = ((serve m p q host t w).1, (serve m p q host t w).2).
Proof. unfold serve. apply surjective_pairing. Qed.

Lemma ids_witness : decode_id (encode_id "https://up/chall/1?x=ff") = Some "https://up/chall/1?x=ff".
Proof. exact (ids_name_their_address "https://up/chall/1?x=ff" eq_refl). Defined.

Lemma never_finish_witness : unfinished w0 challenge_reply.1 /\ List.length (dns challenge_reply.1) = 1%nat.
Proof.
  split; [|vm_compute; reflexivity].
  refine (orders_never_finish upstream no_repr tokens None fresh_key (fun _ _ _ _ _ => true) (fun _ _ => true) (fun s => Some s)
    "POST" ["challenge"; first_challenge] (Some (request "h2" "p2")) host 5 w0 challenge_reply.1 challenge_reply.2 _).
  apply serve_pair.
Defined.

(** The order of the reply, its location and its finalization. *)
Definition handed_out (r : reply) : option (json * list (string * string)) :=
  match r with Reply 201 (PJson data) hs => Some (data, hs) | _ => None end.
Lemma handed_out_reply r data hs : handed_out r = Some (data, hs) -> r = Reply 201 (PJson data) hs.
Proof.
  destruct r as [code p h| | |]; try discriminate. cbn.
  destruct (Z.eq_dec code 201) as [->|Hn]; [destruct p; try discriminate; by intros [= -> ->]|].
  intros E. exfalso. revert E. repeat (case_match; try discriminate). subst. done.
Qed.
Lemma nowhere_witness :
  match handed_out order_reply.2 with
  | Some (data, _) => exists id, member "finalize" data = Some (JStr ("https://ca/acme/proxy/order/" ^+ id ^+ "/finalize"))
                                 /\ (serve "POST" ["order"; id; "finalize"] None host 6 order_reply.1).2 = NotFound
  | None => False
  end.
Proof.
  destruct (handed_out order_reply.2) as [[data hs]|] eqn:E.
  - destruct (orders_lead_nowhere upstream no_repr tokens None fresh_key (fun _ _ _ _ _ => true) (fun _ _ => true) (fun s => Some s)
      (Some (request "h1" "p1")) host 5 w0 order_reply.1 data hs) as (id & l & _ & Hf & _ & Hn).
    + apply handed_out_reply in E. rewrite <-E. apply serve_pair.
    + exists id. split; [exact Hf|]. unfold serve. rewrite Hn; [reflexivity|]. right. by left.
  - assert (handed_out order_reply.2 <> None) as Hx; [|by apply Hx].
    refine (bool_decide_eq_true_1 _ _). vm_compute. reflexivity.
Defined.

(** The record is made for order 2. *)
Lemma latest_witness :
  match dns challenge_reply.1 with c :: _ => for_latest w0 c | [] => False end.
Proof.
  destruct (dns challenge_reply.1) as [|c l] eqn:E.
  - apply (f_equal (@List.length _)) in E. vm_compute in E. discriminate E.
  - refine (challenges_serve_the_latest_order upstream no_repr tokens None fresh_key (fun _ _ _ _ _ => true) (fun _ _ => true) (fun s => Some s)
      first_challenge (Some (request "h2" "p2")) host 5 w0 challenge_reply.1 challenge_reply.2 c _ _ _).
    + apply serve_pair.
    + rewrite E. by left.
    + intros [].
Defined.
Example latest_is_the_second : List.map (fun c => match c with Created p d n _ => (p, d, n) | Deleted p d n => (p, d, n) end) (dns challenge_reply.1)
  = [(2, "b.example", "_acme-challenge.b.example")].
Proof. vm_compute. reflexivity. Qed.
End AcmeProxyRun.
